(* ===== verification/_CoqProject ===== *)
-Q . S2P
Prelude.v
Text.v
Json.v
Files.v
Base64.v
Registry.v
Powers.v
Keystore.v
CharacterBase.v
Identity.v
Storages.v
Concurrency.v
Sampler.v
Agents.v
Events.v
Rpc.v
Gas.v
Reservoir.v
Payment.v
Policies.v
Retrieval.v
Perception.v
Nodes.v
Token.v
Porter.v
Actors.v
Trackers.v
Wire.v
Networking.v
Datastore.v
Clients.v
Transactions.v
Interfaces.v
Signers.v
Config.v
Compile.v
LearningLoop.v
Sprout.v
Deployers.v
Characters.v
Fields.v
Control.v
CharacterInterfaces.v
NodeLifecycle.v
CliActions.v
Configurations.v
