(* ===== verification/Prelude.v ===== *)
(** * NuLink: a verification of nulink-core's node, policy and retrieval logic

    NuLink is a proxy re-encryption network.  Alice grants a policy: she
    samples nodes (Ursulas), pays, and gives each of them a fragment of a
    re-encryption key in a treasure map.  Bob asks the nodes of the map to
    re-encrypt a message's capsule and decrypts once a threshold of them has
    answered.  Nodes get to know each other by a gossip protocol, verify each
    other's metadata and stake, and keep an operator transaction alive on
    chain.  This development translates the Python code under src/nulink that
    decides all of this, and proves what makes it correct.

    ** Files and sources

    Foundations:
    - Prelude (this file): exceptions as a class hierarchy with [catches]
      for [except], the result type, the state and exception monad [PyM]
      with [try_except] and [for_each], its frame reasoning ([preserves], the
      hint database [pym]), insertion-ordered dicts ([dict_get], [dict_set],
      [dict_update]) and generic list lemmas.
    - Text, Json, Files, Base64: Python's texts, [json.dumps] and [loads] with
      their round trip, a file system of absolute paths, and base64.

    Nodes, policies and retrieval:
    - Concurrency: utilities/concurrency.py.  [Future] as a write-once cell;
      [WorkerPool] as the relation [step] over the interleavings of producer,
      workers, result processor, timeout thread and caller.  The interfaces
      [ValueFactory] and [FiniteFactory] say what a pool asks of its factory.
    - Sampler: WeightedSampler and StakingProvidersReservoir of
      blockchain/eth/agents.py, over the class [Rng].
    - Reservoir: policy/reservoir.py; its prefetch strategy implements the
      pool's factory interfaces.
    - Payment: policy/payment.py; the record [payment_method] is the
      interface that the policies use and both payment methods implement.
    - Policies: policy/policies.py, policy/revocation.py, policy/kits.py.
    - Retrieval: network/retrieval.py, over the pool and the interface
      [NodeLearner], which Nodes implements.
    - Perception: acumen/perception.py, fleet states and the fleet sensor.
    - Nodes: network/nodes.py, [Teacher] (verification of a node) and
      [Learner] (seeding, teachers, learning, waiting).  LearningLoop: the
      loop that calls it.  Sprout: how threads turn a sprout into a node, as
      a step relation over their statements.
    - Trackers: network/trackers.py and utilities/task.py.
    - Wire: utilities/version.py, network/middleware.py and the endpoints of
      network/server.py.
    - Networking: network/protocols.py and utilities/networking.py, how a node
      finds its own address.
    - Porter: utilities/porter/porter.py, over the class [PorterLearner].
    - Characters: Alice, Bob and Ursula.from_teacher_uri of
      characters/lawful.py, which compose payment, policies and retrieval.
    - NodeLifecycle: the construction, run and stop of Ursula, and the nodes
      that are found by a URI, over the class [NodeServices], of which there
      is an instance that records the calls.

    Requests to characters:
    - Fields: the fields and checks of control/specifications,
      characters/control/specifications and Porter's.
    - Control: control/controllers.py and emitters.py, the web, JSON-RPC and
      command-line controllers, over the class [Interface].
    - CharacterInterfaces: characters/control/interfaces.py; Alice's interface
      is an instance of [Interface], and composes Control with Characters;
      Enrico and Bob's interface compose Fields with Characters.
    - CliActions: cli/actions/*.py and cli/types.py, what the command line
      asks, chooses and refuses, over the class [Terminal].

    Keys, characters and what they store:
    - Powers: crypto/powers.py, keypairs.py and signing.py.
    - Keystore: crypto/keystore.py and passwords.py.
    - CharacterBase: characters/base.py, over the table of powers.
    - Identity: policy/identity.py, cards.
    - Storages: config/storages.py, with the nodes as sprouts or Ursulas; the
      class [NodeStore] is what both storages implement.
    - Datastore: datastore/*.py over lmdb's transactions.
    - Config: config/base.py and characters.py, configuration files.
    - Configurations: the same files' constructors, installation, restoring
      and parameters of a character, over Keystore, Registry and Signers.

    The chain:
    - Agents: blockchain/eth/decorators.py and the agents and the agency of
      blockchain/eth/agents.py, over the class [Chain] of contract calls.
    - Events: blockchain/eth/events.py.  Rpc: the retrying middlewares of
      blockchain/middleware/retry.py.
    - Registry: blockchain/eth/registry.py; the class [RegistryStore] is what
      the file, temporary and in-memory registries implement.
    - Gas: utilities/gas_strategies.py and datafeeds.py.
    - Clients: blockchain/eth/clients.py, over the class [Web3Eth].
    - Transactions and Interfaces: blockchain/eth/interfaces.py; transactions
      over the class [EthNode]; contracts by name, connections, the factory.
    - Signers: blockchain/eth/signers/*.py, over keyfiles and devices.
    - Compile: blockchain/eth/sol/compile/aggregation.py and the lookup of a version.
    - Deployers: blockchain/eth/deployers.py and ContractAdministrator of
      actors.py, which compose Transactions, Interfaces, Registry and Compile.
    - Token: blockchain/eth/token.py, amounts ([NLK]) and [WorkTracker], over
      the classes [LoopingCall] and [Worker].
    - Actors: the operator of blockchain/eth/actors.py, an instance of
      [Worker], and the token balance.

    ** How code becomes definitions

    A method that changes its object or can raise is a [PyM S A], a function
    from the state to a result and a new state, where the state also changes
    when it raises.  Each component's attributes are a record; a dict whose
    order is observable is an association list.  Integers are unbounded, as
    in Python; the bounds of contract integers are checked where the code
    checks them.  Code that is not in the repository (umbral and
    nucypher_core, web3, requests, flask, twisted) is a class or a section
    variable; its documented behaviour is a named hypothesis of the section or
    of the theorem that needs it, and a concrete instance next to the theorem
    shows that it can hold.  Logging, emitted messages and the texts of errors
    are left out everywhere.

    ** What the theorems show

    - Worker pool: whatever the interleaving, what
      block_until_target_successes returns are real outcomes of the workers,
      OutOfValues means exhaustion, and every pool comes to rest within a
      bounded number of steps.  A schedule exists in which stopping the pool
      overtakes the producer.
    - Policies: sampling returns the number of distinct nodes asked for, each
      of which answered a ping, and ends; enacting hands every key fragment
      out once; the weighted sampler and both reservoirs partition the
      providers; a quote is a price that validation accepts.
    - Retrieval: every returned fragment was verified for its capsule and
      comes from the node it is filed under, as the learner knew it, and
      retrieval ends; Bob decrypts only with a threshold of fragments.
    - Nodes: verify_node checks everything once; learning keeps the sensor's
      invariant and never goes back in time; every known node gets its turn
      as a teacher; blocking calls end; checksums do not depend on the order
      of arrival; of the threads that wait for a sprout, no more are served
      than finished it, and as many once none moves and one still waits.
    - Wire: the version handshake is a round trip and refuses other minor
      versions; a client talks to a node only once it is verified; a node
      re-encrypts only for paid policies that are not revoked.
    - Chain: the paged read of providers is complete; address validation is
      not changed by its cache; amounts never wrap; a cycle of the work
      tracker ends in one of sixteen ways, and replaces the oldest transaction
      exactly when it is overdue or untracked; the operator's wait ends.
    - Stores: a registry refines the log of its enrollments; storages of nodes
      agree on what is stored, which files give back as sprouts; a keystore
      and a JSON document are what was written, and a configuration that is
      restored from its file saves as the same text; a datastore's write is
      atomic and a query misses no record that the filter can judge.
    - Transactions: what is built has the nonce and the gas it should, a call
      signs and broadcasts the transaction that was built, at most once, a
      receipt has its confirmations; contracts by name refine a lookup in the
      log, and an interface is shared by its URI.
    - Deployment: a deployment that returns has enrolled its contract, one
      that raises has enrolled nothing unless enrolling itself failed, and an
      upgrade is what the lookup behind the proxy finds.
    - Keys: a signature needs an unlocked account; a keystore's secret
      determines the keys of its character.
    - Requests: every web request is answered with the status of its failure,
      but for those whose exceptions are let through when the controller is to
      crash on errors, and a refused one has changed nothing; over JSON-RPC a request is
      answered with one line or not at all, and no batch is completed; a grant
      that is answered with success has registered its policy; what is sent
      to Enrico is what Bob's endpoint shows.
    - Life of a node: a run calls its services in the order of its schedule,
      the work tracker exactly when there is work, a stop ends them in order,
      and a local node is complete when it exists.
    - Command line: a configuration file that is selected is one that was
      found, of the address that was given; an operator's address is not a
      reserved one; a password is asked for exactly when one is needed.
    - Defects found while modelling are theorems as well, for example the
      stake check that a second verification skips, the retried work tracker
      that forgets its requirement, and partial retrievals that are lost.

    ** Fuel and bounds

    Recursion that is not structural has fuel, with a theorem that enough is
    given.  The paged read of providers gets three requests more than there
    are providers; collecting work orders one round more than there are
    orders; bisection as many halvings as elements; the learner's blocking
    calls ten rounds per second of timeout (they sleep 0.1 seconds);
    block_until_ready one round per second and three more; the throttler of
    events one request per block and two more; waiting for a receipt one round
    per three seconds of its timeout, and fourteen per confirmation.
    Schedulers of pools are relations and need no fuel; termination is a
    measure that every step decreases.  Availability scores and the gas
    multiplier are rationals where the code has floats; times of clients are
    in milliseconds; the gas prices of a configuration are whole gwei.  Texts
    have code points below 256, floats in JSON are their literals, [lower]
    is that of ASCII, and paths are absolute and have no dots.

    ** What is not modelled

    Cryptography, HTTP, marshmallow, click and lmdb are parameters.  Of the
    command line the commands, which only put the modelled parts together,
    and everything that is printed are left out, and so are metrics, cloud
    deployment, the Solidity compiler and sources, and logging; the manifest
    lists them with the reason.  Of the components that are modelled in part
    making a character of a configuration's parameters, transactions signed by
    Clef and Trezor, economics read from the chain, decimal amounts of NLK and
    the server's status and ping endpoints are left out. *)

From stdpp Require Export base option list gmap strings numbers.
From stdpp Require Export fin_maps.
From Stdlib Require Export Lia.

(** * Exceptions

    The exception classes the modelled code raises or catches, with the
    class hierarchy, because [except C] catches every subclass of [C].
    Messages carry no behaviour and are left out. *)

Inductive exn_class :=
  (* Python's own *)
  | BaseException | Exception
  | AttributeError | TypeError | ValueError | AssertionError
  | LookupError | KeyError | IndexError
  | ArithmeticError | OverflowError | ZeroDivisionError | KeyboardInterrupt
  | RuntimeError | NotImplementedError | NameError
  | OSError | TimeoutError | ConnectionError | ConnectionRefusedError | SocketGaiError
  (* requests *)
  | RequestException | HTTPError
  | RequestsConnectionError | RequestsSSLError | RequestsReadTimeout | RequestsConnectTimeout
  (* nulink/utilities/concurrency.py *)
  | Cancelled | WorkerPoolException | TimedOut | OutOfValues
  (* twisted._threads *)
  | AlreadyQuit
  (* nulink/policy/policies.py and nulink/blockchain/eth/agents.py *)
  | PolicyException | NotEnoughUrsulas
  | NotEnoughStakingProviders | RequirementError
  (* nulink/network/nodes.py, protocols.py, middleware.py and utilities/version.py *)
  | NotEnoughNodes | NotEnoughTeachers | UnresponsiveTeacher
  | SuspiciousActivity | InvalidNode | InvalidStamp | StampNotSigned
  | InvalidOperatorSignature | NotStaking | UnbondedOperator | WrongMode
  | Unreachable | UnexpectedResponse | NotFound | BadRequest
  | PaymentRequired | Unauthorized | VersionMismatchError
  (* nulink/crypto and nucypher_core *)
  | InvalidSignature | VerificationError | PowerUpError | NoSigningPower
  (* nulink/blockchain/eth/token.py and web3 *)
  | InvalidAmount | InvalidDenomination | TransactionNotFound | ContractLogicError
  (* nulink/blockchain/eth/decorators.py *)
  | InvalidChecksumAddress
  (* nulink/blockchain/eth/actors.py and nulink/network/trackers.py *)
  | ActorError | NodeUnreachable | Solitary | Lonely
  (* bytes, json and sockets; nulink/crypto/keypairs.py *)
  | UnicodeDecodeError | JSONDecodeError | SocketTimeout | DecryptionFailed
  | NotATeacher | UrsulaNotEnoughUrsulas
  (* the file system *)
  | FileNotFoundError | FileExistsError | IsADirectoryError | NotADirectoryError
  (* nulink/blockchain/eth/registry.py *)
  | RegistrySourceError | RegistrySourceUnavailable | NoSourcesAvailable
  | RegistryError | NoRegistry | UnknownContract | InvalidRegistry | CantOverwriteRegistry
  (* nulink/crypto/keystore.py, passwords.py and powers.py *)
  | KeystoreExists | KeystoreInvalid | KeystoreNotFound | KeystoreLocked
  | AuthenticationFailed | InvalidPassword | SecretBoxAuthenticationError | ClickAbort
  | NoDecryptingPower | NoTransactingPower | NoHostingPower
  (* nulink/policy/identity.py and nulink/config/storages.py *)
  | InvalidCard | UnknownCard
  | NodeStorageError | UnknownNode | NoNodeMetadataFileFound | InvalidNodeMetadata
  (* nulink/utilities/datafeeds.py, gas_strategies.py and networking.py *)
  | DatafeedError | GasStrategyError | UnknownIPAddress | InvalidOperatorIP
  (* nulink/datastore and lmdb *)
  | LmdbError | DBWriteError | RecordNotFound | DatastoreTransactionError
  (* nulink/blockchain/eth/interfaces.py, clients.py, web3 and eth_tester *)
  | InterfaceError | NoProvider | UnsupportedProvider | ConnectionFailed
  | InterfaceUnknownContract | TransactionFailed
  | FactoryError | NoRegisteredInterfaces | InterfaceNotInitialized | InterfaceAlreadyInitialized
  | TransactionBroadcastError | NotEnoughConfirmations | TransactionTimeout | ChainReorganizationDetected
  | TimeExhausted | TestTransactionFailed | ValidationError
  (* nulink/blockchain/eth/signers, sol/compile and deployers.py *)
  | SignerError | InvalidSignerURI | AccountLocked | UnknownAccount | SignerAuthenticationFailed | InvalidKeyfile
  | CompilationError | ProgrammingError
  | ContractDeploymentError | ContractNotDeployed | ContractNotUpgradeable | ContractNotOwnable
  | AdministratorUnknownContract
  (* nulink/config/base.py *)
  | ConfigurationError | InvalidConfiguration | NoConfigurationRoot | OldVersion
  (* nulink/control: specifications/exceptions.py and emitters.py; the
     libraries of [InvalidNativeDataTypes] *)
  | SpecificationError | MissingField | InvalidInputData | InvalidOutputData | InvalidArgumentCombo
  | BytestringSplittingError | InternalError | ParserError
  | JSONRPCError | RpcParseError | RpcInvalidRequest | RpcMethodNotFound | RpcInvalidParams | RpcInternalError
  | EmitterMethodNotFound
  (* click; nulink/blockchain/eth/networks.py *)
  | ClickException | ClickFileError | ClickBadParameter | UnrecognizedNetwork.

#[global] Instance exn_class_eq_dec : EqDecision exn_class.
Proof. solve_decision. Defined.

(** The direct base class. *)
Definition base_class (c : exn_class) : option exn_class :=
  match c with
  | BaseException => None
  | Exception | KeyboardInterrupt | EmitterMethodNotFound => Some BaseException
  | MissingField | InvalidInputData | InvalidOutputData | InvalidArgumentCombo => Some SpecificationError
  | RpcParseError | RpcInvalidRequest | RpcMethodNotFound | RpcInvalidParams
  | RpcInternalError => Some JSONRPCError
  | OverflowError | ZeroDivisionError => Some ArithmeticError
  | KeyError | IndexError => Some LookupError
  | NotImplementedError | NotEnoughNodes | SuspiciousActivity
  | VersionMismatchError | NodeUnreachable | KeystoreLocked | AuthenticationFailed | ClickAbort
  | DatafeedError | GasStrategyError | UnknownIPAddress | InvalidOperatorIP
  | JSONRPCError | UnrecognizedNetwork => Some RuntimeError
  | ClickFileError | ClickBadParameter => Some ClickException
  | Solitary | Lonely => Some NodeUnreachable
  | HTTPError | RequestsConnectionError | RequestsReadTimeout => Some RequestException
  | TimeoutError | ConnectionError | SocketGaiError | RequestException | SocketTimeout
  | FileNotFoundError | FileExistsError | IsADirectoryError | NotADirectoryError => Some OSError
  | KeystoreExists => Some FileExistsError
  | KeystoreNotFound => Some FileNotFoundError
  | RegistrySourceUnavailable => Some RegistrySourceError
  | NoProvider | UnsupportedProvider | ConnectionFailed | InterfaceUnknownContract
  | TransactionFailed => Some InterfaceError
  | NoRegisteredInterfaces | InterfaceNotInitialized | InterfaceAlreadyInitialized => Some FactoryError
  | InvalidSignerURI | AccountLocked | UnknownAccount | SignerAuthenticationFailed | InvalidKeyfile => Some SignerError
  | ContractNotDeployed => Some ContractDeploymentError
  | InvalidConfiguration => Some ConfigurationError
  | NoConfigurationRoot | OldVersion => Some InvalidConfiguration
  | CompilationError | ProgrammingError | ContractNotUpgradeable | ContractNotOwnable | ConfigurationError
  | TransactionBroadcastError => Some RuntimeError
  | NotEnoughConfirmations | TransactionTimeout | ChainReorganizationDetected => Some TransactionBroadcastError
  | NoRegistry | UnknownContract | InvalidRegistry | CantOverwriteRegistry => Some RegistryError
  | UnknownNode | InvalidNodeMetadata => Some NodeStorageError
  | NoNodeMetadataFileFound => Some UnknownNode
  | ConnectionRefusedError | UnresponsiveTeacher => Some ConnectionError
  | RequestsSSLError | RequestsConnectTimeout => Some RequestsConnectionError
  | TimedOut | OutOfValues => Some WorkerPoolException
  | NotEnoughUrsulas => Some PolicyException
  | NotEnoughTeachers => Some NotEnoughNodes
  | UrsulaNotEnoughUrsulas => Some NotEnoughTeachers
  | InvalidNode => Some SuspiciousActivity
  | InvalidStamp | UnbondedOperator => Some InvalidNode
  | StampNotSigned | InvalidOperatorSignature | NotStaking => Some InvalidStamp
  | WrongMode | PowerUpError => Some TypeError
  | NotFound | BadRequest | PaymentRequired | Unauthorized => Some UnexpectedResponse
  | NoSigningPower | NoDecryptingPower | NoTransactingPower | NoHostingPower => Some PowerUpError
  | InvalidAmount | InvalidDenomination | UnicodeDecodeError | JSONDecodeError
  | InvalidPassword | AdministratorUnknownContract | SpecificationError | ParserError => Some ValueError
  | _ => Some Exception
  end.

(** [issubclass c d]: the deepest chain of the table has six classes. *)
Fixpoint subclass_fuel (n : nat) (c d : exn_class) : bool :=
  bool_decide (c = d) ||
  match n, base_class c with
  | S n', Some b => subclass_fuel n' b d
  | _, _ => false
  end.

Definition issubclass (c d : exn_class) : bool := subclass_fuel 8 c d.

(** [except (C1, ..., Cn)]. *)
Definition catches (cs : list exn_class) (e : exn_class) : bool :=
  existsb (issubclass e) cs.

Arguments catches : simpl never.

(** [nulink.network.exceptions.NodeSeemsToBeDown] is a tuple of classes. *)
Definition NodeSeemsToBeDown : list exn_class :=
  [RequestsConnectionError; RequestsReadTimeout; RequestsConnectTimeout;
   SocketGaiError; ConnectionRefusedError].

(** * Fallible and stateful code

    [result A] is a Python expression that returns or raises.  [PyM S A]
    is a statement that also updates the state [S]; a raise keeps the
    updates made before it, as Python does. *)

Inductive result (A : Type) :=
  | Ok (a : A)
  | Raise (e : exn_class).
Arguments Ok {A} a.
Arguments Raise {A} e.

#[global] Instance result_eq_dec {A} `{EqDecision A} : EqDecision (result A).
Proof. solve_decision. Defined.

Definition is_ok {A} (r : result A) : bool :=
  match r with Ok _ => true | Raise _ => false end.

Definition rbind {A B} (r : result A) (k : A -> result B) : result B :=
  match r with Ok a => k a | Raise e => Raise e end.

Definition PyM (S A : Type) : Type := S -> result A * S.

Definition py_ret {S A} (a : A) : PyM S A := fun s => (Ok a, s).
Definition raise {S A} (e : exn_class) : PyM S A := fun s => (Raise e, s).

Definition py_bind {S A B} (m : PyM S A) (k : A -> PyM S B) : PyM S B :=
  fun s => match m s with
           | (Ok a, s') => k a s'
           | (Raise e, s') => (Raise e, s')
           end.

Definition gets {S A} (f : S -> A) : PyM S A := fun s => (Ok (f s), s).
Definition modify {S} (f : S -> S) : PyM S unit := fun s => (Ok tt, f s).
Definition lift {S A} (r : result A) : PyM S A := fun s => (r, s).

(** [try: m  except cs: h]. *)
Definition try_except {S A} (m : PyM S A) (cs : list exn_class)
    (h : exn_class -> PyM S A) : PyM S A :=
  fun s => match m s with
           | (Raise e, s') => if catches cs e then h e s' else (Raise e, s')
           | r => r
           end.

(** [try: m  finally: f]: an exception of [f] replaces the outcome of [m]. *)
Definition try_finally {S A} (m : PyM S A) (f : PyM S unit) : PyM S A :=
  fun s => let '(r, s') := m s in
           match f s' with
           | (Ok _, s'') => (r, s'')
           | (Raise e, s'') => (Raise e, s'')
           end.

(** [for x in l: body], stopped by an exception of the body. *)
Fixpoint for_each {S A} (l : list A) (body : A -> PyM S unit) : PyM S unit :=
  match l with
  | [] => py_ret tt
  | x :: l' => py_bind (body x) (fun _ => for_each l' body)
  end.

Declare Scope py_scope.
Delimit Scope py_scope with py.

Notation "x <- m ;; k" := (py_bind m (fun x => k))
  (at level 100, m at next level, right associativity) : py_scope.
Notation "m ;;; k" := (py_bind m (fun _ => k))
  (at level 100, right associativity) : py_scope.
Notation "'let?' x := r 'in' k" := (rbind r (fun x => k))
  (at level 10, x name, r at level 100, k at level 200) : py_scope.

Open Scope py_scope.

(** A sequence that returns went through its first part. *)
Lemma py_bind_returned {S A B} (m : PyM S A) (k : A -> PyM S B) s b s' :
  py_bind m k s = (Ok b, s') -> exists x s1, m s = (Ok x, s1) /\ k x s1 = (Ok b, s').
Proof. unfold py_bind. destruct (m s) as [[x|] s1]; [eauto|done]. Qed.

(** * Invariants of statements

    [preserves P m]: whatever [m] returns or raises, [P] still holds of the
    state.  The lemmas follow the control structures; the database [pym] and
    the tactic [preserve_with] apply them along the code. *)

Definition preserves {S A} (P : S -> Prop) (m : PyM S A) : Prop :=
  forall s, P s -> P (m s).2.

Section Preserves.
Context {S : Type} (P : S -> Prop).

Lemma preserves_ret {A} (a : A) : preserves P (py_ret a).
Proof. by intros s. Qed.
Lemma preserves_raise {A} e : preserves P (raise (A:=A) e).
Proof. by intros s. Qed.
Lemma preserves_gets {A} (f : S -> A) : preserves P (gets f).
Proof. by intros s. Qed.
Lemma preserves_lift {A} (r : result A) : preserves P (lift r).
Proof. by intros s. Qed.
Lemma preserves_modify f : (forall s, P s -> P (f s)) -> preserves P (modify f).
Proof. intros H s. apply H. Qed.
Lemma preserves_bind {A B} (m : PyM S A) (k : A -> PyM S B) :
  preserves P m -> (forall a, preserves P (k a)) -> preserves P (py_bind m k).
Proof.
  intros Hm Hk s Hs. unfold py_bind. specialize (Hm s Hs).
  destruct (m s) as [[a|e] s1]; [by apply Hk|done].
Qed.
Lemma preserves_try {A} (m : PyM S A) cs h :
  preserves P m -> (forall e, preserves P (h e)) -> preserves P (try_except m cs h).
Proof.
  intros Hm Hh s Hs. unfold try_except. specialize (Hm s Hs).
  destruct (m s) as [[a|e] s1]; [done|]. destruct (catches cs e); [by apply Hh|done].
Qed.
Lemma preserves_finally {A} (m : PyM S A) f :
  preserves P m -> preserves P f -> preserves P (try_finally m f).
Proof.
  intros Hm Hf s Hs. unfold try_finally. specialize (Hm s Hs).
  destruct (m s) as [r s1]. specialize (Hf s1 Hm). by destruct (f s1) as [[]].
Qed.
Lemma preserves_for_each {A} (l : list A) body :
  (forall x, preserves P (body x)) -> preserves P (for_each l body).
Proof. intros Hb. induction l; [apply preserves_ret | by apply preserves_bind]. Qed.

End Preserves.

Create HintDb pym discriminated.
#[export] Hint Resolve preserves_ret preserves_raise preserves_gets preserves_lift : pym.
#[export] Hint Extern 1 (preserves _ (py_bind _ _)) => apply preserves_bind; [|intros ?] : pym.
#[export] Hint Extern 1 (preserves _ (try_except _ _ _)) => apply preserves_try; [|intros ?] : pym.
#[export] Hint Extern 1 (preserves _ (try_finally _ _)) => apply preserves_finally : pym.
#[export] Hint Extern 1 (preserves _ (for_each _ _)) => apply preserves_for_each; intros ? : pym.
#[export] Hint Extern 1 (preserves _ (match ?x with _ => _ end)) => destruct x : pym.

(** One constructor of the code at a time; [leaf] handles the calls that are
    left. *)
Ltac preserve_with leaf :=
  repeat match goal with
    | H : preserves ?P ?m |- preserves ?P ?m => exact H
    | |- preserves _ (py_ret _) => apply preserves_ret
    | |- preserves _ (raise _) => apply preserves_raise
    | |- preserves _ (gets _) => apply preserves_gets
    | |- preserves _ (lift _) => apply preserves_lift
    | |- preserves _ (py_bind _ _) => apply preserves_bind; [|intros ?]
    | |- preserves _ (try_except _ _ _) => apply preserves_try; [|intros ?]
    | |- preserves _ (try_finally _ _) => apply preserves_finally
    | |- preserves _ (for_each _ _) => apply preserves_for_each; intros ?
    | |- preserves _ (if ?b then _ else _) => destruct b
    | |- preserves _ (match ?x with _ => _ end) => destruct x
    | _ => leaf
    end.

(** * Ordered dictionaries

    A Python [dict] keeps insertion order; assignment to a present key
    keeps its place.  An association list whose keys have no duplicate. *)

Section PyDict.
Context {K V : Type} `{EqDecision K}.
Implicit Types (d : list (K * V)) (k : K) (v : V).

Fixpoint dict_get d k : option V :=
  match d with
  | [] => None
  | (k', v) :: d' => if decide (k = k') then Some v else dict_get d' k
  end.

Fixpoint dict_set d k v : list (K * V) :=
  match d with
  | [] => [(k, v)]
  | (k', v') :: d' =>
      if decide (k = k') then (k', v) :: d' else (k', v') :: dict_set d' k v
  end.

Fixpoint dict_del d k : list (K * V) :=
  match d with
  | [] => []
  | (k', v') :: d' => if decide (k = k') then d' else (k', v') :: dict_del d' k
  end.

(** [d.update(e)], and [dict(items)] as the update of the empty dict. *)
Definition dict_update d (e : list (K * V)) : list (K * V) :=
  foldl (fun acc kv => dict_set acc kv.1 kv.2) d e.

Definition dict_of (items : list (K * V)) : list (K * V) := dict_update [] items.

Definition dict_mem d k : bool := bool_decide (is_Some (dict_get d k)).

Definition dict_wf d : Prop := NoDup d.*1.

Lemma dict_get_set_eq d k v : dict_get (dict_set d k v) k = Some v.
Proof. induction d as [|[k' v'] d IH]; simpl; repeat (case_decide; simpl); naive_solver. Qed.

Lemma dict_get_set_ne d k k' v : k <> k' -> dict_get (dict_set d k v) k' = dict_get d k'.
Proof.
  intros Hne. induction d as [|[k2 v2] d IH]; simpl; repeat (case_decide; simpl); naive_solver.
Qed.

Lemma dict_get_set d k k' v :
  dict_get (dict_set d k v) k' = if decide (k' = k) then Some v else dict_get d k'.
Proof.
  case_decide; [subst; apply dict_get_set_eq | apply dict_get_set_ne; congruence].
Qed.

Lemma dict_get_None d k : dict_get d k = None <-> k ∉ d.*1.
Proof.
  induction d as [|[k' v'] d IH]; csimpl; [split; [inversion 2|done]|].
  rewrite not_elem_of_cons. case_decide; naive_solver.
Qed.

Lemma dict_get_is_Some d k : is_Some (dict_get d k) <-> k ∈ d.*1.
Proof.
  rewrite <-not_eq_None_Some, dict_get_None.
  destruct (decide (k ∈ d.*1)); naive_solver.
Qed.

Lemma dict_get_elem_of d k v : dict_get d k = Some v -> (k, v) ∈ d.
Proof.
  induction d as [|[k' v'] d IH]; simpl; [done|].
  case_decide; intros; simplify_eq; [left | right]; auto.
Qed.

Lemma dict_elem_of_get d k v : dict_wf d -> (k, v) ∈ d -> dict_get d k = Some v.
Proof.
  unfold dict_wf. induction d as [|[k' v'] d IH]; csimpl; intros Hnd Hin; [inversion Hin|].
  apply NoDup_cons in Hnd as [Hk' Hnd].
  apply elem_of_cons in Hin as [[= -> ->]|Hin]; case_decide; subst; auto; [congruence|].
  exfalso. apply Hk'. apply list_elem_of_fmap. by exists (k', v).
Qed.

Lemma dict_set_keys_present d k v : k ∈ d.*1 -> (dict_set d k v).*1 = d.*1.
Proof.
  induction d as [|[k' v'] d IH]; csimpl; [inversion 1|].
  case_decide as Hd; [by subst; csimpl|]. csimpl.
  intros [?|Hin]%elem_of_cons; [done|]. f_equal; auto.
Qed.

Lemma dict_set_keys_absent d k v : k ∉ d.*1 -> dict_set d k v = d ++ [(k, v)].
Proof.
  induction d as [|[k' v'] d IH]; csimpl; [done|].
  rewrite not_elem_of_cons. intros [? Hnin]. case_decide; [done|]. by rewrite IH.
Qed.

Lemma dict_set_elem_of_keys d k v k' : k' ∈ (dict_set d k v).*1 <-> k' = k \/ k' ∈ d.*1.
Proof.
  destruct (decide (k ∈ d.*1)) as [Hin|Hnin].
  - rewrite dict_set_keys_present by done. naive_solver.
  - rewrite dict_set_keys_absent, fmap_app, elem_of_app by done. csimpl.
    rewrite list_elem_of_singleton. naive_solver.
Qed.

Lemma dict_set_wf d k v : dict_wf d -> dict_wf (dict_set d k v).
Proof.
  unfold dict_wf. intros Hnd. destruct (decide (k ∈ d.*1)) as [Hin|Hnin].
  - by rewrite dict_set_keys_present.
  - rewrite dict_set_keys_absent, fmap_app by done. csimpl.
    apply NoDup_app. split_and!; [done| |apply NoDup_singleton].
    intros x Hx ->%list_elem_of_singleton. done.
Qed.

Lemma dict_set_length d k v :
  length (dict_set d k v) = if decide (k ∈ d.*1) then length d else S (length d).
Proof.
  case_decide as Hin.
  - rewrite <-!(length_fmap fst), dict_set_keys_present; done.
  - rewrite dict_set_keys_absent, length_app by done. simpl. lia.
Qed.

Lemma dict_set_elem_of d k v kv : kv ∈ dict_set d k v -> kv = (k, v) \/ kv ∈ d.
Proof.
  induction d as [|[k' v'] d IH]; simpl.
  - rewrite list_elem_of_singleton. auto.
  - case_decide; subst; rewrite !elem_of_cons; naive_solver.
Qed.

Lemma dict_del_keys d k : k ∉ d.*1 -> dict_del d k = d.
Proof.
  induction d as [|[k' v'] d IH]; csimpl; [done|].
  rewrite not_elem_of_cons. intros [? ?]. case_decide; [done|]. by rewrite IH.
Qed.

Lemma dict_del_sublist d k : sublist (dict_del d k) d.
Proof.
  induction d as [|[k' v'] d IH]; simpl; [constructor|].
  case_decide; [by apply sublist_cons | by constructor].
Qed.

Lemma dict_del_wf d k : dict_wf d -> dict_wf (dict_del d k).
Proof.
  unfold dict_wf. intros Hnd. eapply sublist_NoDup; [exact Hnd|].
  apply fmap_sublist, dict_del_sublist.
Qed.

Lemma dict_get_del_eq d k : dict_wf d -> dict_get (dict_del d k) k = None.
Proof.
  unfold dict_wf. induction d as [|[k' v'] d IH]; csimpl; [done|].
  intros [Hk' Hnd]%NoDup_cons. case_decide as Hd; subst.
  - by apply dict_get_None.
  - simpl. rewrite decide_False by done. auto.
Qed.

Lemma dict_get_del_ne d k k' : k <> k' -> dict_get (dict_del d k) k' = dict_get d k'.
Proof.
  intros Hne. induction d as [|[k2 v2] d IH]; simpl; [done|].
  repeat (case_decide; simpl); naive_solver.
Qed.

Lemma dict_del_length d k :
  is_Some (dict_get d k) -> S (length (dict_del d k)) = length d.
Proof.
  induction d as [|[k' v'] d IH]; simpl; [by intros [? ?]|].
  case_decide; simpl; [done|]. intros Hs. by rewrite IH.
Qed.

Lemma dict_update_wf d e : dict_wf d -> dict_wf (dict_update d e).
Proof.
  revert d. induction e as [|[k v] e IH]; simpl; [done|]. intros d Hd.
  apply IH, dict_set_wf, Hd.
Qed.

Lemma dict_update_keys d e k : k ∈ (dict_update d e).*1 <-> k ∈ d.*1 \/ k ∈ e.*1.
Proof.
  revert d. induction e as [|[k' v] e IH]; intros d; csimpl; [set_solver|].
  rewrite IH, dict_set_elem_of_keys, elem_of_cons. tauto.
Qed.

(** The update with a well-formed dict: the right operand wins. *)
Lemma dict_get_update d e k :
  dict_wf e ->
  dict_get (dict_update d e) k =
    match dict_get e k with Some v => Some v | None => dict_get d k end.
Proof.
  unfold dict_wf. revert d. induction e as [|[k' v'] e IH]; intros d; csimpl; [done|].
  intros [Hk' Hnd]%NoDup_cons. rewrite IH by done. rewrite dict_get_set.
  apply dict_get_None in Hk'. case_decide; subst; [by rewrite Hk' | done].
Qed.

Lemma dict_update_elem_of d e kv : kv ∈ dict_update d e -> kv ∈ d \/ kv ∈ e.
Proof.
  revert d. induction e as [|[k v] e IH]; intros d; simpl; [auto|].
  intros [Hin|Hin]%IH; [|right; by right].
  apply dict_set_elem_of in Hin as [->|Hin]; [right; left | auto].
Qed.

(** [dict(items)] of items with distinct keys keeps the items as they are. *)
Lemma dict_update_fresh d e :
  dict_wf (d ++ e) -> dict_update d e = d ++ e.
Proof.
  unfold dict_wf. revert d. induction e as [|[k v] e IH]; intros d; simpl.
  - by rewrite app_nil_r.
  - intros Hnd. rewrite dict_set_keys_absent.
    + rewrite IH; by rewrite <-(assoc_L (++)).
    + rewrite fmap_app in Hnd. apply NoDup_app in Hnd as (_ & Hdis & _).
      intros Hin. eapply Hdis; [exact Hin|]. csimpl. left.
Qed.

Lemma dict_of_id e : dict_wf e -> dict_of e = e.
Proof. intros. by apply (dict_update_fresh []). Qed.

Lemma dict_of_wf e : dict_wf (dict_of e).
Proof. apply dict_update_wf. constructor. Qed.

Lemma dict_mem_true d k : dict_mem d k = true <-> k ∈ d.*1.
Proof. unfold dict_mem. rewrite bool_decide_eq_true. apply dict_get_is_Some. Qed.

End PyDict.

(** Two filters that agree on the elements of the list. *)
Lemma filter_ext_in {A} (P Q : A -> Prop) `{!forall x, Decision (P x), !forall x, Decision (Q x)} (l : list A) :
  (forall x, x ∈ l -> P x <-> Q x) -> filter P l = filter Q l.
Proof.
  induction l as [|x l IH]; intros Hl; [done|]. rewrite !filter_cons.
  rewrite IH by (intros y Hy; apply Hl; by right).
  assert (P x <-> Q x) as HPQ by (apply Hl; left).
  destruct (decide (P x)), (decide (Q x)); tauto.
Qed.

Lemma filter_all {A} (P : A -> Prop) `{!forall x, Decision (P x)} (l : list A) :
  (forall x, x ∈ l -> P x) -> filter P l = l.
Proof.
  induction l as [|x l IH]; intros Hl; [done|]. rewrite filter_cons, decide_True by (apply Hl; left).
  rewrite IH; [done|]. intros y Hy. apply Hl. by right.
Qed.

Section PyDictFilter.
Context {K V : Type} `{EqDecision K}.

(** [del d[k]] keeps every other item in place. *)
Lemma dict_del_filter (d : list (K * V)) k :
  dict_wf d -> dict_del d k = filter (fun kv => kv.1 <> k) d.
Proof.
  unfold dict_wf. induction d as [|[k' v'] d IH]; csimpl; [done|].
  intros [Hk' Hnd]%NoDup_cons. rewrite filter_cons. simpl. case_decide as Hd; subst.
  - rewrite decide_False by (by intros Hn). symmetry. apply filter_all.
    intros [k v] Hin. simpl. intros ->. apply Hk'. apply list_elem_of_fmap. by exists (k', v).
  - rewrite decide_True by congruence. by rewrite IH.
Qed.

Lemma filter_dict_wf (P : K * V -> Prop) `{!forall x, Decision (P x)} (d : list (K * V)) :
  dict_wf d -> dict_wf (filter P d).
Proof.
  unfold dict_wf. intros Hnd. eapply sublist_NoDup; [exact Hnd|]. apply fmap_sublist.
  clear Hnd. induction d as [|x d IH]; [constructor|]. rewrite filter_cons. case_decide; by constructor.
Qed.

End PyDictFilter.

(** An update never makes a dict smaller. *)
Lemma dict_update_length {K V} `{EqDecision K} (d e : list (K * V)) :
  length d <= length (dict_update d e).
Proof.
  revert d. induction e as [|[k v] e IH]; intros d; [done|].
  etrans; [|apply (IH (dict_set d k v))]. rewrite dict_set_length. case_decide; lia.
Qed.

(** ** Lists related element by element *)

Lemma exists_Forall2 {A B} (R : A -> B -> Prop) l :
  (forall x, x ∈ l -> exists y, R x y) -> exists k, Forall2 R l k.
Proof.
  induction l as [|x l IH]; intros H; [by exists []|].
  destruct (H x) as [y Hy]; [by left|]. destruct IH as [k Hk]; [intros z Hz; apply H; by right|].
  exists (y :: k). by constructor.
Qed.

Lemma Forall2_elem_l {A B} (R : A -> B -> Prop) l k x : Forall2 R l k -> x ∈ l -> exists y, y ∈ k /\ R x y.
Proof.
  induction 1 as [|a b l k Hab _ IH]; [by intros ?%elem_of_nil|].
  intros [->|Hx]%elem_of_cons; [exists b; split; [left|done]|].
  destruct (IH Hx) as (y & Hy & ?). exists y. split; [by right|done].
Qed.

Lemma Forall2_elem_r {A B} (R : A -> B -> Prop) l k y : Forall2 R l k -> y ∈ k -> exists x, x ∈ l /\ R x y.
Proof.
  induction 1 as [|a b l k Hab _ IH]; [by intros ?%elem_of_nil|].
  intros [->|Hy]%elem_of_cons; [exists a; split; [left|done]|].
  destruct (IH Hy) as (x & Hx & ?). exists x. split; [by right|done].
Qed.
