(* ===== verification/Text.v ===== *)
(** * Byte strings and text

    The operations of Python's [bytes] and [str] that the components share:
    splitting at a separator, UTF-8 validity, hexadecimal.  A [str] is
    represented by its UTF-8 encoding. *)

From Stdlib Require Import Ascii.
From S2P Require Import Prelude.

(** [bytes]; a [str] is represented by its UTF-8 encoding. *)
Definition bytes : Type := list ascii.

Definition to_bytes (s : string) : bytes := String.list_ascii_of_string s.

(** [b.split(sep)] for a separator that is not empty: occurrences are found
    from the left and do not overlap; [skip] counts the bytes of an
    occurrence that are still to be passed over. *)
Fixpoint split_aux (sep : bytes) (skip : nat) (cur : bytes) (b : bytes) : list bytes :=
  match b with
  | [] => [cur]
  | c :: b' =>
      match skip with
      | S k => split_aux sep k cur b'
      | 0 => if decide (sep `prefix_of` b) then cur :: split_aux sep (length sep - 1) [] b'
             else split_aux sep 0 (cur ++ [c]) b'
      end
  end.

Definition split (sep b : bytes) : list bytes := split_aux sep 0 [] b.

(** [b.decode('utf-8')]: whether a byte string is well-formed UTF-8 (no
    overlong forms, no surrogates, at most U+10FFFF).  [pending] continuation
    bytes are expected, the next one within [lo, hi]. *)
Fixpoint utf8_valid_from (pending : nat) (lo hi : Z) (b : bytes) : bool :=
  match b with
  | [] => bool_decide (pending = 0)
  | c :: b' =>
      let n := Z.of_N (N_of_ascii c) in
      match pending with
      | S p => (lo <=? n)%Z && (n <=? hi)%Z && utf8_valid_from p 128 191 b'
      | 0 =>
          if (n <? 128)%Z then utf8_valid_from 0 128 191 b'
          else if (194 <=? n)%Z && (n <=? 223)%Z then utf8_valid_from 1 128 191 b'
          else if (n =? 224)%Z then utf8_valid_from 2 160 191 b'
          else if (n =? 237)%Z then utf8_valid_from 2 128 159 b'
          else if (225 <=? n)%Z && (n <=? 239)%Z then utf8_valid_from 2 128 191 b'
          else if (n =? 240)%Z then utf8_valid_from 3 144 191 b'
          else if (241 <=? n)%Z && (n <=? 243)%Z then utf8_valid_from 3 128 191 b'
          else if (n =? 244)%Z then utf8_valid_from 3 128 143 b'
          else false
      end
  end.

Definition decode (b : bytes) : result bytes :=
  if utf8_valid_from 0 128 191 b then Ok b else Raise UnicodeDecodeError.

(** ** What splitting finds *)

(** No proper suffix of [sep] is a prefix of [sep]. *)
Definition borderless (sep : bytes) : bool :=
  forallb (fun d => negb (bool_decide (drop d sep `prefix_of` sep))) (seq 1 (length sep - 1)).

(** [sep] occurs nowhere in [b]. *)
Definition free_of (sep b : bytes) : Prop := forall pre post, b <> pre ++ sep ++ post.

Lemma free_of_tail sep c b : free_of sep (c :: b) -> free_of sep b.
Proof. intros Hf pre post ->. by apply (Hf (c :: pre) post). Qed.

Lemma split_aux_free sep cur b : sep <> [] -> free_of sep b -> split_aux sep 0 cur b = [cur ++ b].
Proof.
  intros Hs. revert cur. induction b as [|c b IH]; intros cur Hf; simpl; [by rewrite app_nil_r|].
  rewrite decide_False.
  - rewrite IH by (by eapply free_of_tail). by rewrite <-(assoc_L (++)).
  - intros [post Hp]. by apply (Hf [] post).
Qed.

Lemma split_aux_skip sep k cur b : k = length (take k b) -> split_aux sep k cur b = split_aux sep 0 cur (drop k b).
Proof.
  revert b. induction k as [|k IH]; intros b Hk; [done|]. destruct b as [|c b]; [done|]. simpl in *.
  apply IH. lia.
Qed.

Lemma prefix_of_app_short {A} (l1 l2 k : list A) :
  l1 `prefix_of` l2 ++ k -> length l1 <= length l2 -> l1 `prefix_of` l2.
Proof.
  intros [post Hp] Hle. exists (drop (length l1) l2).
  rewrite <-(take_drop (length l1) l2) at 1. f_equal.
  transitivity (take (length l1) (l2 ++ k)); [by rewrite take_app_le|].
  by rewrite Hp, take_app_length.
Qed.

(** An occurrence that starts before the separator would be one inside the
    text, or would make a border of the separator. *)
Lemma no_early_occurrence sep b v :
  borderless sep = true -> free_of sep b -> b <> [] -> ~ sep `prefix_of` b ++ sep ++ v.
Proof.
  intros Hb Hf Hne Hp. destruct (decide (length sep <= length b)) as [Hle|Hgt].
  - apply prefix_of_app_short in Hp as [post ->]; [|done].
    by apply (Hf [] post).
  - destruct Hp as [post Hp].
    assert (sep = b ++ drop (length b) sep) as Hsep.
    { rewrite <-(take_drop (length b) sep) at 1. f_equal.
      transitivity (take (length b) (sep ++ post)).
      - by rewrite take_app_le by lia.
      - rewrite <-Hp, take_app_length. done. }
    unfold borderless in Hb. rewrite forallb_forall in Hb.
    specialize (Hb (length b)). rewrite negb_true_iff, bool_decide_eq_false in Hb. apply Hb.
    + apply in_seq. destruct b; simpl in *; [done|lia].
    + assert (drop (length b) sep `prefix_of` sep ++ v) as Hq.
      { exists post. rewrite Hsep in Hp at 2. rewrite <-(assoc_L (++)) in Hp.
        by apply (inj (app b)) in Hp. }
      apply prefix_of_app_short in Hq; [done|]. rewrite length_drop. lia.
Qed.

Lemma split_aux_once sep cur b v :
  sep <> [] -> borderless sep = true -> free_of sep b -> free_of sep v ->
  split_aux sep 0 cur (b ++ sep ++ v) = [cur ++ b; v].
Proof.
  intros Hs Hb Hf Hv. revert cur Hf. induction b as [|c b IH]; intros cur Hf.
  - destruct sep as [|c sep]; [done|]. simpl. rewrite decide_True by (by exists v).
    rewrite split_aux_skip.
    + rewrite Nat.sub_0_r, drop_app_length, (split_aux_free _ _ v), app_nil_r; done.
    + rewrite Nat.sub_0_r, take_app_length. done.
  - simpl. rewrite decide_False.
    + rewrite IH by (by eapply free_of_tail). by rewrite <-(assoc_L (++)).
    + by apply (no_early_occurrence sep (c :: b)).
Qed.

(** A text without some byte of the separator is free of it. *)
Lemma free_of_byte (c : ascii) sep b : c ∈ sep -> c ∉ b -> free_of sep b.
Proof. intros Hc Hb pre post ->. apply Hb. rewrite !elem_of_app. auto. Qed.


(** ** Hexadecimal *)

(** The digits of [bytes.hex()]. *)
Definition hex_digit (n : N) : ascii :=
  ascii_of_N (if (n <? 10)%N then 48 + n else 87 + n)%N.

(** [b.hex()]. *)
Definition hex_of_byte (c : ascii) : bytes :=
  [hex_digit (N_of_ascii c / 16); hex_digit (N_of_ascii c mod 16)].
Definition hex (b : bytes) : bytes := flat_map hex_of_byte b.

(** A character of [string.hexdigits], upper or lower case. *)
Definition hex_value (c : ascii) : option N :=
  let n := N_of_ascii c in
  if ((48 <=? n) && (n <=? 57))%N then Some (n - 48)%N
  else if ((65 <=? n) && (n <=? 70))%N then Some (n - 55)%N
  else if ((97 <=? n) && (n <=? 102))%N then Some (n - 87)%N
  else None.
Definition is_hexdigit (c : ascii) : bool := bool_decide (is_Some (hex_value c)).

Definition is_space (c : ascii) : bool :=
  let n := N_of_ascii c in ((n =? 32) || ((9 <=? n) && (n <=? 13)))%N.

(** [bytes.fromhex]: blanks are allowed between two bytes. *)
Fixpoint fromhex (s : bytes) : result bytes :=
  match s with
  | [] => Ok []
  | c :: s' =>
      if is_space c then fromhex s'
      else match s' with
           | [] => Raise ValueError
           | d :: s'' =>
               match hex_value c, hex_value d with
               | Some hi, Some lo => let? b := fromhex s'' in Ok (ascii_of_N (16 * hi + lo) :: b)
               | _, _ => Raise ValueError
               end
           end
  end.

Lemma fromhex_hex b : fromhex (hex b) = Ok b.
Proof.
  induction b as [|c b IH]; [done|]. change (hex (c :: b)) with (hex_of_byte c ++ hex b).
  assert (forall k, fromhex (hex_of_byte c ++ k) = let? r := fromhex k in Ok (c :: r)) as Hc
    by (intros k; destruct c as [[] [] [] [] [] [] [] []]; reflexivity).
  by rewrite Hc, IH.
Qed.

Lemma hex_digits b : Forall (fun c => is_hexdigit c = true) (hex b).
Proof.
  induction b as [|c b IH]; simpl; [constructor|]. repeat constructor; [| |exact IH];
    destruct c as [[] [] [] [] [] [] [] []]; vm_compute; reflexivity.
Qed.

Lemma length_hex b : length (hex b) = 2 * length b.
Proof. induction b as [|c b IH]; simpl in *; [done|lia]. Qed.

(** ** ASCII *)

Definition ascii_only (b : bytes) : Prop := Forall (fun c => (N_of_ascii c < 128)%N) b.

Lemma decode_ascii b : ascii_only b -> decode b = Ok b.
Proof.
  intros Hb. unfold decode. assert (utf8_valid_from 0 128 191 b = true) as ->; [|done].
  induction Hb as [|c b Hc _ IH]; [done|]. simpl. rewrite (proj2 (Z.ltb_lt _ _)); [done|lia].
Qed.

(** [len] of a text: bytes that continue a character are not counted. *)
Definition char_count (b : bytes) : nat :=
  length (filter (fun c => ~ (128 <= N_of_ascii c < 192)%N) b).

(** [s.rstrip(chars)]. *)
Definition rstrip (chars s : bytes) : bytes :=
  let fix drop_leading (l : bytes) : bytes :=
    match l with
    | c :: l' => if decide (c ∈ chars) then drop_leading l' else l
    | [] => []
    end in
  rev (drop_leading (rev s)).

Lemma rstrip_suffix chars s suffix :
  Forall (fun c => c ∈ chars) suffix -> (forall c, last s = Some c -> c ∉ chars) ->
  rstrip chars (s ++ suffix) = s.
Proof.
  intros Hsuf Hlast. unfold rstrip. rewrite rev_app_distr.
  set (drop_leading := fix drop_leading (l : bytes) : bytes :=
    match l with
    | c :: l' => if decide (c ∈ chars) then drop_leading l' else l
    | [] => []
    end).
  assert (forall l k, Forall (fun c => c ∈ chars) l -> drop_leading (l ++ k) = drop_leading k) as Hdrop.
  { induction 1 as [|c l Hc _ IH]; [done|]. simpl. by rewrite decide_True. }
  rewrite Hdrop by by apply Forall_rev.
  destruct s as [|c s _] using rev_ind; [done|]. rewrite rev_app_distr. simpl.
  rewrite decide_False; [simpl; by rewrite rev_involutive|].
  apply Hlast. by rewrite last_snoc.
Qed.

(** The first part of a text split at a character. *)
Lemma split_aux_first (c : ascii) sep cur a b :
  sep = [c] -> c ∉ a -> split_aux sep 0 cur (a ++ c :: b) = (cur ++ a) :: split_aux sep 0 [] b.
Proof.
  intros Hs. revert cur. induction a as [|d a IH]; intros cur Ha; simpl.
  - rewrite decide_True by (rewrite Hs; by exists b). by rewrite Hs, app_nil_r.
  - apply not_elem_of_cons in Ha as [Hd Ha].
    rewrite decide_False by (rewrite Hs; intros Hp; by apply prefix_cons_inv_1 in Hp).
    rewrite IH by done. by rewrite <- (assoc_L (++)).
Qed.

Lemma split_first (c : ascii) a b : c ∉ a -> split [c] (a ++ c :: b) = a :: split [c] b.
Proof. by apply split_aux_first. Qed.

Lemma split_absent (c : ascii) s : c ∉ s -> split [c] s = [s].
Proof. intros Hs. unfold split. rewrite split_aux_free; [done|done|]. apply (free_of_byte c); [by left|done]. Qed.

Lemma split_one_char (c : ascii) a b :
  c ∉ a -> c ∉ b -> split [c] (a ++ c :: b) = [a; b].
Proof.
  intros Ha Hb. unfold split. change (c :: b) with ([c] ++ b).
  rewrite split_aux_once; [done|done|done|by apply (free_of_byte c); [left|]..].
Qed.

(** [sub in s]. *)
Fixpoint is_infix (sub s : bytes) : bool :=
  bool_decide (sub `prefix_of` s) ||
  match s with
  | [] => false
  | _ :: s' => is_infix sub s'
  end.

(** [s.lower()] of ASCII letters. *)
Definition lower (s : bytes) : bytes :=
  (fun c => let n := N_of_ascii c in if (65 <=? n)%N && (n <=? 90)%N then ascii_of_N (n + 32) else c) <$> s.

(** [s.replace(' ', '_')], one character by another. *)
Definition replace_char (a b : ascii) (s : bytes) : bytes := (fun c => if Ascii.eqb c a then b else c) <$> s.

Lemma is_infix_true sub s : is_infix sub s = true <-> exists a b, s = a ++ sub ++ b.
Proof.
  induction s as [|c s IH]; cbn [is_infix].
  - rewrite orb_false_r, bool_decide_eq_true. split.
    + intros [b ->]. by exists [], b.
    + intros (a & b & H). symmetry in H. apply app_nil in H as [-> H]. exists b. done.
  - rewrite orb_true_iff, bool_decide_eq_true, IH. split.
    + intros [[b ->]|(a & b & ->)]; [by exists [], b|by exists (c :: a), b].
    + intros (a & b & H). destruct a as [|d a]; [left; by exists b|right].
      injection H as -> ->. by exists a, b.
Qed.
