(* ===== verification/Json.v ===== *)
(** * Python's [json]

    [json.dumps], with and without [indent], and [json.loads], as the
    registry, the keystore and the configuration use them, with the round
    trip between them.  Characters are code points below 256; a float keeps
    its literal. *)

From Stdlib Require Import Ascii Decimal DecimalN DecimalFacts.
From S2P Require Import Prelude Text.

Inductive json :=
  | JNull
  | JBool (b : bool)
  | JNum (z : Z)
  | JFloat (literal : bytes)
  | JStr (s : bytes)
  | JArr (l : list json)
  | JObj (m : list (bytes * json)).

Notation "# c" := (ascii_of_N c) (at level 1, format "# c") : char_scope.
#[local] Open Scope char_scope.

Definition newline : ascii := #10.
Definition dquote : ascii := #34.
Definition backslash : ascii := #92.

(** [j[key]] of a text [key]. *)
Definition get_item (j : json) (key : bytes) : result json :=
  match j with
  | JObj m => match dict_get m key with Some v => Ok v | None => Raise KeyError end
  | _ => Raise TypeError
  end.

(** ** Printing *)

(** Everything outside of the printable ASCII characters is escaped. *)
Definition quote_char (c : ascii) : bytes :=
  let n := N_of_ascii c in
  if decide (c = dquote) then [backslash; dquote]
  else if decide (c = backslash) then [backslash; backslash]
  else if (n =? 8)%N then [backslash; "b"]
  else if (n =? 9)%N then [backslash; "t"]
  else if (n =? 10)%N then [backslash; "n"]
  else if (n =? 12)%N then [backslash; "f"]
  else if (n =? 13)%N then [backslash; "r"]
  else if ((32 <=? n) && (n <=? 126))%N then [c]
  else [backslash; "u"; "0"; "0"] ++ hex_of_byte c.

Definition quote (s : bytes) : bytes := dquote :: flat_map quote_char s ++ [dquote].

Fixpoint uint_chars (u : uint) : bytes :=
  match u with
  | Nil => []
  | D0 u => "0" :: uint_chars u
  | D1 u => "1" :: uint_chars u
  | D2 u => "2" :: uint_chars u
  | D3 u => "3" :: uint_chars u
  | D4 u => "4" :: uint_chars u
  | D5 u => "5" :: uint_chars u
  | D6 u => "6" :: uint_chars u
  | D7 u => "7" :: uint_chars u
  | D8 u => "8" :: uint_chars u
  | D9 u => "9" :: uint_chars u
  end.

Definition nat_chars (n : N) : bytes := uint_chars (N.to_uint n).

Definition int_chars (z : Z) : bytes :=
  if (z <? 0)%Z then "-" :: nat_chars (Z.to_N (- z)) else nat_chars (Z.to_N z).

Section Print.
Variable indent : option nat.

(** The line break of an indented text. *)
Definition line_break (level : nat) : bytes :=
  match indent with None => [] | Some n => newline :: replicate (n * level) " " end.
Definition item_separator (level : nat) : bytes :=
  match indent with None => [","; " "] | Some _ => "," :: line_break level end.

Fixpoint joined (sep : bytes) (l : list bytes) : bytes :=
  match l with
  | [] => []
  | [x] => x
  | x :: l' => x ++ sep ++ joined sep l'
  end.

Fixpoint dumps_at (level : nat) (j : json) : bytes :=
  match j with
  | JNull => ["n"; "u"; "l"; "l"]
  | JBool true => ["t"; "r"; "u"; "e"]
  | JBool false => ["f"; "a"; "l"; "s"; "e"]
  | JNum z => int_chars z
  | JFloat literal => literal
  | JStr s => quote s
  | JArr [] => ["["; "]"]
  | JArr l =>
      "[" :: line_break (S level) ++
      joined (item_separator (S level)) (List.map (dumps_at (S level)) l) ++ line_break level ++ ["]"]
  | JObj [] => ["{"; "}"]
  | JObj m =>
      "{" :: line_break (S level) ++
      joined (item_separator (S level))
        (List.map (fun kv => quote kv.1 ++ [":"; " "] ++ dumps_at (S level) kv.2) m) ++
      line_break level ++ ["}"]
  end.
End Print.

(** [json.dumps(j)] and [json.dumps(j, indent=n)]. *)
Definition dumps (j : json) : bytes := dumps_at None 0 j.
Definition dumps_indent (n : nat) (j : json) : bytes := dumps_at (Some n) 0 j.

(** ** Parsing *)

Definition is_ws (c : ascii) : bool :=
  let n := N_of_ascii c in ((n =? 32) || (n =? 9) || (n =? 10) || (n =? 13))%N.

Fixpoint skip_ws (s : bytes) : bytes :=
  match s with c :: s' => if is_ws c then skip_ws s' else s | [] => [] end.

Definition digit_of (c : ascii) : option (uint -> uint) :=
  match c with
  | "0" => Some D0 | "1" => Some D1 | "2" => Some D2 | "3" => Some D3 | "4" => Some D4
  | "5" => Some D5 | "6" => Some D6 | "7" => Some D7 | "8" => Some D8 | "9" => Some D9
  | _ => None
  end.

Fixpoint take_uint (s : bytes) : uint * bytes :=
  match s with
  | c :: s' =>
      match digit_of c with
      | Some d => let '(u, r) := take_uint s' in (d u, r)
      | None => (Nil, s)
      end
  | [] => (Nil, [])
  end.

(** [0|[1-9]\d*]. *)
Definition take_nat (s : bytes) : option (uint * bytes) :=
  match s with
  | "0" :: r => Some (D0 Nil, r)
  | _ => match take_uint s with (Nil, _) => None | ur => Some ur end
  end.

(** [\.\d+] and [[eE][-+]?\d+], both optional. *)
Definition take_frac (s : bytes) : bytes * bytes :=
  match s with
  | "." :: s1 => match take_uint s1 with (Nil, _) => ([], s) | (u, r) => ("." :: uint_chars u, r) end
  | _ => ([], s)
  end.
Definition take_exp (s : bytes) : bytes * bytes :=
  match s with
  | ("e" | "E") as e :: s1 =>
      let '(sign, s2) := match s1 with ("-" | "+") as c :: s2 => ([c], s2) | _ => ([], s1) end in
      match take_uint s2 with (Nil, _) => ([], s) | (u, r) => (e :: sign ++ uint_chars u, r) end
  | _ => ([], s)
  end.

Definition take_sign (s : bytes) : bool * bytes :=
  match s with "-" :: s1 => (true, s1) | _ => (false, s) end.

Definition parse_number (s : bytes) : option (json * bytes) :=
  let '(neg, s1) := take_sign s in
  match take_nat s1 with
  | None => None
  | Some (u, s2) =>
      let '(frac, s3) := take_frac s2 in
      let '(exp, s4) := take_exp s3 in
      match frac ++ exp with
      | [] => let z := Z.of_N (N.of_uint u) in Some (JNum (if neg then - z else z)%Z, s2)
      | tail => Some (JFloat ((if neg then ["-"] else []) ++ uint_chars u ++ tail), s4)
      end
  end.

(** The escape after a backslash. *)
Definition parse_escape (s : bytes) : option (ascii * bytes) :=
  match s with
  | "b" :: r => Some (#8, r)
  | "f" :: r => Some (#12, r)
  | "n" :: r => Some (#10, r)
  | "r" :: r => Some (#13, r)
  | "t" :: r => Some (#9, r)
  | "u" :: a :: b :: c :: d :: r =>
      match hex_value a, hex_value b, hex_value c, hex_value d with
      | Some 0%N, Some 0%N, Some hi, Some lo => Some (#(16 * hi + lo)%N, r)
      | _, _, _, _ => None
      end
  | c :: r =>
      if decide (c = dquote) then Some (dquote, r)
      else if decide (c = backslash) then Some (backslash, r)
      else if decide (c = "/") then Some ("/", r)
      else None
  | [] => None
  end.

(** A string after its opening quote; control characters must be escaped.
    Every round takes a character, so the length of the text is enough fuel. *)
Fixpoint parse_string (fuel : nat) (s : bytes) : option (bytes * bytes) :=
  match fuel with
  | 0 => None
  | S fuel' =>
      match s with
      | [] => None
      | c :: s' =>
          if decide (c = dquote) then Some ([], s')
          else if decide (c = backslash) then
            match parse_escape s' with
            | Some (d, r) =>
                match parse_string fuel' r with Some (t, r') => Some (d :: t, r') | None => None end
            | None => None
            end
          else if (N_of_ascii c <? 32)%N then None
          else match parse_string fuel' s' with Some (t, r') => Some (c :: t, r') | None => None end
      end
  end.

Fixpoint parse_value (fuel : nat) (s : bytes) : option (json * bytes) :=
  match fuel with
  | 0 => None
  | S fuel' =>
      match skip_ws s with
      | "n" :: "u" :: "l" :: "l" :: r => Some (JNull, r)
      | "t" :: "r" :: "u" :: "e" :: r => Some (JBool true, r)
      | "f" :: "a" :: "l" :: "s" :: "e" :: r => Some (JBool false, r)
      | "N" :: "a" :: "N" :: r => Some (JFloat ["N"; "a"; "N"], r)
      | "[" :: r =>
          match skip_ws r with
          | [] => None
          | c :: r' =>
              if decide (c = "]") then Some (JArr [], r')
              else match parse_items fuel' (c :: r') with
                   | Some (l, r'') => Some (JArr l, r'')
                   | None => None
                   end
          end
      | "{" :: r =>
          match skip_ws r with
          | [] => None
          | c :: r' =>
              if decide (c = "}") then Some (JObj [], r')
              else match parse_members fuel' (c :: r') with
                   | Some (m, r'') => Some (JObj (dict_of m), r'')
                   | None => None
                   end
          end
      | c :: r =>
          if decide (c = dquote) then
            match parse_string fuel' r with Some (t, r') => Some (JStr t, r') | None => None end
          else parse_number (c :: r)
      | [] => None
      end
  end
with parse_items (fuel : nat) (s : bytes) : option (list json * bytes) :=
  match fuel with
  | 0 => None
  | S fuel' =>
      match parse_value fuel' s with
      | None => None
      | Some (j, r) =>
          match skip_ws r with
          | "," :: r' =>
              match parse_items fuel' r' with Some (l, r'') => Some (j :: l, r'') | None => None end
          | "]" :: r' => Some ([j], r')
          | _ => None
          end
      end
  end
with parse_members (fuel : nat) (s : bytes) : option (list (bytes * json) * bytes) :=
  match fuel with
  | 0 => None
  | S fuel' =>
      match skip_ws s with
      | q :: r0 =>
          if decide (q = dquote) then
            match parse_string fuel' r0 with
            | None => None
            | Some (k, r1) =>
                match skip_ws r1 with
                | ":" :: r2 =>
                    match parse_value fuel' r2 with
                    | None => None
                    | Some (j, r3) =>
                        match skip_ws r3 with
                        | "," :: r4 =>
                            match parse_members fuel' r4 with
                            | Some (m, r5) => Some ((k, j) :: m, r5)
                            | None => None
                            end
                        | "}" :: r4 => Some ([(k, j)], r4)
                        | _ => None
                        end
                    end
                | _ => None
                end
            end
          else None
      | [] => None
      end
  end.

(** [json.loads]: one value, with blanks around it. *)
Definition loads (s : bytes) : result json :=
  match parse_value (S (length s)) s with
  | Some (j, r) => match skip_ws r with [] => Ok j | _ => Raise JSONDecodeError end
  | None => Raise JSONDecodeError
  end.

(** ** Round trip *)

(** No floats, and no key twice in an object. *)
Fixpoint json_ok (j : json) : bool :=
  match j with
  | JFloat _ => false
  | JArr l => forallb json_ok l
  | JObj m => bool_decide (NoDup m.*1) && forallb (fun kv => json_ok kv.2) m
  | _ => true
  end.

Lemma json_ind' (P : json -> Prop) :
  P JNull -> (forall b, P (JBool b)) -> (forall z, P (JNum z)) -> (forall f, P (JFloat f)) ->
  (forall s, P (JStr s)) -> (forall l, Forall P l -> P (JArr l)) ->
  (forall m, Forall (fun kv => P kv.2) m -> P (JObj m)) -> forall j, P j.
Proof.
  intros H1 H2 H3 H4 H5 Ha Ho. fix IH 1. intros [|b|z|f|s|l|m];
    [apply H1|apply H2|apply H3|apply H4|apply H5|apply Ha|apply Ho].
  - induction l as [|x l IHl]; constructor; [apply IH|apply IHl].
  - induction m as [|x m IHm]; constructor; [apply IH|apply IHm].
Qed.

(** What may follow a value. *)
Definition ends (rest : bytes) : Prop :=
  match rest with [] => True | c :: _ => c = "," \/ c = "]" \/ c = "}" \/ c = newline end.

Definition blanks (ws : bytes) : Prop := Forall (fun c => is_ws c = true) ws.

Lemma skip_ws_blanks ws s : blanks ws -> skip_ws (ws ++ s) = skip_ws s.
Proof. induction 1 as [|c ws Hc _ IH]; simpl; [done|]. by rewrite Hc. Qed.

Lemma line_break_blanks indent level : blanks (line_break indent level).
Proof.
  destruct indent as [n|]; simpl; [|constructor]. constructor; [done|].
  apply Forall_replicate. done.
Qed.

Lemma parse_value_blanks fuel ws s : blanks ws -> parse_value fuel (ws ++ s) = parse_value fuel s.
Proof. intros Hw. destruct fuel; [done|]. cbn [parse_value]. by rewrite skip_ws_blanks. Qed.

Lemma parse_members_blanks fuel ws s : blanks ws -> parse_members fuel (ws ++ s) = parse_members fuel s.
Proof. intros Hw. destruct fuel; [done|]. cbn [parse_members]. by rewrite skip_ws_blanks. Qed.

Lemma parse_items_blanks fuel ws s : blanks ws -> parse_items fuel (ws ++ s) = parse_items fuel s.
Proof. intros Hw. destruct fuel; [done|]. cbn [parse_items]. by rewrite parse_value_blanks. Qed.

(** *** Numbers *)

Lemma take_uint_chars u rest : ends rest -> take_uint (uint_chars u ++ rest) = (u, rest).
Proof.
  intros He. induction u as [|u IH|u IH|u IH|u IH|u IH|u IH|u IH|u IH|u IH|u IH]; simpl; rewrite ?IH; try done.
  destruct rest as [|c rest]; [done|]. destruct He as [->|[->|[->| ->]]]; done.
Qed.

Lemma to_uint_shape n :
  N.to_uint n = D0 Nil \/ (N.to_uint n <> Nil /\ forall u, N.to_uint n <> D0 u).
Proof.
  assert (N.to_uint n = unorm (N.to_uint n)) as Hn.
  { rewrite <-DecimalN.Unsigned.to_of. by rewrite DecimalN.Unsigned.of_to. }
  rewrite Hn. unfold unorm. pose proof (nzhead_nonzero (N.to_uint n)) as Hz.
  destruct (nzhead (N.to_uint n)); [by left|right; split; [done|]..]; intros v; try done.
Qed.

Lemma take_nat_chars n rest : ends rest -> take_nat (nat_chars n ++ rest) = Some (N.to_uint n, rest).
Proof.
  intros He. unfold nat_chars. destruct (to_uint_shape n) as [->|[Hn Hz]]; [done|].
  pose proof (take_uint_chars (N.to_uint n) rest He) as Ht.
  destruct (N.to_uint n) as [|u|u|u|u|u|u|u|u|u|u] eqn:Hu; [done|exfalso; by eapply Hz|..];
    unfold take_nat; cbn [uint_chars app] in *; by rewrite Ht.
Qed.

Lemma no_frac rest : ends rest -> take_frac rest = ([], rest) /\ take_exp rest = ([], rest).
Proof. destruct rest as [|c rest]; [done|]. intros [->|[->|[->| ->]]]; done. Qed.

Lemma parse_int_chars z rest : ends rest -> parse_number (int_chars z ++ rest) = Some (JNum z, rest).
Proof.
  intros He. destruct (no_frac rest He) as [Hf Hx]. unfold int_chars.
  destruct (Z.ltb_spec z 0) as [Hz|Hz].
  - unfold parse_number. cbn [app take_sign]. rewrite take_nat_chars, Hf, Hx by done. cbn [app].
    rewrite DecimalN.Unsigned.of_to. do 3 f_equal. lia.
  - pose proof (take_nat_chars (Z.to_N z) rest He) as Ht.
    assert (take_sign (nat_chars (Z.to_N z) ++ rest) = (false, nat_chars (Z.to_N z) ++ rest)) as Hs.
    { unfold nat_chars. destruct (to_uint_shape (Z.to_N z)) as [->|[Hn _]]; [done|].
      by destruct (N.to_uint (Z.to_N z)). }
    unfold parse_number. rewrite Hs, Ht, Hf, Hx. cbn [app].
    rewrite DecimalN.Unsigned.of_to. do 3 f_equal. lia.
Qed.

(** A number is recognised by its first character. *)
Lemma parse_value_number fuel z rest :
  parse_value (S fuel) (int_chars z ++ rest) = parse_number (int_chars z ++ rest).
Proof.
  unfold int_chars. destruct (z <? 0)%Z; [done|]. unfold nat_chars.
  destruct (to_uint_shape (Z.to_N z)) as [->|[Hn _]]; [done|]. by destruct (N.to_uint (Z.to_N z)).
Qed.

(** *** Strings *)

Lemma parse_string_char fuel c k :
  parse_string (S fuel) (quote_char c ++ k) =
  match parse_string fuel k with Some (t, r) => Some (c :: t, r) | None => None end.
Proof. destruct c as [[] [] [] [] [] [] [] []]; reflexivity. Qed.

Lemma parse_string_quoted fuel s rest :
  length (flat_map quote_char s) < fuel ->
  parse_string fuel (flat_map quote_char s ++ dquote :: rest) = Some (s, rest).
Proof.
  revert fuel. induction s as [|c s IH]; intros fuel Hf.
  - destruct fuel; [simpl in Hf; lia|]. reflexivity.
  - cbn [flat_map] in *. rewrite length_app in Hf.
    assert (1 <= length (quote_char c)) by (destruct c as [[] [] [] [] [] [] [] []]; vm_compute; lia).
    destruct fuel; [lia|]. rewrite <-(assoc_L (++)), parse_string_char, IH by lia. done.
Qed.

(** *** Arrays and objects *)

Section RoundTrip.
Variable indent : option nat.
Notation dump := (dumps_at indent).

Lemma separator_shape level :
  exists ws, item_separator indent level = "," :: ws /\ blanks ws.
Proof.
  unfold item_separator. destruct indent eqn:Hi.
  - eexists. split; [done|]. rewrite <-Hi. apply line_break_blanks.
  - exists [" "]. split; [done|]. by repeat constructor.
Qed.

Lemma ends_break level c rest :
  c = "]" \/ c = "}" -> ends (line_break indent level ++ c :: rest).
Proof. intros Hc. destruct indent; simpl; [auto|]. destruct Hc as [-> | ->]; auto. Qed.

Lemma dumps_head level j :
  json_ok j = true -> exists c r, dump level j = c :: r /\ is_ws c = false /\ c <> "]".
Proof.
  assert (forall c r, is_ws c = false -> c <> "]" ->
    exists c' r', c :: r = c' :: r' /\ is_ws c' = false /\ c' <> "]") as Hhead by eauto 10.
  destruct j as [|[]|z|f|s|[|x l]|[|x m]]; intros Hok; try done; try (by apply Hhead).
  cbn [dumps_at]. unfold int_chars. destruct (z <? 0)%Z; [by apply Hhead|]. unfold nat_chars.
  destruct (to_uint_shape (Z.to_N z)) as [->|[Hn _]]; [by apply Hhead|].
  destruct (N.to_uint (Z.to_N z)); [done|by apply Hhead..].
Qed.

Definition reads (j : json) : Prop := forall level rest fuel,
  ends rest -> length (dump level j) < fuel -> parse_value fuel (dump level j ++ rest) = Some (j, rest).

Lemma parse_items_printed l level level' rest fuel :
  l <> [] -> Forall reads l ->
  length (joined (item_separator indent level) (List.map (dump level) l) ++ line_break indent level' ++ ["]"]) < fuel ->
  parse_items fuel (joined (item_separator indent level) (List.map (dump level) l) ++
    line_break indent level' ++ "]" :: rest) = Some (l, rest).
Proof.
  intros Hne Hl. revert fuel. induction Hl as [|x l Hx Hl IH]; intros fuel Hf; [done|].
  destruct fuel; [lia|]. destruct l as [|y l].
  - cbn [List.map joined] in *. rewrite !length_app in Hf. cbn [parse_items].
    rewrite Hx; [|apply ends_break; auto|simpl in Hf; lia].
    rewrite skip_ws_blanks by apply line_break_blanks. done.
  - destruct (separator_shape level) as (ws & Hs & Hws).
    assert (forall k, joined (item_separator indent level) (List.map (dump level) (x :: y :: l)) ++ k =
      dump level x ++ item_separator indent level ++
      joined (item_separator indent level) (List.map (dump level) (y :: l)) ++ k) as Hj.
    { intros k. cbn [List.map joined]. by rewrite <-!(assoc_L (++)). }
    rewrite Hj in *. rewrite Hs in *. rewrite !length_app in Hf. cbn [length app] in Hf.
    cbn [parse_items app].
    rewrite Hx; [|by left|lia]. cbn [skip_ws].
    change (is_ws ",") with false. cbv iota.
    rewrite parse_items_blanks by done. rewrite IH; [done|done|]. rewrite !length_app. cbn [length]. lia.
Qed.

Lemma parse_members_printed m level level' rest fuel :
  m <> [] -> Forall (fun kv => reads kv.2) m ->
  length (joined (item_separator indent level)
    (List.map (fun kv => quote kv.1 ++ [":"; " "] ++ dump level kv.2) m) ++ line_break indent level' ++ ["}"]) < fuel ->
  parse_members fuel (joined (item_separator indent level)
    (List.map (fun kv => quote kv.1 ++ [":"; " "] ++ dump level kv.2) m) ++
    line_break indent level' ++ "}" :: rest) = Some (m, rest).
Proof.
  set (member := fun kv : bytes * json => quote kv.1 ++ [":"; " "] ++ dump level kv.2).
  assert (forall kv fuel rest, reads kv.2 -> ends rest -> length (member kv) < S fuel ->
    parse_members (S fuel) (member kv ++ rest) =
    match skip_ws rest with
    | "," :: r4 => match parse_members fuel r4 with Some (m, r5) => Some (kv :: m, r5) | None => None end
    | "}" :: r4 => Some ([kv], r4)
    | _ => None
    end) as Hone.
  { intros [k j] f rest' Hr He Hf. unfold member, quote in *. cbn [fst snd app] in *.
    cbn [length] in Hf. rewrite !length_app in Hf. cbn [length] in Hf.
    cbn [parse_members skip_ws]. change (is_ws dquote) with false. cbv iota.
    rewrite decide_True by done. rewrite <-!(assoc_L (++)). cbn [app].
    rewrite parse_string_quoted by lia. cbn [skip_ws]. change (is_ws ":") with false. cbv iota.
    change (" " :: dump level j ++ rest') with ([" "] ++ dump level j ++ rest').
    rewrite parse_value_blanks by (by repeat constructor). rewrite Hr by (done || lia). done. }
  intros Hne Hl. revert fuel. induction Hl as [|x l Hx Hl IH]; intros fuel Hf; [done|].
  destruct fuel; [lia|]. destruct l as [|y l].
  - cbn [List.map joined] in *. rewrite !length_app in Hf.
    rewrite Hone; [|done|apply ends_break; auto|lia].
    rewrite skip_ws_blanks by apply line_break_blanks. done.
  - destruct (separator_shape level) as (ws & Hs & Hws).
    assert (forall k, joined (item_separator indent level) (List.map member (x :: y :: l)) ++ k =
      member x ++ item_separator indent level ++
      joined (item_separator indent level) (List.map member (y :: l)) ++ k) as Hj.
    { intros k. cbn [List.map joined]. by rewrite <-!(assoc_L (++)). }
    rewrite Hj in *. rewrite Hs in *. rewrite !length_app in Hf. cbn [length app] in Hf.
    cbn [app].
    rewrite Hone; [|done|by left|lia]. cbn [skip_ws].
    change (is_ws ",") with false. cbv iota.
    rewrite parse_members_blanks by done. rewrite IH; [done|done|]. rewrite !length_app. cbn [length]. lia.
Qed.

Lemma dumps_reads j : json_ok j = true -> reads j.
Proof.
  induction j as [|b|z|f|s|l IH|m IH] using json_ind'; intros Hok level rest fuel He Hf;
    (destruct fuel as [|fuel]; [lia|]).
  - done.
  - by destruct b.
  - cbn [dumps_at]. rewrite parse_value_number. by apply parse_int_chars.
  - done.
  - cbn [dumps_at] in *. unfold quote in *. cbn [app length] in *. rewrite length_app in Hf. simpl in Hf.
    cbn [parse_value skip_ws]. change (is_ws dquote) with false. cbv iota beta.
    rewrite <-(assoc_L (++)). cbn [app].
    transitivity (match parse_string fuel (flat_map quote_char s ++ dquote :: rest) with
      Some (t, r') => Some (JStr t, r') | None => None end); [done|].
    rewrite parse_string_quoted by lia. done.
  - destruct l as [|x l]; [done|]. cbn [json_ok] in Hok. rewrite forallb_forall in Hok.
    assert (Forall reads (x :: l)) as Hl.
    { rewrite Forall_forall in IH |- *. intros y Hy. apply IH; [done|]. by apply Hok, list_elem_of_In. }
    pose proof (fun f => parse_items_printed (x :: l) (S level) level rest f ltac:(done) Hl) as Hp.
    destruct (dumps_head (S level) x) as (c & r & Hc & Hws & Hne); [apply Hok; by left|].
    revert Hp Hf. cbn [dumps_at]. generalize (item_separator indent (S level)) as sep. intros sep Hp Hf.
    assert (exists k, joined sep (List.map (dump (S level)) (x :: l)) = c :: k) as [k Hk].
    { cbn [List.map joined]. rewrite Hc. destruct (List.map (dump (S level)) l); eexists; reflexivity. }
    rewrite Hk in *. cbn [app length] in *. rewrite !length_app in Hf. cbn [length] in Hf.
    cbn [parse_value skip_ws]. change (is_ws "[") with false. cbv iota beta.
    rewrite <-!(assoc_L (++)), skip_ws_blanks by apply line_break_blanks. cbn [app skip_ws]. rewrite Hws.
    cbv iota. rewrite decide_False by done. rewrite <-!(assoc_L (++)). cbn [app].
    rewrite Hp; [done|]. rewrite !length_app in *. simpl in *. lia.
  - destruct m as [|x m]; [done|]. cbn [json_ok] in Hok.
    apply andb_true_iff in Hok as [Hnd%bool_decide_eq_true Hok]. rewrite forallb_forall in Hok.
    assert (Forall (fun kv => reads kv.2) (x :: m)) as Hl.
    { rewrite Forall_forall in IH |- *. intros y Hy. apply IH; [done|]. by apply Hok, list_elem_of_In. }
    pose proof (fun f => parse_members_printed (x :: m) (S level) level rest f ltac:(done) Hl) as Hp.
    revert Hp Hf. cbn [dumps_at]. generalize (item_separator indent (S level)) as sep. intros sep Hp Hf.
    assert (exists k, joined sep (List.map (fun kv => quote kv.1 ++ [":"; " "] ++ dump (S level) kv.2) (x :: m))
      = dquote :: k) as [k Hk].
    { cbn [List.map joined]. unfold quote at 1 3. destruct (List.map _ m); eexists; reflexivity. }
    rewrite Hk in *. cbn [app length] in *. rewrite !length_app in Hf. cbn [length] in Hf.
    cbn [parse_value skip_ws]. change (is_ws "{") with false. cbv iota beta.
    rewrite <-!(assoc_L (++)), skip_ws_blanks by apply line_break_blanks. cbn [app skip_ws].
    change (is_ws dquote) with false. cbv iota. rewrite decide_False by done.
    rewrite <-!(assoc_L (++)). cbn [app]. rewrite Hp; [|rewrite !length_app in *; simpl in *; lia].
    by rewrite dict_of_id.
Qed.

(** What is printed is read back, on one line or indented. *)
Lemma loads_dumps_at j : json_ok j = true -> loads (dumps_at indent 0 j) = Ok j.
Proof.
  intros Hok. unfold loads. pose proof (dumps_reads j Hok 0 [] (S (length (dump 0 j))) I ltac:(lia)) as H.
  rewrite app_nil_r in H. rewrite H. done.
Qed.
End RoundTrip.

(** ** What is printed is ASCII *)

Lemma ascii_quote s : ascii_only (quote s).
Proof.
  unfold quote. constructor; [done|]. apply Forall_app. split; [|by repeat constructor].
  induction s as [|c s IH]; [constructor|]. cbn [flat_map]. apply Forall_app. split; [|exact IH].
  destruct c as [[] [] [] [] [] [] [] []]; repeat constructor.
Qed.

Lemma ascii_joined sep l : ascii_only sep -> Forall ascii_only l -> ascii_only (joined sep l).
Proof.
  intros Hs Hl. induction Hl as [|x l Hx Hl IH]; [constructor|]. cbn [joined].
  destruct l; [done|]. apply Forall_app. split; [done|]. by apply Forall_app.
Qed.

Lemma ascii_line_break indent level : ascii_only (line_break indent level).
Proof. destruct indent; [|constructor]. constructor; [done|]. by apply Forall_replicate. Qed.

Lemma ascii_separator indent level : ascii_only (item_separator indent level).
Proof.
  unfold item_separator. destruct indent eqn:Hi; [|by repeat constructor]. constructor; [done|].
  rewrite <-Hi. apply ascii_line_break.
Qed.

Lemma ascii_nat n : ascii_only (nat_chars n).
Proof. unfold nat_chars. induction (N.to_uint n); constructor; done. Qed.

Lemma ascii_dumps indent level j : json_ok j = true -> ascii_only (dumps_at indent level j).
Proof.
  revert level. induction j as [|b|z|f|s|l IH|m IH] using json_ind'; intros level Hok.
  - by repeat constructor.
  - destruct b; by repeat constructor.
  - cbn. unfold int_chars. destruct (z <? 0)%Z; [constructor; [done|]|]; apply ascii_nat.
  - done.
  - apply ascii_quote.
  - destruct l as [|x l]; [by repeat constructor|]. cbn [json_ok] in Hok. rewrite forallb_forall in Hok.
    cbn [dumps_at]. constructor; [done|]. apply Forall_app. split; [apply ascii_line_break|].
    apply Forall_app. split; [|apply Forall_app; split; [apply ascii_line_break|by repeat constructor]].
    apply ascii_joined; [apply ascii_separator|]. apply Forall_forall.
    intros y (v & <- & Hv)%list_elem_of_In%in_map_iff. rewrite Forall_forall in IH.
    apply IH; [by apply list_elem_of_In|by apply Hok].
  - destruct m as [|x m]; [by repeat constructor|]. cbn [json_ok] in Hok.
    apply andb_true_iff in Hok as [_ Hok]. rewrite forallb_forall in Hok.
    cbn [dumps_at]. constructor; [done|]. apply Forall_app. split; [apply ascii_line_break|].
    apply Forall_app. split; [|apply Forall_app; split; [apply ascii_line_break|by repeat constructor]].
    apply ascii_joined; [apply ascii_separator|]. apply Forall_forall.
    intros y (v & <- & Hv)%list_elem_of_In%in_map_iff. rewrite Forall_forall in IH.
    apply Forall_app. split; [apply ascii_quote|]. constructor; [done|]. constructor; [done|].
    apply IH; [by apply list_elem_of_In|by apply Hok].
Qed.

Lemma nat_chars_inj n m : nat_chars n = nat_chars m -> n = m.
Proof.
  intros H. pose proof (take_nat_chars n [] I) as Hn. rewrite H, (take_nat_chars m [] I) in Hn.
  apply (inj Some), (inj2 pair) in Hn as [Hn _]. apply (f_equal N.of_uint) in Hn.
  by rewrite !DecimalN.Unsigned.of_to in Hn.
Qed.

(** ** Reading decimal numbers *)

(** [int(p, 10)] of a text of decimal digits. *)
Definition decimal (p : bytes) : option Z :=
  if forallb (fun c => (48 <=? N_of_ascii c)%N && (N_of_ascii c <=? 57)%N) p
  then Some (foldl (fun acc c => 10 * acc + (Z.of_N (N_of_ascii c) - 48)) 0 p)%Z else None.

Lemma digit_chars n : Forall (fun c => (48 <=? N_of_ascii c)%N && (N_of_ascii c <=? 57)%N = true) (nat_chars n).
Proof. unfold nat_chars. induction (N.to_uint n); constructor; done. Qed.

Lemma digits_without n c : (48 <=? N_of_ascii c)%N && (N_of_ascii c <=? 57)%N = false -> c ∉ nat_chars n.
Proof. intros Hc Hin. pose proof (digit_chars n) as H. rewrite Forall_forall in H. specialize (H c Hin). congruence. Qed.

Lemma decimal_acc d p :
  foldl (fun acc c => 10 * acc + (Z.of_N (N_of_ascii c) - 48))%Z (Z.pos p) (uint_chars d) = Z.pos (Pos.of_uint_acc d p).
Proof.
  revert p. induction d; intros p; cbn [uint_chars foldl Pos.of_uint_acc]; [done|..]; rewrite <- IHd; f_equal;
    match goal with |- context [(Z.of_N ?n - 48)%Z] => let v := eval vm_compute in (Z.of_N n - 48)%Z in
      change (Z.of_N n - 48)%Z with v end; lia.
Qed.

Lemma decimal_uint d :
  foldl (fun acc c => 10 * acc + (Z.of_N (N_of_ascii c) - 48))%Z 0%Z (uint_chars d) = Z.of_N (Pos.of_uint d).
Proof.
  induction d; cbn [uint_chars foldl Pos.of_uint]; [done|exact IHd|..];
    cbn [Z.of_N]; rewrite <- decimal_acc; reflexivity.
Qed.

Lemma decimal_chars n : decimal (nat_chars n) = Some (Z.of_N n).
Proof.
  unfold decimal. rewrite (proj2 (forallb_forall _ _)).
  - f_equal. unfold nat_chars. rewrite decimal_uint. f_equal. apply DecimalN.Unsigned.of_to.
  - intros c Hc%list_elem_of_In. pose proof (digit_chars n) as H. rewrite Forall_forall in H. by apply H.
Qed.

Lemma nat_chars_nonempty n : nat_chars n <> [].
Proof. unfold nat_chars. destruct (to_uint_shape n) as [->|[Hn _]]; [done|]. by destruct (N.to_uint n). Qed.
