(* ===== verification/Files.v ===== *)
(** * The file system

    What the code uses of [pathlib], [open] and [os]: regular files with
    their contents and directories.  A path is the list of its parts; the
    root is the empty list. *)

From Stdlib Require Import Ascii.
From stdpp Require Import gmap sets.
From S2P Require Import Prelude Text.

Definition path : Type := list string.

Record filesystem := Filesystem {
  regular : gmap path bytes;
  directories : gset path;
}.

Definition parent (p : path) : path := take (length p - 1) p.
Definition child (p : path) (name : string) : path := p ++ [name].

Definition is_file (fs : filesystem) (p : path) : bool := bool_decide (is_Some (fs.(regular) !! p)).
Definition is_dir (fs : filesystem) (p : path) : bool := bool_decide (p ∈ fs.(directories)).
Definition path_exists (fs : filesystem) (p : path) : bool := is_file fs p || is_dir fs p.

(** [open(p).read()]. *)
Definition read_file (p : path) : PyM filesystem bytes := fun fs =>
  if is_dir fs p then (Raise IsADirectoryError, fs)
  else match fs.(regular) !! p with
       | Some content => (Ok content, fs)
       | None => (Raise FileNotFoundError, fs)
       end.

Definition put (p : path) (content : bytes) (fs : filesystem) : filesystem :=
  Filesystem (<[p := content]> fs.(regular)) fs.(directories).

(** [open(p, 'w')]: creates the file in an existing directory or truncates it. *)
Definition open_w (p : path) : PyM filesystem unit := fun fs =>
  if is_dir fs p then (Raise IsADirectoryError, fs)
  else if negb (is_dir fs (parent p)) then (Raise FileNotFoundError, fs)
  else (Ok tt, put p [] fs).

(** [with open(p, 'w') as f: f.write(content)]. *)
Definition write_file (p : path) (content : bytes) : PyM filesystem unit :=
  open_w p ;;; modify (put p content).

(** [p.unlink()]. *)
Definition unlink (p : path) : PyM filesystem unit := fun fs =>
  if is_file fs p then (Ok tt, Filesystem (delete p fs.(regular)) fs.(directories))
  else if is_dir fs p then (Raise IsADirectoryError, fs)
  else (Raise FileNotFoundError, fs).

Definition prefixes (p : path) : list path := (fun n => take n p) <$> seq 0 (S (length p)).

(** [p.mkdir(parents=True, exist_ok=True)]. *)
Definition mkdir_parents (p : path) : PyM filesystem unit := fun fs =>
  if is_file fs p then (Raise FileExistsError, fs)
  else if existsb (is_file fs) (prefixes p) then (Raise NotADirectoryError, fs)
  else (Ok tt, Filesystem fs.(regular) (list_to_set (prefixes p) ∪ fs.(directories))).

(** [p.mkdir()]. *)
Definition mkdir (p : path) : PyM filesystem unit := fun fs =>
  if path_exists fs p then (Raise FileExistsError, fs)
  else if negb (is_dir fs (parent p)) then (Raise FileNotFoundError, fs)
  else (Ok tt, Filesystem fs.(regular) ({[p]} ∪ fs.(directories))).

(** The files of a directory, [p.iterdir()] without its directories, in the
    order of the file system. *)
Definition files_in (d : path) (fs : filesystem) : list (path * bytes) :=
  filter (fun kv => parent kv.1 = d /\ kv.1 <> []) (map_to_list fs.(regular)).

(** [p.iterdir()]. *)
Definition entries (d : path) (fs : filesystem) : list path :=
  filter (fun p => p <> [] /\ parent p = d) ((map_to_list fs.(regular)).*1 ++ elements fs.(directories)).

Definition iterdir (d : path) : PyM filesystem (list path) := fun fs =>
  if is_dir fs d then (Ok (entries d fs), fs)
  else if is_file fs d then (Raise NotADirectoryError, fs)
  else (Raise FileNotFoundError, fs).

(** [str(p)] of an absolute path, and [Path(text)]; the parts of a text have no
    dots to resolve. *)
Definition path_text (p : path) : bytes :=
  match p with
  | [] => ["/"%char]
  | _ => flat_map (fun part => "/"%char :: to_bytes part) p
  end.
Definition path_of_text (text : bytes) : path :=
  String.string_of_list_ascii <$> filter (fun part => part <> []) (split ["/"%char] text).

(** The parts of a path that exists. *)
Definition plain_part (part : string) : Prop := part <> ""%string /\ "/"%char ∉ to_bytes part.

(** Code that uses the file system besides another part [W] of the world. *)
Definition in_world {W A} (m : PyM W A) : PyM (W * filesystem) A := fun s =>
  let '(r, w) := m s.1 in (r, (w, s.2)).
Definition in_files {W A} (m : PyM filesystem A) : PyM (W * filesystem) A := fun s =>
  let '(r, fs) := m s.2 in (r, (s.1, fs)).

(** ** Lemmas *)

Lemma read_put p content fs :
  is_dir fs p = false -> read_file p (put p content fs) = (Ok content, put p content fs).
Proof.
  intros Hd. unfold read_file. change (is_dir (put p content fs) p) with (is_dir fs p). rewrite Hd.
  cbn. by rewrite lookup_insert_eq.
Qed.

Lemma write_file_ok p content fs fs' :
  write_file p content fs = (Ok tt, fs') ->
  (is_dir fs p = false /\ is_dir fs (parent p) = true) /\ fs' = put p content fs.
Proof.
  unfold write_file, py_bind, open_w, modify. destruct (is_dir fs p); [done|].
  destruct (is_dir fs (parent p)); [|done]. cbn. intros; simplify_eq. split; [done|].
  unfold put. cbn. by rewrite insert_insert_eq.
Qed.

(** What was written is read back, and no other file changes. *)
Lemma write_read p content fs fs' :
  write_file p content fs = (Ok tt, fs') ->
  read_file p fs' = (Ok content, fs') /\
  (forall q, q <> p -> fs'.(regular) !! q = fs.(regular) !! q) /\ fs'.(directories) = fs.(directories).
Proof.
  intros [[Hd _] ->]%write_file_ok. split; [by apply read_put|]. split; [|done].
  intros q Hq. cbn. by rewrite lookup_insert_ne.
Qed.

Lemma read_file_ok p fs content fs' :
  read_file p fs = (Ok content, fs') -> fs.(regular) !! p = Some content /\ fs' = fs.
Proof. unfold read_file. repeat case_match; intros; by simplify_eq. Qed.

Lemma write_file_allowed p content fs :
  is_dir fs p = false -> is_dir fs (parent p) = true -> write_file p content fs = (Ok tt, put p content fs).
Proof.
  intros Hd Hp. unfold write_file, py_bind, open_w, modify. rewrite Hd, Hp. cbn.
  unfold put. cbn. by rewrite insert_insert_eq.
Qed.

Lemma mkdir_parents_regular p fs r fs' :
  mkdir_parents p fs = (r, fs') -> fs'.(regular) = fs.(regular).
Proof. unfold mkdir_parents. repeat case_match; intros; by simplify_eq. Qed.

Lemma path_in_prefixes p : p ∈ prefixes p.
Proof.
  unfold prefixes. apply list_elem_of_fmap. exists (length p). split; [by rewrite firstn_all|].
  apply elem_of_seq. lia.
Qed.

Lemma mkdir_parents_ok p fs fs' : mkdir_parents p fs = (Ok tt, fs') -> is_dir fs' p = true.
Proof.
  unfold mkdir_parents. repeat case_match; intros; simplify_eq. apply bool_decide_eq_true. cbn [directories].
  apply elem_of_union_l, elem_of_list_to_set, path_in_prefixes.
Qed.

Lemma prefix_length q p : q ∈ prefixes p -> length q <= length p.
Proof.
  unfold prefixes. intros (n & -> & _)%list_elem_of_fmap. rewrite length_take. lia.
Qed.

(** What [mkdir_parents] adds is no longer than its path. *)
Lemma mkdir_parents_new p fs r fs' q :
  mkdir_parents p fs = (r, fs') -> is_dir fs' q = true -> is_dir fs q = true \/ length q <= length p.
Proof.
  unfold mkdir_parents. repeat case_match; intros Heq Hq; simplify_eq; [by left..|].
  unfold is_dir in *. cbn [directories] in Hq. apply bool_decide_eq_true in Hq.
  apply elem_of_union in Hq as [Hq|Hq].
  - right. apply elem_of_list_to_set in Hq. by apply prefix_length.
  - left. by apply bool_decide_eq_true.
Qed.

Lemma parent_child d n : parent (child d n) = d.
Proof.
  unfold parent, child. rewrite length_app. cbn [length].
  replace (length d + 1 - 1) with (length d) by lia. by rewrite take_app_length.
Qed.

Lemma child_inj d n n' : child d n = child d n' -> n = n'.
Proof. unfold child. intros H%app_inj_2; [|done]. by destruct H as [_ [=]]. Qed.

Lemma path_exists_false fs p :
  path_exists fs p = false -> fs.(regular) !! p = None /\ is_dir fs p = false.
Proof.
  unfold path_exists, is_file. intros [H ?]%orb_false_iff. split; [|done].
  apply bool_decide_eq_false, eq_None_not_Some in H. done.
Qed.

Lemma write_file_raise p content fs e fs' : write_file p content fs = (Raise e, fs') -> fs' = fs.
Proof.
  unfold write_file, py_bind, open_w, modify. destruct (is_dir fs p); [by intros [= _ <-]|].
  destruct (is_dir fs (parent p)); cbn; [done|by intros [= _ <-]].
Qed.

Lemma string_to_bytes part : String.string_of_list_ascii (to_bytes part) = part.
Proof. apply String.string_of_list_ascii_of_string. Qed.

Lemma path_of_part text : path_of_text ("/"%char :: text) = path_of_text text.
Proof.
  unfold path_of_text. change ("/"%char :: text) with ([] ++ "/"%char :: text).
  rewrite split_first by apply not_elem_of_nil. by rewrite filter_cons_False by (intros H; by apply H).
Qed.

Lemma path_of_parts part text :
  plain_part part -> (text = [] \/ exists rest, text = "/"%char :: rest) ->
  path_of_text (to_bytes part ++ text) = part :: path_of_text text.
Proof.
  intros [Hne Hs] Ht. assert (to_bytes part <> []) as Hb by (by destruct part).
  destruct Ht as [->|[rest ->]].
  - rewrite app_nil_r. unfold path_of_text. rewrite split_absent by done. rewrite filter_cons_True by done.
    cbn [fmap list_fmap]. by rewrite string_to_bytes.
  - rewrite path_of_part. unfold path_of_text. rewrite split_first by done. rewrite filter_cons_True by done.
    cbn [fmap list_fmap]. by rewrite string_to_bytes.
Qed.

(** A path is read back from its text. *)
Lemma path_of_path_text p : Forall plain_part p -> path_of_text (path_text p) = p.
Proof.
  assert (forall q, Forall plain_part q -> path_of_text (flat_map (fun part => "/"%char :: to_bytes part) q) = q) as H.
  { induction 1 as [|part q Hp Hq IH]; [reflexivity|]. cbn [flat_map]. rewrite <- app_comm_cons, path_of_part.
    rewrite path_of_parts; [by rewrite IH|done|]. destruct q as [|part' q]; [by left|]. right. cbn [flat_map]. by eexists. }
  intros Hp. destruct p as [|part p]; [reflexivity|]. by apply (H (part :: p)).
Qed.
