(* ===== verification/Base64.v ===== *)
(** * The standard library's base64

    [base64.b64encode] and [b64decode] with their URL-safe variants, byte by
    byte as [binascii] does them, and the round trip. *)

From Stdlib Require Import Ascii.
From S2P Require Import Prelude Text.

(** A group of six bits, the most significant first. *)
Definition sextet : Type := bool * bool * bool * bool * bool * bool.

Definition alphabet : list ascii :=
  to_bytes "ABCDEFGHIJKLMNOPQRSTUVWXYZabcdefghijklmnopqrstuvwxyz0123456789+/".

Definition sextet_index (s : sextet) : nat :=
  let '(a, b, c, d, e, f) := s in
  32 * Nat.b2n a + 16 * Nat.b2n b + 8 * Nat.b2n c + 4 * Nat.b2n d + 2 * Nat.b2n e + Nat.b2n f.

Definition char_of (s : sextet) : ascii := default "A"%char (alphabet !! sextet_index s).

Fixpoint index_of (c : ascii) (l : list ascii) : option nat :=
  match l with
  | [] => None
  | d :: l' => if Ascii.eqb c d then Some 0 else S <$> index_of c l'
  end.

Definition sextet_of_index (n : nat) : sextet :=
  (Nat.testbit n 5, Nat.testbit n 4, Nat.testbit n 3, Nat.testbit n 2, Nat.testbit n 1, Nat.testbit n 0).

Definition sextet_of (c : ascii) : option sextet := sextet_of_index <$> index_of c alphabet.

Definition pad : ascii := "="%char.

(** ** Encoding *)

Fixpoint b64encode (b : bytes) : bytes :=
  match b with
  | [] => []
  | [Ascii a0 a1 a2 a3 a4 a5 a6 a7] =>
      [char_of (a7, a6, a5, a4, a3, a2); char_of (a1, a0, false, false, false, false); pad; pad]
  | [Ascii a0 a1 a2 a3 a4 a5 a6 a7; Ascii b0 b1 b2 b3 b4 b5 b6 b7] =>
      [char_of (a7, a6, a5, a4, a3, a2); char_of (a1, a0, b7, b6, b5, b4);
       char_of (b3, b2, b1, b0, false, false); pad]
  | Ascii a0 a1 a2 a3 a4 a5 a6 a7 :: Ascii b0 b1 b2 b3 b4 b5 b6 b7 :: Ascii c0 c1 c2 c3 c4 c5 c6 c7 :: b' =>
      char_of (a7, a6, a5, a4, a3, a2) :: char_of (a1, a0, b7, b6, b5, b4) ::
      char_of (b3, b2, b1, b0, c7, c6) :: char_of (c5, c4, c3, c2, c1, c0) :: b64encode b'
  end.

(** ** Decoding *)

(** What is left of the present group of four characters. *)
Inductive quad :=
  | Q0
  | Q1 (s : sextet)
  | Q2 (a b c d : bool)
  | Q3 (a b : bool).

Definition quad_pos (q : quad) : nat := match q with Q0 => 0 | Q1 _ => 1 | Q2 _ _ _ _ => 2 | Q3 _ _ => 3 end.

(** One character of the alphabet: the next state and the byte it completes. *)
Definition feed (q : quad) (s : sextet) : quad * option ascii :=
  let '(f, e, d, c, b, a) := s in
  match q with
  | Q0 => (Q1 s, None)
  | Q1 (f', e', d', c', b', a') => (Q2 d c b a, Some (Ascii e f a' b' c' d' e' f'))
  | Q2 d' c' b' a' => (Q3 b a, Some (Ascii c d e f a' b' c' d'))
  | Q3 b' a' => (Q0, Some (Ascii a b c d e f a' b'))
  end.

(** [binascii.a2b_base64]: other characters are skipped, a complete padding
    ends the input. *)
Fixpoint a2b_base64 (q : quad) (pads : nat) (l : bytes) : result bytes :=
  match l with
  | [] => match q with Q0 => Ok [] | _ => Raise ValueError end
  | ch :: l' =>
      if Ascii.eqb ch pad then
        if 2 <=? quad_pos q then
          if 4 <=? quad_pos q + S pads then Ok [] else a2b_base64 q (S pads) l'
        else a2b_base64 q pads l'
      else match sextet_of ch with
           | None => a2b_base64 q pads l'
           | Some s =>
               let '(q', byte) := feed q s in
               let? rest := a2b_base64 q' 0 l' in
               Ok (match byte with Some x => x :: rest | None => rest end)
           end
  end.

Definition b64decode (l : bytes) : result bytes := a2b_base64 Q0 0 l.

Definition translate (tbl : list (ascii * ascii)) (c : ascii) : ascii :=
  default c (snd <$> find (fun kv => Ascii.eqb c kv.1) tbl).

Definition urlsafe_b64encode (b : bytes) : bytes :=
  translate [("+", "-"); ("/", "_")]%char <$> b64encode b.

(** Of a [str]: what is not ASCII is refused. *)
Definition urlsafe_b64decode (s : bytes) : result bytes :=
  if forallb (fun c => (N_of_ascii c <? 128)%N) s
  then b64decode (translate [("-", "+"); ("_", "/")]%char <$> s)
  else Raise ValueError.

(** ** The round trip *)

Lemma sextet_char s : sextet_of (char_of s) = Some s.
Proof. by destruct s as [[[[[[] []] []] []] []] []]. Qed.

Lemma char_not_pad s : Ascii.eqb (char_of s) pad = false.
Proof. by destruct s as [[[[[[] []] []] []] []] []]. Qed.

Lemma decode_char q pads s l :
  a2b_base64 q pads (char_of s :: l) =
    (let? rest := a2b_base64 (feed q s).1 0 l in
     Ok (match (feed q s).2 with Some x => x :: rest | None => rest end)).
Proof. cbn [a2b_base64]. rewrite char_not_pad, sextet_char. by destruct (feed q s). Qed.

(** Bytes are taken three at a time. *)
Lemma bytes_ind3 (P : bytes -> Prop) :
  P [] -> (forall a, P [a]) -> (forall a b, P [a; b]) ->
  (forall a b c l, P l -> P (a :: b :: c :: l)) -> forall l, P l.
Proof.
  intros H0 H1 H2 H3 l. enough (P l /\ (forall a, P (a :: l)) /\ forall a b, P (a :: b :: l)) as [? _] by done.
  induction l as [|c l (IH0 & IH1 & IH2)]; [done|]. auto.
Qed.

Lemma b64_roundtrip b : b64decode (b64encode b) = Ok b.
Proof.
  unfold b64decode. induction b as [|a|a b|a b c l IH] using bytes_ind3;
    [done|destruct a|destruct a, b|destruct a, b, c; cbn [b64encode]];
    cbn [b64encode]; repeat (rewrite decode_char; cbn [feed fst snd]); try reflexivity.
  by rewrite IH.
Qed.

Lemma b64_chars b : Forall (fun c => c = pad \/ exists s, c = char_of s) (b64encode b).
Proof.
  induction b as [|a|a b|a b c l IH] using bytes_ind3;
    [done|destruct a|destruct a, b|destruct a, b, c; cbn [b64encode]]; cbn [b64encode];
    repeat (apply Forall_cons; split; [eauto|]); done.
Qed.

Lemma urlsafe_char c : (c = pad \/ exists s, c = char_of s) ->
  translate [("-", "+"); ("_", "/")]%char (translate [("+", "-"); ("/", "_")]%char c) = c /\
  (N_of_ascii (translate [("+", "-"); ("/", "_")]%char c) <? 128)%N = true.
Proof. intros [->|[s ->]]; [done|]. by destruct s as [[[[[[] []] []] []] []] []]. Qed.

Lemma urlsafe_roundtrip b : urlsafe_b64decode (urlsafe_b64encode b) = Ok b.
Proof.
  unfold urlsafe_b64decode, urlsafe_b64encode. pose proof (b64_chars b) as Hc.
  rewrite (proj2 (forallb_forall _ _)).
  - rewrite <- list_fmap_compose.
    assert ((translate [("-", "+"); ("_", "/")]%char ∘ translate [("+", "-"); ("/", "_")]%char) <$> b64encode b
      = id <$> b64encode b) as ->.
    { apply list_fmap_ext. intros i c Hi. apply urlsafe_char. rewrite Forall_forall in Hc.
      eapply Hc, list_elem_of_lookup_2, Hi. }
    rewrite list_fmap_id. apply b64_roundtrip.
  - intros c (x & -> & Hx)%list_elem_of_In%list_elem_of_fmap. rewrite Forall_forall in Hc.
    by apply urlsafe_char, Hc.
Qed.

Example encode_word : urlsafe_b64encode (to_bytes "any carnal pleas") = to_bytes "YW55IGNhcm5hbCBwbGVhcw==".
Proof. reflexivity. Qed.
