(* ===== verification/Registry.v ===== *)
(** * nulink/blockchain/eth/registry.py

    The contract registry: a JSON list of records [name, version, address,
    abi] kept in a file or in memory.  Enrolling and searching are written
    against [RegistryStore], which the file, the temporary and the in-memory
    registry implement; the chain of sources a registry is published by comes
    last. *)

From stdpp Require Import gmap.
From S2P Require Import Prelude Text Json Files.

(** [blake2b(text).digest().hex()]. *)
Class Digest := { blake2b_hex : bytes -> bytes }.

(** What [BaseContractRegistry] leaves to its subclasses, and its [_id]. *)
Class RegistryStore (S : Type) := {
  read : PyM S json;
  write : json -> PyM S unit;
  get_id : S -> option bytes;
  set_id : option bytes -> S -> S;
}.

Module Registry.

(** ** Python on JSON values *)

(** [iter(j)]. *)
Definition iter_json (j : json) : result (list json) :=
  match j with
  | JArr l => Ok l
  | JObj m => Ok ((fun kv => JStr kv.1) <$> m)
  | JStr s => Ok ((fun c => JStr [c]) <$> s)
  | _ => Raise TypeError
  end.

(** [name, version, address, abi = contract]. *)
Definition unpack (contract : json) : result (json * json * json * json) :=
  let? l := iter_json contract in
  match l with
  | [name; version; address; abi] => Ok (name, version, address, abi)
  | _ => Raise ValueError
  end.

(** [x == j] for an optional string. *)
Definition py_eq (x : option bytes) (j : json) : bool :=
  match x, j with
  | None, JNull => true
  | Some s, JStr t => bool_decide (s = t)
  | _, _ => false
  end.

(** [bool(x)]. *)
Definition truthy (x : option bytes) : bool :=
  match x with None | Some [] => false | Some _ => true end.

(** [j[i]]. *)
Definition index (j : json) (i : nat) : result json :=
  match j with
  | JArr l => match l !! i with Some x => Ok x | None => Raise IndexError end
  | JStr s => match s !! i with Some c => Ok (JStr [c]) | None => Raise IndexError end
  | JObj _ => Raise KeyError
  | _ => Raise TypeError
  end.

(** [l.append(x)]: only lists have it. *)
Definition append (j x : json) : result json :=
  match j with JArr l => Ok (JArr (l ++ [x])) | _ => Raise AttributeError end.

(** ** BaseContractRegistry *)

Section Base.
Context {S : Type} `{!Digest, !RegistryStore S}.

(** The property [id]: computed once, until the next write. *)
Definition id : PyM S bytes := fun s =>
  match get_id s with
  | Some (c :: cs) => (Ok (c :: cs), s)
  | _ =>
      (data <- read ;;
       let i := blake2b_hex (dumps data) in
       modify (set_id (Some i)) ;;;
       py_ret i) s
  end.

(** [enrolled_names] and [enrolled_addresses], drawn one by one. *)
Definition enrolled (i : nat) : PyM S (list (result json)) :=
  data <- read ;;
  records <- lift (iter_json data) ;;
  py_ret ((fun record => index record i) <$> records).
Definition enrolled_names : PyM S (list (result json)) := enrolled 0.
Definition enrolled_addresses : PyM S (list (result json)) := enrolled 2.

Definition enroll (contract_name contract_address contract_abi contract_version : json) : PyM S unit :=
  let contract_data := JArr [contract_name; contract_version; contract_address; contract_abi] in
  registry_data <- try_except read [RegistryError] (fun _ => py_ret (JArr [])) ;;
  registry_data <- lift (append registry_data contract_data) ;;
  write registry_data.

(** What [search] returns: all records of a name, or the one of an address. *)
Inductive found := Records (l : list json) | Record1 (r : json).

(** The condition of the loop of [search]. *)
Definition matches (contract_name contract_version contract_address : option bytes)
    (name version address : json) : bool :=
  py_eq contract_address address ||
  py_eq contract_name name &&
    (match contract_version with None => true | Some _ => py_eq contract_version version end).

Fixpoint search_loop (contract_name contract_version contract_address : option bytes) (records : list json)
    : result (list json) :=
  match records with
  | [] => Ok []
  | contract :: records' =>
      let? fields := unpack contract in
      let '(name, version, address, _) := fields in
      let? rest := search_loop contract_name contract_version contract_address records' in
      Ok (if matches contract_name contract_version contract_address name version address
          then contract :: rest else rest)
  end.

Definition search (contract_name contract_version contract_address : option bytes) : PyM S found :=
  if negb (xorb (truthy contract_name) (truthy contract_address)) then raise ValueError
  else if truthy contract_version && negb (truthy contract_name) then raise ValueError
  else
    registry_data <- read ;;
    contracts <-
      lift (match (let? records := iter_json registry_data in
                   search_loop contract_name contract_version contract_address records) with
            | Raise e => Raise (if catches [ValueError] e then InvalidRegistry else e)
            | r => r
            end) ;;
    match contracts with
    | [] => raise UnknownContract
    | contract :: more =>
        if truthy contract_address && bool_decide (more <> []) then raise InvalidRegistry
        else py_ret (if truthy contract_name then Records contracts else Record1 contract)
    end.

End Base.

(** ** LocalContractRegistry *)

(** [__filepath]: a [Path], or the [str] of [tempfile.mkstemp]. *)
Inductive filepath_value := PathObject (p : path) | PathString (p : path).

Definition path_of (v : filepath_value) : path :=
  match v with PathObject p | PathString p => p end.

Record local_registry := Local {
  filepath : filepath_value;
  _multi_contract : bool;
  _id : option bytes;
  disk : filesystem;
}.
Definition set_disk (fs : filesystem) (s : local_registry) : local_registry :=
  Local s.(filepath) s.(_multi_contract) s.(_id) fs.
Definition on_disk {A} (m : PyM filesystem A) : PyM local_registry A := fun s =>
  let '(r, fs) := m s.(disk) in (r, set_disk fs s).

(** A method of [Path]: a [str] has no such attribute. *)
Definition as_path : PyM local_registry path := fun s =>
  match s.(filepath) with PathObject p => (Ok p, s) | PathString _ => (Raise AttributeError, s) end.

Definition local_read : PyM local_registry json := fun s =>
  (file_data <- try_except (on_disk (read_file (path_of s.(filepath)))) [FileNotFoundError] (fun _ => raise NoRegistry) ;;
   match file_data with
   | [] => py_ret (if s.(_multi_contract) then JArr [] else JObj [])
   | _ => match loads file_data with
          | Ok registry_data => py_ret registry_data
          | Raise e => raise (if catches [JSONDecodeError] e then RegistryError else e)
          end
   end) s.

Definition local_write (registry_data : json) : PyM local_registry unit :=
  p <- as_path ;;
  on_disk (mkdir_parents (parent p)) ;;;
  on_disk (write_file p (dumps registry_data)) ;;;
  modify (fun s => Local s.(filepath) s.(_multi_contract) None s.(disk)).

#[global] Instance local_store : RegistryStore local_registry := {
  read := local_read;
  write := local_write;
  get_id := _id;
  set_id := fun i s => Local s.(filepath) s.(_multi_contract) i s.(disk);
}.

Definition _swap_registry (p : filepath_value) : PyM local_registry bool :=
  modify (fun s => Local p s.(_multi_contract) s.(_id) s.(disk)) ;;; py_ret true.

Definition local_destroy : PyM local_registry unit := p <- as_path ;; on_disk (unlink p).

(** ** TemporaryContractRegistry *)

(** [temp_filepath] is [None] once it is [REGISTRY_COMMITTED]. *)
Record temporary_registry := Temporary {
  base : local_registry;
  temp_filepath : option path;
}.

Definition on_base {A} (m : PyM local_registry A) : PyM temporary_registry A := fun s =>
  let '(r, b) := m s.(base) in (r, Temporary b s.(temp_filepath)).

(** [__init__]: [mkstemp] creates the empty file [p] and returns its name. *)
Definition new_temporary (p : path) (multi : bool) (fs : filesystem) : temporary_registry :=
  Temporary (Local (PathString p) multi None (put p [] fs)) (Some p).

#[global] Instance temporary_store : RegistryStore temporary_registry := {
  read := on_base local_read;
  write := fun j => on_base (local_write j);
  get_id := fun s => s.(base).(_id);
  set_id := fun i s => Temporary (set_id i s.(base)) s.(temp_filepath);
}.

(** [clear] writes the empty text and leaves [_id] alone. *)
Definition temporary_clear : PyM temporary_registry unit := fun s =>
  on_base (on_disk (write_file (path_of s.(base).(filepath)) [])) s.

(** [shutil.copy], which refuses to copy a file to itself. *)
Definition copy_temp (src : option path) (dst : path) : PyM temporary_registry unit :=
  match src with
  | None => raise TypeError
  | Some p =>
      if decide (p = dst) then raise OSError
      else content <- on_base (on_disk (read_file p)) ;; on_base (on_disk (write_file dst content))
  end.

Definition temporary_commit (target : path) : PyM temporary_registry path :=
  on_base (_swap_registry (PathObject target)) ;;;
  there <- gets (fun s => path_exists s.(base).(disk) target) ;;
  (if there : bool then temporary_clear else py_ret tt) ;;;
  src <- gets temp_filepath ;;
  copy_temp src target ;;;
  modify (fun s => Temporary s.(base) None) ;;;
  py_ret target.

(** ** InMemoryContractRegistry *)

(** [__registry_data]: [None], a text, or the [dict] that [_destroy] leaves. *)
Inductive memory := MNone | MText (text : bytes) | MDict.

Record memory_registry := InMemory {
  registry_data : memory;
  m_multi_contract : bool;
  m_id : option bytes;
  m_disk : filesystem;
}.
Definition set_data (d : memory) (i : option bytes) (s : memory_registry) : memory_registry :=
  InMemory d s.(m_multi_contract) i s.(m_disk).

Definition memory_read : PyM memory_registry json := fun s =>
  match s.(registry_data) with
  | MText text => (loads text, s)
  | MNone => (Ok (if s.(m_multi_contract) then JArr [] else JObj []), s)
  | MDict => (Raise TypeError, s)
  end.

Definition memory_write (j : json) : PyM memory_registry unit :=
  modify (set_data (MText (dumps j)) None).

#[global] Instance memory_store : RegistryStore memory_registry := {
  read := memory_read;
  write := memory_write;
  get_id := m_id;
  set_id := fun i s => InMemory s.(registry_data) s.(m_multi_contract) i s.(m_disk);
}.

Definition memory_clear : PyM memory_registry unit := modify (fun s => set_data MNone s.(m_id) s).
Definition memory_destroy : PyM memory_registry unit := modify (fun s => set_data MDict s.(m_id) s).
Definition memory_swap_registry : PyM memory_registry bool := raise NotImplementedError.

Definition on_memory_disk {A} (m : PyM filesystem A) : PyM memory_registry A := fun s =>
  let '(r, fs) := m s.(m_disk) in (r, InMemory s.(registry_data) s.(m_multi_contract) s.(m_id) fs).

Section Commit.
Context `{!Digest}.

(** The [id] of the registry in the file that is in the way. *)
Definition existing_id (target : path) : PyM memory_registry bytes := fun s =>
  let '(r, l) := id (Local (PathObject target) true None s.(m_disk)) in
  (r, InMemory s.(registry_data) s.(m_multi_contract) s.(m_id) l.(disk)).

Definition memory_commit (default_path : path) (target : option path) (overwrite : bool)
    : PyM memory_registry path :=
  let p := default default_path target in
  there <- gets (fun s => path_exists s.(m_disk) p) ;;
  if (there : bool) && negb overwrite then existing_id p ;;; id ;;; raise CantOverwriteRegistry
  else
    on_memory_disk (open_w p) ;;;
    data <- gets registry_data ;;
    match data with
    | MText text => on_memory_disk (modify (put p text)) ;;; py_ret p
    | _ => raise TypeError
    end.
End Commit.

(** ** Refinement: a registry is a log of records

    The abstract registry is the list of its records in the order of their
    enrollment. *)

Record record := Record_ {
  r_name : bytes;
  r_version : bytes;
  r_address : bytes;
  r_abi : json;
}.

Definition record_json (r : record) : json :=
  JArr [JStr r.(r_name); JStr r.(r_version); JStr r.(r_address); r.(r_abi)].
Definition log_json (rs : list record) : json := JArr (record_json <$> rs).

(** What a store must do: what was written is what is read. *)
Class RegistryLaws (S : Type) `{!RegistryStore S} := {
  write_read : forall j s s', json_ok j = true -> write j s = (Ok tt, s') ->
    read s' = (Ok j, s') /\ get_id s' = None;
}.

(** The store [s] holds the log [rs]. *)
Definition holds {S} `{!RegistryStore S} (rs : list record) (s : S) : Prop :=
  read s = (Ok (log_json rs), s) /\ Forall (fun r => json_ok r.(r_abi) = true) rs.

Definition by_name (n : bytes) (v : option bytes) (r : record) : Prop :=
  r.(r_name) = n /\ (v = None \/ v = Some r.(r_version)).
Definition by_address (a : bytes) (r : record) : Prop := r.(r_address) = a.

#[global] Instance by_name_dec n v r : Decision (by_name n v r).
Proof. unfold by_name. apply _. Defined.
#[global] Instance by_address_dec a r : Decision (by_address a r).
Proof. unfold by_address. apply _. Defined.

Lemma search_loop_log n v a rs :
  search_loop n v a (record_json <$> rs) =
  Ok (record_json <$> filter (fun r => matches n v a (JStr r.(r_name)) (JStr r.(r_version)) (JStr r.(r_address)) = true) rs).
Proof.
  induction rs as [|r rs IH]; [done|]. rewrite fmap_cons. simpl. rewrite IH. simpl. rewrite filter_cons.
  case_decide as Hd; [by rewrite Hd|]. apply not_true_iff_false in Hd. by rewrite Hd.
Qed.

Lemma filter_name n v (rs : list record) :
  filter (fun r => matches (Some n) v None (JStr r.(r_name)) (JStr r.(r_version)) (JStr r.(r_address)) = true) rs =
  filter (by_name n v) rs.
Proof.
  apply list_filter_iff. intros r. unfold matches, by_name.
  destruct v as [v|]; simpl; rewrite ?andb_true_iff, ?andb_true_r, ?bool_decide_eq_true;
    intuition congruence.
Qed.

Lemma filter_address a (rs : list record) :
  filter (fun r => matches None None (Some a) (JStr r.(r_name)) (JStr r.(r_version)) (JStr r.(r_address)) = true) rs =
  filter (by_address a) rs.
Proof.
  apply list_filter_iff. intros r. unfold matches, by_address. simpl.
  rewrite orb_false_r, bool_decide_eq_true. intuition congruence.
Qed.

Section Log.
Context {S : Type} `{!Digest, !RegistryStore S}.

Lemma search_by_name n v rs (s : S) :
  n <> [] -> holds rs s ->
  search (Some n) v None s =
  match filter (by_name n v) rs with
  | [] => (Raise UnknownContract, s)
  | l => (Ok (Records (record_json <$> l)), s)
  end.
Proof.
  intros Hn [Hs _]. unfold search. destruct n as [|c n]; [done|]. cbn [truthy xorb negb].
  rewrite andb_false_r. unfold py_bind at 1. rewrite Hs. unfold log_json. cbn [iter_json rbind].
  rewrite search_loop_log, filter_name. unfold py_bind, lift.
  by destruct (filter (by_name (c :: n) v) rs).
Qed.

Lemma search_by_address a rs (s : S) :
  a <> [] -> holds rs s ->
  search None None (Some a) s =
  match filter (by_address a) rs with
  | [] => (Raise UnknownContract, s)
  | [r] => (Ok (Record1 (record_json r)), s)
  | _ => (Raise InvalidRegistry, s)
  end.
Proof.
  intros Ha [Hs _]. unfold search. destruct a as [|c a]; [done|]. cbn [truthy xorb negb andb].
  unfold py_bind at 1. rewrite Hs. unfold log_json. cbn [iter_json rbind].
  rewrite search_loop_log, filter_address. unfold py_bind, lift.
  by destruct (filter (by_address (c :: a)) rs) as [|r1 [|r2 l]].
Qed.

Lemma json_ok_log rs :
  Forall (fun r => json_ok r.(r_abi) = true) rs -> json_ok (log_json rs) = true.
Proof.
  intros Hall. unfold log_json. cbn [json_ok]. apply forallb_forall.
  intros j Hj%list_elem_of_In. apply list_elem_of_fmap in Hj as (r & -> & Hr).
  rewrite Forall_forall in Hall. simpl. by rewrite (Hall r Hr).
Qed.

Lemma enroll_holds `{!RegistryLaws S} rs r (s s' : S) :
  holds rs s -> json_ok r.(r_abi) = true ->
  enroll (JStr r.(r_name)) (JStr r.(r_address)) r.(r_abi) (JStr r.(r_version)) s = (Ok tt, s') ->
  holds (rs ++ [r]) s' /\ get_id s' = None.
Proof.
  intros [Hs Hok] Hr. unfold enroll, py_bind, try_except, lift. rewrite Hs. cbn [append log_json].
  intros Hw. assert (Forall (fun r => json_ok r.(r_abi) = true) (rs ++ [r])) as Hall
    by (apply Forall_app; by repeat constructor).
  replace (JArr ((record_json <$> rs) ++ _)) with (log_json (rs ++ [r])) in Hw
    by (unfold log_json; by rewrite fmap_app).
  apply write_read in Hw as [Hread Hid]; [|by apply json_ok_log]. done.
Qed.

(** C31.  A registry implements the log of its records: enrolling appends to the
    log and forgets the cached id; a search by name finds exactly the records
    of that name, and version if one is asked for, in the order of their
    enrollment; a search by address finds the record if there is one,
    [UnknownContract] if there is none, and refuses an ambiguous one. *)
Theorem registry_refines_log `{!RegistryLaws S} rs r (s s' : S) :
  holds rs s -> json_ok r.(r_abi) = true ->
  enroll (JStr r.(r_name)) (JStr r.(r_address)) r.(r_abi) (JStr r.(r_version)) s = (Ok tt, s') ->
  holds (rs ++ [r]) s' /\ get_id s' = None /\
  (forall n v, n <> [] -> search (Some n) v None s' =
     match filter (by_name n v) (rs ++ [r]) with
     | [] => (Raise UnknownContract, s')
     | l => (Ok (Records (record_json <$> l)), s')
     end) /\
  (forall a, a <> [] -> search None None (Some a) s' =
     match filter (by_address a) (rs ++ [r]) with
     | [] => (Raise UnknownContract, s')
     | [r] => (Ok (Record1 (record_json r)), s')
     | _ => (Raise InvalidRegistry, s')
     end).
Proof.
  intros Hs Hr He. destruct (enroll_holds rs r s s' Hs Hr He) as [Hh Hid].
  split_and!; [done|done| |]; intros; [by apply search_by_name|by apply search_by_address].
Qed.
End Log.

(** *** The three stores *)

Lemma dumps_not_empty j : json_ok j = true -> exists c r, dumps j = c :: r.
Proof. intros Hj. destruct (dumps_head None 0 j Hj) as (c & r & H & _). by exists c, r. Qed.

Lemma local_write_read j s s' :
  json_ok j = true -> local_write j s = (Ok tt, s') ->
  local_read s' = (Ok j, s') /\ s'.(_id) = None /\ s'.(filepath) = s.(filepath).
Proof.
  intros Hj. unfold local_write, py_bind, as_path, on_disk, modify. destruct (filepath s) as [p|p] eqn:Hp; [|done].
  destruct (mkdir_parents (parent p) (disk s)) as [[[]|e] fs1]; [|done]. cbn [disk set_disk].
  destruct (write_file p (dumps j) fs1) as [[[]|e] fs2] eqn:Hw; [|done]. intros; simplify_eq.
  cbn [_id filepath set_disk disk]. rewrite Hp. split_and!; [|done|done].
  apply Files.write_read in Hw as [Hread _].
  unfold local_read, py_bind, try_except, on_disk. cbn [filepath disk path_of set_disk]. cbn [path_of].
  rewrite Hread. destruct (dumps_not_empty j Hj) as (c & r & Hd).
  pose proof (loads_dumps_at None j Hj) as Hl. change (dumps_at None 0 j) with (dumps j) in Hl.
  rewrite Hd in *. rewrite Hl. done.
Qed.

#[global] Instance local_laws : RegistryLaws local_registry.
Proof.
  split. intros j s s' Hj Hw. destruct (local_write_read j s s' Hj Hw) as (H1 & H2 & _). done.
Qed.

#[global] Instance temporary_laws : RegistryLaws temporary_registry.
Proof.
  split. intros j s s' Hj. unfold write, temporary_store, on_base.
  destruct (local_write j (base s)) as [r b] eqn:Hw. intros; simplify_eq.
  destruct (local_write_read j _ _ Hj Hw) as (H1 & H2 & _). simpl. unfold on_base. simpl. by rewrite H1.
Qed.

#[global] Instance memory_laws : RegistryLaws memory_registry.
Proof.
  split. intros j s s' Hj. simpl. unfold memory_write, modify. intros; simplify_eq.
  unfold memory_read. simpl. pose proof (loads_dumps_at None j Hj) as Hl.
  change (dumps_at None 0 j) with (dumps j) in Hl. by rewrite Hl.
Qed.

(** ** Committing *)

Definition with_disk (fs : filesystem) (s : temporary_registry) : temporary_registry :=
  Temporary (set_disk fs s.(base)) s.(temp_filepath).

Lemma on_base_disk {A} (m : PyM filesystem A) s r s' :
  on_base (on_disk m) s = (r, s') -> exists fs, m s.(base).(disk) = (r, fs) /\ s' = with_disk fs s.
Proof. unfold on_base, on_disk. destruct (m _) as [r' fs]. intros; simplify_eq. by exists fs. Qed.

Lemma copy_temp_ok src dst s s' :
  copy_temp src dst s = (Ok tt, s') ->
  exists p content, src = Some p /\ p <> dst /\ s.(base).(disk).(regular) !! p = Some content /\
    is_dir s.(base).(disk) dst = false /\ is_dir s.(base).(disk) (parent dst) = true /\
    s' = with_disk (put dst content s.(base).(disk)) s.
Proof.
  unfold copy_temp. destruct src as [p|]; [|done]. case_decide as Hne; [done|]. unfold py_bind.
  destruct (on_base (on_disk (read_file p)) s) as [[content|e] s1] eqn:Hr; [|done].
  apply on_base_disk in Hr as (fs & [Hr ->]%read_file_ok & ->).
  intros (fs' & [[Hd Hp] ->]%write_file_ok & ->)%on_base_disk. exists p, content. done.
Qed.

Lemma temporary_clear_ok s s' :
  temporary_clear s = (Ok tt, s') ->
  is_dir s.(base).(disk) (path_of s.(base).(filepath)) = false /\
  s' = with_disk (put (path_of s.(base).(filepath)) [] s.(base).(disk)) s.
Proof. intros (fs & [[Hd Hp] ->]%write_file_ok & ->)%on_base_disk. done. Qed.

Lemma temporary_commit_ok target s r s' :
  temporary_commit target s = (Ok r, s') ->
  r = target /\ s'.(temp_filepath) = None /\ s'.(base).(filepath) = PathObject target /\
  is_dir s'.(base).(disk) target = false /\ is_dir s'.(base).(disk) (parent target) = true /\
  exists src content, s.(temp_filepath) = Some src /\
    s.(base).(disk).(regular) !! src = Some content /\ s'.(base).(disk).(regular) !! target = Some content.
Proof.
  unfold temporary_commit, _swap_registry, py_bind, gets, modify, py_ret.
  unfold on_base at 1. cbn [base temp_filepath disk filepath].
  destruct (path_exists (disk (base s)) target).
  - destruct (temporary_clear _) as [[[]|e] s1] eqn:Hc; [|done]. apply temporary_clear_ok in Hc as [_ ->].
    destruct (copy_temp _ _ _) as [[[]|e] s2] eqn:Hcp; [|done].
    apply copy_temp_ok in Hcp as (src & content & Hs & Hne & Hr & Hd & Hp & ->).
    cbn in Hs, Hr, Hd, Hp. rewrite lookup_insert_ne in Hr by done.
    intros; simplify_eq. cbn. rewrite lookup_insert_eq. by eauto 10.
  - destruct (copy_temp _ _ _) as [[[]|e] s2] eqn:Hcp; [|done].
    apply copy_temp_ok in Hcp as (src & content & Hs & Hne & Hr & Hd & Hp & ->).
    cbn in Hs, Hr, Hd, Hp. intros; simplify_eq. cbn. rewrite lookup_insert_eq. by eauto 10.
Qed.

(** Committing a temporary registry writes its text to the target, which is
    the registry's file from then on; committing it there once more empties
    that file before it fails, so the registry is lost. *)
Theorem temporary_commit_once target s r s' :
  temporary_commit target s = (Ok r, s') ->
  (exists src content, s.(temp_filepath) = Some src /\
     s.(base).(disk).(regular) !! src = Some content /\
     s'.(base).(disk).(regular) !! target = Some content) /\
  s'.(base).(filepath) = PathObject target /\
  exists s'', temporary_commit target s' = (Raise TypeError, s'') /\
    s''.(base).(disk).(regular) !! target = Some [].
Proof.
  intros (_ & Ht & Hf & Hd & Hp & src & content & Hsrc & Hold & Hnew)%temporary_commit_ok.
  split; [by exists src, content|]. split; [done|].
  exists (with_disk (put target [] s'.(base).(disk))
            (Temporary (Local (PathObject target) s'.(base).(_multi_contract) s'.(base).(_id) s'.(base).(disk)) None)).
  split; [|cbn; by rewrite lookup_insert_eq].
  unfold temporary_commit, _swap_registry, py_bind, gets, modify, py_ret.
  unfold on_base at 1. cbn [base temp_filepath disk filepath].
  assert (path_exists (disk (base s')) target = true) as ->
    by (unfold path_exists, is_file; by rewrite Hnew).
  unfold temporary_clear, on_base, on_disk. cbn [base temp_filepath disk filepath path_of].
  rewrite write_file_allowed by done. cbn. by rewrite Ht.
Qed.

(** An in-memory registry that was never written: committing it empties the
    target and fails, and a cleared one keeps the id of its old contents. *)
Lemma memory_commit_nothing `{!Digest} default_path p s :
  s.(registry_data) <> MDict -> (forall t, s.(registry_data) <> MText t) ->
  is_dir s.(m_disk) p = false -> is_dir s.(m_disk) (parent p) = true ->
  exists s', memory_commit default_path (Some p) true s = (Raise TypeError, s') /\
    s'.(m_disk).(regular) !! p = Some [].
Proof.
  intros Hm Ht Hd Hp. unfold memory_commit, py_bind, gets. rewrite andb_false_r.
  cbv zeta. change (default default_path (Some p)) with p. unfold on_memory_disk, open_w. rewrite Hd, Hp. cbn.
  destruct (registry_data s) as [|t|]; [|by destruct (Ht t)|done].
  eexists. split; [done|]. cbn. by rewrite lookup_insert_eq.
Qed.

Lemma memory_clear_keeps_id `{!Digest} (s : memory_registry) i s1 :
  id s = (Ok i, s1) -> i <> [] ->
  id (memory_clear s1).2 = (Ok i, (memory_clear s1).2) /\
  (s.(m_multi_contract) = true -> (read (memory_clear s1).2).1 = Ok (JArr [])).
Proof.
  intros Hid Hi. assert (s1.(m_id) = Some i /\ s1.(m_multi_contract) = s.(m_multi_contract)) as [Hs Hm].
  { unfold id, py_bind, modify, py_ret in Hid. simpl in Hid. unfold memory_read in Hid.
    destruct (m_id s) as [[|c cs]|] eqn:Hc; [|simplify_eq; done|];
      destruct (registry_data s); try done; try (destruct (loads _)); try done; by simplify_eq. }
  unfold id, memory_clear, modify, set_data. cbn. unfold memory_read. cbn. rewrite Hs, Hm.
  split; [by destruct i|]. by intros ->.
Qed.

(** ** Concrete registries *)

Module RegistryDemo.

#[local] Instance demo_digest : Digest := {| blake2b_hex := fun t => hex (take 4 t) |}.

Definition token := Record_ (to_bytes "NuLinkToken") (to_bytes "v1") (to_bytes "0xA") (JArr []).
Definition token2 := Record_ (to_bytes "NuLinkToken") (to_bytes "v2") (to_bytes "0xB") (JArr [JObj [(to_bytes "type", JStr (to_bytes "event"))]]).

Definition root : filesystem := Filesystem ∅ {[ []; ["tmp"%string]; ["etc"%string] ]}.

Definition file_registry : local_registry :=
  Local (PathObject ["etc"; "nulink"; "contract_registry.json"]%string) true None root.

Definition enroll_record (r : record) : PyM local_registry unit :=
  enroll (JStr r.(r_name)) (JStr r.(r_address)) r.(r_abi) (JStr r.(r_version)).

(** Enrolled twice in a file that did not exist. *)
Lemma registry_refines_log_witness :
  let s := (enroll_record token file_registry).2 in
  let s' := (enroll_record token2 s).2 in
  holds [token; token2] s' /\
  search (Some (to_bytes "NuLinkToken")) (Some (to_bytes "v2")) None s' = (Ok (Records [record_json token2]), s').
Proof.
  intros s s'.
  destruct (registry_refines_log [token] token2 s s') as (H1 & _ & H2 & _).
  - split; [vm_compute; reflexivity|]. by repeat constructor.
  - reflexivity.
  - vm_compute. reflexivity.
  - split; [exact H1|]. apply (H2 (to_bytes "NuLinkToken") (Some (to_bytes "v2"))). discriminate.
Defined.

(** What a temporary registry that was filled by hand commits. *)
Definition temp_registry : temporary_registry :=
  with_disk (put ["tmp"; "t1"]%string (dumps (log_json [token])) (put ["tmp"; "t1"]%string [] root))
    (new_temporary ["tmp"; "t1"]%string true root).

Definition target : path := ["etc"; "registry.json"]%string.

Lemma temporary_commit_once_witness :
  exists s'', temporary_commit target (temporary_commit target temp_registry).2 = (Raise TypeError, s'') /\
    s''.(base).(disk).(regular) !! target = Some [].
Proof.
  destruct (temporary_commit_once target temp_registry target (temporary_commit target temp_registry).2)
    as (_ & _ & H); [vm_compute; reflexivity|exact H].
Defined.

(** A temporary registry cannot be enrolled in before it is committed: its
    path is a [str]. *)
Example temporary_enroll_raises :
  (enroll (S:=temporary_registry) (JStr []) (JStr []) JNull (JStr []) (new_temporary ["tmp"; "t1"]%string true root)).1
    = Raise AttributeError.
Proof. vm_compute. reflexivity. Qed.

End RegistryDemo.

(** ** The sources of a published registry *)

Section Sources.
Context {W : Type}.
(** [network in NetworksInventory.NETWORKS]. *)
Variable known_network : string -> bool.

(** A registry source: a class, or an instance with its network and name. *)
Record source := Source {
  instance_of : option (string * string);
  is_primary : bool;
  fetch_publication : string -> string -> PyM W bytes;
}.

(** [GithubRegistrySource.fetch_latest_publication], given the response. *)
Definition github_fetch (get : PyM W (Z * bytes)) : PyM W bytes :=
  response <- try_except get [RequestsConnectionError] (fun _ => raise RegistrySourceUnavailable) ;;
  if negb (response.1 =? 200)%Z then raise RegistrySourceUnavailable else py_ret response.2.

(** [EmbeddedRegistrySource.fetch_latest_publication]: [IOError] is [OSError]. *)
Definition embedded_fetch (read_publication : PyM W bytes) : PyM W bytes :=
  try_except read_publication [OSError] (fun _ => raise RegistrySourceError).

(** [RegistrySourceManager.__init__]; [None] and the empty list are falsy. *)
Definition manager_sources (fallback_chain : list source) (sources : list source) (only_primary : bool)
    : result (list source) :=
  match only_primary, sources with
  | true, _ :: _ => Raise ValueError
  | true, [] => Ok (filter (fun s => s.(is_primary) = true) fallback_chain)
  | false, [] => Ok fallback_chain
  | false, _ => Ok sources
  end.

(** One turn of the loop: the source as an instance for this registry. *)
Definition registry_source (src : source) (registry_name network : string) : result (PyM W bytes) :=
  match src.(instance_of) with
  | Some actual =>
      if decide (actual = (registry_name, network)) then Ok (src.(fetch_publication) network registry_name)
      else Raise ValueError
  | None =>
      if known_network network then Ok (src.(fetch_publication) network registry_name)
      else Raise ValueError
  end.

(** [RegistrySourceManager.fetch_latest_publication]. *)
Fixpoint fetch_latest_publication (sources : list source) (registry_name network : string)
    : PyM W (bytes * source) :=
  match sources with
  | [] => raise NoSourcesAvailable
  | src :: sources' =>
      fetch <- lift (registry_source src registry_name network) ;;
      data <- try_except (d <- fetch ;; py_ret (Some d)) [RegistrySourceUnavailable] (fun _ => py_ret None) ;;
      match data with
      | Some registry_data_bytes => py_ret (registry_data_bytes, src)
      | None => fetch_latest_publication sources' registry_name network
      end
  end.

(** [from_latest_publication], for a registry [s] that was just made. *)
Definition from_latest_publication {S} `{!RegistryStore S} (sources : list source)
    (registry_name network : string) (s : S) : PyM W S :=
  published <- fetch_latest_publication sources registry_name network ;;
  registry_data <- lift (loads published.1) ;;
  match write registry_data s with
  | (Ok _, s') => py_ret s'
  | (Raise e, _) => raise e
  end.

(** The first source that is not unavailable decides. *)
Lemma fetch_first sources name network w data src w' :
  fetch_latest_publication sources name network w = (Ok (data, src), w') ->
  exists l l', sources = l ++ src :: l' /\
    exists f w1, registry_source src name network = Ok f /\ f w1 = (Ok data, w') /\
    Forall (fun s => exists g v v' e, registry_source s name network = Ok g /\ g v = (Raise e, v') /\
      catches [RegistrySourceUnavailable] e = true) l.
Proof.
  revert w. induction sources as [|x sources IH]; intros w; simpl; [done|].
  unfold py_bind, lift, try_except. destruct (registry_source x name network) as [f|e] eqn:Hx; [|done].
  destruct (f w) as [[d|e] w1] eqn:Hf.
  - unfold py_ret. intros; simplify_eq. exists [], sources. split; [done|]. eauto.
  - destruct (catches [RegistrySourceUnavailable] e) eqn:Hc; [|done]. unfold py_ret.
    intros (l & l' & -> & g & w2 & Hg & Hw & Hl)%IH. exists (x :: l), l'. split; [done|].
    exists g, w2. split_and!; [done|done|]. constructor; [|done]. by exists f, w, w1, e.
Qed.

End Sources.

End Registry.
