(* ===== verification/Powers.v ===== *)
(** * nulink/crypto/powers.py, keypairs.py, signing.py and characters/base.py

    Keypairs, the powers that wrap them, the table of powers of a character
    and the stamps characters sign with.  Umbral's keys, signatures and
    encryption, X.509 certificates and the wallet that signs transactions are
    the classes [Umbral], [Tls] and [Signer]. *)

From Stdlib Require Import Ascii.
From stdpp Require Import gmap.
From S2P Require Import Prelude Text Files.

Class Umbral (W Priv Pub : Type) := {
  random_key : PyM W Priv;
  random_factory : PyM W bytes;
  public_key : Priv -> Pub;
  pub_bytes : Pub -> bytes;
  sign_with : Priv -> bytes -> bytes;
  (* [factory.make_key(label)] *)
  factory_key : bytes -> bytes -> result Priv;
  decrypt_with : Priv -> bytes -> result bytes;
  (* [MessageKit(policy_encrypting_key, plaintext)] *)
  encrypt_kit : Pub -> bytes -> PyM W bytes;
  (* [generate_kfrags(delegating_sk, receiving_pk, signer, threshold, shares)] *)
  umbral_kfrags : Priv -> Pub -> Priv -> nat -> nat -> PyM W (list bytes);
}.

Class Tls (W Priv Pub Cert : Type) := {
  load_der : bytes -> result Cert;
  cert_public_key : Cert -> Pub;
  cert_pem : Cert -> bytes;
  self_signed : string -> option Priv -> PyM W (Cert * Priv);
}.

(** A wallet: [nulink.blockchain.eth.signers.base.Signer]. *)
Class Signer (W : Type) := {
  unlock_account : string -> option string -> PyM W bool;
  lock_account : string -> PyM W unit;
  signer_sign_message : string -> bytes -> PyM W bytes;
  to_standard_signature_bytes : bytes -> result bytes;
}.

Module Powers.

(** ** keypairs.py *)

Section Keypairs.
Context {W Priv Pub Cert : Type} `{!Umbral W Priv Pub} `{!Tls W Priv Pub Cert}.

(** The attributes; [_privkey] is [None] for [PUBLIC_ONLY]. *)
Record keypair := Keypair_ {
  _privkey : option Priv;
  pubkey : Pub;
}.

(** [Keypair.__init__]. *)
Definition new_keypair (private_key : option Priv) (public_key_ : option Pub) (generate_keys_if_needed : bool)
    : PyM W keypair :=
  match private_key, public_key_ with
  | Some _, Some _ => raise ValueError
  | Some k, None => py_ret (Keypair_ (Some k) (public_key k))
  | None, Some p => py_ret (Keypair_ None p)
  | None, None =>
      if generate_keys_if_needed
      then k <- random_key ;; py_ret (Keypair_ (Some k) (public_key k))
      else raise ValueError
  end.

(** [DecryptingKeypair.decrypt_message_kit]; a message kit's [decrypt]
    refuses what is no secret key. *)
Definition decrypt_message_kit (k : keypair) (message_kit : bytes) : result bytes :=
  match k.(_privkey) with
  | Some sk =>
      match decrypt_with sk message_kit with
      | Ok plaintext => Ok plaintext
      | Raise e => Raise (if catches [ValueError] e then DecryptionFailed else e)
      end
  | None => Raise TypeError
  end.

(** [SigningKeypair]. *)
Definition keypair_sign (k : keypair) (message : bytes) : result bytes :=
  match k.(_privkey) with
  | Some sk => Ok (sign_with sk message)
  | None => Raise TypeError
  end.

(** signing.py: a stamp and a stranger's stamp. *)
Inductive stamp :=
  | SignatureStamp (verifying_key : Pub) (signer : Priv)
  | StrangerStamp (verifying_key : Pub).

Definition as_umbral_pubkey (s : stamp) : Pub :=
  match s with SignatureStamp p _ | StrangerStamp p => p end.

Definition stamp_bytes (s : stamp) : bytes := pub_bytes (as_umbral_pubkey s).

(** [__call__]. *)
Definition stamp_call (s : stamp) (message : bytes) : result bytes :=
  match s with
  | SignatureStamp _ signer => Ok (sign_with signer message)
  | StrangerStamp _ => Raise NoSigningPower
  end.

Definition get_signature_stamp (k : keypair) : stamp :=
  match k.(_privkey) with
  | None => StrangerStamp k.(pubkey)
  | Some sk => SignatureStamp k.(pubkey) sk
  end.

(** tls.py *)
Definition _write_tls_certificate (certificate : Cert) (full_filepath : path) (force : bool)
    : PyM (W * filesystem) path :=
  there <- gets (fun s : W * filesystem => is_file s.2 full_filepath) ;;
  if negb force && there then raise FileExistsError
  else in_files (write_file full_filepath (cert_pem certificate)) ;;; py_ret full_filepath.

Definition _read_tls_certificate (filepath : path) : PyM (W * filesystem) Cert :=
  content <- in_files (read_file filepath) ;; lift (load_der content).

(** [HostingKeypair]. *)
Record hosting_keypair := HostingKeypair_ {
  hosting : keypair;
  certificate : option Cert;
  certificate_filepath : option path;
}.

Definition new_hosting_keypair (host : string) (checksum_address : option string) (private_key : option Priv)
    (cert : option Cert) (filepath : option path) (generate_certificate : bool)
    : PyM (W * filesystem) hosting_keypair :=
  match private_key, cert, filepath with
  | Some k, _, _ =>
      cert' <- match filepath with
               | Some p => c <- _read_tls_certificate p ;; py_ret (Some c)
               | None => py_ret cert
               end ;;
      kp <- in_world (new_keypair (Some k) None true) ;; py_ret (HostingKeypair_ kp cert' filepath)
  | None, Some c, _ =>
      kp <- in_world (new_keypair None (Some (cert_public_key c)) true) ;; py_ret (HostingKeypair_ kp (Some c) filepath)
  | None, None, Some p =>
      c <- _read_tls_certificate p ;;
      kp <- in_world (new_keypair None (Some (cert_public_key c)) true) ;; py_ret (HostingKeypair_ kp (Some c) filepath)
  | None, None, None =>
      if generate_certificate then
        if bool_decide (host = EmptyString) && bool_decide (is_Some checksum_address) then raise TypeError
        else
          ck <- in_world (self_signed host None) ;;
          kp <- in_world (new_keypair (Some ck.2) None true) ;;
          py_ret (HostingKeypair_ kp (Some ck.1) None)
      else raise TypeError
  end.

End Keypairs.

Arguments keypair : clear implicits.
Arguments stamp : clear implicits.
Arguments hosting_keypair : clear implicits.

(** ** powers.py: the powers *)

Inductive power_class := SigningPower | DecryptingPower | DelegatingPower | TLSHostingPower | TransactingPower.
#[global] Instance power_class_eq_dec : EqDecision power_class.
Proof. solve_decision. Defined.
#[global] Instance power_class_countable : Countable power_class.
Proof.
  refine (inj_countable'
    (fun c => match c with SigningPower => 0 | DecryptingPower => 1 | DelegatingPower => 2
                         | TLSHostingPower => 3 | TransactingPower => 4 end)
    (fun n => match n with 0 => SigningPower | 1 => DecryptingPower | 2 => DelegatingPower
                         | 3 => TLSHostingPower | _ => TransactingPower end) _).
  by intros [].
Defined.

(** [not_found_error]: [DelegatingPower] has no such attribute. *)
Definition not_found_error (c : power_class) : exn_class :=
  match c with
  | SigningPower => NoSigningPower
  | DecryptingPower => NoDecryptingPower
  | DelegatingPower => AttributeError
  | TLSHostingPower => NoHostingPower
  | TransactingPower => NoTransactingPower
  end.

(** [confers_public_key]. *)
Definition confers_public_key (c : power_class) : bool :=
  match c with SigningPower | DecryptingPower | TLSHostingPower => true | _ => false end.

(** [provides]. *)
Definition provides (c : power_class) : list string :=
  match c with
  | SigningPower => ["sign"; "get_signature_stamp"]
  | DecryptingPower => ["decrypt_message_kit"; "decrypt_kfrag"; "decrypt_treasure_map"]
  | TLSHostingPower => ["get_deployer"]
  | _ => []
  end%string.

(** The attributes of a keypair class. *)
Definition keypair_methods (c : power_class) : list string :=
  ["pubkey"; "_privkey"; "fingerprint"]%string ++ provides c.

(** The attributes of a [TransactingPower]. *)
Record transacting := Transacting {
  account : string;
  password : option string;
  cache : bool;
}.

Section Powers.
Context {W Priv Pub Cert : Type} `{!Umbral W Priv Pub} `{!Tls W Priv Pub Cert} `{!Signer W}.
Notation world := (W * filesystem)%type.

(** The instances of the classes. *)
Inductive power :=
  | Signing (k : keypair Priv Pub)
  | Decrypting (k : keypair Priv Pub)
  | Delegating (secret_key_factory : bytes)
  | Hosting (k : hosting_keypair Priv Pub Cert)
  | Transacting_ (t : transacting).

Definition class_of (p : power) : power_class :=
  match p with
  | Signing _ => SigningPower
  | Decrypting _ => DecryptingPower
  | Delegating _ => DelegatingPower
  | Hosting _ => TLSHostingPower
  | Transacting_ _ => TransactingPower
  end.

(** [power.keypair]. *)
Definition keypair_of (p : power) : option (keypair Priv Pub) :=
  match p with
  | Signing k | Decrypting k => Some k
  | Hosting h => Some h.(hosting)
  | _ => None
  end.

(** [public_key()]: the other powers have no such method. *)
Definition power_public_key (p : power) : result Pub :=
  match keypair_of p with Some k => Ok k.(pubkey) | None => Raise AttributeError end.

(** [KeyPairBasedPower.__getattr__]: whether a method of the keypair is reached. *)
Definition power_getattr (c : power_class) (item : string) : result string :=
  if bool_decide (item ∈ provides c) then
    if bool_decide (item ∈ keypair_methods c) then Ok item else Raise PowerUpError
  else Raise PowerUpError.

(** [SigningPower(public_key, keypair)] and [DecryptingPower(...)]. *)
Definition keypair_power (make : keypair Priv Pub -> power) (public_key_ : option Pub)
    (kp : option (keypair Priv Pub)) : PyM W power :=
  match kp, public_key_ with
  | Some _, Some _ => raise ValueError
  | Some k, None => py_ret (make k)
  | None, Some p => k <- new_keypair None (Some p) true ;; py_ret (make k)
  | None, None => k <- new_keypair None None true ;; py_ret (make k)
  end.

(** [TLSHostingPower(host, public_certificate, public_certificate_filepath, keypair)]. *)
Definition hosting_power (host : string) (public_certificate : option Cert) (filepath : option path)
    (kp : option (hosting_keypair Priv Pub Cert)) : PyM world power :=
  match public_certificate, filepath with
  | Some _, Some _ => raise ValueError
  | Some c, None => k <- new_hosting_keypair host None None (Some c) None false ;; py_ret (Hosting k)
  | None, Some p => k <- new_hosting_keypair host None None None (Some p) false ;; py_ret (Hosting k)
  | None, None =>
      match kp with
      | Some k => py_ret (Hosting k)
      (* [HostingKeypair(generate_keys_if_needed=True)]: no such parameter *)
      | None => raise TypeError
      end
  end.

(** *** [TransactingPower] *)

(** [password or self.__password]. *)
Definition or_password (given cached : option string) : option string :=
  match given with
  | Some (String _ _) => given
  | _ => cached
  end.

Definition unlock (given : option string) (t : transacting) : PyM W bool :=
  unlock_account t.(account) (or_password given t.(password)).

Definition power_lock_account (t : transacting) : PyM W unit := lock_account t.(account).

(** [activate]: the power afterwards. *)
Definition activate (given : option string) (t : transacting) : PyM W transacting :=
  unlock given t ;;;
  py_ret (if t.(cache) then t else Transacting t.(account) None t.(cache)).

Definition sign_message (message : bytes) (t : transacting) : PyM W bytes :=
  s <- signer_sign_message t.(account) message ;; lift (to_standard_signature_bytes s).

(** [__eq__]. *)
Definition transacting_eqb (t u : transacting) : bool := bool_decide (t.(account) = u.(account)).

(** *** [DelegatingPower] *)

Definition _get_privkey_from_label (factory label : bytes) : result Priv := factory_key factory label.

Definition get_pubkey_from_label (factory label : bytes) : result Pub :=
  let? k := _get_privkey_from_label factory label in Ok (public_key k).

Definition generate_kfrags (factory : bytes) (bob_pubkey_enc : Pub) (signer : Priv) (label : bytes)
    (threshold shares : nat) : PyM W (Pub * list bytes) :=
  k <- lift (_get_privkey_from_label factory label) ;;
  kfrags <- umbral_kfrags k bob_pubkey_enc signer threshold shares ;;
  py_ret (public_key k, kfrags).

Definition get_decrypting_power_from_label (factory label : bytes) : PyM W power :=
  k <- lift (_get_privkey_from_label factory label) ;;
  kp <- new_keypair (Some k) None true ;;
  keypair_power Decrypting None (Some kp).

(** ** [CryptoPower] *)

Record crypto_power := CryptoPower_ {
  ups : gmap power_class power;
  public_keys : gmap power_class Pub;
}.

Definition no_powers : crypto_power := CryptoPower_ ∅ ∅.

Definition power_ups (c : power_class) (cp : crypto_power) : result power :=
  match cp.(ups) !! c with Some p => Ok p | None => Raise (not_found_error c) end.

(** [__contains__]. *)
Definition contains (c : power_class) (cp : crypto_power) : result bool :=
  match power_ups c cp with
  | Ok _ => Ok true
  | Raise e => if catches [PowerUpError] e then Ok false else Raise e
  end.

(** What can be passed to [consume_power_up]: an instance with the
    arguments of its activation, the class of a power, a class that is none,
    anything else.  The base classes of the powers, which nothing passes, are
    left out. *)
Inductive power_arg :=
  | AnInstance (p : power) (given : option string)
  | AClass (c : power_class)
  | AnotherClass
  | NotAClass.

(** [power_up.activate(...)]; the instance afterwards. *)
Definition activate_power (p : power) (given : option string) : PyM W power :=
  match p with
  | Transacting_ t => t' <- activate given t ;; py_ret (Transacting_ t')
  | _ => py_ret p
  end.

(** [power_up()]: two of the classes need arguments. *)
Definition instantiate (c : power_class) : PyM W power :=
  match c with
  | SigningPower => keypair_power Signing None None
  | DecryptingPower => keypair_power Decrypting None None
  | DelegatingPower => f <- random_factory ;; py_ret (Delegating f)
  | TLSHostingPower | TransactingPower => raise TypeError
  end.

Notation with_powers := (crypto_power * W)%type.

Definition on_world {A} (m : PyM W A) : PyM with_powers A := fun s =>
  let '(r, w) := m s.2 in (r, (s.1, w)).

Definition store_power (c : power_class) (p : power) : PyM with_powers unit :=
  modify (fun s : with_powers => (CryptoPower_ (<[c := p]> s.1.(ups)) s.1.(public_keys), s.2)).

Definition store_public_key (c : power_class) (k : Pub) : PyM with_powers unit :=
  modify (fun s : with_powers => (CryptoPower_ s.1.(ups) (<[c := k]> s.1.(public_keys)), s.2)).

Definition consume_power_up (a : power_arg) : PyM with_powers unit :=
  cp <- match a with
        | AnInstance p given => p' <- on_world (activate_power p given) ;; py_ret (class_of p, p')
        | AClass c => p' <- on_world (instantiate c) ;; py_ret (c, p')
        | AnotherClass => raise TypeError
        | NotAClass => raise AttributeError
        end ;;
  store_power cp.1 cp.2 ;;;
  if confers_public_key cp.1
  then k <- lift (power_public_key cp.2) ;; store_public_key cp.1 k
  else py_ret tt.

(** [CryptoPower(power_ups)]. *)
Definition new_crypto_power (power_ups : list power_arg) : PyM W crypto_power := fun w =>
  match for_each power_ups consume_power_up (no_powers, w) with
  | (Ok _, (cp, w')) => (Ok cp, w')
  | (Raise e, (_, w')) => (Raise e, w')
  end.

(** ** The table of powers is well formed *)

Lemma keypair_of_confers p : confers_public_key (class_of p) = bool_decide (is_Some (keypair_of p)).
Proof. by destruct p. Qed.

(** Every class is mapped to an instance of it, and [public_keys] has the
    public key of each stored power that has one, and nothing else. *)
Definition crypto_power_wf (cp : crypto_power) : Prop :=
  (forall c p, cp.(ups) !! c = Some p -> class_of p = c) /\
  (forall c, cp.(public_keys) !! c = (cp.(ups) !! c) ≫= fun p => pubkey <$> keypair_of p).

(** Powers that may not cache their password do not have one. *)
Definition no_password (p : power) : Prop :=
  match p with Transacting_ t => t.(cache) = false -> t.(password) = None | _ => True end.

Definition no_passwords (cp : crypto_power) : Prop := map_Forall (fun _ => no_password) cp.(ups).

(** The class an argument is stored under. *)
Definition arg_class (a : power_arg) : option power_class :=
  match a with AnInstance p _ => Some (class_of p) | AClass c => Some c | _ => None end.

Lemma activate_power_ok p given w p' w' :
  activate_power p given w = (Ok p', w') -> class_of p' = class_of p /\ no_password p'.
Proof.
  destruct p as [| | | |t]; cbn [activate_power]; unfold py_ret; try (intros [= <- _]; done).
  unfold py_bind, activate, py_bind. destruct (unlock given t w) as [[b|e] w1]; [|done].
  unfold py_ret. intros [= <- _]. split; [done|]. destruct t as [a pw []]; done.
Qed.

Lemma instantiate_ok c w p w' : instantiate c w = (Ok p, w') -> class_of p = c /\ no_password p.
Proof.
  destruct c; cbn [instantiate]; unfold keypair_power, new_keypair, raise, py_bind, py_ret; try done.
  1,2: destruct (random_key w) as [[k|e] w1]; [|done]; by intros [= <- _].
  destruct (random_factory w) as [[f|e] w1]; [|done]. by intros [= <- _].
Qed.

(** The power that [consume_power_up] stores. *)
Definition chosen (a : power_arg) : PyM W power :=
  match a with
  | AnInstance p given => activate_power p given
  | AClass c => instantiate c
  | AnotherClass => raise TypeError
  | NotAClass => raise AttributeError
  end.

(** The table with a power stored. *)
Definition with_power (p : power) (cp : crypto_power) : crypto_power :=
  CryptoPower_ (<[class_of p := p]> cp.(ups))
    (match keypair_of p with
     | Some k => <[class_of p := k.(pubkey)]> cp.(public_keys)
     | None => cp.(public_keys)
     end).

Lemma consume_power_up_eq a cp w :
  consume_power_up a (cp, w) =
    match chosen a w with
    | (Ok p, w') => (Ok tt, (with_power p cp, w'))
    | (Raise e, w') => (Raise e, (cp, w'))
    end.
Proof.
  unfold consume_power_up. 
  assert (forall p w', (store_power (class_of p) p ;;;
    (if confers_public_key (class_of p) then k <- lift (power_public_key p) ;; store_public_key (class_of p) k
     else py_ret tt)) (cp, w') = (Ok tt, (with_power p cp, w'))) as Hstore by by intros [].
  destruct a as [p given|c| |]; cbn [chosen]; [| |done..]; unfold py_bind at 1 2, on_world; cbn [fst snd].
  - destruct (activate_power p given w) as [[p'|e] w'] eqn:Hp; [|done].
    apply activate_power_ok in Hp as [<- _]. apply Hstore.
  - destruct (instantiate c w) as [[p'|e] w'] eqn:Hp; [|done].
    apply instantiate_ok in Hp as [<- _]. apply Hstore.
Qed.

Lemma chosen_ok a w p w' : chosen a w = (Ok p, w') -> arg_class a = Some (class_of p) /\ no_password p.
Proof.
  destruct a; [intros [-> ?]%activate_power_ok|intros [-> ?]%instantiate_ok|done|done]; by split.
Qed.

Lemma with_power_wf p cp : crypto_power_wf cp -> crypto_power_wf (with_power p cp).
Proof.
  intros [Hc Hk]. split.
  - intros c q. cbn. intros [[<- <-]|[_ Hq]]%lookup_insert_Some; [done|by apply Hc].
  - intros c. cbn. destruct (decide (class_of p = c)) as [<-|Hne].
    + rewrite lookup_insert_eq. cbn. destruct (keypair_of p) as [k|] eqn:Hp; cbn.
      * by rewrite lookup_insert_eq.
      * rewrite Hk. destruct (ups cp !! class_of p) as [q|] eqn:Hq; [|done]. cbn.
        apply Hc in Hq. pose proof (keypair_of_confers p) as H1. pose proof (keypair_of_confers q) as H2.
        rewrite Hp in H1. rewrite Hq, H1 in H2. by destruct (keypair_of q).
    + rewrite lookup_insert_ne by done. destruct (keypair_of p); [rewrite lookup_insert_ne by done|]; apply Hk.
Qed.

Lemma with_power_no_passwords p cp : no_password p -> no_passwords cp -> no_passwords (with_power p cp).
Proof. intros Hp Hcp. by apply map_Forall_insert_2. Qed.

Lemma empty_wf : crypto_power_wf no_powers /\ no_passwords no_powers.
Proof. split; [split; intros c; [intros p|]; cbn; by rewrite !lookup_empty|apply map_Forall_empty]. Qed.

(** C36.  The table of powers is well typed: whatever is passed to
    [consume_power_up], each class stays mapped to an instance of that very
    class, [public_keys] stays the public keys of the stored powers that
    confer one, and a transacting power that may not cache its password is
    stored without it.  When it returns, exactly the entry of the argument's
    class has changed; when it raises, nothing has. *)
Theorem consume_power_up_typed a cp w r cp' w' :
  crypto_power_wf cp -> no_passwords cp ->
  consume_power_up a (cp, w) = (r, (cp', w')) ->
  crypto_power_wf cp' /\ no_passwords cp' /\
  match r with
  | Ok _ => exists c p, arg_class a = Some c /\ power_ups c cp' = Ok p /\ class_of p = c /\
      contains c cp' = Ok true /\ forall d, d <> c -> power_ups d cp' = power_ups d cp
  | Raise _ => cp' = cp
  end.
Proof.
  intros Hwf Hpw. rewrite consume_power_up_eq. destruct (chosen a w) as [[p|e] w1] eqn:Ha; intros [= <- <- <-]; [|done].
  apply chosen_ok in Ha as [Ha Hp].
  split; [by apply with_power_wf|]. split; [by apply with_power_no_passwords|].
  exists (class_of p), p. unfold contains, power_ups. cbn. rewrite lookup_insert_eq. split_and!; [done..|].
  intros d Hd. by rewrite lookup_insert_ne.
Qed.

(** [CryptoPower(power_ups)] has exactly the classes of its arguments. *)
Lemma new_crypto_power_ok args w cp w' :
  new_crypto_power args w = (Ok cp, w') ->
  crypto_power_wf cp /\ no_passwords cp /\
  forall c, is_Some (cp.(ups) !! c) <-> Some c ∈ arg_class <$> args.
Proof.
  unfold new_crypto_power.
  assert (forall cp0 w, crypto_power_wf cp0 -> no_passwords cp0 -> forall r cp1 w1,
    for_each args consume_power_up (cp0, w) = (Ok r, (cp1, w1)) ->
    crypto_power_wf cp1 /\ no_passwords cp1 /\
    forall c, is_Some (cp1.(ups) !! c) <-> is_Some (cp0.(ups) !! c) \/ Some c ∈ arg_class <$> args) as Hloop.
  { induction args as [|a args IH]; intros cp0 w0 Hwf Hpw r cp1 w1.
    - intros [= _ <- _]. split_and!; [done..|]. intros c. cbn. rewrite elem_of_nil. tauto.
    - cbn [for_each]. unfold py_bind. rewrite consume_power_up_eq.
      destruct (chosen a w0) as [[p|e] w2] eqn:Ha; [|done]. apply chosen_ok in Ha as [Ha Hp]. intros Hl.
      destruct (IH _ _ (with_power_wf p _ Hwf) (with_power_no_passwords p _ Hp Hpw) _ _ _ Hl) as (H1 & H2 & H3).
      split_and!; [done..|]. intros c. rewrite H3, fmap_cons, elem_of_cons, Ha. cbn.
      destruct (decide (class_of p = c)) as [<-|Hne].
      + rewrite lookup_insert_eq. naive_solver.
      + rewrite lookup_insert_ne by done. naive_solver. }
  destruct (for_each args consume_power_up (no_powers, w)) as [[r|e] [cp1 w1]] eqn:Hl; [|done].
  intros [= <- <-]. destruct empty_wf as [H0 H0']. destruct (Hloop _ _ H0 H0' _ _ _ Hl) as (H1 & H2 & H3).
  split_and!; [done..|]. intros c. rewrite H3. cbn. rewrite lookup_empty.
  split; [intros [[x [=]]|]; done|by right].
Qed.

(** What holds of every power that is chosen holds of every stored one. *)
Lemma new_crypto_power_all (P : power_class -> power -> Prop) args w cp w' :
  Forall (fun a => forall w0 p w1, chosen a w0 = (Ok p, w1) -> P (class_of p) p) args ->
  new_crypto_power args w = (Ok cp, w') -> map_Forall P cp.(ups).
Proof.
  intros Hargs. unfold new_crypto_power.
  assert (map_Forall P (ups no_powers)) as H0 by apply map_Forall_empty.
  generalize dependent no_powers. revert w. induction Hargs as [|a args Ha _ IH]; intros w cp0 H0.
  - by intros [= <- _].
  - cbn [for_each]. unfold py_bind. rewrite consume_power_up_eq.
    destruct (chosen a w) as [[p|e] w2] eqn:Hp; [|done]. apply Ha in Hp.
    apply IH. by apply map_Forall_insert_2.
Qed.

(** [in]: a missing power is reported, unless it is the delegating one. *)
Lemma contains_spec c cp :
  contains c cp = match cp.(ups) !! c with
                  | Some _ => Ok true
                  | None => if decide (c = DelegatingPower) then Raise AttributeError else Ok false
                  end.
Proof. unfold contains, power_ups. destruct (_ !! c); [done|]. by destruct c. Qed.

(** ** Keys of labels *)

Section Labels.
(** Umbral: a holder of the secret key decrypts what was encrypted for its
    public key. *)
Hypothesis encrypt_decrypt : forall k m w kit w', encrypt_kit (public_key k) m w = (Ok kit, w') ->
  decrypt_with k kit = Ok m.

(** A label's keys belong together: whatever was encrypted for the public key
    that [get_pubkey_from_label] gives, the power that
    [get_decrypting_power_from_label] makes decrypts; it has that public key,
    and so do the key fragments that [generate_kfrags] makes for the label. *)
Theorem label_keys_roundtrip factory label pub m w kit w' :
  get_pubkey_from_label factory label = Ok pub -> encrypt_kit pub m w = (Ok kit, w') ->
  exists kp, get_decrypting_power_from_label factory label w' = (Ok (Decrypting kp), w') /\
    decrypt_message_kit kp kit = Ok m /\ power_public_key (Decrypting kp) = Ok pub /\
    forall bob signer threshold shares w1 p kfrags w2,
      generate_kfrags factory bob signer label threshold shares w1 = (Ok (p, kfrags), w2) -> p = pub.
Proof.
  unfold get_pubkey_from_label, get_decrypting_power_from_label, generate_kfrags, _get_privkey_from_label.
  destruct (factory_key factory label) as [k|e]; [|done]. cbn [rbind]. intros [= <-] Hkit.
  exists (Keypair_ (Some k) (public_key k)). split_and!; [done| |done|].
  - unfold decrypt_message_kit. cbn. by rewrite (encrypt_decrypt _ _ _ _ _ Hkit).
  - intros bob signer threshold shares w1 p kfrags w2. unfold py_bind, lift, py_ret.
    destruct (umbral_kfrags k bob signer threshold shares w1) as [[l|e] w3]; [|done]. by intros [= <- _ _].
Qed.

End Labels.


End Powers.

Arguments power : clear implicits.
Arguments crypto_power : clear implicits.
Arguments power_arg : clear implicits.
End Powers.

(** ** A concrete instance *)

Module PowersDemo.
Import Powers.

#[export] Instance demo_umbral : Umbral N bytes bytes := {
  random_key := py_ret (to_bytes "key");
  random_factory := py_ret (to_bytes "factory");
  public_key k := k ++ replicate 16 "0"%char;
  pub_bytes p := p;
  sign_with k m := k ++ m;
  factory_key f label := Ok (f ++ label);
  decrypt_with k m := Ok m;
  encrypt_kit _ m := py_ret m;
  umbral_kfrags _ _ _ _ shares := py_ret (replicate shares []);
}.

#[export] Instance demo_tls : Tls N bytes bytes bytes := {
  load_der b := Ok b;
  cert_public_key c := c;
  cert_pem c := c;
  self_signed _ k := py_ret (to_bytes "certificate", default [] k);
}.

#[export] Instance demo_signer : Signer N := {
  unlock_account _ pw := py_ret (bool_decide (pw = Some "secret"%string));
  lock_account _ := py_ret tt;
  signer_sign_message _ m := py_ret m;
  to_standard_signature_bytes s := Ok s;
}.

Definition wallet : power bytes bytes bytes :=
  Transacting_ (Transacting "0x1" (Some "secret"%string) false).

Definition with_wallet : crypto_power bytes bytes bytes :=
  with_power (Transacting_ (Transacting "0x1" None false)) no_powers.

Lemma consume_wallet : consume_power_up (AnInstance wallet None) (no_powers, 0%N) = (Ok tt, (with_wallet, 0%N)).
Proof. vm_compute. reflexivity. Qed.

Lemma consume_power_up_typed_witness :
  crypto_power_wf with_wallet /\ power_ups TransactingPower with_wallet = Ok (Transacting_ (Transacting "0x1" None false)).
Proof.
  destruct (empty_wf (Priv := bytes) (Pub := bytes) (Cert := bytes)) as [H0 H1].
  destruct (consume_power_up_typed (AnInstance wallet None) no_powers 0%N (Ok tt) with_wallet 0%N H0 H1 consume_wallet)
    as (Hwf & _ & _). split; [exact Hwf|reflexivity].
Defined.

Lemma label_keys_roundtrip_witness :
  exists kp, get_decrypting_power_from_label (Cert := bytes) (to_bytes "factory") (to_bytes "label") 0%N = (Ok (Decrypting kp), 0%N) /\
  decrypt_message_kit kp (to_bytes "plaintext") = Ok (to_bytes "plaintext").
Proof.
  assert (forall k m w kit w', encrypt_kit (W := N) (Priv := bytes) (public_key (W := N) (Pub := bytes) k) m w = (Ok kit, w') ->
    decrypt_with (W := N) (Pub := bytes) k kit = Ok m) as Hlaw by (intros k m w kit w' [= <- _]; reflexivity).
  destruct (label_keys_roundtrip (Cert := bytes) Hlaw (to_bytes "factory") (to_bytes "label") _ (to_bytes "plaintext") 0%N _ 0%N
    eq_refl eq_refl) as (kp & Hkp & Hd & _).
  exists kp. split; [exact Hkp|exact Hd].
Defined.

End PowersDemo.
