(* ===== verification/Keystore.v ===== *)
(** * nulink/crypto/keystore.py, passwords.py, keypairs.py and powers.py

    The keystore: the encrypted file a node's secret is kept in, its name,
    its creation and its unlocking; the powers derived from an unlocked
    keystore, and the table of powers of a character.  Scrypt, HKDF, the
    secret box, umbral's keys, BIP-39, the random generator, the clock and the
    terminal are the class [Crypto]. *)

From Stdlib Require Import Ascii.
From stdpp Require Import gmap pretty.
From S2P Require Import Prelude Text Json Files Powers.
Import Powers.

Class Crypto (W Key : Type) := {
  scrypt : bytes -> bytes -> bytes;
  hkdf_wrap : bytes -> bytes -> bytes;
  box_encrypt : bytes -> bytes -> PyM W bytes;
  box_decrypt : bytes -> bytes -> option bytes;
  (* [SecretKeyFactory.from_secure_randomness(secret).make_key(info)] *)
  make_key : bytes -> bytes -> result Key;
  make_factory : bytes -> bytes -> result bytes;
  serialized_size : nat;
  token_bytes : nat -> PyM W bytes;
  epoch : W -> N;
  time_text : W -> bytes;
  mnemonic_generate : PyM W bytes;
  mnemonic_to_entropy : bytes -> result bytes;
  click_confirm : PyM W bool;
  click_prompt : PyM W bytes;
}.

Module Keystore.

Section Keystore.
Context {W Key Pub Cert : Type} `{!Crypto W Key} `{!Umbral W Key Pub} `{!Tls W Key Pub Cert}.

(** [bytes(private_key.public_key())]. *)
Definition public_key_bytes (k : Key) : bytes := pub_bytes (public_key k).

(** The world of the keystore and the file system. *)
Notation world := (W * filesystem)%type.

Definition _SIGNING_INFO : bytes := to_bytes "NuLink/signing".
Definition _DECRYPTING_INFO : bytes := to_bytes "NuLink/decrypting".
Definition _DELEGATING_INFO : bytes := to_bytes "NuLink/delegating".
Definition _TLS_INFO : bytes := to_bytes "NuLink/tls".
Definition _SALT_SIZE : nat := 32.
Definition _KEYSTORE_VERSION : bytes := to_bytes "2.0".
Definition _MINIMUM_PASSWORD_LENGTH : nat := 8.
Definition _ID_SIZE : nat := 32.
Definition _DELIMITER : ascii := "-"%char.
Definition _SUFFIX : bytes := to_bytes "priv".

(** ** passwords.py *)

Definition secret_box_encrypt (key_material salt plaintext : bytes) : PyM W bytes :=
  box_encrypt (hkdf_wrap key_material salt) plaintext.

Definition secret_box_decrypt (key_material salt ciphertext : bytes) : result bytes :=
  match box_decrypt (hkdf_wrap key_material salt) ciphertext with
  | Some plaintext => Ok plaintext
  | None => Raise SecretBoxAuthenticationError
  end.

(** ** The file *)

(** The dict of [_assemble_keystore]. *)
Record payload := Payload {
  version : bytes;
  created : bytes;
  key : bytes;
  password_salt : bytes;
  wrapper_salt : bytes;
}.

Definition _assemble_keystore (encrypted_secret password_salt wrapper_salt : bytes) : PyM W payload :=
  gets (fun w => Payload _KEYSTORE_VERSION (time_text w) encrypted_secret password_salt wrapper_salt).

Definition payload_json (p : payload) : json :=
  JObj [(to_bytes "version", JStr p.(version)); (to_bytes "created", JStr p.(created));
        (to_bytes "key", JStr (hex p.(key))); (to_bytes "password_salt", JStr (hex p.(password_salt)));
        (to_bytes "wrapper_salt", JStr (hex p.(wrapper_salt)))].

Definition _serialize_keystore (p : payload) : bytes := dumps_indent 4 (payload_json p).

(** The fields that are read of a keystore file. *)
Record key_data := KeyData {
  d_key : bytes;
  d_password_salt : bytes;
  d_wrapper_salt : bytes;
}.

(** [bytes.fromhex(payload[field])]. *)
Definition hex_field (data : json) (field : bytes) : result bytes :=
  match data with
  | JObj m =>
      match dict_get m field with
      | Some (JStr s) => fromhex s
      | Some _ => Raise TypeError
      | None => Raise KeyError
      end
  | _ => Raise TypeError
  end.

Definition _deserialize_keystore (content : bytes) : result key_data :=
  let? text := decode content in
  match loads text with
  | Raise e => Raise (if catches [JSONDecodeError] e then KeystoreInvalid else e)
  | Ok data =>
      let? k := hex_field data (to_bytes "key") in
      let? ps := hex_field data (to_bytes "password_salt") in
      let? ws := hex_field data (to_bytes "wrapper_salt") in
      Ok (KeyData k ps ws)
  end.

Definition _read_keystore (p : path) : PyM world key_data :=
  content <- in_files (read_file p) ;; lift (_deserialize_keystore content).

Definition _write_keystore (p : path) (content : bytes) : PyM world path :=
  there <- gets (fun s : world => path_exists s.2 p) ;;
  if there : bool then raise KeystoreExists
  else in_files (write_file p content) ;;; py_ret p.

(** ** Its name *)

Definition keystore_filename (utc_nowish : N) (id : bytes) : bytes :=
  nat_chars utc_nowish ++ _DELIMITER :: id ++ "."%char :: _SUFFIX.

Definition generate_keystore_filepath (dir : path) (id : bytes) : PyM world path :=
  gets (fun s => child dir (String.string_of_list_ascii (keystore_filename (epoch s.1) id))).

(** The messages of the rules that fail; the length is counted in characters. *)
Definition validate_keystore_password (password : bytes) : list string :=
  (if bool_decide (password = []) then ["Password must not be blank."%string] else []) ++
  (if char_count password <? _MINIMUM_PASSWORD_LENGTH
   then ["Password must be at least 8 characters long."%string] else []).

(** [path.name]. *)
Definition name_of (p : path) : bytes := to_bytes (default EmptyString (last p)).

Definition filename_parts (name : bytes) : list bytes :=
  split [_DELIMITER] (rstrip ("."%char :: _SUFFIX) name).

Definition validate_keystore_filename (name : bytes) : result (bytes * bytes) :=
  match filename_parts name with
  | [created; keystore_id] =>
      if bool_decide (length keystore_id = _ID_SIZE) && forallb is_hexdigit keystore_id
      then Ok (created, keystore_id) else Raise KeystoreInvalid
  | _ => Raise KeystoreInvalid
  end.

(** [_parse_path]; the test of the file's pattern builds an exception and
    drops it. *)
Definition _parse_path (p : path) : PyM world (bytes * bytes) := fun s =>
  if negb (path_exists s.2 p) then (Raise KeystoreNotFound, s)
  else if negb (is_file s.2 p) then (Raise ValueError, s)
  else (validate_keystore_filename (name_of p), s).

(** ** [Keystore] *)

(** Its attributes; [__secret] is [None] for [KEYSTORE_LOCKED]. *)
Record keystore := Keystore_ {
  keystore_path : path;
  k_created : bytes;
  k_id : bytes;
  secret : option bytes;
}.

Definition new_keystore (p : path) : PyM world keystore :=
  parts <- _parse_path p ;; py_ret (Keystore_ p parts.1 parts.2 None).

Definition save (secret password : bytes) (keystore_dir : path) : PyM world path :=
  if bool_decide (validate_keystore_password password <> []) then raise InvalidPassword
  else
    signing_key <- lift (make_key secret _SIGNING_INFO) ;;
    let keystore_id := take _ID_SIZE (hex (public_key_bytes signing_key)) in
    in_files (mkdir_parents keystore_dir) ;;;
    keystore_path <- generate_keystore_filepath keystore_dir keystore_id ;;
    password_salt <- in_world (token_bytes _SALT_SIZE) ;;
    let password_material := scrypt password password_salt in
    wrapper_salt <- in_world (token_bytes _SALT_SIZE) ;;
    encrypted_secret <- in_world (secret_box_encrypt password_material wrapper_salt secret) ;;
    keystore_payload <- in_world (_assemble_keystore encrypted_secret password_salt wrapper_salt) ;;
    _write_keystore keystore_path (_serialize_keystore keystore_payload).

(** The class methods; [keystore_dir] has its default already. *)
Definition load (id : bytes) (keystore_dir : path) : PyM world keystore :=
  filepath <- generate_keystore_filepath keystore_dir id ;; new_keystore filepath.

Definition import_secure (key_material password : bytes) (keystore_dir : path) : PyM world keystore :=
  if negb (length key_material =? serialized_size) then raise ValueError
  else p <- save key_material password keystore_dir ;; new_keystore p.

Definition restore (words password : bytes) (keystore_dir : path) : PyM world keystore :=
  secret <- lift (mnemonic_to_entropy words) ;;
  p <- save secret password keystore_dir ;; new_keystore p.

Definition _confirm_generate (words : bytes) : PyM world unit :=
  confirmed <- in_world click_confirm ;;
  if negb confirmed then raise ClickAbort
  else
    response <- in_world click_prompt ;;
    if negb (bool_decide (response = words)) then raise ValueError else py_ret tt.

(** The words are part of the result when it is not interactive. *)
Definition generate (password : bytes) (keystore_dir : path) (interactive : bool)
    : PyM world (keystore * option bytes) :=
  words <- in_world mnemonic_generate ;;
  (if interactive : bool then _confirm_generate words else py_ret tt) ;;;
  secret <- lift (mnemonic_to_entropy words) ;;
  p <- save secret password keystore_dir ;;
  k <- new_keystore p ;;
  py_ret (k, if interactive then None else Some words).

(** The methods of a keystore. *)
Notation with_keystore := (keystore * world)%type.

Definition set_secret (x : option bytes) (k : keystore) : keystore :=
  Keystore_ k.(keystore_path) k.(k_created) k.(k_id) x.

Definition is_unlocked (k : keystore) : bool := bool_decide (is_Some k.(secret)).

Definition lock : PyM with_keystore unit := modify (fun '(k, w) => (set_secret None k, w)).

(** [unlock]. *)
Definition unlock (password : bytes) : PyM with_keystore unit := fun '(k, w) =>
  match _read_keystore k.(keystore_path) w with
  | (Raise e, w') => (Raise e, (k, w'))
  | (Ok data, w') =>
      let password_material := scrypt password data.(d_password_salt) in
      match secret_box_decrypt password_material data.(d_wrapper_salt) data.(d_key) with
      | Ok s => (Ok tt, (set_secret (Some s) k, w'))
      | Raise e =>
          if catches [SecretBoxAuthenticationError] e
          then (Raise AuthenticationFailed, (set_secret None k, w'))
          else (Raise e, (k, w'))
      end
  end.

(** [__HKDF_INFO]. *)
Definition hkdf_info (c : power_class) : option bytes :=
  match c with
  | SigningPower => Some _SIGNING_INFO
  | DecryptingPower => Some _DECRYPTING_INFO
  | DelegatingPower => Some _DELEGATING_INFO
  | TLSHostingPower => Some _TLS_INFO
  | TransactingPower => None
  end.

Definition _derive_hosting_power (host : string) (private_key : Key) : PyM W (power Key Pub Cert) :=
  ck <- self_signed host (Some private_key) ;;
  kp <- new_keypair (Some ck.2) None true ;;
  py_ret (Hosting (HostingKeypair_ kp (Some ck.1) None)).

(** [derive_crypto_power]; [host] is the only argument of a power that is
    passed, and only to the hosting power. *)
Definition derive_crypto_power (c : power_class) (host : string) (k : keystore) : PyM W (power Key Pub Cert) :=
  match k.(secret) with
  | None => raise KeystoreLocked
  | Some s =>
      match hkdf_info c with
      | None => raise TypeError
      | Some info =>
          private_key <- lift (make_key s info) ;;
          match c with
          | TLSHostingPower => _derive_hosting_power host private_key
          | SigningPower => kp <- new_keypair (Some private_key) None true ;; keypair_power Signing None (Some kp)
          | DecryptingPower => kp <- new_keypair (Some private_key) None true ;; keypair_power Decrypting None (Some kp)
          | DelegatingPower => factory <- lift (make_factory s _DELEGATING_INFO) ;; py_ret (Delegating factory)
          | TransactingPower => raise ValueError
          end
      end
  end.

(** ** Round trips of the file and of its name *)

Lemma deserialize_serialize p :
  _deserialize_keystore (_serialize_keystore p) = Ok (KeyData p.(key) p.(password_salt) p.(wrapper_salt)).
Proof.
  assert (json_ok (payload_json p) = true) as Hok by reflexivity.
  unfold _deserialize_keystore, _serialize_keystore, dumps_indent.
  rewrite decode_ascii by by apply ascii_dumps. cbn [rbind]. rewrite loads_dumps_at by done.
  unfold payload_json, hex_field.
  change (dict_get _ (to_bytes "key")) with (Some (JStr (hex (key p)))).
  change (dict_get _ (to_bytes "password_salt")) with (Some (JStr (hex (password_salt p)))).
  change (dict_get _ (to_bytes "wrapper_salt")) with (Some (JStr (hex (wrapper_salt p)))).
  cbv iota beta. by rewrite !fromhex_hex.
Qed.

Lemma not_hexdigit c b : Forall (fun c => is_hexdigit c = true) b -> is_hexdigit c = false -> c ∉ b.
Proof. intros Hb Hc Hin. rewrite Forall_forall in Hb. specialize (Hb c Hin). congruence. Qed.

Lemma digits_are_hex n : Forall (fun c => is_hexdigit c = true) (nat_chars n).
Proof. unfold nat_chars. induction (N.to_uint n); constructor; done. Qed.

Lemma filename_roundtrip t id :
  length id = _ID_SIZE -> Forall (fun c => is_hexdigit c = true) id ->
  validate_keystore_filename (keystore_filename t id) = Ok (nat_chars t, id).
Proof.
  intros Hlen Hhex. unfold validate_keystore_filename, filename_parts, keystore_filename.
  change (nat_chars t ++ _DELIMITER :: id ++ "."%char :: _SUFFIX)
    with (nat_chars t ++ (_DELIMITER :: id) ++ "."%char :: _SUFFIX).
  rewrite (assoc_L (++)), rstrip_suffix.
  - rewrite split_one_char by (by eapply not_hexdigit; [apply digits_are_hex || exact Hhex|]).
    rewrite bool_decide_true by done. cbn [andb]. rewrite (proj2 (forallb_forall _ _)); [done|].
    intros c Hc%list_elem_of_In. rewrite Forall_forall in Hhex. by apply Hhex.
  - apply Forall_forall. done.
  - intros c. rewrite last_app. destruct id as [|d id]; [done|].
    destruct (last (_DELIMITER :: d :: id)) as [x|] eqn:Hl; [|by apply last_None in Hl].
    change (last (_DELIMITER :: d :: id)) with (last (d :: id)) in Hl. intros [= <-].
    apply last_Some_elem_of in Hl. rewrite Forall_forall in Hhex. specialize (Hhex x Hl).
    apply (bool_decide_unpack _). destruct x as [[] [] [] [] [] [] [] []]; (vm_compute in Hhex; discriminate Hhex) || exact I.
Qed.

(** Two names are the same only for the same time and id. *)
Lemma filename_inj t t' id id' :
  length id = _ID_SIZE /\ Forall (fun c => is_hexdigit c = true) id ->
  length id' = _ID_SIZE /\ Forall (fun c => is_hexdigit c = true) id' ->
  keystore_filename t id = keystore_filename t' id' -> t = t' /\ id = id'.
Proof.
  intros [Hl Hh] [Hl2 Hh2] Heq. pose proof (filename_roundtrip t id) as H1. rewrite Heq, filename_roundtrip in H1 by done.
  assert (nat_chars t' = nat_chars t /\ id' = id) as [Ht ->]; [|by apply nat_chars_inj in Ht as ->].
  specialize (H1 ltac:(done) ltac:(done)). by simplify_eq.
Qed.

(** ** Creating and unlocking *)

Section Laws.
(** The secret box decrypts what it encrypted with the same key; a public key
    has at least 16 bytes. *)
Hypothesis box_correct : forall k p w c w', box_encrypt k p w = (Ok c, w') -> box_decrypt k c = Some p.
Hypothesis key_long : forall k, 16 <= length (public_key_bytes k).

Definition id_of (k : Key) : bytes := take _ID_SIZE (hex (public_key_bytes k)).

Lemma id_of_ok k : length (id_of k) = _ID_SIZE /\ Forall (fun c => is_hexdigit c = true) (id_of k).
Proof.
  unfold id_of. split; [|apply Forall_take, hex_digits]. rewrite length_take, length_hex.
  pose proof (key_long k). unfold _ID_SIZE. lia.
Qed.

Definition keystore_file (dir : path) (t : N) (k : Key) : path :=
  child dir (String.string_of_list_ascii (keystore_filename t (id_of k))).

(** What [save] leaves behind. *)
Lemma save_ok s pw dir w p w' :
  save s pw dir w = (Ok p, w') ->
  exists k data fs1, make_key s _SIGNING_INFO = Ok k /\ p = keystore_file dir (epoch w.1) k /\
    mkdir_parents dir w.2 = (Ok tt, fs1) /\ is_dir w'.2 p = false /\
    w'.2 = put p (_serialize_keystore data) fs1 /\
    box_decrypt (hkdf_wrap (scrypt pw data.(password_salt)) data.(wrapper_salt)) data.(key) = Some s.
Proof.
  unfold save. case_bool_decide as Hpw; [done|].
  unfold py_bind at 1, lift. destruct (make_key s _SIGNING_INFO) as [k|e]; [|done].
  unfold in_files at 1. unfold py_bind at 1. destruct (mkdir_parents dir w.2) as [[[]|e] fs1]; [|done].
  unfold generate_keystore_filepath, gets, in_world. unfold py_bind at 1. cbn [fst snd].
  unfold py_bind at 1. cbn [fst snd].
  destruct (token_bytes _SALT_SIZE w.1) as [[salt|e] w1]; [|done]. cbn [fst snd].
  unfold py_bind at 1. cbn [fst snd]. destruct (token_bytes _SALT_SIZE w1) as [[wsalt|e] w2]; [|done]. cbn [fst snd].
  unfold py_bind at 1. cbn [fst snd]. unfold secret_box_encrypt.
  destruct (box_encrypt _ s w2) as [[ct|e] w3] eqn:Hbox; [|done]. cbn [fst snd].
  unfold py_bind at 1, _assemble_keystore, gets. cbn [fst snd].
  set (data := Payload _ _ _ _ _). unfold _write_keystore, py_bind, gets, in_files, py_ret. cbn [fst snd].
  fold (id_of k). fold (keystore_file dir (epoch w.1) k). change ((w3, fs1).2) with fs1.
  destruct (path_exists fs1 (keystore_file dir (epoch w.1) k)); [done|].
  change ((w3, fs1).2) with fs1. change ((w3, fs1).1) with w3.
  destruct (write_file (keystore_file dir (epoch w.1) k) (_serialize_keystore data) fs1)
    as [[[]|e] fs2] eqn:Hw; [|done]. intros; simplify_eq. cbn [snd].
  exists k, data, fs1. apply write_file_ok in Hw as [[Hd _] ->].
  split_and!; [done..|]. by eapply box_correct.
Qed.

Lemma new_keystore_file dir t k (w : world) :
  is_file w.2 (keystore_file dir t k) = true ->
  new_keystore (keystore_file dir t k) w
    = (Ok (Keystore_ (keystore_file dir t k) (nat_chars t) (id_of k) None), w).
Proof.
  intros Hf. unfold new_keystore, _parse_path, py_bind, path_exists. rewrite Hf. cbn [orb negb].
  assert (name_of (keystore_file dir t k) = keystore_filename t (id_of k)) as ->.
  { unfold name_of, keystore_file, child. rewrite last_snoc. unfold to_bytes. cbn.
    apply String.list_ascii_of_string_of_list_ascii. }
  destruct (id_of_ok k). by rewrite filename_roundtrip.
Qed.

(** What [unlock] does, by the answer of the secret box. *)
Lemma unlock_file p created id x (w : world) data pw :
  is_dir w.2 p = false -> w.2.(regular) !! p = Some (_serialize_keystore data) ->
  unlock pw (Keystore_ p created id x, w) =
    match box_decrypt (hkdf_wrap (scrypt pw data.(password_salt)) data.(wrapper_salt)) data.(key) with
    | Some s => (Ok tt, (Keystore_ p created id (Some s), w))
    | None => (Raise AuthenticationFailed, (Keystore_ p created id None, w))
    end.
Proof.
  intros Hd Hf. unfold unlock, _read_keystore, py_bind, in_files, lift, read_file.
  cbn [keystore_path]. rewrite Hd, Hf, deserialize_serialize. unfold secret_box_decrypt.
  cbn [d_key d_password_salt d_wrapper_salt]. destruct w as [w1 w2]. by destruct (box_decrypt _ _).
Qed.

(** C33.  After [save], the file's name parses back to the creation time and the id
    of the signing key, the keystore of the file is locked, unlocking it with
    the same password restores the secret that was saved, and unlocking an
    unlocked keystore with a password for which the secret box refuses the
    file raises [AuthenticationFailed] and locks it again. *)
Theorem keystore_unlock_roundtrip s pw dir w p w' :
  save s pw dir w = (Ok p, w') ->
  exists k, make_key s _SIGNING_INFO = Ok k /\
  let ks x := Keystore_ p (nat_chars (epoch w.1)) (id_of k) x in
  new_keystore p w' = (Ok (ks None), w') /\ is_unlocked (ks None) = false /\
  unlock pw (ks None, w') = (Ok tt, (ks (Some s), w')) /\
  forall pw' x, (forall s', unlock pw' (ks x, w') <> (Ok tt, (ks (Some s'), w'))) ->
    unlock pw' (ks x, w') = (Raise AuthenticationFailed, (ks None, w')).
Proof.
  intros (k & data & fs1 & Hk & -> & _ & Hd & Hw & Hbox)%save_ok. exists k. split; [done|]. intros ks.
  assert (w'.2.(regular) !! keystore_file dir (epoch w.1) k = Some (_serialize_keystore data)) as Hf
    by (rewrite Hw; cbn; by rewrite lookup_insert_eq).
  split_and!; [|done| |].
  - apply new_keystore_file. unfold is_file. by rewrite Hf.
  - unfold ks. by rewrite (unlock_file _ _ _ _ _ data), Hbox by done.
  - intros pw' x Hno. unfold ks in *.
    destruct (box_decrypt (hkdf_wrap (scrypt pw' data.(password_salt)) data.(wrapper_salt)) data.(key))
      as [s1|] eqn:E; [exfalso; apply (Hno s1)|]; by rewrite (unlock_file _ _ _ _ _ data), E.
Qed.

(** [Keystore.load] finds a keystore only during the second it was created
    in: it builds the file's name from the id and the present time.  In a
    directory that was empty before [save], [load] of the new keystore's id
    returns it while the clock shows the creation's second, and raises
    [NotFound] at every other time, the file being there. *)
Theorem keystore_found_only_in_its_second s pw dir w p w' k now :
  save s pw dir w = (Ok p, w') -> make_key s _SIGNING_INFO = Ok k ->
  (forall q, path_exists w.2 q = true -> parent q <> dir) ->
  load (id_of k) dir (now, w'.2) =
    (if (epoch now =? epoch w.1)%N then Ok (Keystore_ p (nat_chars (epoch w.1)) (id_of k) None)
     else Raise KeystoreNotFound, (now, w'.2)).
Proof.
  intros (k' & data & fs1 & Hk' & -> & Hmk & Hd & Hw & _)%save_ok Hk Hempty. assert (k' = k) as -> by congruence.
  unfold load, py_bind, generate_keystore_filepath, gets. cbn [fst snd].
  change (child dir (String.string_of_list_ascii (keystore_filename (epoch now) (id_of k))))
    with (keystore_file dir (epoch now) k).
  destruct (N.eqb_spec (epoch now) (epoch w.1)) as [->|Hne].
  { apply new_keystore_file. unfold is_file. cbn [snd]. rewrite Hw. cbn. by rewrite lookup_insert_eq. }
  unfold new_keystore, _parse_path, py_bind. cbn [snd].
  assert (path_exists w'.2 (keystore_file dir (epoch now) k) = false) as ->; [|done].
  assert (path_exists w.2 (keystore_file dir (epoch now) k) = false) as [Hf0 Hd0]%path_exists_false.
  { apply not_true_iff_false. intros Hq%Hempty. apply Hq, parent_child. }
  rewrite Hw. unfold path_exists. apply orb_false_iff. split.
  - unfold is_file. apply bool_decide_eq_false, eq_None_not_Some. cbn.
    rewrite lookup_insert_ne; [by rewrite (mkdir_parents_regular _ _ _ _ Hmk)|].
    intros Heq%child_inj. apply (f_equal String.list_ascii_of_string) in Heq.
    rewrite !String.list_ascii_of_string_of_list_ascii in Heq.
    apply filename_inj in Heq as [? _]; [done|apply id_of_ok..].
  - apply not_true_iff_false. intros Hq. change (is_dir fs1 (keystore_file dir (epoch now) k) = true) in Hq.
    apply (mkdir_parents_new _ _ _ _ _ Hmk) in Hq as [Hq|Hq]; [congruence|].
    unfold keystore_file, child in Hq. rewrite length_app in Hq. cbn in Hq. lia.
Qed.

(** ** Creation is all or nothing *)

Definition keeps_files {A} (m : PyM world A) : Prop :=
  forall w r w', m w = (r, w') -> w'.2.(regular) = w.2.(regular).

Definition creates_file {A} (m : PyM world A) : Prop := forall w r w', m w = (r, w') ->
  match r with
  | Ok _ => exists p content, w.2.(regular) !! p = None /\ w'.2.(regular) = <[p := content]> w.2.(regular)
  | Raise _ => w'.2.(regular) = w.2.(regular)
  end.

Lemma keeps_then_keeps {A B} (m : PyM world A) (k : A -> PyM world B) :
  keeps_files m -> (forall x, keeps_files (k x)) -> keeps_files (py_bind m k).
Proof.
  intros Hm Hk w r w'. unfold py_bind. destruct (m w) as [[x|e] w1] eqn:H; [|intros; simplify_eq; eauto].
  intros Hr. rewrite (Hk _ _ _ _ Hr). eauto.
Qed.

Lemma keeps_then_creates {A B} (m : PyM world A) (k : A -> PyM world B) :
  keeps_files m -> (forall x, creates_file (k x)) -> creates_file (py_bind m k).
Proof.
  intros Hm Hk w r w'. unfold py_bind. destruct (m w) as [[x|e] w1] eqn:H.
  - intros Hr%Hk. by rewrite (Hm _ _ _ H) in Hr.
  - intros; simplify_eq. eauto.
Qed.

Lemma keeps_pure {A} (m : PyM world A) : (forall w, exists r, m w = (r, w)) -> keeps_files m.
Proof. intros Hm w r w' H. destruct (Hm w) as [r' Hr]. congruence. Qed.

Lemma keeps_raise {A} e : keeps_files (raise e : PyM world A).
Proof. apply keeps_pure. by eexists. Qed.

Lemma keeps_ret {A} (x : A) : keeps_files (py_ret x).
Proof. apply keeps_pure. by eexists. Qed.

Lemma keeps_lift {A} (r : result A) : keeps_files (lift r).
Proof. apply keeps_pure. by eexists. Qed.

Lemma keeps_path dir id : keeps_files (generate_keystore_filepath dir id).
Proof. apply keeps_pure. by eexists. Qed.

Lemma keeps_in_world {A} (m : PyM W A) : keeps_files (in_world m).
Proof. intros w r w'. unfold in_world. destruct (m w.1). intros; by simplify_eq. Qed.

Lemma keeps_mkdir dir : keeps_files (in_files (mkdir_parents dir)).
Proof.
  intros w r w'. unfold in_files. destruct (mkdir_parents dir w.2) as [r' fs] eqn:H. intros; simplify_eq.
  by apply mkdir_parents_regular in H.
Qed.

Lemma creates_raise {A} e : creates_file (raise e : PyM world A).
Proof. intros w r w' [= <- <-]. done. Qed.

Lemma creates_write p content : creates_file (_write_keystore p content).
Proof.
  intros w r w'. unfold _write_keystore, py_bind, gets, in_files. destruct (path_exists w.2 p) eqn:Hp.
  { cbn. by intros [= <- <-]. }
  apply path_exists_false in Hp as [Hp _].
  destruct (write_file p content w.2) as [[[]|e] fs] eqn:Hw; intros [= <- <-]; cbn [snd].
  - apply write_file_ok in Hw as [_ ->]. by exists p, content.
  - by apply write_file_raise in Hw as ->.
Qed.

Hint Resolve keeps_path keeps_lift keeps_in_world keeps_mkdir keeps_raise keeps_ret creates_raise creates_write : core.

Lemma creates_save s pw dir : creates_file (save s pw dir).
Proof.
  unfold save. case_bool_decide; [done|].
  do 6 (apply keeps_then_creates; [auto|intros ?]). apply keeps_then_creates; auto.
Qed.

Lemma creates_save_new s pw dir : creates_file (p <- save s pw dir ;; new_keystore p).
Proof.
  intros w r w'. unfold py_bind. destruct (save s pw dir w) as [[p|e] w1] eqn:Hs.
  - pose proof (creates_save _ _ _ _ _ _ Hs) as Hc. apply save_ok in Hs as (k & d & fs1 & _ & -> & _ & _ & Hw & _).
    rewrite new_keystore_file; [intros; by simplify_eq|]. unfold is_file. rewrite Hw. cbn. by rewrite lookup_insert_eq.
  - intros; simplify_eq. by apply (creates_save _ _ _ _ _ _ Hs).
Qed.

Lemma keeps_confirm words : keeps_files (_confirm_generate words).
Proof.
  unfold _confirm_generate. apply keeps_then_keeps; [done|]. intros [|]; cbn [negb]; [|done].
  apply keeps_then_keeps; [done|]. intros resp. case_bool_decide; cbn [negb]; done.
Qed.

(** Creating a keystore is all or nothing, whichever way it is created: when
    [import_secure], [restore] or [generate] raises (bad password, bad
    entropy, unconfirmed words, an existing file, a directory that cannot be
    made, a failing random source) no file was created, changed or truncated,
    and when it returns there is exactly one file more than before, at a path
    where there was none. *)
Theorem keystore_creation_all_or_nothing s pw dir interactive :
  creates_file (import_secure s pw dir) /\ creates_file (restore s pw dir) /\
  creates_file (generate pw dir interactive).
Proof.
  split_and!.
  - unfold import_secure. destruct (negb _); [done|apply creates_save_new].
  - apply keeps_then_creates; [done|]. intros x. apply creates_save_new.
  - apply keeps_then_creates; [done|]. intros words. apply keeps_then_creates.
    { destruct interactive; [apply keeps_confirm|done]. }
    intros []. apply keeps_then_creates; [done|]. intros x w r w'.
    pose proof (creates_save_new x pw dir w) as H. unfold py_bind in *.
    destruct (save x pw dir w) as [[p|e] w1]; [|intros [= <- <-]; exact (H _ _ eq_refl)].
    destruct (new_keystore p w1) as [[k|e] w2]; intros [= <- <-]; exact (H _ _ eq_refl).
Qed.

End Laws.

End Keystore.

End Keystore.

(** ** A concrete instance *)

Module KeystoreDemo.
Import Keystore PowersDemo.

(** A clock and a box that prefixes its key. *)
#[export] Instance demo_crypto : Crypto N bytes := {
  scrypt pw salt := pw ++ salt;
  hkdf_wrap k salt := k ++ salt;
  box_encrypt k p := py_ret (k ++ p);
  box_decrypt k c := if decide (take (length k) c = k) then Some (drop (length k) c) else None;
  make_key s info := Ok (info ++ s);
  make_factory s info := Ok (info ++ s);
  serialized_size := 4;
  token_bytes n := fun t => (Ok (replicate n (ascii_of_N t)), t);
  epoch t := t;
  time_text t := nat_chars t;
  mnemonic_generate := py_ret (to_bytes "word");
  mnemonic_to_entropy w := Ok w;
  click_confirm := py_ret true;
  click_prompt := py_ret (to_bytes "word");
}.

Lemma demo_box k p w c w' : box_encrypt k p w = (Ok c, w') -> box_decrypt k c = Some p.
Proof.
  cbn. unfold py_ret. intros [= <- _]. rewrite take_app_length, decide_True by done. by rewrite drop_app_length.
Qed.

Lemma demo_long k : 16 <= length (public_key_bytes (W := N) (Pub := bytes) k).
Proof. cbn. rewrite length_app. cbn. lia. Qed.

Definition root : filesystem := Filesystem ∅ {[ [] ]}.
Definition pw := to_bytes "password".
Definition demo_secret := to_bytes "seed".
Definition saved := Eval vm_compute in save demo_secret pw ["keys"%string] (7%N, root).
Definition saved_path : path := match saved.1 with Ok p => p | Raise _ => [] end.

Lemma saved_ok : save demo_secret pw ["keys"%string] (7%N, root) = (Ok saved_path, saved.2).
Proof. vm_compute. reflexivity. Qed.

Lemma root_empty q : path_exists root q = true -> parent q <> ["keys"%string].
Proof.
  unfold path_exists. intros [Hf|Hd]%orb_true_iff.
  - unfold is_file in Hf. apply bool_decide_eq_true in Hf as [x Hx]. cbn in Hx; by rewrite (lookup_empty (M := gmap path) q) in Hx.
  - unfold is_dir in Hd. apply bool_decide_eq_true in Hd. cbn in Hd. by apply elem_of_singleton in Hd as ->.
Qed.

Lemma keystore_unlock_roundtrip_witness :
  exists k, make_key (W := N) demo_secret _SIGNING_INFO = Ok k /\
  let ks x := Keystore_ saved_path (to_bytes "7") (id_of k) x in
  unlock pw (ks None, saved.2) = (Ok tt, (ks (Some demo_secret), saved.2)) /\
  unlock (to_bytes "passw0rd") (ks (Some demo_secret), saved.2) = (Raise AuthenticationFailed, (ks None, saved.2)).
Proof.
  destruct (keystore_unlock_roundtrip demo_box demo_long demo_secret pw ["keys"%string] (7%N, root)
    saved_path saved.2 saved_ok) as (k & Hk & _ & _ & Hu & Hw).
  exists k. split; [exact Hk|]. split; [exact Hu|]. apply Hw. vm_compute in Hk. injection Hk as <-.
  intros s' Heq. vm_compute in Heq. discriminate Heq.
Defined.

Lemma keystore_found_only_in_its_second_witness :
  exists k, make_key (W := N) demo_secret _SIGNING_INFO = Ok k /\
  load (id_of k) ["keys"%string] (8%N, saved.2.2) = (Raise KeystoreNotFound, (8%N, saved.2.2)).
Proof.
  exists (_SIGNING_INFO ++ demo_secret). split; [reflexivity|].
  exact (keystore_found_only_in_its_second demo_box demo_long demo_secret pw ["keys"%string] (7%N, root)
    saved_path saved.2 _ 8%N saved_ok eq_refl root_empty).
Defined.

Lemma keystore_creation_all_or_nothing_witness :
  (restore demo_secret pw ["keys"%string] (7%N, saved.2.2)).1 = Raise KeystoreExists
  /\ creates_file (restore demo_secret pw ["keys"%string]).
Proof.
  split; [vm_compute; reflexivity|].
  apply (keystore_creation_all_or_nothing demo_box demo_long demo_secret pw ["keys"%string] true).
Defined.

End KeystoreDemo.
