(* ===== verification/CharacterBase.v ===== *)
(** * nulink/characters/base.py

    The construction of a character from its keystore, its powers or the
    public keys of a stranger, its stamp, its public keys and its equality.
    The learner, the registry's download and the conversion of a key to an
    Ethereum address are the class [Host]. *)

From stdpp Require Import gmap.
From S2P Require Import Prelude Text Files Powers Keystore.
Import Powers Keystore.

Class Host (W Pub : Type) := {
  (* [known_node_class.set_federated_mode] *)
  set_federated_mode : bool -> PyM W unit;
  (* [InMemoryContractRegistry.from_latest_publication(network=domain)] *)
  latest_publication : PyM W unit;
  (* [Learner.__init__] *)
  learner_init : PyM W unit;
  (* [EthKeyAPI.PublicKey.from_compressed_bytes(...).to_checksum_address()] *)
  eth_address : Pub -> string;
}.

Module Character.

Section Character.
Context {W Key Pub Cert : Type} `{!Crypto W Key} `{!Umbral W Key Pub} `{!Tls W Key Pub Cert}
  `{!Signer W} `{!Host W Pub}.
Notation power := (power Key Pub Cert).
Notation crypto_power := (crypto_power Key Pub Cert).
Notation power_arg := (power_arg Key Pub Cert).

(** The attributes; [_stamp] is [None] for [NO_SIGNING_POWER], and the address
    of a character without one is [None]. *)
Record character := Character_ {
  federated_only : bool;
  _crypto_power : crypto_power;
  _stamp : option (stamp Key Pub);
  checksum_address : option string;
}.

(** The arguments of [__init__]; the middleware, the registry and the
    provider only matter by being there. *)
Record init_args := InitArgs {
  a_is_me : bool;
  a_federated_only : bool;
  a_checksum_address : option string;
  a_network_middleware : bool;
  a_registry : bool;
  a_eth_provider_uri : bool;
  a_keystore : option keystore;
  a_crypto_power : option crypto_power;
  a_crypto_power_ups : list power_arg;
}.

(** [Character.public_keys]. *)
Definition public_keys_of (c : power_class) (cp : crypto_power) : result Pub :=
  let? p := power_ups c cp in power_public_key p.

(** [derive_federated_address]. *)
Definition derive_federated_address (federated : bool) (cp : crypto_power) : result string :=
  if federated then let? verifying_key := public_keys_of SigningPower cp in Ok (eth_address verifying_key)
  else Raise RuntimeError.

(** [keystore.derive_crypto_power(power_class=power_up)]: the hosting power
    would need a host. *)
Definition derive (k : keystore) (c : power_class) : PyM W power :=
  match c, k.(secret) with
  | TLSHostingPower, Some s => lift (make_key s _TLS_INFO) ;;; raise TypeError
  | _, _ => derive_crypto_power c EmptyString k
  end.

Fixpoint derive_all (k : keystore) (cs : list power_class) : PyM W (list power_arg) :=
  match cs with
  | [] => py_ret []
  | c :: cs' => p <- derive k c ;; ps <- derive_all k cs' ;; py_ret (AnInstance p None :: ps)
  end.

(** The powers of the character. *)
Definition init_powers (a : init_args) (defaults : list power_class) : PyM W crypto_power :=
  crypto_power_ups <- match a.(a_keystore) with
                      | Some k => derive_all k defaults
                      | None => py_ret a.(a_crypto_power_ups)
                      end ;;
  match a.(a_crypto_power), crypto_power_ups with
  | Some _, _ :: _ => raise ValueError
  | Some cp, [] => py_ret cp
  | None, _ :: _ => new_crypto_power crypto_power_ups
  | None, [] => new_crypto_power (AClass <$> defaults)
  end.

(** [signing_power.get_signature_stamp()], or [NO_SIGNING_POWER]. *)
Definition init_stamp (cp : crypto_power) : result (option (stamp Key Pub)) :=
  match power_ups SigningPower cp with
  | Ok p => match keypair_of p with
            | Some k => Ok (Some (get_signature_stamp k))
            | None => Raise AttributeError
            end
  | Raise e => if catches [NoSigningPower] e then Ok None else Raise e
  end.

(** The address of a federated character is derived from its key; an empty
    one counts as not given. *)
Definition given_address (a : init_args) : bool :=
  match a.(a_checksum_address) with None | Some EmptyString => false | Some _ => true end.

Definition init_address (a : init_args) (federated : bool) (cp : crypto_power) : result (option string) :=
  if federated then
    let? derived := match derive_federated_address federated cp with
                    | Ok address => Ok (Some address)
                    | Raise e => if catches [NoSigningPower] e then Ok None else Raise e
                    end in
    if given_address a && negb (bool_decide (a.(a_checksum_address) = derived))
    then Raise ValueError else Ok derived
  else Ok a.(a_checksum_address).

(** [__init__]; [known_node_mode] is the federated mode of the known node
    class, when it has one. *)
Definition character_init (a : init_args) (defaults : list power_class) (known_node_mode : option bool)
    : PyM W character :=
  federated <- (if a.(a_is_me) then set_federated_mode a.(a_federated_only) ;;; py_ret a.(a_federated_only)
                else py_ret (default a.(a_federated_only) known_node_mode)) ;;
  if (federated : bool) && (a.(a_registry) || a.(a_eth_provider_uri)) then raise ValueError
  else
    cp <- init_powers a defaults ;;
    if a.(a_is_me) then
      s <- lift (init_stamp cp) ;;
      (if federated || a.(a_registry) then py_ret tt else latest_publication) ;;;
      learner_init ;;;
      address <- lift (init_address a federated cp) ;;
      py_ret (Character_ federated cp s address)
    else if a.(a_network_middleware) then raise TypeError
    else if a.(a_registry) then raise TypeError
    else
      verifying_key <- lift (public_keys_of SigningPower cp) ;;
      py_ret (Character_ federated cp (Some (StrangerStamp verifying_key)) a.(a_checksum_address)).

(** [stamp]. *)
Definition get_stamp (c : character) : result (stamp Key Pub) :=
  match c.(_stamp) with Some s => Ok s | None => Raise NoSigningPower end.

(** [__eq__] with another character. *)
Definition character_eqb (c d : character) : result bool :=
  match get_stamp d with
  | Raise e => if catches [AttributeError; NoSigningPower] e then Ok false else Raise e
  | Ok other => let? mine := get_stamp c in Ok (bool_decide (stamp_bytes mine = stamp_bytes other))
  end.

(** The loop of [from_public_keys] over the dict of powers and their keys;
    [power_up(public_key=key)]: only the key pair powers take one. *)
Definition power_of_key (c : power_class) (k : Pub) : PyM W power :=
  match c with
  | SigningPower => keypair_power Signing (Some k) None
  | DecryptingPower => keypair_power Decrypting (Some k) None
  | _ => raise TypeError
  end.

Definition consume_public_keys (powers_and_material : list (power_class * Pub)) : PyM (crypto_power * W) unit :=
  for_each powers_and_material (fun ck =>
    p <- on_world (power_of_key ck.1 ck.2) ;; consume_power_up (AnInstance p None)).

(** The dict, with the two keys that can be passed directly. *)
Definition set_material (c : power_class) (k : option Pub) (m : list (power_class * Pub)) : list (power_class * Pub) :=
  match k with
  | Some k =>
      if decide (c ∈ m.*1) then (fun ck => if decide (ck.1 = c) then (c, k) else ck) <$> m
      else m ++ [(c, k)]
  | None => m
  end.

Definition from_public_keys (powers_and_material : list (power_class * Pub)) (verifying_key encrypting_key : option Pub)
    (address : option string) (federated : bool) (defaults : list power_class) (known_node_mode : option bool)
    : PyM W character := fun w =>
  let material := set_material DecryptingPower encrypting_key
                    (set_material SigningPower verifying_key powers_and_material) in
  match consume_public_keys material (no_powers, w) with
  | (Raise e, (_, w')) => (Raise e, w')
  | (Ok _, (cp, w')) =>
      character_init (InitArgs false federated address false false false None (Some cp) []) defaults known_node_mode w'
  end.

(** ** The keys of a character *)

(** The power of a class that a secret gives. *)
Definition is_derived (s : bytes) (c : power_class) (p : power) : Prop :=
  match c with
  | SigningPower => exists k, make_key s _SIGNING_INFO = Ok k /\ p = Signing (Keypair_ (Some k) (public_key k))
  | DecryptingPower => exists k, make_key s _DECRYPTING_INFO = Ok k /\ p = Decrypting (Keypair_ (Some k) (public_key k))
  | DelegatingPower => exists f, make_factory s _DELEGATING_INFO = Ok f /\ p = Delegating f
  | _ => False
  end.

Lemma derive_ok k s c w p w' :
  k.(secret) = Some s -> derive k c w = (Ok p, w') -> class_of p = c /\ is_derived s c p.
Proof.
  intros Hs. unfold derive, derive_crypto_power. rewrite Hs.
  destruct c; cbn [hkdf_info is_derived]; unfold py_bind, lift, raise; [..|by destruct (make_key s _TLS_INFO)|done];
    match goal with |- context [make_key s ?info] => destruct (make_key s info) as [key|e]; [|done] end;
    unfold new_keypair, keypair_power, py_ret;
    [intros [= <- _]; split; [done|]; by exists key..|].
  destruct (make_factory s _DELEGATING_INFO) as [f|e]; [|done]. intros [= <- _]. split; [done|]. by exists f.
Qed.

Definition derived_arg (s : bytes) (a : power_arg) : Prop :=
  exists p, a = AnInstance p None /\ is_derived s (class_of p) p.

Lemma derive_all_ok k s cs w args w' :
  k.(secret) = Some s -> derive_all k cs w = (Ok args, w') ->
  arg_class <$> args = Some <$> cs /\ Forall (derived_arg s) args.
Proof.
  intros Hs. revert w args w'. induction cs as [|c cs IH]; intros w args w'; cbn [derive_all].
  - intros [= <- _]. by split.
  - unfold py_bind. destruct (derive k c w) as [[p|e] w1] eqn:Hp; [|done].
    apply (derive_ok _ _ _ _ _ _ Hs) in Hp as [Hc Hp].
    destruct (derive_all k cs w1) as [[ps|e] w2] eqn:Hps; [|done]. intros [= <- _].
    destruct (IH _ _ _ Hps) as [Hcs Hall]. split; [rewrite !fmap_cons; cbn; by rewrite Hc, Hcs|].
    constructor; [|done]. exists p. by rewrite Hc.
Qed.

Lemma derived_chosen s a w p w' :
  derived_arg s a -> chosen a w = (Ok p, w') -> is_derived s (class_of p) p.
Proof.
  intros (q & -> & Hq). cbn [chosen].
  assert (activate_power q None w = (Ok q, w)) as ->; [|by intros [= <- _]].
  by destruct q.
Qed.

(** The powers of a character made from a keystore are those of its secret. *)
Lemma powers_from_keystore a k s defaults w cp w' :
  a.(a_keystore) = Some k -> k.(secret) = Some s -> defaults <> [] ->
  init_powers a defaults w = (Ok cp, w') ->
  crypto_power_wf cp /\ map_Forall (is_derived s) cp.(ups) /\ forall c, is_Some (cp.(ups) !! c) <-> c ∈ defaults.
Proof.
  intros Hk Hs Hdef. unfold init_powers. rewrite Hk. unfold py_bind.
  destruct (derive_all k defaults w) as [[args|e] w1] eqn:Hargs; [|done].
  apply (derive_all_ok _ _ _ _ _ _ Hs) in Hargs as [Hcl Hall].
  destruct args as [|a0 args]; [by destruct defaults|].
  destruct (a_crypto_power a); [done|]. intros Hcp.
  destruct (new_crypto_power_ok _ _ _ _ Hcp) as (Hwf & _ & Hin). split; [done|]. split.
  - eapply new_crypto_power_all; [|exact Hcp]. eapply Forall_impl; [exact Hall|].
    intros x Hx w0 p w2. by apply derived_chosen.
  - intros c. rewrite Hin, Hcl. rewrite list_elem_of_fmap. split; [by intros (d & [= ->] & ?)|by exists c].
Qed.

Lemma powers_locked a k defaults c w :
  a.(a_keystore) = Some k -> k.(secret) = None -> init_powers a (c :: defaults) w = (Raise KeystoreLocked, w).
Proof.
  intros Hk Hs. unfold init_powers. rewrite Hk. cbn [derive_all]. unfold py_bind, derive, derive_crypto_power.
  rewrite Hs. by destruct c.
Qed.

Lemma derived_signing cp s :
  map_Forall (is_derived s) cp.(ups) -> is_Some (cp.(ups) !! SigningPower) ->
  exists k, make_key s _SIGNING_INFO = Ok k /\ power_ups SigningPower cp = Ok (Signing (Keypair_ (Some k) (public_key k))).
Proof.
  intros Hall [p Hp]. destruct (Hall _ _ Hp) as (k & Hk & ->). exists k. unfold power_ups. by rewrite Hp.
Qed.

(** C37.  A local character made from a keystore, with signing among its
    powers, is determined by the keystore's secret: when [__init__] returns,
    the keystore was unlocked; the character signs
    with the key derived for signing, whose public key its stamp shows, has
    the encrypting key derived for decryption, has exactly the powers of its
    class, and its address, when it is federated, is that of its verifying
    key, and so is an address that was passed, unless it is empty. *)
Theorem keystore_determines_character a k defaults mode w ch w' :
  a.(a_keystore) = Some k -> a.(a_is_me) = true -> SigningPower ∈ defaults ->
  character_init a defaults mode w = (Ok ch, w') ->
  exists s key, k.(secret) = Some s /\ make_key s _SIGNING_INFO = Ok key /\
  ch.(_stamp) = Some (SignatureStamp (public_key key) key) /\
  public_keys_of SigningPower ch.(_crypto_power) = Ok (public_key key) /\
  (DecryptingPower ∈ defaults -> exists dkey, make_key s _DECRYPTING_INFO = Ok dkey /\
     public_keys_of DecryptingPower ch.(_crypto_power) = Ok (public_key dkey)) /\
  crypto_power_wf ch.(_crypto_power) /\ (forall c, is_Some (ch.(_crypto_power).(ups) !! c) <-> c ∈ defaults) /\
  (if ch.(federated_only) then ch.(checksum_address) = Some (eth_address (public_key key)) /\
     (given_address a = true -> a.(a_checksum_address) = Some (eth_address (public_key key)))
   else ch.(checksum_address) = a.(a_checksum_address)).
Proof.
  intros Hk Hme Hsig. unfold character_init. rewrite Hme. unfold py_bind at 1 2.
  destruct (set_federated_mode (a_federated_only a) w) as [[[]|e] w1]; [|done]. unfold py_ret at 1.
  destruct (_ && _); [done|]. unfold py_bind at 1.
  destruct (init_powers a defaults w1) as [[cp|e] w2] eqn:Hcp; [|done].
  assert (defaults <> []) as Hne by (intros Hnil; rewrite Hnil in Hsig; by apply elem_of_nil in Hsig).
  destruct (k.(secret)) as [s|] eqn:Hs.
  2:{ destruct defaults as [|c defaults]; [done|]. by rewrite (powers_locked _ _ _ _ _ Hk Hs) in Hcp. }
  destruct (powers_from_keystore _ _ _ _ _ _ _ Hk Hs Hne Hcp)
    as (Hwf & Hall & Hin).
  destruct (derived_signing cp s Hall (proj2 (Hin _) Hsig)) as (key & Hkey & Hp).
  unfold py_bind at 1, lift, init_stamp. rewrite Hp. cbn [keypair_of get_signature_stamp _privkey pubkey].
  unfold py_bind at 1. destruct (_ w2) as [[[]|e] w3]; [|done].
  unfold py_bind at 1. destruct (learner_init w3) as [[[]|e] w4]; [|done].
  unfold py_bind. destruct (init_address a (a_federated_only a) cp) as [address|e] eqn:Haddr; [|done].
  intros [= <- <-]. exists s, key. cbn.
  assert (public_keys_of SigningPower cp = Ok (public_key key)) as Hpub by (unfold public_keys_of; by rewrite Hp).
  split_and!; [done..| |done|done|].
  - intros [p Hd]%Hin. destruct (Hall _ _ Hd) as (d & Hdk & ->). exists d. split; [done|].
    unfold public_keys_of, power_ups. by rewrite Hd.
  - revert Haddr. unfold init_address, derive_federated_address. rewrite Hpub. cbn [rbind].
    destruct (a_federated_only a); [|by intros [= <-]].
    cbn [rbind]. case_bool_decide as H1; cbn; destruct (given_address a); by intros [= <-].
Qed.

(** The table of a stranger. *)
Definition stranger_powers (p : Pub) (enc : option Pub) : crypto_power :=
  let cp := with_power (Signing (Keypair_ None p)) no_powers in
  match enc with Some e => with_power (Decrypting (Keypair_ None e)) cp | None => cp end.

(** The construction of a stranger only looks for a verifying key. *)
Lemma init_stranger cp address federated defaults mode w :
  character_init (InitArgs false federated address false false false None (Some cp) []) defaults mode w =
    (let? p := public_keys_of SigningPower cp in
     Ok (Character_ (default federated mode) cp (Some (StrangerStamp p)) address), w).
Proof.
  unfold character_init. cbn [a_is_me a_federated_only a_registry a_eth_provider_uri].
  unfold py_bind at 1, py_ret at 1. rewrite andb_false_r. unfold py_bind at 1, init_powers at 1, py_bind at 1, py_ret at 1.
  cbn [a_crypto_power a_keystore a_crypto_power_ups]. unfold py_ret at 1. cbn [a_network_middleware a_checksum_address].
  unfold py_bind, lift, py_ret. by destruct (public_keys_of SigningPower cp).
Qed.

Lemma from_public_keys_eq p enc address federated defaults mode w :
  from_public_keys [] (Some p) enc address federated defaults mode w =
    (Ok (Character_ (default federated mode) (stranger_powers p enc) (Some (StrangerStamp p)) address), w).
Proof.
  assert (consume_public_keys (set_material DecryptingPower enc (set_material SigningPower (Some p) [])) (no_powers, w)
    = (Ok tt, (stranger_powers p enc, w))) as Hcp by by destruct enc.
  unfold from_public_keys. rewrite Hcp, init_stranger. by destruct enc.
Qed.

(** A stranger made from the public keys of a character is that character as
    far as equality goes, in both directions, and has its public keys, but it
    cannot sign: its stamp raises [NoSigningPower].  Without a verifying key
    there is no stranger: [from_public_keys] raises [NoSigningPower].  Neither
    changes the world. *)
Theorem stranger_shares_public_keys me sk p enc address federated defaults mode w :
  me.(_stamp) = Some (SignatureStamp p sk) ->
  (exists st, from_public_keys [] (Some p) enc address federated defaults mode w = (Ok st, w) /\
    character_eqb me st = Ok true /\ character_eqb st me = Ok true /\
    public_keys_of SigningPower st.(_crypto_power) = Ok p /\
    public_keys_of DecryptingPower st.(_crypto_power) =
      match enc with Some e => Ok e | None => Raise NoDecryptingPower end /\
    exists s, get_stamp st = Ok s /\ forall m, stamp_call s m = Raise NoSigningPower) /\
  from_public_keys [] None enc address federated defaults mode w = (Raise NoSigningPower, w).
Proof.
  intros Hme. split.
  - eexists. split; [apply from_public_keys_eq|]. unfold character_eqb, get_stamp. rewrite Hme. cbn [_stamp _crypto_power].
    unfold stamp_bytes. cbn [as_umbral_pubkey rbind]. rewrite bool_decide_true by done.
    split_and!; [done|done|by destruct enc|by destruct enc|]. by exists (StrangerStamp p).
  - assert (exists cp, consume_public_keys (set_material DecryptingPower enc (set_material SigningPower None []))
      (no_powers, w) = (Ok tt, (cp, w)) /\ public_keys_of SigningPower cp = Raise NoSigningPower) as (cp & Hcp & Hno)
      by (destruct enc; eexists; split; reflexivity).
    unfold from_public_keys. by rewrite Hcp, init_stranger, Hno.
Qed.

End Character.

Arguments character : clear implicits.
End Character.

(** ** A concrete instance *)

Module CharacterDemo.
Import Character PowersDemo KeystoreDemo.

#[local] Instance demo_host : Host N bytes := {
  set_federated_mode _ := py_ret tt;
  latest_publication := py_ret tt;
  learner_init := py_ret tt;
  eth_address k := String.string_of_list_ascii k;
}.

Definition opened : keystore := Keystore_ saved_path [] [] (Some demo_secret).
Definition me_args : init_args (Key := bytes) (Pub := bytes) (Cert := bytes) :=
  InitArgs true true None false false false (Some opened) None [].
Definition me : character bytes bytes bytes :=
  match (character_init me_args [SigningPower; DecryptingPower] None 0%N).1 with
  | Ok c => c
  | Raise _ => Character_ false no_powers None None
  end.

Lemma me_ok : character_init me_args [SigningPower; DecryptingPower] None 0%N = (Ok me, 0%N).
Proof. vm_compute. reflexivity. Qed.

Lemma keystore_determines_character_witness :
  exists s key, secret opened = Some s /\ make_key (W := N) s _SIGNING_INFO = Ok key /\
  _stamp me = Some (SignatureStamp (public_key (W := N) key) key).
Proof.
  destruct (keystore_determines_character me_args opened [SigningPower; DecryptingPower] None 0%N me 0%N
    eq_refl eq_refl ltac:(left) me_ok) as (s & key & Hs & Hk & Hst & _).
  exists s, key. split; [exact Hs|]. split; [exact Hk|exact Hst].
Defined.

Lemma stranger_shares_public_keys_witness :
  exists st, from_public_keys (W := N) [] (Some (public_key (W := N) (_SIGNING_INFO ++ demo_secret))) None None true [] None 0%N
    = (Ok st, 0%N) /\ character_eqb (W := N) me st = Ok true.
Proof.
  destruct (stranger_shares_public_keys me (_SIGNING_INFO ++ demo_secret)
    (public_key (W := N) (_SIGNING_INFO ++ demo_secret)) None None true [] None 0%N eq_refl)
    as [(st & Hst & Heq & _) _].
  exists st. split; [exact Hst|exact Heq].
Defined.

End CharacterDemo.
