(* ===== verification/Identity.v ===== *)
(** * nulink/policy/identity.py

    Cards: the serializable form of a character's public keys, its encodings,
    its nickname and its file.  The byte-string splitter, umbral's public
    keys, the constants of constant_sorrow and the hash are the class
    [CardLib]. *)

From Stdlib Require Import Ascii.
From stdpp Require Import gmap.
From S2P Require Import Prelude Text Json Files Base64 Powers CharacterBase.
Import Powers Character.

(** The fields a splitter is told to take. *)
Inductive field := Fixed (n : nat) | Variable_.

Class CardLib (Pub : Type) := {
  (* [bytes(constant_sorrow.constants.NAME)] *)
  constant : string -> bytes;
  (* [bytes(VariableLengthBytestring(b))] *)
  vlb : bytes -> bytes;
  (* [BytestringKwargifier]: the fields, in order *)
  kwargify : list field -> bytes -> result (list bytes);
  blake2b : bytes -> bytes;
  pk_from_bytes : bytes -> result Pub;
  pk_bytes : Pub -> bytes;
  pk_size : nat;
}.

Module Card.

Section Card.
Context {Pub : Type} `{!CardLib Pub}.

Definition ALICE : bytes := constant "ALICE".
Definition BOB : bytes := constant "BOB".

Definition _alice_specification : list field := [Fixed 8; Fixed pk_size; Variable_].
Definition _bob_specification : list field := [Fixed 8; Fixed pk_size; Fixed pk_size; Variable_].

Definition __ID_LENGTH : nat := 10.
Definition __MAX_NICKNAME_SIZE : nat := 32.
Definition field_size (f : field) : nat := match f with Fixed n => n | Variable_ => 0 end.
Definition __BASE_PAYLOAD_SIZE : nat := sum_list (field_size <$> _bob_specification).
Definition __MAX_CARD_LENGTH : nat := __BASE_PAYLOAD_SIZE + __MAX_NICKNAME_SIZE + 2.
Definition __FILE_EXTENSION : bytes := to_bytes "card".
Definition __DELIMITER : ascii := "."%char.
Definition TRUNCATE : nat := 16.

(** [__CARD_TYPES]. *)
Inductive character_class := Alice | Bob.
#[global] Instance character_class_eq_dec : EqDecision character_class.
Proof. solve_decision. Defined.

Definition card_type (character_flag : bytes) : option character_class :=
  if decide (character_flag = ALICE) then Some Alice
  else if decide (character_flag = BOB) then Some Bob else None.

Record card := Card_ {
  character_flag : bytes;
  verifying_key : Pub;
  encrypting_key : option Pub;
  nickname : option bytes;
}.

(** A key that is passed: its bytes or a public key. *)
Inductive key_arg := KeyBytes (b : bytes) | KeyObject (p : Pub).

Definition key_of (k : key_arg) : result Pub :=
  match k with KeyBytes b => pk_from_bytes b | KeyObject p => Ok p end.

(** [__validate]. *)
Definition validate (c : card) : result unit :=
  match c.(nickname) with
  | Some n => if __MAX_NICKNAME_SIZE <? length n then Raise InvalidCard else Ok tt
  | None => Ok tt
  end.

(** [nickname or None]. *)
Definition or_None (n : option bytes) : option bytes := match n with Some [] => None | _ => n end.

(** [__init__]. *)
Definition new_card (flag : bytes) (vk : key_arg) (ek : option key_arg) (nick : option bytes) : result card :=
  match card_type flag with
  | None => Raise ValueError
  | Some _ =>
      let? v := key_of vk in
      let? e := (match ek with Some k => let? e := key_of k in Ok (Some e) | None => Ok None end) in
      let c := Card_ flag v e (or_None nick) in
      let? _ := validate c in
      Ok c
  end.

(** [character]. *)
Definition character_of (c : card) : result character_class :=
  match card_type c.(character_flag) with Some cls => Ok cls | None => Raise KeyError end.

(** [__payload]; [bytes(None)] raises. *)
Definition card_payload (c : card) : result bytes :=
  let? cls := character_of c in
  match cls, c.(encrypting_key) with
  | Alice, _ => Ok (c.(character_flag) ++ pk_bytes c.(verifying_key))
  | Bob, Some e => Ok (c.(character_flag) ++ pk_bytes c.(verifying_key) ++ pk_bytes e)
  | Bob, None => Raise TypeError
  end.

(** [__hash] and [id]: ten hexadecimal digits are five bytes. *)
Definition card_hash (payload : bytes) : result bytes :=
  fromhex (take __ID_LENGTH (hex (blake2b payload))).

Definition card_id (c : card) : result bytes := let? payload := card_payload c in card_hash payload.

(** [__eq__] of two cards. *)
Definition card_eqb (c d : card) : result bool :=
  let? i := card_id c in let? j := card_id d in Ok (bool_decide (i = j)).

(** The property [nickname]. *)
Definition get_nickname (c : card) : result (option bytes) :=
  match c.(nickname) with
  | Some (x :: n) => let? s := decode (x :: n) in Ok (Some s)
  | _ => Ok None
  end.

(** [__bytes__]. *)
Definition card_bytes (c : card) : result bytes :=
  let? _ := validate c in
  let? payload := card_payload c in
  let? n := get_nickname c in
  Ok (payload ++ vlb (match n with Some _ => default [] c.(nickname) | None => [] end)).

(** [from_bytes]. *)
Definition from_bytes (card_bytes : bytes) : result card :=
  if __MAX_CARD_LENGTH <? length card_bytes then Raise InvalidCard
  else
    let flag := take 8 card_bytes in
    if decide (flag = ALICE) then
      let? fields := kwargify _alice_specification card_bytes in
      match fields with
      | [f; v; n] => new_card f (KeyBytes v) None (Some n)
      | _ => Raise ValueError
      end
    else if decide (flag = BOB) then
      let? fields := kwargify _bob_specification card_bytes in
      match fields with
      | [f; v; e; n] => new_card f (KeyBytes v) (Some (KeyBytes e)) (Some n)
      | _ => Raise ValueError
      end
    else Raise RuntimeError.

Definition to_hex (c : card) : result bytes := let? b := card_bytes c in Ok (hex b).
Definition from_hex (hexdata : bytes) : result card := let? b := fromhex hexdata in from_bytes b.
Definition to_base64 (c : card) : result bytes := let? b := card_bytes c in Ok (urlsafe_b64encode b).
Definition from_base64 (b64data : bytes) : result card := let? b := urlsafe_b64decode b64data in from_bytes b.

(** [to_dict] and [from_dict]. *)
Definition to_dict (c : card) : option bytes * Pub * option Pub * bytes :=
  (c.(nickname), c.(verifying_key), c.(encrypting_key), c.(character_flag)).

Definition from_dict (d : option bytes * Pub * option Pub * bytes) : result card :=
  let '(n, v, e, f) := d in new_card f (KeyObject v) (KeyObject <$> e) n.

Definition class_name (cls : character_class) : bytes :=
  match cls with Alice => to_bytes "Alice" | Bob => to_bytes "Bob" end.

(** [describe]. *)
Definition describe (truncate : nat) (c : card) : result (list (bytes * option bytes)) :=
  let? i := card_id c in
  let? cls := character_of c in
  let short k := Some (take truncate (hex (pk_bytes k))) in
  let base := [(to_bytes "nickname", c.(nickname)); (to_bytes "id", Some (hex i));
               (to_bytes "verifying_key", short c.(verifying_key)); (to_bytes "character", Some (class_name cls))] in
  match cls, c.(encrypting_key) with
  | Bob, Some e => Ok (base ++ [(to_bytes "encrypting_key", short e)])
  | Bob, None => Raise TypeError
  | Alice, _ => Ok base
  end.

(** [to_json(as_string=True)]: [None.decode()] and [bytes(None)] raise. *)
Definition to_json (c : card) : result bytes :=
  match c.(nickname) with
  | None => Raise AttributeError
  | Some n =>
      let? n' := decode n in
      match c.(encrypting_key) with
      | None => Raise TypeError
      | Some e =>
          let? cls := character_of c in
          Ok (dumps (JObj [(to_bytes "nickname", JStr n'); (to_bytes "verifying_key", JStr (hex (pk_bytes c.(verifying_key))));
                           (to_bytes "encrypting_key", JStr (hex (pk_bytes e))); (to_bytes "character", JStr (class_name cls))]))
      end
  end.

(** [set_nickname]. *)
Definition set_nickname (nick : bytes) : PyM card unit := fun c =>
  let nick' := replace_char " "%char "_"%char nick in
  if __MAX_NICKNAME_SIZE <? length nick' then (Raise ValueError, c)
  else (Ok tt, Card_ c.(character_flag) c.(verifying_key) c.(encrypting_key) (Some nick')).

(** [from_character]; [flag] is the constant of the character's class. *)
Definition from_character {Key Cert} (flag : bytes) (powers : crypto_power Key Pub Cert) (nick : option bytes) : result card :=
  let? v := public_keys_of SigningPower powers in
  let? e := public_keys_of DecryptingPower powers in
  new_card flag (KeyObject v) (Some (KeyObject e)) nick.

(** ** Files *)

Variable CARD_DIR : path.

(** [CARD_DIR / filename]: a slash starts another part, a leading one a new
    path. *)
Definition join_path (dir : path) (name : bytes) : path :=
  let parts := (fun b => String.string_of_list_ascii b) <$>
    filter (fun p => p <> [] /\ p <> to_bytes ".") (split ["/"%char] name) in
  match name with
  | "/"%char :: _ => parts
  | _ => dir ++ parts
  end.

Definition filepath (c : card) : result path :=
  let? n := get_nickname c in
  let? i := card_id c in
  let identifier := match c.(nickname) with
                    | Some (_ :: _) => default (to_bytes "None") n ++ __DELIMITER :: hex i
                    | _ => hex i
                    end in
  Ok (join_path CARD_DIR (identifier ++ "."%char :: __FILE_EXTENSION)).

Definition is_saved (c : card) : PyM filesystem bool :=
  p <- lift (filepath c) ;; gets (fun fs => path_exists fs p).

Definition save (encoder : bytes -> bytes) (overwrite : bool) (c : card) : PyM filesystem path :=
  there <- gets (fun fs => is_dir fs CARD_DIR) ;;
  (if there : bool then py_ret tt else mkdir CARD_DIR) ;;;
  saved <- is_saved c ;;
  if saved && negb overwrite then raise FileExistsError
  else
    p <- lift (filepath c) ;;
    open_w p ;;;
    b <- lift (card_bytes c) ;;
    modify (put p (encoder b)) ;;;
    py_ret p.

(** The nickname part of an identifier: one delimiter splits it. *)
Definition lookup_key (identifier : bytes) : bytes :=
  match split [__DELIMITER] identifier with
  | [nick; _] => nick
  | _ => identifier
  end.

(** [f.name]. *)
Definition name_of (p : path) : bytes := to_bytes (default EmptyString (last p)).

(** [lookup]; what [iterdir] gives are whole paths, so that
    [card_dir / filename] is the path itself. *)
Definition lookup (identifier : bytes) (card_dir : path) : PyM filesystem path :=
  files <- iterdir CARD_DIR ;;
  let filenames := filter (fun f => is_infix (lower (lookup_key identifier)) (lower (name_of f)) = true) files in
  match filenames with
  | [] => raise UnknownCard
  | [filename] => py_ret filename
  | _ => raise ValueError
  end.

(** [load]; an absent identifier would fail in [lookup]. *)
Definition load (file : option path) (identifier : option bytes) (card_dir : option path)
    (decoder : bytes -> result bytes) : PyM filesystem card :=
  match file, identifier with
  | Some _, Some (_ :: _) => raise ValueError
  | _, _ =>
      p <- match file with
           | Some p => py_ret p
           | None => match identifier with
                     | Some i => lookup i (default CARD_DIR card_dir)
                     | None => raise AttributeError
                     end
           end ;;
      b <- try_except (content <- read_file p ;; lift (decoder content)) [FileNotFoundError] (fun _ => raise UnknownCard) ;;
      lift (from_bytes b)
  end.

Definition delete_card (c : card) : PyM filesystem unit := p <- lift (filepath c) ;; unlink p.

(** ** Round trips *)

Section Laws.
(** The splitter takes apart what was put together from fields of the right
    sizes; a variable field has a header of [header] bytes.  A public key is
    read back from its bytes, which have the serialized size; constants are
    eight bytes and those of different names differ. *)
Variable header : nat.
Definition encode_field (f : field) (b : bytes) : bytes := match f with Fixed _ => b | Variable_ => vlb b end.
Definition field_ok (f : field) (b : bytes) : Prop := match f with Fixed n => length b = n | Variable_ => length b < 256 end.
Hypothesis kwargify_fields : forall spec fields, Forall2 field_ok spec fields ->
  kwargify spec (concat (zip_with encode_field spec fields)) = Ok fields.
Hypothesis vlb_length : forall b, length (vlb b) = header + length b.
Hypothesis pk_roundtrip : forall p, pk_from_bytes (pk_bytes p) = Ok p.
Hypothesis pk_length : forall p, length (pk_bytes p) = pk_size.
Hypothesis flag_length : length ALICE = 8 /\ length BOB = 8.
Hypothesis flags_differ : ALICE <> BOB.

(** Cards as the constructor makes them, with a nickname that is a text. *)
Definition card_ok (c : card) : Prop :=
  (c.(character_flag) = ALICE \/ c.(character_flag) = BOB /\ is_Some c.(encrypting_key)) /\
  match c.(nickname) with
  | Some n => n <> [] /\ length n <= __MAX_NICKNAME_SIZE /\ decode n = Ok n
  | None => True
  end.

(** What is left of a card: Alice's encrypting key is not part of hers. *)
Definition restored (c : card) : card :=
  if decide (c.(character_flag) = ALICE)
  then Card_ c.(character_flag) c.(verifying_key) None c.(nickname) else c.

Definition nick_bytes (c : card) : bytes := default [] c.(nickname).

(** Whether the bytes of a card are short enough to be read. *)
Definition fits (c : card) : bool :=
  header + length (nick_bytes c) <=?
    __MAX_NICKNAME_SIZE + 2 + (if decide (c.(character_flag) = ALICE) then pk_size else 0).

Lemma card_ok_validate c : card_ok c -> validate c = Ok tt.
Proof.
  intros [_ Hn]. unfold validate. destruct (nickname c) as [n|]; [|done]. destruct Hn as (_ & Hn & _).
  by rewrite (proj2 (Nat.ltb_ge _ _)).
Qed.

Lemma card_ok_nickname c : card_ok c -> get_nickname c = Ok c.(nickname) /\ or_None (Some (nick_bytes c)) = c.(nickname).
Proof.
  intros [_ Hn]. unfold get_nickname, nick_bytes. destruct (nickname c) as [[|x n]|]; [naive_solver| |done].
  destruct Hn as (_ & _ & ->). done.
Qed.

Lemma card_type_alice : card_type ALICE = Some Alice.
Proof. unfold card_type. by rewrite decide_True. Qed.

Lemma card_type_bob : card_type BOB = Some Bob.
Proof. unfold card_type. by rewrite decide_False, decide_True by done. Qed.

(** The bytes of a card: its fields one after the other. *)
Definition card_fields (c : card) : list field * list bytes :=
  let n := nick_bytes c in
  match c.(encrypting_key) with
  | Some e =>
      if decide (c.(character_flag) = ALICE)
      then (_alice_specification, [c.(character_flag); pk_bytes c.(verifying_key); n])
      else (_bob_specification, [c.(character_flag); pk_bytes c.(verifying_key); pk_bytes e; n])
  | None => (_alice_specification, [c.(character_flag); pk_bytes c.(verifying_key); n])
  end.

Definition flat_fields (c : card) : bytes :=
  concat (zip_with encode_field (card_fields c).1 (card_fields c).2).

Lemma card_fields_alice c : c.(character_flag) = ALICE ->
  card_fields c = (_alice_specification, [ALICE; pk_bytes c.(verifying_key); nick_bytes c]).
Proof. intros Hf. unfold card_fields. rewrite Hf. destruct (encrypting_key c); [by rewrite decide_True|done]. Qed.

Lemma card_fields_bob c e : c.(character_flag) = BOB -> c.(encrypting_key) = Some e ->
  card_fields c = (_bob_specification, [BOB; pk_bytes c.(verifying_key); pk_bytes e; nick_bytes c]).
Proof. intros Hf He. unfold card_fields. by rewrite Hf, He, decide_False. Qed.

Lemma card_bytes_fields c : card_ok c -> card_bytes c = Ok (flat_fields c).
Proof.
  intros Hc. destruct (card_ok_nickname c Hc) as [Hn _].
  unfold card_bytes, card_payload, character_of, flat_fields.
  rewrite (card_ok_validate c Hc), Hn. destruct Hc as [[Hf|[Hf [e He]]] _].
  - rewrite (card_fields_alice c Hf), Hf, card_type_alice. cbn [rbind].
    unfold nick_bytes. destruct (nickname c); cbn; by rewrite ?(right_id_L [] (++)), <- ?(assoc_L (++)).
  - rewrite (card_fields_bob c e Hf He), Hf, card_type_bob, He. cbn [rbind].
    unfold nick_bytes. destruct (nickname c); cbn; by rewrite ?(right_id_L [] (++)), <- ?(assoc_L (++)).
Qed.

Lemma card_fields_ok c : card_ok c -> Forall2 field_ok (card_fields c).1 (card_fields c).2.
Proof.
  intros [Hf Hn]. destruct flag_length as [HA HB].
  assert (length (nick_bytes c) < 256) as Hlen.
  { unfold nick_bytes. destruct (nickname c) as [n|]; cbn; [|lia]. unfold __MAX_NICKNAME_SIZE in Hn. lia. }
  destruct Hf as [Hf|[Hf [e He]]].
  - rewrite (card_fields_alice c Hf). do 3 (constructor; [cbn; auto|]); constructor.
  - rewrite (card_fields_bob c e Hf He). do 4 (constructor; [cbn; auto|]); constructor.
Qed.

Lemma flat_fields_length c : card_ok c -> (__MAX_CARD_LENGTH <? length (flat_fields c)) = negb (fits c).
Proof.
  intros [Hf _]. destruct flag_length as [HA HB]. unfold flat_fields, fits.
  assert (__MAX_CARD_LENGTH = 8 + pk_size + pk_size + __MAX_NICKNAME_SIZE + 2) as ->.
  { unfold __MAX_CARD_LENGTH, __BASE_PAYLOAD_SIZE. cbn. lia. }
  unfold __MAX_NICKNAME_SIZE. apply eq_true_iff_eq. rewrite negb_true_iff, Nat.ltb_lt, Nat.leb_gt.
  destruct Hf as [Hf|[Hf [e He]]].
  - rewrite (card_fields_alice c Hf), Hf, decide_True by done. cbn.
    rewrite ?length_app, ?vlb_length, ?pk_length, HA. cbn [length]. lia.
  - rewrite (card_fields_bob c e Hf He), Hf, decide_False by done. cbn. rewrite ?length_app, ?vlb_length, ?pk_length, HB. cbn [length]. lia.
Qed.

Lemma from_bytes_fields c : card_ok c ->
  from_bytes (flat_fields c) = if fits c then Ok (restored c) else Raise InvalidCard.
Proof.
  intros Hc. unfold from_bytes. rewrite (flat_fields_length c Hc). destruct (fits c); [|done]. cbn [negb].
  pose proof (kwargify_fields _ _ (card_fields_ok c Hc)) as Hk. fold (flat_fields c) in Hk.
  destruct (card_ok_nickname c Hc) as [_ Hn]. pose proof (card_ok_validate c Hc) as Hv.
  destruct flag_length as [HA HB]. destruct Hc as [[Hf|[Hf [e He]]] _].
  - pose proof (card_fields_alice c Hf) as Hcf.
    assert (take 8 (flat_fields c) = ALICE) as ->.
    { unfold flat_fields. rewrite Hcf. by apply take_app_length'. }
    rewrite decide_True by done.
    rewrite Hcf in Hk. cbn [fst snd] in Hk. rewrite Hk. cbn [rbind]. unfold new_card. rewrite card_type_alice.
    cbn [key_of]. rewrite pk_roundtrip. cbn [rbind]. rewrite Hn. unfold restored, validate in *. cbn [nickname].
    rewrite Hv, Hf, decide_True by done. done.
  - pose proof (card_fields_bob c e Hf He) as Hcf.
    assert (take 8 (flat_fields c) = BOB) as ->.
    { unfold flat_fields. rewrite Hcf. by apply take_app_length'. }
    rewrite decide_False, decide_True by done.
    rewrite Hcf in Hk. cbn [fst snd] in Hk. rewrite Hk. cbn [rbind]. unfold new_card. rewrite card_type_bob.
    cbn [key_of]. rewrite !pk_roundtrip. cbn [rbind]. rewrite Hn. unfold restored, validate in *. cbn [nickname].
    rewrite Hv, Hf, decide_False by done. destruct c. cbn in *. by subst.
Qed.

(** Every encoding of a card is read back: from its bytes, its hexadecimal
    and its URL-safe base64 form comes the same card (without the encrypting
    key that Alice's cards do not carry), which has the same id; but a card
    whose nickname with the header of its length has more than 34 bytes, and
    for Alice the size of a public key more, is refused by its own reader. *)
Theorem card_encodings_roundtrip c :
  card_ok c ->
  let r := if fits c then Ok (restored c) else Raise InvalidCard in
  (let? b := card_bytes c in from_bytes b) = r /\
  (let? h := to_hex c in from_hex h) = r /\
  (let? s := to_base64 c in from_base64 s) = r /\
  card_id (restored c) = card_id c /\ get_nickname (restored c) = Ok c.(nickname) /\
  from_dict (to_dict c) = Ok c.
Proof.
  intros Hc r. pose proof (from_bytes_fields c Hc) as Hb.
  unfold to_hex, from_hex, to_base64, from_base64. rewrite (card_bytes_fields c Hc). cbn [rbind].
  rewrite fromhex_hex, urlsafe_roundtrip. cbn [rbind]. split_and!; [done..| | |].
  - unfold card_id, card_payload, character_of, restored. case_decide as Hf; [|done]. cbn [character_flag].
    by rewrite Hf, card_type_alice.
  - rewrite <- (proj1 (card_ok_nickname c Hc)). unfold get_nickname, restored. by case_decide.
  - unfold from_dict, to_dict, new_card. pose proof (card_ok_validate c Hc) as Hv. pose proof (card_ok_nickname c Hc) as [_ Hn].
    assert (or_None (nickname c) = nickname c) as Hor by (unfold nick_bytes in Hn; destruct (nickname c); [exact Hn|done]).
    destruct Hc as [Hf _].
    assert (is_Some (card_type (character_flag c))) as [cls ->]
      by (destruct Hf as [->|[-> _]]; rewrite ?card_type_alice, ?card_type_bob; by eexists).
    cbn [key_of rbind]. rewrite Hor. unfold validate in *. 
    destruct (encrypting_key c) as [e|] eqn:He; cbn [fmap option_fmap option_map key_of rbind nickname];
      rewrite Hv; cbn [rbind]; destruct c; cbn in *; by subst.
Qed.

(** A card that [save] has written is the card that [load] reads from that
    path, whatever directory is passed along: a card too long for its reader
    is saved all the same, and then refused.  Without [overwrite] there was
    nothing at that path, and no other file has changed. *)
Theorem card_save_load_roundtrip c overwrite fs p fs' :
  card_ok c -> save b64encode overwrite c fs = (Ok p, fs') ->
  filepath c = Ok p /\ (overwrite = false -> path_exists fs p = false \/ is_dir fs CARD_DIR = false) /\
  (forall dir, load (Some p) None dir b64decode fs' = (if fits c then Ok (restored c) else Raise InvalidCard, fs')) /\
  (forall q, q <> p -> fs'.(regular) !! q = fs.(regular) !! q).
Proof.
  intros Hc. unfold save, py_bind at 1, gets at 1.
  assert (forall fs1 r fs2, (if is_dir fs CARD_DIR then py_ret tt else mkdir CARD_DIR) fs1 = (r, fs2) ->
    fs2.(regular) = fs1.(regular) /\ (is_dir fs CARD_DIR = true -> fs2 = fs1)) as Hmk.
  { intros fs1 r fs2. destruct (is_dir fs CARD_DIR); [intros [= _ <-]; done|].
    unfold mkdir. repeat case_match; intros [= _ <-]; done. }
  unfold py_bind at 1. destruct ((if is_dir fs CARD_DIR then py_ret tt else mkdir CARD_DIR) fs) as [[[]|e] fs1] eqn:Hfs1; [|done].
  destruct (Hmk _ _ _ Hfs1) as [Hreg Hsame].
  unfold py_bind at 1, is_saved, py_bind at 1, lift at 1. destruct (filepath c) as [p'|e]; [|done].
  unfold gets at 1. destruct (path_exists fs1 p' && negb overwrite) eqn:Hover; [done|].
  unfold py_bind at 1, lift at 1, py_bind at 1, open_w.
  destruct (is_dir fs1 p') eqn:Hd; [done|]. destruct (negb (is_dir fs1 (parent p'))); [done|].
  unfold py_bind at 1, lift at 1. rewrite (card_bytes_fields c Hc). unfold py_bind, modify, py_ret.
  intros [= -> <-]. split_and!.
  - done.
  - intros ->. rewrite andb_true_r in Hover. destruct (is_dir fs CARD_DIR) eqn:Hcd; [left|by right].
    by rewrite <- (Hsame eq_refl).
  - intros dir. unfold load, py_bind at 1, py_ret at 1. unfold py_bind at 1, try_except, py_bind at 1.
    rewrite read_put by exact Hd. unfold lift at 1. rewrite b64_roundtrip. unfold lift.
    by rewrite (from_bytes_fields c Hc).
  - intros q Hq. cbn. by rewrite !lookup_insert_ne, Hreg by done.
Qed.

End Laws.

(** [lookup] ignores the id of a full identifier, so that two cards of the
    same nickname stay ambiguous, and ignores the directory it is given. *)
Lemma lookup_ignores_id nick i dir dir' fs :
  __DELIMITER ∉ nick -> __DELIMITER ∉ i ->
  lookup (nick ++ __DELIMITER :: i) dir fs = lookup nick dir' fs.
Proof.
  intros Hn Hi. unfold lookup, lookup_key. rewrite (split_one_char _ _ _ Hn Hi).
  unfold split. rewrite split_aux_free; [done|done|]. apply (free_of_byte __DELIMITER); [by left|done].
Qed.

End Card.

Arguments card : clear implicits.
Arguments key_arg : clear implicits.
End Card.

(** ** A concrete instance *)

Module CardDemo.
Import Card.

(** A splitter whose headers have two bytes. *)
Fixpoint demo_kwargify (spec : list field) (b : bytes) : result (list bytes) :=
  match spec with
  | [] => if decide (b = []) then Ok [] else Raise ValueError
  | Fixed n :: spec' =>
      if length b <? n then Raise ValueError
      else let? rest := demo_kwargify spec' (drop n b) in Ok (take n b :: rest)
  | Variable_ :: spec' =>
      match b with
      | _ :: l :: b' =>
          let n := nat_of_ascii l in
          if length b' <? n then Raise ValueError
          else let? rest := demo_kwargify spec' (drop n b') in Ok (take n b' :: rest)
      | _ => Raise ValueError
      end
  end.

#[local] Instance demo_lib : CardLib ascii := {
  constant name := if String.eqb name "ALICE" then to_bytes "ALICE..." else to_bytes "BOB.....";
  vlb b := "000"%char :: ascii_of_nat (length b) :: b;
  kwargify := demo_kwargify;
  blake2b b := rev b;
  pk_from_bytes b := match b with [p] => Ok p | _ => Raise ValueError end;
  pk_bytes p := [p];
  pk_size := 1;
}.

Lemma demo_fields spec fields :
  Forall2 field_ok spec fields -> kwargify spec (concat (zip_with encode_field spec fields)) = Ok fields.
Proof.
  cbn [kwargify demo_lib]. induction 1 as [|f b spec fields Hf _ IH]; [done|].
  destruct f as [n|]; cbn [demo_kwargify zip_with concat encode_field field_ok vlb demo_lib app] in *.
  - rewrite length_app, (proj2 (Nat.ltb_ge _ _)) by lia. by rewrite drop_app_length', take_app_length', IH by done.
  - rewrite nat_ascii_embedding by done. rewrite length_app, (proj2 (Nat.ltb_ge _ _)) by lia.
    by rewrite drop_app_length', take_app_length', IH by done.
Qed.

Lemma demo_flags : length (ALICE (Pub := ascii)) = 8 /\ length (BOB (Pub := ascii)) = 8.
Proof. done. Qed.

Definition bob_card (nick : string) : card ascii := Card_ BOB "v"%char (Some "e"%char) (Some (to_bytes nick)).

Lemma bob_card_ok : card_ok (bob_card "Bob") /\ card_ok (bob_card "12345678901234567890123456789012").
Proof. split; (split; [right; split; [done|by eexists]|split_and!; [done|vm_compute; lia|reflexivity]]). Qed.

Lemma card_encodings_roundtrip_witness :
  (let? s := to_base64 (bob_card "Bob") in from_base64 s) = Ok (bob_card "Bob").
Proof.
  refine (proj1 (proj2 (proj2 (card_encodings_roundtrip 2 demo_fields (fun b => eq_refl) (fun p => eq_refl)
    (fun p => eq_refl) demo_flags _ (bob_card "Bob") (proj1 bob_card_ok))))). discriminate.
Defined.

Definition cards : path := ["cards"%string].
Definition card_fs : filesystem := Filesystem ∅ {[ []; cards ]}.
Definition saved := save cards b64encode false (bob_card "Bob") card_fs.
Definition saved_path : path := match saved.1 with Ok p => p | Raise _ => [] end.

Lemma card_saved_ok : save cards b64encode false (bob_card "Bob") card_fs = (Ok saved_path, saved.2).
Proof. vm_compute. reflexivity. Qed.

Lemma card_save_load_roundtrip_witness :
  load cards (Some saved_path) None None b64decode saved.2 = (Ok (bob_card "Bob"), saved.2).
Proof.
  assert (ALICE (Pub := ascii) <> BOB) as Hne by discriminate.
  exact (proj1 (proj2 (proj2 (card_save_load_roundtrip cards 2 demo_fields (fun b => eq_refl) (fun p => eq_refl)
    (fun p => eq_refl) demo_flags Hne (bob_card "Bob") false card_fs saved_path saved.2 (proj1 bob_card_ok) card_saved_ok))) None).
Defined.

End CardDemo.
