(* ===== verification/Storages.v ===== *)
(** * nulink/config/storages.py

    The storages of node metadata and TLS certificates: the forgetful one,
    which keeps nodes in memory, the one of local files and its temporary
    variant.  The metadata of nodes (nucypher_core) and X.509 certificates
    are the class [NodeLib]; the nodes themselves are those of
    network/nodes.py and characters/lawful.py. *)

From Stdlib Require Import Ascii.
From stdpp Require Import gmap pretty sets.
From S2P Require Import Prelude Text Files.

Class NodeLib (Metadata Cert : Type) := {
  (* [bytes(metadata.payload.verifying_key)] *)
  verifying_key : Metadata -> bytes;
  (* [bytes(metadata)] *)
  metadata_to_bytes : Metadata -> bytes;
  (* [NodeMetadata.from_bytes] *)
  metadata_from_bytes : bytes -> result Metadata;
  (* the common name of the certificate's subject, decoded *)
  common_name : Cert -> result string;
  public_pem : Cert -> bytes;
  load_der_x509 : bytes -> result Cert;
}.

Module Storages.

(** ** The nodes

    A sprout is its metadata.  An Ursula has a stamp, from the key of its
    signing power, and metadata; it may have been verified. *)
Inductive node (Metadata : Type) :=
  | NodeSprout (m : Metadata)
  | Ursula (stamp : bytes) (m : Metadata) (verified_node : bool).
Arguments NodeSprout {Metadata} m.
Arguments Ursula {Metadata} stamp m verified_node.

Section Nodes.
Context {Metadata Cert : Type} `{!NodeLib Metadata Cert}.

(** [bytes(node.stamp)] and [node.metadata()]. *)
Definition node_stamp (n : node Metadata) : bytes :=
  match n with NodeSprout m => verifying_key m | Ursula stamp _ _ => stamp end.
Definition node_metadata (n : node Metadata) : Metadata :=
  match n with NodeSprout m => m | Ursula _ m _ => m end.

(** [Ursula.from_metadata_bytes]: a sprout. *)
Definition from_metadata_bytes (metadata_bytes : bytes) : result (node Metadata) :=
  match metadata_from_bytes metadata_bytes with Ok m => Ok (NodeSprout m) | Raise e => Raise e end.

(** The elements of [set(nodes)]: nodes are equal, and have the same hash,
    when their stamps are; the first of equal ones is kept. *)
Fixpoint node_set (nodes : list (node Metadata)) : list (node Metadata) :=
  match nodes with
  | [] => []
  | n :: nodes' => n :: filter (fun n' => node_stamp n' <> node_stamp n) (node_set nodes')
  end.

Lemma node_set_distinct nodes : NoDup (node_stamp <$> nodes) -> node_set nodes = nodes.
Proof.
  induction nodes as [|n nodes IH]; [done|]. cbn. intros [Hn Hnd]%NoDup_cons. rewrite IH by done. f_equal.
  assert (Forall (fun n' => node_stamp n' <> node_stamp n) nodes) as Hall.
  { apply Forall_forall. intros n' Hin Heq. apply Hn. rewrite <- Heq. by apply list_elem_of_fmap_2. }
  clear Hn Hnd IH. induction Hall as [|n' nodes Hne _ IH]; [done|]. by rewrite filter_cons_True, IH.
Qed.

End Nodes.

Section Storages.
Context {Metadata Cert : Type} `{!EqDecision Cert} `{!NodeLib Metadata Cert}.
Notation Node := (node Metadata).

(** ** [NodeStorage] *)

(** [_write_tls_certificate]; [generate] is [generate_certificate_filepath]. *)
Definition _write_tls_certificate (generate : string -> N -> path) (port : N) (certificate : Cert) (force : bool)
    : PyM filesystem path :=
  host <- lift (common_name certificate) ;;
  let certificate_filepath := generate host port in
  certificate_already_exists <- gets (fun fs => is_file fs certificate_filepath) ;;
  if negb force && certificate_already_exists then raise FileExistsError
  else
    mkdir_parents (parent certificate_filepath) ;;;
    write_file certificate_filepath (public_pem certificate) ;;;
    py_ret certificate_filepath.

(** [f'{host}_{port}.pem']. *)
Definition certificate_filename (host : string) (port : N) : string :=
  (host +:+ "_" +:+ pretty port +:+ ".pem")%string.

(** [__getitem__] passes [checksum_address], which no storage's [get] takes. *)
Definition getitem {A} : result A := Raise TypeError.

(** ** [ForgetfulNodeStorage] *)

(** A key of the dicts: a stamp, which is equal to its bytes, or a host. *)
Definition storage_key : Type := bytes + string.

Record forgetful := Forgetful {
  metadata : gmap storage_key Node;
  certificates : gmap storage_key Cert;
  temporary_certificates : list path;
  _temp_certificates_dir : path;
}.

(** [__init__]; the directory is made by [tempfile]. *)
Definition new_forgetful (temp_dir : path) : forgetful := Forgetful ∅ ∅ [] temp_dir.

Definition forgetful_all (certificates_only : bool) (s : forgetful) : list Node + list Cert :=
  if certificates_only then inr (remove_dups (map_to_list s.(certificates)).*2)
  else inl (node_set (map_to_list s.(metadata)).*2).

(** [stamp or host]. *)
Definition stamp_or_host (host : option string) (stamp : option bytes) : result storage_key :=
  match stamp, host with
  | Some st, (None | Some EmptyString) => Ok (inl st)
  | None, Some (String c h) => Ok (inr (String c h))
  | _, _ => Raise ValueError
  end.

Definition forgetful_get (host : option string) (stamp : option bytes) (certificate_only : bool) (s : forgetful)
    : result (Node + Cert) :=
  let? k := stamp_or_host host stamp in
  if certificate_only then
    match s.(certificates) !! k with Some c => Ok (inr c) | None => Raise UnknownNode end
  else
    match s.(metadata) !! k with Some n => Ok (inl n) | None => Raise UnknownNode end.

Definition forget (s : forgetful) : PyM filesystem bool :=
  for_each s.(temporary_certificates) unlink ;;;
  py_ret (bool_decide (length s.(temporary_certificates) = 0)).

Definition forgetful_certificate_filepath (s : forgetful) (host : string) (port : N) : path :=
  child s.(_temp_certificates_dir) (certificate_filename host port).

Definition forgetful_store_certificate (s : forgetful) (certificate : Cert) (port : N) : PyM filesystem path :=
  _write_tls_certificate (forgetful_certificate_filepath s) port certificate true.

Definition forgetful_store_metadata (node : Node) (s : forgetful) : forgetful :=
  Forgetful (<[inl (node_stamp node) := node]> s.(metadata)) s.(certificates) s.(temporary_certificates)
    s.(_temp_certificates_dir).

Definition forgetful_clear (metadata_ certificates_ : bool) (s : forgetful) : forgetful :=
  Forgetful (if metadata_ then ∅ else s.(metadata)) (if certificates_ then ∅ else s.(certificates))
    s.(temporary_certificates) s.(_temp_certificates_dir).

Definition forgetful_initialize (s : forgetful) : forgetful := forgetful_clear true true s.

(** [from_payload]: the label of the storage. *)
Definition forgetful_name : string := ":memory:".
Definition forgetful_from_payload (storage_type temp : string) : result forgetful :=
  if bool_decide (storage_type <> forgetful_name) then Raise NodeStorageError
  else Ok (new_forgetful [temp]).

(** ** [LocalFileBasedNodeStorage] *)

Record local := Local_ {
  root_dir : path;
  metadata_dir : path;
  certificates_dir : path;
}.

(** [_generate_storage_filepaths]. *)
Definition _generate_storage_filepaths (DEFAULT_CONFIG_ROOT : path)
    (config_root storage_root meta certs : option path) : local :=
  let storage_root := default (child (default DEFAULT_CONFIG_ROOT config_root) "known_nodes") storage_root in
  Local_ storage_root (default (child storage_root "metadata") meta) (default (child storage_root "certificates") certs).

Definition local_certificate_filepath (s : local) (host : string) (port : N) : path :=
  child s.(certificates_dir) (certificate_filename host port).

(** [__read_node_tls_certificate]: reads DER. *)
Definition __read_node_tls_certificate (p : path) : PyM filesystem Cert :=
  content <- read_file p ;; lift (load_der_x509 content).

(** [__generate_metadata_filepath]. *)
Definition metadata_filename (stamp : bytes) : string :=
  String.string_of_list_ascii (hex stamp ++ to_bytes ".node").

Definition __generate_metadata_filepath (s : local) (stamp : bytes) (given : option path) : path :=
  default (child s.(metadata_dir) (metadata_filename stamp)) given.

(** [__read_metadata]. *)
Definition __read_metadata (p : path) : PyM filesystem Node :=
  try_except
    (try_except (node_bytes <- read_file p ;; lift (from_metadata_bytes node_bytes))
       [FileNotFoundError] (fun _ => raise NoNodeMetadataFileFound))
    [Exception] (fun e => if catches [NoNodeMetadataFileFound] e then raise e else raise InvalidNodeMetadata).

(** [__write_metadata]. *)
Definition __write_metadata (p : path) (node : Node) : PyM filesystem path :=
  mkdir_parents (parent p) ;;; write_file p (metadata_to_bytes (node_metadata node)) ;;; py_ret p.

Fixpoint read_certificates (ps : list path) : PyM filesystem (list Cert) :=
  match ps with
  | [] => py_ret []
  | p :: ps' => c <- __read_node_tls_certificate p ;; cs <- read_certificates ps' ;; py_ret (c :: cs)
  end.

(** Files that cannot be read are only noted in the log. *)
Fixpoint read_nodes (ps : list path) : PyM filesystem (list Node) :=
  match ps with
  | [] => py_ret []
  | p :: ps' =>
      n <- try_except (n <- __read_metadata p ;; py_ret (Some n)) [NodeStorageError] (fun _ => py_ret None) ;;
      ns <- read_nodes ps' ;;
      py_ret (match n with Some n => n :: ns | None => ns end)
  end.

Definition all (s : local) (certificates_only : bool) : PyM filesystem (list Node + list Cert) :=
  filenames <- iterdir (if certificates_only then s.(certificates_dir) else s.(metadata_dir)) ;;
  if certificates_only then cs <- read_certificates filenames ;; py_ret (inr (remove_dups cs))
  else ns <- read_nodes filenames ;; py_ret (inl (node_set ns)).

(** [get]; the certificate's reader is called with a keyword it does not take. *)
Definition get (s : local) (stamp : bytes) (certificate_only : bool) : PyM filesystem Node :=
  if certificate_only then raise TypeError
  else __read_metadata (__generate_metadata_filepath s stamp None).

Definition store_node_certificate (s : local) (certificate : Cert) (port : N) (force : bool) : PyM filesystem path :=
  _write_tls_certificate (local_certificate_filepath s) port certificate force.

Definition store_node_metadata (s : local) (node : Node) (given : option path) : PyM filesystem path :=
  __write_metadata (__generate_metadata_filepath s (node_stamp node) given) node.

(** [__destroy_dir_contents]. *)
Definition __destroy_dir_contents (p : path) : PyM filesystem unit := fun fs =>
  if negb (is_dir fs p) then (Ok tt, fs)
  else (items <- iterdir p ;;
        for_each items (fun item => there <- gets (fun fs => is_file fs item) ;;
                                    if there : bool then unlink item else py_ret tt)) fs.

Definition clear (s : local) (metadata_ certificates_ : bool) : PyM filesystem unit :=
  (if metadata_ then __destroy_dir_contents s.(metadata_dir) else py_ret tt) ;;;
  (if certificates_ then __destroy_dir_contents s.(certificates_dir) else py_ret tt).

Definition payload (s : local) : string * path * path * path :=
  ("local"%string, s.(root_dir), s.(metadata_dir), s.(certificates_dir)).

Definition from_payload (DEFAULT_CONFIG_ROOT : path) (p : string * path * path * path) : result local :=
  let '(t, r, m, c) := p in
  if bool_decide (t <> "local"%string) then Raise NodeStorageError
  else Ok (_generate_storage_filepaths DEFAULT_CONFIG_ROOT None (Some r) (Some m) (Some c)).

Definition initialize (s : local) : PyM filesystem unit :=
  for_each [s.(root_dir); s.(metadata_dir); s.(certificates_dir)] (fun d =>
    try_except (try_except (mkdir d) [FileNotFoundError] (fun _ => raise NodeStorageError))
      [FileExistsError] (fun _ => py_ret tt)).

(** ** [TemporaryFileBasedNodeStorage] *)

Definition new_temporary (DEFAULT_CONFIG_ROOT : path) : local :=
  _generate_storage_filepaths DEFAULT_CONFIG_ROOT None None None None.

(** [initialize]: only the root is made. *)
Definition temporary_initialize (mkdtemp : PyM filesystem path) : PyM filesystem local :=
  root <- mkdtemp ;; py_ret (Local_ root (child root "metadata") (child root "certs")).

End Storages.

Arguments forgetful : clear implicits.

(** ** What a storage promises

    A storage of nodes behaves as a map from stamps to nodes; what it gives
    back of a node is [seen_as] of it. *)

Class NodeStore (St Node : Type) := {
  store : Node -> PyM St unit;
  fetch : bytes -> PyM St Node;
  list_all : PyM St (list Node);
  wipe : bool -> bool -> PyM St unit;      (* metadata, certificates *)
}.

Class NodeStoreLaws (St Node : Type) (stamp_of : Node -> bytes) (storable : Node -> Prop) (seen_as : Node -> Node)
    `{!NodeStore St Node} := {
  represents : St -> gmap bytes Node -> Prop;
  store_spec : forall st m n, represents st m -> storable n ->
    exists st', store n st = (Ok tt, st') /\ represents st' (<[stamp_of n := n]> m);
  fetch_spec : forall st m s, represents st m ->
    match m !! s with
    | Some n => fetch s st = (Ok (seen_as n), st)
    | None => exists e, fetch s st = (Raise e, st) /\ issubclass e UnknownNode = true
    end;
  list_all_spec : forall st m, represents st m ->
    exists l, list_all st = (Ok l, st) /\ NoDup (stamp_of <$> l) /\
      forall n : Node, n ∈ l <-> exists s n0, m !! s = Some n0 /\ n = seen_as n0;
  wipe_spec : forall st m metadata_ certificates_, represents st m ->
    exists st', wipe metadata_ certificates_ st = (Ok tt, st') /\ represents st' (if metadata_ then ∅ else m);
}.

(** What is done with a storage. *)
Inductive storage_op (Node : Type) := Store (n : Node) | Clear (metadata_ certificates_ : bool).
Arguments Store {Node} n.
Arguments Clear {Node} metadata_ certificates_.

Section Clients.
Context {Node : Type} (stamp_of : Node -> bytes) (storable : Node -> Prop) (seen_as : Node -> Node).

Definition perform {St} `{!NodeStore St Node} (o : storage_op Node) : PyM St unit :=
  match o with Store n => store n | Clear a b => wipe a b end.

(** The map after the operations. *)
Definition apply_op (m : gmap bytes Node) (o : storage_op Node) : gmap bytes Node :=
  match o with Store n => <[stamp_of n := n]> m | Clear a _ => if a then ∅ else m end.

(** Only nodes that can be stored are. *)
Definition allowed (o : storage_op Node) : Prop := match o with Store n => storable n | Clear _ _ => True end.

Lemma perform_all {St} `{!NodeStore St Node} `{!NodeStoreLaws St Node stamp_of storable seen_as} ops (st : St) m :
  represents st m -> Forall allowed ops ->
  exists st', for_each ops perform st = (Ok tt, st') /\ represents st' (foldl apply_op m ops).
Proof.
  revert st m. induction ops as [|o ops IH]; intros st m Hst Hops; [by exists st|]. inversion_clear Hops as [|? ? Ho0 Hall].
  assert (exists st1, perform o st = (Ok tt, st1) /\ represents st1 (apply_op m o)) as (st1 & Ho & Hst1)
    by (destruct o; [by apply store_spec|by eapply wipe_spec]).
  destruct (IH _ _ Hst1 Hall) as (st' & Hrun & Hst'). exists st'. split; [|done].
  cbn [for_each]. unfold py_bind. by rewrite Ho.
Qed.

End Clients.

(** ** The storages implement it *)

Section Instances.
Context {Metadata Cert : Type} `{!EqDecision Cert} `{!NodeLib Metadata Cert}.
Notation Node := (node Metadata).
(** The encoding of nucypher_core. *)
Hypothesis metadata_roundtrip : forall m, metadata_from_bytes (metadata_to_bytes m) = Ok m.

(** The node whose metadata have its stamp as the verifying key. *)
Definition own_metadata (n : Node) : Prop := verifying_key (node_metadata n) = node_stamp n.

(** What is left of a node that has been written to a file. *)
Definition replanted (n : Node) : Node := NodeSprout (node_metadata n).

(** The nodes of [m] are at their stamps. *)
Definition keyed_by_stamp (m : gmap bytes Node) : Prop := forall stamp n, m !! stamp = Some n -> node_stamp n = stamp.

Lemma keyed_store m n : keyed_by_stamp m -> keyed_by_stamp (<[node_stamp n := n]> m).
Proof. intros Hm st n' [[<- <-]|[_ ?]]%lookup_insert_Some; [done|by apply Hm]. Qed.

(** In memory. *)
#[local] Instance forgetful_store : NodeStore (forgetful Metadata Cert) Node := {
  store n := modify (forgetful_store_metadata n);
  fetch s := fun st => (let? x := forgetful_get None (Some s) false st in
                        match x with inl n => Ok n | inr _ => Raise TypeError end, st);
  list_all := fun st => (match forgetful_all false st with inl l => Ok l | inr _ => Raise TypeError end, st);
  wipe a b := modify (forgetful_clear a b);
}.

Definition in_memory (st : forgetful Metadata Cert) (m : gmap bytes Node) : Prop :=
  (forall s, st.(metadata) !! inl s = m !! s) /\ (forall h, st.(metadata) !! inr h = None) /\ keyed_by_stamp m.

Lemma in_memory_stamps st m : in_memory st m -> NoDup (node_stamp <$> (map_to_list st.(metadata)).*2).
Proof.
  intros (Hm & Hh & Hk). apply (NoDup_fmap_1 (inl : bytes -> storage_key)).
  assert ((inl : bytes -> storage_key) <$> (node_stamp <$> (map_to_list (metadata st)).*2) = (map_to_list (metadata st)).*1) as ->;
    [|apply NoDup_fst_map_to_list].
  rewrite <- !list_fmap_compose. apply list_fmap_ext. intros i [[stamp|h] n] Hin%list_elem_of_lookup_2%elem_of_map_to_list; cbn.
  - rewrite Hm in Hin. f_equal. by apply Hk.
  - by rewrite Hh in Hin.
Qed.

#[local] Instance forgetful_laws : NodeStoreLaws (forgetful Metadata Cert) Node node_stamp own_metadata (fun n => n).
Proof.
  refine {| represents := in_memory |}.
  - intros st m n (Hm & Hh & Hk) _. eexists. split; [reflexivity|].
    split; [|split; [intros h; cbn; by rewrite lookup_insert_ne|by apply keyed_store]].
    intros s. cbn. destruct (decide (s = node_stamp n)) as [->|Hne]; [by rewrite !lookup_insert_eq|].
    rewrite !lookup_insert_ne by congruence. apply Hm.
  - intros st m s [Hm _]. unfold fetch, forgetful_store, forgetful_get. cbn [stamp_or_host rbind]. rewrite Hm.
    destruct (m !! s); [done|]. by exists UnknownNode.
  - intros st m Hst. pose proof (in_memory_stamps st m Hst) as Hnd. destruct Hst as (Hm & Hh & Hk).
    exists ((map_to_list st.(metadata)).*2). split; [cbn; by rewrite node_set_distinct|]. split; [done|].
    intros n. rewrite list_elem_of_fmap. split.
    + intros ([[s|h] n'] & -> & Hin%elem_of_map_to_list); [exists s, n'; by rewrite <- Hm|by rewrite Hh in Hin].
    + intros (s & n0 & Hs & ->). exists (inl s, n0). split; [done|]. apply elem_of_map_to_list. by rewrite Hm.
  - intros st m a b (Hm & Hh & Hk). eexists. split; [reflexivity|]. destruct a; [|done].
    split_and!; [intros; cbn; by rewrite lookup_empty..|]. intros ? ? ?%lookup_empty_Some. done.
Defined.

(** In files. *)
Variable s : local.
Hypothesis separate_dirs : s.(certificates_dir) <> s.(metadata_dir).

#[local] Instance local_store : NodeStore filesystem Node := {
  store n := store_node_metadata s n None ;;; py_ret tt;
  fetch st := get s st false;
  list_all := x <- all s false ;; match x with inl l => py_ret l | inr _ => raise TypeError end;
  wipe a b := clear s a b;
}.

Definition node_path (stamp : bytes) : path := __generate_metadata_filepath s stamp None.

Lemma node_path_parent stamp : parent (node_path stamp) = s.(metadata_dir).
Proof. apply parent_child. Qed.

Lemma node_path_nonempty stamp : node_path stamp <> [].
Proof. unfold node_path, __generate_metadata_filepath, child. cbn. by destruct (metadata_dir s). Qed.

Lemma node_path_inj stamp stamp' : node_path stamp = node_path stamp' -> stamp = stamp'.
Proof.
  intros H%child_inj. unfold metadata_filename in H. apply (f_equal String.list_ascii_of_string) in H.
  rewrite !String.list_ascii_of_string_of_list_ascii in H. apply app_inv_tail in H.
  pose proof (fromhex_hex stamp) as H1. rewrite H, fromhex_hex in H1. by injection H1.
Qed.

(** The directory of metadata holds the files of the nodes of [m], and nothing
    else, and it can be made again. *)
Record in_files_of (fs : filesystem) (m : gmap bytes Node) : Prop := {
  dir_there : is_dir fs s.(metadata_dir) = true;
  dir_path : forall q, q ∈ prefixes s.(metadata_dir) -> is_file fs q = false;
  node_files : forall stamp, fs.(regular) !! node_path stamp = (metadata_to_bytes ∘ node_metadata) <$> m !! stamp;
  only_nodes : forall q, q <> [] -> parent q = s.(metadata_dir) -> is_file fs q = true -> exists stamp, q = node_path stamp;
  no_subdirs : forall q, q <> [] -> parent q = s.(metadata_dir) -> is_dir fs q = false;
  own_stamps : forall stamp n, m !! stamp = Some n -> node_stamp n = stamp /\ own_metadata n;
}.

Lemma read_metadata_file fs stamp n :
  is_dir fs (node_path stamp) = false -> fs.(regular) !! node_path stamp = Some (metadata_to_bytes (node_metadata n)) ->
  __read_metadata (node_path stamp) fs = (Ok (replanted n), fs).
Proof.
  intros Hd Hf. unfold __read_metadata, try_except, py_bind, read_file, lift, from_metadata_bytes.
  by rewrite Hd, Hf, metadata_roundtrip.
Qed.

Lemma read_metadata_missing fs p :
  is_dir fs p = false -> fs.(regular) !! p = None -> __read_metadata p fs = (Raise NoNodeMetadataFileFound, fs).
Proof. intros Hd Hf. unfold __read_metadata, try_except, py_bind, read_file, lift. by rewrite Hd, Hf. Qed.

Lemma read_nodes_ok fs ps ns :
  Forall2 (fun p n => __read_metadata p fs = (Ok n, fs)) ps ns -> read_nodes ps fs = (Ok ns, fs).
Proof.
  induction 1 as [|p n ps ns Hp _ IH]; [done|]. cbn [read_nodes]. unfold py_bind, try_except. rewrite Hp.
  cbn. by rewrite IH.
Qed.

Lemma prefix_not_inside q : q ∈ prefixes s.(metadata_dir) -> q <> [] -> parent q <> s.(metadata_dir).
Proof.
  intros Hq%prefix_length Hne Hp. apply (f_equal length) in Hp. unfold parent in Hp.
  rewrite length_take in Hp. destruct q; [done|]. cbn in *. lia.
Qed.

Lemma store_file fs m n : in_files_of fs m -> own_metadata n ->
  exists fs', store_node_metadata s n None fs = (Ok (node_path (node_stamp n)), fs') /\ in_files_of fs' (<[node_stamp n := n]> m).
Proof.
  intros [H1 H2 H3 H4 H5 H6] Hown. unfold store_node_metadata, __write_metadata. fold (node_path (node_stamp n)).
  rewrite node_path_parent. unfold py_bind at 1, mkdir_parents.
  rewrite (H2 _ (path_in_prefixes _)).
  assert (existsb (is_file fs) (prefixes (metadata_dir s)) = false) as ->.
  { apply not_true_iff_false. intros (q & Hq & Hf)%existsb_exists. rewrite H2 in Hf; [done|by apply list_elem_of_In]. }
  set (fs1 := Filesystem _ _).
  assert (forall q, q <> [] -> parent q = metadata_dir s -> is_dir fs1 q = false) as Hno.
  { intros q Hne Hp. apply bool_decide_eq_false. unfold fs1. cbn [directories]. intros [Hq|Hq]%elem_of_union.
    - apply elem_of_list_to_set in Hq. by apply (prefix_not_inside q).
    - specialize (H5 q Hne Hp). by apply bool_decide_eq_false in H5. }
  assert (is_dir fs1 (metadata_dir s) = true) as Hdir.
  { apply bool_decide_eq_true. unfold fs1. cbn [directories]. apply elem_of_union_l, elem_of_list_to_set, path_in_prefixes. }
  unfold py_bind at 1. rewrite write_file_allowed;
    [|by apply Hno; [apply node_path_nonempty|apply node_path_parent]|by rewrite node_path_parent].
  eexists. split; [reflexivity|]. split.
  - exact Hdir.
  - intros q Hq. apply bool_decide_eq_false. cbn. rewrite lookup_insert_ne.
    + specialize (H2 q Hq). by apply bool_decide_eq_false in H2.
    + intros <-. apply (prefix_not_inside _ Hq); [apply node_path_nonempty|apply node_path_parent].
  - intros stamp. cbn. destruct (decide (stamp = node_stamp n)) as [->|Hne]; [by rewrite !lookup_insert_eq|].
    rewrite !lookup_insert_ne; [apply H3|done|]. intros Heq%node_path_inj. by subst.
  - intros q Hne Hp Hf. destruct (decide (q = node_path (node_stamp n))) as [->|Hq]; [by eexists|].
    apply H4; [done..|]. apply bool_decide_eq_true in Hf. cbn in Hf. rewrite lookup_insert_ne in Hf by done.
    by apply bool_decide_eq_true.
  - exact Hno.
  - intros st n' [[<- <-]|[_ ?]]%lookup_insert_Some; [done|by apply H6].
Qed.

(** Every item of the directory is unlinked. *)
Lemma unlink_all ps fs :
  exists fs', for_each ps (fun item => there <- gets (fun fs => is_file fs item) ;;
      if there : bool then unlink item else py_ret tt) fs = (Ok tt, fs') /\
    fs'.(directories) = fs.(directories) /\
    forall q, fs'.(regular) !! q = if decide (q ∈ ps) then None else fs.(regular) !! q.
Proof.
  revert fs. induction ps as [|p ps IH]; intros fs.
  { exists fs. split_and!; [done..|]. intros q. by rewrite decide_False by apply not_elem_of_nil. }
  cbn [for_each]. unfold py_bind at 1 2, gets. destruct (is_file fs p) eqn:Hf.
  - unfold unlink. rewrite Hf. destruct (IH (Filesystem (delete p fs.(regular)) fs.(directories))) as (fs' & Hl & Hd & Hr).
    exists fs'. split_and!; [done..|]. intros q. rewrite Hr. cbn.
    destruct (decide (q = p)) as [->|Hne].
    + rewrite (decide_True (P := p ∈ p :: ps)) by left. rewrite lookup_delete_eq. by case_decide.
    + rewrite lookup_delete_ne by done. apply decide_ext. rewrite elem_of_cons. naive_solver.
  - unfold py_ret. destruct (IH fs) as (fs' & Hl & Hd & Hr). exists fs'. split_and!; [done..|].
    intros q. rewrite Hr. destruct (decide (q = p)) as [->|Hne].
    + rewrite (decide_True (P := p ∈ p :: ps)) by left. case_decide; [done|].
      apply bool_decide_eq_false, eq_None_not_Some in Hf. done.
    + apply decide_ext. rewrite elem_of_cons. naive_solver.
Qed.

Lemma entries_spec fs d q :
  q ∈ entries d fs <-> (q <> [] /\ parent q = d) /\ (is_file fs q = true \/ is_dir fs q = true).
Proof.
  unfold entries. rewrite list_elem_of_filter, elem_of_app, list_elem_of_fmap, elem_of_elements.
  unfold is_file, is_dir. rewrite !bool_decide_eq_true. split; intros [H1 H2]; (split; [done|]).
  - destruct H2 as [([q' c] & -> & H)|H]; [left|by right]. apply elem_of_map_to_list in H. by eexists.
  - destruct H2 as [[c H]|H]; [left|by right]. exists (q, c). split; [done|]. by apply elem_of_map_to_list.
Qed.

Lemma entries_nodup fs m : in_files_of fs m -> NoDup (entries s.(metadata_dir) fs).
Proof.
  intros [_ _ _ _ H5 _]. unfold entries. rewrite filter_app.
  match goal with |- context [_ ++ ?l] => assert (l = []) as -> end.
  { apply elem_of_nil_inv. intros q [[Hne Hp] Hq%elem_of_elements]%list_elem_of_filter.
    specialize (H5 q Hne Hp). by apply bool_decide_eq_false in H5. }
  rewrite app_nil_r. apply NoDup_filter, NoDup_fst_map_to_list.
Qed.

(** The files of the directory are those of the nodes; reading them gives the
    nodes' sprouts. *)
Lemma listed_nodes fs m : in_files_of fs m ->
  exists ns, Forall2 (fun p n => __read_metadata p fs = (Ok n, fs)) (entries s.(metadata_dir) fs) ns /\
    NoDup (node_stamp <$> ns) /\ forall n, n ∈ ns <-> exists st n0, m !! st = Some n0 /\ n = replanted n0.
Proof.
  intros Hfs. pose proof (entries_nodup fs m Hfs) as Hnd. destruct Hfs as [H1 H2 H3 H4 H5 H6].
  assert (forall q, q ∈ entries s.(metadata_dir) fs -> exists st n, q = node_path st /\ m !! st = Some n) as Hq.
  { intros q [[Hne Hp] [Hf|Hd]]%entries_spec; [|by rewrite H5 in Hd].
    destruct (H4 q Hne Hp Hf) as [st ->]. apply bool_decide_eq_true in Hf as [c Hc]. rewrite H3 in Hc.
    apply fmap_Some in Hc as (n & Hn & _). by exists st, n. }
  assert (forall n st, m !! st = Some n -> node_path st ∈ entries s.(metadata_dir) fs) as Hall.
  { intros n st Hn. apply entries_spec. split; [split; [apply node_path_nonempty|apply node_path_parent]|].
    left. apply bool_decide_eq_true. rewrite H3, Hn. by eexists. }
  destruct (exists_Forall2 (fun q n => exists st n0, q = node_path st /\ m !! st = Some n0 /\ n = replanted n0)
    (entries s.(metadata_dir) fs)) as [ns Hns]; [intros q (st & n & ? & ?)%Hq; by exists (replanted n), st, n|].
  exists ns. split_and!.
  - eapply Forall2_impl; [exact Hns|]. intros q n (st & n0 & -> & Hn & ->). apply read_metadata_file.
    + apply H5; [apply node_path_nonempty|apply node_path_parent].
    + by rewrite H3, Hn.
  - apply (NoDup_fmap_1 node_path). assert (node_path <$> (node_stamp <$> ns) = entries s.(metadata_dir) fs) as ->;
      [|done].
    clear Hq Hall Hnd. induction Hns as [|q n qs ns (st & n0 & -> & Hn & ->) _ IH]; [done|]. cbn. rewrite IH. f_equal.
    destruct (H6 _ _ Hn) as [<- Hown]. by rewrite Hown.
  - intros n. split.
    + intros (q & _ & st & n0 & _ & Hn & ->)%(Forall2_elem_r _ _ _ _ Hns). by exists st, n0.
    + intros (st & n0 & Hn & ->). destruct (Forall2_elem_l _ _ _ _ Hns (Hall _ _ Hn)) as (n' & Hin & st' & n1 & Heq%node_path_inj & Hn' & ->).
      by simplify_eq.
Qed.

(** Directory contents are destroyed but for its directories. *)
Lemma destroy_contents d fs :
  exists fs', __destroy_dir_contents d fs = (Ok tt, fs') /\ fs'.(directories) = fs.(directories) /\
    forall q, fs'.(regular) !! q = if decide (q <> [] /\ parent q = d /\ is_dir fs d = true) then None else fs.(regular) !! q.
Proof.
  unfold __destroy_dir_contents. destruct (is_dir fs d) eqn:Hd; cbn [negb].
  - unfold py_bind at 1, iterdir. rewrite Hd. destruct (unlink_all (entries d fs) fs) as (fs' & -> & Hdirs & Hr).
    exists fs'. split; [done|]. split; [done|]. intros q. rewrite Hr.
    destruct (decide (q <> [] /\ parent q = d /\ true = true)) as [(Hne & Hp & _)|Hno].
    + destruct (fs.(regular) !! q) eqn:Hq; [|by case_decide]. rewrite decide_True; [done|].
      apply entries_spec. split; [done|]. left. apply bool_decide_eq_true. by eexists.
    + rewrite decide_False; [done|]. intros [[Hne Hp] _]%entries_spec. by apply Hno.
  - exists fs. split; [done|]. split; [done|]. intros q. rewrite decide_False; [done|]. by intros (_ & _ & ?).
Qed.

(** Clearing a directory of nodes, or another one. *)
Lemma clear_directory d fs m : in_files_of fs m ->
  exists fs', __destroy_dir_contents d fs = (Ok tt, fs') /\
    in_files_of fs' (if decide (d = s.(metadata_dir)) then ∅ else m).
Proof.
  intros [H1 H2 H3 H4 H5 H6]. destruct (destroy_contents d fs) as (fs' & Hd & Hdirs & Hr). exists fs'. split; [done|].
  assert (forall q, is_dir fs' q = is_dir fs q) as Hdir by (intros q; unfold is_dir; by rewrite Hdirs).
  assert (forall q, is_file fs' q = true -> is_file fs q = true /\ ~ (q <> [] /\ parent q = d /\ is_dir fs d = true)) as Hsub.
  { intros q Hf. apply bool_decide_eq_true in Hf. rewrite Hr in Hf. case_decide; [by destruct Hf|].
    split; [by apply bool_decide_eq_true|done]. }
  split.
  - by rewrite Hdir.
  - intros q Hq. apply not_true_iff_false. intros [Hf _]%Hsub. by rewrite H2 in Hf.
  - intros st. rewrite Hr. destruct (decide (d = _)) as [->|Hne].
    + rewrite decide_True, lookup_empty; [done|]. split_and!; [apply node_path_nonempty|apply node_path_parent|done].
    + rewrite decide_False; [apply H3|]. rewrite node_path_parent. by intros (_ & ? & _).
  - intros q Hne Hp [Hf _]%Hsub. by apply H4.
  - intros q Hne Hp. rewrite Hdir. by apply H5.
  - destruct (decide _); [|done]. intros st n. by rewrite lookup_empty.
Qed.

#[local] Instance local_laws : NodeStoreLaws filesystem Node node_stamp own_metadata replanted.
Proof.
  refine {| represents := in_files_of |}.
  - intros fs m n Hm Hn. destruct (store_file fs m n Hm Hn) as (fs' & Hs & Hm'). exists fs'. split; [|done].
    unfold store, local_store, py_bind. by rewrite Hs.
  - intros fs m st [H1 H2 H3 H4 H5 H6]. unfold fetch, local_store, get. fold (node_path st).
    pose proof (H5 (node_path st) (node_path_nonempty st) (node_path_parent st)) as Hd.
    pose proof (H3 st) as Hf. destruct (m !! st) as [n|]; [by apply read_metadata_file|].
    exists NoNodeMetadataFileFound. split; [by apply read_metadata_missing|reflexivity].
  - intros fs m Hm. destruct (listed_nodes fs m Hm) as (ns & Hns & Hnd & Hin). exists ns.
    split; [|split; [done|exact Hin]].
    unfold list_all, local_store, all, py_bind, iterdir. rewrite (dir_there _ _ Hm), (read_nodes_ok _ _ _ Hns). cbn.
    by rewrite node_set_distinct.
  - intros fs m a b Hm. unfold wipe, local_store, clear, py_bind.
    assert (exists fs1, (if a then __destroy_dir_contents s.(metadata_dir) else py_ret tt) fs = (Ok tt, fs1) /\
      in_files_of fs1 (if a then ∅ else m)) as (fs1 & -> & Hm1).
    { destruct a; [|by exists fs]. destruct (clear_directory s.(metadata_dir) fs m Hm) as (fs1 & Hd & Hm1).
      rewrite decide_True in Hm1 by done. by exists fs1. }
    destruct b; [|by exists fs1]. destruct (clear_directory s.(certificates_dir) fs1 _ Hm1) as (fs2 & Hd & Hm2).
    rewrite decide_False in Hm2 by done. by exists fs2.
Defined.

(** C32.  The two storages agree: started from the same nodes, after the same
    sequence of storing nodes and clearing - the metadata, the certificates or
    both - both have carried everything out, both know the same stamps, and
    raise an [UnknownNode] for every other one.  What was last stored under a
    stamp since the metadata were last cleared comes back from memory as the
    very node that was stored, and from the files as a new, unverified sprout
    of its metadata.  Both list what they give for each of those stamps, each
    once and nothing else.  This is for nodes whose metadata have their own
    stamp as the verifying key, a directory of certificates that is not the
    one of metadata, and metadata whose encoding can be read again. *)
Theorem storages_agree ops (st : forgetful Metadata Cert) (fs : filesystem) m :
  in_memory st m -> in_files_of fs m -> Forall (allowed own_metadata) ops ->
  exists st' fs', for_each ops perform st = (Ok tt, st') /\ for_each ops perform fs = (Ok tt, fs') /\
  let m' := foldl (apply_op node_stamp) m ops in
  (forall stamp, match m' !! stamp with
     | Some n => node_stamp n = stamp /\ forgetful_get None (Some stamp) false st' = Ok (inl n) /\
                 get s stamp false fs' = (Ok (NodeSprout (node_metadata n)), fs')
     | None => forgetful_get None (Some stamp) false st' = Raise UnknownNode /\
               exists e, get s stamp false fs' = (Raise e, fs') /\ issubclass e UnknownNode = true
     end) /\
  exists l k, forgetful_all false st' = inl l /\ all s false fs' = (Ok (inl k), fs') /\
    k ≡ₚ (fun n => NodeSprout (node_metadata n)) <$> l /\
    NoDup (node_stamp <$> l) /\ forall n, n ∈ l <-> exists stamp, m' !! stamp = Some n.
Proof.
  intros Hst Hfs Hops.
  destruct (perform_all node_stamp _ _ (NodeStoreLaws0 := forgetful_laws) ops st m Hst Hops) as (st' & Hrun & Hst').
  destruct (perform_all node_stamp _ _ (NodeStoreLaws0 := local_laws) ops fs m Hfs Hops) as (fs' & Hrun' & Hfs').
  exists st', fs'. split; [exact Hrun|]. split; [exact Hrun'|]. intros m'. split.
  - intros stamp. pose proof (fetch_spec (NodeStoreLaws := local_laws) fs' m' stamp Hfs') as H2.
    pose proof (own_stamps _ _ Hfs' stamp) as Hown. destruct Hst' as [Hm _].
    unfold forgetful_get. cbn [stamp_or_host rbind]. rewrite Hm. fold m' in Hown |- *.
    destruct (m' !! stamp) as [n|]; [|by split]. split; [by apply Hown|]. split; [done|exact H2].
  - destruct (list_all_spec (NodeStoreLaws := forgetful_laws) st' m' Hst') as (l & Hl & Hndl & Hinl).
    destruct (list_all_spec (NodeStoreLaws := local_laws) fs' m' Hfs') as (k & Hk & Hndk & Hink).
    exists l, k. split; [|split; [|split; [|split; [exact Hndl|]]]].
    + unfold list_all, forgetful_store, forgetful_all in *. injection Hl as Hl. by rewrite <- Hl.
    + unfold list_all, local_store, py_bind in Hk. destruct (all s false fs') as [[[x|x]|e] fs1]; [|done..].
      by injection Hk as -> ->.
    + apply NoDup_Permutation; [by apply NoDup_fmap_1 in Hndk| |].
      * apply (NoDup_fmap_1 node_stamp). rewrite <- list_fmap_compose.
        rewrite (list_fmap_ext _ node_stamp); [exact Hndl|]. intros i n Hin%list_elem_of_lookup_2. cbn.
        apply Hinl in Hin as (stamp & n0 & Hn & ->). by apply (own_stamps _ _ Hfs' stamp).
      * intros n. rewrite Hink, list_elem_of_fmap. split.
        -- intros (stamp & n0 & Hn & ->). exists n0. split; [done|]. apply Hinl. by exists stamp, n0.
        -- intros (n0 & -> & (stamp & n1 & Hn & ->)%Hinl). by exists stamp, n1.
    + intros n. rewrite Hinl. split; [intros (stamp & n0 & Hn & ->); by exists stamp|intros [stamp Hn]; by exists stamp, n].
Qed.

End Instances.

(** ** Certificates are lost *)

Section Certificates.
Context {Metadata Cert : Type} `{!EqDecision Cert} `{!NodeLib Metadata Cert}.
(** PEM is not DER. *)
Hypothesis pem_is_not_der : forall c, exists e, load_der_x509 (public_pem c) = Raise e.

Lemma read_certificates_raises ps p c (fs : filesystem) :
  p ∈ ps -> is_dir fs p = false -> fs.(regular) !! p = Some (public_pem c) ->
  exists e fs', read_certificates ps fs = (Raise e, fs').
Proof.
  intros Hp Hd Hf. induction ps as [|q ps IH]; [by apply elem_of_nil in Hp|]. cbn [read_certificates].
  unfold py_bind at 1. destruct (__read_node_tls_certificate q fs) as [[x|e] fs1] eqn:Hq; [|by eexists _, _].
  assert (fs1 = fs) as ->.
  { revert Hq. unfold __read_node_tls_certificate, py_bind, read_file, lift. repeat case_match; intros; by simplify_eq. }
  apply elem_of_cons in Hp as [->|Hp].
  - exfalso. revert Hq. unfold __read_node_tls_certificate, py_bind, read_file, lift. rewrite Hd, Hf.
    destruct (pem_is_not_der c) as [e ->]. done.
  - destruct (IH Hp) as (e & fs' & He). unfold py_bind. rewrite He. by eexists _, _.
Qed.

(** A certificate that a storage has stored cannot be got back.  The local
    storage writes PEM and reads DER, so that after [store_node_certificate]
    listing the certificates raises, and its [get] raises [TypeError] for
    every certificate; the forgetful storage only ever has its certificates
    on disk, so that [get] raises for every key and [all] lists none, before
    and after storing and clearing. *)
Theorem stored_certificates_are_lost s c port force fs p fs' :
  store_node_certificate s c port force fs = (Ok p, fs') ->
  (exists e fs'', all s true fs' = (Raise e, fs'')) /\
  (forall stamp, get s stamp true fs' = (Raise TypeError, fs')) /\
  forall (st : forgetful Metadata Cert), st.(certificates) = ∅ ->
    (forall host stamp, exists e, forgetful_get host stamp true st = Raise e) /\
    forgetful_all true st = inr [] /\
    (forall n, (forgetful_store_metadata n st).(certificates) = ∅) /\
    forall a b, (forgetful_clear a b st).(certificates) = ∅.
Proof.
  intros Hs. split; [|split; [done|]].
  - unfold store_node_certificate, _write_tls_certificate, py_bind at 1, lift in Hs.
    destruct (common_name c) as [host|e]; [|done]. unfold py_bind at 1, gets in Hs.
    destruct (_ && _); [done|]. unfold py_bind at 1 in Hs.
    unfold local_certificate_filepath in Hs. rewrite parent_child in Hs.
    set (q := child (certificates_dir s) (certificate_filename host port)) in Hs.
    destruct (mkdir_parents (certificates_dir s) fs) as [[[]|e] fs1] eqn:Hmk; [|done].
    unfold py_bind in Hs. destruct (write_file q (public_pem c) fs1) as [[[]|e] fs2] eqn:Hw; [|done].
    injection Hs as <- <-. apply write_file_ok in Hw as [[Hd _] ->]. apply mkdir_parents_ok in Hmk.
    unfold all, py_bind at 1, iterdir. change (is_dir (put q (public_pem c) fs1) (certificates_dir s)) with (is_dir fs1 (certificates_dir s)).
    rewrite Hmk. edestruct (read_certificates_raises (entries (certificates_dir s) (put q (public_pem c) fs1)) q c
      (put q (public_pem c) fs1)) as (e & fs' & He).
    + apply entries_spec. split; [split; [|apply parent_child]|].
      * unfold q, child. by destruct (certificates_dir s).
      * left. apply bool_decide_eq_true. cbn. rewrite lookup_insert_eq. by eexists.
    + exact Hd.
    + cbn. by rewrite lookup_insert_eq.
    + exists e, fs'. unfold py_bind. by rewrite He.
  - intros st Hst. split_and!.
    + intros host stamp. unfold forgetful_get. destruct (stamp_or_host host stamp) as [k|e]; [|by eexists].
      cbn [rbind]. rewrite Hst, lookup_empty. by eexists.
    + unfold forgetful_all. by rewrite Hst, map_to_list_empty.
    + done.
    + intros a b. cbn. by destruct b.
Qed.

End Certificates.

End Storages.

(** ** A concrete instance *)

Module StorageDemo.
Import Storages.

(** Metadata are a key of two bytes and the rest of what they say. *)
#[local] Instance demo_nodes : NodeLib bytes string := {
  verifying_key m := take 2 m;
  metadata_to_bytes m := m;
  metadata_from_bytes b := Ok b;
  common_name c := Ok c;
  public_pem c := to_bytes c;
  load_der_x509 _ := Raise ValueError;
}.

Lemma demo_metadata (m : bytes) : metadata_from_bytes (Cert := string) (metadata_to_bytes (Cert := string) m) = Ok m.
Proof. reflexivity. Qed.

Lemma demo_pem (c : string) : exists e, load_der_x509 (Metadata := bytes) (public_pem (Metadata := bytes) c) = Raise e.
Proof. by exists ValueError. Qed.

Definition storage : local := _generate_storage_filepaths [] None None None None.
Definition storage_fs : filesystem :=
  Filesystem ∅ {[ []; ["known_nodes"]; ["known_nodes"; "metadata"]; ["known_nodes"; "certificates"] ]}%string.

Lemma demo_files : in_files_of (Cert := string) storage storage_fs ∅.
Proof.
  split.
  - reflexivity.
  - intros q _. reflexivity.
  - intros stamp. reflexivity.
  - intros q _ _ Hf. discriminate Hf.
  - intros q _ Hp. apply bool_decide_eq_false. intros Hq. cbn [storage_fs directories] in Hq.
    rewrite !elem_of_union, !elem_of_singleton in Hq.
    destruct Hq as [[[->| ->]| ->]| ->]; discriminate Hp.
  - intros st n. by rewrite lookup_empty.
Qed.

Lemma demo_memory : in_memory (Cert := string) (new_forgetful (Metadata := bytes) []) ∅.
Proof. split_and!; [intros; reflexivity..|]. intros st n. by rewrite lookup_empty. Qed.

Definition demo_ops : list (storage_op (node bytes)) :=
  [Store (Ursula (to_bytes "aa") (to_bytes "aa1") true); Store (NodeSprout (to_bytes "bb1")); Clear false true;
   Store (Ursula (to_bytes "aa") (to_bytes "aa2") true)].

Lemma demo_ops_allowed : Forall (allowed (own_metadata (Cert := string))) demo_ops.
Proof. repeat constructor. Qed.

(** The verified Ursula comes back from the files as a sprout. *)
Lemma storages_agree_witness :
  exists (st' : forgetful bytes string) fs',
    forgetful_get None (Some (to_bytes "aa")) false st' = Ok (inl (Ursula (to_bytes "aa") (to_bytes "aa2") true)) /\
    get (Cert := string) storage (to_bytes "aa") false fs' = (Ok (NodeSprout (to_bytes "aa2")), fs').
Proof.
  destruct (storages_agree demo_metadata storage ltac:(done) demo_ops (new_forgetful []) storage_fs ∅
              demo_memory demo_files demo_ops_allowed) as (st' & fs' & _ & _ & Hget & _).
  exists st', fs'. exact (proj2 (Hget (to_bytes "aa"))).
Defined.

Definition cert_stored := store_node_certificate (Metadata := bytes) (Cert := string) storage "10.0.0.1" 9151 false storage_fs.
Definition cert_path : path := match cert_stored.1 with Ok p => p | Raise _ => [] end.

Lemma cert_ok : store_node_certificate (Metadata := bytes) (Cert := string) storage "10.0.0.1" 9151 false storage_fs
  = (Ok cert_path, cert_stored.2).
Proof. vm_compute. reflexivity. Qed.

Lemma stored_certificates_are_lost_witness :
  exists e fs'', all (Metadata := bytes) (Cert := string) storage true cert_stored.2 = (Raise e, fs'').
Proof.
  exact (proj1 (stored_certificates_are_lost demo_pem storage "10.0.0.1"%string
    9151%N false storage_fs cert_path cert_stored.2 cert_ok)).
Defined.

End StorageDemo.
