(* ===== verification/Concurrency.v ===== *)
(** * nulink/utilities/concurrency.py

    [Future] is the write-once cell; [pool] is a [WorkerPool] after
    [start()], as a transition system over the interleavings of its three
    service threads, the workers of the thread pool and the caller.  Each
    step is one access to shared state: a lock-protected section, an
    [Event], a [Queue] operation, a [Future.set].  The thread pool is
    twisted's ([ThreadPool], [Team]): a bounded number of threads, a
    backlog, tasks dropped once [joined] is set and refused with
    [AlreadyQuit] when [stop()] comes between the two checks of
    [callInThread]. *)

From S2P Require Import Prelude.
From stdpp Require Import relations.

Module Future.

(** [FutureResult]: a value, or the [exc_info] of an exception. *)
Inductive FutureResult (A : Type) :=
  | FValue (a : A)
  | FExc (e : exn_class).
Arguments FValue {A} a.
Arguments FExc {A} e.

(** [Future]: [None] until [_set_event] is set. *)
Definition Future (A : Type) : Type := option (FutureResult A).

Definition new {A} : Future A := None.

(** [Future._set]: all further sets are ignored. *)
Definition _set {A} (f : Future A) (value : FutureResult A) : Future A :=
  match f with
  | None => Some value
  | Some _ => f
  end.

Definition set {A} (f : Future A) (value : A) : Future A := _set f (FValue value).

Definition set_exception {A} (f : Future A) (exc_info : exn_class) : Future A :=
  _set f (FExc exc_info).

Definition is_set {A} (f : Future A) : bool := match f with Some _ => true | None => false end.

(** [Future.get]: [None] while the call blocks. *)
Definition get {A} (f : Future A) : option (result A) :=
  match f with
  | None => None
  | Some (FExc e) => Some (Raise e)
  | Some (FValue a) => Some (Ok a)
  end.

Lemma set_is_set {A} (f : Future A) a : is_set (set f a) = true.
Proof. by destruct f. Qed.

Lemma _set_idem {A} (f : Future A) r r' : _set (_set f r) r' = _set f r.
Proof. by destruct f. Qed.

Lemma _set_frozen {A} (f : Future A) x r : f = Some x -> _set f r = f.
Proof. by intros ->. Qed.

End Future.
Import Future.

(** What a [WorkerPool] needs of its [value_factory], a callable from the
    number of successes so far to the next batch. *)
Class ValueFactory (F V : Type) :=
  value_factory : Z -> F -> result (option (list V)) * F.

(** A factory with finite supply: the values it can still hand out. *)
Class FiniteFactory (F V : Type) `{!ValueFactory F V} := {
  supply : F -> nat;
  supply_decreases : forall n f b f',
    value_factory n f = (Ok (Some b), f') -> length b + supply f' <= supply f;
}.

Module WorkerPool.

(** [__init__]'s [target_successes], and the [maxthreads] of the pool. *)
Record config := {
  target_successes : Z;
  max_threads : nat;
}.

Section Pool.
Context {V R F : Type} `{EqDecision V} `{!ValueFactory F V}.
Variable cfg : config.
(** The outcomes a call of [worker] on a value may have. *)
Variable worker : V -> result R -> Prop.

(** What the workers and the producer put in [_result_queue]. *)
Inductive message :=
  | MProducerStopped
  | MSuccess (value : V) (res : R)
  | MFailure (value : V) (exc : exn_class)
  | MCancelled.

(** What [_target_value] can be set to. *)
Inductive target :=
  | TIMEOUT_TRIGGERED
  | PRODUCER_STOPPED
  | Reached (d : list (V * R)).

(** Where [_produce_values] stands. *)
Inductive producer_pc :=
  | P_loop
  | P_call (len_successes : nat)
  | P_dispatch (batch : list V)
  | P_submit (value : V) (batch : list V)
  | P_sleep
  | P_error (e : exn_class)
  | P_cancel
  | P_stop
  | P_done.

(** Where [_process_results] stands; the argument is [producer_stopped]. *)
Inductive processor_pc :=
  | R_loop (producer_stopped : bool)
  | R_set_reached
  | R_cancel_reached
  | R_cancel_stopped
  | R_set_stopped
  | R_stop_pool
  | R_join_pool
  | R_done.

(** Where [_bail_on_timeout] stands. *)
Inductive timeout_pc := T_wait | T_set | T_cancel | T_done.

(** The pool: its attributes, the backlog and the busy threads of the
    thread pool, and where each of its three service threads stands. *)
Record pool := Mk_pool {
  successes : list (V * R);
  failures : list (V * exn_class);
  started_tasks : nat;
  finished_tasks : nat;
  cancel_event : bool;
  result_queue : list message;
  target_value : Future target;
  producer_error : Future unit;
  threadpool_joined : bool;
  threadpool_stopped : bool;
  factory : F;
  backlog : list V;
  running : list V;
  producer : producer_pc;
  processor : processor_pc;
  timeout_thread : timeout_pc;
}.
Definition set_successes (x : list (V * R)) (s : pool) : pool :=
  Mk_pool x (s.(failures)) (s.(started_tasks)) (s.(finished_tasks)) (s.(cancel_event)) (s.(result_queue)) (s.(target_value)) (s.(producer_error)) (s.(threadpool_joined)) (s.(threadpool_stopped)) (s.(factory)) (s.(backlog)) (s.(running)) (s.(producer)) (s.(processor)) (s.(timeout_thread)).
Definition set_failures (x : list (V * exn_class)) (s : pool) : pool :=
  Mk_pool (s.(successes)) x (s.(started_tasks)) (s.(finished_tasks)) (s.(cancel_event)) (s.(result_queue)) (s.(target_value)) (s.(producer_error)) (s.(threadpool_joined)) (s.(threadpool_stopped)) (s.(factory)) (s.(backlog)) (s.(running)) (s.(producer)) (s.(processor)) (s.(timeout_thread)).
Definition set_started_tasks (x : nat) (s : pool) : pool :=
  Mk_pool (s.(successes)) (s.(failures)) x (s.(finished_tasks)) (s.(cancel_event)) (s.(result_queue)) (s.(target_value)) (s.(producer_error)) (s.(threadpool_joined)) (s.(threadpool_stopped)) (s.(factory)) (s.(backlog)) (s.(running)) (s.(producer)) (s.(processor)) (s.(timeout_thread)).
Definition set_finished_tasks (x : nat) (s : pool) : pool :=
  Mk_pool (s.(successes)) (s.(failures)) (s.(started_tasks)) x (s.(cancel_event)) (s.(result_queue)) (s.(target_value)) (s.(producer_error)) (s.(threadpool_joined)) (s.(threadpool_stopped)) (s.(factory)) (s.(backlog)) (s.(running)) (s.(producer)) (s.(processor)) (s.(timeout_thread)).
Definition set_cancel_event (x : bool) (s : pool) : pool :=
  Mk_pool (s.(successes)) (s.(failures)) (s.(started_tasks)) (s.(finished_tasks)) x (s.(result_queue)) (s.(target_value)) (s.(producer_error)) (s.(threadpool_joined)) (s.(threadpool_stopped)) (s.(factory)) (s.(backlog)) (s.(running)) (s.(producer)) (s.(processor)) (s.(timeout_thread)).
Definition set_result_queue (x : list message) (s : pool) : pool :=
  Mk_pool (s.(successes)) (s.(failures)) (s.(started_tasks)) (s.(finished_tasks)) (s.(cancel_event)) x (s.(target_value)) (s.(producer_error)) (s.(threadpool_joined)) (s.(threadpool_stopped)) (s.(factory)) (s.(backlog)) (s.(running)) (s.(producer)) (s.(processor)) (s.(timeout_thread)).
Definition set_target_value (x : Future target) (s : pool) : pool :=
  Mk_pool (s.(successes)) (s.(failures)) (s.(started_tasks)) (s.(finished_tasks)) (s.(cancel_event)) (s.(result_queue)) x (s.(producer_error)) (s.(threadpool_joined)) (s.(threadpool_stopped)) (s.(factory)) (s.(backlog)) (s.(running)) (s.(producer)) (s.(processor)) (s.(timeout_thread)).
Definition set_producer_error (x : Future unit) (s : pool) : pool :=
  Mk_pool (s.(successes)) (s.(failures)) (s.(started_tasks)) (s.(finished_tasks)) (s.(cancel_event)) (s.(result_queue)) (s.(target_value)) x (s.(threadpool_joined)) (s.(threadpool_stopped)) (s.(factory)) (s.(backlog)) (s.(running)) (s.(producer)) (s.(processor)) (s.(timeout_thread)).
Definition set_threadpool_joined (x : bool) (s : pool) : pool :=
  Mk_pool (s.(successes)) (s.(failures)) (s.(started_tasks)) (s.(finished_tasks)) (s.(cancel_event)) (s.(result_queue)) (s.(target_value)) (s.(producer_error)) x (s.(threadpool_stopped)) (s.(factory)) (s.(backlog)) (s.(running)) (s.(producer)) (s.(processor)) (s.(timeout_thread)).
Definition set_threadpool_stopped (x : bool) (s : pool) : pool :=
  Mk_pool (s.(successes)) (s.(failures)) (s.(started_tasks)) (s.(finished_tasks)) (s.(cancel_event)) (s.(result_queue)) (s.(target_value)) (s.(producer_error)) (s.(threadpool_joined)) x (s.(factory)) (s.(backlog)) (s.(running)) (s.(producer)) (s.(processor)) (s.(timeout_thread)).
Definition set_factory (x : F) (s : pool) : pool :=
  Mk_pool (s.(successes)) (s.(failures)) (s.(started_tasks)) (s.(finished_tasks)) (s.(cancel_event)) (s.(result_queue)) (s.(target_value)) (s.(producer_error)) (s.(threadpool_joined)) (s.(threadpool_stopped)) x (s.(backlog)) (s.(running)) (s.(producer)) (s.(processor)) (s.(timeout_thread)).
Definition set_backlog (x : list V) (s : pool) : pool :=
  Mk_pool (s.(successes)) (s.(failures)) (s.(started_tasks)) (s.(finished_tasks)) (s.(cancel_event)) (s.(result_queue)) (s.(target_value)) (s.(producer_error)) (s.(threadpool_joined)) (s.(threadpool_stopped)) (s.(factory)) x (s.(running)) (s.(producer)) (s.(processor)) (s.(timeout_thread)).
Definition set_running (x : list V) (s : pool) : pool :=
  Mk_pool (s.(successes)) (s.(failures)) (s.(started_tasks)) (s.(finished_tasks)) (s.(cancel_event)) (s.(result_queue)) (s.(target_value)) (s.(producer_error)) (s.(threadpool_joined)) (s.(threadpool_stopped)) (s.(factory)) (s.(backlog)) x (s.(producer)) (s.(processor)) (s.(timeout_thread)).
Definition set_producer (x : producer_pc) (s : pool) : pool :=
  Mk_pool (s.(successes)) (s.(failures)) (s.(started_tasks)) (s.(finished_tasks)) (s.(cancel_event)) (s.(result_queue)) (s.(target_value)) (s.(producer_error)) (s.(threadpool_joined)) (s.(threadpool_stopped)) (s.(factory)) (s.(backlog)) (s.(running)) x (s.(processor)) (s.(timeout_thread)).
Definition set_processor (x : processor_pc) (s : pool) : pool :=
  Mk_pool (s.(successes)) (s.(failures)) (s.(started_tasks)) (s.(finished_tasks)) (s.(cancel_event)) (s.(result_queue)) (s.(target_value)) (s.(producer_error)) (s.(threadpool_joined)) (s.(threadpool_stopped)) (s.(factory)) (s.(backlog)) (s.(running)) (s.(producer)) x (s.(timeout_thread)).
Definition set_timeout_thread (x : timeout_pc) (s : pool) : pool :=
  Mk_pool (s.(successes)) (s.(failures)) (s.(started_tasks)) (s.(finished_tasks)) (s.(cancel_event)) (s.(result_queue)) (s.(target_value)) (s.(producer_error)) (s.(threadpool_joined)) (s.(threadpool_stopped)) (s.(factory)) (s.(backlog)) (s.(running)) (s.(producer)) (s.(processor)) x.
(** [__init__] followed by [start]. *)
Definition init_pool (f : F) : pool :=
  Mk_pool [] [] 0 0 false [] new new false false f [] [] P_loop (R_loop false) T_wait.

(** [cancel]. *)
Definition cancel (s : pool) : pool := set_cancel_event true s.

Definition put_result (m : message) (s : pool) : pool :=
  set_result_queue (s.(result_queue) ++ [m]) s.

(** [ThreadPool.callInThread] up to its check of [joined]. *)
Definition call_in_thread (value : V) (rest : list V) (s : pool) : pool :=
  if s.(threadpool_joined) then set_producer (P_dispatch rest) s
  else set_producer (P_submit value rest) s.

(** [Team.do]: refused once the pool has quit. *)
Definition team_do (value : V) (rest : list V) (s : pool) : pool :=
  if s.(threadpool_joined) then set_producer (P_error AlreadyQuit) s
  else set_producer (P_dispatch rest) (set_backlog (s.(backlog) ++ [value]) s).

(** One step of [_produce_values]. *)
Definition produce_values_step (s : pool) : option pool :=
  match s.(producer) with
  | P_loop => Some (set_producer (P_call (length s.(successes))) s)
  | P_call n =>
      let '(r, f') := value_factory (Z.of_nat n) s.(factory) in
      let s := set_factory f' s in
      match r with
      | Ok None | Ok (Some []) => Some (set_producer P_stop s)
      | Ok (Some batch) =>
          Some (set_producer (P_dispatch batch)
                 (set_started_tasks (s.(started_tasks) + length batch) s))
      | Raise e =>
          Some (set_producer (if issubclass e Cancelled then P_stop else P_error e) s)
      end
  | P_dispatch (value :: rest) => Some (call_in_thread value rest s)
  | P_submit value rest => Some (team_do value rest s)
  | P_dispatch [] => Some (set_producer P_sleep s)
  | P_sleep => Some (set_producer (if s.(cancel_event) then P_stop else P_loop) s)
  | P_error e =>
      Some (set_producer P_cancel (set_producer_error (set_exception s.(producer_error) e) s))
  | P_cancel => Some (set_producer P_stop (cancel s))
  | P_stop => Some (set_producer P_done (put_result MProducerStopped s))
  | P_done => None
  end.

(** [_worker_wrapper] from its start to the call of the worker: a free
    thread takes the head of the backlog; [_sleep(0)] raises [Cancelled]
    when the pool is cancelled. *)
Definition worker_start (s : pool) : option pool :=
  match s.(backlog) with
  | value :: rest =>
      if decide (length s.(running) < cfg.(max_threads)) then
        let s := set_backlog rest s in
        Some (if s.(cancel_event) then put_result MCancelled s
              else set_running (s.(running) ++ [value]) s)
      else None
  | [] => None
  end.

(** [_worker_wrapper] from the worker's outcome on. *)
Definition outcome_message (value : V) (o : result R) : message :=
  match o with
  | Ok res => MSuccess value res
  | Raise e => if issubclass e Cancelled then MCancelled else MFailure value e
  end.

Definition worker_finish (i : nat) (o : result R) (s : pool) : option pool :=
  match s.(running) !! i with
  | Some value =>
      Some (put_result (outcome_message value o) (set_running (delete i s.(running)) s))
  | None => None
  end.

(** The tail of an iteration of [_process_results] that did not reach the
    target: stop when the producer has and no task is left, else loop. *)
Definition process_check (producer_stopped : bool) (s : pool) : pool :=
  if producer_stopped && bool_decide (s.(finished_tasks) = s.(started_tasks))
  then set_processor R_cancel_stopped s
  else set_processor (R_loop producer_stopped) s.

(** One step of [_process_results]; [success_event_reached] is true only
    on the way out of the loop. *)
Definition process_results_step (s : pool) : option pool :=
  match s.(processor) with
  | R_loop producer_stopped =>
      match s.(result_queue) with
      | [] => None
      | m :: q =>
          let s := set_result_queue q s in
          match m with
          | MProducerStopped => Some (process_check true s)
          | MSuccess value res =>
              let s := set_finished_tasks (S s.(finished_tasks)) s in
              let s := set_successes (dict_set s.(successes) value res) s in
              if bool_decide (Z.of_nat (length s.(successes)) = cfg.(target_successes))
              then Some (set_processor R_set_reached s)
              else Some (process_check producer_stopped s)
          | MFailure value exc =>
              let s := set_finished_tasks (S s.(finished_tasks)) s in
              let s := set_failures (dict_set s.(failures) value exc) s in
              Some (process_check producer_stopped s)
          | MCancelled =>
              let s := set_finished_tasks (S s.(finished_tasks)) s in
              Some (process_check producer_stopped s)
          end
      end
  | R_set_reached =>
      Some (set_processor R_cancel_reached
             (set_target_value (set s.(target_value) (Reached s.(successes))) s))
  | R_cancel_reached => Some (set_processor R_stop_pool (cancel s))
  | R_cancel_stopped => Some (set_processor R_set_stopped (cancel s))
  | R_set_stopped =>
      Some (set_processor R_stop_pool
             (set_target_value (set s.(target_value) PRODUCER_STOPPED) s))
  | R_stop_pool => Some (set_processor R_join_pool (set_threadpool_joined true s))
  | R_join_pool =>
      if decide (s.(running) = [] /\ s.(backlog) = [])
      then Some (set_processor R_done (set_threadpool_stopped true s)) else None
  | R_done => None
  end.

(** One step of [_bail_on_timeout]: [wait(timeout)] returns when the pool
    is cancelled, and may time out at any moment otherwise. *)
Definition bail_on_timeout_step (s : pool) : option pool :=
  match s.(timeout_thread) with
  | T_wait => Some (set_timeout_thread (if s.(cancel_event) then T_cancel else T_set) s)
  | T_set =>
      Some (set_timeout_thread T_cancel
             (set_target_value (set s.(target_value) TIMEOUT_TRIGGERED) s))
  | T_cancel => Some (set_timeout_thread T_done (cancel s))
  | T_done => None
  end.

(** The interleavings: any thread that can move may move next, and the
    caller may cancel the pool. *)
Inductive step : pool -> pool -> Prop :=
  | step_producer s s' : produce_values_step s = Some s' -> step s s'
  | step_worker_start s s' : worker_start s = Some s' -> step s s'
  | step_worker_finish s s' i v o :
      s.(running) !! i = Some v -> worker v o -> worker_finish i o s = Some s' -> step s s'
  | step_processor s s' : process_results_step s = Some s' -> step s s'
  | step_timeout s s' : bail_on_timeout_step s = Some s' -> step s s'
  | step_cancel s : s.(cancel_event) = false -> step s (cancel s).

Definition reachable (f : F) (s : pool) : Prop := rtc step (init_pool f) s.

Definition check_for_producer_error (s : pool) : result unit :=
  match get s.(producer_error) with Some (Raise e) => Raise e | _ => Ok tt end.

(** [block_until_target_successes], called in the state [s0], in which it
    looks for an error of the producer, and waiting on [_target_value]
    until the state [s]; [None] while it blocks. *)
Definition block_until_target_successes (s0 s : pool) : option (result (list (V * R))) :=
  match check_for_producer_error s0 with
  | Raise e => Some (Raise e)
  | Ok _ =>
      match get s.(target_value) with
      | None => None
      | Some (Raise e) => Some (Raise e)
      | Some (Ok TIMEOUT_TRIGGERED) => Some (Raise TimedOut)
      | Some (Ok PRODUCER_STOPPED) => Some (Raise OutOfValues)
      | Some (Ok (Reached d)) => Some (Ok d)
      end
  end.

(** [join]: waits for the three threads, stops the pool if nobody did and
    raises the producer's error. *)
Definition stop_threadpool (s : pool) : pool :=
  if s.(threadpool_stopped) then s
  else set_threadpool_stopped true (set_threadpool_joined true s).

Definition join (s : pool) : option (result unit * pool) :=
  match s.(producer), s.(processor), s.(timeout_thread) with
  | P_done, R_done, T_done =>
      let s := stop_threadpool s in Some (check_for_producer_error s, s)
  | _, _, _ => None
  end.

Definition get_successes (s : pool) : list (V * R) := s.(successes).
Definition get_failures (s : pool) : list (V * exn_class) := s.(failures).

(** ** The invariant of the reachable pools *)

(** The tasks counted by [_started_tasks] that the producer has not
    handed to the thread pool yet. *)
Definition undispatched (p : producer_pc) : nat :=
  match p with
  | P_dispatch batch => length batch
  | P_submit _ batch => S (length batch)
  | _ => 0
  end.

Definition is_task (m : message) : bool :=
  match m with MProducerStopped => false | _ => true end.

Definition queued_tasks (q : list message) : nat := length (filter (fun m => is_task m = true) q).

(** The started tasks the processor has not seen the end of. *)
Definition outstanding (s : pool) : nat :=
  undispatched s.(producer) + length s.(backlog) + length s.(running)
    + queued_tasks s.(result_queue).

(** The processor has set [_target_value] and left its loop. *)
Definition past_target (p : processor_pc) : bool :=
  match p with R_cancel_reached | R_stop_pool | R_join_pool | R_done => true | _ => false end.

(** The processor is stopping because no value is left. *)
Definition stopping (p : processor_pc) : bool :=
  match p with R_cancel_stopped | R_set_stopped => true | _ => false end.

Definition below_target (s : pool) : Prop :=
  (0 < cfg.(target_successes))%Z ->
  (Z.of_nat (length s.(successes)) < cfg.(target_successes))%Z.

(** No task is left anywhere and the producer has stopped. *)
Definition drained (s : pool) : Prop :=
  s.(producer) = P_done /\ s.(finished_tasks) = s.(started_tasks) /\ below_target s.

Record data_inv (s : pool) : Prop := {
  di_wf : dict_wf s.(successes);
  di_successes : forall v r, (v, r) ∈ s.(successes) -> worker v (Ok r);
  di_queue : forall v r, MSuccess v r ∈ s.(result_queue) -> worker v (Ok r);
}.

Record control_inv (s : pool) : Prop := {
  ci_joined : s.(threadpool_joined) = true -> past_target s.(processor) = true;
  ci_stop_msg : MProducerStopped ∈ s.(result_queue) -> s.(producer) = P_done;
  ci_account : forall ps, s.(processor) = R_loop ps ->
    s.(started_tasks) = s.(finished_tasks) + outstanding s;
  ci_loop_false : s.(processor) = R_loop false -> s.(producer) = P_done ->
    MProducerStopped ∈ s.(result_queue);
  ci_loop_true : s.(processor) = R_loop true ->
    s.(producer) = P_done /\ s.(finished_tasks) <> s.(started_tasks);
  ci_below : forall ps, s.(processor) = R_loop ps -> below_target s;
  ci_stopping : stopping s.(processor) = true -> drained s;
  ci_at : s.(processor) = R_set_reached ->
    Z.of_nat (length s.(successes)) = cfg.(target_successes);
  ci_past : past_target s.(processor) = true -> is_set s.(target_value) = true;
  ci_target : match s.(target_value) with
    | None => True
    | Some (FExc _) => False
    | Some (FValue TIMEOUT_TRIGGERED) => True
    | Some (FValue PRODUCER_STOPPED) => past_target s.(processor) = true /\ drained s
    | Some (FValue (Reached d)) => past_target s.(processor) = true /\
        d = s.(successes) /\ Z.of_nat (length d) = cfg.(target_successes)
    end;
}.

Lemma queued_tasks_app q m :
  queued_tasks (q ++ [m]) = queued_tasks q + (if is_task m then 1 else 0).
Proof.
  unfold queued_tasks. rewrite filter_app, length_app. simpl.
  destruct (is_task m) eqn:E; simpl.
  - rewrite filter_cons_True by done. simpl. lia.
  - rewrite filter_cons_False by (rewrite E; done). simpl. lia.
Qed.

Lemma queued_tasks_cons m q :
  queued_tasks (m :: q) = (if is_task m then 1 else 0) + queued_tasks q.
Proof.
  unfold queued_tasks. rewrite filter_cons. destruct m; simpl; try case_decide; try done; lia.
Qed.

Lemma is_task_outcome v o : is_task (outcome_message v o) = true.
Proof. destruct o as [|e]; simpl; [done|]. by destruct (issubclass e Cancelled). Qed.

Lemma length_set_below (d : list (V * R)) v r t :
  ((0 < t)%Z -> (Z.of_nat (length d) < t)%Z) ->
  Z.of_nat (length (dict_set d v r)) <> t ->
  (0 < t)%Z -> (Z.of_nat (length (dict_set d v r)) < t)%Z.
Proof.
  intros Hb Hne Ht. specialize (Hb Ht). rewrite dict_set_length in *.
  case_decide; lia.
Qed.

Lemma data_inv_init f : data_inv (init_pool f).
Proof. split; simpl; [constructor| |]; intros ??; inversion 1. Qed.

Lemma control_inv_init f : control_inv (init_pool f).
Proof.
  split; simpl; try done.
  - inversion 1.
  - intros ? _ ?. simpl. lia.
Qed.

(** Case analysis of a step: every guard of the code becomes an equation. *)
Ltac step_cases H :=
  let s := fresh "s" in
  inversion H; subst; clear H;
  unfold produce_values_step, worker_start, worker_finish, process_results_step,
    bail_on_timeout_step, call_in_thread, team_do, process_check, cancel, put_result in *;
  repeat match goal with
    | H : Some _ = Some _ |- _ => injection H as <-
    | H : context [let '(_, _) := ?e in _] |- _ => destruct e eqn:?
    | H : context [match ?e with _ => _ end] |- _ => destruct e eqn:?; try discriminate H
    | |- context [if ?e then _ else _] => destruct e eqn:?
    end.

Lemma outcome_success v v' r o :
  MSuccess v r = outcome_message v' o -> v = v' /\ o = Ok r.
Proof.
  destruct o as [r'|e]; simpl; [by intros [= -> ->]|]. by destruct (issubclass e Cancelled).
Qed.

Lemma data_inv_step s s' : step s s' -> data_inv s -> data_inv s'.
Proof.
  intros Hstep [Hwf Hs Hq]. step_cases Hstep; split; simpl in *;
    repeat match goal with H : result_queue _ = _ |- _ => rewrite H in * end;
    try done; try (by apply dict_set_wf); intros v1 r1.
  all: try (intros [Hin|Heq%list_elem_of_singleton]%elem_of_app; [by auto|]; try discriminate Heq).
  all: try (intros [[= -> ->]|Hin]%dict_set_elem_of; [apply Hq; by left | by auto]).
  all: try (intros Hin; apply Hq; by right).
  apply outcome_success in Heq as [-> ->]. congruence.
Qed.

(** Where the values come from: if every batch of a factory in a state that
    satisfies [Q] satisfies [P], then so does every value a worker succeeded
    on. *)
Section Origin.
Variable P : V -> Prop.
Variable Q : F -> Prop.
Hypothesis factory_origin : forall n f r f', value_factory n f = (r, f') -> Q f ->
  Q f' /\ forall batch, r = Ok (Some batch) -> Forall P batch.

Definition producer_values (p : producer_pc) : list V :=
  match p with P_dispatch batch => batch | P_submit v batch => v :: batch | _ => [] end.

Record origin_inv (s : pool) : Prop := {
  oi_factory : Q s.(factory);
  oi_producer : Forall P (producer_values s.(producer));
  oi_backlog : Forall P s.(backlog);
  oi_running : Forall P s.(running);
  oi_queue : forall v r, MSuccess v r ∈ s.(result_queue) -> P v;
  oi_successes : forall v r, (v, r) ∈ s.(successes) -> P v;
}.

Lemma origin_inv_init f : Q f -> origin_inv (init_pool f).
Proof. intros Hf. split; simpl; [done|constructor..| |]; intros ??; inversion 1. Qed.

Lemma origin_inv_step s s' : step s s' -> origin_inv s -> origin_inv s'.
Proof.
  intros Hstep [Hf Hp Hb Hr Hq Hs]. step_cases Hstep;
    try match goal with H : value_factory _ _ = _ |- _ => apply factory_origin in H as [? Hbatch]; [|done] end;
    split; simpl in *;
    repeat match goal with
    | H : producer _ = _ |- _ => rewrite H in *; clear H
    | H : backlog _ = _ |- _ => rewrite H in *; clear H
    | H : result_queue _ = _ |- _ => rewrite H in *; clear H
    end; simpl in *; try done; auto.
  all: repeat match goal with H : Forall P (_ :: _) |- _ => apply Forall_cons in H as [? ?] end.
  all: try (by apply Forall_delete).
  all: try (apply Forall_app; split; [done|by repeat constructor]).
  all: try (by repeat constructor).
  all: intros v1 r1.
  all: try (intros [Hin|Heq%list_elem_of_singleton]%elem_of_app; [by eauto|]; try discriminate Heq).
  all: try (intros [[= -> ->]|Hin]%dict_set_elem_of; [eapply Hq; by left | by eauto]).
  all: try (intros Hin; eapply Hq; by right).
  apply outcome_success in Heq as [-> ->]. rewrite Forall_forall in Hr. apply Hr. by eapply list_elem_of_lookup_2.
Qed.

Lemma success_origin f s v r : Q f -> reachable f s -> (v, r) ∈ s.(successes) -> P v.
Proof.
  intros Hf Hr. enough (origin_inv s) as Hs by apply (oi_successes s Hs).
  unfold reachable in Hr. revert Hr. generalize (origin_inv_init f Hf). generalize (init_pool f).
  intros s0 H0 Hr. induction Hr as [|s1 s2 s3 H12 _ IH]; [done|]. apply IH. by eapply origin_inv_step.
Qed.

End Origin.

(** While the producer runs, the stop message is not sent and nothing
    that waits for it has happened. *)
Lemma producer_alive s :
  control_inv s -> s.(producer) <> P_done ->
  MProducerStopped ∉ s.(result_queue) /\ s.(processor) <> R_loop true /\
  stopping s.(processor) = false /\ s.(target_value) <> Some (FValue PRODUCER_STOPPED).
Proof.
  intros [_ Hm _ _ Ht _ Hst _ _ Htg] Hp. split_and!.
  - intros Hin. by apply Hp, Hm.
  - intros Heq. by apply Hp, (Ht Heq).
  - destruct (stopping _) eqn:E; [|done]. by destruct (Hst eq_refl).
  - intros Heq. rewrite Heq in Htg. by destruct Htg as [_ [? _]].
Qed.

(** What a step of another thread leaves alone of the processor's state. *)
Definition same_verdict (s s' : pool) : Prop :=
  s'.(successes) = s.(successes) /\ s'.(finished_tasks) = s.(finished_tasks) /\
  s'.(processor) = s.(processor) /\ s'.(threadpool_joined) = s.(threadpool_joined).

Lemma produce_values_frame s s' :
  produce_values_step s = Some s' ->
  same_verdict s s' /\ s'.(target_value) = s.(target_value) /\ s.(producer) <> P_done /\
  (s.(threadpool_joined) = false ->
     s'.(started_tasks) + outstanding s = s.(started_tasks) + outstanding s') /\
  (s'.(result_queue) = s.(result_queue) /\ s'.(producer) <> P_done \/
   s'.(result_queue) = s.(result_queue) ++ [MProducerStopped] /\ s'.(producer) = P_done).
Proof.
  unfold produce_values_step, outstanding, same_verdict, call_in_thread, team_do, cancel, put_result.
  intros Hstep.
  repeat (case_match; simplify_eq/=; try done).
  all: split_and!; try done; try lia; try (by left); try (by right).
  - rewrite length_app; simpl; lia.
  - intros _. rewrite queued_tasks_app. simpl. lia.
Qed.

Lemma worker_frame s s' i o :
  worker_start s = Some s' \/ worker_finish i o s = Some s' ->
  same_verdict s s' /\ s'.(target_value) = s.(target_value) /\
  s'.(producer) = s.(producer) /\ s'.(started_tasks) = s.(started_tasks) /\
  outstanding s' = outstanding s /\
  (MProducerStopped ∈ s'.(result_queue) <-> MProducerStopped ∈ s.(result_queue)).
Proof.
  unfold worker_start, worker_finish, outstanding, same_verdict, put_result.
  intros [Hstep|Hstep].
  - repeat (case_match; simplify_eq/=; try done).
    + split_and!; try done; [rewrite queued_tasks_app; simpl; lia|].
      rewrite elem_of_app, list_elem_of_singleton. naive_solver.
    + split_and!; try done. rewrite length_app; simpl; lia.
  - destruct (running s !! i) as [v|] eqn:Hi; [|done]. injection Hstep as <-. simpl.
    assert (is_task (outcome_message v o) = true) as Ht by apply is_task_outcome.
    apply lookup_lt_Some in Hi as Hlt.
    split_and!; try done.
    + rewrite queued_tasks_app, Ht, length_delete by (eexists; done). lia.
    + rewrite elem_of_app, list_elem_of_singleton.
      split; [|by left]. intros [?|Heq]; [done|]. by rewrite <-Heq in Ht.
Qed.

Lemma control_inv_producer s s' :
  produce_values_step s = Some s' -> control_inv s -> control_inv s'.
Proof.
  intros ((Es & Ef & Ep & Ej) & Et & Halive & Hacc & Hq)%produce_values_frame Hinv.
  destruct (producer_alive s Hinv Halive) as (Hnm & Hnt & Hns & Hnp).
  destruct Hinv as [Hj Hm Ha Hf Ht Hb Hst Hat Hp Htg].
  split; unfold drained, below_target in *;
    rewrite ?Es, ?Ef, ?Ep, ?Ej, ?Et in *; try done.
  - intros Hin. destruct Hq as [[Eq ?]|[Eq ?]]; [by rewrite Eq in Hin|done].
  - intros ps Hps. specialize (Ha ps Hps).
    destruct (threadpool_joined s); [|specialize (Hacc eq_refl); lia].
    rewrite Hps in Hj. by specialize (Hj eq_refl).
  - intros _ Hd. destruct Hq as [[_ ?]|[-> _]]; [done|].
    apply elem_of_app. right. by apply list_elem_of_singleton.
  - rewrite Hns. done.
  - destruct (target_value s) as [[[]|]|]; done.
Qed.

Lemma control_inv_worker s s' i o :
  worker_start s = Some s' \/ worker_finish i o s = Some s' -> control_inv s -> control_inv s'.
Proof.
  intros ((Es & Ef & Ep & Ej) & Et & Epr & Est & Hout & Hq)%worker_frame.
  intros [Hj Hm Ha Hf Ht Hb Hst Hat Hp Htg].
  split; unfold drained, below_target in *;
    rewrite ?Es, ?Ef, ?Ep, ?Ej, ?Et, ?Epr, ?Est, ?Hout, ?Hq in *; try done.
Qed.

Lemma control_inv_timeout s s' :
  bail_on_timeout_step s = Some s' -> control_inv s -> control_inv s'.
Proof.
  unfold bail_on_timeout_step, cancel.
  intros Hstep [Hj Hm Ha Hf Ht Hb Hst Hat Hp Htg].
  destruct (timeout_thread s); simplify_eq/=; split; try done; simpl.
  - by rewrite set_is_set.
  - by destruct (target_value s) as [[[]|]|].
Qed.

Definition undecided (s : pool) : Prop :=
  s.(target_value) = None \/ s.(target_value) = Some (FValue TIMEOUT_TRIGGERED).

(** The end of an iteration re-establishes the invariant. *)
Lemma control_inv_check s ps :
  s.(threadpool_joined) = false ->
  (MProducerStopped ∈ s.(result_queue) -> s.(producer) = P_done) ->
  s.(started_tasks) = s.(finished_tasks) + outstanding s ->
  (ps = true -> s.(producer) = P_done) ->
  (ps = false -> s.(producer) = P_done -> MProducerStopped ∈ s.(result_queue)) ->
  below_target s -> undecided s ->
  control_inv (process_check ps s).
Proof.
  intros Hj Hm Ha Ht Hf Hb Hu. unfold process_check, drained in *.
  destruct ps; simpl; [case_bool_decide|]; split; simpl; try rewrite Hj; try done;
    try (destruct Hu as [-> | ->]; done); unfold drained; auto.
Qed.

Lemma control_inv_loop s s' ps :
  s.(processor) = R_loop ps ->
  process_results_step s = Some s' -> control_inv s -> control_inv s'.
Proof.
  unfold process_results_step. intros Hps Hstep [Hj Hm Ha Hf Ht Hb Hst Hat Hp Htg].
  rewrite Hps in *. simpl in *.
  assert (s.(threadpool_joined) = false) as Hj'
    by (destruct (threadpool_joined s); [by specialize (Hj eq_refl)|done]).
  assert (undecided s) as Hu.
  { unfold undecided. destruct (target_value s) as [[[]|]|]; naive_solver. }
  specialize (Ha ps eq_refl). specialize (Hb ps eq_refl).
  destruct (result_queue s) as [|m q] eqn:Hq; [done|].
  unfold outstanding in Ha. rewrite Hq, queued_tasks_cons in Ha.
  assert (ps = true -> producer s = P_done) as Ht' by (intros ->; by apply Ht).
  assert (is_task m = true -> ps = false -> producer s = P_done -> MProducerStopped ∈ q) as Hf'.
  { intros Hm' -> Hd. specialize (Hf eq_refl Hd). apply elem_of_cons in Hf as [<-|]; done. }
  assert (MProducerStopped ∈ q -> producer s = P_done) as Hm' by (intros; apply Hm; by right).
  destruct m as [|v r|v e|]; simpl in Hstep; [|case_bool_decide as Hlen| |];
    injection Hstep as <-.
  2: { split; simpl; unfold below_target; try done; try rewrite Hj'; try done;
         destruct Hu as [-> | ->]; done. }
  all: apply control_inv_check; unfold outstanding; simpl in *; auto; try lia.
  - intros _. apply Hm. left.
  - unfold below_target. simpl. by apply length_set_below.
Qed.

Lemma control_inv_processor s s' :
  process_results_step s = Some s' -> control_inv s -> control_inv s'.
Proof.
  intros Hstep Hinv. destruct (processor s) as [ps| | | | | | |] eqn:Hps;
    [by eapply control_inv_loop|..];
    destruct Hinv as [Hj Hm Ha Hf Ht Hb Hst Hat Hp Htg];
    unfold process_results_step in Hstep; rewrite Hps in *; simpl in *;
    repeat case_decide; simplify_eq/=;
    split; unfold drained, below_target in *; simpl; rewrite ?set_is_set; try done.
  all: destruct (target_value s) as [[[]|]|]; simpl in *; try done; try (by destruct Htg); auto.
Qed.

Lemma control_inv_step s s' : step s s' -> control_inv s -> control_inv s'.
Proof.
  intros Hstep Hinv. inversion Hstep; subst.
  - by eapply control_inv_producer.
  - eapply (control_inv_worker _ _ 0 (Raise Cancelled)); [by left|done].
  - eapply control_inv_worker; [by right|done].
  - by eapply control_inv_processor.
  - by eapply control_inv_timeout.
  - by destruct Hinv; split.
Qed.

Lemma reachable_inv f s : reachable f s -> data_inv s /\ control_inv s.
Proof.
  intros Hr. pattern s. eapply rtc_ind_r; [| |exact Hr].
  - split; [apply data_inv_init | apply control_inv_init].
  - intros s1 s2 _ Hstep [? ?]. split; [by eapply data_inv_step | by eapply control_inv_step].
Qed.

(** Cancelling a pool does not change what [join] answers. *)
Lemma join_cancel s r s' : join s = Some (r, s') -> join (cancel s) = Some (r, cancel s').
Proof.
  unfold join. intros H. destruct (producer s) eqn:Hp; try done. destruct (processor s) eqn:Hr; try done.
  destruct (timeout_thread s) eqn:Ht; try done. simpl. rewrite Hp, Hr, Ht.
  unfold stop_threadpool in *. simpl. destruct (threadpool_stopped s); by simplify_eq/=.
Qed.

(** ** Schedules

    A schedule names the thread that moves at each step, so that a run
    can be evaluated. *)

Inductive action :=
  | AProducer | AWorkerStart | AWorkerFinish (i : nat) (o : result R)
  | AProcessor | ATimeout | ACancel.

Definition exec (a : action) (s : pool) : option pool :=
  match a with
  | AProducer => produce_values_step s
  | AWorkerStart => worker_start s
  | AWorkerFinish i o => worker_finish i o s
  | AProcessor => process_results_step s
  | ATimeout => bail_on_timeout_step s
  | ACancel => if s.(cancel_event) then None else Some (cancel s)
  end.

Fixpoint run (l : list action) (s : pool) : option pool :=
  match l with
  | [] => Some s
  | a :: l' => match exec a s with Some s' => run l' s' | None => None end
  end.

(** The outcomes a schedule gives to its tasks are outcomes of [worker]. *)
Definition allowed (a : action) (s : pool) : Prop :=
  match a with
  | AWorkerFinish i o => forall v, s.(running) !! i = Some v -> worker v o
  | _ => True
  end.

Fixpoint allowed_run (l : list action) (s : pool) : Prop :=
  match l with
  | [] => True
  | a :: l' =>
      allowed a s /\ match exec a s with Some s' => allowed_run l' s' | None => True end
  end.

Lemma exec_step a s s' : allowed a s -> exec a s = Some s' -> step s s'.
Proof.
  intros Hw. destruct a; simpl in *; intros He;
    [by constructor | by apply step_worker_start | | by apply step_processor
    | by apply step_timeout | ].
  - pose proof He as He'. unfold worker_finish in He'.
    destruct (running s !! i) as [v|] eqn:Hi; [|done].
    eapply step_worker_finish; [done| |done]. by apply Hw.
  - destruct (cancel_event s) eqn:Hc; simplify_eq. by apply step_cancel.
Qed.

Lemma allowed_run_rtc l s s' : allowed_run l s -> run l s = Some s' -> rtc step s s'.
Proof.
  revert s. induction l as [|a l IH]; simpl; intros s Hw Hr; [by simplify_eq|].
  destruct Hw as [Ha Hl]. destruct (exec a s) as [s1|] eqn:He; [|done].
  eapply rtc_l; [by eapply exec_step | by apply IH].
Qed.

(** The same with a test, to be evaluated. *)
Fixpoint allowed_runb (ok : V -> result R -> bool) (l : list action) (s : pool) : bool :=
  match l with
  | [] => true
  | a :: l' =>
      match a with
      | AWorkerFinish i o => match s.(running) !! i with Some v => ok v o | None => true end
      | _ => true
      end && match exec a s with Some s' => allowed_runb ok l' s' | None => true end
  end.

Lemma allowed_runb_ok ok l s :
  (forall v o, ok v o = true -> worker v o) -> allowed_runb ok l s = true -> allowed_run l s.
Proof.
  intros Hok. revert s. induction l as [|a l IH]; intros s; simpl; [done|].
  intros [Ha Hl]%andb_prop. split.
  - destruct a; simpl; try done. intros v Hv. rewrite Hv in Ha. auto.
  - destruct (exec a s); auto.
Qed.

Lemma allowed_any l s : (forall v o, worker v o) -> allowed_run l s.
Proof.
  intros Hw. revert s. induction l as [|a l IH]; intros s; simpl; [done|].
  split; [destruct a; simpl; auto|]. destruct (exec a s); auto.
Qed.

Lemma run_rtc l s s' : (forall v o, worker v o) -> run l s = Some s' -> rtc step s s'.
Proof. intros Hw. by apply allowed_run_rtc, allowed_any. Qed.

Lemma allowed_run_reachable l f s :
  allowed_run l (init_pool f) -> run l (init_pool f) = Some s -> reachable f s.
Proof. apply allowed_run_rtc. Qed.

(** The state a schedule ends in, the initial one when it gets stuck. *)
Definition run_state (l : list action) (f : F) : pool :=
  match run l (init_pool f) with Some s => s | None => init_pool f end.

Lemma run_state_reachable l f : (forall v o, worker v o) -> reachable f (run_state l f).
Proof.
  intros Hw. unfold run_state. destruct (run l (init_pool f)) eqn:Hr; [|constructor].
  by eapply run_rtc.
Qed.

(** ** Verdicts *)

Lemma step_target_frozen s s' x :
  step s s' -> s.(target_value) = Some x -> s'.(target_value) = Some x.
Proof.
  intros Hstep Hx. step_cases Hstep; simpl; rewrite ?Hx; done.
Qed.

Lemma block_ok s0 s d :
  block_until_target_successes s0 s = Some (Ok d) ->
  s.(target_value) = Some (FValue (Reached d)).
Proof.
  unfold block_until_target_successes.
  destruct (check_for_producer_error s0); [|done].
  destruct (target_value s) as [[[]|]|]; simpl; naive_solver.
Qed.

(** C1.  When [block_until_target_successes] returns a dictionary it has
    exactly [target_successes] entries under distinct values, and every
    entry is what the worker returned for its value; in any interleaving
    of the producer, the workers, the result processor, the timeout and
    cancellation. *)
Theorem block_until_target_successes_sound f s0 s d :
  reachable f s -> block_until_target_successes s0 s = Some (Ok d) ->
  Z.of_nat (length d) = cfg.(target_successes) /\ dict_wf d /\
  (forall v r, (v, r) ∈ d -> worker v (Ok r)).
Proof.
  intros [[Hwf Hs _] Hci]%reachable_inv Hb%block_ok.
  pose proof (ci_target _ Hci) as Htg. rewrite Hb in Htg.
  destruct Htg as (_ & -> & Hlen). auto.
Qed.

(** [OutOfValues] is raised only when it is true: the producer has
    stopped, every task that was started has been accounted for, and (for
    a positive target) fewer values than the target succeeded. *)
Theorem out_of_values_means_exhausted f s0 s :
  reachable f s -> s0.(producer_error) = None ->
  block_until_target_successes s0 s = Some (Raise OutOfValues) ->
  s.(producer) = P_done /\ s.(finished_tasks) = s.(started_tasks) /\
  ((0 < cfg.(target_successes))%Z ->
   (Z.of_nat (length (get_successes s)) < cfg.(target_successes))%Z).
Proof.
  intros [_ Hci]%reachable_inv Hpe Hb.
  unfold block_until_target_successes, check_for_producer_error in Hb. rewrite Hpe in Hb.
  pose proof (ci_target _ Hci) as Htg.
  destruct (target_value s) as [[[]|]|]; simpl in *; try done.
  by destruct Htg as [_ Hd].
Qed.

(** The verdict of a pool is written once: whatever thread moves
    next, a [_target_value] that has been set keeps its value, so every
    later call of [block_until_target_successes] sees the same one. *)
Theorem target_value_write_once s s' x :
  rtc step s s' -> s.(target_value) = Some x -> s'.(target_value) = Some x.
Proof.
  intros Hr Hx. induction Hr as [|s1 s2 s3 Hstep _ IH]; [done|].
  by eapply IH, step_target_frozen.
Qed.

(** ** Termination

    With a factory of finite supply every step decreases the weight: a
    value not drawn yet weighs 10, a task in the backlog 3, a running one
    2, a queued result 1, and each thread what it still has to do. *)

Section Termination.
Context `{!FiniteFactory F V}.

Definition producer_weight (p : producer_pc) : nat :=
  match p with
  | P_loop => 6
  | P_call _ => 5
  | P_dispatch batch => 8 + 5 * length batch
  | P_submit _ batch => 12 + 5 * length batch
  | P_sleep => 7
  | P_error _ => 4
  | P_cancel => 3
  | P_stop => 2
  | P_done => 0
  end.

Definition processor_weight (p : processor_pc) : nat :=
  match p with
  | R_loop _ => 10
  | R_set_reached | R_cancel_stopped => 5
  | R_cancel_reached | R_set_stopped => 4
  | R_stop_pool => 3
  | R_join_pool => 2
  | R_done => 0
  end.

Definition timeout_weight (p : timeout_pc) : nat :=
  match p with T_wait => 3 | T_set => 2 | T_cancel => 1 | T_done => 0 end.

(** The producer may still call the factory. *)
Definition drawing (p : producer_pc) : bool :=
  match p with P_error _ | P_cancel | P_stop | P_done => false | _ => true end.

Definition weight (s : pool) : nat :=
  (if drawing s.(producer) then 10 * supply s.(factory) else 0)
    + producer_weight s.(producer) + 3 * length s.(backlog)
    + 2 * length s.(running) + length s.(result_queue) + processor_weight s.(processor)
    + timeout_weight s.(timeout_thread) + (if s.(cancel_event) then 0 else 1).

Lemma producer_decreases s s' : produce_values_step s = Some s' -> weight s' < weight s.
Proof.
  unfold produce_values_step, weight, call_in_thread, team_do, cancel, put_result.
  intros Hstep. destruct (producer s) as [|n|batch|v batch| |e| | |] eqn:Hp.
  2: { destruct (value_factory _ _) as [[[[|v b]|]|e] f'] eqn:Hf; injection Hstep as <-;
         cbn [set_producer set_factory set_started_tasks factory producer backlog running
           result_queue processor timeout_thread cancel_event drawing producer_weight].
       - lia.
       - apply supply_decreases in Hf. cbn [length] in *. lia.
       - lia.
       - destruct (issubclass e Cancelled); cbn [producer_weight drawing]; lia. }
  all: simpl in *; simplify_eq/=; try lia.
  - destruct batch; simplify_eq/=; [lia|]. destruct (threadpool_joined s); simpl; lia.
  - destruct (threadpool_joined s); simpl; rewrite ?length_app; simpl; lia.
  - destruct (cancel_event s); simpl; lia.
  - rewrite length_app; simpl; lia.
Qed.

Lemma worker_decreases s s' i o :
  worker_start s = Some s' \/ worker_finish i o s = Some s' -> weight s' < weight s.
Proof.
  unfold worker_start, worker_finish, weight, put_result. intros [Hstep|Hstep].
  - repeat (case_match; simplify_eq/=; try done); rewrite length_app; simpl; lia.
  - destruct (running s !! i) as [v|] eqn:Hi; [|done]. injection Hstep as <-. simpl.
    apply lookup_lt_Some in Hi as Hlt.
    rewrite length_app, length_delete by (eexists; done). simpl. lia.
Qed.

Lemma process_check_weight ps s : processor_weight (process_check ps s).(processor) <= 10.
Proof. unfold process_check. case_match; simpl; lia. Qed.

Lemma processor_decreases s s' : process_results_step s = Some s' -> weight s' < weight s.
Proof.
  unfold process_results_step, weight, process_check, cancel. intros Hstep.
  destruct (processor s) eqn:Hp; simpl in *; simplify_eq/=; try (repeat case_match; lia).
  - destruct (result_queue s) as [|m q]; [done|].
    repeat (case_match; simplify_eq/=); lia.
  - case_decide; simplify_eq/=. lia.
Qed.

Lemma step_decreases s s' : step s s' -> weight s' < weight s.
Proof.
  inversion 1; subst.
  - by apply producer_decreases.
  - apply (worker_decreases _ _ 0 (Raise Cancelled)). by left.
  - eapply worker_decreases. by right.
  - by apply processor_decreases.
  - unfold bail_on_timeout_step, weight, cancel in *.
    destruct (timeout_thread s); simplify_eq/=; repeat case_match; simpl; lia.
  - unfold weight, cancel. simpl. match goal with H : cancel_event _ = _ |- _ => rewrite H end. lia.
Qed.

(** ** Progress *)

Hypothesis worker_total : forall v, exists o, worker v o.
Hypothesis threads_positive : 0 < cfg.(max_threads).

(** A pool in which no thread can move. *)
Definition quiescent (s : pool) : Prop := forall s', ~ step s s'.

Lemma quiescent_threads s :
  quiescent s ->
  s.(producer) = P_done /\ s.(timeout_thread) = T_done /\
  s.(running) = [] /\ s.(backlog) = [] /\ process_results_step s = None.
Proof.
  intros Hq.
  assert (s.(running) = []) as Hrun.
  { destruct (running s) as [|v l] eqn:Hr; [done|]. destruct (worker_total v) as [o Ho].
    exfalso. eapply Hq, (step_worker_finish _ _ 0 v o); [by rewrite Hr | done |].
    unfold worker_finish. by rewrite Hr. }
  split_and!; try done.
  - destruct (produce_values_step s) as [s'|] eqn:Hp; [by exfalso; eapply Hq, step_producer|].
    unfold produce_values_step in Hp. by repeat case_match.
  - destruct (bail_on_timeout_step s) as [s'|] eqn:Hp; [by exfalso; eapply Hq, step_timeout|].
    unfold bail_on_timeout_step in Hp. by repeat case_match.
  - destruct (worker_start s) as [s'|] eqn:Hp; [by exfalso; eapply Hq, step_worker_start|].
    unfold worker_start in Hp. rewrite Hrun in Hp. simpl in Hp.
    destruct (backlog s); [done|]. by rewrite decide_True in Hp.
  - destruct (process_results_step s) eqn:Hp; [|done]. by exfalso; eapply Hq, step_processor.
Qed.

Lemma quiescent_done f s : reachable f s -> quiescent s -> s.(processor) = R_done.
Proof.
  intros [_ Hci]%reachable_inv (Hp & Ht & Hr & Hb & Hn)%quiescent_threads.
  unfold process_results_step in Hn.
  destruct (processor s) as [ps| | | | | | |] eqn:Hps; try done.
  - destruct (result_queue s) as [|m q] eqn:Hq; [|by repeat case_match].
    exfalso. pose proof (ci_account _ Hci ps Hps) as Ha.
    unfold outstanding in Ha. rewrite Hp, Hb, Hr, Hq in Ha. simpl in Ha.
    destruct ps.
    + apply (proj2 (ci_loop_true _ Hci Hps)). unfold queued_tasks in Ha. simpl in Ha. lia.
    + pose proof (ci_loop_false _ Hci Hps Hp) as Hin. rewrite Hq in Hin. inversion Hin.
  - rewrite decide_True in Hn by done. done.
Qed.

Lemma step_or_quiescent s : (exists s', step s s') \/ quiescent s.
Proof.
  destruct (produce_values_step s) eqn:Hp; [left; eexists; by apply step_producer|].
  destruct (worker_start s) eqn:Hw; [left; eexists; by apply step_worker_start|].
  destruct (process_results_step s) eqn:Hr; [left; eexists; by apply step_processor|].
  destruct (bail_on_timeout_step s) eqn:Ht; [left; eexists; by apply step_timeout|].
  destruct (running s) as [|v l] eqn:Hrun.
  - destruct (cancel_event s) eqn:Hc; [|left; eexists; by apply step_cancel].
    right. intros s' Hs. inversion Hs; subst; try congruence.
    by rewrite Hrun in *.
  - left. destruct (worker_total v) as [o Ho].
    eexists. eapply (step_worker_finish _ _ 0 v o); [by rewrite Hrun | done |].
    unfold worker_finish. by rewrite Hrun.
Qed.

Lemma run_to_quiescence s : exists s', rtc step s s' /\ quiescent s'.
Proof.
  remember (weight s) as n eqn:Hn. revert s Hn.
  induction n as [n IH] using lt_wf_ind. intros s ->.
  destruct (step_or_quiescent s) as [[s1 Hs]|Hq]; [|by exists s].
  destruct (IH (weight s1) (step_decreases _ _ Hs) s1 eq_refl) as (s' & Hr & Hq).
  exists s'. split; [by eapply rtc_l|done].
Qed.

Lemma nsteps_weight n s s' : nsteps step n s s' -> n + weight s' <= weight s.
Proof.
  induction 1 as [|n s1 s2 s3 Hs _ IH]; [lia|]. apply step_decreases in Hs. lia.
Qed.

(** When no thread can move, the caller is not blocked. *)
Lemma quiescent_returns f s0 s :
  reachable f s -> quiescent s ->
  is_Some (block_until_target_successes s0 s) /\ is_Some (join s).
Proof.
  intros Hr Hq. pose proof (quiescent_done f s Hr Hq) as Hd.
  apply reachable_inv in Hr as [_ Hci].
  apply quiescent_threads in Hq as (Hp & Ht & _).
  unfold block_until_target_successes, join. rewrite Hd, Hp, Ht.
  split; [|by eexists].
  pose proof (ci_past _ Hci) as Hs. rewrite Hd in Hs. specialize (Hs eq_refl).
  destruct (check_for_producer_error s0); [|by eexists].
  destruct (target_value s) as [[[]|]|]; simpl in *; try done; by eexists.
Qed.

(** C8.  A pool whose factory has a finite supply and whose worker always
    returns terminates and never deadlocks.  From every reachable state no
    run takes more than [weight s] steps, some run reaches a state in
    which no thread can move, and in every such state
    [block_until_target_successes] and [join] return instead of blocking. *)
Theorem worker_pool_completes f s :
  reachable f s ->
  (forall n s', nsteps step n s s' -> n <= weight s) /\
  (exists s', rtc step s s' /\ quiescent s') /\
  (forall s0 s', rtc step s s' -> quiescent s' ->
     is_Some (block_until_target_successes s0 s') /\ is_Some (join s')).
Proof.
  intros Hr. split_and!; [|apply run_to_quiescence|].
  - intros n s' Hn%nsteps_weight. lia.
  - intros s0 s' Hr' Hq. apply (quiescent_returns f); [|done]. unfold reachable in *; by etrans.
Qed.

End Termination.
End Pool.

(** ** Evaluated runs

    A factory that hands out the batches of a list, one per call. *)

Section Example.

Definition batch_factory (n : Z) (f : list (list nat)) : result (option (list nat)) * list (list nat) :=
  match f with
  | [] => (Ok None, [])
  | b :: f' => (Ok (Some b), f')
  end.

#[local] Instance batch_value_factory : ValueFactory (list (list nat)) nat := batch_factory.

#[local] Instance batch_finite_factory : FiniteFactory (list (list nat)) nat.
Proof.
  refine {| supply := fun f => sum_list (length <$> f) |}.
  intros n [|b f] b' f' H; vm_compute in H; simplify_eq. csimpl. lia.
Defined.

Definition example_config : config := {| target_successes := 1; max_threads := 2 |}.
Definition any_worker (v : nat) (o : result nat) : Prop := True.

(** Two batches of one value: the task of the first succeeds while the
    producer is between the two checks of [callInThread] for the second. *)
Definition race_schedule : list (action (R := nat)) :=
  [AProducer; AProducer; AProducer; AProducer; AProducer;  (* batch [1], sleep *)
   AWorkerStart;
   AProducer; AProducer; AProducer; AProducer;             (* batch [2], joined is false *)
   AWorkerFinish 0 (Ok 10);
   AProcessor; AProcessor; AProcessor; AProcessor;         (* reached, cancelled, stop *)
   AProducer; AProducer; AProducer; AProducer;             (* AlreadyQuit, cancel, stop *)
   AProcessor; ATimeout; ATimeout].

Definition race_pool : pool (V := nat) (R := nat) (F := list (list nat)) :=
  run_state example_config race_schedule [[1]; [2]].

(** [_process_results] stops the thread pool without waiting for the
    producer, so [callInThread] and [stop] can run at the same time,
    which the comment in [_produce_values] rules out: there is a run in
    which the target is reached and [block_until_target_successes]
    returns it, yet [join] raises [AlreadyQuit]. *)
Theorem stop_races_with_producer :
  exists s, reachable example_config any_worker [[1]; [2]] s /\
    block_until_target_successes (init_pool [[1]; [2]]) s = Some (Ok [(1, 10)]) /\
    exists s', join s = Some (Raise AlreadyQuit, s').
Proof.
  exists race_pool. split; [by apply run_state_reachable|].
  vm_compute. split; [reflexivity | by eexists].
Qed.

(** A run to completion without a race: [block] and [join] return. *)
Definition success_schedule : list (action (R := nat)) :=
  [AProducer; AProducer; AProducer; AProducer; AProducer; AWorkerStart;
   AWorkerFinish 0 (Ok 10); AProcessor; AProcessor; AProcessor; AProducer; AProducer;
   AProcessor; AProcessor; ATimeout; ATimeout].

Definition success_pool := run_state example_config success_schedule [[1]; [2]].

(** The pool after the same task failed: no value is left. *)
Definition failure_schedule : list (action (R := nat)) :=
  [AProducer; AProducer; AProducer; AProducer; AProducer; AWorkerStart;
   AWorkerFinish 0 (Raise ValueError); AProducer; AProducer; AProducer; AProducer;
   AProcessor; AProcessor; AProcessor; AProcessor].

Definition failure_pool := run_state example_config failure_schedule [[1]].

Lemma block_until_target_successes_sound_witness :
  block_until_target_successes success_pool success_pool = Some (Ok [(1, 10)]) /\
  Z.of_nat (length [(1, 10)]) = 1%Z.
Proof.
  split; [vm_compute; reflexivity|].
  apply (block_until_target_successes_sound example_config any_worker [[1]; [2]] success_pool success_pool);
    [by apply run_state_reachable | vm_compute; reflexivity].
Defined.

Lemma out_of_values_means_exhausted_witness :
  block_until_target_successes failure_pool failure_pool = Some (Raise OutOfValues) /\
  failure_pool.(finished_tasks) = failure_pool.(started_tasks).
Proof.
  split; [vm_compute; reflexivity|].
  apply (out_of_values_means_exhausted example_config any_worker [[1]] failure_pool failure_pool);
    [by apply run_state_reachable | vm_compute; reflexivity | vm_compute; reflexivity].
Defined.

Lemma target_value_write_once_witness :
  target_value (cancel failure_pool) = Some (FValue PRODUCER_STOPPED).
Proof.
  apply (target_value_write_once example_config any_worker failure_pool (cancel failure_pool));
    [|vm_compute; reflexivity].
  apply (run_rtc example_config any_worker []); [done|]. vm_compute. reflexivity.
Defined.

Lemma worker_pool_completes_witness :
  weight success_pool = 1 /\
  exists s', rtc (step example_config any_worker) (init_pool [[1]; [2]]) s' /\
    quiescent example_config any_worker s'.
Proof.
  split; [vm_compute; reflexivity|].
  apply (worker_pool_completes example_config any_worker) with (f := [[1]; [2]]);
    [intros v; by exists (Ok 0) | apply Nat.lt_0_succ | constructor].
Defined.

End Example.

End WorkerPool.
