(* ===== verification/Sampler.v ===== *)
(** * nulink/blockchain/eth/agents.py: [WeightedSampler], [StakingProvidersReservoir]

    Weighted sampling without replacement over cumulative totals, with
    Python's [accumulate], [bisect_right] and [randint]. *)

From S2P Require Import Prelude.

(** [random.Random.randint]: both ends included.  The generator is the
    operating system's; only its range is known. *)
Class Rng (G : Type) := {
  randint : Z -> Z -> G -> Z * G;
  randint_range : forall a b g, (a <= b)%Z -> (a <= fst (randint a b g) <= b)%Z;
}.

(** [rng.randint(a, b)], a [ValueError] on an empty range. *)
Definition randint_checked {G} `{!Rng G} (a b : Z) (g : G) : result Z * G :=
  if (b <? a)%Z then (Raise ValueError, g)
  else let '(z, g') := randint a b g in (Ok z, g').

(** [list(itertools.accumulate(weights))], from a running total. *)
Fixpoint accumulate_from (acc : Z) (weights : list Z) : list Z :=
  match weights with
  | [] => []
  | w :: weights' => (acc + w)%Z :: accumulate_from (acc + w)%Z weights'
  end.

Definition accumulate (weights : list Z) : list Z := accumulate_from 0 weights.

(** [bisect.bisect_right(a, x, lo, hi)]; the fuel is the length of the
    interval, which every iteration shortens. *)
Fixpoint bisect_loop (fuel : nat) (a : list Z) (x : Z) (lo hi : nat) : nat :=
  match fuel with
  | 0 => lo
  | S fuel' =>
      if decide (lo < hi) then
        let mid := (lo + hi) / 2 in
        match a !! mid with
        | Some y => if (x <? y)%Z then bisect_loop fuel' a x lo mid
                    else bisect_loop fuel' a x (S mid) hi
        | None => lo
        end
      else lo
  end.

Definition bisect_right (a : list Z) (x : Z) : nat := bisect_loop (length a) a x 0 (length a).

(** [for j in range(idx, len(totals)): totals[j] -= weight]. *)
Fixpoint subtract_from (idx : nat) (weight : Z) (totals : list Z) : list Z :=
  match totals, idx with
  | [], _ => []
  | t :: ts, 0 => (t - weight)%Z :: subtract_from 0 weight ts
  | t :: ts, S idx' => t :: subtract_from idx' weight ts
  end.

(** ** Lemmas on the totals *)

Definition zsum (l : list Z) : Z := foldr Z.add 0%Z l.

Lemma zsum_app l k : zsum (l ++ k) = (zsum l + zsum k)%Z.
Proof. induction l; simpl; lia. Qed.

Lemma zsum_nonneg l : Forall (fun w => 0 <= w)%Z l -> (0 <= zsum l)%Z.
Proof. induction 1; simpl; lia. Qed.

Lemma length_accumulate_from acc ws : length (accumulate_from acc ws) = length ws.
Proof. revert acc. induction ws; simpl; auto. Qed.

Lemma accumulate_from_lookup acc ws i :
  i < length ws -> accumulate_from acc ws !! i = Some (acc + zsum (take (S i) ws))%Z.
Proof.
  revert acc i. induction ws as [|w ws IH]; intros acc i Hi; simpl in *; [lia|].
  destruct i as [|i]; simpl; [f_equal; lia|].
  rewrite IH by lia. f_equal. simpl. lia.
Qed.

Lemma accumulate_last ws : ws <> [] -> last (accumulate ws) = Some (zsum ws).
Proof.
  intros Hne. rewrite last_lookup. unfold accumulate.
  rewrite length_accumulate_from, accumulate_from_lookup.
  - rewrite Nat.succ_pred_pos, take_ge by (destruct ws; simpl; [done|lia]). f_equal.
  - destruct ws; simpl; [done|lia].
Qed.

Lemma zsum_take_mono ws i j :
  Forall (fun w => 0 <= w)%Z ws -> i <= j -> (zsum (take i ws) <= zsum (take j ws))%Z.
Proof.
  intros Hw Hij. rewrite <-(take_drop i (take j ws)), zsum_app, take_take, Nat.min_l by done.
  assert (0 <= zsum (drop i (take j ws)))%Z; [|lia].
  apply zsum_nonneg. by apply Forall_drop, Forall_take.
Qed.

Lemma zsum_take_S ws i w :
  ws !! i = Some w -> zsum (take (S i) ws) = (zsum (take i ws) + w)%Z.
Proof.
  intros Hw. rewrite (take_S_r ws i w Hw), zsum_app. simpl. lia.
Qed.

Lemma bisect_loop_spec fuel a x lo hi :
  lo <= hi -> hi <= length a -> hi - lo <= fuel ->
  (forall i j y z, i <= j -> a !! i = Some y -> a !! j = Some z -> (y <= z)%Z) ->
  (forall j y, j < lo -> a !! j = Some y -> (y <= x)%Z) ->
  (forall j y, hi <= j -> a !! j = Some y -> (x < y)%Z) ->
  let r := bisect_loop fuel a x lo hi in
  r <= length a /\ (forall j y, j < r -> a !! j = Some y -> (y <= x)%Z) /\
  (forall j y, r <= j -> a !! j = Some y -> (x < y)%Z).
Proof.
  revert lo hi. induction fuel as [|fuel IH]; intros lo hi Hle Hhi Hf Hsort Hlo Hup;
    cbn [bisect_loop]; cbv zeta.
  - assert (lo = hi) as -> by lia. auto.
  - case_decide as Hlt; [|assert (lo = hi) as -> by lia; auto].
    assert (lo <= (lo + hi) / 2 < hi) as Hmid.
    { split; [apply Nat.div_le_lower_bound | apply Nat.Div0.div_lt_upper_bound]; lia. }
    destruct (lookup_lt_is_Some_2 a ((lo + hi) / 2)) as [y Hy]; [lia|].
    rewrite Hy. destruct (Z.ltb_spec x y); apply IH; auto; try lia.
    + intros j z Hj Hz. pose proof (Hsort _ _ _ _ Hj Hy Hz). lia.
    + intros j z Hj Hz. assert (j <= (lo + hi) / 2) as Hj' by lia.
      pose proof (Hsort _ _ _ _ Hj' Hz Hy). lia.
Qed.

(** [bisect_right] of the totals finds the element whose slice of the
    range holds the position, and its weight is positive. *)
Lemma bisect_accumulate ws position :
  Forall (fun w => 0 <= w)%Z ws -> (0 <= position < zsum ws)%Z ->
  let idx := bisect_right (accumulate ws) position in
  exists w, ws !! idx = Some w /\ (0 < w)%Z.
Proof.
  intros Hw Hp idx.
  assert (forall i y, accumulate ws !! i = Some y -> y = zsum (take (S i) ws)) as Hget.
  { intros i y Hy. unfold accumulate in Hy. rewrite accumulate_from_lookup in Hy.
    - by simplify_eq.
    - apply lookup_lt_Some in Hy. by rewrite length_accumulate_from in Hy. }
  destruct (bisect_loop_spec (length (accumulate ws)) (accumulate ws) position 0
              (length (accumulate ws))) as (Hr & Hlow & Hhigh); try lia.
  { intros i j y z Hij ->%Hget ->%Hget. apply zsum_take_mono; [done|lia]. }
  { intros j y Hj Hy%lookup_lt_Some. lia. }
  change (bisect_loop _ _ _ _ _) with idx in Hr, Hlow, Hhigh. clearbody idx.
  assert (length (accumulate ws) = length ws) as Hlen by apply length_accumulate_from.
  assert (idx < length ws) as Hlt.
  { destruct (decide (idx < length ws)) as [|Hge]; [done|exfalso].
    assert (0 < length ws) by (destruct ws; simpl in *; lia).
    destruct (lookup_lt_is_Some_2 (accumulate ws) (pred (length ws))) as [y Hy]; [lia|].
    pose proof (Hlow (pred (length ws)) y ltac:(lia) Hy) as Hc. apply Hget in Hy as ->.
    rewrite Nat.succ_pred_pos in Hc by lia. rewrite take_ge in Hc by lia. lia. }
  destruct (lookup_lt_is_Some_2 ws idx Hlt) as [w Hwi]. exists w. split; [done|].
  destruct (lookup_lt_is_Some_2 (accumulate ws) idx) as [y Hy]; [lia|].
  pose proof (Hhigh _ _ (Nat.le_refl _) Hy) as Hgt. apply Hget in Hy as ->.
  rewrite (zsum_take_S _ _ _ Hwi) in Hgt.
  destruct idx as [|i]; [rewrite take_0 in Hgt; simpl in Hgt; lia|].
  destruct (lookup_lt_is_Some_2 (accumulate ws) i) as [z Hz]; [lia|].
  pose proof (Hlow _ _ (Nat.lt_succ_diag_r _) Hz) as Hc. apply Hget in Hz as ->. lia.
Qed.

Lemma subtract_from_0 acc w ws :
  subtract_from 0 w (accumulate_from acc ws) = accumulate_from (acc - w) ws.
Proof.
  revert acc. induction ws as [|v ws IH]; intros acc; simpl; [done|].
  rewrite IH. f_equal; [lia|]. f_equal. lia.
Qed.

(** Lowering the totals from [idx] on sets the weight of [idx] to 0. *)
Lemma subtract_from_accumulate acc ws idx w :
  ws !! idx = Some w ->
  subtract_from idx w (accumulate_from acc ws) = accumulate_from acc (<[idx:=0%Z]> ws).
Proof.
  revert acc idx. induction ws as [|v ws IH]; intros acc [|idx] Hw; simplify_eq/=.
  - rewrite subtract_from_0. f_equal; [lia|]. f_equal. lia.
  - by rewrite IH.
Qed.

Module WeightedSampler.
Section Sampler.
Context {A G : Type} `{!Rng G}.

Record sampler := Sampler {
  totals : list Z;
  elements : list A;
  len : Z;              (* __length *)
}.

(** [__init__]: [zip] of the items of a dict, empty lists for an empty one. *)
Definition init (weighted_elements : list (A * Z)) : sampler :=
  let totals := accumulate weighted_elements.*2 in
  Sampler totals weighted_elements.*1 (Z.of_nat (length totals)).

(** One iteration of the loop of [sample_no_replacement]. *)
Definition sample_one : PyM (sampler * G) A := fun '(s, g) =>
  match last s.(totals) with
  | None => (Raise IndexError, (s, g))
  | Some total =>
      match randint_checked 0 (total - 1) g with
      | (Raise e, g) => (Raise e, (s, g))
      | (Ok position, g) =>
          let idx := bisect_right s.(totals) position in
          match s.(elements) !! idx, s.(totals) !! idx with
          | Some element, Some t =>
              let prev_total := match idx with
                                | 0 => 0%Z
                                | S i => default 0%Z (s.(totals) !! i)
                                end in
              let weight := (t - prev_total)%Z in
              (Ok element,
               (Sampler (subtract_from idx weight s.(totals)) s.(elements) s.(len), g))
          | _, _ => (Raise IndexError, (s, g))
          end
      end
  end.

(** The loop: [quantity] iterations, stopped by an exception. *)
Fixpoint sample_loop (quantity : nat) (samples : list A) : PyM (sampler * G) (list A) :=
  match quantity with
  | 0 => py_ret samples
  | S q => x <- sample_one ;; sample_loop q (samples ++ [x])
  end.

Definition sample_no_replacement (quantity : Z) : PyM (sampler * G) (list A) := fun sg =>
  if (quantity =? 0)%Z then (Ok [], sg)
  else if (sg.1.(len) <? quantity)%Z then (Raise ValueError, sg)
  else (samples <- sample_loop (Z.to_nat quantity) [] ;;
        modify (fun '(s, g) => (Sampler s.(totals) s.(elements) (s.(len) - quantity), g)) ;;;
        py_ret samples) sg.

(** [StakingProvidersReservoir.draw] and [draw_at_most]. *)
Definition draw (quantity : Z) : PyM (sampler * G) (list A) := fun sg =>
  if (sg.1.(len) <? quantity)%Z then (Raise NotEnoughStakingProviders, sg)
  else sample_no_replacement quantity sg.

Definition draw_at_most (quantity : Z) : PyM (sampler * G) (list A) := fun sg =>
  draw (Z.min quantity sg.1.(len)) sg.

(** ** The weights behind the totals *)

(** The elements that can still be drawn: those of positive weight. *)
Fixpoint live (es : list A) (ws : list Z) : list A :=
  match es, ws with
  | e :: es', w :: ws' => if (0 <? w)%Z then e :: live es' ws' else live es' ws'
  | _, _ => []
  end.

Definition weights_ok (s : sampler) (ws : list Z) : Prop :=
  s.(totals) = accumulate ws /\ Forall (fun w => 0 <= w)%Z ws /\
  length s.(elements) = length ws.

(** The invariant between calls: [__length] counts what is left. *)
Definition sampler_ok (s : sampler) (ws : list Z) : Prop :=
  weights_ok s ws /\ s.(len) = Z.of_nat (length (live s.(elements) ws)).

Lemma live_insert (es : list A) ws idx e w :
  es !! idx = Some e -> ws !! idx = Some w -> (0 < w)%Z ->
  Permutation (live es ws) (e :: live es (<[idx:=0%Z]> ws)).
Proof.
  revert ws idx. induction es as [|e' es IH]; intros [|w' ws] [|idx] He Hw Hpos; simplify_eq/=.
  - destruct (Z.ltb_spec 0 w); [done|lia].
  - specialize (IH ws idx He Hw Hpos). destruct (0 <? w')%Z; [|done].
    rewrite IH. apply perm_swap.
Qed.

Lemma live_length (es : list A) ws :
  length es = length ws -> live es ws <> [] -> (forall w, w ∈ ws -> 0 <= w)%Z -> (0 < zsum ws)%Z.
Proof.
  revert ws. induction es as [|e es IH]; intros [|w ws] Hlen Hl Hw; simplify_eq/=.
  assert (0 <= zsum ws)%Z.
  { apply zsum_nonneg, Forall_forall. intros x Hx. apply Hw. by right. }
  assert (0 <= w)%Z by (apply Hw; left).
  destruct (Z.ltb_spec 0 w); [lia|].
  assert (0 < zsum ws)%Z; [|lia]. apply IH; auto. intros. apply Hw. by right.
Qed.

(** One draw takes an element of positive weight and sets its weight to 0. *)
Lemma sample_one_ok s g ws :
  weights_ok s ws -> live s.(elements) ws <> [] ->
  exists e g' s' ws',
    sample_one (s, g) = (Ok e, (s', g')) /\ weights_ok s' ws' /\
    s'.(elements) = s.(elements) /\ s'.(len) = s.(len) /\
    Permutation (live s.(elements) ws) (e :: live s.(elements) ws').
Proof.
  intros (Ht & Hw & Hlen) Hl. unfold sample_one. rewrite Ht.
  pose proof (live_length _ _ Hlen Hl (proj1 (Forall_forall _ _) Hw)) as Hsum.
  rewrite accumulate_last by (intros ->; simpl in Hsum; lia).
  unfold randint_checked. destruct (Z.ltb_spec (zsum ws - 1) 0); [lia|].
  pose proof (randint_range 0 (zsum ws - 1) g ltac:(lia)) as Hrange.
  destruct (randint 0 (zsum ws - 1) g) as [position g']; simpl in Hrange.
  destruct (bisect_accumulate ws position Hw ltac:(lia)) as (w & Hwi & Hpos).
  set (idx := bisect_right (accumulate ws) position) in *.
  pose proof (lookup_lt_Some _ _ _ Hwi) as Hlt.
  destruct (lookup_lt_is_Some_2 s.(elements) idx) as [e He]; [lia|]. rewrite He.
  unfold accumulate at 1. rewrite accumulate_from_lookup by done.
  eexists e, g', _, (<[idx:=0%Z]> ws). split_and!; [reflexivity| |done|done|apply (live_insert _ _ _ _ w); [done|done|lia]].
  unfold weights_ok; simpl. split_and!; [|apply Forall_insert; [done|lia]|by rewrite length_insert].
  unfold accumulate. rewrite <-(subtract_from_accumulate _ _ _ w Hwi). f_equal.
  rewrite (zsum_take_S _ _ _ Hwi). destruct idx as [|i]; [rewrite take_0; simpl; lia|].
  rewrite accumulate_from_lookup by lia. simpl. lia.
Qed.

Lemma sample_loop_ok q samples s g ws :
  weights_ok s ws -> q <= length (live s.(elements) ws) ->
  exists drawn g' s' ws',
    sample_loop q samples (s, g) = (Ok (samples ++ drawn), (s', g')) /\
    length drawn = q /\ weights_ok s' ws' /\
    s'.(elements) = s.(elements) /\ s'.(len) = s.(len) /\
    Permutation (live s.(elements) ws) (drawn ++ live s.(elements) ws').
Proof.
  revert samples s g ws. induction q as [|q IH]; intros samples s g ws Hok Hq.
  - exists [], g, s, ws. by rewrite app_nil_r.
  - destruct (sample_one_ok s g ws Hok) as (e & g1 & s1 & ws1 & Hone & Hok1 & He1 & Hl1 & Hp1).
    { destruct (live s.(elements) ws); simpl in *; [lia|done]. }
    apply Permutation_length in Hp1 as Hpl; simpl in Hpl.
    destruct (IH (samples ++ [e]) s1 g1 ws1 Hok1) as (dr & g2 & s2 & ws2 & Hlp & Hd & Hok2 & He2 & Hl2 & Hp2);
      [rewrite He1; lia|].
    exists (e :: dr), g2, s2, ws2. simpl. unfold py_bind. rewrite Hone, Hlp, <-app_assoc. simpl.
    split_and!; [done|lia|done|congruence|congruence|].
    rewrite Hp1, <-He1, Hp2. done.
Qed.

(** A sampler over a dict of positive weights starts with every element. *)
Lemma init_ok (d : list (A * Z)) :
  Forall (fun w => 0 < w)%Z d.*2 ->
  sampler_ok (init d) d.*2 /\ live (init d).(elements) d.*2 = d.*1.
Proof.
  intros Hw. assert (live d.*1 d.*2 = d.*1) as Hl.
  { induction d as [|[e w] d IH]; csimpl; [done|]. apply Forall_cons in Hw as [Hw1 Hw2].
    simpl in Hw1; destruct (Z.ltb_spec 0 w); [|lia]. by rewrite IH. }
  unfold sampler_ok, weights_ok. simpl. rewrite Hl.
  unfold accumulate. rewrite length_accumulate_from, !length_fmap. split_and!; try done.
  eapply Forall_impl; [exact Hw|]. simpl. intros; lia.
Qed.

(** [StakingProvidersReservoir.draw] partitions what is left. *)
Lemma draw_ok s g ws quantity :
  sampler_ok s ws -> (0 <= quantity <= s.(len))%Z ->
  exists drawn s' g' ws',
    draw quantity (s, g) = (Ok drawn, (s', g')) /\ sampler_ok s' ws' /\
    Z.of_nat (length drawn) = quantity /\ s'.(len) = (s.(len) - quantity)%Z /\
    Permutation (live s.(elements) ws) (drawn ++ live s'.(elements) ws').
Proof.
  intros [Hok Hl] Hq. unfold draw, sample_no_replacement. simpl.
  destruct (Z.ltb_spec s.(len) quantity); [lia|].
  destruct (Z.eqb_spec quantity 0) as [->|Hne].
  { exists [], s, g, ws. split_and!; try done; simpl; lia. }
  destruct (sample_loop_ok (Z.to_nat quantity) [] s g ws Hok) as
    (dr & g' & s' & ws' & Hlp & Hd & Hok' & He & Hl' & Hp); [lia|].
  unfold py_bind, modify, py_ret. rewrite Hlp. simpl.
  eexists dr, _, g', ws'. split_and!; [reflexivity| |lia|simpl; lia|by simpl; rewrite He].
  split; [by destruct Hok' as (? & ? & ?)|]. simpl.
  apply Permutation_length in Hp. rewrite length_app, Hd in Hp. rewrite He. lia.
Qed.

(** C10.  Weighted sampling without replacement is a partition: from any
    sampler whose [__length] counts its elements of positive weight,
    drawing up to that many never raises, returns exactly that many
    elements, and together with the elements still to be drawn they are a
    permutation of those there were, whatever the random positions. *)
Theorem draw_partitions_reservoir s g ws quantity :
  sampler_ok s ws -> (0 <= quantity <= s.(len))%Z ->
  exists drawn s' g' ws',
    draw quantity (s, g) = (Ok drawn, (s', g')) /\ sampler_ok s' ws' /\
    Z.of_nat (length drawn) = quantity /\ s'.(len) = (s.(len) - quantity)%Z /\
    Permutation (live s.(elements) ws) (drawn ++ live s'.(elements) ws').
Proof. apply draw_ok. Qed.

(** A draw of more than is left raises [NotEnoughStakingProviders]
    and changes nothing, and [draw_at_most] never asks for more. *)
Theorem draw_too_many s g quantity :
  (s.(len) < quantity)%Z ->
  draw quantity (s, g) = (Raise NotEnoughStakingProviders, (s, g)) /\
  draw_at_most quantity (s, g) = draw s.(len) (s, g).
Proof.
  intros Hq. unfold draw_at_most, draw. simpl. rewrite Z.min_r by lia.
  destruct (Z.ltb_spec s.(len) quantity); [done|lia].
Qed.

End Sampler.

(** ** An evaluated draw: a generator that answers from a list *)

Definition list_randint (a b : Z) (g : list Z) : Z * list Z :=
  match g with
  | x :: g' => (Z.max a (Z.min x b), g')
  | [] => (a, [])
  end.

#[global] Instance list_rng : Rng (list Z).
Proof.
  refine {| randint := list_randint |}.
  intros a b [|x g] Hab; simpl; lia.
Defined.

Definition three_providers : list (string * Z) := [("a", 5%Z); ("b", 1%Z); ("c", 4%Z)]%string.

(** The positions 5 (of 10) and 4 (of 9) pick b and a. *)
Example draw_two :
  (draw 2 (init three_providers, [5; 4]%Z)).1 = Ok ["b"; "a"]%string.
Proof. vm_compute. reflexivity. Qed.

Lemma draw_partitions_reservoir_witness :
  exists drawn s' g' ws',
    draw 2 (init three_providers, [5; 4]%Z) = (Ok drawn, (s', g')) /\ sampler_ok s' ws' /\
    Z.of_nat (length drawn) = 2%Z /\ s'.(len) = ((init three_providers).(len) - 2)%Z /\
    Permutation (live (init three_providers).(elements) three_providers.*2)
      (drawn ++ live s'.(elements) ws').
Proof.
  apply draw_partitions_reservoir; [|vm_compute; split; discriminate].
  apply init_ok. repeat constructor.
Defined.

Lemma draw_too_many_witness :
  draw 4 (init three_providers, []) =
    (Raise NotEnoughStakingProviders, (init three_providers, [])) /\
  draw_at_most 4 (init three_providers, []) = draw 3 (init three_providers, []).
Proof. apply draw_too_many. vm_compute. reflexivity. Defined.

End WeightedSampler.
