(* ===== verification/Agents.v ===== *)
(** * nulink/blockchain/eth/agents.py and decorators.py

    The contract agents: address validation of every [contract_api]
    method, the token, subscription and PRE-application agents, the paged
    read of the active staking providers, the reservoir built from it and
    the cache of agents.  The contracts and the node that answers are not
    part of the repository: they are the class [Chain]. *)

From stdpp Require Import pretty.
From S2P Require Import Prelude Sampler.

(** ** Address validation *)

Module Decorators.

(** What a parameter can hold, as far as the validator looks. *)
Inductive py_value :=
  | VStr (s : string)
  | VNone
  | VNoBlockchainConnection
  | VOther.

#[global] Instance py_value_eq_dec : EqDecision py_value.
Proof. solve_decision. Defined.

(** A parameter of the call: its name, whether its default is [None], its value. *)
Record parameter := Parameter_ {
  name : string;
  default_is_None : bool;
  value : py_value;
}.

(** [str.endswith]. *)
Fixpoint endswith (s suffix : string) : bool :=
  bool_decide (s = suffix) ||
  match s with
  | EmptyString => false
  | String _ s' => endswith s' suffix
  end.

Definition is_address_parameter (p : parameter) : bool :=
  endswith p.(name) "_address" || bool_decide (p.(name) ∈ ["account"; "address"]%string).

Section Validate.
(** [eth_utils.is_checksum_address]. *)
Variable is_checksum_address : string -> bool.

Definition value_is_valid (v : py_value) : bool :=
  match v with VStr s => is_checksum_address s | _ => false end.

(** [validate_checksum_address]: one parameter; the state is
    [__VERIFIED_ADDRESSES]. *)
Definition validate_parameter (p : parameter) : PyM (list py_value) unit := fun verified =>
  if negb (is_address_parameter p) then (Ok tt, verified)
  else if bool_decide (p.(value) ∈ verified) then (Ok tt, verified)
  else if p.(default_is_None) && bool_decide (p.(value) = VNone)
          || bool_decide (p.(value) = VNoBlockchainConnection) then (Ok tt, verified)
  else if value_is_valid p.(value) then (Ok tt, p.(value) :: verified)
  else match p.(value) with
       | VStr _ => (Raise InvalidChecksumAddress, verified)
       | _ => (Raise TypeError, verified)
       end.

(** The wrapper: validate each parameter in order, then call. *)
Definition validate_checksum_address {A} (params : list parameter)
    (func : PyM (list py_value) A) : PyM (list py_value) A :=
  for_each params validate_parameter ;;; func.

(** What the wrapper accepts, without the cache. *)
Definition acceptable (p : parameter) : bool :=
  negb (is_address_parameter p) ||
  p.(default_is_None) && bool_decide (p.(value) = VNone) ||
  bool_decide (p.(value) = VNoBlockchainConnection) ||
  value_is_valid p.(value).

Definition cache_ok (verified : list py_value) : Prop :=
  Forall (fun v => value_is_valid v = true) verified.

Lemma validate_parameter_ok p verified :
  cache_ok verified ->
  cache_ok (validate_parameter p verified).2 /\
  is_ok (validate_parameter p verified).1 = acceptable p.
Proof.
  intros Hc. unfold validate_parameter, acceptable.
  destruct (is_address_parameter p); simpl; [|done].
  case_bool_decide as Hin.
  { eapply Forall_forall in Hc as Hv; [|exact Hin]. simpl in Hv. split; [done|].
    rewrite Hv. by rewrite orb_true_r. }
  destruct (p.(default_is_None) && bool_decide (p.(value) = VNone)
            || bool_decide (p.(value) = VNoBlockchainConnection)); [done|].
  destruct (value_is_valid p.(value)) eqn:Hv; simpl; [split; [by constructor|done]|].
  by destruct p.(value).
Qed.

Lemma validate_parameters_ok params verified :
  cache_ok verified ->
  cache_ok (for_each params validate_parameter verified).2 /\
  is_ok (for_each params validate_parameter verified).1 = forallb acceptable params.
Proof.
  revert verified. induction params as [|p ps IH]; intros verified Hc; simpl; [done|].
  unfold py_bind. pose proof (validate_parameter_ok p verified Hc) as [Hc' Hp].
  destruct (validate_parameter p verified) as [[[]|e] v']; simpl in *; rewrite <-Hp; simpl; auto.
Qed.

(** The cache of verified addresses never changes an answer: from any
    cache that holds valid addresses only (the empty one at start), the
    decorated function runs exactly when every address parameter is a valid
    checksum address, an omitted optional one or the no-connection marker;
    otherwise the call raises before the function's body; and the cache
    stays sound. *)
Theorem validate_checksum_address_spec {A} params (func : PyM (list py_value) A) verified :
  cache_ok verified ->
  (forallb acceptable params = true ->
    exists verified', cache_ok verified' /\
      validate_checksum_address params func verified = func verified') /\
  (forallb acceptable params = false ->
    exists e verified', e ∈ [TypeError; InvalidChecksumAddress] /\ cache_ok verified' /\
      validate_checksum_address params func verified = (Raise e, verified')).
Proof.
  intros Hc. pose proof (validate_parameters_ok params verified Hc) as [Hc' Hp].
  unfold validate_checksum_address, py_bind.
  destruct (for_each params validate_parameter verified) as [[[]|e] v'] eqn:Hf; simpl in *;
    split; intros Hall; try congruence; [eauto|].
  exists e, v'. split_and!; [|done|done]. clear -Hf. revert verified Hf.
  induction params as [|p ps IH]; intros verified Hf; simpl in Hf; [done|].
  unfold py_bind in Hf.
  destruct (validate_parameter p verified) as [[[]|e'] v''] eqn:Hvp; [eauto|].
  simplify_eq. unfold validate_parameter in Hvp.
  destruct p as [? ? []]; repeat case_match; simplify_eq/=; set_solver.
Qed.

End Validate.

Lemma validate_checksum_address_spec_witness :
  (validate_checksum_address (fun s => bool_decide (s = "0xAb"%string))
     [Parameter_ "owner_address" true VNone; Parameter_ "account" false (VStr "0xAb")]
     (py_ret 7) []).1 = Ok 7.
Proof.
  destruct (validate_checksum_address_spec (fun s => bool_decide (s = "0xAb"%string))
     [Parameter_ "owner_address" true VNone; Parameter_ "account" false (VStr "0xAb")]
     (py_ret 7) []) as [H _]; [constructor|].
  destruct H as (v & _ & ->); [vm_compute; reflexivity|reflexivity].
Defined.

End Decorators.

(** ** The chain as the agents see it *)

(** The contract functions the agents build, with their arguments. *)
Inductive contract_function :=
  | increaseAllowance (spender : string) (increase : Z)
  | decreaseAllowance (spender : string) (decrease : Z)
  | approve (spender : string) (amount : Z)
  | transfer_ (target : string) (amount : Z)
  | approveAndCall (target : string) (amount : Z) (call_data : string)
  | createPolicy (policy_id owner : string) (size : Z) (start_timestamp end_timestamp : option Z)
  | confirmOperatorAddress
  | bondOperator (staking_provider operator : string).

(** The keyword arguments of [BlockchainInterface.send_transaction]; the
    payload has at most ['gas'] and ['value']. *)
Record transaction := Transaction {
  tx_function : contract_function;
  tx_gas : option Z;
  tx_value : option Z;
  tx_account : string;
  tx_fire_and_forget : bool;
}.

(** An answer of [getActiveStakingProviders], or an exception with its message. *)
Inductive page :=
  | PageOk (authorized_tokens : Z) (providers : list (Z * Z))
  | PageRaise (c : exn_class) (message : string).

(** A policy record of the contract: sponsor, start, end, size, owner. *)
Definition policy_record : Type := string * Z * Z * Z * string.

(** The node and the contracts: every call may also move the chain on. *)
Class Chain (W Receipt : Type) := {
  send_transaction : transaction -> PyM W Receipt;
  call_allowance : string -> string -> PyM W Z;
  call_policies : string -> PyM W policy_record;
  call_isPolicyActive : string -> PyM W bool;
  call_feeRate : PyM W Z;
  call_getStakingProvidersLength : PyM W Z;
  call_stakingProviders : Z -> PyM W string;
  call_getActiveStakingProviders : Z -> Z -> W -> page * W;
}.

Module NulinkTokenAgent.
Section Token.
Context {W Receipt : Type} `{!Chain W Receipt}.

Definition get_allowance (owner spender : string) : PyM W Z := call_allowance owner spender.

Definition increase_allowance (account spender_address : string) (increase : Z) : PyM W Receipt :=
  send_transaction (Transaction (increaseAllowance spender_address increase) None None account false).

Definition decrease_allowance (account spender_address : string) (decrease : Z) : PyM W Receipt :=
  send_transaction (Transaction (decreaseAllowance spender_address decrease) None None account false).

Definition _validate_zero_allowance (amount : Z) (target_address account : string) : PyM W unit :=
  if (amount =? 0)%Z then py_ret tt
  else current_allowance <- get_allowance account target_address ;;
       if negb (current_allowance =? 0)%Z then raise RequirementError else py_ret tt.

Definition approve_transfer (amount : Z) (spender_address account : string) : PyM W Receipt :=
  _validate_zero_allowance amount spender_address account ;;;
  send_transaction (Transaction (approve spender_address amount) (Some 500000%Z) None account false).

Definition transfer (amount : Z) (target_address account : string) : PyM W Receipt :=
  send_transaction (Transaction (transfer_ target_address amount) None None account false).

(** [if gas_limit]: a limit of 0 is no limit. *)
Definition approve_and_call (amount : Z) (target_address account call_data : string)
    (gas_limit : option Z) : PyM W Receipt :=
  _validate_zero_allowance amount target_address account ;;;
  let gas := match gas_limit with Some 0%Z | None => None | Some g => Some g end in
  send_transaction (Transaction (approveAndCall target_address amount call_data) gas None account false).

End Token.
End NulinkTokenAgent.

Module SubscriptionManagerAgent.
Section Subscription.
Context {W Receipt : Type} `{!Chain W Receipt}.
Variable NULL_ADDRESS : string.

(** The fields of the [NamedTuple]. *)
Record PolicyInfo := {
  sponsor : string;
  owner : string;
  start_timestamp : Z;
  end_timestamp : Z;
}.

Definition PolicyInfo_fields : list string :=
  ["sponsor"; "owner"; "start_timestamp"; "end_timestamp"]%string.

(** A keyword argument of a constructor call. *)
Inductive kwarg := KStr (name value : string) | KInt (name : string) (value : Z).
Definition kwarg_name (k : kwarg) : string :=
  match k with KStr n _ | KInt n _ => n end.
Definition kw_str (ks : list kwarg) (n : string) : option string :=
  foldr (fun k acc => match k with
                      | KStr n' v => if decide (n = n') then Some v else acc
                      | _ => acc end) None ks.
Definition kw_int (ks : list kwarg) (n : string) : option Z :=
  foldr (fun k acc => match k with
                      | KInt n' v => if decide (n = n') then Some v else acc
                      | _ => acc end) None ks.

(** A [NamedTuple] constructor: every field exactly once and no other name,
    else [TypeError]. *)
Definition PolicyInfo_new (ks : list kwarg) : result PolicyInfo :=
  if forallb (fun k => bool_decide (kwarg_name k ∈ PolicyInfo_fields)) ks then
    match kw_str ks "sponsor", kw_str ks "owner", kw_int ks "start_timestamp",
          kw_int ks "end_timestamp" with
    | Some s, Some o, Some b, Some e =>
        Ok {| sponsor := s; owner := o; start_timestamp := b; end_timestamp := e |}
    | _, _, _, _ => Raise TypeError
    end
  else Raise TypeError.

Definition fee_rate : PyM W Z := call_feeRate.
Definition is_policy_active (policy_id : string) : PyM W bool := call_isPolicyActive policy_id.

Definition fetch_policy (policy_id : string) : PyM W PolicyInfo :=
  record <- call_policies policy_id ;;
  let '(r0, r1, r2, r3, r4) := record in
  lift (PolicyInfo_new
    [KStr "sponsor" r0; KInt "start_timestamp" r1; KInt "end_timestamp" r2; KInt "size" r3;
     KStr "owner" (if decide (r4 = NULL_ADDRESS) then r0 else r4)]).

(** [owner_address or transacting_power.account]: an empty string is no owner.
    The timestamps are passed on as they are, [None] included. *)
Definition create_policy (policy_id account : string) (size : Z) (start_timestamp end_timestamp : option Z)
    (value : Z) (owner_address : option string) : PyM W Receipt :=
  let owner := match owner_address with
               | None | Some EmptyString => account
               | Some a => a
               end in
  send_transaction
    (Transaction (createPolicy policy_id owner size start_timestamp end_timestamp)
       None (Some value) account false).

(** [fetch_policy] cannot return: it passes a field [size] that
    [PolicyInfo] does not have, so whatever record the contract answers the
    call ends in [TypeError]. *)
Theorem fetch_policy_raises policy_id w :
  forall record w', call_policies policy_id w = (Ok record, w') ->
  fetch_policy policy_id w = (Raise TypeError, w').
Proof.
  intros [[[[r0 r1] r2] r3] r4] w' Hc. unfold fetch_policy, py_bind. rewrite Hc.
  unfold lift, PolicyInfo_new. cbn [forallb kwarg_name].
  rewrite (bool_decide_eq_false_2 ("size"%string ∈ PolicyInfo_fields)).
  - by rewrite !andb_false_r.
  - unfold PolicyInfo_fields. rewrite !not_elem_of_cons. repeat split; try discriminate.
    apply not_elem_of_nil.
Qed.

End Subscription.
End SubscriptionManagerAgent.

(** ** The PRE application agent *)

Module PREApplicationAgent.

(** [sub in s] for strings. *)
Definition str_contains (sub s : string) : bool :=
  match String.index 0 sub s with Some _ => true | None => false end.

Section Agent.
Context {W Receipt : Type} `{!Chain W Receipt}.
(** [eth_utils.to_checksum_address] of the 20 bytes of an address. *)
Variable to_checksum_address : Z -> string.
(** [blockchain.is_light] and the two default page sizes, read from the environment. *)
Variable is_light : bool.
Variables DEFAULT_PROVIDERS_PAGINATION_SIZE_LIGHT_NODE DEFAULT_PROVIDERS_PAGINATION_SIZE : Z.

Definition get_staking_providers_population : PyM W Z := call_getStakingProvidersLength.

(** The list comprehension of [get_staking_providers] and the loop of
    [swarm], which yields the same addresses. *)
Fixpoint providers_from (i : Z) (n : nat) : PyM W (list string) :=
  match n with
  | 0 => py_ret []
  | S n' => address <- call_stakingProviders i ;;
            rest <- providers_from (i + 1) n' ;;
            py_ret (address :: rest)
  end.

Definition get_staking_providers : PyM W (list string) :=
  num_providers <- get_staking_providers_population ;;
  providers_from 0 (Z.to_nat num_providers).

Definition get_active_staking_providers (start_index max_results : Z) (w : W) : page * W :=
  call_getActiveStakingProviders start_index max_results w.

(** The variables of the loop of [get_all_active_staking_providers]. *)
Record paging := Paging {
  start_index : Z;
  n_tokens : Z;
  staking_providers : list (Z * Z);
  attempts : Z;
  pagination_size : Z;
}.

(** The body of the loop. *)
Definition page_step (p : paging) (w : W) : result paging * W :=
  let attempts := (p.(attempts) + 1)%Z in
  match get_active_staking_providers p.(start_index) p.(pagination_size) w with
  | (PageOk temp_authorized_tokens temp_staking_providers, w') =>
      (Ok (Paging (p.(start_index) + p.(pagination_size))
                  (p.(n_tokens) + temp_authorized_tokens)
                  (dict_update p.(staking_providers) (dict_of temp_staking_providers))
                  attempts p.(pagination_size)), w')
  | (PageRaise c message, w') =>
      if negb (catches [Exception] c) then (Raise c, w')
      else if negb (str_contains "timeout" message) then (Raise c, w')
      else if (p.(pagination_size) =? 1)%Z || (3 <=? attempts)%Z then (Raise c, w')
      else (Ok (Paging p.(start_index) p.(n_tokens) p.(staking_providers)
                       attempts (p.(pagination_size) / 2)), w')
  end.

(** [while start_index < num_providers], [None] when the fuel runs out. *)
Fixpoint page_loop (fuel : nat) (num_providers : Z) (p : paging) (w : W)
    : option (result paging * W) :=
  if (p.(start_index) <? num_providers)%Z then
    match fuel with
    | 0 => None
    | S fuel' =>
        match page_step p w with
        | (Raise e, w') => Some (Raise e, w')
        | (Ok p', w') => page_loop fuel' num_providers p' w'
        end
    end
  else Some (Ok p, w).

(** [address.to_bytes(20, 'big')] fails on a number that does not fit. *)
Definition checksum_address (address : Z) : result string :=
  if (0 <=? address)%Z && (address <? 2 ^ 160)%Z then Ok (to_checksum_address address)
  else Raise OverflowError.

Fixpoint typed_items (items : list (Z * Z)) : result (list (string * Z)) :=
  match items with
  | [] => Ok []
  | (address, authorized_tokens) :: items' =>
      let? a := checksum_address address in
      let? rest := typed_items items' in
      Ok ((a, authorized_tokens) :: rest)
  end.

(** The last lines: addresses to checksum addresses, in a new dict. *)
Definition typed_providers (n_tokens : Z) (providers : list (Z * Z))
    : result (Z * list (string * Z)) :=
  let? items := typed_items providers in Ok (n_tokens, dict_of items).

(** The whole method.  Every iteration advances [start_index] or uses up
    one of three attempts, so [num_providers + 3] iterations are enough. *)
Definition get_all_active_staking_providers (pagination_size : option Z) (w : W)
    : option (result (Z * list (string * Z)) * W) :=
  let size := match pagination_size with
              | None => if is_light then DEFAULT_PROVIDERS_PAGINATION_SIZE_LIGHT_NODE
                        else DEFAULT_PROVIDERS_PAGINATION_SIZE
              | Some n => n
              end in
  if match pagination_size with Some n => (n <? 0)%Z | None => false end
  then Some (Raise ValueError, w)
  else if (0 <? size)%Z then
    match get_staking_providers_population w with
    | (Raise e, w') => Some (Raise e, w')
    | (Ok num_providers, w') =>
        match page_loop (Z.to_nat num_providers + 3) num_providers (Paging 0 0 [] 0 size) w' with
        | None => None
        | Some (Raise e, w'') => Some (Raise e, w'')
        | Some (Ok p, w'') => Some (typed_providers p.(n_tokens) p.(staking_providers), w'')
        end
    end
  else
    match get_active_staking_providers 0 0 w with
    | (PageRaise c _, w') => Some (Raise c, w')
    | (PageOk n_tokens temp_staking_providers, w') =>
        Some (typed_providers n_tokens (dict_of temp_staking_providers), w')
    end.

(** [for address in without: if address in map: ... del map[address]]. *)
Fixpoint filter_out (without : list string) (n_tokens : Z) (stake_provider_map : list (string * Z))
    : Z * list (string * Z) :=
  match without with
  | [] => (n_tokens, stake_provider_map)
  | address :: without' =>
      match dict_get stake_provider_map address with
      | Some tokens => filter_out without' (n_tokens - tokens) (dict_del stake_provider_map address)
      | None => filter_out without' n_tokens stake_provider_map
      end
  end.

(** [get_staking_provider_reservoir]; the reservoir is its sampler. *)
Definition get_staking_provider_reservoir (without : list string) (pagination_size : option Z) (w : W)
    : option (result (WeightedSampler.sampler (A:=string)) * W) :=
  match get_all_active_staking_providers pagination_size w with
  | None => None
  | Some (Raise e, w') => Some (Raise e, w')
  | Some (Ok (n_tokens, stake_provider_map), w') =>
      let '(n_tokens, stake_provider_map) := filter_out without n_tokens stake_provider_map in
      if (n_tokens =? 0)%Z then Some (Raise NotEnoughStakingProviders, w')
      else Some (Ok (WeightedSampler.init stake_provider_map), w')
  end.

Definition confirm_operator_address (account : string) (fire_and_forget : bool) : PyM W Receipt :=
  send_transaction (Transaction confirmOperatorAddress None None account fire_and_forget).

Definition bond_operator (staking_provider operator account : string) : PyM W Receipt :=
  send_transaction (Transaction (bondOperator staking_provider operator) None None account false).

(** *** Termination of the paged read *)

Definition paging_measure (num_providers : Z) (p : paging) : nat :=
  Z.to_nat (num_providers - p.(start_index)) + Z.to_nat (3 - p.(attempts)).

Lemma page_step_decreases num_providers p w p' w' :
  (1 <= p.(pagination_size))%Z -> (p.(start_index) < num_providers)%Z ->
  page_step p w = (Ok p', w') ->
  (1 <= p'.(pagination_size))%Z /\ paging_measure num_providers p' < paging_measure num_providers p.
Proof.
  intros Hs Hlt. unfold page_step, paging_measure.
  destruct (get_active_staking_providers _ _ w) as [[t ps|c m] w1].
  - intros [= <- <-]; simpl. lia.
  - destruct (negb (catches [Exception] c)); [done|].
    destruct (negb (str_contains "timeout" m)); [done|].
    destruct (Z.eqb_spec p.(pagination_size) 1); [done|].
    destruct (Z.leb_spec 3 (p.(attempts) + 1)); [done|].
    intros [= <- <-]; simpl. split; [|lia].
    apply Z.div_le_lower_bound; lia.
Qed.

Lemma page_loop_total fuel num_providers p w :
  (1 <= p.(pagination_size))%Z -> paging_measure num_providers p <= fuel ->
  is_Some (page_loop fuel num_providers p w).
Proof.
  revert p w. induction fuel as [|fuel IH]; intros p w Hs Hm; simpl;
    destruct (Z.ltb_spec p.(start_index) num_providers); eauto.
  - unfold paging_measure in Hm. lia.
  - destruct (page_step p w) as [[p'|e] w'] eqn:Hp; eauto.
    eapply page_step_decreases in Hp as [? ?]; [|done|done]. apply IH; [done|lia].
Qed.

Lemma get_all_active_staking_providers_total pagination_size w :
  is_Some (get_all_active_staking_providers pagination_size w).
Proof.
  unfold get_all_active_staking_providers.
  set (size := match pagination_size with None => _ | Some n => n end).
  destruct (match pagination_size with Some n => (n <? 0)%Z | None => false end); [eauto|].
  destruct (Z.ltb_spec 0 size).
  - destruct (get_staking_providers_population w) as [[num|e] w']; [|eauto].
    destruct (page_loop_total (Z.to_nat num + 3) num (Paging 0 0 [] 0 size) w') as [[[p|e] w''] Hl];
      [simpl; lia|unfold paging_measure; simpl; lia| |]; rewrite Hl; eauto.
  - destruct (get_active_staking_providers 0 0 w) as [[? ?|? ?] ?]; eauto.
Qed.

(** The paged read always comes to an end, however the node answers
    and however often it times out: each round either moves on by a page of
    at least one provider or uses one of the three attempts that may fail. *)
Theorem get_all_active_staking_providers_terminates pagination_size w :
  exists outcome w', get_all_active_staking_providers pagination_size w = Some (outcome, w') /\
    (outcome = Raise ValueError \/ forall n, pagination_size = Some n -> 0 <= n)%Z.
Proof.
  destruct (get_all_active_staking_providers_total pagination_size w) as [[r w'] Hr].
  exists r, w'. split; [done|]. destruct pagination_size as [n|]; [|by right].
  destruct (Z.ltb_spec n 0) as [Hn|]; [left|right; intros ? [= ->]; lia].
  unfold get_all_active_staking_providers in Hr. apply Z.ltb_lt in Hn. rewrite Hn in Hr.
  by simplify_eq.
Qed.

(** *** Completeness of the paged read

    The contract keeps a list of registered providers with their stake;
    [getActiveStakingProviders(start, max)] answers those with a stake in
    the given range ([max = 0] is to the end), with the sum of their
    stakes, or fails. *)

Definition active (l : list (Z * Z)) : list (Z * Z) := filter (fun kv => 0 < kv.2)%Z l.

Definition slice (registered : list (Z * Z)) (start size : Z) : list (Z * Z) :=
  let l := drop (Z.to_nat start) registered in
  if (size =? 0)%Z then l else take (Z.to_nat size) l.

Record application_contract (registered : list (Z * Z)) : Prop := {
  addresses_distinct : NoDup registered.*1;
  addresses_fit : Forall (fun a => 0 <= a < 2 ^ 160)%Z registered.*1;
  population_answer : forall w, exists w',
    call_getStakingProvidersLength w = (Ok (Z.of_nat (length registered)), w');
  page_answer : forall start size w t ps w',
    call_getActiveStakingProviders start size w = (PageOk t ps, w') ->
    ps = active (slice registered start size) /\ t = zsum ps.*2;
}.

(** Distinct addresses have distinct checksum strings. *)
Hypothesis to_checksum_address_inj : forall a b, to_checksum_address a = to_checksum_address b -> a = b.

Definition checksummed (l : list (Z * Z)) : list (string * Z) :=
  (fun kv => (to_checksum_address kv.1, kv.2)) <$> l.

Lemma active_app l k : active (l ++ k) = active l ++ active k.
Proof. apply filter_app. Qed.

Lemma active_sublist l : sublist (active l) l.
Proof.
  induction l as [|x l IH]; [constructor|]. unfold active in *. rewrite filter_cons.
  case_decide; by constructor.
Qed.

Lemma active_NoDup l : NoDup l.*1 -> NoDup (active l).*1.
Proof. intros Hnd. eapply sublist_NoDup; [exact Hnd|]. apply fmap_sublist, active_sublist. Qed.

Lemma active_fit l :
  Forall (fun a => 0 <= a < 2 ^ 160)%Z l.*1 -> Forall (fun a => 0 <= a < 2 ^ 160)%Z (active l).*1.
Proof.
  rewrite !Forall_forall. intros Hl x Hx. apply Hl.
  eapply elem_of_submseteq; [exact Hx|]. apply sublist_submseteq, fmap_sublist, active_sublist.
Qed.

Lemma typed_providers_ok n l :
  NoDup l.*1 -> Forall (fun a => 0 <= a < 2 ^ 160)%Z l.*1 ->
  typed_providers n l = Ok (n, checksummed l).
Proof.
  intros Hnd Hfit. unfold typed_providers.
  assert (typed_items l = Ok (checksummed l)) as ->.
  { clear Hnd. induction l as [|[a t] l IH]; csimpl in *; [done|].
    apply Forall_cons in Hfit as [Ha Hl]. rewrite IH by done. unfold checksum_address.
    destruct (Z.leb_spec 0 a); [|lia]. destruct (Z.ltb_spec a (2 ^ 160)); [done|lia]. }
  simpl. rewrite dict_of_id; [done|]. unfold dict_wf, checksummed. rewrite <-list_fmap_compose.
  replace (fst ∘ _) with (to_checksum_address ∘ (fst : Z * Z -> Z)) by done.
  rewrite list_fmap_compose. apply NoDup_fmap_2; [|done]. intros a b. apply to_checksum_address_inj.
Qed.

(** What the loop has collected after the first [start_index] providers. *)
Definition collected (registered : list (Z * Z)) (p : paging) : Prop :=
  (0 <= p.(start_index))%Z /\ (1 <= p.(pagination_size))%Z /\
  p.(staking_providers) = active (take (Z.to_nat p.(start_index)) registered) /\
  p.(n_tokens) = zsum p.(staking_providers).*2.

Lemma page_step_collected registered p w p' w' :
  application_contract registered -> collected registered p ->
  page_step p w = (Ok p', w') -> collected registered p'.
Proof.
  intros [Hnd _ _ Hpage] (Hst & Hsz & Hsp & Htok). unfold page_step, get_active_staking_providers.
  destruct (call_getActiveStakingProviders _ _ w) as [[t ps|c m] w1] eqn:Hcall.
  - intros [= <- <-]. apply Hpage in Hcall as [Hps ->].
    unfold slice in Hps. destruct (Z.eqb_spec p.(pagination_size) 0); [lia|].
    rewrite take_drop_commute in Hps.
    assert (p.(staking_providers) ++ ps =
            active (take (Z.to_nat (p.(start_index) + p.(pagination_size))) registered)) as Happ.
    { rewrite Hsp, Hps, <-active_app, Z2Nat.inj_add by lia. f_equal.
      rewrite <-(take_drop (Z.to_nat p.(start_index))
        (take (Z.to_nat p.(start_index) + Z.to_nat p.(pagination_size)) registered)) at 2.
      rewrite take_take, Nat.min_l by lia. done. }
    assert (NoDup (p.(staking_providers) ++ ps).*1) as Hndapp.
    { rewrite Happ. apply active_NoDup. eapply sublist_NoDup; [exact Hnd|].
      apply fmap_sublist, sublist_take. }
    rewrite (dict_of_id ps), dict_update_fresh; [|done|].
    + unfold collected; simpl. rewrite fmap_app, zsum_app. split_and!; [lia..|done|lia].
    + rewrite fmap_app in Hndapp. by apply NoDup_app in Hndapp as (_ & _ & ?).
  - destruct (negb (catches [Exception] c)); [done|].
    destruct (negb (str_contains "timeout" m)); [done|].
    destruct (Z.eqb_spec p.(pagination_size) 1); [done|]. simpl.
    destruct (3 <=? p.(attempts) + 1)%Z; [done|].
    intros [= <- <-]. split_and!; simpl; try done. apply Z.div_le_lower_bound; lia.
Qed.

Lemma page_loop_collected registered fuel num p w p' w' :
  application_contract registered -> collected registered p ->
  page_loop fuel num p w = Some (Ok p', w') ->
  collected registered p' /\ (num <= p'.(start_index))%Z.
Proof.
  intros Hc. revert p w. induction fuel as [|fuel IH]; intros p w Hcol; simpl;
    destruct (Z.ltb_spec p.(start_index) num); try done; try (intros; simplify_eq; split; auto; lia).
  destruct (page_step p w) as [[p1|e] w1] eqn:Hp; [|done].
  apply IH. by eapply page_step_collected.
Qed.

(** A completed read has every active provider, once, and their total. *)
Lemma get_all_complete registered ps w r w' :
  application_contract registered ->
  get_all_active_staking_providers ps w = Some (Ok r, w') ->
  r = (zsum (active registered).*2, checksummed (active registered)).
Proof.
  intros Hc. pose proof (addresses_distinct _ Hc) as Hnd. pose proof (addresses_fit _ Hc) as Hfit.
  unfold get_all_active_staking_providers.
  set (size := match ps with None => _ | Some n => n end).
  destruct (match ps with Some n => (n <? 0)%Z | None => false end); [done|].
  destruct (Z.ltb_spec 0 size).
  - destruct (population_answer _ Hc w) as [w1 Hpop].
    unfold get_staking_providers_population. rewrite Hpop.
    destruct (page_loop _ _ _ w1) as [[[p|e] w2]|] eqn:Hl; try done.
    eapply page_loop_collected in Hl as [(Hst & Hsz & Hsp & Htok) Hend]; [|done|].
    + rewrite take_ge in Hsp by lia. rewrite Htok, Hsp.
      rewrite typed_providers_ok; [by intros [= <- _]|by apply active_NoDup|by apply active_fit].
    + split_and!; simpl; [lia|lia|by rewrite take_0|done].
  - unfold get_active_staking_providers.
    destruct (call_getActiveStakingProviders 0 0 w) as [[t l|c m] w1] eqn:Hcall; [|done].
    eapply page_answer in Hcall as [Hl ->]; [|done]. unfold slice in Hl. simpl in Hl.
    rewrite drop_0 in Hl. rewrite Hl, dict_of_id by (by apply active_NoDup).
    rewrite typed_providers_ok; [by intros [= <- _]|by apply active_NoDup|by apply active_fit].
Qed.

(** A loop over pages that never fail does not raise. *)
Lemma page_loop_ok fuel num p w r w' :
  (forall start size w, exists t ps w', call_getActiveStakingProviders start size w = (PageOk t ps, w')) ->
  page_loop fuel num p w = Some (r, w') -> is_ok r = true.
Proof.
  intros Hok. revert p w. induction fuel as [|fuel IH]; intros p w; simpl;
    destruct (p.(start_index) <? num)%Z; try done; try (intros; by simplify_eq).
  unfold page_step, get_active_staking_providers.
  destruct (Hok p.(start_index) p.(pagination_size) w) as (t & ps & w1 & ->). apply IH.
Qed.

(** C16.  The paged read is complete: against a contract that answers each
    page from its list of registered providers, a call that returns has
    read every active provider once with the sum of their stakes, whatever
    the page size and however often pages timed out and were halved; and
    when no page fails the call returns. *)
Theorem get_all_active_staking_providers_complete registered ps w :
  application_contract registered ->
  let all := (zsum (active registered).*2, checksummed (active registered)) in
  (forall r w', get_all_active_staking_providers ps w = Some (Ok r, w') -> r = all) /\
  ((forall start size w, exists t l w', call_getActiveStakingProviders start size w = (PageOk t l, w')) ->
   (forall n, ps = Some n -> 0 <= n)%Z ->
   exists w', get_all_active_staking_providers ps w = Some (Ok all, w')).
Proof.
  intros Hc all. split; [intros r w'; by apply get_all_complete|].
  intros Hok Hps. destruct (get_all_active_staking_providers ps w) as [[r w']|] eqn:Hget.
  - exists w'. destruct r as [r|e].
    { by rewrite (get_all_complete _ _ _ _ _ Hc Hget). }
    exfalso. revert Hget. unfold get_all_active_staking_providers.
    set (size := match ps with None => _ | Some n => n end).
    assert (match ps with Some n => (n <? 0)%Z | None => false end = false) as ->.
    { destruct ps as [n|]; [|done]. apply Z.ltb_ge. by apply Hps. }
    destruct (Z.ltb_spec 0 size).
    + destruct (population_answer _ Hc w) as [w1 Hpop].
      unfold get_staking_providers_population. rewrite Hpop.
      destruct (page_loop _ _ _ w1) as [[[p|e'] w2]|] eqn:Hl; try done.
      * eapply page_loop_collected in Hl as [(Hst & Hsz & Hsp & Htok) Hend]; [|done|].
        -- rewrite take_ge in Hsp by lia. rewrite Hsp, typed_providers_ok; [done| |].
           ++ apply active_NoDup, (addresses_distinct _ Hc).
           ++ apply active_fit, (addresses_fit _ Hc).
        -- split_and!; simpl; [lia|lia|by rewrite take_0|done].
      * pose proof (page_loop_ok _ _ _ _ _ _ Hok Hl). discriminate.
    + unfold get_active_staking_providers.
      destruct (Hok 0%Z 0%Z w) as (t & l & w1 & Hcall). rewrite Hcall.
      eapply page_answer in Hcall as [Hl ->]; [|done]. unfold slice in Hl. simpl in Hl.
      rewrite drop_0 in Hl. pose proof (active_NoDup _ (addresses_distinct _ Hc)) as Hnd.
      rewrite Hl, dict_of_id, typed_providers_ok; [done|done|apply active_fit, (addresses_fit _ Hc)|done].
  - destruct (get_all_active_staking_providers_total ps w) as [? ?]. congruence.
Qed.

(** *** The reservoir *)

Definition excluding (without : list string) (m : list (string * Z)) : list (string * Z) :=
  filter (fun kv => kv.1 ∉ without) m.

Lemma zsum_dict_del (d : list (string * Z)) a t :
  dict_get d a = Some t -> zsum d.*2 = (t + zsum (dict_del d a).*2)%Z.
Proof.
  induction d as [|[k v] d IH]; [done|]. cbn [dict_get dict_del]. case_decide.
  - intros [= ->]. done.
  - intros Hget%IH. rewrite !fmap_cons. simpl. unfold zsum in *. lia.
Qed.

Lemma filter_out_spec without n d :
  dict_wf d -> n = zsum d.*2 ->
  filter_out without n d = (zsum (excluding without d).*2, excluding without d).
Proof.
  revert n d. induction without as [|a without IH]; intros n d Hwf Hn; simpl.
  - unfold excluding. rewrite filter_all; [by subst|]. intros x _. apply not_elem_of_nil.
  - destruct (dict_get d a) as [t|] eqn:Hget.
    + rewrite IH.
      * unfold excluding. rewrite dict_del_filter, list_filter_filter by done.
        assert (forall l : list (string * Z),
          filter (fun x => x.1 ∉ without /\ x.1 <> a) l = filter (fun kv => kv.1 ∉ a :: without) l)
          as ->; [|done].
        intros l. apply list_filter_iff. intros x. rewrite not_elem_of_cons. tauto.
      * by apply dict_del_wf.
      * subst n. apply zsum_dict_del in Hget. lia.
    + rewrite IH by done. unfold excluding. apply dict_get_None in Hget.
      assert (filter (fun kv => kv.1 ∉ without) d = filter (fun kv => kv.1 ∉ a :: without) d) as ->;
        [|done].
      apply filter_ext_in. intros [k v] Hk. simpl. rewrite not_elem_of_cons.
      split; [|tauto]. intros Hnin. split; [|done]. intros ->. apply Hget, list_elem_of_fmap. by exists (a, v).
Qed.

Lemma checksummed_active registered :
  application_contract registered ->
  dict_wf (checksummed (active registered)) /\
  Forall (fun t => 0 < t)%Z (checksummed (active registered)).*2 /\
  (checksummed (active registered)).*2 = (active registered).*2.
Proof.
  intros Hc. assert ((checksummed (active registered)).*2 = (active registered).*2) as Heq.
  { unfold checksummed. rewrite <-list_fmap_compose. done. }
  split_and!; [| |done].
  - unfold dict_wf, checksummed. rewrite <-list_fmap_compose.
    replace (fst ∘ _) with (to_checksum_address ∘ (fst : Z * Z -> Z)) by done.
    rewrite list_fmap_compose. apply NoDup_fmap_2.
    + intros a b. apply to_checksum_address_inj.
    + apply active_NoDup, (addresses_distinct _ Hc).
  - rewrite Heq. apply Forall_fmap, Forall_forall. intros x Hx.
    by apply list_elem_of_filter in Hx as [? _].
Qed.

Lemma zsum_pos l : Forall (fun t => 0 < t)%Z l -> (0 <= zsum l)%Z /\ (zsum l = 0%Z -> l = []).
Proof. induction 1 as [|x l Hx _ [IH _]]; simpl; [done|]. split; [lia|]. intros. exfalso. lia. Qed.

Lemma excluding_positive without m :
  Forall (fun t => 0 < t)%Z m.*2 -> Forall (fun t => 0 < t)%Z (excluding without m).*2.
Proof.
  rewrite !Forall_fmap, !Forall_forall. intros Hm x Hx. apply list_elem_of_filter in Hx as [_ Hx]. auto.
Qed.

(** From the read to the reservoir. *)
Lemma get_staking_provider_reservoir_ok registered without ps w all w' :
  application_contract registered ->
  get_all_active_staking_providers ps w = Some (Ok all, w') ->
  let left := excluding without (checksummed (active registered)) in
  (left = [] /\
   get_staking_provider_reservoir without ps w = Some (Raise NotEnoughStakingProviders, w')) \/
  (left <> [] /\ exists s,
   get_staking_provider_reservoir without ps w = Some (Ok s, w') /\
   WeightedSampler.sampler_ok s left.*2 /\
   WeightedSampler.live s.(WeightedSampler.elements) left.*2 = left.*1).
Proof.
  intros Hc Hall left. pose proof (checksummed_active _ Hc) as (Hwf & Hpos & Hsnd).
  unfold get_staking_provider_reservoir. rewrite Hall.
  rewrite (get_all_complete _ _ _ _ _ Hc Hall), filter_out_spec; [|done|by rewrite Hsnd].
  fold left. pose proof (excluding_positive without _ Hpos) as Hlp. fold left in Hlp.
  destruct (zsum_pos _ Hlp) as [Hge Hz]. destruct (Z.eqb_spec (zsum left.*2) 0) as [H0|H0].
  - left. split; [|done]. apply Hz in H0. by apply fmap_nil_inv in H0.
  - right. split; [intros Hnil; rewrite Hnil in H0; done|].
    exists (WeightedSampler.init left). split; [done|]. by apply WeightedSampler.init_ok.
Qed.

(** The reservoir holds exactly the active providers that were not
    excluded: if the paged read returns, [get_staking_provider_reservoir]
    raises [NotEnoughStakingProviders] when none of them is left, and else
    returns a well-formed sampler from which exactly they can be drawn. *)
Theorem get_staking_provider_reservoir_spec registered without ps w all w' :
  application_contract registered ->
  get_all_active_staking_providers ps w = Some (Ok all, w') ->
  let left := excluding without (checksummed (active registered)) in
  (left = [] /\
   get_staking_provider_reservoir without ps w = Some (Raise NotEnoughStakingProviders, w')) \/
  (left <> [] /\ exists s,
   get_staking_provider_reservoir without ps w = Some (Ok s, w') /\
   WeightedSampler.sampler_ok s left.*2 /\
   WeightedSampler.live s.(WeightedSampler.elements) left.*2 = left.*1).
Proof. apply get_staking_provider_reservoir_ok. Qed.

End Agent.
End PREApplicationAgent.

(** ** The agency: one agent per registry and class *)

Module ContractAgency.
Section Agency.
Context {Registry AgentClass Agent : Type} `{!EqDecision AgentClass}.
(** [registry.id], [issubclass(agent_class, EthereumContractAgent)] and the
    constructor of an agent, which talks to the node. *)
Variable registry_id : Registry -> string.
Variable is_agent_class : AgentClass -> bool.
Variable construct :
  AgentClass -> option Registry -> option string -> option string -> result Agent.

(** [__agents]. *)
Definition agents : Type := list (string * list (AgentClass * Agent)).

Definition cached (st : agents) (id : string) (c : AgentClass) : option Agent :=
  match dict_get st id with Some d => dict_get d c | None => None end.

Definition get_agent (agent_class : AgentClass) (registry : option Registry)
    (eth_provider_uri contract_version : option string) : PyM agents Agent := fun st =>
  if negb (is_agent_class agent_class) then (Raise TypeError, st)
  else
    let lookup id :=
      match cached st id agent_class with
      | Some agent => (Ok agent, st)
      | None =>
          match construct agent_class registry eth_provider_uri contract_version with
          | Raise e => (Raise e, st)
          | Ok agent =>
              let st' := dict_set st id (default [] (dict_get st id)) in
              (Ok agent, dict_set st' id (dict_set (default [] (dict_get st' id)) agent_class agent))
          end
      end in
    match registry with
    | Some r => lookup (registry_id r)
    | None =>
        match st with
        | [(id, _)] => lookup id
        | _ => (Raise ValueError, st)
        end
    end.

(** The names of the contracts, from constants.py. *)
Definition NULINK_TOKEN_CONTRACT_NAME : string := "NULinkToken".
Definition PRE_APPLICATION_CONTRACT_NAME : string := "SimplePREApplication".
Definition SUBSCRIPTION_MANAGER_CONTRACT_NAME : string := "SubscriptionManager".
Definition ADJUDICATOR_CONTRACT_NAME : string := "Adjudicator".

Definition _contract_name_to_agent_name (name : string) : string :=
  let name := if decide (name = NULINK_TOKEN_CONTRACT_NAME) then "NuLinkToken"%string else name in
  let name := if decide (name = PRE_APPLICATION_CONTRACT_NAME) then "PREApplication"%string else name in
  (name ++ "Agent")%string.

(** The agent classes the module declares. *)
Definition module_classes : list string :=
  ["EthereumContractAgent"; "NulinkTokenAgent"; "SubscriptionManagerAgent"; "AdjudicatorAgent";
   "PREApplicationAgent"]%string.

(** [getattr(agents_module, agent_name)], then [get_agent]. *)
Definition get_agent_by_contract_name (class_of : string -> AgentClass) (contract_name : string)
    (registry : Registry) (eth_provider_uri contract_version : option string) : PyM agents Agent :=
  let agent_name := _contract_name_to_agent_name contract_name in
  if decide (agent_name ∈ module_classes)
  then get_agent (class_of agent_name) (Some registry) eth_provider_uri contract_version
  else raise AttributeError.

Lemma cached_set_ne st id c id' c' a :
  (id, c) <> (id', c') ->
  cached (dict_set (dict_set st id (default [] (dict_get st id))) id
            (dict_set (default [] (dict_get st id)) c a)) id' c' = cached st id' c'.
Proof.
  intros Hne. unfold cached. rewrite !dict_get_set.
  destruct (decide (id' = id)) as [->|]; [|done].
  rewrite dict_get_set_ne by congruence. by destruct (dict_get st id).
Qed.

(** The agency keeps one agent per registry and class: once
    [get_agent] has returned an agent for a registry, every later call for
    the same class and registry returns that agent and leaves the cache as
    it is, whatever provider URI and contract version it is given; agents of
    other registries and classes are never replaced. *)
Theorem get_agent_memoized c r uri version st a st' :
  get_agent c (Some r) uri version st = (Ok a, st') ->
  (forall uri' version', get_agent c (Some r) uri' version' st' = (Ok a, st')) /\
  (forall id' c', (id', c') <> (registry_id r, c) -> cached st' id' c' = cached st id' c') /\
  (forall a', cached st (registry_id r) c = Some a' -> a = a').
Proof.
  unfold get_agent. destruct (is_agent_class c) eqn:Hc; [|done]. cbn [negb].
  destruct (cached st (registry_id r) c) as [a'|] eqn:Hcache.
  - intros [= <- <-]. split_and!; [|done|by intros ? [= ->]]. intros. by rewrite Hcache.
  - destruct (construct c (Some r) uri version) as [a'|e]; [|done].
    rewrite dict_get_set_eq. intros [= <- <-]. split_and!; [| |done].
    + intros. unfold cached at 1. rewrite dict_get_set_eq. cbn [default]. by rewrite dict_get_set_eq.
    + intros id' c' Hne. by apply cached_set_ne.
Qed.

(** Agents by contract name: the names of the PRE application, the
    subscription manager and the adjudicator resolve to their agents, but
    the token's does not, because the name is built as [NuLinkTokenAgent]
    and the class is [NulinkTokenAgent]: the call raises [AttributeError]
    and the agency is left unchanged. *)
Theorem get_agent_by_contract_name_spec class_of r uri version st :
  get_agent_by_contract_name class_of NULINK_TOKEN_CONTRACT_NAME r uri version st =
    (Raise AttributeError, st) /\
  get_agent_by_contract_name class_of PRE_APPLICATION_CONTRACT_NAME r uri version st =
    get_agent (class_of "PREApplicationAgent"%string) (Some r) uri version st /\
  get_agent_by_contract_name class_of SUBSCRIPTION_MANAGER_CONTRACT_NAME r uri version st =
    get_agent (class_of "SubscriptionManagerAgent"%string) (Some r) uri version st /\
  get_agent_by_contract_name class_of ADJUDICATOR_CONTRACT_NAME r uri version st =
    get_agent (class_of "AdjudicatorAgent"%string) (Some r) uri version st.
Proof. split_and!; reflexivity. Qed.

End Agency.

Lemma get_agent_memoized_witness :
  get_agent (fun r : string => r) (fun _ : nat => true) (fun c _ _ _ => Ok c) 3 (Some "reg"%string)
    (Some "other"%string) None [("reg", [(3, 3)])]%string = (Ok 3, [("reg", [(3, 3)])]%string).
Proof.
  destruct (get_agent_memoized (fun r : string => r) (fun _ : nat => true) (fun c _ _ _ => Ok c)
    3 "reg"%string None None [] 3 [("reg", [(3, 3)])]%string) as (H & _ & _); [reflexivity|].
  apply H.
Defined.

End ContractAgency.

(** ** An evaluated chain

    Four registered providers, one without a stake; a page of more than
    two providers times out. *)

Module DemoChain.

Definition demo_registered : list (Z * Z) := [(10, 5); (11, 0); (12, 7); (13, 1)]%Z.

Definition demo_page (start size : Z) : page :=
  if (2 <? size)%Z || (size <=? 0)%Z then PageRaise RequestsReadTimeout "read timeout"
  else let l := PREApplicationAgent.active (PREApplicationAgent.slice demo_registered start size) in
       PageOk (zsum l.*2) l.

#[global] Instance demo_chain : Chain unit transaction := {|
  send_transaction tx := py_ret tx;
  call_allowance _ _ := py_ret 4%Z;
  call_policies _ := py_ret ("sponsor", 1, 2, 3, "owner")%Z%string;
  call_isPolicyActive _ := py_ret true;
  call_feeRate := py_ret 2%Z;
  call_getStakingProvidersLength := py_ret 4%Z;
  call_stakingProviders i := py_ret "0x"%string;
  call_getActiveStakingProviders start size w := (demo_page start size, w);
|}.

(** A checksum encoding that is injective: the decimal number. *)
Definition demo_checksum (a : Z) : string := pretty.pretty a.

Lemma demo_checksum_inj a b : demo_checksum a = demo_checksum b -> a = b.
Proof. apply (inj pretty.pretty). Qed.

Lemma demo_contract : PREApplicationAgent.application_contract (W:=unit) demo_registered.
Proof.
  split.
  - apply (bool_decide_unpack _). vm_compute. exact I.
  - apply (bool_decide_unpack _). vm_compute. exact I.
  - intros []. by exists tt.
  - intros start size [] t ps []. simpl. unfold demo_page.
    destruct ((2 <? size)%Z || (size <=? 0)%Z); [done|]. by intros [= <- <-].
Qed.

(** Two timeouts halve the page from 8 to 2. *)
Example demo_read :
  PREApplicationAgent.get_all_active_staking_providers demo_checksum false 30 1000 (Some 8%Z) tt =
    Some (Ok (13%Z, [("10", 5%Z); ("12", 7%Z); ("13", 1%Z)]%string), tt).
Proof. vm_compute. reflexivity. Qed.

Lemma fetch_policy_raises_witness :
  SubscriptionManagerAgent.fetch_policy "0x0"%string "policy"%string tt = (Raise TypeError, tt).
Proof.
  apply (SubscriptionManagerAgent.fetch_policy_raises (Receipt:=transaction) "0x0"%string
           "policy"%string tt ("sponsor", 1, 2, 3, "owner")%Z%string tt).
  reflexivity.
Defined.

Lemma get_all_active_staking_providers_complete_witness :
  (13%Z, [("10", 5%Z); ("12", 7%Z); ("13", 1%Z)]%string) =
  (zsum (PREApplicationAgent.active demo_registered).*2,
   PREApplicationAgent.checksummed demo_checksum (PREApplicationAgent.active demo_registered)).
Proof.
  apply (proj1 (PREApplicationAgent.get_all_active_staking_providers_complete demo_checksum false 30 1000
           demo_checksum_inj demo_registered (Some 8%Z) tt demo_contract) _ tt).
  exact demo_read.
Defined.

Lemma get_staking_provider_reservoir_spec_witness :
  let left := PREApplicationAgent.excluding ["12"]%string
    (PREApplicationAgent.checksummed demo_checksum (PREApplicationAgent.active demo_registered)) in
  (left = [] /\
   PREApplicationAgent.get_staking_provider_reservoir demo_checksum false 30 1000 ["12"]%string
     (Some 8%Z) tt = Some (Raise NotEnoughStakingProviders, tt)) \/
  (left <> [] /\ exists s,
   PREApplicationAgent.get_staking_provider_reservoir demo_checksum false 30 1000 ["12"]%string
     (Some 8%Z) tt = Some (Ok s, tt) /\
   WeightedSampler.sampler_ok s left.*2 /\
   WeightedSampler.live s.(WeightedSampler.elements) left.*2 = left.*1).
Proof.
  apply (PREApplicationAgent.get_staking_provider_reservoir_spec demo_checksum false 30 1000
           demo_checksum_inj demo_registered ["12"]%string (Some 8%Z) tt
           (13%Z, [("10", 5%Z); ("12", 7%Z); ("13", 1%Z)]%string) tt demo_contract).
  vm_compute. reflexivity.
Defined.

End DemoChain.
