(* ===== verification/Events.v ===== *)
(** * nulink/blockchain/eth/events.py

    Event records, the events of a contract by name, and the throttler that
    reads events in batches of blocks.  The contract and the node are the
    class [EventSource]. *)

From S2P Require Import Prelude.

(** An entry of [getLogs]. *)
Record entry := Entry {
  args : list (string * string);
  blockNumber : Z;
  transactionHash : string;
}.

(** [toBlock]: a number or ['latest']. *)
Inductive block_tag := Block (n : Z) | Latest.

Class EventSource (W : Type) := {
  (* the event names of the contract *)
  event_names : list string;
  (* [event_method.getLogs(fromBlock, toBlock, argument_filters)] *)
  getLogs : string -> Z -> block_tag -> list (string * string) -> PyM W (list entry);
  (* [BlockchainInterfaceFactory.get_interface()] and the block's timestamp *)
  has_interface : W -> bool;
  block_timestamp : Z -> PyM W Z;
  block_number : PyM W Z;
}.

Module Events.

Section Events.
Context {W : Type} `{!EventSource W}.

(** [EventRecord]. *)
Record event_record := EventRecord {
  raw_event : entry;
  timestamp : option Z;
}.

Definition new_event_record (e : entry) : PyM W event_record :=
  registered <- gets has_interface ;;
  if registered : bool then t <- block_timestamp e.(blockNumber) ;; py_ret (EventRecord e (Some t))
  else py_ret (EventRecord e None).

(** [ContractEvents.__get_web3_event_by_name]. *)
Definition __get_web3_event_by_name (event_name : string) : result string :=
  if decide (event_name ∈ event_names) then Ok event_name else Raise TypeError.

Fixpoint records (entries : list entry) : PyM W (list event_record) :=
  match entries with
  | [] => py_ret []
  | e :: entries' => r <- new_event_record e ;; rs <- records entries' ;; py_ret (r :: rs)
  end.

(** The function [wrapper] of [__getitem__], all its records. *)
Definition wrapper (event_method : string) (from_block : option Z) (to_block : option Z)
    (argument_filters : list (string * string)) : PyM W (list event_record) :=
  let from := default 0%Z from_block in
  let to := match to_block with Some n => Block n | None => Latest end in
  entries <- getLogs event_method from to argument_filters ;;
  records entries.

Definition getitem (event_name : string) : result (option Z -> option Z -> list (string * string) -> PyM W (list event_record)) :=
  let? event_method := __get_web3_event_by_name event_name in Ok (wrapper event_method).

(** ** [ContractEventsThrottler] *)

Definition DEFAULT_MAX_BLOCKS_PER_CALL : Z := 1000.

Record throttler := Throttler {
  event_filter : option Z -> option Z -> list (string * string) -> PyM W (list event_record);
  from_block : Z;
  to_block : Z;
  max_blocks_per_call : Z;
  argument_filters : list (string * string);
}.

(** [__init__]. *)
Definition new_throttler (event_name : string) (from_block : Z) (to_block : option Z) (max_blocks_per_call : Z)
    (filters : list (string * string)) : PyM W throttler :=
  event_filter <- lift (getitem event_name) ;;
  to_block <- match to_block with Some n => py_ret n | None => block_number end ;;
  if (to_block <? from_block)%Z then raise ValueError
  else py_ret (Throttler event_filter from_block to_block max_blocks_per_call filters).

(** The loop of [__iter__]: the ranges of blocks, from the current one on. *)
Fixpoint ranges (fuel : nat) (max to current_from current_to : Z) : list (Z * Z) :=
  match fuel with
  | 0 => []
  | S fuel' =>
      if (current_from <=? current_to)%Z then
        (current_from, current_to) ::
          (let next := (current_to + 1)%Z in ranges fuel' max to next (Z.min (next + max) to))
      else []
  end.

(** Each round begins behind the last one: as many rounds as blocks are enough. *)
Definition block_ranges (from to max : Z) : list (Z * Z) :=
  ranges (Z.to_nat (to - from + 2)) max to from (Z.min (from + max) to).

(** Reading the ranges one after the other. *)
Fixpoint read_ranges (filter : option Z -> option Z -> list (string * string) -> PyM W (list event_record))
    (filters : list (string * string)) (l : list (Z * Z)) : PyM W (list event_record) :=
  match l with
  | [] => py_ret []
  | (a, b) :: l' => x <- filter (Some a) (Some b) filters ;; y <- read_ranges filter filters l' ;; py_ret (x ++ y)
  end.

(** [__iter__]: every record it yields. *)
Definition iter (t : throttler) : PyM W (list event_record) :=
  read_ranges t.(event_filter) t.(argument_filters) (block_ranges t.(from_block) t.(to_block) t.(max_blocks_per_call)).

(** ** The ranges partition the blocks *)

(** [l] covers the blocks from [a] to [b] in order, without gap or overlap. *)
Inductive covers : Z -> Z -> list (Z * Z) -> Prop :=
  | Covered a b : (b < a)%Z -> covers a b []
  | Cover a m b l : (a <= m <= b)%Z -> covers (m + 1) b l -> covers a b ((a, m) :: l).

Lemma ranges_cover fuel max to a :
  (0 <= max)%Z -> (a <= to + 1)%Z -> (to - a + 1 < Z.of_nat fuel)%Z ->
  covers a to (ranges fuel max to a (Z.min (a + max) to)) /\
  Forall (fun r => r.2 - r.1 <= max)%Z (ranges fuel max to a (Z.min (a + max) to)) /\
  forall l r, ranges fuel max to a (Z.min (a + max) to) = l ++ [r] -> Forall (fun r => r.2 - r.1 = max)%Z l.
Proof.
  intros Hmax. revert a. induction fuel as [|fuel IH]; intros a Ha Hf; [lia|]. cbn [ranges].
  destruct (Z.leb_spec a (Z.min (a + max) to)) as [Hle|Hgt].
  - destruct (IH (Z.min (a + max) to + 1)%Z) as (H1 & H2 & H3); [lia..|]. split_and!.
    + constructor; [lia|exact H1].
    + constructor; [cbn; lia|exact H2].
    + intros [|x l] r Hl; [constructor|]. injection Hl as <- Hl. constructor; [|by eapply H3].
      cbn. destruct (Z.le_gt_cases to (a + max)) as [Hto|]; [|lia].
      exfalso. rewrite Z.min_r in Hl by lia.
      destruct fuel as [|fuel]; [by destruct l|]. cbn [ranges] in Hl.
      rewrite (proj2 (Z.leb_gt _ _)) in Hl by lia. by destruct l.
  - split_and!; [constructor; lia|constructor|]. intros [|x l] r Hl; done.
Qed.

(** A range of blocks is read in one piece or block after block. *)
Fixpoint blocks (n : nat) (a : Z) : list Z := match n with 0 => [] | S n' => a :: blocks n' (a + 1) end.

Lemma blocks_app n m a : blocks (n + m) a = blocks n a ++ blocks m (a + Z.of_nat n).
Proof.
  revert a. induction n as [|n IH]; intros a; cbn [blocks plus]; [by rewrite Z.add_0_r|].
  rewrite IH. cbn. do 3 f_equal. lia.
Qed.

(** What reading the blocks one at a time gives, when it succeeds and the node
    does not change meanwhile. *)
Section Stable.
Variable filter : option Z -> option Z -> list (string * string) -> PyM W (list event_record).
Variable filters : list (string * string).
Variable w : W.
Variable logs_of : Z -> list event_record.
Hypothesis stable : forall a b, (a <= b)%Z ->
  filter (Some a) (Some b) filters w = (Ok (concat (logs_of <$> blocks (Z.to_nat (b - a + 1)) a)), w).

Lemma read_covers a b l : covers a b l ->
  read_ranges filter filters l w = (Ok (concat (logs_of <$> blocks (Z.to_nat (b - a + 1)) a)), w).
Proof.
  induction 1 as [a b Hab|a m b l [H1 H2] _ IH].
  - replace (Z.to_nat (b - a + 1)) with 0 by lia. done.
  - cbn [read_ranges]. unfold py_bind. rewrite stable by done. rewrite IH. unfold py_ret. do 2 f_equal.
    replace (Z.to_nat (b - a + 1)) with (Z.to_nat (m - a + 1) + Z.to_nat (b - (m + 1) + 1)) by lia.
    rewrite blocks_app, fmap_app, concat_app. do 4 f_equal. lia.
Qed.

(** Reading events in batches is reading them all at once: for any size of a
    batch that is not negative the throttler yields, in order and each once,
    the events of exactly the blocks from [from_block] to [to_block], as one
    call over the whole range would; but the batches have one block more than
    [max_blocks_per_call], except possibly the last. *)
Theorem throttler_reads_every_block_once t :
  t.(event_filter) = filter -> t.(argument_filters) = filters ->
  (0 <= t.(max_blocks_per_call))%Z -> (t.(from_block) <= t.(to_block))%Z ->
  iter t w = filter (Some t.(from_block)) (Some t.(to_block)) filters w /\
  let l := block_ranges t.(from_block) t.(to_block) t.(max_blocks_per_call) in
  covers t.(from_block) t.(to_block) l /\
  forall init r, l = init ++ [r] ->
    Forall (fun r => r.2 - r.1 + 1 = t.(max_blocks_per_call) + 1)%Z init /\
    (r.2 - r.1 + 1 <= t.(max_blocks_per_call) + 1)%Z.
Proof.
  intros Hf Ha Hmax Hle.
  destruct (ranges_cover (Z.to_nat (t.(to_block) - t.(from_block) + 2)) t.(max_blocks_per_call) t.(to_block) t.(from_block))
    as (H1 & H2 & H3); [lia..|]. fold (block_ranges t.(from_block) t.(to_block) t.(max_blocks_per_call)) in *.
  split; [|split; [exact H1|]].
  - unfold iter. rewrite Hf, Ha, (read_covers _ _ _ H1). by rewrite stable.
  - intros init r Hl. split.
    + eapply Forall_impl; [eapply H3, Hl|]. intros [a b] Hab. cbn in *. lia.
    + rewrite Hl in H2. apply Forall_app in H2 as [_ H2]. rewrite Forall_singleton in H2. cbn in H2. lia.
Qed.

End Stable.

(** With a negative batch size nothing is read, silently. *)
Lemma negative_batches t w : (t.(max_blocks_per_call) < 0)%Z -> iter t w = (Ok [], w).
Proof.
  intros Hmax. unfold iter, block_ranges. destruct (Z.to_nat _) as [|n]; [done|]. cbn [ranges].
  by rewrite (proj2 (Z.leb_gt _ _)) by lia.
Qed.

End Events.
End Events.

(** ** Evaluated: one event per block, batches of two. *)

Module EventsDemo.
Import Events.

#[local] Instance demo_source : EventSource unit := {
  event_names := ["Transfer"%string];
  getLogs _ a b _ := py_ret match b with
                            | Block b => (fun n => Entry [] n "0x") <$> blocks (Z.to_nat (b - a + 1)) a
                            | Latest => []
                            end;
  has_interface _ := false;
  block_timestamp _ := py_ret 0%Z;
  block_number := py_ret 7%Z;
}.

Definition demo_logs (n : Z) : list event_record := [EventRecord (Entry [] n "0x") None].
Definition demo_filter : option Z -> option Z -> list (string * string) -> PyM unit (list event_record) := wrapper "Transfer".
Definition demo_throttler : throttler := Throttler demo_filter 3 7 1 [].

Lemma demo_records l (w : unit) : records l w = (Ok ((fun e => EventRecord e None) <$> l), w).
Proof. induction l as [|e l IH]; [done|]. cbn [records]. unfold py_bind, new_event_record, gets. cbn. by rewrite IH. Qed.

Lemma demo_stable a b : (a <= b)%Z ->
  demo_filter (Some a) (Some b) [] tt = (Ok (concat (demo_logs <$> blocks (Z.to_nat (b - a + 1)) a)), tt).
Proof.
  intros _. unfold demo_filter, wrapper, py_bind. cbn. rewrite demo_records. do 2 f_equal.
  generalize (Z.to_nat (b - a + 1)) as n. intros n. revert a. induction n as [|n IH]; intros a; [done|].
  cbn. f_equal. apply IH.
Qed.

Lemma throttler_reads_every_block_once_witness :
  block_ranges 3 7 1 = [(3, 4); (5, 6); (7, 7)]%Z /\
  iter demo_throttler tt = demo_filter (Some 3%Z) (Some 7%Z) [] tt.
Proof.
  split; [reflexivity|].
  apply (throttler_reads_every_block_once demo_filter [] tt demo_logs demo_stable demo_throttler);
    [reflexivity|reflexivity|cbn; lia|cbn; lia].
Defined.

End EventsDemo.
