(* ===== verification/Rpc.v ===== *)
(** * nulink/blockchain/middleware/retry.py

    The middlewares that repeat a rejected RPC request with an exponential
    back-off: the generic one, Alchemy's and Infura's.  The request and
    [time.sleep] are the class [RpcEndpoint]. *)

From Stdlib Require Import Ascii.
From S2P Require Import Prelude Text.

(** [response['error']]: a text or a dict with a code and a message. *)
Inductive rpc_error :=
  | ErrorText (s : bytes)
  | ErrorDict (code : option Z) (message : option bytes).

(** What a request ends in: a response, an [HTTPError] with the status of its
    response, or another exception. *)
Inductive rpc_outcome :=
  | RPCResponse (error : option rpc_error) (payload : bytes)
  | HTTPError_ (status_code : Z)
  | OtherException (e : exn_class).

Class RpcEndpoint (W : Type) := {
  make_request : string -> list string -> W -> rpc_outcome * W;
  time_sleep : Z -> W -> W;
}.

Module Retry.

Section Retry.
Context {W : Type} `{!RpcEndpoint W}.

(** [RetryRequestMiddleware.is_request_result_retry]. *)
Definition is_request_result_retry (r : rpc_outcome) : result bool :=
  match r with
  | HTTPError_ status_code => Ok (status_code =? 429)%Z
  | RPCResponse (Some (ErrorDict (Some code) _)) _ => Ok (code =? 429)%Z
  | _ => Ok false
  end.

(** ['retries' in message]: a missing message raises. *)
Definition text_in (sub : string) (message : option bytes) : result bool :=
  match message with Some m => Ok (is_infix (to_bytes sub) m) | None => Raise TypeError end.

(** [AlchemyRetryRequestMiddleware]. *)
Definition alchemy_is_retry (r : rpc_outcome) : result bool :=
  let? base := is_request_result_retry r in
  if base : bool then Ok true
  else match r with
       | RPCResponse (Some (ErrorText s)) _ => text_in "retries" (Some s)
       | RPCResponse (Some (ErrorDict _ message)) _ => text_in "retries" message
       | _ => Ok false
       end.

(** [InfuraRetryRequestMiddleware]. *)
Definition infura_is_retry (r : rpc_outcome) : result bool :=
  let? base := is_request_result_retry r in
  if base : bool then Ok true
  else match r with
       | RPCResponse (Some (ErrorDict code message)) _ =>
           if bool_decide (code = Some (-32005)%Z) then text_in "rate exceeded" message else Ok false
       | _ => Ok false
       end.

Section Call.
Variable is_retry : rpc_outcome -> result bool.
Variable retries : nat.
Variable exponential_backoff : bool.

(** The loop of [__call__], in its [i]-th round of [i + left + 1]. *)
Fixpoint attempts (left i : nat) (method : string) (params : list string) (w : W) : result rpc_outcome * W :=
  let '(result, w) := make_request method params w in
  match is_retry result with
  | Raise e => (Raise e, w)
  | Ok false => (Ok result, w)
  | Ok true =>
      match left with
      | 0 => (Ok result, w)
      | S left' =>
          attempts left' (S i) method params
            (if exponential_backoff then time_sleep (2 ^ (Z.of_nat i + 1)) w else w)
      end
  end.

(** [__call__]: what it returns, or the exception of the last request. *)
Inductive call_result := Returned (error : option rpc_error) (payload : bytes) | RaisedHTTP (status : Z) | Raised (e : exn_class).

Definition call (method : string) (params : list string) (w : W) : call_result * W :=
  match attempts retries 0 method params w with
  | (Ok (RPCResponse e p), w') => (Returned e p, w')
  | (Ok (HTTPError_ s), w') => (RaisedHTTP s, w')
  | (Ok (OtherException e), w') => (Raised e, w')
  | (Raise e, w') => (Raised e, w')
  end.

(** ** The specification *)

(** The world in which the [k]-th request is made, if all before it were
    repeated, with the waiting time so far. *)
Fixpoint before_attempt (k : nat) (method : string) (params : list string) (w : W) : W :=
  match k with
  | 0 => w
  | S k' =>
      let w1 := (make_request method params (before_attempt k' method params w)).2 in
      if exponential_backoff then time_sleep (2 ^ Z.of_nat k) w1 else w1
  end.

Definition attempt (k : nat) (method : string) (params : list string) (w : W) : rpc_outcome * W :=
  make_request method params (before_attempt k method params w).

Lemma attempts_spec method params w left i :
  exists k, i <= k <= i + left /\
    (forall j, i <= j < k -> is_retry (attempt j method params w).1 = Ok true) /\
    attempts left i method params (before_attempt i method params w) =
      (match is_retry (attempt k method params w).1 with
       | Raise e => Raise e
       | Ok _ => Ok (attempt k method params w).1
       end, (attempt k method params w).2) /\
    (is_retry (attempt k method params w).1 = Ok true -> k = i + left).
Proof.
  revert i. induction left as [|left IH]; intros i; cbn [attempts]; fold (attempt i method params w);
    destruct (attempt i method params w) as [r w1] eqn:Ha.
  - exists i. split; [lia|]. split; [intros j Hj; lia|]. rewrite Ha. cbn [fst snd]. split; [|lia].
    by destruct (is_retry r) as [[]|].
  - destruct (is_retry r) as [[]|e] eqn:Hr.
    + destruct (IH (S i)) as (k & Hk & Hbefore & Heq & Hlast). exists k. split; [lia|]. split_and!.
      * intros j Hj. destruct (decide (j = i)) as [->|]; [by rewrite Ha|]. apply Hbefore. lia.
      * rewrite <- Heq. cbn [before_attempt]. fold (attempt i method params w). rewrite Ha. cbn [snd].
        by replace (Z.of_nat i + 1)%Z with (Z.of_nat (S i)) by lia.
      * intros H. rewrite Hlast by done. lia.
    + exists i. split; [lia|]. split; [intros j Hj; lia|]. rewrite Ha. cbn [fst snd]. rewrite Hr. split; [done|congruence].
    + exists i. split; [lia|]. split; [intros j Hj; lia|]. rewrite Ha. cbn [fst snd]. rewrite Hr. split; [done|congruence].
Qed.

(** The time waited before the [k]-th request. *)
Fixpoint waited (k : nat) : Z := match k with 0 => 0 | S k' => waited k' + 2 ^ Z.of_nat k end.

Lemma waited_closed k : (waited k = 2 ^ (Z.of_nat k + 1) - 2)%Z.
Proof.
  induction k as [|k IH]; [done|]. cbn [waited]. rewrite IH. rewrite Nat2Z.inj_succ.
  replace (Z.succ (Z.of_nat k)) with (Z.of_nat k + 1)%Z by lia.
  rewrite (Z.pow_add_r 2 (Z.of_nat k + 1) 1) by lia. lia.
Qed.

(** A call makes the request once and repeats it only while the answer asks
    for it, at most [retries] times: what comes back is the outcome of the
    last request, be it a response or an exception, all requests before it
    were asked to be repeated, and the last one was not unless the retries
    were used up.  By then the call has waited 2, 4, 8, ... seconds, together
    at most [2 ^ (retries + 1) - 2]. *)
Theorem call_retries method params w (clock : W -> Z) :
  (forall n w, (clock (time_sleep n w) = clock w + n)%Z) ->
  (forall w, clock (make_request method params w).2 = clock w) ->
  exists k, k <= retries /\
    (forall j, j < k -> is_retry (attempt j method params w).1 = Ok true) /\
    (is_retry (attempt k method params w).1 = Ok true -> k = retries) /\
    (call method params w).2 = (attempt k method params w).2 /\
    (call method params w).1 =
      match is_retry (attempt k method params w).1, (attempt k method params w).1 with
      | Raise e, _ => Raised e
      | Ok _, RPCResponse e p => Returned e p
      | Ok _, HTTPError_ s => RaisedHTTP s
      | Ok _, OtherException e => Raised e
      end /\
    (clock (call method params w).2 - clock w = if exponential_backoff then waited k else 0)%Z /\
    (clock (call method params w).2 - clock w <= 2 ^ (Z.of_nat retries + 1) - 2)%Z.
Proof.
  intros Hsleep Hreq. destruct (attempts_spec method params w retries 0) as (k & Hk & Hbefore & Heq & Hlast).
  cbn [before_attempt] in Heq.
  assert ((call method params w).2 = (attempt k method params w).2) as Hw.
  { unfold call. rewrite Heq. destruct (attempt k method params w) as [[] ?]; cbn; by destruct (is_retry _). }
  assert (clock (attempt k method params w).2 - clock w = if exponential_backoff then waited k else 0)%Z as Hclock.
  { unfold attempt. rewrite Hreq. clear - Hsleep Hreq. induction k as [|k IH]; cbn [before_attempt waited].
    - destruct exponential_backoff; lia.
    - destruct exponential_backoff; rewrite ?Hsleep, Hreq; lia. }
  assert (2 <= 2 ^ (Z.of_nat retries + 1))%Z by (rewrite Z.pow_add_r by lia; pose proof (Z.pow_pos_nonneg 2 (Z.of_nat retries)); lia).
  exists k. rewrite Hw, Hclock. split_and!; [lia|intros j Hj; apply Hbefore; lia|done|done| |done|].
  - unfold call. rewrite Heq. destruct (attempt k method params w) as [[] ?]; cbn; by destruct (is_retry _).
  - destruct exponential_backoff; [|lia]. rewrite waited_closed.
    assert (2 ^ (Z.of_nat k + 1) <= 2 ^ (Z.of_nat retries + 1))%Z by (apply Z.pow_le_mono_r; lia). lia.
Qed.

End Call.

End Retry.

(** ** Evaluated: the provider answers at the third request. *)

Module RetryDemo.

#[local] Instance demo_endpoint : RpcEndpoint (nat * Z) := {
  make_request _ _ w := (match w.1 with
                         | 0 => RPCResponse None []
                         | _ => RPCResponse (Some (ErrorDict (Some 429%Z) None)) []
                         end, (Nat.pred w.1, w.2));
  time_sleep n w := (w.1, (w.2 + n)%Z);
}.

Lemma call_retries_witness :
  call is_request_result_retry 7 true "eth_call" [] (2, 0%Z) = (Returned None [], (0, 6%Z)) /\
  (6 - 0 <= 2 ^ 8 - 2)%Z.
Proof.
  split; [reflexivity|].
  destruct (call_retries is_request_result_retry 7 true "eth_call" [] (2, 0%Z) snd) as (k & _ & _ & _ & _ & _ & _ & Hle);
    [done|done|]. exact Hle.
Defined.

End RetryDemo.
End Retry.
