(* ===== verification/Gas.v ===== *)
(** * nulink/utilities/datafeeds.py and gas_strategies.py

    Gas price feeds and the strategies that set the price of a transaction:
    the median of the feeds, fixed prices, web3's strategies and the cap on
    all of them.  HTTP, web3 and its strategies are the class [PriceSource]. *)

From Stdlib Require Import Ascii Sorting.Permutation.
From stdpp Require Import sorting.
From S2P Require Import Prelude Text Json.

Class PriceSource (W : Type) := {
  (* [requests.get(url)]: the status code and the parsed body *)
  requests_get : string -> PyM W (Z * json);
  (* [int(Web3.toWei(v, 'gwei'))] *)
  to_wei_gwei : json -> result Z;
  (* [rpc_gas_price_strategy(web3, transaction_params)] *)
  rpc_gas_price : PyM W Z;
  (* web3's time based strategies; [ValidationError] is [GasStrategyError]'s cause *)
  web3_gas_price : string -> PyM W Z;
  (* [web3.exceptions.ValidationError] is what an exception is *)
  is_validation_error : exn_class -> bool;
}.

Module Gas.

(** ** datafeeds.py *)

(** The constants of constant_sorrow. *)
Inductive speed_class := SLOW | MEDIUM | FAST | FASTEST.
#[global] Instance speed_class_eq_dec : EqDecision speed_class.
Proof. solve_decision. Defined.

Definition _speed_equivalence_classes : list (speed_class * list bytes) :=
  [(SLOW, [to_bytes "slow"; to_bytes "safeLow"; to_bytes "low"]);
   (MEDIUM, [to_bytes "medium"; to_bytes "standard"; to_bytes "average"]);
   (FAST, [to_bytes "fast"; to_bytes "high"]);
   (FASTEST, [to_bytes "fastest"])].

(** [get_canonical_speed]: the class of a name, whatever its case. *)
Definition get_canonical_speed (speed : bytes) : result speed_class :=
  match find (fun kv => bool_decide (lower speed ∈ lower <$> kv.2)) _speed_equivalence_classes with
  | Some (c, _) => Ok c
  | None => Raise LookupError
  end.

Inductive feed := Etherchain | Upvest | Zoltu.

Definition api_url (f : feed) : string :=
  match f with
  | Etherchain => "https://www.etherchain.org/api/gasPriceOracle"
  | Upvest => "https://fees.upvest.co/estimate_eth_fees"
  | Zoltu => "https://gas-oracle.zoltu.io"
  end.

Definition _default_speed (f : feed) : bytes :=
  match f with Upvest => to_bytes "fastest" | _ => to_bytes "fast" end.

(** [ZoltuGasPriceDatafeed._speed_names]; the other feeds' are not used. *)
Definition zoltu_speed_names : list (speed_class * bytes) :=
  [(SLOW, to_bytes "percentile_40"); (MEDIUM, to_bytes "percentile_75");
   (FAST, to_bytes "percentile_95"); (FASTEST, to_bytes "percentile_98")].

Section Feeds.
Context {W : Type} `{!PriceSource W}.

(** [_probe_feed]: the raw data. *)
Definition _probe_feed (f : feed) : PyM W json :=
  r <- try_except (requests_get (api_url f)) [RequestsConnectionError] (fun _ => raise DatafeedError) ;;
  if negb (r.1 =? 200)%Z then raise DatafeedError else py_ret r.2.

(** The dict comprehension of Etherchain and Upvest. *)
Fixpoint canonical_prices (items : list (bytes * json)) (prices : list (speed_class * Z))
    : result (list (speed_class * Z)) :=
  match items with
  | [] => Ok prices
  | (k, v) :: items' =>
      let? c := get_canonical_speed k in
      let? p := to_wei_gwei v in
      canonical_prices items' (dict_set prices c p)
  end.

(** [raw[zoltu_speed].split(" ")[0]] for each speed. *)
Fixpoint zoltu_prices (raw : list (bytes * json)) (names : list (speed_class * bytes)) (prices : list (speed_class * Z))
    : result (list (speed_class * Z)) :=
  match names with
  | [] => Ok prices
  | (c, name) :: names' =>
      match dict_get raw name with
      | None => Raise KeyError
      | Some (JStr s) =>
          let? p := to_wei_gwei (JStr (default [] (head (split [" "%char] s)))) in
          zoltu_prices raw names' (dict_set prices c p)
      | Some _ => Raise AttributeError
      end
  end.

Definition items_of (data : json) : result (list (bytes * json)) :=
  match data with JObj m => Ok m | _ => Raise AttributeError end.

(** [_parse_gas_prices]. *)
Definition _parse_gas_prices (f : feed) : PyM W (list (speed_class * Z)) :=
  raw <- _probe_feed f ;;
  lift match f with
       | Etherchain => let? m := items_of raw in canonical_prices m []
       | Upvest =>
           match raw with
           | JObj m => match dict_get m (to_bytes "estimates") with
                       | Some e => let? m' := items_of e in canonical_prices m' []
                       | None => Raise KeyError
                       end
           | _ => Raise TypeError
           end
       | Zoltu => match raw with
                  | JObj m => zoltu_prices m zoltu_speed_names []
                  | _ => Raise TypeError
                  end
       end.

(** [get_gas_price]; [construct_gas_strategy] calls it on a new feed. *)
Definition get_gas_price (f : feed) (speed : option bytes) : PyM W Z :=
  let speed := match speed with Some (c :: s) => c :: s | _ => _default_speed f end in
  gas_prices <- _parse_gas_prices f ;;
  c <- lift (get_canonical_speed speed) ;;
  lift match dict_get gas_prices c with Some p => Ok p | None => Raise KeyError end.

(** ** gas_strategies.py *)

(** A strategy: the price for a transaction. *)
Definition strategy : Type := PyM W Z.

(** [max_price_gas_strategy_wrapper]. *)
Definition max_price_gas_strategy_wrapper (gas_strategy : strategy) (max_gas_price_wei : Z) : strategy :=
  gas_price <- gas_strategy ;;
  py_ret (if (max_gas_price_wei <? gas_price)%Z then max_gas_price_wei else gas_price).

(** [statistics.median], truncated by [int]: the middle of the sorted prices
    or the mean of the middle two. *)
Definition int_median (prices : list Z) : Z :=
  let s := merge_sort Z.le prices in
  let n := length s in
  let at_ i := default 0%Z (s !! i) in
  if Nat.odd n then at_ (n / 2) else Z.quot (at_ (n / 2 - 1) + at_ (n / 2)) 2.

(** The loop over the feeds: any exception leaves the feed out. *)
Fixpoint collect_prices (feeds : list feed) (speed : option bytes) : PyM W (list Z) :=
  match feeds with
  | [] => py_ret []
  | f :: feeds' =>
      p <- try_except (x <- get_gas_price f speed ;; py_ret (Some x)) [Exception] (fun _ => py_ret None) ;;
      ps <- collect_prices feeds' speed ;;
      py_ret (match p with Some x => x :: ps | None => ps end)
  end.

Definition median_feeds : list feed := [Upvest; Zoltu].

(** [construct_datafeed_median_strategy]. *)
Definition datafeed_median_gas_price_strategy (speed : option bytes) : strategy :=
  prices <- collect_prices median_feeds speed ;;
  match prices with
  | [] => rpc_gas_price
  | _ => py_ret (int_median prices)
  end.

(** [web3_gas_strategy_wrapper]. *)
Definition web3_gas_strategy_wrapper (web3_gas_strategy : strategy) : strategy := fun w =>
  match web3_gas_strategy w with
  | (Raise e, w') => (Raise (if is_validation_error e then GasStrategyError else e), w')
  | r => r
  end.

Definition WEB3_GAS_STRATEGIES : list (string * strategy) :=
  (fun speed => (speed, web3_gas_strategy_wrapper (web3_gas_price speed))) <$> ["slow"; "medium"; "fast"]%string.

(** [construct_fixed_price_gas_strategy], of a price in wei. *)
Definition fixed_price_strategy (gas_price_in_wei : Z) : strategy := py_ret gas_price_in_wei.

(** ** What the strategies promise *)

(** Each name of a speed class, in any case, is of that class. *)
Lemma canonical_speed_classes c names name speed :
  (c, names) ∈ _speed_equivalence_classes -> name ∈ names -> lower speed = lower name ->
  get_canonical_speed speed = Ok c.
Proof.
  intros Hc Hn Hl. unfold get_canonical_speed. rewrite Hl. clear Hl. unfold _speed_equivalence_classes in *.
  repeat (apply elem_of_cons in Hc as [[= -> ->]|Hc]); [..|by apply elem_of_nil in Hc];
    repeat (apply elem_of_cons in Hn as [->|Hn]); try reflexivity; by apply elem_of_nil in Hn.
Qed.

(** The median lies between any bounds of the prices. *)
Lemma int_median_bounds prices lo hi :
  prices <> [] -> (0 <= lo)%Z -> Forall (fun p => lo <= p <= hi)%Z prices -> (lo <= int_median prices <= hi)%Z.
Proof.
  intros Hne Hlo Hall. unfold int_median. set (s := merge_sort Z.le prices).
  assert (Permutation s prices) as Hp by apply merge_sort_Permutation.
  assert (Forall (fun p => lo <= p <= hi)%Z s) as Hs by by rewrite Hp.
  assert (0 < length s) as Hn by (rewrite (Permutation_length Hp); destruct prices; [done|cbn; lia]).
  assert (forall i : nat, i < length s -> (lo <= default 0%Z (s !! i) <= hi)%Z) as Hat.
  { intros i Hi. destruct (lookup_lt_is_Some_2 s i Hi) as [x Hx]. rewrite Hx. cbn.
    rewrite Forall_forall in Hs. by apply Hs, (list_elem_of_lookup_2 _ i). }
  destruct (Nat.odd (length s)).
  - apply Hat. apply Nat.div_lt; lia.
  - pose proof (Hat (length s / 2 - 1)) as H1. pose proof (Hat (length s / 2)) as H2.
    assert (length s / 2 < length s) by (apply Nat.div_lt; lia).
    specialize (H1 ltac:(lia)). specialize (H2 ltac:(lia)).
    rewrite Z.quot_div_nonneg by lia. split; [apply Z.div_le_lower_bound|apply Z.div_le_upper_bound]; lia.
Qed.

Lemma collect_prices_total feeds speed w :
  (forall f w e w', get_gas_price f speed w = (Raise e, w') -> catches [Exception] e = true) ->
  exists ps w', collect_prices feeds speed w = (Ok ps, w').
Proof.
  intros Hexn. revert w. induction feeds as [|f feeds IH]; intros w; [by exists [], w|].
  cbn [collect_prices]. unfold py_bind, try_except.
  destruct (get_gas_price f speed w) as [[x|e] w1] eqn:Hf; cbn [py_ret].
  - destruct (IH w1) as (ps & w2 & ->). by eexists _, _.
  - rewrite (Hexn _ _ _ _ Hf). unfold py_ret. destruct (IH w1) as (ps & w2 & ->). by eexists _, _.
Qed.

Lemma collect_prices_bounds feeds speed w ps w' lo hi :
  (forall f w p w', get_gas_price f speed w = (Ok p, w') -> lo <= p <= hi)%Z ->
  collect_prices feeds speed w = (Ok ps, w') -> Forall (fun p => lo <= p <= hi)%Z ps.
Proof.
  intros Hb. revert w ps w'. induction feeds as [|f feeds IH]; intros w ps w'; cbn [collect_prices].
  - intros [= <- _]. constructor.
  - unfold py_bind, try_except. destruct (get_gas_price f speed w) as [[x|e] w1] eqn:Hf; cbn [py_ret].
    + destruct (collect_prices feeds speed w1) as [[qs|e] w2] eqn:Hq; [|done].
      intros [= <- _]. constructor; [by eapply Hb|by eapply IH].
    + destruct (catches [Exception] e); [|done]. unfold py_ret.
      destruct (collect_prices feeds speed w1) as [[qs|e'] w2] eqn:Hq; [|done].
      intros [= <- _]. by eapply IH.
Qed.

(** The price of a capped median strategy never exceeds the cap, and it
    survives its feeds: whatever they answer (not at all, with an error code,
    without the speed asked for, with text that is no number) it only raises
    when all of them fail and the node's own price cannot be had either.  If
    the feeds that answer stay between two bounds, so does the uncapped
    median. *)
Theorem median_strategy_is_capped speed cap w r w' :
  (forall f w e w', get_gas_price f speed w = (Raise e, w') -> catches [Exception] e = true) ->
  max_price_gas_strategy_wrapper (datafeed_median_gas_price_strategy speed) cap w = (r, w') ->
  exists ps w1, collect_prices median_feeds speed w = (Ok ps, w1) /\
  match r with
  | Ok p => (p <= cap)%Z /\
      (ps <> [] -> forall lo hi, (0 <= lo)%Z ->
         (forall f w p w', get_gas_price f speed w = (Ok p, w') -> lo <= p <= hi)%Z -> (Z.min lo cap <= p <= hi)%Z)
  | Raise e => ps = [] /\ rpc_gas_price w1 = (Raise e, w')
  end.
Proof.
  intros Hexn. unfold max_price_gas_strategy_wrapper, datafeed_median_gas_price_strategy, py_bind.
  destruct (collect_prices_total median_feeds speed w Hexn) as (ps & w1 & Hps). rewrite Hps. intros Hr.
  exists ps, w1. split; [done|]. destruct ps as [|p0 ps].
  - destruct (rpc_gas_price w1) as [[p|e] w2]; unfold py_ret in Hr; simplify_eq; [|done].
    destruct (Z.ltb_spec cap p); (split; [lia|done]).
  - unfold py_ret in Hr. simplify_eq. split; [destruct (Z.ltb_spec cap (int_median (p0 :: ps))); lia|].
    intros _ lo hi Hlo Hb. pose proof (collect_prices_bounds _ _ _ _ _ lo hi Hb Hps) as Hall.
    pose proof (int_median_bounds (p0 :: ps) lo hi ltac:(done) Hlo Hall).
    destruct (Z.ltb_spec cap (int_median (p0 :: ps))); lia.
Qed.

End Feeds.

(** ** Evaluated: Upvest answers with an error code, Zoltu with prices. *)

Module GasDemo.

#[local] Instance demo_source : PriceSource unit := {
  requests_get url := if String.eqb url (api_url Zoltu)
    then py_ret (200%Z, JObj ((fun cn => (cn.2, JStr (to_bytes "41 gwei"))) <$> zoltu_speed_names))
    else py_ret (500%Z, JNull);
  to_wei_gwei j := match j with JStr s => if decide (s = to_bytes "41") then Ok 41000000000%Z else Raise ValueError
                   | _ => Raise TypeError end;
  rpc_gas_price := raise ConnectionError;
  web3_gas_price _ := raise ValueError;
  is_validation_error e := bool_decide (e = ValueError);
}.

Lemma demo_exceptions speed f w e w' : get_gas_price f speed w = (Raise e, w') -> catches [Exception] e = true.
Proof.
  assert (exists r, _parse_gas_prices f w = (r, w) /\ match r with Raise e => catches [Exception] e = true | _ => True end)
    as (r & Hr & Hc) by (destruct f, w; (eexists; split; [vm_compute; reflexivity|reflexivity || exact I])).
  unfold get_gas_price, py_bind. rewrite Hr. destruct r as [prices|e1]; [|by intros [= <- _]].
  unfold lift. destruct (get_canonical_speed _) as [c|e1] eqn:Hs.
  - destruct (dict_get prices c); [done|]. by intros [= <- _].
  - unfold get_canonical_speed in Hs. destruct (find _ _) as [[? ?]|]; [done|]. injection Hs as <-. by intros [= <- _].
Qed.

Lemma median_strategy_is_capped_witness :
  max_price_gas_strategy_wrapper (datafeed_median_gas_price_strategy (Some (to_bytes "FAST"))) 40000000000 tt
    = (Ok 40000000000%Z, tt) /\ (40000000000 <= 40000000000)%Z.
Proof.
  split; [vm_compute; reflexivity|].
  destruct (median_strategy_is_capped (Some (to_bytes "FAST")) 40000000000 tt (Ok 40000000000%Z) tt) as (ps & w1 & _ & H & _);
    [intros; by eapply demo_exceptions|vm_compute; reflexivity|exact H].
Defined.

End GasDemo.
End Gas.
