(* ===== verification/Reservoir.v ===== *)
(** * nulink/policy/reservoir.py

    The two reservoir builders, [MergedReservoir] and [PrefetchStrategy].
    The strategy is the value factory of the worker pools of policy
    creation: it implements the interfaces [ValueFactory] and
    [FiniteFactory] of Concurrency.v. *)

From stdpp Require Import pretty.
From S2P Require Import Prelude Concurrency Sampler Agents.

Module Reservoir.

Section Merged.
Context {G : Type} `{!Rng G}.

(** [MergedReservoir]: the list first, then the sampler (with its generator). *)
Record merged := Merged {
  values : list string;
  reservoir : WeightedSampler.sampler (A:=string);
  rng : G;
}.

(** [MergedReservoir.__call__]. *)
Definition merged_call : PyM merged (option string) := fun m =>
  match m.(values) with
  | v :: vs => (Ok (Some v), Merged vs m.(reservoir) m.(rng))
  | [] =>
      if (0 <? m.(reservoir).(WeightedSampler.len))%Z then
        match WeightedSampler.draw 1 (m.(reservoir), m.(rng)) with
        | (Ok (x :: _), (s, g)) => (Ok (Some x), Merged [] s g)
        | (Ok [], (s, g)) => (Raise IndexError, Merged [] s g)
        | (Raise e, (s, g)) => (Raise e, Merged [] s g)
        end
      else (Ok None, m)
  end.

(** [PrefetchStrategy]. *)
Record prefetch := Prefetch {
  source : merged;
  need_successes : Z;
}.

(** The [for] loop of [PrefetchStrategy.__call__], [break] on [None]. *)
Fixpoint fetch (n : nat) (batch : list string) : PyM merged (list string) :=
  match n with
  | 0 => py_ret batch
  | S n' => value <- merged_call ;;
            match value with
            | None => py_ret batch
            | Some v => fetch n' (batch ++ [v])
            end
  end.

Definition prefetch_call (successes : Z) (p : prefetch) : result (option (list string)) * prefetch :=
  match fetch (Z.to_nat (p.(need_successes) - successes)) [] p.(source) with
  | (Raise e, m) => (Raise e, Prefetch m p.(need_successes))
  | (Ok [], m) => (Ok None, Prefetch m p.(need_successes))
  | (Ok batch, m) => (Ok (Some batch), Prefetch m p.(need_successes))
  end.

#[global] Instance prefetch_value_factory : ValueFactory prefetch string := prefetch_call.

(** ** The supply of a strategy *)

Definition merged_supply (m : merged) : nat :=
  length m.(values) + Z.to_nat m.(reservoir).(WeightedSampler.len).

Lemma sample_loop_len q samples s g r s' g' :
  WeightedSampler.sample_loop (A:=string) q samples (s, g) = (r, (s', g')) ->
  s'.(WeightedSampler.len) = s.(WeightedSampler.len).
Proof.
  revert samples s g. induction q as [|q IH]; intros samples s g; simpl.
  { by intros [= _ <- _]. }
  unfold py_bind. destruct (WeightedSampler.sample_one (s, g)) as [[x|e] [s1 g1]] eqn:H1.
  all: assert (s1.(WeightedSampler.len) = s.(WeightedSampler.len)) as Hl
    by (unfold WeightedSampler.sample_one in H1; repeat case_match; by simplify_eq/=).
  - intros Hl2%IH. congruence.
  - intros. by simplify_eq.
Qed.

Lemma draw_one_len s g l s' g' :
  WeightedSampler.draw (A:=string) 1 (s, g) = (Ok l, (s', g')) ->
  s'.(WeightedSampler.len) = (s.(WeightedSampler.len) - 1)%Z.
Proof.
  unfold WeightedSampler.draw, WeightedSampler.sample_no_replacement. cbn [fst].
  destruct (_ <? 1)%Z; [done|]. simpl (1 =? 0)%Z. cbv iota.
  unfold py_bind at 1, modify, py_ret. intros Hd.
  destruct (WeightedSampler.sample_loop _ _ (s, g)) as [[x|e] [s1 g1]] eqn:H1; [|done].
  apply sample_loop_len in H1. unfold py_bind in Hd. simplify_eq. simpl. by rewrite H1.
Qed.

Lemma merged_call_supply m v m' :
  merged_call m = (Ok (Some v), m') -> S (merged_supply m') = merged_supply m.
Proof.
  unfold merged_call, merged_supply. destruct (values m) as [|x vs] eqn:Hv.
  - destruct (Z.ltb_spec 0 m.(reservoir).(WeightedSampler.len)); [|done].
    destruct (WeightedSampler.draw 1 _) as [[[|x l]|e] [s g]] eqn:Hd; try done.
    apply draw_one_len in Hd. intros [= -> <-]. simpl. lia.
  - intros [= -> <-]. done.
Qed.

Lemma fetch_supply n batch m b m' :
  fetch n batch m = (Ok b, m') ->
  length b + merged_supply m' <= length batch + merged_supply m.
Proof.
  revert batch m. induction n as [|n IH]; intros batch m; simpl.
  - intros [= -> ->]. done.
  - unfold py_bind. destruct (merged_call m) as [[[v|]|e] m1] eqn:Hc; [| |done].
    + apply merged_call_supply in Hc. intros Hf%IH. rewrite length_app in Hf. simpl in Hf. lia.
    + intros [= -> <-]. revert Hc. unfold merged_call. repeat case_match; intros; simplify_eq; lia.
Qed.

#[global] Program Instance prefetch_finite : FiniteFactory prefetch string :=
  {| supply p := merged_supply p.(source) |}.
Next Obligation.
  intros n p b p'. unfold value_factory, prefetch_value_factory, prefetch_call.
  destruct (fetch _ _ _) as [[[|x l]|e] m] eqn:Hf; try done.
  intros [= <- <-]. apply fetch_supply in Hf. done.
Qed.

(** ** What a strategy hands out *)

(** [vs] and then, in some order, [lv] are still to be drawn. *)
Definition holds (m : merged) (vs lv : list string) : Prop :=
  m.(values) = vs /\ exists ws, WeightedSampler.sampler_ok m.(reservoir) ws /\
    WeightedSampler.live m.(reservoir).(WeightedSampler.elements) ws = lv.

Lemma merged_call_cons m v vs lv :
  holds m (v :: vs) lv -> exists m', merged_call m = (Ok (Some v), m') /\ holds m' vs lv.
Proof.
  intros [Hv Hs]. unfold merged_call. rewrite Hv. eexists. split; [done|]. by split.
Qed.

Lemma merged_call_draw m lv :
  holds m [] lv -> lv <> [] ->
  exists x lv' m', merged_call m = (Ok (Some x), m') /\ holds m' [] lv' /\ Permutation lv (x :: lv').
Proof.
  intros [Hv (ws & Hok & Hlv)] Hne. unfold merged_call. rewrite Hv.
  pose proof (proj2 Hok) as Hlen. rewrite Hlv in Hlen.
  destruct lv as [|y lv0]; [done|]. simpl in Hlen.
  destruct (Z.ltb_spec 0 m.(reservoir).(WeightedSampler.len)); [|lia].
  destruct (WeightedSampler.draw_ok m.(reservoir) m.(rng) ws 1 Hok) as
    (dr & s' & g' & ws' & Hd & Hok' & Hl & _ & Hp); [lia|]. rewrite Hd.
  destruct dr as [|x [|]]; simpl in Hl; try lia.
  eexists x, _, _. split; [done|]. split; [|rewrite Hlv in Hp; exact Hp].
  split; [done|]. by exists ws'.
Qed.

Lemma merged_call_empty m : holds m [] [] -> merged_call m = (Ok None, m).
Proof.
  intros [Hv (ws & Hok & Hlv)]. unfold merged_call. rewrite Hv.
  pose proof (proj2 Hok) as Hlen. rewrite Hlv in Hlen. simpl in Hlen. by rewrite Hlen.
Qed.

Lemma fetch_spec n batch m vs lv :
  holds m vs lv ->
  exists drawn lv' m',
    fetch n batch m = (Ok (batch ++ take n vs ++ drawn), m') /\ holds m' (drop n vs) lv' /\
    Permutation lv (drawn ++ lv') /\ length drawn = (n - length vs) `min` length lv.
Proof.
  revert batch m vs lv. induction n as [|n IH]; intros batch m vs lv Hm; simpl.
  { exists [], lv, m. by rewrite drop_0, app_nil_r. }
  unfold py_bind. destruct vs as [|v vs]; [destruct lv as [|x0 lv0]|].
  - rewrite merged_call_empty by done. exists [], [], m.
    split_and!; [by rewrite app_nil_r|done|done|simpl; lia].
  - destruct (merged_call_draw m (x0 :: lv0)) as (x & lv1 & m1 & Hc & Hm1 & Hp1); [done|done|].
    rewrite Hc. destruct (IH (batch ++ [x]) m1 [] lv1 Hm1) as (dr & lv' & m' & Hf & Hm' & Hp & Hl).
    exists (x :: dr), lv', m'. rewrite Hf, take_nil, drop_nil in *.
    split_and!; [by rewrite <-app_assoc|done|by rewrite Hp1, Hp|].
    apply Permutation_length in Hp1. simpl in *. lia.
  - destruct (merged_call_cons m v vs lv Hm) as (m1 & Hc & Hm1). rewrite Hc.
    destruct (IH (batch ++ [v]) m1 vs lv Hm1) as (dr & lv' & m' & Hf & Hm' & Hp & Hl).
    exists dr, lv', m'. rewrite Hf. split_and!; [by rewrite <-app_assoc|done|done|simpl; lia].
Qed.

(** The prefetch strategy hands out every address once: a call asks
    for as many addresses as successes are missing and never raises; it
    takes the included addresses first, in their order, then draws from the
    sampler, and returns fewer only when both are exhausted ([None] when
    nothing is returned); what it returns and what is left afterwards are
    together what there was before. *)
Theorem prefetch_call_spec p successes vs lv :
  holds p.(source) vs lv ->
  let wanted := Z.to_nat (p.(need_successes) - successes) in
  exists drawn lv' p',
    let batch := take wanted vs ++ drawn in
    prefetch_call successes p = (Ok (if decide (batch = []) then None else Some batch), p') /\
    holds p'.(source) (drop wanted vs) lv' /\ p'.(need_successes) = p.(need_successes) /\
    Permutation (vs ++ lv) (batch ++ drop wanted vs ++ lv') /\
    length batch = wanted `min` length (vs ++ lv).
Proof.
  intros Hh wanted. destruct (fetch_spec wanted [] _ _ _ Hh) as (dr & lv' & m' & Hf & Hm' & Hp & Hl).
  exists dr, lv', (Prefetch m' p.(need_successes)). intros batch. split_and!; [|done|done| |].
  - unfold prefetch_call. fold wanted. rewrite Hf. simpl app. fold batch.
    destruct batch; [by rewrite decide_True | by rewrite decide_False].
  - unfold batch. rewrite Hp, <-app_assoc. rewrite <-(take_drop wanted vs) at 1.
    rewrite <-app_assoc. f_equiv. rewrite !app_assoc. f_equiv. apply Permutation_app_comm.
  - unfold batch. rewrite !length_app, length_take. lia.
Qed.

(** Every batch is of addresses that the reservoir held. *)
Definition within (held : list string) (p : prefetch) : Prop :=
  exists vs lv, holds p.(source) vs lv /\ vs ++ lv ⊆ held.

Lemma prefetch_call_within held n p r p' :
  value_factory n p = (r, p') -> within held p ->
  within held p' /\ forall batch, r = Ok (Some batch) -> Forall (fun a => a ∈ held) batch.
Proof.
  intros Hc (vs & lv & Hh & Hsub). unfold value_factory, prefetch_value_factory, prefetch_call in Hc.
  destruct (fetch_spec (Z.to_nat (need_successes p - n)) [] _ _ _ Hh) as (dr & lv' & m' & Hf & Hm' & Hp & _).
  rewrite Hf in Hc. simpl app in Hc.
  assert (p' = Prefetch m' p.(need_successes)) as -> by (by destruct (take _ vs ++ dr); simplify_eq).
  split.
  - exists (drop (Z.to_nat (need_successes p - n)) vs), lv'. split; [done|]. intros a Ha. apply Hsub.
    rewrite Hp, !elem_of_app in *. destruct Ha as [Ha|Ha]; [left|by auto].
    rewrite <- (take_drop (Z.to_nat (need_successes p - n)) vs). apply elem_of_app. by right.
  - intros batch ->. apply Forall_forall. intros a Ha. apply Hsub.
    assert (a ∈ take (Z.to_nat (need_successes p - n)) vs ++ dr) as Hin by (by destruct (take _ vs ++ dr); simplify_eq).
    rewrite Hp, !elem_of_app in *. destruct Hin as [Hin|Hin]; [left|by auto].
    rewrite <- (take_drop (Z.to_nat (need_successes p - n)) vs). apply elem_of_app. by left.
Qed.

(** The successes of a pool are among the addresses its reservoir held. *)
Lemma successes_within {R} cfg worker p (s : WorkerPool.pool (V:=string) (R:=R) (F:=prefetch)) vs lv a r :
  holds p.(source) vs lv -> WorkerPool.reachable cfg worker p s -> (a, r) ∈ s.(WorkerPool.successes) -> a ∈ vs ++ lv.
Proof.
  intros Hh Hr. apply (WorkerPool.success_origin cfg worker (fun a => a ∈ vs ++ lv) (within (vs ++ lv))
    (prefetch_call_within (vs ++ lv)) p s a r); [|done]. by exists vs, lv.
Qed.

(** ** Building a reservoir *)

(** The iteration order of a [set] of the given addresses. *)
Variable iter_set : list string -> list string.

(** [include_addresses or ()] and [set(include) | set(exclude or ())]. *)
Definition exclusion_set (include_addresses exclude_addresses : option (list string)) : list string :=
  iter_set (default [] include_addresses ++ default [] exclude_addresses).

(** [for ursula in known_nodes: ... addresses[ursula.checksum_address] = 1]. *)
Definition federated_addresses (known_nodes exclusion : list string) : list (string * Z) :=
  foldl (fun addresses a => if decide (a ∈ exclusion) then addresses else dict_set addresses a 1%Z)
    [] known_nodes.

Definition make_federated_staker_reservoir (known_nodes : list string)
    (exclude_addresses include_addresses : option (list string)) (g : G) : merged :=
  Merged (default [] include_addresses)
    (WeightedSampler.init
       (federated_addresses known_nodes (exclusion_set include_addresses exclude_addresses))) g.

Hypothesis elem_of_iter_set : forall x l, x ∈ iter_set l <-> x ∈ l.

Lemma holds_init vs d g :
  Forall (fun w => 0 < w)%Z d.*2 -> holds (Merged vs (WeightedSampler.init d) g) vs d.*1.
Proof.
  intros Hd. destruct (WeightedSampler.init_ok d Hd) as [Hok Hl]. split; [done|].
  exists d.*2. done.
Qed.

Lemma federated_addresses_spec known exclusion :
  let d := federated_addresses known exclusion in
  dict_wf d /\ Forall (fun w => 0 < w)%Z d.*2 /\ forall a, a ∈ d.*1 <-> a ∈ known /\ a ∉ exclusion.
Proof.
  unfold federated_addresses.
  assert (forall d0 : list (string * Z), dict_wf d0 -> Forall (fun w => 0 < w)%Z d0.*2 ->
    let d := foldl (fun addresses a => if decide (a ∈ exclusion) then addresses
                                        else dict_set addresses a 1%Z) d0 known in
    dict_wf d /\ Forall (fun w => 0 < w)%Z d.*2 /\
    forall a, a ∈ d.*1 <-> a ∈ d0.*1 \/ (a ∈ known /\ a ∉ exclusion)) as Hgen.
  - induction known as [|k known IH]; intros d0 Hwf Hpos; simpl; [set_solver|].
    case_decide as Hk.
    + destruct (IH d0 Hwf Hpos) as (? & ? & Hin). split_and!; [done|done|].
      intros a. rewrite Hin. set_solver.
    + destruct (IH (dict_set d0 k 1%Z)) as (? & ? & Hin).
      * by apply dict_set_wf.
      * apply Forall_fmap, Forall_forall. intros x [->|Hx]%dict_set_elem_of; [done|].
        rewrite Forall_fmap, Forall_forall in Hpos. by apply Hpos.
      * split_and!; [done|done|]. intros a. rewrite Hin, dict_set_elem_of_keys. set_solver.
  - destruct (Hgen []) as (? & ? & Hin); [constructor|constructor|]. split_and!; [done|done|].
    intros a. rewrite Hin. set_solver.
Qed.

(** A federated reservoir holds the included addresses and then
    every known node that is neither included nor excluded, each once. *)
Theorem make_federated_staker_reservoir_spec known exclude include g :
  exists lv,
    holds (make_federated_staker_reservoir known exclude include g) (default [] include) lv /\
    NoDup lv /\
    forall a, a ∈ lv <-> a ∈ known /\ a ∉ default [] include /\ a ∉ default [] exclude.
Proof.
  destruct (federated_addresses_spec known (exclusion_set include exclude)) as (Hwf & Hpos & Hin).
  eexists. split; [by apply holds_init|]. split; [done|]. intros a. rewrite Hin.
  unfold exclusion_set. rewrite elem_of_iter_set, elem_of_app. tauto.
Qed.

Section Decentralized.
Context {W Receipt : Type} `{!Chain W Receipt}.
Variable to_checksum_address : Z -> string.
Variable is_light : bool.
Variables light_size full_size : Z.

Definition make_decentralized_staking_provider_reservoir
    (exclude_addresses include_addresses : option (list string)) (pagination_size : option Z)
    (w : W) (g : G) : option (result merged * W) :=
  let without_set := exclusion_set include_addresses exclude_addresses in
  match PREApplicationAgent.get_staking_provider_reservoir to_checksum_address is_light
          light_size full_size without_set pagination_size w with
  | None => None
  | Some (Ok s, w') => Some (Ok (Merged (default [] include_addresses) s g), w')
  | Some (Raise e, w') =>
      if catches [NotEnoughStakingProviders] e
      then Some (Ok (Merged (default [] include_addresses) (WeightedSampler.init []) g), w')
      else Some (Raise e, w')
  end.

Hypothesis to_checksum_address_inj : forall a b, to_checksum_address a = to_checksum_address b -> a = b.

Lemma excluding_exclusion_set include exclude (m : list (string * Z)) :
  dict_wf m ->
  let d := PREApplicationAgent.excluding (exclusion_set include exclude) m in
  NoDup d.*1 /\ forall a, a ∈ d.*1 <-> a ∈ m.*1 /\ a ∉ default [] include /\ a ∉ default [] exclude.
Proof.
  intros Hwf d. split; [by apply filter_dict_wf|]. intros a. unfold d, exclusion_set.
  rewrite !list_elem_of_fmap. split.
  - intros (kv & -> & [Hn Hin]%list_elem_of_filter).
    rewrite elem_of_iter_set, elem_of_app in Hn. split; [by exists kv|tauto].
  - intros ((kv & -> & Hin) & Hi & He). exists kv. split; [done|]. apply list_elem_of_filter.
    rewrite elem_of_iter_set, elem_of_app. tauto.
Qed.

(** A decentralized reservoir holds the included addresses and then
    the active staking providers that are neither included nor excluded,
    each once; having none left is not an error.  Any other exception of
    the paged read is passed on. *)
Theorem make_decentralized_staking_provider_reservoir_spec registered exclude include ps w g :
  PREApplicationAgent.application_contract registered ->
  let read := PREApplicationAgent.get_all_active_staking_providers to_checksum_address is_light
                light_size full_size ps w in
  let providers := (PREApplicationAgent.checksummed to_checksum_address
                      (PREApplicationAgent.active registered)).*1 in
  (forall all w', read = Some (Ok all, w') ->
    exists m lv,
      make_decentralized_staking_provider_reservoir exclude include ps w g = Some (Ok m, w') /\
      holds m (default [] include) lv /\ NoDup lv /\
      forall a, a ∈ lv <-> a ∈ providers /\ a ∉ default [] include /\ a ∉ default [] exclude) /\
  (forall e w', read = Some (Raise e, w') -> catches [NotEnoughStakingProviders] e = false ->
    make_decentralized_staking_provider_reservoir exclude include ps w g = Some (Raise e, w')).
Proof.
  intros Hc read providers.
  pose proof (PREApplicationAgent.checksummed_active _ to_checksum_address_inj _ Hc) as (Hwf & _ & _).
  pose proof (excluding_exclusion_set include exclude _ Hwf) as [Hnd Hin].
  unfold make_decentralized_staking_provider_reservoir. split.
  - intros all w' Hall.
    destruct (PREApplicationAgent.get_staking_provider_reservoir_ok to_checksum_address is_light
      light_size full_size to_checksum_address_inj registered (exclusion_set include exclude) ps w all w'
      Hc Hall) as [[Hl Hr]|(Hl & s & Hr & Hok & Hlv)]; rewrite Hr; simpl.
    + eexists _, []. rewrite Hl in Hnd, Hin. split; [done|]. split; [by apply (holds_init _ [])|done].
    + eexists _, _. split; [done|]. split; [split; [done|]; eexists; split; [exact Hok|exact Hlv]|done].
  - intros e w' Hr He. unfold PREApplicationAgent.get_staking_provider_reservoir.
    fold read. rewrite Hr, He. done.
Qed.

End Decentralized.
End Merged.

(** ** Evaluated *)

Lemma prefetch_call_spec_witness :
  let p := Prefetch (Merged ["x"]%string (WeightedSampler.init WeightedSampler.three_providers) [5; 4]%Z) 3 in
  exists drawn lv' p',
    let batch := take 3 ["x"]%string ++ drawn in
    prefetch_call 0 p = (Ok (if decide (batch = []) then None else Some batch), p') /\
    holds p'.(source) [] lv' /\ p'.(need_successes) = 3%Z /\
    Permutation ["x"; "a"; "b"; "c"]%string (batch ++ [] ++ lv') /\
    length batch = 3 `min` 4.
Proof.
  apply (prefetch_call_spec
    (Prefetch (Merged ["x"]%string (WeightedSampler.init WeightedSampler.three_providers) [5; 4]%Z) 3)
    0 ["x"]%string ["a"; "b"; "c"]%string).
  apply (holds_init ["x"]%string WeightedSampler.three_providers [5; 4]%Z).
  apply (bool_decide_unpack _). vm_compute. exact I.
Defined.

Lemma make_federated_staker_reservoir_spec_witness :
  exists lv,
    holds (make_federated_staker_reservoir remove_dups ["a"; "b"; "c"]%string (Some ["b"]%string)
             (Some ["c"]%string) ([] : list Z)) ["c"]%string lv /\
    NoDup lv /\
    forall a, a ∈ lv <-> a ∈ ["a"; "b"; "c"]%string /\ a ∉ ["c"]%string /\ a ∉ ["b"]%string.
Proof.
  apply (make_federated_staker_reservoir_spec remove_dups (fun x l => elem_of_remove_dups l x)
           ["a"; "b"; "c"]%string (Some ["b"]%string) (Some ["c"]%string) ([] : list Z)).
Defined.

Lemma make_decentralized_staking_provider_reservoir_spec_witness :
  exists m lv,
    make_decentralized_staking_provider_reservoir remove_dups DemoChain.demo_checksum false 30 1000
      None (Some ["12"; "99"]%string) (Some 8%Z) tt ([] : list Z) = Some (Ok m, tt) /\
    holds m ["12"; "99"]%string lv /\ NoDup lv /\
    forall a, a ∈ lv <-> a ∈ ["10"; "12"; "13"]%string /\ a ∉ ["12"; "99"]%string /\ a ∉ [].
Proof.
  destruct (make_decentralized_staking_provider_reservoir_spec remove_dups
    (fun x l => elem_of_remove_dups l x) DemoChain.demo_checksum false 30 1000 DemoChain.demo_checksum_inj
    DemoChain.demo_registered None (Some ["12"; "99"]%string) (Some 8%Z) tt ([] : list Z)
    DemoChain.demo_contract) as [H _].
  eapply H. exact DemoChain.demo_read.
Defined.

End Reservoir.
