(* ===== verification/Payment.v ===== *)
(** * nulink/policy/payment.py

    The payment methods: what a policy costs ([quote]), whether its price
    is right ([validate_price]), paying for it and checking that it was
    paid for.  [payment_method] is the interface the policies are written
    against; it is implemented by [FreeReencryptions] and
    [SubscriptionManagerPayment]. *)

From S2P Require Import Prelude Agents.

Module Payment.

(** What a payment method reads of a policy. *)
Record policy_view := {
  value : Z;
  hrac : string;
  kfrags_count : Z;
  commencement : option Z;
  expiration : option Z;
  publisher_account : string;
}.

(** [Quote]; the [NamedTuple] does not check its fields, so times can be [None]. *)
Record Quote := {
  q_rate : Z;
  q_value : Z;
  q_commencement : option Z;
  q_expiration : option Z;
  q_duration : option Z;
  q_shares : Z;
}.

(** The keyword arguments of [quote]. *)
Record quote_args := {
  a_shares : Z;
  a_commencement : option Z;
  a_expiration : option Z;
  a_duration : option Z;
  a_value : option Z;
  a_rate : option Z;
}.

Inductive receipt (Receipt : Type) :=
  | FreeReceipt (hrac : string)
  | TransactionReceipt (r : Receipt).
Arguments FreeReceipt {Receipt} hrac.
Arguments TransactionReceipt {Receipt} r.

(** The interface [PaymentMethod]. *)
Record payment_method (W Receipt : Type) := {
  ONCHAIN : bool;
  NAME : string;
  verify : string -> PyM W bool;
  pay : policy_view -> PyM W (receipt Receipt);
  rate : PyM W Z;
  quote : quote_args -> PyM W Quote;
  validate_price : Z -> Z -> option Z -> PyM W bool;
}.
Arguments ONCHAIN {W Receipt} p.
Arguments NAME {W Receipt} p.
Arguments verify {W Receipt} p.
Arguments pay {W Receipt} p.
Arguments rate {W Receipt} p.
Arguments quote {W Receipt} p.
Arguments validate_price {W Receipt} p.

(** Python truth of an optional integer. *)
Definition truthy (o : option Z) : bool :=
  match o with Some z => negb (z =? 0)%Z | None => false end.

Definition negative (o : option Z) : bool :=
  match o with Some z => (z <? 0)%Z | None => false end.

Section Methods.
Context {W Receipt : Type} `{!Chain W Receipt}.
(** [maya.now().epoch]. *)
Variable now : Z.

Definition free_quote (a : quote_args) : PyM W Quote :=
  py_ret {| q_rate := 0; q_value := 0; q_commencement := a.(a_commencement);
            q_expiration := a.(a_expiration); q_duration := a.(a_duration);
            q_shares := a.(a_shares) |}.

Definition FreeReencryptions : payment_method W Receipt := {|
  ONCHAIN := false;
  NAME := "Free";
  verify _ := py_ret true;
  pay policy := py_ret (FreeReceipt policy.(hrac));
  rate := py_ret 0%Z;
  quote := free_quote;
  validate_price _ _ _ := py_ret true;
|}.

Definition subscription_verify (request_hrac : string) : PyM W bool :=
  SubscriptionManagerAgent.is_policy_active request_hrac.

Definition subscription_pay (policy : policy_view) : PyM W (receipt Receipt) :=
  r <- SubscriptionManagerAgent.create_policy policy.(hrac) policy.(publisher_account)
         policy.(kfrags_count) policy.(commencement) policy.(expiration) policy.(value) None ;;
  py_ret (TransactionReceipt r).

Definition subscription_rate : PyM W Z := SubscriptionManagerAgent.fee_rate.

(** The two [if] statements that complete the period. *)
Definition quote_commencement (a : quote_args) : Z :=
  match a.(a_commencement), a.(a_expiration), a.(a_duration) with
  | Some c, e, d =>
      if truthy (Some c) then c
      else if truthy e && truthy d then default 0%Z e - default 0%Z d else now
  | None, e, d =>
      if truthy e && truthy d then default 0%Z e - default 0%Z d else now
  end%Z.

Definition quote_duration (a : quote_args) (commencement : Z) : option Z :=
  if truthy a.(a_duration) then a.(a_duration)
  else if truthy a.(a_expiration) && truthy (Some commencement)
  then Some (default 0%Z a.(a_expiration) - commencement)%Z
  else a.(a_duration).

(** [quote]; [self.rate] is read twice, and [rate * None] is a [TypeError]. *)
Definition subscription_quote (a : quote_args) : PyM W Quote :=
  if truthy a.(a_rate) then raise ValueError
  else if negb (truthy a.(a_duration) || truthy a.(a_expiration) || truthy a.(a_value))
  then raise ValueError
  else if existsb negative
            [a.(a_commencement); a.(a_expiration); a.(a_duration); a.(a_value); a.(a_rate)]
  then raise ValueError
  else
    let commencement := quote_commencement a in
    let duration := quote_duration a commencement in
    rate1 <- subscription_rate ;;
    rate2 <- subscription_rate ;;
    match duration with
    | None => raise TypeError
    | Some d =>
        py_ret {| q_rate := rate1; q_value := (rate2 * d * a.(a_shares))%Z;
                  q_commencement := Some commencement; q_expiration := a.(a_expiration);
                  q_duration := duration; q_shares := a.(a_shares) |}
    end.

(** [shares * None] is a [TypeError], raised before the rate is read. *)
Definition subscription_validate_price (shares value : Z) (duration : option Z) : PyM W bool :=
  match duration with
  | None => raise TypeError
  | Some d =>
      r <- subscription_rate ;;
      let expected_price := (shares * d * r)%Z in
      if negb (value =? expected_price)%Z then raise ValueError else py_ret true
  end.

Definition SubscriptionManagerPayment : payment_method W Receipt := {|
  ONCHAIN := true;
  NAME := "SubscriptionManager";
  verify := subscription_verify;
  pay := subscription_pay;
  rate := subscription_rate;
  quote := subscription_quote;
  validate_price := subscription_validate_price;
|}.

Definition PAYMENT_METHODS : list (string * payment_method W Receipt) :=
  [(FreeReencryptions.(NAME), FreeReencryptions);
   (SubscriptionManagerPayment.(NAME), SubscriptionManagerPayment)].

(** ** Prices *)

(** The fee rate is fixed: every read answers [r]. *)
Definition fixed_rate (r : Z) : Prop :=
  forall w : W, exists w', call_feeRate w = (Ok r, w').

(** The arguments that [quote] accepts. *)
Definition acceptable_terms (a : quote_args) : bool :=
  negb (truthy a.(a_rate)) &&
  (truthy a.(a_duration) || truthy a.(a_expiration) || truthy a.(a_value)) &&
  negb (existsb negative
    [a.(a_commencement); a.(a_expiration); a.(a_duration); a.(a_value); a.(a_rate)]).

Lemma subscription_quote_eval a r w :
  fixed_rate r ->
  exists w', subscription_quote a w =
    if acceptable_terms a then
      match quote_duration a (quote_commencement a) with
      | None => (Raise TypeError, w')
      | Some d =>
          (Ok {| q_rate := r; q_value := (r * d * a.(a_shares))%Z;
                 q_commencement := Some (quote_commencement a); q_expiration := a.(a_expiration);
                 q_duration := Some d; q_shares := a.(a_shares) |}, w')
      end
    else (Raise ValueError, w).
Proof.
  intros Hr. unfold subscription_quote, acceptable_terms.
  destruct (truthy (a_rate a)); [by exists w|].
  destruct (truthy (a_duration a) || truthy (a_expiration a) || truthy (a_value a)); [|by exists w].
  destruct (existsb negative _); [by exists w|]. cbn [negb andb].
  unfold py_bind, subscription_rate, SubscriptionManagerAgent.fee_rate.
  destruct (Hr w) as [w1 H1]. rewrite H1. destruct (Hr w1) as [w2 H2]. rewrite H2.
  exists w2. by destruct (quote_duration a (quote_commencement a)).
Qed.

Lemma validate_price_eval shares value duration r w :
  fixed_rate r ->
  exists w', subscription_validate_price shares value (Some duration) w =
    (if (value =? shares * duration * r)%Z then Ok true else Raise ValueError, w').
Proof.
  intros Hr. unfold subscription_validate_price, py_bind, subscription_rate,
    SubscriptionManagerAgent.fee_rate.
  destruct (Hr w) as [w1 ->]. exists w1. by destruct (_ =? _)%Z.
Qed.

(** A quote is a valid price: for accepted terms with an expiration
    or a duration, [quote] returns, at a fixed rate its value is
    rate * duration * shares and [validate_price] accepts exactly that
    value; and unless both the start and the duration were given, the
    quoted period ends at the requested expiration. *)
Theorem quote_is_valid_price a r w :
  fixed_rate r -> acceptable_terms a = true -> now <> 0%Z ->
  truthy a.(a_duration) || truthy a.(a_expiration) = true ->
  exists q d c w',
    subscription_quote a w = (Ok q, w') /\ q.(q_duration) = Some d /\ q.(q_commencement) = Some c /\
    q.(q_value) = (r * d * a.(a_shares))%Z /\
    (forall w1 v, exists w2, subscription_validate_price a.(a_shares) v (Some d) w1 =
       (if decide (v = q.(q_value)) then Ok true else Raise ValueError, w2)) /\
    (forall e, a.(a_expiration) = Some e -> e <> 0%Z ->
       truthy a.(a_commencement) && truthy a.(a_duration) = false -> (c + d)%Z = e).
Proof.
  intros Hr Ha Hnow Hend. destruct (subscription_quote_eval a r w Hr) as [w' Hq]. rewrite Ha in Hq.
  assert (exists d, quote_duration a (quote_commencement a) = Some d /\
    (forall e, a.(a_expiration) = Some e -> e <> 0%Z ->
       truthy a.(a_commencement) && truthy a.(a_duration) = false ->
       (quote_commencement a + d)%Z = e)) as (d & Hd & Hper).
  { unfold quote_duration, quote_commencement. clear Hq Ha.
    destruct a as [sh c e d v rt]; simpl in *.
    destruct c as [c|], e as [e|], d as [d|]; simpl in *;
      repeat case_match; simplify_eq/=;
      repeat match goal with
        | H : context [negb (?x =? 0)%Z] |- _ => destruct (Z.eqb_spec x 0); simpl in H
        end; simplify_eq/=;
      try (eexists; split; [done|]; intros e0 [= ->] He Hn; lia);
      try done; exfalso; lia. }
  rewrite Hd in Hq. do 4 eexists. split_and!; [exact Hq|done|done|done| |done].
  intros w1 v. destruct (validate_price_eval a.(a_shares) v d r w1 Hr) as [w2 Hv].
  exists w2. rewrite Hv. simpl.
  replace (a_shares a * d * r)%Z with (r * d * a_shares a)%Z by lia.
  destruct (Z.eqb_spec v (r * d * a_shares a)); case_decide; done.
Qed.

(** Terms that give only a [value] pass the guard of [quote], which
    names ['value'] as enough, but no duration is derived from it: the call
    ends in [TypeError].  And an expiration in the past is quoted a negative
    price, which [validate_price] accepts. *)
Theorem quote_edge_cases r w shares v e :
  fixed_rate r -> (0 < r)%Z -> (0 < shares)%Z -> (0 < v)%Z -> (0 < e < now)%Z ->
  (exists w', subscription_quote
     {| a_shares := shares; a_commencement := None; a_expiration := None; a_duration := None;
        a_value := Some v; a_rate := None |} w = (Raise TypeError, w')) /\
  (exists q d w', subscription_quote
     {| a_shares := shares; a_commencement := None; a_expiration := Some e; a_duration := None;
        a_value := None; a_rate := None |} w = (Ok q, w') /\
     (q.(q_value) < 0)%Z /\ q.(q_duration) = Some d /\
     forall w1, exists w2, subscription_validate_price shares q.(q_value) (Some d) w1 = (Ok true, w2)).
Proof.
  intros Hr Hpos Hsh Hv He. split.
  - destruct (subscription_quote_eval {| a_shares := shares; a_commencement := None;
      a_expiration := None; a_duration := None; a_value := Some v; a_rate := None |} r w Hr) as [w' Hq].
    exists w'. rewrite Hq. unfold acceptable_terms, quote_duration. simpl.
    destruct (Z.eqb_spec v 0); [lia|]. destruct (Z.ltb_spec v 0); [lia|]. done.
  - destruct (subscription_quote_eval {| a_shares := shares; a_commencement := None;
      a_expiration := Some e; a_duration := None; a_value := None; a_rate := None |} r w Hr) as [w' Hq].
    unfold acceptable_terms, quote_duration, quote_commencement in Hq. simpl in Hq.
    rewrite (proj2 (Z.eqb_neq e 0)), (proj2 (Z.ltb_ge e 0)) in Hq by lia.
    simpl in Hq. rewrite (proj2 (Z.eqb_neq now 0)) in Hq by lia. simpl in Hq.
    eexists _, _, w'. split; [exact Hq|]. cbn [q_value q_duration]. split; [nia|]. split; [done|].
    intros w1. destruct (validate_price_eval shares (r * (e - now) * shares) (e - now) r w1 Hr) as [w2 Hv2].
    exists w2. rewrite Hv2. destruct (Z.eqb_spec (r * (e - now) * shares) (shares * (e - now) * r)); [done|lia].
Qed.

End Methods.

Lemma demo_fixed_rate : fixed_rate (W:=unit) 2.
Proof. intros []. by exists tt. Qed.

Lemma quote_is_valid_price_witness :
  exists q d c w',
    subscription_quote 100
      {| a_shares := 3; a_commencement := None; a_expiration := Some 160%Z; a_duration := None;
         a_value := None; a_rate := None |} tt = (Ok q, w') /\
    q.(q_duration) = Some d /\ q.(q_commencement) = Some c /\ q.(q_value) = (2 * d * 3)%Z /\
    (forall w1 v, exists w2, subscription_validate_price 3 v (Some d) w1 =
       (if decide (v = q.(q_value)) then Ok true else Raise ValueError, w2)) /\
    (forall e, Some 160%Z = Some e -> e <> 0%Z -> false = false -> (c + d)%Z = e).
Proof.
  apply (quote_is_valid_price 100
    {| a_shares := 3; a_commencement := None; a_expiration := Some 160%Z; a_duration := None;
       a_value := None; a_rate := None |} 2 tt demo_fixed_rate); [reflexivity|discriminate|reflexivity].
Defined.

Lemma quote_edge_cases_witness :
  exists w', subscription_quote 100
     {| a_shares := 3; a_commencement := None; a_expiration := None; a_duration := None;
        a_value := Some 600%Z; a_rate := None |} tt = (Raise TypeError, w').
Proof. apply (quote_edge_cases 100 2 tt 3 600 40); try lia. apply demo_fixed_rate. Defined.

End Payment.
