(* ===== verification/Policies.v ===== *)
(** * nulink/policy/policies.py, revocation.py and kits.py

    Creating a policy: sampling enough nodes with a worker pool over a
    reservoir, paying, assigning one key fragment to each node, and the
    revocation kit of the result; and the message kits that collect what
    retrieval returns. *)

From S2P Require Import Prelude Concurrency Sampler Agents Reservoir Payment.

Module Policy.

Section Policy.
Context {Ursula G : Type} `{!Rng G}.
Variable checksum_address : Ursula -> string.

(** [publisher.known_nodes], a mapping from addresses to nodes. *)
Variable known_nodes : list (string * Ursula).
(** [Porter.get_nulink_worker_addresses()]: the addresses of the workers
    the operator runs, in the order the set is iterated. *)
Variable nulink_workers : list string.

(** [_ping_node], given the answer of the node if it is asked. *)
Definition _ping_node (address : string) (response : result Z) : result Ursula :=
  match dict_get known_nodes address with
  | None => Raise RuntimeError
  | Some ursula =>
      let? status_code := response in
      if (status_code =? 200)%Z then Ok ursula else Raise RuntimeError
  end.

(** How the network may answer a ping of a node. *)
Variable ping : Ursula -> result Z -> Prop.

(** [worker] of [_sample]. *)
Definition ping_worker (address : string) (o : result Ursula) : Prop :=
  exists response, (forall u, dict_get known_nodes address = Some u -> ping u response) /\
    o = _ping_node address response.

(** The loop of [get_enough_ursulas].  [success_workers] and
    [enough_success_ursulas] are one dict, so the membership test also
    sees the nodes added by earlier iterations. *)
Fixpoint add_nulink_workers (workers : list string) (need_to_successes : Z)
    (success_workers : list (string * Ursula)) : list (string * Ursula) :=
  match workers with
  | [] => success_workers
  | address :: workers' =>
      if (need_to_successes <=? 0)%Z then success_workers
      else if dict_mem success_workers address
      then add_nulink_workers workers' need_to_successes success_workers
      else match dict_get known_nodes address with
           | None => add_nulink_workers workers' need_to_successes success_workers
           | Some ursula =>
               add_nulink_workers workers' (need_to_successes - 1)
                 (dict_set success_workers address ursula)
           end
  end.

Definition get_enough_ursulas (target_successes : Z) (successes : list (string * Ursula))
    : list (string * Ursula) :=
  add_nulink_workers nulink_workers (target_successes - Z.of_nat (length successes)) successes.

(** ** Sampling *)

Section Sample.
(** [self.shares] and the size of the thread pool. *)
Variable shares : Z.
Variable max_threads : nat.

Definition pool_config : WorkerPool.config :=
  {| WorkerPool.target_successes := shares; WorkerPool.max_threads := max_threads |}.

Notation pool := (WorkerPool.pool (V:=string) (R:=Ursula) (F:=Reservoir.prefetch (G:=G))).
Notation pool_step := (WorkerPool.step (V:=string) (R:=Ursula) (F:=Reservoir.prefetch (G:=G))
  pool_config ping_worker).
Notation pool_reachable := (WorkerPool.reachable (V:=string) (R:=Ursula)
  (F:=Reservoir.prefetch (G:=G)) pool_config ping_worker).

(** The [try] and its [except]: what [block_until_target_successes] gave,
    and the successes of the pool when the handler asks for them. *)
Definition successes_or_enough (blocked : result (list (string * Ursula))) (s : pool)
    : result (list (string * Ursula)) :=
  match blocked with
  | Ok successes => Ok successes
  | Raise e =>
      if catches [OutOfValues; TimedOut] e
      then Ok (get_enough_ursulas shares (WorkerPool.get_successes s)) else Raise e
  end.

(** The [finally], whose exception wins, and the rest of the method. *)
Definition select (successes : result (list (string * Ursula))) (joined : result unit)
    : result (list Ursula) :=
  let? _ := joined in
  let? successes := successes in
  if (Z.of_nat (length successes) <? shares)%Z then Raise NotEnoughUrsulas
  else Ok successes.*2.

(** [_sample] from a started pool: the calls of the method are at the
    states [s0] (block, which returns in [s1]), [s2] (the handler and
    [cancel]) and [s3] ([join]); the threads of the pool run in between. *)
Inductive _sample (f : Reservoir.prefetch) : result (list Ursula) -> Prop :=
  | Sample s0 s1 s2 s3 blocked joined s4 :
      pool_reachable f s0 -> rtc pool_step s0 s1 ->
      WorkerPool.block_until_target_successes s0 s1 = Some blocked ->
      rtc pool_step s1 s2 -> rtc pool_step (WorkerPool.cancel s2) s3 ->
      WorkerPool.join s3 = Some (joined, s4) ->
      _sample f (select (successes_or_enough blocked s2) joined).

(** A node that was found: it is known, and it answered or is one of the
    operator's workers. *)
Definition eligible (a : string) (u : Ursula) : Prop :=
  dict_get known_nodes a = Some u /\ (ping u (Ok 200%Z) \/ a ∈ nulink_workers).

Lemma ping_worker_ok a u : ping_worker a (Ok u) -> eligible a u.
Proof.
  intros (resp & Hping & Ho). unfold _ping_node in Ho.
  destruct (dict_get known_nodes a) as [u'|] eqn:Hk; [|done].
  destruct resp as [code|]; simpl in Ho; [|done].
  destruct (Z.eqb_spec code 200) as [->|]; [|done]. simplify_eq.
  split; [done|]. left. by apply Hping.
Qed.

Lemma add_nulink_workers_ok workers need d :
  workers ⊆ nulink_workers ->
  dict_wf d -> (forall a u, (a, u) ∈ d -> eligible a u) ->
  let d' := add_nulink_workers workers need d in
  dict_wf d' /\ (forall a u, (a, u) ∈ d' -> eligible a u) /\
  (Z.of_nat (length d') <= Z.of_nat (length d) + Z.max 0 need)%Z.
Proof.
  revert need d. induction workers as [|w ws IH]; intros need d Hsub Hwf Hel; simpl.
  { split_and!; [done|done|lia]. }
  destruct (Z.leb_spec need 0); [split_and!; [done|done|lia]|].
  destruct (dict_mem d w) eqn:Hm; [apply IH; auto; set_solver|].
  destruct (dict_get known_nodes w) as [u|] eqn:Hk; [|apply IH; auto; set_solver].
  destruct (IH (need - 1)%Z (dict_set d w u)) as (? & ? & Hlen).
  - set_solver.
  - by apply dict_set_wf.
  - intros a u' [[= -> ->]|Hin]%dict_set_elem_of; [|auto]. split; [done|]. right. set_solver.
  - split_and!; [done|done|]. rewrite dict_set_length in Hlen. case_decide; lia.
Qed.

(** C3.  Sampling is sound under every interleaving of the pool's threads:
    if [_sample] returns, it returns at least [shares] nodes, with distinct
    addresses, each of them a known node that answered the ping with 200 or
    is one of the operator's own workers. *)
Theorem sample_sound f ursulas :
  (forall a u, dict_get known_nodes a = Some u -> checksum_address u = a) ->
  _sample f (Ok ursulas) ->
  (shares <= Z.of_nat (length ursulas))%Z /\
  NoDup (checksum_address <$> ursulas) /\
  forall u, u ∈ ursulas -> eligible (checksum_address u) u.
Proof.
  intros Haddr Hs. inversion Hs as [s0 s1 s2 s3 blocked joined s4 Hr H01 Hb H12 H3 Hj Hsel]; clear Hs.
  unfold select in Hsel. destruct joined as [[]|]; simpl in Hsel; [|done].
  assert (forall d, successes_or_enough blocked s2 = Ok d ->
    dict_wf d /\ forall a u, (a, u) ∈ d -> eligible a u) as Hd.
  { assert (pool_reachable f s1) as Hr1 by (unfold WorkerPool.reachable in *; by etrans).
    assert (pool_reachable f s2) as Hr2 by (unfold WorkerPool.reachable in *; by etrans).
    apply WorkerPool.reachable_inv in Hr2 as [[Hwf2 Hs2 _] _].
    intros d. unfold successes_or_enough. destruct blocked as [d'|e].
    - intros [= ->]. apply WorkerPool.block_ok in Hb.
      apply WorkerPool.reachable_inv in Hr1 as [[Hwf1 Hs1 _] Hci].
      pose proof (WorkerPool.ci_target _ _ Hci) as Ht. rewrite Hb in Ht. destruct Ht as (_ & -> & _).
      split; [done|]. intros a u Hin. apply ping_worker_ok. by apply Hs1.
    - destruct (catches _ e); [|done]. intros [= <-].
      edestruct (add_nulink_workers_ok nulink_workers) as (? & ? & _); [done|exact Hwf2| |split; done].
      intros a u Hin. apply ping_worker_ok. by apply Hs2. }
  destruct (successes_or_enough blocked s2) as [d|] eqn:Hsd; simpl in Hsel; [|done].
  destruct (Z.ltb_spec (Z.of_nat (length d)) shares); simplify_eq.
  destruct (Hd d eq_refl) as [Hwf Hel]. rewrite length_fmap. split; [done|].
  assert (checksum_address <$> d.*2 = d.*1) as ->.
  { rewrite <-list_fmap_compose. apply list_fmap_ext. intros i [a u] Hi. simpl.
    apply Haddr, (Hel a u). by eapply list_elem_of_lookup_2. }
  split; [done|]. intros u ([a u'] & -> & Hin)%list_elem_of_fmap. simpl.
  pose proof (Hel _ _ Hin) as [Hk ?]. rewrite (Haddr _ _ Hk). by apply Hel.
Qed.

(** Sampling ends: if every ping returns or raises, the pool over the
    reservoir cannot run for ever, and whenever its threads have come to
    rest [_sample] has an outcome. *)
Theorem sample_terminates (f : Reservoir.prefetch (G:=G)) :
  (forall u, exists r, ping u r) -> 0 < max_threads ->
  (forall n s, nsteps pool_step n (WorkerPool.init_pool f) s ->
     n <= WorkerPool.weight (WorkerPool.init_pool (V:=string) (R:=Ursula) f)) /\
  exists outcome, _sample f outcome.
Proof.
  intros Hping Hth. assert (forall v, exists o, ping_worker v o) as Htot.
  { intros v. destruct (dict_get known_nodes v) as [u|] eqn:Hk.
    - destruct (Hping u) as [r Hr]. exists (_ping_node v r), r. split; [|done]. intros; congruence.
    - exists (_ping_node v (Ok 0%Z)), (Ok 0%Z). split; [congruence|done]. }
  split.
  { intros n s Hn. pose proof (WorkerPool.nsteps_weight pool_config ping_worker Hth n _ _ Hn). lia. }
  destruct (WorkerPool.run_to_quiescence pool_config ping_worker Htot
              (WorkerPool.init_pool f)) as (s & Hrun & Hq).
  destruct (WorkerPool.quiescent_returns pool_config ping_worker Htot Hth f
              (WorkerPool.init_pool f) s Hrun Hq) as [[b Hb] [[j s'] Hj]].
  eexists. eapply (Sample f (WorkerPool.init_pool f) s s (WorkerPool.cancel s) b);
    [constructor|exact Hrun|exact Hb|constructor|constructor|].
  by apply WorkerPool.join_cancel.
Qed.

End Sample.

End Policy.

(** ** Enacting *)

(** [RevocationKit] (nulink/policy/revocation.py): one order per
    destination of the treasure map, by canonical address. *)
Section RevocationKit.
Context {EncryptedKeyFrag RevocationOrder : Type}.
(** [RevocationOrder(signer, staking_provider_address, encrypted_kfrag)] of nucypher_core. *)
Variable revocation_order : string -> EncryptedKeyFrag -> RevocationOrder.
Variable to_canonical_address : string -> string.
Variable to_checksum_address : string -> string.

Definition revocation_kit : Type := list (string * RevocationOrder).

Definition RevocationKit (destinations : list (string * EncryptedKeyFrag)) : revocation_kit :=
  foldl (fun revocations de =>
           dict_set revocations de.1 (revocation_order de.1 de.2)) [] destinations.

Definition revocation_getitem (kit : revocation_kit) (ursula_address : string) : result RevocationOrder :=
  match dict_get kit (to_canonical_address ursula_address) with
  | Some order => Ok order
  | None => Raise KeyError
  end.

Definition revocation_len (kit : revocation_kit) : nat := length kit.

Definition revokable_addresses (kit : revocation_kit) : list string :=
  to_checksum_address <$> kit.*1.

Lemma RevocationKit_eq destinations :
  dict_wf destinations ->
  RevocationKit destinations = (fun de => (de.1, revocation_order de.1 de.2)) <$> destinations.
Proof.
  intros Hwf. unfold RevocationKit.
  assert (forall d0 : revocation_kit, foldl (fun revocations de =>
    dict_set revocations de.1 (revocation_order de.1 de.2)) d0 destinations =
    dict_update d0 ((fun de => (de.1, revocation_order de.1 de.2)) <$> destinations)) as ->.
  { clear Hwf. induction destinations as [|x l IH]; intros d0; csimpl; [done|]. apply IH. }
  apply dict_of_id. unfold dict_wf in *. rewrite <-list_fmap_compose. exact Hwf.
Qed.
End RevocationKit.

Section Enact.
Context {Ursula KFrag PublicKey TreasureMap EncryptedKeyFrag EncryptedTreasureMap RevocationOrder : Type}.
Context {W Receipt : Type}.
Variable checksum_address canonical_address : Ursula -> string.
(** [ursula.public_keys(DecryptingPower)]. *)
Variable decrypting_key : Ursula -> PublicKey.
Variable payment : Payment.payment_method W Receipt.

(** [TreasureMap] of nucypher_core: built from the assigned key fragments
    and the threshold. *)
Variable new_treasure_map : list (string * (PublicKey * KFrag)) -> Z -> result TreasureMap.
Variable destinations : TreasureMap -> list (string * EncryptedKeyFrag).
Variable map_threshold : TreasureMap -> Z.
Variable encrypt : TreasureMap -> PublicKey -> result EncryptedTreasureMap.
Variable revocation_order : string -> EncryptedKeyFrag -> RevocationOrder.

(** The attributes of a [Policy]. *)
Record policy := Mk_policy {
  threshold : Z;
  shares : Z;
  kfrags : list KFrag;
  public_key : PublicKey;
  bob_decrypting_key : PublicKey;
  hrac : string;
  label : string;
  commencement : option Z;
  expiration : option Z;
  duration : option Z;
  value : Z;
  rate : Z;
  publisher_account : string;
  nodes : option (list string);
}.

Definition set_nodes (x : option (list string)) (p : policy) : policy :=
  Mk_policy p.(threshold) p.(shares) p.(kfrags) p.(public_key) p.(bob_decrypting_key) p.(hrac)
    p.(label) p.(commencement) p.(expiration) p.(duration) p.(value) p.(rate)
    p.(publisher_account) x.

(** [Policy.__init__]: the price is validated last. *)
Definition new_policy (threshold : Z) (kfrags : list KFrag) (public_key bob_key : PublicKey)
    (hrac label : string) (commencement expiration duration : option Z) (value rate : Z) (account : string)
    : PyM W policy :=
  let shares := Z.of_nat (length kfrags) in
  payment.(Payment.validate_price) shares value duration ;;;
  py_ret (Mk_policy threshold shares kfrags public_key bob_key hrac label commencement expiration
            duration value rate account None).

Definition payment_view (p : policy) : Payment.policy_view := {|
  Payment.value := p.(value); Payment.hrac := p.(hrac);
  Payment.kfrags_count := Z.of_nat (length p.(kfrags));
  Payment.commencement := p.(commencement); Payment.expiration := p.(expiration);
  Payment.publisher_account := p.(publisher_account) |}.

(** [_publish]: the nodes are recorded before the payment. *)
Definition _publish (ursulas : list Ursula) : PyM (policy * W) (Payment.receipt Receipt) :=
  fun '(p, w) =>
    let p := set_nodes (Some (checksum_address <$> ursulas)) p in
    let '(r, w') := payment.(Payment.pay) (payment_view p) w in (r, (p, w')).

(** [EnactedPolicy]. *)
Record enacted_policy := Mk_enacted_policy {
  e_hrac : string;
  e_label : string;
  e_public_key : PublicKey;
  e_treasure_map : EncryptedTreasureMap;
  e_revocation_kit : revocation_kit (RevocationOrder:=RevocationOrder);
  e_threshold : Z;
  e_shares : Z;
}.

Definition EnactedPolicy (hrac label : string) (public_key : PublicKey) (threshold : Z)
    (treasure_map : EncryptedTreasureMap) (revocation_kit : revocation_kit) : enacted_policy :=
  Mk_enacted_policy hrac label public_key treasure_map revocation_kit threshold
    (Z.of_nat (revocation_len revocation_kit)).

(** The dict comprehension over [zip(ursulas, self.kfrags)]. *)
Definition assigned_kfrags (ursulas : list Ursula) (kfrags : list KFrag)
    : list (string * (PublicKey * KFrag)) :=
  dict_of (zip_with (fun u k => (canonical_address u, (decrypting_key u, k))) ursulas kfrags).

(** [enact], with the outcome of [_sample]. *)
Definition enact (sampled : result (list Ursula)) : PyM (policy * W) enacted_policy :=
  ursulas <- lift sampled ;;
  _publish ursulas ;;;
  p <- gets fst ;;
  treasure_map <- lift (new_treasure_map (assigned_kfrags ursulas p.(kfrags)) p.(threshold)) ;;
  enc_treasure_map <- lift (encrypt treasure_map p.(bob_decrypting_key)) ;;
  py_ret (EnactedPolicy p.(hrac) p.(label) p.(public_key) (map_threshold treasure_map)
            enc_treasure_map (RevocationKit revocation_order (destinations treasure_map))).

(** A treasure map has one destination per assigned key fragment, and the
    threshold it was given. *)
Hypothesis destinations_of_new : forall akf t tm,
  dict_wf akf -> new_treasure_map akf t = Ok tm ->
  Permutation (destinations tm).*1 akf.*1 /\ map_threshold tm = t.

Lemma assigned_kfrags_eq ursulas ks :
  NoDup (canonical_address <$> ursulas) -> length ks <= length ursulas ->
  let akf := assigned_kfrags ursulas ks in
  akf.*1 = canonical_address <$> take (length ks) ursulas /\
  (snd <$> akf.*2) = ks /\ dict_wf akf.
Proof.
  intros Hnd Hlen akf.
  set (z := zip_with (fun u k => (canonical_address u, (decrypting_key u, k))) ursulas ks).
  assert (z.*1 = canonical_address <$> take (length ks) ursulas /\ (snd <$> z.*2) = ks) as [H1 H2].
  { unfold z. clear Hnd akf z. revert ks Hlen.
    induction ursulas as [|u us IH]; intros [|k ks] Hlen; csimpl in *; try done; [lia|].
    destruct (IH ks ltac:(lia)) as [H1 H2]. rewrite H1, H2. done. }
  assert (dict_wf z) as Hz.
  { unfold dict_wf. rewrite H1. eapply sublist_NoDup; [exact Hnd|]. apply fmap_sublist, sublist_take. }
  unfold akf, assigned_kfrags. fold z. rewrite dict_of_id by done. done.
Qed.

(** C11.  Enacting a policy hands out every key fragment exactly once: with
    at least as many sampled nodes as key fragments, all with distinct
    addresses, a successful [enact] assigns the i-th fragment to the i-th
    node; the enacted policy counts one share per fragment, its revocation
    kit has exactly one order for each of those nodes, its threshold is the
    policy's, and the policy records the sampled nodes. *)
Theorem enact_assigns_every_kfrag ursulas p w ep p' w' :
  NoDup (canonical_address <$> ursulas) -> length p.(kfrags) <= length ursulas ->
  enact (Ok ursulas) (p, w) = (Ok ep, (p', w')) ->
  let akf := assigned_kfrags ursulas p.(kfrags) in
  akf.*1 = canonical_address <$> take (length p.(kfrags)) ursulas /\
  (snd <$> akf.*2) = p.(kfrags) /\
  (exists tm, new_treasure_map akf p.(threshold) = Ok tm /\
     ep.(e_revocation_kit) = RevocationKit revocation_order (destinations tm)) /\
  Permutation ep.(e_revocation_kit).*1 (canonical_address <$> take (length p.(kfrags)) ursulas) /\
  ep.(e_shares) = Z.of_nat (length p.(kfrags)) /\ ep.(e_threshold) = p.(threshold) /\
  p'.(nodes) = Some (checksum_address <$> ursulas).
Proof.
  intros Hnd Hlen He akf. destruct (assigned_kfrags_eq _ _ Hnd Hlen) as (Hk & Hv & Hwf).
  fold akf in Hk, Hv, Hwf. unfold enact, py_bind, lift, _publish, gets, py_ret in He.
  destruct (Payment.pay payment _ w) as [[r|] w1]; [|done]. simpl in He.
  fold akf in He. destruct (new_treasure_map akf (threshold p)) as [tm|] eqn:Htm; [|done].
  destruct (encrypt tm (bob_decrypting_key p)) as [etm|]; [|done].
  destruct (destinations_of_new _ _ _ Hwf Htm) as [Hdest Hthr]. simplify_eq. simpl.
  assert (dict_wf (destinations tm)) as Hdwf by (unfold dict_wf; rewrite Hdest; exact Hwf).
  assert (Permutation (RevocationKit revocation_order (destinations tm)).*1
            (canonical_address <$> take (length p.(kfrags)) ursulas)) as Hrev.
  { rewrite RevocationKit_eq by done. rewrite <-list_fmap_compose, <-Hk.
    exact Hdest. }
  split_and!; try done; [by exists tm|]. unfold revocation_len.
  apply Permutation_length in Hrev. rewrite !length_fmap, length_take in Hrev. rewrite Hrev. lia.
Qed.

End Enact.

End Policy.

(** ** Message kits *)

Module Kits.
Section Kits.
Context {VerifiedCapsuleFrag PublicKey MessageKit : Type}.
Variable to_canonical_address : string -> string.

(** [RetrievalResult.cfrags]. *)
Definition retrieval_result : Type := list (string * VerifiedCapsuleFrag).

Definition empty_result : retrieval_result := [].

(** [set([...])]; the model keeps one of each. *)
Definition canonical_addresses (r : retrieval_result) : list string :=
  remove_dups (to_canonical_address <$> r.*1).

Definition result_with_result (self result : retrieval_result) : retrieval_result :=
  dict_update self result.

Record policy_message_kit := PolicyMessageKit {
  message_kit : MessageKit;
  policy_encrypting_key : PublicKey;
  threshold : Z;
  _result : retrieval_result;
}.

Definition from_message_kit (m : MessageKit) (k : PublicKey) (threshold : Z) : policy_message_kit :=
  PolicyMessageKit m k threshold empty_result.

Definition is_decryptable_by_receiver (k : policy_message_kit) : bool :=
  (k.(threshold) <=? Z.of_nat (length k.(_result)))%Z.

Definition with_result (k : policy_message_kit) (r : retrieval_result) : policy_message_kit :=
  PolicyMessageKit k.(message_kit) k.(policy_encrypting_key) k.(threshold)
    (result_with_result k.(_result) r).

(** Joining results loses nothing: the kit with a new result has the
    new fragment of every Ursula that sent one and the old fragment of every
    other, the Ursulas to skip next time are those of both, and a kit that
    could be decrypted still can. *)
Theorem with_result_spec k r :
  dict_wf r -> dict_wf k.(_result) ->
  let k' := with_result k r in
  dict_wf k'.(_result) /\
  (forall a, dict_get k'.(_result) a =
     match dict_get r a with Some c => Some c | None => dict_get k.(_result) a end) /\
  (forall a, a ∈ canonical_addresses k'.(_result) <->
     a ∈ canonical_addresses k.(_result) \/ a ∈ canonical_addresses r) /\
  (is_decryptable_by_receiver k = true -> is_decryptable_by_receiver k' = true).
Proof.
  intros Hr Hk k'. unfold k', with_result, result_with_result, canonical_addresses,
    is_decryptable_by_receiver. simpl. split_and!.
  - by apply dict_update_wf.
  - intros a. by apply dict_get_update.
  - intros a. rewrite !elem_of_remove_dups, !list_elem_of_fmap. setoid_rewrite dict_update_keys.
    naive_solver.
  - rewrite !Z.leb_le. pose proof (dict_update_length k.(_result) r). lia.
Qed.

End Kits.

Lemma with_result_spec_witness :
  let k := with_result (from_message_kit 0 1 2) [("a", 10)]%string in
  is_decryptable_by_receiver k = false /\
  is_decryptable_by_receiver (with_result k [("b", 11)]%string) = true /\
  dict_get (_result (with_result k [("a", 12); ("b", 11)]%string)) "a"%string = Some 12.
Proof.
  intros k. split_and!; [vm_compute; reflexivity|vm_compute; reflexivity|].
  destruct (with_result_spec (fun s => s) k [("a", 12); ("b", 11)]%string) as (_ & Hget & _ & _);
    [apply (bool_decide_unpack _); vm_compute; exact I..|].
  rewrite Hget. reflexivity.
Defined.

End Kits.

(** ** Evaluated

    Three known nodes, of which the second does not answer; two shares. *)

Module PolicyDemo.
Import Policy.

Definition demo_known : list (string * string) := [("a", "a"); ("b", "b"); ("c", "c")]%string.

Definition demo_ping (u : string) (r : result Z) : Prop :=
  if decide (u = "b"%string) then r = Raise RequestsConnectionError else r = Ok 200%Z.

Definition demo_factory : Reservoir.prefetch (G := list Z) :=
  Reservoir.Prefetch (Reservoir.Merged ["a"; "c"]%string (WeightedSampler.init []) []) 2.

Notation demo_action := (WorkerPool.action (R:=string)).

Definition demo_schedule : list demo_action :=
  [WorkerPool.AProducer; WorkerPool.AProducer; WorkerPool.AProducer; WorkerPool.AProducer;
   WorkerPool.AProducer; WorkerPool.AProducer; WorkerPool.AProducer;
   WorkerPool.AWorkerStart; WorkerPool.AWorkerStart;
   WorkerPool.AWorkerFinish 1 (Ok "c"%string); WorkerPool.AWorkerFinish 0 (Ok "a"%string);
   WorkerPool.AProcessor; WorkerPool.AProcessor; WorkerPool.AProcessor; WorkerPool.AProcessor;
   WorkerPool.AProducer; WorkerPool.AProducer; WorkerPool.AProcessor; WorkerPool.AProcessor;
   WorkerPool.ATimeout; WorkerPool.ATimeout].

Definition demo_pool : WorkerPool.pool (V:=string) (R:=string) (F:=Reservoir.prefetch (G:=list Z)) :=
  WorkerPool.run_state (pool_config 2 2) demo_schedule demo_factory.

Definition demo_ok (a : string) (o : result string) : bool :=
  bool_decide (a <> "b"%string) && bool_decide (o = _ping_node demo_known a (Ok 200%Z)).

Lemma demo_pool_reachable :
  WorkerPool.reachable (pool_config 2 2) (ping_worker demo_known demo_ping) demo_factory demo_pool.
Proof.
  apply (WorkerPool.allowed_run_reachable _ _ demo_schedule); [|vm_compute; reflexivity].
  apply (WorkerPool.allowed_runb_ok _ _ demo_ok); [|vm_compute; reflexivity].
  intros a o [Ha%bool_decide_eq_true Ho%bool_decide_eq_true]%andb_prop.
  exists (Ok 200%Z). split; [|done]. intros u Hu. unfold demo_ping. rewrite decide_False; [done|].
  intros ->. apply Ha. revert Hu. unfold demo_known. simpl. repeat case_decide; subst; done.
Qed.

Lemma demo_sample : _sample demo_known [] demo_ping 2 2 demo_factory (Ok ["c"; "a"]%string).
Proof.
  apply (Sample demo_known [] demo_ping 2 2 demo_factory demo_pool demo_pool demo_pool demo_pool
           (Ok [("c", "c"); ("a", "a")]%string) (Ok tt) demo_pool);
    [apply demo_pool_reachable|constructor|vm_compute; reflexivity|constructor| |vm_compute; reflexivity].
  replace (WorkerPool.cancel demo_pool) with demo_pool by (vm_compute; reflexivity). constructor.
Qed.

Lemma sample_sound_witness :
  (2 <= 2)%Z /\ NoDup ["c"; "a"]%string /\
  forall u, u ∈ ["c"; "a"]%string -> eligible demo_known [] demo_ping u u.
Proof.
  apply (sample_sound (fun u => u) demo_known [] demo_ping 2 2 demo_factory ["c"; "a"]%string).
  - intros a u. unfold demo_known. simpl. repeat case_decide; intros; simplify_eq; done.
  - apply demo_sample.
Defined.

Lemma sample_terminates_witness :
  exists outcome, _sample demo_known [] demo_ping 2 2 demo_factory outcome.
Proof.
  apply (sample_terminates demo_known [] demo_ping 2 2 demo_factory).
  - intros u. unfold demo_ping. destruct (decide (u = "b"%string)); eexists; reflexivity.
  - apply Nat.lt_0_succ.
Defined.

(** A treasure map that keeps the assignment itself. *)
Lemma enact_assigns_every_kfrag_witness :
  let p := Mk_policy 1 2 [10; 11] 0 0 "hrac" "label" None None None 0 0 "alice" None in
  exists ep p',
    enact (Receipt:=unit) (fun u => u) (fun u => u) (fun _ => 0) Payment.FreeReencryptions
      (fun akf t => Ok (akf, t)) (fun tm => tm.1) (fun tm => tm.2) (fun tm _ => Ok tm)
      (fun a _ => a) (Ok ["c"; "a"; "b"]%string) (p, tt) = (Ok ep, (p', tt)) /\
    ep.(e_shares) = 2%Z /\ ep.(e_threshold) = 1%Z /\
    p'.(nodes) = Some ["c"; "a"; "b"]%string.
Proof.
  intros p. eexists _, _. split; [vm_compute; reflexivity|].
  eapply (enact_assigns_every_kfrag (W:=unit) (Receipt:=unit) (fun u => u) (fun u => u) (fun _ => 0)
    Payment.FreeReencryptions (fun akf t => Ok (akf, t)) (fun tm => tm.1) (fun tm => tm.2)
    (fun tm _ => Ok tm) (fun a _ => a)) with (ursulas := ["c"; "a"; "b"]%string) (p := p) (w := tt).
  - intros akf t tm _ [= <-]. done.
  - apply (bool_decide_unpack _). vm_compute. exact I.
  - vm_compute. repeat constructor.
  - vm_compute. reflexivity.
Defined.

End PolicyDemo.
