(* ===== verification/Retrieval.v ===== *)
(** * nulink/network/retrieval.py

    Retrieving capsule fragments: the plan that decides which Ursula is
    asked for which capsules, the value factory and the worker of the pool
    that asks them, and [retrieve_cfrags], which runs up to two pools that
    share the plan. *)

From S2P Require Import Prelude Concurrency.

(** What [RetrievalClient] needs of the learner: the known nodes, and that
    waiting for specific nodes returns only when at most [allow_missing] of
    them are unknown or the learner has crashed (nulink/network/nodes.py). *)
Class NodeLearner (L : Type) := {
  known_addresses : L -> list string;
  is_done_seeding : L -> bool;
  has_crashed : L -> bool;
  learner_learn_from_teacher_node : PyM L unit;
  learner_block_until_specific : list string -> Z -> PyM L unit;
  block_until_specific_ok : forall addresses allow_missing l l',
    NoDup addresses ->
    learner_block_until_specific addresses allow_missing l = (Ok tt, l') ->
    has_crashed l' = true \/
    (Z.of_nat (length (filter (fun a => a ∉ known_addresses l') addresses)) <= Z.max 0 allow_missing)%Z;
}.

Module Retrieval.

Section Plan.
Context {Capsule CFrag : Type} `{!EqDecision Capsule}.
(** [eth_utils.to_checksum_address] of a canonical address. *)
Variable to_checksum_address : string -> string.

(** [RetrievalKit] of nucypher_core. *)
Record retrieval_kit := RetrievalKit {
  capsule : Capsule;
  queried_addresses : list string;
}.

(** Sets as lists without duplicates. *)
Definition set_add {A} `{EqDecision A} (x : A) (l : list A) : list A :=
  if decide (x ∈ l) then l else l ++ [x].

(** [RetrievalPlan]. *)
Record plan := Mk_plan {
  _capsules : list Capsule;
  _threshold : Z;
  _results : list (Capsule * list (string * CFrag));
  _queried_addresses : list (Capsule * list string);
  _processed_capsules : list (string * list Capsule);
  _ursulas_pick_order : list string;
}.

Definition set_pick_order (o : list string) (p : plan) : plan :=
  Mk_plan p.(_capsules) p.(_threshold) p.(_results) p.(_queried_addresses)
    p.(_processed_capsules) o.

(** [RetrievalWorkOrder]. *)
Record work_order := RetrievalWorkOrder {
  ursula_address : string;
  capsules : list Capsule;
}.

(** [defaultdict(set)[address].add(capsule)]. *)
Definition add_processed (processed : list (string * list Capsule)) (address : string) (c : Capsule)
    : list (string * list Capsule) :=
  dict_set processed address (set_add c (default [] (dict_get processed address))).

Definition kit_processed (processed : list (string * list Capsule)) (k : retrieval_kit)
    : list (string * list Capsule) :=
  foldl (fun acc a => add_processed acc a k.(capsule)) processed k.(queried_addresses).

(** [__init__]: [shuffle] is [random.shuffle], [iter_set] the order in which
    a set is listed. *)
Definition new_plan (shuffle iter_set : list string -> list string)
    (destinations : list string) (threshold : Z) (kits : list retrieval_kit) : plan :=
  let queried := dict_of ((fun k => (k.(capsule), k.(queried_addresses))) <$> kits) in
  let ursulas_to_contact_last := iter_set (mjoin queried.*2) in
  let ursulas_pick_order :=
    filter (fun a => a ∉ ursulas_to_contact_last) (shuffle destinations) in
  Mk_plan (capsule <$> kits) threshold
    (dict_of ((fun k => (k.(capsule), [])) <$> kits))
    queried
    (foldl kit_processed [] kits)
    (ursulas_pick_order ++ ursulas_to_contact_last).

(** The list comprehension of [get_work_order]. *)
Definition needed (p : plan) (address : string) : list Capsule :=
  filter (fun c => c ∉ default [] (dict_get p.(_processed_capsules) address) /\
                   (Z.of_nat (length (default [] (dict_get p.(_queried_addresses) c)))
                      < p.(_threshold))%Z) p.(_capsules).

(** [while self._ursulas_pick_order: ... pop(0)]. *)
Fixpoint next_order (p : plan) (order : list string) : option work_order * list string :=
  match order with
  | [] => (None, [])
  | a :: rest =>
      match needed p a with
      | [] => next_order p rest
      | cs => (Some (RetrievalWorkOrder a cs), rest)
      end
  end.

Definition get_work_order : PyM plan work_order := fun p =>
  match next_order p p.(_ursulas_pick_order) with
  | (Some wo, rest) => (Ok wo, set_pick_order rest p)
  | (None, rest) => (Raise RuntimeError, set_pick_order rest p)
  end.

(** One iteration of the loop of [update]; an unknown capsule is a [KeyError]. *)
Definition update_one (address : string) (cf : Capsule * CFrag) : PyM plan unit := fun p =>
  let '(c, cfrag) := cf in
  match dict_get p.(_queried_addresses) c, dict_get p.(_results) c with
  | None, _ => (Raise KeyError, p)
  | Some queried, found =>
      let p' := Mk_plan p.(_capsules) p.(_threshold) p.(_results)
                  (dict_set p.(_queried_addresses) c (set_add address queried))
                  (add_processed p.(_processed_capsules) address c) p.(_ursulas_pick_order) in
      match found with
      | None => (Raise KeyError, p')
      | Some cfrags =>
          (Ok tt, Mk_plan p'.(_capsules) p'.(_threshold)
                    (dict_set p'.(_results) c (dict_set cfrags address cfrag))
                    p'.(_queried_addresses) p'.(_processed_capsules) p'.(_ursulas_pick_order))
      end
  end.

Definition update (wo : work_order) (cfrags : list (Capsule * CFrag)) : PyM plan unit :=
  for_each cfrags (update_one wo.(ursula_address)).

Definition is_complete (p : plan) : bool :=
  bool_decide (p.(_ursulas_pick_order) = []) ||
  forallb (fun ca => (p.(_threshold) <=? Z.of_nat (length ca.2))%Z) p.(_queried_addresses).

(** [results]: the cfrags of one capsule, by checksum address. *)
Definition capsule_result (p : plan) (c : Capsule) : list (string * CFrag) :=
  dict_of ((fun af => (to_checksum_address af.1, af.2)) <$> default [] (dict_get p.(_results) c)).

Definition results (p : plan) : list (list (string * CFrag)) := capsule_result p <$> p.(_capsules).

(** The loop at the start of [retrieve_cfrags]: every call of
    [get_work_order] takes at least one address or is the last, so the
    length of the pick order plus one is enough fuel. *)
Fixpoint collect (fuel : nat) (orders : list (string * work_order)) : PyM plan (list (string * work_order)) :=
  fun p =>
    match fuel with
    | 0 => (Ok orders, p)
    | S fuel' =>
        match get_work_order p with
        | (Ok wo, p') => collect fuel' (dict_set orders (to_checksum_address wo.(ursula_address)) wo) p'
        | (Raise e, p') => if catches [RuntimeError] e then (Ok orders, p') else (Raise e, p')
        end
    end.

Definition collect_work_orders : PyM plan (list (string * work_order)) := fun p =>
  collect (S (length p.(_ursulas_pick_order))) [] p.

(** No call of [get_work_order] raises anything but the [RuntimeError] that
    ends the loop. *)
Lemma collect_work_orders_ok p : exists orders p', collect_work_orders p = (Ok orders, p').
Proof.
  unfold collect_work_orders. generalize (S (length (_ursulas_pick_order p))) as fuel.
  intros fuel. generalize (@nil (string * work_order)) as orders. revert p.
  induction fuel as [|fuel IH]; intros p orders; simpl; [by eexists _, _|].
  unfold get_work_order. destruct (next_order _ _) as [[wo|] rest]; [apply IH|by eexists _, _].
Qed.

(** ** The work orders *)

(** What the loop should collect: in pick order, every Ursula that has a
    capsule left to process. *)
Definition expected_orders (p : plan) : list (string * work_order) :=
  (fun a => (to_checksum_address a, RetrievalWorkOrder a (needed p a))) <$>
    filter (fun a => needed p a <> []) p.(_ursulas_pick_order).

Lemma needed_pick_order p o a : needed (set_pick_order o p) a = needed p a.
Proof. done. Qed.

Lemma next_order_spec p order :
  match next_order p order with
  | (None, rest) => rest = [] /\ filter (fun a => needed p a <> []) order = []
  | (Some wo, rest) =>
      wo = RetrievalWorkOrder wo.(ursula_address) (needed p wo.(ursula_address)) /\
      filter (fun a => needed p a <> []) order =
        wo.(ursula_address) :: filter (fun a => needed p a <> []) rest /\
      length rest < length order
  end.
Proof.
  induction order as [|a order IH]; simpl; [done|]. rewrite filter_cons.
  destruct (needed p a) as [|c cs] eqn:Hn.
  - rewrite decide_False by (by intros H). destruct (next_order p order) as [[wo|] rest]; [|done].
    destruct IH as (? & ? & ?). split_and!; [done|done|lia].
  - rewrite decide_True by done. simpl. rewrite Hn. split_and!; [done|done|lia].
Qed.

Lemma collect_spec fuel orders p :
  length p.(_ursulas_pick_order) < fuel ->
  collect fuel orders p =
    (Ok (dict_update orders (expected_orders p)), set_pick_order [] p).
Proof.
  revert orders p. induction fuel as [|fuel IH]; intros orders p Hf; [lia|]. simpl.
  unfold get_work_order. pose proof (next_order_spec p p.(_ursulas_pick_order)) as Hn.
  unfold expected_orders.
  destruct (next_order p (_ursulas_pick_order p)) as [[wo|] rest].
  - destruct Hn as (Hwo & -> & Hlt). rewrite IH by (simpl; lia). csimpl. rewrite <-Hwo.
    unfold expected_orders. simpl. done.
  - destruct Hn as [-> ->]. done.
Qed.

Hypothesis to_checksum_address_inj : forall a b, to_checksum_address a = to_checksum_address b -> a = b.

Lemma NoDup_checksum (l : list string) : NoDup l -> NoDup (to_checksum_address <$> l).
Proof. intros. apply NoDup_fmap_2; [|done]. intros a b. apply to_checksum_address_inj. Qed.

Lemma expected_orders_wf p : NoDup p.(_ursulas_pick_order) -> dict_wf (expected_orders p).
Proof.
  intros Hnd. unfold dict_wf, expected_orders. rewrite <-list_fmap_compose.
  apply (NoDup_checksum (filter _ _)). by apply NoDup_filter.
Qed.

Lemma elem_of_expected_orders p k wo :
  (k, wo) ∈ expected_orders p <->
  k = to_checksum_address wo.(ursula_address) /\ wo.(capsules) = needed p wo.(ursula_address) /\
  wo.(capsules) <> [] /\ wo.(ursula_address) ∈ p.(_ursulas_pick_order).
Proof.
  unfold expected_orders. rewrite list_elem_of_fmap. split.
  - intros (a & [= -> ->] & [Ha Hin]%list_elem_of_filter). done.
  - destruct wo as [a cs]; simpl. intros (-> & -> & Hne & Hin). exists a. split; [done|].
    by apply list_elem_of_filter.
Qed.

(** The loop that collects the work orders ends and is complete: it
    raises nothing, empties the pick order, and its orders are exactly one
    for each Ursula of the pick order that has a capsule to process, with
    all the capsules that this Ursula has not processed yet and that fewer
    than threshold Ursulas have been queried for. *)
Theorem collect_work_orders_spec p :
  NoDup p.(_ursulas_pick_order) ->
  exists orders, collect_work_orders p = (Ok orders, set_pick_order [] p) /\ dict_wf orders /\
    (forall wo, (to_checksum_address wo.(ursula_address), wo) ∈ orders <->
       wo.(ursula_address) ∈ p.(_ursulas_pick_order) /\
       wo.(capsules) = needed p wo.(ursula_address) /\ wo.(capsules) <> []) /\
    length orders <= length p.(_ursulas_pick_order).
Proof.
  intros Hnd. unfold collect_work_orders. rewrite collect_spec by lia.
  pose proof (expected_orders_wf p Hnd) as Hwf. fold (dict_of (expected_orders p)).
  rewrite dict_of_id by done. eexists. split; [done|]. split; [done|]. split.
  - intros wo. rewrite elem_of_expected_orders. tauto.
  - unfold expected_orders. rewrite length_fmap. apply length_filter.
Qed.

(** ** Recording fragments *)

(** Every capsule of the plan has its entries. *)
Definition plan_ok (p : plan) : Prop :=
  (forall c, c ∈ p.(_capsules) <-> c ∈ p.(_results).*1) /\
  (forall c, c ∈ p.(_capsules) <-> c ∈ p.(_queried_addresses).*1) /\
  (forall c fs, dict_get p.(_results) c = Some fs -> dict_wf fs).

Definition fragments (p : plan) (c : Capsule) : list (string * CFrag) :=
  default [] (dict_get p.(_results) c).

Lemma new_plan_ok shuffle iter_set destinations threshold kits :
  plan_ok (new_plan shuffle iter_set destinations threshold kits) /\
  forall c, fragments (new_plan shuffle iter_set destinations threshold kits) c = [].
Proof.
  assert (forall (T : Type) (f : retrieval_kit -> T) c,
    c ∈ capsule <$> kits <-> c ∈ (dict_of ((fun k => (k.(capsule), f k)) <$> kits)).*1) as Hkeys.
  { intros T f c. unfold dict_of. rewrite dict_update_keys, <-list_fmap_compose. csimpl.
    split; [by right|intros [H|H]; [inversion H|done]]. }
  assert (forall c fs, dict_get (dict_of ((fun k => (k.(capsule), [] : list (string * CFrag))) <$> kits)) c
            = Some fs -> fs = []) as Hempty.
  { intros c fs Hg%dict_get_elem_of. unfold dict_of in Hg.
    apply dict_update_elem_of in Hg as [Hg|Hg]; [inversion Hg|].
    by apply list_elem_of_fmap in Hg as (k & [= _ ->] & _). }
  split; [split_and!|]; simpl; [apply (Hkeys _ (fun _ => []))|apply (Hkeys _ queried_addresses)| |].
  - intros c fs ->%Hempty. constructor.
  - intros c. unfold fragments, new_plan. simpl.
    destruct (dict_get _ c) as [fs|] eqn:Hg; [|done]. by rewrite (Hempty _ _ Hg).
Qed.

Lemma update_one_ok address c cfrag p :
  plan_ok p -> c ∈ p.(_capsules) ->
  exists p', update_one address (c, cfrag) p = (Ok tt, p') /\ plan_ok p' /\
    p'.(_capsules) = p.(_capsules) /\ p'.(_threshold) = p.(_threshold) /\
    forall c', fragments p' c' =
      if decide (c' = c) then dict_set (fragments p c) address cfrag else fragments p c'.
Proof.
  intros (Hr & Hq & Hwf) Hc. unfold update_one.
  destruct (proj2 (dict_get_is_Some _ _) (proj1 (Hq c) Hc)) as [q Hgq].
  destruct (proj2 (dict_get_is_Some _ _) (proj1 (Hr c) Hc)) as [fs Hgf].
  rewrite Hgq, Hgf. eexists. split; [done|]. split; [|split_and!; [done|done|]].
  - assert (forall (T : Type) (d : list (Capsule * T)) x,
      c ∈ d.*1 -> forall c', c' ∈ (dict_set d c x).*1 <-> c' ∈ d.*1) as Hset.
    { intros T d x Hin c'. rewrite dict_set_elem_of_keys. naive_solver. }
    split_and!; simpl.
    + intros c'. rewrite Hset by (by apply Hr). apply Hr.
    + intros c'. rewrite Hset by (by apply Hq). apply Hq.
    + intros c' fs'. rewrite dict_get_set. case_decide as Hd; [|apply Hwf].
      intros [= <-]. by eapply dict_set_wf, Hwf.
  - intros c'. unfold fragments. simpl. rewrite dict_get_set. case_decide; [|done]. by rewrite Hgf.
Qed.

(** [update] records every fragment under the Ursula's address and keeps
    those of the others. *)
Lemma update_ok wo cfrags p :
  plan_ok p -> (forall c, c ∈ cfrags.*1 -> c ∈ p.(_capsules)) -> dict_wf cfrags ->
  exists p', update wo cfrags p = (Ok tt, p') /\ plan_ok p' /\
    p'.(_capsules) = p.(_capsules) /\ p'.(_threshold) = p.(_threshold) /\
    forall c, fragments p' c =
      match dict_get cfrags c with
      | Some cfrag => dict_set (fragments p c) wo.(ursula_address) cfrag
      | None => fragments p c
      end.
Proof.
  unfold update. revert p. induction cfrags as [|[c cfrag] cfrags IH]; intros p Hp Hin Hwf.
  { exists p. done. }
  unfold dict_wf in Hwf. csimpl in *. apply NoDup_cons in Hwf as [Hc Hwf].
  destruct (update_one_ok wo.(ursula_address) c cfrag p Hp) as (p1 & H1 & Hp1 & Hc1 & Ht1 & Hf1);
    [apply Hin; left|].
  destruct (IH p1 Hp1) as (p' & H' & Hp' & Hc' & Ht' & Hf'); [|done|].
  { intros c' Hc'. rewrite Hc1. apply Hin. by right. }
  exists p'. unfold py_bind. rewrite H1. split_and!; [done|done|congruence|congruence|].
  intros c'. rewrite Hf'. apply dict_get_None in Hc. case_decide as Hd.
  - subst c'. by rewrite Hc, Hf1, decide_True.
  - rewrite !Hf1, !decide_False by done. done.
Qed.

End Plan.

(** ** [RetrievalStrategy] *)

Section Strategy.

Record strategy := RetrievalStrategy {
  retrieval_work_order_key_list : list string;
  need_successes : Z;
}.

(** The [for] loop: [list.pop()] takes the last key, its [IndexError] on an
    empty list is a [break]. *)
Fixpoint pops (n : nat) (keys batch : list string) : list string * list string :=
  match n with
  | 0 => (batch, keys)
  | S n' =>
      match last keys with
      | None => (batch, keys)
      | Some value => pops n' (removelast keys) (batch ++ [value])
      end
  end.

Definition strategy_call (successes : Z) (st : strategy) : result (option (list string)) * strategy :=
  let '(batch, keys) :=
    pops (Z.to_nat (st.(need_successes) - successes)) st.(retrieval_work_order_key_list) [] in
  (Ok (match batch with [] => None | _ => Some batch end),
   RetrievalStrategy keys st.(need_successes)).

#[global] Instance strategy_value_factory : ValueFactory strategy string := strategy_call.

Lemma pops_spec n keys batch :
  exists taken left, pops n keys batch = (batch ++ taken, left) /\
    keys = left ++ reverse taken /\ length taken = n `min` length keys.
Proof.
  revert keys batch. induction n as [|n IH]; intros keys batch; cbn [pops].
  { exists [], keys. by rewrite !app_nil_r. }
  destruct (last keys) as [v|] eqn:Hl.
  - apply last_Some in Hl as [l' ->]. rewrite removelast_last.
    destruct (IH l' (batch ++ [v])) as (taken & left & Hp & -> & Hlen).
    exists (v :: taken), left. rewrite Hp, reverse_cons, <-!app_assoc.
    split_and!; [done|done|]. cbn [length]. rewrite !length_app, ?length_reverse in *. cbn [length]. lia.
  - apply last_None in Hl as ->. exists [], []. split_and!; [by rewrite app_nil_r|done|simpl; lia].
Qed.

#[global] Program Instance strategy_finite : FiniteFactory strategy string :=
  {| supply st := length st.(retrieval_work_order_key_list) |}.
Next Obligation.
  intros n st b st'. unfold value_factory, strategy_value_factory, strategy_call.
  destruct (pops_spec (Z.to_nat (need_successes st - n)) (retrieval_work_order_key_list st) [])
    as (taken & left & Hp & Hk & _).
  rewrite Hp. simpl. destruct taken; [done|]. intros [= <- <-]. rewrite Hk. simpl.
  rewrite length_app, length_reverse. simpl. lia.
Qed.

End Strategy.

(** ** Asking one Ursula *)

Section Request.
Context {Capsule CFrag Ursula Bytes Response EncryptedKeyFrag : Type} `{!EqDecision Capsule}.
Variable to_checksum_address : string -> string.
(** [ReencryptionResponse.from_bytes] and [verify] of nucypher_core; [verify]
    is given the keys of Alice, the Ursula and Bob. *)
Variable from_bytes : Bytes -> result Response.
Variable verify : Ursula -> Response -> list Capsule -> result (list CFrag).

(** [_request_reencryption], given what [middleware.reencrypt] returned. *)
Definition _request_reencryption (ursula : Ursula) (capsules : list Capsule)
    (response : result Bytes) : result (list (Capsule * CFrag)) :=
  let? content :=
    match response with
    | Ok content => Ok content
    | Raise e =>
        if catches NodeSeemsToBeDown e then Raise RuntimeError
        else if catches [NotFound] e then Raise RuntimeError
        else Raise e
    end in
  let? reencryption_response :=
    match from_bytes content with
    | Ok r => Ok r
    | Raise e => if catches [Exception] e then Raise RuntimeError else Raise e
    end in
  let? verified_cfrags :=
    match verify ursula reencryption_response capsules with
    | Ok cfrags => Ok cfrags
    | Raise e =>
        if catches [InvalidSignature] e then Raise e
        else if catches [VerificationError] e then Raise e
        else if catches [Exception] e then Raise RuntimeError
        else Raise e
    end in
  Ok (dict_of (zip capsules verified_cfrags)).

(** [valid u c f]: the fragment [f] was verified for the capsule [c] with the
    keys of [u].  [verify] returns one verified fragment per capsule. *)
Variable valid : Ursula -> Capsule -> CFrag -> Prop.
Hypothesis verify_sound : forall u r cs fs, verify u r cs = Ok fs -> Forall2 (valid u) cs fs.

Lemma zip_Forall2 u (cs : list Capsule) (fs : list CFrag) :
  Forall2 (valid u) cs fs ->
  (zip cs fs).*1 = cs /\ forall c f, (c, f) ∈ zip cs fs -> valid u c f.
Proof.
  induction 1 as [|c f cs fs Hv _ [IH1 IH2]]; csimpl; [split; [done|inversion 1]|].
  split; [by rewrite IH1|]. intros c' f'. rewrite elem_of_cons. intros [[= -> ->]|H]; auto.
Qed.

Lemma request_ok u cs response cfrags :
  _request_reencryption u cs response = Ok cfrags ->
  dict_wf cfrags /\ (forall c, c ∈ cfrags.*1 <-> c ∈ cs) /\
  (forall c f, (c, f) ∈ cfrags -> valid u c f).
Proof.
  unfold _request_reencryption.
  destruct response as [content|e]; simpl; [|by repeat case_match].
  destruct (from_bytes content) as [r|e]; simpl; [|by repeat case_match].
  destruct (verify u r cs) as [fs|e] eqn:Hv; simpl; [|by repeat case_match].
  intros [= <-]. apply verify_sound in Hv. destruct (zip_Forall2 _ _ _ Hv) as [Hk Hval].
  split_and!; [apply dict_of_wf| |].
  - intros c. unfold dict_of. rewrite dict_update_keys, Hk. csimpl.
    split; [intros [H|H]; [inversion H|done]|by right].
  - intros c f. unfold dict_of. intros [H|H]%dict_update_elem_of; [inversion H|by apply Hval].
Qed.

(** A re-encryption request returns verified fragments or raises:
    what it returns has a fragment for exactly the requested capsules, each
    one verified; an Ursula that is down, that does not know the policy or
    that answers garbage becomes a [RuntimeError]; a bad signature or a
    failed verification is passed on as it is. *)
Theorem request_reencryption_spec u cs response :
  match _request_reencryption u cs response with
  | Ok cfrags =>
      dict_wf cfrags /\ (forall c, c ∈ cfrags.*1 <-> c ∈ cs) /\
      (forall c f, (c, f) ∈ cfrags -> valid u c f) /\
      exists content r, response = Ok content /\ from_bytes content = Ok r /\ is_ok (verify u r cs) = true
  | Raise e =>
      (exists d, response = Raise d /\
         if catches NodeSeemsToBeDown d || catches [NotFound] d then e = RuntimeError else e = d) \/
      (exists content d, response = Ok content /\ from_bytes content = Raise d /\
         (catches [Exception] d = true -> e = RuntimeError)) \/
      (exists content r d, response = Ok content /\ from_bytes content = Ok r /\
         verify u r cs = Raise d /\
         (catches [InvalidSignature] d || catches [VerificationError] d = true -> e = d))
  end.
Proof.
  destruct (_request_reencryption u cs response) as [cfrags|e] eqn:Hr.
  - destruct (request_ok _ _ _ _ Hr) as (? & ? & ?). split_and!; [done..|].
    unfold _request_reencryption in Hr.
    destruct response as [content|d]; cbn [rbind] in Hr; [|by repeat case_match].
    destruct (from_bytes content) as [r|d] eqn:Hf; cbn [rbind] in Hr; [|by repeat case_match].
    exists content, r. destruct (verify u r cs); [done|]. cbn [rbind] in Hr. by repeat case_match.
  - unfold _request_reencryption in Hr. destruct response as [content|d].
    + right. cbn [rbind] in Hr. destruct (from_bytes content) as [r|d] eqn:Hf; cbn [rbind] in Hr.
      * right. destruct (verify u r cs) as [fs|d] eqn:Hv; cbn [rbind] in Hr; [done|].
        exists content, r, d. split_and!; [done..|].
        destruct (catches [InvalidSignature] d); [cbn [rbind] in Hr; congruence|].
        destruct (catches [VerificationError] d); [cbn [rbind] in Hr; congruence|done].
      * left. exists content, d. split_and!; [done..|]. intros He. rewrite He in Hr. cbn [rbind] in Hr. congruence.
    + left. exists d. split; [done|]. cbn [rbind] in Hr.
      destruct (catches NodeSeemsToBeDown d); [cbn [rbind orb] in *; congruence|].
      destruct (catches [NotFound] d); cbn [rbind orb] in *; congruence.
Qed.

End Request.

(** ** [retrieve_cfrags] *)

Section Retrieve.
Context {Capsule CFrag Ursula Bytes Response EncryptedKeyFrag : Type} `{!EqDecision Capsule}.
Variable to_checksum_address : string -> string.
Variable from_bytes : Bytes -> result Response.
Variable verify : Ursula -> Response -> list Capsule -> result (list CFrag).
(** What [self._learner.known_nodes], by checksum address, may be while the
    rounds run: the learner goes on learning. *)
Variable knowable : list (string * Ursula) -> Prop.
(** [treasure_map.destinations], by canonical address. *)
Variable destinations : list (string * EncryptedKeyFrag).
(** [retrieval_worker_orders]. *)
Variable orders : list (string * work_order (Capsule:=Capsule)).
(** What [middleware.reencrypt] may return for a node. *)
Variable reply : Ursula -> result Bytes -> Prop.
Variable max_threads : nat.

Notation plan := (plan (Capsule:=Capsule) (CFrag:=CFrag)).
Notation cfrags := (list (Capsule * CFrag)).

(** [worker] up to the update of the plan, given the nodes that are known when
    it looks and the node's reply. *)
Definition worker_request (known_nodes : list (string * Ursula)) (address : string) (response : result Bytes)
    : result (work_order (Capsule:=Capsule) * cfrags) :=
  match dict_get orders address with
  | None => Raise Exception
  | Some wo =>
      match dict_get known_nodes (to_checksum_address wo.(ursula_address)) with
      | None => Raise Exception
      | Some ursula =>
          match dict_get destinations wo.(ursula_address) with
          | None => Raise KeyError
          | Some _ =>
              match _request_reencryption from_bytes verify ursula wo.(capsules) response with
              | Ok cf => Ok (wo, cf)
              | Raise e => if catches [Exception] e then Raise Exception else Raise e
              end
          end
      end
  end.

(** [worker]: the plan is shared by all the workers. *)
Definition worker (known_nodes : list (string * Ursula)) (address : string) (response : result Bytes) : PyM plan cfrags :=
  woc <- lift (worker_request known_nodes address response) ;;
  update woc.1 woc.2 ;;;
  py_ret woc.2.

Definition any_outcome (v : string) (o : result cfrags) : Prop := True.

Section Pool.
Variable target : Z.

Definition retrieval_config : WorkerPool.config :=
  {| WorkerPool.target_successes := target; WorkerPool.max_threads := max_threads |}.

Notation pool := (WorkerPool.pool (V:=string) (R:=cfrags) (F:=strategy)).

(** The pool and the plan together: a task that ends updates the plan. *)
Inductive rstep : pool * plan -> pool * plan -> Prop :=
  | r_producer s s' P : WorkerPool.produce_values_step s = Some s' -> rstep (s, P) (s', P)
  | r_worker_start s s' P :
      WorkerPool.worker_start retrieval_config s = Some s' -> rstep (s, P) (s', P)
  | r_processor s s' P :
      WorkerPool.process_results_step retrieval_config s = Some s' -> rstep (s, P) (s', P)
  | r_timeout s s' P : WorkerPool.bail_on_timeout_step s = Some s' -> rstep (s, P) (s', P)
  | r_cancel s P : s.(WorkerPool.cancel_event) = false -> rstep (s, P) (WorkerPool.cancel s, P)
  | r_worker s s' i v known_nodes response o P P' :
      s.(WorkerPool.running) !! i = Some v -> knowable known_nodes ->
      (forall wo u, dict_get orders v = Some wo ->
         dict_get known_nodes (to_checksum_address wo.(ursula_address)) = Some u -> reply u response) ->
      worker known_nodes v response P = (o, P') ->
      WorkerPool.worker_finish i o s = Some s' -> rstep (s, P) (s', P').

(** The [try]/[except]/[finally] of [worker_pool_start]. *)
Definition pool_outcome (blocked : result (list (string * cfrags))) (s : pool) (joined : result unit)
    : result (list (string * cfrags)) :=
  let? _ := joined in
  match blocked with
  | Ok successes => Ok successes
  | Raise e => if catches [OutOfValues; TimedOut] e then Ok (WorkerPool.get_successes s) else Raise e
  end.

(** [worker_pool_start]: from a key list and a plan to the successes, and
    what is left of the key list and the plan. *)
Inductive worker_pool_start (st : strategy) (P : plan)
    : result (list (string * cfrags)) -> strategy -> plan -> Prop :=
  | Pool_run s0 P0 s1 P1 s2 P2 s3 P3 blocked joined s4 :
      rtc rstep (WorkerPool.init_pool st, P) (s0, P0) -> rtc rstep (s0, P0) (s1, P1) ->
      WorkerPool.block_until_target_successes s0 s1 = Some blocked ->
      rtc rstep (s1, P1) (s2, P2) -> rtc rstep (WorkerPool.cancel s2, P2) (s3, P3) ->
      WorkerPool.join s3 = Some (joined, s4) ->
      worker_pool_start st P (pool_outcome blocked s2 joined) s4.(WorkerPool.factory) P3.

End Pool.

(** *** A scheduler, to evaluate a round: the first thread that can move
    does, the timeout last; [answers] are the replies of the nodes. *)
Section Scheduler.
Variable target : Z.
Variable known_now : list (string * Ursula).
Variable answers : string -> result Bytes.

Notation joint := (WorkerPool.pool (V:=string) (R:=cfrags) (F:=strategy) * plan)%type.

Definition finish_first (x : joint) : option joint :=
  match x.1.(WorkerPool.running) with
  | [] => None
  | v :: _ =>
      let '(o, P') := worker known_now v (answers v) x.2 in
      match WorkerPool.worker_finish 0 o x.1 with Some s' => Some (s', P') | None => None end
  end.

Definition first_of (x : joint) : option joint :=
  match WorkerPool.produce_values_step x.1 with
  | Some s' => Some (s', x.2)
  | None =>
      match WorkerPool.worker_start (retrieval_config target) x.1 with
      | Some s' => Some (s', x.2)
      | None =>
          match finish_first x with
          | Some y => Some y
          | None =>
              match WorkerPool.process_results_step (retrieval_config target) x.1 with
              | Some s' => Some (s', x.2)
              | None =>
                  match WorkerPool.bail_on_timeout_step x.1 with
                  | Some s' => Some (s', x.2)
                  | None => None
                  end
              end
          end
      end
  end.

Fixpoint rauto (fuel : nat) (x : joint) : joint :=
  match fuel with
  | 0 => x
  | S fuel' => match first_of x with Some y => rauto fuel' y | None => x end
  end.

Lemma rauto_rtc fuel x : (forall u r, reply u r) -> knowable known_now -> rtc (rstep target) x (rauto fuel x).
Proof.
  intros Hr Hknown. revert x. induction fuel as [|fuel IH]; intros [s P]; simpl; [done|].
  destruct (first_of (s, P)) as [y|] eqn:Hf; [|done]. eapply rtc_l; [|apply IH].
  unfold first_of, finish_first in Hf. simpl in Hf.
  destruct (WorkerPool.produce_values_step s) eqn:H1; [simplify_eq; by constructor|].
  destruct (WorkerPool.worker_start _ s) eqn:H2; [simplify_eq; by apply r_worker_start|].
  destruct (WorkerPool.running s) as [|v l] eqn:Hrun; [|destruct (worker known_now v (answers v) P) as [o P'] eqn:Hw;
    destruct (WorkerPool.worker_finish 0 o s) eqn:H3; simpl in Hf].
  2: { simplify_eq. eapply (r_worker target s _ 0 v known_now); [by rewrite Hrun|done| |exact Hw|exact H3]. auto. }
  all: destruct (WorkerPool.process_results_step _ s) eqn:H4; [simplify_eq; by apply r_processor|];
    destruct (WorkerPool.bail_on_timeout_step s) eqn:H5; [simplify_eq; by apply r_timeout|done].
Qed.

(** A round of the scheduler that has come to its end. *)
Lemma rauto_round fuel st P out s P' j s4 :
  (forall u r, reply u r) -> knowable known_now ->
  rauto fuel (WorkerPool.init_pool st, P) = (s, P') ->
  WorkerPool.block_until_target_successes (WorkerPool.init_pool st) s = Some out ->
  WorkerPool.cancel s = s -> WorkerPool.join s = Some (j, s4) ->
  worker_pool_start target st P (pool_outcome out s j) s4.(WorkerPool.factory) P'.
Proof.
  intros Hr Hknown Ha Hb Hc Hj. pose proof (rauto_rtc fuel (WorkerPool.init_pool st, P) Hr Hknown) as Hrtc.
  rewrite Ha in Hrtc. eapply (Pool_run target st P _ P s P' s P' s P' out j s4);
    [constructor|exact Hrtc|done|constructor|by rewrite Hc|done].
Qed.

End Scheduler.

(** The end of [retrieve_cfrags].  The values of [successes] are dicts of
    fragments, so [ursula.checksum_address] of the first one raises. *)
Definition report (threshold : Z) (successes : list (string * cfrags)) (P : plan)
    : result (list (list (string * CFrag))) :=
  if (Z.of_nat (length successes) <? threshold)%Z then
    match successes with
    | [] => Ok (results to_checksum_address P)
    | _ :: _ => Raise AttributeError
    end
  else Ok (results to_checksum_address P).

(** The two rounds, with the successes at the end. *)
Inductive retrieve_rounds (threshold : Z) (st : strategy) (P : plan)
    : list (string * cfrags) -> result (list (list (string * CFrag))) -> Prop :=
  | One_round successes st1 P1 :
      worker_pool_start threshold st P (Ok successes) st1 P1 ->
      (threshold <= Z.of_nat (length successes))%Z ->
      retrieve_rounds threshold st P successes (report threshold successes P1)
  | Two_rounds successes st1 P1 new_successes st2 P2 :
      worker_pool_start threshold st P (Ok successes) st1 P1 ->
      (Z.of_nat (length successes) < threshold)%Z ->
      worker_pool_start (threshold - Z.of_nat (length successes)) st1 P1 (Ok new_successes) st2 P2 ->
      retrieve_rounds threshold st P (dict_update successes new_successes)
        (report threshold (dict_update successes new_successes) P2)
  | Round_one_raises e st1 P1 :
      worker_pool_start threshold st P (Raise e) st1 P1 ->
      retrieve_rounds threshold st P [] (Raise e)
  | Round_two_raises successes st1 P1 e st2 P2 :
      worker_pool_start threshold st P (Ok successes) st1 P1 ->
      (Z.of_nat (length successes) < threshold)%Z ->
      worker_pool_start (threshold - Z.of_nat (length successes)) st1 P1 (Raise e) st2 P2 ->
      retrieve_rounds threshold st P successes (Raise e).

(** *** Termination *)

Section Termination.
Hypothesis threads_positive : 0 < max_threads.

Lemma rstep_step target x y :
  rstep target x y -> WorkerPool.step (retrieval_config target) any_outcome x.1 y.1.
Proof.
  destruct 1; simpl; [by apply WorkerPool.step_producer|by apply WorkerPool.step_worker_start
    |by apply WorkerPool.step_processor|by apply WorkerPool.step_timeout|by apply WorkerPool.step_cancel|].
  by eapply WorkerPool.step_worker_finish.
Qed.

Lemma rnsteps_weight target n x y :
  nsteps (rstep target) n x y -> n + WorkerPool.weight y.1 <= WorkerPool.weight x.1.
Proof.
  induction 1 as [|n x y z Hs%rstep_step _ IH]; [lia|].
  pose proof (WorkerPool.step_decreases _ _ _ _ Hs). lia.
Qed.

Hypothesis replies : forall u, exists r, reply u r.
Hypothesis something_known : exists known_nodes, knowable known_nodes.

(** Whatever the pool can do, it can do together with the plan. *)
Lemma step_lifts target s s' P :
  WorkerPool.step (retrieval_config target) any_outcome s s' -> exists y, rstep target (s, P) y.
Proof.
  intros Hs. destruct Hs as [s s' H|s s' H|s s' i v o Hv _ H|s s' H|s s' H|s H].
  - by eexists; apply r_producer.
  - by eexists; apply r_worker_start.
  - destruct something_known as [known_nodes Hknown].
    assert (exists response, forall wo u, dict_get orders v = Some wo ->
      dict_get known_nodes (to_checksum_address wo.(ursula_address)) = Some u -> reply u response)
      as [response Hresp].
    { destruct (dict_get orders v) as [wo|]; [|exists (Raise Exception); congruence].
      destruct (dict_get known_nodes (to_checksum_address (ursula_address wo))) as [u|] eqn:Hu;
        [|exists (Raise Exception); congruence].
      destruct (replies u) as [r Hr]. exists r. intros; congruence. }
    destruct (worker known_nodes v response P) as [o' P'] eqn:Hw.
    assert (is_Some (WorkerPool.worker_finish i o' s)) as [s'' Hf]
      by (unfold WorkerPool.worker_finish; rewrite Hv; by eexists).
    eexists. by eapply r_worker.
  - by eexists; apply r_processor.
  - by eexists; apply r_timeout.
  - by eexists; apply r_cancel.
Qed.

Lemma any_outcome_total (v : string) : exists o, any_outcome v o.
Proof. by exists (Raise Exception). Qed.

Lemma joint_run target x :
  exists y, rtc (rstep target) x y /\ WorkerPool.quiescent (retrieval_config target) any_outcome y.1.
Proof.
  remember (WorkerPool.weight x.1) as n eqn:Hn. revert x Hn.
  induction n as [n IH] using lt_wf_ind. intros [s P] ->.
  destruct (WorkerPool.step_or_quiescent (retrieval_config target) any_outcome any_outcome_total s)
    as [[s' Hs]|Hq]; [|by exists (s, P)].
  destruct (step_lifts _ _ _ P Hs) as [y Hy]. pose proof (rstep_step _ _ _ Hy) as Hd.
  pose proof (WorkerPool.step_decreases _ _ _ _ Hd) as Hlt.
  destruct (IH _ Hlt y eq_refl) as (z & Hr & Hq). exists z. split; [by eapply rtc_l|done].
Qed.

Lemma pool_start_total target st P : exists out st' P', worker_pool_start target st P out st' P'.
Proof.
  destruct (joint_run target (WorkerPool.init_pool st, P)) as ([s P'] & Hr & Hq).
  assert (WorkerPool.reachable (retrieval_config target) any_outcome st s) as Hre.
  { clear Hq. unfold WorkerPool.reachable.
    eapply (rtc_congruence (R:=rstep target) fst (WorkerPool.step (retrieval_config target) any_outcome)) in Hr;
      [exact Hr|]. intros x y. apply rstep_step. }
  destruct (WorkerPool.quiescent_returns (retrieval_config target) any_outcome any_outcome_total
              threads_positive st (WorkerPool.init_pool st) s Hre Hq) as [[b Hb] [[j s'] Hj]].
  eexists _, _, _. eapply (Pool_run target st P (WorkerPool.init_pool st) P s P' s P' (WorkerPool.cancel s) P' b);
    [constructor|exact Hr|exact Hb|constructor|constructor|by apply WorkerPool.join_cancel].
Qed.

Lemma retrieve_rounds_total threshold st P : exists successes out, retrieve_rounds threshold st P successes out.
Proof.
  destruct (pool_start_total threshold st P) as ([successes|e] & st1 & P1 & H1);
    [|eexists _, _; by eapply Round_one_raises].
  destruct (Z.le_gt_cases threshold (Z.of_nat (length successes))) as [Hle|Hlt];
    [eexists _, _; by eapply One_round|].
  destruct (pool_start_total (threshold - Z.of_nat (length successes)) st1 P1) as ([new|e] & st2 & P2 & H2);
    eexists _, _; [by eapply Two_rounds|by eapply Round_two_raises].
Qed.

End Termination.

(** *** The invariant of the pool and the plan *)

Variable valid : Ursula -> Capsule -> CFrag -> Prop.
Hypothesis verify_sound : forall u r cs fs, verify u r cs = Ok fs -> Forall2 (valid u) cs fs.
Variable caps : list Capsule.
Hypothesis orders_ok : forall k wo, dict_get orders k = Some wo ->
  k = to_checksum_address wo.(ursula_address) /\ forall c, c ∈ wo.(capsules) -> c ∈ caps.

(** The Ursula of the order [a] has a fragment recorded for each capsule of it. *)
Definition recorded (P : plan) (a : string) : Prop :=
  exists wo, dict_get orders a = Some wo /\
    forall c, c ∈ wo.(capsules) -> wo.(ursula_address) ∈ (fragments P c).*1.

Definition recorded_worker (P : plan) (a : string) (o : result cfrags) : Prop :=
  match o with Ok _ => recorded P a | Raise _ => True end.

Record plan_inv (P : plan) : Prop := {
  pi_ok : plan_ok P;
  pi_capsules : P.(_capsules) = caps;
  pi_valid : forall c a f, (a, f) ∈ fragments P c ->
    exists known_nodes u, knowable known_nodes /\ dict_get known_nodes (to_checksum_address a) = Some u /\ valid u c f;
}.

Definition extends (P P' : plan) : Prop :=
  forall c a, a ∈ (fragments P c).*1 -> a ∈ (fragments P' c).*1.

Lemma recorded_extends P P' a : extends P P' -> recorded P a -> recorded P' a.
Proof. intros He (wo & Ho & Hc). exists wo. split; [done|]. intros c Hin. apply He. auto. Qed.

Lemma worker_inv known_nodes v response P o P' :
  knowable known_nodes -> plan_inv P -> worker known_nodes v response P = (o, P') ->
  plan_inv P' /\ extends P P' /\ recorded_worker P' v o.
Proof.
  intros Hknown [Hok Hcap Hval] Hw. unfold worker, py_bind, lift, py_ret in Hw.
  destruct (worker_request known_nodes v response) as [[wo cf]|e] eqn:Hreq;
    [|simplify_eq; split_and!; [by split|by intros ? ?|done]].
  unfold worker_request in Hreq.
  destruct (dict_get orders v) as [wo'|] eqn:Ho; [|done].
  destruct (dict_get known_nodes _) as [u|] eqn:Hk; [|done].
  destruct (dict_get destinations _); [|done].
  destruct (_request_reencryption _ _ u _ response) as [cf'|] eqn:Hr; [|by repeat case_match].
  simplify_eq. destruct (orders_ok _ _ Ho) as [Hv Hcs].
  eapply request_ok in Hr as (Hwf & Hkeys & Hvalid); [|exact verify_sound].
  destruct (update_ok wo cf P Hok) as (P1 & Hu & Hok1 & Hcap1 & _ & Hf); [|done|].
  { intros c Hc. rewrite Hcap. apply Hcs. by apply Hkeys. }
  simpl in Hw. rewrite Hu in Hw. simplify_eq. split_and!; [split; [done|congruence|]| |].
  - intros c a f Hin. rewrite Hf in Hin. destruct (dict_get cf c) as [f'|] eqn:Hg; [|by eapply Hval].
    apply dict_set_elem_of in Hin as [[= -> ->]|Hin]; [|by eapply Hval].
    exists known_nodes, u. split_and!; [done..|]. apply Hvalid. by apply dict_get_elem_of.
  - intros c a Hin. rewrite Hf. destruct (dict_get cf c); [|done].
    apply dict_set_elem_of_keys. by right.
  - exists wo. split; [done|]. intros c Hc. rewrite Hf.
    apply Hkeys, dict_get_is_Some in Hc as [f ->]. apply dict_set_elem_of_keys. by left.
Qed.

Definition joint_inv (target : Z) (x : WorkerPool.pool (V:=string) (R:=cfrags) (F:=strategy) * plan)
    : Prop :=
  plan_inv x.2 /\ WorkerPool.data_inv (recorded_worker x.2) x.1 /\
  WorkerPool.control_inv (retrieval_config target) x.1.

Lemma data_inv_mono P P' (s : WorkerPool.pool (V:=string) (R:=cfrags) (F:=strategy)) :
  extends P P' -> WorkerPool.data_inv (recorded_worker P) s ->
  WorkerPool.data_inv (recorded_worker P') s.
Proof.
  intros He [Hwf Hs Hq]. split; [done| |].
  - intros v r Hin. eapply recorded_extends; [done|]. by eapply (Hs v r).
  - intros v r Hin. eapply recorded_extends; [done|]. by eapply (Hq v r).
Qed.

Lemma joint_inv_step target x y :
  rstep target x y -> joint_inv target x -> joint_inv target y /\ extends x.2 y.2.
Proof.
  intros Hstep (Hp & Hd & Hc).
  assert (exists s s' P P', x = (s, P) /\ y = (s', P') /\ plan_inv P' /\ extends P P' /\
    WorkerPool.step (retrieval_config target) (recorded_worker P') s s') as
    (s & s' & P & P' & -> & -> & Hp' & He & Hs).
  { inversion Hstep; subst; simpl in *; do 4 eexists; (split; [done|]); (split; [done|]);
      try (split; [done|]; split; [by intros ? ?|]; by constructor).
    destruct (worker_inv known_nodes v response P o P') as (? & ? & ?); [done..|]. split_and!; [done..|].
    by eapply WorkerPool.step_worker_finish. }
  simpl in *. split; [|done]. split_and!; [done| |].
  - eapply WorkerPool.data_inv_step; [exact Hs|]. by eapply data_inv_mono.
  - by eapply WorkerPool.control_inv_step.
Qed.

Lemma joint_inv_rtc target x y :
  rtc (rstep target) x y -> joint_inv target x -> joint_inv target y /\ extends x.2 y.2.
Proof.
  induction 1 as [x|x y z Hxy _ IH]; intros Hx; [by split; [|intros ? ?]|].
  destruct (joint_inv_step _ _ _ Hxy Hx) as [Hy He].
  destruct (IH Hy) as [Hz He']. split; [done|]. intros c a Hin. by apply He', He.
Qed.

(** A round: the plan only grows, and every success is recorded in it. *)
Lemma worker_pool_start_inv target st P out st' P' :
  plan_inv P -> worker_pool_start target st P out st' P' ->
  plan_inv P' /\ extends P P' /\
  forall d, out = Ok d -> dict_wf d /\ forall a cf, (a, cf) ∈ d -> recorded P' a.
Proof.
  intros Hp Hrun.
  inversion Hrun as [s0 P0 s1 P1 s2 P2 s3 P3 blocked joined s4 H0 H1 Hb H2 H3 Hj]; subst; clear Hrun.
  assert (joint_inv target (WorkerPool.init_pool st, P)) as Hi.
  { split_and!; [done|apply WorkerPool.data_inv_init|apply WorkerPool.control_inv_init]. }
  destruct (joint_inv_rtc _ _ _ H0 Hi) as [Hi0 He0].
  destruct (joint_inv_rtc _ _ _ H1 Hi0) as [Hi1 He1].
  destruct (joint_inv_rtc _ _ _ H2 Hi1) as [Hi2 He2].
  assert (joint_inv target (WorkerPool.cancel s2, P2)) as Hi2'.
  { destruct (WorkerPool.cancel_event s2) eqn:Hc.
    - replace (WorkerPool.cancel s2) with s2; [done|]. destruct s2; simpl in *. by subst.
    - eapply joint_inv_step; [by apply r_cancel|done]. }
  destruct (joint_inv_rtc _ _ _ H3 Hi2') as [Hi3 He3]. simpl in *.
  split_and!; [apply Hi3|intros c a Hin; by apply He3, He2, He1, He0|].
  intros d Hd. unfold pool_outcome in Hd. destruct joined as [[]|]; simpl in Hd; [|done].
  destruct Hi1 as (_ & Hd1 & Hc1). destruct Hi2 as (_ & Hd2 & _). simpl in *.
  destruct blocked as [d'|e].
  - simplify_eq. apply WorkerPool.block_ok in Hb.
    pose proof (WorkerPool.ci_target _ _ Hc1) as Ht. rewrite Hb in Ht. destruct Ht as (_ & -> & _).
    split; [apply Hd1|]. intros a cf Hin. eapply recorded_extends; [exact He3|].
    eapply recorded_extends; [exact He2|]. by apply (WorkerPool.di_successes _ _ Hd1 a cf).
  - destruct (catches [OutOfValues; TimedOut] e); simplify_eq. split; [apply Hd2|].
    intros a cf Hin. eapply recorded_extends; [exact He3|].
    by apply (WorkerPool.di_successes _ _ Hd2 a cf).
Qed.

(** *** What the rounds return *)

Hypothesis to_checksum_address_inj : forall a b, to_checksum_address a = to_checksum_address b -> a = b.

Lemma recorded_count P (d : list (string * cfrags)) c :
  dict_wf d -> (forall a cf, (a, cf) ∈ d -> recorded P a) ->
  (forall k wo, dict_get orders k = Some wo -> c ∈ wo.(capsules)) ->
  length d <= length (fragments P c).
Proof.
  intros Hwf Hrec Hall.
  set (addr a := match dict_get orders a with Some wo => wo.(ursula_address) | None => EmptyString end).
  assert (forall a, a ∈ d.*1 -> to_checksum_address (addr a) = a /\ addr a ∈ (fragments P c).*1) as Ha.
  { intros a ([a' cf] & -> & Hin)%list_elem_of_fmap. simpl.
    destruct (Hrec _ _ Hin) as (wo & Ho & Hc). unfold addr. rewrite Ho.
    destruct (orders_ok _ _ Ho) as [Hk _]. split; [done|]. eauto. }
  rewrite <-(length_fmap fst d), <-(length_fmap addr), <-(length_fmap fst (fragments P c)).
  apply submseteq_length, NoDup_submseteq.
  - apply NoDup_fmap_2_strong; [|done]. intros x y Hx Hy Hxy.
    rewrite <-(proj1 (Ha x Hx)), <-(proj1 (Ha y Hy)). by rewrite Hxy.
  - intros x (a & -> & Hin)%list_elem_of_fmap. by apply Ha.
Qed.

Lemma checksummed_wf (l : list (string * CFrag)) :
  dict_wf l -> dict_wf ((fun af => (to_checksum_address af.1, af.2)) <$> l).
Proof.
  unfold dict_wf. intros Hl. rewrite <-list_fmap_compose.
  change (NoDup ((to_checksum_address ∘ fst) <$> l)).
  rewrite list_fmap_compose. by apply NoDup_checksum.
Qed.

Lemma capsule_result_spec P c :
  plan_inv P ->
  dict_wf (capsule_result to_checksum_address P c) /\
  length (capsule_result to_checksum_address P c) = length (fragments P c) /\
  forall k f, (k, f) ∈ capsule_result to_checksum_address P c ->
    exists known_nodes u, knowable known_nodes /\ dict_get known_nodes k = Some u /\ valid u c f.
Proof.
  intros [(_ & _ & Hwf) _ Hval].
  assert (dict_wf (fragments P c)) as Hf.
  { unfold fragments. destruct (dict_get (_results P) c) as [fs|] eqn:Hg; [by eapply Hwf|constructor]. }
  unfold capsule_result. fold (fragments P c). rewrite dict_of_id.
  - split_and!; [|by rewrite length_fmap|].
    + by apply checksummed_wf.
    + intros k f ([a f'] & [= -> ->] & Hin)%list_elem_of_fmap. by apply Hval.
  - by apply checksummed_wf.
Qed.

Lemma rounds_inv threshold st P successes out :
  plan_inv P -> retrieve_rounds threshold st P successes out ->
  forall rs, out = Ok rs -> exists P', plan_inv P' /\ rs = results to_checksum_address P' /\
    dict_wf successes /\ (forall a cf, (a, cf) ∈ successes -> recorded P' a) /\
    (successes = [] \/ (threshold <= Z.of_nat (length successes))%Z).
Proof.
  intros Hp Hr rs Hout. destruct Hr as [d st1 P1 H1 Hlen|d st1 P1 d2 st2 P2 H1 Hlen H2| |]; try done.
  - destruct (worker_pool_start_inv _ _ _ _ _ _ Hp H1) as (Hp1 & _ & Hd).
    destruct (Hd d eq_refl) as [Hwf Hrec]. unfold report in Hout.
    destruct (Z.ltb_spec (Z.of_nat (length d)) threshold); [lia|]. simplify_eq.
    exists P1. split_and!; auto.
  - destruct (worker_pool_start_inv _ _ _ _ _ _ Hp H1) as (Hp1 & _ & Hd).
    destruct (worker_pool_start_inv _ _ _ _ _ _ Hp1 H2) as (Hp2 & He2 & Hd2).
    destruct (Hd d eq_refl) as [Hwf Hrec]. destruct (Hd2 d2 eq_refl) as [Hwf2 Hrec2].
    unfold report in Hout. exists P2.
    assert (rs = results to_checksum_address P2 /\
      (dict_update d d2 = [] \/ (threshold <= Z.of_nat (length (dict_update d d2)))%Z)) as [-> Hl].
    { destruct (Z.ltb_spec (Z.of_nat (length (dict_update d d2))) threshold).
      - destruct (dict_update d d2); by simplify_eq; auto.
      - simplify_eq. auto. }
    split_and!; [done|done|by apply dict_update_wf| |done].
    intros a cf [Hin|Hin]%dict_update_elem_of; [|by eapply Hrec2].
    eapply recorded_extends; [exact He2|]. by eapply Hrec.
Qed.

End Retrieve.

(** ** The theorems on retrieval *)

Section Main.
Context {Capsule CFrag Ursula Bytes Response EncryptedKeyFrag : Type} `{!EqDecision Capsule}.
Variable to_checksum_address : string -> string.
Variable from_bytes : Bytes -> result Response.
Variable verify : Ursula -> Response -> list Capsule -> result (list CFrag).
Variable knowable : list (string * Ursula) -> Prop.
Variable destinations : list (string * EncryptedKeyFrag).
Variable reply : Ursula -> result Bytes -> Prop.
Variable max_threads : nat.
Variable shuffle iter_set : list string -> list string.

Notation kit := (retrieval_kit (Capsule:=Capsule)).

(** [retrieve_cfrags] once the nodes are known: plan, work orders,
    the factory over their keys, and the rounds. *)
Inductive retrieve_planned (threshold : Z) (kits : list kit)
    : list (string * list (Capsule * CFrag)) -> result (list (list (string * CFrag))) -> Prop :=
  | Retrieve orders P successes out :
      collect_work_orders to_checksum_address
        (new_plan (CFrag:=CFrag) shuffle iter_set destinations.*1 threshold kits) = (Ok orders, P) ->
      retrieve_rounds to_checksum_address from_bytes verify knowable destinations orders reply
        max_threads threshold (RetrievalStrategy orders.*1 threshold) P successes out ->
      retrieve_planned threshold kits successes out.

(** Kits that have not been used for a retrieval. *)
Definition fresh (kits : list kit) : Prop := Forall (fun k => k.(queried_addresses) = []) kits.

Hypothesis to_checksum_address_inj : forall a b, to_checksum_address a = to_checksum_address b -> a = b.
Hypothesis shuffle_permutes : forall l, Permutation (shuffle l) l.
Hypothesis iter_set_elements : forall l x, x ∈ iter_set l <-> x ∈ l.

Lemma fresh_queried kits :
  fresh kits ->
  foldl kit_processed [] kits = [] /\
  (forall c qs, dict_get (dict_of ((fun k => (k.(capsule), k.(queried_addresses))) <$> kits)) c = Some qs ->
     qs = []) /\
  iter_set (mjoin (dict_of ((fun k => (k.(capsule), k.(queried_addresses))) <$> kits)).*2) = [].
Proof.
  intros Hf. unfold fresh in Hf. rewrite Forall_forall in Hf.
  assert (forall c qs, (c, qs) ∈ dict_of ((fun k => (k.(capsule), k.(queried_addresses))) <$> kits) ->
    qs = []) as Hq.
  { intros c qs Hin. unfold dict_of in Hin. apply dict_update_elem_of in Hin as [Hin|Hin];
      [inversion Hin|]. apply list_elem_of_fmap in Hin as (k & [= -> ->] & Hk). by apply Hf. }
  split_and!.
  - clear Hq. induction kits as [|k kits IH]; [done|]. simpl. unfold kit_processed at 2.
    rewrite (Hf k) by left. apply IH. intros x Hx. apply Hf. by right.
  - intros c qs Hg. eapply Hq, dict_get_elem_of, Hg.
  - destruct (iter_set _) as [|x l] eqn:Hi; [done|].
    assert (x ∈ x :: l) as Hx by left. rewrite <-Hi, iter_set_elements in Hx.
    apply list_elem_of_join in Hx as (qs & Hxq & Hin). apply list_elem_of_fmap in Hin as ([c q] & -> & Hin).
    simpl in Hxq. rewrite (Hq _ _ Hin) in Hxq. inversion Hxq.
Qed.

(** With fresh kits every Ursula of the map is asked for every capsule. *)
Lemma fresh_orders threshold kits orders P :
  dict_wf destinations -> fresh kits -> (0 < threshold)%Z ->
  collect_work_orders to_checksum_address
    (new_plan (CFrag:=CFrag) shuffle iter_set destinations.*1 threshold kits) = (Ok orders, P) ->
  (forall k wo, dict_get orders k = Some wo ->
     k = to_checksum_address wo.(ursula_address) /\ wo.(capsules) = capsule <$> kits) /\
  P = set_pick_order [] (new_plan shuffle iter_set destinations.*1 threshold kits).
Proof.
  intros Hd Hf Ht. destruct (fresh_queried kits Hf) as (Hpr & Hq & Hlast).
  set (P0 := new_plan _ _ _ _ _). unfold collect_work_orders. rewrite collect_spec by lia.
  intros [= <- <-]. split; [|done]. intros k wo Hg.
  assert (NoDup P0.(_ursulas_pick_order)) as Hnd.
  { simpl. rewrite Hlast, app_nil_r. apply NoDup_filter. by rewrite shuffle_permutes. }
  fold (dict_of (expected_orders to_checksum_address P0)) in Hg.
  rewrite dict_of_id in Hg by (by apply expected_orders_wf).
  apply dict_get_elem_of, elem_of_expected_orders in Hg as (-> & Hc & _ & _). split; [done|].
  rewrite Hc. unfold needed. simpl. rewrite Hpr. simpl. apply filter_all. intros c _.
  split; [apply not_elem_of_nil|]. destruct (dict_get _ c) as [qs|] eqn:Hg; simpl; [|done].
  by rewrite (Hq _ _ Hg).
Qed.

Variable valid : Ursula -> Capsule -> CFrag -> Prop.
Hypothesis verify_sound : forall u r cs fs, verify u r cs = Ok fs -> Forall2 (valid u) cs fs.

Lemma retrieve_planned_sound threshold kits successes rs :
  dict_wf destinations -> fresh kits -> (0 < threshold)%Z ->
  retrieve_planned threshold kits successes (Ok rs) ->
  length rs = length kits /\
  forall i k r, kits !! i = Some k -> rs !! i = Some r ->
    dict_wf r /\
    (forall a f, (a, f) ∈ r -> exists known_nodes u, knowable known_nodes /\
       dict_get known_nodes a = Some u /\ valid u k.(capsule) f) /\
    (successes <> [] -> (threshold <= Z.of_nat (length r))%Z).
Proof.
  intros Hd Hf Ht Hr. inversion Hr as [orders P successes' out Hcol Hrounds]; subst; clear Hr.
  destruct (fresh_orders _ _ _ _ Hd Hf Ht Hcol) as [Horders ->].
  destruct (new_plan_ok (CFrag:=CFrag) shuffle iter_set destinations.*1 threshold kits) as [Hok Hempty].
  eapply (rounds_inv to_checksum_address from_bytes verify knowable destinations orders reply
    max_threads valid verify_sound (capsule <$> kits)) in Hrounds as (P' & Hp & -> & Hwf & Hrec & Hcase);
    [|intros k wo Hg; destruct (Horders k wo Hg) as [? ->]; by split| |reflexivity].
  2: { split; [done|done|]. intros c a f Hin. change (fragments _ c) with
         (fragments (new_plan (CFrag:=CFrag) shuffle iter_set destinations.*1 threshold kits) c) in Hin.
       rewrite Hempty in Hin. inversion Hin. }
  pose proof (pi_capsules _ _ _ _ _ Hp) as Hcaps. unfold results. rewrite Hcaps, !length_fmap.
  split; [done|]. intros i k r Hk Hri. rewrite !list_lookup_fmap, Hk in Hri. simpl in Hri. simplify_eq.
  destruct (capsule_result_spec to_checksum_address knowable valid (capsule <$> kits)
    to_checksum_address_inj P' (capsule k) Hp) as (Hw & Hlen & Hval).
  split_and!; [done|done|]. intros Hne. destruct Hcase as [?|Hcase]; [done|]. rewrite Hlen.
  assert (length successes <= length (fragments P' (capsule k))); [|lia].
  apply (recorded_count to_checksum_address orders (capsule <$> kits)
    ltac:(intros k' wo Hg; destruct (Horders k' wo Hg) as [? ->]; by split)); [done|done|].
  intros k' wo Hg. destruct (Horders k' wo Hg) as [_ ->]. apply list_elem_of_fmap.
  exists k. split; [done|]. by eapply list_elem_of_lookup_2.
Qed.

End Main.

(** ** Waiting for the nodes of the map *)

Section Availability.
Context {L : Type} `{!NodeLearner L}.

(** [_ensure_ursula_availability]; [ursulas_in_map] are the checksum
    addresses of the destinations. *)
Definition _ensure_ursula_availability (ursulas_in_map : list string) (threshold : Z) : PyM L unit :=
  seeded <- gets is_done_seeding ;;
  (if seeded then py_ret tt else learner_learn_from_teacher_node) ;;;
  all_known_ursulas <- gets known_addresses ;;
  let unknown_ursulas := filter (fun a => a ∉ all_known_ursulas) ursulas_in_map in
  let known_ursulas := filter (fun a => a ∈ all_known_ursulas) ursulas_in_map in
  if (threshold <=? Z.of_nat (length known_ursulas))%Z then py_ret tt
  else
    let allow_missing := (Z.of_nat (length ursulas_in_map) - threshold)%Z in
    learner_block_until_specific unknown_ursulas allow_missing.

Lemma filter_partition {A} (P : A -> Prop) `{!forall x, Decision (P x)} (l : list A) :
  length (filter P l) + length (filter (fun x => ~ P x) l) = length l.
Proof.
  induction l as [|x l IH]; [done|]. rewrite !filter_cons.
  destruct (decide (P x)), (decide (~ P x)); simpl; try tauto; lia.
Qed.

(** When [_ensure_ursula_availability] returns, enough Ursulas of the
    treasure map have been found, unless the learner crashed: at least
    [threshold] of its addresses were known when it looked or are known now. *)
Theorem ensure_ursula_availability_ok ursulas_in_map threshold l l' :
  NoDup ursulas_in_map -> (threshold <= Z.of_nat (length ursulas_in_map))%Z ->
  _ensure_ursula_availability ursulas_in_map threshold l = (Ok tt, l') ->
  has_crashed l' = true \/
  exists l1, (threshold <= Z.of_nat (length (filter
    (fun a => a ∈ known_addresses l1 \/ a ∈ known_addresses l') ursulas_in_map)))%Z.
Proof.
  intros Hnd Hthr. unfold _ensure_ursula_availability, py_bind, gets, py_ret.
  destruct (if is_done_seeding l then _ else _) as [[[]|e] l1]; [|done].
  destruct (Z.leb_spec threshold
    (Z.of_nat (length (filter (fun a => a ∈ known_addresses l1) ursulas_in_map)))) as [Hle|Hlt].
  - intros [= <-]. right. exists l1. rewrite (filter_ext_in _ (fun a => a ∈ known_addresses l1)); [done|].
    intros a _. tauto.
  - intros Hb. destruct (block_until_specific_ok _ _ _ _ (NoDup_filter _ _ Hnd) Hb) as [Hc|Hm]; [by left|]. right. exists l1.
    rewrite list_filter_filter in Hm.
    pose proof (filter_partition (fun a => a ∈ known_addresses l1 \/ a ∈ known_addresses l')
      ursulas_in_map) as Hp. cbv beta in Hp.
    rewrite (filter_ext_in (fun a => ~ (a ∈ known_addresses l1 \/ a ∈ known_addresses l'))
      (fun a => a ∉ known_addresses l' /\ a ∉ known_addresses l1)) in Hp by (intros a _; tauto).
    lia.
Qed.

End Availability.

(** ** The whole of [retrieve_cfrags] *)

Section Client.
Context {Capsule CFrag Ursula Bytes Response EncryptedKeyFrag : Type} `{!EqDecision Capsule}.
Context {L : Type} `{!NodeLearner L}.
Variable to_checksum_address : string -> string.
Variable from_bytes : Bytes -> result Response.
Variable verify : Ursula -> Response -> list Capsule -> result (list CFrag).
(** [self._learner.known_nodes], and what may become of the learner while the
    workers run: its own thread goes on learning. *)
Variable known_nodes : L -> list (string * Ursula).
Variable learns : L -> L -> Prop.
Variable destinations : list (string * EncryptedKeyFrag).
Variable reply : Ursula -> result Bytes -> Prop.
Variable max_threads : nat.
Variable shuffle iter_set : list string -> list string.

Definition await_ursulas (threshold : Z) : PyM L unit :=
  _ensure_ursula_availability (to_checksum_address <$> destinations.*1) threshold.

(** What is known in a state that the learner comes to from [l]. *)
Definition known_from (l : L) (known : list (string * Ursula)) : Prop :=
  exists l', rtc learns l l' /\ known = known_nodes l'.

(** [retrieve_cfrags]: it waits for the nodes of the map, or passes on why
    they cannot be found, and then retrieves; each worker looks a node up
    among those known when it comes to it. *)
Inductive retrieve_cfrags (threshold : Z) (kits : list (retrieval_kit (Capsule:=Capsule))) (l : L)
    : list (string * list (Capsule * CFrag)) -> result (list (list (string * CFrag))) -> Prop :=
  | Ursulas_unavailable e l' :
      await_ursulas threshold l = (Raise e, l') -> retrieve_cfrags threshold kits l [] (Raise e)
  | Ursulas_available l' successes out :
      await_ursulas threshold l = (Ok tt, l') ->
      retrieve_planned to_checksum_address from_bytes verify (known_from l') destinations reply
        max_threads shuffle iter_set threshold kits successes out ->
      retrieve_cfrags threshold kits l successes out.

(** Retrieval ends: the request threads of a round share its plan, and no
    round takes more steps than the weight of its pool; if every request to
    a known node returns or raises, [retrieve_cfrags] has an outcome. *)
Theorem retrieve_cfrags_terminates threshold kits l :
  0 < max_threads -> (forall u, exists r, reply u r) ->
  (forall knowable orders target st P n x,
     nsteps (rstep to_checksum_address from_bytes verify knowable destinations orders reply max_threads target)
       n (WorkerPool.init_pool st, P) x ->
     n <= WorkerPool.weight (WorkerPool.init_pool (V:=string) (R:=list (Capsule * CFrag)) st)) /\
  exists successes out, retrieve_cfrags threshold kits l successes out.
Proof.
  intros Hth Hr. split.
  { intros knowable orders target st P n x Hn. apply rnsteps_weight in Hn; [|done]. simpl in Hn. lia. }
  destruct (await_ursulas threshold l) as [[[]|e] l'] eqn:Hw;
    [|eexists _, _; by eapply Ursulas_unavailable].
  destruct (collect_work_orders_ok to_checksum_address
    (new_plan (CFrag:=CFrag) shuffle iter_set destinations.*1 threshold kits)) as (orders & P & Hc).
  destruct (retrieve_rounds_total to_checksum_address from_bytes verify (known_from l') destinations
    orders reply max_threads Hth Hr ltac:(by exists (known_nodes l'), l') threshold (RetrievalStrategy orders.*1 threshold) P)
    as (successes & out & Hrounds).
  exists successes, out. eapply Ursulas_available; [done|]. by eapply Retrieve.
Qed.

Hypothesis to_checksum_address_inj : forall a b, to_checksum_address a = to_checksum_address b -> a = b.
Hypothesis shuffle_permutes : forall l, Permutation (shuffle l) l.
Hypothesis iter_set_elements : forall l x, x ∈ iter_set l <-> x ∈ l.
Variable valid : Ursula -> Capsule -> CFrag -> Prop.
Hypothesis verify_sound : forall u r cs fs, verify u r cs = Ok fs -> Forall2 (valid u) cs fs.

(** C2.  Retrieval is sound, whatever the interleaving of the workers, which
    update one shared plan even after their pool has timed out, and whatever
    the learner learns or forgets meanwhile: for fresh kits, if
    [retrieve_cfrags] returns, there is one result per kit, in the order of
    the kits; every fragment in it was verified for that kit's capsule with
    the keys of the node it is filed under, as the learner knew it at some
    moment after the wait for the map's nodes was over; and if the pools had
    recorded any success by the time their successes were read, every result
    has fragments from at least [threshold] distinct Ursulas, enough to
    decrypt. *)
Theorem retrieve_cfrags_sound threshold kits l successes rs :
  dict_wf destinations -> fresh kits -> (0 < threshold)%Z ->
  retrieve_cfrags threshold kits l successes (Ok rs) ->
  exists l', await_ursulas threshold l = (Ok tt, l') /\
  length rs = length kits /\
  forall i k r, kits !! i = Some k -> rs !! i = Some r ->
    dict_wf r /\
    (forall a f, (a, f) ∈ r -> exists l2 u, rtc learns l' l2 /\
       dict_get (known_nodes l2) a = Some u /\ valid u k.(capsule) f) /\
    (successes <> [] -> (threshold <= Z.of_nat (length r))%Z).
Proof.
  intros Hd Hf Ht Hr. inversion Hr as [|l' ss out Hw Hp]; subst. exists l'. split; [done|].
  eapply (retrieve_planned_sound to_checksum_address from_bytes verify (known_from l') destinations
            reply max_threads shuffle iter_set) in Hp as [Hlen Hall]; [|eauto..].
  split; [done|]. intros i k r Hk Hri. destruct (Hall i k r Hk Hri) as (Hwf & Hval & Hn). split_and!; [done| |done].
  intros a f (known & u & (l2 & Hl & ->) & Hu & Hv)%Hval. by exists l2, u.
Qed.

End Client.

(** ** Evaluated

    Two Ursulas "x" and "y", threshold 2, capsules 1 and 2; the fragment of
    the capsule [c] is [c + 100]. *)

Module RetrievalDemo.

Definition demo_verify (u : string) (r : list nat) (cs : list nat) : result (list nat) :=
  if decide (r = Nat.add 100 <$> cs) then Ok r else Raise VerificationError.

Definition demo_valid (u : string) (c f : nat) : Prop := f = 100 + c.

Lemma demo_verify_sound u r cs fs : demo_verify u r cs = Ok fs -> Forall2 (demo_valid u) cs fs.
Proof.
  unfold demo_verify. case_decide as Hd; [|done]. intros [= <-]. subst r.
  induction cs as [|c cs IH]; constructor; done.
Qed.

Definition demo_known : list (string * string) := [("x", "x"); ("y", "y")]%string.
Definition demo_destinations : list (string * nat) := [("x", 0); ("y", 1)]%string.
Definition demo_kits : list (retrieval_kit (Capsule:=nat)) := [RetrievalKit 1 []; RetrievalKit 2 []].
Definition any_reply (u : string) (r : result (list nat)) : Prop := True.

Definition demo_orders : list (string * work_order (Capsule:=nat)) :=
  [("x", RetrievalWorkOrder "x" [1; 2]); ("y", RetrievalWorkOrder "y" [1; 2])]%string.

Definition demo_plan : plan (Capsule:=nat) (CFrag:=nat) :=
  set_pick_order [] (new_plan (fun l => l) (fun l => l) demo_destinations.*1 2 demo_kits).

(** A learner that knows both and never has to wait; while the workers run it
    may learn of a third. *)
#[local] Program Instance demo_learner : NodeLearner bool := {|
  known_addresses := fun _ => demo_known.*1;
  is_done_seeding := fun _ => true;
  has_crashed := fun _ => false;
  learner_learn_from_teacher_node := py_ret tt;
  learner_block_until_specific := fun _ _ => raise RuntimeError;
|}.
Next Obligation. done. Qed.

Definition demo_known_nodes (l : bool) : list (string * string) :=
  if l then demo_known ++ [("z", "z")]%string else demo_known.
Definition demo_learns (l l' : bool) : Prop := l' = true.

Notation demo_rounds th kits := (retrieve_cfrags (fun a => a) (fun b => Ok b) demo_verify
  demo_known_nodes demo_learns demo_destinations any_reply 2 (fun l => l) (fun l => l) th kits false).

Notation demo_auto target ans := (rauto (Bytes:=list nat) (fun a => a) (fun b => Ok b) demo_verify
  demo_destinations demo_orders 2 target demo_known ans).

Lemma demo_knowable : known_from demo_known_nodes demo_learns false demo_known.
Proof. by exists false. Qed.

Lemma demo_collect :
  collect_work_orders (fun a => a)
    (new_plan (CFrag:=nat) (fun l => l) (fun l => l) demo_destinations.*1 2 demo_kits) =
  (Ok demo_orders, demo_plan).
Proof. vm_compute. reflexivity. Qed.

(** Both answer. *)
Definition good_answers (a : string) : result (list nat) := Ok [101; 102].

Definition good_round := demo_auto 2 good_answers 60
  (WorkerPool.init_pool (RetrievalStrategy demo_orders.*1 2), demo_plan).

Definition good_successes : list (string * list (nat * nat)) :=
  [("y", [(1, 101); (2, 102)]); ("x", [(1, 101); (2, 102)])]%string.

Definition good_results : list (list (string * nat)) :=
  [[("y", 101); ("x", 101)]; [("y", 102); ("x", 102)]]%string.

Lemma demo_retrieve : demo_rounds 2 demo_kits good_successes (Ok good_results).
Proof.
  apply (Ursulas_available _ _ _ _ _ _ _ _ _ _ _ _ _ false); [vm_compute; reflexivity|].
  eapply Retrieve; [exact demo_collect|].
  replace (Ok good_results) with (report (fun a => a) 2 good_successes good_round.2)
    by (vm_compute; reflexivity).
  eapply One_round; [|vm_compute; discriminate].
  apply (rauto_round (fun a => a) (fun b => Ok b) demo_verify (known_from demo_known_nodes demo_learns false) demo_destinations demo_orders
    any_reply 2 2 demo_known good_answers 60 (RetrievalStrategy demo_orders.*1 2) demo_plan
    (Ok good_successes) good_round.1 good_round.2 (Ok tt) good_round.1);
    [done|exact demo_knowable|vm_compute; reflexivity..].
Qed.

Lemma collect_work_orders_spec_witness :
  exists orders, collect_work_orders (fun a => a)
    (new_plan (CFrag:=nat) (fun l => l) (fun l => l) demo_destinations.*1 2 demo_kits) =
    (Ok orders, demo_plan) /\ dict_wf orders /\ length orders <= 2.
Proof.
  destruct (collect_work_orders_spec (CFrag:=nat) (fun a => a) (fun a b H => H)
    (new_plan (fun l => l) (fun l => l) demo_destinations.*1 2 demo_kits)) as (orders & H1 & H2 & _ & H4).
  - apply (bool_decide_unpack _). vm_compute. exact I.
  - exists orders. split_and!; [exact H1|exact H2|exact H4].
Defined.

Lemma request_reencryption_spec_witness :
  _request_reencryption (fun b => Ok b) demo_verify "x"%string [1; 2] (Raise RequestsConnectTimeout)
    = Raise RuntimeError /\
  dict_wf [(1, 101); (2, 102)].
Proof.
  split; [vm_compute; reflexivity|].
  pose proof (request_reencryption_spec (fun b => Ok b) demo_verify demo_valid demo_verify_sound
           "x"%string [1; 2] (Ok [101; 102])) as H.
  change (_request_reencryption _ _ _ _ _) with (Ok (A:=list (nat * nat)) [(1, 101); (2, 102)]) in H.
  exact (proj1 H).
Defined.

Lemma retrieve_cfrags_sound_witness :
  exists l', await_ursulas (L:=bool) (fun a => a) demo_destinations 2 false = (Ok tt, l') /\
  length good_results = 2 /\
  forall i k r, demo_kits !! i = Some k -> good_results !! i = Some r ->
    dict_wf r /\
    (forall a f, (a, f) ∈ r -> exists l2 u, rtc demo_learns l' l2 /\
       dict_get (demo_known_nodes l2) a = Some u /\ demo_valid u k.(capsule) f) /\
    (good_successes <> [] -> (2 <= Z.of_nat (length r))%Z).
Proof.
  apply (retrieve_cfrags_sound (fun a => a) (fun b => Ok b) demo_verify demo_known_nodes demo_learns
    demo_destinations any_reply 2 (fun l => l) (fun l => l) (fun a b H => H) (fun l => Permutation_refl l)
    (fun l x => conj (fun H => H) (fun H => H)) demo_valid demo_verify_sound 2 demo_kits false good_successes
    good_results).
  - apply (bool_decide_unpack _). vm_compute. exact I.
  - repeat constructor.
  - reflexivity.
  - exact demo_retrieve.
Defined.

Lemma retrieve_cfrags_terminates_witness :
  exists successes out, demo_rounds 2 demo_kits successes out.
Proof.
  apply (retrieve_cfrags_terminates (fun a => a) (fun b => Ok b) demo_verify demo_known_nodes demo_learns
    demo_destinations any_reply 2 (fun l => l) (fun l => l) 2 demo_kits false).
  - apply Nat.lt_0_succ.
  - intros u. exists (Ok []). exact I.
Defined.

(** Only "x" answers. *)
Definition half_answers (a : string) : result (list nat) :=
  if decide (a = "x"%string) then Ok [101; 102] else Raise RequestsConnectionError.

Definition half_round := demo_auto 2 half_answers 60
  (WorkerPool.init_pool (RetrievalStrategy demo_orders.*1 2), demo_plan).

Definition second_round := demo_auto 1 half_answers 60
  (WorkerPool.init_pool half_round.1.(WorkerPool.factory), half_round.2).

Definition half_successes : list (string * list (nat * nat)) := [("x", [(1, 101); (2, 102)])]%string.

(** Partial results are lost: with one verified answer out of a
    threshold of two, both rounds end with the plan holding the verified
    fragments of that Ursula, but [retrieve_cfrags] does not return them:
    reporting the failure reads [checksum_address] of the dicts of fragments
    and raises [AttributeError]. *)
Theorem partial_results_raise :
  results (fun a => a) second_round.2 = [[("x", 101)]; [("x", 102)]]%string /\
  demo_rounds 2 demo_kits half_successes (Raise AttributeError).
Proof.
  split; [vm_compute; reflexivity|].
  apply (Ursulas_available _ _ _ _ _ _ _ _ _ _ _ _ _ false); [vm_compute; reflexivity|].
  eapply Retrieve; [exact demo_collect|].
  replace (Raise AttributeError) with
    (report (fun a => a) 2 (dict_update half_successes []) second_round.2) by (vm_compute; reflexivity).
  change half_successes with (dict_update half_successes []) at 1.
  eapply (Two_rounds _ _ _ _ _ _ _ _ _ _ _ half_successes half_round.1.(WorkerPool.factory) half_round.2).
  - apply (rauto_round (fun a => a) (fun b => Ok b) demo_verify (known_from demo_known_nodes demo_learns false) demo_destinations demo_orders
      any_reply 2 2 demo_known half_answers 60 (RetrievalStrategy demo_orders.*1 2) demo_plan
      (Raise OutOfValues) half_round.1 half_round.2 (Ok tt) half_round.1);
      [done|exact demo_knowable|vm_compute; reflexivity..].
  - vm_compute. reflexivity.
  - apply (rauto_round (fun a => a) (fun b => Ok b) demo_verify (known_from demo_known_nodes demo_learns false) demo_destinations demo_orders
      any_reply 2 1 demo_known half_answers 60 half_round.1.(WorkerPool.factory) half_round.2
      (Raise OutOfValues) second_round.1 second_round.2 (Ok tt) second_round.1);
      [done|exact demo_knowable|vm_compute; reflexivity..].
Qed.

End RetrievalDemo.
End Retrieval.
