(* ===== verification/Perception.v ===== *)
(** * nulink/acumen/perception.py

    The fleet of nodes as one node perceives it: [FleetState], an immutable
    snapshot with its checksum, and [FleetSensor], which accumulates changes
    and turns them into new snapshots, archives the last five and remembers
    the states that other nodes reported. *)

From S2P Require Import Prelude.

Module Perception.

(** A node, as far as the sensor looks: two nodes are equal as Python
    objects in a set when their stamps are. *)
Record node := Node {
  checksum_address : string;
  metadata : string;
  domain : string;
  stamp : string;
  node_timestamp : Z;
  verified_node : bool;
  operator_address : string;
}.

#[global] Instance node_eq_dec : EqDecision node.
Proof. solve_decision. Defined.

(** [StateDiff]. *)
Record StateDiff := Diff {
  this_node_updated : bool;
  nodes_updated : list string;
  nodes_removed : list string;
}.

Definition diff_empty (d : StateDiff) : bool :=
  negb d.(this_node_updated) && bool_decide (d.(nodes_updated) = []) &&
  bool_decide (d.(nodes_removed) = []).

Section Fleet.
(** [FleetStateChecksum(this_node, other_nodes)] of nucypher_core, and the
    nickname derived from it. *)
Context {Checksum Nickname : Type}.
Variable FleetStateChecksum : option string -> list string -> Checksum.
Variable nickname_from_seed : Checksum -> Nickname.
(** [ArchivedFleetState]. *)
Record ArchivedFleetState := Archived {
  a_checksum : Checksum;
  a_nickname : Nickname;
  a_timestamp : Z;
  a_population : nat;
}.

(** [FleetState]; [this_node_ref] says whether there is an owner. *)
Record FleetState := Fleet {
  checksum : Checksum;
  nickname : Nickname;
  _nodes : list (string * node);
  timestamp : Z;
  _this_node_ref : bool;
  _this_node_metadata : option string;
}.

(** [FleetState.__init__] at the time [now]. *)
Definition make_state (now : Z) (nodes : list (string * node)) (this_node_ref : bool)
    (this_node_metadata : option string) : FleetState :=
  let checksum := FleetStateChecksum this_node_metadata (metadata <$> nodes.*2) in
  Fleet checksum (nickname_from_seed checksum) nodes now this_node_ref this_node_metadata.

(** [FleetState.new]. *)
Definition new_state (now : Z) (this_node : bool) : FleetState := make_state now [] this_node None.

(** [population], [__contains__] and [__getitem__]. *)
Definition population (s : FleetState) : nat :=
  length s.(_nodes) + match s.(_this_node_metadata) with Some _ => 1 | None => 0 end.

Inductive item := ItemAddress (a : string) | ItemNode (n : node).

Definition contains (s : FleetState) (i : item) : bool :=
  match i with
  | ItemAddress a => dict_mem s.(_nodes) a
  | ItemNode n => dict_mem s.(_nodes) n.(checksum_address)
  end.

Definition getitem (s : FleetState) (a : string) : result node :=
  match dict_get s.(_nodes) a with Some n => Ok n | None => Raise KeyError end.

Definition addresses (s : FleetState) : list string := s.(_nodes).*1.

Definition archived (s : FleetState) : ArchivedFleetState :=
  Archived s.(checksum) s.(nickname) s.(timestamp) (population s).

(** The first loop of [_calculate_diff]. *)
Definition updated_address (nodes : list (string * node)) (nodes_to_remove : list string) (n : node) : bool :=
  negb (bool_decide (n.(checksum_address) ∈ nodes_to_remove)) &&
  match dict_get nodes n.(checksum_address) with
  | None => true
  | Some old => negb (bool_decide (old.(metadata) = n.(metadata)))
  end.

Definition _calculate_diff (s : FleetState) (this_node_updated : bool)
    (nodes_to_add : list node) (nodes_to_remove : list string) : StateDiff :=
  Diff this_node_updated
    (checksum_address <$> filter (fun n => updated_address s.(_nodes) nodes_to_remove n = true) nodes_to_add)
    (filter (fun a => dict_mem s.(_nodes) a = true) nodes_to_remove).

(** The two loops of [with_updated_nodes]; the dict comprehension has every
    updated address as a key. *)
Definition apply_updates (nodes_to_add : list node) (nodes_updated : list string)
    (nodes : list (string * node)) : list (string * node) :=
  let nodes_to_add_dict := dict_of ((fun n => (n.(checksum_address), n)) <$> nodes_to_add) in
  foldl (fun nodes a => match dict_get nodes_to_add_dict a with
                        | Some n => dict_set nodes a n
                        | None => nodes
                        end) nodes nodes_updated.

Definition apply_removals (nodes_removed : list string) (nodes : list (string * node))
    : list (string * node) :=
  foldl dict_del nodes nodes_removed.

(** [with_updated_nodes]; [own_metadata] is what [this_node.metadata()]
    returns at this time. *)
Definition with_updated_nodes (now : Z) (own_metadata : string) (s : FleetState)
    (nodes_to_add : list node) (nodes_to_remove : list string) (skip_this_node : bool)
    : FleetState * StateDiff :=
  let '(this_node_metadata, this_node_updated) :=
    if s.(_this_node_ref) && negb skip_this_node
    then (Some own_metadata, negb (bool_decide (s.(_this_node_metadata) = Some own_metadata)))
    else (s.(_this_node_metadata), false) in
  let diff := _calculate_diff s this_node_updated nodes_to_add nodes_to_remove in
  let nodes :=
    if negb (diff_empty diff)
    then apply_removals diff.(nodes_removed)
           (apply_updates nodes_to_add diff.(nodes_updated) s.(_nodes))
    else s.(_nodes) in
  (make_state now nodes s.(_this_node_ref) this_node_metadata, diff).

(** ** Updating a state *)

(** The dict of the nodes to add. *)
Definition add_dict (nodes_to_add : list node) : list (string * node) :=
  dict_of ((fun n => (n.(checksum_address), n)) <$> nodes_to_add).

(** What an update should give: removed addresses are gone, added ones are
    there, the others are kept. *)
Definition expected_node (add : list node) (remove : list string) (nodes : list (string * node))
    (a : string) : option node :=
  if decide (a ∈ remove) then None
  else match dict_get (add_dict add) a with Some n => Some n | None => dict_get nodes a end.

(** Nodes are filed under their own address. *)
Definition keyed (nodes : list (string * node)) : Prop :=
  forall a n, dict_get nodes a = Some n -> n.(checksum_address) = a.

Lemma add_dict_get add a n :
  dict_get (add_dict add) a = Some n -> n ∈ add /\ n.(checksum_address) = a.
Proof.
  intros Hg%dict_get_elem_of. unfold add_dict, dict_of in Hg.
  apply dict_update_elem_of in Hg as [Hg|Hg]; [inversion Hg|].
  by apply list_elem_of_fmap in Hg as (m & [= -> ->] & Hin).
Qed.

Lemma add_dict_mem add n : n ∈ add -> is_Some (dict_get (add_dict add) n.(checksum_address)).
Proof.
  intros Hin. apply dict_get_is_Some. unfold add_dict, dict_of. rewrite dict_update_keys.
  right. rewrite <-list_fmap_compose. apply list_elem_of_fmap. by exists n.
Qed.

Lemma add_dict_unique add n :
  NoDup (checksum_address <$> add) -> n ∈ add ->
  dict_get (add_dict add) n.(checksum_address) = Some n.
Proof.
  intros Hnd Hin. unfold add_dict. rewrite dict_of_id.
  - apply dict_elem_of_get; [|apply list_elem_of_fmap; by exists n].
    unfold dict_wf. rewrite <-list_fmap_compose. exact Hnd.
  - unfold dict_wf. rewrite <-list_fmap_compose. exact Hnd.
Qed.

Lemma apply_updates_get add ups nodes a :
  dict_get (apply_updates add ups nodes) a =
    if decide (a ∈ ups) then
      match dict_get (add_dict add) a with Some n => Some n | None => dict_get nodes a end
    else dict_get nodes a.
Proof.
  unfold apply_updates. fold (add_dict add). revert nodes.
  induction ups as [|u ups IH]; intros nodes; [done|]. simpl. rewrite IH.
  destruct (decide (a = u)) as [->|Hne].
  - rewrite (decide_True (P:=u ∈ u :: ups)) by left.
    destruct (dict_get (add_dict add) u); [rewrite dict_get_set_eq|]; by case_decide.
  - assert (dict_get (match dict_get (add_dict add) u with
                      | Some n => dict_set nodes u n | None => nodes end) a = dict_get nodes a) as ->
      by (destruct (dict_get (add_dict add) u); [by apply dict_get_set_ne|done]).
    destruct (decide (a ∈ ups)).
    + by rewrite decide_True by (by right).
    + rewrite decide_False; [done|]. rewrite elem_of_cons. tauto.
Qed.

Lemma apply_updates_wf add ups nodes : dict_wf nodes -> dict_wf (apply_updates add ups nodes).
Proof.
  unfold apply_updates. revert nodes. induction ups as [|u ups IH]; intros nodes Hwf; [done|].
  simpl. apply IH. destruct (dict_get _ u); [by apply dict_set_wf|done].
Qed.

Lemma apply_removals_get rem nodes a :
  dict_wf nodes ->
  dict_wf (apply_removals rem nodes) /\
  dict_get (apply_removals rem nodes) a = if decide (a ∈ rem) then None else dict_get nodes a.
Proof.
  unfold apply_removals. revert nodes. induction rem as [|r rem IH]; intros nodes Hwf; [done|].
  simpl. destruct (IH (dict_del nodes r)) as [Hw Hg]; [by apply dict_del_wf|]. split; [done|].
  rewrite Hg. destruct (decide (a = r)) as [->|Hne].
  - rewrite (decide_True (P:=r ∈ r :: rem)) by left. rewrite dict_get_del_eq by done. by case_decide.
  - rewrite dict_get_del_ne by done. destruct (decide (a ∈ rem)).
    + by rewrite decide_True by (by right).
    + rewrite decide_False; [done|]. rewrite elem_of_cons. tauto.
Qed.

Lemma diff_empty_true d :
  diff_empty d = true <->
  d.(this_node_updated) = false /\ d.(nodes_updated) = [] /\ d.(nodes_removed) = [].
Proof.
  unfold diff_empty. rewrite !andb_true_iff, negb_true_iff, !bool_decide_eq_true. tauto.
Qed.

Lemma elem_of_updated s b add rem a :
  a ∈ (_calculate_diff s b add rem).(nodes_updated) <->
  exists n, n ∈ add /\ n.(checksum_address) = a /\ updated_address s.(_nodes) rem n = true.
Proof.
  simpl. rewrite list_elem_of_fmap. setoid_rewrite list_elem_of_filter. naive_solver.
Qed.

(** The nodes after the two loops are the expected ones, up to replacing a
    node by one with the same metadata. *)
Lemma updated_nodes_spec s b add rem :
  dict_wf s.(_nodes) -> NoDup (checksum_address <$> add) ->
  let diff := _calculate_diff s b add rem in
  let nodes := apply_removals diff.(nodes_removed)
                 (apply_updates add diff.(nodes_updated) s.(_nodes)) in
  forall a, metadata <$> dict_get nodes a = metadata <$> expected_node add rem s.(_nodes) a.
Proof.
  intros Hwf Hnd diff nodes a. unfold nodes.
  rewrite (proj2 (apply_removals_get _ _ a (apply_updates_wf add _ _ Hwf))).
  rewrite apply_updates_get. unfold expected_node.
  destruct (decide (a ∈ rem)) as [Hr|Hr].
  - destruct (decide (a ∈ nodes_removed diff)) as [Hrm|Hrm]; [done|].
    assert (dict_get s.(_nodes) a = None) as Hnone.
    { apply eq_None_not_Some. intros Hs. apply Hrm. apply list_elem_of_filter. split; [|done].
      apply dict_mem_true. by apply dict_get_is_Some. }
    rewrite Hnone. destruct (decide (a ∈ nodes_updated diff)) as [Hu|Hu]; [|done].
    apply elem_of_updated in Hu as (n & _ & <- & Hup). unfold updated_address in Hup.
    by rewrite bool_decide_eq_true_2 in Hup.
  - rewrite decide_False by (unfold diff; simpl; rewrite list_elem_of_filter; tauto).
    destruct (decide (a ∈ nodes_updated diff)) as [Hu|Hu]; [done|].
    destruct (dict_get (add_dict add) a) as [n|] eqn:Hg; [|done].
    apply add_dict_get in Hg as [Hin <-].
    destruct (updated_address (_nodes s) rem n) eqn:Hup.
    { exfalso. apply Hu, elem_of_updated. eauto. }
    unfold updated_address in Hup. rewrite bool_decide_eq_false_2 in Hup by done. simpl in Hup.
    destruct (dict_get (_nodes s) (checksum_address n)) as [old|]; [|done].
    apply negb_false_iff, bool_decide_eq_true in Hup. simpl. by rewrite Hup.
Qed.

(** The diff of the nodes is empty exactly when no address changes. *)
Lemma diff_nodes_empty s b add rem :
  NoDup (checksum_address <$> add) ->
  let diff := _calculate_diff s b add rem in
  diff.(nodes_updated) = [] /\ diff.(nodes_removed) = [] <->
  forall a, metadata <$> dict_get s.(_nodes) a = metadata <$> expected_node add rem s.(_nodes) a.
Proof.
  intros Hnd diff. split.
  - intros [Hu Hr] a. unfold expected_node. destruct (decide (a ∈ rem)) as [Ha|Ha].
    + destruct (dict_get (_nodes s) a) as [n|] eqn:Hg; [|done]. exfalso.
      assert (a ∈ nodes_removed diff) as Hin; [|rewrite Hr in Hin; inversion Hin].
      apply list_elem_of_filter. split; [|done]. apply dict_mem_true, dict_get_is_Some. eauto.
    + destruct (dict_get (add_dict add) a) as [n|] eqn:Hg; [|done].
      apply add_dict_get in Hg as [Hin <-].
      assert (updated_address (_nodes s) rem n <> true) as Hup.
      { intros Hup. assert (checksum_address n ∈ nodes_updated diff) as Hc; [|rewrite Hu in Hc; inversion Hc].
        apply elem_of_updated. eauto. }
      unfold updated_address in Hup. rewrite bool_decide_eq_false_2 in Hup by done. simpl in Hup.
      destruct (dict_get (_nodes s) (checksum_address n)) as [old|]; [|done]. simpl.
      case_bool_decide; [by f_equal|done].
  - intros Heq. split.
    + destruct (nodes_updated diff) as [|a l] eqn:Hu; [done|]. exfalso.
      assert (a ∈ nodes_updated diff) as Hin by (rewrite Hu; left).
      apply elem_of_updated in Hin as (n & Hin & <- & Hup). specialize (Heq (checksum_address n)).
      unfold updated_address in Hup. apply andb_true_iff in Hup as [Hr Hup].
      apply negb_true_iff, bool_decide_eq_false in Hr. unfold expected_node in Heq.
      rewrite decide_False, add_dict_unique in Heq by done.
      destruct (dict_get (_nodes s) (checksum_address n)) as [old|]; simpl in Heq; [|done].
      apply negb_true_iff, bool_decide_eq_false in Hup. congruence.
    + destruct (nodes_removed diff) as [|a l] eqn:Hr; [done|]. exfalso.
      assert (a ∈ nodes_removed diff) as Hin by (rewrite Hr; left).
      apply list_elem_of_filter in Hin as [[n Hm]%dict_mem_true%dict_get_is_Some Hrem].
      specialize (Heq a). unfold expected_node in Heq. rewrite decide_True, Hm in Heq by done. done.
Qed.

Lemma with_updated_nodes_get now own s add rem skip :
  dict_wf s.(_nodes) -> NoDup (checksum_address <$> add) ->
  let s' := (with_updated_nodes now own s add rem skip).1 in
  dict_wf s'.(_nodes) /\
  (forall a, metadata <$> dict_get s'.(_nodes) a = metadata <$> expected_node add rem s.(_nodes) a) /\
  s'.(_this_node_metadata) =
    (if s.(_this_node_ref) && negb skip then Some own else s.(_this_node_metadata)).
Proof.
  intros Hwf Hnd. unfold with_updated_nodes.
  set (pair := if _ && _ then _ else _).
  assert (pair.1 = if s.(_this_node_ref) && negb skip then Some own else s.(_this_node_metadata)) as Hm
    by (unfold pair; by destruct (_ && _)).
  destruct pair as [meta upd]. simpl in Hm. rewrite Hm. clear Hm.
  destruct (diff_empty _) eqn:He; cbn [negb fst make_state _nodes _this_node_metadata].
  - apply diff_empty_true in He as (_ & Hu & Hr). split_and!; [done| |done].
    by apply (diff_nodes_empty s upd add rem Hnd).
  - split_and!; [|by apply updated_nodes_spec|done].
    apply (apply_removals_get _ _ EmptyString). by apply apply_updates_wf.
Qed.

(** A fleet state is updated as specified: when the nodes to add have
    distinct addresses, every removed address is gone, every other added
    address has a node with the added metadata, every other address keeps its
    metadata; and the diff is empty exactly when neither the metadata of this
    node nor that of any address changed. *)
Theorem with_updated_nodes_spec now own s add rem skip :
  dict_wf s.(_nodes) -> NoDup (checksum_address <$> add) ->
  let '(s', diff) := with_updated_nodes now own s add rem skip in
  dict_wf s'.(_nodes) /\
  (forall a, metadata <$> dict_get s'.(_nodes) a = metadata <$> expected_node add rem s.(_nodes) a) /\
  (diff_empty diff = true <->
    s'.(_this_node_metadata) = s.(_this_node_metadata) /\
    forall a, metadata <$> dict_get s'.(_nodes) a = metadata <$> dict_get s.(_nodes) a).
Proof.
  intros Hwf Hnd. pose proof (with_updated_nodes_get now own s add rem skip Hwf Hnd) as (Hw & Hg & Hm).
  destruct (with_updated_nodes now own s add rem skip) as [s' diff] eqn:Hu. simpl in *.
  split_and!; [done|done|].
  assert (exists b, diff = _calculate_diff s b add rem /\
    (b = false <-> s'.(_this_node_metadata) = s.(_this_node_metadata))) as (b & -> & Hb).
  { rewrite Hm. unfold with_updated_nodes in Hu.
    destruct (s.(_this_node_ref) && negb skip); simplify_eq; eexists; (split; [done|]); [|done].
    rewrite negb_false_iff, bool_decide_eq_true. split; congruence. }
  rewrite diff_empty_true. setoid_rewrite Hg. cbn [this_node_updated _calculate_diff]. rewrite <-Hb.
  pose proof (diff_nodes_empty s b add rem Hnd) as Hd. cbn [_calculate_diff] in Hd. split.
  - intros [H1 H2]. split; [done|]. intros a. symmetry. by apply Hd.
  - intros [H1 H2]. split; [done|]. apply Hd. intros a. symmetry. apply H2.
Qed.

(** ** Order independence *)

Section Order.

(** The checksum of nucypher_core does not depend on the order of the nodes. *)
Hypothesis checksum_permutation : forall own l l',
  Permutation l l' -> FleetStateChecksum own l = FleetStateChecksum own l'.

Lemma dict_metadata_permutation (d d' : list (string * node)) :
  dict_wf d -> dict_wf d' ->
  (forall a, metadata <$> dict_get d a = metadata <$> dict_get d' a) ->
  Permutation (metadata <$> d.*2) (metadata <$> d'.*2).
Proof.
  assert (forall e : list (string * node), (snd <$> (prod_map id metadata <$> e)) = metadata <$> e.*2) as Hs
    by (intros e; rewrite <-!list_fmap_compose; done).
  assert (forall e : list (string * node), dict_wf e -> NoDup (prod_map id metadata <$> e)) as Hn.
  { intros e He. eapply (NoDup_fmap_1 fst). rewrite <-list_fmap_compose. exact He. }
  assert (forall e : list (string * node), dict_wf e -> forall a m,
    (a, m) ∈ (prod_map id metadata <$> e) <-> metadata <$> dict_get e a = Some m) as Hin.
  { intros e He a m. rewrite list_elem_of_fmap, fmap_Some. split.
    - intros ([a' n] & [= -> ->] & Hel). exists n. split; [by apply dict_elem_of_get|done].
    - intros (n & Hg & ->). exists (a, n). split; [done|]. by apply dict_get_elem_of. }
  intros Hd Hd' Heq. rewrite <-!Hs. apply fmap_Permutation, NoDup_Permutation; [by apply Hn..|].
  intros [a m]. rewrite !Hin by done. by rewrite Heq.
Qed.

Lemma add_dict_permutation add add' a :
  NoDup (checksum_address <$> add) -> Permutation add add' ->
  dict_get (add_dict add) a = dict_get (add_dict add') a.
Proof.
  intros Hnd Hp. assert (NoDup (checksum_address <$> add')) as Hnd' by (by rewrite <-Hp).
  apply option_eq. intros n. split; intros Hg.
  - apply add_dict_get in Hg as [Hin <-]. apply add_dict_unique; [done|by rewrite <-Hp].
  - apply add_dict_get in Hg as [Hin <-]. apply add_dict_unique; [done|by rewrite Hp].
Qed.

(** C39.  Fleet states converge, since the checksum of nucypher_core does not
    depend on the order of the nodes: two states with the same metadata for every
    address and for this node, updated with the same changes in any order
    (Python iterates the two sets in no particular order), have the same
    checksum and the same population, provided that no two of the nodes to
    add have the same checksum address (of two that do, the one that comes
    last stays). *)
Theorem fleet_checksum_order_independent now now' own s1 s2 add add' rem rem' skip :
  dict_wf s1.(_nodes) -> dict_wf s2.(_nodes) -> NoDup (checksum_address <$> add) ->
  Permutation add add' -> Permutation rem rem' ->
  s1.(_this_node_ref) = s2.(_this_node_ref) ->
  s1.(_this_node_metadata) = s2.(_this_node_metadata) ->
  (forall a, metadata <$> dict_get s1.(_nodes) a = metadata <$> dict_get s2.(_nodes) a) ->
  let s1' := (with_updated_nodes now own s1 add rem skip).1 in
  let s2' := (with_updated_nodes now' own s2 add' rem' skip).1 in
  s1'.(checksum) = s2'.(checksum) /\ population s1' = population s2'.
Proof.
  intros Hw1 Hw2 Hnd Hadd Hrem Href Hmeta Heq s1' s2'.
  assert (NoDup (checksum_address <$> add')) as Hnd' by (by rewrite <-Hadd).
  destruct (with_updated_nodes_get now own s1 add rem skip Hw1 Hnd) as (Hw1' & Hg1 & Hm1).
  destruct (with_updated_nodes_get now' own s2 add' rem' skip Hw2 Hnd') as (Hw2' & Hg2 & Hm2).
  fold s1' in Hw1', Hg1, Hm1. fold s2' in Hw2', Hg2, Hm2.
  assert (Permutation (metadata <$> s1'.(_nodes).*2) (metadata <$> s2'.(_nodes).*2)) as Hp.
  { apply dict_metadata_permutation; [done|done|]. intros a. rewrite Hg1, Hg2. unfold expected_node.
    rewrite (add_dict_permutation add add') by done.
    rewrite (decide_ext (a ∈ rem) (a ∈ rem')) by (by rewrite Hrem).
    case_decide; [done|]. destruct (dict_get (add_dict add') a); [done|]. apply Heq. }
  assert (s1'.(_this_node_metadata) = s2'.(_this_node_metadata)) as Hmm by (rewrite Hm1, Hm2, Href, Hmeta; done).
  assert (forall now own s add rem skip, let s' := (with_updated_nodes now own s add rem skip).1 in
    s'.(checksum) = FleetStateChecksum s'.(_this_node_metadata) (metadata <$> s'.(_nodes).*2)) as Hck.
  { intros. unfold s', with_updated_nodes. by destruct (_this_node_ref s && negb skip0). }
  split.
  - unfold s1', s2'. rewrite !Hck. fold s1' s2'. rewrite Hmm. by apply checksum_permutation.
  - unfold population. rewrite Hmm. apply Permutation_length in Hp. rewrite !length_fmap in Hp. by rewrite Hp.
Qed.

End Order.

(** ** The sensor *)

(** The order in which a Python set is iterated. *)
Variable iter_nodes : list node -> list node.
Variable iter_addresses : list string -> list string.

Record FleetSensor := Sensor {
  _domain : string;
  _current_state : FleetState;
  _archived_states : list ArchivedFleetState;
  _remote_states : list (string * ArchivedFleetState);
  _remote_last_seen : list (string * Z);
  _nodes_to_add : list node;
  _nodes_to_remove : list string;
  _auto_update_state : bool;
}.

Definition new_sensor (now : Z) (domain : string) (this_node : bool) : FleetSensor :=
  let s := new_state now this_node in
  Sensor domain s [archived s] [] [] [] [] false.

(** [deque(maxlen=5).append]. *)
Definition deque_append {A} (maxlen : nat) (l : list A) (x : A) : list A :=
  let l := l ++ [x] in drop (length l - maxlen) l.

Definition record_fleet_state (now : Z) (own_metadata : string) (skip_this_node : bool)
    (f : FleetSensor) : StateDiff * FleetSensor :=
  let '(new_state, diff) :=
    with_updated_nodes now own_metadata f.(_current_state) (iter_nodes f.(_nodes_to_add))
      (iter_addresses f.(_nodes_to_remove)) skip_this_node in
  let archived_states :=
    if negb (diff_empty diff) then deque_append 5 f.(_archived_states) (archived new_state)
    else f.(_archived_states) in
  (diff, Sensor f.(_domain) new_state archived_states f.(_remote_states) f.(_remote_last_seen)
           [] [] f.(_auto_update_state)).

(** [set.remove] and [set.add] of a node, by stamp. *)
Definition replace_node (n : node) (l : list node) : list node :=
  filter (fun m => m.(stamp) <> n.(stamp)) l ++ [n].

Definition set_nodes_to_add (x : list node) (f : FleetSensor) : FleetSensor :=
  Sensor f.(_domain) f.(_current_state) f.(_archived_states) f.(_remote_states)
    f.(_remote_last_seen) x f.(_nodes_to_remove) f.(_auto_update_state).

Definition record_node (now : Z) (own_metadata : string) (n : node) (f : FleetSensor) : FleetSensor :=
  if decide (n.(domain) = f.(_domain)) then
    let f := set_nodes_to_add (replace_node n f.(_nodes_to_add)) f in
    if f.(_auto_update_state) then (record_fleet_state now own_metadata false f).2 else f
  else f.

Definition mark_as (n : node) (f : FleetSensor) : FleetSensor :=
  Sensor f.(_domain) f.(_current_state) f.(_archived_states) f.(_remote_states)
    f.(_remote_last_seen) f.(_nodes_to_add)
    (if decide (n.(checksum_address) ∈ f.(_nodes_to_remove)) then f.(_nodes_to_remove)
     else f.(_nodes_to_remove) ++ [n.(checksum_address)]) f.(_auto_update_state).

Definition record_remote_fleet_state (now : Z) (address : string) (state_checksum : Checksum)
    (timestamp : Z) (population : nat) : PyM FleetSensor unit := fun f =>
  if negb (contains f.(_current_state) (ItemAddress address)) then (Raise KeyError, f)
  else
    let state := Archived state_checksum (nickname_from_seed state_checksum) timestamp population in
    (Ok tt, Sensor f.(_domain) f.(_current_state) f.(_archived_states)
              (dict_set f.(_remote_states) address state)
              (dict_set f.(_remote_last_seen) address now)
              f.(_nodes_to_add) f.(_nodes_to_remove) f.(_auto_update_state)).

Definition latest_state (f : FleetSensor) : option ArchivedFleetState := last f.(_archived_states).

(** [l[i:j]] of Python, for possibly negative bounds. *)
Definition py_slice {A} (l : list A) (i j : Z) : list A :=
  let n := Z.of_nat (length l) in
  let clamp k := Z.max 0 (Z.min n (if (k <? 0)%Z then k + n else k)) in
  take (Z.to_nat (clamp j - clamp i)) (drop (Z.to_nat (clamp i)) l).

Definition previous_states (quantity : Z) (f : FleetSensor) : list ArchivedFleetState :=
  let previous_states_num := Z.min (Z.of_nat (length f.(_archived_states)) - 1) quantity in
  py_slice f.(_archived_states) (- previous_states_num - 1) (-1).

(** [RemoteUrsulaStatus], the fields that do not come from the node alone. *)
Record RemoteUrsulaStatus := Status {
  s_verified : bool;
  s_staker_address : string;
  s_operator_address : option string;
  s_timestamp : Z;
  s_recorded_fleet_state : option ArchivedFleetState;
  s_last_learned_from : option Z;
}.

Definition status_info (i : item) (f : FleetSensor) : result RemoteUrsulaStatus :=
  let? n := match i with ItemAddress a => getitem f.(_current_state) a | ItemNode n => Ok n end in
  Ok (Status n.(verified_node) n.(checksum_address)
        (if n.(verified_node) then Some n.(operator_address) else None) n.(node_timestamp)
        (dict_get f.(_remote_states) n.(checksum_address))
        (dict_get f.(_remote_last_seen) n.(checksum_address))).

(** ** The sensor over time *)

(** The operations on a sensor, with what they get from outside. *)
Inductive op :=
  | RecordNode (now : Z) (own : string) (n : node)
  | RecordFleetState (now : Z) (own : string) (skip : bool)
  | MarkAs (n : node)
  | RecordRemote (now : Z) (a : string) (c : Checksum) (timestamp : Z) (population : nat)
  | SetAutoUpdate (b : bool).

Definition run_op (o : op) (f : FleetSensor) : FleetSensor :=
  match o with
  | RecordNode now own n => record_node now own n f
  | RecordFleetState now own skip => (record_fleet_state now own skip f).2
  | MarkAs n => mark_as n f
  | RecordRemote now a c t p => (record_remote_fleet_state now a c t p f).2
  | SetAutoUpdate b =>
      Sensor f.(_domain) f.(_current_state) f.(_archived_states) f.(_remote_states)
        f.(_remote_last_seen) f.(_nodes_to_add) f.(_nodes_to_remove) b
  end.

Record sensor_ok (f : FleetSensor) : Prop := {
  so_wf : dict_wf f.(_current_state).(_nodes);
  so_nodes : forall a n, (a, n) ∈ f.(_current_state).(_nodes) ->
    n.(checksum_address) = a /\ n.(domain) = f.(_domain);
  so_add : forall n, n ∈ f.(_nodes_to_add) -> n.(domain) = f.(_domain);
  so_checksum : f.(_current_state).(checksum) =
    FleetStateChecksum f.(_current_state).(_this_node_metadata)
      (metadata <$> f.(_current_state).(_nodes).*2);
  so_archive : length f.(_archived_states) <= 5 /\
    exists a, last f.(_archived_states) = Some a /\
      a.(a_checksum) = f.(_current_state).(checksum) /\
      a.(a_population) = population f.(_current_state);
  so_remote : f.(_remote_states).*1 = f.(_remote_last_seen).*1;
}.

Hypothesis iter_nodes_elements : forall l n, n ∈ iter_nodes l <-> n ∈ l.

Lemma apply_updates_elem add ups nodes a n :
  (a, n) ∈ apply_updates add ups nodes -> (a, n) ∈ nodes \/ (n ∈ add /\ n.(checksum_address) = a).
Proof.
  unfold apply_updates. fold (add_dict add). revert nodes.
  induction ups as [|u ups IH]; intros nodes; simpl; [by left|].
  intros [Hin|Hin]%IH; [|by right].
  destruct (dict_get (add_dict add) u) as [m|] eqn:Hg; [|by left].
  apply dict_set_elem_of in Hin as [[= -> ->]|Hin]; [|by left]. right. by apply add_dict_get.
Qed.

Lemma apply_removals_elem rem nodes x : x ∈ apply_removals rem nodes -> x ∈ nodes.
Proof.
  unfold apply_removals. revert nodes. induction rem as [|r rem IH]; intros nodes; simpl; [done|].
  intros Hin%IH. eapply elem_of_submseteq; [exact Hin|]. apply sublist_submseteq, dict_del_sublist.
Qed.

Lemma with_updated_nodes_ok now own s add rem skip :
  dict_wf s.(_nodes) ->
  let '(s', diff) := with_updated_nodes now own s add rem skip in
  dict_wf s'.(_nodes) /\
  (forall a n, (a, n) ∈ s'.(_nodes) -> (a, n) ∈ s.(_nodes) \/ (n ∈ add /\ n.(checksum_address) = a)) /\
  s'.(checksum) = FleetStateChecksum s'.(_this_node_metadata) (metadata <$> s'.(_nodes).*2) /\
  (diff_empty diff = true -> s'.(_nodes) = s.(_nodes) /\ s'.(_this_node_metadata) = s.(_this_node_metadata)).
Proof.
  intros Hwf. unfold with_updated_nodes.
  destruct (if _ && _ then _ else _) as [meta upd] eqn:Hpair.
  assert (upd = false -> meta = s.(_this_node_metadata)) as Hupd.
  { destruct (_ && _); simplify_eq; [|done].
    rewrite negb_false_iff, bool_decide_eq_true. done. }
  destruct (diff_empty _) eqn:He; cbn [negb].
  - split_and!; [done|by left|done|]. intros _. split; [done|]. simpl. apply Hupd.
    apply diff_empty_true in He as [He _]. exact He.
  - split_and!; [|intros a n Hin|done|done].
    + apply (apply_removals_get _ _ EmptyString). by apply apply_updates_wf.
    + eapply apply_updates_elem, apply_removals_elem, Hin.
Qed.

Lemma deque_append_spec {A} k (l : list A) x :
  0 < k -> length (deque_append k l x) <= k /\ last (deque_append k l x) = Some x.
Proof.
  intros Hk. unfold deque_append. rewrite length_drop, length_app. simpl. split; [lia|].
  rewrite last_lookup, length_drop, length_app, lookup_drop. simpl.
  replace (length l + 1 - k + pred (length l + 1 - (length l + 1 - k))) with (length l) by lia.
  rewrite lookup_app_r by lia. by rewrite Nat.sub_diag.
Qed.

Lemma record_fleet_state_ok now own skip f :
  sensor_ok f -> sensor_ok (record_fleet_state now own skip f).2.
Proof.
  intros [Hwf Hn Ha Hc [Hl (a & Hlast & Hac & Hap)] Hr]. unfold record_fleet_state.
  pose proof (with_updated_nodes_ok now own f.(_current_state) (iter_nodes f.(_nodes_to_add))
    (iter_addresses f.(_nodes_to_remove)) skip Hwf) as H.
  destruct (with_updated_nodes _ _ _ _ _ _) as [s' diff]. destruct H as (Hwf' & Hel & Hck & Hempty).
  simpl. split; simpl; try done.
  - intros b n [Hin|[Hin Haddr]]%Hel; [by apply Hn|]. split; [done|]. by apply Ha, iter_nodes_elements.
  - intros n Hin. inversion Hin.
  - destruct (diff_empty diff) eqn:He; simpl.
    + destruct (Hempty eq_refl) as [Hnodes Hmeta]. split; [done|]. exists a. split; [done|].
      rewrite Hac, Hap, Hc, Hck, Hnodes, Hmeta. unfold population. by rewrite Hnodes, Hmeta.
    + destruct (deque_append_spec 5 f.(_archived_states) (archived s')) as [Hle Hla]; [lia|].
      split; [done|]. eexists. split; [exact Hla|]. done.
Qed.

Lemma run_op_ok o f : sensor_ok f -> sensor_ok (run_op o f).
Proof.
  intros Hok. destruct o as [now own n|now own skip|n|now a c t p|b]; simpl.
  - unfold record_node. case_decide as Hd; [|done].
    assert (sensor_ok (set_nodes_to_add (replace_node n f.(_nodes_to_add)) f)) as Hok'.
    { destruct Hok as [Hwf Hn Ha Hc Har Hr]. split; try done. simpl. unfold replace_node.
      intros m. rewrite elem_of_app, list_elem_of_filter, list_elem_of_singleton.
      intros [[_ Hm]| ->]; [by apply Ha|done]. }
    destruct (_auto_update_state _); [by apply record_fleet_state_ok|done].
  - by apply record_fleet_state_ok.
  - destruct Hok. by split.
  - unfold record_remote_fleet_state. destruct (negb _); [done|].
    destruct Hok as [Hwf Hn Ha Hc Har Hr]. split; try done. simpl.
    destruct (decide (a ∈ f.(_remote_states).*1)) as [Hin|Hin].
    + rewrite !dict_set_keys_present; [done|by rewrite <-Hr|done].
    + rewrite !dict_set_keys_absent, !fmap_app; [|by rewrite <-Hr|done]. by rewrite Hr.
  - destruct Hok. by split.
Qed.

Lemma new_sensor_ok now dom this_node : sensor_ok (new_sensor now dom this_node).
Proof.
  split; simpl; try done; [by apply NoDup_nil_2|intros ? ? Hin; inversion Hin|intros ? Hin; inversion Hin|].
  split; [lia|]. eexists. split; [reflexivity|]. done.
Qed.

(** The sensor's invariant holds after every sequence of operations:
    each node is filed once, under its own address, and belongs to the
    sensor's domain; the checksum is that of the recorded nodes; there are
    between one and five archived states and the latest has the checksum and
    the population of the current state; and exactly the nodes that reported
    a state have a time at which they were last seen. *)
Theorem sensor_invariant now dom this_node ops :
  sensor_ok (foldl (fun f o => run_op o f) (new_sensor now dom this_node) ops).
Proof.
  pose proof (new_sensor_ok now dom this_node) as Hinit.
  revert Hinit. generalize (new_sensor now dom this_node).
  induction ops as [|o ops IH]; intros f Hf; simpl; [done|]. by apply IH, run_op_ok.
Qed.

(** [previous_states] returns the archived states before the latest, at
    most [quantity] of them, the most recent ones, in chronological order. *)
Theorem previous_states_spec quantity (f : FleetSensor) :
  (0 <= quantity)%Z -> f.(_archived_states) <> [] ->
  let n := length f.(_archived_states) in
  exists earlier latest,
    f.(_archived_states) = earlier ++ previous_states quantity f ++ [latest] /\
    latest_state f = Some latest /\
    length (previous_states quantity f) = Z.to_nat quantity `min` (n - 1).
Proof.
  intros Hq Hne n. destruct (last f.(_archived_states)) as [latest|] eqn:Hl;
    [|by apply last_None in Hl]. pose proof Hl as Hl'. apply last_Some in Hl as [l Heq].
  assert (n = S (length l)) as Hn by (unfold n; rewrite Heq, length_app; simpl; lia).
  set (k := Z.to_nat quantity `min` length l).
  assert (previous_states quantity f = drop (length l - k) l) as Hp.
  { unfold previous_states, py_slice. fold n. rewrite Hn.
    set (pn := Z.min (Z.of_nat (S (length l)) - 1) quantity).
    assert (pn = Z.of_nat k) as -> by (unfold pn, k; lia).
    destruct (Z.ltb_spec (- Z.of_nat k - 1) 0); [|lia]. destruct (Z.ltb_spec (-1) 0); [|lia].
    rewrite Heq.
    replace (Z.to_nat (Z.max 0 (Z.min (Z.of_nat (S (length l))) (- Z.of_nat k - 1 + Z.of_nat (S (length l))))))
      with (length l - k) by (unfold k; lia).
    rewrite drop_app_le by lia.
    replace (Z.to_nat _) with (length (drop (length l - k) l)) by (rewrite length_drop; unfold k; lia).
    by rewrite take_app_length. }
  exists (take (length l - k) l), latest. rewrite Hp. split_and!.
  - by rewrite app_assoc, take_drop.
  - done.
  - rewrite length_drop. unfold k. lia.
Qed.

(** [__contains__] looks at the address only. *)
Lemma contains_ignores_metadata s n m :
  contains s (ItemNode n) = contains s (ItemNode (Node n.(checksum_address) m n.(domain) n.(stamp)
                                           n.(node_timestamp) n.(verified_node) n.(operator_address))).
Proof. done. Qed.

End Fleet.

(** ** Evaluated: two nodes, one of which publishes new metadata *)

Definition demo_checksum (own : option string) (l : list string) : nat := length l.
Definition demo_node (a m : string) : node := Node a m "net" a 0 true "op".

Definition demo_state : FleetState (Checksum:=nat) (Nickname:=nat) :=
  make_state demo_checksum id 0 [("a", demo_node "a" "m1"); ("b", demo_node "b" "m1")]%string true None.

Example demo_update :
  let '(s, diff) := with_updated_nodes demo_checksum id 1 "own" demo_state
    [demo_node "b" "m2"; demo_node "c" "m1"; demo_node "a" "m1"]%string ["a"]%string false in
  addresses s = ["b"; "c"]%string /\ diff = Diff true ["b"; "c"]%string ["a"]%string /\ population s = 3.
Proof. vm_compute. auto. Qed.

Lemma with_updated_nodes_spec_witness :
  let '(s', diff) := with_updated_nodes demo_checksum id 1 "own" demo_state
    [demo_node "b" "m2"]%string ["a"]%string false in
  metadata <$> dict_get s'.(_nodes) "b"%string = Some "m2"%string.
Proof.
  pose proof (with_updated_nodes_spec demo_checksum id 1 "own" demo_state
    [demo_node "b" "m2"]%string ["a"]%string false) as H.
  destruct (with_updated_nodes _ _ _ _ _ _ _ _) as [s' diff].
  destruct H as (_ & Hg & _); [apply (bool_decide_unpack _); vm_compute; exact I..|].
  rewrite Hg. reflexivity.
Defined.

Lemma fleet_checksum_order_independent_witness :
  let add := [demo_node "b" "m2"; demo_node "c" "m1"]%string in
  (with_updated_nodes demo_checksum id 1 "own" demo_state add ["a"]%string false).1.(checksum) =
  (with_updated_nodes demo_checksum id 2 "own" demo_state (reverse add) ["a"]%string false).1.(checksum).
Proof.
  intros add. apply (fleet_checksum_order_independent demo_checksum id
    (fun own l l' Hp => Permutation_length Hp) 1 2 "own" demo_state demo_state add (reverse add)
    ["a"]%string ["a"]%string false); try reflexivity;
    [apply (bool_decide_unpack _); vm_compute; exact I..|].
  symmetry. apply reverse_Permutation.
Defined.

Lemma sensor_invariant_witness :
  sensor_ok demo_checksum (foldl (fun f o => run_op demo_checksum id id id o f)
    (new_sensor demo_checksum id 0 "net" true)
    [RecordNode 1 "own" (demo_node "a" "m"); RecordFleetState 2 "own" false;
     RecordRemote 3 "a" 7 3 4; MarkAs (demo_node "a" "m"); RecordFleetState 4 "own" false]%string).
Proof. apply sensor_invariant. intros l n. split; intros H; exact H. Defined.

Lemma previous_states_spec_witness :
  let f := foldl (fun f o => run_op demo_checksum id id id o f)
    (new_sensor demo_checksum id 0 "net" true)
    [RecordNode 1 "own" (demo_node "a" "m"); RecordFleetState 2 "own" false]%string in
  exists earlier latest,
    f.(_archived_states) = earlier ++ previous_states 1 f ++ [latest] /\
    latest_state f = Some latest /\ length (previous_states 1 f) = 1.
Proof.
  intros f. apply (previous_states_spec 1 f); [discriminate|vm_compute; discriminate].
Defined.

End Perception.
