(* ===== verification/Nodes.v ===== *)
(** * nulink/network/nodes.py

    [Teacher]: the verification of a node by others, a cascade of cached
    checks.  [Learner]: what a node does to get to know others: seeding,
    choosing teachers in turn, asking them for nodes, remembering those, and
    waiting until enough are known.  The network, the contracts and the clock
    are interfaces. *)

From S2P Require Import Prelude Perception Retrieval.

(** ** Teacher *)

Module Teacher.

(** What identifies a node and is compared with what it says when asked. *)
Record identity := Identity {
  checksum_address : string;
  verifying_key : string;
  encrypting_key : string;
  operator_signature : string;
}.

#[global] Instance identity_eq_dec : EqDecision identity.
Proof. solve_decision. Defined.

(** The node as its verifier sees it, with the flags of [Teacher.__init__]. *)
Record teacher := Mk_teacher {
  ident : identity;
  federated_only : bool;
  certificate_saved : bool;
  verified_stamp : bool;
  verified_operator : bool;
  verified_metadata : bool;
  verified_node : bool;
}.

Definition new_teacher (i : identity) (federated saved : bool) : teacher :=
  Mk_teacher i federated saved false false false false.

Definition set_verified_stamp (b : bool) (t : teacher) : teacher :=
  Mk_teacher t.(ident) t.(federated_only) t.(certificate_saved) b t.(verified_operator)
    t.(verified_metadata) t.(verified_node).
Definition set_verified_operator (b : bool) (t : teacher) : teacher :=
  Mk_teacher t.(ident) t.(federated_only) t.(certificate_saved) t.(verified_stamp) b
    t.(verified_metadata) t.(verified_node).
Definition set_verified_metadata (b : bool) (t : teacher) : teacher :=
  Mk_teacher t.(ident) t.(federated_only) t.(certificate_saved) t.(verified_stamp)
    t.(verified_operator) b t.(verified_node).
Definition set_verified_node (b : bool) (t : teacher) : teacher :=
  Mk_teacher t.(ident) t.(federated_only) t.(certificate_saved) t.(verified_stamp)
    t.(verified_operator) t.(verified_metadata) b.
Definition set_certificate_saved (b : bool) (t : teacher) : teacher :=
  Mk_teacher t.(ident) t.(federated_only) b t.(verified_stamp) t.(verified_operator)
    t.(verified_metadata) t.(verified_node).

(** What the checks ask of others: the recovery of the operator's address
    from its signature, the node's signature of its metadata, the contract,
    the certificate store, and the node itself. *)
Class Evidence (W Bytes : Type) := {
  operator_address : identity -> result string;
  metadata_verify : identity -> bool;
  get_staking_provider_from_operator : string -> PyM W string;
  is_authorized : string -> PyM W bool;
  store_certificate : identity -> PyM W unit;
  node_information : identity -> PyM W Bytes;
  from_metadata_bytes : Bytes -> result identity;
}.

Section Verify.
Context {W Bytes : Type} `{!Evidence W Bytes}.
Variable NULL_ADDRESS : string.

(** A call that leaves the node as it is. *)
Definition ask {A} (m : PyM W A) : PyM (teacher * W) A := fun '(t, w) =>
  let '(r, w') := m w in (r, (t, w')).

Definition update_self (f : teacher -> teacher) : PyM (teacher * W) unit :=
  modify (fun '(t, w) => (f t, w)).

Definition self : PyM (teacher * W) teacher := gets fst.

Definition _operator_is_bonded : PyM (teacher * W) bool :=
  t <- self ;;
  op <- lift (operator_address t.(ident)) ;;
  staking_provider_address <- ask (get_staking_provider_from_operator op) ;;
  if decide (staking_provider_address = NULL_ADDRESS) then raise UnbondedOperator
  else py_ret (bool_decide (staking_provider_address = t.(ident).(checksum_address))).

Definition _staking_provider_is_really_staking : PyM (teacher * W) bool :=
  t <- self ;;
  ask (is_authorized t.(ident).(checksum_address)).

(** [validate_operator]; [registry] says whether one is given. *)
Definition validate_operator (registry : bool) : PyM (teacher * W) unit :=
  t <- self ;;
  if t.(federated_only) then raise WrongMode
  else
    match operator_address t.(ident) with
    | Raise e => if catches [Exception] e then raise InvalidOperatorSignature else raise e
    | Ok _ =>
        update_self (set_verified_stamp true) ;;;
        if registry then
          bonded <- _operator_is_bonded ;;
          if negb bonded then raise UnbondedOperator
          else
            staking <- _staking_provider_is_really_staking ;;
            if staking : bool then update_self (set_verified_operator true) else raise NotStaking
        else py_ret tt
    end.

Definition validate_metadata_signature : PyM (teacher * W) bool :=
  t <- self ;;
  let metadata_is_valid := metadata_verify t.(ident) in
  update_self (set_verified_metadata metadata_is_valid) ;;;
  if metadata_is_valid then py_ret true else raise InvalidNode.

Definition validate_metadata (registry : bool) : PyM (teacher * W) unit :=
  t <- self ;;
  (if negb t.(verified_metadata) then validate_metadata_signature ;;; py_ret tt else py_ret tt) ;;;
  t <- self ;;
  if t.(verified_stamp) then py_ret tt
  else try_except (validate_operator registry) [WrongMode]
         (fun e => if registry then raise e else py_ret tt).

(** The end of [verify_node]: what the node says of itself is compared. *)
Definition compare_identity (response_data : Bytes) : PyM (teacher * W) unit :=
  t <- self ;;
  match from_metadata_bytes response_data with
  | Raise e => if catches [Exception] e then raise InvalidNode else raise e
  | Ok sprout =>
      let me := t.(ident) in
      let verifying_keys_match := bool_decide (sprout.(verifying_key) = me.(verifying_key)) in
      let encrypting_keys_match := bool_decide (sprout.(encrypting_key) = me.(encrypting_key)) in
      let addresses_match := bool_decide (sprout.(checksum_address) = me.(checksum_address)) in
      let evidence_matches := bool_decide (sprout.(operator_signature) = me.(operator_signature)) in
      if negb (encrypting_keys_match && verifying_keys_match && addresses_match && evidence_matches)
      then raise InvalidNode
      else update_self (set_verified_node true)
  end.

(** [verify_node]: [true] for a node that was verified before, [None] (here
    [false]) after a successful verification. *)
Definition verify_node (registry certificate_given force : bool) : PyM (teacher * W) bool :=
  (if force then
     update_self (fun t => set_verified_operator false (set_verified_stamp false
       (set_verified_node false (set_verified_metadata false t))))
   else py_ret tt) ;;;
  t <- self ;;
  if t.(verified_node) then py_ret true
  else
    validate_metadata registry ;;;
    (if negb certificate_given && negb t.(certificate_saved)
     then ask (store_certificate t.(ident)) ;;; update_self (set_certificate_saved true)
     else py_ret tt) ;;;
    response_data <- ask (node_information t.(ident)) ;;
    compare_identity response_data ;;;
    py_ret false.

(** *** What a verification establishes *)

(** All the on-chain evidence, at some moments during the call. *)
Definition on_chain_evidence (i : identity) : Prop :=
  exists op w1 w1' w2 w2',
    operator_address i = Ok op /\
    get_staking_provider_from_operator op w1 = (Ok i.(checksum_address), w1') /\
    i.(checksum_address) <> NULL_ADDRESS /\
    is_authorized i.(checksum_address) w2 = (Ok true, w2').

(** The node, asked directly, presents this identity. *)
Definition presents_identity (i : identity) : Prop :=
  exists w w' data, node_information i w = (Ok data, w') /\ from_metadata_bytes data = Ok i.

Lemma validate_operator_inv registry t w r t' w' :
  validate_operator registry (t, w) = (r, (t', w')) ->
  t'.(ident) = t.(ident) /\ t'.(federated_only) = t.(federated_only) /\
  t'.(verified_metadata) = t.(verified_metadata) /\ t'.(verified_node) = t.(verified_node) /\
  t'.(certificate_saved) = t.(certificate_saved) /\
  (r = Ok tt -> t.(federated_only) = false /\ t'.(verified_stamp) = true /\
     (registry = true -> on_chain_evidence t.(ident) /\ t'.(verified_operator) = true)) /\
  (r = Raise WrongMode -> t.(federated_only) = true \/ registry = true) /\
  (r = Raise NotStaking \/ r = Raise UnbondedOperator -> t'.(verified_operator) = t.(verified_operator) /\
     (t.(federated_only) = false -> is_ok (operator_address t.(ident)) = true -> t'.(verified_stamp) = true)).
Proof.
  unfold validate_operator, _operator_is_bonded, _staking_provider_is_really_staking, on_chain_evidence,
    self, ask, update_self, py_bind, gets, lift, modify, raise, py_ret. simpl.
  destruct (federated_only t) eqn:Hfed; [intros; simplify_eq; naive_solver|].
  destruct (operator_address (ident t)) as [op|e] eqn:Hop.
  2: { destruct (catches [Exception] e) eqn:Hc; intros; simplify_eq; split_and!; try done; try naive_solver;
         (first [intros [= ->]|intros [[= ->]|[= ->]]]); vm_compute in Hc; discriminate. }
  destruct registry; [|intros; simplify_eq; simpl; naive_solver]. simpl. rewrite Hop.
  destruct (get_staking_provider_from_operator op w) as [[sp|e] w1] eqn:Hsp; simpl;
    [|intros; simplify_eq; simpl; naive_solver].
  destruct (decide (sp = NULL_ADDRESS)) as [->|Hnull]; [intros; simplify_eq; simpl; naive_solver|].
  case_bool_decide as Hsp'; simpl; [|intros; simplify_eq; simpl; naive_solver].
  destruct (is_authorized (checksum_address (ident t)) w1) as [[[]|e] w2] eqn:Hau; simpl;
    intros; simplify_eq; simpl; naive_solver.
Qed.

Lemma compare_identity_inv data t w r t' w' :
  compare_identity data (t, w) = (r, (t', w')) ->
  w' = w /\
  (r = Ok tt -> from_metadata_bytes data = Ok t.(ident) /\ t' = set_verified_node true t) /\
  (from_metadata_bytes data = Ok t.(ident) -> r = Ok tt).
Proof.
  unfold compare_identity, self, update_self, py_bind, gets, modify, raise. simpl.
  destruct (from_metadata_bytes data) as [sprout|e].
  - destruct t as [me ? ? ? ? ? ?]. simpl. destruct sprout as [a v k o], me as [a' v' k' o']. simpl.
    repeat case_bool_decide; simpl; intros; simplify_eq; naive_solver.
  - destruct (catches [Exception] e); intros; simplify_eq; naive_solver.
Qed.

(** [validate_metadata] of a node that has not been looked at yet. *)
Lemma validate_metadata_fresh registry t w r t' w' :
  t.(verified_metadata) = false -> t.(verified_stamp) = false ->
  validate_metadata registry (t, w) = (r, (t', w')) ->
  t'.(ident) = t.(ident) /\ t'.(certificate_saved) = t.(certificate_saved) /\
  t'.(verified_node) = t.(verified_node) /\
  (r = Ok tt -> metadata_verify t.(ident) = true /\ t'.(verified_metadata) = true /\
     (t.(federated_only) = false -> registry = true ->
        on_chain_evidence t.(ident) /\ t'.(verified_stamp) = true /\ t'.(verified_operator) = true)) /\
  (r = Raise NotStaking \/ r = Raise UnbondedOperator ->
     t.(federated_only) = false -> is_ok (operator_address t.(ident)) = true ->
     t'.(verified_metadata) = true /\ t'.(verified_stamp) = true /\
     t'.(verified_operator) = t.(verified_operator)).
Proof.
  intros Hm Hs. unfold validate_metadata, validate_metadata_signature, self, update_self, py_bind, gets,
    modify, raise, py_ret. simpl. rewrite Hm. simpl.
  destruct (metadata_verify (ident t)) eqn:Hv; [|intros; simplify_eq; simpl; naive_solver].
  simpl. rewrite Hs. unfold try_except.
  destruct (validate_operator registry (set_verified_metadata true t, w)) as [ro [t1 w1]] eqn:Ho.
  apply validate_operator_inv in Ho as (Hi & Hf & Hvm & Hvn & Hcs & Hok & Hwm & Hns). simpl in *.
  destruct ro as [[]|e]; [intros; simplify_eq; naive_solver|].
  destruct (catches [WrongMode] e) eqn:Hc; [|intros; simplify_eq; naive_solver].
  assert (e = WrongMode) as -> by (destruct e; vm_compute in Hc; congruence).
  destruct registry; intros; simplify_eq; naive_solver.
Qed.

(** Asking the node itself, after [validate_metadata]. *)
Lemma ask_node_inv given t t1 w r t' w' :
  t1.(ident) = t.(ident) ->
  ((if negb given && negb t.(certificate_saved)
    then ask (store_certificate t.(ident)) ;;; update_self (set_certificate_saved true)
    else py_ret tt) ;;;
   response_data <- ask (node_information t.(ident)) ;;
   compare_identity response_data ;;;
   py_ret false) (t1, w) = (r, (t', w')) ->
  forall b, r = Ok b -> b = false /\ presents_identity t.(ident) /\ t'.(ident) = t.(ident) /\
    t'.(verified_node) = true /\ t'.(verified_metadata) = t1.(verified_metadata) /\
    t'.(verified_stamp) = t1.(verified_stamp) /\ t'.(verified_operator) = t1.(verified_operator).
Proof.
  intros Hi. unfold ask, update_self, py_bind, modify, py_ret, presents_identity.
  destruct (negb given && negb (certificate_saved t)).
  - destruct (store_certificate (ident t) w) as [[[]|e] w1]; [|intros; by simplify_eq].
    destruct (node_information (ident t) w1) as [[data|e] w2] eqn:Hn; [|intros; by simplify_eq].
    destruct (compare_identity data _) as [[[]|e] [t2 w3]] eqn:Hcmp; [|intros; by simplify_eq].
    apply compare_identity_inv in Hcmp as (-> & Hc & _). destruct (Hc eq_refl) as [Hd ->].
    intros. simplify_eq. simpl in *. rewrite Hi in *. split_and!; try done. by exists w1, w', data.
  - destruct (node_information (ident t) w) as [[data|e] w2] eqn:Hn; [|intros; by simplify_eq].
    destruct (compare_identity data _) as [[[]|e] [t2 w3]] eqn:Hcmp; [|intros; by simplify_eq].
    apply compare_identity_inv in Hcmp as (-> & Hc & _). destruct (Hc eq_refl) as [Hd ->].
    intros. simplify_eq. simpl in *. rewrite Hi in *. split_and!; try done. by exists w, w', data.
Qed.

(** C4.  A first or forced verification checks everything: if [verify_node]
    returns for a node with no check cached (or with [force]), the node's
    metadata signature is valid, the node itself presented the same address,
    keys and operator signature, and, for a decentralized node verified with
    a registry, its operator is bonded on chain to this very provider and the
    provider's stake is authorized; all the flags that say so are set. *)
Theorem verify_node_checks_everything registry given force t w r t' w' :
  force = true \/ (t.(verified_metadata) = false /\ t.(verified_stamp) = false /\ t.(verified_node) = false) ->
  verify_node registry given force (t, w) = (Ok r, (t', w')) ->
  r = false /\ t'.(verified_node) = true /\ t'.(verified_metadata) = true /\ t'.(ident) = t.(ident) /\
  metadata_verify t.(ident) = true /\ presents_identity t.(ident) /\
  (t.(federated_only) = false -> registry = true ->
     on_chain_evidence t.(ident) /\ t'.(verified_stamp) = true /\ t'.(verified_operator) = true).
Proof.
  intros Hfresh. unfold verify_node.
  set (t0 := if force then set_verified_operator false (set_verified_stamp false
       (set_verified_node false (set_verified_metadata false t))) else t).
  assert (t0.(verified_metadata) = false /\ t0.(verified_stamp) = false /\ t0.(verified_node) = false /\
    t0.(ident) = t.(ident) /\ t0.(federated_only) = t.(federated_only)) as (Hm & Hs & Hn & Hi & Hf).
  { unfold t0. destruct force; [done|]. destruct Hfresh; [done|]. naive_solver. }
  assert (forall A (k : unit -> PyM (teacher * W) A),
    py_bind (if force then update_self (fun t => set_verified_operator false (set_verified_stamp false
       (set_verified_node false (set_verified_metadata false t)))) else py_ret tt) k (t, w) = k tt (t0, w)) as ->
    by (intros; unfold t0; by destruct force).
  unfold self at 1, gets, py_bind at 1. cbn [fst]. rewrite Hn. unfold py_bind at 1.
  destruct (validate_metadata registry (t0, w)) as [[[]|e] [t1 w1]] eqn:Hval; [|done].
  apply validate_metadata_fresh in Hval as (Hi1 & _ & _ & Hok & _); [|done|done].
  destruct (Hok eq_refl) as (Hv & Hm1 & Hchain).
  intros Hrest. destruct (ask_node_inv given t0 t1 w1 _ t' w' Hi1 Hrest r eq_refl)
    as (-> & Hp & Hi' & Hn' & Hm' & Hs' & Ho').
  rewrite Hi, Hf in *. split_and!; try done; try congruence. intros Hfed Hreg.
  destruct (Hchain Hfed Hreg) as (? & ? & ?). split_and!; congruence.
Qed.

(** A failed stake check is not repeated: when the checks of the first
    [verify_node] of a decentralized node raise [NotStaking] or [UnbondedOperator], the
    flag [verified_stamp] stays set, so a second call with the same registry
    skips the on-chain checks; if the node presents its identity, the call
    returns and the node counts as verified although its operator never was. *)
Theorem failed_stake_check_is_skipped given t w e t1 w1 w2 :
  t.(federated_only) = false ->
  t.(verified_metadata) = false -> t.(verified_stamp) = false -> t.(verified_node) = false ->
  t.(verified_operator) = false ->
  is_ok (operator_address t.(ident)) = true -> t.(certificate_saved) = true ->
  e ∈ [NotStaking; UnbondedOperator] ->
  validate_metadata true (t, w) = (Raise e, (t1, w1)) ->
  verify_node true given false (t, w) = (Raise e, (t1, w1)) /\
  (forall data w3, node_information t.(ident) w2 = (Ok data, w3) -> from_metadata_bytes data = Ok t.(ident) ->
   exists t2, verify_node true given false (t1, w2) = (Ok false, (t2, w3)) /\
     t2.(verified_node) = true /\ t2.(verified_operator) = false).
Proof.
  intros Hfed Hm Hs Hn Hop0 Hop Hcert He Hval. split.
  { unfold verify_node, self, py_bind, gets, py_ret. simpl. by rewrite Hn, Hval. }
  intros data w3 Hinfo Hdata.
  apply validate_metadata_fresh in Hval as (Hi & Hc & Hvn & _ & Hns); [|done|done].
  destruct Hns as (Hm1 & Hs1 & Ho1); [set_solver|done|done|].
  assert (validate_metadata true (t1, w2) = (Ok tt, (t1, w2))) as Hskip.
  { unfold validate_metadata, self, py_bind, gets, py_ret. simpl. rewrite Hm1. simpl. by rewrite Hs1. }
  unfold verify_node, self, py_bind, gets, py_ret. simpl.
  rewrite Hvn, Hn, Hskip, Hc, Hcert, andb_false_r. unfold ask. rewrite Hi, Hinfo. destruct (compare_identity data (t1, w3)) as [r2 [t2 w4]] eqn:Hcmp.
  apply compare_identity_inv in Hcmp as (-> & Hok & Hr). rewrite Hi in *.
  rewrite (Hr Hdata) in *. destruct (Hok eq_refl) as [_ ->].
  eexists. split; [done|]. simpl. split; [done|congruence].
Qed.

End Verify.
End Teacher.

(** ** Learner *)

Module Learner.
Import Perception.

(** The outside world of a learner: the clock (in milliseconds), the node's
    own metadata, the node storage, nodes as objects (which mature and are
    verified), randomness and the network. *)
Class Network (E Checksum Bytes Response : Type) := {
  clock : E -> Z;
  sleep : Z -> E -> E;
  own_metadata : E -> string;
  from_teacher_uri : string -> PyM E node;
  from_seednode_metadata : string -> PyM E node;
  stored_nodes : PyM E (list node);
  store_node_metadata : node -> PyM E unit;
  mature_and_store_certificate : node -> PyM E unit;
  is_mature : node -> E -> bool;
  verify_stranger : node -> bool -> PyM E unit;
  shuffle_nodes : list node -> PyM E (list node);
  get_nodes_via_rest : node -> Checksum -> PyM E (Z * Bytes);
  response_from_bytes : Bytes -> result Response;
  response_verify : Response -> node -> result (Z * list node);
}.

Section Learner.
Context {Checksum Nickname E Bytes Response : Type} `{!Network E Checksum Bytes Response}.
Variable FleetStateChecksum : option string -> list string -> Checksum.
Variable nickname_from_seed : Checksum -> Nickname.
Variable iter_nodes : list node -> list node.
Variable iter_addresses : list string -> list string.

Notation sensor := (FleetSensor (Checksum:=Checksum) (Nickname:=Nickname)).

Definition _SHORT_LEARNING_DELAY : Z := 5.
Definition _LONG_LEARNING_DELAY : Z := 90.
Definition _ROUNDS_WITHOUT_NODES_AFTER_WHICH_TO_SLOW_DOWN : Z := 10.

(** [Learner]: its attributes; [teacher_uris] is [TEACHER_NODES[domain]], [task_running] and
    [task_interval] are those of the looping call, [stop_now] is the canceller's, [env] is the outside world. *)
Record learner := Mk_learner {
  domain : string;
  self_stamp : string;
  teacher_uris : list string;
  _seed_nodes : list string;
  save_metadata : bool;
  _known_nodes : sensor;
  done_seeding : bool;
  teacher_nodes : list node;
  _current_teacher_node : option node;
  _learning_round : Z;
  _rounds_without_new_nodes : Z;
  task_running : bool;
  task_interval : Z;
  _crashed : bool;
  stop_now : bool;
  env : E;
}.
Definition set_domain (x : string) (s : learner) : learner :=
  Mk_learner x (s.(self_stamp)) (s.(teacher_uris)) (s.(_seed_nodes)) (s.(save_metadata)) (s.(_known_nodes)) (s.(done_seeding)) (s.(teacher_nodes)) (s.(_current_teacher_node)) (s.(_learning_round)) (s.(_rounds_without_new_nodes)) (s.(task_running)) (s.(task_interval)) (s.(_crashed)) (s.(stop_now)) (s.(env)).
Definition set_self_stamp (x : string) (s : learner) : learner :=
  Mk_learner (s.(domain)) x (s.(teacher_uris)) (s.(_seed_nodes)) (s.(save_metadata)) (s.(_known_nodes)) (s.(done_seeding)) (s.(teacher_nodes)) (s.(_current_teacher_node)) (s.(_learning_round)) (s.(_rounds_without_new_nodes)) (s.(task_running)) (s.(task_interval)) (s.(_crashed)) (s.(stop_now)) (s.(env)).
Definition set_teacher_uris (x : list string) (s : learner) : learner :=
  Mk_learner (s.(domain)) (s.(self_stamp)) x (s.(_seed_nodes)) (s.(save_metadata)) (s.(_known_nodes)) (s.(done_seeding)) (s.(teacher_nodes)) (s.(_current_teacher_node)) (s.(_learning_round)) (s.(_rounds_without_new_nodes)) (s.(task_running)) (s.(task_interval)) (s.(_crashed)) (s.(stop_now)) (s.(env)).
Definition set__seed_nodes (x : list string) (s : learner) : learner :=
  Mk_learner (s.(domain)) (s.(self_stamp)) (s.(teacher_uris)) x (s.(save_metadata)) (s.(_known_nodes)) (s.(done_seeding)) (s.(teacher_nodes)) (s.(_current_teacher_node)) (s.(_learning_round)) (s.(_rounds_without_new_nodes)) (s.(task_running)) (s.(task_interval)) (s.(_crashed)) (s.(stop_now)) (s.(env)).
Definition set_save_metadata (x : bool) (s : learner) : learner :=
  Mk_learner (s.(domain)) (s.(self_stamp)) (s.(teacher_uris)) (s.(_seed_nodes)) x (s.(_known_nodes)) (s.(done_seeding)) (s.(teacher_nodes)) (s.(_current_teacher_node)) (s.(_learning_round)) (s.(_rounds_without_new_nodes)) (s.(task_running)) (s.(task_interval)) (s.(_crashed)) (s.(stop_now)) (s.(env)).
Definition set__known_nodes (x : sensor) (s : learner) : learner :=
  Mk_learner (s.(domain)) (s.(self_stamp)) (s.(teacher_uris)) (s.(_seed_nodes)) (s.(save_metadata)) x (s.(done_seeding)) (s.(teacher_nodes)) (s.(_current_teacher_node)) (s.(_learning_round)) (s.(_rounds_without_new_nodes)) (s.(task_running)) (s.(task_interval)) (s.(_crashed)) (s.(stop_now)) (s.(env)).
Definition set_done_seeding (x : bool) (s : learner) : learner :=
  Mk_learner (s.(domain)) (s.(self_stamp)) (s.(teacher_uris)) (s.(_seed_nodes)) (s.(save_metadata)) (s.(_known_nodes)) x (s.(teacher_nodes)) (s.(_current_teacher_node)) (s.(_learning_round)) (s.(_rounds_without_new_nodes)) (s.(task_running)) (s.(task_interval)) (s.(_crashed)) (s.(stop_now)) (s.(env)).
Definition set_teacher_nodes (x : list node) (s : learner) : learner :=
  Mk_learner (s.(domain)) (s.(self_stamp)) (s.(teacher_uris)) (s.(_seed_nodes)) (s.(save_metadata)) (s.(_known_nodes)) (s.(done_seeding)) x (s.(_current_teacher_node)) (s.(_learning_round)) (s.(_rounds_without_new_nodes)) (s.(task_running)) (s.(task_interval)) (s.(_crashed)) (s.(stop_now)) (s.(env)).
Definition set__current_teacher_node (x : option node) (s : learner) : learner :=
  Mk_learner (s.(domain)) (s.(self_stamp)) (s.(teacher_uris)) (s.(_seed_nodes)) (s.(save_metadata)) (s.(_known_nodes)) (s.(done_seeding)) (s.(teacher_nodes)) x (s.(_learning_round)) (s.(_rounds_without_new_nodes)) (s.(task_running)) (s.(task_interval)) (s.(_crashed)) (s.(stop_now)) (s.(env)).
Definition set__learning_round (x : Z) (s : learner) : learner :=
  Mk_learner (s.(domain)) (s.(self_stamp)) (s.(teacher_uris)) (s.(_seed_nodes)) (s.(save_metadata)) (s.(_known_nodes)) (s.(done_seeding)) (s.(teacher_nodes)) (s.(_current_teacher_node)) x (s.(_rounds_without_new_nodes)) (s.(task_running)) (s.(task_interval)) (s.(_crashed)) (s.(stop_now)) (s.(env)).
Definition set__rounds_without_new_nodes (x : Z) (s : learner) : learner :=
  Mk_learner (s.(domain)) (s.(self_stamp)) (s.(teacher_uris)) (s.(_seed_nodes)) (s.(save_metadata)) (s.(_known_nodes)) (s.(done_seeding)) (s.(teacher_nodes)) (s.(_current_teacher_node)) (s.(_learning_round)) x (s.(task_running)) (s.(task_interval)) (s.(_crashed)) (s.(stop_now)) (s.(env)).
Definition set_task_running (x : bool) (s : learner) : learner :=
  Mk_learner (s.(domain)) (s.(self_stamp)) (s.(teacher_uris)) (s.(_seed_nodes)) (s.(save_metadata)) (s.(_known_nodes)) (s.(done_seeding)) (s.(teacher_nodes)) (s.(_current_teacher_node)) (s.(_learning_round)) (s.(_rounds_without_new_nodes)) x (s.(task_interval)) (s.(_crashed)) (s.(stop_now)) (s.(env)).
Definition set_task_interval (x : Z) (s : learner) : learner :=
  Mk_learner (s.(domain)) (s.(self_stamp)) (s.(teacher_uris)) (s.(_seed_nodes)) (s.(save_metadata)) (s.(_known_nodes)) (s.(done_seeding)) (s.(teacher_nodes)) (s.(_current_teacher_node)) (s.(_learning_round)) (s.(_rounds_without_new_nodes)) (s.(task_running)) x (s.(_crashed)) (s.(stop_now)) (s.(env)).
Definition set__crashed (x : bool) (s : learner) : learner :=
  Mk_learner (s.(domain)) (s.(self_stamp)) (s.(teacher_uris)) (s.(_seed_nodes)) (s.(save_metadata)) (s.(_known_nodes)) (s.(done_seeding)) (s.(teacher_nodes)) (s.(_current_teacher_node)) (s.(_learning_round)) (s.(_rounds_without_new_nodes)) (s.(task_running)) (s.(task_interval)) x (s.(stop_now)) (s.(env)).
Definition set_stop_now (x : bool) (s : learner) : learner :=
  Mk_learner (s.(domain)) (s.(self_stamp)) (s.(teacher_uris)) (s.(_seed_nodes)) (s.(save_metadata)) (s.(_known_nodes)) (s.(done_seeding)) (s.(teacher_nodes)) (s.(_current_teacher_node)) (s.(_learning_round)) (s.(_rounds_without_new_nodes)) (s.(task_running)) (s.(task_interval)) (s.(_crashed)) x (s.(env)).
Definition set_env (x : E) (s : learner) : learner :=
  Mk_learner (s.(domain)) (s.(self_stamp)) (s.(teacher_uris)) (s.(_seed_nodes)) (s.(save_metadata)) (s.(_known_nodes)) (s.(done_seeding)) (s.(teacher_nodes)) (s.(_current_teacher_node)) (s.(_learning_round)) (s.(_rounds_without_new_nodes)) (s.(task_running)) (s.(task_interval)) (s.(_crashed)) (s.(stop_now)) x.

Definition env_call {A} (m : PyM E A) : PyM learner A := fun l =>
  let '(r, e) := m l.(env) in (r, set_env e l).

(** The sensor's methods, called from the learner. *)
Definition known_record_node (n : node) : PyM learner unit :=
  modify (fun l => set__known_nodes
    (record_node FleetStateChecksum nickname_from_seed iter_nodes iter_addresses
       (clock l.(env)) (own_metadata l.(env)) n l.(_known_nodes)) l).

Definition known_record_fleet_state (skip_this_node : bool) : PyM learner unit :=
  modify (fun l => set__known_nodes
    (record_fleet_state FleetStateChecksum nickname_from_seed iter_nodes iter_addresses
       (clock l.(env)) (own_metadata l.(env)) skip_this_node l.(_known_nodes)).2 l).

Definition known_mark_as (n : node) : PyM learner unit :=
  modify (fun l => set__known_nodes (mark_as n l.(_known_nodes)) l).

Definition known_record_remote (address : string) (timestamp : Z) (population : learner -> nat)
    : PyM learner unit := fun l =>
  let '(r, f) := record_remote_fleet_state nickname_from_seed (clock l.(env)) address
                   l.(_known_nodes).(_current_state).(checksum) timestamp (population l)
                   l.(_known_nodes) in
  (r, set__known_nodes f l).

Definition known_get (l : learner) (a : string) : option node :=
  dict_get l.(_known_nodes).(_current_state).(_nodes) a.

(** *** Remembering a node *)

(** The eager part of [remember_node]: [false] for [return False]. *)
Definition verify_eagerly (n : node) (force_verification_recheck : bool) : PyM learner bool :=
  env_call (mature_and_store_certificate n) ;;;
  try_except (env_call (verify_stranger n force_verification_recheck) ;;; py_ret true)
    [RequestsSSLError; Unreachable; NotStaking] (fun _ => py_ret false).

(** [remember_node]: [None] for [return False]. *)
Definition remember_node (n : node) (force_verification_recheck record_fleet_state eager : bool)
    : PyM learner (option node) :=
  l <- gets id ;;
  if decide (n.(stamp) = l.(self_stamp)) then py_ret None
  else if match known_get l n.(checksum_address) with
          | Some already_known_node => negb (already_known_node.(node_timestamp) <? n.(node_timestamp))%Z
          | None => false
          end then py_ret None
  else
    known_record_node n ;;;
    (if l.(save_metadata) then env_call (store_node_metadata n) else py_ret tt) ;;;
    good <- (if eager then verify_eagerly n force_verification_recheck else py_ret true) ;;
    if negb good then py_ret None
    else
      (if record_fleet_state : bool then known_record_fleet_state false else py_ret tt) ;;;
      py_ret (Some n).

(** The loop of [read_nodes_from_storage]: nodes of other domains are skipped. *)
Fixpoint restore_nodes (nodes : list node) : PyM learner (list (option node)) :=
  match nodes with
  | [] => py_ret []
  | n :: nodes' =>
      dom <- gets domain ;;
      if decide (n.(Perception.domain) <> dom) then restore_nodes nodes'
      else
        restored_node <- remember_node n false false false ;;
        rest <- restore_nodes nodes' ;;
        py_ret (restored_node :: rest)
  end.

Definition read_nodes_from_storage : PyM learner (list (option node)) :=
  nodes <- env_call stored_nodes ;;
  restore_nodes nodes.

(** *** Seeding *)

(** One of the two loops of [load_seednodes]: a node that cannot be
    instantiated is skipped, another is remembered. *)
Fixpoint seed_from (instantiate : string -> PyM E node) (seeds : list string)
    : PyM learner (list (option node)) :=
  match seeds with
  | [] => py_ret []
  | s :: seeds' =>
      found <- try_except (n <- env_call (instantiate s) ;; py_ret (Some n)) [Exception]
                 (fun _ => py_ret None) ;;
      match found with
      | None => seed_from instantiate seeds'
      | Some n =>
          new_node <- remember_node n false false false ;;
          rest <- seed_from instantiate seeds' ;;
          py_ret (new_node :: rest)
      end
  end.

Definition load_seednodes (read_storage record_fleet_state : bool) : PyM learner (list (option node)) :=
  l <- gets id ;;
  if l.(done_seeding) then raise RuntimeError
  else
    sages <- (if decide (l.(domain) = EmptyString) then py_ret []
              else seed_from from_teacher_uri l.(teacher_uris)) ;;
    seeds <- seed_from from_seednode_metadata l.(_seed_nodes) ;;
    modify (set_done_seeding true) ;;;
    restored <- (if read_storage then read_nodes_from_storage else py_ret []) ;;
    let discovered := sages ++ seeds ++ restored in
    (if negb (bool_decide (discovered = [])) && record_fleet_state
     then known_record_fleet_state false else py_ret tt) ;;;
    py_ret discovered.

(** *** Teachers, in turn *)

Definition select_teacher_nodes : PyM learner unit :=
  l <- gets id ;;
  nodes_we_know_about <- env_call (shuffle_nodes l.(_known_nodes).(_current_state).(_nodes).*2) ;;
  if decide (nodes_we_know_about = []) then raise NotEnoughTeachers
  else modify (fun l => set_teacher_nodes (l.(teacher_nodes) ++ nodes_we_know_about) l).

(** [deque.pop()] takes from the right. *)
Definition cycle_teacher_node : PyM learner unit :=
  l <- gets id ;;
  (if decide (l.(teacher_nodes) = []) then select_teacher_nodes else py_ret tt) ;;;
  l <- gets id ;;
  match last l.(teacher_nodes) with
  | None => raise NotEnoughTeachers
  | Some t => modify (fun l => set__current_teacher_node (Some t)
                (set_teacher_nodes (removelast l.(teacher_nodes)) l))
  end.

Definition current_teacher_node (cycle : bool) : PyM learner (option node) :=
  (if cycle then cycle_teacher_node else py_ret tt) ;;;
  l <- gets id ;;
  (match l.(_current_teacher_node) with None => cycle_teacher_node | Some _ => py_ret tt end) ;;;
  gets _current_teacher_node.

(** *** A round of learning *)

Inductive learned :=
  | Relax
  | Nothing
  | FleetStatesMatch
  | Sprouts (sprouts : list node).

(** The handlers of the loop over the sprouts.  The classes are looked up on
    the sprout, which has them only once it has matured; the handler of
    [NotStaking] reads [self.staking_agent], which no learner has. *)
Definition sprout_failure (sprout : node) (e : exn_class) : PyM learner (option node) :=
  l <- gets id ;;
  if catches NodeSeemsToBeDown e then py_ret None
  else if negb (is_mature sprout l.(env)) then raise AttributeError
  else if catches [StampNotSigned] e then py_ret None
  else if catches [NotStaking] e then raise AttributeError
  else if catches [InvalidOperatorSignature; UnbondedOperator; SuspiciousActivity] e then py_ret None
  else raise e.

Fixpoint remember_sprouts (eager : bool) (sprouts : list node) : PyM learner (list node) :=
  match sprouts with
  | [] => py_ret []
  | sprout :: sprouts' =>
      node_or_false <- try_except (remember_node sprout false false eager) [BaseException]
                         (sprout_failure sprout) ;;
      rest <- remember_sprouts eager sprouts' ;;
      py_ret (match node_or_false with Some n => n :: rest | None => rest end)
  end.

(** The request with its handlers: an early return, or the response.  The
    handlers use methods and classes of the teacher that a node has only once
    it has matured. *)
Definition request_nodes (teacher : node) (use_canceller : bool) : PyM learner (learned + Z * Bytes) :=
  try_except
    (l <- gets id ;;
     response <- env_call (get_nodes_via_rest teacher l.(_known_nodes).(_current_state).(checksum)) ;;
     py_ret (inr response))
    [BaseException]
    (fun e =>
       l <- gets id ;;
       if negb (is_mature teacher l.(env)) then raise AttributeError
       else if catches NodeSeemsToBeDown e then py_ret (inl Nothing)
       else if catches [InvalidNode] e then known_mark_as teacher ;;; py_ret (inl Nothing)
       else if catches [RuntimeError] e then
         if use_canceller && l.(stop_now) then py_ret (inl Relax) else raise e
       else raise e).

(** What is done with a response of status 200 from our domain. *)
Definition process_response (teacher : node) (eager : bool) (remembered : list (option node))
    (content : Bytes) : PyM learner learned :=
  match response_from_bytes content with
  | Raise e => if catches [Exception] e then py_ret Nothing else raise e
  | Ok metadata =>
      match response_verify metadata teacher with
      | Raise e => if catches [Exception] e then py_ret Nothing else raise e
      | Ok (fleet_state_updated, []) =>
          known_record_remote teacher.(checksum_address) fleet_state_updated
            (fun l => population l.(_known_nodes).(_current_state)) ;;;
          py_ret FleetStatesMatch
      | Ok (fleet_state_updated, sprouts) =>
          new_nodes <- remember_sprouts eager sprouts ;;
          (if decide (remembered = [] /\ new_nodes = []) then py_ret tt
           else known_record_fleet_state false) ;;;
          known_record_remote teacher.(checksum_address) fleet_state_updated
            (fun _ => length sprouts) ;;;
          py_ret (Sprouts sprouts)
      end
  end.

Definition learn_from_teacher_node (eager use_canceller : bool) : PyM learner learned :=
  l <- gets id ;;
  remembered <- (if l.(done_seeding) then py_ret [] else load_seednodes true true) ;;
  modify (fun l => set__learning_round (l.(_learning_round) + 1) l) ;;;
  current_teacher <- current_teacher_node false ;;
  match current_teacher with
  | None => raise NotEnoughTeachers
  | Some teacher =>
      l <- gets id ;;
      if use_canceller && l.(stop_now) then py_ret Relax
      else
        answer <- try_finally (request_nodes teacher use_canceller) cycle_teacher_node ;;
        match answer with
        | inl early => py_ret early
        | inr (status_code, content) =>
            if negb (status_code =? 200)%Z then py_ret Nothing
            else
              l <- gets id ;;
              if decide (l.(domain) <> teacher.(Perception.domain)) then py_ret Nothing
              else process_response teacher eager remembered content
        end
  end.

(** [_adjust_learning]. *)
Definition _adjust_learning (found_nodes : bool) (l : learner) : learner :=
  if found_nodes then set_task_interval _SHORT_LEARNING_DELAY (set__rounds_without_new_nodes 0 l)
  else
    let l := set__rounds_without_new_nodes (l.(_rounds_without_new_nodes) + 1) l in
    if (_ROUNDS_WITHOUT_NODES_AFTER_WHICH_TO_SLOW_DOWN <? l.(_rounds_without_new_nodes))%Z
    then set_task_interval _LONG_LEARNING_DELAY l else l.

(** *** Waiting *)

(** [(maya.now() - start).seconds]: whole seconds, without the days. *)
Definition elapsed_seconds (start : Z) (l : learner) : Z :=
  ((clock l.(env) - start) / 1000) mod 86400.

Definition known_count (l : learner) : Z := Z.of_nat (length l.(_known_nodes).(_current_state).(_nodes)).

Definition sleep_a_little : PyM learner unit :=
  modify (fun l => set_env (sleep 100 l.(env)) l).

Definition learn_if_asked (learn_on_this_thread eager : bool) : PyM learner unit :=
  if learn_on_this_thread
  then try_except (learn_from_teacher_node eager false ;;; py_ret tt)
         [RequestsReadTimeout; RequestsConnectTimeout] (fun _ => py_ret tt)
  else py_ret tt.

Definition learn_or_check_loop (learn_on_this_thread running : bool) : PyM learner unit :=
  if learn_on_this_thread then learn_from_teacher_node true false ;;; py_ret tt
  else if negb running then raise RuntimeError else py_ret tt.

(** [block_until_number_of_known_nodes_is]: the body of the loop, [Some] when
    it returns.  [reactor_running] is the reactor's. *)
Definition block_number_body (number timeout start : Z) (learn_on_this_thread eager reactor_running : bool)
    : PyM learner (option bool) :=
  l <- gets id ;;
  if (number <=? known_count l)%Z then py_ret (Some true)
  else
    learn_if_asked learn_on_this_thread eager ;;;
    l <- gets id ;;
    if (timeout <? elapsed_seconds start l)%Z then
      if (number <=? known_count l)%Z then py_ret (Some true)
      else if negb l.(task_running) then raise RuntimeError
      else if negb reactor_running && negb learn_on_this_thread then raise RuntimeError
      else raise NotEnoughNodes
    else sleep_a_little ;;; py_ret None.

(** [block_until_specific_nodes_are_known]: [Some false] when some nodes are
    still missing but few enough; a crash of the learner is returned. *)
Definition block_specific_body (addresses : list string) (timeout allow_missing start : Z)
    (learn_on_this_thread : bool) : PyM learner (option bool) :=
  l <- gets id ;;
  if l.(_crashed) then py_ret (Some true)
  else if forallb (fun a => dict_mem l.(_known_nodes).(_current_state).(_nodes) a) addresses
  then py_ret (Some true)
  else
    learn_or_check_loop learn_on_this_thread l.(task_running) ;;;
    l <- gets id ;;
    if (timeout <? elapsed_seconds start l)%Z then
      let still_unknown :=
        filter (fun a => dict_mem l.(_known_nodes).(_current_state).(_nodes) a = false) addresses in
      if (Z.of_nat (length still_unknown) <=? allow_missing)%Z then py_ret (Some false)
      else raise NotEnoughTeachers
    else sleep_a_little ;;; py_ret None.

(** [while True: body], [None] when the fuel runs out. *)
Fixpoint while_true (fuel : nat) (body : PyM learner (option bool)) (l : learner)
    : option (result bool * learner) :=
  match fuel with
  | 0 => None
  | S fuel' =>
      match body l with
      | (Ok None, l') => while_true fuel' body l'
      | (Ok (Some b), l') => Some (Ok b, l')
      | (Raise e, l') => Some (Raise e, l')
      end
  end.

Definition block_until_number_of_known_nodes_is (fuel : nat) (number timeout : Z)
    (learn_on_this_thread eager reactor_running : bool) (l : learner) : option (result bool * learner) :=
  while_true fuel
    (block_number_body number timeout (clock l.(env)) learn_on_this_thread eager reactor_running) l.

Definition block_until_specific_nodes_are_known (fuel : nat) (addresses : list string)
    (timeout allow_missing : Z) (learn_on_this_thread : bool) (l : learner) : option (result bool * learner) :=
  while_true fuel
    (block_specific_body (remove_dups addresses) timeout allow_missing (clock l.(env)) learn_on_this_thread) l.

(** *** Teachers take turns *)

Hypothesis shuffle_permutes : forall l e r e',
  shuffle_nodes l e = (r, e') -> exists l', r = Ok l' /\ Permutation l' l.

(** [n] calls of [cycle_teacher_node], with the teachers they choose. *)
Fixpoint cycle_times (n : nat) : PyM learner (list (option node)) :=
  match n with
  | 0 => py_ret []
  | S n' => cycle_teacher_node ;;; t <- gets _current_teacher_node ;;
            ts <- cycle_times n' ;; py_ret (t :: ts)
  end.

Lemma cycle_queue l q t :
  l.(teacher_nodes) = q ++ [t] ->
  exists l', cycle_teacher_node l = (Ok tt, l') /\ l'.(teacher_nodes) = q /\
    l'.(_current_teacher_node) = Some t /\ l'.(_known_nodes) = l.(_known_nodes).
Proof.
  intros Hq. unfold cycle_teacher_node, py_bind, gets, modify, py_ret. simpl.
  rewrite decide_False by (rewrite Hq; by destruct q). simpl. rewrite Hq, last_snoc.
  eexists. split; [done|]. simpl. rewrite Hq, removelast_last. done.
Qed.

Lemma cycle_times_queue q l :
  l.(teacher_nodes) = q ->
  exists l', cycle_times (length q) l = (Ok (Some <$> reverse q), l') /\ l'.(teacher_nodes) = [] /\
    l'.(_known_nodes) = l.(_known_nodes).
Proof.
  revert l. induction q as [|t q IH] using rev_ind; intros l Hq; [by exists l|].
  rewrite length_app, Nat.add_1_r. simpl. unfold py_bind, gets, py_ret.
  destruct (cycle_queue l q t Hq) as (l1 & H1 & Hq1 & Ht1 & Hk1). rewrite H1, Ht1.
  destruct (IH l1 Hq1) as (l2 & H2 & Hq2 & Hk2). rewrite H2.
  exists l2. rewrite reverse_snoc. split_and!; [done|done|congruence].
Qed.

(** Every known node gets its turn as a teacher: from an empty queue,
    as many calls of [cycle_teacher_node] as there are known nodes choose
    each of them exactly once, in a random order; with no known node the
    call raises [NotEnoughTeachers]. *)
Theorem teachers_take_turns l :
  l.(teacher_nodes) = [] ->
  let known := l.(_known_nodes).(_current_state).(_nodes).*2 in
  (known = [] -> (cycle_teacher_node l).1 = Raise NotEnoughTeachers) /\
  exists order l', cycle_times (length known) l = (Ok (Some <$> order), l') /\
    Permutation order known /\ l'.(_known_nodes) = l.(_known_nodes).
Proof.
  intros Hq known.
  assert (exists ns e, shuffle_nodes known l.(env) = (Ok ns, e) /\ Permutation ns known) as (ns & e & Hsh & Hp).
  { destruct (shuffle_nodes known (env l)) as [r e] eqn:Hs.
    destruct (shuffle_permutes _ _ _ _ Hs) as (ns & -> & Hp). eauto. }
  split.
  - intros Hk. rewrite Hk in Hp. apply Permutation_nil_r in Hp as ->.
    unfold cycle_teacher_node, select_teacher_nodes, env_call, py_bind, gets. simpl.
    rewrite decide_True by done. fold known. by rewrite Hsh.
  - destruct known as [|k ks] eqn:Hk; [by exists [], l|].
    set (l1 := set_teacher_nodes (l.(teacher_nodes) ++ ns) (set_env e l)).
    assert (ns <> []) as Hne by (intros ->; by apply Permutation_nil_l in Hp).
    assert (cycle_teacher_node l = cycle_teacher_node l1) as Hfirst.
    { unfold cycle_teacher_node, select_teacher_nodes, env_call, py_bind, gets, modify, py_ret. simpl.
      rewrite decide_True by done. fold known. rewrite Hk, Hsh. rewrite (decide_False (P:=ns = [])) by done.
      rewrite decide_False; [done|]. simpl. rewrite Hq. done. }
    destruct (cycle_times_queue ns l1) as (l' & Hc & _ & Hkn); [by simpl; rewrite Hq|].
    apply Permutation_length in Hp as Hlen. exists (reverse ns), l'. split_and!.
    + rewrite <-Hlen. rewrite <-Hc. destruct (length ns) as [|n] eqn:Hn; [by simpl in Hlen|].
      simpl. unfold py_bind. by rewrite Hfirst.
    + rewrite reverse_Permutation. done.
    + done.
Qed.

(** *** The invariant of a learner *)

(** Nodes waiting to be recorded are newer than those they would replace. *)
Definition learner_ok (l : learner) : Prop :=
  sensor_ok FleetStateChecksum l.(_known_nodes) /\
  forall n old, n ∈ l.(_known_nodes).(_nodes_to_add) ->
    known_get l n.(checksum_address) = Some old -> (old.(node_timestamp) < n.(node_timestamp))%Z.

Hypothesis iter_nodes_elements : forall l n, n ∈ iter_nodes l <-> n ∈ l.

Lemma learner_ok_env_call {A} (m : PyM E A) : preserves learner_ok (env_call m).
Proof. intros l Hl. unfold env_call. by destruct (m l.(env)). Qed.

Lemma learner_ok_record_fleet_state skip : preserves learner_ok (known_record_fleet_state skip).
Proof.
  intros l [Hs _]. split.
  - by apply record_fleet_state_ok.
  - simpl. unfold record_fleet_state. destruct (with_updated_nodes _ _ _ _ _ _ _ _) as [st diff]. simpl.
    intros n old Hin. inversion Hin.
Qed.

Lemma learner_ok_mark_as n : preserves learner_ok (known_mark_as n).
Proof. intros l [Hs Hp]. split; [by destruct Hs|exact Hp]. Qed.

Lemma learner_ok_record_remote a t p : preserves learner_ok (known_record_remote a t p).
Proof.
  intros l [Hs Hp]. unfold known_record_remote.
  pose proof (run_op_ok FleetStateChecksum nickname_from_seed iter_nodes iter_addresses iter_nodes_elements
    (RecordRemote (clock l.(env)) a l.(_known_nodes).(_current_state).(checksum) t (p l))
    l.(_known_nodes) Hs) as Hok. simpl in Hok.
  unfold record_remote_fleet_state in *. by destruct (negb _).
Qed.

Lemma learner_ok_record_node n l :
  learner_ok l ->
  (forall old, known_get l n.(checksum_address) = Some old -> (old.(node_timestamp) < n.(node_timestamp))%Z) ->
  learner_ok (known_record_node n l).2.
Proof.
  intros [Hs Hp] Hn. split.
  - by apply (run_op_ok FleetStateChecksum nickname_from_seed iter_nodes iter_addresses iter_nodes_elements
      (RecordNode (clock l.(env)) (own_metadata l.(env)) n)).
  - simpl. unfold record_node. case_decide; [|exact Hp].
    destruct (_auto_update_state _).
    + unfold record_fleet_state. destruct (with_updated_nodes _ _ _ _ _ _ _ _) as [st diff]. simpl.
      intros m old Hin. inversion Hin.
    + simpl. intros m old Hin Hg. unfold replace_node in Hin.
      apply elem_of_app in Hin as [[_ Hin]%list_elem_of_filter| ->%list_elem_of_singleton];
        [by eapply Hp|by apply Hn].
Qed.

Ltac preserve := preserve_with ltac:(first
  [ apply learner_ok_env_call | apply learner_ok_record_fleet_state
  | apply learner_ok_mark_as | apply learner_ok_record_remote ]).

Lemma learner_ok_remember_node n force record eager : preserves learner_ok (remember_node n force record eager).
Proof.
  assert (forall good : bool, preserves learner_ok
    (if negb good then py_ret None
     else (if record : bool then known_record_fleet_state false else py_ret tt) ;;; py_ret (Some n))) as Hlast
    by (intros; preserve).
  intros l Hl. unfold remember_node, py_bind at 1, gets. cbn [id].
  case_decide; [done|].
  destruct (match known_get l _ with Some _ => _ | None => false end) eqn:Hold; [done|].
  assert (forall (k : unit -> PyM learner (option node)), (forall u, preserves learner_ok (k u)) ->
    learner_ok (py_bind (known_record_node n) k l).2) as Hbind.
  { intros k Hk. unfold py_bind. apply (Hk tt). apply learner_ok_record_node; [done|].
    intros old Hg. rewrite Hg in Hold. apply negb_false_iff, Z.ltb_lt in Hold. done. }
  apply Hbind. intros u. unfold verify_eagerly. preserve.
Qed.

Lemma learner_ok_restore nodes : preserves learner_ok (restore_nodes nodes).
Proof.
  pose proof learner_ok_remember_node as Hr.
  induction nodes as [|n nodes IH]; simpl; preserve. by apply Hr.
Qed.

Lemma learner_ok_seed instantiate seeds : preserves learner_ok (seed_from instantiate seeds).
Proof.
  induction seeds as [|s' seeds IH]; simpl; preserve. apply learner_ok_remember_node.
Qed.

Lemma learner_ok_load read record : preserves learner_ok (load_seednodes read record).
Proof.
  unfold load_seednodes, read_nodes_from_storage. preserve; try apply learner_ok_seed; try apply learner_ok_restore.
  apply preserves_modify. intros l Hl. exact Hl.
Qed.

Lemma learner_ok_cycle : preserves learner_ok cycle_teacher_node.
Proof.
  unfold cycle_teacher_node, select_teacher_nodes. preserve; apply preserves_modify; intros l' Hl; exact Hl.
Qed.

Lemma learner_ok_sprouts eager sprouts : preserves learner_ok (remember_sprouts eager sprouts).
Proof.
  induction sprouts as [|n sprouts IH]; simpl; preserve; [apply learner_ok_remember_node|].
  unfold sprout_failure. preserve.
Qed.

Lemma learner_ok_learn eager use_canceller : preserves learner_ok (learn_from_teacher_node eager use_canceller).
Proof.
  unfold learn_from_teacher_node, current_teacher_node, request_nodes, process_response.
  preserve; try apply learner_ok_load; try apply learner_ok_cycle; try apply learner_ok_sprouts.
  apply preserves_modify. intros l' Hl. exact Hl.
Qed.

(** C12.  Learning never breaks what is known, and never goes back in time:
    whatever the teachers and the network answer and whichever exception is
    raised, [remember_node], [load_seednodes] and [learn_from_teacher_node]
    keep the sensor's invariant and the nodes that wait to be recorded newer
    than the known ones; and recording the fleet state of such a learner
    replaces a known node only by one with a later timestamp. *)
Theorem learning_preserves_invariant :
  (forall n force record eager, preserves learner_ok (remember_node n force record eager)) /\
  (forall read record, preserves learner_ok (load_seednodes read record)) /\
  (forall eager use_canceller, preserves learner_ok (learn_from_teacher_node eager use_canceller)) /\
  (forall skip l a old new, learner_ok l -> known_get l a = Some old ->
     known_get (known_record_fleet_state skip l).2 a = Some new ->
     new = old \/ (old.(node_timestamp) < new.(node_timestamp))%Z).
Proof.
  split_and!.
  - intros. apply learner_ok_remember_node.
  - intros. apply learner_ok_load.
  - intros. apply learner_ok_learn.
  - intros skip l a old new [Hs Hp] Hold Hnew. unfold known_get in *. simpl in Hnew.
    unfold record_fleet_state in Hnew.
    pose proof (with_updated_nodes_ok FleetStateChecksum nickname_from_seed (clock l.(env))
      (own_metadata l.(env)) l.(_known_nodes).(_current_state) (iter_nodes l.(_known_nodes).(_nodes_to_add))
      (iter_addresses l.(_known_nodes).(_nodes_to_remove)) skip (so_wf _ _ Hs)) as H.
    destruct (with_updated_nodes _ _ _ _ _ _ _ _) as [st diff]. destruct H as (_ & Hel & _ & _).
    simpl in Hnew. apply dict_get_elem_of, Hel in Hnew as [Hin|[Hin Ha]].
    + left. apply dict_elem_of_get in Hin; [congruence|apply Hs].
    + right. apply Hp; [by apply iter_nodes_elements|]. unfold known_get. by rewrite Ha.
Qed.

(** *** Waiting ends *)

(** What the two bodies guarantee when they return. *)
Lemma block_number_returns number timeout start on_thread eager reactor l b l' :
  block_number_body number timeout start on_thread eager reactor l = (Ok (Some b), l') ->
  b = true /\ (number <= known_count l')%Z.
Proof.
  unfold block_number_body, py_bind, gets, py_ret, sleep_a_little, modify, raise. simpl.
  destruct (Z.leb_spec number (known_count l)); [intros; by simplify_eq|].
  destruct (learn_if_asked on_thread eager l) as [r1 l1] eqn:H1. destruct r1 as [[]|e]; [|done]. simpl.
  destruct (timeout <? elapsed_seconds start l1)%Z; [|done].
  destruct (Z.leb_spec number (known_count l1)); [intros; by simplify_eq|].
  by repeat case_match.
Qed.

Definition missing (addresses : list string) (l : learner) : list string :=
  filter (fun a => dict_mem l.(_known_nodes).(_current_state).(_nodes) a = false) addresses.

Lemma block_specific_returns addresses timeout allow start on_thread l b l' :
  block_specific_body addresses timeout allow start on_thread l = (Ok (Some b), l') ->
  l'.(_crashed) = true \/ (b = true /\ missing addresses l' = []) \/
  (b = false /\ (Z.of_nat (length (missing addresses l')) <= allow)%Z).
Proof.
  unfold block_specific_body, py_bind, gets, py_ret, sleep_a_little, modify, raise. simpl.
  destruct (_crashed l) eqn:Hc; [intros; simplify_eq; by left|].
  destruct (forallb _ addresses) eqn:Hall.
  { intros [= <- <-]. right. left. split; [done|].
    unfold missing. destruct (filter _ addresses) as [|a l0] eqn:Hf; [done|]. exfalso.
    assert (a ∈ a :: l0) as Ha by left. rewrite <-Hf in Ha. apply list_elem_of_filter in Ha as [Hm Hin].
    rewrite forallb_forall in Hall. specialize (Hall a). rewrite Hm in Hall.
    discriminate Hall. by apply list_elem_of_In. }
  destruct (learn_or_check_loop on_thread (task_running l) l) as [r1 l1] eqn:H1. destruct r1 as [[]|e]; [|done]. simpl.
  destruct (timeout <? elapsed_seconds start l1)%Z; [|done]. fold (missing addresses l1).
  destruct (Z.leb_spec (Z.of_nat (length (missing addresses l1))) allow); [|done].
  intros [= <- <-]. right. right. done.
Qed.

Lemma while_true_inv fuel body l b l' :
  while_true fuel body l = Some (Ok b, l') -> exists l0, body l0 = (Ok (Some b), l').
Proof.
  revert l. induction fuel as [|fuel IH]; intros l; simpl; [done|].
  destruct (body l) as [[[b'|]|e] l1] eqn:Hb; [intros; simplify_eq; eauto|apply IH|done].
Qed.

(** A loop that takes at least 100 ms per round and stops after [T] ends. *)
Lemma while_true_total (T D : Z) body start fuel l :
  let phi l := (clock l.(env) - start)%Z in
  (forall l l', (0 <= phi l < T + D)%Z -> body l = (Ok None, l') ->
     (phi l + 100 <= phi l' < T + D)%Z /\ (phi l < T)%Z) ->
  (0 <= phi l < T + D)%Z -> 1 <= fuel -> (T <= phi l + 100 * (Z.of_nat fuel - 1))%Z ->
  is_Some (while_true fuel body l).
Proof.
  intros phi Hbody. revert l. induction fuel as [|fuel IH]; intros l Hl Hf HT; [lia|]. simpl.
  destruct (body l) as [[[b|]|e] l1] eqn:Hb; [by eexists| |by eexists].
  destruct (Hbody l l1 Hl Hb) as [H1 H2]. apply IH; lia.
Qed.

(** *** What a round of learning can do to the outside world *)

Section Outside.
Variable P : E -> Prop.
Hypothesis P_teacher : forall u e, P e -> P (from_teacher_uri u e).2.
Hypothesis P_seed : forall u e, P e -> P (from_seednode_metadata u e).2.
Hypothesis P_stored : forall e, P e -> P (stored_nodes e).2.
Hypothesis P_store : forall n e, P e -> P (store_node_metadata n e).2.
Hypothesis P_mature : forall n e, P e -> P (mature_and_store_certificate n e).2.
Hypothesis P_verify : forall n b e, P e -> P (verify_stranger n b e).2.
Hypothesis P_shuffle : forall l e, P e -> P (shuffle_nodes l e).2.
Hypothesis P_nodes : forall n c e, P e -> P (get_nodes_via_rest n c e).2.

Definition outside (l : learner) : Prop := P l.(env).

Lemma outside_env_call {A} (m : PyM E A) : (forall e, P e -> P (m e).2) -> preserves outside (env_call m).
Proof. intros Hm l Hl. unfold env_call. specialize (Hm l.(env) Hl). by destruct (m l.(env)). Qed.

Lemma outside_modify f : (forall l, (f l).(env) = l.(env)) -> preserves outside (modify f).
Proof. intros Hf l Hl. unfold outside, modify. simpl. by rewrite Hf. Qed.

Lemma outside_remote a t p : preserves outside (known_record_remote a t p).
Proof. intros l Hl. unfold known_record_remote. by destruct (record_remote_fleet_state _ _ _ _ _ _ _). Qed.

Ltac preserve_outside := preserve_with ltac:(first
  [ apply outside_env_call; solve [auto] | apply outside_remote
  | apply outside_modify; reflexivity ]).

Lemma outside_remember n force record eager : preserves outside (remember_node n force record eager).
Proof. unfold remember_node, verify_eagerly, known_record_node, known_record_fleet_state. preserve_outside. Qed.

Lemma outside_seed instantiate seeds :
  (forall u e, P e -> P (instantiate u e).2) -> preserves outside (seed_from instantiate seeds).
Proof.
  intros Hi. induction seeds as [|s' seeds IH]; simpl; preserve_outside. apply outside_remember.
Qed.

Lemma outside_restore nodes : preserves outside (restore_nodes nodes).
Proof. induction nodes as [|n nodes IH]; simpl; preserve_outside. apply outside_remember. Qed.

Lemma outside_learn eager use_canceller : preserves outside (learn_from_teacher_node eager use_canceller).
Proof.
  assert (forall sprouts, preserves outside (remember_sprouts eager sprouts)) as Hsp.
  { induction sprouts as [|n sprouts IH]; simpl; preserve_outside; [apply outside_remember|].
    unfold sprout_failure. preserve_outside. }
  assert (preserves outside cycle_teacher_node) as Hcy.
  { unfold cycle_teacher_node, select_teacher_nodes. preserve_outside. }
  unfold learn_from_teacher_node, load_seednodes, read_nodes_from_storage, current_teacher_node,
    request_nodes, process_response, known_record_fleet_state, known_mark_as.
  preserve_outside; try apply outside_restore; try (apply outside_seed; auto); try apply Hsp.
Qed.

End Outside.

Section Time.
(** Time passes: a pause of 100 ms takes at least that long, and neither it
    nor a round of learning takes more than [D] ms or turns the clock back. *)
Variable D : Z.
Hypothesis sleep_time : forall e, (clock e + 100 <= clock (sleep 100 e) <= clock e + D)%Z.
Hypothesis learn_time : forall eager canceller l,
  (clock l.(env) <= clock (learn_from_teacher_node eager canceller l).2.(env) <= clock l.(env) + D)%Z.

Lemma elapsed_spec timeout start l :
  (0 <= timeout)%Z -> (0 <= clock l.(env) - start < 86400000)%Z ->
  (timeout <? elapsed_seconds start l)%Z = false -> (clock l.(env) - start < (timeout + 1) * 1000)%Z.
Proof.
  intros Ht Hc. unfold elapsed_seconds. rewrite Z.mod_small.
  - intros Hlt%Z.ltb_ge. pose proof (Z.mul_succ_div_gt (clock l.(env) - start) 1000). lia.
  - split; [apply Z.div_pos; lia|]. apply Z.div_lt_upper_bound; lia.
Qed.

Lemma D_pos (l : learner) : (100 <= D)%Z.
Proof. pose proof (sleep_time l.(env)). lia. Qed.

Lemma pause_time (T start : Z) (l l1 : learner) :
  (0 <= clock l.(env) - start)%Z -> (clock l.(env) <= clock l1.(env))%Z ->
  (clock l1.(env) - start < T)%Z ->
  (clock l.(env) - start + 100 <= clock (sleep_a_little l1).2.(env) - start < T + D)%Z /\
  (clock l.(env) - start < T)%Z.
Proof. intros. simpl. pose proof (sleep_time l1.(env)). lia. Qed.

Lemma block_number_time number timeout start on_thread eager reactor l l' :
  (0 <= timeout)%Z -> ((timeout + 1) * 1000 + 2 * D < 86400000)%Z ->
  (0 <= clock l.(env) - start < (timeout + 1) * 1000 + D)%Z ->
  block_number_body number timeout start on_thread eager reactor l = (Ok None, l') ->
  (clock l.(env) - start + 100 <= clock l'.(env) - start < (timeout + 1) * 1000 + D)%Z /\
  (clock l.(env) - start < (timeout + 1) * 1000)%Z.
Proof.
  intros Ht Hd Hl. pose proof (D_pos l) as HD.
  unfold block_number_body, py_bind, gets, py_ret, raise. simpl.
  destruct (number <=? known_count l)%Z; [done|].
  destruct (learn_if_asked on_thread eager l) as [r1 l1] eqn:H1.
  assert (clock l.(env) <= clock l1.(env) <= clock l.(env) + D)%Z as Hc.
  { unfold learn_if_asked, py_bind, py_ret in H1.
    destruct on_thread; [|simplify_eq; lia]. pose proof (learn_time eager false l) as Hlt.
    unfold try_except in H1. destruct (learn_from_teacher_node eager false l) as [[a|e] l2];
      simpl in Hlt; [|destruct (catches _ e)]; by simplify_eq. }
  destruct r1 as [[]|e]; [|done]. simpl.
  destruct (timeout <? elapsed_seconds start l1)%Z eqn:He; [by repeat case_match|].
  apply elapsed_spec in He; [|done|lia]. intros [= <-]. apply (pause_time _ _ l l1); lia.
Qed.

Lemma block_specific_time addresses timeout allow start on_thread l l' :
  (0 <= timeout)%Z -> ((timeout + 1) * 1000 + 2 * D < 86400000)%Z ->
  (0 <= clock l.(env) - start < (timeout + 1) * 1000 + D)%Z ->
  block_specific_body addresses timeout allow start on_thread l = (Ok None, l') ->
  (clock l.(env) - start + 100 <= clock l'.(env) - start < (timeout + 1) * 1000 + D)%Z /\
  (clock l.(env) - start < (timeout + 1) * 1000)%Z.
Proof.
  intros Ht Hd Hl. pose proof (D_pos l) as HD.
  unfold block_specific_body, py_bind, gets, py_ret, raise. simpl.
  destruct (_crashed l); [done|]. destruct (forallb _ _); [done|].
  destruct (learn_or_check_loop on_thread (task_running l) l) as [r1 l1] eqn:H1.
  assert (clock l.(env) <= clock l1.(env) <= clock l.(env) + D)%Z as Hc.
  { unfold learn_or_check_loop, py_bind, py_ret, raise in H1.
    destruct on_thread; [|destruct (negb (task_running l)); simplify_eq; lia].
    pose proof (learn_time true false l) as Hlt.
    destruct (learn_from_teacher_node true false l) as [[a|e] l2]; by simplify_eq. }
  destruct r1 as [[]|e]; [|done]. simpl.
  destruct (timeout <? elapsed_seconds start l1)%Z eqn:He; [by repeat case_match|].
  apply elapsed_spec in He; [|done|lia]. intros [= <-]. apply (pause_time _ _ l l1); lia.
Qed.

(** Waiting for nodes ends and tells the truth: if time passes and a
    round of learning is short of a day, both blocking calls come to an end
    within ten rounds per second of their timeout; [True] from the first
    means that the number of nodes asked for is known; a return of the second
    means that all the addresses are known ([True]), that at most
    [allow_missing] are not ([False]), or that the learner has crashed. *)
Theorem blocking_calls_end number addresses timeout allow on_thread eager reactor l :
  (0 <= timeout)%Z -> ((timeout + 1) * 1000 + 2 * D < 86400000)%Z ->
  let fuel := S (Z.to_nat (10 * (timeout + 1))) in
  (exists r l', block_until_number_of_known_nodes_is fuel number timeout on_thread eager reactor l =
     Some (r, l') /\ forall b, r = Ok b -> b = true /\ (number <= known_count l')%Z) /\
  (exists r l', block_until_specific_nodes_are_known fuel addresses timeout allow on_thread l =
     Some (r, l') /\ forall b, r = Ok b ->
       l'.(_crashed) = true \/ (b = true /\ missing (remove_dups addresses) l' = []) \/
       (b = false /\ (Z.of_nat (length (missing (remove_dups addresses) l')) <= allow)%Z)).
Proof.
  intros Ht Hd fuel. pose proof (D_pos l) as HD. split.
  - unfold block_until_number_of_known_nodes_is.
    destruct (while_true_total ((timeout + 1) * 1000) D
      (block_number_body number timeout (clock l.(env)) on_thread eager reactor) (clock l.(env)) fuel l)
      as [[r l'] Hr]; [|lia|unfold fuel; lia|unfold fuel; lia|].
    { intros l1 l2 H1 H2. by eapply block_number_time. }
    exists r, l'. split; [done|]. intros b ->. apply while_true_inv in Hr as [l0 Hb].
    by eapply block_number_returns.
  - unfold block_until_specific_nodes_are_known.
    destruct (while_true_total ((timeout + 1) * 1000) D
      (block_specific_body (remove_dups addresses) timeout allow (clock l.(env)) on_thread)
      (clock l.(env)) fuel l) as [[r l'] Hr]; [|lia|unfold fuel; lia|unfold fuel; lia|].
    { intros l1 l2 H1 H2. by eapply block_specific_time. }
    exists r, l'. split; [done|]. intros b ->. apply while_true_inv in Hr as [l0 Hb].
    by eapply block_specific_returns.
Qed.

End Time.

(** *** The learner as the retrieval client sees it *)

(** [fuel] rounds of [block_until_specific_nodes_are_known] with its default
    timeout of ten seconds, learning on this thread; by [blocking_calls_end]
    111 rounds are enough. *)
Definition client_block (fuel : nat) (addresses : list string) (allow_missing : Z) : PyM learner unit :=
  fun l => match block_until_specific_nodes_are_known fuel addresses 10 allow_missing true l with
           | Some (Ok _, l') => (Ok tt, l')
           | Some (Raise e, l') => (Raise e, l')
           | None => (Raise BaseException, l)
           end.

Lemma remove_dups_id (l : list string) : NoDup l -> remove_dups l = l.
Proof.
  induction 1 as [|x l Hx _ IH]; simpl; [done|]. case_decide; [done|]. by rewrite IH.
Qed.

#[local] Program Instance learner_node_learner (fuel : nat) : NodeLearner learner := {|
  known_addresses l := l.(_known_nodes).(_current_state).(_nodes).*1;
  is_done_seeding := done_seeding;
  has_crashed := _crashed;
  learner_learn_from_teacher_node := learn_from_teacher_node false false ;;; py_ret tt;
  learner_block_until_specific := client_block fuel;
|}.
Next Obligation.
  intros fuel addresses allow l l' Hnd. unfold client_block, block_until_specific_nodes_are_known.
  destruct (while_true _ _ l) as [[[b|e] l1]|] eqn:Hw; intros; simplify_eq.
  apply while_true_inv in Hw as [l0 Hb]. apply block_specific_returns in Hb.
  rewrite (remove_dups_id _ Hnd) in Hb.
  assert (forall l : learner, missing addresses l =
    filter (fun a => a ∉ l.(_known_nodes).(_current_state).(_nodes).*1) addresses) as Hm.
  { intros l2. apply filter_ext_in. intros a _. rewrite <-dict_mem_true. by destruct (dict_mem _ a). }
  destruct Hb as [Hc|[[_ Hb]|[_ Hb]]]; [by left|right|right].
  - rewrite Hm in Hb. rewrite Hb. simpl. lia.
  - rewrite Hm in Hb. lia.
Qed.

End Learner.

(** *** Evaluated

    A world whose state is its clock, in which no seed node answers, two nodes
    are stored and the teachers are down. *)

Module LearnerDemo.

Definition demo_nodes : list node := [demo_node "a" "m1"; demo_node "b" "m1"]%string.

#[global] Instance demo_network : Network Z nat unit unit := {|
  clock e := e;
  sleep d e := (e + d)%Z;
  own_metadata _ := "own"%string;
  from_teacher_uri _ := raise ConnectionError;
  from_seednode_metadata _ := raise ConnectionError;
  stored_nodes := py_ret demo_nodes;
  store_node_metadata _ := py_ret tt;
  mature_and_store_certificate _ := py_ret tt;
  is_mature _ _ := true;
  verify_stranger _ _ := py_ret tt;
  shuffle_nodes l := py_ret l;
  get_nodes_via_rest _ _ := raise RequestsConnectionError;
  response_from_bytes _ := Raise ValueError;
  response_verify _ _ := Raise ValueError;
|}.

Notation demo_learner := (learner (Checksum:=nat) (Nickname:=nat) (E:=Z)).

Definition demo_start : demo_learner :=
  Mk_learner "net" "me" ["uri"]%string [] false (new_sensor demo_checksum id 0 "net" true) false []
    None 0 0 true 5 false false 0%Z.

Notation demo_learn := (learn_from_teacher_node demo_checksum id id id).

(** The first round finds the stored nodes; its teacher is down. *)
Definition demo_learned : demo_learner := (demo_learn false false demo_start).2.

Example demo_round :
  (demo_learn false false demo_start).1 = Ok Nothing /\
  addresses demo_learned.(_known_nodes).(_current_state) = ["a"; "b"]%string /\
  demo_learned.(teacher_nodes) = [].
Proof. vm_compute. auto. Qed.

Lemma demo_learn_clock eager canceller (l : demo_learner) :
  (clock l.(env) <= clock (demo_learn eager canceller l).2.(env) <= clock l.(env) + 1000)%Z.
Proof.
  assert ((demo_learn eager canceller l).2.(env) = l.(env)) as ->; [|simpl; lia].
  apply (outside_learn demo_checksum id id id (fun e => e = l.(env))); try (intros; assumption).
  unfold outside. reflexivity.
Qed.

Lemma demo_shuffle (l : list node) (e : Z) r e' :
  shuffle_nodes l e = (r, e') -> exists l', r = Ok l' /\ Permutation l' l.
Proof. intros [= <- <-]. by exists l. Qed.

Lemma demo_start_ok : learner_ok demo_checksum demo_start.
Proof.
  split; [apply new_sensor_ok|].
  intros n old Hin. inversion Hin.
Qed.

Lemma teachers_take_turns_witness :
  exists order l', cycle_times 2 demo_learned = (Ok (Some <$> order), l') /\
    Permutation order demo_nodes /\ l'.(_known_nodes) = demo_learned.(_known_nodes).
Proof.
  destruct (teachers_take_turns demo_shuffle demo_learned) as [_ H].
  - vm_compute. reflexivity.
  - exact H.
Defined.

Lemma learning_preserves_invariant_witness : learner_ok demo_checksum demo_learned.
Proof.
  destruct (learning_preserves_invariant demo_checksum id id id
    (fun l n => conj (fun H => H) (fun H => H))) as (_ & _ & H & _).
  apply H. apply demo_start_ok.
Defined.

Lemma blocking_calls_end_witness :
  exists r l', block_until_specific_nodes_are_known demo_checksum id id id 111 ["a"; "zzz"]%string 10 1 true
    demo_start = Some (r, l') /\ forall b, r = Ok b ->
      l'.(_crashed) = true \/ (b = true /\ missing ["a"; "zzz"]%string l' = []) \/
      (b = false /\ (Z.of_nat (length (missing ["a"; "zzz"]%string l')) <= 1)%Z).
Proof.
  destruct (blocking_calls_end demo_checksum id id id 1000
    (fun e => conj (Z.le_refl _) (proj1 (Z.add_le_mono_l 100 1000 e) ltac:(discriminate))) demo_learn_clock
    5 ["a"; "zzz"]%string 10 1 true true true demo_start) as [_ H]; [discriminate|reflexivity|].
  exact H.
Defined.

#[local] Instance demo_node_learner : NodeLearner demo_learner :=
  learner_node_learner demo_checksum id id id 111.

(** One of the two addresses of the map gets known. *)
Lemma ensure_ursula_availability_ok_witness :
  let l' := (Retrieval._ensure_ursula_availability ["a"; "zzz"]%string 1 demo_start).2 in
  has_crashed l' = true \/
  exists l1, (1 <= Z.of_nat (length (filter
    (fun a => a ∈ known_addresses l1 \/ a ∈ known_addresses l') ["a"; "zzz"]%string)))%Z.
Proof.
  intros l'. apply (Retrieval.ensure_ursula_availability_ok ["a"; "zzz"]%string 1 demo_start l').
  - apply (bool_decide_unpack _). vm_compute. exact I.
  - discriminate.
  - vm_compute. reflexivity.
Defined.

End LearnerDemo.
End Learner.

(** ** Evaluated verifications *)

Module TeacherDemo.
Import Teacher.

Definition demo_identity : identity := Identity "0xA" "vk" "ek" "sig".

(** The state of the world is whether the provider is authorized. *)
#[global] Instance demo_evidence : Evidence bool identity := {|
  operator_address _ := Ok "0xO"%string;
  metadata_verify _ := true;
  get_staking_provider_from_operator _ := py_ret "0xA"%string;
  is_authorized _ := fun w => (Ok w, w);
  store_certificate _ := py_ret tt;
  node_information i := py_ret i;
  from_metadata_bytes i := Ok i;
|}.

Definition stranger : teacher := new_teacher demo_identity false true.

Lemma verify_node_checks_everything_witness :
  on_chain_evidence "0x0"%string demo_identity.
Proof.
  destruct (verify_node_checks_everything "0x0"%string true false false stranger true false
    (set_verified_node true (set_verified_operator true (set_verified_stamp true
       (set_verified_metadata true stranger)))) true) as (_ & _ & _ & _ & _ & _ & H).
  - right. split_and!; reflexivity.
  - vm_compute. reflexivity.
  - destruct (H eq_refl eq_refl) as [He _]. exact He.
Defined.

Lemma failed_stake_check_is_skipped_witness :
  (verify_node "0x0"%string true false false (stranger, false)).1 = Raise NotStaking /\
  exists t2, verify_node "0x0"%string true false false
    ((verify_node "0x0"%string true false false (stranger, false)).2.1, false) = (Ok false, (t2, false)) /\
    t2.(verified_node) = true /\ t2.(verified_operator) = false.
Proof.
  destruct (failed_stake_check_is_skipped "0x0"%string false stranger false NotStaking
    (set_verified_stamp true (set_verified_metadata true stranger)) false false) as [H1 H2];
    try reflexivity; [left|].
  split; [vm_compute; reflexivity|]. apply (H2 demo_identity); reflexivity.
Defined.

End TeacherDemo.
