(* ===== verification/Token.v ===== *)
(** * nulink/blockchain/eth/token.py

    Token amounts ([ERC20], [NLK]) and the work tracker that keeps the
    operator's confirmation transaction alive.  [eth_utils.currency.to_wei]
    and twisted's [LoopingCall] are not part of the repository: the first is
    a parameter with its documented range, the second the class
    [LoopingCall].  What the tracker asks of the worker it drives is the
    class [Worker]; Actors.v gives the operator's instance. *)

From stdpp Require Import sorting.
From S2P Require Import Prelude Agents.

(** ** Amounts *)

Module NLK.

(** The class attributes of an [ERC20] subclass. *)
Record token_class := {
  _symbol : string;
  _denominations : list (string * string);
  _unit_name : string;
}.

Definition NLK_class : token_class := {|
  _symbol := "NLK";
  _denominations := [("NlkNit", "wei"); ("NLK", "ether")]%string;
  _unit_name := "NlkNit";
|}.

(** The largest amount [to_wei] accepts. *)
Definition MAX_WEI : Z := 2 ^ 256 - 1.

(** An operand: another amount or a plain [int]; [int(other)] of both. *)
Inductive operand := Amount (value : Z) | Int (value : Z).
Definition int_of (o : operand) : Z := match o with Amount v | Int v => v end.

Section Amounts.
(** [currency.to_wei] of an [int]. *)
Variable to_wei : Z -> string -> result Z.

(** [ERC20.__init__]: the stored value, or what the constructor raises. *)
Definition init (cls : token_class) (value : Z) (denomination : string) : result Z :=
  match dict_get cls.(_denominations) denomination with
  | None => Raise InvalidDenomination
  | Some wrapped_denomination =>
      match to_wei value wrapped_denomination with
      | Ok v => Ok v
      | Raise e => if catches [ValueError] e then Raise InvalidAmount else Raise e
      end
  end.

Definition ZERO (cls : token_class) : result Z := init cls 0 cls.(_unit_name).
Definition from_units (cls : token_class) (value : Z) : result Z := init cls value cls.(_unit_name).
Definition from_tokens (cls : token_class) (value : Z) : result Z := init cls value cls.(_symbol).

(** The operators on a stored value. *)
Definition add (cls : token_class) (self : Z) (other : operand) : result Z :=
  init cls (self + int_of other) cls.(_unit_name).
Definition sub (cls : token_class) (self : Z) (other : operand) : result Z :=
  init cls (self - int_of other) cls.(_unit_name).
Definition mul (cls : token_class) (self : Z) (other : operand) : result Z :=
  init cls (self * int_of other) cls.(_unit_name).

(** Python's [//] rounds down, as [Z.div] does. *)
Definition floordiv (cls : token_class) (self : Z) (other : operand) : result Z :=
  if (int_of other =? 0)%Z then Raise ZeroDivisionError
  else init cls (self / int_of other) cls.(_unit_name).

Definition eq (self : Z) (other : operand) : bool := (self =? int_of other)%Z.
Definition gt (self : Z) (other : operand) : bool := (self >? int_of other)%Z.
Definition ge (self : Z) (other : operand) : bool := (self >=? int_of other)%Z.
Definition lt (self : Z) (other : operand) : bool := (self <? int_of other)%Z.
Definition le (self : Z) (other : operand) : bool := (self <=? int_of other)%Z.
Definition bool_ (self : Z) : bool := negb (self =? 0)%Z.

Definition in_range (v : Z) : bool := (0 <=? v)%Z && (v <=? MAX_WEI)%Z.

(** The documented behaviour of [to_wei] on integers: exact, and a
    [ValueError] outside the range. *)
Definition to_wei_ok : Prop :=
  (forall v, to_wei v "wei" = if in_range v then Ok v else Raise ValueError) /\
  (forall v, to_wei v "ether" = if in_range (v * 10 ^ 18) then Ok (v * 10 ^ 18)%Z else Raise ValueError).

Context (Hwei : to_wei_ok).

Lemma init_units v :
  init NLK_class v "NlkNit" = if in_range v then Ok v else Raise InvalidAmount.
Proof.
  unfold init. change (dict_get (_denominations NLK_class) "NlkNit"%string) with (Some "wei"%string).
  cbv iota beta. rewrite (proj1 Hwei). by destruct (in_range v).
Qed.

Lemma init_tokens v :
  init NLK_class v "NLK" = if in_range (v * 10 ^ 18) then Ok (v * 10 ^ 18)%Z else Raise InvalidAmount.
Proof.
  unfold init. change (dict_get (_denominations NLK_class) "NLK"%string) with (Some "ether"%string).
  cbv iota beta. rewrite (proj2 Hwei). by destruct (in_range (v * 10 ^ 18)).
Qed.

(** Amounts never wrap or go negative: from stored amounts, each
    operator gives the exact integer result when it lies in
    [0, 2^256 - 1] and raises [InvalidAmount] otherwise ([//] by zero
    raises [ZeroDivisionError]); in particular a subtraction below zero
    raises, a floor division by a positive number always succeeds, and
    reading an amount back with [from_units] gives the same amount. *)
Theorem amount_arithmetic_exact self other :
  in_range self = true ->
  add NLK_class self other =
    (if in_range (self + int_of other) then Ok (self + int_of other)%Z else Raise InvalidAmount) /\
  sub NLK_class self other =
    (if in_range (self - int_of other) then Ok (self - int_of other)%Z else Raise InvalidAmount) /\
  mul NLK_class self other =
    (if in_range (self * int_of other) then Ok (self * int_of other)%Z else Raise InvalidAmount) /\
  (self < int_of other -> sub NLK_class self other = Raise InvalidAmount)%Z /\
  (0 < int_of other -> floordiv NLK_class self other = Ok (self / int_of other))%Z /\
  (int_of other = 0 -> floordiv NLK_class self other = Raise ZeroDivisionError)%Z /\
  from_units NLK_class self = Ok self /\
  (forall tokens, in_range (tokens * 10 ^ 18) = true ->
     from_tokens NLK_class tokens = Ok (tokens * 10 ^ 18)%Z).
Proof.
  intros Hs. unfold add, sub, mul, floordiv, from_units, from_tokens. cbn [_unit_name _symbol NLK_class].
  rewrite !init_units. split_and!; try done.
  - intros Hlt. replace (in_range (self - int_of other)) with false; [done|].
    unfold in_range. symmetry. apply andb_false_intro1. lia.
  - intros Hpos. rewrite (proj2 (Z.eqb_neq _ _)) by lia.
    replace (in_range (self / int_of other)) with true; [done|].
    unfold in_range in *. symmetry. apply andb_true_iff in Hs as [H0 H1].
    apply andb_true_iff. split; [apply Z.leb_le, Z.div_pos; lia|].
    apply Z.leb_le. etrans; [|apply Z.leb_le, H1]. apply Z.div_le_upper_bound; [lia|].
    apply Z.leb_le in H0. nia.
  - by intros ->.
  - by rewrite Hs.
  - intros tokens Ht. by rewrite init_tokens, Ht.
Qed.

End Amounts.

(** [eth_utils] on integers. *)
Definition demo_to_wei (v : Z) (unit_ : string) : result Z :=
  let v' := if decide (unit_ = "ether"%string) then (v * 10 ^ 18)%Z else v in
  if in_range v' then Ok v' else Raise ValueError.

Lemma amount_arithmetic_exact_witness :
  add demo_to_wei NLK_class 5 (Int MAX_WEI) = Raise InvalidAmount /\
  floordiv demo_to_wei NLK_class 5 (Amount 2) = Ok 2%Z.
Proof.
  assert (to_wei_ok demo_to_wei) as Hd by (split; intros v; reflexivity).
  split.
  - rewrite (proj1 (amount_arithmetic_exact demo_to_wei Hd 5 (Int MAX_WEI) eq_refl)). reflexivity.
  - apply (amount_arithmetic_exact demo_to_wei Hd 5 (Amount 2) eq_refl). reflexivity.
Defined.

End NLK.

(** ** The work tracker *)

(** [twisted.internet.task.LoopingCall], as far as the trackers use it.  The
    calls it makes to its function come from the reactor: each is a step of
    its own, [_do_work] or, after a failure, [handle_working_errors]. *)
Class LoopingCall (T : Type) := {
  running : T -> bool;
  interval : T -> option Z;
  set_interval : Z -> T -> T;
  task_start : Z -> bool -> PyM T unit;
  task_stop : PyM T unit;
}.

(** What the tracker asks of the worker it was given and of the worker's
    agents: every call may change the worker.  [error_text] is [str(e)] of
    the exception that was raised last. *)
Class Worker (O TxHash : Type) := {
  client_block_number : PyM O Z;
  client_get_transaction_count : bool -> PyM O Z;
  client_get_transaction_receipt : TxHash -> PyM O Z;
  worker_get_staking_provider_address : PyM O string;
  worker_staking_provider_address : PyM O string;
  worker_confirm_address : bool -> PyM O TxHash;
  power_unlock : PyM O unit;
  power_lock : PyM O unit;
  maya_now : PyM O Z;
  randint : Z -> Z -> PyM O Z;
  error_text : O -> string;
}.

(** What a requirement callable returns: a [bool] or anything else. *)
Inductive requirement_value := RBool (b : bool) | RNotBool.

Definition AVERAGE_BLOCK_TIME_IN_SECONDS : Z := 14.
Definition NULL_ADDRESS : string := "0x0000000000000000000000000000000000000000".

Definition EXPECTED_CONFIRMATION_TIME_IN_SECONDS : list (string * Z) :=
  [("slow", 3600%Z); ("medium", 300%Z); ("fast", 60%Z)]%string.

Module WorkTracker.

Definition INTERVAL_FLOOR : Z := 1.
Definition INTERVAL_CEIL : Z := 2.

Section Tracker.
Context {O TxHash T : Type} `{!Worker O TxHash, !LoopingCall T}.

(** A value of the [pending] dict: a hash or [UNTRACKED_PENDING_TRANSACTION]. *)
Inductive pending_tx := Tracked (txhash : TxHash) | Untracked.

(** The attributes of a [WorkTracker]; [crash_requested] is the call handed to the
    reactor's thread by [handle_working_errors]. *)
Record tracker := Mk_tracker {
  pending : list (Z * pending_tx);
  requirement : option (PyM O requirement_value);
  start_time : option Z;
  abort_on_error : bool;
  consecutive_fails : Z;
  gas_strategy : string;
  task : T;
  crash_requested : option exn_class;
  worker : O;
}.
Definition set_pending (x : list (Z * pending_tx)) (s : tracker) : tracker :=
  Mk_tracker x (s.(requirement)) (s.(start_time)) (s.(abort_on_error)) (s.(consecutive_fails)) (s.(gas_strategy)) (s.(task)) (s.(crash_requested)) (s.(worker)).
Definition set_requirement (x : option (PyM O requirement_value)) (s : tracker) : tracker :=
  Mk_tracker (s.(pending)) x (s.(start_time)) (s.(abort_on_error)) (s.(consecutive_fails)) (s.(gas_strategy)) (s.(task)) (s.(crash_requested)) (s.(worker)).
Definition set_start_time (x : option Z) (s : tracker) : tracker :=
  Mk_tracker (s.(pending)) (s.(requirement)) x (s.(abort_on_error)) (s.(consecutive_fails)) (s.(gas_strategy)) (s.(task)) (s.(crash_requested)) (s.(worker)).
Definition set_abort_on_error (x : bool) (s : tracker) : tracker :=
  Mk_tracker (s.(pending)) (s.(requirement)) (s.(start_time)) x (s.(consecutive_fails)) (s.(gas_strategy)) (s.(task)) (s.(crash_requested)) (s.(worker)).
Definition set_consecutive_fails (x : Z) (s : tracker) : tracker :=
  Mk_tracker (s.(pending)) (s.(requirement)) (s.(start_time)) (s.(abort_on_error)) x (s.(gas_strategy)) (s.(task)) (s.(crash_requested)) (s.(worker)).
Definition set_gas_strategy (x : string) (s : tracker) : tracker :=
  Mk_tracker (s.(pending)) (s.(requirement)) (s.(start_time)) (s.(abort_on_error)) (s.(consecutive_fails)) x (s.(task)) (s.(crash_requested)) (s.(worker)).
Definition set_task (x : T) (s : tracker) : tracker :=
  Mk_tracker (s.(pending)) (s.(requirement)) (s.(start_time)) (s.(abort_on_error)) (s.(consecutive_fails)) (s.(gas_strategy)) x (s.(crash_requested)) (s.(worker)).
Definition set_crash_requested (x : option exn_class) (s : tracker) : tracker :=
  Mk_tracker (s.(pending)) (s.(requirement)) (s.(start_time)) (s.(abort_on_error)) (s.(consecutive_fails)) (s.(gas_strategy)) (s.(task)) x (s.(worker)).
Definition set_worker (x : O) (s : tracker) : tracker :=
  Mk_tracker (s.(pending)) (s.(requirement)) (s.(start_time)) (s.(abort_on_error)) (s.(consecutive_fails)) (s.(gas_strategy)) (s.(task)) (s.(crash_requested)) x.

(** [WorkTrackerBase.__init__] with [WorkTracker._configure]. *)
Definition new_tracker (o : O) (t : T) (blockchain_gas_strategy : string) : tracker :=
  Mk_tracker [] None None false 0 blockchain_gas_strategy t None o.

(** A call on the worker, or on the looping call, from the tracker. *)
Definition on_worker {A} (m : PyM O A) : PyM tracker A := fun s =>
  let '(r, o) := m s.(worker) in (r, set_worker o s).
Definition on_task {A} (m : PyM T A) : PyM tracker A := fun s =>
  let '(r, t) := m s.(task) in (r, set_task t s).

Definition random_interval (fails : option Z) : PyM O Z :=
  match fails with
  | Some n => if (0 <? n)%Z then py_ret INTERVAL_FLOOR else randint INTERVAL_FLOOR INTERVAL_CEIL
  | None => randint INTERVAL_FLOOR INTERVAL_CEIL
  end.

(** Twice the maximum confirmation time: the code multiplies by [1.5]. *)
Definition max_confirmation_time_twice : PyM tracker Z := fun s =>
  match dict_get EXPECTED_CONFIRMATION_TIME_IN_SECONDS s.(gas_strategy) with
  | Some expected_time => (Ok (3 * expected_time)%Z, s)
  | None => (Raise KeyError, s)
  end.

Definition stop : PyM tracker unit := fun s =>
  if running s.(task) then on_task task_stop s else (Ok tt, s).

Definition start (commit_now : bool) (requirement_func : option (PyM O requirement_value))
    (force : bool) : PyM tracker unit := fun s =>
  if running s.(task) && negb force then (Ok tt, s)
  else (modify (set_requirement requirement_func) ;;;
        now <- on_worker maya_now ;;
        modify (set_start_time (Some now)) ;;;
        fails <- gets consecutive_fails ;;
        i <- on_worker (random_interval (Some fails)) ;;
        on_task (task_start i commit_now)) s.

(** [handle_working_errors]: the errback of the looping call. *)
Definition handle_working_errors (failure : exn_class) : PyM tracker unit := fun s =>
  if s.(abort_on_error) then
    (stop ;;; modify (set_crash_requested (Some failure))) s
  else
    let commit_now := (s.(consecutive_fails) <? 1)%Z in
    start commit_now None false (set_consecutive_fails (s.(consecutive_fails) + 1) s).

Definition _should_do_work_now : PyM tracker bool := fun s =>
  match s.(requirement) with
  | None => (Ok true, s)
  | Some r =>
      (v <- on_worker r ;;
       match v with RBool b => py_ret b | RNotBool => raise ValueError end) s
  end.

Definition commitments_tracker_is_consistent : PyM tracker bool :=
  tx_count_pending <- on_worker (client_get_transaction_count true) ;;
  tx_count_latest <- on_worker (client_get_transaction_count false) ;;
  p <- gets pending ;;
  let txs_in_mempool := (tx_count_pending - tx_count_latest)%Z in
  if (Z.of_nat (length p) =? txs_in_mempool)%Z then py_ret true
  else if (txs_in_mempool >? Z.of_nat (length p))%Z then py_ret false
  else py_ret true.

(** [sorted(items)] of a dict with [int] keys: the keys decide. *)
Definition key_le (a b : Z * pending_tx) : Prop := (a.1 <= b.1)%Z.
#[global] Instance key_le_dec : RelDecision key_le.
Proof. intros a b. unfold key_le. apply _. Defined.

Definition sorted_items (p : list (Z * pending_tx)) : list (Z * pending_tx) := merge_sort key_le p.

(** One turn of the loop of [__track_pending_commitments]: what it adds to
    the number of unmined transactions. *)
Definition track_item (tx_firing_block_number : Z) (tx : pending_tx) : PyM tracker nat :=
  match tx with
  | Untracked => py_ret 1
  | Tracked txhash =>
      try_except
        (on_worker (client_get_transaction_receipt txhash) ;;;
         modify (fun s => set_pending (dict_del s.(pending) tx_firing_block_number) s) ;;;
         py_ret 0)
        [TransactionNotFound] (fun _ => py_ret 1)
  end.

Fixpoint track_items (items : list (Z * pending_tx)) : PyM tracker nat :=
  match items with
  | [] => py_ret 0
  | (tx_firing_block_number, tx) :: items' =>
      unmined <- track_item tx_firing_block_number tx ;;
      rest <- track_items items' ;;
      py_ret (unmined + rest)
  end.

Definition track_pending_commitments : PyM tracker bool :=
  p <- gets pending ;;
  track_items (sorted_items p) ;;;
  consistent <- commitments_tracker_is_consistent ;;
  if negb consistent then
    modify (fun s => set_pending (dict_set s.(pending) 0%Z Untracked) s) ;;; py_ret true
  else p' <- gets pending ;; py_ret (negb (bool_decide (p' = [])))
  .

(** [with transacting_power: ...]: the account is locked again on the way
    out.  The log line reads [staking_provider_address], which may ask the
    chain, before the hash is returned. *)
Definition _fire_commitment : PyM tracker TxHash :=
  on_worker power_unlock ;;;
  on_worker (try_finally
    (txhash <- worker_confirm_address true ;; worker_staking_provider_address ;;; py_ret txhash)
    power_lock).

Definition fire_replacement_commitment (current_block_number tx_firing_block_number : Z)
    : PyM tracker unit :=
  replacement_txhash <- _fire_commitment ;;
  modify (fun s => set_pending (dict_set s.(pending) current_block_number (Tracked replacement_txhash)) s) ;;;
  modify (fun s => set_pending (dict_del s.(pending) tx_firing_block_number) s).

Definition handle_replacement_commitment (current_block_number : Z) : PyM tracker unit :=
  p <- gets pending ;;
  match sorted_items p with
  | [] => raise IndexError
  | (tx_firing_block_number, tx) :: _ =>
      waiting <- match tx with
                 | Untracked => py_ret false
                 | Tracked _ =>
                     max_time <- max_confirmation_time_twice ;;
                     let wait_time_in_blocks := (current_block_number - tx_firing_block_number)%Z in
                     let wait_time_in_seconds :=
                       (wait_time_in_blocks * AVERAGE_BLOCK_TIME_IN_SECONDS)%Z in
                     py_ret (2 * wait_time_in_seconds <? max_time)%Z
                 end ;;
      if waiting : bool then py_ret tt
      else fire_replacement_commitment current_block_number tx_firing_block_number
  end.

Definition _prep_work_state : PyM tracker bool := py_ret true.

Definition _final_work_prep_before_transaction : PyM tracker bool :=
  address <- on_worker worker_get_staking_provider_address ;;
  py_ret (negb (bool_decide (address = NULL_ADDRESS))).

Definition _all_work_completed : PyM tracker bool :=
  needed <- _should_do_work_now ;; py_ret (negb needed).

Definition already_confirmed_text : string :=
  "execution reverted: Operator address is already confirmed".

(** The last statement of [_do_work]: the first transaction of a commitment. *)
Definition fire_first_commitment (current_block_number : Z) : PyM tracker unit :=
  try_except
    (txhash <- _fire_commitment ;;
     modify (fun s => set_pending (dict_set s.(pending) current_block_number (Tracked txhash)) s))
    [ContractLogicError]
    (fun e s => if PREApplicationAgent.str_contains already_confirmed_text (error_text s.(worker))
                then (Ok tt, s) else (Raise e, s)).

Definition set_task_interval (i : Z) : PyM tracker unit :=
  modify (fun s => set_task (set_interval i s.(task)) s).

(** The second half of [_do_work], when no transaction is pending. *)
Definition do_first_work (current_block_number : Z) : PyM tracker unit :=
  fails <- gets consecutive_fails ;;
  i <- on_worker (random_interval (Some fails)) ;;
  set_task_interval i ;;;
  needed <- _should_do_work_now ;;
  if negb needed then py_ret tt
  else
    ready <- _final_work_prep_before_transaction ;;
    if negb ready then py_ret tt
    else fire_first_commitment current_block_number.

Definition _do_work : PyM tracker unit :=
  completed <- _all_work_completed ;;
  if completed : bool then stop
  else
    current_block_number <- on_worker client_block_number ;;
    prepared <- _prep_work_state ;;
    if negb prepared then py_ret tt
    else
      unmined_transactions <- track_pending_commitments ;;
      if unmined_transactions : bool then
        handle_replacement_commitment current_block_number ;;;
        set_task_interval INTERVAL_FLOOR
      else do_first_work current_block_number.

(** *** Properties *)

(** Everything but the pending dict and the worker is as before. *)
Definition same_config (s s' : tracker) : Prop :=
  s'.(requirement) = s.(requirement) /\ s'.(consecutive_fails) = s.(consecutive_fails) /\
  s'.(gas_strategy) = s.(gas_strategy) /\ s'.(abort_on_error) = s.(abort_on_error).

Lemma same_config_refl s : same_config s s.
Proof. done. Qed.

Lemma same_config_trans s1 s2 s3 : same_config s1 s2 -> same_config s2 s3 -> same_config s1 s3.
Proof. unfold same_config. intros (?&?&?&?) (?&?&?&?). repeat split; congruence. Qed.

(** **** What a cycle asks of the worker, as relations between its states *)

(** Whether there is work: without a callable there is. *)
Inductive asked : option (PyM O requirement_value) -> O -> result bool -> O -> Prop :=
  | not_required o : asked None o (Ok true) o
  | answered_bool req o b o' : req o = (Ok (RBool b), o') -> asked (Some req) o (Ok b) o'
  | answered_other req o o' : req o = (Ok RNotBool, o') -> asked (Some req) o (Raise ValueError) o'
  | not_answered req o e o' : req o = (Raise e, o') -> asked (Some req) o (Raise e) o'.

(** The receipts of tracked transactions, in their order: the blocks of those
    that are mined, and the exception that ended the polling, if one did. *)
Inductive polled : list (Z * pending_tx) -> list Z -> option exn_class -> O -> O -> Prop :=
  | polled_all o : polled [] [] None o o
  | polled_untracked b items mined x o o' :
      polled items mined x o o' -> polled ((b, Untracked) :: items) mined x o o'
  | polled_mined b h block items mined x o o1 o' :
      client_get_transaction_receipt h o = (Ok block, o1) -> polled items mined x o1 o' ->
      polled ((b, Tracked h) :: items) (b :: mined) x o o'
  | polled_unmined b h e items mined x o o1 o' :
      client_get_transaction_receipt h o = (Raise e, o1) -> catches [TransactionNotFound] e = true ->
      polled items mined x o1 o' -> polled ((b, Tracked h) :: items) mined x o o'
  | polled_broken b h e items o o' :
      client_get_transaction_receipt h o = (Raise e, o') -> catches [TransactionNotFound] e = false ->
      polled ((b, Tracked h) :: items) [] (Some e) o o'.

(** The number of the account's transactions that the node has and no block. *)
Inductive in_mempool : O -> result Z -> O -> Prop :=
  | counted n_pending n_latest o o1 o' :
      client_get_transaction_count true o = (Ok n_pending, o1) ->
      client_get_transaction_count false o1 = (Ok n_latest, o') ->
      in_mempool o (Ok (n_pending - n_latest)%Z) o'
  | pending_not_counted e o o' :
      client_get_transaction_count true o = (Raise e, o') -> in_mempool o (Raise e) o'
  | latest_not_counted n_pending e o o1 o' :
      client_get_transaction_count true o = (Ok n_pending, o1) ->
      client_get_transaction_count false o1 = (Raise e, o') -> in_mempool o (Raise e) o'.

(** A commitment: the account is unlocked, the address is confirmed without
    waiting for the receipt, the provider is read for the log; then the
    account is locked, and an error of locking it takes precedence. *)
Definition locked_after (res : result TxHash) (o : O) (r : result TxHash) (o' : O) : Prop :=
  exists l, power_lock o = (l, o') /\ r = match l with Ok _ => res | Raise e => Raise e end.

Inductive fired : O -> result TxHash -> O -> Prop :=
  | not_unlocked e o o' : power_unlock o = (Raise e, o') -> fired o (Raise e) o'
  | not_confirmed e r o o1 o2 o' :
      power_unlock o = (Ok tt, o1) -> worker_confirm_address true o1 = (Raise e, o2) ->
      locked_after (Raise e) o2 r o' -> fired o r o'
  | not_logged h e r o o1 o2 o3 o' :
      power_unlock o = (Ok tt, o1) -> worker_confirm_address true o1 = (Ok h, o2) ->
      worker_staking_provider_address o2 = (Raise e, o3) -> locked_after (Raise e) o3 r o' -> fired o r o'
  | confirmed h a r o o1 o2 o3 o' :
      power_unlock o = (Ok tt, o1) -> worker_confirm_address true o1 = (Ok h, o2) ->
      worker_staking_provider_address o2 = (Ok a, o3) -> locked_after (Ok h) o3 r o' -> fired o r o'.

(** The pause before the next cycle when nothing is pending. *)
Inductive paused (fails : Z) : O -> result Z -> O -> Prop :=
  | retry_soon o : (0 < fails)%Z -> paused fails o (Ok 1%Z) o
  | at_random r o o' : (fails <= 0)%Z -> randint 1 2 o = (r, o') -> paused fails o r o'.

(** **** A cycle *)

(** There is work, the chain is at block [now], every tracked transaction was
    polled and the mempool counted: those with a receipt are forgotten, and
    if the node knows of more than are left, block 0 stands for the others. *)
Definition unmined (mined : list Z) (p : list (Z * pending_tx)) : list (Z * pending_tx) :=
  filter (fun kv => kv.1 ∉ mined) p.

Definition accounted (n : Z) (kept : list (Z * pending_tx)) : list (Z * pending_tx) :=
  if (Z.of_nat (length kept) <? n)%Z then dict_set kept 0%Z Untracked else kept.

Definition polled_at (s : tracker) (now : Z) (mined : list Z) (x : option exn_class) (o : O) : Prop :=
  exists o1 o2, asked s.(requirement) s.(worker) (Ok true) o1 /\ client_block_number o1 = (Ok now, o2) /\
    polled (sorted_items s.(pending)) mined x o2 o.

Definition surveyed (s : tracker) (now : Z) (p : list (Z * pending_tx)) (o : O) : Prop :=
  exists mined o1 n, polled_at s now mined None o1 /\ in_mempool o1 (Ok n) o /\
    p = accounted n (unmined mined s.(pending)).

(** The first of the tracked transactions. *)
Definition oldest (p : list (Z * pending_tx)) (b : Z) (tx : pending_tx) : Prop :=
  (b, tx) ∈ p /\ forall b' tx', (b', tx') ∈ p -> (b <= b')%Z.

(** The transaction fired at block [old] has waited for the maximum
    confirmation time of the gas strategy, one and a half times the expected
    one, when block [now] is current; an untracked one is taken to have. *)
Definition overdue (strategy : string) (now old : Z) (tx : pending_tx) : Prop :=
  tx = Untracked \/
  exists expected, dict_get EXPECTED_CONFIRMATION_TIME_IN_SECONDS strategy = Some expected /\
    (3 * expected <= 2 * ((now - old) * 14))%Z.

(** Nothing is pending, the next cycle is after [i] seconds, and there is
    still work, for an operator that is bonded to a provider. *)
Definition free_to_fire (s : tracker) (now i : Z) (o : O) : Prop :=
  exists o1 o2 o3 a, surveyed s now [] o1 /\ paused s.(consecutive_fails) o1 (Ok i) o2 /\
    asked s.(requirement) o2 (Ok true) o3 /\ worker_get_staking_provider_address o3 = (Ok a, o) /\ a <> NULL_ADDRESS.

Definition already_confirmed (e : exn_class) (o : O) : Prop :=
  catches [ContractLogicError] e = true /\
  PREApplicationAgent.str_contains "execution reverted: Operator address is already confirmed" (error_text o) = true.

(** How a cycle of the tracker [s] ends: its result, and the transactions
    tracked, the looping call and the worker after it. *)
Inductive cycle_outcome (s : tracker) : result unit -> list (Z * pending_tx) -> T -> O -> Prop :=
  | work_unknown e o :
      asked s.(requirement) s.(worker) (Raise e) o -> cycle_outcome s (Raise e) s.(pending) s.(task) o
  | work_completed o :
      asked s.(requirement) s.(worker) (Ok false) o -> running s.(task) = false ->
      cycle_outcome s (Ok tt) s.(pending) s.(task) o
  | work_completed_stops o r t :
      asked s.(requirement) s.(worker) (Ok false) o -> running s.(task) = true -> task_stop s.(task) = (r, t) ->
      cycle_outcome s r s.(pending) t o
  | no_block e o1 o :
      asked s.(requirement) s.(worker) (Ok true) o1 -> client_block_number o1 = (Raise e, o) ->
      cycle_outcome s (Raise e) s.(pending) s.(task) o
  | polling_failed now mined e o :
      polled_at s now mined (Some e) o -> cycle_outcome s (Raise e) (unmined mined s.(pending)) s.(task) o
  | counting_failed now mined e o1 o :
      polled_at s now mined None o1 -> in_mempool o1 (Raise e) o ->
      cycle_outcome s (Raise e) (unmined mined s.(pending)) s.(task) o
  (* a transaction is pending *)
  | still_waiting now p old h expected o :
      surveyed s now p o -> oldest p old (Tracked h) ->
      dict_get EXPECTED_CONFIRMATION_TIME_IN_SECONDS s.(gas_strategy) = Some expected ->
      (2 * ((now - old) * 14) < 3 * expected)%Z ->
      cycle_outcome s (Ok tt) p (set_interval 1 s.(task)) o
  | unknown_strategy now p old h o :
      surveyed s now p o -> oldest p old (Tracked h) ->
      dict_get EXPECTED_CONFIRMATION_TIME_IN_SECONDS s.(gas_strategy) = None ->
      cycle_outcome s (Raise KeyError) p s.(task) o
  | replaced now p old tx h o1 o :
      surveyed s now p o1 -> oldest p old tx -> overdue s.(gas_strategy) now old tx -> fired o1 (Ok h) o ->
      cycle_outcome s (Ok tt) (dict_del (dict_set p now (Tracked h)) old) (set_interval 1 s.(task)) o
  | replacement_failed now p old tx e o1 o :
      surveyed s now p o1 -> oldest p old tx -> overdue s.(gas_strategy) now old tx -> fired o1 (Raise e) o ->
      cycle_outcome s (Raise e) p s.(task) o
  (* none is *)
  | no_pause now e o1 o :
      surveyed s now [] o1 -> paused s.(consecutive_fails) o1 (Raise e) o ->
      cycle_outcome s (Raise e) [] s.(task) o
  | no_work_now now i r o1 o2 o :
      surveyed s now [] o1 -> paused s.(consecutive_fails) o1 (Ok i) o2 -> asked s.(requirement) o2 r o -> r <> Ok true ->
      cycle_outcome s (match r with Ok _ => Ok tt | Raise e => Raise e end) [] (set_interval i s.(task)) o
  | not_bonded now i r o1 o2 o3 o :
      surveyed s now [] o1 -> paused s.(consecutive_fails) o1 (Ok i) o2 -> asked s.(requirement) o2 (Ok true) o3 ->
      worker_get_staking_provider_address o3 = (r, o) -> (forall a, r = Ok a -> a = NULL_ADDRESS) ->
      cycle_outcome s (match r with Ok _ => Ok tt | Raise e => Raise e end) [] (set_interval i s.(task)) o
  | first_fired now i h o1 o :
      free_to_fire s now i o1 -> fired o1 (Ok h) o ->
      cycle_outcome s (Ok tt) [(now, Tracked h)] (set_interval i s.(task)) o
  | first_failed now i e o1 o :
      free_to_fire s now i o1 -> fired o1 (Raise e) o -> ~ already_confirmed e o ->
      cycle_outcome s (Raise e) [] (set_interval i s.(task)) o
  | first_confirmed_before now i e o1 o :
      free_to_fire s now i o1 -> fired o1 (Raise e) o -> already_confirmed e o ->
      cycle_outcome s (Ok tt) [] (set_interval i s.(task)) o.

(** **** The statements of a cycle *)

Lemma sorted_items_perm p : sorted_items p ≡ₚ p.
Proof. apply merge_sort_Permutation. Qed.

Lemma sorted_items_oldest p old tx rest : sorted_items p = (old, tx) :: rest -> oldest p old tx.
Proof.
  intros Hp. pose proof (sorted_items_perm p) as Hperm. split; [rewrite <- Hperm, Hp; left|].
  intros b' tx' Hin. rewrite <- Hperm, Hp in Hin.
  assert (Sorted key_le (sorted_items p)) as Hs.
  { apply Sorted_merge_sort. intros x y. unfold key_le. lia. }
  rewrite Hp in Hs. apply Sorted_StronglySorted in Hs; [|intros x y z; unfold key_le; lia].
  inversion_clear Hs as [|? ? _ Hall]. apply elem_of_cons in Hin as [[= -> ->]|Hin]; [done|].
  rewrite Forall_forall in Hall. exact (Hall _ Hin).
Qed.

Lemma ask_run s r s' :
  _should_do_work_now s = (r, s') -> exists o, asked s.(requirement) s.(worker) r o /\ s' = set_worker o s.
Proof.
  unfold _should_do_work_now. destruct s as [? [req|] ? ? ? ? ? ? o]; cbn.
  - unfold py_bind, on_worker. cbn. destruct (req o) as [[[b|]|e] o'] eqn:Hr; unfold py_ret, raise; intros; simplify_eq; cbn;
      exists o'; (split; [|done]); by first [eapply answered_bool|eapply answered_other|eapply not_answered].
  - unfold raise; intros; simplify_eq. exists o. by split; [constructor|].
Qed.

(** The tracked transactions less those mined so far. *)
Lemma unmined_nil p : unmined [] p = p.
Proof.
  unfold unmined. induction p as [|x p IH]; [done|]. rewrite filter_cons_True by apply not_elem_of_nil. by rewrite IH.
Qed.

Lemma unmined_cons b mined p : dict_wf p -> unmined (b :: mined) p = unmined mined (dict_del p b).
Proof.
  intros Hwf. unfold unmined. rewrite dict_del_filter by done. rewrite list_filter_filter.
  apply list_filter_iff. intros x. rewrite elem_of_cons. tauto.
Qed.

Lemma unmined_wf mined p : dict_wf p -> dict_wf (unmined mined p).
Proof.
  unfold dict_wf, unmined. intros Hwf. eapply sublist_NoDup; [exact Hwf|]. apply fmap_sublist, sublist_filter.
Qed.

(** The counting of the rest of the loop. *)
Lemma counted_rest n items s r s' :
  (rest <- track_items items ;; py_ret (n + rest)) s = (r, s') ->
  exists r2, track_items items s = (r2, s') /\
    forall x, match r2 with Ok _ => x = None | Raise e => x = Some e end ->
      match r with Ok _ => x = None | Raise e => x = Some (e : exn_class) end.
Proof.
  unfold py_bind, py_ret. destruct (track_items items s) as [[k|e] s2]; intros [= <- <-]; by eexists.
Qed.

Lemma track_items_run items s r s' :
  dict_wf s.(pending) -> track_items items s = (r, s') ->
  exists mined x o, polled items mined x s.(worker) o /\
    s' = set_pending (unmined mined s.(pending)) (set_worker o s) /\
    match r with Ok _ => x = None | Raise e => x = Some e end.
Proof.
  revert s r s'. induction items as [|[b tx] items IH]; intros s r s' Hwf.
  { intros [= <- <-]. exists [], None, s.(worker). split_and!; [constructor| |done].
    rewrite unmined_nil. by destruct s. }
  cbn [track_items]. unfold py_bind at 1. destruct tx as [h|]; cbn [track_item].
  2: { intros (r2 & (mined & x & o & Hp & -> & Hx)%IH & Hr)%counted_rest; [|done].
       exists mined, x, o. split_and!; [by apply polled_untracked|done|by apply Hr]. }
  unfold try_except, py_bind at 1 2, on_worker, modify, py_ret at 1 2.
  destruct (client_get_transaction_receipt h (worker s)) as [[block|e] o] eqn:Hc; cbn [fst snd].
  - intros (r2 & (mined & x & o' & Hp & -> & Hx)%IH & Hr)%counted_rest; [|by apply dict_del_wf].
    exists (b :: mined), x, o'. rewrite unmined_cons by done. split_and!; [by eapply polled_mined|done|by apply Hr].
  - destruct (catches [TransactionNotFound] e) eqn:He.
    + intros (r2 & (mined & x & o' & Hp & -> & Hx)%IH & Hr)%counted_rest; [|done].
      exists mined, x, o'. split_and!; [by eapply polled_unmined|done|by apply Hr].
    + intros [= <- <-]. exists [], (Some e), o. split_and!; [by apply polled_broken| |done].
      rewrite unmined_nil. by destruct s.
Qed.

Lemma consistent_run s r s' :
  commitments_tracker_is_consistent s = (r, s') ->
  exists m o, in_mempool s.(worker) m o /\ s' = set_worker o s /\
    r = match m with Ok n => Ok (negb (Z.of_nat (length s.(pending)) <? n)%Z) | Raise e => Raise e end.
Proof.
  unfold commitments_tracker_is_consistent, py_bind, on_worker, gets, py_ret.
  destruct (client_get_transaction_count true _) as [[np|e] o1] eqn:Hn.
  2: { intros [= <- <-]. exists (Raise e), o1. split_and!; [by apply pending_not_counted|done..]. }
  cbn [worker set_worker]. destruct (client_get_transaction_count false o1) as [[nl|e] o2] eqn:Hl.
  2: { intros [= <- <-]. exists (Raise e), o2. split_and!; [by eapply latest_not_counted|done..]. }
  cbn. intros Hr. exists (Ok (np - nl)%Z), o2. split; [by eapply counted|]. revert Hr.
  destruct (Z.eqb_spec (Z.of_nat (length (pending s))) (np - nl)), (Z.ltb_spec (Z.of_nat (length (pending s))) (np - nl));
    try lia; rewrite ?Z.gtb_ltb.
  - by intros [= <- <-].
  - rewrite (proj2 (Z.ltb_lt _ _)) by lia. by intros [= <- <-].
  - rewrite (proj2 (Z.ltb_ge _ _)) by lia. by intros [= <- <-].
Qed.

Lemma track_pending_run s r s' :
  dict_wf s.(pending) -> track_pending_commitments s = (r, s') ->
  exists mined x o1, polled (sorted_items s.(pending)) mined x s.(worker) o1 /\
    match x with
    | Some e => r = Raise e /\ s' = set_pending (unmined mined s.(pending)) (set_worker o1 s)
    | None => exists m o, in_mempool o1 m o /\
        match m with
        | Raise e => r = Raise e /\ s' = set_pending (unmined mined s.(pending)) (set_worker o s)
        | Ok n => let p := accounted n (unmined mined s.(pending)) in
            r = Ok (negb (bool_decide (p = []))) /\ s' = set_pending p (set_worker o s)
        end
    end.
Proof.
  intros Hwf. unfold track_pending_commitments, py_bind, gets.
  destruct (track_items _ s) as [r1 s1] eqn:Hit. apply track_items_run in Hit as (mined & x & o1 & Hp & -> & Hx); [|done].
  destruct r1 as [u|e]; subst x; [|intros [= <- <-]; by exists mined, (Some e), o1].
  destruct (commitments_tracker_is_consistent _) as [r2 s2] eqn:Hc. apply consistent_run in Hc as (m & o & Hm & -> & ->).
  cbn in Hm. intros Hr. exists mined, None, o1. split; [done|]. exists m, o. split; [done|].
  destruct m as [n|e]; [|by simplify_eq]. unfold accounted. cbn [pending set_pending] in Hr.
  destruct (Z.of_nat (length (unmined mined (pending s))) <? n)%Z; cbn [negb] in Hr; unfold modify, py_ret in Hr; simplify_eq.
  - split; [|done]. rewrite bool_decide_eq_false_2; [done|].
    destruct (unmined mined (pending s)) as [|[]]; cbn; [done|]. by case_decide.
  - done.
Qed.

Lemma fire_run s r s' :
  _fire_commitment s = (r, s') -> exists o, fired s.(worker) r o /\ s' = set_worker o s.
Proof.
  unfold _fire_commitment, py_bind, on_worker, try_finally, py_ret.
  destruct (power_unlock (worker s)) as [[[]|e] o1] eqn:Hu; cbn; [|intros [= <- <-]; exists o1; by split; [constructor|]].
  destruct (worker_confirm_address true o1) as [[h|e] o2] eqn:Hc; cbn.
  - destruct (worker_staking_provider_address o2) as [[a|e] o3] eqn:Ha; cbn;
      destruct (power_lock o3) as [[u|e'] o4] eqn:Hl; intros [= <- <-]; exists o4; (split; [|done]);
      first [eapply confirmed; [done..|] | eapply not_logged; [done..|]]; eexists; by split.
  - destruct (power_lock o2) as [[u|e'] o4] eqn:Hl; intros [= <- <-]; exists o4; (split; [|done]);
      (eapply not_confirmed; [exact Hu|exact Hc|]); eexists; by split.
Qed.

Lemma replacement_run now old s r s' :
  fire_replacement_commitment now old s = (r, s') ->
  exists res o, fired s.(worker) res o /\
    match res with
    | Ok h => r = Ok tt /\ s' = set_pending (dict_del (dict_set s.(pending) now (Tracked h)) old) (set_worker o s)
    | Raise e => r = Raise e /\ s' = set_worker o s
    end.
Proof.
  unfold fire_replacement_commitment, py_bind, modify.
  destruct (_fire_commitment s) as [res s1] eqn:Hf. apply fire_run in Hf as (o & Hf & ->).
  destruct res as [h|e]; intros [= <- <-]; [by exists (Ok h), o|by exists (Raise e), o].
Qed.

(** What becomes of the oldest transaction. *)
Lemma handle_replacement_run now s r s' :
  s.(pending) <> [] -> handle_replacement_commitment now s = (r, s') ->
  exists old tx, oldest s.(pending) old tx /\
    ((exists h expected, tx = Tracked h /\
        dict_get EXPECTED_CONFIRMATION_TIME_IN_SECONDS s.(gas_strategy) = Some expected /\
        (2 * ((now - old) * 14) < 3 * expected)%Z /\ r = Ok tt /\ s' = s) \/
     (exists h, tx = Tracked h /\ dict_get EXPECTED_CONFIRMATION_TIME_IN_SECONDS s.(gas_strategy) = None /\
        r = Raise KeyError /\ s' = s) \/
     (overdue s.(gas_strategy) now old tx /\ exists res o, fired s.(worker) res o /\
        match res with
        | Ok h => r = Ok tt /\ s' = set_pending (dict_del (dict_set s.(pending) now (Tracked h)) old) (set_worker o s)
        | Raise e => r = Raise e /\ s' = set_worker o s
        end)).
Proof.
  intros Hne. unfold handle_replacement_commitment, gets, py_bind at 1.
  destruct (sorted_items s.(pending)) as [|[old tx] rest] eqn:Hsort.
  { exfalso. apply Hne, Permutation_nil_r. by rewrite <-Hsort, sorted_items_perm. }
  intros Hr. exists old, tx. split; [by eapply sorted_items_oldest|]. revert Hr.
  destruct tx as [h|]; unfold py_bind at 1.
  - unfold max_confirmation_time_twice, py_bind, py_ret.
    destruct (dict_get EXPECTED_CONFIRMATION_TIME_IN_SECONDS _) as [expected|] eqn:He.
    2: { intros [= <- <-]. right. left. by exists h. }
    change AVERAGE_BLOCK_TIME_IN_SECONDS with 14%Z.
    destruct (Z.ltb_spec (2 * ((now - old) * 14)) (3 * expected)) as [Hlt|Hge].
    + intros [= <- <-]. left. by exists h, expected.
    + intros Hf%replacement_run. right. right. split; [|done]. right. by exists expected.
  - intros Hf%replacement_run. right. right. split; [by left|done].
Qed.

Lemma pause_run fails s r s' :
  on_worker (random_interval (Some fails)) s = (r, s') ->
  exists o, paused fails s.(worker) r o /\ s' = set_worker o s.
Proof.
  unfold on_worker, random_interval. destruct (Z.ltb_spec 0 fails).
  - intros [= <- <-]. exists s.(worker). by split; [apply retry_soon|].
  - destruct (randint _ _ _) as [r1 o] eqn:Hr. intros [= <- <-]. exists o. by split; [apply at_random|].
Qed.

(** What has become of [s]. *)
Definition updated (s : tracker) (p : list (Z * pending_tx)) (t : T) (o : O) : tracker :=
  set_pending p (set_task t (set_worker o s)).

Lemma fire_first_run now s r s' :
  s.(pending) = [] -> fire_first_commitment now s = (r, s') ->
  exists res o, fired s.(worker) res o /\
    match res with
    | Ok h => r = Ok tt /\ s' = set_pending [(now, Tracked h)] (set_worker o s)
    | Raise e => (already_confirmed e o /\ r = Ok tt \/ ~ already_confirmed e o /\ r = Raise e) /\ s' = set_worker o s
    end.
Proof.
  intros Hp. unfold fire_first_commitment, try_except, py_bind, modify.
  destruct (_fire_commitment s) as [res s1] eqn:Hf. apply fire_run in Hf as (o & Hf & ->).
  destruct res as [h|e].
  - intros [= <- <-]. exists (Ok h), o. cbn. rewrite Hp. by split_and!.
  - intros Hr. exists (Raise e), o. split; [done|]. revert Hr. unfold already_confirmed. cbn [worker set_worker].
    destruct (catches [ContractLogicError] e) eqn:He; [|intros [= <- <-]; split; [right; naive_solver|done]].
    change already_confirmed_text with "execution reverted: Operator address is already confirmed"%string.
    destruct (PREApplicationAgent.str_contains _ (error_text o)); intros [= <- <-]; split; auto; right; naive_solver.
Qed.

(** The half of a cycle that begins when nothing is pending. *)
Lemma do_first_work_run (s0 : tracker) now s o1 r s' :
  surveyed s0 now [] o1 -> s = updated s0 [] s0.(task) o1 -> do_first_work now s = (r, s') ->
  exists p t o, s' = updated s0 p t o /\ cycle_outcome s0 r p t o /\ dict_wf p.
Proof.
  intros Hsv Hs. unfold do_first_work, gets, set_task_interval, modify, py_ret. unfold py_bind at 1 2.
  destruct (on_worker _ s) as [ri s1] eqn:Hpa. apply pause_run in Hpa as (o2 & Hpa & ->). rewrite Hs in *. cbn in Hpa.
  destruct ri as [i|e]; [|intros [= <- <-]; exists [], s0.(task), o2; split_and!; [done|by eapply no_pause|constructor]].
  unfold py_bind at 1 2. destruct (_should_do_work_now _) as [rb s2] eqn:Ha. apply ask_run in Ha as (o3 & Ha & ->). cbn in Ha.
  destruct rb as [[|]|e]; cbn [negb].
  2,3: intros [= <- <-]; exists [], (set_interval i s0.(task)), o3; split_and!; [done| |constructor].
  2: by apply (no_work_now s0 now i (Ok false) o1 o2 o3).
  2: by apply (no_work_now s0 now i (Raise e) o1 o2 o3).
  unfold _final_work_prep_before_transaction, py_ret, py_bind, on_worker. cbn [worker set_worker].
  destruct (worker_get_staking_provider_address o3) as [[a|e] o4] eqn:Hb; cbn.
  2: { intros [= <- <-]. exists [], (set_interval i s0.(task)), o4.
       split_and!; [done| |constructor]. by apply (not_bonded s0 now i (Raise e) o1 o2 o3 o4). }
  case_bool_decide as Hnull; cbn.
  { intros [= <- <-]. exists [], (set_interval i s0.(task)), o4. split_and!; [done| |constructor].
    apply (not_bonded s0 now i (Ok a) o1 o2 o3 o4); [done..|]. by intros ? [= <-]. }
  intros Hf. apply fire_first_run in Hf as (res & o & Hf & Hr); [|done]. cbn in Hf.
  assert (free_to_fire s0 now i o4) as Hfree by by exists o1, o2, o3, a.
  destruct res as [h|e].
  - destruct Hr as [-> ->]. exists [(now, Tracked h)], (set_interval i s0.(task)), o.
    split_and!; [done|by eapply first_fired|apply NoDup_singleton].
  - destruct Hr as [Hr ->]. exists [], (set_interval i s0.(task)), o. split_and!; [done| |constructor].
    destruct Hr as [[Hc ->]|[Hc ->]]; [by eapply first_confirmed_before|by eapply first_failed].
Qed.

(** The half of a cycle that begins when a transaction is pending. *)
Lemma replacement_cycle_run (s0 : tracker) now p o1 r s' :
  surveyed s0 now p o1 -> p <> [] -> dict_wf p ->
  (handle_replacement_commitment now ;;; set_task_interval INTERVAL_FLOOR) (updated s0 p s0.(task) o1) = (r, s') ->
  exists p' t o, s' = updated s0 p' t o /\ cycle_outcome s0 r p' t o /\ dict_wf p'.
Proof.
  intros Hsv Hne Hwf. unfold py_bind, set_task_interval, modify.
  destruct (handle_replacement_commitment now _) as [rh sh] eqn:Hh.
  apply handle_replacement_run in Hh as (old & tx & Hold & Hcase); [|done]. cbn in Hold, Hcase.
  destruct Hcase as [(h & expected & -> & He & Hlt & -> & ->)|[(h & -> & He & -> & ->)|(Hov & res & o & Hf & Hr)]].
  - intros [= <- <-]. exists p, (set_interval 1 s0.(task)), o1. split_and!; [done|by eapply still_waiting|done].
  - intros [= <- <-]. exists p, s0.(task), o1. split_and!; [done|by eapply unknown_strategy|done].
  - destruct res as [h|e]; destruct Hr as [-> ->]; intros [= <- <-].
    + exists (dict_del (dict_set p now (Tracked h)) old), (set_interval 1 s0.(task)), o.
      split_and!; [done|by eapply replaced|by apply dict_del_wf, dict_set_wf].
    + exists p, s0.(task), o. split_and!; [done|by eapply replacement_failed|done].
Qed.

(** C9.  One cycle of the work tracker, on every branch, with every call it
    makes of the worker and the chain: it ends as [cycle_outcome] says, and
    nothing but the tracked transactions, the looping call and the worker has
    changed.  A transaction leaves the tracked ones only when the node has its
    receipt or when it is replaced; when the node counts more transactions of
    the account in its mempool than are tracked, an untracked one is added.
    With a transaction pending, the oldest is left alone exactly as long as,
    at the block the cycle has read, it has not waited one and a half times
    the confirmation time that the gas strategy expects; otherwise, or if it
    is the untracked one, it is replaced by the commitment that is fired, or
    the error of firing it ends the cycle.  With none pending, a first
    commitment is fired at that block if there is still work and the operator
    is bonded, and is then the only one tracked; a refusal because the
    operator is already confirmed is no error. *)
Theorem do_work_spec s r s' :
  dict_wf s.(pending) -> _do_work s = (r, s') ->
  exists p t o, s' = set_pending p (set_task t (set_worker o s)) /\ cycle_outcome s r p t o /\ dict_wf p.
Proof.
  intros Hwf. unfold _do_work, _all_work_completed, _prep_work_state, py_ret. unfold py_bind at 1 2.
  destruct (_should_do_work_now s) as [ra s1] eqn:Ha. apply ask_run in Ha as (o1 & Ha & ->).
  assert (forall o, set_worker o s = updated s s.(pending) s.(task) o) as Hsame by by destruct s.
  destruct ra as [[|]|e]; cbn [negb].
  3: { intros [= <- <-]. exists s.(pending), s.(task), o1. split_and!; [apply Hsame|by apply work_unknown|done]. }
  2: { unfold stop, on_task. cbn. destruct (running (task s)) eqn:Hrun.
       - destruct (task_stop (task s)) as [rt t] eqn:Ht. intros [= <- <-]. exists s.(pending), t, o1.
         split_and!; [by destruct s|by eapply work_completed_stops|done].
       - intros [= <- <-]. exists s.(pending), s.(task), o1. split_and!; [apply Hsame|by apply work_completed|done]. }
  unfold py_bind at 1, on_worker at 1. cbn [worker set_worker].
  destruct (client_block_number o1) as [[now|e] o2] eqn:Hb.
  2: { intros [= <- <-]. exists s.(pending), s.(task), o2. split_and!; [by destruct s|by eapply no_block|done]. }
  unfold py_bind at 1 2. cbn [negb].
  destruct (track_pending_commitments _) as [rt s3] eqn:Ht. apply track_pending_run in Ht as (mined & x & o3 & Hp & Hx); [|done].
  cbn [pending worker set_worker] in Hp, Hx. destruct x as [e|].
  { destruct Hx as [-> ->]. intros [= <- <-]. exists (unmined mined s.(pending)), s.(task), o3.
    split_and!; [by destruct s|eapply polling_failed; by exists o1, o2|by apply unmined_wf]. }
  assert (polled_at s now mined None o3) as Hat by by exists o1, o2.
  destruct Hx as (m & o & Hm & Hx). destruct m as [n|e].
  2: { destruct Hx as [-> ->]. intros [= <- <-]. exists (unmined mined s.(pending)), s.(task), o.
       split_and!; [by destruct s|by eapply counting_failed|by apply unmined_wf]. }
  set (p := accounted n (unmined mined (pending s))) in *. destruct Hx as [-> ->].
  assert (surveyed s now p o) as Hsv by by exists mined, o3, n.
  assert (dict_wf p) as Hpwf by (unfold p, accounted; case_match; [apply dict_set_wf|]; by apply unmined_wf).
  assert (set_pending p (set_worker o (set_worker o2 (set_worker o1 s))) = updated s p s.(task) o) as -> by by destruct s.
  clearbody p. case_bool_decide as Hnil; cbn [negb].
  - subst p. intros H. by eapply (do_first_work_run s now _ o).
  - by apply (replacement_cycle_run s now p o).
Qed.

(** The configuration is an invariant of every statement of a cycle. *)
Section Config.
Variable s0 : tracker.

Lemma config_on_worker {A} (m : PyM O A) : preserves (same_config s0) (on_worker m).
Proof. intros s Hs. unfold on_worker. destruct (m _). exact Hs. Qed.
Lemma config_modify f : (forall s, same_config s (f s)) -> preserves (same_config s0) (modify f).
Proof. intros Hf s Hs. by eapply same_config_trans. Qed.
Lemma config_should_do_work : preserves (same_config s0) _should_do_work_now.
Proof.
  intros s Hs. destruct (_should_do_work_now s) as [r s'] eqn:H. apply ask_run in H as (o & _ & ->). exact Hs.
Qed.
Lemma config_stop : preserves (same_config s0) stop.
Proof.
  intros s Hs. unfold stop, on_task. destruct (running _); [destruct (task_stop _)|]; exact Hs.
Qed.

#[local] Hint Resolve config_on_worker config_should_do_work config_stop : pym.
#[local] Hint Extern 1 (preserves _ (modify _)) => apply config_modify; intros; repeat split : pym.

Lemma config_fire : preserves (same_config s0) _fire_commitment.
Proof. unfold _fire_commitment. auto 10 with pym. Qed.

Lemma config_track_items items : preserves (same_config s0) (track_items items).
Proof.
  induction items as [|[b tx] items IH]; cbn [track_items]; [auto with pym|].
  unfold track_item. auto 12 with pym.
Qed.

#[local] Hint Resolve config_fire config_track_items : pym.

Lemma config_handle_replacement now : preserves (same_config s0) (handle_replacement_commitment now).
Proof.
  assert (preserves (same_config s0) max_confirmation_time_twice) as Hm.
  { intros s Hs. unfold max_confirmation_time_twice. by case_match. }
  unfold handle_replacement_commitment, fire_replacement_commitment. auto 12 with pym.
Qed.

Lemma config_fire_first now : preserves (same_config s0) (fire_first_commitment now).
Proof.
  unfold fire_first_commitment. apply preserves_try; [auto 10 with pym|]. intros e s Hs. by case_match.
Qed.

#[local] Hint Resolve config_handle_replacement config_fire_first : pym.

Lemma config_do_work : preserves (same_config s0) _do_work.
Proof.
  unfold _do_work, _all_work_completed, _prep_work_state, do_first_work,
    track_pending_commitments, commitments_tracker_is_consistent,
    _final_work_prep_before_transaction, set_task_interval.
  auto 30 with pym.
Qed.

End Config.

Lemma do_work_same_config s r s' : _do_work s = (r, s') -> same_config s s'.
Proof. intros H. generalize (config_do_work s s (same_config_refl s)). by rewrite H. Qed.

(** *** Runs of the tracker: cycles and the errback of a failed one. *)
Inductive tracker_step : tracker -> tracker -> Prop :=
  | step_cycle s s' : _do_work s = (Ok tt, s') -> tracker_step s s'
  | step_failure s e s1 r s' t :
      _do_work s = (Raise e, s1) -> running t = false ->
      handle_working_errors e (set_task t s1) = (r, s') -> tracker_step s s'.

Lemma start_requirement now req force s r s' :
  running s.(task) = false -> start now req force s = (r, s') ->
  s'.(requirement) = req /\ s'.(consecutive_fails) = s.(consecutive_fails) /\
  s'.(abort_on_error) = s.(abort_on_error) /\ s'.(pending) = s.(pending).
Proof.
  intros Hr. unfold start. rewrite Hr. unfold py_bind, modify, gets, on_worker, on_task. cbn [andb negb].
  destruct (maya_now _) as [[n|e] o1]; [|intros; by simplify_eq].
  cbn [worker set_worker set_start_time set_requirement consecutive_fails].
  destruct (random_interval _ o1) as [[i|e] o2]; [|intros; by simplify_eq].
  destruct (task_start _ _ _) as [r' t]; intros; by simplify_eq.
Qed.

(** A cycle never forgets a requirement of [None]: nothing sets it again. *)
Lemma tracker_step_no_requirement s s' :
  s.(requirement) = None -> s.(abort_on_error) = false -> tracker_step s s' ->
  s'.(requirement) = None /\ s'.(abort_on_error) = false.
Proof.
  intros Hr Ha Hs. destruct Hs as [s s' Hd|s e s1 r s' t Hd Ht Hh];
    apply do_work_same_config in Hd as (Hr1 & Hf1 & Hg1 & Ha1); [split; congruence|].
  unfold handle_working_errors in Hh. cbn in Hh. rewrite Ha1, Ha in Hh.
  apply start_requirement in Hh as (? & _ & Ha2 & _); [|done]. cbn in *. split; congruence.
Qed.

(** After one failed cycle the tracker never finishes: the retry in
    [handle_working_errors] restarts the task without the requirement
    callable, so in every later state, whatever the chain answers,
    [_all_work_completed] says [False] and no cycle stops the task, even
    when the operator is confirmed. *)
Theorem retry_forgets_requirement s e s1 t r s2 s3 :
  s.(abort_on_error) = false -> _do_work s = (Raise e, s1) -> running t = false ->
  handle_working_errors e (set_task t s1) = (r, s2) ->
  rtc tracker_step s2 s3 ->
  s2.(consecutive_fails) = (s.(consecutive_fails) + 1)%Z /\
  s3.(requirement) = None /\ _all_work_completed s3 = (Ok false, s3).
Proof.
  intros Ha Hd Ht Hh Hrtc. apply do_work_same_config in Hd as (_ & Hf1 & _ & Ha1).
  unfold handle_working_errors in Hh. cbn in Hh. rewrite Ha1, Ha in Hh.
  apply start_requirement in Hh as (Hr2 & Hf2 & Ha2 & _); [|done]. cbn in *.
  assert (s3.(requirement) = None /\ s3.(abort_on_error) = false) as [Hr3 _].
  { clear Hf1 Hf2. assert (s2.(abort_on_error) = false) as Ha3 by congruence. clear -Hrtc Hr2 Ha3.
    induction Hrtc as [s|s s' s'' Hs _ IH]; [done|].
    apply tracker_step_no_requirement in Hs as []; auto. }
  split_and!; [congruence|done|].
  unfold _all_work_completed, _should_do_work_now, py_bind, py_ret. by rewrite Hr3.
Qed.

End Tracker.
End WorkTracker.

(** *** A concrete worker and looping call *)

Module TrackerDemo.
Import WorkTracker.

(** The worker is the current block number; the node is down at block 0,
    finds no receipt and has one transaction in its mempool. *)
#[local] Instance demo_worker : Worker Z Z := {
  client_block_number := fun o => if (o =? 0)%Z then (Raise ConnectionError, o) else (Ok o, o);
  client_get_transaction_count := fun pending o => (Ok (if pending : bool then 1 else 0)%Z, o);
  client_get_transaction_receipt := fun _ o => (Raise TransactionNotFound, o);
  worker_get_staking_provider_address := fun o => (Ok "0xS"%string, o);
  worker_staking_provider_address := fun o => (Ok "0xS"%string, o);
  worker_confirm_address := fun _ o => (Ok (100 + o)%Z, o);
  power_unlock := fun o => (Ok tt, o);
  power_lock := fun o => (Ok tt, o);
  maya_now := fun o => (Ok o, o);
  randint := fun a _ o => (Ok a, o);
  error_text := fun _ => ""%string;
}.

(** A task is whether it runs, and its interval. *)
#[local] Instance demo_task : LoopingCall (bool * option Z) := {
  running := fst;
  interval := snd;
  set_interval := fun i t => (t.1, Some i);
  task_start := fun i _ t => if t.1 : bool then (Raise AssertionError, t) else (Ok tt, (true, Some i));
  task_stop := fun t => if t.1 : bool then (Ok tt, (false, t.2)) else (Raise AssertionError, t);
}.

(** The tracker of this worker and task. *)
Definition demo_state : Type := @tracker Z Z (bool * option Z).

Definition demo_tracker (block : Z) (p : list (Z * @pending_tx Z)) : demo_state :=
  set_pending p (new_tracker block (true, Some 1%Z) "fast").

(** A commitment of block 10 is overdue at block 17, where the replacement
    that the worker confirms then is tracked, and not at block 16. *)
Lemma do_work_spec_witness :
  (exists p t o, (_do_work (demo_tracker 17 [(10%Z, Tracked 7%Z)])).2
      = set_pending p (set_task t (set_worker o (demo_tracker 17 [(10%Z, Tracked 7%Z)]))) /\
    cycle_outcome (demo_tracker 17 [(10%Z, Tracked 7%Z)]) (Ok tt) p t o /\ p = [(17%Z, Tracked 117%Z)]) /\
  (_do_work (demo_tracker 16 [(10%Z, Tracked 7%Z)])).2.(pending) = [(10%Z, Tracked 7%Z)].
Proof.
  split; [|vm_compute; reflexivity].
  destruct (do_work_spec (demo_tracker 17 [(10%Z, Tracked 7%Z)]) (Ok tt)
           (_do_work (demo_tracker 17 [(10%Z, Tracked 7%Z)])).2) as (p & t & o & Hs & Hc & _).
  - unfold dict_wf, demo_tracker. cbn. apply NoDup_singleton.
  - vm_compute. reflexivity.
  - exists p, t, o. split; [exact Hs|]. split; [exact Hc|].
    apply (f_equal pending) in Hs. cbn in Hs. rewrite <- Hs. reflexivity.
Defined.

Definition failed_tracker : demo_state :=
  set_requirement (Some (fun o => (Ok (RBool true), o))) (demo_tracker 0 []).
Definition restarted_tracker : demo_state :=
  (handle_working_errors ConnectionError
     (set_task (false, Some 1%Z) (_do_work failed_tracker).2)).2.

Lemma retry_forgets_requirement_witness :
  restarted_tracker.(requirement) = None /\
  _all_work_completed restarted_tracker = (Ok false, restarted_tracker).
Proof.
  apply (retry_forgets_requirement failed_tracker ConnectionError (_do_work failed_tracker).2
           (false, Some 1%Z) (Ok tt) restarted_tracker restarted_tracker);
    [reflexivity | vm_compute; reflexivity | reflexivity | vm_compute; reflexivity | apply rtc_refl].
Defined.

End TrackerDemo.
