(* ===== verification/Porter.v ===== *)
(** * nulink/utilities/porter/porter.py

    Porter samples nodes on behalf of Alice: it builds a reservoir, learns
    until enough nodes are known, checks with a worker pool that the sampled
    nodes can be reached, and falls back on a fixed table of nodes when the
    pool does not find enough.  What it needs of a learner is the class
    [PorterLearner], which the learner of Nodes.v implements. *)

From Stdlib Require Import Ascii.
From S2P Require Import Prelude Text Concurrency Sampler Agents Reservoir Perception Nodes.

Class PorterLearner (L Ursula : Type) := {
  known : L -> list (string * Ursula);
  (* number, timeout, eager, with [learn_on_this_thread] *)
  block_until_number : Z -> Z -> bool -> PyM L bool;
  block_until_number_ok : forall number timeout eager l b l',
    block_until_number number timeout eager l = (Ok b, l') ->
    b = true /\ (number <= Z.of_nat (length (known l')))%Z;
}.

Module Porter.

(** The module's dict [nulink_workers]: uri and encrypting key. *)
Definition nulink_workers : list (string * (string * string)) :=
  [("0x8a4471142f0d635D29BFd2634E1cD8f439677072",
    ("https://8.222.131.226:9151", "037f6e0bb9456a0f7093ac1ca3a46365baf401c9d77807a34ccfc3b21862b89d9b"));
   ("0x5058339Ca16a2ef04aFE34aaE507209A67B0c067",
    ("https://8.222.146.98:9151", "023dde62beba5e8cceed29b4e96fb1b9d67da06ff53ad0d3ae3e19eb4c5b5c86ae"));
   ("0xC5FD9Ca4Ce6C8BBf0dA3355D8941E411638786C4",
    ("https://8.222.155.168:9151", "02d76fa2b7058f6d8e69cd767c54694493ed6c77ebc9a301741045450834763cbf"))]%string.

Definition DEFAULT_EXECUTION_TIMEOUT : Z := 15.

Section Porter.
Context {L Ursula PublicKey G W Receipt : Type} `{!PorterLearner L Ursula} `{!Rng G} `{!Chain W Receipt}.
Variable to_checksum_address : string -> string.
(** [PublicKey.from_bytes]. *)
Variable key_from_bytes : bytes -> result PublicKey.
(** [f"{ursula.rest_interface.formal_uri}"], [ursula.rest_interface.uri] and [ursula.public_keys(DecryptingPower)]. *)
Variable uri_of : Ursula -> string.
Variable plain_uri_of : Ursula -> string.
Variable encrypting_key_of : Ursula -> result PublicKey.

(** [Porter.UrsulaInfo]. *)
Record UrsulaInfo := UrsulaInfo_ {
  checksum_address : string;
  uri : string;
  encrypting_key : PublicKey;
}.

(** ** The fixed workers *)

Definition worker_info (w : string * (string * string)) : result (string * UrsulaInfo) :=
  let? b := fromhex (to_bytes w.2.2) in
  let? k := key_from_bytes b in
  let a := to_checksum_address w.1 in
  Ok (a, UrsulaInfo_ a w.2.1 k).

Fixpoint worker_infos (ws : list (string * (string * string))) (d : list (string * UrsulaInfo))
    : result (list (string * UrsulaInfo)) :=
  match ws with
  | [] => Ok d
  | w :: ws' => let? ki := worker_info w in worker_infos ws' (dict_set d ki.1 ki.2)
  end.

(** [random_dic]: the same dict in the order of a shuffle. *)
Definition random_dic {A} (order : list string) (d : list (string * A)) : list (string * A) :=
  omap (fun k => pair k <$> dict_get d k) order.

Definition is_order {A} (order : list string) (d : list (string * A)) : Prop := Permutation order d.*1.

(** [get_nulink_workers], given the order of the shuffle. *)
Definition get_nulink_workers (order : list string) : result (list (string * UrsulaInfo)) :=
  let? d := worker_infos nulink_workers [] in Ok (random_dic order d).

Definition get_nulink_worker_addresses : list string :=
  remove_dups (to_checksum_address <$> nulink_workers.*1).

(** [while len > target: popitem()]; fuel for one more round than there are
    items is enough, since [popitem] raises on an empty dict. *)
Fixpoint popitems (fuel : nat) (target : Z) (d : list (string * UrsulaInfo)) : result (list (string * UrsulaInfo)) :=
  match fuel with
  | 0 => Raise KeyError
  | S fuel' =>
      if (target <? Z.of_nat (length d))%Z
      then match d with [] => Raise KeyError | _ => popitems fuel' target (removelast d) end
      else Ok d
  end.

Definition get_enough_ursulas (order : list string) (target_successes : Z) (successes : list (string * UrsulaInfo))
    : result (list (string * UrsulaInfo)) :=
  let? workers := get_nulink_workers order in
  let enough := dict_update successes workers in
  popitems (S (length enough)) target_successes enough.

(** [get_enough_ursulas_from_nulink_worker]. *)
Definition get_enough_ursulas_from_nulink_worker (order : list string) (quantity : Z)
    : result (list (string * UrsulaInfo)) :=
  let? workers := get_nulink_workers order in
  if (Z.of_nat (length workers) <? quantity)%Z then Ok []
  else popitems (S (length workers)) quantity workers.

(** ** The reservoir *)

Variable iter_set : list string -> list string.
Variable address_of_int : Z -> string.
Variable is_light : bool.
Variables light_size full_size : Z.

(** [_make_reservoir]; [None] when the paged read has no fuel left. *)
Definition _make_reservoir (federated_only : bool) (quantity : Z)
    (exclude_ursulas include_ursulas : option (list string)) (g : G) (s : L * W)
    : option (result Reservoir.merged * (L * W)) :=
  if federated_only then
    let sample_size := (quantity - Z.of_nat (length (default [] include_ursulas)))%Z in
    match block_until_number sample_size DEFAULT_EXECUTION_TIMEOUT false s.1 with
    | (Raise e, l) => Some (Raise e, (l, s.2))
    | (Ok false, l) => Some (Raise ValueError, (l, s.2))
    | (Ok true, l) =>
        Some (Ok (Reservoir.make_federated_staker_reservoir iter_set (known l).*1 exclude_ursulas include_ursulas g),
              (l, s.2))
    end
  else
    match Reservoir.make_decentralized_staking_provider_reservoir iter_set address_of_int is_light light_size full_size
            exclude_ursulas include_ursulas None s.2 g with
    | None => None
    | Some (r, w) => Some (r, (s.1, w))
    end.

(** ** Sampling *)

(** [get_ursula_info], given the answer to the ping: any response will do. *)
Definition get_ursula_info (nodes : list (string * Ursula)) (ursula_address : string) (response : result unit)
    : result UrsulaInfo :=
  match dict_get nodes (to_checksum_address ursula_address) with
  | None => Raise ValueError
  | Some ursula =>
      let? _ := response in
      let? k := encrypting_key_of ursula in
      Ok (UrsulaInfo_ (to_checksum_address ursula_address) (uri_of ursula) k)
  end.

(** How the network may answer a ping of a node, and what may become of the
    learner while the pool's threads run. *)
Variable ping : Ursula -> result unit -> Prop.
Variable learns : L -> L -> Prop.

(** A worker that runs when the learner has come from [l] to [l']. *)
Definition info_worker (l : L) (address : string) (o : result UrsulaInfo) : Prop :=
  exists l' response, rtc learns l l' /\
    (forall u, dict_get (known l') (to_checksum_address address) = Some u -> ping u response) /\
    o = get_ursula_info (known l') address response.

Section GetUrsulas.
Variable quantity : Z.
Variable max_threads : nat.

Definition pool_config : WorkerPool.config :=
  {| WorkerPool.target_successes := quantity; WorkerPool.max_threads := max_threads |}.

Notation pool := (WorkerPool.pool (V:=string) (R:=UrsulaInfo) (F:=Reservoir.prefetch (G:=G))).

(** The handler of the timeout and of the exhausted reservoir. *)
Definition successes_or_enough (order : list string) (blocked : result (list (string * UrsulaInfo))) (s : pool)
    : result (list (string * UrsulaInfo)) :=
  match blocked with
  | Ok successes => Ok successes
  | Raise ex =>
      if catches [TimedOut; OutOfValues] ex then
        let? workers := get_enough_ursulas order quantity (WorkerPool.get_successes s) in
        if (quantity <=? Z.of_nat (length workers))%Z then Ok workers else Raise ex
      else Raise ex
  end.

(** The pool part: started at [f], blocked from [s0] to [s1], and its
    successes read in [s2]; it is cancelled but not joined. *)
Inductive sampled (l : L) (f : Reservoir.prefetch) : result (list UrsulaInfo) -> Prop :=
  | Sampled s0 s1 s2 blocked order :
      WorkerPool.reachable pool_config (info_worker l) f s0 ->
      rtc (WorkerPool.step pool_config (info_worker l)) s0 s1 ->
      WorkerPool.block_until_target_successes s0 s1 = Some blocked ->
      rtc (WorkerPool.step pool_config (info_worker l)) s1 s2 ->
      (forall d, worker_infos nulink_workers [] = Ok d -> is_order order d) ->
      sampled l f (let? successes := successes_or_enough order blocked s2 in Ok successes.*2).

(** [get_ursulas]. *)
Inductive get_ursulas (federated_only : bool) (exclude_ursulas include_ursulas : option (list string)) (g : G) (s : L * W)
    : result (list UrsulaInfo) -> Prop :=
  | No_reservoir e s' :
      _make_reservoir federated_only quantity exclude_ursulas include_ursulas g s = Some (Raise e, s') ->
      get_ursulas federated_only exclude_ursulas include_ursulas g s (Raise e)
  | Not_enough_known reservoir s' e l :
      _make_reservoir federated_only quantity exclude_ursulas include_ursulas g s = Some (Ok reservoir, s') ->
      block_until_number quantity DEFAULT_EXECUTION_TIMEOUT true s'.1 = (Raise e, l) ->
      get_ursulas federated_only exclude_ursulas include_ursulas g s (Raise e)
  | Sampled_from reservoir s' b l r :
      _make_reservoir federated_only quantity exclude_ursulas include_ursulas g s = Some (Ok reservoir, s') ->
      block_until_number quantity DEFAULT_EXECUTION_TIMEOUT true s'.1 = (Ok b, l) ->
      sampled l (Reservoir.Prefetch reservoir quantity) r ->
      get_ursulas federated_only exclude_ursulas include_ursulas g s r.

(** [get_ursulas_total]. *)
Definition get_ursulas_total (return_list : bool) (l : L) : nat * option (list (string * string)) :=
  (length (known l),
   if return_list then Some ((fun au => (au.1, plain_uri_of au.2)) <$> known l) else None).

End GetUrsulas.

(** ** What is returned *)

(** A node that the learner, come from [l], knew, and that answered the ping. *)
Definition answered (l : L) (i : UrsulaInfo) : Prop :=
  exists l' u, rtc learns l l' /\ dict_get (known l') i.(checksum_address) = Some u /\ ping u (Ok tt) /\
    i.(uri) = uri_of u /\ encrypting_key_of u = Ok i.(encrypting_key).

(** One of the fixed workers. *)
Definition fixed_worker (i : UrsulaInfo) : Prop :=
  exists w, w ∈ nulink_workers /\ worker_info w = Ok (i.(checksum_address), i).

Lemma info_worker_ok l a i : info_worker l a (Ok i) ->
  i.(checksum_address) = to_checksum_address a /\ answered l i.
Proof.
  intros (l' & resp & Hl & Hping & Ho). unfold get_ursula_info in Ho.
  destruct (dict_get (known l') (to_checksum_address a)) as [u|] eqn:Hu; [|done].
  destruct resp as [[]|e]; [|done]. cbn [rbind] in Ho.
  destruct (encrypting_key_of u) as [k|e] eqn:Hk; [|done]. injection Ho as ->. split; [done|].
  exists l', u. cbn. split_and!; auto.
Qed.

Lemma worker_infos_ok ws d0 d :
  ws ⊆ nulink_workers -> worker_infos ws d0 = Ok d -> dict_wf d0 ->
  (forall k i, (k, i) ∈ d0 -> i.(checksum_address) = k /\ fixed_worker i) ->
  dict_wf d /\ forall k i, (k, i) ∈ d -> i.(checksum_address) = k /\ fixed_worker i.
Proof.
  revert d0. induction ws as [|w ws IH]; intros d0 Hsub; cbn [worker_infos]; [by intros [= ->]|].
  unfold worker_info. destruct (fromhex (to_bytes w.2.2)) as [b|e] eqn:Hb; [|done]. cbn [rbind].
  destruct (key_from_bytes b) as [key|e] eqn:Hkey; [|done]. cbn [rbind fst snd]. intros Hws Hwf Hd0.
  eapply IH; [set_solver|exact Hws|by apply dict_set_wf|].
  intros k i [[= -> ->]|Hin]%dict_set_elem_of; [|by apply Hd0]. split; [done|]. exists w. split; [set_solver|].
  unfold worker_info. rewrite Hb. cbn [rbind]. by rewrite Hkey.
Qed.

Lemma random_dic_elem {A} order (d : list (string * A)) k i : (k, i) ∈ random_dic order d -> (k, i) ∈ d.
Proof.
  unfold random_dic. intros (k' & _ & Hk)%list_elem_of_omap. apply fmap_Some in Hk as (x & Hx & [= <- <-]).
  by apply dict_get_elem_of.
Qed.

Lemma dict_update_elem {A} (d e : list (string * A)) kv : kv ∈ dict_update d e -> kv ∈ d \/ kv ∈ e.
Proof.
  unfold dict_update. revert d. induction e as [|[k v] e IH]; intros d; cbn; [by left|].
  intros [[->|?]%dict_set_elem_of|?]%IH; [right; left|by left|right; by right].
Qed.

Lemma popitems_ok fuel target d d' : popitems fuel target d = Ok d' ->
  (Z.of_nat (length d') <= target)%Z /\ exists rest, d = d' ++ rest.
Proof.
  revert d. induction fuel as [|fuel IH]; intros d; cbn [popitems]; [done|].
  destruct (Z.ltb_spec target (Z.of_nat (length d))); [|intros [= ->]; split; [lia|exists []; by rewrite app_nil_r]].
  destruct d as [|x d] using rev_ind; [done|clear IHd].
  destruct (d ++ [x]) eqn:Hdx; [done|]. rewrite <- Hdx, removelast_last.
  intros [Hl [rest ->]]%IH. split; [done|]. exists (rest ++ [x]). by rewrite app_assoc.
Qed.

(** A dict of the successes of the pool and of fixed workers, by the
    addresses they were drawn as. *)
Definition sound_entry (l : L) (reservoir : Reservoir.merged (G:=G)) (k : string) (i : UrsulaInfo) : Prop :=
  (i.(checksum_address) = to_checksum_address k /\ answered l i /\
    forall vs lv, Reservoir.holds reservoir vs lv -> k ∈ vs ++ lv) \/
  (i.(checksum_address) = k /\ fixed_worker i).

Lemma success_sound quantity max_threads l reservoir s k i :
  WorkerPool.reachable (pool_config quantity max_threads) (info_worker l) (Reservoir.Prefetch reservoir quantity) s ->
  (k, i) ∈ s.(WorkerPool.successes) -> sound_entry l reservoir k i.
Proof.
  intros Hr Hin. pose proof Hr as [[_ Hs _] _]%WorkerPool.reachable_inv.
  destruct (info_worker_ok l k i (Hs k i Hin)) as [Hk Ha]. left. split_and!; [done|done|].
  intros vs lv Hh. by apply (Reservoir.successes_within _ _ (Reservoir.Prefetch reservoir quantity) s vs lv k i Hh Hr).
Qed.

Lemma sampled_sound quantity max_threads l reservoir infos :
  sampled quantity max_threads l (Reservoir.Prefetch reservoir quantity) (Ok infos) ->
  exists d, infos = d.*2 /\ Z.of_nat (length d) = quantity /\ dict_wf d /\
    forall k i, (k, i) ∈ d -> sound_entry l reservoir k i.
Proof.
  intros Hs. inversion Hs as [s0 s1 s2 blocked order Hr0 H01 Hb H12 Horder Hres]; clear Hs.
  destruct (successes_or_enough quantity order blocked s2) as [d|e] eqn:Hd; [|done]. injection Hres as <-.
  exists d. split; [done|].
  assert (WorkerPool.reachable (pool_config quantity max_threads) (info_worker l) (Reservoir.Prefetch reservoir quantity) s1)
    as Hr1 by (unfold WorkerPool.reachable in *; by etrans).
  assert (WorkerPool.reachable (pool_config quantity max_threads) (info_worker l) (Reservoir.Prefetch reservoir quantity) s2)
    as Hr2 by (unfold WorkerPool.reachable in *; by etrans).
  unfold successes_or_enough in Hd. destruct blocked as [d'|ex].
  - injection Hd as ->. apply WorkerPool.block_ok in Hb.
    pose proof Hr1 as [[Hwf1 _ _] Hci]%WorkerPool.reachable_inv.
    pose proof (WorkerPool.ci_target _ _ Hci) as Ht. rewrite Hb in Ht. destruct Ht as (_ & -> & Hlen).
    split_and!; [exact Hlen|done|]. intros k i. by eapply success_sound.
  - destruct (catches _ ex); [|done]. unfold get_enough_ursulas, get_nulink_workers in Hd.
    destruct (worker_infos nulink_workers []) as [ws|e] eqn:Hws; [|done]. cbn [rbind] in Hd.
    set (enough := dict_update _ _) in Hd. destruct (popitems (S (length enough)) quantity enough) as [d'|e] eqn:Hpop; [|done].
    cbn [rbind] in Hd. destruct (Z.leb_spec quantity (Z.of_nat (length d'))); [|done]. injection Hd as ->.
    apply popitems_ok in Hpop as [Hle [rest Hrest]]. split; [lia|].
    pose proof Hr2 as [[Hwf2 _ _] _]%WorkerPool.reachable_inv.
    destruct (worker_infos_ok _ _ _ (reflexivity _) Hws) as [_ Hfix];
      [constructor|by intros k i ?%elem_of_nil|].
    assert (dict_wf enough) as Hwfe by by apply dict_update_wf.
    split; [unfold dict_wf in *; rewrite Hrest, fmap_app in Hwfe; by apply NoDup_app in Hwfe as [? _]|].
    intros k i Hin. assert ((k, i) ∈ enough) as [Hs|Hw]%dict_update_elem by (rewrite Hrest; set_solver).
    + by eapply success_sound.
    + right. by apply Hfix, random_dic_elem with order.
Qed.

(** Distinct keys that are checksum addresses name distinct nodes. *)
Lemma distinct_addresses (d : list (string * UrsulaInfo)) :
  dict_wf d -> (forall k i, (k, i) ∈ d -> i.(checksum_address) = k) -> NoDup (checksum_address <$> d.*2).
Proof.
  intros Hwf Hk. replace (checksum_address <$> d.*2) with d.*1; [done|]. clear Hwf.
  induction d as [|[k i] d IH]; [done|]. csimpl. rewrite (Hk k i) by left. f_equal.
  apply IH. intros k' i' Hin. apply Hk. by right.
Qed.

(** C34.  Whatever the interleaving of the pool's threads, whatever nodes answer and
    whatever the learner learns meanwhile, [get_ursulas] returns exactly as
    many nodes as were asked for: the values of a dict whose keys are the
    addresses they were drawn as.  Each is either a node drawn from the
    reservoir made for the excluded and included addresses, which the learner
    that waited for enough nodes knew and which answered the ping, with its own
    uri and encrypting key; or one of the fixed workers.  The addresses of the
    returned nodes are distinct when all that the reservoir holds are
    checksum addresses; two spellings of one address would be two nodes. *)
Theorem get_ursulas_sound quantity max_threads federated_only exclude include g s infos :
  get_ursulas quantity max_threads federated_only exclude include g s (Ok infos) ->
  exists reservoir s' b l d,
    _make_reservoir federated_only quantity exclude include g s = Some (Ok reservoir, s') /\
    block_until_number quantity DEFAULT_EXECUTION_TIMEOUT true s'.1 = (Ok b, l) /\
    infos = d.*2 /\ Z.of_nat (length infos) = quantity /\ dict_wf d /\
    (forall k i, (k, i) ∈ d ->
      (i.(checksum_address) = to_checksum_address k /\ answered l i /\
        forall vs lv, Reservoir.holds reservoir vs lv -> k ∈ vs ++ lv) \/
      (i.(checksum_address) = k /\ fixed_worker i)) /\
    forall vs lv, Reservoir.holds reservoir vs lv -> (forall k, k ∈ vs ++ lv -> to_checksum_address k = k) ->
      NoDup (checksum_address <$> infos).
Proof.
  intros Hg. inversion Hg as [| |reservoir s' b l r Hmake Hblock Hs]; subst; clear Hg.
  apply sampled_sound in Hs as (d & -> & Hlen & Hwf & Hin).
  exists reservoir, s', b, l, d. rewrite length_fmap. split_and!; [done..|].
  intros vs lv Hh Hck. apply distinct_addresses; [done|]. intros k i Hki.
  destruct (Hin k i Hki) as [(-> & _ & Hk)|[-> _]]; [|done]. apply Hck. by apply Hk.
Qed.

End Porter.
End Porter.

(** ** The learner of Nodes.v *)

Section LearnerInstance.
Context {Checksum Nickname E Bytes Response : Type} `{!Learner.Network E Checksum Bytes Response}.
Variable FleetStateChecksum : option string -> list string -> Checksum.
Variable nickname_from_seed : Checksum -> Nickname.
Variable iter_nodes : list Perception.node -> list Perception.node.
Variable iter_addresses : list string -> list string.
Variable fuel : nat.
Variable reactor_running : bool.

Notation learner := (Learner.learner (Checksum := Checksum) (Nickname := Nickname) (E := E)).

(** [block_until_number_of_known_nodes_is], learning on this thread; by
    [blocking_calls_end] 161 rounds are enough for Porter's timeout. *)
Definition learner_block_number (number timeout : Z) (eager : bool) : PyM learner bool := fun l =>
  match Learner.block_until_number_of_known_nodes_is FleetStateChecksum nickname_from_seed iter_nodes iter_addresses
          fuel number timeout true eager reactor_running l with
  | Some (r, l') => (r, l')
  | None => (Raise BaseException, l)
  end.

#[local] Program Instance learner_porter : PorterLearner learner Perception.node := {|
  known l := l.(Learner._known_nodes).(Perception._current_state).(Perception._nodes);
  block_until_number := learner_block_number;
|}.
Next Obligation.
  intros number timeout eager l b l'. unfold learner_block_number, Learner.block_until_number_of_known_nodes_is.
  destruct (Learner.while_true fuel _ l) as [[r l1]|] eqn:Hw; [|done]. intros [= -> ->].
  apply Learner.while_true_inv in Hw as [l0 Hb]. by apply Learner.block_number_returns in Hb.
Qed.

End LearnerInstance.

(** ** Evaluated *)

Module PorterDemo.
Import Porter.

(** One known node, which is down; all fixed workers are excluded. *)
Definition demo_known : list (string * string) := [("0xn1", "n1")]%string.

#[local] Program Instance demo_learner : PorterLearner unit string := {|
  known _ := demo_known;
  block_until_number n _ _ l := if (n <=? 1)%Z then (Ok true, l) else (Raise NotEnoughNodes, l);
|}.
Next Obligation. intros n t e l b l'. cbn. destruct (Z.leb_spec n 1); [|done]. intros [= <- _]. split; [done|lia]. Qed.

Definition demo_ping (u : string) (r : result unit) : Prop := r = Raise RequestsConnectionError.
Definition demo_key (b : bytes) : result nat := Ok (length b).
Definition info : Type := UrsulaInfo (PublicKey := nat).

Definition demo_reservoir : Reservoir.prefetch (G := list Z) :=
  Reservoir.Prefetch (Reservoir.Merged ["0xn1"]%string (WeightedSampler.init []) []) 1.

Definition demo_schedule : list (WorkerPool.action (R := info)) :=
  [WorkerPool.AProducer; WorkerPool.AProducer; WorkerPool.AProducer; WorkerPool.AProducer; WorkerPool.AProducer;
   WorkerPool.AWorkerStart; WorkerPool.AWorkerFinish 0 (Raise RequestsConnectionError);
   WorkerPool.AProducer; WorkerPool.AProducer; WorkerPool.AProducer; WorkerPool.AProducer;
   WorkerPool.AProcessor; WorkerPool.AProcessor; WorkerPool.AProcessor; WorkerPool.AProcessor].

Definition demo_pool : WorkerPool.pool (V:=string) (R:=info) (F:=Reservoir.prefetch (G:=list Z)) :=
  WorkerPool.run_state (pool_config 1 1) demo_schedule demo_reservoir.

Definition demo_ok (a : string) (o : result info) : bool :=
  match o with Raise RequestsConnectionError => bool_decide (a = "0xn1"%string) | _ => false end.

(** The learner learns nothing. *)
Definition demo_learns (l l' : unit) : Prop := False.

Notation demo_worker := (info_worker (fun a => a) (fun u => u) (fun _ => Ok 0) demo_ping demo_learns tt).

Lemma porter_pool_reachable : WorkerPool.reachable (pool_config 1 1) demo_worker demo_reservoir demo_pool.
Proof.
  apply (WorkerPool.allowed_run_reachable _ _ demo_schedule); [|vm_compute; reflexivity].
  apply (WorkerPool.allowed_runb_ok _ _ demo_ok); [|vm_compute; reflexivity].
  intros a o Ho. unfold demo_ok in Ho. destruct o as [i|[]]; try done.
  apply bool_decide_eq_true in Ho as ->. exists tt, (Raise RequestsConnectionError). by split; [constructor|].
Qed.

Definition demo_order : list string := nulink_workers.*1.
Definition demo_result : list info :=
  match get_enough_ursulas (fun a => a) demo_key demo_order 1 [] with Ok d => d.*2 | Raise _ => [] end.

Lemma demo_sampled : sampled (fun a => a) demo_key (fun u => u) (fun _ => Ok 0) demo_ping demo_learns 1 1 tt demo_reservoir (Ok demo_result).
Proof.
  apply (Sampled (fun a => a) demo_key (fun u => u) (fun _ => Ok 0) demo_ping demo_learns 1 1 tt demo_reservoir
    demo_pool demo_pool demo_pool (Raise OutOfValues) demo_order).
  - apply porter_pool_reachable.
  - constructor.
  - vm_compute. reflexivity.
  - constructor.
  - intros d Hd. vm_compute in Hd. injection Hd as <-. unfold is_order, demo_order. reflexivity.
Qed.

Definition demo_get_ursulas (infos : result (list info)) : Prop :=
  get_ursulas (L := unit) (fun a => a) demo_key (fun u => u) (fun _ => Ok 0) (fun l => l) (fun _ => EmptyString) false 10 10
    demo_ping demo_learns 1 1 true (Some demo_order) (Some ["0xn1"]%string) [] (tt, tt) infos.

(** The fallback of [get_ursulas] does not look at [exclude_ursulas] and asks
    no node: with every fixed worker excluded and the only other node down,
    one node is asked for and an excluded one is returned, which no ping has
    reached and which the learner does not even know. *)
Theorem excluded_workers_come_back :
  exists i, demo_get_ursulas (Ok [i]) /\ i.(checksum_address) ∈ demo_order /\
    dict_get demo_known i.(checksum_address) = None.
Proof.
  exists (UrsulaInfo_ "0x8a4471142f0d635D29BFd2634E1cD8f439677072" "https://8.222.131.226:9151" 33).
  split; [|split; [by left|reflexivity]].
  eapply Sampled_from; [reflexivity|reflexivity|exact demo_sampled].
Qed.

Lemma get_ursulas_sound_witness :
  Z.of_nat (length demo_result) = 1%Z.
Proof.
  destruct (get_ursulas_sound (L := unit) (fun a => a) demo_key (fun u => u) (fun _ => Ok 0) (fun l => l)
    (fun _ => EmptyString) false 10 10 demo_ping demo_learns 1 1 true (Some demo_order) (Some ["0xn1"]%string) []
    (tt, tt) demo_result) as (reservoir & s' & b & l & d & _ & _ & _ & Hlen & _).
  - eapply Sampled_from; [reflexivity|reflexivity|exact demo_sampled].
  - exact Hlen.
Defined.

End PorterDemo.
