(* ===== verification/Actors.v ===== *)
(** * nulink/blockchain/eth/actors.py

    The operator of a node: its bond, its confirmation and the wait until it
    is ready, as the worker of the work tracker of Token.v; and the token
    balance of an actor.  The contracts and the node that answers are the
    class [OperatorChain]. *)

From S2P Require Import Prelude Token.

(** What an operator asks of the chain, the account that signs for it and the
    clock. *)
Class OperatorChain (W TxHash : Type) := {
  get_staking_provider_from_operator : string -> PyM W string;
  is_operator_confirmed : string -> PyM W bool;
  confirm_operator_address : bool -> PyM W TxHash;
  eth_get_balance : string -> PyM W Z;
  chain_block_number : PyM W Z;
  chain_transaction_count : string -> bool -> PyM W Z;
  chain_transaction_receipt : TxHash -> PyM W Z;
  unlock_account : PyM W unit;
  lock_account : PyM W unit;
  now_seconds : W -> Z;
  time_sleep : Z -> PyM W unit;
  random_randint : Z -> Z -> PyM W Z;
  last_error_text : W -> string;
}.

Module Operator.
Section Operator.
Context {W TxHash Nickname : Type} `{!OperatorChain W TxHash}.
(** [Nickname.from_seed]. *)
Variable nickname_from_seed : string -> Nickname.

Definition READY_POLL_RATE : Z := 10.

(** The attributes of an [Operator]; an address that is [None] is not known yet. *)
Record operator := Mk_operator {
  operator_address : string;
  _staking_provider_address : option string;
  checksum_address : option string;
  nickname : option Nickname;
  world : W;
}.

Definition set_provider (a : string) (s : operator) : operator :=
  Mk_operator s.(operator_address) (Some a) (Some a) (Some (nickname_from_seed a)) s.(world).
Definition set_world (w : W) (s : operator) : operator :=
  Mk_operator s.(operator_address) s.(_staking_provider_address) s.(checksum_address) s.(nickname) w.

Definition on_world {A} (m : PyM W A) : PyM operator A := fun s =>
  let '(r, w) := m s.(world) in (r, set_world w s).

Definition get_staking_provider_address : PyM operator string :=
  me <- gets operator_address ;;
  a <- on_world (get_staking_provider_from_operator me) ;;
  modify (set_provider a) ;;;
  py_ret a.

(** The property: asked once, then cached; an empty string is no address. *)
Definition staking_provider_address : PyM operator string :=
  cached <- gets _staking_provider_address ;;
  match cached with
  | Some EmptyString | None => get_staking_provider_address
  | Some a => py_ret a
  end.

Definition is_confirmed : PyM operator bool :=
  me <- gets operator_address ;; on_world (is_operator_confirmed me).

Definition confirm_address (fire_and_forget : bool) : PyM operator TxHash :=
  on_world (confirm_operator_address fire_and_forget).

(** [get_work_is_needed_check]. *)
Definition get_work_is_needed_check : PyM operator requirement_value :=
  confirmed <- is_confirmed ;; py_ret (RBool (negb confirmed)).

(** The operator as the worker of the work tracker. *)
#[global] Instance operator_worker : Worker operator TxHash := {
  client_block_number := on_world chain_block_number;
  client_get_transaction_count := fun pending =>
    me <- gets operator_address ;; on_world (chain_transaction_count me pending);
  client_get_transaction_receipt := fun h => on_world (chain_transaction_receipt h);
  worker_get_staking_provider_address := get_staking_provider_address;
  worker_staking_provider_address := staking_provider_address;
  worker_confirm_address := confirm_address;
  power_unlock := on_world unlock_account;
  power_lock := on_world lock_account;
  maya_now := gets (fun s => now_seconds s.(world));
  randint := fun a b => on_world (random_randint a b);
  error_text := fun s => last_error_text s.(world);
}.

(** [timeout or self.READY_TIMEOUT] is [None], so no timeout, for 0. *)
Definition timed_out (timeout : option Z) (start : Z) (s : operator) : bool :=
  match timeout with
  | Some t => negb (t =? 0)%Z && (t <? now_seconds s.(world) - start)%Z
  | None => false
  end.

(** [funded]: the balance is asked until it is not 0. *)
Definition check_funded (funded : bool) : PyM operator bool :=
  if funded then py_ret true
  else me <- gets operator_address ;;
       balance <- on_world (eth_get_balance me) ;;
       py_ret (negb (balance =? 0)%Z).

(** [bonded]: the provider is asked until it is not the null address; the
    message of success reads the property once more. *)
Definition check_bonded (bonded : bool) : PyM operator bool :=
  if bonded then py_ret true
  else a <- get_staking_provider_address ;;
       if bool_decide (a = NULL_ADDRESS) then py_ret false
       else staking_provider_address ;;; py_ret true.

(** One round of [block_until_ready]: whether the operator is funded and bonded. *)
Definition ready_round (poll_rate : Z) (timeout : option Z) (start : Z) (funded bonded : bool)
    : PyM operator (bool * bool) := fun s =>
  if timed_out timeout start s then (Raise ActorError, s)
  else
    (funded' <- check_funded funded ;;
     bonded' <- check_bonded bonded ;;
     on_world (time_sleep poll_rate) ;;;
     py_ret (funded', bonded')) s.

(** The loop, [None] when the fuel runs out. *)
Fixpoint ready_loop (fuel : nat) (poll_rate : Z) (timeout : option Z) (start : Z) (funded bonded : bool)
    (s : operator) : option (result unit * operator) :=
  if funded && bonded then Some (Ok tt, s)
  else match fuel with
       | 0 => None
       | S fuel' =>
           match ready_round poll_rate timeout start funded bonded s with
           | (Ok (f, b), s') => ready_loop fuel' poll_rate timeout start f b s'
           | (Raise e, s') => Some (Raise e, s')
           end
       end.

Definition block_until_ready (fuel : nat) (poll_rate : option Z) (timeout : option Z) (s : operator)
    : option (result unit * operator) :=
  let rate := match poll_rate with Some 0%Z | None => READY_POLL_RATE | Some r => r end in
  ready_loop fuel rate timeout (now_seconds s.(world)) false false s.

(** *** Properties *)

(** The chain has said, in some state, that the operator is bonded to [a]. *)
Definition bonded_to (a : string) : Prop :=
  a <> NULL_ADDRESS /\ exists o w w', get_staking_provider_from_operator o w = (Ok a, w').

(** What the local flag [bonded] stands for. *)
Definition bond_known (bonded : bool) (s : operator) : Prop :=
  bonded = true -> exists a, s.(_staking_provider_address) = Some a /\ bonded_to a.

Lemma get_provider_ok s a s' :
  get_staking_provider_address s = (Ok a, s') ->
  s'.(_staking_provider_address) = Some a /\
  exists w, get_staking_provider_from_operator s.(operator_address) s.(world) = (Ok a, w).
Proof.
  unfold get_staking_provider_address, py_bind, gets, on_world, modify, py_ret.
  destruct (get_staking_provider_from_operator _ _) as [[a'|e] w]; [|done].
  intros; simplify_eq. cbn. eauto.
Qed.

Lemma cached_provider s a :
  s.(_staking_provider_address) = Some a -> a <> EmptyString ->
  staking_provider_address s = (Ok a, s).
Proof.
  intros Ha Hne. unfold staking_provider_address, py_bind, gets. rewrite Ha. by destruct a.
Qed.

Lemma check_funded_keeps funded s fd s' :
  check_funded funded s = (Ok fd, s') ->
  s'.(_staking_provider_address) = s.(_staking_provider_address).
Proof.
  unfold check_funded. destruct funded; unfold py_ret, py_bind, gets, on_world; [intros; by simplify_eq|].
  destruct (eth_get_balance _ _) as [[bal|e] w]; intros; by simplify_eq.
Qed.

Section Bond.
(** A contract answers with a checksum address, which is not an empty text. *)
Hypothesis provider_not_empty : forall o w w',
  get_staking_provider_from_operator o w <> (Ok EmptyString, w').

Lemma check_bonded_bond bonded s b s' :
  bond_known bonded s -> check_bonded bonded s = (Ok b, s') -> bond_known b s'.
Proof.
  intros Hk. unfold check_bonded. destruct bonded; [unfold py_ret; intros; by simplify_eq|].
  unfold py_bind at 1. destruct (get_staking_provider_address s) as [[a|e] s1] eqn:Ha; [|done].
  apply get_provider_ok in Ha as [Hp [w Hw]].
  case_bool_decide as Hn; [unfold py_ret; intros; simplify_eq; by intros ?|].
  assert (a <> EmptyString) as Hne by (intros ->; by eapply provider_not_empty).
  unfold py_bind. rewrite (cached_provider _ _ Hp Hne). unfold py_ret. intros; simplify_eq.
  intros _. exists a. split; [done|]. split; [done|]. eauto.
Qed.

Lemma ready_round_bond rate timeout start funded bonded s f b s' :
  bond_known bonded s -> ready_round rate timeout start funded bonded s = (Ok (f, b), s') ->
  bond_known b s'.
Proof.
  intros Hk. unfold ready_round. destruct (timed_out _ _ _); [done|].
  unfold py_bind at 1. destruct (check_funded funded s) as [[fd|e] s1] eqn:H1; [|done].
  apply check_funded_keeps in H1.
  unfold py_bind at 1. destruct (check_bonded bonded s1) as [[bd|e] s2] eqn:H2; [|done].
  apply check_bonded_bond in H2; [|by unfold bond_known; rewrite H1].
  unfold py_bind, on_world, py_ret. destruct (time_sleep _ _) as [[[]|e] w']; [|done].
  intros; by simplify_eq.
Qed.

Lemma ready_loop_bond fuel rate timeout start funded bonded s s' :
  bond_known bonded s -> ready_loop fuel rate timeout start funded bonded s = Some (Ok tt, s') ->
  bond_known true s'.
Proof.
  revert funded bonded s. induction fuel as [|fuel IH]; intros funded bonded s Hk; simpl;
    (destruct (funded && bonded) eqn:Hfb;
     [apply andb_true_iff in Hfb as [_ ->]; intros; by simplify_eq|]); [done|].
  destruct (ready_round _ _ _ _ _ _) as [[[f b]|e] s1] eqn:Hr; [|done].
  apply IH. by eapply ready_round_bond.
Qed.

(** Calls of the chain do not turn the clock back, and a sleep lasts. *)
Hypothesis balance_time : forall a w, (now_seconds w <= now_seconds (eth_get_balance a w).2)%Z.
Hypothesis provider_time : forall a w,
  (now_seconds w <= now_seconds (get_staking_provider_from_operator a w).2)%Z.
Hypothesis sleep_time : forall t w, (now_seconds w + t <= now_seconds (time_sleep t w).2)%Z.

Lemma get_provider_time s :
  (now_seconds s.(world) <= now_seconds (get_staking_provider_address s).2.(world))%Z.
Proof.
  unfold get_staking_provider_address, py_bind, gets, on_world, modify, py_ret.
  pose proof (provider_time s.(operator_address) s.(world)) as Hp.
  by destruct (get_staking_provider_from_operator _ _) as [[a|e] w].
Qed.

Lemma staking_provider_address_time s :
  (now_seconds s.(world) <= now_seconds (staking_provider_address s).2.(world))%Z.
Proof.
  unfold staking_provider_address, py_bind, gets.
  destruct (_staking_provider_address s) as [[|]|]; [apply get_provider_time|cbn; lia|apply get_provider_time].
Qed.

Lemma check_funded_time funded s :
  (now_seconds s.(world) <= now_seconds (check_funded funded s).2.(world))%Z.
Proof.
  unfold check_funded. destruct funded; unfold py_ret, py_bind, gets, on_world; [cbn; lia|].
  pose proof (balance_time s.(operator_address) s.(world)) as Hb.
  by destruct (eth_get_balance _ _) as [[bal|e] w].
Qed.

Lemma check_bonded_time bonded s :
  (now_seconds s.(world) <= now_seconds (check_bonded bonded s).2.(world))%Z.
Proof.
  unfold check_bonded. destruct bonded; [cbn; lia|]. unfold py_bind at 1.
  pose proof (get_provider_time s) as Hp.
  destruct (get_staking_provider_address s) as [[a|e] s1]; [|done].
  case_bool_decide; [done|]. unfold py_bind. pose proof (staking_provider_address_time s1) as Hq.
  destruct (staking_provider_address s1) as [[a'|e] s2]; cbn in *; lia.
Qed.

Lemma ready_round_time rate timeout start funded bonded s f b s' :
  ready_round rate timeout start funded bonded s = (Ok (f, b), s') ->
  (now_seconds s.(world) + rate <= now_seconds s'.(world))%Z /\ timed_out timeout start s = false.
Proof.
  unfold ready_round. destruct (timed_out _ _ _); [done|].
  pose proof (check_funded_time funded s) as Hf.
  unfold py_bind at 1. destruct (check_funded funded s) as [[fd|e] s1]; [|done].
  pose proof (check_bonded_time bonded s1) as Hg.
  unfold py_bind at 1. destruct (check_bonded bonded s1) as [[bd|e] s2]; [|done].
  unfold py_bind, on_world, py_ret. pose proof (sleep_time rate s2.(world)) as Hs.
  destruct (time_sleep rate _) as [[[]|e] w]; [|done]. intros; simplify_eq. cbn in *. split; [lia|done].
Qed.

Lemma ready_loop_total fuel rate t start funded bonded s :
  (0 < rate)%Z -> (0 < t)%Z -> (t < now_seconds s.(world) - start + rate * (Z.of_nat fuel - 1))%Z ->
  1 <= fuel -> is_Some (ready_loop fuel rate (Some t) start funded bonded s).
Proof.
  intros Hr Ht. revert funded bonded s. induction fuel as [|fuel IH]; intros funded bonded s Hb Hf; [lia|].
  simpl. destruct (funded && bonded); [by eexists|].
  destruct (ready_round _ _ _ _ _ _) as [[[f b]|e] s1] eqn:Hround; [|by eexists].
  apply ready_round_time in Hround as [Htime Hto]. unfold timed_out in Hto.
  rewrite (proj2 (Z.eqb_neq t 0)) in Hto by lia. cbn in Hto. apply Z.ltb_ge in Hto.
  apply IH; [nia|]. destruct fuel; [nia|lia].
Qed.

(** Waiting for readiness ends and tells the truth: with a timeout and a
    clock that runs, [block_until_ready] ends within one round per second of
    the timeout and two more; when it returns, the operator has cached the
    address of a staking provider that is not the null address and that the
    chain has named. *)
Theorem block_until_ready_spec rate t s :
  (0 < rate)%Z -> (0 < t)%Z ->
  exists r s', block_until_ready (Z.to_nat t + 3) (Some rate) (Some t) s = Some (r, s') /\
    (r = Ok tt -> exists a, s'.(_staking_provider_address) = Some a /\ bonded_to a).
Proof.
  intros Hr Ht. unfold block_until_ready.
  assert (match rate with 0%Z => READY_POLL_RATE | _ => rate end = rate) as Hrate by (destruct rate; lia).
  rewrite Hrate.
  destruct (ready_loop_total (Z.to_nat t + 3) rate t (now_seconds s.(world)) false false s) as [[r s'] Hl];
    [done|done|nia|lia|].
  exists r, s'. split; [done|]. intros ->. by eapply ready_loop_bond in Hl; [apply Hl|].
Qed.

End Bond.
End Operator.

Arguments operator : clear implicits.

(** *** A chain that funds the operator at once and bonds it after a while *)

Module OperatorDemo.

(** The world is the clock. *)
#[local] Instance demo_chain : OperatorChain Z string := {
  get_staking_provider_from_operator := fun _ w =>
    (Ok (if (w <? 20)%Z then NULL_ADDRESS else "0xProvider"%string), w);
  is_operator_confirmed := fun _ w => (Ok false, w);
  confirm_operator_address := fun _ w => (Ok "0xTx"%string, w);
  eth_get_balance := fun _ w => (Ok 5%Z, w);
  chain_block_number := fun w => (Ok w, w);
  chain_transaction_count := fun _ _ w => (Ok 0%Z, w);
  chain_transaction_receipt := fun _ w => (Ok w, w);
  unlock_account := fun w => (Ok tt, w);
  lock_account := fun w => (Ok tt, w);
  now_seconds := fun w => w;
  time_sleep := fun t w => (Ok tt, (w + t)%Z);
  random_randint := fun a _ w => (Ok a, w);
  last_error_text := fun _ => EmptyString;
}.

Definition start : operator Z string := Mk_operator "0xOperator"%string None None None 0%Z.

Lemma demo_provider_not_empty (o : string) (w w' : Z) :
  get_staking_provider_from_operator o w <> (Ok EmptyString, w').
Proof. cbn. by destruct (w <? 20)%Z. Qed.

(** Bonded in time: the provider's address is cached.  Not in time: ActorError. *)
Lemma block_until_ready_spec_witness :
  (block_until_ready (fun a => a) 63 (Some 10%Z) (Some 60%Z) start =
     Some (Ok tt, Mk_operator "0xOperator"%string (Some "0xProvider"%string) (Some "0xProvider"%string)
                    (Some "0xProvider"%string) 30%Z)) /\
  (exists s', block_until_ready (fun a => a) 8 (Some 7%Z) (Some 5%Z) start = Some (Raise ActorError, s')) /\
  (exists r s', block_until_ready (fun a => a) 63 (Some 10%Z) (Some 60%Z) start = Some (r, s') /\
    (r = Ok tt -> exists a, s'.(_staking_provider_address) = Some a /\ bonded_to a)).
Proof.
  split; [by vm_compute|]. split; [eexists; by vm_compute|].
  apply (block_until_ready_spec (fun a => a) demo_provider_not_empty
           (fun _ w => Z.le_refl w) (fun _ w => Z.le_refl w) (fun t w => Z.le_refl (w + t)) 10 60 start); lia.
Defined.

End OperatorDemo.
End Operator.

(** ** NulinkTokenActor *)

Module TokenActor.
Section TokenActor.
Context {W : Type}.
Variable to_wei : Z -> string -> result Z.
Variable get_balance : PyM W Z.

(** [token_balance]. *)
Definition token_balance : PyM W Z :=
  balance <- get_balance ;; lift (NLK.init to_wei NLK.NLK_class balance "NlkUNits").

(** The denomination is not one of [NLK]: the balance can never be read. *)
Lemma token_balance_raises w balance w' :
  get_balance w = (Ok balance, w') -> token_balance w = (Raise InvalidDenomination, w').
Proof. intros Hb. unfold token_balance, py_bind. by rewrite Hb. Qed.

End TokenActor.
End TokenActor.
