(* ===== verification/Trackers.v ===== *)
(** * nulink/network/trackers.py and nulink/utilities/task.py

    The tracker of the node's own availability, the task that restarts a node
    once its operator is bonded, and the periodic task they are built on.
    Scores are rationals where the code has floats: every score is far from
    the thresholds compared with float rounding.  The node itself, its
    middleware and the clock are the class [Ursula]. *)

From Stdlib Require Import QArith Qpower Lqa.
From S2P Require Import Prelude Token.

#[local] Open Scope Z_scope.

(** ** SimpleTask *)

Module SimpleTask.
Section Task.
Context {T : Type} `{!LoopingCall T}.

Definition start (INTERVAL : Z) (now : bool) : PyM T unit := fun t =>
  if negb (running t) then task_start INTERVAL now t else (Ok tt, t).

Definition stop : PyM T unit := fun t =>
  if running t then task_stop t else (Ok tt, t).

End Task.
End SimpleTask.

(** ** The availability tracker *)

(** A reason handed to [record]: a dict with one key, or another object that
    has no keys, such as the text or the method that a [BadRequest] carries. *)
Inductive reason := RDict (key text : string) | ROther (truthy : bool).

(** [bool(reason)]. *)
Definition reason_truthy (r : reason) : bool :=
  match r with RDict _ _ => true | ROther truthy => truthy end.

(** What the tracker asks of its node: the nodes known, whether the node is a
    lone one, a stop, the availability check of its middleware (the status
    code), the reason of the last [BadRequest], the clock and
    [random.sample]. *)
Class Ursula (U Node : Type) := {
  known_nodes : U -> list Node;
  lonely : U -> bool;
  checksum_address : Node -> string;
  ursula_stop : PyM U unit;
  check_availability : Node -> PyM U Z;
  bad_request_reason : U -> reason;
  epoch_now : U -> Z;
  random_sample : list Node -> nat -> PyM U (list Node);
  reactor_stop : PyM U unit;
}.

Module AvailabilityTracker.

Definition FAST_INTERVAL : Z := 15.
Definition SLOW_INTERVAL : Z := 60 * 2.
Definition SEEDING_DURATION : Z := 60.
Definition MAXIMUM_ALONE_TIME : Z := 120.
Definition MAXIMUM_SCORE : Q := 10.
Definition SAMPLE_SIZE : nat := 1.
Definition SENSITIVITY : Q := 1 # 2.
Definition CHARGE_RATE : Q := 9 # 10.

Inductive warning := mild_warning | medium_warning | severe_warning | shutdown_everything_.

Section Tracker.
Context {U Node T : Type} `{!Ursula U Node, !LoopingCall T}.

(** The attributes of an [AvailabilityTracker]; [issued] is the log of the warnings. *)
Record tracker := Mk_tracker {
  enforce_loneliness : bool;
  excuses : list (Z * reason);
  score : Q;
  start_time : option Z;
  active_measurement : bool;
  task : T;
  responders : list string;
  issued : list warning;
  ursula : U;
}.
Definition set_enforce_loneliness (x : bool) (s : tracker) : tracker :=
  Mk_tracker x (s.(excuses)) (s.(score)) (s.(start_time)) (s.(active_measurement)) (s.(task)) (s.(responders)) (s.(issued)) (s.(ursula)).
Definition set_excuses (x : list (Z * reason)) (s : tracker) : tracker :=
  Mk_tracker (s.(enforce_loneliness)) x (s.(score)) (s.(start_time)) (s.(active_measurement)) (s.(task)) (s.(responders)) (s.(issued)) (s.(ursula)).
Definition set_score (x : Q) (s : tracker) : tracker :=
  Mk_tracker (s.(enforce_loneliness)) (s.(excuses)) x (s.(start_time)) (s.(active_measurement)) (s.(task)) (s.(responders)) (s.(issued)) (s.(ursula)).
Definition set_start_time (x : option Z) (s : tracker) : tracker :=
  Mk_tracker (s.(enforce_loneliness)) (s.(excuses)) (s.(score)) x (s.(active_measurement)) (s.(task)) (s.(responders)) (s.(issued)) (s.(ursula)).
Definition set_active_measurement (x : bool) (s : tracker) : tracker :=
  Mk_tracker (s.(enforce_loneliness)) (s.(excuses)) (s.(score)) (s.(start_time)) x (s.(task)) (s.(responders)) (s.(issued)) (s.(ursula)).
Definition set_task (x : T) (s : tracker) : tracker :=
  Mk_tracker (s.(enforce_loneliness)) (s.(excuses)) (s.(score)) (s.(start_time)) (s.(active_measurement)) x (s.(responders)) (s.(issued)) (s.(ursula)).
Definition set_responders (x : list string) (s : tracker) : tracker :=
  Mk_tracker (s.(enforce_loneliness)) (s.(excuses)) (s.(score)) (s.(start_time)) (s.(active_measurement)) (s.(task)) x (s.(issued)) (s.(ursula)).
Definition set_issued (x : list warning) (s : tracker) : tracker :=
  Mk_tracker (s.(enforce_loneliness)) (s.(excuses)) (s.(score)) (s.(start_time)) (s.(active_measurement)) (s.(task)) (s.(responders)) x (s.(ursula)).
Definition set_ursula (x : U) (s : tracker) : tracker :=
  Mk_tracker (s.(enforce_loneliness)) (s.(excuses)) (s.(score)) (s.(start_time)) (s.(active_measurement)) (s.(task)) (s.(responders)) (s.(issued)) x.

(** [AvailabilityTracker.__init__]. *)
Definition new_tracker (enforce : bool) (t : T) (u : U) : tracker :=
  Mk_tracker enforce [] 10 None false t [] [] u.

Definition on_ursula {A} (m : PyM U A) : PyM tracker A := fun s =>
  let '(r, u) := m s.(ursula) in (r, set_ursula u s).

Definition warn (w : warning) : PyM tracker unit := modify (fun s => set_issued (s.(issued) ++ [w]) s).

(** [shutdown_everything]: stop the node, then raise. *)
Definition shutdown_everything (why : option exn_class) (halt_reactor : bool) : PyM tracker unit :=
  warn shutdown_everything_ ;;;
  on_ursula ursula_stop ;;;
  try_finally
    (match why with Some e => raise e | None => raise NodeUnreachable end)
    (if halt_reactor then on_ursula reactor_stop else py_ret tt).

(** [status]: a low score also logs each excuse's ["error"]. *)
Definition excuse_error (r : reason) : result string :=
  match r with
  | RDict key text => if decide (key = "error"%string) then Ok text else Raise KeyError
  | ROther _ => Raise TypeError
  end.

Definition status : PyM tracker bool := fun s =>
  if negb (Qle_bool s.(score) (SENSITIVITY * MAXIMUM_SCORE)) then (Ok true, s)
  else (for_each s.(excuses) (fun kv => lift (rbind (excuse_error kv.2) (fun _ => Ok tt))) ;;;
        py_ret false) s.

Definition record_score (passed : bool) (old : Q) : Q :=
  let new := ((if passed then 1 else 0) + CHARGE_RATE * old)%Q in
  if Qle_bool MAXIMUM_SCORE new then MAXIMUM_SCORE else new.

(** [record]: a falsy result with a reason is noted; [None] is not scored. *)
Definition record (result_ : option bool) (why : option reason) : PyM tracker unit := fun s =>
  let falsy := match result_ with Some true => false | _ => true end in
  let s1 := match why with
            | Some r => if falsy && reason_truthy r
                        then set_excuses (dict_set s.(excuses) (epoch_now s.(ursula)) r) s else s
            | None => s
            end in
  match result_ with
  | None => (Ok tt, s1)
  | Some b => (Ok tt, set_score (record_score b s1.(score)) s1)
  end.

(** [responders.add]. *)
Definition add_responder (n : Node) : PyM tracker unit :=
  modify (fun s => if decide (checksum_address n ∈ s.(responders)) then s
                   else set_responders (s.(responders) ++ [checksum_address n]) s).

Definition measure (n : Node) : PyM tracker unit := fun s =>
  match on_ursula (check_availability n) s with
  | (Raise e, s1) =>
      if catches [BadRequest] e then
        (add_responder n ;;; record (Some false) (Some (bad_request_reason s1.(ursula)))) s1
      else (Raise e, s1)
  | (Ok status_code, s1) =>
      (add_responder n ;;;
       if status_code =? 200 then record (Some true) None
       else if status_code =? 400 then
         record (Some false) (Some (RDict "failed" (checksum_address n ++ " reported unavailability.")))
       else record None (Some (RDict "error" (checksum_address n ++ " returned another code")))) s1
  end.

Definition sample (quantity : nat) : PyM tracker (list Node) :=
  u <- gets ursula ;; on_ursula (random_sample (known_nodes u) quantity).

(** One turn of the loop of [measure_sample]: a [NotFound] is noted and not
    scored, a node that seems down is skipped. *)
Definition measure_one (n : Node) : PyM tracker unit :=
  try_except
    (try_except (measure n) [NotFound]
       (fun _ => record None (Some (RDict "error" "Remote node did not support 'ping' endpoint."))))
    (NodeSeemsToBeDown ++ [NotStaking; UnexpectedResponse]) (fun _ => py_ret tt).

Definition measure_sample (ursulas : list Node) : PyM tracker unit :=
  us <- match ursulas with [] => sample SAMPLE_SIZE | _ => py_ret ursulas end ;;
  for_each us measure_one.

Definition warnings : list (Z * warning) :=
  [(9, mild_warning); (7, medium_warning); (2, severe_warning); (1, shutdown_everything_)].

(** [sorted(self.warnings.items(), key=...)]. *)
Definition sorted_warnings : list (Z * warning) :=
  [(1, shutdown_everything_); (2, severe_warning); (7, medium_warning); (9, mild_warning)].

Definition act (w : warning) : PyM tracker unit :=
  match w with shutdown_everything_ => shutdown_everything None false | _ => warn w end.

Fixpoint issue_from (cascade : bool) (ws : list (Z * warning)) : PyM tracker unit :=
  match ws with
  | [] => py_ret tt
  | (threshold, w) :: ws' =>
      sc <- gets score ;;
      if Qle_bool sc (inject_Z threshold) then
        act w ;;; if negb cascade then py_ret tt else issue_from cascade ws'
      else issue_from cascade ws'
  end.

Definition issue_warnings (cascade : bool) : PyM tracker unit := issue_from cascade sorted_warnings.

(** [now - self._start_time.epoch]. *)
Definition elapsed : PyM tracker Z := fun s =>
  match s.(start_time) with
  | Some t0 => (Ok (epoch_now s.(ursula) - t0), s)
  | None => (Raise AttributeError, s)
  end.

(** The branch of [maintain] for too few known nodes. *)
Definition maintain_alone : PyM tracker unit := fun s =>
  if negb (lonely s.(ursula)) && s.(enforce_loneliness) then
    (delta <- elapsed ;;
     if MAXIMUM_ALONE_TIME <=? delta then
       warn severe_warning ;;;
       u <- gets ursula ;;
       shutdown_everything (Some (if bool_decide (length (known_nodes u) = 0%nat) then Solitary else Lonely)) false
     else py_ret tt) s
  else (Ok tt, s).

(** The rest of [maintain] once the interval is settled. *)
Definition maintain_measure : PyM tracker unit := fun s =>
  if s.(active_measurement) then (Ok tt, s)
  else
    (try_finally (measure_sample []) (modify (set_active_measurement false)) ;;;
     t0 <- gets start_time ;;
     (match t0 with Some _ => py_ret tt | None => raise TypeError end) ;;;
     issue_warnings true) (set_active_measurement true s).

Definition maintain : PyM tracker unit := fun s =>
  if bool_decide (length (known_nodes s.(ursula)) < SAMPLE_SIZE)%nat then maintain_alone s
  else if bool_decide (interval s.(task) = Some FAST_INTERVAL) then
    (delta <- elapsed ;;
     if SEEDING_DURATION <=? delta then
       modify (fun s => set_task (set_interval SLOW_INTERVAL s.(task)) s)
     else maintain_measure) s
  else maintain_measure s.

Definition start (now : bool) : PyM tracker unit := fun s =>
  if negb (running s.(task)) then
    let s1 := set_start_time (Some (epoch_now s.(ursula))) s in
    let '(r, t) := task_start FAST_INTERVAL now s1.(task) in (r, set_task t s1)
  else (Ok tt, s).

Definition stop : PyM tracker unit := fun s =>
  if running s.(task) then let '(r, t) := task_stop s.(task) in (r, set_task t s) else (Ok tt, s).

(** [handle_measurement_errors(crash_on_error, *args)]: with a failure among
    [args], raise it when told to; with none, restart. *)
Definition handle_measurement_errors (crash_on_error : bool) (args : list exn_class)
    : PyM tracker unit := fun s =>
  match args with
  | e :: _ => if crash_on_error then (Raise e, s) else (Ok tt, s)
  | [] => if negb (running s.(task)) then start true s else (Ok tt, s)
  end.

(** As an errback it gets the failure, which is truthy, as its first
    positional argument and nothing in [args]. *)
Definition errback (failure : exn_class) : PyM tracker unit := handle_measurement_errors true [].

(** *** Properties *)

Definition score_ok (s : tracker) : Prop := (0 < s.(score) /\ s.(score) <= 10)%Q.

Lemma record_score_bounds b q :
  (0 < q <= 10)%Q -> (0 < record_score b q <= 10)%Q.
Proof.
  intros [H0 H1]. unfold record_score, MAXIMUM_SCORE, CHARGE_RATE.
  destruct (Qle_bool _ _) eqn:He; [split; lra|].
  assert (~ (10 <= (if b then 1 else 0) + (9 # 10) * q)%Q) as Hn.
  { intros Hle%Qle_bool_iff. congruence. }
  destruct b; split; lra.
Qed.

(** A predicate on the score and the flag alone survives every call. *)
Lemma score_ok_on_ursula {A} (m : PyM U A) : preserves score_ok (on_ursula m).
Proof. intros s Hs. unfold on_ursula. destruct (m _). exact Hs. Qed.

Lemma score_ok_modify f : (forall s, score (f s) = score s) -> preserves score_ok (modify f).
Proof. intros Hf s Hs. unfold score_ok, modify in *. simpl. by rewrite Hf. Qed.

Lemma score_ok_record b why : preserves score_ok (record b why).
Proof.
  intros s Hs. unfold record.
  assert (forall s1, score s1 = score s -> score_ok s1) as Hsame by (intros s1 Hq; unfold score_ok in *; by rewrite Hq).
  destruct b as [b|]; cbn [snd]; [unfold score_ok; cbn; apply record_score_bounds|apply Hsame];
    repeat case_match; try done; exact Hs.
Qed.

Lemma score_ok_add_responder n : preserves score_ok (add_responder n).
Proof. apply score_ok_modify. intros s. by case_decide. Qed.

#[local] Hint Resolve score_ok_on_ursula score_ok_record score_ok_add_responder : pym.

Lemma score_ok_measure n : preserves score_ok (measure n).
Proof.
  intros s Hs. unfold measure.
  pose proof (score_ok_on_ursula (check_availability n) s Hs) as H1.
  destruct (on_ursula _ s) as [[code|e] s1]; cbn [snd] in H1.
  - revert s1 H1. change (preserves score_ok (add_responder n ;;;
      if code =? 200 then record (Some true) None
      else if code =? 400 then
        record (Some false) (Some (RDict "failed" (checksum_address n ++ " reported unavailability.")))
      else record None (Some (RDict "error" (checksum_address n ++ " returned another code"))))).
    auto with pym.
  - destruct (catches _ e); [|done]. apply preserves_bind; auto with pym.
Qed.

Lemma score_ok_measure_sample us : preserves score_ok (measure_sample us).
Proof.
  pose proof score_ok_measure. unfold measure_sample, sample, measure_one. auto 12 with pym.
Qed.

(** The warnings a score calls for, in the order they are issued. *)
Definition due_warnings (q : Q) : list warning :=
  (filter (fun tw => Qle_bool q (inject_Z tw.1) = true) sorted_warnings).*2.

Lemma act_score w : w <> shutdown_everything_ -> forall s,
  act w s = (Ok tt, set_issued (s.(issued) ++ [w]) s).
Proof. by destruct w. Qed.

Lemma Qle_bool_false a b : Qle_bool a b = false -> (b < a)%Q.
Proof. intros H. apply Qnot_le_lt. intros Hle%Qle_bool_iff. congruence. Qed.

(** Above the last threshold the due warnings are logged and nothing is raised. *)
Lemma issue_from_warns ws s :
  Forall (fun tw => tw.2 <> shutdown_everything_) ws ->
  exists s', issue_from true ws s = (Ok tt, s') /\ s'.(score) = s.(score) /\
    s'.(active_measurement) = s.(active_measurement) /\
    s'.(issued) = s.(issued) ++ (filter (fun tw => Qle_bool s.(score) (inject_Z tw.1) = true) ws).*2.
Proof.
  revert s. induction ws as [|[t w] ws IH]; intros s Hw.
  { exists s. by rewrite app_nil_r. }
  apply Forall_cons in Hw as [Hw Hws]. cbn [issue_from]. unfold py_bind, gets.
  rewrite filter_cons. cbn [fst]. destruct (Qle_bool (score s) (inject_Z t)) eqn:Hq.
  - rewrite (act_score w Hw). cbn [negb].
    destruct (IH (set_issued (s.(issued) ++ [w]) s) Hws) as (s' & -> & Hs & Ha & Hi).
    exists s'. split_and!; [done..|]. rewrite Hi, decide_True by done. csimpl. by rewrite <-(assoc_L (++)).
  - rewrite decide_False by done. by apply IH.
Qed.

Lemma issue_warnings_spec s :
  exists r s', issue_warnings true s = (r, s') /\ s'.(score) = s.(score) /\
    s'.(active_measurement) = s.(active_measurement) /\
    (s.(score) <= 1 -> (exists e, r = Raise e) /\ s'.(issued) = s.(issued) ++ [shutdown_everything_])%Q /\
    (1 < s.(score) -> r = Ok tt /\ s'.(issued) = s.(issued) ++ due_warnings s.(score))%Q.
Proof.
  unfold issue_warnings, due_warnings, sorted_warnings. rewrite filter_cons. cbn [fst].
  cbn [issue_from]. unfold py_bind at 1, gets at 1.
  destruct (Qle_bool (score s) (inject_Z 1)) eqn:Hq.
  - cbn [act]. unfold shutdown_everything, try_finally, raise, py_ret, warn, modify, on_ursula, py_bind.
    cbn. destruct (ursula_stop _) as [[u|e] u']; cbn;
      (do 2 eexists; split_and!; [reflexivity|done|done|eauto|]);
      intros Hlt; apply Qle_bool_iff in Hq; unfold inject_Z in Hq; exfalso; lra.
  - rewrite decide_False by done. apply Qle_bool_false in Hq. unfold inject_Z in Hq.
    edestruct (issue_from_warns [(2, severe_warning); (7, medium_warning); (9, mild_warning)] s)
      as (s' & Hrun & Hs & Ha & Hi).
    { repeat constructor; done. }
    exists (Ok tt), s'. split_and!; [exact Hrun|done|done|intros; exfalso; lra|done].
Qed.

(** The branch for too few nodes never measures. *)
Lemma maintain_alone_spec s :
  let '(r, s') := maintain_alone s in
  s'.(score) = s.(score) /\ s'.(active_measurement) = s.(active_measurement) /\
  (r = Ok tt -> s'.(issued) = s.(issued)).
Proof.
  unfold maintain_alone. destruct (_ && _); [|done].
  unfold py_bind at 1, elapsed. destruct (start_time s); [|done].
  destruct (_ <=? _); [|done].
  unfold shutdown_everything, try_finally, raise, py_ret, warn, modify, gets, on_ursula, py_bind. cbn.
  by destruct (ursula_stop _) as [[u|e] u'].
Qed.

Lemma maintain_measure_spec s :
  score_ok s -> s.(active_measurement) = false ->
  let '(r, s') := maintain_measure s in
  score_ok s' /\ s'.(active_measurement) = false /\ (r = Ok tt -> (1 < s'.(score))%Q).
Proof.
  intros Hs Ha. unfold maintain_measure. rewrite Ha. unfold py_bind at 1, try_finally, modify.
  pose proof (score_ok_measure_sample [] (set_active_measurement true s) Hs) as Hm.
  destruct (measure_sample [] _) as [[u|e] s1]; cbn [snd] in Hm; [|done].
  unfold gets, py_bind at 1 2. cbn [start_time set_active_measurement].
  destruct (start_time s1); [|done]. unfold py_ret.
  destruct (issue_warnings_spec (set_active_measurement false s1)) as (r & s' & -> & Hsc & Hac & Hlow & _).
  cbn in Hsc, Hac, Hlow. split_and!; [unfold score_ok in *; by rewrite Hsc|done|].
  intros ->. rewrite Hsc. apply Qnot_le_lt. intros Hle. by destruct (Hlow Hle) as [[e He] _].
Qed.

(** One round of the availability tracker: the score stays in (0, 10],
    no measurement is left marked as active, whatever the middleware raises,
    and a round that returns normally either did not measure or leaves a
    score above 1: at 1 and below the node has been stopped and the round
    has raised. *)
Theorem maintain_spec s r s' :
  score_ok s -> s.(active_measurement) = false -> maintain s = (r, s') ->
  score_ok s' /\ s'.(active_measurement) = false /\
  (r = Ok tt -> (s'.(score) = s.(score) /\ s'.(issued) = s.(issued)) \/ (1 < s'.(score))%Q).
Proof.
  intros Hs Ha. pose proof (maintain_measure_spec s Hs Ha) as Hm.
  pose proof (maintain_alone_spec s) as Hal. unfold maintain.
  destruct (bool_decide (length _ < _)%nat).
  { intros Hrun. rewrite Hrun in Hal. destruct Hal as (Hsc & Hac & Hi).
    split_and!; [unfold score_ok in *; by rewrite Hsc|congruence|auto]. }
  destruct (bool_decide _).
  2: { intros Hrun. rewrite Hrun in Hm. naive_solver. }
  unfold py_bind, elapsed. destruct (start_time s) as [t0|]; [|intros; simplify_eq; naive_solver].
  destruct (_ <=? _).
  - unfold modify. intros; simplify_eq; cbn. naive_solver.
  - intros Hrun. rewrite Hrun in Hm. naive_solver.
Qed.

(** The score after [n] failures in a row. *)
Definition failures (n : nat) : PyM tracker unit :=
  for_each (repeat (@None reason) n) (record (Some false)).

Lemma record_failure_score why s :
  score_ok s -> exists s', record (Some false) why s = (Ok tt, s') /\ score_ok s' /\
    (s'.(score) == CHARGE_RATE * s.(score))%Q.
Proof.
  intros Hs. pose proof (score_ok_record (Some false) why s Hs) as Hok.
  eexists. split; [unfold record; cbn; reflexivity|]. split; [exact Hok|].
  cbn. unfold record_score, MAXIMUM_SCORE, CHARGE_RATE.
  assert (forall s1 : tracker, score s1 = score s ->
    ((if Qle_bool 10 (0 + (9 # 10) * score s1) then 10 else 0 + (9 # 10) * score s1) == (9 # 10) * score s)%Q) as H1.
  { intros s1 ->. destruct Hs as [H0 H1]. destruct (Qle_bool _ _) eqn:Hq; [|lra].
    apply Qle_bool_iff in Hq. exfalso. lra. }
  apply H1. repeat case_match; done.
Qed.

Lemma failures_score n s :
  score_ok s -> exists s', failures n s = (Ok tt, s') /\ score_ok s' /\
    (s'.(score) == CHARGE_RATE ^ Z.of_nat n * s.(score))%Q.
Proof.
  revert s. induction n as [|n IH]; intros s Hs.
  { exists s. split_and!; [done|done|]. change (CHARGE_RATE ^ Z.of_nat 0)%Q with 1%Q. ring. }
  unfold failures. cbn [repeat for_each]. unfold py_bind.
  destruct (record_failure_score None s Hs) as (s1 & -> & Hs1 & Hq1).
  destruct (IH s1 Hs1) as (s' & Hrun & Hs' & Hq'). exists s'. split_and!; [exact Hrun|done|].
  rewrite Hq', Hq1. replace (Z.of_nat (S n)) with (1 + Z.of_nat n) by lia.
  rewrite Qpower_plus by (unfold CHARGE_RATE; lra). cbn [Qpower]. unfold CHARGE_RATE.
  change (Qpower_positive (9 # 10) 1) with (9 # 10). ring.
Qed.

Lemma product_bound a b q : (0 < a -> 0 < b -> b <= 1 -> 0 < q -> q <= 10 -> a * b * q <= a * 10)%Q.
Proof.
  intros Ha Hb0 Hb1 Hq0 Hq1. assert (b * q <= 10)%Q as Hbq.
  { apply (Qle_trans _ (1 * q)); [apply Qmult_le_compat_r; lra|lra]. }
  assert (a * b * q == (b * q) * a)%Q as -> by ring. rewrite (Qmult_comm a 10).
  apply Qmult_le_compat_r; lra.
Qed.

(** A node that is reported unreachable is shut down in time: from any
    score, 22 failed measurements in a row bring it to 1 or below, where
    [issue_warnings] stops the node and raises; and after 7 failures the
    status is not available any more. *)
Theorem failures_shut_down s n s' :
  score_ok s -> failures n s = (Ok tt, s') ->
  ((7 <= n)%nat -> (s'.(score) <= SENSITIVITY * MAXIMUM_SCORE)%Q) /\
  ((22 <= n)%nat -> exists e s'', issue_warnings true s' = (Raise e, s'') /\
     s''.(issued) = s'.(issued) ++ [shutdown_everything_]).
Proof.
  intros Hs Hrun. destruct (failures_score n s Hs) as (s1 & Hrun1 & _ & Hq).
  rewrite Hrun in Hrun1. injection Hrun1 as <-.
  assert (forall k, (k <= n)%nat -> (s'.(score) <= CHARGE_RATE ^ Z.of_nat k * 10)%Q) as Hb.
  { intros k Hk. rewrite Hq. destruct Hs as [H0 H1].
    replace (Z.of_nat n) with (Z.of_nat k + Z.of_nat (n - k)) by lia.
    rewrite Qpower_plus by (unfold CHARGE_RATE; lra).
    assert (forall j, (0 < CHARGE_RATE ^ Z.of_nat j /\ CHARGE_RATE ^ Z.of_nat j <= 1)%Q) as Hp.
    { intros j. induction j as [|j [IH0 IH1]]; [change (CHARGE_RATE ^ Z.of_nat 0)%Q with 1%Q; lra|].
      replace (Z.of_nat (S j)) with (1 + Z.of_nat j) by lia.
      rewrite Qpower_plus by (unfold CHARGE_RATE; lra).
      change (CHARGE_RATE ^ 1)%Q with (9 # 10). nra. }
    destruct (Hp k), (Hp (n - k)%nat). by apply product_bound. }
  split; intros Hn; specialize (Hb _ Hn).
  - eapply Qle_trans; [exact Hb|]. vm_compute. discriminate.
  - destruct (issue_warnings_spec s') as (r & s'' & Hi & _ & _ & Hlow & _).
    destruct Hlow as [[e ->] Hw]; [|eauto]. eapply Qle_trans; [exact Hb|]. vm_compute. discriminate.
Qed.

(** [status] at a score above half the maximum says available; below, it
    says unavailable only when every noted excuse is a dict with an
    ["error"] key, and raises [KeyError] or [TypeError] otherwise: a failure
    reported with code 400 is noted under ["failed"], that of a [BadRequest]
    is no dict, so the tracker cannot tell that such a node is
    unavailable. *)
Theorem status_spec s :
  ((SENSITIVITY * MAXIMUM_SCORE < s.(score))%Q -> status s = (Ok true, s)) /\
  ((s.(score) <= SENSITIVITY * MAXIMUM_SCORE)%Q ->
     (Forall (fun kv => exists text, kv.2 = RDict "error" text) s.(excuses) -> status s = (Ok false, s)) /\
     (~ Forall (fun kv => exists text, kv.2 = RDict "error" text) s.(excuses) ->
        exists e, e ∈ [KeyError; TypeError] /\ status s = (Raise e, s))).
Proof.
  unfold status. destruct (Qle_bool _ _) eqn:Hq; cbn [negb].
  - apply Qle_bool_iff in Hq. split; [intros; exfalso; lra|]. intros _.
    unfold py_bind. generalize (excuses s). intros l. induction l as [|[t why] l [IH1 IH2]]; simpl.
    { split; [done|]. intros []. constructor. }
    rewrite !Forall_cons. unfold py_bind, lift. destruct why as [key text|b]; simpl.
    + case_decide as Hk; simpl; [|split; [intros [[? ?] _]; congruence|intros _; exists KeyError; split; [left|done]]].
      subst. split; [intros [_ ?]; by apply IH1|]. intros Hn. apply IH2. intros Hl. apply Hn. eauto.
    + split; [intros [[? ?] _]; done|]. intros _. exists TypeError. split; [right; left|done].
  - apply Qle_bool_false in Hq. split; [done|]. intros; exfalso; lra.
Qed.

(** The errback of a round that raised restarts a stopped task at once, also
    after [shutdown_everything] has stopped the node: the failure lands in
    [crash_on_error] and [args] is empty. *)
Lemma errback_restarts failure s :
  running s.(task) = false -> errback failure s = start true s.
Proof. intros Hr. unfold errback, handle_measurement_errors. by rewrite Hr. Qed.

End Tracker.
End AvailabilityTracker.

(** *** A concrete node *)

Module AvailabilityDemo.
Import AvailabilityTracker.

(** The node is the code every check answers with, and a clock at 0. *)
#[local] Instance demo_ursula : Ursula Z string := {
  known_nodes := fun _ => ["0xA"; "0xB"]%string;
  lonely := fun _ => false;
  checksum_address := id;
  ursula_stop := fun u => (Ok tt, u);
  check_availability := fun _ u => (Ok u, u);
  bad_request_reason := fun _ => ROther true;
  epoch_now := fun _ => 0;
  random_sample := fun l n u => (Ok (take n l), u);
  reactor_stop := fun u => (Ok tt, u);
}.

#[local] Instance demo_task : LoopingCall (bool * option Z) := {
  running := fst;
  interval := snd;
  set_interval := fun i t => (t.1, Some i);
  task_start := fun i _ t => (Ok tt, (true, Some i));
  task_stop := fun t => (Ok tt, (false, t.2));
}.

Definition demo_state : Type := @tracker Z (bool * option Z).
Definition demo_tracker (q : Q) (code : Z) : demo_state :=
  set_score q (set_start_time (Some 0) (new_tracker true (true, Some FAST_INTERVAL) code)).

(** At score 1.1 a reported failure is fatal, a success is not. *)
Lemma maintain_spec_witness :
  score_ok (maintain (demo_tracker (11 # 10) 400)).2 /\
  (maintain (demo_tracker (11 # 10) 400)).1 = Raise NodeUnreachable /\
  (maintain (demo_tracker (11 # 10) 200)).1 = Ok tt.
Proof.
  split; [|vm_compute; done].
  apply (maintain_spec (demo_tracker (11 # 10) 400) (Raise NodeUnreachable)
           (maintain (demo_tracker (11 # 10) 400)).2);
    [vm_compute; split; [reflexivity|discriminate] | reflexivity | vm_compute; reflexivity].
Defined.

Lemma failures_shut_down_witness :
  exists e s'', issue_warnings true (failures 22 (demo_tracker 10 400)).2 = (Raise e, s'').
Proof.
  destruct (failures_shut_down (demo_tracker 10 400) 22 (failures 22 (demo_tracker 10 400)).2)
    as [_ (e & s'' & H & _)];
    [vm_compute; split; [reflexivity|discriminate] | vm_compute; reflexivity | lia |].
  exists e, s''. exact H.
Defined.

(** Seven reports of code 400 and [status] raises. *)
Lemma status_spec_witness :
  (status (for_each (repeat "0xA"%string 7) measure_one (demo_tracker 10 400)).2).1 = Raise KeyError /\
  status (demo_tracker 10 400) = (Ok true, demo_tracker 10 400).
Proof.
  split; [vm_compute; reflexivity|].
  apply (status_spec (demo_tracker 10 400)). vm_compute. reflexivity.
Defined.

End AvailabilityDemo.

(** ** The tracker that restarts a bonded node *)

Module OperatorBondedTracker.

(** [args.index(x)] as a split of the list, [None] when [x] is absent. *)
Fixpoint split_at (x : string) (args : list string) : option (list string * list string) :=
  match args with
  | [] => None
  | a :: args' =>
      if decide (a = x) then Some ([], args')
      else match split_at x args' with Some (l, r) => Some (a :: l, r) | None => None end
  end.

(** [str.startswith('--')]; [lower()] does not change a dash. *)
Definition is_option (s : string) : bool := String.prefix "--" s.

(** The first [del]s of [restart_run_arg_add]: the first occurrence of the
    option, with the value after it. *)
Definition drop_option (option_str : string) (args : list string) : list string :=
  match split_at option_str args with
  | Some (before, after) =>
      before ++ match after with
                | v :: after' => if is_option v then after else after'
                | [] => []
                end
  | None => args
  end.

Definition restart_run_arg_add (option_str : string) (add_option_value : option string)
    (args : list string) : list string :=
  drop_option option_str args ++
  match add_option_value with
  | Some v => [option_str; v]
  | None => [option_str]
  end.

(** What the tracker asks of the chain, the node and the command line. *)
Class Restarter (U : Type) := {
  get_staking_provider_from_operator : PyM U string;
  node_stop : PyM U unit;
  ursula_run : list string -> PyM U unit;
}.

Section Bonded.
Context {U : Type} `{!Restarter U}.

(** The attributes of an [OperatorBondedTracker]. *)
Record bonded_tracker := Mk_bonded_tracker {
  restart_run_args : list string;
  restarted : bool;
  node : U;
}.
Definition set_restart_run_args (x : list string) (s : bonded_tracker) : bonded_tracker :=
  Mk_bonded_tracker x (s.(restarted)) (s.(node)).
Definition set_restarted (x : bool) (s : bonded_tracker) : bonded_tracker :=
  Mk_bonded_tracker (s.(restart_run_args)) x (s.(node)).
Definition set_node (x : U) (s : bonded_tracker) : bonded_tracker :=
  Mk_bonded_tracker (s.(restart_run_args)) (s.(restarted)) x.

Definition on_node {A} (m : PyM U A) : PyM bonded_tracker A := fun s =>
  let '(r, u) := m s.(node) in (r, set_node u s).

Definition _shutdown_ursula : PyM bonded_tracker unit := on_node node_stop.

(** The options [_start_ursula] sets: a restart without the service. *)
Definition restart_args (start_service : bool) (args : list string) : list string :=
  restart_run_arg_add "--restart-finished" None
    (restart_run_arg_add "--start-service" (Some (if start_service then "True" else "False")%string) args).

Definition _start_ursula (start_service : bool) : PyM bonded_tracker unit := fun s =>
  if negb s.(restarted) then
    (_shutdown_ursula ;;;
     modify (fun s => set_restart_run_args (restart_args start_service s.(restart_run_args)) s) ;;;
     args <- gets restart_run_args ;;
     on_node (ursula_run args) ;;;
     modify (set_restarted true)) s
  else (Ok tt, s).

(** [run]: every exception is printed and dropped. *)
Definition run : PyM bonded_tracker unit :=
  try_except
    (address <- on_node get_staking_provider_from_operator ;;
     if decide (address = NULL_ADDRESS) then modify (set_restarted false)
     else done_ <- gets restarted ;;
          if negb done_ then _start_ursula false else py_ret tt)
    [BaseException] (fun _ => py_ret tt).

(** Where an option ends up: what is kept of the arguments has it nowhere
    when they had it at most once. *)
Lemma split_at_None x args : split_at x args = None <-> x ∉ args.
Proof.
  induction args as [|a args IH]; simpl; [split; [intros _; apply not_elem_of_nil|done]|].
  rewrite not_elem_of_cons. case_decide as Hd; [naive_solver|].
  destruct (split_at x args) as [[l r]|]; naive_solver.
Qed.

Lemma split_at_Some x args l r : split_at x args = Some (l, r) -> args = l ++ x :: r /\ x ∉ l.
Proof.
  revert l. induction args as [|a args IH]; intros l; simpl; [done|]. case_decide as Hd.
  - intros; simplify_eq. split; [done|]. apply not_elem_of_nil.
  - destruct (split_at x args) as [[l' r']|]; intros; simplify_eq. destruct (IH l' eq_refl) as [-> Hx].
    split; [done|]. by apply not_elem_of_cons.
Qed.

Lemma split_at_app x l tl : x ∉ l -> split_at x (l ++ x :: tl) = Some (l, tl).
Proof.
  induction l as [|a l IH]; simpl; intros Hl; [by rewrite decide_True|].
  apply not_elem_of_cons in Hl as [Hne Hl]. rewrite decide_False by congruence. by rewrite IH.
Qed.

Lemma drop_option_app x l v :
  is_option x = true -> x ∉ l -> match v with Some w => is_option w = false | None => True end ->
  drop_option x (l ++ match v with Some w => [x; w] | None => [x] end) = l.
Proof.
  intros Hx Hl Hv. unfold drop_option.
  destruct v as [w|]; rewrite split_at_app by done; [rewrite Hv|]; by rewrite app_nil_r.
Qed.

Lemma catches_all e : catches [BaseException] e = true.
Proof. by destruct e. Qed.

(** A round never raises, and restarts the node only when the operator is
    bonded and the restart was not done. *)
Lemma run_spec s :
  (run s).1 = Ok tt /\
  (s.(restarted) = true -> (run s).2.(restart_run_args) = s.(restart_run_args)).
Proof.
  destruct (run s) as [r s'] eqn:Hrun. revert Hrun. cbn [fst snd].
  unfold run, try_except, py_bind, on_node, gets.
  destruct (get_staking_provider_from_operator (node s)) as [[a|e] u].
  2: { rewrite catches_all. unfold py_ret. intros; by simplify_eq. }
  case_decide; [unfold modify; intros; by simplify_eq|]. cbn [restarted set_node].
  destruct (restarted s) eqn:Hr; cbn [negb]; [unfold py_ret; intros; by simplify_eq|].
  destruct (_start_ursula false _) as [[[]|e] s1]; [|rewrite catches_all]; intros; unfold py_ret in *; simplify_eq; by split.
Qed.

(** A restart that failed is tried again with the same arguments. *)
Lemma restart_args_idempotent kept :
  "--start-service"%string ∉ kept -> "--restart-finished"%string ∉ kept ->
  let args := kept ++ ["--start-service"; "False"; "--restart-finished"]%string in
  restart_args false args = args.
Proof.
  intros H1 H2 args. unfold restart_args, restart_run_arg_add, drop_option, args.
  rewrite (split_at_app "--start-service") by done.
  change (is_option "False") with false. cbn iota. rewrite <-(assoc_L (++)). cbn [app].
  rewrite (split_at_app "--restart-finished") by done.
  change (is_option "--start-service") with true. cbn iota. by rewrite <-(assoc_L (++)).
Qed.

End Bonded.
End OperatorBondedTracker.
