(* ===== verification/Wire.v ===== *)
(** * nulink/utilities/version.py, network/middleware.py and network/server.py

    The version handshake on the wire, the HTTP client with its certificate
    cache and its mapping of status codes, and the endpoints of a node's REST
    server.  Sockets, [requests], the messages of [nucypher_core] and the node
    behind the server are parameters. *)

From Stdlib Require Import Ascii.
From stdpp Require Import pretty.
From S2P Require Import Prelude Text.

(** ** utilities/version.py *)

Module Version.

Definition check_version_pickle_symbol : bytes := to_bytes ">>__checkout_version__<<".

(** [nulink.__version__]. *)
Definition __version__ : bytes := to_bytes "0.2.0".

(** [l[i]]. *)
Definition item (l : list bytes) (i : nat) : result bytes :=
  match l !! i with Some x => Ok x | None => Raise IndexError end.

(** [check_version]: major and minor version agree; [None] and the empty
    string stand for 0.1.0. *)
Definition check_version (to_checked_version : option bytes) : result bool :=
  let version := split (to_bytes ".")
    match to_checked_version with
    | None | Some [] => to_bytes "0.1.0"
    | Some v => v
    end in
  let cur_version := split (to_bytes ".") __version__ in
  let? c0 := item cur_version 0 in
  let? v0 := item version 0 in
  if decide (c0 <> v0) then Ok false
  else
    let? c1 := item cur_version 1 in
    let? v1 := item version 1 in
    Ok (bool_decide (c1 = v1)).

(** What a sender of either side appends to its message. *)
Definition with_version (payload : bytes) : bytes :=
  payload ++ check_version_pickle_symbol ++ __version__.

(** The receiving side, in the client ([node_information] and
    [get_nodes_via_rest] have the same text): the payload, or why it is
    refused. *)
Definition strip_version (data : bytes) : result bytes :=
  match split check_version_pickle_symbol data with
  | [_] => Raise VersionMismatchError
  | [node_metadata_bytes; version_bytes] =>
      let? version_str := decode version_bytes in
      let? ok := check_version (Some version_str) in
      if negb ok then Raise VersionMismatchError else Ok node_metadata_bytes
  | _ => Raise AssertionError
  end.

Lemma symbol_nonempty : check_version_pickle_symbol <> [].
Proof. done. Qed.

Lemma symbol_borderless : borderless check_version_pickle_symbol = true.
Proof. vm_compute. reflexivity. Qed.

Lemma version_free : free_of check_version_pickle_symbol __version__.
Proof.
  apply (free_of_byte ">"); [left|]. apply (bool_decide_unpack _). vm_compute. exact I.
Qed.

Lemma split_versioned payload v :
  free_of check_version_pickle_symbol payload -> free_of check_version_pickle_symbol v ->
  split check_version_pickle_symbol (payload ++ check_version_pickle_symbol ++ v) = [payload; v].
Proof. intros Hp Hv. unfold split. by rewrite split_aux_once by auto using symbol_nonempty, symbol_borderless. Qed.

Lemma split_unversioned payload :
  free_of check_version_pickle_symbol payload -> split check_version_pickle_symbol payload = [payload].
Proof. intros Hp. unfold split. by rewrite split_aux_free by auto using symbol_nonempty. Qed.

Lemma own_version_ok : decode __version__ = Ok __version__ /\ check_version (Some __version__) = Ok true.
Proof. split; vm_compute; reflexivity. Qed.

Lemma strip_with_version payload :
  free_of check_version_pickle_symbol payload -> strip_version (with_version payload) = Ok payload.
Proof.
  intros Hp. unfold strip_version, with_version. rewrite split_versioned by auto using version_free.
  rewrite (proj1 own_version_ok). cbn [rbind]. by rewrite (proj2 own_version_ok).
Qed.

(** The verdict over the dotted parts of a version. *)
Lemma check_version_parts v major minor tl :
  v <> [] -> split (to_bytes ".") v = major :: minor :: tl ->
  check_version (Some v) = Ok (bool_decide (major = to_bytes "0" /\ minor = to_bytes "2")).
Proof.
  intros Hv Hsplit. unfold check_version. destruct v as [|c v]; [done|]. rewrite Hsplit.
  replace (split (to_bytes ".") __version__) with [to_bytes "0"; to_bytes "2"; to_bytes "0"] by (vm_compute; done).
  cbn [item lookup list_lookup rbind]. repeat case_decide; repeat case_bool_decide; naive_solver.
Qed.

Lemma check_version_dotted major minor rest :
  "."%char ∉ major -> "."%char ∉ minor -> rest = [] \/ (exists r, rest = "."%char :: r) ->
  check_version (Some (major ++ "."%char :: minor ++ rest)) =
  Ok (bool_decide (major = to_bytes "0" /\ minor = to_bytes "2")).
Proof.
  intros Hma Hmi Hrest.
  destruct Hrest as [->|[r ->]];
    [apply (check_version_parts _ _ _ [])|apply (check_version_parts _ _ _ (split (to_bytes ".") r))];
    try (by destruct major); change (to_bytes ".") with ["."%char]; rewrite split_first by done.
  - by rewrite app_nil_r, split_absent.
  - by rewrite split_first.
Qed.

Lemma check_version_dotless v :
  "."%char ∉ v ->
  check_version (Some v) = if decide (v = to_bytes "0") then Raise IndexError else Ok false.
Proof.
  intros Hv. destruct v as [|c v]; [vm_compute; done|].
  unfold check_version. change (to_bytes ".") with ["."%char]. rewrite (split_absent _ (c :: v)) by done.
  replace (split ["."%char] __version__) with [to_bytes "0"; to_bytes "2"; to_bytes "0"] by (vm_compute; done).
  cbn [item lookup list_lookup rbind]. repeat case_decide; naive_solver.
Qed.

(** C14.  The version handshake, for a payload and a version that do not
    contain the separator [>>__checkout_version__<<].  A message sent by this
    version is received as it was; one with no version at all is refused as
    too old.  A message whose version is UTF-8 text [major.minor] or
    [major.minor.anything] is received exactly when [major] is 0 and [minor]
    is 2, whatever follows, and refused as a mismatch otherwise; of the
    versions without a dot, [0] breaks the comparison with an IndexError, and
    any other, the empty one (which stands for 0.1.0) included, is refused.
    A version that is not UTF-8 is a decoding error. *)
Theorem version_handshake payload v :
  free_of check_version_pickle_symbol payload -> free_of check_version_pickle_symbol v ->
  strip_version (with_version payload) = Ok payload /\
  strip_version payload = Raise VersionMismatchError /\
  (forall e, decode v = Raise e -> strip_version (payload ++ check_version_pickle_symbol ++ v) = Raise e) /\
  (decode v = Ok v ->
    (forall major minor rest,
      v = major ++ "."%char :: minor ++ rest -> "."%char ∉ major -> "."%char ∉ minor ->
      rest = [] \/ (exists r, rest = "."%char :: r) ->
      strip_version (payload ++ check_version_pickle_symbol ++ v) =
      if decide (major = to_bytes "0" /\ minor = to_bytes "2") then Ok payload else Raise VersionMismatchError) /\
    ("."%char ∉ v ->
      strip_version (payload ++ check_version_pickle_symbol ++ v) =
      if decide (v = to_bytes "0") then Raise IndexError else Raise VersionMismatchError)).
Proof.
  intros Hp Hv. rewrite strip_with_version by done. unfold strip_version.
  rewrite split_versioned, split_unversioned by done.
  split_and!; [done|done|by intros e ->|]. intros ->. cbn [rbind]. split.
  - intros major minor rest -> Hma Hmi Hrest. rewrite check_version_dotted by done. cbn [rbind].
    case_decide; case_bool_decide; done.
  - intros Hdot. rewrite check_version_dotless by done. by case_decide.
Qed.

Lemma version_handshake_witness :
  strip_version (to_bytes "payload>>__checkout_version__<<0.2.7") = Ok (to_bytes "payload") /\
  strip_version (to_bytes "payload>>__checkout_version__<<0.3.0") = Raise VersionMismatchError.
Proof.
  assert (forall s, bool_decide (">"%char ∉ to_bytes s) = true -> free_of check_version_pickle_symbol (to_bytes s)) as Hf.
  { intros s Hs. apply bool_decide_eq_true in Hs. by apply (free_of_byte ">"); [left|]. }
  split.
  - destruct (version_handshake (to_bytes "payload") (to_bytes "0.2.7")
                (Hf "payload"%string eq_refl) (Hf "0.2.7"%string eq_refl)) as (_ & _ & _ & H).
    refine (proj1 (H _) (to_bytes "0") (to_bytes "2") (to_bytes ".7") _ _ _ _); [vm_compute; reflexivity..| | |].
    1,2: apply (bool_decide_unpack _); vm_compute; exact I.
    right. by exists (to_bytes "7").
  - destruct (version_handshake (to_bytes "payload") (to_bytes "0.3.0")
                (Hf "payload"%string eq_refl) (Hf "0.3.0"%string eq_refl)) as (_ & _ & _ & H).
    refine (proj1 (H _) (to_bytes "0") (to_bytes "3") (to_bytes ".0") _ _ _ _); [vm_compute; reflexivity..| | |].
    1,2: apply (bool_decide_unpack _); vm_compute; exact I.
    right. by exists (to_bytes "0").
Defined.

End Version.

(** ** network/middleware.py *)

Module Middleware.
Import Version.

(** The status code and the content of an HTTP response. *)
Record response := Response_ {
  status_code : Z;
  content : bytes;
}.

(** What is sent: the HTTP verb, the address, the path, the body and the
    [timeout] keyword. *)
Record request := Request {
  verb : string;
  to_host : string;
  to_port : Z;
  path : string;
  data : bytes;
  timeout : option Z;
}.

(** The certificate a connection is checked against. *)
Inductive verify_with := CachedCertificate | FreshCertificate.

(** Sockets, [requests], the certificate storage and the verification of a
    node (Nodes.v has [verify_node]). *)
Class Http (E Node : Type) := {
  rest_interface : Node -> string * Z;
  mature_and_verify : Node -> PyM E unit;
  certificate_cached : string -> Z -> E -> bool;
  get_server_certificate : string -> Z -> PyM E unit;
  store_node_certificate : string -> Z -> PyM E unit;
  sleep : Z -> PyM E unit;
  http : request -> verify_with -> PyM E response;
  json_version : bytes -> result (option bytes);
}.

Section Client.
Context {E Node : Type} `{!Http E Node}.

(** The class attribute [timeout]. *)
Definition default_timeout : Z := 5.

(** [get_certificate] with [attempts] retries left: a socket timeout is
    retried after [retry_rate] seconds, every other error is passed on. *)
Fixpoint get_certificate (attempts : nat) (retry_rate : Z) (host : string) (port : Z) : PyM E unit :=
  fun e =>
    match get_server_certificate host port e with
    | (Ok _, e') => store_node_certificate host port e'
    | (Raise x, e') =>
        if catches [SocketTimeout] x then
          match attempts with
          | 0 => (Raise ConnectionRefusedError, e')
          | S n => (sleep retry_rate ;;; get_certificate n retry_rate host port) e'
          end
        else (Raise x, e')
    end.

(** The default of three retries, two seconds apart. *)
Definition get_certificate_default : string -> Z -> PyM E unit := get_certificate 3 2.

(** The first argument of a call: a node, [EXEMPT_FROM_VERIFICATION] (which is
    falsy) or nothing. *)
Inductive target := TNode (n : Node) | TExempt | TNothing.

(** [bool(host)] and [bool(port)]. *)
Definition given_host (h : option string) : bool :=
  match h with Some EmptyString | None => false | _ => true end.
Definition given_port (p : option Z) : bool :=
  match p with Some 0%Z | None => false | _ => true end.

Definition parse_node_or_host_and_port (t : target) (host : option string) (port : option Z)
    : result (string * Z) :=
  match t with
  | TNode n => if given_host host || given_port port then Raise ValueError else Ok (rest_interface n)
  | _ => match host, port with
         | Some h, Some p => if given_host host && given_port port then Ok (h, p) else Raise ValueError
         | _, _ => Raise ValueError
         end
  end.

Definition verify_and_parse_node_or_host_and_port (t : target) (host : option string) (port : option Z)
    : PyM E (string * Z) :=
  match t with TNode n => mature_and_verify n | _ => py_ret tt end ;;;
  lift (parse_node_or_host_and_port t host port).

(** [invoke_method]: a missing or zero timeout becomes the default. *)
Definition invoke_method (r : request) (v : verify_with) : PyM E response :=
  let t := match r.(timeout) with Some 0%Z | None => default_timeout | Some t => t end in
  http (Request r.(verb) r.(to_host) r.(to_port) r.(path) r.(data) (Some t)) v.

(** The second half of [_execute_method]: fetch a fresh certificate. *)
Definition execute_fresh (r : request) : PyM E response :=
  try_except (get_certificate_default r.(to_host) r.(to_port)) NodeSeemsToBeDown
    (fun _ => raise Unreachable) ;;;
  invoke_method r FreshCertificate.

Definition _execute_method (r : request) : PyM E response := fun e =>
  if certificate_cached r.(to_host) r.(to_port) e then
    match invoke_method r CachedCertificate e with
    | (Raise x, e') => if catches [RequestsSSLError] x then execute_fresh r e' else (Raise x, e')
    | ok => ok
    end
  else execute_fresh r e.

(** What a status code of 300 or more raises. *)
Definition status_error (code : Z) : option exn_class :=
  if (code <? 300)%Z then None
  else if (code =? 400)%Z then Some BadRequest
  else if (code =? 404)%Z then Some NotFound
  else if (code =? 402)%Z then Some PaymentRequired
  else if (code =? 403)%Z then Some Unauthorized
  else Some UnexpectedResponse.

Definition http_verbs : list string := ["post"; "get"; "put"; "patch"; "delete"].

(** [__getattr__] and its [method_wrapper]. *)
Definition method_wrapper (method_name : string) (t : target) (host : option string) (port : option Z)
    (path_ : string) (data_ : bytes) (timeout_ : option Z) : PyM E response :=
  if negb (bool_decide (method_name ∈ http_verbs)) then raise TypeError
  else
    address <- verify_and_parse_node_or_host_and_port t host port ;;
    r <- _execute_method (Request method_name address.1 address.2 path_ data_ timeout_) ;;
    match status_error r.(status_code) with
    | Some x => raise x
    | None => py_ret r
    end.

(** [str(code).startswith('2')]. *)
Definition is_success (code : Z) : bool := String.prefix "2" (pretty code).

(** [node_information]: the only call that does not verify the node first. *)
Definition node_information (host : string) (port : Z) : PyM E bytes :=
  r <- method_wrapper "get" TExempt (Some host) (Some port) "public_information" [] (Some 20%Z) ;;
  if negb (is_success r.(status_code)) then py_ret r.(content)
  else lift (strip_version r.(content)).

(** The calls of [RestMiddleware]. *)
Definition request_revocation (ursula : Node) (revocation : bytes) : PyM E response :=
  method_wrapper "post" (TNode ursula) None None "revoke" revocation None.

Definition reencrypt (ursula : Node) (reencryption_request_bytes : bytes) : PyM E response :=
  method_wrapper "post" (TNode ursula) None None "reencrypt" reencryption_request_bytes (Some 2%Z).

(** [initiator.metatada()]: [None] when the initiator has no such method. *)
Definition check_availability (initiator_metatada : option bytes) (responder : Node) : PyM E response :=
  match initiator_metatada with
  | None => raise AttributeError
  | Some metadata =>
      method_wrapper "post" (TNode responder) None None "check_availability" metadata (Some 15%Z)
  end.

Definition ping (n : Node) : PyM E response :=
  r <- method_wrapper "get" (TNode n) None None "ping" [] (Some 15%Z) ;;
  if negb (is_success r.(status_code)) then py_ret r
  else
    match json_version r.(content) with
    | Ok ver => lift (let? ok := check_version ver in
                      if negb ok then Raise VersionMismatchError else Ok r)
    | Raise x => if catches [JSONDecodeError] x then raise VersionMismatchError else raise x
    end.

(** [get_nodes_via_rest] of the serialized [MetadataRequest]. *)
Definition get_nodes_via_rest (n : Node) (metadata_request : bytes) : PyM E response :=
  r <- method_wrapper "post" (TNode n) None None "node_metadata" (with_version metadata_request) (Some 15%Z) ;;
  if negb (is_success r.(status_code)) then py_ret r
  else lift (let? node_metadata_bytes := strip_version r.(content) in
             Ok (Response_ r.(status_code) node_metadata_bytes)).

(** *** Properties *)

(** What a request that was answered was: the last call of the world. *)
Lemma invoke_method_ok r v e resp e' :
  invoke_method r v e = (Ok resp, e') ->
  exists t, t <> 0%Z /\
    http (Request r.(verb) r.(to_host) r.(to_port) r.(path) r.(data) (Some t)) v e = (Ok resp, e').
Proof.
  unfold invoke_method. intros Hh. eexists. split; [|exact Hh]. unfold default_timeout.
  repeat case_match; lia.
Qed.

Lemma execute_fresh_ok r e resp e' :
  execute_fresh r e = (Ok resp, e') ->
  exists t e1, t <> 0%Z /\
    http (Request r.(verb) r.(to_host) r.(to_port) r.(path) r.(data) (Some t)) FreshCertificate e1 = (Ok resp, e').
Proof.
  unfold execute_fresh, py_bind. destruct (try_except _ _ _ e) as [[[]|x] e1]; [|done].
  intros (t & ? & ?)%invoke_method_ok. eauto.
Qed.

Lemma execute_method_ok r e resp e' :
  _execute_method r e = (Ok resp, e') ->
  exists t v e1, t <> 0%Z /\
    http (Request r.(verb) r.(to_host) r.(to_port) r.(path) r.(data) (Some t)) v e1 = (Ok resp, e').
Proof.
  unfold _execute_method. destruct (certificate_cached _ _ e).
  - destruct (invoke_method r CachedCertificate e) as [[a|x] e1] eqn:Hi.
    + intros; simplify_eq. apply invoke_method_ok in Hi as (t & ? & ?). eauto 10.
    + destruct (catches _ x); [|done]. intros (t & e2 & ? & ?)%execute_fresh_ok. eauto 10.
  - intros (t & e2 & ? & ?)%execute_fresh_ok. eauto 10.
Qed.

(** C15.  Every call that names a node verifies it first: if the verification
    raises, so does the call, and no request is sent; a response is handed
    out only with a status below 300, and it is the answer of the node's own
    address to exactly the request that was asked for, under a timeout. *)
Theorem method_wrapper_verifies_first m n p d t e :
  m ∈ http_verbs ->
  (forall x e1, mature_and_verify n e = (Raise x, e1) ->
     method_wrapper m (TNode n) None None p d t e = (Raise x, e1)) /\
  (forall resp e', method_wrapper m (TNode n) None None p d t e = (Ok resp, e') ->
     (resp.(status_code) < 300)%Z /\
     exists e1, mature_and_verify n e = (Ok tt, e1) /\
     exists t' v e2, t' <> 0%Z /\
       http (Request m (rest_interface n).1 (rest_interface n).2 p d (Some t')) v e2 = (Ok resp, e')).
Proof.
  intros Hm. unfold method_wrapper. rewrite bool_decide_true by done. cbn [negb].
  unfold verify_and_parse_node_or_host_and_port, lift. unfold py_bind at 1 2.
  split; [by intros x e1 ->|]. intros resp e'. revert resp e'.
  unfold py_bind. destruct (mature_and_verify n e) as [[[]|x] e1]; [|done]. cbn [parse_node_or_host_and_port given_host given_port orb].
  intros resp e'. destruct (_execute_method _ e1) as [[r|x] e2] eqn:Hx; [|done].
  unfold status_error. destruct (Z.ltb_spec (status_code r) 300) as [Hlt|Hge].
  - unfold py_ret. intros; simplify_eq. split; [done|]. exists e1. split; [done|].
    by apply execute_method_ok in Hx.
  - repeat case_match; done.
Qed.

(** A host that never answers is tried four times, then refused. *)
Lemma get_certificate_gives_up host port :
  (forall e, get_server_certificate host port e = (Raise SocketTimeout, e)) ->
  (forall t e, sleep t e = (Ok tt, e)) ->
  forall n rate e, get_certificate n rate host port e = (Raise ConnectionRefusedError, e).
Proof.
  intros Hto Hsl n rate e. induction n as [|n IH]; simpl; rewrite Hto; [done|].
  unfold py_bind. by rewrite Hsl.
Qed.

End Client.
End Middleware.

(** ** network/server.py *)

Module Server.
Import Version.
Import Middleware.

Section Server.
Context {N Hrac Key EncryptedKeyFrag KeyFrag Capsule CFrag Metadata Checksum : Type}.
Context `{!EqDecision Hrac, !EqDecision Checksum}.

(** The fields of [nucypher_core.ReencryptionRequest] the endpoint reads. *)
Record reencryption_request := ReencryptionRequest {
  hrac : Hrac;
  publisher_verifying_key : Key;
  bob_verifying_key : Key;
  encrypted_kfrag : EncryptedKeyFrag;
  capsules : list Capsule;
}.

(** The node behind the server and the messages of [nucypher_core].  A call
    may change the node. *)
Class RestNode := {
  (* reencrypt *)
  reencryption_request_from_bytes : bytes -> result reencryption_request;
  bob_from_public_keys : Key -> result unit;
  revoked_policies : N -> list Hrac;
  decrypt_kfrag : EncryptedKeyFrag -> Hrac -> Key -> PyM N KeyFrag;
  payment_verify : reencryption_request -> PyM N bool;
  umbral_reencrypt : Capsule -> KeyFrag -> result CFrag;
  reencryption_response : list Capsule -> list CFrag -> result bytes;
  describe_request : Key -> PyM N unit;
  (* metadata *)
  own_metadata : PyM N Metadata;
  metadata_to_bytes : Metadata -> bytes;
  known_metadata : N -> list Metadata;
  known_checksum : N -> Checksum;
  metadata_response : N -> list Metadata -> bytes;
  metadata_request_from_bytes : bytes -> result (Checksum * list Metadata);
  metadata_verify : Metadata -> result unit;
  remember_sprout : Metadata -> PyM N unit;
  learning_idle : N -> bool;
  start_learning_loop : PyM N unit;
  (* others *)
  revocation_order_from_bytes : bytes -> result unit;
  mature_metadata_bytes : bytes -> PyM N (string * Z);
  node_information_of : string -> Z -> PyM N bytes;
}.

Context `{!RestNode}.

(** A response; the error texts of the refusals, for people only, are left out. *)
Definition ok (b : bytes) : response := Response_ 200 b.
Definition refuse (code : Z) : response := Response_ code [].

(** [Ursula._reencrypt]: one fragment per capsule, in order. *)
Fixpoint reencrypt_all (kfrag : KeyFrag) (cs : list Capsule) : result (list CFrag) :=
  match cs with
  | [] => Ok []
  | capsule :: cs' =>
      let? cfrag := umbral_reencrypt capsule kfrag in
      let? cfrags := reencrypt_all kfrag cs' in
      Ok (cfrag :: cfrags)
  end.

Definition _reencrypt (kfrag : KeyFrag) (cs : list Capsule) : result bytes :=
  let? cfrags := reencrypt_all kfrag cs in reencryption_response cs cfrags.

(** The [try] around [_decrypt_kfrag]: the fragment, or the refusal. *)
Definition checked_kfrag (r : reencryption_request) : PyM N (KeyFrag + Z) :=
  try_except
    (kfrag <- decrypt_kfrag r.(encrypted_kfrag) r.(hrac) r.(publisher_verifying_key) ;; py_ret (inl kfrag))
    [Exception]
    (fun e => if catches [DecryptionFailed] e then py_ret (inr 403%Z)
              else if catches [InvalidSignature] e then py_ret (inr 401%Z)
              else py_ret (inr 400%Z)).

(** POST /reencrypt. *)
Definition reencrypt_endpoint (request_data : bytes) : PyM N response :=
  r <- lift (reencryption_request_from_bytes request_data) ;;
  lift (bob_from_public_keys r.(bob_verifying_key)) ;;;
  node <- gets id ;;
  if bool_decide (r.(hrac) ∈ revoked_policies node) then py_ret (refuse 401)
  else
    checked <- checked_kfrag r ;;
    match checked with
    | inr code => py_ret (refuse code)
    | inl verified_kfrag =>
        paid <- payment_verify r ;;
        if negb paid then py_ret (refuse 402)
        else
          body <- lift (_reencrypt verified_kfrag r.(capsules)) ;;
          describe_request r.(bob_verifying_key) ;;;
          py_ret (ok body)
    end.

(** POST /revoke: the order is parsed and dropped. *)
Definition revoke_endpoint (request_data : bytes) : PyM N response :=
  lift (revocation_order_from_bytes request_data) ;;; py_ret (ok []).

(** GET /public_information. *)
Definition public_information : PyM N response :=
  m <- own_metadata ;; py_ret (ok (with_version (metadata_to_bytes m))).

(** [Teacher.bytestring_of_known_nodes]. *)
Definition bytestring_of_known_nodes : PyM N bytes :=
  m <- own_metadata ;;
  gets (fun node => metadata_response node (m :: known_metadata node)).

(** GET /node_metadata. *)
Definition all_known_nodes : PyM N response :=
  idle <- gets learning_idle ;;
  (if idle : bool then start_learning_loop else py_ret tt) ;;;
  response_bytes <- bytestring_of_known_nodes ;;
  py_ret (ok (with_version response_bytes)).

Definition bytestring_of_empty_known_nodes : PyM N response :=
  gets (fun node => ok (with_version (metadata_response node []))).

(** The request of a peer: [None] for a peer whose version is not supported. *)
Definition parse_metadata_request (request_data : bytes) : result (option (Checksum * list Metadata)) :=
  match metadata_request_from_bytes request_data with
  | Ok r => Ok (Some r)
  | Raise e =>
      if catches [Exception] e then
        match split check_version_pickle_symbol request_data with
        | [_] => Ok None
        | [node_metadata_bytes; version_bytes] =>
            let? version_str := decode version_bytes in
            let? supported := check_version (Some version_str) in
            if negb supported then Ok None
            else let? r := metadata_request_from_bytes node_metadata_bytes in Ok (Some r)
        | _ => Raise AssertionError
        end
      else Raise e
  end.

(** The loop over the announced nodes: only metadata that verifies is
    remembered. *)
Definition remember_announced (metadata : Metadata) : PyM N unit :=
  match metadata_verify metadata with
  | Raise e => if catches [Exception] e then py_ret tt else raise e
  | Ok _ => remember_sprout metadata
  end.

(** POST /node_metadata. *)
Definition node_metadata_exchange (request_data : bytes) : PyM N response :=
  parsed <- lift (parse_metadata_request request_data) ;;
  match parsed with
  | None => bytestring_of_empty_known_nodes
  | Some (fleet_state_checksum, announce_nodes) =>
      own <- gets known_checksum ;;
      if decide (fleet_state_checksum = own) then bytestring_of_empty_known_nodes
      else for_each announce_nodes remember_announced ;;; all_known_nodes
  end.

(** POST /check_availability from [remote_addr]. *)
Definition check_availability_endpoint (request_data : bytes) (remote_addr : string) : PyM N response :=
  parsed <- try_except (a <- mature_metadata_bytes request_data ;; py_ret (Some a))
              [ValueError] (fun _ => py_ret None) ;;
  match parsed with
  | None => py_ret (refuse 400)
  | Some (initiator_address, initiator_port) =>
      if negb (bool_decide (remote_addr = initiator_address)) then py_ret (refuse 400)
      else
        info <- try_except (m <- node_information_of initiator_address initiator_port ;; py_ret (Some m))
                  NodeSeemsToBeDown (fun _ => py_ret None) ;;
        match info with
        | None => py_ret (refuse 400)
        | Some requesting_ursula_metadata =>
            if decide (requesting_ursula_metadata = request_data) then py_ret (ok [])
            else py_ret (refuse 400)
        end
  end.

(** *** Properties *)

Lemma reencrypt_all_spec kfrag cs cfrags :
  reencrypt_all kfrag cs = Ok cfrags <->
  Forall2 (fun c f => umbral_reencrypt c kfrag = Ok f) cs cfrags.
Proof.
  revert cfrags. induction cs as [|c cs IH]; intros cfrags; simpl.
  - split; [intros [= <-]; constructor|inversion 1; done].
  - destruct (umbral_reencrypt c kfrag) as [f|e] eqn:Hf; simpl.
    + destruct (reencrypt_all kfrag cs) as [fs|e] eqn:Hfs; simpl.
      * split; [intros [= <-]; constructor; [done|by apply IH]|].
        inversion 1 as [|? ? ? ? Hx Hr]; subst. apply IH in Hr. congruence.
      * split; [done|]. inversion 1 as [|? ? ? ? Hx Hr]; subst. apply IH in Hr. congruence.
    + split; [done|]. inversion 1; subst. congruence.
Qed.

(** C5.  A node re-encrypts only for a policy that is not revoked, with a key
    fragment it decrypted with the publisher's key, and once the policy's
    payment was verified: a response of status 200 carries one fragment per
    requested capsule, and the request was noted in the datastore before;
    every other response is a refusal: 401 for a revoked policy, 400, 401 or
    403 for a fragment that does not decrypt or verify, 402 for an unpaid
    policy, and nothing was noted. *)
Theorem reencrypt_endpoint_spec request_data node r node' :
  reencrypt_endpoint request_data node = (Ok r, node') ->
  exists req, reencryption_request_from_bytes request_data = Ok req /\
  ((r.(status_code) = 200%Z /\ req.(hrac) ∉ revoked_policies node /\
    exists kfrag n1 n2 cfrags,
      decrypt_kfrag req.(encrypted_kfrag) req.(hrac) req.(publisher_verifying_key) node = (Ok kfrag, n1) /\
      payment_verify req n1 = (Ok true, n2) /\
      Forall2 (fun c f => umbral_reencrypt c kfrag = Ok f) req.(capsules) cfrags /\
      reencryption_response req.(capsules) cfrags = Ok r.(content) /\
      describe_request req.(bob_verifying_key) n2 = (Ok tt, node')) \/
   (r = refuse 401 /\ req.(hrac) ∈ revoked_policies node /\ node' = node) \/
   (exists e, r.(status_code) ∈ [400; 401; 403]%Z /\
      decrypt_kfrag req.(encrypted_kfrag) req.(hrac) req.(publisher_verifying_key) node = (Raise e, node')) \/
   (r = refuse 402 /\ exists kfrag n1,
      decrypt_kfrag req.(encrypted_kfrag) req.(hrac) req.(publisher_verifying_key) node = (Ok kfrag, n1) /\
      payment_verify req n1 = (Ok false, node'))).
Proof.
  unfold reencrypt_endpoint, lift, gets, id. unfold py_bind at 1.
  destruct (reencryption_request_from_bytes request_data) as [req|e]; [|done].
  unfold py_bind at 1. destruct (bob_from_public_keys _) as [[]|e]; [|done].
  unfold py_bind at 1. intros Hrun. exists req. split; [done|]. revert Hrun.
  case_bool_decide as Hr.
  { unfold py_ret. intros; simplify_eq. right. left. done. }
  unfold py_bind at 1, checked_kfrag, try_except. unfold py_bind at 1.
  destruct (decrypt_kfrag _ _ _ node) as [[kfrag|e] n1] eqn:Hd.
  - unfold py_bind at 1. cbn.
    destruct (payment_verify req n1) as [[[]|e] n2] eqn:Hp; cbn; [|unfold py_ret; intros; simplify_eq; by eauto 10|done].
    unfold _reencrypt, py_bind.
    destruct (reencrypt_all kfrag (capsules req)) as [cfrags|e] eqn:Hre; cbn; [|done].
    destruct (reencryption_response _ cfrags) as [body|e] eqn:Hb; cbn; [|done].
    destruct (describe_request _ n2) as [[[]|e] n3] eqn:Hdesc; [|done].
    unfold py_ret. intros; simplify_eq. left. split_and!; [done|done|].
    exists kfrag, n1, n2, cfrags. apply reencrypt_all_spec in Hre. done.
  - destruct (catches [Exception] e); [|done].
    intros Hrun. right. right. left. exists e.
    destruct (catches [DecryptionFailed] e); [|destruct (catches [InvalidSignature] e)];
      unfold py_ret in Hrun; cbn in Hrun; simplify_eq; split; try done; cbn; set_solver.
Qed.

(** What the parser of a peer that knows no versions makes of a versioned
    request: the request itself, the trailing bytes ignored, or an exception. *)
Definition reads_or_refuses (request : bytes) (parsed : Checksum * list Metadata) : Prop :=
  metadata_request_from_bytes (with_version request) = Ok parsed \/
  exists e, metadata_request_from_bytes (with_version request) = Raise e /\ catches [Exception] e = true.

Lemma parse_own_version request r :
  free_of check_version_pickle_symbol request ->
  metadata_request_from_bytes request = Ok r -> reads_or_refuses request r ->
  parse_metadata_request (with_version request) = Ok (Some r).
Proof.
  intros Hf Hr [Hw|(e & Hw & Hc)]; unfold parse_metadata_request; rewrite Hw; [done|].
  rewrite Hc. unfold with_version.
  rewrite split_versioned by auto using version_free.
  rewrite (proj1 own_version_ok). cbn [rbind]. rewrite (proj2 own_version_ok). cbn [rbind negb].
  by rewrite Hr.
Qed.

(** What a server remembers of announced metadata: each one whose signature
    verifies, in order; the others are passed over. *)
Inductive remembered : list Metadata -> N -> N -> Prop :=
| remembered_all node : remembered [] node node
| remembered_forged m ms e node node' :
    metadata_verify m = Raise e -> catches [Exception] e = true ->
    remembered ms node node' -> remembered (m :: ms) node node'
| remembered_verified m ms node node1 node' :
    metadata_verify m = Ok tt -> remember_sprout m node = (Ok tt, node1) ->
    remembered ms node1 node' -> remembered (m :: ms) node node'.

Lemma announced_remembered announced node node' :
  for_each announced remember_announced node = (Ok tt, node') -> remembered announced node node'.
Proof.
  revert node. induction announced as [|m ms IH]; intros node; simpl.
  - unfold py_ret. intros; simplify_eq. constructor.
  - unfold py_bind, remember_announced. destruct (metadata_verify m) as [[]|e] eqn:Hm.
    + destruct (remember_sprout m node) as [[[]|x] node1] eqn:Hs; [|done].
      intros Hrest. eapply remembered_verified; eauto.
    + destruct (catches [Exception] e) eqn:He; [|done]. unfold py_ret. intros Hrest.
      eapply remembered_forged; eauto.
Qed.

(** The answer with everything known, and the states it is made in. *)
Lemma all_known_nodes_run node r node' :
  all_known_nodes node = (Ok r, node') ->
  exists node1 m,
    (if learning_idle node then start_learning_loop node = (Ok tt, node1) else node1 = node) /\
    own_metadata node1 = (Ok m, node') /\
    r = ok (with_version (metadata_response node' (m :: known_metadata node'))).
Proof.
  unfold all_known_nodes, bytestring_of_known_nodes, gets. unfold py_bind at 1.
  destruct (learning_idle node); unfold py_bind, py_ret.
  - destruct (start_learning_loop node) as [[[]|x] n2]; [|done].
    destruct (own_metadata n2) as [[m|x] n3] eqn:Hm; [|done]. intros; simplify_eq. by exists n2, m.
  - destruct (own_metadata node) as [[m|x] n3] eqn:Hm; [|done]. intros; simplify_eq. by exists node, m.
Qed.

(** C13.  The metadata exchange of two nodes of this version, when no message
    contains the separator and the parser, given the request with the version
    behind it, reads the same request or raises an exception: the server
    understands the request, and the client the answer.  A client with the
    same fleet state gets an empty list back and nothing changes.  For every
    other client the server remembers the announced nodes whose metadata
    verifies, then starts the learning loop if it is not running, then makes
    its own metadata, and answers with that and the metadata of every node it
    knows at that point. *)
Theorem node_metadata_exchange_roundtrip request fleet_checksum announced node r node' :
  free_of check_version_pickle_symbol request ->
  (forall n l, free_of check_version_pickle_symbol (metadata_response n l)) ->
  metadata_request_from_bytes request = Ok (fleet_checksum, announced) ->
  reads_or_refuses request (fleet_checksum, announced) ->
  node_metadata_exchange (with_version request) node = (Ok r, node') ->
  r.(status_code) = 200%Z /\
  (fleet_checksum = known_checksum node ->
     node' = node /\ strip_version r.(content) = Ok (metadata_response node [])) /\
  (fleet_checksum <> known_checksum node ->
     exists n1 n2 m, remembered announced node n1 /\
       (if learning_idle n1 then start_learning_loop n1 = (Ok tt, n2) else n2 = n1) /\
       own_metadata n2 = (Ok m, node') /\
       strip_version r.(content) = Ok (metadata_response node' (m :: known_metadata node'))).
Proof.
  intros Hf Hresp Hr Hw. unfold node_metadata_exchange, lift.
  rewrite (parse_own_version request (fleet_checksum, announced)) by done.
  unfold py_bind at 1, gets. unfold py_bind at 1. case_decide as Heq.
  - unfold bytestring_of_empty_known_nodes, gets. intros; simplify_eq. split_and!; [done| |done].
    intros _. split; [done|]. apply (strip_with_version (metadata_response node' [])). apply Hresp.
  - unfold py_bind at 1. destruct (for_each announced remember_announced node) as [[[]|x] n1] eqn:Hann; [|done].
    intros (n2 & m & Hidle & Hm & ->)%all_known_nodes_run. split_and!; [done|done|].
    intros _. exists n1, n2, m. split_and!; [by apply announced_remembered|done|done|].
    by apply strip_with_version, Hresp.
Qed.

(** POST /revoke leaves the node as it is: a revoked policy is served as before. *)
Lemma revoke_endpoint_keeps_node request_data node : (revoke_endpoint request_data node).2 = node.
Proof. unfold revoke_endpoint, py_bind, lift. by destruct (revocation_order_from_bytes _). Qed.

End Server.
End Server.

(** ** A concrete node and network *)

Module WireDemo.
Import Version Middleware Server.

(** A node is the list of its log entries; requests carry one byte per
    field and are refused with anything after them. *)
Definition demo_request (b : bytes) : result (reencryption_request (Hrac:=ascii) (Key:=ascii)
    (EncryptedKeyFrag:=ascii) (Capsule:=ascii)) :=
  match b with
  | h :: p :: k :: f :: cs => Ok (ReencryptionRequest h p k f cs)
  | _ => Raise ValueError
  end.

#[local] Instance demo_node :
  RestNode (N:=list string) (Hrac:=ascii) (Key:=ascii) (EncryptedKeyFrag:=ascii) (KeyFrag:=ascii)
    (Capsule:=ascii) (CFrag:=ascii) (Metadata:=ascii) (Checksum:=ascii) := {
  reencryption_request_from_bytes := demo_request;
  bob_from_public_keys := fun _ => Ok tt;
  revoked_policies := fun _ => ["r"%char];
  decrypt_kfrag := fun f _ _ n => if decide (f = "x"%char) then (Raise InvalidSignature, n) else (Ok f, n);
  payment_verify := fun r n => (Ok (negb (bool_decide (r.(hrac) = "u"%char))), n);
  umbral_reencrypt := fun c _ => Ok c;
  reencryption_response := fun _ fs => Ok fs;
  describe_request := fun _ n => (Ok tt, n ++ ["saved"%string]);
  own_metadata := fun n => (Ok "m"%char, n);
  metadata_to_bytes := fun m => [m];
  known_metadata := fun n => if decide (n = []) then [] else ["k"%char];
  known_checksum := fun _ => "c"%char;
  metadata_response := fun _ l => filter (fun c => c <> ">"%char) l;
  metadata_request_from_bytes := fun b =>
    match b with [c; a] => Ok (c, [a]) | [c; a; a'] => Ok (c, [a; a']) | _ => Raise ValueError end;
  metadata_verify := fun m => if decide (m = "z"%char) then Raise InvalidSignature else Ok tt;
  remember_sprout := fun _ n => (Ok tt, n ++ ["remembered"%string]);
  learning_idle := fun n => negb (bool_decide ("learning"%string ∈ n));
  start_learning_loop := fun n => (Ok tt, n ++ ["learning"%string]);
  revocation_order_from_bytes := fun _ => Ok tt;
  mature_metadata_bytes := fun _ n => (Ok ("127.0.0.1"%string, 9151%Z), n);
  node_information_of := fun _ _ n => (Ok [], n);
}.

Lemma reencrypt_endpoint_spec_witness :
  (reencrypt_endpoint (to_bytes "pAbkC") []).2 = ["saved"%string] /\
  exists req, reencryption_request_from_bytes (to_bytes "pAbkC") = Ok req /\ req.(capsules) = to_bytes "C".
Proof.
  split; [vm_compute; reflexivity|].
  destruct (reencrypt_endpoint_spec (to_bytes "pAbkC") [] (ok (to_bytes "C")) ["saved"%string])
    as (req & Hreq & _); [vm_compute; reflexivity|].
  exists req. split; [done|]. vm_compute in Hreq. by simplify_eq.
Defined.

(** A peer with another fleet state announces two nodes, one of them with a
    forged signature, and learns two. *)
Lemma node_metadata_exchange_roundtrip_witness :
  exists n1 n2 m, remembered ["a"%char; "z"%char] [] n1 /\
    (if learning_idle n1 then start_learning_loop n1 = (Ok tt, n2) else n2 = n1) /\
    own_metadata n2 = (Ok m, ["remembered"%string; "learning"%string]) /\
    strip_version (with_version (to_bytes "mk")) =
    Ok (metadata_response ["remembered"%string; "learning"%string]
          (m :: known_metadata ["remembered"%string; "learning"%string])).
Proof.
  refine (proj2 (proj2 (node_metadata_exchange_roundtrip (to_bytes "daz") "d"%char ["a"%char; "z"%char] []
    (ok (with_version (to_bytes "mk"))) ["remembered"%string; "learning"%string] _ _ _ _ _)) _).
  - apply (free_of_byte ">"); [left|]. apply (bool_decide_unpack _). vm_compute. exact I.
  - intros n l. apply (free_of_byte ">"); [left|]. cbn. intros [Hne _]%list_elem_of_filter. done.
  - vm_compute. reflexivity.
  - right. exists ValueError. vm_compute. done.
  - vm_compute. reflexivity.
  - vm_compute. discriminate.
Defined.

(** The world counts the requests; node 0 does not verify. *)
#[local] Instance demo_http : Http nat nat := {
  rest_interface := fun _ => ("127.0.0.1"%string, 9151%Z);
  mature_and_verify := fun n e => if decide (n = 0) then (Raise InvalidNode, e) else (Ok tt, e);
  certificate_cached := fun _ _ _ => true;
  get_server_certificate := fun _ _ e => (Ok tt, e);
  store_node_certificate := fun _ _ e => (Ok tt, e);
  sleep := fun _ e => (Ok tt, e);
  http := fun _ _ e => (Ok (Response_ 200 []), S e);
  json_version := fun _ => Ok None;
}.

Lemma method_wrapper_verifies_first_witness :
  method_wrapper "post" (TNode 0) None None "reencrypt" [] None 5 = (Raise InvalidNode, 5) /\
  (method_wrapper "post" (TNode 1) None None "reencrypt" [] None 5).2 = 6.
Proof.
  split; [|vm_compute; reflexivity].
  apply (method_wrapper_verifies_first "post" 0 "reencrypt" [] None 5); [left|reflexivity].
Defined.

End WireDemo.
