(* ===== verification/Networking.v ===== *)
(** * nulink/network/protocols.py and nulink/utilities/networking.py

    Node URIs and interfaces, and the detection of the operator's external
    IP address from known nodes, the default teachers and a central service.
    The requests, the sample and the construction of a teacher are the class
    [IpSources]; [urllib.parse.urlparse] is modelled for the https URIs the
    code passes to it. *)

From Stdlib Require Import Ascii.
From S2P Require Import Prelude Text Json Wire.

(** What the detection of the address asks of its surroundings. *)
Class IpSources (W Node : Type) := {
  (* [NulinkMiddlewareClient.get(node_or_sprout=teacher, path="ping", timeout=8)]:
     status code and content *)
  get_ping : Node -> PyM W (Z * bytes);
  (* [requests.get(CENTRALIZED_IP_ORACLE_URL)]: status code and text *)
  get_oracle : PyM W (Z * bytes);
  (* [random.sample(list(known_nodes), sample_size)] *)
  random_sample : list Node -> nat -> PyM W (list Node);
  (* [str(ip_address(x))], or its [ValueError] *)
  ip_address : option json -> option bytes;
  (* [LocalFileBasedNodeStorage(federated_only=False)] as the certificate
     storage of [Ursula] *)
  set_cert_storage : PyM W unit;
  (* [Ursula.from_teacher_uri(teacher_uri, federated_only=False, min_stake=0)] *)
  from_teacher_uri : bytes -> PyM W Node;
  (* [TEACHER_NODES.get(network)] *)
  teacher_nodes : string -> option (list bytes);
}.

Module Protocols.

Definition DEFAULT_REST_PORT : Z := 9151.
Definition LOOPBACK_ADDRESS : bytes := to_bytes "127.0.0.1".

(** ** [urlparse] *)

(** [s.partition(c)]: before, whether it occurs, after. *)
Fixpoint partition (c : ascii) (s : bytes) : bytes * bool * bytes :=
  match s with
  | [] => ([], false, [])
  | d :: s' => if decide (d = c) then ([], true, s')
               else let '(a, found, b) := partition c s' in (d :: a, found, b)
  end.

(** [s.rpartition(c)[2]]. *)
Definition after_last (c : ascii) (s : bytes) : bytes := default s (last (split [c] s)).

(** Up to the first character of [/?#]. *)
Fixpoint netloc_of (s : bytes) : bytes :=
  match s with
  | [] => []
  | c :: s' => if decide (c ∈ ["/"; "?"; "#"]%char) then [] else c :: netloc_of s'
  end.

(** [urlsplit] of what follows [https://]: tabs and line ends are dropped, and
    brackets come in pairs. *)
Definition unsafe_char (c : ascii) : Prop := N_of_ascii c ∈ [9; 10; 13]%N.
#[global] Instance unsafe_char_dec c : Decision (unsafe_char c) := ltac:(unfold unsafe_char; apply _).

Definition urlsplit_netloc (rest : bytes) : result bytes :=
  let netloc := netloc_of (filter (fun c => ~ unsafe_char c) rest) in
  if decide ("["%char ∈ netloc <-> "]"%char ∈ netloc) then Ok netloc else Raise ValueError.

(** [_hostinfo]: the host and the text of the port. *)
Definition hostinfo (netloc : bytes) : bytes * option bytes :=
  let hostinfo := after_last "@" netloc in
  let '(_, have_open_br, bracketed) := partition "[" hostinfo in
  let '(hostname, port) :=
    if have_open_br : bool
    then let '(h, _, p) := partition "]" bracketed in (h, let '(_, _, p') := partition ":" p in p')
    else let '(h, _, p) := partition ":" hostinfo in (h, p) in
  (hostname, match port with [] => None | _ => Some port end).

(** [hostname]: lower case but for an IPv6 zone. *)
Definition url_hostname (netloc : bytes) : option bytes :=
  match (hostinfo netloc).1 with
  | [] => None
  | h => let '(a, found, zone) := partition "%" h in Some (lower a ++ (if found : bool then ["%"%char] else []) ++ zone)
  end.

(** [port]: a number up to 65535. *)
Definition url_port (netloc : bytes) : result (option Z) :=
  match (hostinfo netloc).2 with
  | None => Ok None
  | Some p =>
      match decimal p with
      | Some z => if (0 <=? z)%Z && (z <=? 65535)%Z then Ok (Some z) else Raise ValueError
      | None => Raise ValueError
      end
  end.

(** ** [parse_node_uri] *)

Section Uri.
(** [eth_utils.is_checksum_address]. *)
Variable is_checksum_address : bytes -> bool.

Definition https : bytes := to_bytes "https://".

Definition parse_node_uri (uri : bytes) : result (option bytes * Z * option bytes) :=
  let? parts :=
    (if decide ("@"%char ∈ uri) then
       match split ["@"%char] uri with
       | [checksum_address; uri'] =>
           if is_checksum_address checksum_address then Ok (Some checksum_address, uri') else Raise ValueError
       | _ => Raise ValueError
       end
     else Ok (None, uri)) in
  let '(checksum_address, uri') := parts in
  let full := if decide (https `prefix_of` uri') then uri' else https ++ uri' in
  let? netloc := urlsplit_netloc (drop (length https) full) in
  let? port := url_port netloc in
  Ok (url_hostname netloc, match port with Some 0%Z | None => DEFAULT_REST_PORT | Some p => p end, checksum_address).

End Uri.

(** [InterfaceInfo]; [int(port)] of a number. *)
Record interface_info := InterfaceInfo_ {
  host : bytes;
  port : Z;
}.

Definition InterfaceInfo (h : bytes) (p : Z) : interface_info :=
  InterfaceInfo_ (if decide (h = to_bytes "localhost") then LOOPBACK_ADDRESS else h) p.

(** [uri] and [formal_uri], for a port that is not negative. *)
Definition uri (i : interface_info) : bytes := i.(host) ++ ":"%char :: nat_chars (Z.to_N i.(port)).
Definition formal_uri (i : interface_info) : bytes := https ++ uri i.

(** ** Round trip *)

Lemma partition_absent c s : c ∉ s -> partition c s = (s, false, []).
Proof.
  induction s as [|d s IH]; [done|]. intros [Hd Hs]%not_elem_of_cons. cbn [partition].
  rewrite decide_False by done. by rewrite IH.
Qed.

Lemma partition_first c a b : c ∉ a -> partition c (a ++ c :: b) = (a, true, b).
Proof.
  induction a as [|d a IH]; intros Ha; cbn [partition app]; [by rewrite decide_True|].
  apply not_elem_of_cons in Ha as [Hd Ha]. rewrite decide_False by done. by rewrite IH.
Qed.

Lemma netloc_free s : Forall (fun c => c ∉ ["/"; "?"; "#"]%char) s -> netloc_of s = s.
Proof. induction 1 as [|c s Hc _ IH]; [done|]. cbn [netloc_of]. by rewrite decide_False, IH. Qed.

(** The characters that delimit the parts of a URI, and those it drops. *)
Definition delimiters : list ascii :=
  [":"; "/"; "?"; "#"; "@"; "["; "]"; "%"; ascii_of_N 9; ascii_of_N 10; ascii_of_N 13]%char.

(** Host names: not empty, lower case, without delimiters. *)
Definition host_ok (h : bytes) : Prop :=
  h <> [] /\ lower h = h /\ h <> to_bytes "localhost" /\
  Forall (fun c => c ∉ delimiters) h.

Lemma host_without h c : host_ok h -> c ∈ delimiters -> c ∉ h.
Proof. intros (_ & _ & _ & Hall) Hc Hin. rewrite Forall_forall in Hall. by apply (Hall c). Qed.

Lemma uri_without i c : host_ok i.(host) -> c ∈ tl delimiters -> c ∉ uri i.
Proof.
  intros Hh Hc. unfold uri. rewrite elem_of_app, elem_of_cons. intros [H|[H|H]].
  - eapply host_without; [exact Hh| |exact H]. by right.
  - subst c. revert Hc. by apply (bool_decide_unpack _).
  - revert H. apply digits_without. 
    repeat (apply elem_of_cons in Hc as [->|Hc]; [reflexivity|]). by apply elem_of_nil in Hc.
Qed.

Lemma uri_netloc i : host_ok i.(host) -> urlsplit_netloc (uri i) = Ok (uri i).
Proof.
  intros Hh. assert (forall c, c ∈ uri i -> c ∉ tl delimiters) as Hno by (intros c Hin Hc; by apply (uri_without i c)).
  assert (filter (fun c => ~ unsafe_char c) (uri i) = uri i) as Hf.
  { apply filter_all. intros c Hin Hu. apply (Hno c Hin). unfold unsafe_char in Hu.
    rewrite <- (ascii_N_embedding c).
    repeat (apply elem_of_cons in Hu as [->|Hu]; [by apply (bool_decide_unpack _)|]). by apply elem_of_nil in Hu. }
  unfold urlsplit_netloc. rewrite Hf, netloc_free.
  - rewrite decide_True; [done|]. split; intros Hin; exfalso; apply (Hno _ Hin); by apply (bool_decide_unpack _).
  - apply Forall_forall. intros c Hin Hc. apply (Hno c Hin). set_solver.
Qed.

Lemma uri_hostinfo i : host_ok i.(host) -> (0 <= i.(port))%Z ->
  hostinfo (uri i) = (i.(host), Some (nat_chars (Z.to_N i.(port)))).
Proof.
  intros Hh Hp. unfold hostinfo, after_last. rewrite split_absent by (apply uri_without; [done|set_solver]).
  cbn [last default from_option id]. unfold id.
  rewrite partition_absent by (apply uri_without; [done|set_solver]). unfold uri.
  rewrite partition_first by (eapply host_without; [exact Hh|set_solver]).
  by destruct (nat_chars (Z.to_N (port i))) eqn:Hc; [apply nat_chars_nonempty in Hc|].
Qed.

Lemma hostname_lower h netloc : host_ok h -> (hostinfo netloc).1 = h -> url_hostname netloc = Some h.
Proof.
  intros Hh Heq. unfold url_hostname. rewrite Heq. destruct Hh as (Hne & Hl & Hall) eqn:He.
  destruct h as [|c h]; [done|]. rewrite partition_absent by (eapply host_without; [exact Hh|set_solver]).
  by rewrite Hl, app_nil_r.
Qed.

(** The URI of an interface and its formal URI are parsed back to its host and
    port, and with an address in front to the address as well, when the port
    is one (1 to 65535). *)
Theorem node_uri_roundtrip is_checksum_address i a :
  host_ok i.(host) -> (1 <= i.(port) <= 65535)%Z -> ~ https `prefix_of` uri i ->
  is_checksum_address a = true -> "@"%char ∉ a ->
  parse_node_uri is_checksum_address (uri i) = Ok (Some i.(host), i.(port), None) /\
  parse_node_uri is_checksum_address (formal_uri i) = Ok (Some i.(host), i.(port), None) /\
  parse_node_uri is_checksum_address (a ++ "@"%char :: uri i) = Ok (Some i.(host), i.(port), Some a) /\
  InterfaceInfo i.(host) i.(port) = i.
Proof.
  intros Hh Hp Hpre Ha Hat.
  assert (forall c : option bytes, (let? netloc := urlsplit_netloc (drop (length https) (https ++ uri i)) in
    let? port := url_port netloc in
     Ok (url_hostname netloc, match port with Some 0%Z | None => DEFAULT_REST_PORT | Some p => p end, c))
    = Ok (Some i.(host), i.(port), c)) as Hparse.
  { intros c. rewrite drop_app_length, uri_netloc by done. cbn [rbind]. unfold url_port.
    rewrite (hostname_lower i.(host)) by (done || by rewrite uri_hostinfo by (done || lia)).
    rewrite uri_hostinfo by (done || lia). cbn [snd]. rewrite decimal_chars, Z2N.id by lia.
    rewrite (proj2 (Z.leb_le _ _)), (proj2 (Z.leb_le _ _)) by lia. cbn [andb rbind].
    destruct (port i); [lia|done|lia]. }
  assert ("@"%char ∉ uri i) as Hno by (apply uri_without; [done|set_solver]).
  unfold parse_node_uri. split_and!.
  - rewrite decide_False by done. cbn [rbind]. rewrite decide_False by done. apply Hparse.
  - unfold formal_uri. rewrite decide_False by (rewrite elem_of_app; intros [H|H]; [by vm_compute in H; set_solver|done]).
    cbn [rbind]. rewrite decide_True by by eexists. apply Hparse.
  - rewrite decide_True by set_solver. rewrite (split_one_char _ _ _ Hat Hno), Ha. cbn [rbind].
    rewrite decide_False by done. apply Hparse.
  - unfold InterfaceInfo. destruct Hh as (_ & _ & Hl & _). rewrite decide_False by done. by destruct i.
Qed.

(** A URI of another scheme is not refused: [https://] is put in front of it,
    and the scheme is taken for the host. *)
Lemma other_scheme_is_a_host is_checksum_address :
  parse_node_uri is_checksum_address (to_bytes "http://10.0.0.1:9151/") = Ok (Some (to_bytes "http"), 9151%Z, None).
Proof. reflexivity. Qed.

End Protocols.

Module ExternalIp.

Definition RESERVED_IP_ADDRESSES : list bytes :=
  [to_bytes "0.0.0.0"; Protocols.LOOPBACK_ADDRESS; to_bytes "1.2.3.4"].

Definition validate_operator_ip (ip : bytes) : result unit :=
  if decide (ip ∈ RESERVED_IP_ADDRESSES) then Raise InvalidOperatorIP else Ok tt.

Definition RequestErrors : list exn_class := [ConnectionError; TimeoutError; RequestException; HTTPError].

(** [if ip]. *)
Definition truthy (ip : option bytes) : bool :=
  match ip with None | Some [] => false | Some _ => true end.

(** What [check_version] is given: a false value stands for the oldest
    version, and what is not a text has no [split]. *)
Definition version_text (ver : option json) : result (option bytes) :=
  match ver with
  | None | Some (JNull | JBool false | JNum 0%Z | JArr [] | JObj []) => Ok None
  | Some (JStr s) => Ok (Some s)
  | Some _ => Raise AttributeError
  end.

Section ExternalIp.
Context {W Node : Type} `{!IpSources W Node}.

Definition _request : PyM W (option bytes) :=
  try_except
    (response <- get_oracle ;; py_ret (if (response.1 =? 200)%Z then Some response.2 else None))
    RequestErrors (fun _ => py_ret None).

(** [response.json()] and the check of its version. *)
Definition checked_ping (content : bytes) : result (list (bytes * json)) :=
  match loads content with
  | Raise x => if catches [JSONDecodeError] x then Raise VersionMismatchError else Raise x
  | Ok (JObj ping_response) =>
      let? ver := version_text (dict_get ping_response (to_bytes "version")) in
      let? ok := Version.check_version ver in
      if negb ok then Raise VersionMismatchError else Ok ping_response
  | Ok _ => Raise AttributeError
  end.

Definition answered_ip (content : bytes) : result bytes :=
  let? ping_response := checked_ping content in
  match ip_address (dict_get ping_response (to_bytes "requester_ip")) with
  | Some ip => Ok ip
  | None => Raise UnknownIPAddress
  end.

Definition _request_from_node (teacher : Node) : PyM W (option bytes) :=
  response <- try_except (r <- get_ping teacher ;; py_ret (Some r))
                (UnexpectedResponse :: NodeSeemsToBeDown) (fun _ => py_ret None) ;;
  match response with
  | None => py_ret None
  | Some (status_code, content) =>
      if (status_code =? 200)%Z
      then ip <- lift (answered_ip content) ;; py_ret (Some ip)
      else py_ret None
  end.

(** The first node of a sample that answers. *)
Fixpoint first_answer (sample : list Node) : PyM W (option bytes) :=
  match sample with
  | [] => py_ret None
  | node :: sample' =>
      ip <- _request_from_node node ;;
      if truthy ip then py_ret ip else first_answer sample'
  end.

Definition get_external_ip_from_known_nodes (known_nodes : list Node) (sample_size : nat) : PyM W (option bytes) :=
  if length known_nodes <? sample_size then py_ret None
  else sample <- random_sample known_nodes sample_size ;; first_answer sample.

(** The loop over the default teachers; [external_ip] is what the last one
    that was reached said. *)
Fixpoint ask_teachers (uris : list bytes) (external_ip : option bytes) : PyM W (option bytes) :=
  match uris with
  | [] => py_ret external_ip
  | uri :: uris' =>
      r <- try_except (teacher <- from_teacher_uri uri ;; ip <- _request_from_node teacher ;; py_ret (Some ip))
             NodeSeemsToBeDown (fun _ => py_ret None) ;;
      match r with
      | None => ask_teachers uris' external_ip
      | Some ip => if truthy ip then py_ret ip else ask_teachers uris' ip
      end
  end.

(** [federated_only=False] and no registry, as [determine_external_ip_address]
    calls it. *)
Definition get_external_ip_from_default_teacher (network : string) : PyM W (option bytes) :=
  match teacher_nodes network with
  | None => py_ret None
  | Some uris =>
      set_cert_storage ;;;
      external_ip <- ask_teachers uris None ;;
      py_ret (if truthy external_ip then external_ip else None)
  end.

Definition get_external_ip_from_centralized_source : PyM W (option bytes) := _request.

Definition determine_external_ip_address (network : string) (known_nodes : option (list Node)) : PyM W bytes :=
  rest_host <- match known_nodes with
               | Some ((_ :: _) as nodes) => get_external_ip_from_known_nodes nodes 3
               | _ => py_ret None
               end ;;
  rest_host <- (if truthy rest_host then py_ret rest_host else get_external_ip_from_default_teacher network) ;;
  rest_host <- (if truthy rest_host then py_ret rest_host else get_external_ip_from_centralized_source) ;;
  match rest_host with
  | Some ((_ :: _) as ip) => py_ret ip
  | _ => raise UnknownIPAddress
  end.

(** ** The sources in their order

    With sources whose answers do not depend on the state: every source is
    silent, gives an address, or raises. *)
Section Order.
Context (ping_of : Node -> result (Z * bytes)) (oracle : result (Z * bytes)) (sampled : list Node)
  (teacher_of : bytes -> result Node).
Context (Hping : forall n w, (get_ping n w).1 = ping_of n) (Horacle : forall w, (get_oracle (Node := Node) w).1 = oracle)
  (Hsample : forall l k w, (random_sample l k w).1 = Ok sampled)
  (Hstore : forall w, (set_cert_storage (Node := Node) w).1 = Ok tt)
  (Hteacher : forall u w, (from_teacher_uri u w).1 = teacher_of u).

Definition silence (cs : list exn_class) (r : result (option bytes)) : result (option bytes) :=
  match r with Raise e => if catches cs e then Ok None else r | _ => r end.

Definition node_answer (n : Node) : result (option bytes) :=
  match silence (UnexpectedResponse :: NodeSeemsToBeDown) (let? r := ping_of n in Ok None), ping_of n with
  | Ok _, Ok (status_code, content) =>
      if (status_code =? 200)%Z then let? ip := answered_ip content in Ok (Some ip) else Ok None
  | r, _ => r
  end.

Definition teacher_answer (uri : bytes) : result (option bytes) :=
  silence NodeSeemsToBeDown (let? n := teacher_of uri in node_answer n).

Definition oracle_answer : result (option bytes) :=
  silence RequestErrors (let? r := oracle in Ok (if (r.1 =? 200)%Z then Some r.2 else None)).

(** The first source that is not silent decides. *)
Fixpoint first_decisive (answers : list (result (option bytes))) : result (option bytes) :=
  match answers with
  | [] => Ok None
  | Raise e :: _ => Raise e
  | Ok ip :: answers' => if truthy ip then Ok ip else first_decisive answers'
  end.

Definition ip_answers (network : string) (known_nodes : option (list Node)) : list (result (option bytes)) :=
  (match known_nodes with
   | Some nodes => if length nodes <? 3 then [] else node_answer <$> sampled
   | None => []
   end) ++ (teacher_answer <$> default [] (teacher_nodes network)) ++ [oracle_answer].

Lemma request_from_node_answer n w : (_request_from_node n w).1 = node_answer n.
Proof using Hping.
  unfold _request_from_node, node_answer, try_except, py_bind at 1, py_bind at 1. pose proof (Hping n w) as Hn.
  destruct (get_ping n w) as [[r|e] w']; cbn [fst] in Hn; rewrite <- Hn; cbn [py_ret rbind silence].
  - destruct r as [st c]. destruct (st =? 200)%Z; [|done]. unfold py_bind, lift. by destruct (answered_ip c).
  - by destruct (catches _ e).
Qed.

Lemma truthy_not ip : truthy ip = false -> ip = None \/ ip = Some [].
Proof. destruct ip as [[|]|]; auto; done. Qed.

(** What the three sources amount to, in front of further answers. *)
Definition falls_through (r : result (option bytes)) (rest : result (option bytes)) : result (option bytes) :=
  match r with Ok ip => if truthy ip then Ok ip else rest | Raise e => Raise e end.

Lemma first_decisive_app l l' : first_decisive (l ++ l') = falls_through (first_decisive l) (first_decisive l').
Proof. induction l as [|[ip|e] l IH]; cbn; [done| |done]. destruct (truthy ip) eqn:Ht; cbn; by rewrite ?Ht. Qed.

Lemma first_answer_decisive l w : (first_answer l w).1 = first_decisive (node_answer <$> l).
Proof using Hping.
  revert w. induction l as [|n l IH]; intros w; [done|]. cbn [first_answer fmap list_fmap first_decisive].
  unfold py_bind. pose proof (request_from_node_answer n w) as Hn.
  destruct (_request_from_node n w) as [[ip|e] w']; cbn [fst] in Hn; rewrite <- Hn; [|done].
  destruct (truthy ip); [done|apply IH].
Qed.

Lemma ask_teachers_decisive uris acc w : truthy acc = false ->
  falls_through (ask_teachers uris acc w).1 (Ok None) = first_decisive (teacher_answer <$> uris).
Proof using Hping Hteacher.
  revert acc w. induction uris as [|u uris IH]; intros acc w Hacc.
  { cbn. by rewrite Hacc. }
  cbn [ask_teachers fmap list_fmap first_decisive]. unfold py_bind at 1, try_except, py_bind at 1, teacher_answer at 1.
  pose proof (Hteacher u w) as Hu. destruct (from_teacher_uri u w) as [[n|e] w']; cbn [fst] in Hu; rewrite <- Hu; cbn [rbind].
  - unfold py_bind at 1. pose proof (request_from_node_answer n w') as Hn.
    destruct (_request_from_node n w') as [[ip|e] w'']; cbn [fst] in Hn; rewrite <- Hn; cbn [silence py_ret].
    + destruct (truthy ip) eqn:Hip; [cbn; by rewrite Hip|by apply IH].
    + destruct (catches NodeSeemsToBeDown e); cbn [truthy]; [by apply IH|done].
  - cbn [silence]. destruct (catches NodeSeemsToBeDown e); cbn [truthy]; [by apply IH|done].
Qed.

Lemma request_answer w : (_request w).1 = oracle_answer.
Proof using Horacle.
  unfold _request, oracle_answer, try_except, py_bind. pose proof (Horacle w) as Ho.
  destruct (get_oracle w) as [[r|e] w']; cbn [fst] in Ho; rewrite <- Ho; cbn [rbind silence py_ret]; [done|].
  by destruct (catches RequestErrors e).
Qed.

Lemma default_teacher_decisive network w :
  (get_external_ip_from_default_teacher network w).1 =
  first_decisive (teacher_answer <$> default [] (teacher_nodes (W := W) (Node := Node) network)).
Proof using Hping Hteacher Hstore.
  unfold get_external_ip_from_default_teacher. destruct (teacher_nodes network) as [uris|]; [|done].
  unfold py_bind. pose proof (Hstore w) as Hs. destruct (set_cert_storage w) as [r w']; cbn [fst] in Hs; subst r.
  change (default [] (Some uris)) with uris. rewrite <- (ask_teachers_decisive uris None w') by done.
  destruct (ask_teachers uris None w') as [[ip|e] w'']; done || (cbn; by destruct (truthy ip)).
Qed.

Lemma known_nodes_decisive known_nodes w :
  (match known_nodes with
   | Some ((_ :: _) as nodes) => get_external_ip_from_known_nodes nodes 3
   | _ => py_ret None
   end w).1 =
  first_decisive match known_nodes with
                 | Some nodes => if length nodes <? 3 then [] else node_answer <$> sampled
                 | None => []
                 end.
Proof using Hping Hsample.
  destruct known_nodes as [[|n nodes]|]; [done| |done]. unfold get_external_ip_from_known_nodes.
  destruct (length (n :: nodes) <? 3); [done|]. unfold py_bind. pose proof (Hsample (n :: nodes) 3 w) as Hs.
  destruct (random_sample _ _ w) as [r w']; cbn [fst] in Hs; subst r. apply first_answer_decisive.
Qed.

(** The external address is what the first source that is not silent says, in
    the order of the docstring: a sample of the known nodes when there are
    three of them, the default teachers of the network, the central service;
    UnknownIPAddress when all of them are silent.  A source that raises ends
    the detection: a node of another version or with an invalid answer keeps
    the later sources from being asked, and its error, not UnknownIPAddress,
    comes out in the first case. *)
Theorem external_ip_in_priority network known_nodes w :
  (determine_external_ip_address network known_nodes w).1 =
  match first_decisive (ip_answers network known_nodes) with
  | Ok (Some ip) => Ok ip
  | Ok None => Raise UnknownIPAddress
  | Raise e => Raise e
  end /\
  (forall n uri, ping_of n = Ok (200%Z, uri) -> checked_ping uri = Raise VersionMismatchError ->
     node_answer n = Raise VersionMismatchError).
Proof using All.
  split.
  - unfold determine_external_ip_address, ip_answers. rewrite !first_decisive_app. unfold py_bind.
    pose proof (known_nodes_decisive known_nodes w) as Hk.
    set (m := match known_nodes with Some ((_ :: _) as nodes) => _ | _ => _ end) in *.
    destruct (m w) as [[ip|e] w1]; cbn [fst] in Hk; rewrite <- Hk; cbn [falls_through]; [|done].
    destruct (truthy ip) eqn:Hip; [by destruct ip as [[|]|]|].
    pose proof (default_teacher_decisive network w1) as Hd.
    destruct (get_external_ip_from_default_teacher network w1) as [[ip'|e] w2]; cbn [fst] in Hd; rewrite <- Hd; [|done].
    cbn [falls_through]. destruct (truthy ip') eqn:Hip'; [by destruct ip' as [[|]|]|].
    pose proof (request_answer w2) as Ho. unfold get_external_ip_from_centralized_source.
    destruct (_request w2) as [[ip''|e] w3]; cbn [fst] in Ho; cbn [first_decisive]; rewrite <- Ho; [|done].
    by destruct ip'' as [[|]|].
  - intros n content Hn Hc. unfold node_answer. rewrite Hn. cbn [rbind silence]. change (200 =? 200)%Z with true. cbv iota.
    unfold answered_ip. by rewrite Hc.
Qed.

End Order.
End ExternalIp.
End ExternalIp.

(** ** Concrete sources *)
Module NetworkingDemo.
Import Protocols ExternalIp.

Definition reply (version ip : string) : bytes :=
  dumps (JObj [(to_bytes "requester_ip", JStr (to_bytes ip)); (to_bytes "version", JStr (to_bytes version))]).

(** Node 0 is down, node 1 runs another version, the others answer. *)
Definition demo_ping (n : nat) : result (Z * bytes) :=
  match n with
  | 0 => Raise RequestsConnectTimeout
  | 1 => Ok (200%Z, reply "0.1.7" "10.0.0.7")
  | _ => Ok (200%Z, reply "0.2.3" "10.0.0.7")
  end.

#[export] Instance demo_sources : IpSources unit nat := {
  get_ping n := lift (demo_ping n);
  get_oracle := lift (Ok (200%Z, to_bytes "10.0.0.9"));
  random_sample l k := lift (Ok [0; 2; 1]);
  ip_address x := match x with Some (JStr s) => Some s | _ => None end;
  set_cert_storage := py_ret tt;
  from_teacher_uri u := raise RequestsConnectionError;
  teacher_nodes network := if decide (network = "horus"%string) then Some [to_bytes "https://47.245.98.245:9151"] else None;
}.

Lemma external_ip_in_priority_witness :
  (determine_external_ip_address "horus" (Some [0; 1; 2; 3]) tt).1 = Ok (to_bytes "10.0.0.7") /\
  (determine_external_ip_address "horus" (Some [0; 1] : option (list nat)) tt).1 = Ok (to_bytes "10.0.0.9") /\
  node_answer demo_ping 1 = Raise VersionMismatchError.
Proof.
  pose proof (fun known_nodes => external_ip_in_priority demo_ping (Ok (200%Z, to_bytes "10.0.0.9")) [0; 2; 1]
    (fun _ => Raise RequestsConnectionError) (fun _ _ => eq_refl) (fun _ => eq_refl) (fun _ _ _ => eq_refl)
    (fun _ => eq_refl) (fun _ _ => eq_refl) "horus" known_nodes tt) as H.
  split_and!.
  - etrans; [exact (proj1 (H (Some [0; 1; 2; 3])))|reflexivity].
  - etrans; [exact (proj1 (H (Some [0; 1])))|reflexivity].
  - apply (proj2 (H None) 1 (reply "0.1.7" "10.0.0.7")); reflexivity.
Defined.

Definition demo_address : bytes := to_bytes "0xC7cC4d2A8F6f6aE3E0a0B7Bf4c1A3a3D2b5F1e9a".
Definition demo_host : bytes := to_bytes "node-7.nulink.network".

Lemma node_uri_roundtrip_witness :
  parse_node_uri (fun a => bool_decide (a = demo_address)) (to_bytes "node-7.nulink.network:9152")
    = Ok (Some demo_host, 9152%Z, None).
Proof.
  refine (proj1 (node_uri_roundtrip (fun a => bool_decide (a = demo_address)) (InterfaceInfo_ demo_host 9152) demo_address
    _ _ _ _ _)).
  - split_and!; [done|reflexivity|done|]. apply (bool_decide_unpack _). vm_compute. exact I.
  - done.
  - apply (bool_decide_unpack _). vm_compute. exact I.
  - reflexivity.
  - apply (bool_decide_unpack _). vm_compute. exact I.
Defined.

End NetworkingDemo.
