(* ===== verification/Datastore.v ===== *)
(** * nulink/datastore

    Records over an LMDB environment: typed fields that are encoded and packed,
    descriptions and queries inside a transaction that commits when their body
    returns.  LMDB is the class [Lmdb], msgpack and the types of field values
    the class [Msgpack]. *)

From Stdlib Require Import Ascii Sorting.Sorted.
From stdpp Require Import sorting.
From S2P Require Import Prelude Text Json.

(** The data of a transaction. *)
Class Lmdb (T : Type) := {
  tx_get : bytes -> T -> option bytes;
  (* [put(key, value, overwrite=True)] *)
  tx_put : bytes -> bytes -> T -> result bool * T;
  tx_delete : bytes -> T -> bool * T;
  (* [set_range(key)] and then [iternext(keys=True, values=False)]: the keys
     from [key] on, in their order *)
  keys_from : bytes -> T -> list bytes;
}.

Class Msgpack (V Ty : Type) := {
  type_of : V -> Ty;
  packb : V -> result bytes;
  unpackb : bytes -> result V;
}.

(** The order of keys: bytes as unsigned numbers, a prefix first. *)
Fixpoint bytes_leb (a b : bytes) : bool :=
  match a, b with
  | [], _ => true
  | _ :: _, [] => false
  | c :: a', d :: b' =>
      (N_of_ascii c <? N_of_ascii d)%N || ((N_of_ascii c =? N_of_ascii d)%N && bytes_leb a' b')
  end.
Definition bytes_le (a b : bytes) : Prop := bytes_leb a b = true.
#[global] Instance bytes_le_dec a b : Decision (bytes_le a b) := ltac:(unfold bytes_le; apply _).

(** LMDB's promises. *)
Class LmdbLaws (T : Type) `{!Lmdb T} := {
  put_get k v s s' : tx_put k v s = (Ok true, s') ->
    forall k', tx_get k' s' = if decide (k = k') then Some v else tx_get k' s;
  delete_get k s b s' : tx_delete k s = (b, s') ->
    b = bool_decide (is_Some (tx_get k s)) /\
    forall k', tx_get k' s' = if decide (k = k') then None else tx_get k' s;
  keys_from_elem q s k : k ∈ keys_from q s <-> is_Some (tx_get k s) /\ bytes_le q k;
  keys_from_sorted q s : StronglySorted bytes_le (keys_from q s);
}.

Module Datastore.

(** ** Keys *)

(** [int(s)] of a text: blanks around it, a sign, digits with single
    underscores between them. *)
Definition is_blank (c : ascii) : bool :=
  let n := N_of_ascii c in (((9 <=? n) && (n <=? 13)) || ((28 <=? n) && (n <=? 32)))%N.

Fixpoint drop_blanks (s : bytes) : bytes :=
  match s with c :: s' => if is_blank c then drop_blanks s' else s | [] => [] end.

Definition strip (s : bytes) : bytes := rev (drop_blanks (rev (drop_blanks s))).

Definition is_digit (c : ascii) : bool := (48 <=? N_of_ascii c)%N && (N_of_ascii c <=? 57)%N.

(** [need]: a digit has to come next. *)
Fixpoint digits_from (need : bool) (acc : Z) (s : bytes) : option Z :=
  match s with
  | [] => if need then None else Some acc
  | c :: s' =>
      if is_digit c then digits_from false (10 * acc + (Z.of_N (N_of_ascii c) - 48)) s'
      else if bool_decide (c = "_"%char) && negb need then digits_from true acc s' else None
  end.

Definition py_int (s : bytes) : option Z :=
  match strip s with
  | "-"%char :: d => Z.opp <$> digits_from true 0 d
  | "+"%char :: d => digits_from true 0 d
  | d => digits_from true 0 d
  end.

(** A part of a key: a number or a text. *)
Inductive part := PInt (z : Z) | PText (s : bytes).
#[global] Instance part_eq_dec : EqDecision part.
Proof. solve_decision. Defined.

Definition part_text (p : part) : bytes := match p with PInt z => int_chars z | PText s => s end.

(** [with suppress(ValueError): x = int(x)]. *)
Definition to_int (p : part) : part :=
  match p with
  | PInt z => PInt z
  | PText s => match py_int s with Some z => PInt z | None => PText s end
  end.

(** [DatastoreKey]. *)
Record key_parts := DatastoreKey {
  record_type_ : option part;
  record_field : option part;
  record_id : option part;
}.

Definition from_bytestring (key_bytestring : bytes) : result key_parts :=
  let? text := decode key_bytestring in
  match split [":"%char] text with
  | [a] => Ok (DatastoreKey (Some (to_int (PText a))) None None)
  | [a; b] => Ok (DatastoreKey (Some (PText a)) (Some (to_int (PText b))) None)
  | [a; b; c] => Ok (DatastoreKey (Some (PText a)) (Some (PText b)) (Some (to_int (PText c))))
  | _ => Raise TypeError
  end.

(** [self == (other or self)]: nothing, 0 and the empty text stand for
    [self]. *)
Definition matches (self other : option part) : bool :=
  match other with
  | None | Some (PInt 0) | Some (PText []) => true
  | _ => bool_decide (self = other)
  end.

Definition compare_key (self : key_parts) (key_bytestring : bytes) : result bool :=
  let? other_key := from_bytestring key_bytestring in
  Ok (matches self.(record_type_) other_key.(record_type_) &&
      matches self.(record_field) other_key.(record_field) &&
      matches self.(record_id) other_key.(record_id)).

(** ** Records *)

Section Records.
Context {T V Ty : Type} `{!Lmdb T} `{!Msgpack V Ty} `{!EqDecision Ty}.

Record RecordField := {
  field_type : Ty;
  encode : V -> result V;
  field_decode : V -> result V;
}.

(** A subclass of [DatastoreRecord]: its name and its fields, as declared. *)
Record record_type := {
  type_name : bytes;
  fields : list (bytes * RecordField);
}.

(** An instance within a transaction ([h_open]) or after it. *)
Record handle := Handle {
  h_type : record_type;
  h_id : option part;
  h_writeable : bool;
  h_open : bool;
}.

(** [str(record_id)]. *)
Definition id_text (i : option part) : bytes :=
  match i with Some p => part_text p | None => to_bytes "None" end.

Definition storage_key (name field : bytes) (i : option part) : bytes :=
  name ++ ":"%char :: field ++ ":"%char :: id_text i.

(** [__storagekey.format(...)] of a record. *)
Definition record_key (h : handle) (field : bytes) : bytes := storage_key h.(h_type).(type_name) field h.(h_id).

(** A field that is not declared is a [TypeError]. *)
Definition get_record_field (h : handle) (attr : bytes) : result RecordField :=
  match dict_get h.(h_type).(fields) attr with Some f => Ok f | None => Raise TypeError end.

(** What a closed transaction answers. *)
Definition on_tx {A} (h : handle) (m : PyM T A) : PyM T A :=
  if h.(h_open) then m else raise LmdbError.

Definition retrieve_raw_record (h : handle) (field : bytes) : PyM T bytes :=
  on_tx h
    (field_value <- gets (tx_get (record_key h field)) ;;
     match field_value with Some v => py_ret v | None => raise AttributeError end).

Definition write_raw_record (h : handle) (field value : bytes) : PyM T unit :=
  on_tx h
    (written <- tx_put (record_key h field) value ;;
     if negb written then raise DBWriteError else py_ret tt).

Definition delete_record (h : handle) (field : bytes) : PyM T unit :=
  on_tx h
    (fun s =>
       let '(deleted, s') := tx_delete (record_key h field) s in
       if negb deleted && bool_decide (is_Some (tx_get (record_key h field) s')) then (Raise DBWriteError, s')
       else (Ok tt, s')).

(** [__getattr__]. *)
Definition get_attr (h : handle) (attr : bytes) : PyM T V :=
  if bool_decide (["_"%char] `prefix_of` attr) then raise AttributeError
  else
    f <- lift (get_record_field h attr) ;;
    raw <- retrieve_raw_record h attr ;;
    unpacked <- lift (unpackb raw) ;;
    field_value <- lift (f.(field_decode) unpacked) ;;
    if decide (type_of field_value = f.(field_type)) then py_ret field_value else raise TypeError.

(** [__setattr__] of an initialised record; [None] deletes. *)
Definition set_attr (h : handle) (attr : bytes) (value : option V) : PyM T unit :=
  if negb h.(h_writeable) then raise TypeError
  else
    f <- lift (get_record_field h attr) ;;
    match value with
    | None => delete_record h attr
    | Some v =>
        if decide (type_of v = f.(field_type)) then
          encoded <- lift (f.(encode) v) ;;
          field_value <- lift (packb encoded) ;;
          write_raw_record h attr field_value
        else raise TypeError
    end.

(** [delete]: every declared field. *)
Definition delete (h : handle) : PyM T unit :=
  for_each h.(h_type).(fields) (fun kv => set_attr h kv.1 None).

(** ** Transactions *)

(** The errors that a body turns into errors of the datastore. *)
Definition tx_error (writeable : bool) (e : exn_class) : exn_class :=
  if catches [AttributeError; TypeError; DBWriteError] e then
    if negb writeable && catches [AttributeError] e then RecordNotFound else DatastoreTransactionError
  else e.

(** [with env.begin(write=writeable)]: committed unless an exception leaves
    the block. *)
Definition transaction {A} (writeable : bool) (m : PyM T A) : PyM T A := fun s =>
  match m s with
  | (Ok a, s') => (Ok a, if writeable then s' else s)
  | (Raise e, _) => (Raise e, s)
  end.

(** The body's errors inside the transaction. *)
Definition converting {A} (writeable : bool) (m : PyM T A) : PyM T A := fun s =>
  match m s with
  | (Raise e, s') => (Raise (tx_error writeable e), s')
  | r => r
  end.

(** [with datastore.describe(rt, i, writeable) as record: body]. *)
Definition describe {A} (rt : record_type) (i : part) (writeable : bool) (body : handle -> PyM T A) : PyM T A :=
  transaction writeable
    (converting writeable (body (Handle rt (Some (to_int i)) writeable true))).

(** What is left of a record after its transaction. *)
Definition closed (h : handle) : handle := Handle h.(h_type) h.(h_id) false false.

(** ** Queries *)

(** A filter gets the field, or the record when no field was named. *)
Inductive filter_arg := AField (v : V) | ARecord (h : handle).

Section Query.
Variable rt : record_type.
Variable filter_func : option (filter_arg -> PyM T bool).
Variable filter_field : bytes.

Definition query_key : bytes := rt.(type_name) ++ ":"%char :: filter_field.

(** Whether a record passes the filter. *)
Definition accepts (i : option part) : PyM T bool :=
  let record := Handle rt i false true in
  match filter_func with
  | None => py_ret true
  | Some f =>
      match filter_field with
      | [] => f (ARecord record)
      | _ =>
          field <- try_except (v <- get_attr record filter_field ;; py_ret (Some v)) [TypeError; AttributeError]
                     (fun _ => py_ret None) ;;
          match field with Some v => f (AField v) | None => py_ret false end
      end
  end.

(** The loop over the keys: up to the first one of another type or field,
    every record once. *)
Fixpoint scan (keys : list bytes) (valid : list (option part)) : PyM T (list (option part)) :=
  match keys with
  | [] => py_ret valid
  | db_key :: keys' =>
      curr_key <- lift (from_bytestring db_key) ;;
      same <- lift (compare_key curr_key query_key) ;;
      if negb same then py_ret valid
      else if decide (curr_key.(record_id) ∈ valid) then scan keys' valid
      else
        ok <- accepts curr_key.(record_id) ;;
        scan keys' (if ok : bool then valid ++ [curr_key.(record_id)] else valid)
  end.

(** The records of the query; the code's set of them has no order, this list
    has that of the keys. *)
Definition find_records (writeable : bool) : PyM T (list handle) :=
  keys <- gets (keys_from query_key) ;;
  match keys with
  | [] => raise RecordNotFound
  | first :: _ =>
      curr_key <- lift (from_bytestring first) ;;
      same <- lift (compare_key curr_key query_key) ;;
      if negb same then raise RecordNotFound
      else
        valid_records <- scan keys [] ;;
        match valid_records with
        | [] => raise RecordNotFound
        | _ => py_ret ((fun i => Handle rt i writeable true) <$> valid_records)
        end
  end.

(** [with datastore.query_by(...) as records: body]. *)
Definition query_by {A} (writeable : bool) (body : list handle -> PyM T A) : PyM T A :=
  transaction writeable
    (records <- find_records writeable ;; converting writeable (body records)).
End Query.

(** [unwrap_records] of a query without a filter: the records leave their
    transaction. *)
Definition unwrap_records (rt : record_type) : PyM T (list handle) :=
  try_except
    (results <- query_by rt None [] false (fun results => py_ret results) ;; py_ret (closed <$> results))
    [RecordNotFound] (fun _ => py_ret []).

End Records.

Arguments RecordField : clear implicits.
Arguments record_type : clear implicits.
Arguments handle : clear implicits.
Arguments filter_arg : clear implicits.

(** ** Size of the environment *)

Definition LMDB_MAP_SIZE : Z := 50000000000.

(** [Datastore.__init__]: the map size, from the one asked for and the free
    bytes of the disk. *)
Definition open_size (map_size : option Z) (disk_available_bytes : Z) : result Z :=
  let map_size := match map_size with None | Some 0%Z => LMDB_MAP_SIZE | Some z => z end in
  let map_size := if (map_size <? disk_available_bytes)%Z then map_size else (disk_available_bytes - 10000000000)%Z in
  if (map_size <? 10000000000)%Z then Raise Exception else Ok map_size.

(** ** The order of keys *)

Lemma bytes_le_refl a : bytes_le a a.
Proof. unfold bytes_le. induction a as [|c a IH]; [done|]. cbn. by rewrite N.eqb_refl, IH, orb_true_r. Qed.

Lemma bytes_le_cons c d a b :
  bytes_le (c :: a) (d :: b) <-> (N_of_ascii c < N_of_ascii d)%N \/ (c = d /\ bytes_le a b).
Proof.
  unfold bytes_le. cbn [bytes_leb]. rewrite orb_true_iff, andb_true_iff, N.ltb_lt, N.eqb_eq. split.
  - intros [H|[Heq H]]; [by left|]. right. split; [|done].
    by rewrite <- (ascii_N_embedding c), <- (ascii_N_embedding d), Heq.
  - intros [H|[-> H]]; [by left|by right].
Qed.

Lemma prefix_le p x : p `prefix_of` x -> bytes_le p x.
Proof.
  intros [y ->]. induction p as [|c p IH]; [done|]. cbn [app]. apply bytes_le_cons. by right.
Qed.

(** The texts with a given prefix follow each other. *)
Lemma prefix_segment p a b : bytes_le p a -> bytes_le a b -> p `prefix_of` b -> p `prefix_of` a.
Proof.
  revert a b. induction p as [|c p IH]; intros a b Hpa Hab Hp; [apply prefix_nil|].
  destruct b as [|e b]; [by apply prefix_nil_not in Hp|].
  destruct a as [|d a]; [done|].
  pose proof (prefix_cons_inv_1 _ _ _ _ Hp) as ->. apply prefix_cons_inv_2 in Hp.
  apply bytes_le_cons in Hpa as [Hlt|[<- Hpa]]; apply bytes_le_cons in Hab as [Hlt'|[Heq Hab]]; subst; try lia.
  by apply prefix_cons, (IH a b).
Qed.

(** Between a text and its extension by [c] are the extensions by smaller
    characters. *)
Lemma prefix_gap q c k :
  bytes_le q k -> ~ bytes_le (q ++ [c]) k -> k = q \/ exists d r, k = q ++ d :: r /\ (N_of_ascii d < N_of_ascii c)%N.
Proof.
  revert k. induction q as [|e q IH]; intros k Hq Hn.
  - destruct k as [|d k]; [by left|]. right. exists d, k. split; [done|].
    destruct (N.lt_ge_cases (N_of_ascii d) (N_of_ascii c)) as [H|H]; [done|]. exfalso. apply Hn. cbn [app].
    apply bytes_le_cons. apply N.lt_eq_cases in H as [H|H]; [by left|right]. split; [|done].
    by rewrite <- (ascii_N_embedding c), <- (ascii_N_embedding d), H.
  - destruct k as [|d k]; [done|]. cbn [app] in Hn.
    apply bytes_le_cons in Hq as [Hlt|[<- Hq]]; [exfalso; apply Hn, bytes_le_cons; by left|].
    destruct (IH k Hq) as [->|(d & r & -> & Hd)].
    + intros Hle. apply Hn, bytes_le_cons. by right.
    + by left.
    + right. by exists d, r.
Qed.

(** ** Numbers in keys *)

Lemma strip_id s : Forall (fun c => is_blank c = false) s -> strip s = s.
Proof.
  intros Hs. assert (forall t, Forall (fun c => is_blank c = false) t -> drop_blanks t = t) as Hd.
  { intros t Ht. destruct Ht as [|c t Hc _]; [done|]. cbn. by rewrite Hc. }
  unfold strip. rewrite (Hd s Hs), Hd by by apply Forall_rev. apply rev_involutive.
Qed.

Lemma digits_from_digits need acc s :
  Forall (fun c => is_digit c = true) s -> (need = true -> s <> []) ->
  digits_from need acc s = Some (foldl (fun acc c => 10 * acc + (Z.of_N (N_of_ascii c) - 48)) acc s)%Z.
Proof.
  intros Hs. revert need acc. induction Hs as [|c s Hc Hs IH]; intros need acc Hn.
  - destruct need; [by specialize (Hn eq_refl)|done].
  - cbn [digits_from foldl]. rewrite Hc. by apply IH.
Qed.

Lemma digits_nat_chars n : digits_from true 0 (nat_chars n) = Some (Z.of_N n).
Proof.
  rewrite digits_from_digits; [|exact (digit_chars n)|intros _; apply nat_chars_nonempty].
  pose proof (decimal_chars n) as H. unfold decimal in H. by destruct (forallb _ _).
Qed.

Lemma digit_not_blank c : is_digit c = true -> is_blank c = false.
Proof. by destruct c as [[] [] [] [] [] [] [] []]. Qed.

Lemma py_int_nat_chars n : py_int (nat_chars n) = Some (Z.of_N n).
Proof.
  unfold py_int. rewrite strip_id.
  - pose proof (digit_chars n) as Hd. rewrite <- digits_nat_chars.
    destruct (nat_chars n) as [|c s]; [done|]. inversion Hd as [|? ? Hc _]; subst.
    by destruct c as [[] [] [] [] [] [] [] []].
  - eapply Forall_impl; [apply (digit_chars n)|]. intros c Hc. by apply digit_not_blank.
Qed.

Lemma py_int_int_chars z : py_int (int_chars z) = Some z.
Proof.
  unfold int_chars. destruct (z <? 0)%Z eqn:Hz; [|rewrite py_int_nat_chars, Z2N.id by lia; done].
  unfold py_int. rewrite strip_id.
  - rewrite digits_nat_chars. cbn. f_equal. lia.
  - constructor; [done|]. eapply Forall_impl; [apply digit_chars|]. intros c Hc. by apply digit_not_blank.
Qed.

Lemma int_chars_no_colon z : ":"%char ∉ int_chars z.
Proof.
  assert (forall n, ":"%char ∉ nat_chars n) as H by (intros n; by apply digits_without).
  unfold int_chars. destruct (z <? 0)%Z; [|done]. by apply not_elem_of_cons.
Qed.

(** Identifiers as [describe] makes them, that do not upset the keys. *)
Definition id_ok (i : part) : Prop := to_int i = i /\ ":"%char ∉ part_text i.

Lemma to_int_text i : id_ok i -> to_int (PText (part_text i)) = i.
Proof.
  destruct i as [z|s]; intros [Hi _]; [|exact Hi]. cbn [part_text to_int]. by rewrite py_int_int_chars.
Qed.

(** Names of types and fields: identifiers of Python. *)
Definition name_ok (s : bytes) : Prop := ":"%char ∉ s /\ s <> [] /\ py_int s = None.

Lemma split_key n f i :
  name_ok n -> name_ok f -> id_ok i ->
  split [":"%char] (storage_key n f (Some i)) = [n; f; part_text i].
Proof.
  intros (Hn & _) (Hf & _) (_ & Hi). unfold storage_key. cbn [id_text].
  rewrite split_first, split_first, split_absent by done. done.
Qed.

Lemma from_storage_key n f i :
  name_ok n -> name_ok f -> id_ok i -> decode (storage_key n f (Some i)) = Ok (storage_key n f (Some i)) ->
  from_bytestring (storage_key n f (Some i)) = Ok (DatastoreKey (Some (PText n)) (Some (PText f)) (Some i)).
Proof.
  intros Hn Hf Hi Hd. unfold from_bytestring. rewrite Hd. cbn [rbind]. rewrite split_key by done.
  by rewrite to_int_text.
Qed.

Lemma storage_key_inj n f i n' f' i' :
  name_ok n -> name_ok f -> id_ok i -> name_ok n' -> name_ok f' -> id_ok i' ->
  storage_key n f (Some i) = storage_key n' f' (Some i') -> n = n' /\ f = f' /\ i = i'.
Proof.
  intros Hn Hf Hi Hn' Hf' Hi' Heq. apply (f_equal (split [":"%char])) in Heq.
  rewrite !split_key in Heq by done. injection Heq as -> -> Ht. split_and!; [done..|].
  rewrite <- (to_int_text i), <- (to_int_text i') by done. by rewrite Ht.
Qed.

(** ** What records promise *)

Section Promises.
Context {T V Ty : Type} `{!Lmdb T} `{!LmdbLaws T} `{!Msgpack V Ty} `{!EqDecision Ty}.
Implicit Types (rt : record_type V Ty) (s : T) (h : handle V Ty).

(** A field that is stored is read back: msgpack and the field's own encoding
    are undone. *)
Definition field_ok (f : RecordField V Ty) : Prop :=
  forall v e b, type_of v = f.(field_type) -> f.(encode) v = Ok e -> packb e = Ok b -> unpackb b = Ok e /\ f.(field_decode) e = Ok v.

Definition type_ok rt : Prop :=
  name_ok rt.(type_name) /\ forall a f, dict_get rt.(fields) a = Some f ->
    name_ok a /\ ~ ["_"%char] `prefix_of` a /\ field_ok f.

(** What reading a field of a record gives. *)
Definition view (rt : record_type V Ty) (i : part) (s : T) (attr : bytes) : result V :=
  (get_attr (Handle rt (Some i) false true) attr s).1.

Lemma get_attr_pure h attr s : h.(h_open) = true ->
  get_attr h attr s = ((get_attr (Handle h.(h_type) h.(h_id) false true) attr s).1, s).
Proof.
  intros Ho. unfold get_attr, retrieve_raw_record, on_tx. cbn [h_open h_type h_id]. rewrite Ho.
  destruct (bool_decide _); [done|]. unfold py_bind, lift, gets, get_record_field, record_key. cbn [h_type h_id].
  destruct (dict_get _ attr) as [f|]; [|done]. destruct (tx_get _ s) as [b|]; [|done]. cbn [py_ret].
  destruct (unpackb b); [|done]. destruct (field_decode f a); [|done]. by destruct (decide _).
Qed.

Lemma view_ext rt i s s' attr :
  tx_get (storage_key rt.(type_name) attr (Some i)) s = tx_get (storage_key rt.(type_name) attr (Some i)) s' ->
  view rt i s attr = view rt i s' attr.
Proof.
  intros Heq. unfold view, get_attr, retrieve_raw_record, on_tx, py_bind, lift, gets, record_key, get_record_field.
  cbn [h_open h_type h_id]. destruct (bool_decide _); [done|]. destruct (dict_get _ attr) as [f|]; [|done].
  rewrite Heq. destruct (tx_get _ s') as [b|]; [|done]. cbn [py_ret].
  destruct (unpackb b); [|done]. destruct (field_decode f a); [|done]. by destruct (decide _).
Qed.

Lemma view_missing rt i s attr f :
  type_ok rt -> dict_get rt.(fields) attr = Some f ->
  tx_get (storage_key rt.(type_name) attr (Some i)) s = None -> view rt i s attr = Raise AttributeError.
Proof.
  intros [_ Hf] Ha Hn. destruct (Hf _ _ Ha) as (_ & Hu & _).
  unfold view, get_attr, retrieve_raw_record, on_tx, py_bind, lift, gets, record_key, get_record_field.
  cbn [h_open h_type h_id]. rewrite bool_decide_eq_false_2 by done. rewrite Ha, Hn. done.
Qed.

(** A write changes one key, and the field reads as the value written. *)
Lemma set_attr_ok rt i attr v s s' :
  type_ok rt -> set_attr (Handle rt (Some i) true true) attr v s = (Ok tt, s') ->
  is_Some (dict_get rt.(fields) attr) /\
  (forall k, k <> storage_key rt.(type_name) attr (Some i) -> tx_get k s' = tx_get k s) /\
  view rt i s' attr = match v with Some v => Ok v | None => Raise AttributeError end.
Proof.
  intros Ht. unfold set_attr, get_record_field, py_bind, lift. cbn [h_writeable h_type negb].
  destruct (dict_get (fields rt) attr) as [f|] eqn:Ha; [|done]. pose proof (proj2 Ht _ _ Ha) as (_ & Hu & Hf).
  destruct v as [v|].
  - destruct (decide _) as [Hty|]; [|done]. destruct (encode f v) as [e|] eqn:He; [|done].
    destruct (packb e) as [b|] eqn:Hb; [|done]. destruct (Hf v e b Hty He Hb) as [Hunp Hdec].
    unfold write_raw_record, on_tx, record_key, py_bind. cbn [h_open h_type h_id].
    destruct (tx_put _ b s) as [[[]|] s1] eqn:Hput; [|done..]. cbn [negb py_ret]. intros [= <-].
    pose proof (put_get _ _ _ _ Hput) as Hget. split_and!; [done| |].
    + intros k Hk. rewrite Hget. by rewrite decide_False.
    + unfold view, get_attr, retrieve_raw_record, on_tx, py_bind, lift, gets, record_key, get_record_field.
      cbn [h_open h_type h_id]. rewrite bool_decide_eq_false_2 by done. rewrite Ha, Hget, decide_True by done.
      cbn [py_ret]. rewrite Hunp, Hdec. by rewrite decide_True.
  - unfold delete_record, on_tx, record_key. cbn [h_open h_type h_id].
    destruct (tx_delete _ s) as [b s1] eqn:Hdel. pose proof (delete_get _ _ _ _ Hdel) as [_ Hget].
    rewrite Hget, decide_True by done. rewrite bool_decide_eq_false_2 by by intros [? ?].
    rewrite andb_false_r. intros [= <-]. split_and!; [done| |].
    + intros k Hk. rewrite Hget. by rewrite decide_False.
    + apply view_missing with f; [done..|]. by rewrite Hget, decide_True.
Qed.

(** A list of assignments, and the last one of a field. *)
Definition assign (writes : list (bytes * option V)) (h : handle V Ty) : PyM T unit :=
  for_each writes (fun w => set_attr h w.1 w.2).

Fixpoint last_write (writes : list (bytes * option V)) (attr : bytes) : option (option V) :=
  match writes with
  | [] => None
  | (a, v) :: writes' =>
      match last_write writes' attr with
      | Some w => Some w
      | None => if decide (a = attr) then Some v else None
      end
  end.

Lemma assign_ok rt i writes s s' :
  type_ok rt -> id_ok i -> assign writes (Handle rt (Some i) true true) s = (Ok tt, s') ->
  (forall a, a ∈ writes.*1 -> is_Some (dict_get rt.(fields) a)) /\
  (forall k, (forall a, a ∈ writes.*1 -> k <> storage_key rt.(type_name) a (Some i)) -> tx_get k s' = tx_get k s) /\
  (forall a f, dict_get rt.(fields) a = Some f -> view rt i s' a =
     match last_write writes a with
     | Some (Some v) => Ok v
     | Some None => Raise AttributeError
     | None => view rt i s a
     end).
Proof.
  intros Ht Hi. revert s. induction writes as [|[a v] writes IH]; intros s.
  { intros [= <-]. split_and!; [intros a Ha; by apply elem_of_nil in Ha|done|done]. }
  unfold assign. cbn [for_each]. unfold py_bind. cbn [fst snd].
  destruct (set_attr (Handle rt (Some i) true true) a v s) as [[[]|] s1] eqn:Hset; [|done].
  pose proof (set_attr_ok _ _ _ _ _ _ Ht Hset) as (Hfa & Hother & Hview). intros Hrest.
  destruct (IH s1 Hrest) as (H1 & H2 & H3). split_and!.
  - intros b [->|Hb]%elem_of_cons; [done|by apply H1].
  - intros k Hk. cbn [fmap list_fmap fst] in Hk.
    rewrite H2 by (intros b Hb; apply Hk; by right). apply Hother, Hk. left.
  - intros b g Hb. rewrite (H3 b g Hb). cbn [last_write]. destruct (last_write writes b) as [[w|]|]; [done..|].
    destruct (decide (a = b)) as [<-|Hne]; [done|].
    apply view_ext, Hother. intros Heq. destruct Hfa as [fa Hfa].
    destruct Ht as [Hn Hf]. apply storage_key_inj in Heq as (_ & <- & _); [done|done|by eapply Hf|done..|by eapply Hf|done].
Qed.

Lemma describe_read rt i attr s :
  describe rt i false (fun h => get_attr h attr) s =
  (match view rt (to_int i) s attr with Ok v => Ok v | Raise e => Raise (tx_error false e) end, s).
Proof.
  unfold describe, transaction, converting, view. rewrite get_attr_pure by done. cbn [h_type h_id].
  by destruct (get_attr _ attr s).1.
Qed.

Lemma delete_assign h : delete (T := T) h = assign ((fun kv => (kv.1, None)) <$> h.(h_type).(fields)) h.
Proof. unfold delete, assign. induction (fields (h_type h)) as [|kv l IH]; [done|]. cbn. by rewrite IH. Qed.

Lemma last_write_none (l : list (bytes * RecordField V Ty)) a :
  last_write ((fun kv => (kv.1, None)) <$> l) a = (if dict_get l a then Some None else None) :> option (option V).
Proof.
  induction l as [|[b f] l IH]; [done|]. cbn. rewrite IH.
  destruct (dict_get l a) eqn:Hl; [by destruct (decide (a = b))|].
  destruct (decide (b = a)) as [->|]; [by rewrite decide_True|by rewrite decide_False].
Qed.

Lemma deletes_ok rt i (l : list (bytes * RecordField V Ty)) s :
  (forall a, a ∈ l.*1 -> is_Some (dict_get rt.(fields) a)) ->
  exists s', assign ((fun kv => (kv.1, None)) <$> l) (Handle rt (Some i) true true) s = (Ok tt, s').
Proof.
  revert s. induction l as [|[a f] l IH]; intros s Hl; [by exists s|].
  cbn [fmap list_fmap]. unfold assign. cbn [for_each fst snd].
  destruct (Hl a) as [g Hg]; [left|]. unfold py_bind at 1.
  assert (exists s1, set_attr (Handle rt (Some i) true true) a None s = (Ok tt, s1)) as [s1 ->].
  { unfold set_attr, get_record_field, py_bind, lift, delete_record, on_tx, record_key.
    cbn [h_writeable h_type h_open h_id negb]. rewrite Hg.
    destruct (tx_delete _ s) as [b s1] eqn:Hdel. pose proof (delete_get _ _ _ _ Hdel) as [_ Hget].
    rewrite Hget, decide_True by done. rewrite bool_decide_eq_false_2 by by intros [? ?].
    rewrite andb_false_r. by eexists. }
  apply IH. intros b Hb. apply Hl. by right.
Qed.

(** C18.  A block of assignments to a record is written as a whole or not at all.
    When the block returns, every field reads as the last value assigned to
    it, a field set to None is gone, all other fields and all other records
    read as before; when anything in it raises, the store is what it was.
    Deleting a record always succeeds and leaves none of its fields.  After
    the block the record neither writes nor reads. *)
Theorem describe_writes_atomically rt i writes s r s' :
  type_ok rt -> id_ok (to_int i) ->
  describe rt i true (assign writes) s = (r, s') ->
  match r with
  | Raise e => s' = s /\ (catches [AttributeError; TypeError; DBWriteError] e = false)
  | Ok _ =>
      (forall a, is_Some (dict_get rt.(fields) a) ->
         describe rt i false (fun h => get_attr h a) s' =
         (match last_write writes a with
          | Some (Some v) => Ok v
          | Some None => Raise RecordNotFound
          | None => (describe rt i false (fun h => get_attr h a) s).1
          end, s')) /\
      (forall rt' i' a, type_ok rt' -> is_Some (dict_get rt'.(fields) a) -> id_ok (to_int i') ->
         rt'.(type_name) <> rt.(type_name) \/ to_int i' <> to_int i ->
         (describe rt' i' false (fun h => get_attr h a) s').1 = (describe rt' i' false (fun h => get_attr h a) s).1)
  end /\
  (exists s'', describe rt i true delete s = (Ok tt, s'') /\
     forall a, is_Some (dict_get rt.(fields) a) ->
       describe rt i false (fun h => get_attr h a) s'' = (Raise RecordNotFound, s'')) /\
  (forall h a v, set_attr (closed h) a v s = (Raise TypeError, s)) /\
  (forall a, is_Some (dict_get rt.(fields) a) ->
     get_attr (closed (Handle rt (Some i) true true)) a s = (Raise LmdbError, s)).
Proof.
  intros Ht Hi Hr. split_and!.
  - revert Hr. unfold describe at 1, transaction, converting.
    destruct (assign writes _ s) as [[[]|e] s1] eqn:Has; intros [= <- <-].
    + destruct (assign_ok _ _ _ _ _ Ht Hi Has) as (Hf & Ho & Hv). split.
      * intros a [f Hfa]. rewrite !describe_read. rewrite (Hv a f Hfa). by destruct (last_write writes a) as [[v|]|].
      * intros rt' i' a Ht' [f Hfa] Hi' Hne. rewrite !describe_read. cbn [fst]. erewrite view_ext; [done|].
        apply Ho. intros b Hb Heq. destruct (Hf b Hb) as [g Hg].
        apply storage_key_inj in Heq as (Hn & _ & Hid);
          [by destruct Hne|apply Ht'|by eapply Ht'|done|apply Ht|by eapply Ht|done].
    + split; [done|]. unfold tx_error. cbn [negb andb].
      destruct (catches [AttributeError; TypeError; DBWriteError] e) eqn:Hc; [reflexivity|done].
  - destruct (deletes_ok rt (to_int i) rt.(fields) s) as [s1 Hs1].
    { intros a Ha. apply dict_get_is_Some. done. }
    exists s1. split.
    + unfold describe, transaction, converting. rewrite delete_assign. cbn [h_type]. by rewrite Hs1.
    + intros a [f Hfa]. destruct (assign_ok _ _ _ _ _ Ht Hi Hs1) as (_ & _ & Hv).
      rewrite describe_read, (Hv a f Hfa), last_write_none, Hfa. done.
  - done.
  - intros a [f Hfa]. pose proof (proj2 Ht a f Hfa) as (_ & Hu & _).
    unfold get_attr, retrieve_raw_record, on_tx, py_bind, lift, get_record_field. cbn [closed h_type h_open].
    rewrite bool_decide_eq_false_2 by done. by rewrite Hfa.
Qed.

(** ** What queries promise *)

(** Every key of the store is a record's. *)
Definition key_ok (k : bytes) : Prop :=
  exists n f i, name_ok n /\ name_ok f /\ id_ok i /\ k = storage_key n f (Some i) /\ decode k = Ok k.
Definition clean s : Prop := forall k, is_Some (tx_get k s) -> key_ok k.

(** A field is asked for whose name no stored field extends by a character
    before the colon. *)
Definition not_shadowed rt (fld : bytes) s : Prop :=
  fld = [] \/ forall c r, is_Some (tx_get (query_key rt fld ++ c :: r) s) -> (58 <= N_of_ascii c)%N.

Definition query_ok rt (fld : bytes) : Prop :=
  name_ok rt.(type_name) /\ (fld = [] \/ name_ok fld) /\ decode (query_key rt fld) = Ok (query_key rt fld).

Definition selected rt (fld n f : bytes) : Prop := n = rt.(type_name) /\ (fld = [] \/ f = fld).
#[local] Instance selected_dec rt fld n f : Decision (selected rt fld n f) := ltac:(unfold selected; apply _).

(** What the keys of a query start with. *)
Definition query_prefix rt (fld : bytes) : bytes :=
  match fld with [] => query_key rt fld | _ => query_key rt fld ++ [":"%char] end.

Lemma matches_text a b : matches (Some (PText a)) (Some (PText b)) = bool_decide (b = []) || bool_decide (a = b).
Proof. destruct b as [|c b]; [done|]. cbn. apply bool_decide_ext. naive_solver. Qed.

Lemma compare_selected rt fld n f i :
  query_ok rt fld ->
  compare_key (DatastoreKey (Some (PText n)) (Some (PText f)) (Some i)) (query_key rt fld)
    = Ok (bool_decide (selected rt fld n f)).
Proof.
  intros ((Hc & Hne & Hpi) & Hf & Hd). unfold compare_key, from_bytestring. rewrite Hd. cbn [rbind].
  assert (":"%char ∉ fld /\ to_int (PText fld) = PText fld) as [Hcf Hint].
  { destruct Hf as [->|(H1 & _ & H3)]; [by split; [apply not_elem_of_nil|]|]. split; [done|]. cbn. by rewrite H3. }
  unfold query_key. rewrite split_first, split_absent by done. rewrite Hint. cbn [rbind record_type_ record_field record_id].
  f_equal. rewrite !matches_text. cbn [matches]. rewrite andb_true_r.
  rewrite (bool_decide_eq_false_2 (type_name rt = [])) by done. cbn [orb].
  apply eq_true_iff_eq. rewrite andb_true_iff, orb_true_iff, !bool_decide_eq_true. done.
Qed.

Lemma app_colon_inj a b x y :
  ":"%char ∉ a -> ":"%char ∉ b -> a ++ ":"%char :: x = b ++ ":"%char :: y -> a = b /\ x = y.
Proof.
  revert b. induction a as [|c a IH]; intros [|d b] Ha Hb; cbn [app].
  - by intros [= ->].
  - intros [= <- _]. by apply not_elem_of_cons in Hb as [].
  - intros [= -> _]. by apply not_elem_of_cons in Ha as [].
  - intros [= <- Heq]. apply not_elem_of_cons in Ha as [_ Ha], Hb as [_ Hb].
    by destruct (IH b Ha Hb Heq) as [-> ->].
Qed.

Lemma prefix_selected rt fld n f i :
  query_ok rt fld -> name_ok n -> name_ok f ->
  query_prefix rt fld `prefix_of` storage_key n f (Some i) <-> selected rt fld n f.
Proof.
  intros ((Hc & _) & Hf & _) (Hn & _) (Hff & _). unfold selected, storage_key. split.
  - intros [y Hy]. unfold query_prefix, query_key in Hy. destruct fld as [|d fld].
    + rewrite <- app_assoc in Hy. cbn [app] in Hy. apply app_colon_inj in Hy as [-> _]; [|done..]. auto.
    + rewrite <- !app_assoc in Hy. cbn [app] in Hy. apply app_colon_inj in Hy as [-> Hy]; [|done..].
      destruct Hf as [|(Hcf & _)]; [done|]. rewrite <- ?app_assoc in Hy. cbn [app] in Hy.
      change (d :: fld ++ ":"%char :: y) with ((d :: fld) ++ ":"%char :: y) in Hy.
      apply app_colon_inj in Hy as [-> _]; [|done..]. auto.
  - intros [-> Hs]. unfold query_prefix, query_key. destruct fld as [|d fld].
    + exists (f ++ ":"%char :: id_text (Some i)). by rewrite <- app_assoc.
    + destruct Hs as [|<-]; [done|]. exists (id_text (Some i)). rewrite <- !app_assoc. cbn [app]. by rewrite <- ?app_assoc.
Qed.

Section QueryResult.
Variables (rt : record_type V Ty) (func : option (filter_arg V Ty -> PyM T bool)) (fld : bytes) (s : T).
Variable ok : option part -> bool.

(** The store holds a record of the type (with the field, if one is asked
    for) under the identifier [j]. *)
Definition stored_under (j : option part) : Prop :=
  exists f i, j = Some i /\ name_ok f /\ id_ok i /\ (fld = [] \/ f = fld) /\
    is_Some (tx_get (storage_key rt.(type_name) f (Some i)) s).

Context (Hq : query_ok rt fld) (Hs : clean s) (Hshadow : not_shadowed rt fld s)
  (Hok : forall i, stored_under i -> accepts rt func fld i s = (Ok (ok i), s)).

(** The keys the cursor passes over start at the query's prefix. *)
Lemma keys_after_prefix k : k ∈ keys_from (query_key rt fld) s -> bytes_le (query_prefix rt fld) k.
Proof using All.
  intros [Hk Hle]%keys_from_elem. unfold query_prefix. destruct fld as [|d l] eqn:Hfld; [done|].
  destruct (decide (bytes_le (query_key rt (d :: l) ++ [":"%char]) k)) as [|Hn]; [done|exfalso].
  destruct (prefix_gap _ _ _ Hle Hn) as [->|(c & r & -> & Hc)].
  - destruct (Hs _ Hk) as (n & f & i & Hn1 & Hf & Hi & Heq & _).
    apply (f_equal (split [":"%char])) in Heq. rewrite split_key in Heq by done. unfold query_key in Heq.
    destruct Hq as ((Hc & _) & [|(Hcf & _)] & _); [done|]. rewrite split_first, split_absent in Heq by done. done.
  - destruct Hshadow as [|Hsh]; [done|]. specialize (Hsh c r Hk). change (N_of_ascii ":"%char) with 58%N in Hc. lia.
Qed.

Lemma key_selected k : key_ok k -> exists n f i,
  k = storage_key n f (Some i) /\ name_ok n /\ name_ok f /\ id_ok i /\
  from_bytestring k = Ok (DatastoreKey (Some (PText n)) (Some (PText f)) (Some i)) /\
  (query_prefix rt fld `prefix_of` k <-> selected rt fld n f).
Proof using Hq.
  intros (n & f & i & Hn & Hf & Hi & -> & Hd). exists n, f, i. split_and!; try done.
  - by apply from_storage_key.
  - by apply prefix_selected.
Qed.

(** The records that a list of keys stands for. *)
Definition found_in (L : list bytes) (j : option part) : Prop :=
  ok j = true /\ exists f i, j = Some i /\ name_ok f /\ id_ok i /\ (fld = [] \/ f = fld) /\
    storage_key rt.(type_name) f (Some i) ∈ L.

Lemma scan_stops k L : key_ok k -> Forall key_ok L -> Forall (bytes_le k) L -> bytes_le (query_prefix rt fld) k ->
  ~ query_prefix rt fld `prefix_of` k -> forall j, ~ found_in (k :: L) j.
Proof using Hq.
  intros Hk HL Hle Hp Hn j (_ & f & i & _ & Hf & Hi & Hsel & Hin).
  assert (query_prefix rt fld `prefix_of` storage_key (type_name rt) f (Some i)) as Hpre.
  { apply prefix_selected; [done|apply Hq|done|]. by split. }
  apply elem_of_cons in Hin as [Heq|Hin]; [by rewrite Heq in Hpre|].
  rewrite Forall_forall in Hle. apply Hn. eapply prefix_segment; [done|by apply Hle|done].
Qed.

Lemma scan_finds L valid :
  StronglySorted bytes_le L -> Forall key_ok L -> Forall (fun k => is_Some (tx_get k s)) L ->
  Forall (bytes_le (query_prefix rt fld)) L -> NoDup valid ->
  exists valid', scan rt func fld L valid s = (Ok valid', s) /\ NoDup valid' /\
    forall j, j ∈ valid' <-> j ∈ valid \/ found_in L j.
Proof using All.
  intros Hsort. revert valid. induction Hsort as [|k L Hsort IH Hle]; intros valid Hkeys Hin_s Hpre Hnd.
  { exists valid. split_and!; [done..|]. intros j. split; [by left|].
    intros [|(_ & ? & ? & _ & _ & _ & _ & []%elem_of_nil)]; done. }
  apply Forall_cons in Hkeys as [Hk HL], Hpre as [Hpk HpL], Hin_s as [Hks HLs].
  destruct (key_selected k Hk) as (n & f & i & Hkeq & Hn & Hf & Hi & Hfrom & Hsel).
  cbn [scan]. unfold py_bind, lift. rewrite Hfrom, compare_selected by done. cbn [record_id].
  destruct (decide (selected rt fld n f)) as [Hs1|Hns].
  - rewrite bool_decide_eq_true_2 by done. cbn [negb].
    assert (forall j, found_in (k :: L) j <-> (j = Some i /\ ok (Some i) = true) \/ found_in L j) as Hcons.
    { intros j. unfold found_in. destruct Hs1 as [-> Hfld]. split.
      - intros (Hj & f' & i' & -> & Hf' & Hi' & Hs' & [Heq|Hin]%elem_of_cons); [left|right; naive_solver].
        rewrite Hkeq in Heq. apply storage_key_inj in Heq as (_ & _ & ->); [by split|done..].
      - intros [[-> Hj]|(Hj & f' & i' & -> & Hf' & Hi' & Hs' & Hin)]; (split; [done|]).
        + exists f, i. split_and!; try done. rewrite Hkeq. left.
        + exists f', i'. split_and!; try done. by right. }
    destruct (decide (Some i ∈ valid)) as [Hv|Hv].
    + destruct (IH valid HL HLs HpL Hnd) as (valid' & -> & Hnd' & Hin). exists valid'. split_and!; [done..|].
      intros j. rewrite Hin, Hcons. naive_solver.
    + rewrite Hok by (exists f, i; destruct Hs1 as [<- Hfld]; rewrite <- Hkeq; done).
      destruct (IH (if ok (Some i) then valid ++ [Some i] else valid) HL HLs HpL) as (valid' & -> & Hnd' & Hin).
      { destruct (ok (Some i)); [|done]. apply NoDup_app. split_and!; [done| |apply NoDup_singleton].
        intros x Hx ->%list_elem_of_singleton. done. }
      exists valid'. split_and!; [done..|]. intros j. rewrite Hin, Hcons.
      destruct (ok (Some i)) eqn:Hoi; rewrite ?elem_of_app, ?list_elem_of_singleton; naive_solver.
  - rewrite bool_decide_eq_false_2 by done. cbn [negb]. exists valid. split_and!; [done..|].
    intros j. split; [by left|]. intros [|Hj]; [done|]. exfalso. revert Hj. apply scan_stops; [done..|].
    by rewrite Hsel.
Qed.

(** What is in the store for a query. *)
Definition queried (j : option part) : Prop := ok j = true /\ stored_under j.

Lemma queried_found j : queried j <-> found_in (keys_from (query_key rt fld) s) j.
Proof using All.
  unfold queried, found_in. split; intros (Hj & f & i & -> & Hf & Hi & Hsel & Hin);
    (split; [done|]; exists f, i; split_and!; try done).
  - apply keys_from_elem. split; [done|]. apply prefix_le. unfold query_key, storage_key.
    destruct Hsel as [->| ->].
    + exists (f ++ ":"%char :: id_text (Some i)). by rewrite <- app_assoc.
    + exists (":"%char :: id_text (Some i)). rewrite <- !app_assoc. done.
  - by apply keys_from_elem in Hin as [].
Qed.

Lemma find_records_ok :
  exists ids, NoDup ids /\ (forall j, j ∈ ids <-> queried j) /\
    forall writeable, find_records rt func fld writeable s =
      (match ids with [] => Raise RecordNotFound | _ => Ok ((fun i => Handle rt i writeable true) <$> ids) end, s).
Proof using All.
  assert (Forall key_ok (keys_from (query_key rt fld) s)) as HL.
  { apply Forall_forall. intros k [Hk _]%keys_from_elem. by apply Hs. }
  assert (Forall (bytes_le (query_prefix rt fld)) (keys_from (query_key rt fld) s)) as HP.
  { apply Forall_forall. exact keys_after_prefix. }
  assert (Forall (fun k => is_Some (tx_get k s)) (keys_from (query_key rt fld) s)) as HI.
  { apply Forall_forall. by intros k [Hk _]%keys_from_elem. }
  destruct (scan_finds _ [] (keys_from_sorted (query_key rt fld) s) HL HI HP) as (ids & Hscan & Hnd & Hin);
    [constructor|].
  assert (forall j, j ∈ ids <-> queried j) as Hids.
  { intros j. rewrite Hin, queried_found. split; [intros [[]%elem_of_nil|]; done|by right]. }
  exists ids. split_and!; [done..|]. intros writeable. unfold find_records, py_bind at 1, gets.
  destruct (keys_from (query_key rt fld) s) as [|k L] eqn:Hk; [by injection Hscan as <-|].
  apply Forall_cons in HL as [Hkok HL']. clear HI.
  destruct (key_selected k Hkok) as (n & f & i & _ & _ & _ & _ & Hfrom & Hsel).
  pose proof Hscan as Hscan'. cbn [scan] in Hscan'.
  unfold py_bind, lift in *. rewrite Hfrom, compare_selected in * by done.
  destruct (negb _); [by injection Hscan' as <-|]. rewrite Hscan. by destruct ids.
Qed.

End QueryResult.

(** C19.  A query hands its body exactly the records of the type that are stored
    (with the field asked for, if any) and pass the filter, each once, and
    raises RecordNotFound when there is none; an error of the body leaves the
    store as it was.  This holds for keys that records with identifiers
    without a colon have written, for a field that no other field's name
    extends by a digit, and for a filter that answers yes or no, and changes
    nothing, for each identifier that the type is stored under (of other
    identifiers, whose fields cannot be read, nothing is asked).  Unwrapped
    records come out with their transaction closed: none of their fields can
    be read. *)
Theorem query_by_finds_all rt func fld s (ok : option part -> bool) :
  query_ok rt fld -> clean s -> not_shadowed rt fld s ->
  (forall i, stored_under rt fld s i -> accepts rt func fld i s = (Ok (ok i), s)) ->
  exists ids, NoDup ids /\ (forall j, j ∈ ids <-> queried rt fld s ok j) /\
  (forall A writeable (body : list (handle V Ty) -> PyM T A),
     query_by rt func fld writeable body s =
       match ids, converting writeable (body ((fun i => Handle rt i writeable true) <$> ids)) s with
       | [], _ => (Raise RecordNotFound, s)
       | _, (Ok a, s') => (Ok a, if writeable then s' else s)
       | _, (Raise e, _) => (Raise e, s)
       end) /\
  (func = None -> fld = [] -> exists hs, unwrap_records rt s = (Ok hs, s) /\
     hs = (fun i => Handle rt i false false) <$> ids /\
     forall h a, h ∈ hs -> exists e, get_attr h a s = (Raise e, s)).
Proof.
  intros Hq Hs Hsh Hok.
  destruct (find_records_ok rt func fld s ok Hq Hs Hsh Hok) as (ids & Hnd & Hin & Hfind).
  exists ids. split_and!; [done..| |].
  - intros A writeable body. unfold query_by, transaction, py_bind. rewrite Hfind.
    destruct ids; [done|]. by destruct (converting _ _ s) as [[|] ?].
  - intros -> ->. unfold unwrap_records, query_by, transaction, try_except, py_bind. rewrite Hfind.
    destruct ids as [|i ids].
    + exists []. split_and!; [done..|]. by intros h a []%elem_of_nil.
    + eexists. split_and!; [reflexivity| |].
      * rewrite <- list_fmap_compose. done.
      * intros h a Hh. apply list_elem_of_fmap in Hh as ([rt' i' w o] & -> & _).
        unfold get_attr, retrieve_raw_record, on_tx, py_bind, lift, get_record_field. cbn [closed h_type h_open].
        destruct (bool_decide _); [by eexists|]. destruct (dict_get _ a); by eexists.
Qed.

End Promises.

(** ** models.py and queries.py *)

Section Models.
Context {T V Ty : Type} `{!Lmdb T} `{!Msgpack V Ty} `{!EqDecision Ty}.
(** [RecordField(PublicKey, encode=bytes, decode=PublicKey.from_bytes)] *)
Variable public_key_field : RecordField V Ty.

Definition ReencryptionRequest : record_type V Ty :=
  {| type_name := to_bytes "ReencryptionRequest";
     fields := [(to_bytes "bob_verifying_key", public_key_field)] |}.

Definition get_reencryption_requests : PyM T (list (handle V Ty)) := unwrap_records ReencryptionRequest.

End Models.

End Datastore.

(** ** A store in memory *)

Module DatastoreDemo.
Import Datastore.

Definition demo_store : Type := gmap (list ascii) bytes.

#[export] Instance demo_lmdb : Lmdb demo_store := {
  tx_get k s := s !! k;
  tx_put k v s := (Ok true, <[k := v]> s);
  tx_delete k s := (bool_decide (is_Some (s !! k)), base.delete k s);
  keys_from q s := merge_sort bytes_le (filter (fun k => bytes_le q k) (map_to_list s).*1);
}.

Lemma bytes_le_trans : Transitive bytes_le.
Proof.
  intros a. induction a as [|c a IH]; intros [|d b] [|e x] H1 H2; try done.
  apply bytes_le_cons in H1, H2. apply bytes_le_cons.
  destruct H1 as [H1|[-> H1]], H2 as [H2|[-> H2]]; [left; lia|by left..|right]. split; [done|by eapply IH].
Qed.

Lemma bytes_le_total a b : bytes_le a b \/ bytes_le b a.
Proof.
  revert b. induction a as [|c a IH]; intros [|d b]; [by left|by left|by right|].
  rewrite !bytes_le_cons. destruct (N.lt_trichotomy (N_of_ascii c) (N_of_ascii d)) as [H|[H|H]].
  - left. by left.
  - assert (c = d) as ->. { by rewrite <- (ascii_N_embedding c), <- (ascii_N_embedding d), H. }
    destruct (IH b); [left|right]; by right.
  - right. by left.
Qed.

#[export] Instance demo_laws : LmdbLaws demo_store.
Proof.
  split.
  - intros k v s s' [= <-] k'. cbn. destruct (decide (k = k')) as [->|]; [apply lookup_insert_eq|by apply lookup_insert_ne].
  - intros k s b s' [= <- <-]. split; [done|]. intros k'. cbn.
    destruct (decide (k = k')) as [->|]; [apply lookup_delete_eq|by apply lookup_delete_ne].
  - intros q s k. cbn. rewrite merge_sort_Permutation, list_elem_of_filter, list_elem_of_fmap. split.
    + intros [Hle ([k' v] & -> & Hin%elem_of_map_to_list)]. split; [by exists v|done].
    + intros [[v Hv] Hle]. split; [done|]. exists (k, v). split; [done|]. by apply elem_of_map_to_list.
  - intros q s. cbn. apply Sorted_StronglySorted; [exact bytes_le_trans|].
    apply Sorted_merge_sort. exact bytes_le_total.
Qed.

(** Values: what msgpack knows, and keys. *)
Inductive demo_value := Raw (b : bytes) | Key (b : bytes).
#[export] Instance demo_msgpack : Msgpack demo_value bool := {
  type_of v := match v with Raw _ => false | Key _ => true end;
  packb v := match v with Raw b => Ok b | Key _ => Raise TypeError end;
  unpackb b := Ok (Raw b);
}.

Definition key_field : RecordField demo_value bool :=
  {| field_type := true;
     encode v := match v with Key b => Ok (Raw b) | v => Ok v end;
     field_decode v := match v with Raw b => Ok (Key b) | v => Ok v end |}.
Definition raw_field : RecordField demo_value bool :=
  {| field_type := false; encode v := Ok v; field_decode v := Ok v |}.

(** A type with two fields, one of whose names extends the other's. *)
Definition Grant : record_type demo_value bool :=
  {| type_name := to_bytes "Grant";
     fields := [(to_bytes "key", key_field); (to_bytes "note", raw_field); (to_bytes "key2", key_field)] |}.

Lemma key_field_ok : field_ok key_field.
Proof. intros [b|b] e c; cbn; intros Hty; [done|]. intros [= <-] [= <-]. done. Qed.
Lemma raw_field_ok : field_ok raw_field.
Proof. intros [b|b] e c; cbn; intros Hty; [|done]. intros [= <-] [= <-]. done. Qed.

Lemma grant_ok : type_ok Grant.
Proof.
  split; [by apply (bool_decide_unpack _)|]. intros a f Ha.
  assert (a ∈ Grant.(fields).*1) as Hin by by apply dict_get_is_Some; eexists.
  cbn in Hin. repeat (apply elem_of_cons in Hin as [->|Hin];
    [vm_compute in Ha; injection Ha as <-; split_and!;
      [by apply (bool_decide_unpack _)|by apply (bool_decide_unpack _)|exact key_field_ok || exact raw_field_ok]|]).
  by apply elem_of_nil in Hin.
Qed.

Definition demo_writes : list (bytes * option demo_value) :=
  [(to_bytes "key", Some (Key (to_bytes "k"))); (to_bytes "note", Some (Raw (to_bytes "n")));
   (to_bytes "key", Some (Key (to_bytes "k'")))].

Definition demo_written : demo_store :=
  (describe Grant (PText (to_bytes "007")) true (assign demo_writes) (∅ : demo_store)).2.

Lemma demo_id_ok z : id_ok (PInt z).
Proof. split; [done|]. apply int_chars_no_colon. Qed.

Lemma describe_writes_atomically_witness :
  describe Grant (PText (to_bytes "007")) false (fun h => get_attr h (to_bytes "key")) demo_written
    = (Ok (Key (to_bytes "k'")), demo_written) /\
  describe Grant (PText (to_bytes "007")) true
    (assign [(to_bytes "note", Some (Raw (to_bytes "lost"))); (to_bytes "key", Some (Raw (to_bytes "no key")))]) demo_written
    = (Raise DatastoreTransactionError, demo_written).
Proof.
  split; [|reflexivity].
  destruct (describe_writes_atomically Grant (PText (to_bytes "007")) demo_writes ∅ (Ok tt) demo_written grant_ok
    (demo_id_ok 7)) as [[H _] _]; [reflexivity|].
  exact (H (to_bytes "key") (ex_intro _ key_field eq_refl)).
Defined.

(** A query for [key] where a field [key2] is stored as well finds nothing,
    although the record has both. *)
Lemma longer_field_hides_records :
  let s := (describe Grant (PInt 7) true
              (assign [(to_bytes "key", Some (Key (to_bytes "k"))); (to_bytes "key2", Some (Key (to_bytes "l")))])
              (∅ : demo_store)).2 in
  (describe Grant (PInt 7) false (fun h => get_attr h (to_bytes "key")) s).1 = Ok (Key (to_bytes "k")) /\
  (query_by Grant None (to_bytes "key") false (fun hs => py_ret (length hs)) s).1 = Raise RecordNotFound.
Proof. by split; vm_compute. Qed.

(** One identifier with a colon breaks every query of the type. *)
Lemma colon_breaks_queries :
  let s := (describe Grant (PText (to_bytes "a:b")) true (assign demo_writes) demo_written).2 in
  (describe Grant (PText (to_bytes "a:b")) false (fun h => get_attr h (to_bytes "note")) s).1 = Ok (Raw (to_bytes "n")) /\
  (query_by Grant None [] false (fun hs => py_ret (length hs)) s).1 = Raise TypeError.
Proof. by split; vm_compute. Qed.

(** Two records, and a filter that reads a field of each: it would raise for
    an identifier that is not stored. *)
Definition demo_two : demo_store :=
  (describe Grant (PInt 8) true (assign [(to_bytes "note", Some (Raw (to_bytes "m")))]) demo_written).2.

Definition noted_n (arg : filter_arg demo_value bool) : PyM demo_store bool :=
  match arg with
  | ARecord h => v <- get_attr h (to_bytes "note") ;;
                 py_ret match v with Raw b => bool_decide (b = to_bytes "n") | Key _ => false end
  | AField _ => py_ret false
  end.

Lemma demo_keys k :
  is_Some (tx_get k demo_two) ->
  exists f i, k = storage_key (to_bytes "Grant") f (Some i) /\ name_ok f /\ id_ok i /\
    decode k = Ok k /\ i ∈ [PInt 7; PInt 8].
Proof.
  intros [v Hv]. change ((demo_two : gmap (list ascii) bytes) !! k = Some v) in Hv. apply elem_of_map_to_list in Hv.
  set (ks := [storage_key (to_bytes "Grant") (to_bytes "key") (Some (PInt 7));
              storage_key (to_bytes "Grant") (to_bytes "note") (Some (PInt 7));
              storage_key (to_bytes "Grant") (to_bytes "note") (Some (PInt 8))]).
  assert (k ∈ ks) as Hk.
  { assert ((map_to_list demo_two).*1 ⊆ ks) as Hsub by (apply (bool_decide_unpack _); vm_compute; exact I).
    apply Hsub. apply list_elem_of_fmap. by exists (k, v). }
  repeat (apply elem_of_cons in Hk as [->|Hk];
    [do 2 eexists; split_and!; [reflexivity|by apply (bool_decide_unpack _)|apply demo_id_ok|reflexivity|by apply (bool_decide_unpack _)]|]).
  by apply elem_of_nil in Hk.
Qed.

Lemma demo_clean : clean demo_two.
Proof.
  intros k (f & i & Hk & Hf & Hi & Hd & _)%demo_keys. exists (to_bytes "Grant"), f, i.
  split_and!; [by apply (bool_decide_unpack _)|exact Hf|exact Hi|exact Hk|exact Hd].
Qed.

Lemma demo_filter_answers j :
  stored_under Grant [] demo_two j ->
  accepts Grant (Some noted_n) [] j demo_two = (Ok (bool_decide (j = Some (PInt 7))), demo_two).
Proof.
  intros (f & i & -> & Hf & Hi & _ & (f' & i' & Heq & Hf' & Hi' & _ & Hin)%demo_keys).
  apply storage_key_inj in Heq as (_ & _ & ->); [|first [exact Hf | exact Hi | exact Hf' | exact Hi' | by apply (bool_decide_unpack _)]..].
  unfold accepts, noted_n, py_bind, py_ret. rewrite get_attr_pure by reflexivity. cbn [h_type h_id].
  clear -Hin. repeat (apply elem_of_cons in Hin as [->|Hin];
    [match goal with |- context [(get_attr ?h ?a ?s).1] =>
       let r := eval vm_compute in (get_attr h a s).1 in
       replace (get_attr h a s).1 with r by (vm_cast_no_check (eq_refl r))
     end; reflexivity|]).
  by apply elem_of_nil in Hin.
Qed.

Lemma query_by_finds_all_witness :
  (query_by Grant (Some noted_n) [] false (fun hs => py_ret (h_id <$> hs)) demo_two).1 = Ok [Some (PInt 7)] /\
  (accepts Grant (Some noted_n) [] (Some (PInt 9)) demo_two).1 = Raise AttributeError /\
  exists ids : list (option part), forall j, j ∈ ids <->
    queried Grant [] demo_two (fun j => bool_decide (j = Some (PInt 7))) j.
Proof.
  split; [by vm_compute|]. split; [by vm_compute|].
  destruct (query_by_finds_all Grant (Some noted_n) [] demo_two (fun j => bool_decide (j = Some (PInt 7))))
    as (ids & _ & Hids & _).
  - split; [by apply (bool_decide_unpack _)|]. split; [by left|reflexivity].
  - exact demo_clean.
  - by left.
  - exact demo_filter_answers.
  - exists ids. exact Hids.
Defined.

End DatastoreDemo.
