(* ===== verification/Clients.v ===== *)
(** * nulink/blockchain/eth/clients.py

    The Ethereum clients: which class serves which node, accounts, and the
    wait for a transaction's receipt and its confirmations, with web3's
    Timeout.  web3 and the clock are the class [Web3Eth]; times are in
    milliseconds. *)

From Stdlib Require Import Ascii.
From S2P Require Import Prelude Text.

(** The fields of a receipt that are read here and in the interface. *)
Record receipt := Receipt {
  transactionHash : bytes;
  blockHash : bytes;
  blockNumber : Z;
  status : option Z;
  gasUsed : Z;
}.

Class Web3Eth (W : Type) := {
  time_time : W -> Z;
  sleep_ms : Z -> W -> W;
  (* [w3.eth.waitForTransactionReceipt(hash, timeout, poll_latency)] *)
  waitForTransactionReceipt : bytes -> Z -> Z -> PyM W receipt;
  getTransactionReceipt : bytes -> PyM W receipt;
  eth_blockNumber : PyM W Z;
  (* [int(w3.eth.chainId, 16)], or of the number itself *)
  eth_chainId : PyM W Z;
  (* [personal.unlock_account] and [lock_account], and eth_tester's *)
  personal_unlock : bytes -> option bytes -> option Z -> PyM W bool;
  personal_lock : bytes -> PyM W bool;
  (* eth_tester's accounts *)
  tester_accounts : PyM W (list bytes);
}.

(** Time passes, by at least the time slept. *)
Class Web3Clock (W : Type) `{!Web3Eth W} := {
  sleep_time n w : (time_time w + n <= time_time (sleep_ms n w))%Z;
  wait_time h t p w : (time_time w <= time_time (waitForTransactionReceipt h t p w).2)%Z;
  get_time h w : (time_time w <= time_time (getTransactionReceipt h w).2)%Z;
  number_time w : (time_time w <= time_time (eth_blockNumber w).2)%Z;
}.

Module Clients.

(** ** Which client *)

Inductive client_class :=
  | GethClient | BorClient | ParityClient | GanacheClient | InfuraClient | AlchemyClient | EthereumTesterClient.
#[global] Instance client_class_eq_dec : EqDecision client_class.
Proof. solve_decision. Defined.

(** The table of [from_w3]. *)
Definition clients : list (bytes * client_class) :=
  [(to_bytes "Geth", GethClient); (to_bytes "bor", BorClient); (to_bytes "conflux-rust", GethClient);
   (to_bytes "Parity", ParityClient); (to_bytes "Parity-Ethereum", ParityClient);
   (to_bytes "EthereumJS TestRPC", GanacheClient); (to_bytes "EthereumTester", EthereumTesterClient)].

Record client := Client {
  class : client_class;
  node_technology : bytes;
  node_version : bytes;
  platform : option bytes;
  backend : bytes;
}.

(** [_get_variant]: Geth's looks at the provider's URI. *)
Definition _get_variant (c : client_class) (endpoint_uri : bytes) : client_class :=
  match c with
  | GethClient | BorClient =>
      if is_infix (to_bytes "infura") endpoint_uri then InfuraClient
      else if is_infix (to_bytes "alchemyapi.io") endpoint_uri then AlchemyClient
      else c
  | _ => c
  end.

(** [from_w3]; the optional parts are read outside the [try]. *)
Definition from_w3 (clientVersion endpoint_uri : bytes) : result client :=
  let client_data := split ["/"%char] clientVersion in
  match client_data with
  | [] => Raise ValueError
  | technology :: _ =>
      match dict_get clients technology with
      | None => Raise NotImplementedError
      | Some ClientSubclass =>
          match client_data !! 1 with
          | None => Raise IndexError
          | Some version =>
              Ok (Client (_get_variant ClientSubclass endpoint_uri) technology version
                    (if decide (length client_data = 4) then client_data !! 2 else None)
                    (default [] (last client_data)))
          end
      end
  end.

Definition PUBLIC_CHAINS : list (Z * string) :=
  [(0%Z, "Olympic"); (1%Z, "Mainnet"); (2%Z, "Morden"); (3%Z, "Ropsten"); (4%Z, "Rinkeby"); (5%Z, "Goerli");
   (6%Z, "Kotti"); (42%Z, "Kovan"); (77%Z, "Sokol"); (100%Z, "xDai"); (137%Z, "Polygon/Mainnet");
   (80001%Z, "Polygon/Mumbai"); (128%Z, "Heco"); (256%Z, "Heco/Testnet"); (56%Z, "Bsc"); (97%Z, "Bsc/Testnet");
   (1030%Z, "Conflux Espace"); (71%Z, "Conflux Espace/Testnet")]%string.
Definition LOCAL_CHAINS : list (Z * string) := [(1337%Z, "GethDev"); (5777%Z, "Ganache/TestRPC")]%string.
Definition POA_CHAINS : list Z := [4; 5; 42; 77; 100]%Z.

Section Client.
Context {W : Type} `{!Web3Eth W}.

(** [is_local]: a class attribute, but for Geth's a property. *)
Definition is_local (c : client_class) : PyM W bool :=
  match c with
  | GethClient | BorClient => chain_id <- eth_chainId ;; py_ret (negb (dict_mem PUBLIC_CHAINS chain_id))
  | GanacheClient | EthereumTesterClient => py_ret true
  | _ => py_ret false
  end.

(** [chain_name]: [None] stands for UNKNOWN_DEVELOPMENT_CHAIN_ID. *)
Definition chain_name (c : client_class) : PyM W (option string) :=
  local <- is_local c ;;
  chain_id <- eth_chainId ;;
  py_ret (dict_get (if local : bool then LOCAL_CHAINS else PUBLIC_CHAINS) chain_id).

(** The answer of a lock: a boolean or NotImplemented, which is true as a
    condition. *)
Inductive lock_answer := Answer (b : bool) | NotImplemented.

Definition base_lock (c : client_class) : PyM W lock_answer :=
  local <- is_local c ;; py_ret (if local : bool then Answer true else NotImplemented).

(** [unlock_account] of every class. *)
Definition unlock_account (c : client_class) (account : bytes) (password : option bytes) (duration : option Z)
    : PyM W lock_answer :=
  match c with
  | GethClient | BorClient =>
      local <- is_local c ;;
      if local : bool then py_ret (Answer true)
      else b <- personal_unlock account password duration ;; py_ret (Answer b)
  | ParityClient => b <- personal_unlock account password duration ;; py_ret (Answer b)
  | GanacheClient | InfuraClient => py_ret (Answer true)
  | AlchemyClient => base_lock c
  | EthereumTesterClient =>
      keystore_accounts <- tester_accounts ;;
      if decide (account ∈ keystore_accounts) then py_ret (Answer true)
      else b <- personal_unlock account password duration ;; py_ret (Answer b)
  end.

Definition lock_account (c : client_class) (account : bytes) : PyM W lock_answer :=
  match c with
  | GethClient | BorClient | ParityClient => b <- personal_lock account ;; py_ret (Answer b)
  | GanacheClient | InfuraClient | AlchemyClient => base_lock c
  | EthereumTesterClient =>
      keystore_accounts <- tester_accounts ;;
      if decide (account ∈ keystore_accounts) then py_ret (Answer true)
      else b <- personal_lock account ;; py_ret (Answer b)
  end.

(** ** Waiting for receipts *)

Definition BLOCK_CONFIRMATIONS_POLLING_TIME : Z := 3000.
Definition COOLING_TIME : Z := 5000.
Definition TRANSACTION_POLLING_TIME (c : client_class) : Z :=
  match c with InfuraClient => 2000 | _ => 500 end.
Definition AVERAGE_BLOCK_TIME : Z := 14000.

(** A running [Timeout]: when it started, for how long, and its exception. *)
Record timeout := Timeout { begun_at : Z; timeout_ms_ : Z; exception : exn_class }.

Definition timeout_check (t : timeout) : PyM W unit := fun w =>
  if (t.(begun_at) + t.(timeout_ms_) <? time_time w)%Z then (Raise t.(exception), w) else (Ok tt, w).

Definition timeout_sleep (t : timeout) (ms : Z) : PyM W unit := fun w => timeout_check t (sleep_ms ms w).

Definition check_transaction_is_on_chain (r : receipt) : PyM W bool :=
  reorg_detected <-
    try_except
      (new_receipt <- getTransactionReceipt r.(transactionHash) ;;
       py_ret (negb (bool_decide (r.(blockHash) = new_receipt.(blockHash)))))
      [TransactionNotFound] (fun _ => py_ret true) ;;
  if reorg_detected : bool then raise ChainReorganizationDetected else py_ret true.

Definition _calculate_confirmations_timeout (confirmations : Z) : Z := 3 * AVERAGE_BLOCK_TIME * confirmations.

(** One round of the loop for confirmations: how many there are. *)
Definition confirmation_round (t : timeout) (r : receipt) : PyM W Z :=
  timeout_sleep t BLOCK_CONFIRMATIONS_POLLING_TIME ;;;
  check_transaction_is_on_chain r ;;;
  n <- eth_blockNumber ;;
  py_ret (n - r.(blockNumber))%Z.

(** [while confirmations_so_far < confirmations]; [None] when the fuel does
    not suffice. *)
Fixpoint confirmation_loop (fuel : nat) (t : timeout) (r : receipt) (confirmations so_far : Z) (w : W)
    : option (result receipt * W) :=
  if (so_far <? confirmations)%Z then
    match fuel with
    | 0 => None
    | S fuel' =>
        match confirmation_round t r w with
        | (Ok n, w') => confirmation_loop fuel' t r confirmations n w'
        | (Raise e, w') => Some (Raise e, w')
        end
    end
  else Some (Ok r, w).

Definition block_until_enough_confirmations (fuel : nat) (c : client_class) (transaction_hash : bytes)
    (timeout_ms confirmations : Z) (w : W) : option (result receipt * W) :=
  match waitForTransactionReceipt transaction_hash timeout_ms (TRANSACTION_POLLING_TIME c) w with
  | (Raise e, w') => Some (Raise e, w')
  | (Ok r, w') =>
      let t := Timeout (time_time w') (_calculate_confirmations_timeout confirmations) NotEnoughConfirmations in
      confirmation_loop fuel t r confirmations 0 w'
  end.

(** The exceptions after which the receipt is asked for again. *)
Definition retried : list exn_class := [ChainReorganizationDetected; NotEnoughConfirmations; TimeExhausted].

(** [while not receipt]: a receipt is never empty. *)
Fixpoint receipt_loop (fuel inner : nat) (c : client_class) (t : timeout) (transaction_hash : bytes)
    (confirmations : Z) (w : W) : option (result receipt * W) :=
  match fuel with
  | 0 => None
  | S fuel' =>
      match block_until_enough_confirmations inner c transaction_hash t.(timeout_ms_) confirmations w with
      | Some (Raise e, w') =>
          if catches retried e then
            match timeout_sleep t BLOCK_CONFIRMATIONS_POLLING_TIME w' with
            | (Ok _, w'') => receipt_loop fuel' inner c t transaction_hash confirmations w''
            | (Raise e', w'') => Some (Raise e', w'')
            end
          else Some (Raise e, w')
      | r => r
      end
  end.

Definition wait_for_receipt_fuel (fuel inner : nat) (c : client_class) (transaction_hash : bytes)
    (timeout_ms confirmations : Z) (w : W) : option (result receipt * W) :=
  if (confirmations =? 0)%Z then
    Some (waitForTransactionReceipt transaction_hash timeout_ms (TRANSACTION_POLLING_TIME c) w)
  else
    let w' := sleep_ms COOLING_TIME w in
    receipt_loop fuel inner c (Timeout (time_time w') timeout_ms TransactionTimeout) transaction_hash confirmations w'.

(** Enough rounds: one per polling time until the timeouts end. *)
Definition confirmation_rounds (confirmations : Z) : nat := Z.to_nat (14 * confirmations + 2).
Definition receipt_rounds (timeout_ms : Z) : nat := Z.to_nat (timeout_ms / 3000 + 2).

Definition wait_for_receipt (c : client_class) (transaction_hash : bytes) (timeout_ms confirmations : Z)
    : PyM W receipt := fun w =>
  default (Raise RuntimeError, w)
    (wait_for_receipt_fuel (receipt_rounds timeout_ms) (confirmation_rounds confirmations)
       c transaction_hash timeout_ms confirmations w).

(** ** What the wait promises *)

Section Promises.
Context `{!Web3Clock W}.

Lemma confirmation_round_time t r n w w' :
  confirmation_round t r w = (Ok n, w') ->
  (time_time w + 3000 <= time_time w')%Z /\ (time_time w + 3000 <= t.(begun_at) + t.(timeout_ms_))%Z.
Proof.
  unfold confirmation_round, timeout_sleep, timeout_check, py_bind at 1.
  pose proof (sleep_time BLOCK_CONFIRMATIONS_POLLING_TIME w) as Hs. unfold BLOCK_CONFIRMATIONS_POLLING_TIME in *.
  set (w1 := sleep_ms 3000 w) in *. destruct (_ <? _)%Z eqn:Ht; [done|].
  unfold check_transaction_is_on_chain, try_except, py_bind.
  pose proof (get_time r.(transactionHash) w1) as Hg.
  destruct (getTransactionReceipt (transactionHash r) w1) as [[r'|e] w2]; cbn [fst snd py_ret] in *.
  - destruct (negb _); [done|]. cbn. pose proof (number_time w2) as Hn.
    destruct (eth_blockNumber w2) as [[b|e] w3]; [|done]. cbn [fst snd] in *. intros [= <- <-]. lia.
  - by destruct (catches _ e).
Qed.

(** The round that was the last one. *)
Lemma confirmation_round_ok t r n w w' :
  confirmation_round t r w = (Ok n, w') ->
  exists w1 w2 r' b, getTransactionReceipt r.(transactionHash) w1 = (Ok r', w2) /\
    r'.(blockHash) = r.(blockHash) /\ eth_blockNumber w2 = (Ok b, w') /\ n = (b - r.(blockNumber))%Z.
Proof.
  unfold confirmation_round, timeout_sleep, timeout_check, py_bind at 1. destruct (_ <? _)%Z; [done|].
  unfold check_transaction_is_on_chain, try_except, py_bind.
  destruct (getTransactionReceipt _ _) as [[r'|e] w2] eqn:Hg; cbn [py_ret]; [|by destruct (catches _ e)].
  destruct (bool_decide _) eqn:Hb; [|done]. apply bool_decide_eq_true in Hb. cbn.
  destruct (eth_blockNumber w2) as [[b|e] w3] eqn:Hn; [|done]. intros [= <- <-].
  do 4 eexists. split_and!; [exact Hg|done|exact Hn|done].
Qed.

Lemma confirmation_loop_ends t r confirmations fuel so_far w :
  (t.(begun_at) + t.(timeout_ms_) < time_time w + 3000 * Z.of_nat fuel)%Z -> fuel <> 0 ->
  is_Some (confirmation_loop fuel t r confirmations so_far w).
Proof.
  revert so_far w. induction fuel as [|fuel IH]; intros so_far w Ht Hf; [done|]. cbn [confirmation_loop].
  destruct (so_far <? confirmations)%Z; [|done].
  destruct (confirmation_round t r w) as [[n|e] w'] eqn:Hr; [|done].
  destruct (confirmation_round_time _ _ _ _ _ Hr). apply IH; lia.
Qed.

Lemma confirmation_loop_time t r confirmations fuel so_far w res w' :
  confirmation_loop fuel t r confirmations so_far w = Some (Ok res, w') ->
  (time_time w <= time_time w')%Z /\ res = r /\
  ((so_far < confirmations)%Z -> exists w1 w2 r' b, getTransactionReceipt r.(transactionHash) w1 = (Ok r', w2) /\
    r'.(blockHash) = r.(blockHash) /\ eth_blockNumber w2 = (Ok b, w') /\ (confirmations <= b - r.(blockNumber))%Z).
Proof.
  revert so_far w. induction fuel as [|fuel IH]; intros so_far w; cbn [confirmation_loop];
    destruct (so_far <? confirmations)%Z eqn:Hc; try done.
  - intros [= <- <-]. split_and!; [done|done|lia].
  - destruct (confirmation_round t r w) as [[n|e] w1] eqn:Hr; [|done]. intros Hl.
    destruct (confirmation_round_time _ _ _ _ _ Hr), (IH _ _ Hl) as (Hle & -> & Hlast).
    split_and!; [lia|done|]. intros _. destruct (decide (n < confirmations)%Z) as [|Hn]; [by apply Hlast|].
    assert (w1 = w') as ->.
    { destruct fuel; cbn [confirmation_loop] in Hl; rewrite (proj2 (Z.ltb_ge _ _)) in Hl by lia; congruence. }
    apply confirmation_round_ok in Hr as (w2 & w3 & r' & b & Hg & Hb & Hnum & ->).
    exists w2, w3, r', b. split_and!; [done..|lia].
  - intros [= <- <-]. split_and!; [done|done|lia].
Qed.
Lemma confirmation_round_mono t r w : (time_time w <= time_time (confirmation_round t r w).2)%Z.
Proof.
  unfold confirmation_round, timeout_sleep, timeout_check, py_bind at 1.
  pose proof (sleep_time BLOCK_CONFIRMATIONS_POLLING_TIME w) as Hs. unfold BLOCK_CONFIRMATIONS_POLLING_TIME in *.
  set (w1 := sleep_ms 3000 w) in *. destruct (_ <? _)%Z; [cbn; lia|].
  unfold check_transaction_is_on_chain, try_except, py_bind.
  pose proof (get_time r.(transactionHash) w1) as Hg.
  destruct (getTransactionReceipt (transactionHash r) w1) as [[r'|e] w2]; cbn [fst snd py_ret] in *.
  - destruct (negb _); [cbn; lia|]. cbn. pose proof (number_time w2) as Hn.
    destruct (eth_blockNumber w2) as [[b|e] w3]; cbn [fst snd] in *; cbn; lia.
  - destruct (catches _ e); cbn; lia.
Qed.

Lemma confirmation_loop_mono t r confirmations fuel so_far w res w' :
  confirmation_loop fuel t r confirmations so_far w = Some (res, w') -> (time_time w <= time_time w')%Z.
Proof.
  revert so_far w. induction fuel as [|fuel IH]; intros so_far w; cbn [confirmation_loop];
    destruct (so_far <? confirmations)%Z; try done; [by intros [= <- <-]| |by intros [= <- <-]].
  pose proof (confirmation_round_mono t r w) as Hm.
  destruct (confirmation_round t r w) as [[n|e] w1]; cbn [snd] in Hm.
  - intros Hl%IH. lia.
  - by intros [= <- <-].
Qed.

Lemma block_until_ends c h timeout_ms confirmations w :
  is_Some (block_until_enough_confirmations (confirmation_rounds confirmations) c h timeout_ms confirmations w).
Proof.
  unfold block_until_enough_confirmations. destruct (waitForTransactionReceipt _ _ _ w) as [[r|e] w1]; [|done].
  destruct (decide (0 < confirmations)%Z) as [Hc|Hc].
  - apply confirmation_loop_ends; cbn [begun_at timeout_ms_];
      unfold _calculate_confirmations_timeout, AVERAGE_BLOCK_TIME, confirmation_rounds; lia.
  - destruct (confirmation_rounds confirmations); cbn [confirmation_loop];
      by rewrite (proj2 (Z.ltb_ge _ _)) by lia.
Qed.

Lemma block_until_mono fuel c h timeout_ms confirmations w res w' :
  block_until_enough_confirmations fuel c h timeout_ms confirmations w = Some (res, w') ->
  (time_time w <= time_time w')%Z.
Proof.
  unfold block_until_enough_confirmations.
  pose proof (wait_time h timeout_ms (TRANSACTION_POLLING_TIME c) w) as Hw.
  destruct (waitForTransactionReceipt _ _ _ w) as [[r|e] w1]; cbn [snd] in Hw.
  - intros Hl%confirmation_loop_mono. lia.
  - by intros [= <- <-].
Qed.

(** A receipt with its confirmations: web3 gave it for the transaction, and
    in the end the transaction was still in its block, with [confirmations]
    blocks above it. *)
Definition confirmed (c : client_class) (h : bytes) (timeout_ms confirmations : Z) (r : receipt) (w' : W) : Prop :=
  (exists w0 w1, waitForTransactionReceipt h timeout_ms (TRANSACTION_POLLING_TIME c) w0 = (Ok r, w1)) /\
  exists w1 w2 r' b, getTransactionReceipt r.(transactionHash) w1 = (Ok r', w2) /\
    r'.(blockHash) = r.(blockHash) /\ eth_blockNumber w2 = (Ok b, w') /\ (confirmations <= b - r.(blockNumber))%Z.

Lemma block_until_confirmed fuel c h timeout_ms confirmations w r w' :
  (0 < confirmations)%Z ->
  block_until_enough_confirmations fuel c h timeout_ms confirmations w = Some (Ok r, w') ->
  confirmed c h timeout_ms confirmations r w'.
Proof.
  intros Hc. unfold block_until_enough_confirmations.
  destruct (waitForTransactionReceipt _ _ _ w) as [[r0|e] w1] eqn:Hw; [|done].
  intros (_ & -> & Hlast)%confirmation_loop_time. split; [by exists w, w1|by apply Hlast].
Qed.

Lemma receipt_loop_spec c t h confirmations fuel w :
  (0 < confirmations)%Z ->
  (t.(begun_at) + t.(timeout_ms_) < time_time w + 3000 * Z.of_nat fuel)%Z -> fuel <> 0 ->
  exists res w', receipt_loop fuel (confirmation_rounds confirmations) c t h confirmations w = Some (res, w') /\
  match res with
  | Ok r => confirmed c h t.(timeout_ms_) confirmations r w'
  | Raise e =>
      (catches retried e = false /\ exists w1, block_until_enough_confirmations (confirmation_rounds confirmations)
         c h t.(timeout_ms_) confirmations w1 = Some (Raise e, w')) \/
      (e = t.(exception) /\ (t.(begun_at) + t.(timeout_ms_) < time_time w')%Z)
  end.
Proof.
  intros Hc. revert w. induction fuel as [|fuel IH]; intros w Ht Hf; [done|]. cbn [receipt_loop].
  destruct (block_until_ends c h t.(timeout_ms_) confirmations w) as [[res w1] Hb]. rewrite Hb.
  pose proof (block_until_mono _ _ _ _ _ _ _ _ Hb) as Hm. destruct res as [r|e].
  - exists (Ok r), w1. split; [done|]. by eapply block_until_confirmed.
  - destruct (catches retried e) eqn:He; [|exists (Raise e), w1; split; [done|left; split; [done|by exists w]]].
    unfold timeout_sleep, timeout_check. pose proof (sleep_time BLOCK_CONFIRMATIONS_POLLING_TIME w1) as Hs.
    unfold BLOCK_CONFIRMATIONS_POLLING_TIME in *. destruct (_ <? _)%Z eqn:Hlt.
    + exists (Raise t.(exception)), (sleep_ms 3000 w1). split; [done|]. right. split; [done|lia].
    + apply IH; lia.
Qed.

Lemma receipt_rounds_enough timeout_ms (w : W) :
  (0 <= timeout_ms)%Z ->
  (time_time w + timeout_ms < time_time w + 3000 * Z.of_nat (receipt_rounds timeout_ms))%Z /\ receipt_rounds timeout_ms <> 0.
Proof.
  intros Ht. unfold receipt_rounds. pose proof (Z.div_mod timeout_ms 3000). pose proof (Z.mod_pos_bound timeout_ms 3000).
  assert (0 <= timeout_ms / 3000)%Z by (apply Z.div_pos; lia). lia.
Qed.

Lemma wait_for_receipt_loop c h timeout_ms confirmations w :
  (0 <= timeout_ms)%Z -> (0 < confirmations)%Z ->
  exists w0 res w', w0 = sleep_ms COOLING_TIME w /\
    wait_for_receipt_fuel (receipt_rounds timeout_ms) (confirmation_rounds confirmations)
      c h timeout_ms confirmations w = Some (res, w') /\
    match res with
    | Ok r => confirmed c h timeout_ms confirmations r w'
    | Raise e =>
        (catches retried e = false /\ exists w1, block_until_enough_confirmations (confirmation_rounds confirmations)
           c h timeout_ms confirmations w1 = Some (Raise e, w')) \/
        (e = TransactionTimeout /\ (time_time w0 + timeout_ms < time_time w')%Z)
    end.
Proof.
  intros Ht Hc. unfold wait_for_receipt_fuel. rewrite (proj2 (Z.eqb_neq _ _)) by lia.
  set (w0 := sleep_ms COOLING_TIME w). destruct (receipt_rounds_enough timeout_ms w0 Ht) as [Hf Hn].
  destruct (receipt_loop_spec c (Timeout (time_time w0) timeout_ms TransactionTimeout) h confirmations
    (receipt_rounds timeout_ms) w0 Hc Hf Hn) as (res & w' & Hl & Hres).
  by exists w0, res, w'.
Qed.

Lemma wait_for_receipt_confirmed c h timeout_ms confirmations w r w' :
  (0 <= timeout_ms)%Z -> (0 < confirmations)%Z ->
  wait_for_receipt c h timeout_ms confirmations w = (Ok r, w') -> confirmed c h timeout_ms confirmations r w'.
Proof.
  intros Ht Hc. unfold wait_for_receipt.
  destruct (wait_for_receipt_loop c h timeout_ms confirmations w Ht Hc) as (w0 & res & w1 & _ & -> & Hres).
  cbn. unfold id. by intros [= -> ->].
Qed.

(** C22.  The wait for a receipt ends, whatever the chain answers.  Without
    confirmations it is web3's own wait.  With them, the receipt that is
    returned is one that web3 gave for the transaction, the transaction was
    still in that block at the end, and the block had the confirmations asked
    for; reorganizations, missing confirmations and web3's own timeout are
    not raised but lead to another round; what is raised is another exception
    of a round, or TransactionTimeout once the timeout has passed. *)
Theorem wait_for_receipt_confirms c h timeout_ms confirmations w :
  (0 <= timeout_ms)%Z -> (0 <= confirmations)%Z ->
  is_Some (wait_for_receipt_fuel (receipt_rounds timeout_ms) (confirmation_rounds confirmations)
             c h timeout_ms confirmations w) /\
  match wait_for_receipt c h timeout_ms confirmations w with
  | (res, w') =>
      if (confirmations =? 0)%Z
      then (res, w') = waitForTransactionReceipt h timeout_ms (TRANSACTION_POLLING_TIME c) w
      else match res with
           | Ok r => confirmed c h timeout_ms confirmations r w'
           | Raise e =>
               (catches retried e = false /\
                  exists w1, block_until_enough_confirmations (confirmation_rounds confirmations)
                    c h timeout_ms confirmations w1 = Some (Raise e, w')) \/
               (e = TransactionTimeout /\ time_time w + timeout_ms < time_time w')%Z
           end
  end.
Proof.
  intros Ht Hc. unfold wait_for_receipt. destruct (confirmations =? 0)%Z eqn:H0.
  { unfold wait_for_receipt_fuel. rewrite H0. split; [done|]. cbn. unfold id. by destruct (waitForTransactionReceipt _ _ _ w). }
  destruct (wait_for_receipt_loop c h timeout_ms confirmations w) as (w0 & res & w' & -> & -> & Hres); [lia..|].
  split; [done|]. cbn. unfold id. destruct res as [r|e]; [done|].
  destruct Hres as [|[-> Hlt]]; [by left|right]. split; [done|].
  pose proof (sleep_time COOLING_TIME w) as Hs. unfold COOLING_TIME in *. lia.
Qed.
End Promises.

(** ** What the wait leaves alone *)

Section Frame.
Context (P : W -> Prop).
Context (Hsleep : forall n w, P w -> P (sleep_ms n w)) (Hwait : forall h t p, preserves P (waitForTransactionReceipt h t p))
  (Hget : forall h, preserves P (getTransactionReceipt h)) (Hnumber : preserves P eth_blockNumber).

Lemma timeout_sleep_keeps t ms : preserves P (timeout_sleep t ms).
Proof using Hsleep. intros w Hw. unfold timeout_sleep, timeout_check. apply (Hsleep ms) in Hw. by destruct (_ <? _)%Z. Qed.

Lemma confirmation_round_keeps t r : preserves P (confirmation_round t r).
Proof using Hsleep Hget Hnumber.
  unfold confirmation_round, check_transaction_is_on_chain.
  preserve_with ltac:(first [apply timeout_sleep_keeps|apply Hget|apply Hnumber]).
Qed.

Lemma confirmation_loop_keeps fuel t r confirmations so_far w res w' :
  P w -> confirmation_loop fuel t r confirmations so_far w = Some (res, w') -> P w'.
Proof using Hsleep Hget Hnumber.
  revert so_far w. induction fuel as [|fuel IH]; intros so_far w Hw; cbn [confirmation_loop];
    destruct (so_far <? confirmations)%Z; try done; [by intros [= _ <-]| |by intros [= _ <-]].
  pose proof (confirmation_round_keeps t r w Hw) as Hr.
  destruct (confirmation_round t r w) as [[n|e] w1]; [by apply IH|by intros [= _ <-]].
Qed.

Lemma receipt_loop_keeps fuel inner c t h confirmations w res w' :
  P w -> receipt_loop fuel inner c t h confirmations w = Some (res, w') -> P w'.
Proof using All.
  revert w. induction fuel as [|fuel IH]; intros w Hw; [done|]. cbn [receipt_loop].
  destruct (block_until_enough_confirmations _ _ _ _ _ w) as [[res1 w1]|] eqn:Hb; [|done].
  assert (P w1) as Hw1.
  { revert Hb. unfold block_until_enough_confirmations. pose proof (Hwait h t.(timeout_ms_) (TRANSACTION_POLLING_TIME c) w Hw) as Hq.
    destruct (waitForTransactionReceipt _ _ _ w) as [[r|e] w2]; [by apply confirmation_loop_keeps|by intros [= _ <-]]. }
  destruct res1 as [r|e]; [by intros [= _ <-]|]. destruct (catches retried e); [|by intros [= _ <-]].
  pose proof (timeout_sleep_keeps t BLOCK_CONFIRMATIONS_POLLING_TIME w1 Hw1) as Hs.
  destruct (timeout_sleep _ _ w1) as [[[]|e'] w2]; [by apply IH|by intros [= _ <-]].
Qed.

Lemma wait_for_receipt_keeps c h timeout_ms confirmations : preserves P (wait_for_receipt c h timeout_ms confirmations).
Proof using All.
  intros w Hw. unfold wait_for_receipt, wait_for_receipt_fuel. destruct (confirmations =? 0)%Z; [by apply Hwait|].
  destruct (receipt_loop _ _ _ _ _ _ _) as [[res w']|] eqn:Hl; [|done].
  cbn. eapply receipt_loop_keeps; [|exact Hl]. by apply Hsleep.
Qed.

End Frame.

End Client.
End Clients.

(** ** A chain that is reorganized at 12 seconds *)

Module ClientsDemo.
Import Clients.

Definition demo_receipt (time : Z) : receipt :=
  if (time <? 12000)%Z then Receipt (to_bytes "tx") (to_bytes "block A") 100 (Some 1%Z) 21000
  else Receipt (to_bytes "tx") (to_bytes "block B") 101 (Some 1%Z) 21000.

(** The world is the time. *)
#[export] Instance demo_eth : Web3Eth Z := {
  time_time w := w;
  sleep_ms n w := (w + Z.max 0 n)%Z;
  waitForTransactionReceipt h t p w := (Ok (demo_receipt w), w);
  getTransactionReceipt h w := (Ok (demo_receipt w), w);
  eth_blockNumber w := (Ok (100 + w / 4000)%Z, w);
  eth_chainId w := (Ok 97%Z, w);
  personal_unlock a p d w := (Ok true, w);
  personal_lock a w := (Ok true, w);
  tester_accounts w := (Ok [], w);
}.

#[export] Instance demo_clock : Web3Clock Z.
Proof. split; cbn; lia. Qed.

Lemma wait_for_receipt_confirms_witness :
  wait_for_receipt GethClient (to_bytes "tx") 600000 4 0%Z =
    (Ok (Receipt (to_bytes "tx") (to_bytes "block B") 101 (Some 1%Z) 21000), 20000%Z) /\
  confirmed GethClient (to_bytes "tx") 600000 4
    (Receipt (to_bytes "tx") (to_bytes "block B") 101 (Some 1%Z) 21000) 20000%Z.
Proof.
  split; [by vm_compute|].
  pose proof (wait_for_receipt_confirms GethClient (to_bytes "tx") 600000 4 0%Z ltac:(lia) ltac:(lia)) as [_ H].
  exact H.
Defined.

(** A client version without a slash passes the checks for an invalid one. *)
Lemma version_without_slash : from_w3 (to_bytes "Geth") [] = Raise IndexError.
Proof. reflexivity. Qed.

(** Neither locking nor unlocking of Alchemy's accounts fails: both answer
    NotImplemented, which is true. *)
Lemma alchemy_never_locks a p d w :
  unlock_account AlchemyClient a p d w = (Ok NotImplemented, w) /\ lock_account AlchemyClient a w = (Ok NotImplemented, w).
Proof. done. Qed.

End ClientsDemo.
