(* ===== verification/Transactions.v ===== *)
(** * nulink/blockchain/eth/interfaces.py: transactions

    Building a contract transaction, signing and broadcasting it, and waiting
    for its receipt through the client.  Contract functions, signers and the
    node are the class [EthNode]; the gas multiplier is a rational where the
    code has a float.  The address check of the decorated methods is the
    decorator's, see [Agents.Decorators]. *)

From Stdlib Require Import QArith Qround.
From S2P Require Import Prelude Text Clients.
#[local] Open Scope nat_scope.

(** Values of a transaction dict. *)
Inductive tx_value := TInt (z : Z) | TText (s : bytes) | TBytes (b : bytes).
#[global] Instance tx_value_eq_dec : EqDecision tx_value.
Proof. solve_decision. Defined.

Definition tx : Type := list (string * tx_value).

(** The first argument of an exception: an RPC error with its code and
    message, as far as they can be read, or something else. *)
Inductive exn_arg := RpcError (code : option Z) (message : option bytes) | OtherArg.

(** A contract call returns, or raises with arguments. *)
Inductive call_outcome (A : Type) := Done (a : A) | Failed (e : exn_class) (args : list exn_arg).
Arguments Done {A} a.
Arguments Failed {A} e args.

Class EthNode (W F Power : Type) := {
  get_transaction_count : bytes -> bool -> PyM W Z;
  (* [estimateGas(payload, block_identifier='latest')] and [buildTransaction] *)
  estimateGas : F -> tx -> W -> call_outcome Z * W;
  buildTransaction : F -> tx -> W -> call_outcome tx * W;
  (* [TransactionFailed.get_balance], through the interface factory *)
  get_balance : bytes -> PyM W Z;
  eth_gas_price : PyM W Z;
  (* [Web3.fromWei]: within the range of amounts, or ValueError *)
  check_wei : Z -> result unit;
  account : Power -> bytes;
  sign_transaction : Power -> tx -> PyM W bytes;
  send_raw_transaction : bytes -> PyM W bytes;
  (* [client.get_transaction(txhash)["gas"]] *)
  get_transaction_gas : bytes -> PyM W Z;
}.

(** Only [send_raw_transaction] broadcasts. *)
Class EthNodeLaws (W F Power : Type) `{!EthNode W F Power, !Web3Eth W} := {
  broadcasts : W -> list bytes;
  count_quiet a p B : preserves (fun w => broadcasts w = B) (get_transaction_count (F := F) (Power := Power) a p);
  estimate_quiet (f : F) t w : broadcasts (estimateGas (Power := Power) f t w).2 = broadcasts w;
  build_quiet (f : F) t w : broadcasts (buildTransaction (Power := Power) f t w).2 = broadcasts w;
  balance_quiet a B : preserves (fun w => broadcasts w = B) (get_balance (F := F) (Power := Power) a);
  price_quiet B : preserves (fun w => broadcasts w = B) (eth_gas_price (F := F) (Power := Power));
  sign_quiet (p : Power) t B : preserves (fun w => broadcasts w = B) (sign_transaction (F := F) p t);
  gas_quiet h B : preserves (fun w => broadcasts w = B) (get_transaction_gas (F := F) (Power := Power) h);
  send_once raw w : match send_raw_transaction (F := F) (Power := Power) raw w with
    | (Ok _, w') => broadcasts w' = broadcasts w ++ [raw]
    | (Raise _, w') => broadcasts w' = broadcasts w \/ broadcasts w' = broadcasts w ++ [raw]
    end;
  sleep_quiet n w : broadcasts (sleep_ms n w) = broadcasts w;
  wait_quiet h t p w : broadcasts (waitForTransactionReceipt h t p w).2 = broadcasts w;
  receipt_quiet h w : broadcasts (getTransactionReceipt h w).2 = broadcasts w;
  number_quiet w : broadcasts (eth_blockNumber w).2 = broadcasts w;
}.

Module Transactions.

Section Transactions.
Context {W F Power : Type} `{!EthNode W F Power, !Web3Eth W}.
(** [eth_utils.is_checksum_address]. *)
Variable is_checksum_address : bytes -> bool.

(** The [sender_address] of the decorated methods. *)
Definition checked_sender (sender_address : bytes) : result unit :=
  if is_checksum_address sender_address then Ok tt else Raise InvalidChecksumAddress.

Definition TIMEOUT : Z := 600000.
Definition IPC_CODE : Z := -32000.

(** [build_payload]: the payload, and what the caller's own dict has become;
    a dict that is not empty is updated in place. *)
Definition build_payload (sender_address : bytes) (payload : option tx) (transaction_gas_limit : option Z)
    (use_pending_nonce : bool) : PyM W (tx * option tx) :=
  lift (checked_sender sender_address) ;;;
  nonce <- get_transaction_count (F := F) (Power := Power) sender_address use_pending_nonce ;;
  let base_payload := [("nonce", TInt nonce); ("from", TText sender_address)]%string in
  let updated := dict_update (default [] payload) base_payload in
  let updated := match transaction_gas_limit with
                 | None | Some 0%Z => updated
                 | Some g => dict_set updated "gas"%string (TInt g)
                 end in
  py_ret (updated, match payload with Some (_ :: _) => Some updated | p => p end).

(** [_handle_failed_transaction]: always raises.  Building TransactionFailed
    reads the balance for both of its texts. *)
Definition _handle_failed_transaction {A} (e : exn_class) (args : list exn_arg) (sender : bytes) : PyM W A :=
  match args with
  | [] => raise IndexError
  | RpcError (Some code) (Some _) :: _ =>
      if (code =? IPC_CODE)%Z
      then get_balance (F := F) (Power := Power) sender ;;;
           get_balance (F := F) (Power := Power) sender ;;;
           raise TransactionFailed
      else raise e
  | _ => raise e
  end.

(** The errors of estimating and building that count as a failed transaction. *)
Definition build_errors : list exn_class := [TestTransactionFailed; ValidationError; ValueError].

Definition calling {A} (m : W -> call_outcome A * W) (sender : bytes) : PyM W A := fun w =>
  match m w with
  | (Done a, w') => (Ok a, w')
  | (Failed e args, w') =>
      if catches build_errors e then _handle_failed_transaction e args sender w' else (Raise e, w')
  end.

(** [int(math.ceil(gas * multiplier))]. *)
Definition overestimation (gas : Z) (multiplier : Q) : Z := Qceiling (inject_Z gas * multiplier).

(** [build_contract_transaction]: the transaction, and the caller's payload
    after it. *)
Definition build_contract_transaction (contract_function : F) (sender_address : bytes) (payload : option tx)
    (transaction_gas_limit : option Z) (gas_estimation_multiplier : option Q) (use_pending_nonce : bool)
    : PyM W (tx * option tx) :=
  lift (checked_sender sender_address) ;;;
  lift (match gas_estimation_multiplier with
        | Some m => if Qle_bool 1 m && Qle_bool m 3 then Ok tt else Raise ValueError
        | None => Ok tt
        end) ;;;
  built <- build_payload sender_address payload transaction_gas_limit use_pending_nonce ;;
  let '(payload', callers) := built in
  priced <-
    (match dict_get payload' "gas"%string with
     | Some _ => py_ret (payload', callers)
     | None =>
         gas <- calling (estimateGas (Power := Power) contract_function payload') sender_address ;;
         py_ret (dict_set payload' "gas"%string (TInt gas),
                 match callers with
                 | Some (_ :: _) => Some (dict_set payload' "gas"%string (TInt gas))
                 | p => p
                 end)
     end) ;;
  let '(payload', callers) := priced in
  transaction_dict <- calling (buildTransaction (Power := Power) contract_function payload') sender_address ;;
  match gas_estimation_multiplier, transaction_gas_limit with
  | Some m, (None | Some 0%Z) =>
      match dict_get transaction_dict "gas"%string with
      | None => raise KeyError
      | Some (TInt gas) => py_ret (dict_set transaction_dict "gas"%string (TInt (overestimation gas m)), callers)
      | Some _ => raise TypeError
      end
  | _, _ => py_ret (transaction_dict, callers)
  end.

(** ** Signing and broadcasting *)

(** The fields that are signed. *)
Definition signed_keys : list string := ["value"; "nonce"; "from"; "gas"; "to"; "data"; "chainId"]%string.

Definition to_be_signed (transaction_dict : tx) : tx :=
  filter (fun kv => kv.1 ∈ signed_keys) transaction_dict.

(** [json.dumps(d)], for its errors only. *)
Definition printable (d : tx) : result unit :=
  if forallb (fun kv => match kv.2 with TBytes _ => false | _ => true end) d then Ok tt else Raise TypeError.

(** [max_unit_price], by kind of transaction. *)
Definition max_unit_price (transaction_dict : tx) : PyM W tx_value :=
  match dict_get transaction_dict "maxFeePerGas"%string with
  | Some p => py_ret p
  | None =>
      match dict_get transaction_dict "gasPrice"%string with
      | None | Some (TInt 0%Z | TText [] | TBytes []) =>
          p <- eth_gas_price (F := F) (Power := Power) ;; py_ret (TInt p)
      | Some p => py_ret p
      end
  end.

(** The cost that the messages announce: a number times a number. *)
Definition announced_cost (price : tx_value) (transaction_dict : tx) : result unit :=
  match price, dict_get transaction_dict "gas"%string with
  | TInt p, Some (TInt g) =>
      let? u := check_wei (F := F) (Power := Power) p in check_wei (F := F) (Power := Power) (p * g)
  | _, None => Raise KeyError
  | _, _ => Raise TypeError
  end.

(** What a transaction ends in. *)
Inductive sent := SentHash (txhash : bytes) | SentReceipt (r : receipt).

(** The checks on a receipt. *)
Definition check_receipt (txhash : bytes) (r : receipt) : PyM W sent :=
  match r.(status) with
  | Some 0%Z => raise InterfaceError
  | Some _ => py_ret (SentReceipt r)
  | None =>
      gas <- get_transaction_gas (F := F) (Power := Power) txhash ;;
      if (gas =? r.(gasUsed))%Z then raise InterfaceError else py_ret (SentReceipt r)
  end.

Definition sign_and_broadcast_transaction (c : Clients.client_class) (transacting_power : Power) (transaction_dict : tx)
    (confirmations : Z) (fire_and_forget : bool) : PyM W sent :=
  price <- max_unit_price transaction_dict ;;
  lift (announced_cost price transaction_dict) ;;;
  lift (printable transaction_dict) ;;;
  gas_price <- eth_gas_price (F := F) (Power := Power) ;;
  signed_raw_transaction <-
    sign_transaction (F := F) transacting_power
      (dict_set (to_be_signed transaction_dict) "gasPrice"%string (TInt gas_price)) ;;
  txhash <- send_raw_transaction (F := F) (Power := Power) signed_raw_transaction ;;
  if fire_and_forget then py_ret (SentHash txhash)
  else
    r <- Clients.wait_for_receipt c txhash TIMEOUT confirmations ;;
    check_receipt txhash r.

(** [send_transaction], with the caller's payload after it. *)
Definition send_transaction (c : Clients.client_class) (contract_function : F) (transacting_power : Power)
    (payload : option tx) (transaction_gas_limit : option Z) (gas_estimation_multiplier : option Q)
    (confirmations : Z) (fire_and_forget replace : bool) : PyM W (sent * option tx) :=
  if fire_and_forget && (0 <? confirmations)%Z then raise ValueError
  else
    let use_pending_nonce := if fire_and_forget then false else replace in
    transaction <- build_contract_transaction contract_function (account (F := F) transacting_power) payload
                     transaction_gas_limit gas_estimation_multiplier use_pending_nonce ;;
    txhash_or_receipt <- sign_and_broadcast_transaction c transacting_power transaction.1 confirmations fire_and_forget ;;
    py_ret (txhash_or_receipt, transaction.2).

(** ** Gas *)

Lemma overestimation_bounds gas m :
  (0 <= gas)%Z -> (1 <= m)%Q -> (m <= 3)%Q -> (gas <= overestimation gas m <= 3 * gas)%Z.
Proof.
  intros Hg H1 H3. unfold overestimation.
  assert (0 <= inject_Z gas)%Q as Hq by (change 0%Q with (inject_Z 0); by rewrite <- Zle_Qle).
  split.
  - rewrite <- (Qceiling_Z gas) at 1. apply Qceiling_resp_le. rewrite <- (Qmult_1_r (inject_Z gas)) at 1.
    by rewrite !(Qmult_comm (inject_Z gas)); apply Qmult_le_compat_r.
  - rewrite <- (Qceiling_Z (3 * gas)). apply Qceiling_resp_le. rewrite inject_Z_mult.
    rewrite (Qmult_comm (inject_Z gas)). by apply Qmult_le_compat_r.
Qed.

(** The gas that a transaction is built with: the limit, the caller's own, or
    the estimate. *)
Definition gas_source (f : F) (payload : option tx) (limit : option Z) (p : tx) : Prop :=
  match limit with
  | Some g => if (g =? 0)%Z then True else dict_get p "gas"%string = Some (TInt g)
  | None => True
  end /\
  ((limit = None \/ limit = Some 0%Z) ->
     (is_Some (dict_get (default [] payload) "gas"%string) /\ dict_get p "gas"%string = dict_get (default [] payload) "gas"%string) \/
     (exists gas p0 w0 w1, dict_get (default [] payload) "gas"%string = None /\
        estimateGas (Power := Power) f p0 w0 = (Done gas, w1) /\ p = dict_set p0 "gas"%string (TInt gas))).

Lemma calling_ok {A} (m : W -> call_outcome A * W) sender w a w' :
  calling m sender w = (Ok a, w') -> m w = (Done a, w').
Proof.
  unfold calling. destruct (m w) as [[b|e args] w1]; [by intros [= -> ->]|]. destruct (catches build_errors e); [|done].
  unfold _handle_failed_transaction. destruct args as [|[[code|] [msg|]|] args]; try done.
  destruct (code =? IPC_CODE)%Z; [|done]. unfold py_bind.
  destruct (get_balance sender w1) as [[|] w2]; [|done]. by destruct (get_balance sender w2) as [[|] w3].
Qed.

Lemma build_payload_ok sender payload limit pending w p callers w' :
  build_payload sender payload limit pending w = (Ok (p, callers), w') ->
  exists nonce, get_transaction_count (F := F) (Power := Power) sender pending w = (Ok nonce, w') /\
    dict_get p "nonce"%string = Some (TInt nonce) /\ dict_get p "from"%string = Some (TText sender) /\
    dict_get p "gas"%string = match limit with
                              | None | Some 0%Z => dict_get (default [] payload) "gas"%string
                              | Some g => Some (TInt g)
                              end.
Proof.
  unfold build_payload, py_bind, lift. destruct (checked_sender sender); [|done].
  destruct (get_transaction_count sender pending w) as [[nonce|] w1]; [|done]. cbn [py_ret].
  intros [= <- _ <-]. exists nonce. split; [done|].
  destruct limit as [[|g|g]|]; unfold dict_update; cbn [foldl fst snd]; rewrite ?dict_get_set; cbn; by rewrite ?dict_get_set.
Qed.

(** The steps up to the multiplier. *)
Lemma built_ok f sender payload limit pending (k : tx -> option tx -> PyM W (tx * option tx)) w r w' :
  (built <- build_payload sender payload limit pending ;;
   let '(payload', callers) := built in
   priced <-
     (match dict_get payload' "gas"%string with
      | Some _ => py_ret (payload', callers)
      | None =>
          gas <- calling (estimateGas (Power := Power) f payload') sender ;;
          py_ret (dict_set payload' "gas"%string (TInt gas),
                  match callers with
                  | Some (_ :: _) => Some (dict_set payload' "gas"%string (TInt gas))
                  | p => p
                  end)
      end) ;;
   let '(payload', callers) := priced in
   transaction_dict <- calling (buildTransaction (Power := Power) f payload') sender ;;
   k transaction_dict callers) w = (Ok r, w') ->
  exists nonce p callers w0 w1 t0 w2, get_transaction_count (F := F) (Power := Power) sender pending w = (Ok nonce, w0) /\
    dict_get p "nonce"%string = Some (TInt nonce) /\ dict_get p "from"%string = Some (TText sender) /\
    gas_source f payload limit p /\
    buildTransaction (Power := Power) f p w1 = (Done t0, w2) /\ k t0 callers w2 = (Ok r, w').
Proof.
  unfold py_bind at 1. destruct (build_payload _ _ _ _ w) as [[[p0 callers0]|] w0] eqn:Hb; [|done].
  apply build_payload_ok in Hb as (nonce & Hc & Hn & Hf & Hg). unfold py_bind at 1.
  destruct (dict_get p0 "gas"%string) as [g|] eqn:Hgas.
  - cbn [py_ret]. unfold py_bind. destruct (calling _ sender w0) as [[t0|] w1] eqn:Hbuild; [|done].
    apply calling_ok in Hbuild. intros Hk. exists nonce, p0, callers0, w0, w0, t0, w1. split_and!; try done. split.
    + destruct limit as [l|]; [|done]. destruct (l =? 0)%Z eqn:Hl; [done|]. rewrite Hgas. by destruct l.
    + intros Hl. left. assert (Some g = dict_get (default [] payload) "gas"%string) as Heq by by destruct Hl as [->| ->].
      by rewrite <- Heq.
  - unfold py_bind. destruct (calling (estimateGas f p0) sender w0) as [[gas|] w1] eqn:He; [|done]. cbn [py_ret].
    apply calling_ok in He. destruct (calling _ sender w1) as [[t0|] w2] eqn:Hbuild; [|done].
    apply calling_ok in Hbuild. intros Hk.
    exists nonce, (dict_set p0 "gas"%string (TInt gas)). do 5 eexists. split_and!; try done.
    + by rewrite dict_get_set_ne.
    + by rewrite dict_get_set_ne.
    + split.
      * destruct limit as [l|]; [|done]. destruct (l =? 0)%Z eqn:Hl; [done|]. exfalso. by destruct l.
      * intros Hl. right. exists gas, p0, w0, w1. split_and!; [|done..]. by destruct Hl as [->| ->].
Qed.

(** C26.  A transaction that is built has the sender's nonce, the latest or the
    pending one as asked, and the gas of an explicit limit, else the caller's
    own or the node's estimate, raised by the multiplier: never below what
    web3 built it with and never above three times as much.  An explicit
    limit is left as web3 built it. *)
Theorem build_contract_transaction_spec f sender payload limit multiplier pending w t callers w' :
  build_contract_transaction f sender payload limit multiplier pending w = (Ok (t, callers), w') ->
  is_checksum_address sender = true /\
  exists nonce p t0 w0 w1, get_transaction_count (F := F) (Power := Power) sender pending w = (Ok nonce, w0) /\
    dict_get p "nonce"%string = Some (TInt nonce) /\ dict_get p "from"%string = Some (TText sender) /\
    gas_source f payload limit p /\
    buildTransaction (Power := Power) f p w1 = (Done t0, w') /\
    (forall k, k <> "gas"%string -> dict_get t k = dict_get t0 k) /\
    match multiplier, limit with
    | Some m, (None | Some 0%Z) =>
        (1 <= m)%Q /\ (m <= 3)%Q /\ exists gas, dict_get t0 "gas"%string = Some (TInt gas) /\
          dict_get t "gas"%string = Some (TInt (overestimation gas m)) /\
          ((0 <= gas)%Z -> (gas <= overestimation gas m <= 3 * gas)%Z)
    | _, _ => t = t0
    end.
Proof.
  unfold build_contract_transaction, py_bind at 1 2, lift, checked_sender.
  destruct (is_checksum_address sender) eqn:Hs; [|done].
  destruct multiplier as [m|].
  - destruct (Qle_bool 1 m && Qle_bool m 3) eqn:Hm; [|done]. apply andb_true_iff in Hm as [H1 H3].
    apply Qle_bool_iff in H1, H3. intros Hb. split; [done|].
    apply built_ok in Hb as (nonce & p & cs & w0 & w1 & t0 & w2 & Hc & Hn & Hf & Hg & Ht & Hrest).
    destruct limit as [[|g|g]|]; try (injection Hrest as -> _ ->; do 5 eexists; by split_and!);
      (destruct (dict_get t0 "gas"%string) as [[gas|?|?]|] eqn:Hgas; [|done..]; injection Hrest as <- _ <-;
       do 5 eexists; split_and!; try done;
       [by intros k Hk; rewrite dict_get_set, decide_False
       |exists gas; split_and!; [done|by rewrite dict_get_set, decide_True|by intros; apply overestimation_bounds]]).
  - intros Hb. split; [done|].
    apply built_ok in Hb as (nonce & p & cs & w0 & w1 & t0 & w2 & Hc & Hn & Hf & Hg & Ht & [= -> _ ->]).
    do 5 eexists. by split_and!.
Qed.

(** ** What a transaction leaves alone *)

(** Everything but a broadcast keeps a property of the world. *)
Class NodeKeeps (I : W -> Prop) := {
  count_keeps a p : preserves I (get_transaction_count (F := F) (Power := Power) a p);
  estimate_keeps (f : F) t w : I w -> I (estimateGas (Power := Power) f t w).2;
  build_keeps (f : F) t w : I w -> I (buildTransaction (Power := Power) f t w).2;
  balance_keeps a : preserves I (get_balance (F := F) (Power := Power) a);
  price_keeps : preserves I (eth_gas_price (F := F) (Power := Power));
  sign_keeps (p : Power) t : preserves I (sign_transaction (F := F) p t);
  gas_keeps h : preserves I (get_transaction_gas (F := F) (Power := Power) h);
  sleep_keeps n w : I w -> I (sleep_ms n w);
  wait_keeps h t p : preserves I (waitForTransactionReceipt h t p);
  receipt_keeps h : preserves I (getTransactionReceipt h);
  number_keeps : preserves I eth_blockNumber;
}.

Section Keeping.
Context (I : W -> Prop) `{!NodeKeeps I}.

Lemma failed_keeps {A} e args sender : preserves I (_handle_failed_transaction (A := A) e args sender).
Proof. unfold _handle_failed_transaction. preserve_with ltac:(apply balance_keeps). Qed.

Lemma calling_keeps {A} (m : W -> call_outcome A * W) sender :
  (forall w, I w -> I (m w).2) -> preserves I (calling m sender).
Proof.
  intros Hm w Hw. unfold calling. specialize (Hm w Hw). destruct (m w) as [[a|e args] w1]; [done|].
  destruct (catches build_errors e); [|done]. by apply failed_keeps.
Qed.

Lemma build_payload_keeps sender payload limit pending : preserves I (build_payload sender payload limit pending).
Proof. unfold build_payload. preserve_with ltac:(apply count_keeps). Qed.

Lemma build_contract_keeps f sender payload limit m pending :
  preserves I (build_contract_transaction f sender payload limit m pending).
Proof.
  unfold build_contract_transaction.
  preserve_with ltac:(first [apply build_payload_keeps|apply calling_keeps; intros; first [by apply estimate_keeps|by apply build_keeps]]).
Qed.

Lemma waiting_keeps c h confirmations : preserves I (Clients.wait_for_receipt c h TIMEOUT confirmations).
Proof.
  apply Clients.wait_for_receipt_keeps; [apply sleep_keeps|apply wait_keeps|apply receipt_keeps|apply number_keeps].
Qed.

Lemma check_receipt_keeps h r : preserves I (check_receipt h r).
Proof. unfold check_receipt. preserve_with ltac:(apply gas_keeps). Qed.

Lemma after_broadcast_keeps c h confirmations :
  preserves I (r <- Clients.wait_for_receipt c h TIMEOUT confirmations ;; check_receipt h r).
Proof. apply preserves_bind; [apply waiting_keeps|intros; apply check_receipt_keeps]. Qed.

Lemma max_unit_price_keeps t : preserves I (max_unit_price t).
Proof. unfold max_unit_price. preserve_with ltac:(apply price_keeps). Qed.

(** Nor does a transaction touch what broadcasting keeps. *)
Lemma send_transaction_keeps c f p payload limit m confirmations fire replace :
  (forall raw, preserves I (send_raw_transaction (F := F) (Power := Power) raw)) ->
  preserves I (send_transaction c f p payload limit m confirmations fire replace).
Proof.
  intros Hraw. unfold send_transaction, sign_and_broadcast_transaction.
  preserve_with ltac:(first [apply build_contract_keeps|apply max_unit_price_keeps|apply price_keeps|apply sign_keeps
                            |apply Hraw|apply waiting_keeps|apply check_receipt_keeps]).
Qed.
End Keeping.

(** *** The steps of a call that returns *)

(** What building ends with: web3's transaction, perhaps with more gas. *)
Lemma build_contract_transaction_steps f sender payload limit m pending w t callers w' :
  build_contract_transaction f sender payload limit m pending w = (Ok (t, callers), w') ->
  exists p w0 t0, buildTransaction (Power := Power) f p w0 = (Done t0, w') /\
    (t = t0 \/ exists g, t = dict_set t0 "gas"%string (TInt g)) /\
    forall I, NodeKeeps I -> I w -> I w'.
Proof.
  intros Hb. assert (forall I, NodeKeeps I -> I w -> I w') as Hkeep.
  { intros I HI Hw. pose proof (build_contract_keeps I f sender payload limit m pending w Hw) as Hk. by rewrite Hb in Hk. }
  revert Hb. unfold build_contract_transaction. unfold py_bind at 1, lift at 1. destruct (checked_sender sender); [|done].
  unfold py_bind at 1, lift at 1. destruct (match m with Some _ => _ | None => _ end) as [[]|]; [|done].
  unfold py_bind at 1. destruct (build_payload sender payload limit pending w) as [[[p cs]|] w1]; [|done].
  match goal with |- py_bind ?priced _ _ = _ -> _ => unfold py_bind at 1; destruct (priced w1) as [[[p' cs']|] w2]; [|done] end.
  unfold py_bind at 1, calling at 1. destruct (buildTransaction f p' w2) as [[t0|e args] w3] eqn:Hbuild.
  2: { destruct (catches build_errors e); [|done]. unfold _handle_failed_transaction. intros Hf. exfalso. revert Hf.
       destruct args as [|[[code|] [msg|]|] args]; try done. destruct (code =? IPC_CODE)%Z; [|done]. unfold py_bind.
       destruct (get_balance sender w3) as [[b|] w4]; [|done]. by destruct (get_balance sender w4) as [[b'|] w5]. }
  intros Ht. assert (w3 = w' /\ (t = t0 \/ exists g, t = dict_set t0 "gas"%string (TInt g))) as [-> Hor].
  { revert Ht. destruct m as [m|]; [|intros [= -> _ ->]; auto].
    destruct limit as [[|g|g]|]; try (intros [= -> _ ->]; by auto);
      (destruct (dict_get t0 "gas"%string) as [[g'| |]|]; try done; intros [= <- _ ->]; eauto). }
  exists p', w2, t0. auto.
Qed.

Lemma send_transaction_steps c f p payload limit m confirmations fire replace w out callers w' :
  send_transaction c f p payload limit m confirmations fire replace w = (Ok (out, callers), w') ->
  exists payload' w0 w1 t0 t price w2 raw w3 h w4,
    buildTransaction (Power := Power) f payload' w0 = (Done t0, w1) /\
    (t = t0 \/ exists g, t = dict_set t0 "gas"%string (TInt g)) /\
    sign_transaction (F := F) p (dict_set (to_be_signed t) "gasPrice"%string (TInt price)) w2 = (Ok raw, w3) /\
    send_raw_transaction (F := F) (Power := Power) raw w3 = (Ok h, w4) /\
    forall I, NodeKeeps I -> (I w -> I w3) /\ (I w4 -> I w').
Proof.
  unfold send_transaction. destruct (fire && _); [done|]. unfold py_bind at 1.
  destruct (build_contract_transaction _ _ _ _ _ _ w) as [[[t cs]|] w1] eqn:Hb; [|done].
  apply build_contract_transaction_steps in Hb as (payload' & w0 & t0 & Hbuild & Hor & Hk1). cbn [fst snd].
  unfold sign_and_broadcast_transaction, py_bind at 1 2.
  destruct (max_unit_price t w1) as [[price|] w2] eqn:Hmax; [|done]. unfold py_bind at 1, lift at 1.
  destruct (announced_cost price t); [|done]. unfold py_bind at 1, lift at 1. destruct (printable t); [|done].
  unfold py_bind at 1. destruct (eth_gas_price w2) as [[gp|] w3] eqn:Hgp; [|done].
  unfold py_bind at 1. destruct (sign_transaction p _ w3) as [[raw|] w4] eqn:Hs; [|done].
  unfold py_bind at 1. destruct (send_raw_transaction raw w4) as [[h|] w5] eqn:Hraw; [|done]. intros Hrest.
  exists payload', w0, w1, t0, t, gp, w3, raw, w4, h, w5. split_and!; [done..|]. intros I HI. split.
  - intros Hw. pose proof (max_unit_price_keeps I t w1 (Hk1 I HI Hw)) as H2. rewrite Hmax in H2.
    pose proof (price_keeps w2 H2) as H3. rewrite Hgp in H3.
    pose proof (sign_keeps p (dict_set (to_be_signed t) "gasPrice"%string (TInt gp)) w3 H3) as H4. by rewrite Hs in H4.
  - intros Hw5. destruct fire; [by unfold py_ret in Hrest; simplify_eq/=|].
    pose proof (after_broadcast_keeps I c h confirmations w5 Hw5) as Hk.
    destruct ((r <- Clients.wait_for_receipt c h TIMEOUT confirmations ;; check_receipt h r) w5) as [[o|] w6];
      unfold py_ret in Hrest; by simplify_eq/=.
Qed.

(** ** What is broadcast *)

Section Broadcast.
Context `{!EthNodeLaws W F Power}.

Definition log_is (B : list bytes) (w : W) : Prop := broadcasts w = B.

#[export] Instance log_keeps B : NodeKeeps (log_is B).
Proof.
  split; unfold log_is.
  - intros. apply count_quiet.
  - intros ? ? ? <-. apply estimate_quiet.
  - intros ? ? ? <-. apply build_quiet.
  - intros. apply balance_quiet.
  - apply price_quiet.
  - intros. apply sign_quiet.
  - intros. apply gas_quiet.
  - intros ? ? <-. apply sleep_quiet.
  - intros ? ? ? ? <-. apply wait_quiet.
  - intros ? ? <-. apply receipt_quiet.
  - intros ? <-. apply number_quiet.
Qed.

Lemma dict_get_filter (P : string -> Prop) `{!forall k, Decision (P k)} (t : list (string * tx_value)) k :
  dict_get (filter (fun kv => P kv.1) t) k = if decide (P k) then dict_get t k else None.
Proof.
  induction t as [|[k' v] t IH]; [by case_decide|]. rewrite filter_cons. cbn [fst].
  destruct (decide (P k')) as [Hk'|Hk']; cbn [dict_get]; destruct (decide (k' = k)) as [->|Hne];
    rewrite ?IH, ?decide_True by done; repeat case_decide; try done; by naive_solver.
Qed.

(** What is signed of a transaction [t]: seven of its fields, and the price. *)
Definition signs (t : tx) (price : Z) (d : tx) : Prop :=
  forall k, dict_get d k =
    if decide (k = "gasPrice"%string) then Some (TInt price)
    else if decide (k ∈ ["value"; "nonce"; "from"; "gas"; "to"; "data"; "chainId"]%string) then dict_get t k
    else None.

Lemma to_be_signed_signs t price : signs t price (dict_set (to_be_signed t) "gasPrice"%string (TInt price)).
Proof.
  intros k. rewrite dict_get_set. destruct (decide (k = "gasPrice"%string)) as [->|Hne]; [done|].
  exact (dict_get_filter (fun k => k ∈ signed_keys) t k).
Qed.

(** From the world [w] on, in which [t] was built: [raw] is the signature of
    the account over the fields of [t] and the price that the node then
    reports, which may be asked for a second time. *)
Definition signing (p : Power) (t : tx) (w : W) (raw : bytes) (w' : W) : Prop :=
  exists w0 price w1 d, (w0 = w \/ exists q, eth_gas_price (F := F) (Power := Power) w = (Ok q, w0)) /\
    eth_gas_price (F := F) (Power := Power) w0 = (Ok price, w1) /\ signs t price d /\
    sign_transaction (F := F) p d w1 = (Ok raw, w').

(** What a call returns once the hash [h] is known in the world [w]. *)
Definition concluded (c : Clients.client_class) (confirmations : Z) (fire : bool) (h : bytes) (w : W)
    (out : sent) (w' : W) : Prop :=
  match out with
  | SentHash h' => fire = true /\ h' = h /\ w' = w
  | SentReceipt rc =>
      fire = false /\ rc.(status) <> Some 0%Z /\
      exists w1, Clients.wait_for_receipt c h 600000 confirmations w = (Ok rc, w1) /\
        (Web3Clock W -> (0 < confirmations)%Z -> Clients.confirmed c h 600000 confirmations rc w1) /\
        match rc.(status) with
        | Some _ => w' = w1
        | None => exists gas, get_transaction_gas (F := F) (Power := Power) h w1 = (Ok gas, w') /\ gas <> rc.(gasUsed)
        end
  end.

Lemma receipt_concluded c confirmations h w out w' :
  (r <- Clients.wait_for_receipt c h TIMEOUT confirmations ;; check_receipt h r) w = (Ok out, w') ->
  concluded c confirmations false h w out w'.
Proof.
  unfold py_bind at 1. destruct (Clients.wait_for_receipt c h TIMEOUT confirmations w) as [[rc|] w1] eqn:Hw; [|done].
  assert (Web3Clock W -> (0 < confirmations)%Z -> Clients.confirmed c h 600000 confirmations rc w1) as Hc
    by (intros Hclock Hpos; by apply Clients.wait_for_receipt_confirmed in Hw).
  unfold check_receipt. destruct (status rc) as [[| |]|] eqn:Hst; [done|intros [= <- <-]..|].
  1,2: split; [done|]; rewrite Hst; split; [done|]; by exists w1.
  unfold py_bind. destruct (get_transaction_gas h w1) as [[g|] w2] eqn:Hg; [|done].
  destruct (Z.eqb_spec g (gasUsed rc)); [done|]. intros [= <- <-].
  split; [done|]. rewrite Hst. split; [done|]. exists w1. split_and!; [done..|]. by exists g.
Qed.

Lemma sign_and_broadcast_run c p t confirmations fire w r w' :
  sign_and_broadcast_transaction c p t confirmations fire w = (r, w') ->
  match r with
  | Ok out => exists raw w1 h w2, signing p t w raw w1 /\
      send_raw_transaction (F := F) (Power := Power) raw w1 = (Ok h, w2) /\
      broadcasts w' = broadcasts w ++ [raw] /\ concluded c confirmations fire h w2 out w'
  | Raise _ => broadcasts w' = broadcasts w \/
      exists raw w1, signing p t w raw w1 /\ broadcasts w' = broadcasts w ++ [raw]
  end.
Proof.
  unfold sign_and_broadcast_transaction, py_bind at 1.
  pose proof (max_unit_price_keeps (log_is (broadcasts w)) t w eq_refl) as H1.
  destruct (max_unit_price t w) as [[price|e] w1] eqn:Hmax; cbn [snd] in H1; [|intros [= <- <-]; by left].
  assert (w1 = w \/ exists q, eth_gas_price (F := F) (Power := Power) w = (Ok q, w1)) as Hw1.
  { revert Hmax. unfold max_unit_price, py_bind, py_ret.
    destruct (dict_get t "maxFeePerGas"%string); [intros [= _ <-]; by left|].
    destruct (dict_get t "gasPrice"%string) as [[[| |]|[|]|[|]]|]; cbv beta;
      destruct (eth_gas_price w) as [[q|] w0]; intros; simplify_eq; first [by left|right; by eexists]. }
  unfold py_bind at 1, lift at 1. destruct (announced_cost price t); [|intros [= <- <-]; by left].
  unfold py_bind at 1, lift at 1. destruct (printable t); [|intros [= <- <-]; by left].
  unfold py_bind at 1. pose proof (price_quiet _ w1 H1) as H2.
  destruct (eth_gas_price w1) as [[gp|e] w2] eqn:Hgp; cbn [snd] in H2; [|intros [= <- <-]; by left].
  unfold py_bind at 1. pose proof (sign_quiet p (dict_set (to_be_signed t) "gasPrice"%string (TInt gp)) _ w2 H2) as H3.
  destruct (sign_transaction p _ w2) as [[raw|e] w3] eqn:Hsig; cbn [snd] in H3; [|intros [= <- <-]; by left].
  assert (signing p t w raw w3) as Hs by (exists w1, gp, w2; eexists; split_and!; [done..|apply to_be_signed_signs|done]).
  unfold py_bind at 1. pose proof (send_once (F := F) (Power := Power) raw w3) as H4. rewrite H3 in H4.
  destruct (send_raw_transaction raw w3) as [[h|e] w4] eqn:Hsend; [|intros [= <- <-]; naive_solver].
  destruct fire; [intros [= <- <-]; by exists raw, w3, h, w4|].
  intros Hr. pose proof (after_broadcast_keeps (log_is _) c h confirmations w4 H4) as H5. rewrite Hr in H5. cbn [snd] in H5.
  destruct r as [out|e]; [|right; by exists raw, w3].
  exists raw, w3, h, w4. split_and!; [done..|]. by apply receipt_concluded.
Qed.

(** The contract transaction, built for the account, of which [raw] is a
    signature. *)
Definition signed_contract (f : F) (p : Power) (payload : option tx) (limit : option Z) (m : option Q) (pending : bool)
    (w : W) (callers : option tx) (raw : bytes) (w' : W) : Prop :=
  exists t w1, build_contract_transaction f (account (F := F) p) payload limit m pending w = (Ok (t, callers), w1) /\
    signing p t w1 raw w'.

Lemma send_transaction_run c f p payload limit m confirmations fire replace w r w' :
  send_transaction c f p payload limit m confirmations fire replace w = (r, w') ->
  let pending := if fire then false else replace in
  match r with
  | Ok (out, callers) => exists raw w1 h w2, signed_contract f p payload limit m pending w callers raw w1 /\
      send_raw_transaction (F := F) (Power := Power) raw w1 = (Ok h, w2) /\
      broadcasts w' = broadcasts w ++ [raw] /\ concluded c confirmations fire h w2 out w'
  | Raise _ => broadcasts w' = broadcasts w \/
      exists callers raw w1, signed_contract f p payload limit m pending w callers raw w1 /\
        broadcasts w' = broadcasts w ++ [raw]
  end.
Proof.
  unfold send_transaction. destruct (fire && (0 <? confirmations)%Z); [intros [= <- <-]; by left|].
  unfold py_bind at 1. pose proof (build_contract_keeps (log_is (broadcasts w)) f (account (F := F) p) payload limit m
    (if fire then false else replace) w eq_refl) as H1.
  destruct (build_contract_transaction _ _ _ _ _ _ w) as [[[t callers]|e] w1] eqn:Hbuild; cbn [snd] in H1;
    [|intros [= <- <-]; by left].
  unfold py_bind. destruct (sign_and_broadcast_transaction _ _ _ _ _ w1) as [res w2] eqn:Hsb. cbn [fst] in Hsb.
  apply sign_and_broadcast_run in Hsb. unfold log_is in H1. rewrite H1 in Hsb. destruct res as [out|e].
  - intros [= <- <-]. destruct Hsb as (raw & w3 & h & w4 & Hs & Hraw & Hb & Hout).
    exists raw, w3, h, w4. split_and!; [by exists t, w1|done..].
  - intros [= <- <-]. destruct Hsb as [Hb|(raw & w3 & Hs & Hb)]; [by left|]. right. exists callers, raw, w3.
    split; [by exists t, w1|done].
Qed.

(** C17.  A transaction is broadcast at most once, and exactly once when the call
    returns.  What is broadcast is the account's signature over the fields
    value, nonce, from, gas, to, data and chain ID, as far as it has them, of
    the transaction that was built for the contract function - with the
    pending nonce only to replace a transaction, and never with
    fire_and_forget - and over the gas price that the node then reports: the
    price that the gas strategy or the cap put into the transaction is
    dropped.  With fire_and_forget the hash that the node answers comes back
    at once; otherwise the receipt that waiting for that hash gave, whose
    status is not a failure (without a status, it has not used all its gas),
    and which has the confirmations asked for.  Confirmations together with
    fire_and_forget are refused before anything is done. *)
Theorem send_transaction_once c f p payload limit m confirmations fire replace w r w' :
  send_transaction c f p payload limit m confirmations fire replace w = (r, w') ->
  let pending := if fire then false else replace in
  (fire = true -> (0 < confirmations)%Z -> r = Raise ValueError /\ w' = w) /\
  match r with
  | Ok (out, callers) => exists raw w1 h w2, signed_contract f p payload limit m pending w callers raw w1 /\
      send_raw_transaction (F := F) (Power := Power) raw w1 = (Ok h, w2) /\
      broadcasts w' = broadcasts w ++ [raw] /\ concluded c confirmations fire h w2 out w'
  | Raise _ => broadcasts w' = broadcasts w \/
      exists callers raw w1, signed_contract f p payload limit m pending w callers raw w1 /\
        broadcasts w' = broadcasts w ++ [raw]
  end.
Proof.
  intros Hsend pending. split; [|by apply send_transaction_run in Hsend].
  intros -> Hpos. revert Hsend. unfold send_transaction. rewrite (proj2 (Z.ltb_lt _ _) Hpos). by intros [= <- <-].
Qed.
End Broadcast.

End Transactions.
End Transactions.

(** ** A node that mines after five seconds *)

Module TransactionsDemo.
Import Transactions.

(** The world: the time and what was broadcast. *)
Definition demo_world : Type := Z * list bytes.

#[export] Instance demo_eth : Web3Eth demo_world := {
  time_time w := w.1;
  sleep_ms n w := ((w.1 + Z.max 0 n)%Z, w.2);
  waitForTransactionReceipt h t p w := (Ok (Receipt h (to_bytes "block") 100 (Some 1%Z) 50000), w);
  getTransactionReceipt h w := (Ok (Receipt h (to_bytes "block") 100 (Some 1%Z) 50000), w);
  eth_blockNumber w := (Ok (99 + w.1 / 5000)%Z, w);
  eth_chainId w := (Ok 97%Z, w);
  personal_unlock a p d w := (Ok true, w);
  personal_lock a w := (Ok true, w);
  tester_accounts w := (Ok [], w);
}.

(** The contract function either works, or its call is refused by the node. *)
#[export] Instance demo_node : EthNode demo_world bool bytes := {
  get_transaction_count a pending w := (Ok (if pending : bool then 8 else 7)%Z, w);
  estimateGas f t w := (if f : bool then Done 100001%Z else Failed ValueError [RpcError (Some (-32000)%Z) (Some (to_bytes "reverted"))], w);
  buildTransaction f t w :=
    (Done (dict_set (dict_set t "gasPrice" (TInt 30000000000)) "to" (TText (to_bytes "0xContract")))%string, w);
  get_balance a w := (Ok 0%Z, w);
  eth_gas_price w := (Ok 90000000000%Z, w);
  check_wei v := if (0 <=? v)%Z then Ok tt else Raise ValueError;
  account p := p;
  sign_transaction p t w := (Ok (p ++ flat_map (fun kv => to_bytes kv.1) t), w);
  send_raw_transaction raw w := (Ok (to_bytes "hash"), (w.1, w.2 ++ [raw]));
  get_transaction_gas h w := (Ok 0%Z, w);
}.

#[export] Instance demo_clock : Web3Clock demo_world.
Proof. split; intros; cbn; lia. Qed.

#[export] Instance demo_node_laws : EthNodeLaws demo_world bool bytes.
Proof. refine {| broadcasts w := w.2 |}; first [by intros|by intros ? ? ? ? ?|by intros ? ? ?|by intros ? ? ? ?]. Defined.

Definition alice : bytes := to_bytes "0xAlice".
Definition demo_checksum (a : bytes) : bool := bool_decide (a = alice).

Lemma build_contract_transaction_spec_witness :
  exists t, build_contract_transaction demo_checksum true alice None None (Some (115 # 100)) false ((0%Z, []) : demo_world)
      = (Ok (t, None), (0%Z, [])) /\
    dict_get t "gas"%string = Some (TInt 115002) /\ demo_checksum alice = true.
Proof.
  eexists. split; [vm_compute; reflexivity|]. split; [vm_compute; reflexivity|].
  eapply (build_contract_transaction_spec demo_checksum true alice None None (Some (115 # 100)) false ((0%Z, []) : demo_world)).
  vm_compute. reflexivity.
Defined.

Lemma refused_call_fails :
  (build_contract_transaction demo_checksum false alice None None None false ((0%Z, []) : demo_world)).1 = Raise TransactionFailed.
Proof. by vm_compute. Qed.

Definition demo_raw : bytes := Eval vm_compute in
  alice ++ flat_map to_bytes ["nonce"; "from"; "gas"; "to"; "gasPrice"]%string.

Lemma send_transaction_once_witness :
  (send_transaction demo_checksum Clients.GethClient true alice None None (Some (115 # 100)) 3 false true
     ((0%Z, []) : demo_world)).2 = (20000%Z, [demo_raw]) /\
  exists raw w1, signed_contract (Power := bytes) demo_checksum true alice None None (Some (115 # 100)) true
      ((0%Z, []) : demo_world) None raw w1 /\ [demo_raw] = [] ++ [raw].
Proof.
  split; [by vm_compute|].
  destruct (send_transaction_once demo_checksum Clients.GethClient true alice None None (Some (115 # 100)) 3 false true
    ((0%Z, []) : demo_world)
    (Ok (SentReceipt (Receipt (to_bytes "hash") (to_bytes "block") 100 (Some 1%Z) 50000), None)) (20000%Z, [demo_raw]))
    as [_ (raw & w1 & h & w2 & Hs & _ & Hb & _)]; [by vm_compute|].
  exists raw, w1. split; [exact Hs|exact Hb].
Defined.

End TransactionsDemo.
