(* ===== verification/Interfaces.v ===== *)
(** * nulink/blockchain/eth/interfaces.py: connections, contracts, factory

    The lookup of contracts in the registry and behind their proxies, the
    connection of an interface to its provider with its gas strategy, and the
    factory that shares interfaces by the URI of their provider.  web3's
    providers and contract calls are the class [Web3Providers]. *)

From Stdlib Require Import Ascii.
From S2P Require Import Prelude Text Json Registry Clients Gas Datastore Networking.
#[local] Open Scope nat_scope.

(** ** [get_contract_by_name] *)

(** [proxy_contract.functions.target().call()] of the contract with this ABI
    at this address. *)
Class ProxyCalls (W : Type) := { proxy_target : json -> json -> PyM W bytes }.

Module Contracts.
Import Registry.Registry.

(** [w3.eth.contract(abi, address, version)]. *)
Record contract := Contract { c_abi : json; c_address : json; c_version : json }.

(** [target_address == proxy_live_target_address]: the chain answers with a
    text. *)
Definition is_live (target_address : json) (live : bytes) : bool :=
  match target_address with JStr a => bool_decide (a = live) | _ => false end.

(** How an enrollment is chosen: ["latest"], ["earliest"] or another text, or a
    number. *)
Inductive version_index := VersionName (s : bytes) | VersionNumber (z : Z).

(** [__get_enrollment_version_index]. *)
Definition get_enrollment_version_index (v : version_index) (enrollments : nat) : result Z :=
  let numbered (z : Z) := if (Z.of_nat enrollments - 1 <? z)%Z then Raise ValueError else Ok z in
  match v with
  | VersionName s =>
      if decide (s = to_bytes "latest") then Ok (-1)%Z
      else if decide (s = to_bytes "earliest") then Ok 0%Z
      else match Datastore.py_int s with Some z => numbered z | None => Raise ValueError end
  | VersionNumber z => numbered z
  end.

(** [l[z]] with Python's negative indices. *)
Definition py_index {A} (l : list A) (z : Z) : result A :=
  let i := if (z <? 0)%Z then (Z.of_nat (length l) + z)%Z else z in
  if (i <? 0)%Z then Raise IndexError
  else match l !! Z.to_nat i with Some x => Ok x | None => Raise IndexError end.

(** The list of a search by name. *)
Definition records_of (f : found) : list json := match f with Records l => l | Record1 r => [r] end.

Section Contracts.
Context {W : Type} `{!Digest, !RegistryStore W, !ProxyCalls W}.

(** The targets of one proxy: the triplets of the inner loop. *)
Fixpoint targets_of (use_proxy_address : bool) (pinned : option (json * json)) (proxy_address : json) (live : bytes)
    (records : list json) : result (list (json * json * json)) :=
  match records with
  | [] => Ok []
  | record :: records' =>
      let? fields := unpack record in
      let '(_, target_version, target_address, target_abi) := fields in
      let? rest := targets_of use_proxy_address pinned proxy_address live records' in
      Ok (if is_live target_address live then
            let '(version, abi) := default (target_version, target_abi) pinned in
            (if use_proxy_address then proxy_address else target_address, version, abi) :: rest
          else rest)
  end.

(** The loop over the proxies. *)
Fixpoint proxied (use_proxy_address : bool) (pinned : option (json * json)) (proxies all_records : list json)
    : PyM W (list (json * json * json)) :=
  match proxies with
  | [] => py_ret []
  | proxy :: proxies' =>
      fields <- lift (unpack proxy) ;;
      let '(_, _, proxy_address, proxy_abi) := fields in
      live <- proxy_target proxy_abi proxy_address ;;
      found <- lift (targets_of use_proxy_address pinned proxy_address live all_records) ;;
      rest <- proxied use_proxy_address pinned proxies' all_records ;;
      py_ret (found ++ rest)
  end.

(** [target_contract_records[0][1]] and [[0][3]]. *)
Definition pinned_record (records : list json) : result (json * json) :=
  let? first := py_index records 0 in
  let? version := index first 1 in
  let? abi := index first 3 in
  Ok (version, abi).

Definition get_contract_by_name (contract_name contract_version : option bytes) (enrollment_version : option version_index)
    (proxy_name : option bytes) (use_proxy_address : bool) : PyM W contract :=
  target <- search contract_name contract_version None ;;
  let target_contract_records := records_of target in
  if bool_decide (target_contract_records = []) then raise InterfaceUnknownContract
  else if truthy contract_version && negb (length target_contract_records =? 1) then raise InterfaceError
  else if truthy proxy_name then
    all <- (if truthy contract_version then search contract_name None None else py_ret target) ;;
    proxy_records <- search proxy_name None None ;;
    pinned <- lift (if truthy contract_version
                    then let? p := pinned_record target_contract_records in Ok (Some p) else Ok None) ;;
    results <- proxied use_proxy_address pinned (records_of proxy_records) (records_of all) ;;
    match results with
    | [] => raise InterfaceUnknownContract
    | [(selected_address, selected_version, selected_abi)] =>
        py_ret (Contract selected_abi selected_address selected_version)
    | _ => raise InterfaceError
    end
  else
    chosen <- lift (if length target_contract_records =? 1 then Ok (-1)%Z
                    else match enrollment_version with
                         | None => Raise InterfaceError
                         | Some v => get_enrollment_version_index v (length target_contract_records)
                         end) ;;
    fields <- lift (let? record := py_index target_contract_records chosen in unpack record) ;;
    let '(_, selected_version, selected_address, selected_abi) := fields in
    py_ret (Contract selected_abi selected_address selected_version).

(** ** The specification *)

Definition contract_of (r : record) : contract := Contract r.(r_abi) (JStr r.(r_address)) (JStr r.(r_version)).

(** The pairs of a proxy and the record it targets. *)
Definition proxy_pairs (live : record -> bytes) (proxies all : list record) : list (record * record) :=
  flat_map (fun p => (fun t => (p, t)) <$> filter (fun t => t.(r_address) = live p) all) proxies.

(** The same where a proxy may fail to tell its target; the first failure
    counts. *)
Fixpoint targets_asked (live : record -> result bytes) (proxies : list record) : result unit :=
  match proxies with
  | [] => Ok tt
  | p :: proxies' => let? a := live p in targets_asked live proxies'
  end.

Definition told (live : record -> result bytes) (p : record) : bytes :=
  match live p with Ok a => a | Raise _ => [] end.

Definition answered_pairs (live : record -> result bytes) (proxies all : list record) : result (list (record * record)) :=
  let? _ := targets_asked live proxies in Ok (proxy_pairs (told live) proxies all).

(** What the chain answers for a proxy in the world [w]. *)
Definition live_target (w : W) (p : record) : result bytes := (proxy_target p.(r_abi) (JStr p.(r_address)) w).1.

(** Asking changes nothing. *)
Definition quiet_target (w : W) (p : record) : Prop := (proxy_target p.(r_abi) (JStr p.(r_address)) w).2 = w.

(** A contract behind its proxy: the address of the one or the other, with the
    version and ABI of the record asked for. *)
Definition proxied_contract (use_proxy_address : bool) (pinned : option record) (pt : record * record) : contract :=
  let r := default pt.2 pinned in
  Contract r.(r_abi) (JStr (if use_proxy_address then pt.1.(r_address) else pt.2.(r_address))) (JStr r.(r_version)).

Definition triplet_of (use_proxy_address : bool) (pinned : option record) (pt : record * record) : json * json * json :=
  let c := proxied_contract use_proxy_address pinned pt in (c.(c_address), c.(c_version), c.(c_abi)).

Definition pin (pinned : option record) : option (json * json) :=
  (fun r => (JStr r.(r_version), r.(r_abi))) <$> pinned.

Lemma targets_of_records use_proxy_address pinned p live all :
  targets_of use_proxy_address (pin pinned) (JStr p.(r_address)) live (record_json <$> all) =
  Ok (triplet_of use_proxy_address pinned <$> ((fun t => (p, t)) <$> filter (fun t => t.(r_address) = live) all)).
Proof.
  induction all as [|t all IH]; [done|]. cbn [fmap list_fmap targets_of]. unfold unpack at 1. cbn [record_json iter_json rbind].
  change (list_fmap record json record_json all) with (record_json <$> all). rewrite IH. cbn [rbind is_live].
  rewrite filter_cons. destruct (decide (r_address t = live)) as [Hl|Hl].
  - rewrite bool_decide_eq_true_2 by done. unfold pin, triplet_of, proxied_contract. by destruct pinned, use_proxy_address.
  - by rewrite bool_decide_eq_false_2.
Qed.

Lemma proxied_records use_proxy_address pinned proxies all w :
  (forall p, p ∈ proxies -> quiet_target w p) ->
  proxied use_proxy_address (pin pinned) (record_json <$> proxies) (record_json <$> all) w =
  (let? pairs := answered_pairs (live_target w) proxies all in Ok (triplet_of use_proxy_address pinned <$> pairs), w).
Proof.
  unfold answered_pairs. induction proxies as [|p proxies IH]; intros Hquiet; [done|]. cbn [fmap list_fmap proxied].
  unfold py_bind at 1, lift at 1, unpack at 1. cbn [record_json iter_json rbind].
  unfold py_bind at 1. pose proof (Hquiet p ltac:(left)) as Hp. unfold quiet_target in Hp.
  cbn [targets_asked]. unfold live_target at 1.
  assert (told (live_target w) p = match (proxy_target p.(r_abi) (JStr p.(r_address)) w).1 with Ok a => a | Raise _ => [] end)
    as Htold by done.
  destruct (proxy_target (r_abi p) (JStr (r_address p)) w) as [[a|e] w'] eqn:Hpt; cbn [fst snd] in *; subst w'; [|done].
  cbn [rbind]. unfold py_bind at 1, lift at 1.
  change (list_fmap record json record_json all) with (record_json <$> all). rewrite targets_of_records.
  unfold py_bind. change (list_fmap record json record_json proxies) with (record_json <$> proxies).
  rewrite IH by (intros q Hq; apply Hquiet; by right).
  destruct (targets_asked (live_target w) proxies) as [[]|e]; [|done]. cbn [rbind py_ret proxy_pairs flat_map].
  rewrite Htold. unfold py_ret. by rewrite fmap_app.
Qed.

(** An enrollment by its number: from the first one on, from the last one
    back for a negative number. *)
Definition nth_enrollment (l : list record) (z : Z) : result record :=
  if decide (0 <= z)%Z
  then match l !! Z.to_nat z with Some r => Ok r | None => Raise ValueError end
  else match reverse l !! Z.to_nat (- z - 1) with Some r => Ok r | None => Raise IndexError end.

Definition one_of (r : option record) : result record := match r with Some r => Ok r | None => Raise IndexError end.

Definition chosen_enrollment (l : list record) (v : version_index) : result record :=
  match v with
  | VersionNumber z => nth_enrollment l z
  | VersionName s =>
      if decide (s = to_bytes "latest") then one_of (last l)
      else if decide (s = to_bytes "earliest") then one_of (head l)
      else match Datastore.py_int s with Some z => nth_enrollment l z | None => Raise ValueError end
  end.

(** What the lookup amounts to on an enrollment log.  Without a proxy name:
    the only record of the name and version, or the enrollment that is asked
    for among several of the name.  With one: the contract whose record a
    proxy of that name points to at the moment, at the address of the proxy
    or its own, with the version asked for when one was. *)
Definition lookup_spec (rs : list record) (live : record -> result bytes) (name : bytes) (contract_version : option bytes)
    (enrollment_version : option version_index) (proxy_name : option bytes) (use_proxy_address : bool) : result contract :=
  match filter (by_name name contract_version) rs with
  | [] => Raise UnknownContract
  | (first :: more) as l =>
      if truthy contract_version && bool_decide (more <> []) then Raise InterfaceError
      else match proxy_name with
           | Some ((_ :: _) as px) =>
               match filter (by_name px None) rs with
               | [] => Raise UnknownContract
               | proxies =>
                   let all := if truthy contract_version then filter (by_name name None) rs else l in
                   let pinned := if truthy contract_version then Some first else None in
                   let? pairs := answered_pairs live proxies all in
                   match pairs with
                   | [] => Raise InterfaceUnknownContract
                   | [pt] => Ok (proxied_contract use_proxy_address pinned pt)
                   | _ => Raise InterfaceError
                   end
               end
           | _ =>
               match more, enrollment_version with
               | [], _ => Ok (contract_of first)
               | _, None => Raise InterfaceError
               | _, Some v => let? r := chosen_enrollment l v in Ok (contract_of r)
               end
           end
  end.

(** The index and the subscript of the code. *)
Lemma py_index_last {A} (l : list A) : py_index l (-1) = match last l with Some x => Ok x | None => Raise IndexError end.
Proof.
  unfold py_index. cbn [Z.ltb Z.compare]. rewrite last_lookup. destruct l as [|x l]; [done|].
  cbn [length Nat.pred]. replace (Z.of_nat (S (length l)) + -1)%Z with (Z.of_nat (length l)) by lia.
  destruct (Z.ltb_spec (Z.of_nat (length l)) 0); [lia|]. by rewrite Nat2Z.id.
Qed.

Lemma numbered_enrollment (l : list record) z :
  (let? i := (if (Z.of_nat (length l) - 1 <? z)%Z then Raise ValueError else Ok z) in py_index l i) = nth_enrollment l z.
Proof.
  unfold nth_enrollment. destruct (Z.ltb_spec (Z.of_nat (length l) - 1) z); cbn [rbind].
  - rewrite decide_True by lia. by rewrite lookup_ge_None_2 by lia.
  - unfold py_index. destruct (Z.ltb_spec z 0) as [Hz|Hz].
    + rewrite decide_False by lia. destruct (Z.ltb_spec (Z.of_nat (length l) + z) 0).
      * by rewrite lookup_ge_None_2 by (rewrite length_reverse; lia).
      * rewrite reverse_lookup by lia. by replace (length l - S (Z.to_nat (- z - 1))) with (Z.to_nat (Z.of_nat (length l) + z)) by lia.
    + destruct (Z.ltb_spec z 0); [lia|]. rewrite decide_True by lia.
      destruct (lookup_lt_is_Some_2 l (Z.to_nat z) ltac:(lia)) as [r Hr]. by rewrite Hr.
Qed.

Lemma chosen_by_index (l : list record) v :
  (let? i := get_enrollment_version_index v (length l) in py_index l i) = chosen_enrollment l v.
Proof.
  unfold get_enrollment_version_index, chosen_enrollment, one_of. destruct v as [t|z]; [|apply numbered_enrollment].
  case_decide; [apply py_index_last|]. case_decide; [by destruct l|].
  destruct (Datastore.py_int t) as [z|]; [apply numbered_enrollment|done].
Qed.

Lemma py_index_fmap {A B} (f : A -> B) l z :
  py_index (f <$> l) z = let? x := py_index l z in Ok (f x).
Proof.
  unfold py_index. rewrite length_fmap. set (i := if (z <? 0)%Z then _ else _).
  destruct (i <? 0)%Z; [done|]. rewrite list_lookup_fmap. by destruct (l !! Z.to_nat i).
Qed.

Lemma search_records rs name v w l :
  name <> [] -> holds rs w -> filter (by_name name v) rs = l -> l <> [] ->
  search (Some name) v None w = (Ok (Records (record_json <$> l)), w).
Proof. intros Hn Hh <- Hl. rewrite search_by_name with (rs := rs) by done. by destruct (filter _ rs). Qed.

(** The part without one. *)
Lemma plain_lookup (first : record) more ev (w : W) :
  (chosen <- lift (if length (record_json <$> first :: more) =? 1 then Ok (-1)%Z
                   else match ev with
                        | None => Raise InterfaceError
                        | Some v => get_enrollment_version_index v (length (record_json <$> first :: more))
                        end) ;;
   fields <- lift (let? record := py_index (record_json <$> first :: more) chosen in unpack record) ;;
   let '(_, selected_version, selected_address, selected_abi) := fields in
   py_ret (Contract selected_abi selected_address selected_version)) w =
  (match more, ev with
   | [], _ => Ok (contract_of first)
   | _, None => Raise InterfaceError
   | _, Some v => let? r := chosen_enrollment (first :: more) v in Ok (contract_of r)
   end, w).
Proof.
  rewrite length_fmap. destruct more as [|r more]; [done|]. change (length (first :: r :: more) =? 1) with false. cbv iota.
  destruct ev as [v|]; [|done]. rewrite <- chosen_by_index. unfold py_bind, lift.
  destruct (get_enrollment_version_index v _) as [i|]; [|done]. cbn [rbind]. rewrite py_index_fmap.
  by destruct (py_index (first :: r :: more) i).
Qed.

(** The part behind a proxy. *)
Lemma proxied_lookup rs use_proxy pinned px all w :
  px <> [] -> holds rs w -> (forall p, p ∈ rs -> p.(r_name) = px -> quiet_target w p) ->
  (proxy_records <- search (Some px) None None ;;
   results <- proxied use_proxy (pin pinned) (records_of proxy_records) (record_json <$> all) ;;
   match results with
   | [] => raise InterfaceUnknownContract
   | [(selected_address, selected_version, selected_abi)] =>
       py_ret (Contract selected_abi selected_address selected_version)
   | _ => raise InterfaceError
   end) w =
  (match filter (by_name px None) rs with
   | [] => Raise UnknownContract
   | proxies =>
       let? pairs := answered_pairs (live_target w) proxies all in
       match pairs with
       | [] => Raise InterfaceUnknownContract
       | [pt] => Ok (proxied_contract use_proxy pinned pt)
       | _ => Raise InterfaceError
       end
   end, w).
Proof.
  intros Hpx Hh Hlive. unfold py_bind at 1. rewrite search_by_name with (rs := rs) by done.
  destruct (filter (by_name px None) rs) as [|p ps] eqn:Hps; [done|]. cbn [records_of]. unfold py_bind.
  rewrite proxied_records
    by (intros q Hq; rewrite <- Hps in Hq; apply list_elem_of_filter in Hq as [[Hname _] ?]; by apply Hlive).
  destruct (answered_pairs (live_target w) (p :: ps) all) as [[|pt [|pt' pts]]|e]; cbn [rbind]; [done| |done|done].
  by destruct use_proxy, pt, pinned.
Qed.

Lemma get_contract_by_name_lookup rs name v ev px use_proxy w :
  name <> [] -> holds rs w -> (forall p, p ∈ rs -> px = Some p.(r_name) -> quiet_target w p) ->
  get_contract_by_name (Some name) v ev px use_proxy w = (lookup_spec rs (live_target w) name v ev px use_proxy, w).
Proof.
  intros Hn Hh Hlive. unfold get_contract_by_name, lookup_spec, py_bind at 1.
  rewrite search_by_name with (rs := rs) by done.
  destruct (filter (by_name name v) rs) as [|first more] eqn:Hl; [done|]. cbn [records_of].
  rewrite bool_decide_eq_false_2 by done.
  replace (negb (length (record_json <$> first :: more) =? 1)) with (bool_decide (more <> []))
    by (rewrite length_fmap; by destruct more).
  destruct (truthy v && bool_decide (more <> [])); [done|].
  destruct px as [[|c px]|]; cbn [truthy].
  - by apply plain_lookup.
  - destruct (truthy v) eqn:Hv.
    + unfold py_bind at 1. erewrite search_records; [|done|done|reflexivity|].
      * cbn [records_of]. rewrite <- (proxied_lookup rs use_proxy (Some first)) by (first [done|intros; apply Hlive; congruence]). reflexivity.
      * assert (first ∈ filter (by_name name None) rs) as Hin.
        { assert (first ∈ filter (by_name name v) rs) as [[Hname _] Hin]%list_elem_of_filter by (rewrite Hl; left).
          apply list_elem_of_filter. split; [|done]. split; [done|by left]. }
        intros Hnil. rewrite Hnil in Hin. by apply elem_of_nil in Hin.
    + unfold py_bind at 1, py_ret at 1. cbn [records_of].
      rewrite <- (proxied_lookup rs use_proxy None) by (first [done|intros; apply Hlive; congruence]). reflexivity.
  - by apply plain_lookup.
Qed.

(** C20.  The lookup of a contract in a registry that holds a log of enrollments is
    its specification, as long as asking an enrolled proxy of the given name
    for its target changes nothing; whether it answers or raises is left open.
    The records are those of the name and version; of several of them, without
    a proxy name, the last or the first one or the one of a number, counted
    from the first or, if negative, from the last one back, is taken; with a
    proxy name, the contract is the one whose record a proxy of that name
    points to, as the chain answers, and a proxy that cannot be asked, none,
    or more than one such record raises.  The registry is unchanged. *)
Theorem get_contract_by_name_refines rs name v ev px use_proxy w :
  name <> [] -> holds rs w ->
  (forall p, p ∈ rs -> px = Some p.(r_name) -> (proxy_target p.(r_abi) (JStr p.(r_address)) w).2 = w) ->
  get_contract_by_name (Some name) v ev px use_proxy w =
  (lookup_spec rs (fun p => (proxy_target p.(r_abi) (JStr p.(r_address)) w).1) name v ev px use_proxy, w).
Proof. intros Hn Hh Hlive. by apply get_contract_by_name_lookup. Qed.

End Contracts.
End Contracts.

(** ** Connecting *)

(** The providers of providers.py. *)
Inductive provider_kind := PyEVM | Mock | Auto | IPC | Websocket | HTTP.

(** Providers are told apart by a number. *)
Class Web3Providers (W : Type) := {
  make_provider : provider_kind -> bytes -> PyM W nat;
  is_file_uri : bytes -> W -> bool;
  (* [Web3(provider).clientVersion] *)
  client_version : nat -> PyM W bytes;
  (* [getattr(provider, 'endpoint_uri', '')] *)
  endpoint_uri : nat -> bytes;
  provider_chain_id : nat -> PyM W Z;
  provider_is_connected : nat -> PyM W bool;
}.

Module Connection.

(** [urlparse(uri)]: the scheme, the location and the path, without the
    parameters that a path may end in. *)
Definition is_letter (c : ascii) : bool :=
  let n := N_of_ascii c in ((65 <=? n) && (n <=? 90) || (97 <=? n) && (n <=? 122))%N.
Definition is_scheme_char (c : ascii) : bool :=
  is_letter c || Datastore.is_digit c || bool_decide (c ∈ ["+"; "-"; "."]%char).

Definition scheme_and_rest (uri : bytes) : bytes * bytes :=
  match Protocols.partition ":" uri with
  | (c :: scheme, true, rest) =>
      if is_letter c && forallb is_scheme_char scheme then (lower (c :: scheme), rest) else ([], uri)
  | _ => ([], uri)
  end.

(** Up to the query or the fragment. *)
Fixpoint url_path (s : bytes) : bytes :=
  match s with
  | [] => []
  | c :: s' => if decide (c ∈ ["?"; "#"]%char) then [] else c :: url_path s'
  end.

Record split_url := SplitUrl { scheme : bytes; netloc : bytes; urlpath : bytes }.

Definition urlparse (uri : bytes) : result split_url :=
  let '(scheme, rest) := scheme_and_rest (filter (fun c => ~ Protocols.unsafe_char c) uri) in
  match rest with
  | "/"%char :: "/"%char :: r =>
      let? netloc := Protocols.urlsplit_netloc r in
      Ok (SplitUrl scheme netloc (url_path (drop (length netloc) r)))
  | _ => Ok (SplitUrl scheme [] (url_path rest))
  end.

(** The table that [_attach_eth_provider] looks the scheme up in. *)
Definition tester_providers : list (bytes * provider_kind) := [(to_bytes "pyevm", PyEVM); (to_bytes "mock", Mock)].
Definition providers : list (bytes * provider_kind) :=
  [(to_bytes "auto", Auto); (to_bytes "ipc", IPC); (to_bytes "file", IPC); (to_bytes "ws", Websocket);
   (to_bytes "wss", Websocket); (to_bytes "http", HTTP); (to_bytes "https", HTTP)].

Section Connection.
Context {W : Type} `{!Web3Providers W, !Gas.PriceSource W}.

(** A [BlockchainInterface]; [None] for a URI, provider or client is
    NO_BLOCKCHAIN_CONNECTION, which the configuration makes false. *)
Record interface := Interface {
  eth_provider_uri : option bytes;
  poa : option bool;
  gas_strategy : string;
  max_gas_price : option Z;
  eth_provider : option nat;
  eth_client : option Clients.client;
  middlewares : list string;
  price_strategy : option (Gas.strategy (W := W));
}.

Definition with_provider (p : option nat) (u : option bytes) (i : interface) : interface :=
  Interface u i.(poa) i.(gas_strategy) i.(max_gas_price) p i.(eth_client) i.(middlewares) i.(price_strategy).
Definition with_client (c : Clients.client) (i : interface) : interface :=
  Interface i.(eth_provider_uri) i.(poa) i.(gas_strategy) i.(max_gas_price) i.(eth_provider) (Some c)
    i.(middlewares) i.(price_strategy).
Definition with_poa (b : bool) (i : interface) : interface :=
  Interface i.(eth_provider_uri) (Some b) i.(gas_strategy) i.(max_gas_price) i.(eth_provider) i.(eth_client)
    i.(middlewares) i.(price_strategy).
Definition with_middlewares (l : list string) (i : interface) : interface :=
  Interface i.(eth_provider_uri) i.(poa) i.(gas_strategy) i.(max_gas_price) i.(eth_provider) i.(eth_client)
    l i.(price_strategy).
Definition with_strategy (s : Gas.strategy) (i : interface) : interface :=
  Interface i.(eth_provider_uri) i.(poa) i.(gas_strategy) i.(max_gas_price) i.(eth_provider) i.(eth_client)
    i.(middlewares) (Some s).

Definition DEFAULT_GAS_STRATEGY : string := "fast".

(** [__init__]. *)
Definition new_interface (poa : option bool) (eth_provider_uri : option bytes) (eth_provider : option nat)
    (gas_strategy : option string) (max_gas_price : option Z) : result interface :=
  match gas_strategy with
  | Some g => if decide (g ∈ ["slow"; "medium"; "fast"; "free"]%string)
              then Ok (Interface eth_provider_uri poa g max_gas_price eth_provider None [] None)
              else Raise ValueError
  | None => Ok (Interface eth_provider_uri poa DEFAULT_GAS_STRATEGY max_gas_price eth_provider None [] None)
  end.

Definition IM (A : Type) : Type := PyM (interface * W) A.
Definition on_world {A} (m : PyM W A) : IM A := fun s => let '(r, w) := m s.2 in (r, (s.1, w)).
Definition on_self (f : interface -> interface) : IM unit := modify (fun s => (f s.1, s.2)).
Definition self {A} (f : interface -> A) : IM A := gets (fun s => f s.1).

(** [NamedElementOnion.add] and [inject(layer=0)] of web3, for elements
    without a name: one that is there already is refused. *)
Definition add_middleware (m : string) : IM unit :=
  l <- self middlewares ;;
  if decide (m ∈ l) then raise ValueError else on_self (with_middlewares (l ++ [m])).
Definition inject_middleware (m : string) : IM unit :=
  l <- self middlewares ;;
  if decide (m ∈ l) then raise ValueError else on_self (with_middlewares (m :: l)).

(** [_attach_eth_provider] of the interface's own provider and URI. *)
Definition provider_of_uri (uri : bytes) : PyM W nat :=
  uri_breakdown <- lift (urlparse uri) ;;
  let '(table, provider_scheme) :=
    if decide (uri_breakdown.(scheme) = to_bytes "tester") then (tester_providers, uri_breakdown.(netloc))
    else (providers, uri_breakdown.(scheme)) in
  provider_scheme <-
    match provider_scheme with
    | [] => fun w => (Ok (if is_file_uri uri w then to_bytes "file" else []), w)
    | _ => py_ret provider_scheme
    end ;;
  match dict_get table provider_scheme with
  | Some kind => try_except (make_provider kind uri) [KeyError] (fun _ => raise UnsupportedProvider)
  | None => raise UnsupportedProvider
  end.

Definition _attach_eth_provider : IM unit :=
  uri <- self eth_provider_uri ;;
  provider <- self eth_provider ;;
  match uri, provider with
  | (None | Some []), None => raise NoProvider
  | Some u, None => p <- on_world (provider_of_uri u) ;; on_self (with_provider (Some p) (Some u))
  | _, Some p => on_self (fun i => with_provider (Some p) i.(eth_provider_uri) i)
  end.

(** [get_gas_strategy] of a name. *)
Definition get_gas_strategy (g : string) : result (Gas.strategy (W := W)) :=
  match dict_get Gas.WEB3_GAS_STRATEGIES g with
  | Some s => Ok s
  | None =>
      if decide (g = ""%string) then
        match dict_get Gas.WEB3_GAS_STRATEGIES DEFAULT_GAS_STRATEGY with Some s => Ok s | None => Raise KeyError end
      else Raise ValueError
  end.

(** [Web3.toWei(n, 'gwei')]. *)
Definition gwei (n : Z) : Z := (n * 1000000000)%Z.

(** [configure_gas_strategy], without a strategy of the caller or with one. *)
Definition configure_gas_strategy (given : option (Gas.strategy (W := W))) : IM unit :=
  c <- self eth_client ;;
  name <- self gas_strategy ;;
  cap <- self max_gas_price ;;
  strategy <- lift match given, c with
                   | Some s, _ => Ok s
                   | None, Some c =>
                       if decide (c.(Clients.class) = Clients.InfuraClient)
                       then Ok (Gas.datafeed_median_gas_price_strategy (Some (to_bytes name)))
                       else get_gas_strategy name
                   | None, None => get_gas_strategy name
                   end ;;
  on_self (with_strategy match cap with
                         | None | Some 0%Z => strategy
                         | Some g => Gas.max_price_gas_strategy_wrapper strategy (gwei g)
                         end).

Definition attach_middleware (p : nat) : IM unit :=
  chain_id <- on_world (provider_chain_id p) ;;
  set_poa <- self poa ;;
  (match set_poa with
   | None => on_self (with_poa (bool_decide (chain_id ∈ Clients.POA_CHAINS)))
   | Some _ => py_ret tt
   end) ;;;
  is_poa <- self poa ;;
  (if decide (is_poa = Some true) then inject_middleware "geth_poa" else py_ret tt) ;;;
  add_middleware "time_based_cache" ;;;
  add_middleware "simple_cache" ;;;
  configure_gas_strategy None.

(** The retry middleware of a client. *)
Definition retry_middleware (c : Clients.client_class) : string :=
  match c with
  | Clients.InfuraClient => "InfuraRetryRequestMiddleware"
  | Clients.AlchemyClient => "AlchemyRetryRequestMiddleware"
  | _ => "RetryRequestMiddleware"
  end.

Definition is_connected : IM bool :=
  c <- self eth_client ;;
  p <- self eth_provider ;;
  match c, p with
  | Some _, Some p => on_world (provider_is_connected p)
  | _, _ => py_ret false
  end.

(** The [try] block of [connect], on a new [Web3] object: its POA middleware
    and the client. *)
Definition open_client (p : nat) : IM unit :=
  on_self (with_middlewares []) ;;;
  inject_middleware "geth_poa" ;;;
  version <- on_world (client_version p) ;;
  c <- lift (Clients.from_w3 version (endpoint_uri p)) ;;
  add_middleware (retry_middleware c.(Clients.class)) ;;;
  on_self (with_client c).

Definition connect : IM bool :=
  _attach_eth_provider ;;;
  provider <- self eth_provider ;;
  match provider with
  | None => raise NoProvider
  | Some p =>
      try_except (open_client p) [RequestsConnectionError; FileNotFoundError] (fun _ => raise ConnectionFailed) ;;;
      attach_middleware p ;;;
      is_connected
  end.

(** ** What connecting establishes *)

(** Whether the interface takes its chain for one of proof of authority. *)
Definition on_poa (i : interface) (chain : Z) : bool := default (bool_decide (chain ∈ Clients.POA_CHAINS)) i.(poa).

(** The strategy that [configure_gas_strategy] installs for a client. *)
Definition chosen_strategy (i : interface) (c : Clients.client) : result (Gas.strategy (W := W)) :=
  if decide (c.(Clients.class) = Clients.InfuraClient)
  then Ok (Gas.datafeed_median_gas_price_strategy (Some (to_bytes i.(gas_strategy))))
  else get_gas_strategy i.(gas_strategy).

Definition capped (i : interface) (s : Gas.strategy (W := W)) : Gas.strategy (W := W) :=
  match i.(max_gas_price) with
  | None | Some 0%Z => s
  | Some g => Gas.max_price_gas_strategy_wrapper s (gwei g)
  end.

(** The layers of a connected interface, outermost last. *)
Definition connected_layers (c : Clients.client) : list string :=
  ["geth_poa"%string; retry_middleware c.(Clients.class); "time_based_cache"%string; "simple_cache"%string].

Lemma capped_price i s g w n w' :
  i.(max_gas_price) = Some g -> g <> 0%Z -> capped i s w = (Ok n, w') -> (n <= gwei g)%Z.
Proof.
  intros Hg Hne. unfold capped. rewrite Hg. destruct g as [|g|g]; [done| |];
    unfold Gas.max_price_gas_strategy_wrapper, py_bind; (destruct (s w) as [[x|e] w1]; [|done]);
    unfold py_ret; intros [= <- _];
    (match goal with |- context [(?a <? ?b)%Z] => destruct (a <? b)%Z eqn:Hx end; [done|by apply Z.ltb_ge in Hx]).
Qed.

Lemma inject_middleware_eq m i w :
  inject_middleware m (i, w) =
  if decide (m ∈ i.(middlewares)) then (Raise ValueError, (i, w))
  else (Ok tt, (with_middlewares (m :: i.(middlewares)) i, w)).
Proof. unfold inject_middleware, py_bind, self, gets, on_self, modify. cbn [fst snd]. by case_decide. Qed.

Lemma add_middleware_eq m i w :
  add_middleware m (i, w) =
  if decide (m ∈ i.(middlewares)) then (Raise ValueError, (i, w))
  else (Ok tt, (with_middlewares (i.(middlewares) ++ [m]) i, w)).
Proof. unfold add_middleware, py_bind, self, gets, on_self, modify. cbn [fst snd]. by case_decide. Qed.

(** [open_client] of a node whose client is known. *)
Lemma open_client_ok i w p v w1 c :
  client_version p w = (Ok v, w1) -> Clients.from_w3 v (endpoint_uri p) = Ok c ->
  open_client p (i, w) =
  (Ok tt, (with_client c (with_middlewares ["geth_poa"%string; retry_middleware c.(Clients.class)] i), w1)).
Proof.
  intros Hv Hc. unfold open_client, py_bind, on_self at 1, modify at 1. cbn [fst snd]. rewrite inject_middleware_eq.
  cbn [middlewares with_middlewares]. rewrite decide_False by apply not_elem_of_nil.
  unfold on_world, lift. cbn [fst snd]. rewrite Hv. cbn [fst snd]. rewrite Hc. rewrite add_middleware_eq.
  cbn [middlewares with_middlewares]. rewrite decide_False by (destruct c.(Clients.class); apply (bool_decide_unpack _); exact I).
  done.
Qed.

Lemma configure_gas_strategy_chosen i w c :
  i.(eth_client) = Some c ->
  configure_gas_strategy None (i, w) =
  match chosen_strategy i c with
  | Ok s => (Ok tt, (with_strategy (capped i s) i, w))
  | Raise e => (Raise e, (i, w))
  end.
Proof.
  intros Hc. unfold configure_gas_strategy, py_bind, self, gets, lift, chosen_strategy, capped. cbn [fst snd]. rewrite Hc.
  destruct (decide (c.(Clients.class) = Clients.InfuraClient)); [done|]. by destruct (get_gas_strategy _).
Qed.

Lemma attach_eth_provider_fixed i w p : i.(eth_provider) = Some p -> _attach_eth_provider (i, w) = (Ok tt, (i, w)).
Proof. destruct i as [u ? ? ? q ? ? ?]. cbn [eth_provider]. intros ->. by destruct u as [[|? ?]|]. Qed.

(** The layers and the strategy, over the two layers of [open_client]. *)
Lemma attach_middleware_known i w p c chain w2 :
  i.(eth_client) = Some c -> i.(middlewares) = ["geth_poa"%string; retry_middleware c.(Clients.class)] ->
  provider_chain_id p w = (Ok chain, w2) ->
  let marked := with_poa (on_poa i chain) i in
  let layered := with_middlewares (connected_layers c) marked in
  attach_middleware p (i, w) =
  if on_poa i chain then (Raise ValueError, (marked, w2))
  else match chosen_strategy i c with
       | Ok s => (Ok tt, (with_strategy (capped i s) layered, w2))
       | Raise e => (Raise e, (layered, w2))
       end.
Proof.
  intros Hc Hm Hchain marked layered. unfold attach_middleware.
  unfold py_bind at 1, on_world. cbn [fst snd]. rewrite Hchain.
  unfold py_bind at 1, self at 1, gets at 1. cbn [fst snd].
  assert ((match i.(poa) with
           | None => on_self (with_poa (bool_decide (chain ∈ Clients.POA_CHAINS)))
           | Some _ => py_ret tt
           end) (i, w2) = (Ok tt, (marked, w2))) as Hmark.
  { unfold marked, on_poa. by destruct i as [? [b|] ? ? ? ? ? ?]. }
  unfold py_bind at 1. rewrite Hmark. unfold py_bind at 1, self at 1, gets at 1. cbn [fst snd marked poa with_poa].
  destruct (on_poa i chain) eqn:Hpoa.
  - rewrite decide_True by done. unfold py_bind. rewrite inject_middleware_eq. unfold marked. cbn [middlewares with_poa]. rewrite Hm.
    by rewrite decide_True by left.
  - rewrite decide_False by done. unfold py_bind, py_ret. rewrite !add_middleware_eq. unfold marked. cbn [middlewares with_poa]. rewrite Hm.
    rewrite decide_False by (destruct c.(Clients.class); apply (bool_decide_unpack _); exact I).
    rewrite add_middleware_eq. cbn [middlewares with_middlewares with_poa app].
    rewrite decide_False by (destruct c.(Clients.class); apply (bool_decide_unpack _); exact I).
    rewrite configure_gas_strategy_chosen with (c := c) by done. done.
Qed.

(** Connecting an interface that has its provider, to a node that answers: on
    a chain that counts as one of proof of authority it raises ValueError with
    the client already set, because the layer that [connect] put there cannot
    be injected again; otherwise it configures the strategy that the client
    and the name choose, under the cap, or raises what choosing it raises. *)
Lemma connect_spec i w p v w1 c chain w2 :
  i.(eth_provider) = Some p ->
  client_version p w = (Ok v, w1) -> Clients.from_w3 v (endpoint_uri p) = Ok c ->
  provider_chain_id p w1 = (Ok chain, w2) ->
  let opened := with_poa (on_poa i chain) (with_client c (with_middlewares
                  ["geth_poa"%string; retry_middleware c.(Clients.class)] i)) in
  let layered := with_middlewares (connected_layers c) opened in
  connect (i, w) =
  if on_poa i chain then (Raise ValueError, (opened, w2))
  else match chosen_strategy i c with
       | Ok s => let '(r, w3) := provider_is_connected p w2 in (r, (with_strategy (capped i s) layered, w3))
       | Raise e => (Raise e, (layered, w2))
       end.
Proof.
  intros Hp Hv Hc Hchain opened layered. unfold connect, py_bind at 1. rewrite attach_eth_provider_fixed with (p := p) by done.
  unfold py_bind at 1, self at 1, gets at 1. cbn [fst snd]. rewrite Hp.
  unfold py_bind at 1, try_except. rewrite (open_client_ok i w p v w1 c) by done. unfold py_bind at 1.
  rewrite attach_middleware_known with (c := c) (chain := chain) (w2 := w2) by done.
  change (on_poa (with_client c _) chain) with (on_poa i chain).
  change (chosen_strategy (with_client c _) c) with (chosen_strategy i c).
  destruct (on_poa i chain); [done|]. destruct (chosen_strategy i c) as [s|e]; [|done].
  unfold is_connected, py_bind, self, gets, on_world. cbn [fst snd eth_client eth_provider with_strategy with_middlewares with_poa with_client].
  rewrite Hp. done.
Qed.


(** Connecting an interface that has its provider to a node that answers.  On
    a chain that counts as one of proof of authority it raises ValueError, but
    the client is set by then and the strategy is not.  On any other it ends
    with the four layers, the client, the mark that there is no proof of
    authority, and the strategy of the client and the name, whose prices stay
    under a cap other than 0. *)
Theorem connect_by_chain i w p v w1 c chain w2 :
  i.(eth_provider) = Some p ->
  client_version p w = (Ok v, w1) -> Clients.from_w3 v (endpoint_uri p) = Ok c ->
  provider_chain_id p w1 = (Ok chain, w2) ->
  (on_poa i chain = true ->
   exists i', connect (i, w) = (Raise ValueError, (i', w2)) /\
     i'.(eth_client) = Some c /\ i'.(price_strategy) = i.(price_strategy)) /\
  (forall s : Gas.strategy (W := W), on_poa i chain = false -> chosen_strategy i c = Ok s ->
   exists i' w3, connect (i, w) = ((provider_is_connected p w2).1, (i', w3)) /\
     i'.(eth_client) = Some c /\ i'.(poa) = Some false /\ i'.(middlewares) = connected_layers c /\
     i'.(price_strategy) = Some (capped i s) /\
     forall g w4 n w5, i.(max_gas_price) = Some g -> g <> 0%Z -> capped i s w4 = (Ok n, w5) -> (n <= gwei g)%Z).
Proof.
  intros Hp Hv Hc Hchain. pose proof (connect_spec i w p v w1 c chain w2 Hp Hv Hc Hchain) as Hspec. cbv zeta in Hspec.
  split.
  - intros Hpoa. rewrite Hpoa in Hspec. eexists. split; [exact Hspec|done].
  - intros s Hpoa Hs. rewrite Hpoa, Hs in Hspec. destruct (provider_is_connected p w2) as [r w3].
    eexists _, w3. split; [exact Hspec|]. repeat split. intros. by eapply capped_price.
Qed.

End Connection.
Arguments interface : clear implicits.
End Connection.

(** ** The factory of interfaces *)

Module Factory.
Import Connection.

Section Factory.
Context {W : Type} `{!Web3Providers W, !Gas.PriceSource W}.
#[local] Notation interface := (interface W).

(** [_interfaces], a dict of URIs, and the objects that it and its callers
    share; the emitter of a cached interface is only printed to. *)
Record factory := Factory { _interfaces : list (option bytes * nat); objects : list interface }.

Definition FM (A : Type) : Type := PyM (factory * W) A.

(** A method of an object. *)
Definition on_object {A} (n : nat) (m : IM A) : FM A := fun s =>
  match s.1.(objects) !! n with
  | Some i => let '(r, (i', w)) := m (i, s.2) in (r, (Factory s.1.(_interfaces) (<[n := i']> s.1.(objects)), w))
  | None => (Raise AttributeError, s)
  end.

(** A new object. *)
Definition new_object (i : interface) : FM nat := fun s =>
  (Ok (length s.1.(objects)), (Factory s.1.(_interfaces) (s.1.(objects) ++ [i]), s.2)).

Definition cached (u : option bytes) : FM (option nat) := gets (fun s => dict_get s.1.(_interfaces) u).
Definition cache (u : option bytes) (n : nat) : FM unit :=
  modify (fun s => (Factory (dict_set s.1.(_interfaces) u n) s.1.(objects), s.2)).

(** A tuple is true. *)
Definition is_interface_initialized (u : option bytes) : FM bool :=
  n <- cached u ;; py_ret (bool_decide (is_Some n)).

Definition register_interface (n : nat) (force : bool) : FM unit :=
  u <- on_object n (self eth_provider_uri) ;;
  existing <- cached u ;;
  if bool_decide (is_Some existing) && negb force then raise InterfaceAlreadyInitialized else cache u n.

(** The keyword arguments of a new interface. *)
Record interface_kwargs := Kwargs {
  a_poa : option bool;
  a_provider : option nat;
  a_gas_strategy : option string;
  a_max_gas_price : option Z;
}.

Definition initialize_interface (u : option bytes) (k : interface_kwargs) : FM unit :=
  match u with
  | None | Some [] => raise UnsupportedProvider
  | Some _ =>
      existing <- cached u ;;
      if bool_decide (is_Some existing) then raise InterfaceAlreadyInitialized
      else
        i <- lift (new_interface k.(a_poa) u k.(a_provider) k.(a_gas_strategy) k.(a_max_gas_price)) ;;
        n <- new_object i ;;
        cache u n
  end.

Definition get_interface (u : option bytes) : FM nat :=
  n <- match u with
       | Some (_ :: _) =>
           n <- cached u ;;
           match n with Some n => py_ret n | None => raise InterfaceNotInitialized end
       | _ =>
           all <- gets (fun s : factory * W => s.1.(_interfaces)) ;;
           match last all with Some (_, n) => py_ret n | None => raise NoRegisteredInterfaces end
       end ;;
  connected <- on_object n is_connected ;;
  (if connected : bool then py_ret tt else (on_object n connect ;;; py_ret tt)) ;;;
  py_ret n.

Definition get_or_create_interface (u : option bytes) (k : interface_kwargs) : FM nat :=
  try_except (get_interface u) [InterfaceNotInitialized; NoRegisteredInterfaces]
    (fun _ => initialize_interface u k ;;; get_interface u).

(** ** The invariant of the factory *)

(** Every URI of the dict is that of its object. *)
Definition keyed (f : factory) : Prop :=
  forall u n, dict_get f.(_interfaces) u = Some n ->
    exists i, f.(objects) !! n = Some i /\ i.(eth_provider_uri) = u.

(** What an operation does to the dict and the objects: entries stay, and the
    invariant holds after it. *)
Definition extends (f f' : factory) : Prop :=
  (forall u n, dict_get f.(_interfaces) u = Some n -> dict_get f'.(_interfaces) u = Some n) /\
  (keyed f -> keyed f').

#[local] Instance extends_preorder : PreOrder extends.
Proof.
  split; [by split|]. intros f g h [H1 H2] [H3 H4]. split; [|tauto]. intros u n Hu. by apply H3, H1.
Qed.

Definition extending {A} (m : FM A) : Prop := forall f, preserves (fun s => extends f s.1) m.

Lemma extending_on_object {A} n (m : IM A) :
  (forall u, preserves (fun s => s.1.(eth_provider_uri) = u) m) -> extending (on_object n m).
Proof.
  intros Hm f [g w] Hf. unfold on_object. cbn [fst snd] in *. destruct (g.(objects) !! n) as [i|] eqn:Hi; [|done].
  specialize (Hm i.(eth_provider_uri) (i, w) eq_refl). destruct (m (i, w)) as [r [i' w']]. cbn [fst snd] in Hm |- *.
  etransitivity; [exact Hf|]. split; [done|]. cbn [_interfaces objects]. intros Hk u k Hu.
  destruct (Hk u k Hu) as (j & Hj & <-). destruct (decide (k = n)) as [->|Hne].
  - exists i'. split; [by apply list_lookup_insert_eq, (lookup_lt_Some _ _ _ Hi)|]. congruence.
  - exists j. split; [|done]. by rewrite <- Hj; apply list_lookup_insert_ne.
Qed.

Lemma new_object_extends i : extending (new_object i).
Proof.
  intros f [g w] Hf. etransitivity; [exact Hf|]. split; [done|]. intros Hk u k Hu.
  destruct (Hk u k Hu) as (j & Hj & <-). exists j. split; [by apply lookup_app_l_Some|done].
Qed.

Lemma cache_extends f g (w : W) n i u :
  extends f g -> g.(objects) !! n = Some i -> i.(eth_provider_uri) = u -> dict_get g.(_interfaces) u = None ->
  extends f (cache u n (g, w)).2.1.
Proof.
  intros Hf Hi <- Hnew. etransitivity; [exact Hf|]. unfold cache, modify. cbn [fst snd]. unfold extends, keyed. cbn [_interfaces objects]. split.
  - intros u k Hu. rewrite dict_get_set_ne; [done|]. intros <-. by rewrite Hnew in Hu.
  - intros Hk u k. rewrite dict_get_set. case_decide as Hu; [|by apply Hk]. intros [= <-]. by exists i.
Qed.

(** No method of an interface changes its URI. *)
Lemma preserves_self Q f : (forall i : interface, Q i -> Q (f i)) -> preserves (fun s : interface * W => Q s.1) (on_self f).
Proof. intros Hf s. apply Hf. Qed.

Lemma preserves_on_world {A} (Q : interface -> Prop) (m : PyM W A) : preserves (fun s : interface * W => Q s.1) (on_world m).
Proof. intros s Hs. unfold on_world. by destruct (m s.2). Qed.

Lemma attach_eth_provider_keeps_uri u :
  preserves (fun s : interface * W => s.1.(eth_provider_uri) = u) _attach_eth_provider.
Proof.
  intros [i w] Hi. cbn [fst] in Hi. unfold _attach_eth_provider, py_bind, self, gets. cbn [fst snd].
  destruct i as [u' ? ? ? q ? ? ?]. cbn [eth_provider_uri eth_provider] in *. subst u'.
  destruct u as [[|c u]|], q as [q|]; try done. unfold on_world. cbn [fst snd].
  by destruct (provider_of_uri (c :: u) w) as [[p|e] w'].
Qed.

Ltac keeps_uri :=
  preserve_with ltac:(first [apply attach_eth_provider_keeps_uri
                            |apply (preserves_on_world (fun i => eth_provider_uri i = _))
                            |apply (preserves_self (fun i => eth_provider_uri i = _)); by intros []]).

Lemma connect_keeps_uri u : preserves (fun s : interface * W => s.1.(eth_provider_uri) = u) connect.
Proof.
  unfold connect, open_client, attach_middleware, configure_gas_strategy, inject_middleware, add_middleware,
    is_connected, self.
  keeps_uri.
Qed.


Lemma is_connected_keeps_uri u : preserves (fun s : interface * W => s.1.(eth_provider_uri) = u) is_connected.
Proof. unfold is_connected, self. keeps_uri. Qed.

Lemma register_interface_extends n : extending (register_interface n false).
Proof.
  intros f [g w] Hf. unfold register_interface, py_bind at 1, on_object, self, gets. cbn [fst snd] in *.
  destruct (g.(objects) !! n) as [i|] eqn:Hi; [|done]. cbn [fst snd].
  unfold py_bind, cached, gets. cbn [fst snd _interfaces].
  rewrite list_insert_id by done. destruct g as [d l]. cbn [_interfaces objects] in *.
  destruct (dict_get d _) as [k|] eqn:Hk; [exact Hf|].
  by apply (cache_extends f (Factory d l) w n i _).
Qed.

Lemma initialize_interface_extends u k : extending (initialize_interface u k).
Proof.
  intros f [g w] Hf. unfold initialize_interface. destruct u as [[|c u]|]; [done| |done].
  unfold py_bind at 1, cached, gets. cbn [fst snd].
  destruct (dict_get _ _) as [n|] eqn:Hu; [exact Hf|].
  rewrite bool_decide_eq_false_2 by (by intros [? ?]). unfold py_bind at 1, lift. destruct (new_interface _ _ _ _ _) as [i|e] eqn:Hnew; [|exact Hf].
  assert (i.(eth_provider_uri) = Some (c :: u)) as Huri.
  { unfold new_interface in Hnew. repeat case_match; by simplify_eq. }
  unfold py_bind at 1, new_object. cbn [fst snd].
  apply (cache_extends f (Factory g.(_interfaces) (g.(objects) ++ [i])) w (length g.(objects)) i _).
  - apply (new_object_extends i f (g, w) Hf).
  - cbn [objects]. by apply list_lookup_middle.
  - exact Huri.
  - exact Hu.
Qed.

Lemma get_interface_extends u : extending (get_interface u).
Proof.
  intros f. unfold get_interface, cached.
  preserve_with ltac:(first [apply extending_on_object; intros; first [apply is_connected_keeps_uri|apply connect_keeps_uri]]).
Qed.

Lemma get_or_create_interface_extends u k : extending (get_or_create_interface u k).
Proof.
  intros f. unfold get_or_create_interface.
  preserve_with ltac:(first [apply get_interface_extends|apply initialize_interface_extends]).
Qed.

(** The calls of the factory's clients, none of which forces a registration;
    one that raises leaves what it did. *)
Inductive factory_op :=
  | New (i : interface)
  | Register (n : nat)
  | Initialize (u : option bytes) (k : interface_kwargs)
  | Get (u : option bytes)
  | GetOrCreate (u : option bytes) (k : interface_kwargs).

Definition exec (o : factory_op) (s : factory * W) : factory * W :=
  match o with
  | New i => (new_object i s).2
  | Register n => (register_interface n false s).2
  | Initialize u k => (initialize_interface u k s).2
  | Get u => (get_interface u s).2
  | GetOrCreate u k => (get_or_create_interface u k s).2
  end.

Definition run (os : list factory_op) (s : factory * W) : factory * W := foldl (fun s o => exec o s) s os.

Lemma run_extends os s : extends s.1 (run os s).1.
Proof.
  revert s. induction os as [|o os IH]; intros s; [done|]. transitivity (exec o s).1; [|apply IH].
  destruct o; [apply new_object_extends|apply register_interface_extends|apply initialize_interface_extends
              |apply get_interface_extends|apply get_or_create_interface_extends]; done.
Qed.

Lemma get_interface_cached c u s n s' :
  get_interface (Some (c :: u)) s = (Ok n, s') -> dict_get s.1.(_interfaces) (Some (c :: u)) = Some n.
Proof.
  unfold get_interface, cached. unfold py_bind at 1 2, gets. destruct (dict_get _ _) as [m|]; [|done].
  unfold py_ret at 1. unfold py_bind at 1. destruct (on_object m is_connected s) as [[b|e] s1]; [|done].
  destruct b; unfold py_bind; [by intros [= <- _]|].
  destruct (on_object m connect s1) as [[b|e] s2]; [|done]. by intros [= <- _].
Qed.

(** One object serves a URI: whatever its clients do with the factory between
    two lookups of the URI that succeed, both get the same object, and it is
    an interface of that URI. *)
Theorem one_interface_per_uri c u os s n s1 m s3 :
  keyed s.1 ->
  get_interface (Some (c :: u)) s = (Ok n, s1) ->
  get_interface (Some (c :: u)) (run os s1) = (Ok m, s3) ->
  m = n /\ keyed s3.1 /\ exists i, s3.1.(objects) !! n = Some i /\ i.(eth_provider_uri) = Some (c :: u).
Proof.
  intros Hk H1 H2.
  pose proof (get_interface_extends (Some (c :: u)) s.1 s ltac:(done)) as E1. rewrite H1 in E1. cbn [snd] in E1.
  pose proof (run_extends os s1) as E2.
  pose proof (get_interface_extends (Some (c :: u)) (run os s1).1 (run os s1) ltac:(done)) as E3. rewrite H2 in E3. cbn [snd] in E3.
  apply get_interface_cached in H1, H2. apply (proj1 E1), (proj1 E2) in H1.
  assert (m = n) as -> by congruence. apply (proj1 E3) in H2.
  assert (keyed s3.1) as Hk3 by (by apply (proj2 E3), (proj2 E2), (proj2 E1)).
  split; [done|]. split; [done|]. by apply Hk3.
Qed.

(** A lookup that has to connect, and one that does not. *)
Lemma get_interface_connects c u f w n i :
  dict_get f.(_interfaces) (Some (c :: u)) = Some n -> f.(objects) !! n = Some i -> i.(eth_client) = None ->
  get_interface (Some (c :: u)) (f, w) =
  let '(r, (i', w')) := connect (i, w) in
  (match r with Ok _ => Ok n | Raise e => Raise e end, (Factory f.(_interfaces) (<[n := i']> f.(objects)), w')).
Proof.
  intros Hu Hi Hc. unfold get_interface, cached, py_bind, gets, py_ret. cbn [fst snd]. rewrite Hu.
  assert (on_object n is_connected (f, w) = (Ok false, (Factory f.(_interfaces) f.(objects), w))) as ->.
  { unfold on_object. cbn [fst snd]. rewrite Hi. unfold is_connected, py_bind, self, gets. cbn [fst snd]. rewrite Hc.
    unfold py_ret. by rewrite list_insert_id. }
  unfold on_object. cbn [fst snd objects _interfaces]. rewrite Hi.
  destruct (connect (i, w)) as [[b|e] [i' w']]; done.
Qed.

Lemma get_interface_connected c u f w n i cl p w' :
  dict_get f.(_interfaces) (Some (c :: u)) = Some n -> f.(objects) !! n = Some i ->
  i.(eth_client) = Some cl -> i.(eth_provider) = Some p -> provider_is_connected p w = (Ok true, w') ->
  get_interface (Some (c :: u)) (f, w) = (Ok n, (f, w')).
Proof.
  intros Hu Hi Hc Hp Hw. unfold get_interface, cached, py_bind, gets, py_ret. cbn [fst snd]. rewrite Hu.
  assert (on_object n is_connected (f, w) = (Ok true, (f, w'))) as ->; [|done].
  unfold on_object. cbn [fst snd]. rewrite Hi. unfold is_connected, py_bind, self, gets, on_world. cbn [fst snd].
  rewrite Hc, Hp. cbn [fst snd]. rewrite Hw, list_insert_id by done. by destruct f.
Qed.

(** A failed connection is not undone: on a chain of proof of authority the
    first lookup of an interface raises ValueError, and while its provider
    stays connected the next one returns it, without a gas strategy. *)
Theorem unconfigured_interface_is_served c u f w n i p v w1 cl chain w2 w3 :
  dict_get f.(_interfaces) (Some (c :: u)) = Some n -> f.(objects) !! n = Some i ->
  i.(eth_client) = None -> i.(price_strategy) = None -> i.(eth_provider) = Some p ->
  client_version p w = (Ok v, w1) -> Clients.from_w3 v (endpoint_uri p) = Ok cl ->
  provider_chain_id p w1 = (Ok chain, w2) -> on_poa i chain = true ->
  provider_is_connected p w2 = (Ok true, w3) ->
  exists f', get_interface (Some (c :: u)) (f, w) = (Raise ValueError, (f', w2)) /\
    get_interface (Some (c :: u)) (f', w2) = (Ok n, (f', w3)) /\
    exists i', f'.(objects) !! n = Some i' /\ i'.(eth_client) = Some cl /\ i'.(price_strategy) = None.
Proof.
  intros Hu Hi Hc Hs Hp Hv Hcl Hchain Hpoa Hw.
  pose proof (connect_spec i w p v w1 cl chain w2 Hp Hv Hcl Hchain) as Hspec. cbv zeta in Hspec. rewrite Hpoa in Hspec.
  rewrite (get_interface_connects c u f w n i Hu Hi Hc), Hspec. eexists. split; [reflexivity|].
  assert (n < length f.(objects)) as Hn by (by eapply lookup_lt_Some).
  split; [|eexists; split; [by apply list_lookup_insert_eq|done]].
  eapply get_interface_connected; [done|by apply list_lookup_insert_eq|reflexivity|exact Hp|exact Hw].
Qed.

(** A forced registration keeps the place of its URI, so the last entry of the
    dict, which a lookup without a URI takes, need not be the latest. *)
Lemma forced_registration_keeps_place u v n m k l (w : W) :
  u <> v ->
  (cache u k (Factory [(u, n); (v, m)] l, w)).2.1.(_interfaces) = [(u, k); (v, m)].
Proof. intros Hne. unfold cache, modify. cbn. by rewrite decide_True. Qed.

End Factory.
End Factory.

(** * Witnesses *)

Module InterfacesDemo.
Import Registry.Registry Contracts Connection Factory.

(** A registry with two versions of a contract and their dispatcher, which
    points to the second. *)
#[local] Existing Instance RegistryDemo.demo_digest.
(** web3 refuses an ABI without [target]; at another address nothing answers. *)
Definition dispatcher_abi : json := JArr [JStr (to_bytes "target")].
#[local] Instance demo_proxies : ProxyCalls local_registry := {|
  proxy_target abi address w :=
    (match abi, address with
     | JArr [JStr f], JStr a =>
         if decide (f = to_bytes "target" /\ a = to_bytes "0xD") then Ok (to_bytes "0xB") else Raise ValueError
     | _, _ => Raise ValueError
     end, w)
|}.

Definition dispatcher := Record_ (to_bytes "Dispatcher") (to_bytes "v1") (to_bytes "0xD") dispatcher_abi.
Definition log : list record := [RegistryDemo.token; RegistryDemo.token2; dispatcher].
Definition store : local_registry :=
  foldl (fun s r => (RegistryDemo.enroll_record r s).2) RegistryDemo.file_registry log.

Lemma store_holds : holds log store.
Proof. split; [vm_compute; reflexivity|]. by repeat constructor. Qed.

Definition token_name : bytes := to_bytes "NuLinkToken".

(** Behind the dispatcher, the second version at the dispatcher's address; a
    token is no proxy. *)
Lemma get_contract_by_name_refines_witness :
  get_contract_by_name (Some token_name) None None (Some (to_bytes "Dispatcher")) true store
    = (Ok (Contract RegistryDemo.token2.(r_abi) (JStr (to_bytes "0xD")) (JStr (to_bytes "v2"))), store) /\
  get_contract_by_name (Some token_name) None None (Some token_name) true store = (Raise ValueError, store) /\
  get_contract_by_name (Some token_name) None (Some (VersionNumber (-2))) None true store
    = (Ok (contract_of RegistryDemo.token), store) /\
  get_contract_by_name (Some token_name) None None None true store = (Raise InterfaceError, store).
Proof.
  assert (forall ev px, get_contract_by_name (Some token_name) None ev px true store =
            (lookup_spec log (live_target store) token_name None ev px true, store)) as H.
  { intros ev px. apply get_contract_by_name_refines; [discriminate|apply store_holds|].
    intros p _ _. reflexivity. }
  split; [|split; [|split]]; rewrite H; apply (f_equal (fun r => (r, store))); vm_compute; reflexivity.
Defined.

(** A node of the chain whose number it is asked for. *)
#[local] Instance demo_node : Web3Providers Z := {|
  make_provider _ _ := py_ret 1;
  is_file_uri _ _ := false;
  client_version _ := py_ret (to_bytes "Geth/v1.10/linux/go");
  endpoint_uri _ := to_bytes "http://node";
  provider_chain_id _ := gets (fun z => z);
  provider_is_connected _ := py_ret true;
|}.
#[local] Instance demo_prices : Gas.PriceSource Z := {|
  Gas.requests_get _ := py_ret (500%Z, JNull);
  Gas.to_wei_gwei _ := Raise TypeError;
  Gas.rpc_gas_price := py_ret 1%Z;
  Gas.web3_gas_price _ := py_ret 90000000000%Z;
  Gas.is_validation_error _ := false;
|}.

Definition uri : bytes := to_bytes "https://node".
Definition fresh : interface Z := Interface (Some uri) None "fast" (Some 50%Z) None None [] None.
Definition attached : interface Z := with_provider (Some 1) (Some uri) fresh.

(** On chain 1 the price of 90 gwei is capped to 50; chain 77 is refused. *)
Lemma connect_by_chain_witness :
  (exists i', connect (attached, 1%Z) = (Ok true, (i', 1%Z)) /\ i'.(poa) = Some false /\
     from_option (fun s => (s 1%Z).1) (Raise KeyError) i'.(price_strategy) = Ok 50000000000%Z) /\
  (exists i', connect (attached, 77%Z) = (Raise ValueError, (i', 77%Z))).
Proof.
  split.
  - destruct (connect_by_chain attached 1%Z 1 (to_bytes "Geth/v1.10/linux/go") 1%Z
      (Clients.Client Clients.GethClient (to_bytes "Geth") (to_bytes "v1.10") (Some (to_bytes "linux")) (to_bytes "go"))
      1%Z 1%Z) as [_ H]; [reflexivity..|].
    destruct (H (Gas.web3_gas_strategy_wrapper (Gas.web3_gas_price "fast"))) as (i' & w3 & H1 & _ & H2 & _ & H3 & _);
      [reflexivity..|].
    exists i'. cbn [provider_is_connected demo_node py_ret fst] in H1.
    assert (w3 = 1%Z) as -> by (assert ((connect (attached, 1%Z)).2.2 = 1%Z) as Hw by reflexivity; by rewrite H1 in Hw).
    split; [exact H1|]. split; [exact H2|]. rewrite H3. reflexivity.
  - destruct (connect_by_chain attached 77%Z 1 (to_bytes "Geth/v1.10/linux/go") 77%Z
      (Clients.Client Clients.GethClient (to_bytes "Geth") (to_bytes "v1.10") (Some (to_bytes "linux")) (to_bytes "go"))
      77%Z 77%Z) as [H _]; [reflexivity..|].
    destruct H as (i' & H & _); [reflexivity|]. by exists i'.
Defined.

Definition shared : factory (W := Z) := Factory [(Some uri, 0)] [fresh].

(** Another interface is initialized and asked for in between. *)
Lemma one_interface_per_uri_witness :
  let s1 := (get_interface (Some uri) (shared, 1%Z)).2 in
  let os := [Initialize (Some (to_bytes "ws://other")) (Kwargs None None None None);
             Get None; GetOrCreate (Some uri) (Kwargs None None None None)] in
  (get_interface (Some uri) (run os s1)).1 = Ok 0 /\
  exists i, (run os s1).1.(objects) !! 0 = Some i /\ i.(eth_provider_uri) = Some uri.
Proof.
  intros s1 os.
  destruct (one_interface_per_uri "h" (to_bytes "ttps://node") os (shared, 1%Z) 0 s1 0
              (get_interface (Some uri) (run os s1)).2) as (_ & _ & i & Hi & Hu).
  - intros u n. cbn [fst shared dict_get _interfaces]. case_decide as Hd; [|done]. intros [= <-]. by exists fresh.
  - vm_compute. reflexivity.
  - vm_compute. reflexivity.
  - split; [vm_compute; reflexivity|]. exists i. split; [|exact Hu]. rewrite <- Hi. vm_compute. reflexivity.
Defined.

(** On chain 77. *)
Lemma unconfigured_interface_is_served_witness :
  exists f', get_interface (Some uri) (Factory [(Some uri, 0)] [attached], 77%Z) = (Raise ValueError, (f', 77%Z)) /\
    get_interface (Some uri) (f', 77%Z) = (Ok 0, (f', 77%Z)).
Proof.
  destruct (unconfigured_interface_is_served "h" (to_bytes "ttps://node") (Factory [(Some uri, 0)] [attached]) 77%Z 0 attached 1
      (to_bytes "Geth/v1.10/linux/go") 77%Z
      (Clients.Client Clients.GethClient (to_bytes "Geth") (to_bytes "v1.10") (Some (to_bytes "linux")) (to_bytes "go"))
      77%Z 77%Z 77%Z) as (f' & H1 & H2 & _); [reflexivity..|].
  by exists f'.
Defined.

(** "free" is a strategy that the constructor takes, but no client has. *)
Definition free : interface Z := Interface (Some uri) None "free" None (Some 1) None [] None.

Example free_strategy :
  new_interface None (Some uri) (Some 1) (Some "free"%string) None = Ok free /\ (connect (free, 1%Z)).1 = Raise ValueError.
Proof. split; reflexivity. Qed.

End InterfacesDemo.
