(* ===== verification/Signers.v ===== *)
(** * nulink/blockchain/eth/signers: accounts that sign

    The signer over a directory of keyfiles, with its accounts that are locked
    and unlocked; what Clef is asked to sign; the address cache of the Trezor;
    and the choice of a signer by its URI.  Keyfile decryption, addresses and
    signatures (eth_account, eth_utils), Clef and the Trezor are classes. *)

From Stdlib Require Import Ascii.
From stdpp Require Import pretty sets gmap.
From S2P Require Import Prelude Text Json Files Clients Transactions Gas Interfaces.
#[local] Open Scope nat_scope.

Class EthAccounts (Key : Type) := {
  is_address : json -> bool;
  to_checksum_address : json -> result bytes;
  is_checksum_address : bytes -> bool;
  (* [Account.from_key(Account.decrypt(key_metadata, password))] *)
  decrypt : json -> option bytes -> result Key;
  sign_tx : Key -> tx -> result bytes;
  (* [sign_message(encode_defunct(primitive=message)).signature] *)
  sign_defunct : Key -> bytes -> result bytes;
}.

(** The address check of the decorated methods; see [Agents.Decorators]. *)
Definition checked_account {Key} `{!EthAccounts Key} (account : bytes) : result unit :=
  if is_checksum_address account then Ok tt else Raise InvalidChecksumAddress.

(** ** [KeystoreSigner] *)

Module KeystoreSigner.
Section KeystoreSigner.
Context {Key : Type} `{!EthAccounts Key}.

Record signer := Signer {
  _path : path;
  keys : list (bytes * json);
  signers : list (bytes * Key);
  testnet : bool;
}.
Definition with_signers (l : list (bytes * Key)) (s : signer) : signer := Signer s.(_path) s.(keys) l s.(testnet).

(** [__read_keyfile]. *)
Definition read_keyfile (p : path) : PyM filesystem (json * json) :=
  content <- read_file p ;;
  text <- lift (decode content) ;;
  key_metadata <- lift (loads text) ;;
  address <- lift (get_item key_metadata (to_bytes "address")) ;;
  py_ret (address, key_metadata).

(** [__handle_keyfile]. *)
Definition handle_keyfile (p : path) : PyM filesystem (bytes * json) :=
  keyfile <- try_except (read_keyfile p) [FileNotFoundError; JSONDecodeError; KeyError] (fun _ => raise InvalidKeyfile) ;;
  let '(address, key_metadata) := keyfile in
  if is_address address then a <- lift (to_checksum_address address) ;; py_ret (a, key_metadata)
  else raise InvalidKeyfile.

(** The loop of [__read_keystore]. *)
Fixpoint read_keyfiles (paths : list path) (keys : list (bytes * json)) : PyM filesystem (list (bytes * json)) :=
  match paths with
  | [] => py_ret keys
  | p :: paths' =>
      keyfile <- handle_keyfile p ;;
      read_keyfiles paths' (dict_set keys keyfile.1 keyfile.2)
  end.

Definition keyfiles (p : path) (fs : filesystem) : list path := filter (fun q => is_file fs q = true) (entries p fs).

(** [__read_keystore]. *)
Definition read_keystore (p : path) : PyM filesystem (list (bytes * json)) := fun fs =>
  if is_dir fs p then read_keyfiles (keyfiles p fs) [] fs
  else if is_file fs p then read_keyfiles [p] [] fs
  else (Raise InvalidSignerURI, fs).

(** [__init__]. *)
Definition new_signer (p : path) (testnet : bool) : PyM filesystem signer :=
  keys <- read_keystore p ;;
  py_ret (Signer p keys [] testnet).

(** [from_signer_uri], but on Windows. *)
Definition from_signer_uri (uri : bytes) (testnet : bool) : PyM filesystem signer :=
  decoded_uri <- lift (Connection.urlparse uri) ;;
  if decide (decoded_uri.(Connection.scheme) <> to_bytes "keystore" \/ decoded_uri.(Connection.netloc) <> [])
  then raise InvalidSignerURI
  else match decoded_uri.(Connection.urlpath) with
       | [] => raise InvalidSignerURI
       | p => new_signer (path_of_text p) testnet
       end.

(** ** Its methods *)

Definition accounts (s : signer) : list bytes := s.(keys).*1.

(** [__get_signer]. *)
Definition get_signer (account : bytes) : PyM signer Key :=
  lift (checked_account account) ;;;
  s <- gets (fun s => s) ;;
  match dict_get s.(signers) account with
  | Some k => py_ret k
  | None => if dict_mem s.(keys) account then raise AccountLocked else raise UnknownAccount
  end.

Definition unlock_account (account : bytes) (password : option bytes) : PyM signer bool :=
  lift (checked_account account) ;;;
  s <- gets (fun s => s) ;;
  match dict_get s.(signers) account with
  | Some _ => py_ret true
  | None =>
      match dict_get s.(keys) account with
      | None => raise UnknownAccount
      | Some key_metadata =>
          match decrypt key_metadata password with
          | Ok signing_key =>
              modify (with_signers (dict_set s.(signers) account signing_key)) ;;; py_ret true
          | Raise e =>
              if catches [TypeError] e then
                match password with None | Some [] => raise SignerAuthenticationFailed | Some _ => raise e end
              else if catches [ValueError] e then raise SignerAuthenticationFailed else raise e
          end
      end
  end.

Definition lock_account (account : bytes) : PyM signer bool :=
  lift (checked_account account) ;;;
  s <- gets (fun s => s) ;;
  (if dict_mem s.(signers) account then modify (with_signers (dict_del s.(signers) account))
   else if bool_decide (account ∈ accounts s) then py_ret tt else raise UnknownAccount) ;;;
  s <- gets (fun s => s) ;;
  py_ret (negb (dict_mem s.(signers) account)).

(** The account of a ['from'] field. *)
Definition sender_of (transaction_dict : tx) : result bytes :=
  match dict_get transaction_dict "from"%string with
  | None => Raise KeyError
  | Some (TText a) => Ok a
  | Some _ => Raise TypeError
  end.

(** Without a ['to'] that is false. *)
Definition without_empty_to (transaction_dict : tx) : result tx :=
  match dict_get transaction_dict "to"%string with
  | None => Raise KeyError
  | Some (TText [] | TBytes [] | TInt 0%Z) => Ok (dict_del transaction_dict "to"%string)
  | Some _ => Ok transaction_dict
  end.

Definition sign_transaction (transaction_dict : tx) : PyM signer bytes :=
  sender <- lift (sender_of transaction_dict) ;;
  signer <- get_signer sender ;;
  transaction_dict <- lift (without_empty_to transaction_dict) ;;
  lift (sign_tx signer transaction_dict).

Definition sign_message (account message : bytes) : PyM signer bytes :=
  lift (checked_account account) ;;;
  signer <- get_signer account ;;
  lift (sign_defunct signer message).

(** [__del__]. *)
Definition del : PyM signer unit :=
  known <- gets accounts ;;
  for_each known (fun account => lock_account account ;;; py_ret tt).

(** ** Locked and unlocked *)

Inductive call :=
  | Unlock (account : bytes) (password : option bytes)
  | Lock (account : bytes)
  | SignTransaction (transaction_dict : tx)
  | SignMessage (account message : bytes)
  | Del.

Definition exec (c : call) (s : signer) : signer :=
  match c with
  | Unlock a pw => (unlock_account a pw s).2
  | Lock a => (lock_account a s).2
  | SignTransaction t => (sign_transaction t s).2
  | SignMessage a m => (sign_message a m s).2
  | Del => (del s).2
  end.

(** The calls of a signer's clients; one that raises leaves what it did. *)
Definition run (cs : list call) (s : signer) : signer := foldl (fun s c => exec c s) s cs.

Lemma get_signer_pure a s : (get_signer a s).2 = s.
Proof.
  unfold get_signer, py_bind, lift, gets. destruct (checked_account a) as [[]|]; [|done].
  destruct (dict_get _ _); [done|]. by destruct (dict_mem _ _).
Qed.

Lemma sign_message_pure a m s : (sign_message a m s).2 = s.
Proof.
  unfold sign_message, py_bind, lift. destruct (checked_account a) as [[]|]; [|done].
  pose proof (get_signer_pure a s) as H. by destruct (get_signer a s) as [[k|e] s'].
Qed.

Lemma sign_transaction_pure t s : (sign_transaction t s).2 = s.
Proof.
  unfold sign_transaction, py_bind, lift. destruct (sender_of t) as [a|]; [|done].
  pose proof (get_signer_pure a s) as H. destruct (get_signer a s) as [[k|e] s']; [|done].
  by destruct (without_empty_to t).
Qed.

(** What unlocking and locking leave of the signers. *)
Lemma unlock_account_state a pw s :
  (unlock_account a pw s).2 = s \/
  exists md k, dict_get s.(keys) a = Some md /\ decrypt md pw = Ok k /\ dict_get s.(signers) a = None /\
    (unlock_account a pw s).2 = with_signers (dict_set s.(signers) a k) s.
Proof.
  unfold unlock_account, py_bind, lift, gets. destruct (checked_account a) as [[]|]; [|by left].
  destruct (dict_get s.(signers) a) eqn:Hs; [by left|]. destruct (dict_get s.(keys) a) as [md|] eqn:Hk; [|by left].
  destruct (decrypt md pw) as [k|e] eqn:Hd; [right; by exists md, k|]. left.
  destruct (catches [TypeError] e); [by destruct pw as [[|? ?]|]|]. by destruct (catches [ValueError] e).
Qed.

Lemma lock_account_state a s :
  (lock_account a s).2 = s \/ (lock_account a s).2 = with_signers (dict_del s.(signers) a) s.
Proof.
  unfold lock_account, py_bind, lift, gets. destruct (checked_account a) as [[]|]; [|by left].
  destruct (dict_mem s.(signers) a); [by right|]. by destruct (bool_decide _); left.
Qed.

(** What every call keeps: the keys, and that an account is not unlocked
    twice. *)
Definition same_keys (s0 s : signer) : Prop := s.(keys) = s0.(keys) /\ dict_wf s.(signers).

Lemma unlock_same_keys s0 a pw : preserves (same_keys s0) (unlock_account a pw).
Proof.
  intros s [Hk Hw]. destruct (unlock_account_state a pw s) as [->|(md & k & _ & _ & _ & ->)]; [done|].
  split; [done|]. by apply dict_set_wf.
Qed.

Lemma lock_same_keys s0 a : preserves (same_keys s0) (lock_account a).
Proof.
  intros s [Hk Hw]. destruct (lock_account_state a s) as [->| ->]; [done|]. split; [done|]. by apply dict_del_wf.
Qed.

Lemma exec_same_keys s0 c s : same_keys s0 s -> same_keys s0 (exec c s).
Proof.
  intros H. destruct c; cbn [exec].
  - by apply unlock_same_keys.
  - by apply lock_same_keys.
  - by rewrite sign_transaction_pure.
  - by rewrite sign_message_pure.
  - revert s H. change (preserves (same_keys s0) del). unfold del.
    preserve_with ltac:(first [apply lock_same_keys]).
Qed.

(** No lock makes an account unlocked. *)
Lemma lock_keeps_locked a b : preserves (fun s => dict_wf s.(signers) /\ dict_get s.(signers) a = None) (lock_account b).
Proof.
  intros s [Hw H]. destruct (lock_account_state b s) as [->| ->]; [done|]. split; [by apply dict_del_wf|].
  cbn [signers with_signers]. destruct (decide (b = a)) as [->|Hne]; [by apply dict_get_del_eq|].
  by rewrite dict_get_del_ne.
Qed.

Lemma lock_locks a s :
  checked_account a = Ok tt -> dict_wf s.(signers) -> dict_get (lock_account a s).2.(signers) a = None.
Proof.
  intros Hc Hw. unfold lock_account, py_bind, lift, gets, modify. rewrite Hc.
  destruct (dict_mem s.(signers) a) eqn:Hm; [by apply dict_get_del_eq|].
  assert (dict_get s.(signers) a = None) as Hn.
  { apply bool_decide_eq_false in Hm. destruct (dict_get _ _); [destruct Hm; by eexists|done]. }
  by destruct (bool_decide _).
Qed.

(** An account that is unlocked after a call was unlocked before it and not
    locked by it, or unlocked by it. *)
Lemma exec_unlocked c s a k :
  dict_wf s.(signers) -> checked_account a = Ok tt -> dict_get (exec c s).(signers) a = Some k ->
  (c <> Lock a /\ dict_get s.(signers) a = Some k) \/
  exists pw md, c = Unlock a pw /\ dict_get s.(keys) a = Some md /\ decrypt md pw = Ok k.
Proof.
  intros Hw Hc. destruct c as [b pw|b|t|b m|]; cbn [exec].
  - destruct (unlock_account_state b pw s) as [->|(md & k' & Hk & Hd & _ & ->)]; [by left|].
    cbn [signers with_signers]. rewrite dict_get_set. case_decide as Hab; [|by left].
    subst b. intros [= ->]. right. by exists pw, md.
  - destruct (decide (b = a)) as [->|Hne]; [by rewrite lock_locks|]. intros Hk. left. split; [congruence|].
    destruct (lock_account_state b s) as [E|E]; rewrite E in Hk; [done|].
    cbn [signers with_signers] in Hk. by rewrite dict_get_del_ne in Hk.
  - rewrite sign_transaction_pure. by left.
  - rewrite sign_message_pure. by left.
  - intros Hk. left. split; [done|]. destruct (dict_get s.(signers) a) as [k'|] eqn:Hs.
    + assert (forall v, dict_get s.(signers) a = Some v -> v = k' ) as Hv by congruence.
      assert (preserves (fun s => dict_wf s.(signers) /\ forall v, dict_get s.(signers) a = Some v -> v = k') del) as Hp.
      { unfold del. preserve_with ltac:(first [idtac]).
        intros s1 [Hw1 H1]. destruct (lock_account_state x s1) as [->| ->]; [done|]. split; [by apply dict_del_wf|].
        cbn [signers with_signers]. destruct (decide (x = a)) as [->|Hne]; [by rewrite dict_get_del_eq|].
        by rewrite dict_get_del_ne. }
      destruct (Hp s (conj Hw Hv)) as [_ H2]. by rewrite (H2 k Hk).
    + assert (preserves (fun s => dict_wf s.(signers) /\ dict_get s.(signers) a = None) del) as Hp
        by (unfold del; preserve_with ltac:(first [apply lock_keeps_locked])).
      destruct (Hp s (conj Hw Hs)) as [_ H2]. congruence.
Qed.

Lemma run_snoc cs c s : run (cs ++ [c]) s = exec c (run cs s).
Proof. unfold run. by rewrite foldl_app. Qed.

Lemma run_same_keys cs s : dict_wf s.(signers) -> same_keys s (run cs s).
Proof.
  intros Hw. induction cs as [|c cs IH] using rev_ind; [by split|]. rewrite run_snoc. by apply exec_same_keys.
Qed.

Lemma run_unlocked cs s a k :
  s.(signers) = [] -> checked_account a = Ok tt -> dict_get (run cs s).(signers) a = Some k ->
  exists pre pw post md, cs = pre ++ Unlock a pw :: post /\ Lock a ∉ post /\
    dict_get s.(keys) a = Some md /\ decrypt md pw = Ok k.
Proof.
  intros Hs Hc. assert (dict_wf s.(signers)) as Hw by (rewrite Hs; constructor).
  induction cs as [|c cs IH] using rev_ind; [cbn; by rewrite Hs|]. rewrite run_snoc. intros Hk.
  destruct (run_same_keys cs s Hw) as [Hkeys Hw'].
  destruct (exec_unlocked c (run cs s) a k Hw' Hc Hk) as [[Hne Hk']|(pw & md & -> & Hmd & Hd)].
  - destruct (IH Hk') as (pre & pw & post & md & -> & Hin & Hmd & Hd).
    exists pre, pw, (post ++ [c]), md. split; [by rewrite <- app_assoc|]. split; [|done].
    rewrite elem_of_app, list_elem_of_singleton. intros [?|?]; [done|congruence].
  - exists cs, pw, [], md. rewrite Hkeys in Hmd. split; [done|]. split; [apply not_elem_of_nil|done].
Qed.

(** [k] is what the password of an unlocking among the calls [cs] decrypts
    from the keyfile that [s] read for [a], and no later call locked [a]. *)
Definition unlocked_by (cs : list call) (s : signer) (a : bytes) (k : Key) : Prop :=
  exists pre pw post md, cs = pre ++ Unlock a pw :: post /\ Lock a ∉ post /\
    dict_get s.(keys) a = Some md /\ decrypt md pw = Ok k.

Lemma get_signer_unlocked cs s a k s' :
  s.(signers) = [] -> get_signer a (run cs s) = (Ok k, s') -> unlocked_by cs s a k.
Proof.
  intros Hs. unfold get_signer, py_bind, lift, gets. destruct (checked_account a) as [[]|] eqn:Hc; [|done].
  destruct (dict_get (run cs s).(signers) a) as [k'|] eqn:Hk; [|by destruct (dict_mem _ _)].
  unfold py_ret. intros [= <- _]. by apply run_unlocked.
Qed.

(** C21.  A signer just read from its keyfiles signs, whether messages or
    transactions, only with the key that a password of an earlier unlocking
    decrypts from the keyfile of the account, and not once the account was
    locked since.  The account is the one named in the call for a message and
    the one in the ['from'] field for a transaction, and what is signed is the
    message, or the transaction as it is but for a ['to'] that is empty. *)
Theorem signature_needs_unlock cs s :
  s.(signers) = [] ->
  (forall a m sig s', sign_message a m (run cs s) = (Ok sig, s') ->
    exists k, unlocked_by cs s a k /\ sign_defunct k m = Ok sig) /\
  (forall t sig s', sign_transaction t (run cs s) = (Ok sig, s') ->
    exists a receiver k, dict_get t "from"%string = Some (TText a) /\ dict_get t "to"%string = Some receiver /\
      unlocked_by cs s a k /\
      sign_tx k (match receiver with
                 | TText [] | TBytes [] | TInt 0%Z => dict_del t "to"%string
                 | _ => t
                 end) = Ok sig).
Proof.
  intros Hs. split.
  - intros a m sig s'. unfold sign_message, py_bind, lift. destruct (checked_account a) as [[]|]; [|done].
    destruct (get_signer a (run cs s)) as [[k|e] s1] eqn:Hk; [|done]. intros [= Hsig _].
    exists k. split; [by eapply get_signer_unlocked|done].
  - intros t sig s'. unfold sign_transaction, py_bind, lift, sender_of, without_empty_to.
    destruct (dict_get t "from"%string) as [sender|]; [|done]. destruct sender as [|a|]; try done.
    destruct (get_signer a (run cs s)) as [[k|e] s1] eqn:Hk; [|done].
    destruct (dict_get t "to"%string) as [receiver|]; [|done]. intros Hsig.
    exists a, receiver, k. split_and!; [done|done|by eapply get_signer_unlocked|].
    destruct receiver; repeat case_match; by simplify_eq.
Qed.

(** An unlocked account is unlocked with any password. *)
Lemma unlock_ignores_password a k s pw :
  checked_account a = Ok tt -> dict_get s.(signers) a = Some k -> unlock_account a pw s = (Ok true, s).
Proof. intros Hc Hs. unfold unlock_account, py_bind, lift, gets. by rewrite Hc, Hs. Qed.

(** ** The keyfiles of a directory *)

(** The file [q] is the keyfile of the account [a]. *)
Definition keyfile_of (fs : filesystem) (q : path) (a : bytes) (md : json) : Prop :=
  exists content text address, fs.(regular) !! q = Some content /\ decode content = Ok text /\ loads text = Ok md /\
    get_item md (to_bytes "address") = Ok address /\ is_address address = true /\ to_checksum_address address = Ok a.

Lemma read_keyfile_spec q fs :
  (read_keyfile q fs).2 = fs /\
  (forall address md, (read_keyfile q fs).1 = Ok (address, md) ->
   exists content text, fs.(regular) !! q = Some content /\ decode content = Ok text /\ loads text = Ok md /\
     get_item md (to_bytes "address") = Ok address).
Proof.
  unfold read_keyfile, py_bind, lift, read_file. destruct (is_dir fs q); [done|].
  destruct (fs.(regular) !! q) as [content|]; [|done]. destruct (decode content) as [text|] eqn:Ht; [|done].
  destruct (loads text) as [j|] eqn:Hj; [|done].
  destruct (get_item j (to_bytes "address")) as [address|] eqn:Ha; [|done]. cbn. split; [done|].
  intros ? ? [= <- <-]. by exists content, text.
Qed.

Lemma handle_keyfile_spec q fs :
  (handle_keyfile q fs).2 = fs /\ forall a md, (handle_keyfile q fs).1 = Ok (a, md) -> keyfile_of fs q a md.
Proof.
  unfold handle_keyfile, py_bind, try_except. destruct (read_keyfile_spec q fs) as [Hfs Hok].
  destruct (read_keyfile q fs) as [[[address j]|e] fs']; cbn [fst snd] in *; subst fs'; [|by destruct (catches _ e)].
  destruct (Hok address j eq_refl) as (content & text & H1 & H2 & H3 & H4).
  destruct (is_address address) eqn:Ha; [|done]. unfold lift. destruct (to_checksum_address address) as [c|] eqn:Hc; [|done].
  split; [done|]. intros ? ? [= <- <-]. by exists content, text, address.
Qed.

Lemma read_keyfiles_spec paths d fs d' fs' :
  read_keyfiles paths d fs = (Ok d', fs') ->
  fs' = fs /\
  (forall a md, dict_get d' a = Some md -> dict_get d a = Some md \/ exists q, q ∈ paths /\ keyfile_of fs q a md) /\
  (forall a, is_Some (dict_get d a) -> is_Some (dict_get d' a)) /\
  (forall q, q ∈ paths -> exists a md, keyfile_of fs q a md /\ is_Some (dict_get d' a)).
Proof.
  revert d. induction paths as [|p paths IH]; intros d; cbn [read_keyfiles].
  - intros [= <- <-]. split; [done|]. split; [by left|]. split; [done|]. by intros q ?%elem_of_nil.
  - unfold py_bind. destruct (handle_keyfile_spec p fs) as [Hfs Hok].
    destruct (handle_keyfile p fs) as [[[a0 md0]|e] fs1]; [|done]. cbn [fst snd] in Hfs, Hok |- *. subst fs1.
    specialize (Hok a0 md0 eq_refl). intros H. destruct (IH _ H) as (-> & H1 & H2 & H3). split; [done|]. split; [|split].
    + intros a md Ha. destruct (H1 a md Ha) as [Hd|(q & Hq & Hk)]; [|right; exists q; split; [by right|done]].
      rewrite dict_get_set in Hd. case_decide as Heq; [|by left]. subst a0. injection Hd as <-. right. exists p.
      split; [left|done].
    + intros a Ha. apply H2. rewrite dict_get_set. by case_decide; [eexists|].
    + intros q [->|Hq]%elem_of_cons; [|by apply H3]. exists a0, md0. split; [done|]. apply H2.
      rewrite dict_get_set_eq. by eexists.
Qed.

(** A signer opens on all keyfiles or not at all: when it does, its accounts
    are those of the regular files of its directory, or of its one file, each
    with the contents of such a file, and none of them is unlocked. *)
Theorem new_signer_accounts p net fs s fs' :
  new_signer p net fs = (Ok s, fs') ->
  let listed := if is_dir fs p then keyfiles p fs else [p] in
  fs' = fs /\ s.(signers) = [] /\
  (forall a md, dict_get s.(keys) a = Some md -> exists q, q ∈ listed /\ keyfile_of fs q a md) /\
  (forall q, q ∈ listed -> exists a md, keyfile_of fs q a md /\ is_Some (dict_get s.(keys) a)).
Proof.
  unfold new_signer, py_bind, read_keystore.
  assert (forall l, match read_keyfiles l [] fs with
                    | (Ok keys, s0) => py_ret (Signer p keys [] net) s0
                    | (Raise e, s0) => (Raise e, s0)
                    end = (Ok s, fs') ->
          fs' = fs /\ s.(signers) = [] /\
          (forall a md, dict_get s.(keys) a = Some md -> exists q, q ∈ l /\ keyfile_of fs q a md) /\
          (forall q, q ∈ l -> exists a md, keyfile_of fs q a md /\ is_Some (dict_get s.(keys) a))) as H.
  { intros l. destruct (read_keyfiles l [] fs) as [[d|e] fs1] eqn:Hr; [|done]. unfold py_ret. intros [= <- <-].
    destruct (read_keyfiles_spec _ _ _ _ _ Hr) as (-> & H1 & _ & H3). split; [done|]. split; [done|]. split; [|done].
    intros a md Ha. destruct (H1 a md Ha) as [[=]|?]; done. }
  destruct (is_dir fs p); [apply H|]. destruct (is_file fs p); [apply H|done].
Qed.

End KeystoreSigner.
Arguments signer : clear implicits.
End KeystoreSigner.

(** ** [ClefSigner] *)

(** Clef over its IPC file: [account_list] and [account_signData] with their
    arguments. *)
Class Clef (W : Type) := {
  account_list : PyM W (list json);
  account_signData : bytes -> bytes -> json -> PyM W bytes;
}.

Module ClefSigner.

Definition NULL_ADDRESS : bytes := to_bytes "0x0000000000000000000000000000000000000000".
Definition SIGN_DATA_FOR_VALIDATOR : bytes := to_bytes "data/validator".
Definition SIGN_DATA_FOR_CLIQUE : bytes := to_bytes "application/clique".
Definition SIGN_DATA_FOR_ECRECOVER : bytes := to_bytes "text/plain".
Definition DEFAULT_CONTENT_TYPE : bytes := SIGN_DATA_FOR_ECRECOVER.
Definition SIGN_DATA_CONTENT_TYPES : list bytes := [SIGN_DATA_FOR_VALIDATOR; SIGN_DATA_FOR_CLIQUE; SIGN_DATA_FOR_ECRECOVER].

(** A message: bytes, or a text that is passed on. *)
Inductive message := Bytes (b : bytes) | Text (s : bytes).

(** [Web3.toHex] of bytes. *)
Definition message_text (m : message) : bytes :=
  match m with Bytes b => to_bytes "0x" ++ hex b | Text s => s end.

Section ClefSigner.
Context {W Key : Type} `{!EthAccounts Key} `{!Clef W}.

(** [from_signer_uri]: the path of the IPC file. *)
Definition clef_path (uri : bytes) : result bytes :=
  let? uri_breakdown := Connection.urlparse uri in
  match uri_breakdown.(Connection.urlpath), uri_breakdown.(Connection.netloc) with
  | [], [] => Raise InvalidSignerURI
  | _, _ => if decide (uri_breakdown.(Connection.scheme) = to_bytes "clef")
            then Ok uri_breakdown.(Connection.urlpath) else Raise InvalidSignerURI
  end.

(** [accounts]. *)
Fixpoint all_checksums (l : list json) : result (list bytes) :=
  match l with
  | [] => Ok []
  | j :: l' => let? a := to_checksum_address (Key := Key) j in let? r := all_checksums l' in Ok (a :: r)
  end.
Definition clef_accounts : PyM W (list bytes) :=
  normalized_addresses <- account_list ;;
  lift (all_checksums normalized_addresses).

(** [sign_message]: the optional address is checked when there is one. *)
Definition clef_sign_message (account : bytes) (m : message) (content_type validator_address : option bytes) : PyM W bytes :=
  lift (checked_account (Key := Key) account) ;;;
  lift (match validator_address with Some a => checked_account (Key := Key) a | None => Ok tt end) ;;;
  let text := message_text m in
  content_type <- (match content_type with
                   | None | Some [] => py_ret DEFAULT_CONTENT_TYPE
                   | Some t => if decide (t ∈ SIGN_DATA_CONTENT_TYPES) then py_ret t else raise ValueError
                   end) ;;
  data <- (if decide (content_type = SIGN_DATA_FOR_VALIDATOR) then
             match validator_address with
             | None | Some [] => raise ValueError
             | Some a => if decide (a = NULL_ADDRESS) then raise ValueError
                         else py_ret (JObj [(to_bytes "address", JStr a); (to_bytes "message", JStr text)])
             end
           else if decide (content_type = SIGN_DATA_FOR_ECRECOVER) then py_ret (JStr text)
           else raise NotImplementedError) ;;
  account_signData content_type account data.

Definition sign_data_for_validator (account : bytes) (m : message) (validator_address : bytes) : PyM W bytes :=
  clef_sign_message account m (Some SIGN_DATA_FOR_VALIDATOR) (Some validator_address).

(** What Clef is asked: the plain text, or the text bound to a validator that
    is an address other than the null one; nothing else is signed. *)
Lemma clef_sign_message_data account m content_type validator_address w sig w' :
  clef_sign_message account m content_type validator_address w = (Ok sig, w') ->
  account_signData SIGN_DATA_FOR_ECRECOVER account (JStr (message_text m)) w = (Ok sig, w') \/
  exists a, validator_address = Some a /\ a <> [] /\ a <> NULL_ADDRESS /\ is_checksum_address (Key := Key) a = true /\
    account_signData SIGN_DATA_FOR_VALIDATOR account
      (JObj [(to_bytes "address", JStr a); (to_bytes "message", JStr (message_text m))]) w = (Ok sig, w').
Proof.
  unfold clef_sign_message, py_bind at 1 2, lift. destruct (checked_account account) as [[]|]; [|done].
  destruct (match validator_address with Some a => checked_account a | None => Ok tt end) as [[]|] eqn:Hv; [|done].
  unfold py_bind at 1.
  assert (forall t : bytes, (data <-
      (if decide (t = SIGN_DATA_FOR_VALIDATOR) then
         match validator_address with
         | None | Some [] => raise ValueError
         | Some a => if decide (a = NULL_ADDRESS) then raise ValueError
                     else py_ret (JObj [(to_bytes "address", JStr a); (to_bytes "message", JStr (message_text m))])
         end
       else if decide (t = SIGN_DATA_FOR_ECRECOVER) then py_ret (JStr (message_text m))
       else raise NotImplementedError) ;;
      account_signData t account data) w = (Ok sig, w') ->
    account_signData SIGN_DATA_FOR_ECRECOVER account (JStr (message_text m)) w = (Ok sig, w') \/
    exists a, validator_address = Some a /\ a <> [] /\ a <> NULL_ADDRESS /\ is_checksum_address (Key := Key) a = true /\
      account_signData SIGN_DATA_FOR_VALIDATOR account
        (JObj [(to_bytes "address", JStr a); (to_bytes "message", JStr (message_text m))]) w = (Ok sig, w')) as H.
  { intros t. unfold py_bind. case_decide as Ht.
    - subst t. destruct validator_address as [[|c a]|]; [done| |done]. case_decide as Hn; [done|]. unfold py_ret.
      intros Hs. right. exists (c :: a). repeat split; try done.
      unfold checked_account in Hv. by destruct (is_checksum_address _).
    - case_decide as He; [|done]. subst t. unfold py_ret. by left. }
  destruct content_type as [[|c t]|]; [apply H| |apply H]. case_decide; [apply H|done].
Qed.

End ClefSigner.
End ClefSigner.

(** ** The address cache of [TrezorSigner] *)

(** The device: [ethereum.get_address] of an HD path, and its signatures. *)
Class Trezor (W : Type) := {
  get_address : string -> PyM W bytes;
  trezor_sign_message : string -> bytes -> PyM W bytes;
}.

Module TrezorSigner.
Section TrezorSigner.
Context {W : Type} `{!Trezor W}.

Definition ADDRESS_CACHE_SIZE : nat := 10.

Definition derivation_root (testnet : bool) : string :=
  ("44'/" +:+ (if testnet then "1" else "60") +:+ "'/0'/0")%string.
Definition hd_path (testnet : bool) (index : nat) : string := (derivation_root testnet +:+ "/" +:+ pretty index)%string.

(** [__get_address_path]. *)
Definition get_address_path (testnet : bool) (addresses : list (bytes * string)) (index : option nat)
    (checksum_address : option bytes) : result string :=
  match index, checksum_address with
  | Some _, Some (_ :: _) => Raise ValueError
  | Some i, _ => Ok (hd_path testnet i)
  | None, Some a => match dict_get addresses a with Some p => Ok p | None => Raise RuntimeError end
  | None, None => Raise RuntimeError
  end.

(** [__cache_addresses]. *)
Fixpoint cache_addresses (testnet : bool) (indices : list nat) (addresses : list (bytes * string))
    : PyM W (list (bytes * string)) :=
  match indices with
  | [] => py_ret addresses
  | index :: indices' =>
      hd_path <- lift (get_address_path testnet addresses (Some index) None) ;;
      address <- get_address hd_path ;;
      cache_addresses testnet indices' (dict_set addresses address hd_path)
  end.

Definition new_trezor (testnet : bool) : PyM W (list (bytes * string)) :=
  cache_addresses testnet (seq 0 ADDRESS_CACHE_SIZE) [].

Definition trezor_from_signer_uri (uri : bytes) (testnet : bool) : PyM W (list (bytes * string)) :=
  if decide (uri = to_bytes "trezor") then new_trezor testnet else raise InvalidSignerURI.

(** [sign_message], whose parameter is not the one of the other signers. *)
Definition sign_message (testnet : bool) (addresses : list (bytes * string)) (message checksum_address : bytes) : PyM W bytes :=
  hd_path <- lift (get_address_path testnet addresses None (Some checksum_address)) ;;
  trezor_sign_message hd_path message.

(** The device is only asked to sign along a path whose address is the one
    asked for. *)
Lemma cache_addresses_paths testnet indices d (w : W) d' w' (addr : string -> bytes) :
  (forall p w, get_address p w = (Ok (addr p), w)) ->
  (forall a p, dict_get d a = Some p -> addr p = a) ->
  cache_addresses testnet indices d w = (Ok d', w') ->
  forall a p, dict_get d' a = Some p -> addr p = a.
Proof.
  intros Ha. revert d. induction indices as [|i indices IH]; intros d Hd; cbn [cache_addresses].
  - by intros [= <- <-].
  - unfold py_bind, lift. cbn [get_address_path]. rewrite Ha. apply IH. intros a p. rewrite dict_get_set.
    case_decide as He; [|apply Hd]. by intros [= <-].
Qed.

End TrezorSigner.
End TrezorSigner.

(** ** Choosing a signer by its URI *)

Module SignerUri.
Section SignerUri.
Context {W Key : Type} `{!EthAccounts Key, !Trezor W, !Web3Providers W, !Gas.PriceSource W}.

Inductive any_signer :=
  | Keystore (s : KeystoreSigner.signer Key)
  | ClefAt (ipc_path : bytes)
  | TrezorWith (addresses : list (bytes * string))
  | Web3With (client : option Clients.client).

Inductive signer_scheme := ClefScheme | KeystoreScheme | TrezorScheme.

(** [Signer._SIGNERS]. *)
Definition SIGNERS : list (bytes * signer_scheme) :=
  [(to_bytes "clef", ClefScheme); (to_bytes "keystore", KeystoreScheme); (to_bytes "trezor", TrezorScheme)].

(** The factory of interfaces, the rest of the world and the file system. *)
Definition SM (A : Type) : Type := PyM ((Factory.factory (W := W) * W) * filesystem) A.

Definition in_rest {A} (m : PyM W A) : PyM (Factory.factory (W := W) * W) A := fun s =>
  let '(r, w) := m s.2 in (r, (s.1, w)).

(** [Web3Signer.from_signer_uri]. *)
Definition web3_from_signer_uri (uri : bytes) : SM any_signer :=
  n <- try_except (in_world (Factory.get_or_create_interface (Some uri) (Factory.Kwargs None None None None)))
         [UnsupportedProvider] (fun _ => raise InvalidSignerURI) ;;
  objects <- gets (fun s => s.1.1.(Factory.objects)) ;;
  match objects !! n with
  | Some i => py_ret (Web3With i.(Connection.eth_client))
  | None => raise AttributeError
  end.

(** [Signer.from_signer_uri]. *)
Definition from_signer_uri (uri : bytes) (testnet : bool) : SM any_signer :=
  parsed <- lift (Connection.urlparse uri) ;;
  let scheme := match parsed.(Connection.scheme) with [] => parsed.(Connection.urlpath) | s => s end in
  match dict_get SIGNERS scheme with
  | Some ClefScheme => p <- lift (ClefSigner.clef_path uri) ;; py_ret (ClefAt p)
  | Some KeystoreScheme => s <- in_files (KeystoreSigner.from_signer_uri uri testnet) ;; py_ret (Keystore s)
  | Some TrezorScheme => a <- in_world (in_rest (TrezorSigner.trezor_from_signer_uri uri testnet)) ;; py_ret (TrezorWith a)
  | None => try_except (web3_from_signer_uri uri) [InvalidSignerURI] (fun _ => raise InvalidSignerURI)
  end.

(** The name of a scheme alone is a signer's only for the Trezor. *)
Lemma bare_schemes testnet s :
  (from_signer_uri (to_bytes "keystore") testnet s).1 = Raise InvalidSignerURI /\
  (from_signer_uri (to_bytes "clef:") testnet s).1 = Raise InvalidSignerURI /\
  (from_signer_uri (to_bytes "trezor://device") testnet s).1 = Raise InvalidSignerURI.
Proof. destruct s as [[f w] fs]. repeat split; reflexivity. Qed.

End SignerUri.
End SignerUri.

(** * Witnesses *)

Module SignersDemo.
Import KeystoreSigner.

(** Keys are the ["secret"] of a keyfile, which the password must equal. *)
#[local] Instance demo_accounts : EthAccounts bytes := {|
  is_address j := match j with JStr s => bool_decide (length s = 4) | _ => false end;
  to_checksum_address j := match j with JStr s => Ok (to_bytes "0x" ++ s) | _ => Raise ValueError end;
  is_checksum_address a := bool_decide (length a = 6);
  decrypt j pw := match get_item j (to_bytes "secret"), pw with
                  | Ok (JStr s), Some p => if decide (s = p) then Ok s else Raise ValueError
                  | _, None => Raise TypeError
                  | _, _ => Raise ValueError
                  end;
  sign_tx k t := Ok (k ++ mjoin (to_bytes <$> t.*1));
  sign_defunct k m := Ok (k ++ m);
|}.

Definition keyfile (address secret : string) : bytes :=
  dumps (JObj [(to_bytes "address", JStr (to_bytes address)); (to_bytes "secret", JStr (to_bytes secret))]).

Definition home : filesystem :=
  put ["keys"; "a"]%string (keyfile "a1b2" "alpha") (put ["keys"; "b"]%string (keyfile "c3d4" "beta")
    (Filesystem ∅ {[ []; ["keys"%string] ]})).

Definition opened : signer bytes :=
  match (new_signer ["keys"%string] false home).1 with Ok s => s | Raise _ => Signer [] [] [] false end.

Lemma new_signer_accounts_witness :
  new_signer ["keys"%string] false home = (Ok opened, home) /\ opened.(signers) = [] /\
  is_Some (dict_get opened.(keys) (to_bytes "0xa1b2")).
Proof.
  assert (new_signer ["keys"%string] false home = (Ok opened, home)) as H by (vm_compute; reflexivity).
  destruct (new_signer_accounts ["keys"%string] false home opened home H) as (_ & H1 & _ & _).
  split; [exact H|]. split; [exact H1|]. vm_compute. by eexists.
Defined.

(** A wrong password, the right one, a signature and a signed transaction. *)
Lemma signature_needs_unlock_witness :
  let a := to_bytes "0xa1b2" in
  let cs := [Unlock a (Some (to_bytes "beta")); Unlock a (Some (to_bytes "alpha")); SignMessage a (to_bytes "x")] in
  let t := [("to", TBytes []); ("from", TText a); ("nonce", TInt 7)]%string in
  (sign_message a (to_bytes "!") (run cs opened)).1 = Ok (to_bytes "alpha!") /\
  (sign_message a (to_bytes "!") (run (cs ++ [Lock a]) opened)).1 = Raise AccountLocked /\
  (exists k, unlocked_by cs opened a k /\ k ++ to_bytes "!" = to_bytes "alpha!") /\
  (sign_transaction t (run cs opened)).1 = Ok (to_bytes "alphafromnonce") /\
  exists a' receiver k, dict_get t "from"%string = Some (TText a') /\ dict_get t "to"%string = Some receiver /\
    unlocked_by cs opened a' k.
Proof.
  intros a cs t.
  assert (sign_message a (to_bytes "!") (run cs opened) = (Ok (to_bytes "alpha!"), run cs opened)) as H
    by (vm_compute; reflexivity).
  assert (sign_transaction t (run cs opened) = (Ok (to_bytes "alphafromnonce"), run cs opened)) as Ht
    by (vm_compute; reflexivity).
  destruct (signature_needs_unlock cs opened eq_refl) as [Hm Hx].
  split; [by rewrite H|]. split; [vm_compute; reflexivity|]. split.
  - destruct (Hm a _ _ _ H) as (k & Hk & Hs). exists k. split; [exact Hk|]. by injection Hs.
  - split; [by rewrite Ht|]. destruct (Hx t _ _ Ht) as (a' & receiver & k & Hf & Hto & Hk & _).
    exists a', receiver, k. split_and!; [exact Hf|exact Hto|exact Hk].
Defined.

End SignersDemo.
