(* ===== verification/Config.v ===== *)
(** * nulink/config/base.py, characters.py and util.py: configuration files

    A configuration's attributes, the payload that its class exports, how it is
    written to a file and read back, and the parameters that a file gives a new
    configuration.  The constructors are in [Configurations]. *)

From Stdlib Require Import Ascii.
From stdpp Require Import gmap sets.
From S2P Require Import Prelude Text Json Files Networking Datastore.
#[local] Open Scope nat_scope.

Module Config.

(** Values of attributes and parameters: what JSON has; paths; dicts with
    paths in them; prices, in whole gwei; node storages, known by their
    payload; the constants that are false; and the objects that are given to
    characters, by their class and the arguments or attributes that matter. *)
Inductive value :=
  | J (j : json)
  | P (p : path)
  | D (m : list (bytes * value))
  | Decimal (z : Z)
  | Storage (payload : list (bytes * value))
  | Constant
  | Object (class : string) (members : list (bytes * value)).

Definition fields : Type := list (bytes * value).

(** A float of zero: no digit but 0 before an exponent. *)
Fixpoint zero_literal (l : bytes) : bool :=
  match l with
  | [] => true
  | c :: l' => if decide (c ∈ ["e"; "E"]%char) then true
               else bool_decide (c ∈ ["0"; "."; "-"]%char) && zero_literal l'
  end.

Definition json_true (j : json) : bool :=
  match j with
  | JNull | JBool false | JNum 0%Z | JStr [] | JArr [] | JObj [] => false
  | JFloat l => negb (zero_literal l)
  | _ => true
  end.

Definition value_true (v : value) : bool :=
  match v with
  | J j => json_true j
  | D [] | Decimal 0%Z | Constant => false
  | _ => true
  end.

(** [_stringify_paths] and what [json.dumps] makes of the result. *)
Fixpoint to_json (v : value) : result json :=
  match v with
  | J j => Ok j
  | P p => Ok (JStr (path_text p))
  | D m =>
      let? l := (fix items m := match m with
                                | [] => Ok []
                                | (k, v) :: m' => let? j := to_json v in let? l := items m' in Ok ((k, j) :: l)
                                end) m in
      Ok (JObj l)
  | Decimal _ | Storage _ | Constant | Object _ _ => Raise TypeError
  end.

Fixpoint to_items (m : fields) : result (list (bytes * json)) :=
  match m with
  | [] => Ok []
  | (k, v) :: m' => let? j := to_json v in let? l := to_items m' in Ok ((k, j) :: l)
  end.

(** ** The attributes of a configuration and its exported payload *)

Definition AM (A : Type) : Type := PyM fields A.

(** [self.name]: the attributes of the instance. *)
Definition attr (name : string) : AM value := fun a =>
  match dict_get a (to_bytes name) with Some v => (Ok v, a) | None => (Raise AttributeError, a) end.
Definition set_attr (name : string) (v : value) : AM unit := modify (fun a => dict_set a (to_bytes name) v).

Definition null : value := J JNull.
Definition field (name : string) (v : value) : bytes * value := (to_bytes name, v).

(** [str(x) if x else None], of a text or a number. *)
Definition text_or_none (v : value) : result value :=
  if value_true v then
    match v with
    | J (JStr s) => Ok (J (JStr s))
    | J (JNum z) | Decimal z => Ok (J (JStr (int_chars z)))
    | J (JFloat l) => Ok (J (JStr l))
    | P p => Ok (J (JStr (path_text p)))
    | _ => Raise TypeError
    end
  else Ok null.

(** [CharacterConfiguration.static_payload]; ["keystore"] is the path of the
    attached keystore.  The base class's payload is built and dropped. *)
Definition character_payload : AM fields :=
  keystore <- attr "keystore" ;;
  keystore_path <- lift (text_or_none keystore) ;;
  federated_only <- attr "federated_only" ;;
  checksum_address <- attr "checksum_address" ;;
  domain <- attr "domain" ;;
  learn_on_same_thread <- attr "learn_on_same_thread" ;;
  abort_on_learning_error <- attr "abort_on_learning_error" ;;
  start_learning_now <- attr "start_learning_now" ;;
  save_metadata <- attr "save_metadata" ;;
  node_storage <- attr "node_storage" ;;
  storage_payload <- lift match node_storage with Storage m => Ok m | _ => Raise AttributeError end ;;
  lonely <- attr "lonely" ;;
  let payload := [
    field "federated_only" federated_only; field "checksum_address" checksum_address;
    field "keystore_path" keystore_path; field "domain" domain;
    field "learn_on_same_thread" learn_on_same_thread; field "abort_on_learning_error" abort_on_learning_error;
    field "start_learning_now" start_learning_now; field "save_metadata" save_metadata;
    field "node_storage" (D storage_payload); field "lonely" lonely] in
  payload <-
    (if value_true federated_only then py_ret payload
     else
       eth_provider_uri <- attr "eth_provider_uri" ;;
       payload <-
         (if value_true eth_provider_uri then
            signer_uri <- attr "signer_uri" ;;
            (if value_true signer_uri then py_ret tt else set_attr "signer_uri" eth_provider_uri) ;;;
            poa <- attr "poa" ;;
            light <- attr "is_light" ;;
            signer_uri <- attr "signer_uri" ;;
            py_ret (dict_update payload [field "eth_provider_uri" eth_provider_uri; field "poa" poa;
                                         field "light" light; field "signer_uri" signer_uri])
          else py_ret payload) ;;
       registry_filepath <- attr "registry_filepath" ;;
       let payload := if value_true registry_filepath
                      then dict_update payload [field "registry_filepath" registry_filepath] else payload in
       max_gas_price <- attr "max_gas_price" ;;
       max_price <- lift (text_or_none max_gas_price) ;;
       gas_strategy <- attr "gas_strategy" ;;
       py_ret (dict_update payload [field "gas_strategy" gas_strategy; field "max_gas_price" max_price])) ;;
  config_root <- attr "config_root" ;;
  let base_payload := dict_update [field "config_root" config_root] payload in
  py_ret payload.

(** [AliceConfiguration.static_payload]. *)
Definition alice_payload : AM fields :=
  threshold <- attr "threshold" ;;
  shares <- attr "shares" ;;
  store_policies <- attr "store_policies" ;;
  store_cards <- attr "store_cards" ;;
  payment_network <- attr "payment_network" ;;
  payment_provider <- attr "payment_provider" ;;
  payment_method <- attr "payment_method" ;;
  let payload := [
    field "threshold" threshold; field "shares" shares; field "store_policies" store_policies;
    field "store_cards" store_cards; field "payment_network" payment_network;
    field "payment_provider" payment_provider; field "payment_method" payment_method] in
  federated_only <- attr "federated_only" ;;
  payload <-
    (if value_true federated_only then py_ret payload
     else
       rate <- attr "rate" ;;
       let payload := if value_true rate then dict_update payload [field "rate" rate] else payload in
       duration <- attr "duration" ;;
       py_ret (if value_true duration then dict_update payload [field "duration" duration] else payload)) ;;
  base <- character_payload ;;
  py_ret (dict_update base payload).

(** [BobConfiguration.static_payload]. *)
Definition bob_payload : AM fields :=
  store_policies <- attr "store_policies" ;;
  store_cards <- attr "store_cards" ;;
  base <- character_payload ;;
  py_ret (dict_update base [field "store_policies" store_policies; field "store_cards" store_cards]).

(** [UrsulaConfiguration.static_payload]. *)
Definition ursula_payload : AM fields :=
  operator_address <- attr "operator_address" ;;
  rest_host <- attr "rest_host" ;;
  rest_port <- attr "rest_port" ;;
  db_filepath <- attr "db_filepath" ;;
  availability_check <- attr "availability_check" ;;
  payment_method <- attr "payment_method" ;;
  payment_provider <- attr "payment_provider" ;;
  payment_network <- attr "payment_network" ;;
  base <- character_payload ;;
  py_ret (dict_update base [
    field "operator_address" operator_address; field "rest_host" rest_host; field "rest_port" rest_port;
    field "db_filepath" db_filepath; field "availability_check" availability_check;
    field "payment_method" payment_method; field "payment_provider" payment_provider;
    field "payment_network" payment_network]).

(** ** The classes *)

Inductive config_class := UrsulaConfiguration | AliceConfiguration | BobConfiguration.
#[export] Instance config_class_eq_dec : EqDecision config_class.
Proof. solve_decision. Defined.

Definition NAME (c : config_class) : bytes :=
  to_bytes match c with UrsulaConfiguration => "ursula" | AliceConfiguration => "alice" | BobConfiguration => "bob" end.
Definition VERSION : Z := 4.
Definition INDENTATION : nat := 2.

Definition static_payload (c : config_class) : AM fields :=
  match c with
  | UrsulaConfiguration => ursula_payload
  | AliceConfiguration => alice_payload
  | BobConfiguration => bob_payload
  end.

(** The arguments of type [Path] of a constructor and those of its bases. *)
Definition paths_only (c : config_class) : list bytes :=
  List.map to_bytes
    match c with
    | UrsulaConfiguration => ["db_filepath"; "keystore_path"; "config_root"; "filepath"; "registry_filepath"; "policy_registry_filepath"]
    | _ => ["config_root"; "filepath"; "keystore_path"; "registry_filepath"; "policy_registry_filepath"]
    end%string.

(** ** Serialization *)

(** [serialize]. *)
Definition serialize (c : config_class) : AM bytes :=
  payload <- static_payload c ;;
  items <- lift (to_items payload) ;;
  py_ret (dumps_indent INDENTATION (JObj (dict_set items (to_bytes "version") (JNum VERSION)))).

(** [payload[key] = Path(payload[key]) if payload[key] else None]. *)
Definition cast_path (v : value) : result value :=
  if value_true v then
    match v with
    | J (JStr s) => Ok (P (path_of_text s))
    | P p => Ok (P p)
    | _ => Raise TypeError
    end
  else Ok null.

(** [cast_paths_from]. *)
Fixpoint cast_paths (keys : list bytes) (payload : fields) : result fields :=
  match keys with
  | [] => Ok payload
  | key :: keys' =>
      match dict_get payload key with
      | Some v => let? p := cast_path v in cast_paths keys' (dict_set payload key p)
      | None => cast_paths keys' payload
      end
  end.

(** [version != cls.VERSION] of what the file has; a float is equal to its
    number, without an exponent. *)
Definition is_version (j : json) : bool :=
  match j with
  | JNum z => (z =? VERSION)%Z
  | JFloat l => match split ["."%char] l with
                | [a; b] => bool_decide (a = int_chars VERSION) && forallb (Ascii.eqb "0"%char) b
                | _ => false
                end
  | _ => false
  end.

(** [Path(payload['db_filepath'])]. *)
Definition path_field (payload : fields) (key : bytes) : result fields :=
  match dict_get payload key with
  | None => Raise KeyError
  | Some (J (JStr s)) => Ok (dict_set payload key (P (path_of_text s)))
  | Some (P p) => Ok (dict_set payload key (P p))
  | Some _ => Raise TypeError
  end.

(** [deserialize]. *)
Definition deserialize (c : config_class) (payload : bytes) : result fields :=
  let? deserialized_payload := loads payload in
  match deserialized_payload with
  | JArr _ => Raise TypeError
  | JObj m =>
      if negb (from_option is_version false (dict_get m (to_bytes "version"))) then Raise OldVersion
      else
        let? p := cast_paths (paths_only c) ((fun kv => (kv.1, J kv.2)) <$> dict_del m (to_bytes "version")) in
        match c with UrsulaConfiguration => path_field p (to_bytes "db_filepath") | _ => Ok p end
  | _ => Raise AttributeError
  end.

(** ** Files *)

(** [_read_configuration_file]. *)
Definition _read_configuration_file (c : config_class) (filepath : path) : PyM filesystem fields :=
  raw <- read_file filepath ;;
  raw_contents <- lift (decode raw) ;;
  lift (deserialize c raw_contents).

(** [peek]. *)
Definition peek (c : config_class) (filepath : path) (key : bytes) : PyM filesystem value :=
  payload <- _read_configuration_file c filepath ;;
  match dict_get payload key with Some v => py_ret v | None => raise ConfigurationError end.

(** The attributes and the file system. *)
Definition CM (A : Type) : Type := PyM (fields * filesystem) A.
Definition on_self {A} (m : AM A) : CM A := in_world m.
Definition on_disk {A} (m : PyM filesystem A) : CM A := in_files m.

(** [generate_filename]. *)
Definition generate_filename (c : config_class) (modifier : bytes) : string :=
  String.string_of_list_ascii
    (lower (NAME c) ++ (match modifier with [] => [] | _ => "-"%char :: modifier end) ++ to_bytes ".json").

(** A path that is an attribute. *)
Definition attr_path (name : string) : CM path :=
  v <- on_self (attr name) ;;
  match v with P p => py_ret p | _ => raise TypeError end.

(** [modifier or self.checksum_address], and before that the start of the id
    of Ursula's keystore. *)
Definition default_modifier (c : config_class) (modifier : bytes) : CM bytes :=
  modifier <-
    match c, modifier with
    | UrsulaConfiguration, [] =>
        id <- on_self (attr "keystore_id") ;;
        match id with J (JStr s) => py_ret (take 8 s) | _ => raise AttributeError end
    | _, _ => py_ret modifier
    end ;;
  match modifier with
  | [] =>
      address <- on_self (attr "checksum_address") ;;
      match address with J (JStr s) => py_ret s | v => if value_true v then raise TypeError else py_ret [] end
  | _ => py_ret modifier
  end.

(** [generate_filepath]. *)
Definition generate_filepath (c : config_class) (filepath : option path) (modifier : bytes) (override : bool) : CM path :=
  modifier <- default_modifier c modifier ;;
  filepath <-
    match filepath with
    | Some p => py_ret p
    | None => root <- attr_path "config_root" ;; py_ret (child root (generate_filename c []))
    end ;;
  exists_ <- gets (fun s : fields * filesystem => path_exists s.2 filepath) ;;
  filepath <-
    (if exists_ && negb override then
       match modifier with
       | [] => raise FileExistsError
       | _ => root <- attr_path "config_root" ;; py_ret (child root (generate_filename c modifier))
       end
     else py_ret filepath) ;;
  on_self (set_attr "filepath" (P filepath)) ;;;
  py_ret filepath.

(** [_ensure_config_root_exists]. *)
Definition _ensure_config_root_exists : CM unit :=
  root <- attr_path "config_root" ;;
  exists_ <- gets (fun s : fields * filesystem => path_exists s.2 root) ;;
  if exists_ : bool then py_ret tt
  else try_except (on_disk (mkdir root)) [FileNotFoundError] (fun _ => on_disk (mkdir_parents root)).

(** [_write_configuration_file]: the file is opened, and so emptied, before
    the text is made. *)
Definition _write_configuration_file (c : config_class) (filepath : path) (override : bool) : CM path :=
  exists_ <- gets (fun s : fields * filesystem => path_exists s.2 filepath) ;;
  if exists_ && negb override then raise FileExistsError
  else
    on_disk (open_w filepath) ;;;
    text <- on_self (serialize c) ;;
    on_disk (modify (put filepath text)) ;;;
    py_ret filepath.

(** [to_configuration_file]. *)
Definition to_configuration_file (c : config_class) (filepath : option path) (modifier : bytes) (override : bool) : CM path :=
  filepath <- generate_filepath c filepath modifier override ;;
  _ensure_config_root_exists ;;;
  _write_configuration_file c filepath override.

(** [update] of attributes of the instance. *)
Fixpoint set_fields (updates : fields) : AM unit :=
  match updates with
  | [] => py_ret tt
  | (name, v) :: updates' => fun a =>
      if dict_mem a name then set_fields updates' (dict_set a name v) else (Raise ConfigurationError, a)
  end.

Definition update (c : config_class) (updates : fields) : CM unit :=
  on_self (set_fields updates) ;;;
  location <- attr_path "config_file_location" ;;
  _write_configuration_file c location true ;;;
  py_ret tt.

(** ** Parameters from a file *)

(** The direct subclasses of [NodeStorage]; [from_payload] makes the storage of
    its payload, see [Storages]. *)
Definition storage_types : list bytes := [to_bytes ":memory:"; to_bytes "local"].

Definition load_node_storage (storage_payload : value) : result value :=
  match storage_payload with
  | J (JObj m) =>
      match dict_get m (to_bytes "storage_type") with
      | Some (JStr t) => if decide (t ∈ storage_types) then Ok (Storage ((fun kv => (kv.1, J kv.2)) <$> m)) else Raise KeyError
      | Some (JArr _ | JObj _) => Raise TypeError
      | _ => Raise KeyError
      end
  | _ => Raise TypeError
  end.

(** [Decimal(max_gas_price)] of a whole number. *)
Definition to_decimal (v : value) : result value :=
  match v with
  | J (JStr s) => match Datastore.py_int s with Some z => Ok (Decimal z) | None => Raise ArithmeticError end
  | J (JNum z) | Decimal z => Ok (Decimal z)
  | J (JBool true) => Ok (Decimal 1)
  | _ => Raise TypeError
  end.

Definition not_none (kv : bytes * value) : Prop := kv.2 <> null.
#[local] Instance not_none_dec kv : Decision (not_none kv).
Proof. unfold not_none, null. destruct (kv.2) as [[]| | | | | |]; (right; by intros []) || (left; discriminate). Defined.

(** [assemble], by [overrides] that are not [None]. *)
Definition assemble_payload (c : config_class) (payload overrides : fields) : result fields :=
  let required key := match dict_get payload (to_bytes key) with Some v => Ok v | None => Raise KeyError end in
  let? storage_payload := required "node_storage"%string in
  let? federated_only := required "federated_only"%string in
  let? node_storage := load_node_storage storage_payload in
  let? max_gas_price :=
    match dict_get payload (to_bytes "max_gas_price") with
    | Some v => if value_true v then to_decimal v else Ok v
    | None => Ok null
    end in
  let payload := dict_update payload [field "node_storage" node_storage; field "max_gas_price" max_gas_price] in
  let? payload := cast_paths (paths_only c) payload in
  let payload := dict_update payload (filter not_none overrides) in
  match c with UrsulaConfiguration => path_field payload (to_bytes "db_filepath") | _ => Ok payload end.

Definition assemble (c : config_class) (filepath : path) (overrides : fields) : PyM filesystem fields :=
  payload <- _read_configuration_file c filepath ;;
  lift (assemble_payload c payload overrides).

(** ** What a file gives back *)

Lemma to_items_get pl items k :
  to_items pl = Ok items ->
  match dict_get pl k with
  | Some v => exists j, to_json v = Ok j /\ dict_get items k = Some j
  | None => dict_get items k = None
  end.
Proof.
  revert items. induction pl as [|[k' v] pl IH]; intros items; cbn [to_items]; [by intros [= <-]|].
  destruct (to_json v) as [j|] eqn:Hj; [|done]. cbn [rbind]. destruct (to_items pl) as [l|]; [|done].
  cbn [rbind]. intros [= <-]. cbn [dict_get]. case_decide; [by exists j|]. by apply IH.
Qed.

Lemma to_items_keys pl items : to_items pl = Ok items -> items.*1 = pl.*1.
Proof.
  revert items. induction pl as [|[k' v] pl IH]; intros items; cbn [to_items]; [by intros [= <-]|].
  destruct (to_json v) as [j|]; [|done]. cbn [rbind]. destruct (to_items pl) as [l|]; [|done].
  cbn [rbind]. intros [= <-]. csimpl. f_equal. by apply IH.
Qed.

Lemma dict_get_items (items : list (bytes * json)) k :
  dict_get ((fun kv => (kv.1, J kv.2)) <$> items) k = J <$> dict_get items k.
Proof. induction items as [|[k' j] items IH]; [done|]. csimpl. by case_decide. Qed.

(** What a cast leaves, when each path is a text, a path or false. *)
Lemma cast_paths_spec keys payload :
  NoDup keys ->
  (forall k v, k ∈ keys -> dict_get payload k = Some v -> is_ok (cast_path v) = true) ->
  exists p', cast_paths keys payload = Ok p' /\
    forall k, match dict_get payload k with
              | Some v => if decide (k ∈ keys) then exists u, cast_path v = Ok u /\ dict_get p' k = Some u
                          else dict_get p' k = Some v
              | None => dict_get p' k = None
              end.
Proof.
  intros Hnd. revert payload. induction Hnd as [|key keys Hin Hnd IH]; intros payload Hc; cbn [cast_paths].
  - exists payload. split; [done|]. intros k. by destruct (dict_get payload k).
  - destruct (dict_get payload key) as [v|] eqn:Hv.
    + pose proof (Hc key v ltac:(left) Hv) as Hok. destruct (cast_path v) as [u|] eqn:Hu; [|done]. cbn [rbind].
      destruct (IH (dict_set payload key u)) as (p' & Hp & Hget).
      { intros k v' Hk. rewrite dict_get_set. case_decide; [by subst|]. apply Hc. by right. }
      exists p'. split; [done|]. intros k. specialize (Hget k). rewrite dict_get_set in Hget.
      destruct (decide (k = key)) as [->|Hne].
      * rewrite Hv, decide_True by left. rewrite decide_False in Hget by done. by exists u.
      * destruct (dict_get payload k); [|done]. destruct (decide (k ∈ keys)) as [Hk|Hk].
        -- by rewrite decide_True by by right.
        -- by rewrite decide_False by by intros [?|?]%elem_of_cons.
    + destruct (IH payload) as (p' & Hp & Hget); [intros k v' Hk; apply Hc; by right|].
      exists p'. split; [done|]. intros k. specialize (Hget k). destruct (decide (k = key)) as [->|Hne].
      * by rewrite Hv in *.
      * destruct (dict_get payload k); [|done]. destruct (decide (k ∈ keys)) as [Hk|Hk].
        -- by rewrite decide_True by by right.
        -- by rewrite decide_False by by intros [?|?]%elem_of_cons.
Qed.

Lemma paths_only_nodup c : NoDup (paths_only c).
Proof. destruct c; apply (bool_decide_unpack _); vm_compute; exact I. Qed.

(** ** The keys of a payload *)

(** What a statement returns, if it returns. *)
Definition yields {S A} (Q : A -> Prop) (m : PyM S A) : Prop := forall s a s', m s = (Ok a, s') -> Q a.

Lemma yields_ret {S A} (Q : A -> Prop) (a : A) : Q a -> yields (S := S) Q (py_ret a).
Proof. by intros Ha s b s' [= <- _]. Qed.
Lemma yields_bind {S A B} (R : A -> Prop) (Q : B -> Prop) (m : PyM S A) (k : A -> PyM S B) :
  yields R m -> (forall a, R a -> yields Q (k a)) -> yields Q (py_bind m k).
Proof.
  intros Hm Hk s b s'. unfold py_bind. destruct (m s) as [[a|e] s1] eqn:Ha; [|done]. apply Hk. by eapply Hm.
Qed.
Lemma yields_then {S A B} (Q : B -> Prop) (m : PyM S A) (k : A -> PyM S B) :
  (forall a, yields Q (k a)) -> yields Q (py_bind m k).
Proof. intros Hk. apply (yields_bind (fun _ => True)); [done|]. intros a _. apply Hk. Qed.

(** A dict with keys of [K] only. *)
Definition keyed (K : list bytes) (m : fields) : Prop := dict_wf m /\ forall k, k ∈ m.*1 -> k ∈ K.

Lemma keyed_update K m e : keyed K m -> (forall k, k ∈ e.*1 -> k ∈ K) -> keyed K (dict_update m e).
Proof.
  intros [Hw Hk] He. split; [by apply dict_update_wf|]. intros k [?|?]%dict_update_keys; [by apply Hk|by apply He].
Qed.

Lemma keys_by (K : list bytes) (m : fields) :
  forallb (fun k => bool_decide (k ∈ K)) m.*1 = true -> forall k, k ∈ m.*1 -> k ∈ K.
Proof.
  intros Hk k Hin. rewrite forallb_forall in Hk. specialize (Hk k). rewrite <- list_elem_of_In in Hk.
  exact (bool_decide_eq_true_1 _ (Hk Hin)).
Qed.

Lemma keyed_by K m : bool_decide (NoDup m.*1) = true -> forallb (fun k => bool_decide (k ∈ K)) m.*1 = true -> keyed K m.
Proof. intros Hw Hk. split; [exact (bool_decide_eq_true_1 _ Hw)|by apply keys_by]. Qed.

Lemma keyed_mono K K' m : keyed K m -> (forall k, k ∈ K -> k ∈ K') -> keyed K' m.
Proof. intros [Hw Hk] HK. split; [done|]. auto. Qed.

(** The keys of the three payloads. *)
Definition character_keys : list bytes := List.map to_bytes
  ["federated_only"; "checksum_address"; "keystore_path"; "domain"; "learn_on_same_thread"; "abort_on_learning_error";
   "start_learning_now"; "save_metadata"; "node_storage"; "lonely"; "eth_provider_uri"; "poa"; "light"; "signer_uri";
   "registry_filepath"; "gas_strategy"; "max_gas_price"]%string.

Definition payload_keys (c : config_class) : list bytes := character_keys ++ List.map to_bytes
  match c with
  | UrsulaConfiguration => ["operator_address"; "rest_host"; "rest_port"; "db_filepath"; "availability_check";
                            "payment_method"; "payment_provider"; "payment_network"]
  | AliceConfiguration => ["threshold"; "shares"; "store_policies"; "store_cards"; "payment_network";
                           "payment_provider"; "payment_method"; "rate"; "duration"]
  | BobConfiguration => ["store_policies"; "store_cards"]
  end%string.

Ltac keyed_step :=
  match goal with
  | |- yields _ (py_bind (attr _) _) => apply yields_then; intros ?
  | |- yields _ (py_bind (lift _) _) => apply yields_then; intros ?
  | |- yields _ (py_bind (set_attr _ _) _) => apply yields_then; intros ?
  | |- yields _ (py_ret _) => apply yields_ret
  | |- yields _ (if ?b then _ else _) => destruct b
  | |- keyed _ (if ?b then _ else _) => destruct b
  | |- keyed _ (dict_update _ _) => apply keyed_update; [|apply keys_by; reflexivity]
  | |- keyed _ (_ :: _) => apply keyed_by; reflexivity
  | H : keyed _ ?m |- keyed _ ?m => exact H
  end.

Lemma character_payload_keys : yields (keyed character_keys) character_payload.
Proof.
  unfold character_payload. repeat keyed_step. apply (yields_bind (keyed character_keys)).
  - repeat keyed_step. apply (yields_bind (keyed character_keys)); [|intros payload Hp; repeat keyed_step].
    repeat keyed_step. apply yields_then. intros _. repeat keyed_step.
  - intros payload Hp. repeat keyed_step.
Qed.

Lemma static_payload_keys c : yields (keyed (payload_keys c)) (static_payload c).
Proof.
  assert (yields (keyed (payload_keys c)) character_payload) as Hbase.
  { intros s a s' H. eapply keyed_mono; [by eapply character_payload_keys|]. intros k Hk. apply elem_of_app. by left. }
  destruct c; cbn [static_payload].
  - unfold ursula_payload. repeat keyed_step. eapply yields_bind; [exact Hbase|]. intros base Hb. repeat keyed_step.
  - unfold alice_payload. repeat keyed_step. apply (yields_bind (keyed (payload_keys AliceConfiguration))); [repeat keyed_step|].
    intros payload Hp. eapply yields_bind; [exact Hbase|]. intros base Hb. apply yields_ret, keyed_update; [done|]. apply Hp.
  - unfold bob_payload. repeat keyed_step. eapply yields_bind; [exact Hbase|]. intros base Hb. repeat keyed_step.
Qed.

(** The root of a configuration is not among them. *)
Lemma config_root_is_not_saved c s pl s' :
  static_payload c s = (Ok pl, s') -> dict_get pl (to_bytes "config_root") = None.
Proof.
  intros H. destruct (static_payload_keys c _ _ _ H) as [_ Hk]. apply dict_get_None. intros Hin%Hk.
  revert Hin. destruct c; apply (bool_decide_unpack _); vm_compute; exact I.
Qed.

Lemma version_is_not_exported c s pl s' :
  static_payload c s = (Ok pl, s') -> to_bytes "version" ∉ pl.*1.
Proof.
  intros H. destruct (static_payload_keys c _ _ _ H) as [_ Hk]. intros Hin%Hk.
  revert Hin. destruct c; apply (bool_decide_unpack _); vm_compute; exact I.
Qed.

(** ** Round trip *)

(** Reading a text that was serialized from a payload. *)
Lemma deserialize_text c pl items :
  to_items pl = Ok items -> to_bytes "version" ∉ pl.*1 ->
  json_ok (JObj (dict_set items (to_bytes "version") (JNum VERSION))) = true ->
  decode (dumps_indent INDENTATION (JObj (dict_set items (to_bytes "version") (JNum VERSION)))) =
    Ok (dumps_indent INDENTATION (JObj (dict_set items (to_bytes "version") (JNum VERSION)))) /\
  deserialize c (dumps_indent INDENTATION (JObj (dict_set items (to_bytes "version") (JNum VERSION)))) =
  (let? p := cast_paths (paths_only c) ((fun kv => (kv.1, J kv.2)) <$> items) in
   match c with UrsulaConfiguration => path_field p (to_bytes "db_filepath") | _ => Ok p end).
Proof.
  intros Hitems Hv Hok. split; [by apply decode_ascii, ascii_dumps|].
  unfold deserialize, dumps_indent. rewrite loads_dumps_at by done. cbn [rbind]. rewrite dict_get_set_eq.
  change (from_option is_version false (Some (JNum VERSION))) with true. cbn [negb].
  replace (dict_del (dict_set items (to_bytes "version") (JNum VERSION)) (to_bytes "version")) with items; [done|].
  assert (to_bytes "version" ∉ items.*1) as Hi by (by rewrite (to_items_keys _ _ Hitems)).
  clear -Hi. induction items as [|[k j] items IH]; cbn [dict_set dict_del]; [by rewrite decide_True|].
  csimpl in Hi. apply not_elem_of_cons in Hi as [Hne Hi]. rewrite decide_False by done. cbn [dict_del].
  rewrite decide_False by done. f_equal. by apply IH.
Qed.

(** A field of the payload that is written as a path: a path, the text of
    one, or nothing. *)
Definition path_value (v : value) : Prop :=
  (exists q, Forall plain_part q /\ (v = P q \/ v = J (JStr (path_text q)))) \/ v = null.

(** What is read of a field. *)
Definition reread (c : config_class) (k : bytes) (v : value) : value :=
  if decide (k ∈ paths_only c) then
    match v with J (JStr s) => P (path_of_text s) | P q => P q | _ => null end
  else match to_json v with Ok j => J j | Raise _ => v end.

(** The payload [pl] can be written and its paths are paths; Ursula has the one
    of its database. *)
Definition exportable (c : config_class) (pl : fields) : Prop :=
  (exists items, to_items pl = Ok items /\ json_ok (JObj (dict_set items (to_bytes "version") (JNum VERSION))) = true) /\
  (forall k v, k ∈ paths_only c -> dict_get pl k = Some v -> path_value v) /\
  (c = UrsulaConfiguration -> exists q, Forall plain_part q /\ dict_get pl (to_bytes "db_filepath") = Some (P q)).

Lemma path_text_shape q : exists s, path_text q = "/"%char :: s.
Proof. destruct q as [|part q]; cbn [path_text flat_map]; by eexists. Qed.

(** The cast of a path that was written. *)
Lemma cast_written v j :
  path_value v -> to_json v = Ok j ->
  cast_path (J j) = Ok (match v with J (JStr s) => P (path_of_text s) | P q => P q | _ => null end).
Proof.
  intros [(q & Hq & [->| ->])| ->]; intros [= <-]; [| |done]; destruct (path_text_shape q) as [s Hs];
    unfold cast_path; cbn [value_true]; rewrite Hs; cbn [json_true]; rewrite <- Hs; [|done]; by rewrite path_of_path_text.
Qed.

Lemma reread_items c pl items :
  to_items pl = Ok items ->
  (forall k v, k ∈ paths_only c -> dict_get pl k = Some v -> path_value v) ->
  exists r, cast_paths (paths_only c) ((fun kv => (kv.1, J kv.2)) <$> items) = Ok r /\
    forall k, dict_get r k = reread c k <$> dict_get pl k.
Proof.
  intros Hitems Hp. destruct (cast_paths_spec (paths_only c) ((fun kv => (kv.1, J kv.2)) <$> items)) as (r & Hr & Hget).
  - apply paths_only_nodup.
  - intros k v Hk. rewrite dict_get_items. pose proof (to_items_get pl items k Hitems) as Hi.
    destruct (dict_get pl k) as [v'|] eqn:Hv; [|by rewrite Hi]. destruct Hi as (j & Hj & ->). intros [= <-].
    by rewrite (cast_written v' j (Hp k v' Hk Hv) Hj).
  - exists r. split; [done|]. intros k. specialize (Hget k). rewrite dict_get_items in Hget.
    pose proof (to_items_get pl items k Hitems) as Hi. destruct (dict_get pl k) as [v|] eqn:Hv; [|by rewrite Hi in Hget].
    destruct Hi as (j & Hj & Hi). rewrite Hi in Hget. cbn [fmap option_fmap option_map] in Hget |- *. unfold reread.
    case_decide as Hk.
    + destruct Hget as (u & Hu & ->). rewrite (cast_written v j (Hp k v Hk Hv) Hj) in Hu. by injection Hu as <-.
    + by rewrite Hget, Hj.
Qed.

Lemma write_configuration_ok c p o a fs q a' fs' :
  _write_configuration_file c p o (a, fs) = (Ok q, (a', fs')) ->
  q = p /\ is_dir fs p = false /\ (o = false -> path_exists fs p = false) /\
  exists pl items, static_payload c a = (Ok pl, a') /\ to_items pl = Ok items /\
    fs' = put p (dumps_indent INDENTATION (JObj (dict_set items (to_bytes "version") (JNum VERSION)))) (put p [] fs).
Proof.
  unfold _write_configuration_file, py_bind at 1, gets at 1. cbn [fst snd].
  destruct (path_exists fs p && negb o) eqn:He; [done|].
  unfold py_bind at 1, on_disk at 1, in_files, open_w. cbn [fst snd].
  destruct (is_dir fs p) eqn:Hd; [done|]. destruct (is_dir fs (parent p)); [|done]. cbn [negb].
  unfold py_bind at 1, on_self, in_world, serialize, py_bind at 1. cbn [fst snd].
  destruct (static_payload c a) as [[pl|e] a1] eqn:Hpl; [|done]. unfold py_bind, lift.
  destruct (to_items pl) as [items|] eqn:Hi; [|done]. unfold py_ret, on_disk, in_files, modify. cbn [fst snd].
  intros [= <- <- <-]. split; [done|]. split; [done|]. split.
  - intros ->. by rewrite andb_true_r in He.
  - by exists pl, items.
Qed.

(** Statements that change nothing. *)
Lemma attr_unchanged name s0 : preserves (fun s => s = s0) (on_self (attr name)).
Proof.
  intros [a fs] Hs. unfold on_self, in_world, attr. cbn [fst snd]. by destruct (dict_get a (to_bytes name)).
Qed.

Ltac unchanged := preserve_with ltac:(first [apply attr_unchanged]).

Lemma default_modifier_pure c m s : (default_modifier c m s).2 = s.
Proof.
  assert (preserves (fun s' => s' = s) (default_modifier c m)) as H; [|by apply H].
  unfold default_modifier. unchanged.
Qed.

Lemma attr_path_unchanged name s0 : preserves (fun s => s = s0) (attr_path name).
Proof. unfold attr_path. unchanged. Qed.

Lemma attr_path_pure name s : (attr_path name s).2 = s.
Proof. by apply (attr_path_unchanged name s). Qed.

Lemma generate_filepath_ok c fp m o a fs p s' :
  generate_filepath c fp m o (a, fs) = (Ok p, s') -> s' = (dict_set a (to_bytes "filepath") (P p), fs).
Proof.
  unfold generate_filepath. unfold py_bind at 1. pose proof (default_modifier_pure c m (a, fs)) as Hm.
  destruct (default_modifier c m (a, fs)) as [[m'|e] s1]; cbn [snd] in Hm; [subst s1|done].
  unfold py_bind at 1.
  match goal with |- context [match fp with Some _ => _ | None => _ end] =>
    match goal with |- context [?m (a, fs)] =>
      assert ((m (a, fs)).2 = (a, fs)) as Hfp
        by (assert (preserves (fun s => s = (a, fs)) m) as H by
              (preserve_with ltac:(first [apply attr_path_unchanged])); by apply H);
      destruct (m (a, fs)) as [[q|e] s1]; cbn [snd] in Hfp; [subst s1|done]
    end
  end.
  unfold py_bind at 1, gets at 1. cbn [snd]. unfold py_bind at 1.
  match goal with |- context [?m (a, fs)] =>
    assert ((m (a, fs)).2 = (a, fs)) as Hq
      by (assert (preserves (fun s => s = (a, fs)) m) as H by
            (preserve_with ltac:(first [apply attr_path_unchanged])); by apply H);
    destruct (m (a, fs)) as [[q'|e] s1]; cbn [snd] in Hq; [subst s1|done]
  end.
  unfold py_bind, on_self, in_world, set_attr, modify, py_ret. cbn [fst snd]. by intros [= -> <-].
Qed.

Lemma ensure_config_root_attributes a fs : (_ensure_config_root_exists (a, fs)).2.1 = a.
Proof.
  unfold _ensure_config_root_exists, py_bind at 1. pose proof (attr_path_pure "config_root" (a, fs)) as H.
  destruct (attr_path "config_root" (a, fs)) as [[r|e] s1]; cbn [snd] in H; subst s1; [|done].
  unfold py_bind, gets. cbn [snd]. destruct (path_exists fs r); [done|].
  unfold try_except, on_disk, in_files. cbn [fst snd]. destruct (mkdir r fs) as [[u|e] fs1]; [done|].
  destruct (catches _ e); [|done]. cbn [fst snd]. by destruct (mkdir_parents r fs1).
Qed.

(** What was written is the payload, and reading it gives it back. *)
Lemma configuration_written c fp m o a fs p a' fs' pl :
  to_configuration_file c fp m o (a, fs) = (Ok p, (a', fs')) ->
  (static_payload c (dict_set a (to_bytes "filepath") (P p))).1 = Ok pl ->
  exportable c pl ->
  exists r items, _read_configuration_file c p fs' = (Ok r, fs') /\
    (forall k, dict_get r k = reread c k <$> dict_get pl k) /\
    to_items pl = Ok items /\
    fs'.(regular) !! p = Some (dumps_indent INDENTATION (JObj (dict_set items (to_bytes "version") (JNum VERSION)))).
Proof.
  unfold to_configuration_file, py_bind at 1. intros H Hpl ((items & Hitems & Hok) & Hpaths & Hdb).
  destruct (generate_filepath c fp m o (a, fs)) as [[q|e] s1] eqn:Hg; [|done].
  apply generate_filepath_ok in Hg as ->. unfold py_bind in H.
  pose proof (ensure_config_root_attributes (dict_set a (to_bytes "filepath") (P q)) fs) as He.
  destruct (_ensure_config_root_exists _) as [[[]|e] [a1 fs1]]; [|done]. cbn [fst snd] in He. subst a1.
  apply write_configuration_ok in H as (-> & Hd & _ & pl' & items' & Hpl' & Hitems' & ->).
  pose proof Hpl' as Hkeys. rewrite Hpl' in Hpl. injection Hpl as ->.
  assert (items' = items) as -> by congruence.
  destruct (deserialize_text c pl items Hitems (version_is_not_exported _ _ _ _ Hkeys) Hok) as [Hdec Hdes].
  destruct (reread_items c pl items Hitems Hpaths) as (r & Hr & Hget).
  match goal with |- context [put q ?x (put q [] fs1)] =>
    assert ((put q x (put q [] fs1)).(regular) !! q = Some x) as Htext by (cbn [put regular]; by rewrite lookup_insert_eq)
  end.
  unfold _read_configuration_file, py_bind, lift.
  rewrite (read_put q _ (put q [] fs1)) by done. rewrite Hdec, Hdes, Hr. cbn [rbind].
  destruct c; [|by exists r, items..].
  destruct (Hdb eq_refl) as (d & Hplain & Hd'). unfold path_field.
  assert (dict_get r (to_bytes "db_filepath") = Some (P d)) as Hrd by (rewrite Hget, Hd'; done).
  rewrite Hrd. exists (dict_set r (to_bytes "db_filepath") (P d)), items. split; [done|]. split; [|done].
  intros k. rewrite dict_get_set. case_decide as Hk; [subst k; by rewrite <- Hget|apply Hget].
Qed.

(** A configuration that was written is read back: the file has exactly the
    fields that the class exports, paths as paths again, and nothing of the
    root of the configuration. *)
Theorem configuration_roundtrip c fp m o a fs p a' fs' pl :
  to_configuration_file c fp m o (a, fs) = (Ok p, (a', fs')) ->
  (static_payload c (dict_set a (to_bytes "filepath") (P p))).1 = Ok pl ->
  exportable c pl ->
  exists r, _read_configuration_file c p fs' = (Ok r, fs') /\
    (forall k, dict_get r k = reread c k <$> dict_get pl k) /\
    dict_get r (to_bytes "config_root") = None.
Proof.
  intros H Hpl Hex. destruct (configuration_written _ _ _ _ _ _ _ _ _ _ H Hpl Hex) as (r & items & Hr & Hget & _).
  exists r. split; [done|]. split; [done|]. rewrite Hget.
  destruct (static_payload c _) as [x s1] eqn:Hs in Hpl. cbn [fst] in Hpl. subst x.
  by rewrite (config_root_is_not_saved _ _ _ _ Hs).
Qed.

(** ** No file is overwritten without [override] *)

(** The files of [fs] have their contents still. *)
Definition keeps (fs : filesystem) (s : fields * filesystem) : Prop :=
  forall q content, fs.(regular) !! q = Some content -> s.2.(regular) !! q = Some content.

Lemma on_self_keeps {A} (m : AM A) fs : preserves (keeps fs) (on_self m).
Proof. intros [a fs1] Hk. unfold on_self, in_world. cbn [fst snd]. by destruct (m a). Qed.

Lemma put_keeps fs p content a fs1 :
  fs.(regular) !! p = None -> keeps fs (a, fs1) -> keeps fs (a, put p content fs1).
Proof.
  intros Hp Hk q x Hq. cbn [snd put regular]. rewrite lookup_insert_ne by congruence. by apply Hk.
Qed.

Lemma write_configuration_keeps c p fs : preserves (keeps fs) (_write_configuration_file c p false).
Proof.
  intros [a fs1] Hk. unfold _write_configuration_file, py_bind at 1, gets at 1. cbn [fst snd].
  destruct (path_exists fs1 p) eqn:He; [done|]. apply path_exists_false in He as [Hf Hd]. cbn [andb].
  assert (fs.(regular) !! p = None) as Hp.
  { destruct (fs.(regular) !! p) eqn:Hp; [|done]. apply Hk in Hp. cbn [snd] in Hp. congruence. }
  unfold py_bind at 1, on_disk at 1, in_files, open_w. cbn [fst snd]. rewrite Hd.
  destruct (is_dir fs1 (parent p)); [|done]. cbn [negb]. apply (put_keeps _ p []) in Hk; [|done].
  unfold py_bind at 1. pose proof (on_self_keeps (serialize c) fs (a, put p [] fs1) Hk) as Hs.
  destruct (on_self (serialize c) (a, put p [] fs1)) as [[text|e] [a2 fs2]]; [|done].
  unfold py_bind, on_disk, in_files, modify, py_ret. cbn [fst snd] in *. by apply put_keeps.
Qed.

Lemma ensure_config_root_keeps fs : preserves (keeps fs) _ensure_config_root_exists.
Proof.
  assert (forall r, preserves (keeps fs) (on_disk (mkdir r))) as H1.
  { intros r [a fs1] Hk. unfold on_disk, in_files, mkdir. cbn [fst snd].
    destruct (path_exists fs1 r); [done|]. by destruct (is_dir fs1 (parent r)). }
  assert (forall r, preserves (keeps fs) (on_disk (mkdir_parents r))) as H2.
  { intros r [a fs1] Hk. unfold on_disk, in_files. cbn [fst snd].
    destruct (mkdir_parents r fs1) as [u fs2] eqn:Hm. apply mkdir_parents_regular in Hm. intros q x Hq.
    cbn [snd]. rewrite Hm. by apply Hk. }
  unfold _ensure_config_root_exists, attr_path. preserve_with ltac:(first [apply on_self_keeps|apply H1|apply H2]).
Qed.

(** C29.  Saving without [override] overwrites nothing: whatever becomes of the
    call, every file there was has the contents it had. *)
Theorem saving_overwrites_nothing c fp m a fs q content :
  fs.(regular) !! q = Some content ->
  (to_configuration_file c fp m false (a, fs)).2.2.(regular) !! q = Some content.
Proof.
  assert (preserves (keeps fs) (to_configuration_file c fp m false)) as H.
  2: { intros Hq. by apply (H (a, fs)); [intros ? ?|]. }
  unfold to_configuration_file, generate_filepath, default_modifier, attr_path.
  preserve_with ltac:(first [apply on_self_keeps|apply write_configuration_keeps|apply ensure_config_root_keeps]).
Qed.

(** An update whose payload cannot be written leaves an empty file. *)
Lemma failed_update_empties_the_file c updates loc a a1 a2 fs e :
  set_fields updates a = (Ok tt, a1) -> dict_get a1 (to_bytes "config_file_location") = Some (P loc) ->
  is_dir fs loc = false -> is_dir fs (parent loc) = true -> serialize c a1 = (Raise e, a2) ->
  update c updates (a, fs) = (Raise e, (a2, put loc [] fs)).
Proof.
  intros Hs Hl Hd Hp He. unfold update, py_bind at 1, on_self at 1, in_world. cbn [fst snd]. rewrite Hs.
  unfold py_bind at 1. assert (attr_path "config_file_location" (a1, fs) = (Ok loc, (a1, fs))) as ->.
  { unfold attr_path, py_bind, on_self, in_world, attr. cbn [fst snd]. by rewrite Hl. }
  unfold _write_configuration_file, py_bind, gets. cbn [fst snd]. rewrite andb_false_r.
  unfold on_disk, in_files, open_w. cbn [fst snd]. rewrite Hd, Hp. cbn [negb].
  unfold on_self, in_world. cbn [fst snd]. by rewrite He.
Qed.

(** ** Parameters *)

(** [Decimal(max_gas_price)], or what is false. *)
Definition restored_cap (r : fields) : result value :=
  match dict_get r (to_bytes "max_gas_price") with
  | Some v => if value_true v then to_decimal v else Ok v
  | None => Ok null
  end.

Lemma restored_cap_ok r :
  (forall u, dict_get r (to_bytes "max_gas_price") = Some u -> u = null \/ exists z, u = J (JStr (int_chars z))) ->
  exists x, restored_cap r = Ok x /\
    forall z, dict_get r (to_bytes "max_gas_price") = Some (J (JStr (int_chars z))) -> x = Decimal z.
Proof.
  intros Hmax. unfold restored_cap. destruct (dict_get r (to_bytes "max_gas_price")) as [u|]; [|by exists null].
  destruct (Hmax u eq_refl) as [->|[z ->]]; [exists null; split; [done|by intros z [=]]|].
  assert (value_true (J (JStr (int_chars z))) = true) as ->.
  { cbn [value_true json_true]. destruct (int_chars z) eqn:Hz; [|done].
    unfold int_chars in Hz. destruct (z <? 0)%Z; [done|by apply nat_chars_nonempty in Hz]. }
  cbn [to_decimal]. rewrite Datastore.py_int_int_chars. exists (Decimal z). split; [done|].
  intros z' [= Heq]. f_equal. apply (f_equal Datastore.py_int) in Heq. rewrite !Datastore.py_int_int_chars in Heq.
  congruence.
Qed.

(** No path is the field of the storage or of the cap. *)
Lemma paths_only_others c k : k ∈ paths_only c -> k <> to_bytes "node_storage" /\ k <> to_bytes "max_gas_price".
Proof. intros Hk. split; intros ->; revert Hk; destruct c; apply (bool_decide_unpack _); vm_compute; exact I. Qed.

(** A payload read back gives the parameters that were saved: the node storage
    and the cap on the price are restored as objects, everything else is as it
    was read. *)
Lemma assembled_parameters c r m t v :
  (forall k u, k ∈ paths_only c -> dict_get r k = Some u -> u = null \/ exists q, u = P q) ->
  dict_get r (to_bytes "node_storage") = Some (J (JObj m)) ->
  dict_get m (to_bytes "storage_type") = Some (JStr t) -> t ∈ storage_types ->
  dict_get r (to_bytes "federated_only") = Some v ->
  (forall u, dict_get r (to_bytes "max_gas_price") = Some u -> u = null \/ exists z, u = J (JStr (int_chars z))) ->
  (c = UrsulaConfiguration -> exists q, dict_get r (to_bytes "db_filepath") = Some (P q)) ->
  exists params, assemble_payload c r [] = Ok params /\
    dict_get params (to_bytes "node_storage") = Some (Storage ((fun kv => (kv.1, J kv.2)) <$> m)) /\
    (forall z, dict_get r (to_bytes "max_gas_price") = Some (J (JStr (int_chars z))) ->
       dict_get params (to_bytes "max_gas_price") = Some (Decimal z)) /\
    (forall x, restored_cap r = Ok x -> dict_get params (to_bytes "max_gas_price") = Some x) /\
    forall k, k <> to_bytes "node_storage" -> k <> to_bytes "max_gas_price" -> dict_get params k = dict_get r k.
Proof.
  intros Hpaths Hns Ht Hin Hfed Hmax Hdb. unfold assemble_payload. rewrite Hns, Hfed. cbn [rbind load_node_storage].
  rewrite Ht, decide_True by done. cbn [rbind].
  fold (restored_cap r). destruct (restored_cap_ok r Hmax) as (x & Hcap & Hx). rewrite Hcap.
  cbn [rbind]. set (r' := dict_update r [field "node_storage" _; field "max_gas_price" x]).
  assert (forall k, dict_get r' k = if decide (k = to_bytes "node_storage") then Some (Storage ((fun kv => (kv.1, J kv.2)) <$> m))
                                    else if decide (k = to_bytes "max_gas_price") then Some x else dict_get r k) as Hr'.
  { intros k. unfold r', field. cbn [dict_update foldl fst snd]. rewrite !dict_get_set.
    destruct (decide (k = to_bytes "max_gas_price")) as [->|]; [by rewrite decide_False by done|done]. }
  destruct (cast_paths_spec (paths_only c) r' (paths_only_nodup c)) as (p' & Hp & Hget).
  { intros k u Hk. destruct (paths_only_others c k Hk). rewrite Hr', !decide_False by done.
    intros Hu. by destruct (Hpaths k u Hk Hu) as [->|[q ->]]. }
  rewrite Hp. cbn [rbind].
  change (filter not_none []) with (@nil (bytes * value)). change (dict_update p' []) with p'.
  assert (forall k, dict_get p' k = dict_get r' k) as Heq.
  { intros k. specialize (Hget k). destruct (dict_get r' k) as [u|] eqn:Hu; [|done].
    destruct (decide (k ∈ paths_only c)) as [Hk|Hk]; [|done]. destruct Hget as (u' & Hc & ->).
    destruct (paths_only_others c k Hk). rewrite Hr', !decide_False in Hu by done.
    destruct (Hpaths k u Hk Hu) as [->|[q ->]]; by injection Hc as <-. }
  assert (forall params, (forall k, dict_get params k = dict_get r' k) ->
    dict_get params (to_bytes "node_storage") = Some (Storage ((fun kv => (kv.1, J kv.2)) <$> m)) /\
    (forall z, dict_get r (to_bytes "max_gas_price") = Some (J (JStr (int_chars z))) ->
       dict_get params (to_bytes "max_gas_price") = Some (Decimal z)) /\
    (forall x', Ok x = Ok x' -> dict_get params (to_bytes "max_gas_price") = Some x') /\
    forall k, k <> to_bytes "node_storage" -> k <> to_bytes "max_gas_price" -> dict_get params k = dict_get r k) as Hfin.
  { intros params Hpar. split; [by rewrite Hpar, Hr'|]. split.
    - intros z Hz. rewrite Hpar, Hr', decide_False by done. rewrite decide_True by done. f_equal. by apply Hx.
    - split; [intros x' [= <-]; by rewrite Hpar, Hr', decide_False, decide_True|]. intros k H1 H2. by rewrite Hpar, Hr', !decide_False. }
  destruct c; [|by exists p'; split; [done|apply Hfin]..].
  destruct (Hdb eq_refl) as [q Hq]. unfold path_field.
  assert (dict_get p' (to_bytes "db_filepath") = Some (P q)) as Hd by (by rewrite Heq, Hr', !decide_False).
  rewrite Hd. eexists. split; [reflexivity|]. apply Hfin. intros k. rewrite dict_get_set.
  case_decide as Hk; [subst k; by rewrite <- Heq, Hd|apply Heq].
Qed.

End Config.

(** * Witnesses *)

Module ConfigDemo.
Import Config.

(** A decentralized Bob with a configuration root of its own. *)
Definition root : path := ["srv"; "bob"]%string.
Definition bob : fields :=
  [field "keystore" (P ["srv"; "bob"; "keystore"; "k.priv"]%string);
   field "federated_only" (J (JBool false)); field "checksum_address" (J (JStr (to_bytes "0xB0b")));
   field "domain" (J (JStr (to_bytes "testnet"))); field "learn_on_same_thread" (J (JBool false));
   field "abort_on_learning_error" (J (JBool false)); field "start_learning_now" (J (JBool true));
   field "save_metadata" (J (JBool true));
   field "node_storage" (Storage [field "storage_type" (J (JStr (to_bytes ":memory:")))]);
   field "lonely" (J (JBool false)); field "eth_provider_uri" (J (JStr (to_bytes "https://node")));
   field "signer_uri" null; field "poa" null; field "is_light" (J (JBool false));
   field "registry_filepath" (P ["srv"; "registry.json"]%string); field "max_gas_price" (Decimal 50);
   field "gas_strategy" (J (JStr (to_bytes "fast"))); field "store_policies" (J (JBool true));
   field "store_cards" (J (JBool true)); field "config_root" (P root);
   field "config_file_location" (P ["srv"; "bob"; "bob.json"]%string)].

Definition disk : filesystem :=
  put ["srv"; "registry.json"]%string (to_bytes "[]") (Filesystem ∅ {[ []; ["srv"%string]; root ]}).

Definition saved := to_configuration_file BobConfiguration None [] false (bob, disk).
Definition file : path := child root "bob.json".

Definition exported : fields :=
  match (static_payload BobConfiguration (dict_set bob (to_bytes "filepath") (P file))).1 with Ok pl => pl | Raise _ => [] end.

Lemma exported_ok : exportable BobConfiguration exported.
Proof.
  split; [|split; [|done]].
  - exists (match to_items exported with Ok items => items | Raise _ => [] end). split; vm_compute; reflexivity.
  - intros k v Hk Hv. assert (k = to_bytes "keystore_path" \/ k = to_bytes "registry_filepath" \/ dict_get exported k = None)
      as [->|[->|Hn]]; [| | |congruence].
    + unfold paths_only in Hk. cbn [List.map] in Hk.
      repeat (apply elem_of_cons in Hk as [->|Hk]; [first [by left|by right; left|right; right; vm_compute; reflexivity]|]).
      by apply elem_of_nil in Hk.
    + left. exists ["srv"; "bob"; "keystore"; "k.priv"]%string. split.
      * repeat constructor; try discriminate; apply (bool_decide_unpack _); vm_compute; exact I.
      * right. change (dict_get exported (to_bytes "keystore_path")) with
          (Some (J (JStr (path_text ["srv"; "bob"; "keystore"; "k.priv"]%string)))) in Hv. congruence.
    + left. exists ["srv"; "registry.json"]%string. split.
      * repeat constructor; try discriminate; apply (bool_decide_unpack _); vm_compute; exact I.
      * left. change (dict_get exported (to_bytes "registry_filepath")) with
          (Some (P ["srv"; "registry.json"]%string)) in Hv. congruence.
Qed.

Lemma configuration_roundtrip_witness :
  saved.1 = Ok file /\
  exists r, _read_configuration_file BobConfiguration file saved.2.2 = (Ok r, saved.2.2) /\
    dict_get r (to_bytes "keystore_path") = Some (P ["srv"; "bob"; "keystore"; "k.priv"]%string) /\
    dict_get r (to_bytes "signer_uri") = Some (J (JStr (to_bytes "https://node"))) /\
    dict_get r (to_bytes "config_root") = None.
Proof.
  assert (saved.1 = Ok file) as Hs by (vm_compute; reflexivity). split; [exact Hs|].
  destruct (configuration_roundtrip BobConfiguration None [] false bob disk file saved.2.1 saved.2.2 exported)
    as (r & Hr & Hget & Hroot).
  - fold saved. rewrite <- Hs. by destruct saved as [? [? ?]].
  - vm_compute. reflexivity.
  - apply exported_ok.
  - exists r. split; [exact Hr|]. rewrite !Hget. split; [vm_compute; reflexivity|]. split; [vm_compute; reflexivity|].
    rewrite <- Hget. exact Hroot.
Defined.

(** A second time there is no modifier but the address. *)
Lemma saving_overwrites_nothing_witness :
  exists content, saved.2.2.(regular) !! file = Some content /\ content <> [] /\
    (to_configuration_file BobConfiguration None [] false saved.2).2.2.(regular) !! file = Some content /\
    (to_configuration_file BobConfiguration None [] false saved.2).1 = Ok (child root "bob-0xB0b.json").
Proof.
  exists (default [] (saved.2.2.(regular) !! file)).
  assert (saved.2.2.(regular) !! file = Some (default [] (saved.2.2.(regular) !! file))) as H by (vm_compute; reflexivity).
  split; [exact H|]. split; [vm_compute; discriminate|]. split; [|vm_compute; reflexivity].
  pose proof (saving_overwrites_nothing BobConfiguration None [] saved.2.1 saved.2.2 file _ H) as Hk.
  by destruct saved as [? [? ?]].
Defined.

(** The cap that a file gave a configuration is no obstacle to saving it, but
    any other price is: the file is emptied. *)
Example update_with_a_price :
  (update BobConfiguration [field "max_gas_price" (Decimal 60)] saved.2).1 = Ok tt /\
  let s := update BobConfiguration [field "store_cards" (Decimal 60)] saved.2 in
  s.1 = Raise TypeError /\ s.2.2.(regular) !! file = Some [].
Proof. split; [|split]; vm_compute; reflexivity. Qed.

End ConfigDemo.
