(* ===== verification/Compile.v ===== *)
(** * Compiled contracts by version

    nulink/blockchain/eth/sol/compile/aggregation.py, which sorts the outputs
    of the Solidity compiler by the version in their documentation, and the
    lookup of a version in interfaces.py.  Outputs are JSON values; the
    compiler is not modelled. *)

From Stdlib Require Import Ascii.
From S2P Require Import Prelude Text Json Datastore.
#[local] Open Scope nat_scope.

Module Compile.

(** ** The version of an output *)

Definition is_digit (c : ascii) : bool := Datastore.is_digit c.

(** The digits at the start of a text, and the rest. *)
Fixpoint take_digits (s : bytes) : bytes * bytes :=
  match s with
  | c :: s' => if is_digit c then let '(d, r) := take_digits s' in (c :: d, r) else ([], s)
  | [] => ([], [])
  end.

(** [DEVDOC_VERSION_PATTERN.fullmatch(details)]: the group, which is
    [v\d+\.\d+\.\d+] between bars. *)
Definition fullmatch_version (s : bytes) : option bytes :=
  match s with
  | "|"%char :: "v"%char :: r =>
      match take_digits r with
      | ((_ :: _) as a, "."%char :: r) =>
          match take_digits r with
          | ((_ :: _) as b, "."%char :: r) =>
              match take_digits r with
              | ((_ :: _) as c, ["|"%char]) => Some ("v"%char :: a ++ "."%char :: b ++ "."%char :: c)
              | _ => None
              end
          | _ => None
          end
      | _ => None
      end
  | _ => None
  end.

Definition DEFAULT_VERSION_STRING : bytes := to_bytes "v0.0.0".

(** [d.get(key)]; [None] is null. *)
Definition get_or_none (j : json) (key : bytes) : result json :=
  match j with JObj m => Ok (default JNull (dict_get m key)) | _ => Raise AttributeError end.

Definition extract_version (compiled_contract_outputs : json) : result bytes :=
  match get_item compiled_contract_outputs (to_bytes "devdoc") with
  | Raise KeyError => Raise CompilationError
  | Raise e => Raise e
  | Ok devdoc =>
      let? title := get_or_none devdoc (to_bytes "title") in
      match get_item devdoc (to_bytes "details") with
      | Raise KeyError => Ok DEFAULT_VERSION_STRING
      | Raise e => Raise e
      | Ok (JStr details) => Ok (default DEFAULT_VERSION_STRING (fullmatch_version details))
      | Ok _ => Raise TypeError
      end
  end.

(** ** Bytecode without its metadata *)

(** [\w] among the code points below 256. *)
Definition is_word (c : ascii) : bool :=
  let n := N_of_ascii c in
  ((48 <=? n) && (n <=? 57) || (65 <=? n) && (n <=? 90) || (n =? 95) || (97 <=? n) && (n <=? 122) ||
   (192 <=? n) && (n <=? 214) || (216 <=? n) && (n <=? 246) || (248 <=? n) && (n <=? 255))%N ||
  bool_decide (n ∈ [170; 178; 179; 181; 185; 186; 188; 189; 190]%N).

(** [METADATA_HASH_PATTERN]: literal characters and word characters, which
    makes 106 of them. *)
Definition metadata_pattern : list (option ascii) :=
  (Some <$> to_bytes "a264697066735822") ++ replicate 68 None ++ (Some <$> to_bytes "64736f6c6343") ++
  replicate 6 None ++ (Some <$> to_bytes "0033").

Fixpoint matches_at (pattern : list (option ascii)) (s : bytes) : bool :=
  match pattern, s with
  | [], _ => true
  | Some c :: pattern', d :: s' => Ascii.eqb c d && matches_at pattern' s'
  | None :: pattern', d :: s' => is_word d && matches_at pattern' s'
  | _ :: _, [] => false
  end.

(** [METADATA_HASH_PATTERN.sub('', s)]; [skip] characters are of a match. *)
Fixpoint without_metadata_from (skip : nat) (s : bytes) : bytes :=
  match s with
  | [] => []
  | c :: s' =>
      match skip with
      | S skip' => without_metadata_from skip' s'
      | 0 => if matches_at metadata_pattern s then without_metadata_from (length metadata_pattern - 1) s'
             else c :: without_metadata_from 0 s'
      end
  end.
Definition without_metadata (s : bytes) : bytes := without_metadata_from 0 s.

(** [METADATA_HASH_PATTERN.sub('', outputs['evm']['bytecode']['object'])]. *)
Definition stripped_bytecode (outputs : json) : result bytes :=
  let? evm := get_item outputs (to_bytes "evm") in
  let? bytecode := get_item evm (to_bytes "bytecode") in
  let? object := get_item bytecode (to_bytes "object") in
  match object with JStr s => Ok (without_metadata s) | _ => Raise TypeError end.

(** ** Merging *)

(** [bool(title)]. *)
Definition title_true (j : json) : bool :=
  match j with JNull | JBool false | JNum 0%Z | JStr [] | JArr [] | JObj [] => false | _ => true end.

(** [existing_title == new_title], of texts and [None]. *)
Definition title_eq (a b : json) : bool :=
  match a, b with
  | JStr s, JStr t => bool_decide (s = t)
  | JNull, JNull => true
  | _, _ => false
  end.

Definition validate_merge (existing_version new_version : json) (version_specifier : bytes) : result unit :=
  let? new_devdoc := get_item new_version (to_bytes "devdoc") in
  let? new_title := get_or_none new_devdoc (to_bytes "title") in
  if bool_decide (version_specifier <> DEFAULT_VERSION_STRING) && title_true new_title then
    let? existing_devdoc := get_item existing_version (to_bytes "devdoc") in
    let? existing_title := get_or_none existing_devdoc (to_bytes "title") in
    if title_eq existing_title new_title then
      let? existing_bytecode := stripped_bytecode existing_version in
      let? new_bytecode := stripped_bytecode new_version in
      if bool_decide (existing_bytecode = new_bytecode) then Ok tt else Raise CompilationError
    else Ok tt
  else Ok tt.

(** Contract outputs by version. *)
Definition versioned : Type := list (bytes * json).

(** The loop over the versions there are. *)
Fixpoint check_identical (bytecode : bytes) (vs : versioned) : result unit :=
  match vs with
  | [] => Ok tt
  | (_, existing_contract_outputs) :: vs' =>
      let? existing_bytecode := stripped_bytecode existing_contract_outputs in
      if bool_decide (bytecode = existing_bytecode) then Raise CompilationError else check_identical bytecode vs'
  end.

(** One contract output. *)
Definition merge_one (contract_outputs : json) (versioned_outputs : versioned) : result versioned :=
  let? version := extract_version contract_outputs in
  match dict_get versioned_outputs version with
  | None =>
      let? bytecode := stripped_bytecode contract_outputs in
      let? u := (match bytecode with [] => Ok tt | _ => check_identical bytecode versioned_outputs end) in
      Ok (dict_set versioned_outputs version contract_outputs)
  | Some existing_version =>
      let? u := validate_merge existing_version contract_outputs version in
      Ok (dict_set versioned_outputs version contract_outputs)
  end.

Fixpoint merge_outputs (outputs : list json) (versioned_outputs : versioned) : result versioned :=
  match outputs with
  | [] => Ok versioned_outputs
  | o :: outputs' => let? vs := merge_one o versioned_outputs in merge_outputs outputs' vs
  end.

(** [merge_contract_outputs] of the outputs of one contract. *)
Definition merge_contract_outputs (outputs : list json) : result versioned := merge_outputs outputs [].

(** The end of [multiversion_compile]: [merge_with(merge_contract_outputs, *dicts)],
    of dicts from the names of contracts to their outputs. *)
Fixpoint gather (dicts : list (list (bytes * json))) (acc : list (bytes * list json)) : list (bytes * list json) :=
  match dicts with
  | [] => acc
  | d :: dicts' =>
      gather dicts' (foldl (fun acc kv => dict_set acc kv.1 (default [] (dict_get acc kv.1) ++ [kv.2])) acc d)
  end.

Fixpoint merge_all (gathered : list (bytes * list json)) : result (list (bytes * versioned)) :=
  match gathered with
  | [] => Ok []
  | (name, outputs) :: gathered' =>
      let? vs := merge_contract_outputs outputs in
      let? rest := merge_all gathered' in
      Ok ((name, vs) :: rest)
  end.

Definition merge_with (dicts : list (list (bytes * json))) : result (list (bytes * versioned)) :=
  merge_all (gather dicts []).

(** ** [find_raw_contract_data] *)

(** Tuples of three numbers, in Python's order. *)
Definition triple : Type := Z * Z * Z.
Definition triple_lt (a b : triple) : bool :=
  let '(a1, a2, a3) := a in
  let '(b1, b2, b3) := b in
  ((a1 <? b1) || (a1 =? b1) && ((a2 <? b2) || (a2 =? b2) && (a3 <? b3)))%Z.

(** [major, minor, patch = [int(v) for v in version[1:].split(".", 3)]]: with
    more or fewer parts than three, or one that is no number, ValueError. *)
Definition parse_version (version : bytes) : result triple :=
  match split ["."%char] (drop 1 version) with
  | [a; b; c] =>
      match Datastore.py_int a, Datastore.py_int b, Datastore.py_int c with
      | Some major, Some minor, Some patch => Ok (major, minor, patch)
      | _, _, _ => Raise ValueError
      end
  | _ => Raise ValueError
  end.

Definition latest : bytes := to_bytes "latest".
Definition earliest : bytes := to_bytes "earliest".

(** The condition of the loop. *)
Definition better (requested_version : bytes) (parsed current : triple) : bool :=
  (current.1.1 =? -1)%Z ||
  bool_decide (requested_version = latest) && triple_lt current parsed ||
  bool_decide (requested_version = earliest) && triple_lt parsed current.

Fixpoint pick (requested_version : bytes) (vs : versioned) (current : triple) (chosen : option (bytes * json))
    : result (option (bytes * json)) :=
  match vs with
  | [] => Ok chosen
  | (version, data) :: vs' =>
      let? parsed := parse_version version in
      if better requested_version parsed current then pick requested_version vs' parsed (Some (version, data))
      else pick requested_version vs' current chosen
  end.

(** The version and the data; [None] for both of an empty dict.  Without a
    compilation the cache is a constant. *)
Definition find_raw_contract_data (cache : option (list (bytes * versioned))) (contract_name requested_version : bytes)
    : result (option (bytes * json)) :=
  match cache with
  | None => Raise InterfaceError
  | Some c =>
      match dict_get c contract_name with
      | None => Raise InterfaceUnknownContract
      | Some contract_data =>
          match dict_get contract_data requested_version with
          | Some data => Ok (Some (requested_version, data))
          | None =>
              if bool_decide (requested_version <> latest) && bool_decide (requested_version <> earliest)
              then Raise InterfaceUnknownContract
              else match contract_data with
                   | [vd] => Ok (Some vd)
                   | _ => pick requested_version contract_data (-1, -1, -1)%Z None
                   end
          end
      end
  end.

(** ** Versions that are extracted *)

Lemma take_digits_spec s d r : take_digits s = (d, r) -> s = d ++ r /\ Forall (fun c => is_digit c = true) d.
Proof.
  revert d r. induction s as [|c s IH]; intros d r; cbn [take_digits]; [by intros [= <- <-]|].
  destruct (is_digit c) eqn:Hc; [|by intros [= <- <-]].
  destruct (take_digits s) as [d' r'] eqn:Hd. intros [= <- <-]. destruct (IH d' r' eq_refl) as [-> Hall].
  split; [done|by constructor].
Qed.

(** A number of digits. *)
Lemma digits_value d :
  Forall (fun c => is_digit c = true) d -> d <> [] -> exists n, Datastore.py_int d = Some n /\ (0 <= n)%Z.
Proof.
  intros Hd Hne. unfold Datastore.py_int. rewrite Datastore.strip_id.
  2: { eapply Forall_impl; [exact Hd|]. intros c Hc. by apply Datastore.digit_not_blank. }
  assert (exists n, Datastore.digits_from true 0 d = Some n /\ (0 <= n)%Z) as H.
  { rewrite Datastore.digits_from_digits by done. eexists. split; [reflexivity|].
    assert (forall acc, (0 <= acc)%Z -> (0 <= foldl (fun acc c => 10 * acc + (Z.of_N (N_of_ascii c) - 48)) acc d)%Z) as H;
      [|by apply H].
    clear Hne. induction Hd as [|c d Hc Hd IH]; intros acc Ha; [done|]. cbn [foldl]. apply IH.
    unfold is_digit, Datastore.is_digit in Hc. apply andb_true_iff in Hc as [Hc _]. apply N.leb_le in Hc. lia. }
  destruct Hd as [|c d Hc Hd]; [done|]. by destruct c as [[] [] [] [] [] [] [] []].
Qed.

Lemma digits_no_dot d : Forall (fun c => is_digit c = true) d -> "."%char ∉ d.
Proof. intros Hd Hin. rewrite Forall_forall in Hd. by specialize (Hd _ Hin). Qed.

(** The version of the data: three numbers. *)
Definition versioned_by (v : bytes) (t : triple) : Prop := parse_version v = Ok t /\ (0 <= t.1.1)%Z.

Lemma parse_dotted a b c :
  Forall (fun c => is_digit c = true) a -> a <> [] -> Forall (fun c => is_digit c = true) b -> b <> [] ->
  Forall (fun c => is_digit c = true) c -> c <> [] ->
  exists t, versioned_by ("v"%char :: a ++ "."%char :: b ++ "."%char :: c) t.
Proof.
  intros Ha Ha' Hb Hb' Hc Hc'. destruct (digits_value a Ha Ha') as (x & Hx & Hx0).
  destruct (digits_value b Hb Hb') as (y & Hy & _). destruct (digits_value c Hc Hc') as (z & Hz & _).
  exists (x, y, z). split; [|done]. unfold parse_version.
  assert (split ["."%char] (a ++ "."%char :: b ++ "."%char :: c) = [a; b; c]) as Hs.
  { rewrite split_first by by apply digits_no_dot. f_equal. rewrite split_first by by apply digits_no_dot. f_equal.
    apply split_absent. by apply digits_no_dot. }
  change (drop 1 _) with (a ++ "."%char :: b ++ "."%char :: c). rewrite Hs. by rewrite Hx, Hy, Hz.
Qed.

Lemma fullmatch_version_parses s v : fullmatch_version s = Some v -> exists t, versioned_by v t.
Proof.
  unfold fullmatch_version. destruct s as [|[[] [] [] [] [] [] [] []] s]; try done.
  destruct s as [|[[] [] [] [] [] [] [] []] s]; try done.
  destruct (take_digits s) as [a r1] eqn:H1. apply take_digits_spec in H1 as [_ Ha].
  destruct a as [|a0 a]; [done|]. destruct r1 as [|[[] [] [] [] [] [] [] []] r1]; try done.
  destruct (take_digits r1) as [b r2] eqn:H2. apply take_digits_spec in H2 as [_ Hb].
  destruct b as [|b0 b]; [done|]. destruct r2 as [|[[] [] [] [] [] [] [] []] r2]; try done.
  destruct (take_digits r2) as [c r3] eqn:H3. apply take_digits_spec in H3 as [_ Hc].
  destruct c as [|c0 c]; [done|]. destruct r3 as [|[[] [] [] [] [] [] [] []] [|? ?]]; try done.
  intros [= <-]. by apply (parse_dotted (a0 :: a) (b0 :: b) (c0 :: c)).
Qed.

Lemma extracted_version_parses o v : extract_version o = Ok v -> exists t, versioned_by v t.
Proof.
  assert (exists t, versioned_by DEFAULT_VERSION_STRING t) as Hdef by (exists (0, 0, 0)%Z; by split).
  unfold extract_version. destruct (get_item o _) as [devdoc|e]; [|by destruct e].
  destruct (get_or_none devdoc _); [|done]. cbn [rbind]. destruct (get_item devdoc _) as [j|e].
  - destruct j; try done. intros [= <-]. destruct (fullmatch_version s) as [v'|] eqn:Hv; [|exact Hdef].
    by eapply fullmatch_version_parses.
  - destruct e; try done. by intros [= <-].
Qed.

(** ** What is merged *)

Lemma merge_one_ok o vs vs' :
  merge_one o vs = Ok vs' -> exists v, extract_version o = Ok v /\ vs' = dict_set vs v o.
Proof.
  unfold merge_one. destruct (extract_version o) as [v|]; [|done]. cbn [rbind].
  destruct (dict_get vs v) as [existing|].
  - destruct (validate_merge existing o v); [|done]. cbn [rbind]. intros [= <-]. by exists v.
  - destruct (stripped_bytecode o) as [b|]; [|done]. cbn [rbind].
    destruct (match b with [] => Ok tt | _ => check_identical b vs end); [|done]. cbn [rbind]. intros [= <-]. by exists v.
Qed.

(** The last output of each version is kept. *)
Lemma merge_outputs_ok outputs vs vs' :
  merge_outputs outputs vs = Ok vs' ->
  (forall v, dict_get vs' v = match last (filter (fun o => extract_version o = Ok v) outputs) with
                              | Some o => Some o
                              | None => dict_get vs v
                              end) /\
  (forall o, o ∈ outputs -> exists v, extract_version o = Ok v) /\ (dict_wf vs -> dict_wf vs').
Proof.
  revert vs. induction outputs as [|o outputs IH]; intros vs; cbn [merge_outputs].
  - intros [= <-]. split; [done|]. split; [by intros o ?%elem_of_nil|done].
  - destruct (merge_one o vs) as [vs1|] eqn:H1; [|done]. cbn [rbind]. apply merge_one_ok in H1 as (v & Hv & ->).
    intros H. destruct (IH _ H) as (Hget & Hall & Hwf). split; [|split].
    + intros u. rewrite Hget, dict_get_set, filter_cons. destruct (decide (extract_version o = Ok u)) as [He|He].
      * rewrite last_cons. destruct (last (filter _ outputs)); [done|]. rewrite decide_True; [done|congruence].
      * destruct (last (filter _ outputs)); [done|]. rewrite decide_False; [done|congruence].
    + intros o' [->|Ho]%elem_of_cons; [by exists v|by apply Hall].
    + intros Hw. by apply Hwf, dict_set_wf.
Qed.

(** ** The latest and the earliest version *)

(** [a] goes before [b] for a request. *)
Definition ahead (requested_version : bytes) (a b : triple) : bool :=
  if bool_decide (requested_version = latest) then triple_lt b a else triple_lt a b.

Definition known_request (r : bytes) : Prop := r = latest \/ r = earliest.

Lemma better_ahead r p cur : known_request r -> (0 <= cur.1.1)%Z -> better r p cur = ahead r p cur.
Proof.
  intros Hr Hc. unfold better, ahead. replace (cur.1.1 =? -1)%Z with false by lia.
  by destruct Hr as [->| ->]; cbn [orb andb]; [rewrite orb_false_r|].
Qed.

Lemma ahead_irrefl r a : ahead r a a = false.
Proof. destruct a as [[a1 a2] a3]. unfold ahead, triple_lt. destruct (bool_decide _); lia. Qed.

Lemma ahead_trans r a b c : ahead r a b = true -> ahead r c b = false -> ahead r c a = false.
Proof.
  destruct a as [[a1 a2] a3], b as [[b1 b2] b3], c as [[c1 c2] c3]. unfold ahead, triple_lt.
  destruct (bool_decide _); lia.
Qed.

Lemma ahead_negatrans r a b c : ahead r b a = false -> ahead r c b = false -> ahead r c a = false.
Proof.
  destruct a as [[a1 a2] a3], b as [[b1 b2] b3], c as [[c1 c2] c3]. unfold ahead, triple_lt.
  destruct (bool_decide _); lia.
Qed.

(** The loop from a version chosen so far: nothing is ahead of its result. *)
Lemma pick_spec r vs cur v d :
  known_request r -> versioned_by v cur -> (forall x, x ∈ vs.*1 -> exists t, versioned_by x t) ->
  exists v' d' t, pick r vs cur (Some (v, d)) = Ok (Some (v', d')) /\ (v', d') ∈ (v, d) :: vs /\ versioned_by v' t /\
    ahead r cur t = false /\ forall x tx, x ∈ vs.*1 -> versioned_by x tx -> ahead r tx t = false.
Proof.
  intros Hr. revert cur v d. induction vs as [|[x dx] vs IH]; intros cur v d Hv Hall; cbn [pick].
  - exists v, d, cur. split; [done|]. split; [left|]. split; [done|]. split; [apply ahead_irrefl|].
    by intros x tx ?%elem_of_nil.
  - destruct (Hall x ltac:(left)) as [tx Hx]. rewrite (proj1 Hx). cbn [rbind].
    rewrite better_ahead by (done || apply Hv). destruct (ahead r tx cur) eqn:Ha.
    + destruct (IH tx x dx Hx) as (v' & d' & t & Hp & Hin & Ht & Hc & Hrest); [intros y Hy; apply Hall; by right|].
      exists v', d', t. split; [done|]. split; [by right|]. split; [done|]. split.
      * assert (ahead r cur tx = false) as Hct by (by apply (ahead_trans r tx cur cur Ha), ahead_irrefl).
        by apply (ahead_negatrans r t tx cur).
      * intros y ty [->|Hy]%elem_of_cons Hyt; [|by apply (Hrest y)]. destruct Hx as [Hx _], Hyt as [Hyt _].
        cbn [fst] in Hyt. by assert (ty = tx) as -> by congruence.
    + destruct (IH cur v d Hv) as (v' & d' & t & Hp & Hin & Ht & Hc & Hrest); [intros y Hy; apply Hall; by right|].
      exists v', d', t. split; [done|]. split; [apply elem_of_cons in Hin as [->|Hin]; [left|right; by right]|].
      split; [done|]. split; [done|].
      intros y ty [->|Hy]%elem_of_cons Hyt; [|by apply (Hrest y)]. destruct Hx as [Hx _], Hyt as [Hyt _].
      cbn [fst] in Hyt. assert (ty = tx) as -> by congruence. by apply (ahead_negatrans r t cur tx).
Qed.

(** The whole loop, over at least one version. *)
Lemma pick_all r vs :
  known_request r -> vs <> [] -> (forall x, x ∈ vs.*1 -> exists t, versioned_by x t) ->
  exists v d t, pick r vs (-1, -1, -1)%Z None = Ok (Some (v, d)) /\ (v, d) ∈ vs /\ versioned_by v t /\
    forall x tx, x ∈ vs.*1 -> versioned_by x tx -> ahead r tx t = false.
Proof.
  intros Hr Hne Hall. destruct vs as [|[x dx] vs]; [done|]. cbn [pick].
  destruct (Hall x ltac:(left)) as [tx Hx]. rewrite (proj1 Hx). cbn [rbind].
  change (better r tx (-1, -1, -1)%Z) with true. cbv iota.
  destruct (pick_spec r vs tx x dx Hr Hx) as (v & d & t & Hp & Hin & Ht & Hc & Hrest); [intros y Hy; apply Hall; by right|].
  exists v, d, t. split; [done|]. split; [done|]. split; [done|].
  intros y ty [->|Hy]%elem_of_cons Hyt; [|by apply (Hrest y)]. destruct Hx as [Hx _], Hyt as [Hyt _].
  cbn [fst] in Hyt. by assert (ty = tx) as -> by congruence.
Qed.

Lemma request_is_no_version r t : known_request r -> ~ versioned_by r t.
Proof. by intros [->| ->] [Hp _]. Qed.

(** From the compiler's outputs to the latest version: once the outputs of a
    contract are merged, the lookup of the latest or earliest version finds the
    last output of a version that the outputs have, and no output has a later,
    or an earlier, one; that is, no version of an output fails to parse. *)
Theorem requested_version_is_found outputs vs c name r :
  merge_contract_outputs outputs = Ok vs -> outputs <> [] -> dict_get c name = Some vs -> known_request r ->
  exists v d t, find_raw_contract_data (Some c) name r = Ok (Some (v, d)) /\ versioned_by v t /\
    last (filter (fun o => extract_version o = Ok v) outputs) = Some d /\
    forall o, o ∈ outputs -> exists v' t', extract_version o = Ok v' /\ versioned_by v' t' /\ ahead r t' t = false.
Proof.
  intros Hm Hne Hc Hr. destruct (merge_outputs_ok outputs [] vs Hm) as (Hget & Hall & Hwf).
  specialize (Hwf ltac:(constructor)).
  assert (forall v, is_Some (dict_get vs v) <-> exists o, o ∈ outputs /\ extract_version o = Ok v) as Hkeys.
  { intros v. rewrite Hget. split.
    - destruct (last (filter _ outputs)) as [o|] eqn:Hl; [|by intros [? ?]]. intros _. exists o.
      apply last_Some_elem_of, list_elem_of_filter in Hl. tauto.
    - intros (o & Ho & Hv). destruct (last (filter _ outputs)) eqn:Hl; [by eexists|].
      apply last_None in Hl. assert (o ∈ filter (fun o => extract_version o = Ok v) outputs) as Hin
        by (by apply list_elem_of_filter). rewrite Hl in Hin. by apply elem_of_nil in Hin. }
  assert (forall x, x ∈ vs.*1 -> exists t, versioned_by x t) as Hparse.
  { intros x Hx. apply dict_get_is_Some, Hkeys in Hx as (o & _ & Hv). by eapply extracted_version_parses. }
  assert (vs <> []) as Hvs.
  { destruct outputs as [|o outputs]; [done|]. destruct (Hall o ltac:(left)) as [v Hv].
    destruct (proj2 (Hkeys v)) as [d Hd]; [exists o; split; [left|done]|]. by intros ->. }
  destruct (pick_all r vs Hr Hvs Hparse) as (v & d & t & Hp & Hin & Ht & Hmax).
  exists v, d, t. split; [|split; [done|split]].
  - unfold find_raw_contract_data. rewrite Hc. destruct (dict_get vs r) as [x|] eqn:Hx.
    { destruct (Hparse r) as [tr Htr]; [apply dict_get_is_Some; by eexists|]. by apply request_is_no_version in Htr. }
    replace (_ && _) with false by (by destruct Hr as [->| ->]).
    destruct vs as [|vd [|vd' vs]]; [done| |exact Hp]. cbn [pick] in Hp. destruct vd as [x dx].
    destruct (parse_version x); [|done]. cbn [rbind] in Hp. by destruct (better _ _ _).
  - apply (dict_elem_of_get vs v d) in Hin; [|done]. rewrite Hget in Hin. cbn [dict_get] in Hin.
    by destruct (last (filter _ outputs)).
  - intros o Ho. destruct (Hall o Ho) as [v' Hv']. destruct (extracted_version_parses o v' Hv') as [t' Ht'].
    exists v', t'. split; [done|]. split; [done|]. apply (Hmax v'); [|done]. apply dict_get_is_Some, Hkeys. by exists o.
Qed.

End Compile.

(** * Witnesses *)

Module CompileDemo.
Import Compile.

Definition output (title details code : string) : json :=
  JObj [(to_bytes "devdoc", JObj [(to_bytes "title", JStr (to_bytes title)); (to_bytes "details", JStr (to_bytes details))]);
        (to_bytes "evm", JObj [(to_bytes "bytecode", JObj [(to_bytes "object", JStr (to_bytes code))])])].

Definition v9 := output "Escrow" "|v1.9.0|" "60".
Definition v10 := output "Escrow" "|v1.10.0|" "61".
Definition plain := output "Library" "no version" "62".

Definition merged : versioned := [(to_bytes "v1.9.0", v9); (to_bytes "v1.10.0", v10); (DEFAULT_VERSION_STRING, plain)].

(** Versions are compared as numbers. *)
Lemma requested_version_is_found_witness :
  let outputs := [v9; v10; plain] in
  exists vs, merge_contract_outputs outputs = Ok vs /\
    find_raw_contract_data (Some [(to_bytes "Escrow", vs)]) (to_bytes "Escrow") latest = Ok (Some (to_bytes "v1.10.0", v10)) /\
    exists v d t, find_raw_contract_data (Some [(to_bytes "Escrow", vs)]) (to_bytes "Escrow") earliest = Ok (Some (v, d)) /\
      versioned_by v t /\ forall o, o ∈ outputs -> exists v' t', extract_version o = Ok v' /\ versioned_by v' t' /\
        ahead earliest t' t = false.
Proof.
  intros outputs. exists merged.
  assert (merge_contract_outputs outputs = Ok merged) as H by (vm_compute; reflexivity).
  split; [exact H|]. split; [vm_compute; reflexivity|].
  destruct (requested_version_is_found outputs merged [(to_bytes "Escrow", merged)] (to_bytes "Escrow") earliest H)
    as (v & d & t & H1 & H2 & _ & H3); [discriminate|reflexivity|by right|].
  exists v, d, t. split; [exact H1|]. split; [exact H2|exact H3].
Defined.

(** The check for identical bytecode depends on the order of the outputs: an
    output that replaces one of its version is not compared with the others. *)
Lemma identical_bytecode_by_order :
  let a := output "A" "" "aa" in let b := output "B" "|v1.0.0|" "bb" in let c := output "C" "" "bb" in
  merge_contract_outputs [a; b; c] = Ok [(DEFAULT_VERSION_STRING, c); (to_bytes "v1.0.0", b)] /\
  merge_contract_outputs [c; b; a] = Raise CompilationError.
Proof. split; vm_compute; reflexivity. Qed.

(** A hash of metadata is no part of the bytecode. *)
Example metadata_is_ignored :
  let hash := to_bytes "a264697066735822" ++ replicate 68 "0"%char ++ to_bytes "64736f6c63430007000033" in
  without_metadata (to_bytes "6080" ++ hash ++ to_bytes "fe") = to_bytes "6080fe".
Proof. vm_compute. reflexivity. Qed.

End CompileDemo.
