(* ===== verification/LearningLoop.v ===== *)
(** * nulink/network/nodes.py: the learning loop

    Starting and stopping the loop of a learner, the rounds that it hands to
    a thread of the reactor, and what becomes of their errors.  A round is
    [learn_from_teacher_node] of Nodes; the looping call of twisted is its
    running flag and interval. *)

From S2P Require Import Prelude Perception Nodes.

Module LearningLoop.
Import Perception Learner.

Section Loop.
Context {Checksum Nickname E Bytes Response : Type} `{!Network E Checksum Bytes Response}.
Variable FleetStateChecksum : option string -> list string -> Checksum.
Variable nickname_from_seed : Checksum -> Nickname.
Variable iter_nodes : list node -> list node.
Variable iter_addresses : list string -> list string.

Notation learner := (learner (Checksum := Checksum) (Nickname := Nickname) (E := E)).

(** The learner, whether [_learning_deferred] is one (or [None]), the rounds
    that wait for their thread, and [_abort_on_learning_error]. *)
Record loop := Loop {
  self : learner;
  _learning_deferred : bool;
  scheduled : nat;
  _abort_on_learning_error : bool;
}.

Definition on_learner {A} (m : PyM learner A) : PyM loop A := fun s =>
  let '(r, l) := m s.(self) in (r, Loop l s.(_learning_deferred) s.(scheduled) s.(_abort_on_learning_error)).

(** A round: the learner's own method. *)
Definition learn (use_canceller : bool) : PyM loop learned :=
  on_learner (learn_from_teacher_node FleetStateChecksum nickname_from_seed iter_nodes iter_addresses false use_canceller).

(** [keep_learning_about_nodes]: a new [Deferred], whose callback a thread is
    to run. *)
Definition keep_learning_about_nodes : PyM loop unit :=
  modify (fun s => Loop s.(self) true (S s.(scheduled)) s.(_abort_on_learning_error)).

(** [LoopingCall.start], of a loop that must not run, and [stop]. *)
Definition task_start (interval : Z) (now : bool) : PyM loop unit :=
  running <- gets (fun s => s.(self).(task_running)) ;;
  if running : bool then raise AssertionError
  else
    on_learner (modify (fun l => set_task_interval interval (set_task_running true l))) ;;;
    if now then keep_learning_about_nodes else py_ret tt.

(** [start_learning_loop]: [false] of a loop that runs. *)
Definition start_learning_loop (now : bool) : PyM loop bool :=
  running <- gets (fun s => s.(self).(task_running)) ;;
  if running : bool then py_ret false
  else
    (if now then learn false ;;; py_ret tt else py_ret tt) ;;;
    task_start _SHORT_LEARNING_DELAY now ;;;
    py_ret true.

(** [DiscoveryCanceller.__call__]. *)
Definition discovery_canceller : PyM loop unit :=
  stopped <- gets (fun s => s.(self).(stop_now)) ;;
  if stopped : bool then raise AssertionError else on_learner (modify (set_stop_now true)).

Definition stop_learning_loop : PyM loop unit :=
  running <- gets (fun s => s.(self).(task_running)) ;;
  (if running : bool then on_learner (modify (set_task_running false)) else py_ret tt) ;;;
  deferred <- gets _learning_deferred ;;
  if deferred : bool then discovery_canceller else py_ret tt.

(** [learn_about_nodes_now]: a running loop is only rescheduled. *)
Definition learn_about_nodes_now (force : bool) : PyM loop unit :=
  running <- gets (fun s => s.(self).(task_running)) ;;
  if running : bool then py_ret tt
  else if force then task_start _SHORT_LEARNING_DELAY true else py_ret tt.

(** [handle_learning_errors] and the crash that it asks the reactor for. *)
Definition handle_learning_errors (crash_right_now : bool) : PyM loop unit :=
  abort <- gets _abort_on_learning_error ;;
  if abort || crash_right_now then on_learner (modify (set__crashed true))
  else
    running <- gets (fun s => s.(self).(task_running)) ;;
    if running : bool then py_ret tt else start_learning_loop false ;;; py_ret tt.

(** [crash_right_now] of the error of a round: an attribute of the class of
    NotEnoughTeachers, and of anything that seeding raises. *)
Definition crashes_right_now (l : learner) (e : exn_class) : bool :=
  catches [NotEnoughTeachers] e ||
  negb l.(done_seeding) &&
    negb (is_ok (load_seednodes FleetStateChecksum nickname_from_seed iter_nodes iter_addresses true true l).1).

(** A thread runs the callback of a round: [_discover_or_abort] and the
    errback. *)
Definition run_round : PyM loop unit := fun s =>
  match s.(scheduled) with
  | 0 => (Ok tt, s)
  | S k =>
      let s1 := Loop s.(self) s.(_learning_deferred) k s.(_abort_on_learning_error) in
      match learn true s1 with
      | (Ok _, s2) => (Ok tt, s2)
      | (Raise e, s2) => handle_learning_errors (crashes_right_now s.(self) e) s2
      end
  end.

(** The looping call fires. *)
Definition fire : PyM loop unit :=
  running <- gets (fun s => s.(self).(task_running)) ;;
  if running : bool then keep_learning_about_nodes else py_ret tt.

(** What the reactor, the console and the server's all_known_nodes do with
    the loop; the console and the server start it with [now=False]. *)
Inductive loop_op := StartLoop | StopLoop | Fire | RunRound | LearnNow (force : bool).

Definition exec (o : loop_op) : PyM loop unit :=
  match o with
  | StartLoop => start_learning_loop false ;;; py_ret tt
  | StopLoop => stop_learning_loop
  | Fire => fire
  | RunRound => run_round
  | LearnNow force => learn_about_nodes_now force
  end.

Definition run (os : list loop_op) (s : loop) : loop := foldl (fun s o => (exec o s).2) s os.

(** ** A loop that was stopped *)

(** The canceller was called after the learner was seeded. *)
Definition cancelled (known : FleetSensor (Checksum := Checksum) (Nickname := Nickname)) (l : learner) : Prop :=
  l.(stop_now) = true /\ l.(done_seeding) = true /\ l.(_known_nodes) = known.

Lemma preserves_env_call known {A} (m : PyM E A) : preserves (cancelled known) (env_call m).
Proof. intros l Hl. unfold env_call. by destruct (m l.(env)). Qed.

Lemma preserves_cycle known : preserves (cancelled known) cycle_teacher_node.
Proof.
  unfold cycle_teacher_node, select_teacher_nodes. preserve_with ltac:(first [apply preserves_env_call|apply preserves_modify; by intros l]).
Qed.

(** With the canceller, a round asks nobody: it is [Relax] or fails for want
    of a teacher. *)
Lemma learn_cancelled known l :
  cancelled known l ->
  let '(r, l') := learn_from_teacher_node FleetStateChecksum nickname_from_seed iter_nodes iter_addresses false true l in
  cancelled known l' /\ (forall x, r = Ok x -> x = Relax).
Proof.
  intros Hl. unfold learn_from_teacher_node. unfold py_bind at 1, gets at 1, id at 1.
  destruct Hl as (Hstop & Hseed & Hk). rewrite Hseed. unfold py_bind at 1, py_ret at 1, py_bind at 1, modify at 1.
  set (l1 := set__learning_round _ l). assert (cancelled known l1) as Hl1 by done. clearbody l1.
  unfold py_bind at 1. assert (preserves (cancelled known) (current_teacher_node false)) as Hcur.
  { unfold current_teacher_node. preserve_with ltac:(apply preserves_cycle). }
  specialize (Hcur l1 Hl1). destruct (current_teacher_node false l1) as [[[t|]|e] l2]; cbn [snd] in Hcur; [|done|done].
  unfold py_bind at 1, gets at 1, id at 1. destruct Hcur as (Hs2 & Hd2 & Hk2). rewrite Hs2. cbn [andb py_ret].
  split; [done|]. by intros x [= <-].
Qed.

(** The loop of a cancelled learner. *)
Definition stopped (known : FleetSensor (Checksum := Checksum) (Nickname := Nickname)) (s : loop) : Prop :=
  cancelled known s.(self) /\ s.(_learning_deferred) = true.

Lemma stopped_learner_op known {A} (m : PyM learner A) :
  preserves (cancelled known) m -> preserves (stopped known) (on_learner m).
Proof.
  intros Hm s [Hl Hd]. unfold on_learner. specialize (Hm _ Hl). by destruct (m (self s)).
Qed.

Lemma stopped_keep known : preserves (stopped known) keep_learning_about_nodes.
Proof. apply preserves_modify. by intros s [Hl _]. Qed.

Lemma stopped_task_start known interval now : preserves (stopped known) (task_start interval now).
Proof.
  unfold task_start.
  preserve_with ltac:(first [apply stopped_learner_op; apply preserves_modify; by intros l (? & ? & ?)|apply stopped_keep]).
Qed.

Lemma stopped_start known : preserves (stopped known) (start_learning_loop false).
Proof. unfold start_learning_loop. preserve_with ltac:(apply stopped_task_start). Qed.

Lemma stopped_errors known b : preserves (stopped known) (handle_learning_errors b).
Proof.
  unfold handle_learning_errors.
  preserve_with ltac:(first [apply stopped_learner_op; apply preserves_modify; by intros l (? & ? & ?)|apply stopped_start]).
Qed.

Lemma stopped_round known : preserves (stopped known) run_round.
Proof.
  intros s [Hl Hd]. unfold run_round. destruct (scheduled s) as [|k]; [done|]. unfold learn, on_learner. cbn [self _learning_deferred].
  pose proof (learn_cancelled known (self s) Hl) as Hr. destruct (learn_from_teacher_node _ _ _ _ _ _ (self s)) as [[x|e] l'].
  - by destruct Hr.
  - apply stopped_errors. by destruct Hr.
Qed.

Lemma stopped_exec known o : preserves (stopped known) (exec o).
Proof.
  destruct o; cbn [exec]; [| | |apply stopped_round|].
  - preserve_with ltac:(apply stopped_start).
  - unfold stop_learning_loop, discovery_canceller.
    preserve_with ltac:(apply stopped_learner_op; apply preserves_modify; by intros l (? & ? & ?)).
  - unfold fire. preserve_with ltac:(apply stopped_keep).
  - unfold learn_about_nodes_now. preserve_with ltac:(apply stopped_task_start).
Qed.

Lemma stopped_run known os s : stopped known s -> stopped known (run os s).
Proof. revert s. induction os as [|o os IH]; intros s Hs; [done|]. apply IH. by apply stopped_exec. Qed.

Lemma stop_again known s : stopped known s -> (stop_learning_loop s).1 = Raise AssertionError.
Proof.
  intros [(Hs & _) Hd]. unfold stop_learning_loop, py_bind at 1, gets at 1. destruct s as [l d k a]. cbn in *.
  unfold py_bind, on_learner, modify, gets, discovery_canceller. destruct (task_running l); cbn; rewrite Hd; cbn; by rewrite Hs.
Qed.

(** A learner that was stopped never learns again: once the loop of a seeded
    learner was stopped in a round, whatever the console, the server and the
    reactor do with it, starting it again included, its known nodes stay what
    they were, although the loop may run, and stopping it once more raises
    AssertionError. *)
Theorem stopped_learner_never_learns s :
  s.(_learning_deferred) = true -> s.(self).(stop_now) = false -> s.(self).(done_seeding) = true ->
  exists s1, stop_learning_loop s = (Ok tt, s1) /\ s1.(self).(task_running) = false /\
    forall os, (run os s1).(self).(_known_nodes) = s.(self).(_known_nodes) /\
      (stop_learning_loop (run os s1)).1 = Raise AssertionError /\
      ((run os s1).(self).(task_running) = false ->
       exists s2, start_learning_loop false (run os s1) = (Ok true, s2) /\ s2.(self).(task_running) = true).
Proof.
  intros Hd Hs Hseed. destruct s as [l d k a]. cbn in Hd, Hs, Hseed.
  set (l0 := if task_running l then set_task_running false l else l).
  exists (Loop (set_stop_now true l0) d k a).
  assert (stop_learning_loop (Loop l d k a) = (Ok tt, Loop (set_stop_now true l0) d k a)) as Hstop.
  { unfold stop_learning_loop, py_bind, gets, on_learner, modify, discovery_canceller, l0. cbn. destruct (task_running l); cbn; by rewrite Hd; cbn; rewrite Hs. }
  split; [exact Hstop|]. split; [unfold l0; by destruct (task_running l) eqn:Hrun|]. intros os.
  assert (stopped l.(_known_nodes) (run os (Loop (set_stop_now true l0) d k a))) as Hst.
  { apply stopped_run. split; [|done]. unfold l0. by destruct (task_running l). }
  split_and!; [by destruct Hst as [(_ & _ & ?) _]|by eapply stop_again|].
  intros Hrun. unfold start_learning_loop, task_start, py_bind, gets, on_learner, modify. rewrite Hrun. cbn. rewrite Hrun. eauto.
Qed.

End Loop.
End LearningLoop.
