(* ===== verification/Sprout.v ===== *)
(** * nulink/network/nodes.py: NodeSprout.mature among threads

    A sprout is the abridged form of a node.  Its [mature] builds the whole
    node and then gives the sprout the class and the attributes of it; threads
    that come while another one builds wait for its entry in a queue.  The
    threads are modelled statement by statement: every read or write of the
    shared object is a step of its own.  What [finish] and the storage of the
    certificate come to is not determined: they return or raise. *)

From stdpp Require Import relations.
From S2P Require Import Prelude.
#[local] Open Scope nat_scope.

Module Sprout.

(** [self.__dict__]: the sprout's own, with [_is_finishing], or that of the
    mature node, which has neither a queue nor [_metadata_payload], and
    [_is_finishing] only when a late thread assigned it. *)
Inductive attributes := SproutDict (is_finishing : bool) | NodeDict (is_finishing : option bool).

(** Where a thread is in its call of [mature]. *)
Inductive position :=
  | Calling       (* looks the method up *)
  | Checking      (* if self._is_finishing *)
  | Fetching      (* self._finishing_mutex, to get from it *)
  | Waiting       (* .get() *)
  | Setting       (* self._is_finishing = True *)
  | Saving        (* _finishing_mutex = self._finishing_mutex *)
  | Finishing     (* self.finish() *)
  | Retyping      (* self.__class__ = ... *)
  | Replacing     (* self.__dict__ = ... *)
  | Storing       (* _cert_store_function and the path *)
  | Putting       (* _finishing_mutex.put(self) *)
  | Grown         (* Teacher.mature, of a node that is mature *)
  | Served        (* returned what it got from the queue *)
  | Finished      (* returned after putting *)
  | Failed (e : exn_class).
#[global] Instance position_eq_dec : EqDecision position.
Proof. solve_decision. Defined.

#[global] Instance attributes_eq_dec : EqDecision attributes.
Proof. solve_decision. Defined.

(** The object, its queue, and the threads that call [mature]. *)
Record sprout := Sprout_ {
  is_node : bool;           (* self.__class__ *)
  dict : attributes;
  queue : nat;              (* the entries of the queue, all of them [self] *)
  threads : list position;
}.

(** The calls of a new sprout. *)
Definition new_sprout (n : nat) : sprout := Sprout_ false (SproutDict false) 0 (replicate n Calling).

Definition has_payload (d : attributes) : bool := match d with SproutDict _ => true | NodeDict _ => false end.

(** [self._is_finishing]. *)
Definition read_finishing (d : attributes) : result bool :=
  match d with
  | SproutDict b | NodeDict (Some b) => Ok b
  | NodeDict None => Raise AttributeError
  end.

Definition set_finishing (d : attributes) : attributes :=
  match d with SproutDict _ => SproutDict true | NodeDict _ => NodeDict (Some true) end.

(** One statement of a thread at [p]; [o] is what [finish] or the storage
    comes to.  A mature node has no [finish].  [None] is a thread that waits or has returned. *)
Definition statement (o : result unit) (p : position) (s : sprout) : option (position * (bool * attributes * nat)) :=
  let c := s.(is_node) in
  let d := s.(dict) in
  let q := s.(queue) in
  let attribute_or (next : position) := if has_payload d then next else Failed AttributeError in
  match p with
  | Calling => Some (if c then Grown else Checking, (c, d, q))
  | Checking => Some (match read_finishing d with Raise e => Failed e | Ok b => if b then Fetching else Setting end, (c, d, q))
  | Fetching => Some (attribute_or Waiting, (c, d, q))
  | Waiting => match q with 0 => None | S q' => Some (Served, (c, d, q')) end
  | Setting => Some (Saving, (c, set_finishing d, q))
  | Saving => Some (attribute_or Finishing, (c, d, q))
  | Finishing =>
      Some (if negb c && has_payload d then match o with Ok _ => Retyping | Raise e => Failed e end
            else Failed AttributeError, (c, d, q))
  | Retyping => Some (Replacing, (true, d, q))
  | Replacing => Some (Storing, (c, NodeDict None, q))
  | Storing => Some (match o with Ok _ => Putting | Raise e => Failed e end, (c, d, q))
  | Putting => Some (Finished, (c, d, S q))
  | Grown | Served | Finished | Failed _ => None
  end.

Definition run_thread (o : result unit) (i : nat) (s : sprout) : option sprout :=
  match s.(threads) !! i with
  | None => None
  | Some p =>
      match statement o p s with
      | None => None
      | Some (p', (c, d, q)) => Some (Sprout_ c d q (<[i := p']> s.(threads)))
      end
  end.

(** The interleavings. *)
Inductive step : sprout -> sprout -> Prop :=
  | Step o i s s' : run_thread o i s = Some s' -> step s s'.

Definition reachable (n : nat) (s : sprout) : Prop := rtc step (new_sprout n) s.

(** A schedule: the threads in turn, with the outcomes. *)
Fixpoint run (l : list (nat * result unit)) (s : sprout) : option sprout :=
  match l with
  | [] => Some s
  | (i, o) :: l' => match run_thread o i s with Some s' => run l' s' | None => None end
  end.

Lemma schedule_reaches l s s' : run l s = Some s' -> rtc step s s'.
Proof.
  revert s. induction l as [|[i o] l IH]; intros s; cbn [run]; [by intros [= ->]|].
  destruct (run_thread o i s) as [s1|] eqn:H1; [|done]. intros Hr. eapply rtc_l; [by eapply Step|by apply IH].
Qed.

(** ** Counting threads *)

Definition count (P : position -> bool) (l : list position) : nat := length (filter (fun p => P p = true) l).

Arguments count : simpl never.

Definition one (b : bool) : nat := if b then 1 else 0.

Lemma count_cons P p l : count P (p :: l) = one (P p) + count P l.
Proof. unfold count. rewrite filter_cons. by destruct (P p). Qed.

Lemma count_insert P l i p p' :
  l !! i = Some p -> count P (<[i := p']> l) + one (P p) = count P l + one (P p').
Proof.
  revert i. induction l as [|x l IH]; intros [|i] Hi; [done|done| |].
  - injection Hi as ->. change (<[0 := p']> (p :: l)) with (p' :: l). rewrite !count_cons. lia.
  - change (<[S i := p']> (x :: l)) with (x :: <[i := p']> l). rewrite !count_cons. specialize (IH i Hi). lia.
Qed.

Lemma count_zero P l : count P l = 0 <-> forall p, p ∈ l -> P p = false.
Proof.
  induction l as [|x l IH]; [by split; [intros _ p Hp; apply elem_of_nil in Hp|]|].
  rewrite count_cons. split.
  - intros Hc p. destruct (P x) eqn:Hx; [cbn in Hc; lia|]. intros [->|Hp]%elem_of_cons; [done|]. by apply IH.
  - intros Hall. rewrite (Hall x) by left. cbn. apply IH. intros p Hp. apply Hall. by right.
Qed.

(** The threads that the queue served, those that put into it, those that
    wait, and those that are at work on the node. *)
Definition is_served (p : position) : bool := match p with Served => true | _ => false end.
Definition is_finished (p : position) : bool := match p with Finished => true | _ => false end.
Definition is_waiting (p : position) : bool := match p with Waiting => true | _ => false end.
Definition served (s : sprout) : nat := count is_served s.(threads).
Definition finished (s : sprout) : nat := count is_finished s.(threads).
Definition waiting (s : sprout) : nat := count is_waiting s.(threads).

Definition at_work (p : position) : bool :=
  match p with Setting | Saving | Finishing | Retyping | Replacing | Storing | Putting => true | _ => false end.

(** ** What holds of every schedule *)

(** Every entry of the queue was put by a thread that finished the node, and
    taken by one that waited. *)
Definition balanced (s : sprout) : Prop := queue s + served s = finished s.

Lemma step_thread s s' :
  step s s' -> exists o i p p' c d q, s.(threads) !! i = Some p /\ statement o p s = Some (p', (c, d, q)) /\
    s' = Sprout_ c d q (<[i := p']> s.(threads)).
Proof.
  inversion_clear 1 as [o i ? ? Hr]. unfold run_thread in Hr. destruct (threads s !! i) as [p|] eqn:Hp; [|done].
  destruct (statement o p s) as [[p' [[c d] q]]|] eqn:Hs; [|done]. injection Hr as <-. by exists o, i, p, p', c, d, q.
Qed.

Lemma step_balanced s s' : step s s' -> balanced s -> balanced s'.
Proof.
  intros (o & i & p & p' & c & d & q & Hp & Hs & ->)%step_thread. unfold balanced, served, finished. cbn [queue threads].
  pose proof (count_insert is_served _ _ _ p' Hp) as H1.
  pose proof (count_insert is_finished _ _ _ p' Hp) as H2.
  destruct p; cbn [statement] in Hs; try done; repeat case_match; simplify_eq; cbn [is_served is_finished one] in H1, H2; lia.
Qed.

Lemma reachable_balanced n s : reachable n s -> balanced s.
Proof.
  intros Hr. assert (balanced (new_sprout n)) as H0.
  { unfold balanced, served, finished, new_sprout. cbn [queue threads].
    assert (forall P : position -> bool, P Calling = false -> count P (replicate n Calling) = 0) as Hz.
    { intros P HP. apply count_zero. intros p Hp%elem_of_replicate. destruct Hp as [-> _]. done. }
    by rewrite !Hz. }
  unfold reachable in Hr. induction Hr as [|s1 s2 s3 H12 _ IH]; [done|]. apply IH. by eapply step_balanced.
Qed.

(** ** Every run ends *)

(** The statements that a thread has left, at most. *)
Definition left_of (p : position) : nat :=
  match p with
  | Calling => 9 | Checking => 8 | Setting => 7 | Saving => 6 | Finishing => 5 | Retyping => 4
  | Replacing => 3 | Storing => 2 | Putting => 1 | Fetching => 2 | Waiting => 1
  | Grown | Served | Finished | Failed _ => 0
  end.

Definition measure (s : sprout) : nat := sum_list_with left_of s.(threads).

Lemma sum_list_insert (f : position -> nat) l i p p' :
  l !! i = Some p -> sum_list_with f (<[i := p']> l) + f p = sum_list_with f l + f p'.
Proof.
  revert i. induction l as [|x l IH]; intros [|i] Hi; [done|done| |].
  - injection Hi as ->. change (<[0 := p']> (p :: l)) with (p' :: l). cbn [sum_list_with]. lia.
  - change (<[S i := p']> (x :: l)) with (x :: <[i := p']> l). cbn [sum_list_with]. specialize (IH i Hi). lia.
Qed.

Lemma step_measure s s' : step s s' -> measure s' < measure s.
Proof.
  intros (o & i & p & p' & c & d & q & Hp & Hs & ->)%step_thread. unfold measure. cbn [threads].
  pose proof (sum_list_insert left_of _ _ _ p' Hp) as H.
  destruct p; cbn [statement] in Hs; try done; repeat case_match; simplify_eq; cbn [left_of] in H; lia.
Qed.

Lemma measure_new n : measure (new_sprout n) = 9 * n.
Proof. unfold measure, new_sprout. cbn [threads]. induction n as [|n IH]; [done|]. cbn [replicate sum_list_with left_of]. lia. Qed.

Lemma runs_are_bounded k s s' : nsteps step k s s' -> k + measure s' <= measure s.
Proof. induction 1 as [|k s1 s2 s3 H12 _ IH]; [lia|]. apply step_measure in H12. lia. Qed.

(** Nothing can go on. *)
Definition at_rest (s : sprout) : Prop := forall s', ~ step s s'.

Definition is_over (p : position) : bool :=
  match p with Grown | Served | Finished | Failed _ => true | _ => false end.

Lemma rest_positions s p : at_rest s -> p ∈ s.(threads) -> is_over p = true \/ p = Waiting /\ s.(queue) = 0.
Proof.
  intros Hrest (i & Hi)%list_elem_of_lookup. destruct (is_over p) eqn:Ho; [by left|right].
  destruct (statement (Ok tt) p s) as [[p' [[c d] q]]|] eqn:Hs.
  - exfalso. apply (Hrest (Sprout_ c d q (<[i := p']> s.(threads)))). apply (Step (Ok tt) i). unfold run_thread. by rewrite Hi, Hs.
  - destruct p; try done; cbn [statement] in Hs; try (by repeat case_match).
Qed.

(** ** Who begins to finish *)

(** The call has not gone past setting the flag. *)
Definition before_flag (p : position) : Prop := p = Calling \/ p = Checking \/ p = Setting.

(** As long as the flag is down, no call has gone past setting it. *)
Definition flag_inv (s : sprout) : Prop :=
  s.(dict) <> NodeDict (Some false) /\
  (s.(dict) = SproutDict false -> s.(is_node) = false /\ forall j p, s.(threads) !! j = Some p -> before_flag p).

Lemma step_flag s s' : step s s' -> flag_inv s -> flag_inv s'.
Proof.
  intros (o & i & p & p' & c & d & q & Hp & Hs & ->)%step_thread [Hn Hf]. unfold flag_inv. cbn [dict is_node threads].
  destruct (decide (s.(dict) = SproutDict false)) as [Hd|Hd].
  - destruct (Hf Hd) as [Hc Hall]. destruct (Hall i p Hp) as [->|[->| ->]]; cbn [statement] in Hs;
      rewrite Hc, Hd in Hs; cbn in Hs; simplify_eq; (split; [done|]); try done.
    all: intros _; split; [done|]; intros j x [[<- [<- _]]|[_ Hj]]%list_lookup_insert_Some; [|by eapply Hall];
      unfold before_flag; auto.
  - assert (d <> SproutDict false /\ d <> NodeDict (Some false)) as [Hd1 Hd2]; [|by split].
    destruct p; cbn [statement] in Hs; simplify_eq; try done; repeat case_match; simplify_eq; try done.
    unfold set_finishing. by destruct (dict s) as [[]|[[]|]].
Qed.

Lemma reachable_flag n s : reachable n s -> flag_inv s.
Proof.
  intros Hr. assert (flag_inv (new_sprout n)) as H0.
  { split; [done|]. intros _. split; [done|]. intros j p [-> _]%lookup_replicate. by left. }
  unfold reachable in Hr. induction Hr as [|s1 s2 s3 H12 _ IH]; [done|]. apply IH. by eapply step_flag.
Qed.

(** A call that checks the flag and goes on to set it has found it down. *)
Lemma begins_with_flag_down s s' i :
  step s s' -> s.(threads) !! i = Some Checking -> s'.(threads) !! i = Some Setting ->
  read_finishing s.(dict) = Ok false.
Proof.
  intros (o & j & p & p' & c & d & q & Hp & Hs & ->)%step_thread Hi. cbn [threads].
  intros [[-> [-> _]]|[_ Hi']]%list_lookup_insert_Some; [|congruence].
  rewrite Hp in Hi. injection Hi as ->. cbn [statement] in Hs. by destruct (read_finishing (dict s)) as [[]|].
Qed.

(** C38.  Concurrent calls of mature, whatever the schedule and whatever finish and
    the storing of the certificate come to.  n calls end within 9 n
    statements.  A call goes on to finish the node only as long as no other
    call has gone past setting the flag: the calls that finish, or fail to,
    are those that read the flag before the first of them set it.  When
    nothing can go on, every call has returned, has failed, or waits; every
    call that finished the node has put one entry into the queue, which is
    still there or has served one waiting call; and if some call still waits
    then no entry is left, so that exactly as many waiting calls were served
    as calls finished the node, and the rest wait forever. *)
Theorem waiting_calls_are_served_once_per_finish n s :
  reachable n s ->
  (forall k s', nsteps step k (new_sprout n) s' -> k <= 9 * n) /\
  (forall s' i, step s s' -> s.(threads) !! i = Some Checking -> s'.(threads) !! i = Some Setting ->
     forall j p, s.(threads) !! j = Some p -> p = Calling \/ p = Checking \/ p = Setting) /\
  (at_rest s ->
     (forall p, p ∈ s.(threads) -> is_over p = true \/ p = Waiting) /\
     queue s + served s = finished s /\
     (waiting s <> 0 -> served s = finished s)).
Proof.
  intros Hr. split_and!.
  - intros k s' Hk%runs_are_bounded. rewrite measure_new in Hk. lia.
  - intros s' i Hstep Hi Hi'. pose proof (begins_with_flag_down s s' i Hstep Hi Hi') as Hread.
    destruct (reachable_flag n s Hr) as [Hn Hf].
    apply Hf. destruct (dict s) as [[]|[[]|]]; by try discriminate Hread.
  - intros Hrest. pose proof (reachable_balanced n s Hr) as Hb. split_and!; [|done|].
    + intros p Hp. by destruct (rest_positions s p Hrest Hp) as [|[]]; auto.
    + intros Hw. assert (exists p, p ∈ s.(threads) /\ p = Waiting) as (p & Hp & ->).
      { destruct (decide (Waiting ∈ s.(threads))) as [Hin|Hin]; [by exists Waiting|]. exfalso. apply Hw, count_zero.
        intros p Hp. by destruct p. }
      destruct (rest_positions s Waiting Hrest Hp) as [|[_ Hq]]; [done|]. unfold balanced in Hb. lia.
Qed.

(** ** A finish that failed *)

(** The flag is set and nobody is at work. *)
Definition abandoned (s : sprout) : Prop :=
  s.(is_node) = false /\ s.(dict) = SproutDict true /\ s.(queue) = 0 /\
  forall p, p ∈ s.(threads) -> at_work p = false.

Lemma abandoned_step s s' :
  step s s' -> abandoned s -> abandoned s' /\ forall i p, is_over p = true -> s'.(threads) !! i = Some p -> s.(threads) !! i = Some p.
Proof.
  intros (o & i & p & p' & c & d & q & Hp & Hs & ->)%step_thread (Hc & Hd & Hq & Hw).
  assert (at_work p = false) as Hwp by (apply Hw; by eapply list_elem_of_lookup_2).
  assert (c = false /\ d = SproutDict true /\ q = 0 /\ at_work p' = false /\ is_over p' = false) as (-> & -> & -> & Hw' & Ho').
  { destruct p; try done; cbn [statement] in Hs; rewrite Hc, Hd, ?Hq in Hs; cbn in Hs; by simplify_eq. }
  cbn [threads]. split.
  - split_and!; [done..|]. intros x (j & Hj)%list_elem_of_lookup. cbn [threads] in Hj.
    destruct (decide (i = j)) as [<-|Hij].
    + rewrite list_lookup_insert_eq in Hj by (by eapply lookup_lt_Some). by simplify_eq.
    + rewrite list_lookup_insert_ne in Hj by done. apply Hw. by eapply list_elem_of_lookup_2.
  - intros j x Ho Hj. destruct (decide (i = j)) as [<-|Hij].
    + rewrite list_lookup_insert_eq in Hj by (by eapply lookup_lt_Some). simplify_eq. by rewrite Ho in Ho'.
    + by rewrite list_lookup_insert_ne in Hj.
Qed.

(** Once a call failed to finish the sprout and no other is at work, no call
    that has not ended by then ever ends. *)
Theorem failed_finish_is_forever s s' i p :
  abandoned s -> rtc step s s' -> is_over p = true -> s'.(threads) !! i = Some p -> s.(threads) !! i = Some p.
Proof.
  intros Ha Hr. induction Hr as [|s1 s2 s3 H12 _ IH]; [done|]. intros Ho Hi.
  destruct (abandoned_step _ _ H12 Ha) as [Ha2 Hback]. by apply Hback; [|apply IH].
Qed.

End Sprout.

(** ** Schedules *)

Module SproutDemo.
Import Sprout.

Definition all_ok (l : list nat) : list (nat * result unit) := (fun i => (i, Ok tt)) <$> l.

(** The first call finishes the node while two others wait: one of them is
    served, the other waits forever. *)
Definition two_waiters : list (nat * result unit) :=
  all_ok ([0; 0; 0] ++ [1; 1; 1] ++ [2; 2; 2] ++ [0; 0; 0; 0; 0; 0] ++ [1]).

Definition after_two_waiters : sprout := Sprout_ true (NodeDict None) 0 [Finished; Served; Waiting].

Lemma waiting_calls_are_served_once_per_finish_witness :
  run two_waiters (new_sprout 3) = Some after_two_waiters /\ at_rest after_two_waiters /\
  served after_two_waiters = finished after_two_waiters /\ waiting after_two_waiters = 1.
Proof.
  assert (run two_waiters (new_sprout 3) = Some after_two_waiters) as Hrun by reflexivity.
  assert (at_rest after_two_waiters) as Hrest.
  { intros s' (o & [|[|[|i]]] & p & p' & c & d & q & Hp & Hs & _)%step_thread; try discriminate Hp;
      injection Hp as <-; discriminate Hs. }
  destruct (waiting_calls_are_served_once_per_finish 3 after_two_waiters) as (_ & _ & H); [by apply schedule_reaches in Hrun|].
  destruct (H Hrest) as (_ & _ & Hserved). split; [exact Hrun|]. split; [exact Hrest|].
  split; [apply Hserved; discriminate|reflexivity].
Defined.

(** The certificate's file cannot be written, and the next call never ends. *)
Example failed_storage :
  run (all_ok [0; 0; 0; 0] ++ [(0, Raise OSError)] ++ all_ok [1; 1; 1]) (new_sprout 2)
    = Some (Sprout_ false (SproutDict true) 0 [Failed OSError; Waiting]).
Proof. reflexivity. Qed.

(** Two calls that both read the flag before either sets it. *)
Example both_finish :
  run (all_ok ([0; 0; 1; 1; 0; 1] ++ [0; 0; 0; 0; 0; 0] ++ [1])) (new_sprout 2)
    = Some (Sprout_ true (NodeDict None) 1 [Finished; Failed AttributeError]).
Proof. reflexivity. Qed.

End SproutDemo.
