(* ===== verification/Deployers.v ===== *)
(** * nulink/blockchain/eth/deployers.py: deploying and upgrading contracts

    The deployment of a compiled contract and its enrollment (interfaces.py),
    the deployers of the single contracts, proxies with their retargeting, and
    upgrades.  Sending is [Transactions.send_transaction], contracts by name
    are [Contracts.get_contract_by_name]; the contract functions that web3
    makes from an ABI are the class [ContractFunctions].  Progress bars and
    emitters are left out.  ContractAdministrator of actors.py comes last. *)

From Stdlib Require Import Ascii QArith.
From S2P Require Import Prelude Text Json Registry Clients Transactions Interfaces Compile.
#[local] Open Scope nat_scope.

Class ContractFunctions (W F : Type) := {
  (* [w3.eth.contract(abi, bytecode).constructor(args, kwargs)] and the
     encoding of its arguments *)
  constructor : json -> json -> list json -> list (string * json) -> result F;
  (* [contract.functions.name(args)] *)
  contract_function : Contracts.contract -> string -> list json -> result F;
  (* [receipt['contractAddress']] *)
  contractAddress : receipt -> bytes;
  (* [contract.functions.owner().call()] *)
  call_owner : Contracts.contract -> PyM W bytes;
}.

Module Deployers.
Import Registry.Registry Contracts Transactions.

(** [BARE], [IDLE], [INIT] and [FULL]. *)
Inductive deployment_mode := BARE | IDLE | INIT | FULL.
#[global] Instance deployment_mode_eq_dec : EqDecision deployment_mode.
Proof. solve_decision. Defined.

(** What a deployment ends in: receipts by the names of its steps. *)
Definition receipts : Type := list (string * sent).

(** [{k: v for k, v in kwargs.items() if v is not None}], of the defaults and
    the overrides of the caller. *)
Definition is_null (j : json) : bool := match j with JNull => true | _ => false end.
Definition constructor_kwargs (defaults overrides : list (string * json)) : list (string * json) :=
  filter (fun kv => is_null kv.2 = false) (dict_update defaults overrides).

(** [if gas_limit: d.update({'gas': gas_limit})]. *)
Definition gas_payload (gas_limit : option Z) : tx :=
  match gas_limit with None | Some 0%Z => [] | Some g => [("gas"%string, TInt g)] end.

(** [gas_estimation_multiplier] of [send_transaction]. *)
Definition default_multiplier : option Q := Some (Qmake 115 100).

(** The attributes of a deployer of one contract: its registry and chain are
    the world, its economics are arguments. *)
Record deployer := Deployer { _contract : option contract; deployment_receipts : receipts }.
Definition new_deployer : deployer := Deployer None [].

(** ** BlockchainDeployerInterface *)

Section Deployers.
Context {W F Power : Type} `{!Digest, !RegistryStore W, !ProxyCalls W, !EthNode W F Power, !Web3Eth W,
  !ContractFunctions W F}.
Variable is_checksum_address : bytes -> bool.
(** The client, and [_raw_contract_cache]. *)
Variable client : Clients.client_class.
Variable cache : option (list (bytes * Compile.versioned)).

(** A contract factory: ABI, bytecode and version. *)
Record factory := Factory { f_abi : json; f_bytecode : json; f_version : bytes }.

(** [get_contract_factory], through [__get_contract_interface]; [None['abi']]
    where no version was chosen. *)
Definition get_contract_factory (contract_name version : bytes) : result factory :=
  let? found := Compile.find_raw_contract_data cache contract_name version in
  match found with
  | None => Raise TypeError
  | Some (version, interface) =>
      let? abi := get_item interface (to_bytes "abi") in
      let? evm := get_item interface (to_bytes "evm") in
      let? bytecode := get_item evm (to_bytes "bytecode") in
      let? object := get_item bytecode (to_bytes "object") in
      Ok (Factory abi object version)
  end.

(** The calls of [send_transaction] in this file wait for the receipt. *)
Definition send (power : Power) (f : F) (payload : option tx) (gas_limit : option Z) (confirmations : Z) : PyM W sent :=
  r <- send_transaction is_checksum_address client f power payload gas_limit default_multiplier confirmations false false ;;
  py_ret r.1.

Definition deploy_contract (power : Power) (contract_name : bytes) (args : list json) (kwargs : list (string * json))
    (enroll : bool) (gas_limit : option Z) (confirmations : Z) (contract_version : bytes) : PyM W (contract * sent) :=
  factory <- lift (get_contract_factory contract_name contract_version) ;;
  constructor_function <- lift (constructor factory.(f_abi) factory.(f_bytecode) args kwargs) ;;
  receipt <- send power constructor_function (Some (gas_payload gas_limit)) None confirmations ;;
  match receipt with
  | SentHash _ => raise TypeError
  | SentReceipt r =>
      let contract := Contract factory.(f_abi) (JStr (contractAddress r)) (JStr factory.(f_version)) in
      (if enroll
       then Registry.enroll (JStr contract_name) contract.(c_address) contract.(c_abi) contract.(c_version)
       else py_ret tt) ;;;
      py_ret (contract, receipt)
  end.

(** [_wrap_contract]: the address of the one, the ABI of the other. *)
Definition _wrap_contract (wrapper_contract target_contract : contract) : contract :=
  Contract target_contract.(c_abi) wrapper_contract.(c_address) target_contract.(c_version).

(** The validation of the decorator, of one address. *)
Definition checked_address (j : json) : result unit :=
  match j with JStr a => checked_sender is_checksum_address a | _ => Raise TypeError end.

(** The loop of [get_proxy_contract]: the proxies that target the address at
    the moment. *)
Fixpoint live_proxies (target_address : json) (records : list json) : PyM W (list contract) :=
  match records with
  | [] => py_ret []
  | record :: records' =>
      fields <- lift (unpack record) ;;
      let '(_, version, address, abi) := fields in
      proxy_live_target_address <- proxy_target abi address ;;
      rest <- live_proxies target_address records' ;;
      py_ret (if is_live target_address proxy_live_target_address then Contract abi address version :: rest else rest)
  end.

Definition get_proxy_contract (target_address : json) (proxy_name : bytes) : PyM W contract :=
  lift (checked_address target_address) ;;;
  records <- search (Some proxy_name) None None ;;
  dispatchers <- live_proxies target_address (records_of records) ;;
  match dispatchers with
  | [] => raise InterfaceUnknownContract
  | [proxy] => py_ret proxy
  | _ => raise InterfaceError
  end.

(** ** BaseContractDeployer *)

Definition is_deployed (contract_name : bytes) (contract_version : option bytes) : PyM W bool :=
  try_except (search (Some contract_name) contract_version None ;;; py_ret true)
    [UnknownContract; NoRegistry] (fun _ => py_ret false).

(** The rules with [fail=False]: how many are not satisfied, one string each. *)
Definition check_rules (rules : list bool) (fail : bool) : result nat :=
  let disqualifications := length (filter (fun r => r = false) rules) in
  if (0 <? disqualifications) && fail then Raise ContractDeploymentError else Ok disqualifications.

(** [check_deployment_readiness]: readiness and the number of reasons. *)
Definition check_deployment_readiness (contract_name : bytes) (contract_version : option bytes) (ignore_deployed fail : bool)
    (additional_rules : list bool) : PyM W (bool * nat) :=
  contract_version <-
    lift (match contract_version with
          | Some v =>
              if ignore_deployed then Ok (Some v)
              else let? found := Compile.find_raw_contract_data cache contract_name v in Ok (fst <$> found)
          | None => Ok None
          end) ;;
  there <- (if ignore_deployed then py_ret false else is_deployed contract_name contract_version) ;;
  disqualifications <- lift (check_rules (negb there :: additional_rules) fail) ;;
  py_ret (disqualifications =? 0, disqualifications).

Definition contract_address (d : deployer) : result json :=
  match d.(_contract) with None => Raise ContractNotDeployed | Some c => Ok c.(c_address) end.

Definition get_latest_enrollment (contract_name : bytes) : PyM W contract :=
  get_contract_by_name (Some contract_name) None (Some (VersionName (to_bytes "latest"))) None false.

Definition _get_deployed_contract (d : deployer) (contract_name : bytes) (proxy_name : option bytes) : PyM W contract :=
  match d.(_contract) with
  | None => get_contract_by_name (Some contract_name) None None proxy_name true
  | Some c => py_ret c
  end.

(** A deployer object and the world. *)
Definition DM (A : Type) : Type := PyM (deployer * W) A.
Definition on_world {A} (m : PyM W A) : DM A := fun s => let '(r, w) := m s.2 in (r, (s.1, w)).
Definition set_contract (c : contract) : DM unit :=
  modify (fun s => (Deployer (Some c) s.1.(deployment_receipts), s.2)).
Definition set_receipts (r : receipts) : DM unit := modify (fun s => (Deployer s.1.(_contract) r, s.2)).

(** [zip(steps, receipts)]. *)
Definition steps_of (steps : list string) (rs : list sent) : receipts := zip steps rs.

(** [_finish_bare_deployment]. *)
Definition _finish_bare_deployment (first_step : string) (receipt : sent) : DM receipts :=
  modify (fun s => (Deployer s.1.(_contract) (dict_set s.1.(deployment_receipts) first_step receipt), s.2)) ;;;
  py_ret [(first_step, receipt)].

(** ** ProxyContractDeployer, DispatcherDeployer *)

Definition DISPATCHER : bytes := to_bytes "Dispatcher".

(** A deployer of a dispatcher; [proxy] is its [_contract]. *)
Record proxy_deployer := ProxyDeployer { target_contract : contract; proxy : option contract; proxy_receipts : receipts }.

Definition new_proxy_deployer (target : contract) (bare : bool) : PyM W proxy_deployer :=
  if bare then
    p <- get_proxy_contract target.(c_address) DISPATCHER ;;
    py_ret (ProxyDeployer target (Some p) [])
  else py_ret (ProxyDeployer target None []).

(** [deploy]: the receipts, and the deployer after it. *)
Definition proxy_deploy (d : proxy_deployer) (power : Power) (gas_limit : option Z) (confirmations : Z)
    : PyM W (receipts * proxy_deployer) :=
  deployed <- deploy_contract power DISPATCHER [d.(target_contract).(c_address)] [] true gas_limit confirmations
                (to_bytes "latest") ;;
  let '(proxy_contract, receipt) := deployed in
  let result := [("contract_deployment"%string, receipt)] in
  py_ret (result, ProxyDeployer d.(target_contract) (Some proxy_contract) (dict_update d.(proxy_receipts) result)).

(** The contract of a deployer: [CONTRACT_NOT_DEPLOYED] has no [functions] and
    no [address]. *)
Definition the_proxy (d : proxy_deployer) : result contract :=
  match d.(proxy) with Some p => Ok p | None => Raise AttributeError end.

Definition _validate_retarget (d : proxy_deployer) (new_target : bytes) : result unit :=
  let? p := the_proxy d in
  if is_live d.(target_contract).(c_address) new_target || is_live p.(c_address) new_target
  then Raise ContractDeploymentError else Ok tt.

Definition upgrade_function (d : proxy_deployer) (new_target : bytes) : result F :=
  let? u := _validate_retarget d new_target in
  let? p := the_proxy d in
  contract_function p "upgrade" [JStr new_target].

Definition retarget (d : proxy_deployer) (power : Power) (new_target : bytes) (confirmations : Z) (gas_limit : option Z)
    : PyM W sent :=
  f <- lift (upgrade_function d new_target) ;;
  send power f None gas_limit confirmations.

Definition build_retarget_transaction (d : proxy_deployer) (sender_address new_target : bytes) (gas_limit : option Z)
    : PyM W tx :=
  f <- lift (upgrade_function d new_target) ;;
  built <- build_contract_transaction (Power := Power) is_checksum_address f sender_address None gas_limit None false ;;
  py_ret built.1.

Definition rollback (d : proxy_deployer) (power : Power) (gas_limit : option Z) : PyM W sent :=
  f <- lift (let? p := the_proxy d in contract_function p "rollback" []) ;;
  send power f (Some (gas_payload gas_limit)) None 0.

(** ** UpgradeableContractMixin, OwnableContractMixin *)

(** What the mixins use of the class they are mixed into.  The truth values of
    [_upgradeable] and [_ownable] are those of the attributes that the class
    ends up with: NotImplemented, which BaseContractDeployer comes first with,
    is true. *)
Record contract_class := ContractClass {
  contract_name : bytes;
  _upgradeable : bool;
  _ownable : bool;
  (* [check_deployment_readiness] by the deployer's account *)
  class_readiness : bytes -> option bytes -> bool -> PyM W (bool * nat);
  class_deploy_essential : Power -> bytes -> option Z -> Z -> list (string * json) -> PyM W (contract * sent);
}.

Definition guard_upgradeable (cls : contract_class) : PyM W unit :=
  if cls.(_upgradeable) then py_ret tt else raise ContractNotUpgradeable.

Definition get_principal_contract (cls : contract_class) : PyM W contract :=
  guard_upgradeable cls ;;;
  get_contract_by_name (Some cls.(contract_name)) None None (Some DISPATCHER) false.

(** The method of the mixin. *)
Definition get_own_proxy_contract (cls : contract_class) : PyM W contract :=
  guard_upgradeable cls ;;;
  principal_contract <- get_principal_contract cls ;;
  get_proxy_contract principal_contract.(c_address) DISPATCHER.

Definition get_proxy_deployer (cls : contract_class) : PyM W proxy_deployer :=
  principal_contract <- get_principal_contract cls ;;
  new_proxy_deployer principal_contract true.

(** A transaction that was only built, or the receipt. *)
Definition retarget_contract (cls : contract_class) (power : Power) (target_address : bytes) (confirmations : Z)
    (gas_limit : option Z) (just_build_transaction : bool) : PyM W (tx + sent) :=
  guard_upgradeable cls ;;;
  proxy_deployer <- get_proxy_deployer cls ;;
  if just_build_transaction then
    t <- build_retarget_transaction proxy_deployer (account (F := F) power) target_address gas_limit ;; py_ret (inl t)
  else
    receipt <- retarget proxy_deployer power target_address confirmations gas_limit ;; py_ret (inr receipt).

(** [new_contract.address], which a deployment makes a text. *)
Definition address_text (j : json) : result bytes := match j with JStr a => Ok a | _ => Raise TypeError end.

Definition upgrade (cls : contract_class) (power : Power) (confirmations : Z) (gas_limit : option Z)
    (contract_version : bytes) (ignore_deployed : bool) (overrides : list (string * json)) : DM receipts :=
  on_world (guard_upgradeable cls) ;;;
  on_world (cls.(class_readiness) (account (F := F) power) (Some contract_version) ignore_deployed) ;;;
  proxy_deployer <- on_world (get_proxy_deployer cls) ;;
  deployed <- on_world (cls.(class_deploy_essential) power contract_version gas_limit confirmations overrides) ;;
  let '(new_contract, deploy_receipt) := deployed in
  p <- on_world (lift (the_proxy proxy_deployer)) ;;
  let wrapped_contract := _wrap_contract p new_contract in
  new_address <- on_world (lift (address_text new_contract.(c_address))) ;;
  upgrade_receipt <- on_world (retarget proxy_deployer power new_address confirmations gas_limit) ;;
  set_contract wrapped_contract ;;;
  py_ret [("deploy"%string, deploy_receipt); ("retarget"%string, upgrade_receipt)].

Definition rollback_contract (cls : contract_class) (power : Power) (gas_limit : option Z) : PyM W sent :=
  guard_upgradeable cls ;;;
  proxy_deployer <- get_proxy_deployer cls ;;
  rollback proxy_deployer power gas_limit.

(** [owner]: a contract that is not upgradeable has no attribute [contract]. *)
Definition owner (cls : contract_class) : PyM W bytes :=
  if cls.(_upgradeable) then
    proxy_deployer <- get_proxy_deployer cls ;;
    p <- lift (the_proxy proxy_deployer) ;;
    call_owner (F := F) p
  else
    get_contract_by_name (Some cls.(contract_name)) None None None true ;;;
    raise AttributeError.

Definition transfer_ownership (cls : contract_class) (power : Power) (new_owner : bytes)
    (transaction_gas_limit : option Z) : PyM W sent :=
  if negb cls.(_ownable) then raise ContractNotOwnable
  else if cls.(_upgradeable) then
    proxy_deployer <- get_proxy_deployer cls ;;
    f <- lift (let? p := the_proxy proxy_deployer in contract_function p "transferOwnership" [JStr new_owner]) ;;
    send power f None transaction_gas_limit 0
  else
    existing_bare_contract <- get_contract_by_name (Some cls.(contract_name)) None None None true ;;
    f <- lift (contract_function existing_bare_contract "transferOwnership" [JStr new_owner]) ;;
    send power f None transaction_gas_limit 0.

(** ** The deployers of the single contracts *)

(** The attributes of [Economics] that deployers read. *)
Record economics := Economics { min_operator_seconds : Z; min_authorization : Z; fee_rate : Z }.

Definition default_economics : economics := Economics 86400 (40000 * 10 ^ 18) (10 ^ 9).

(** The attribute is commented out in economics.py. *)
Definition slashing_deployment_parameters (e : economics) : result (list json) := Raise AttributeError.

Definition TOKEN : bytes := to_bytes "NULinkToken".
Definition STAKING_ESCROW : bytes := to_bytes "StakingEscrow".
Definition STAKING_ESCROW_STUB : bytes := to_bytes "StakingEscrowStub".
Definition ADJUDICATOR : bytes := to_bytes "Adjudicator".
Definition PRE_APPLICATION : bytes := to_bytes "SimplePREApplication".
Definition SUBSCRIPTION_MANAGER : bytes := to_bytes "SubscriptionManager".
Definition NULL_ADDRESS : bytes := to_bytes "0x0000000000000000000000000000000000000000".

(** *** NuLinkTokenDeployer *)

Definition TOTAL_SUPPLY : Z := 1000000000 * 10 ^ 18.

Definition token_deploy (power : Power) (gas_limit : option Z) (confirmations : Z) (mode : deployment_mode)
    (ignore_deployed : bool) (overrides : list (string * json)) : DM receipts :=
  if decide (mode <> FULL) then raise ContractDeploymentError
  else
    on_world (check_deployment_readiness TOKEN None ignore_deployed true []) ;;;
    deployed <- on_world (deploy_contract power TOKEN []
                  (constructor_kwargs [("_totalSupplyOfTokens"%string, JNum TOTAL_SUPPLY)] overrides)
                  true gas_limit confirmations (to_bytes "latest")) ;;
    set_contract deployed.1 ;;;
    py_ret [("contract_deployment"%string, deployed.2)].

(** *** SubscriptionManagerDeployer *)

Definition subscription_manager_deploy (e : economics) (power : Power) (gas_limit : option Z) (confirmations : Z)
    (ignore_deployed : bool) (mode : deployment_mode) (overrides : list (string * json)) : DM receipts :=
  deployed <- on_world (deploy_contract power SUBSCRIPTION_MANAGER [] (constructor_kwargs [] overrides)
                true gas_limit confirmations (to_bytes "latest")) ;;
  let '(contract, deployment_receipt) := deployed in
  set_contract contract ;;;
  initialize_function <- on_world (lift (contract_function contract "initialize" [JNum e.(fee_rate)])) ;;
  initialize_receipt <- on_world (send power initialize_function (Some (gas_payload gas_limit)) None confirmations) ;;
  py_ret [("contract_deployment"%string, deployment_receipt); ("initialize"%string, initialize_receipt)].

(** *** PREApplicationDeployer *)

Definition optional_address (a : option bytes) : json := match a with Some a => JStr a | None => JNull end.

Definition pre_application_deploy_essential (e : economics) (staking_interface : option bytes) (power : Power)
    (gas_limit : option Z) (confirmations : Z) (overrides : list (string * json)) : PyM W (contract * sent) :=
  deploy_contract power PRE_APPLICATION []
    (constructor_kwargs [("_minAuthorization", JNum e.(min_authorization));
                         ("_minOperatorSeconds", JNum e.(min_operator_seconds));
                         ("_tStaking", optional_address staking_interface)]%string overrides)
    true gas_limit confirmations (to_bytes "latest").

Definition pre_application_deploy (e : economics) (staking_interface : option bytes) (power : Power)
    (gas_limit : option Z) (confirmations : Z) (mode : deployment_mode) (ignore_deployed : bool)
    (overrides : list (string * json)) : DM receipts :=
  if decide (mode <> FULL) then raise ContractDeploymentError
  else
    on_world (check_deployment_readiness PRE_APPLICATION None ignore_deployed true []) ;;;
    deployed <- on_world (pre_application_deploy_essential e staking_interface power gas_limit confirmations overrides) ;;
    set_contract deployed.1 ;;;
    set_receipts (steps_of ["contract_deployment"%string] [deployed.2]) ;;;
    gets (fun s => s.1.(deployment_receipts)).

(** *** StakingEscrowDeployer *)

(** What its [__init__] adds: the token contract of the registry, and the two
    addresses. *)
Record staking_escrow := StakingEscrow {
  token_contract : contract;
  threshold_staking_address : option bytes;
  worklock_address : option bytes;
}.

Definition new_staking_escrow (staking_interface worklock_address : option bytes) : PyM W staking_escrow :=
  token <- get_contract_by_name (Some TOKEN) None None None true ;;
  py_ret (StakingEscrow token staking_interface worklock_address).

Definition STUB_MIN_ALLOWED_TOKENS : Z := 15000 * 10 ^ 18.
Definition STUB_MAX_ALLOWED_TOKENS : Z := 30000000 * 10 ^ 18.

Definition _deploy_stub (d : staking_escrow) (power : Power) (gas_limit : option Z) (confirmations : Z)
    (overrides : list (string * json)) : PyM W (contract * sent) :=
  deploy_contract power STAKING_ESCROW_STUB []
    (dict_set (constructor_kwargs [("_minAllowableLockedTokens", JNum STUB_MIN_ALLOWED_TOKENS);
                                   ("_maxAllowableLockedTokens", JNum STUB_MAX_ALLOWED_TOKENS)]%string overrides)
       "_token"%string d.(token_contract).(c_address))
    true gas_limit confirmations (to_bytes "latest").

Definition escrow_deploy_essential (d : staking_escrow) (power : Power) (contract_version : bytes)
    (gas_limit : option Z) (confirmations : Z) (overrides : list (string * json)) : PyM W (contract * sent) :=
  deploy_contract power STAKING_ESCROW []
    (constructor_kwargs [("_token", d.(token_contract).(c_address));
                         ("_workLock", JStr (default NULL_ADDRESS d.(worklock_address)));
                         ("_tStaking", optional_address d.(threshold_staking_address))]%string overrides)
    true gas_limit confirmations contract_version.

Definition escrow_class (d : staking_escrow) : contract_class :=
  ContractClass STAKING_ESCROW true true
    (fun _ version ignore_deployed => check_deployment_readiness STAKING_ESCROW version ignore_deployed true [])
    (escrow_deploy_essential d).

(** The dispatcher of a new stub, or the one of the stub with its new target;
    its last receipt comes back with the deployer. *)
Definition escrow_dispatcher (mode : deployment_mode) (the_escrow_contract : contract) (power : Power)
    (gas_limit : option Z) (confirmations : Z) : PyM W (sent * proxy_deployer) :=
  if decide (mode = INIT) then
    dispatcher_deployer <- new_proxy_deployer the_escrow_contract false ;;
    deployed <- proxy_deploy dispatcher_deployer power gas_limit confirmations ;;
    let '(dispatcher_receipts, dispatcher_deployer) := deployed in
    match dict_get dispatcher_receipts "contract_deployment"%string with
    | Some r => py_ret (r, dispatcher_deployer)
    | None => raise KeyError
    end
  else
    the_stub_contract <- get_contract_by_name (Some STAKING_ESCROW_STUB) None None None true ;;
    dispatcher_deployer <- new_proxy_deployer the_stub_contract true ;;
    new_target <- lift (address_text the_escrow_contract.(c_address)) ;;
    r <- retarget dispatcher_deployer power new_target confirmations gas_limit ;;
    py_ret (r, dispatcher_deployer).

Definition escrow_deploy (d : staking_escrow) (power : Power) (mode : deployment_mode) (gas_limit : option Z)
    (contract_version : bytes) (ignore_deployed : bool) (confirmations : Z) (overrides : list (string * json))
    : DM receipts :=
  if decide (mode = IDLE) then raise ValueError
  else
    on_world (check_deployment_readiness STAKING_ESCROW (Some contract_version) ignore_deployed true []) ;;;
    deployed <- on_world (if decide (mode = INIT) then _deploy_stub d power gas_limit confirmations overrides
                          else escrow_deploy_essential d power contract_version gas_limit confirmations overrides) ;;
    let '(the_escrow_contract, deploy_receipt) := deployed in
    if decide (mode = BARE) then
      set_contract the_escrow_contract ;;;
      _finish_bare_deployment "contract_deployment" deploy_receipt
    else
      dispatched <- on_world (escrow_dispatcher mode the_escrow_contract power gas_limit confirmations) ;;
      let '(dispatcher_receipt, dispatcher_deployer) := dispatched in
      dispatcher_contract <- on_world (lift (the_proxy dispatcher_deployer)) ;;
      set_contract (_wrap_contract dispatcher_contract the_escrow_contract) ;;;
      set_receipts (steps_of (if decide (mode = INIT) then ["stub_deployment"; "dispatcher_deployment"]%string
                              else ["contract_deployment"; "dispatcher_retarget"]%string)
                      [deploy_receipt; dispatcher_receipt]) ;;;
      gets (fun s => s.1.(deployment_receipts)).

(** *** AdjudicatorDeployer *)

(** What its [__init__] adds: the staking contract behind its dispatcher, or
    its stub. *)
Definition new_adjudicator : PyM W contract :=
  try_except (get_contract_by_name (Some STAKING_ESCROW) None None (Some DISPATCHER) true) [UnknownContract]
    (fun _ => get_contract_by_name (Some STAKING_ESCROW_STUB) None None (Some DISPATCHER) true).

Definition adjudicator_readiness (staking_contract : contract) (deployer_address : bytes)
    (contract_version : option bytes) (ignore_deployed : bool) : PyM W (bool * nat) :=
  staking_escrow_owner <- call_owner (F := F) staking_contract ;;
  check_deployment_readiness ADJUDICATOR contract_version ignore_deployed true
    [bool_decide (deployer_address = staking_escrow_owner)].

(** [args[i]]. *)
Definition slashing_arg (args : list json) (i : nat) : result json :=
  match args !! i with Some a => Ok a | None => Raise IndexError end.

Definition adjudicator_deploy_essential (e : economics) (staking_contract : contract) (power : Power)
    (contract_version : bytes) (gas_limit : option Z) (confirmations : Z) (overrides : list (string * json))
    : PyM W (contract * sent) :=
  args <- lift (slashing_deployment_parameters e) ;;
  kwargs <- lift (let? a0 := slashing_arg args 0 in let? a1 := slashing_arg args 1 in
                  let? a2 := slashing_arg args 2 in let? a3 := slashing_arg args 3 in
                  let? a4 := slashing_arg args 4 in
                  Ok [("_hashAlgorithm", a0); ("_basePenalty", a1); ("_penaltyHistoryCoefficient", a2);
                      ("_percentagePenaltyCoefficient", a3); ("_rewardCoefficient", a4)]%string) ;;
  deploy_contract power ADJUDICATOR []
    (dict_set (constructor_kwargs kwargs overrides) "_escrow"%string staking_contract.(c_address))
    true gas_limit confirmations contract_version.

Definition adjudicator_class (e : economics) (staking_contract : contract) : contract_class :=
  ContractClass ADJUDICATOR true true (adjudicator_readiness staking_contract)
    (adjudicator_deploy_essential e staking_contract).

Definition adjudicator_deploy (e : economics) (staking_contract : contract) (power : Power) (mode : deployment_mode)
    (gas_limit : option Z) (contract_version : bytes) (ignore_deployed : bool) (confirmations : Z)
    (overrides : list (string * json)) : DM receipts :=
  if decide (mode = INIT) then raise ValueError
  else
    on_world (adjudicator_readiness staking_contract (account (F := F) power) (Some contract_version) ignore_deployed) ;;;
    deployed <- on_world (adjudicator_deploy_essential e staking_contract power contract_version gas_limit confirmations
                            overrides) ;;
    let '(adjudicator_contract, deploy_receipt) := deployed in
    if decide (mode = BARE) then
      set_contract adjudicator_contract ;;;
      _finish_bare_deployment "contract_deployment" deploy_receipt
    else
      proxied <- on_world (d <- new_proxy_deployer adjudicator_contract false ;;
                           proxy_deploy d power gas_limit confirmations) ;;
      let '(proxy_deploy_receipts, proxy_deployer) := proxied in
      proxy_deploy_receipt <- on_world (lift match dict_get proxy_deploy_receipts "contract_deployment"%string with
                                             | Some r => Ok r | None => Raise KeyError end) ;;
      proxy_contract <- on_world (lift (the_proxy proxy_deployer)) ;;
      set_receipts (steps_of ["contract_deployment"; "dispatcher_deployment"]%string
                      [deploy_receipt; proxy_deploy_receipt]) ;;;
      set_contract (_wrap_contract proxy_contract adjudicator_contract) ;;;
      gets (fun s => s.1.(deployment_receipts)).

(** ** ContractAdministrator *)

(** The classes of [all_deployer_classes]. *)
Inductive administered := NuLinkTokenDeployer | PREApplicationDeployer | SubscriptionManagerDeployer | AdjudicatorDeployer.

Definition deployers : list (bytes * administered) :=
  [(TOKEN, NuLinkTokenDeployer); (PRE_APPLICATION, PREApplicationDeployer);
   (SUBSCRIPTION_MANAGER, SubscriptionManagerDeployer); (ADJUDICATOR, AdjudicatorDeployer)].

Definition get_deployer (contract_name : bytes) : result administered :=
  match dict_get deployers contract_name with Some d => Ok d | None => Raise AdministratorUnknownContract end.

(** [if not self.transacting_power]: [None] of a power that is not given. *)
Definition transacting (power : option Power) : result Power :=
  match power with Some p => Ok p | None => Raise ActorError end.

(** The administrator's [deploy_contract], with [staking_interface] for what
    reaches the constructors of the deployers. *)
Definition administrator_deploy (e : economics) (power : option Power) (contract_name : bytes) (gas_limit : option Z)
    (mode : deployment_mode) (ignore_deployed : bool) (confirmations : Z) (parameters : list (string * json))
    (staking_interface : option bytes) : PyM W (receipts * deployer) := fun w =>
  match (let? p := transacting power in let? d := get_deployer contract_name in Ok (p, d)) with
  | Raise x => (Raise x, w)
  | Ok (p, d) =>
      let '(r, (o, w')) :=
        match d with
        | NuLinkTokenDeployer => token_deploy p gas_limit confirmations mode ignore_deployed parameters
        | PREApplicationDeployer =>
            pre_application_deploy e staking_interface p gas_limit confirmations mode ignore_deployed parameters
        | SubscriptionManagerDeployer =>
            subscription_manager_deploy e p gas_limit confirmations ignore_deployed mode parameters
        | AdjudicatorDeployer =>
            staking_contract <- on_world new_adjudicator ;;
            adjudicator_deploy e staking_contract p mode gas_limit (to_bytes "latest") ignore_deployed confirmations
              parameters
        end (new_deployer, w) in
      (let? receipts := r in Ok (receipts, o), w')
  end.

(** The other operations: only the adjudicator's deployer has the methods. *)
Definition administrated {A} (power : option Power) (contract_name : bytes)
    (method : contract_class -> Power -> PyM W A) : PyM W A :=
  p <- lift (transacting power) ;;
  d <- lift (get_deployer contract_name) ;;
  match d with
  | AdjudicatorDeployer =>
      staking_contract <- new_adjudicator ;;
      method (adjudicator_class default_economics staking_contract) p
  | _ => raise AttributeError
  end.

Definition upgrade_contract (power : option Power) (contract_name : bytes) (confirmations : Z) (ignore_deployed : bool)
    : PyM W receipts :=
  administrated power contract_name (fun cls p w =>
    let '(r, (_, w')) := upgrade cls p confirmations None (to_bytes "latest") ignore_deployed [] (new_deployer, w) in (r, w')).

Definition retarget_proxy (power : option Power) (confirmations : Z) (contract_name target_address : bytes)
    (just_build_transaction : bool) : PyM W (tx + sent) :=
  administrated power contract_name (fun cls p =>
    retarget_contract cls p target_address confirmations None just_build_transaction).

Definition administrator_rollback (power : option Power) (contract_name : bytes) : PyM W sent :=
  administrated power contract_name (fun cls p => rollback_contract cls p None).

(** ** What the world promises

    The node does not touch the registry, and writing the registry does not
    touch the chain.  [target_of w abi a] is what calling [target] of the
    contract with this ABI at the address [a] comes to: for most ABIs and
    addresses an exception. *)
Definition target_of (w : W) (abi : json) (a : bytes) : result bytes := (proxy_target abi (JStr a) w).1.

Class DeploymentLaws `{!EthNodeLaws W F Power} := {
  node_keeps_registry rs : NodeKeeps (W := W) (F := F) (Power := Power) (holds rs);
  raw_keeps_registry rs raw : preserves (holds rs) (send_raw_transaction (W := W) (F := F) (Power := Power) raw);
  write_quiet j w : broadcasts (EthNodeLaws := EthNodeLaws0) (write (S := W) j w).2 = broadcasts w;
  (* a call that is no transaction changes nothing, and what it returns does
     not depend on the ABI that knows the function *)
  target_quiet abi a w : (proxy_target abi (JStr a) w).2 = w;
  target_agrees abi abi' a w t t' : target_of w abi a = Ok t -> target_of w abi' a = Ok t' -> t = t';
  write_keeps_targets j w abi a : target_of (write (S := W) j w).2 abi a = target_of w abi a;
  (* creating a contract changes no dispatcher, and [upgrade] only its own *)
  constructor_keeps_targets abi code args kwargs f power payload limit confirmations w r w' :
    constructor (W := W) abi code args kwargs = Ok f ->
    send power f payload limit confirmations w = (Ok r, w') ->
    forall abi' b t, target_of w abi' b = Ok t -> target_of w' abi' b = Ok t;
  upgrade_sets_target abi a version t f power payload limit confirmations w r w' :
    contract_function (W := W) (Contract abi (JStr a) version) "upgrade" [JStr t] = Ok f ->
    send power f payload limit confirmations w = (Ok r, w') ->
    forall abi' b x, target_of w abi' b = Ok x -> target_of w' abi' b = Ok (if decide (b = a) then t else x);
}.

Section Deploying.
Context `{!RegistryLaws W, !EthNodeLaws W F Power, !DeploymentLaws}.
#[local] Existing Instance node_keeps_registry.
(** Compiled ABIs are JSON. *)
Context (Habi : forall name version fac, get_contract_factory name version = Ok fac -> json_ok fac.(f_abi) = true).

Lemma send_outcome power f payload limit confirmations w r w' :
  send power f payload limit confirmations w = (r, w') ->
  (forall rs, holds rs w -> holds rs w') /\
  match r with
  | Ok out => (exists raw, broadcasts w' = broadcasts w ++ [raw]) /\ exists rc, out = SentReceipt rc /\ rc.(status) <> Some 0%Z
  | Raise _ => broadcasts w' = broadcasts w \/ exists raw, broadcasts w' = broadcasts w ++ [raw]
  end.
Proof.
  unfold send, py_bind, py_ret. destruct (send_transaction _ _ _ _ _ _ _ _ _ _ w) as [res w1] eqn:Hs. intros Hr.
  assert (w' = w1) as -> by (by destruct res; simplify_eq). split.
  - intros rs Hw. pose proof (send_transaction_keeps is_checksum_address (holds rs) client f power payload limit
      default_multiplier confirmations false false (raw_keeps_registry rs) w Hw) as Hk. by rewrite Hs in Hk.
  - pose proof (send_transaction_run is_checksum_address _ _ _ _ _ _ _ _ _ _ _ _ Hs) as Ho. clear Hs. cbv zeta in Ho.
    destruct res as [[out callers]|e]; simplify_eq.
    + destruct Ho as (raw & w2 & h & w3 & _ & _ & Hb & Hout). split; [by exists raw|]. destruct out as [h'|rc].
      * by destruct Hout as [Hfire _].
      * exists rc. by destruct Hout as (_ & Hst & _).
    + destruct Ho as [Hb|(callers & raw & w2 & _ & Hb)]; [by left|]. right. by exists raw.
Qed.

(** The record of a contract that a deployment enrolls. *)
Definition enrollment (name : bytes) (fac : factory) (rc : receipt) : record :=
  Record_ name fac.(f_version) (contractAddress rc) fac.(f_abi).

Lemma enroll_outcome rs name fac rc w r w' :
  holds rs w -> json_ok fac.(f_abi) = true ->
  Registry.enroll (JStr name) (JStr (contractAddress rc)) fac.(f_abi) (JStr fac.(f_version)) w = (r, w') ->
  broadcasts w' = broadcasts w /\ (forall abi a, target_of w' abi a = target_of w abi a) /\
  (r = Ok tt -> holds (rs ++ [enrollment name fac rc]) w').
Proof.
  intros Hw Ha He. split_and!.
  - revert He. destruct Hw as [Hr _]. unfold Registry.enroll, py_bind, try_except, lift. rewrite Hr. cbn [append log_json].
    intros He. pose proof (write_quiet (JArr ((record_json <$> rs) ++
      [JArr [JStr name; JStr fac.(f_version); JStr (contractAddress rc); fac.(f_abi)]])) w) as Hq. by rewrite He in Hq.
  - revert He. destruct Hw as [Hr _]. unfold Registry.enroll, py_bind, try_except, lift. rewrite Hr. cbn [append log_json].
    intros He. pose proof (write_keeps_targets (JArr ((record_json <$> rs) ++
      [JArr [JStr name; JStr fac.(f_version); JStr (contractAddress rc); fac.(f_abi)]])) w) as Hq. by rewrite He in Hq.
  - intros ->. by eapply (enroll_holds rs (enrollment name fac rc)).
Qed.

(** A contract as [deploy_contract] returns it. *)
Definition deployed_as (name version : bytes) (out : contract * sent) (fac : factory) (rc : receipt) : Prop :=
  get_contract_factory name version = Ok fac /\ rc.(status) <> Some 0%Z /\
  out = (Contract fac.(f_abi) (JStr (contractAddress rc)) (JStr fac.(f_version)), SentReceipt rc).

(** A transaction was broadcast and its contract's record could not be
    enrolled; [w1] is the world before the enrollment. *)
Definition enrollment_failed (rs : list record) (name version : bytes) (w : W) (e : exn_class) (w' : W) : Prop :=
  exists fac rc raw w1, get_contract_factory name version = Ok fac /\ rc.(status) <> Some 0%Z /\
    broadcasts w1 = broadcasts w ++ [raw] /\ broadcasts w' = broadcasts w1 /\ holds rs w1 /\
    Registry.enroll (JStr name) (JStr (contractAddress rc)) fac.(f_abi) (JStr fac.(f_version)) w1 = (Raise e, w').

Lemma deploy_contract_outcome rs power name args kwargs enroll gas_limit confirmations version w r w' :
  holds rs w -> deploy_contract power name args kwargs enroll gas_limit confirmations version w = (r, w') ->
  match r with
  | Ok out => exists fac rc raw, deployed_as name version out fac rc /\ broadcasts w' = broadcasts w ++ [raw] /\
      holds (if enroll then rs ++ [enrollment name fac rc] else rs) w' /\
      (forall abi a t, target_of w abi a = Ok t -> target_of w' abi a = Ok t)
  | Raise e =>
      (holds rs w' /\ (broadcasts w' = broadcasts w \/ exists raw, broadcasts w' = broadcasts w ++ [raw])) \/
      enrollment_failed rs name version w e w'
  end.
Proof.
  intros Hw. unfold deploy_contract, py_bind at 1, lift at 1.
  destruct (get_contract_factory name version) as [fac|e] eqn:Hfac; [|intros [= <- <-]; left; auto].
  unfold py_bind at 1, lift at 1. destruct (constructor _ _ _ _) as [f|e] eqn:Hf; [|intros [= <- <-]; left; auto].
  unfold py_bind at 1. destruct (send _ _ _ _ _ w) as [res w1] eqn:Hs.
  assert (is_ok res = true -> forall abi a t, target_of w abi a = Ok t -> target_of w1 abi a = Ok t) as Ht
    by (destruct res; [intros _; by eapply constructor_keeps_targets|done]).
  apply send_outcome in Hs as [Hk Hout]. specialize (Hk rs Hw).
  destruct res as [out|e]; [|intros [= <- <-]; left; auto].
  destruct Hout as [(raw & Hb) (rc & -> & Hst)]. specialize (Ht eq_refl). cbv iota.
  assert (deployed_as name version (Contract fac.(f_abi) (JStr (contractAddress rc)) (JStr fac.(f_version)), SentReceipt rc)
            fac rc) as Hd by done.
  destruct enroll; cbn [c_address c_abi c_version]; unfold py_bind.
  - destruct (Registry.enroll _ _ _ _ w1) as [re w2] eqn:He. pose proof He as He'.
    apply (enroll_outcome rs) in He as (Hb2 & Ht2 & Hh); [|done|by eapply Habi].
    destruct re as [[]|e]; intros [= <- <-]; [|right; by exists fac, rc, raw, w1].
    exists fac, rc, raw. split_and!; [done|congruence|by apply Hh|]. intros abi a t. rewrite Ht2. apply Ht.
  - intros [= <- <-]. by exists fac, rc, raw.
Qed.

(** ** Enrolled contracts are found *)

Lemma lookup_at rs (name : bytes) v ev px use_proxy w :
  name <> [] -> holds rs w ->
  get_contract_by_name (Some name) v ev px use_proxy w = (lookup_spec rs (live_target w) name v ev px use_proxy, w).
Proof. intros Hn Hw. apply get_contract_by_name_lookup; [done..|]. intros p _ _. apply target_quiet. Qed.

Lemma by_name_app name (rs : list record) r :
  r.(r_name) = name -> filter (by_name name None) (rs ++ [r]) = filter (by_name name None) rs ++ [r].
Proof. intros Hn. rewrite filter_app, filter_cons, decide_True; [done|]. split; [done|by left]. Qed.

Lemma latest_is_last (rs : list record) r lv name :
  r.(r_name) = name ->
  lookup_spec (rs ++ [r]) lv name None (Some (VersionName (to_bytes "latest"))) None false = Ok (contract_of r).
Proof.
  intros Hn. unfold lookup_spec. rewrite by_name_app by done.
  destruct (filter (by_name name None) rs) as [|first more]; [done|]. cbn [truthy app andb].
  destruct (more ++ [r]) as [|r' more'] eqn:Hm; [by destruct more|].
  unfold chosen_enrollment. rewrite decide_True by done. rewrite <- Hm, app_comm_cons, last_snoc. done.
Qed.

(** C30.  A deployment that returns has sent one transaction, whose receipt does
    not report a failure, and its contract, of the compiled data of the version
    that was asked for at the address of the receipt, is the last record of
    the registry, where the lookup of the latest enrollment finds it.  A
    deployment that raises has sent at most one transaction and enrolled
    nothing, unless what raised is the enrollment itself, after the
    transaction was broadcast: then the registry is what writing it left. *)
Theorem deployment_is_enrolled rs power (name : bytes) args kwargs gas_limit confirmations version w r w' :
  name <> [] -> holds rs w ->
  deploy_contract power name args kwargs true gas_limit confirmations version w = (r, w') ->
  match r with
  | Ok out => exists fac rc raw, deployed_as name version out fac rc /\ broadcasts w' = broadcasts w ++ [raw] /\
      holds (rs ++ [enrollment name fac rc]) w' /\ get_latest_enrollment name w' = (Ok out.1, w')
  | Raise e =>
      (holds rs w' /\ (broadcasts w' = broadcasts w \/ exists raw, broadcasts w' = broadcasts w ++ [raw])) \/
      enrollment_failed rs name version w e w'
  end.
Proof.
  intros Hn Hw Hd. apply (deploy_contract_outcome rs) in Hd; [|done]. destruct r as [out|e]; [|done].
  destruct Hd as (fac & rc & raw & Ho & Hb & Hh & _). exists fac, rc, raw. split_and!; [done..|].
  unfold get_latest_enrollment. rewrite (lookup_at _ _ _ _ _ _ _ Hn Hh), latest_is_last by done.
  destruct Ho as (_ & _ & ->). done.
Qed.

(** *** A contract that is deployed once *)

Lemma search_name rs (name : bytes) v (w : W) :
  name <> [] -> holds rs w ->
  search (Some name) v None w =
  match filter (by_name name v) rs with
  | [] => (Raise UnknownContract, w)
  | l => (Ok (Records (record_json <$> l)), w)
  end.
Proof. intros. by apply search_by_name. Qed.

Lemma is_deployed_at rs (name : bytes) v w :
  name <> [] -> holds rs w ->
  is_deployed name v w = (Ok (bool_decide (filter (by_name name v) rs <> [])), w).
Proof.
  intros Hn Hw. unfold is_deployed, try_except, py_bind. rewrite (search_name rs name v w Hn Hw).
  by destruct (filter (by_name name v) rs).
Qed.

(** Whether a deployer is ready depends on the registry, and changes nothing. *)
Lemma readiness_pure rs (name : bytes) v ignore fail rules w :
  name <> [] -> holds rs w ->
  check_deployment_readiness name v ignore fail rules w = ((check_deployment_readiness name v ignore fail rules w).1, w).
Proof.
  intros Hn Hw. unfold check_deployment_readiness, py_bind at 1 3, lift at 1 3.
  destruct (match v with Some _ => _ | None => _ end) as [v'|e]; [|done]. unfold py_bind.
  destruct ignore; cbn [py_ret]; [|rewrite is_deployed_at with (rs := rs) by done]; unfold lift, py_ret;
    by destruct (check_rules _ fail).
Qed.

Lemma deployed_again_refused rs (name : bytes) w :
  name <> [] -> holds rs w -> filter (by_name name None) rs <> [] ->
  check_deployment_readiness name None false true [] w = (Raise ContractDeploymentError, w).
Proof.
  intros Hn Hw Hr. unfold check_deployment_readiness, py_bind, lift. rewrite (is_deployed_at rs name None w) by done.
  by rewrite bool_decide_eq_true_2.
Qed.

Lemma token_deploy_enrolls rs p g c m i ov d w res d' w' :
  holds rs w -> token_deploy p g c m i ov (d, w) = (Ok res, (d', w')) ->
  exists fac rc, holds (rs ++ [enrollment TOKEN fac rc]) w'.
Proof.
  intros Hw. unfold token_deploy. case_decide; [done|]. unfold py_bind at 1, on_world at 1. cbn [fst snd].
  rewrite (readiness_pure rs) by done. destruct (check_deployment_readiness _ _ _ _ _ w).1; [|done].
  unfold py_bind at 1, on_world at 1. cbn [fst snd]. destruct (deploy_contract _ _ _ _ _ _ _ _ w) as [[out|e] w1] eqn:Hd; [|done].
  apply (deploy_contract_outcome rs) in Hd as (fac & rc & raw & _ & _ & Hh & _); [|done].
  intros [= _ _ <-]. by exists fac, rc.
Qed.

(** The token's deployment can only be executed once: after one that returned,
    another is refused before it sends anything, unless the check is turned
    off. *)
Theorem token_is_deployed_once rs p g c m i ov d w res d' w' p2 g2 c2 ov2 d2 :
  holds rs w -> token_deploy p g c m i ov (d, w) = (Ok res, (d', w')) ->
  token_deploy p2 g2 c2 FULL false ov2 (d2, w') = (Raise ContractDeploymentError, (d2, w')).
Proof.
  intros Hw (fac & rc & Hh)%(token_deploy_enrolls rs); [|done].
  unfold token_deploy. rewrite decide_False by tauto. unfold py_bind at 1, on_world at 1. cbn [fst snd].
  rewrite (deployed_again_refused _ TOKEN w' ltac:(done) Hh); [done|].
  rewrite by_name_app by done. by destruct (filter _ rs).
Qed.

(** ** Upgrades *)

Lemma filter_all_out {A} (P : A -> Prop) `{!forall x, Decision (P x)} l : (forall x, x ∈ l -> ~ P x) -> filter P l = [].
Proof.
  induction l as [|x l IH]; intros Hl; [done|]. rewrite filter_cons, decide_False by (apply Hl; left).
  apply IH. intros y Hy. apply Hl. by right.
Qed.

Lemma flat_map_filter {A B} (f : A -> list B) (g : A -> B) (P : A -> Prop) `{!forall x, Decision (P x)} l :
  (forall x, x ∈ l -> f x = if decide (P x) then [g x] else []) -> flat_map f l = g <$> filter P l.
Proof.
  induction l as [|x l IH]; intros Hf; [done|]. cbn [flat_map]. rewrite IH by (intros; apply Hf; by right).
  rewrite (Hf x) by left. rewrite filter_cons. by destruct (decide (P x)).
Qed.

Lemma elem_of_proxy_pairs lv ps all p t :
  (p, t) ∈ proxy_pairs lv ps all <-> p ∈ ps /\ t ∈ all /\ t.(r_address) = lv p.
Proof.
  unfold proxy_pairs. rewrite list_elem_of_In, in_flat_map. split.
  - intros (q & Hq & Hin). apply list_elem_of_In, list_elem_of_fmap in Hin as (t' & [= -> ->] & Ht).
    apply list_elem_of_filter in Ht as [Ha Ht]. by rewrite <- list_elem_of_In in Hq.
  - intros (Hp & Ht & Ha). exists p. rewrite <- !list_elem_of_In. split; [done|].
    apply list_elem_of_fmap. exists t. split; [done|]. by apply list_elem_of_filter.
Qed.

(** The only pair of a dispatcher and its target, after the dispatcher was
    given a new target that nothing else had. *)
Lemma retargeted_pairs (lv lv' : record -> bytes) (ps all : list record) (p0 t0 tn : record) :
  (forall p, p ∈ ps -> lv' p = if decide (p.(r_address) = p0.(r_address)) then tn.(r_address) else lv p) ->
  (forall p, p ∈ ps -> p.(r_address) = p0.(r_address) -> lv p = lv p0) ->
  proxy_pairs lv ps all = [(p0, t0)] ->
  filter (fun p => lv p = t0.(r_address)) ps = [p0] ->
  (forall t, t ∈ all -> t.(r_address) <> tn.(r_address)) ->
  (forall p, p ∈ ps -> lv p <> tn.(r_address)) ->
  proxy_pairs lv' ps (all ++ [tn]) = [(p0, tn)].
Proof.
  intros Hlv Hsame Hpairs Hp0 Hfresh Hlive. unfold proxy_pairs.
  rewrite (flat_map_filter _ (fun p => (p, tn)) (fun p => lv p = t0.(r_address))); [by rewrite Hp0|].
  assert (lv p0 = t0.(r_address)) as Ht0
    by (assert (p0 ∈ [p0]) as Hin by left; rewrite <- Hp0 in Hin; by apply list_elem_of_filter in Hin as [? _]).
  intros p Hp. rewrite Hlv, filter_app, fmap_app by done. destruct (decide (lv p = r_address t0)) as [Hl|Hl].
  - assert (p ∈ [p0]) as ->%list_elem_of_singleton by (rewrite <- Hp0; by apply list_elem_of_filter).
    rewrite decide_True by done. by rewrite (filter_all_out _ all Hfresh), filter_cons, decide_True by done.
  - rewrite decide_False by (intros Ha; apply Hl; by rewrite (Hsame p Hp Ha)).
    rewrite filter_cons, decide_False by (intros Heq; by apply (Hlive p Hp)).
    rewrite (filter_all_out _ all); [done|].
    intros t Ht Ha. assert ((p, t) ∈ [(p0, t0)]) as [= -> ->]%list_elem_of_singleton; [|by apply Hl].
    rewrite <- Hpairs. by apply elem_of_proxy_pairs.
Qed.

(** Every dispatcher of the list tells its target. *)
Definition all_told (w : W) (ps : list record) : Prop :=
  forall p, p ∈ ps -> live_target w p = Ok (told (live_target w) p).

Lemma live_target_of w p : live_target w p = target_of w p.(r_abi) p.(r_address).
Proof. done. Qed.

Lemma targets_asked_told w ps u : targets_asked (live_target w) ps = Ok u -> all_told w ps.
Proof.
  induction ps as [|p ps IH]; intros Ha q Hq; [by apply elem_of_nil in Hq|]. cbn [targets_asked] in Ha.
  destruct (live_target w p) as [a|e] eqn:Hp; [|done]. cbn [rbind] in Ha.
  apply elem_of_cons in Hq as [->|Hq]; [unfold told; by rewrite Hp|by apply IH].
Qed.

Lemma all_told_asked w ps : all_told w ps -> targets_asked (live_target w) ps = Ok tt.
Proof.
  induction ps as [|p ps IH]; intros Ha; [done|]. cbn [targets_asked]. rewrite (Ha p) by left. cbn [rbind].
  apply IH. intros q Hq. apply Ha. by right.
Qed.

Lemma live_proxies_ok (a : bytes) (ps : list record) (w : W) l w' :
  live_proxies (JStr a) (record_json <$> ps) w = (Ok l, w') ->
  w' = w /\ l = contract_of <$> filter (fun p => told (live_target w) p = a) ps.
Proof.
  revert l w'. induction ps as [|p ps IH]; intros l w'; [by intros [= <- <-]|].
  rewrite fmap_cons. cbn [live_proxies]. unfold py_bind, lift, unpack. cbn [record_json iter_json rbind].
  pose proof (target_quiet p.(r_abi) p.(r_address) w) as Hq.
  assert (told (live_target w) p = match (proxy_target p.(r_abi) (JStr p.(r_address)) w).1 with Ok t => t | Raise _ => [] end)
    as Htold by done.
  destruct (proxy_target (r_abi p) (JStr (r_address p)) w) as [[t|e] w1]; cbn [fst snd] in *; subst w1; [|done].
  destruct (live_proxies (JStr a) (record_json <$> ps) w) as [[l1|e] w2] eqn:Hl; [|done].
  destruct (IH _ _ eq_refl) as [-> ->]. intros Hret. cbn [is_live] in Hret. rewrite filter_cons, Htold. unfold py_ret in Hret.
  destruct (decide (t = a)) as [->|Hne].
  - rewrite bool_decide_eq_true_2 in Hret by done. by injection Hret as <- <-.
  - rewrite bool_decide_eq_false_2 in Hret by congruence. by injection Hret as <- <-.
Qed.

Lemma get_proxy_contract_ok rs (j : json) w p w' :
  holds rs w -> get_proxy_contract j DISPATCHER w = (Ok p, w') ->
  w' = w /\ exists a r, j = JStr a /\ p = contract_of r /\
    filter (fun q => told (live_target w) q = a) (filter (by_name DISPATCHER None) rs) = [r].
Proof.
  intros Hw. unfold get_proxy_contract, py_bind, lift. destruct j as [| | | |a| |]; try done.
  destruct (checked_address (JStr a)); [|done]. rewrite (search_name rs) by done.
  destruct (filter (by_name DISPATCHER None) rs) as [|q qs]; [done|]. cbn [records_of].
  destruct (live_proxies _ _ w) as [[l|e] w1] eqn:Hl; [|done]. apply live_proxies_ok in Hl as [-> ->].
  destruct (filter _ (q :: qs)) as [|r [|r' l]] eqn:Hr; [done| |done]. intros [= <- <-]. split; [done|]. by exists a, r.
Qed.

Lemma get_principal_contract_ok rs (cls : contract_class) w c w' :
  cls.(contract_name) <> [] -> holds rs w -> get_principal_contract cls w = (Ok c, w') ->
  w' = w /\ all_told w (filter (by_name DISPATCHER None) rs) /\ exists p0 t0, c.(c_address) = JStr t0.(r_address) /\
    proxy_pairs (told (live_target w)) (filter (by_name DISPATCHER None) rs) (filter (by_name cls.(contract_name) None) rs)
      = [(p0, t0)].
Proof.
  intros Hn Hw. unfold get_principal_contract, guard_upgradeable, py_bind. destruct (_upgradeable cls); [|done]. unfold py_ret.
  rewrite (lookup_at rs) by done. unfold lookup_spec.
  destruct (filter (by_name (contract_name cls) None) rs) as [|first more]; [done|]. cbn [truthy andb].
  change DISPATCHER with ("D"%char :: to_bytes "ispatcher") at 1 2. cbv iota.
  change ("D"%char :: to_bytes "ispatcher") with DISPATCHER.
  destruct (filter (by_name DISPATCHER None) rs) as [|q qs]; [done|]. unfold answered_pairs.
  destruct (targets_asked (live_target w) (q :: qs)) as [u|e] eqn:Hasked; [|done]. cbn [rbind].
  destruct (proxy_pairs _ (q :: qs) (first :: more)) as [|[p0 t0] [|? ?]]; [done| |done].
  intros [= <- <-]. split; [done|]. split; [by eapply targets_asked_told|]. by exists p0, t0.
Qed.

(** Before an upgrade: one dispatcher targets one of the contract's records. *)
Lemma get_proxy_deployer_ok rs (cls : contract_class) w pd w' :
  cls.(contract_name) <> [] -> holds rs w -> get_proxy_deployer cls w = (Ok pd, w') ->
  w' = w /\ all_told w (filter (by_name DISPATCHER None) rs) /\ exists p0 t0, pd.(proxy) = Some (contract_of p0) /\
    pd.(target_contract).(c_address) = JStr t0.(r_address) /\
    proxy_pairs (told (live_target w)) (filter (by_name DISPATCHER None) rs) (filter (by_name cls.(contract_name) None) rs)
      = [(p0, t0)] /\
    filter (fun p => told (live_target w) p = t0.(r_address)) (filter (by_name DISPATCHER None) rs) = [p0].
Proof.
  intros Hn Hw. unfold get_proxy_deployer, py_bind at 1. destruct (get_principal_contract cls w) as [[c|e] w1] eqn:Hc; [|done].
  apply (get_principal_contract_ok rs) in Hc as (-> & Htold & p0 & t0 & Ha & Hp); [|done..].
  unfold new_proxy_deployer, py_bind. destruct (get_proxy_contract _ _ w) as [[p|e] w2] eqn:Hpc; [|done].
  apply (get_proxy_contract_ok rs) in Hpc as (-> & a & r & Hj & -> & Hf); [|done]. rewrite Ha in Hj. injection Hj as <-.
  intros [= <- <-]. split; [done|]. split; [done|]. exists p0, t0. cbn [proxy target_contract].
  assert (p0 ∈ [r]) as ->%list_elem_of_singleton; [|done]. rewrite <- Hf.
  assert ((p0, t0) ∈ [(p0, t0)]) as Hin by left. rewrite <- Hp in Hin. apply elem_of_proxy_pairs in Hin as (H1 & _ & H2).
  by apply list_elem_of_filter.
Qed.

Lemma retarget_ok rs pd p0 power t confirmations gas_limit w r w' :
  pd.(proxy) = Some (contract_of p0) -> holds rs w -> retarget pd power t confirmations gas_limit w = (Ok r, w') ->
  holds rs w' /\ (exists raw, broadcasts w' = broadcasts w ++ [raw]) /\
  forall abi b x, target_of w abi b = Ok x -> target_of w' abi b = Ok (if decide (b = p0.(r_address)) then t else x).
Proof.
  intros Hp Hw. unfold retarget, upgrade_function, the_proxy, py_bind, lift. rewrite Hp. cbn [rbind].
  destruct (_validate_retarget pd t); [|done]. cbn [rbind].
  destruct (contract_function (contract_of p0) "upgrade" [JStr t]) as [f|e] eqn:Hf; [|done]. intros Hs.
  split_and!; [| |by eapply upgrade_sets_target]; apply send_outcome in Hs as [Hk [Hb _]]; auto.
Qed.

(** The two transactions of an upgrade. *)
Lemma upgrade_ok rs (cls : contract_class) power confirmations gas_limit version ignore overrides o w res o' w' :
  cls.(contract_name) <> [] ->
  (forall a v i, exists r, cls.(class_readiness) a v i w = (r, w)) ->
  (exists args kwargs, cls.(class_deploy_essential) power version gas_limit confirmations overrides =
     deploy_contract power cls.(contract_name) args kwargs true gas_limit confirmations version) ->
  holds rs w -> upgrade cls power confirmations gas_limit version ignore overrides (o, w) = (Ok res, (o', w')) ->
  exists p0 t0 fac rc raw1 raw2, let tn := enrollment cls.(contract_name) fac rc in
    get_contract_factory cls.(contract_name) version = Ok fac /\
    all_told w (filter (by_name DISPATCHER None) rs) /\
    proxy_pairs (told (live_target w)) (filter (by_name DISPATCHER None) rs) (filter (by_name cls.(contract_name) None) rs)
      = [(p0, t0)] /\
    filter (fun p => told (live_target w) p = t0.(r_address)) (filter (by_name DISPATCHER None) rs) = [p0] /\
    holds (rs ++ [tn]) w' /\ broadcasts w' = broadcasts w ++ [raw1; raw2] /\
    (forall p x, live_target w p = Ok x ->
       live_target w' p = Ok (if decide (p.(r_address) = p0.(r_address)) then tn.(r_address) else x)) /\
    o'.(_contract) = Some (Contract fac.(f_abi) (JStr p0.(r_address)) (JStr fac.(f_version))).
Proof.
  intros Hn Hready (args & kwargs & Hdeploy) Hw. unfold upgrade. rewrite Hdeploy. clear Hdeploy.
  unfold py_bind at 1, on_world at 1. cbn [fst snd]. unfold guard_upgradeable. destruct (_upgradeable cls); [|done]. unfold py_ret at 1.
  unfold py_bind at 1, on_world at 1. cbn [fst snd].
  destruct (Hready (account (F := F) power) (Some version) ignore) as [[u|e] ->]; [|done].
  unfold py_bind at 1, on_world at 1. cbn [fst snd]. destruct (get_proxy_deployer cls w) as [[pd|e] w1] eqn:Hpd; [|done].
  apply (get_proxy_deployer_ok rs) in Hpd as (-> & Htold & p0 & t0 & Hp & _ & Hpairs & Hf); [|done..].
  unfold py_bind at 1, on_world at 1. cbn [fst snd].
  destruct (deploy_contract _ _ _ _ _ _ _ _ w) as [[out|e] w2] eqn:Hd; [|done].
  apply (deploy_contract_outcome rs) in Hd as (fac & rc & raw1 & (Hfac & _ & ->) & Hb1 & Hh & Ht); [|done].
  unfold the_proxy. rewrite Hp. unfold py_bind at 1, on_world at 1, lift at 1. cbn [fst snd].
  unfold py_bind at 1, on_world at 1, lift at 1. cbn [fst snd address_text c_address].
  unfold py_bind at 1, on_world at 1. cbn [fst snd].
  destruct (retarget _ _ _ _ _ w2) as [[r|e] w3] eqn:Hr; [|done].
  apply (retarget_ok (rs ++ [enrollment (contract_name cls) fac rc]) pd p0) in Hr as (Hh3 & (raw2 & Hb2) & Ht3); [|done..].
  intros [= _ <- <-]. exists p0, t0, fac, rc, raw1, raw2. split_and!; try done.
  - rewrite Hb2, Hb1, <- app_assoc. done.
  - intros p x Hx. apply (Ht3 p.(r_abi) p.(r_address)). by apply Ht.
Qed.

(** After an upgrade the lookup behind the dispatcher finds the new version:
    two transactions are sent, the new contract is enrolled with the compiled
    data of the version that was asked for, and if its address is a new one,
    the contract by the name of the escrow and its dispatcher is the one that
    the deployer holds, with the new ABI and version at the address that the
    dispatcher had before. *)
Theorem upgrade_is_found rs d power confirmations gas_limit version ignore overrides o w res o' w' :
  holds rs w ->
  upgrade (escrow_class d) power confirmations gas_limit version ignore overrides (o, w) = (Ok res, (o', w')) ->
  exists fac rc raw1 raw2, let tn := enrollment STAKING_ESCROW fac rc in
    get_contract_factory STAKING_ESCROW version = Ok fac /\
    holds (rs ++ [tn]) w' /\ broadcasts w' = broadcasts w ++ [raw1; raw2] /\
    ((forall r, r ∈ rs -> r.(r_address) <> tn.(r_address) /\ live_target w r <> Ok tn.(r_address)) ->
     exists p0, p0 ∈ rs /\ p0.(r_name) = DISPATCHER /\ live_target w' p0 = Ok tn.(r_address) /\
       let c := Contract fac.(f_abi) (JStr p0.(r_address)) (JStr fac.(f_version)) in
       o'.(_contract) = Some c /\
       get_contract_by_name (Some STAKING_ESCROW) None None (Some DISPATCHER) true w' = (Ok c, w')).
Proof.
  intros Hw Hu. apply (upgrade_ok rs) in Hu; [|done| |by eexists _, _|done].
  2: { intros a v i. eexists. by apply (readiness_pure rs). }
  destruct Hu as (p0 & t0 & fac & rc & raw1 & raw2 & Hfac & Htold & Hpairs & Hf & Hh & Hb & Ht & Hc).
  exists fac, rc, raw1, raw2. split_and!; [done..|]. intros Hfresh. exists p0.
  assert (p0 ∈ filter (by_name DISPATCHER None) rs) as Hp0.
  { assert ((p0, t0) ∈ [(p0, t0)]) as Hin by left. rewrite <- Hpairs in Hin. by apply elem_of_proxy_pairs in Hin as [? _]. }
  pose proof Hp0 as [[Hname _] Hin]%list_elem_of_filter. split; [exact Hin|]. split; [exact Hname|].
  split; [erewrite Ht by (by apply Htold); by rewrite decide_True|]. split; [exact Hc|].
  rewrite (lookup_at (rs ++ [enrollment STAKING_ESCROW fac rc])) by done. f_equal. unfold lookup_spec. rewrite by_name_app by done.
  rewrite filter_app, (filter_all_out _ [enrollment STAKING_ESCROW fac rc]), app_nil_r
    by (intros r ->%list_elem_of_singleton [[=] _]).
  assert (all_told w' (filter (by_name DISPATCHER None) rs)) as Htold'.
  { intros p Hp. unfold told. by rewrite (Ht p _ (Htold p Hp)). }
  assert (proxy_pairs (told (live_target w')) (filter (by_name DISPATCHER None) rs)
            (filter (by_name STAKING_ESCROW None) rs ++ [enrollment STAKING_ESCROW fac rc])
          = [(p0, enrollment STAKING_ESCROW fac rc)]) as Hnew.
  { apply (retargeted_pairs (told (live_target w)) (told (live_target w')) _ _ p0 t0); [| |exact Hpairs|exact Hf| |].
    - intros p Hp. unfold told at 1. by rewrite (Ht p _ (Htold p Hp)).
    - intros p Hp Ha. apply (target_agrees p.(r_abi) p0.(r_abi) p0.(r_address) w); [|by apply Htold].
      rewrite <- Ha. by apply Htold.
    - intros t [_ Hin']%list_elem_of_filter. by apply Hfresh.
    - intros p Hp Heq. assert (p ∈ rs) as Hin' by by apply list_elem_of_filter in Hp as [_ ?].
      apply (proj2 (Hfresh p Hin')). rewrite <- Heq. by apply Htold. }
  pose proof (all_told_asked w' _ Htold') as Hasked.
  revert Hnew. generalize (filter (by_name STAKING_ESCROW None) rs). intros l Hnew.
  assert (exists q qs, filter (by_name DISPATCHER None) rs = q :: qs) as (q & qs & Hq)
    by (destruct (filter (by_name DISPATCHER None) rs) as [|q qs]; [done|by exists q, qs]).
  destruct (l ++ [_]) as [|first more] eqn:Hl; [by destruct l|]. cbn [truthy andb].
  change DISPATCHER with ("D"%char :: to_bytes "ispatcher") at 1. cbv iota.
  change ("D"%char :: to_bytes "ispatcher") with DISPATCHER. rewrite Hq in *. cbv iota. unfold answered_pairs. rewrite Hasked. cbn [rbind]. by rewrite Hnew.
Qed.

End Deploying.

(** ** What the administrator cannot do *)

(** Economics has no slashing parameters any more, so the adjudicator, whose
    deployer is the only one with an upgrade, is never upgraded. *)
Theorem administrator_never_upgrades power name confirmations ignore_deployed w :
  is_ok (upgrade_contract power name confirmations ignore_deployed w).1 = false.
Proof.
  unfold upgrade_contract, administrated, py_bind at 1, lift at 1. destruct (transacting power) as [p|]; [|done].
  unfold py_bind at 1, lift at 1. destruct (get_deployer name) as [[]|]; [done..| |done].
  unfold py_bind at 1. destruct (new_adjudicator w) as [[sc|] w1]; [|done].
  unfold upgrade. cbn [adjudicator_class _upgradeable class_readiness class_deploy_essential].
  unfold py_bind at 1, on_world at 1. cbn [fst snd].
  change (guard_upgradeable (adjudicator_class default_economics sc) w1) with (@Ok unit tt, w1). cbv iota beta.
  unfold py_bind at 1, on_world at 1. cbn [fst snd]. 
  destruct (adjudicator_readiness sc (account (F := F) p) (Some (to_bytes "latest")) ignore_deployed w1) as [[r|] w2]; [|done].
  unfold py_bind at 1, on_world at 1. cbn [fst snd]. by destruct (get_proxy_deployer _ w2) as [[pd|] w3].
Qed.

(** The owner of a contract without a proxy cannot be read. *)
Theorem owner_of_bare_contract cls w : cls.(_upgradeable) = false -> is_ok (owner cls w).1 = false.
Proof.
  intros Hu. unfold owner. rewrite Hu. unfold py_bind. by destruct (get_contract_by_name _ _ _ _ _ w) as [[c|] w1].
Qed.

End Deployers.
End Deployers.

(** * A node with one dispatcher *)

Module DeployersDemo.
Import Registry.Registry Contracts Transactions Deployers.

(** The world: a registry, the time, what was broadcast, and the target of the
    dispatcher at [dispatcher_at]. *)
Record world := World { reg : local_registry; clock : Z; sent_log : list bytes; dispatcher_target : bytes }.

Definition on_reg {A} (m : PyM local_registry A) : PyM world A := fun w =>
  let '(r, s) := m w.(reg) in (r, World s w.(clock) w.(sent_log) w.(dispatcher_target)).

#[local] Existing Instance RegistryDemo.demo_digest.
#[export] Instance demo_store : RegistryStore world := {
  read := on_reg local_read;
  write := fun j => on_reg (local_write j);
  get_id := fun w => w.(reg).(_id);
  set_id := fun i w => World (set_id i w.(reg)) w.(clock) w.(sent_log) w.(dispatcher_target);
}.

#[export] Instance demo_registry_laws : RegistryLaws world.
Proof.
  split. intros j s s' Hj. cbn [write demo_store]. unfold on_reg. destruct (local_write j (reg s)) as [r b] eqn:Hw.
  intros; simplify_eq. destruct (local_write_read j _ _ Hj Hw) as (H1 & H2 & _). cbn. unfold on_reg. cbn. by rewrite H1.
Qed.

Definition dispatcher_at : bytes := to_bytes "0xD".
(** Only the dispatcher answers. *)
Definition target_at (w : world) (a : bytes) : result bytes :=
  if decide (a = dispatcher_at) then Ok w.(dispatcher_target) else Raise ValueError.

#[export] Instance demo_proxies : ProxyCalls world := {|
  proxy_target _ a w := (match a with JStr a => target_at w a | _ => Raise ValueError end, w)
|}.

#[export] Instance demo_eth : Web3Eth world := {
  time_time w := w.(clock);
  sleep_ms n w := World w.(reg) (w.(clock) + Z.max 0 n) w.(sent_log) w.(dispatcher_target);
  waitForTransactionReceipt h t p w := (Ok (Receipt h (to_bytes "block") 100 (Some 1%Z) 50000), w);
  getTransactionReceipt h w := (Ok (Receipt h (to_bytes "block") 100 (Some 1%Z) 50000), w);
  eth_blockNumber w := (Ok (99 + w.(clock) / 5000)%Z, w);
  eth_chainId w := (Ok 97%Z, w);
  personal_unlock a p d w := (Ok true, w);
  personal_lock a w := (Ok true, w);
  tester_accounts w := (Ok [], w);
}.

(** Creating a contract, or giving the dispatcher a target; the calldata. *)
Inductive demo_function := Create | Upgrade (t : bytes).
Definition calldata (f : demo_function) : bytes := match f with Create => to_bytes "C" | Upgrade t => "U"%char :: t end.

(** What the node does with it. *)
Definition run_calldata (raw : bytes) (w : world) : world :=
  World w.(reg) w.(clock) (w.(sent_log) ++ [raw])
    (match raw with "U"%char :: t => t | _ => w.(dispatcher_target) end).

#[export] Instance demo_node : EthNode world demo_function bytes := {
  get_transaction_count a pending w := (Ok 7%Z, w);
  estimateGas f t w := (Done 100000%Z, w);
  buildTransaction f t w := (Done [("gas"%string, TInt 100000); ("data"%string, TText (calldata f))], w);
  get_balance a w := (Ok 0%Z, w);
  eth_gas_price w := (Ok 90000000000%Z, w);
  check_wei v := Ok tt;
  account p := p;
  sign_transaction p t w := (Ok (match dict_get t "data"%string with Some (TText d) => d | _ => [] end), w);
  send_raw_transaction raw w := (Ok (to_bytes "hash"), run_calldata raw w);
  get_transaction_gas h w := (Ok 0%Z, w);
}.

#[export] Instance demo_node_laws : EthNodeLaws world demo_function bytes.
Proof. refine {| broadcasts w := w.(sent_log) |}; first [by intros|by intros ? ? ? ? ?|by intros ? ? ?|by intros ? ? ? ?]. Defined.

#[export] Instance demo_functions : ContractFunctions world demo_function := {
  constructor _ _ _ _ := Ok Create;
  contract_function c name args :=
    match args with
    | [JStr t] =>
        if bool_decide (name = "upgrade"%string) && is_live c.(c_address) dispatcher_at then Ok (Upgrade t)
        else Raise AttributeError
    | _ => Raise AttributeError
    end;
  contractAddress _ := to_bytes "0xC";
  call_owner _ w := (Ok (to_bytes "0xAlice"), w);
}.

(** The dispatcher after a call that returned: only the broadcast moves it. *)
Lemma demo_target_kept x : NodeKeeps (W := world) (F := demo_function) (Power := bytes) (fun w => w.(dispatcher_target) = x).
Proof. split; repeat intro; assumption. Qed.

Lemma demo_holds rs w c l t : holds rs w -> holds rs (World w.(reg) c l t).
Proof.
  intros [Hr Hall]. split; [|done]. revert Hr. cbn. unfold on_reg. cbn [reg clock sent_log dispatcher_target].
  destruct (local_read (reg w)) as [r s]. destruct w. cbn. intros [= -> ->]. done.
Qed.

Lemma demo_send_target checksum c power (f : demo_function) payload limit confirmations (w : world) r w' :
  send (Power := bytes) checksum c power f payload limit confirmations w = (Ok r, w') ->
  w'.(dispatcher_target) = (run_calldata (calldata f) w).(dispatcher_target).
Proof.
  unfold send, py_bind. destruct (send_transaction _ _ _ _ _ _ _ _ _ _ w) as [[[out callers]|] w1] eqn:Hs; [|done].
  intros [= _ <-]. apply send_transaction_steps in Hs as
    (payload' & w0 & w2 & t0 & t & price & w3 & raw & w4 & h & w5 & Hbuild & Ht & Hsign & Hraw & Hk).
  injection Hbuild as <- <-. injection Hsign as <- <-. injection Hraw as _ <-.
  destruct (Hk _ (demo_target_kept w.(dispatcher_target))) as [Hk1 _]. specialize (Hk1 eq_refl).
  destruct (Hk _ (demo_target_kept (run_calldata (calldata f) w).(dispatcher_target))) as [_ Hk2]. apply Hk2.
  unfold run_calldata at 2. cbn [dispatcher_target]. rewrite <- Hk1.
  destruct Ht as [->|[g ->]]; reflexivity.
Qed.

#[export] Instance demo_laws checksum c : DeploymentLaws (W := world) (F := demo_function) (Power := bytes) checksum c.
Proof.
  split; unfold target_of; cbn [proxy_target demo_proxies fst snd].
  - split; repeat intro; first [assumption|by apply demo_holds].
  - intros rs raw w Hw. by apply demo_holds.
  - intros j w. cbn. unfold on_reg. by destruct (local_write j (reg w)).
  - done.
  - intros abi abi' a w t t' H1 H2. congruence.
  - intros j w abi a. cbn. unfold on_reg. by destruct (local_write j (reg w)).
  - intros abi code args kwargs f power payload limit confirmations w r w' Hf Hs%demo_send_target abi' b t.
    cbn in Hf. injection Hf as <-. unfold target_at. by rewrite Hs.
  - intros abi a version t f power payload limit confirmations w r w' Hf Hs%demo_send_target abi' b x. revert Hf. cbn.
    rewrite (bool_decide_eq_true_2 ("upgrade"%string = _)) by done. cbn [andb].
    case_bool_decide as Ha; [|done]. intros [= <-]. subst a. unfold target_at. rewrite Hs. cbn. by case_decide.
Defined.

(** A registry with the token, the escrow and its dispatcher. *)
Definition token := Record_ TOKEN (to_bytes "v1.0.0") (to_bytes "0xT") (JArr []).
Definition escrow := Record_ STAKING_ESCROW (to_bytes "v1.0.0") (to_bytes "0xA") (JArr []).
Definition dispatcher := Record_ DISPATCHER (to_bytes "v1.0.0") dispatcher_at (JArr []).
Definition log : list record := [token; escrow; dispatcher].

Definition start : world :=
  World (foldl (fun s r => (RegistryDemo.enroll_record r s).2) RegistryDemo.file_registry log) 0 [] (to_bytes "0xA").

Lemma start_holds : holds log start.
Proof. split; [vm_compute; reflexivity|]. by repeat constructor. Qed.

(** The compiled second version of the escrow, and the only one of the token. *)
Definition new_abi : json := JArr [JStr (to_bytes "upgraded")].
Definition outputs (abi : json) : json :=
  JObj [(to_bytes "abi", abi);
        (to_bytes "evm", JObj [(to_bytes "bytecode", JObj [(to_bytes "object", JStr (to_bytes "60"))])])].
Definition compiled : option (list (bytes * Compile.versioned)) :=
  Some [(STAKING_ESCROW, [(to_bytes "v2.0.0", outputs new_abi)]); (TOKEN, [(to_bytes "v1.0.0", outputs (JArr []))])].

Lemma compiled_json name version fac : get_contract_factory compiled name version = Ok fac -> json_ok fac.(f_abi) = true.
Proof.
  unfold get_contract_factory, Compile.find_raw_contract_data, compiled. cbn [dict_get].
  case_decide; [|case_decide; [|done]]; cbn [dict_get]; (case_decide; [by intros [= <-]|]);
    (destruct (bool_decide (version <> Compile.latest) && bool_decide (version <> Compile.earliest)); [done|]);
    by intros [= <-].
Qed.

Definition anyone (a : bytes) : bool := true.
Definition alice : bytes := to_bytes "0xAlice".
Definition the_escrow : staking_escrow := StakingEscrow (contract_of token) None None.

#[local] Notation upgraded :=
  (upgrade anyone Clients.GethClient (escrow_class anyone Clients.GethClient compiled the_escrow) alice 1 None
    (to_bytes "latest") false [] (new_deployer, start)).

(** At the dispatcher's address, with the new ABI and version. *)
Lemma upgrade_is_found_witness :
  is_ok upgraded.1 = true /\
  let c := Contract new_abi (JStr dispatcher_at) (JStr (to_bytes "v2.0.0")) in
  upgraded.2.1.(_contract) = Some c /\
  get_contract_by_name (Some STAKING_ESCROW) None None (Some DISPATCHER) true upgraded.2.2 = (Ok c, upgraded.2.2).
Proof.
  assert (is_ok upgraded.1 = true) as Hok by (vm_compute; reflexivity). split; [exact Hok|].
  destruct upgraded as [[res|e] [o' w']] eqn:Hu; [|discriminate Hok]. cbn [fst snd]. clear Hok.
  destruct (upgrade_is_found anyone Clients.GethClient compiled compiled_json log the_escrow alice 1 None
              (to_bytes "latest") false [] new_deployer start res o' w' start_holds Hu)
    as (fac & rc & raw1 & raw2 & Hfac & _ & _ & Hfound).
  assert (fac = Factory new_abi (JStr (to_bytes "60")) (to_bytes "v2.0.0")) as -> by (vm_compute in Hfac; by injection Hfac as <-).
  destruct Hfound as (p0 & Hin & Hname & _ & Hc & Hg).
  - intros r Hr. unfold log in Hr. rewrite !elem_of_cons, elem_of_nil in Hr.
    destruct Hr as [->|[->|[->|[]]]]; split; vm_compute; discriminate.
  - unfold log in Hin. rewrite !elem_of_cons, elem_of_nil in Hin.
    destruct Hin as [->|[->|[->|[]]]]; [discriminate Hname|discriminate Hname|]. split; [exact Hc|exact Hg].
Defined.

(** The new version of the escrow, deployed without its dispatcher. *)
#[local] Notation deployed :=
  (deploy_contract anyone Clients.GethClient compiled alice STAKING_ESCROW [] [] true None 0 (to_bytes "latest") start).

Lemma deployment_is_enrolled_witness :
  is_ok deployed.1 = true /\
  get_latest_enrollment STAKING_ESCROW deployed.2
    = (Ok (Contract new_abi (JStr (to_bytes "0xC")) (JStr (to_bytes "v2.0.0"))), deployed.2).
Proof.
  assert (is_ok deployed.1 = true) as Hok by (vm_compute; reflexivity). split; [exact Hok|].
  destruct deployed as [[out|e] w'] eqn:Hd; [|discriminate Hok]. cbn [fst snd]. clear Hok.
  destruct (deployment_is_enrolled anyone Clients.GethClient compiled compiled_json log alice STAKING_ESCROW [] [] None 0
              (to_bytes "latest") start (Ok out) w' ltac:(discriminate) start_holds Hd)
    as (fac & rc & raw & (Hfac & _ & ->) & _ & _ & Hlatest).
  assert (fac = Factory new_abi (JStr (to_bytes "60")) (to_bytes "v2.0.0")) as -> by (vm_compute in Hfac; by injection Hfac as <-).
  exact Hlatest.
Defined.

(** The check of the token's deployer is not one of all: with the registry
    above it refuses, while the subscription manager's deployer has none. *)
Example token_refused :
  (token_deploy anyone Clients.GethClient compiled alice None 0 FULL false [] (new_deployer, start)).1
    = Raise ContractDeploymentError.
Proof. vm_compute. reflexivity. Qed.

End DeployersDemo.
