(* ===== verification/Characters.v ===== *)
(** * nulink/characters/lawful.py

    Alice, who grants and revokes policies, and Bob, who retrieves and
    decrypts.  The policy they create, its payment, its enactment and its
    revocation kit are those of Payment.v and Policies.v; the learner, the
    network and umbral's keys are the classes [AliceWorld] and [BobWorld]. *)

From S2P Require Import Prelude Payment Policies.

(** [x or y] on optional integers: [None] and 0 are falsy. *)
Definition or_else (x y : option Z) : option Z := if Payment.truthy x then x else y.

(** [x or y] for a default that is a number. *)
Definition or_value (x : option Z) (y : Z) : Z :=
  match x with Some z => if (z =? 0)%Z then y else z | None => y end.

(** ** Alice *)

Module Alice.
Section Alice.
Context {Ursula KFrag PublicKey TreasureMap EncryptedKeyFrag EncryptedTreasureMap RevocationOrder : Type}.
Context {W Receipt Bob : Type}.

Definition policy : Type := Policy.policy (KFrag:=KFrag) (PublicKey:=PublicKey).
Definition enacted : Type :=
  Policy.enacted_policy (PublicKey:=PublicKey) (EncryptedTreasureMap:=EncryptedTreasureMap)
    (RevocationOrder:=RevocationOrder).
Definition method : Type := Payment.payment_method W Receipt.

(** Keys and messages of umbral and nucypher_core, the learner's known nodes
    and its blocking calls (Nodes.v), the sampling of a policy (Policies.v)
    and the middleware (Wire.v). *)
Class AliceWorld := {
  ursula_checksum_address : Ursula -> string;
  ursula_canonical_address : Ursula -> string;
  ursula_decrypting_key : Ursula -> PublicKey;
  bob_encrypting_key : Bob -> PublicKey;
  policy_hrac : Bob -> string -> string;
  own_account : string;
  generate_kfrags_of : Bob -> string -> Z -> Z -> PyM W (PublicKey * list KFrag);
  new_treasure_map : string -> PublicKey -> list (string * (PublicKey * KFrag)) -> Z -> result TreasureMap;
  map_destinations : TreasureMap -> list (string * EncryptedKeyFrag);
  map_threshold : TreasureMap -> Z;
  encrypt_map : TreasureMap -> PublicKey -> result EncryptedTreasureMap;
  revocation_order : string -> EncryptedKeyFrag -> RevocationOrder;
  to_canonical_address : string -> string;
  to_checksum_address : string -> string;
  iter_set : list string -> list string;
  remember : Ursula -> PyM W unit;
  known_nodes : W -> list (string * Ursula);
  block_until_number_of_known_nodes_is : Z -> Z -> PyM W bool;
  block_until_specific_nodes_are_known : list string -> Z -> PyM W unit;
  sample_policy : policy -> list Ursula -> PyM W (list Ursula);
  middleware_request_revocation : Ursula -> RevocationOrder -> PyM W Z;
}.

Context `{!AliceWorld}.

(** The attributes of a local Alice with a configured threshold and number of
    shares. *)
Record alice := Mk_alice {
  a_threshold : Z;
  a_shares : Z;
  a_duration : option Z;
  a_rate : option Z;
  a_payment : method;
  a_timeout : Z;
  federated_only : bool;
  active_policies : list (string * enacted);
  world : W;
}.
Definition set_active_policies (x : list (string * enacted)) (s : alice) : alice :=
  Mk_alice s.(a_threshold) s.(a_shares) s.(a_duration) s.(a_rate) s.(a_payment) s.(a_timeout)
    s.(federated_only) x s.(world).
Definition set_world (x : W) (s : alice) : alice :=
  Mk_alice s.(a_threshold) s.(a_shares) s.(a_duration) s.(a_rate) s.(a_payment) s.(a_timeout)
    s.(federated_only) s.(active_policies) x.

Definition on_world {A} (m : PyM W A) : PyM alice A := fun s =>
  let '(r, w) := m s.(world) in (r, set_world w s).

(** [add_active_policy]. *)
Definition add_active_policy (p : enacted) : PyM alice unit := fun s =>
  if dict_mem s.(active_policies) p.(Policy.e_hrac) then (Raise KeyError, s)
  else (Ok tt, set_active_policies (dict_set s.(active_policies) p.(Policy.e_hrac) p) s).

(** The keyword arguments of a grant, and the dict of parameters. *)
Record grant_args := {
  g_threshold : option Z;
  g_shares : option Z;
  g_duration : option Z;
  g_commencement : option Z;
  g_expiration : option Z;
  g_value : option Z;
  g_rate : option Z;
  g_payment : option method;
}.
Record policy_params := {
  p_payment : method;
  p_threshold : Z;
  p_shares : Z;
  p_quote : Payment.Quote;
}.

(** [generate_policy_parameters]; a [MayaDT] is always truthy, so an
    expiration counts when it is given.  The quote is asked of Alice's own
    payment method, whichever one is passed. *)
Definition generate_policy_parameters (g : grant_args) : PyM alice policy_params := fun s =>
  if negb (Payment.truthy g.(g_duration)) && bool_decide (g.(g_expiration) = None)
  then (Raise ValueError, s)
  else
    let shares := or_value g.(g_shares) s.(a_shares) in
    let rate := match g.(g_rate) with Some r => Some r | None => s.(a_rate) end in
    (quote <- on_world (s.(a_payment).(Payment.quote)
                {| Payment.a_shares := shares; Payment.a_commencement := g.(g_commencement);
                   Payment.a_expiration := g.(g_expiration);
                   Payment.a_duration := or_else g.(g_duration) s.(a_duration);
                   Payment.a_value := g.(g_value); Payment.a_rate := rate |}) ;;
     py_ret {| p_payment := default s.(a_payment) g.(g_payment);
               p_threshold := or_value g.(g_threshold) s.(a_threshold);
               p_shares := shares; p_quote := quote |}) s.

(** [generate_kfrags]: [threshold or self.threshold], [shares or self.shares]. *)
Definition generate_kfrags (bob : Bob) (label : string) (threshold shares : option Z)
    : PyM alice (PublicKey * list KFrag) := fun s =>
  on_world (generate_kfrags_of bob label (or_value threshold s.(a_threshold))
              (or_value shares s.(a_shares))) s.

(** [create_policy]: the federated and the blockchain policy differ in the
    reservoir they sample from. *)
Definition create_policy (bob : Bob) (label : string) (g : grant_args) : PyM alice (policy * method) :=
  params <- generate_policy_parameters g ;;
  keys <- generate_kfrags bob label (Some params.(p_threshold)) (Some params.(p_shares)) ;;
  let q := params.(p_quote) in
  p <- on_world (Policy.new_policy params.(p_payment) params.(p_threshold) keys.2 keys.1
         (bob_encrypting_key bob) (policy_hrac bob label) label
         q.(Payment.q_commencement) q.(Payment.q_expiration) q.(Payment.q_duration)
         q.(Payment.q_value) q.(Payment.q_rate) own_account) ;;
  py_ret (p, params.(p_payment)).

(** [policy.enact]: sample, then the rest of [enact] of Policies.v. *)
Definition enact (p : policy) (pay_with : method) (ursulas : list Ursula) : PyM alice enacted := fun s =>
  let '(sampled, w) := sample_policy p ursulas s.(world) in
  let '(r, (_, w')) :=
    Policy.enact ursula_checksum_address ursula_canonical_address ursula_decrypting_key pay_with
      (new_treasure_map p.(Policy.hrac) p.(Policy.public_key)) map_destinations map_threshold
      encrypt_map revocation_order sampled (p, w) in
  (r, set_world w' s).

(** The federated wait for enough known nodes. *)
Definition wait_for_nodes (p : policy) (timeout : option Z) : PyM alice unit := fun s =>
  if s.(federated_only) && (Z.of_nat (length (known_nodes s.(world))) <? p.(Policy.shares))%Z then
    (good_to_go <- on_world (block_until_number_of_known_nodes_is p.(Policy.shares)
                      (or_value timeout s.(a_timeout))) ;;
     if negb good_to_go then raise ValueError else py_ret tt) s
  else (Ok tt, s).

Definition grant (bob : Bob) (label : string) (ursulas : list Ursula) (timeout : option Z) (g : grant_args)
    : PyM alice enacted :=
  for_each ursulas (fun u => on_world (remember u)) ;;;
  created <- create_policy bob label g ;;
  wait_for_nodes created.1 timeout ;;;
  ep <- enact created.1 created.2 ursulas ;;
  add_active_policy ep ;;;
  py_ret ep.

(** *** Revocation *)

(** A failure of the loop: the order and the class of the exception. *)
Definition failed_revocations : Type := list (string * (RevocationOrder * exn_class)).

(** One turn of the loop over [revokable_addresses]. *)
Definition revoke_node (kit : Policy.revocation_kit (RevocationOrder:=RevocationOrder)) (node_id : string)
    (failed : failed_revocations) : PyM alice failed_revocations := fun s =>
  match dict_get (known_nodes s.(world)) node_id with
  | None => (Raise KeyError, s)
  | Some ursula =>
      match Policy.revocation_getitem to_canonical_address kit node_id with
      | Raise e => (Raise e, s)
      | Ok revocation =>
          match on_world (middleware_request_revocation ursula revocation) s with
          | (Ok code, s') =>
              if negb (code =? 200)%Z then (Raise ActorError, s') else (Ok failed, s')
          | (Raise e, s') =>
              if catches [NotFound] e then (Ok (dict_set failed node_id (revocation, NotFound)), s')
              else if catches [UnexpectedResponse] e
              then (Ok (dict_set failed node_id (revocation, UnexpectedResponse)), s')
              else (Raise e, s')
          end
      end
  end.

Fixpoint revoke_nodes (kit : Policy.revocation_kit (RevocationOrder:=RevocationOrder)) (ids : list string)
    (failed : failed_revocations) : PyM alice failed_revocations :=
  match ids with
  | [] => py_ret failed
  | node_id :: ids' => failed' <- revoke_node kit node_id failed ;; revoke_nodes kit ids' failed'
  end.

(** [revokable_addresses], a set, in the order of its iteration. *)
Definition revokable (p : enacted) : list string :=
  iter_set (Policy.revokable_addresses to_checksum_address p.(Policy.e_revocation_kit)).

(** [revoke]; the receipt is the empty dict, because the on-chain branch does
    nothing. *)
Definition revoke (p : enacted) (onchain offchain : bool) : PyM alice failed_revocations :=
  if negb (offchain || onchain) then raise ValueError
  else if offchain then
    let revocation_threshold := (p.(Policy.e_shares) - p.(Policy.e_threshold) + 1)%Z in
    on_world (block_until_specific_nodes_are_known (revokable p)
      (p.(Policy.e_shares) - revocation_threshold)) ;;;
    revoke_nodes p.(Policy.e_revocation_kit) (revokable p) []
  else py_ret [].

(** *** Properties *)

Lemma on_world_frame {A} (m : PyM W A) s r s' :
  on_world m s = (r, s') -> s'.(active_policies) = s.(active_policies) /\ m s.(world) = (r, s'.(world)).
Proof. unfold on_world. destruct (m _). intros; by simplify_eq. Qed.

(** Everything before the registration leaves the active policies alone. *)
Definition same_policies (l : list (string * enacted)) (s : alice) : Prop := s.(active_policies) = l.

Lemma same_on_world l {A} (m : PyM W A) : preserves (same_policies l) (on_world m).
Proof. intros s Hs. unfold on_world. by destruct (m _). Qed.

#[local] Hint Resolve same_on_world : pym.

Lemma same_create l bob label g : preserves (same_policies l) (create_policy bob label g).
Proof.
  assert (preserves (same_policies l) (generate_policy_parameters g)) as Hg.
  { intros s Hs. unfold generate_policy_parameters. destruct (_ && _); [done|].
    apply preserves_bind; auto with pym. }
  assert (forall m n, preserves (same_policies l) (generate_kfrags bob label m n)) as Hk.
  { intros m n s Hs. unfold generate_kfrags. by apply same_on_world. }
  unfold create_policy. auto 10 with pym.
Qed.

Lemma same_wait l p timeout : preserves (same_policies l) (wait_for_nodes p timeout).
Proof.
  intros s Hs. unfold wait_for_nodes. destruct (_ && _); [|done]. apply preserves_bind; auto with pym.
Qed.

(** A policy that was enacted has the hrac it was created with. *)
Lemma enact_hrac p pay ursulas s ep s' :
  enact p pay ursulas s = (Ok ep, s') ->
  ep.(Policy.e_hrac) = p.(Policy.hrac) /\ s'.(active_policies) = s.(active_policies).
Proof.
  unfold enact. destruct (sample_policy p ursulas (world s)) as [sampled w].
  unfold Policy.enact, py_bind, lift. destruct sampled as [us|e]; [|done].
  unfold Policy._publish. destruct (Payment.pay _ _ w) as [[rc|e] w1]; [|done]. unfold gets. cbn.
  destruct (new_treasure_map _ _ _ _) as [tm|e]; [|done]. cbn.
  destruct (encrypt_map _ _) as [etm|e]; [|done]. unfold py_ret. intros; by simplify_eq.
Qed.

Lemma create_policy_hrac bob label g s p pay s' :
  create_policy bob label g s = (Ok (p, pay), s') -> p.(Policy.hrac) = policy_hrac bob label.
Proof.
  unfold create_policy, py_bind.
  destruct (generate_policy_parameters g s) as [[params|e] s1]; [|done].
  destruct (generate_kfrags _ _ _ _ s1) as [[keys|e] s2]; [|done].
  destruct (on_world _ s2) as [[p'|e] s3] eqn:Hp; [|done]. unfold py_ret. intros; simplify_eq.
  apply on_world_frame in Hp as [_ Hp]. unfold Policy.new_policy, py_bind, py_ret in Hp.
  destruct (Payment.validate_price _ _ _ _ _) as [[v|e] w]; [|done]. by simplify_eq.
Qed.

(** How a grant ends: [enact] is the last call that reaches the network, and
    the registration follows it. *)
Lemma grant_inv bob label ursulas timeout g s r s' :
  grant bob label ursulas timeout g s = (r, s') ->
  (exists ep s1, s1.(active_policies) = s.(active_policies) /\ ep.(Policy.e_hrac) = policy_hrac bob label /\
     (exists p pay s0, enact p pay ursulas s0 = (Ok ep, s1)) /\
     (add_active_policy ep ;;; py_ret ep) s1 = (r, s')) \/
  (s'.(active_policies) = s.(active_policies) /\ exists e, r = Raise e).
Proof.
  unfold grant. unfold py_bind at 1.
  pose proof (preserves_for_each (same_policies s.(active_policies)) ursulas (fun u => on_world (remember u))
    (fun u => same_on_world _ _) s eq_refl) as H1.
  destruct (for_each _ _ s) as [[[]|e] s1]; [|intros; simplify_eq; right; eauto].
  unfold py_bind at 1. pose proof (same_create s.(active_policies) bob label g s1 H1) as H2.
  destruct (create_policy bob label g s1) as [[[p pay]|e] s2] eqn:Hcr; [|intros; simplify_eq; right; eauto].
  unfold py_bind at 1. pose proof (same_wait s.(active_policies) p timeout s2 H2) as H3.
  destruct (wait_for_nodes p timeout s2) as [[[]|e] s3] eqn:Hw; cbn [fst] in *; rewrite ?Hw;
    [|intros; simplify_eq; right; eauto].
  unfold py_bind at 1. destruct (enact p pay ursulas s3) as [[ep|e] s4] eqn:He; cbn [fst snd] in *; rewrite ?He.
  - intros Hrun. left. apply enact_hrac in He as Hh. destruct Hh as [Hh Ha].
    apply create_policy_hrac in Hcr. exists ep, s4. split_and!; [congruence|congruence|eauto|exact Hrun].
  - intros; simplify_eq. right. split; [|eauto].
    unfold enact in He. destruct (sample_policy _ _ _) as [sm w].
    destruct (Policy.enact _ _ _ _ _ _ _ _ _ _ _) as [rr [pp ww]]. simplify_eq. exact H3.
Qed.

(** What a grant does to the active policies. *)
Lemma grant_active_policies bob label ursulas timeout g s r s' :
  grant bob label ursulas timeout g s = (r, s') ->
  match r with
  | Ok ep =>
      dict_get s.(active_policies) (policy_hrac bob label) = None /\
      s'.(active_policies) = s.(active_policies) ++ [(policy_hrac bob label, ep)] /\
      exists p pay s0 s1, enact p pay ursulas s0 = (Ok ep, s1) /\ s'.(world) = s1.(world)
  | Raise _ => s'.(active_policies) = s.(active_policies)
  end.
Proof.
  intros [(ep & s1 & Ha & Hh & Hen & Hrun)|[Ha [e ->]]]%grant_inv; [|done].
  unfold py_bind, add_active_policy, dict_mem in Hrun. rewrite Ha, Hh in Hrun.
  destruct (dict_get (active_policies s) (policy_hrac bob label)) as [old|] eqn:Hd.
  - rewrite bool_decide_true in Hrun by done. by simplify_eq.
  - rewrite bool_decide_false in Hrun by (by intros [? ?]). unfold py_ret in Hrun. simplify_eq.
    apply dict_get_None in Hd as Hk. cbn. rewrite dict_set_keys_absent by done.
    destruct Hen as (p & pay & s0 & Hen). split_and!; [done|done|by exists p, pay, s0, s1].
Qed.

(** C6.  Granting registers exactly the policy that was enacted: after a grant
    that returns, the enacted policy is active under the hrac of this Bob and
    label, which had no active policy before, and all others are untouched;
    while a policy for this Bob and label is active no grant returns, and a
    grant that raises registers nothing. *)
Theorem grant_registers_policy bob label ursulas timeout g s r s' :
  dict_wf s.(active_policies) -> grant bob label ursulas timeout g s = (r, s') ->
  match r with
  | Ok ep =>
      dict_get s.(active_policies) (policy_hrac bob label) = None /\
      s'.(active_policies) = s.(active_policies) ++ [(policy_hrac bob label, ep)] /\
      dict_wf s'.(active_policies) /\
      exists p pay s0 s1, enact p pay ursulas s0 = (Ok ep, s1) /\ s'.(world) = s1.(world)
  | Raise _ => s'.(active_policies) = s.(active_policies)
  end.
Proof.
  intros Hwf Hg%grant_active_policies. destruct r as [ep|e]; [|done].
  destruct Hg as (Hn & Hs & Hen). split_and!; [done|done| |done].
  rewrite Hs, <-dict_set_keys_absent by (by apply dict_get_None). by apply dict_set_wf.
Qed.

(** The loop of [revoke] reaches its end only when it knew every node. *)
Lemma revoke_nodes_known kit ids failed s r s' :
  (forall u o w, known_nodes (middleware_request_revocation u o w).2 = known_nodes w) ->
  revoke_nodes kit ids failed s = (Ok r, s') ->
  (forall a, a ∈ ids -> a ∈ (known_nodes s.(world)).*1) /\
  (forall a, a ∈ r.*1 -> a ∈ failed.*1 \/ a ∈ ids).
Proof.
  intros Hkeep. revert failed s. induction ids as [|a ids IH]; intros failed s; simpl.
  { unfold py_ret. intros; simplify_eq. split; [intros a Ha; inversion Ha | auto]. }
  unfold py_bind. destruct (revoke_node kit a failed s) as [[failed'|e] s1] eqn:Hr; [|done].
  intros Hrest. apply IH in Hrest as [H1 H2]. unfold revoke_node in Hr.
  destruct (dict_get (known_nodes (world s)) a) as [u|] eqn:Hu; [|done].
  destruct (Policy.revocation_getitem _ kit a) as [o|e]; [|done].
  destruct (on_world (middleware_request_revocation u o) s) as [rc s2] eqn:Hw.
  apply on_world_frame in Hw as [_ Hw]. specialize (Hkeep u o (world s)). rewrite Hw in Hkeep. cbn in Hkeep.
  assert (s1 = s2 /\ forall b, b ∈ failed'.*1 -> b = a \/ b ∈ failed.*1) as [-> Hf].
  { destruct rc as [code|e]; [destruct (negb _)|destruct (catches [NotFound] e);
      [|destruct (catches [UnexpectedResponse] e)]]; simplify_eq; (split; [done|]); intros b;
      rewrite ?dict_set_elem_of_keys; auto. }
  rewrite Hkeep in H1. split.
  - intros b [->|Hb]%elem_of_cons; [|by apply H1]. apply dict_get_is_Some. eauto.
  - intros b Hb. apply H2 in Hb as [Hb|Hb]; [|rewrite elem_of_cons; auto].
    apply Hf in Hb as [->|Hb]; rewrite elem_of_cons; auto.
Qed.

(** A revocation that returns knew every node of the policy: although it
    waits only until a revocation threshold of them is known, the loop looks
    each one up, so it ends in [KeyError] at the first one that is missing;
    and the failures it reports are nodes of the policy. *)
Theorem revoke_needs_every_node p onchain s failed s' :
  (forall u o w, known_nodes (middleware_request_revocation u o w).2 = known_nodes w) ->
  revoke p onchain true s = (Ok failed, s') ->
  exists w, block_until_specific_nodes_are_known (revokable p) (p.(Policy.e_threshold) - 1) s.(world) =
              (Ok tt, w) /\
    (forall a, a ∈ revokable p -> a ∈ (known_nodes w).*1) /\
    (forall a, a ∈ failed.*1 -> a ∈ revokable p).
Proof.
  intros Hkeep. unfold revoke. cbn [orb negb]. unfold py_bind.
  replace (Policy.e_shares p - (Policy.e_shares p - Policy.e_threshold p + 1))%Z
    with (Policy.e_threshold p - 1)%Z by lia.
  destruct (on_world _ s) as [[[]|e] s1] eqn:Hb; [|done]. apply on_world_frame in Hb as [_ Hb].
  intros [H1 H2]%revoke_nodes_known; [|done]. exists s1.(world). split_and!; [done|done|].
  intros a Ha. apply H2 in Ha as [Ha|Ha]; [inversion Ha|done].
Qed.

End Alice.
End Alice.

(** ** Bob *)

Module Bob.
Section Bob.
Context {PublicKey MessageKit VerifiedCapsuleFrag EncryptedTreasureMap TreasureMap Capsule Cleartext W : Type}.
Context `{!EqDecision PublicKey}.

Definition policy_message_kit : Type :=
  Kits.policy_message_kit (VerifiedCapsuleFrag:=VerifiedCapsuleFrag) (PublicKey:=PublicKey)
    (MessageKit:=MessageKit).
Definition retrieval_result : Type := Kits.retrieval_result (VerifiedCapsuleFrag:=VerifiedCapsuleFrag).

(** Umbral's decryption, the fields of a treasure map and the retrieval
    client (Retrieval.v): the capsule of a kit with the addresses to skip,
    and the results in the order of the kits. *)
Class BobWorld := {
  bytes_hash : EncryptedTreasureMap -> Z;
  decrypt_treasure_map : EncryptedTreasureMap -> PublicKey -> PyM W TreasureMap;
  map_encrypting_key : TreasureMap -> PublicKey;
  map_threshold : TreasureMap -> Z;
  kit_capsule : MessageKit -> Capsule;
  to_canonical_address : string -> string;
  client_retrieve_cfrags : TreasureMap -> list (Capsule * list string) -> PublicKey -> PyM W (list retrieval_result);
  decrypt_message_kit : policy_message_kit -> PyM W Cleartext;
}.

Context `{!BobWorld}.

(** The cache of decrypted treasure maps, by the hash of their bytes. *)
Record bob := Mk_bob {
  _treasure_maps : list (Z * TreasureMap);
  world : W;
}.

Definition on_world {A} (m : PyM W A) : PyM bob A := fun s =>
  let '(r, w) := m s.(world) in (r, Mk_bob s.(_treasure_maps) w).

(** The treasure map, from the cache or decrypted. *)
Definition cached_treasure_map (encrypted_treasure_map : EncryptedTreasureMap)
    (publisher_verifying_key : PublicKey) : PyM bob TreasureMap := fun s =>
  let map_hash := bytes_hash encrypted_treasure_map in
  match dict_get s.(_treasure_maps) map_hash with
  | Some treasure_map => (Ok treasure_map, s)
  | None =>
      (treasure_map <- on_world (decrypt_treasure_map encrypted_treasure_map publisher_verifying_key) ;;
       modify (fun s => Mk_bob (dict_set s.(_treasure_maps) map_hash treasure_map) s.(world)) ;;;
       py_ret treasure_map) s
  end.

(** A kit as it is passed in: clean, or loaded with earlier fragments. *)
Definition normalize (treasure_map : TreasureMap) (k : MessageKit + policy_message_kit) : policy_message_kit :=
  match k with
  | inl m => Kits.from_message_kit m (map_encrypting_key treasure_map) (map_threshold treasure_map)
  | inr k => k
  end.

(** [as_retrieval_kit]. *)
Definition as_retrieval_kit (k : policy_message_kit) : Capsule * list string :=
  (kit_capsule k.(Kits.message_kit), Kits.canonical_addresses to_canonical_address k.(Kits._result)).

Definition retrieve (message_kits : list (MessageKit + policy_message_kit)) (alice_verifying_key : PublicKey)
    (encrypted_treasure_map : EncryptedTreasureMap) (publisher_verifying_key : option PublicKey)
    : PyM bob (list policy_message_kit) :=
  treasure_map <- cached_treasure_map encrypted_treasure_map (default alice_verifying_key publisher_verifying_key) ;;
  let kits := normalize treasure_map <$> message_kits in
  retrieval_results <- on_world (client_retrieve_cfrags treasure_map (as_retrieval_kit <$> kits) alice_verifying_key) ;;
  py_ret (zip_with Kits.with_result kits retrieval_results).

Fixpoint decrypt_all (kits : list policy_message_kit) : PyM bob (list Cleartext) :=
  match kits with
  | [] => py_ret []
  | k :: kits' =>
      cleartext <- on_world (decrypt_message_kit k) ;;
      cleartexts <- decrypt_all kits' ;;
      py_ret (cleartext :: cleartexts)
  end.

Definition retrieve_and_decrypt (message_kits : list (MessageKit + policy_message_kit))
    (alice_verifying_key : PublicKey) (encrypted_treasure_map : EncryptedTreasureMap)
    (publisher_verifying_key : option PublicKey) : PyM bob (list Cleartext) :=
  kits <- retrieve message_kits alice_verifying_key encrypted_treasure_map publisher_verifying_key ;;
  if negb (forallb Kits.is_decryptable_by_receiver kits) then raise UrsulaNotEnoughUrsulas
  else decrypt_all kits.

(** *** Properties *)

Lemma on_world_ok {A} (m : PyM W A) s a s' :
  on_world m s = (Ok a, s') -> m s.(world) = (Ok a, s'.(world)) /\ s'.(_treasure_maps) = s.(_treasure_maps).
Proof. unfold on_world. destruct (m _). intros; by simplify_eq. Qed.

Lemma decrypt_all_spec kits s cs s' :
  decrypt_all kits s = (Ok cs, s') ->
  Forall2 (fun k c => exists w w', decrypt_message_kit k w = (Ok c, w')) kits cs.
Proof.
  revert s cs. induction kits as [|k kits IH]; intros s cs; simpl.
  { unfold py_ret. intros; simplify_eq. constructor. }
  unfold py_bind. destruct (on_world _ s) as [[c|e] s1] eqn:Hc; [|done].
  destruct (decrypt_all kits s1) as [[cs'|e] s2] eqn:Hr; [|done]. unfold py_ret. intros; simplify_eq.
  apply on_world_ok in Hc as [Hc _]. constructor; [eauto|]. by eapply IH.
Qed.

(** C7.  Decryption needs the threshold: once the kits are retrieved, either
    one of them has fragments from fewer Ursulas than its threshold, and
    [retrieve_and_decrypt] raises before any decryption is tried, or all have
    enough, and a result has one cleartext per kit, in order, each the
    decryption of its kit. *)
Theorem retrieve_and_decrypt_spec mks ak etm pk s kits s1 :
  retrieve mks ak etm pk s = (Ok kits, s1) ->
  (Exists (fun k => (Z.of_nat (length k.(Kits._result)) < k.(Kits.threshold))%Z) kits /\
   retrieve_and_decrypt mks ak etm pk s = (Raise UrsulaNotEnoughUrsulas, s1)) \/
  (Forall (fun k => (k.(Kits.threshold) <= Z.of_nat (length k.(Kits._result)))%Z) kits /\
   forall cleartexts s', retrieve_and_decrypt mks ak etm pk s = (Ok cleartexts, s') ->
     Forall2 (fun k c => exists w w', decrypt_message_kit k w = (Ok c, w')) kits cleartexts).
Proof.
  intros Hr. unfold retrieve_and_decrypt, py_bind. rewrite Hr.
  destruct (forallb Kits.is_decryptable_by_receiver kits) eqn:Hall; [right|left].
  - split; [|intros cs s' Hd; by eapply decrypt_all_spec].
    rewrite forallb_forall in Hall. apply Forall_forall. intros k Hk%list_elem_of_In%Hall.
    unfold Kits.is_decryptable_by_receiver in Hk. lia.
  - split; [|done]. apply Exists_exists. apply not_true_iff_false in Hall.
    destruct (existsb (fun k => negb (Kits.is_decryptable_by_receiver k)) kits) eqn:Hex.
    + apply existsb_exists in Hex as (k & Hk%list_elem_of_In & Hd). exists k. split; [done|].
      unfold Kits.is_decryptable_by_receiver in Hd. lia.
    + destruct Hall. apply forallb_forall. intros k Hk.
      destruct (Kits.is_decryptable_by_receiver k) eqn:Hd; [done|].
      rewrite <-not_true_iff_false in Hex. destruct Hex. apply existsb_exists. exists k. by rewrite Hd.
Qed.

(** After a first retrieval the map is in the cache. *)
Lemma retrieve_caches_map mks ak etm pk s kits s' :
  retrieve mks ak etm pk s = (Ok kits, s') -> is_Some (dict_get s'.(_treasure_maps) (bytes_hash etm)).
Proof.
  unfold retrieve, py_bind. destruct (cached_treasure_map _ _ s) as [[tm|e] s1] eqn:Hc; [|done].
  destruct (on_world _ s1) as [[rs|e] s2] eqn:Ho; [|done]. unfold py_ret. intros; simplify_eq.
  apply on_world_ok in Ho as [_ ->]. unfold cached_treasure_map in Hc.
  destruct (dict_get (_treasure_maps s) (bytes_hash etm)) eqn:Hd; [simplify_eq; eauto|].
  unfold py_bind, modify, py_ret in Hc. destruct (on_world _ s) as [[tm'|e] s3]; [|done].
  simplify_eq; cbn. rewrite dict_get_set_eq. eauto.
Qed.

(** The cache of treasure maps forgets who published them: after a
    retrieval that returned, every later retrieval with the same map gives the
    same outcome for every publisher key, right or wrong, so that key is
    never checked again. *)
Theorem treasure_map_cache_ignores_publisher mks ak etm pk s kits s1 :
  retrieve mks ak etm pk s = (Ok kits, s1) ->
  forall mks' ak' pk1 pk2, retrieve mks' ak' etm pk1 s1 = retrieve mks' ak' etm pk2 s1.
Proof.
  intros [tm Htm]%retrieve_caches_map mks' ak' pk1 pk2.
  unfold retrieve, cached_treasure_map, py_bind. by rewrite Htm.
Qed.

End Bob.
End Bob.

(** ** Ursula.from_teacher_uri *)

Module Teachers.
Section Teachers.
Context {W Teacher : Type}.
(** [from_seed_and_stake_info] of the teacher's URI, and [time.sleep]. *)
Variable from_seed_and_stake_info : PyM W Teacher.
Variable time_sleep : Z -> PyM W unit.

(** [__attempt(attempt)] with [left = retry_attempts - attempt]; the count is
    checked before the connection. *)
Fixpoint attempt (left : nat) (interval : Z) : PyM W Teacher :=
  match left with
  | 0 => raise ConnectionRefusedError
  | S left' =>
      fun w => match from_seed_and_stake_info w with
               | (Raise e, w') =>
                   if catches NodeSeemsToBeDown e then (time_sleep interval ;;; attempt left' interval) w'
                   else (Raise e, w')
               | ok => ok
               end
  end.

(** [from_teacher_uri(retry_attempts)], which starts at attempt 1. *)
Definition from_teacher_uri (retry_attempts : nat) (retry_interval : Z) : PyM W Teacher :=
  attempt (retry_attempts - 1) retry_interval.

(** With [retry_attempts = 1] the teacher is refused without being asked. *)
Lemma one_attempt_is_none interval w :
  from_teacher_uri 1 interval w = (Raise ConnectionRefusedError, w).
Proof. done. Qed.

(** A teacher that stays down is given up after [retry_attempts - 1] tries. *)
Lemma teacher_down_gives_up n interval w :
  (forall w, from_seed_and_stake_info w = (Raise ConnectionRefusedError, w)) ->
  (forall t w, time_sleep t w = (Ok tt, w)) ->
  from_teacher_uri n interval w = (Raise ConnectionRefusedError, w).
Proof.
  intros Hf Hs. unfold from_teacher_uri. induction (n - 1) as [|k IH]; [done|].
  cbn [attempt]. rewrite Hf. cbn. unfold py_bind. by rewrite Hs.
Qed.

End Teachers.
End Teachers.

(** ** Concrete characters *)

Module CharactersDemo.
Import Alice.

(** The world counts payments; the network has the nodes "a" and "b". *)
Definition demo_payment : method (W:=nat) (Receipt:=unit) := {|
  Payment.ONCHAIN := false;
  Payment.NAME := "Counted";
  Payment.verify := fun _ => py_ret true;
  Payment.pay := fun p w => (Ok (Payment.FreeReceipt p.(Payment.hrac)), S w);
  Payment.rate := py_ret 0%Z;
  Payment.quote := fun a => py_ret {| Payment.q_rate := 0; Payment.q_value := 0;
    Payment.q_commencement := a.(Payment.a_commencement); Payment.q_expiration := a.(Payment.a_expiration);
    Payment.q_duration := a.(Payment.a_duration); Payment.q_shares := a.(Payment.a_shares) |};
  Payment.validate_price := fun _ _ _ => py_ret true;
|}.

#[local] Instance demo_world : AliceWorld (Ursula:=string) (KFrag:=nat) (PublicKey:=nat)
    (TreasureMap:=list (string * (nat * nat)) * Z) (EncryptedKeyFrag:=nat * nat)
    (EncryptedTreasureMap:=list (string * (nat * nat)) * Z) (RevocationOrder:=string) (W:=nat) (Bob:=nat) := {
  ursula_checksum_address := id;
  ursula_canonical_address := id;
  ursula_decrypting_key := fun _ => 0;
  bob_encrypting_key := fun _ => 0;
  policy_hrac := fun _ label => label;
  own_account := "alice";
  generate_kfrags_of := fun _ _ _ shares w => (Ok (0, seq 0 (Z.to_nat shares)), w);
  new_treasure_map := fun _ _ akf t => Ok (akf, t);
  map_destinations := fst;
  map_threshold := snd;
  encrypt_map := fun tm _ => Ok tm;
  revocation_order := fun a _ => a;
  to_canonical_address := id;
  to_checksum_address := id;
  iter_set := id;
  remember := fun _ w => (Ok tt, w);
  known_nodes := fun _ => [("a", "a"); ("b", "b")]%string;
  block_until_number_of_known_nodes_is := fun _ _ w => (Ok true, w);
  block_until_specific_nodes_are_known := fun _ _ w => (Ok tt, w);
  sample_policy := fun p _ w => (Ok (take (length p.(Policy.kfrags)) ["a"; "b"; "c"]%string), w);
  middleware_request_revocation := fun _ _ w => (Ok 200%Z, w);
}.

Definition demo_alice : Type := alice (PublicKey:=nat)
  (EncryptedTreasureMap:=list (string * (nat * nat)) * Z) (RevocationOrder:=string) (W:=nat) (Receipt:=unit).

Definition new_alice (shares : Z) : demo_alice :=
  Mk_alice 1 shares None None demo_payment 10 false [] 0.

Definition demo_args : grant_args (W:=nat) (Receipt:=unit) := {|
  g_threshold := None; g_shares := None; g_duration := Some 30%Z; g_commencement := None;
  g_expiration := None; g_value := None; g_rate := None; g_payment := None |}.

(** The state after a grant, and the policy it returned. *)
Definition granted (s : demo_alice) : result enacted * demo_alice :=
  grant 0 "records" [] None demo_args s.

Definition demo_policy (shares : Z) : enacted :=
  match (granted (new_alice shares)).1 with
  | Ok ep => ep
  | Raise _ => Policy.Mk_enacted_policy "" "" 0 ([], 0%Z) [] 0 0
  end.

(** The first grant registers the policy; a second one pays again before it
    ends in [KeyError]. *)
Lemma grant_registers_policy_witness :
  (granted (new_alice 2)).2.(active_policies) = [("records"%string, demo_policy 2)] /\
  (granted (new_alice 2)).2.(world) = 1 /\
  (granted (granted (new_alice 2)).2).1 = Raise KeyError /\
  (granted (granted (new_alice 2)).2).2.(world) = 2.
Proof.
  split; [|vm_compute; done].
  assert (dict_wf (new_alice 2).(active_policies)) as Hwf by constructor.
  assert (granted (new_alice 2) = (Ok (demo_policy 2), (granted (new_alice 2)).2)) as Hg
    by (vm_compute; reflexivity).
  destruct (grant_registers_policy 0 "records" [] None demo_args (new_alice 2) (Ok (demo_policy 2))
              (granted (new_alice 2)).2 Hwf Hg) as (_ & Ha & _).
  exact Ha.
Defined.

(** With two nodes the revocation returns; with three, of which "c" is not
    known, it raises although one may be missing. *)
Lemma revoke_needs_every_node_witness :
  (forall a, a ∈ revokable (demo_policy 2) -> a ∈ ["a"; "b"]%string) /\
  (revoke (demo_policy 3) true true (granted (new_alice 3)).2).1 = Raise KeyError.
Proof.
  split; [|vm_compute; reflexivity].
  destruct (revoke_needs_every_node (demo_policy 2) true (granted (new_alice 2)).2 []
              (revoke (demo_policy 2) true true (granted (new_alice 2)).2).2)
    as (w & Hb & Hk & _); [done|vm_compute; reflexivity|].
  intros a Ha. exact (Hk a Ha).
Defined.

(** Bob's world: a map is its threshold, every retrieval brings one fragment
    for each kit, and decryption gives back the kit. *)
#[local] Instance demo_bob_world : Bob.BobWorld (PublicKey:=nat) (MessageKit:=string)
    (VerifiedCapsuleFrag:=nat) (EncryptedTreasureMap:=Z) (TreasureMap:=Z) (Capsule:=string)
    (Cleartext:=string) (W:=unit) := {
  Bob.bytes_hash := id;
  Bob.decrypt_treasure_map := fun etm pk w => if decide (pk = 0) then (Ok etm, w) else (Raise ValueError, w);
  Bob.map_encrypting_key := fun _ => 0;
  Bob.map_threshold := id;
  Bob.kit_capsule := id;
  Bob.to_canonical_address := id;
  Bob.client_retrieve_cfrags := fun _ kits _ w => (Ok ((fun _ => [("a"%string, 7)]) <$> kits), w);
  Bob.decrypt_message_kit := fun k w => (Ok k.(Kits.message_kit), w);
}.

Definition new_bob : Bob.bob (TreasureMap:=Z) (W:=unit) := Bob.Mk_bob [] tt.

Lemma retrieve_and_decrypt_spec_witness :
  (Bob.retrieve_and_decrypt [inl "m"%string] 0 2%Z None new_bob).1 = Raise UrsulaNotEnoughUrsulas /\
  (Bob.retrieve_and_decrypt [inl "m"%string] 0 1%Z None new_bob).1 = Ok ["m"%string] /\
  Forall2 (fun k c => exists w w', Bob.decrypt_message_kit k w = (Ok c, w'))
    (match (Bob.retrieve [inl "m"%string] 0 1%Z None new_bob).1 with Ok kits => kits | Raise _ => [] end) ["m"%string].
Proof.
  split; [vm_compute; reflexivity|]. split; [vm_compute; reflexivity|].
  destruct (Bob.retrieve_and_decrypt_spec [inl "m"%string] 0 1%Z None new_bob
              (match (Bob.retrieve [inl "m"%string] 0 1%Z None new_bob).1 with Ok kits => kits | Raise _ => [] end)
              (Bob.retrieve [inl "m"%string] 0 1%Z None new_bob).2) as [[_ H]|[_ H]];
    [vm_compute; reflexivity|vm_compute in H; discriminate H|].
  apply (H ["m"%string] (Bob.Mk_bob [(1%Z, 1%Z)] tt)). vm_compute. reflexivity.
Defined.

(** The first call names the right publisher, the second a wrong one. *)
Lemma treasure_map_cache_ignores_publisher_witness :
  (Bob.retrieve [inl "m"%string] 0 1%Z (Some 5) new_bob).1 = Raise ValueError /\
  let s := (Bob.retrieve [inl "m"%string] 0 1%Z (Some 0) new_bob).2 in
  Bob.retrieve [inl "m"%string] 0 1%Z (Some 5) s = Bob.retrieve [inl "m"%string] 0 1%Z (Some 0) s.
Proof.
  split; [vm_compute; reflexivity|]. intros s.
  apply (Bob.treasure_map_cache_ignores_publisher [inl "m"%string] 0 1%Z (Some 0) new_bob
           (match (Bob.retrieve [inl "m"%string] 0 1%Z (Some 0) new_bob).1 with Ok kits => kits | Raise _ => [] end)
           s).
  vm_compute. reflexivity.
Defined.

End CharactersDemo.
