(* ===== verification/Fields.v ===== *)
(** * The fields of requests and responses

    control/specifications/fields/base.py, the fields of
    characters/control/specifications/fields and
    utilities/porter/control/specifications/fields, and the checks of the
    schemas that use them: how the values of the characters are written into
    responses and read from requests.  Which fields a schema reads, in which
    order, and what is collected before [handle_error] is marshmallow's; a
    field is the pair of its [_serialize] and [_deserialize].  A [str] is its
    UTF-8 encoding, as in Text. *)

From Stdlib Require Import Ascii Wf_nat.
From stdpp Require Import gmap sets.
From S2P Require Import Prelude Text Json Base64 Files.

(** [except cs: raise e'] around an expression. *)
Definition reraise {A} (r : result A) (cs : list exn_class) (e' : exn_class) : result A :=
  match r with
  | Raise e => if catches cs e then Raise e' else Raise e
  | Ok a => Ok a
  end.

(** [control/specifications/exceptions.py]. *)
Definition InvalidNativeDataTypes : list exn_class :=
  [ValueError; TypeError; BytestringSplittingError; InternalError].

(** ** Objects with a byte representation

    [bytes(value)] and [from_bytes] of the classes of nucypher_core. *)
Class Native (A : Type) := {
  bytes_of : A -> bytes;
  from_bytes : bytes -> result A;
}.

Class NativeLaws (A : Type) `{!Native A} : Prop := {
  from_bytes_of : forall a : A, from_bytes (bytes_of a) = Ok a;
}.

Module Fields.

Record field (A : Type) := Field {
  _serialize : A -> result json;
  _deserialize : json -> result A;
}.
Arguments Field {A}.
Arguments _serialize {A}.
Arguments _deserialize {A}.

(** What reading gets back what was written. *)
Definition roundtrips {A} (f : field A) (a : A) : Prop :=
  exists j, f.(_serialize) a = Ok j /\ f.(_deserialize) j = Ok a.

(** *** base.py *)

(** [b64decode(value)] of a [str], which must be ASCII, or of something that
    is neither text nor bytes. *)
Definition b64decode_value (value : json) : result bytes :=
  match value with
  | JStr s => if forallb (fun c => (N_of_ascii c <? 128)%N) s then b64decode s else Raise ValueError
  | _ => Raise TypeError
  end.

Definition base64_deserialize (value : json) : result bytes :=
  reraise (b64decode_value value) [ValueError] InvalidInputData.

Definition base64_serialize {A} `{!Native A} (value : A) : result json :=
  Ok (JStr (b64encode (bytes_of value))).

(** MessageKit, EncryptedTreasureMap, TreasureMap, RetrievalKit and
    CapsuleFrag: any [Exception] of the two steps is the client's. *)
Definition Base64Native (A : Type) `{!Native A} : field A := {|
  _serialize := base64_serialize;
  _deserialize value :=
    reraise (let? b := base64_deserialize value in from_bytes b) [Exception] InvalidInputData;
|}.

(** [StringList]: a text is split at the commas.  [super()._deserialize] is
    marshmallow's. *)
Definition string_list_deserialize {A} (list_deserialize : list json -> result (list A)) (value : json)
    : result (list A) :=
  match value with
  | JArr l => list_deserialize l
  | JStr s => list_deserialize (JStr <$> split [","%char] s)
  | _ => Raise AttributeError
  end.

(** [PositiveInteger._validate]. *)
Definition positive_integer_validate (value : Z) : result unit :=
  if negb (0 <? value)%Z then Raise InvalidInputData else Ok tt.

(** *** characters/control/specifications/fields *)

(** [bytes.fromhex(value)]. *)
Definition fromhex_value (value : json) : result bytes :=
  match value with JStr s => fromhex s | _ => Raise TypeError end.

Definition Key (PublicKey : Type) `{!Native PublicKey} : field PublicKey := {|
  _serialize value := Ok (JStr (hex (bytes_of value)));
  _deserialize value :=
    reraise (let? b := fromhex_value value in from_bytes b) InvalidNativeDataTypes InvalidInputData;
|}.

(** Only a [str] has [encode]. *)
Definition Label : field bytes := {|
  _serialize value := let? text := decode value in Ok (JStr text);
  _deserialize value := match value with JStr s => Ok s | _ => Raise AttributeError end;
|}.

(** Read as the base64 of the text, written as the text of the bytes. *)
Definition Cleartext : field bytes := {|
  _serialize value := let? text := decode value in Ok (JStr text);
  _deserialize value := match value with JStr s => Ok (b64encode s) | _ => Raise TypeError end;
|}.

(** [DateTime] over maya's [iso8601] and [from_iso8601]. *)
Definition DateTime {MayaDT : Type} (iso8601 : MayaDT -> bytes) (from_iso8601 : json -> result MayaDT)
    : field MayaDT := {|
  _serialize value := Ok (JStr (iso8601 value));
  _deserialize value := reraise (from_iso8601 value) [ParserError] InvalidInputData;
|}.

(** [FileField._deserialize]: the contents of the file of that path. *)
Definition file_deserialize (value : json) : PyM filesystem bytes := fun fs =>
  match value with
  | JStr text =>
      let p := path_of_text text in
      if negb (path_exists fs p) then (Raise InvalidInputData, fs)
      else if negb (is_file fs p) then (Raise InvalidInputData, fs)
      else read_file p fs
  | _ => (Raise TypeError, fs)
  end.

(** [UrsulaChecksumAddress] over [to_checksum_address] of eth_utils. *)
Definition checksum_address_deserialize (to_checksum_address : json -> result string) (value : json)
    : result string :=
  reraise (to_checksum_address value) [ValueError] InvalidInputData.

(** *** The checks of the schemas *)

(** [data[key]] and the truth of [data.get(key)]. *)
Definition data_item {A} (v : option A) : result A :=
  match v with Some a => Ok a | None => Raise KeyError end.

(** [PolicyBaseSchema.check_valid_n_and_m]. *)
Definition check_valid_n_and_m (threshold shares : option Z) : result unit :=
  let? t := data_item threshold in
  if negb (0 <? t)%Z then Raise InvalidArgumentCombo
  else let? n := data_item shares in
       if negb (t <=? n)%Z then Raise InvalidArgumentCombo else Ok tt.

(** [PolicyBaseSchema.check_rate_or_value_not_both]; [null] counts as absent. *)
Definition check_rate_or_value_not_both (rate value : option Z) : result unit :=
  match rate, value with
  | Some _, Some _ => Raise InvalidArgumentCombo
  | _, _ => Ok tt
  end.

(** [AliceGetUrsulas.check_valid_quantity_and_include_ursulas]. *)
Definition check_valid_quantity_and_include_ursulas (quantity : option Z) (include_ursulas : option (list string))
    : result unit :=
  match include_ursulas with
  | None | Some [] => Ok tt
  | Some l =>
      let? q := data_item quantity in
      if (q <? Z.of_nat (length l))%Z then Raise InvalidArgumentCombo else Ok tt
  end.

(** [AliceGetUrsulas.check_include_and_exclude_are_mutually_exclusive]. *)
Definition check_include_and_exclude_are_mutually_exclusive (include_ursulas exclude_ursulas : option (list string))
    : result unit :=
  let common_ursulas : gset string :=
    list_to_set (default [] include_ursulas) ∩ list_to_set (default [] exclude_ursulas) in
  if 0 <? size common_ursulas then Raise InvalidArgumentCombo else Ok tt.

(** A key of the loaded data: absent, [null] or a value. *)
Definition truthy (v : option (option bytes)) : bool :=
  match v with Some (Some (_ :: _)) => true | _ => false end.

(** [EncryptMessage.format_method_arguments]: the plaintext to encrypt. *)
Definition format_method_arguments (message file : option (option bytes)) : result (option bytes) :=
  if truthy message && truthy file then Raise InvalidArgumentCombo
  else match message with
       | Some (Some (c :: m)) => Ok (Some (c :: m))
       | _ => data_item file
       end.

(** ** Round trips *)

Lemma reraise_ok {A} (a : A) cs e : reraise (Ok a) cs e = Ok a.
Proof. done. Qed.

Lemma reraise_raise {A} (r : result A) cs e' e :
  reraise r cs e' = Raise e -> e = e' \/ (r = Raise e /\ catches cs e = false).
Proof. unfold reraise. destruct r as [a|e0]; [done|]. destruct (catches cs e0) eqn:Hc; naive_solver. Qed.

Lemma b64_char_ascii c : (c = pad \/ exists s, c = char_of s) ->
  (N_of_ascii c <? 128)%N = true /\ c <> ","%char.
Proof. intros [->|[s ->]]; [done|]. by destruct s as [[[[[[] []] []] []] []] []]. Qed.

Lemma b64encode_ascii b : forallb (fun c => (N_of_ascii c <? 128)%N) (b64encode b) = true.
Proof.
  apply forallb_forall. intros c Hc%list_elem_of_In.
  apply (b64_char_ascii c). by eapply Forall_forall in Hc; [|apply b64_chars].
Qed.

Lemma b64encode_no_comma b : ","%char ∉ b64encode b.
Proof.
  intros Hc. pose proof (b64_chars b) as Hall. eapply Forall_forall in Hall; [|exact Hc].
  by apply b64_char_ascii in Hall as [_ ?].
Qed.

Lemma b64decode_encoded b : b64decode_value (JStr (b64encode b)) = Ok b.
Proof. unfold b64decode_value. by rewrite b64encode_ascii, b64_roundtrip. Qed.

Lemma a2b_base64_error l : forall q pads e, a2b_base64 q pads l = Raise e -> e = ValueError.
Proof.
  induction l as [|c l IH]; intros q pads e; cbn [a2b_base64].
  - destruct q; naive_solver.
  - destruct (Ascii.eqb c pad).
    + destruct (2 <=? quad_pos q); [|apply IH]. destruct (4 <=? quad_pos q + S pads); [done|apply IH].
    + destruct (sextet_of c) as [s|]; [|apply IH]. destruct (feed q s) as [q' byte].
      destruct (a2b_base64 q' 0 l) as [rest|e0] eqn:Hr; cbn [rbind]; [done|].
      intros [= <-]. by apply IH in Hr.
Qed.

Lemma fromhex_error s : forall e, fromhex s = Raise e -> e = ValueError.
Proof.
  induction s as [s IH] using (induction_ltof1 _ (@length ascii)). unfold ltof in IH.
  intros e. destruct s as [|c s]; cbn [fromhex]; [done|].
  destruct (is_space c); [apply IH; cbn [length]; lia|].
  destruct s as [|d s]; [naive_solver|].
  destruct (hex_value c), (hex_value d); try naive_solver.
  destruct (fromhex s) as [b|e0] eqn:Hf; cbn [rbind]; [done|].
  intros [= <-]. apply IH in Hf; [done|cbn [length]; lia].
Qed.

Section Natives.
Context {A : Type} `{NativeLaws A}.

(** Keys in hexadecimal and every object in base64 are read back as they
    were written. *)
Lemma native_fields_roundtrip (a : A) : roundtrips (Key A) a /\ roundtrips (Base64Native A) a.
Proof.
  split; eexists; (split; [reflexivity|]); cbn [Key Base64Native _deserialize fromhex_value].
  - by rewrite fromhex_hex; cbn [rbind]; rewrite from_bytes_of.
  - unfold base64_deserialize. rewrite b64decode_encoded. cbn [reraise rbind]. by rewrite from_bytes_of.
Qed.
End Natives.

Lemma decode_same b t : decode b = Ok t -> t = b.
Proof. unfold decode. destruct (utf8_valid_from _ _ _ _); [by intros [= <-]|done]. Qed.

(** A label is read back when it is the encoding of a text; no other label
    can be written. *)
Lemma label_roundtrips b : roundtrips Label b <-> is_ok (decode b) = true.
Proof.
  unfold roundtrips. cbn [Label _serialize _deserialize].
  destruct (decode b) as [t|e] eqn:Hd; cbn [rbind is_ok]; split; try done.
  - intros _. exists (JStr t). apply decode_same in Hd as ->. done.
  - by intros (j & ? & _).
Qed.

(** Splitting at a separator undoes joining with it. *)
Lemma split_joined (c : ascii) (l : list bytes) :
  l <> [] -> Forall (fun s => c ∉ s) l -> split [c] (joined [c] l) = l.
Proof.
  intros Hne Hall. induction Hall as [|s l Hs Hall IH]; [done|].
  destruct l as [|s' l]; cbn [joined].
  - by apply split_absent.
  - transitivity (s :: split [c] (joined [c] (s' :: l))); [by apply split_first | by rewrite IH].
Qed.

Section StringLists.
Context {A : Type} `{NativeLaws A}.

(** marshmallow's [List._deserialize]: each item by the inner field. *)
Variable list_deserialize : (json -> result A) -> list json -> result (list A).
Hypothesis list_deserialize_each : forall f l vs,
  Forall2 (fun j v => f j = Ok v) l vs -> list_deserialize f l = Ok vs.

(** A list of kits, written in base64, is read back from the list of texts
    and, when it is not empty, from the texts joined with commas. *)
Lemma string_list_roundtrips (l : list A) :
  let texts := (fun a => b64encode (bytes_of a)) <$> l in
  let read := string_list_deserialize (list_deserialize (Base64Native A).(_deserialize)) in
  read (JArr (JStr <$> texts)) = Ok l /\ (l <> [] -> read (JStr (joined [","%char] texts)) = Ok l).
Proof.
  intros texts read.
  assert (Hl : list_deserialize (Base64Native A).(_deserialize) (JStr <$> texts) = Ok l).
  { apply list_deserialize_each. unfold texts. induction l as [|a l IH]; csimpl; constructor; [|done].
    destruct (native_fields_roundtrip a) as [_ (j & [= <-] & Hj)]. exact Hj. }
  split; [exact Hl|]. intros Hne. unfold read, string_list_deserialize.
  rewrite split_joined; [exact Hl| |].
  - unfold texts. by destruct l.
  - unfold texts. apply Forall_fmap, Forall_true. intros a. apply b64encode_no_comma.
Qed.

(** ** Errors *)

(** Whatever is sent as a kit or a treasure map, a refusal is
    [InvalidInputData], as long as [from_bytes] raises ordinary exceptions. *)
Lemma base64_native_errors value e :
  (forall b e', from_bytes (A := A) b = Raise e' -> issubclass e' Exception = true) ->
  (Base64Native A).(_deserialize) value = Raise e -> e = InvalidInputData.
Proof.
  intros Hfrom [->|[He Hc]]%reraise_raise; [done|].
  destruct (base64_deserialize value) as [b|e0] eqn:Hb; cbn [rbind] in He.
  - apply Hfrom in He. unfold catches in Hc. cbn [existsb] in Hc. by rewrite He in Hc.
  - injection He as ->. apply reraise_raise in Hb as [->|[Hb Hc']]; [done|].
    destruct value; cbn [b64decode_value] in Hb; try (injection Hb as <-; done).
    destruct (forallb _ s); [|by injection Hb as <-].
    unfold b64decode in Hb.
    assert (e = ValueError) as -> by (revert Hb; apply a2b_base64_error). done.
Qed.

(** The same for a key. *)
Lemma key_errors value e :
  (forall b e', from_bytes (A := A) b = Raise e' -> catches InvalidNativeDataTypes e' = true) ->
  (Key A).(_deserialize) value = Raise e -> e = InvalidInputData.
Proof.
  intros Hfrom [->|[He Hc]]%reraise_raise; [done|].
  destruct (fromhex_value value) as [b|e0] eqn:Hb; cbn [rbind] in He.
  - apply Hfrom in He. by rewrite He in Hc.
  - injection He as ->. destruct value; cbn [fromhex_value] in Hb; try (injection Hb as <-; done).
    assert (e = ValueError) as -> by (revert Hb; apply fromhex_error). done.
Qed.

End StringLists.

(** ** What Bob reads of what Enrico was sent *)

Lemma b64encode_longer (b : bytes) : b <> [] -> length b < length (b64encode b).
Proof.
  induction b as [|a|a b|a b c l IH] using bytes_ind3; intros Hne;
    [done|destruct a; cbn; lia|destruct a, b; cbn; lia|].
  destruct a, b, c; cbn [b64encode length]. destruct l as [|d l]; [cbn; lia|].
  enough (length (d :: l) < length (b64encode (d :: l))) by lia. by apply IH.
Qed.

Lemma b64encode_decodes b : decode (b64encode b) = Ok (b64encode b).
Proof.
  apply decode_ascii. apply Forall_forall. intros c Hc.
  pose proof (b64encode_ascii b) as Hall. rewrite forallb_forall in Hall.
  apply N.ltb_lt, Hall. by apply list_elem_of_In.
Qed.

(** The field's reading of a message is what gets encrypted, and a text. *)
Lemma cleartext_of_message (m : bytes) :
  m <> [] -> format_method_arguments (Some (Some (b64encode m))) None = Ok (Some (b64encode m)) /\
             Cleartext.(_serialize) (b64encode m) = Ok (JStr (b64encode m)).
Proof.
  intros Hm%b64encode_longer. cbn. rewrite b64encode_decodes. split; [|done].
  by destruct (b64encode m); [cbn in Hm; lia|].
Qed.

(** A message that goes through Enrico's schema is encrypted in base64, and
    Bob's endpoint answers the base64 text.  The contents of a file are
    encrypted as they are: Bob's endpoint answers them when they are a text,
    otherwise it fails.  An empty message, and an absent file, is refused
    with a [KeyError]; an empty file next to a message is ignored. *)
Theorem cleartexts_as_sent (m : bytes) :
  (m <> [] -> exists p, Cleartext.(_deserialize) (JStr m) = Ok p /\
     format_method_arguments (Some (Some p)) None = Ok (Some p) /\
     format_method_arguments (Some (Some p)) (Some (Some [])) = Ok (Some p) /\
     Cleartext.(_serialize) p = Ok (JStr p) /\ b64decode p = Ok m /\ p <> m) /\
  (exists p, Cleartext.(_deserialize) (JStr []) = Ok p /\ format_method_arguments (Some (Some p)) None = Raise KeyError) /\
  format_method_arguments None (Some (Some m)) = Ok (Some m) /\
  Cleartext.(_serialize) m = match decode m with Ok _ => Ok (JStr m) | Raise _ => Raise UnicodeDecodeError end.
Proof.
  split_and!.
  - intros Hm. exists (b64encode m). pose proof (b64encode_longer m Hm) as Hlen.
    destruct (cleartext_of_message m Hm) as [Hf Ht].
    split_and!; [done|done| |done|apply b64_roundtrip|intros Heq; rewrite Heq in Hlen; lia].
    by destruct (b64encode m); [cbn in Hlen; lia|].
  - by exists [].
  - by destruct m.
  - cbn. unfold decode. by destruct (utf8_valid_from _ _ _ _).
Qed.

(** ** The other fields and checks *)

(** What [FileField] answers for each argument; the files stay as they are. *)
Lemma file_deserialize_spec value fs :
  file_deserialize value fs =
    (match value with
     | JStr text =>
         match fs.(regular) !! path_of_text text with
         | Some content => if is_dir fs (path_of_text text) then Raise IsADirectoryError else Ok content
         | None => Raise InvalidInputData
         end
     | _ => Raise TypeError
     end, fs).
Proof.
  destruct value; try done. unfold file_deserialize, path_exists, is_file, read_file.
  destruct (fs.(regular) !! path_of_text s) as [content|] eqn:Hl.
  - rewrite bool_decide_eq_true_2 by eauto. cbn [orb negb]. by destruct (is_dir _ _).
  - rewrite bool_decide_eq_false_2 by (intros [? ?]; done). cbn [orb negb]. by destruct (is_dir _ _).
Qed.

(** The checks of the schemas accept exactly what they mean to accept. *)
Lemma schema_checks_exact (t n q : Z) (rate value : option Z) (include exclude : option (list string)) :
  (check_valid_n_and_m (Some t) (Some n) = Ok tt <-> (0 < t <= n)%Z) /\
  (check_rate_or_value_not_both rate value = Ok tt <-> rate = None \/ value = None) /\
  (check_valid_quantity_and_include_ursulas (Some q) include = Ok tt <->
     default [] include = [] \/ (Z.of_nat (length (default [] include)) <= q)%Z) /\
  (check_include_and_exclude_are_mutually_exclusive include exclude = Ok tt <->
     forall a, a ∈ default [] include -> a ∉ default [] exclude).
Proof.
  split_and!.
  - unfold check_valid_n_and_m. cbn [data_item rbind].
    destruct (Z.ltb_spec 0 t), (Z.leb_spec t n); cbn; intuition (try done; try lia).
  - destruct rate, value; cbn; naive_solver.
  - destruct include as [[|a l]|]; cbn [check_valid_quantity_and_include_ursulas default data_item rbind];
      [intuition|  |intuition].
    destruct (Z.ltb_spec q (Z.of_nat (length (a :: l)))); 
      intuition (try done; unfold id in *; try lia).
  - unfold check_include_and_exclude_are_mutually_exclusive. cbv zeta.
    set (common := list_to_set _ ∩ list_to_set _ : gset string).
    assert (Hin : forall a, a ∈ common <-> a ∈ default [] include /\ a ∈ default [] exclude)
      by (intros a; unfold common; set_solver).
    destruct (Nat.ltb_spec 0 (size common)) as [Hs|Hs].
    + split; [done|]. intros Hd. apply size_pos_elem_of in Hs as [a Ha]. apply Hin in Ha as [? ?]. by destruct (Hd a).
    + split; [|done]. intros _ a H1 H2. assert (Ha : a ∈ common) by (by apply Hin).
      assert (common ≡ ∅) as He by (apply size_empty_iff; lia). rewrite He in Ha. by apply elem_of_empty in Ha.
Qed.

End Fields.
