(* ===== verification/Control.v ===== *)
(** * The controllers

    control/controllers.py, control/emitters.py and the controllers of
    characters/control and utilities/porter/control: how a request that comes
    in over the web, as JSON-RPC or from the command line is decoded, checked
    against the schema of the method it names, performed and answered, and
    what becomes of each exception on that way.  The interface that a
    controller controls is a class: the names of its methods that have a
    schema, the schema's [load] and [dump], and the method itself.  Texts of
    requests are UTF-8. *)

From Stdlib Require Import Ascii.
From S2P Require Import Prelude Text Json Wire.

(** What an exception brings into an answer: its class, its text and, of a
    [WorkerPoolException], the failures by value. *)
Record raised := Raised {
  cls : exn_class;
  text : bytes;
  failures : list (bytes * bytes);
}.

Inductive outcome (A : Type) :=
  | Returned (a : A)
  | Threw (e : raised).
Arguments Returned {A}.
Arguments Threw {A}.

(** Statements that update a state and return or raise. *)
Definition CtlM (S A : Type) : Type := S -> outcome A * S.

Definition ctl_ret {S A} (a : A) : CtlM S A := fun s => (Returned a, s).
Definition ctl_raise {S A} (e : raised) : CtlM S A := fun s => (Threw e, s).
Definition ctl_bind {S A B} (m : CtlM S A) (k : A -> CtlM S B) : CtlM S B :=
  fun s => match m s with
           | (Returned a, s') => k a s'
           | (Threw e, s') => (Threw e, s')
           end.

Notation "x <~ m ;; k" := (ctl_bind m (fun x => k))
  (at level 100, m at next level, right associativity) : py_scope.

(** What a controller uses of its [ControlInterface]. *)
Class Interface (I Params Response : Type) := {
  methods : list bytes;                                    (* _get_interfaces().keys() *)
  schema_load : bytes -> json -> I -> outcome Params;      (* method._schema.load; it may read files *)
  invoke : bytes -> Params -> CtlM I Response;             (* the method itself *)
  schema_dump : bytes -> Response -> outcome json;         (* method._schema.dump *)
}.

Module Control.
Section Control.
Context {I Params Response : Type} `{!Interface I Params Response}.

(** [str(e)] of the exceptions that Python itself raises here. *)
Variable python_text : exn_class -> bytes.

Definition python_raise {S A} (c : exn_class) : CtlM S A := ctl_raise (Raised c (python_text c) []).
Definition of_result {S A} (r : result A) : CtlM S A :=
  match r with Ok a => ctl_ret a | Raise c => python_raise c end.

(** ** Requests *)

(** A float that is zero. *)
Fixpoint zero_mantissa (literal : bytes) : bool :=
  match literal with
  | [] => true
  | c :: l =>
      if Ascii.eqb c "e" || Ascii.eqb c "E" then true
      else (Ascii.eqb c "0" || Ascii.eqb c "." || Ascii.eqb c "-") && zero_mantissa l
  end.

(** [request or {}]. *)
Definition falsy (j : json) : bool :=
  match j with
  | JNull | JBool false | JStr [] | JArr [] | JObj [] => true
  | JNum z => (z =? 0)%Z
  | JFloat literal => zero_mantissa literal
  | _ => false
  end.

Definition or_empty (request : json) : json := if falsy request then JObj [] else request.

(** [ControllerBase._perform_action]: an attribute without a schema, or no
    attribute at all, has no [_schema]. *)
Definition _perform_action (action : bytes) (request : json) : CtlM I json :=
  let request := or_empty request in
  if decide (action ∈ methods) then
    params <~ (fun s => (schema_load action request s, s)) ;;
    response <~ invoke action params ;;
    fun s => (schema_dump action response, s)
  else python_raise AttributeError.

(** [json.loads] of bytes. *)
Definition loads_bytes (data : bytes) : result json := let? t := decode data in loads t.

(** [request_body.update(items)]. *)
Definition body_update (body : json) (items : list (bytes * json)) : result json :=
  match body with
  | JObj m => Ok (JObj (dict_update m items))
  | _ => Raise AttributeError
  end.

(** ** The web controller *)

(** [control_request]: its data, and its query string where it has one. *)
Record web_request := WebRequest {
  data : bytes;
  args : option (list (bytes * json));
}.

(** A body is the JSON text of a value, a text, or the name of the class of
    an exception without text. *)
Inductive reply_body := JsonBody (j : json) | TextBody (t : bytes) | ClassNameBody (c : exn_class).

Record reply := Reply { status : Z; body : reply_body }.

(** [WebEmitter]. *)
Record web_emitter := WebEmitter { emitter_crash_on_error : bool }.

Record web_controller := WebController {
  crash_on_error : bool;
  emitter : web_emitter;
}.

(** The constructor makes its emitter without arguments. *)
Definition new_web_controller (crash : bool) : web_controller := WebController crash (WebEmitter false).

(** [WebEmitter.assemble_response]. *)
Definition assemble_response (response : json) : json :=
  JObj [(to_bytes "result", response); (to_bytes "version", JStr Version.__version__)].

(** [WebEmitter.exception]; the log is left out. *)
Definition emitter_exception {S} (em : web_emitter) (e : raised) (response_code : Z) : CtlM S reply :=
  if em.(emitter_crash_on_error) then ctl_raise e
  else ctl_ret (Reply response_code
         (match e.(text) with [] => ClassNameBody e.(cls) | t => TextBody t end)).

(** [WebEmitter.exception_with_response]. *)
Definition exception_with_response {S} (em : web_emitter) (json_error_response : json) (e : raised)
    (response_code : Z) : CtlM S reply :=
  if em.(emitter_crash_on_error) then ctl_raise e
  else ctl_ret (Reply response_code (JsonBody (assemble_response json_error_response))).

(** [WebEmitter.respond]. *)
Definition respond (json_response : json) : reply := Reply 200 (JsonBody (assemble_response json_response)).

(** [json_response_from_worker_pool_exception]. *)
Definition json_response_from_worker_pool_exception (e : raised) : json :=
  JObj ((to_bytes "failure_message", JStr e.(text)) ::
    match e.(failures) with
    | [] => []
    | l => [(to_bytes "failures",
             JArr ((fun vf => JObj [(to_bytes "value", JStr vf.1); (to_bytes "error", JStr vf.2)]) <$> l))]
    end).

(** [f'No method called {method_name}']. *)
Definition no_method (c : exn_class) (method_name : bytes) : raised :=
  Raised c (to_bytes "No method called " ++ method_name) [].

(** The [try] block of [WebController.handle_request]; what it reads of the
    request first. *)
Definition web_request_body (request : web_request) (kwargs : list (bytes * json)) : result json :=
  let? request_body := (if decide (request.(data) = []) then Ok (JObj []) else loads_bytes request.(data)) in
  let? request_body := (match request.(args) with
                        | Some a => body_update request_body a
                        | None => Ok request_body
                        end) in
  body_update request_body kwargs.

Definition web_attempt (method_name : bytes) (request : web_request) (kwargs : list (bytes * json)) : CtlM I json :=
  request_body <~ of_result (web_request_body request kwargs) ;;
  if decide (method_name ∈ methods) then _perform_action method_name request_body
  else ctl_raise (no_method EmitterMethodNotFound method_name).

Definition _400_exceptions : list exn_class :=
  [SpecificationError; TypeError; JSONDecodeError; EmitterMethodNotFound].

(** [WebController.handle_request]. *)
Definition web_handle_request (c : web_controller) (method_name : bytes) (request : web_request)
    (kwargs : list (bytes * json)) : CtlM I reply := fun s =>
  match web_attempt method_name request kwargs s with
  | (Returned response, s') => (Returned (respond response), s')
  | (Threw e, s') =>
      if catches _400_exceptions e.(cls) then emitter_exception c.(emitter) e 400 s'
      else if catches [WorkerPoolException] e.(cls) then
        if c.(crash_on_error) then (Threw e, s')
        else exception_with_response c.(emitter) (json_response_from_worker_pool_exception e)
               (Raised RuntimeError e.(text) []) 404 s'
      else if catches [Exception] e.(cls) then
        if c.(crash_on_error) then (Threw e, s')
        else emitter_exception c.(emitter) e 500 s'
      else (Threw e, s')
  end.

Lemma loads_bytes_error b c : loads_bytes b = Raise c -> c = UnicodeDecodeError \/ c = JSONDecodeError.
Proof.
  unfold loads_bytes, decode, loads. destruct (utf8_valid_from _ _ _ _); cbn [rbind]; [|naive_solver].
  destruct (parse_value _ _) as [[j r]|]; [destruct (skip_ws r)|]; naive_solver.
Qed.

Lemma body_update_error b l c : body_update b l = Raise c -> c = AttributeError.
Proof. destruct b; naive_solver. Qed.

(** What can be wrong with a body: it is no JSON text, or no object. *)
Lemma web_request_body_error request kwargs c :
  web_request_body request kwargs = Raise c -> c ∈ [UnicodeDecodeError; JSONDecodeError; AttributeError].
Proof.
  unfold web_request_body.
  destruct (if decide (data request = []) then _ else _) as [b|c0] eqn:Hb; cbn [rbind].
  - destruct (match args request with Some a => _ | None => _ end) as [b'|c1] eqn:Hb'; cbn [rbind].
    + intros ->%body_update_error. set_solver.
    + intros [= <-]. destruct (args request) as [a|]; [|done]. apply body_update_error in Hb' as ->. set_solver.
  - intros [= <-]. case_decide; [done|]. apply loads_bytes_error in Hb. set_solver.
Qed.

(** ** What is answered over the web *)

Section Web.
Variable name : bytes.
Variable request : web_request.
Variable kwargs : list (bytes * json).
Variable s : I.

(** The exception [e] of the request, and the state [s'] it leaves: the body
    cannot be read, there is no such method, or the method's schema refuses
    the fields, and nothing was called; or the method, or the writing of what
    it returned, raised. *)
Inductive failed : raised -> I -> Prop :=
  | Bad_body c :
      web_request_body request kwargs = Raise c -> failed (Raised c (python_text c) []) s
  | No_such_method body :
      web_request_body request kwargs = Ok body -> name ∉ methods ->
      failed (Raised EmitterMethodNotFound (to_bytes "No method called " ++ name) []) s
  | Refused_by_schema body e :
      web_request_body request kwargs = Ok body -> name ∈ methods ->
      schema_load name (or_empty body) s = Threw e -> failed e s
  | Method_failed body params e s' :
      web_request_body request kwargs = Ok body -> name ∈ methods ->
      schema_load name (or_empty body) s = Returned params ->
      invoke name params s = (Threw e, s') -> failed e s'
  | Dump_failed body params response e s' :
      web_request_body request kwargs = Ok body -> name ∈ methods ->
      schema_load name (or_empty body) s = Returned params ->
      invoke name params s = (Returned response, s') -> schema_dump name response = Threw e ->
      failed e s'.

(** The action was performed: what its response is written as, and the state
    after it. *)
Inductive performed : json -> I -> Prop :=
  | Performed body params response j s' :
      web_request_body request kwargs = Ok body -> name ∈ methods ->
      schema_load name (or_empty body) s = Returned params ->
      invoke name params s = (Returned response, s') -> schema_dump name response = Returned j ->
      performed j s'.

(** A failure of the client is answered with 400, whether the controller is to
    crash on errors or not; of what else fails, one that crashes, and any
    that meets no ordinary exception, lets the exception out; the others
    answer 404 with the nodes that failed for a worker pool, and 500 for
    anything else. *)
Definition client_errors : list exn_class := [SpecificationError; TypeError; JSONDecodeError; EmitterMethodNotFound].

Definition message_of (e : raised) : reply_body :=
  match e.(text) with [] => ClassNameBody e.(cls) | t => TextBody t end.

Definition pool_failures (e : raised) : json :=
  JObj [(to_bytes "result",
         JObj ((to_bytes "failure_message", JStr e.(text)) ::
           match e.(failures) with
           | [] => []
           | l => [(to_bytes "failures",
                    JArr ((fun vf => JObj [(to_bytes "value", JStr vf.1); (to_bytes "error", JStr vf.2)]) <$> l))]
           end));
        (to_bytes "version", JStr (to_bytes "0.2.0"))].

Definition answered_failure (crash : bool) (e : raised) (o : outcome reply) : Prop :=
  let client := Exists (fun c => issubclass e.(cls) c = true) client_errors in
  let pool := issubclass e.(cls) WorkerPoolException = true in
  let ordinary := issubclass e.(cls) Exception = true in
  (client -> o = Returned (Reply 400 (message_of e))) /\
  (~ client -> crash = true \/ ~ ordinary -> o = Threw e) /\
  (~ client -> crash = false -> pool -> o = Returned (Reply 404 (JsonBody (pool_failures e)))) /\
  (~ client -> crash = false -> ordinary -> ~ pool -> o = Returned (Reply 500 (message_of e))).

End Web.

Lemma perform_action_known name body s :
  name ∈ methods ->
  _perform_action name body s =
    match schema_load name (or_empty body) s with
    | Threw e => (Threw e, s)
    | Returned params =>
        match invoke name params s with
        | (Returned response, s') => (schema_dump name response, s')
        | (Threw e, s') => (Threw e, s')
        end
    end.
Proof.
  intros Hn. unfold _perform_action. rewrite decide_True by done. unfold ctl_bind.
  destruct (schema_load name _ s); [|done]. by destruct (invoke _ _ _) as [[]].
Qed.

(** An attempt that fails, fails as [failed] says. *)
Lemma web_attempt_failed name request kwargs s e s' :
  web_attempt name request kwargs s = (Threw e, s') -> failed name request kwargs s e s'.
Proof.
  intros Ha. unfold web_attempt, ctl_bind, of_result in Ha.
  destruct (web_request_body request kwargs) as [body|c] eqn:Hb.
  - unfold ctl_ret in Ha. case_decide as Hn.
    + rewrite perform_action_known in Ha by done.
      destruct (schema_load name (or_empty body) s) as [params|e0] eqn:Hl.
      * destruct (invoke name params s) as [[response|e0] s0] eqn:Hi.
        -- injection Ha as Hd <-. by eapply Dump_failed.
        -- injection Ha as -> <-. by eapply Method_failed.
      * injection Ha as -> <-. by eapply Refused_by_schema.
    + injection Ha as <- <-. by eapply No_such_method.
  - injection Ha as <- <-. by apply Bad_body.
Qed.

Lemma web_attempt_performed name request kwargs s j s' :
  web_attempt name request kwargs s = (Returned j, s') -> performed name request kwargs s j s'.
Proof.
  unfold web_attempt, ctl_bind, of_result. destruct (web_request_body request kwargs) as [body|c] eqn:Hb; [|done].
  unfold ctl_ret. case_decide as Hn; [|done]. rewrite perform_action_known by done.
  destruct (schema_load name (or_empty body) s) as [params|] eqn:Hl; [|done].
  destruct (invoke name params s) as [[response|] s0] eqn:Hi; [|done].
  intros [= Hd <-]. by eapply Performed.
Qed.

Lemma catches_exists cs c : catches cs c = true <-> Exists (fun h => issubclass c h = true) cs.
Proof. unfold catches. rewrite existsb_exists, Exists_exists. by setoid_rewrite list_elem_of_In. Qed.

(** The [except] clauses. *)
Lemma web_failure_answered crash name request kwargs s e s' :
  web_attempt name request kwargs s = (Threw e, s') ->
  exists o, web_handle_request (new_web_controller crash) name request kwargs s = (o, s') /\ answered_failure crash e o.
Proof.
  intros Ha. unfold web_handle_request. rewrite Ha.
  assert (Hone : forall c h, catches [h] c = issubclass c h) by (intros; unfold catches; cbn; apply orb_false_r).
  assert (Hcl : catches _400_exceptions e.(cls) = true <-> Exists (fun c => issubclass e.(cls) c = true) client_errors)
    by apply catches_exists.
  assert (Hpo : issubclass e.(cls) WorkerPoolException = true -> issubclass e.(cls) Exception = true)
    by (by destruct (cls e)).
  rewrite !Hone.
  destruct (catches _400_exceptions e.(cls)) eqn:H4, (issubclass e.(cls) WorkerPoolException) eqn:Hw,
    (issubclass e.(cls) Exception) eqn:Ho, crash;
    (eexists; split; [reflexivity|]); unfold answered_failure; cbv zeta; rewrite <- Hcl, ?H4, ?Hw, ?Ho; clear -Hpo Hw Ho;
    (split_and!; intros; first [reflexivity | exfalso; intuition congruence]).
Qed.

(** C27.  Every web request ends with an answer or an exception that its course
    determines, whatever it holds, whatever the interface raises and whether
    the controller is to crash on errors or not.  The action was performed,
    and the written response is answered with 200; or a step failed, and what
    [answered_failure] says follows: 400 for a failure of the client (a body
    that is no JSON text, a method that does not exist, a field the schema
    refuses, a type error) with the text of the exception, or its class's name
    where it has none; 404 with the values that failed for a worker pool, and
    500 for any other ordinary exception, unless the controller crashes on
    errors: then these are raised.  A request that was refused because of its
    body, its method or its fields has changed nothing. *)
Theorem web_request_answered crash name request kwargs s :
  exists o s', web_handle_request (new_web_controller crash) name request kwargs s = (o, s') /\
    ((exists j, performed name request kwargs s j s' /\
        o = Returned (Reply 200 (JsonBody (JObj [(to_bytes "result", j); (to_bytes "version", JStr (to_bytes "0.2.0"))])))) \/
     (exists e, failed name request kwargs s e s' /\ answered_failure crash e o)).
Proof.
  destruct (web_attempt name request kwargs s) as [[j|e] s'] eqn:Ha.
  - exists (Returned (respond j)), s'. split; [unfold web_handle_request; by rewrite Ha|].
    left. exists j. split; [by apply web_attempt_performed|done].
  - destruct (web_failure_answered crash name request kwargs s e s' Ha) as (o & Ho & Hf).
    exists o, s'. split; [done|]. right. exists e. split; [by apply web_attempt_failed|done].
Qed.

(** The state after a request is the one that the attempt left, and 200 is
    answered to an attempt that returned only. *)
Lemma web_request_attempted c name request kwargs s o s' :
  web_handle_request c name request kwargs s = (o, s') ->
  exists a, web_attempt name request kwargs s = (a, s') /\
    match o with Returned (Reply 200 _) => exists j, a = Returned j | _ => True end.
Proof.
  unfold web_handle_request. destruct (web_attempt name request kwargs s) as [[j|e] s0].
  - intros [= <- <-]. exists (Returned j). split; [done|by eexists].
  - unfold emitter_exception, exception_with_response, ctl_raise, ctl_ret.
    intros Hh. exists (Threw e).
    repeat match type of Hh with context [if ?b then _ else _] => destruct b end;
      injection Hh as <- <-; done.
Qed.

(** A controller that crashes on errors still answers what it takes for the
    client's fault; every other exception reaches the web server. *)
Lemma crashes_on_other_errors name request kwargs s e s' :
  web_attempt name request kwargs s = (Threw e, s') ->
  web_handle_request (new_web_controller true) name request kwargs s =
    if catches _400_exceptions e.(cls)
    then web_handle_request (new_web_controller false) name request kwargs s else (Threw e, s').
Proof.
  intros Ha. unfold web_handle_request. rewrite Ha.
  destruct (catches _400_exceptions e.(cls)); [done|].
  destruct (catches [WorkerPoolException] e.(cls)); [done|]. by destruct (catches [Exception] e.(cls)).
Qed.

(** ** JSON-RPC *)

(** [JSONRPCStdoutEmitter.JSONRPCError] and its subclasses: code and message. *)
Definition rpc_error_attributes (c : exn_class) : option (option Z * bytes) :=
  match c with
  | JSONRPCError => Some (None, to_bytes "Unknown JSON-RPC Error")
  | RpcParseError => Some (Some (-32700), to_bytes "Invalid JSON was received by the server.")
  | RpcInvalidRequest => Some (Some (-32600), to_bytes "The JSON sent is not a valid Request object.")
  | RpcMethodNotFound => Some (Some (-32601), to_bytes "The method does not exist / is not available.")
  | RpcInvalidParams => Some (Some (-32602), to_bytes "Invalid method parameter(s).")
  | RpcInternalError => Some (Some (-32603), to_bytes "Internal JSON-RPC error.")
  | _ => None
  end%Z.

(** The interface, the lines that were written to the sink, and the clock
    [maya.now().epoch], which only a request without an id reads. *)
Record rpc_state := RpcState {
  iface : I;
  written : list bytes;
}.
Variable epoch : I -> Z.

Record rpc_controller := RpcController {
  rpc_crash_on_error : bool;
  sink_returns : bytes -> option Z;
}.

(** The default sink is [print], which returns [None]. *)
Definition new_rpc_controller (crash : bool) : rpc_controller := RpcController crash (fun _ => None).

(** [str(message_id)] of what JSON can hold: of a text and an integer as
    written here, of anything else as [repr_of] says. *)
Variable repr_of : json -> bytes.
Definition str_of_id (message_id : json) : bytes :=
  match message_id with JStr s => s | JNum z => int_chars z | j => repr_of j end.

Definition rpc_assemble_response (response : json) (message_id : json) : json :=
  JObj [(to_bytes "jsonrpc", JStr (to_bytes "2.0")); (to_bytes "id", JStr (str_of_id message_id));
        (to_bytes "result", response)].

Definition assemble_error (message : bytes) (code : option Z) : json :=
  JObj [(to_bytes "jsonrpc", JStr (to_bytes "2.0"));
        (to_bytes "error",
         JObj [(to_bytes "code", JStr (match code with Some z => int_chars z | None => to_bytes "None" end));
               (to_bytes "message", JStr message); (to_bytes "data", JNull)]);
        (to_bytes "id", JNull)].

(** [__serialize] and [__write]. *)
Definition serialize (data : json) : bytes := newline :: dumps data.
Definition write (c : rpc_controller) (data : json) : CtlM rpc_state (option Z) := fun s =>
  let line := serialize data in
  (Returned (c.(sink_returns) line), RpcState s.(iface) (s.(written) ++ [line])).

Definition on_iface {A} (m : CtlM I A) : CtlM rpc_state A := fun s =>
  let '(r, i) := m s.(iface) in (r, RpcState i s.(written)).

(** [JSONRPCStdoutEmitter.error]: an exception without [message] and [code]
    is raised again. *)
Definition rpc_error (c : rpc_controller) (e : raised) : CtlM rpc_state (option Z) :=
  match rpc_error_attributes e.(cls) with
  | Some (code, message) => write c (assemble_error message code)
  | None => ctl_raise e
  end.

Definition rpc_raise {S A} (c : exn_class) : CtlM S A := ctl_raise (Raised c [] []).

(** [call_interface], and [ipc]. *)
Definition call_interface (c : rpc_controller) (method_name : bytes) (request request_id : json)
    : CtlM rpc_state (option Z) := fun s =>
  let request_id := match request_id with JNull => JNum (epoch s.(iface)) | id => id end in
  (response <~ on_iface (_perform_action method_name request) ;;
   write c (rpc_assemble_response response request_id)) s.

(** [handle_procedure_call]; [method_name not in dict] hashes the name. *)
Definition handle_procedure_call (c : rpc_controller) (m : list (bytes * json)) : CtlM rpc_state (option Z) :=
  jsonrpc2 <~ of_result (get_item (JObj m) (to_bytes "jsonrpc")) ;;
  if (match jsonrpc2 with JStr v => bool_decide (v = to_bytes "2.0") | _ => false end) then
    request_id <~ of_result (get_item (JObj m) (to_bytes "id")) ;;
    method_name <~ of_result (get_item (JObj m) (to_bytes "method")) ;;
    let method_params := default (JObj []) (dict_get m (to_bytes "params")) in
    match method_name with
    | JStr name =>
        if decide (name ∈ methods) then call_interface c name method_params request_id
        else ctl_raise (no_method RpcMethodNotFound name)
    | JArr _ | JObj _ => python_raise TypeError
    | j => ctl_raise (no_method RpcMethodNotFound (str_of_id j))
    end
  else rpc_raise RpcInvalidRequest.

(** [handle_message]: [message['id']] of something that is no object raises
    [TypeError]. *)
Definition handle_message (c : rpc_controller) (message : json) : CtlM rpc_state (option Z) :=
  match message with
  | JObj m =>
      match dict_get m (to_bytes "id") with
      | None => rpc_raise RpcInvalidRequest
      | Some _ => handle_procedure_call c m
      end
  | _ => rpc_raise RpcInvalidRequest
  end.

(** [batch_size += response_size]. *)
Fixpoint handle_each (c : rpc_controller) (control_requests : list json) (batch_size : Z) : CtlM rpc_state (option Z) :=
  match control_requests with
  | [] => ctl_ret (Some batch_size)
  | request :: rest =>
      response_size <~ handle_message c request ;;
      match response_size with
      | Some size => handle_each c rest (batch_size + size)
      | None => python_raise TypeError
      end
  end.

Definition handle_batch (c : rpc_controller) (control_requests : list json) : CtlM rpc_state (option Z) :=
  match control_requests with
  | [] => rpc_error c (Raised RpcInvalidRequest [] [])
  | _ => handle_each c control_requests 0
  end.

(** [JSONRPCController.handle_request]. *)
Definition rpc_handle_request (c : rpc_controller) (control_request : bytes) : CtlM rpc_state (option Z) := fun s =>
  match loads_bytes control_request with
  | Raise JSONDecodeError => rpc_error c (Raised RpcParseError [] []) s
  | Raise e => python_raise e s
  | Ok (JArr control_requests) => handle_batch c control_requests s
  | Ok message =>
      match handle_message c message s with
      | (Threw e, s') =>
          if catches [JSONRPCError] e.(cls) then rpc_error c e s'
          else if catches [Exception] e.(cls) then
            if c.(rpc_crash_on_error) then (Threw e, s') else rpc_error c e s'
          else (Threw e, s')
      | r => r
      end
  end.

(** [JSONRPCLineReceiver.lineReceived] of cli/processes.py: [strip] of the
    line's delimiter, a newline. *)
Fixpoint lstrip_newlines (line : bytes) : bytes :=
  match line with c :: l => if Ascii.eqb c newline then lstrip_newlines l else line | [] => [] end.
Definition line_received (c : rpc_controller) (line : bytes) : CtlM rpc_state unit :=
  match rstrip [newline] (lstrip_newlines line) with
  | [] => ctl_ret tt
  | l => _ <~ rpc_handle_request c l ;; ctl_ret tt
  end.

(** ** The command line *)

(** [CLIController.handle_request]: what is printed, either for a reader
    ([pretty]) or through [ipc], is returned as well. *)
Definition cli_handle_request (method_name : bytes) (request : json) : CtlM I json :=
  response <~ _perform_action method_name request ;; ctl_ret response.

(** The [_perform_action] of CharacterCLIController and PorterCLIController:
    [finally] the character is disenchanted, whatever happened. *)
Variable disenchant : CtlM I unit.
Definition finally_disenchant {A} (m : CtlM I A) : CtlM I A := fun s =>
  let '(r, s') := m s in
  match disenchant s' with
  | (Returned _, s'') => (r, s'')
  | (Threw e, s'') => (Threw e, s'')
  end.
Definition character_perform_action (action : bytes) (request : json) : CtlM I json :=
  finally_disenchant (_perform_action action request).

(** [set_method] of InterfaceControlServer: the method of the controller that
    goes by the name of a method of the interface. *)
Definition bound_method {S A} (handle_request : bytes -> json -> CtlM S A) (name : bytes) (request : option json)
    (kwargs : list (bytes * json)) : CtlM S A :=
  handle_request name
    (match request with Some r => if falsy r then JObj kwargs else r | None => JObj kwargs end).

(** ** What is answered over JSON-RPC *)

(** One line is added and what the sink says of it returned, or nothing is
    added. *)
Definition answers_once (c : rpc_controller) (s : rpc_state) (r : outcome (option Z) * rpc_state) : Prop :=
  match r with
  | (Returned size, s') => exists line, s'.(written) = s.(written) ++ [line] /\ size = c.(sink_returns) line
  | (Threw _, s') => s'.(written) = s.(written)
  end.

Lemma write_answers_once c j s s' : s'.(written) = s.(written) -> answers_once c s (write c j s').
Proof. intros Hw. eexists. split; [cbn [written]; by rewrite Hw|done]. Qed.

Lemma jsonrpc_errors_have_code c :
  catches [JSONRPCError] c = match rpc_error_attributes c with Some _ => true | None => false end.
Proof. by destruct c; vm_compute. Qed.

Lemma call_interface_answers_once c name request id s : answers_once c s (call_interface c name request id s).
Proof.
  unfold call_interface, ctl_bind, on_iface.
  destruct (_perform_action name request (iface s)) as [[j|e] i]; [by apply write_answers_once|done].
Qed.

Lemma handle_procedure_call_answers_once c m s : answers_once c s (handle_procedure_call c m s).
Proof.
  unfold handle_procedure_call, ctl_bind, of_result.
  destruct (get_item _ (to_bytes "jsonrpc")) as [v|]; cbn [ctl_ret python_raise ctl_raise]; [|done].
  destruct (match v with JStr _ => _ | _ => _ end); [|done].
  destruct (get_item _ (to_bytes "id")) as [id|]; cbn [ctl_ret python_raise ctl_raise]; [|done].
  destruct (get_item _ (to_bytes "method")) as [name|]; cbn [ctl_ret python_raise ctl_raise]; [|done].
  destruct name; try done. case_decide; [apply call_interface_answers_once|done].
Qed.

Lemma handle_message_answers_once c message s : answers_once c s (handle_message c message s).
Proof.
  unfold handle_message. destruct message; try done.
  destruct (dict_get m (to_bytes "id")); [apply handle_procedure_call_answers_once|done].
Qed.

(** C40.  Over JSON-RPC, a request that is not a batch is answered with one line,
    or an exception that is no JSON-RPC error comes out of the controller and
    nothing is written, whether it is to crash on errors or not.  A batch of
    one message or more is never completed with the sink that the controller
    has by default: after the first message, its answer has been written and
    the sum of the sizes raises, or its exception, be it a JSON-RPC error,
    comes out unanswered. *)
Theorem rpc_request_spec c crash request s :
  match loads_bytes request with
  | Ok (JArr []) => answers_once c s (rpc_handle_request c request s)
  | Ok (JArr (m :: ms)) =>
      rpc_handle_request (new_rpc_controller crash) request s =
        (Threw (match (handle_message (new_rpc_controller crash) m s).1 with
                | Returned _ => Raised TypeError (python_text TypeError) []
                | Threw e => e
                end),
         (handle_message (new_rpc_controller crash) m s).2)
  | _ =>
      answers_once c s (rpc_handle_request c request s) /\
      forall e, (rpc_handle_request c request s).1 = Threw e -> catches [JSONRPCError] e.(cls) = false
  end.
Proof.
  assert (Hmsg : forall m,
    let r := match handle_message c m s with
             | (Threw e, s') =>
                 if catches [JSONRPCError] e.(cls) then rpc_error c e s'
                 else if catches [Exception] e.(cls) then
                   if c.(rpc_crash_on_error) then (Threw e, s') else rpc_error c e s'
                 else (Threw e, s')
             | r => r
             end in
    answers_once c s r /\ forall e, r.1 = Threw e -> catches [JSONRPCError] e.(cls) = false).
  { intros m. cbv zeta. pose proof (handle_message_answers_once c m s) as Hm.
    destruct (handle_message c m s) as [[n|e] s']; [done|]. cbn [answers_once] in Hm.
    rewrite jsonrpc_errors_have_code. unfold rpc_error.
    destruct (rpc_error_attributes e.(cls)) as [[code message]|] eqn:Ha.
    - split; [by apply write_answers_once|done].
    - assert (Hc : catches [JSONRPCError] e.(cls) = false) by (by rewrite jsonrpc_errors_have_code, Ha).
      destruct (catches [Exception] _), (rpc_crash_on_error c); (split; [done|naive_solver]). }
  unfold rpc_handle_request. destruct (loads_bytes request) as [j|e] eqn:Hl.
  - destruct j as [| | | | |l|m]; try apply Hmsg. destruct l as [|m ms]; [by apply write_answers_once|].
    cbn [handle_batch handle_each]. unfold ctl_bind.
    pose proof (handle_message_answers_once (new_rpc_controller crash) m s) as Hm.
    destruct (handle_message (new_rpc_controller crash) m s) as [[[n|]|e] s']; try done.
    by destruct Hm as (line & _ & [=]).
  - apply loads_bytes_error in Hl as [->| ->]; cbn [rpc_error rpc_error_attributes cls]; (split; [try by apply write_answers_once|]); cbn; naive_solver.
Qed.

End Control.
End Control.

(** ** Evaluated *)

Module ControlDemo.
Import Control.

(** An interface with two methods: one adds to a counter, the other finds
    no node; a request must hold a number [n]. *)
#[local] Instance demo_interface : Interface Z Z Z := {
  methods := [to_bytes "add"; to_bytes "sample"];
  schema_load _ request _ :=
    match get_item request (to_bytes "n") with
    | Ok (JNum n) => Returned n
    | _ => Threw (Raised InvalidInputData (to_bytes "n") [])
    end;
  invoke name n total :=
    if decide (name = to_bytes "add") then (Returned (total + n), total + n)%Z
    else (Threw (Raised TimedOut (to_bytes "timed out") [(to_bytes "0xa", to_bytes "down")]), total);
  schema_dump _ response := Returned (JObj [(to_bytes "total", JNum response)]);
}.

(** The quote of a JSON text, written as an apostrophe. *)
Definition quotes (s : string) : bytes := replace_char "'" dquote (to_bytes s).

Definition demo_status (name : string) (text : bytes) : option Z :=
  match (web_handle_request (fun _ => []) (new_web_controller false) (to_bytes name) (WebRequest text (Some [])) [] 5%Z).1 with
  | Returned r => Some r.(status)
  | Threw _ => None
  end.

Example demo_statuses :
  [demo_status "add" (quotes "{'n': 2}"); demo_status "add" (quotes "{'n': 'two'}"); demo_status "add" (quotes "{n");
   demo_status "drop" (quotes "{}"); demo_status "add" (quotes "[1]"); demo_status "sample" (quotes "{'n': 2}")]
  = [Some 200; Some 400; Some 400; Some 400; Some 500; Some 404]%Z.
Proof. by vm_compute. Qed.

(** A batch of two additions: the first is performed and answered, the
    second is not performed. *)
Definition demo_batch : bytes :=
  quotes "[{'jsonrpc': '2.0', 'id': 1, 'method': 'add', 'params': {'n': 2}},".
Definition demo_batch_rest : bytes :=
  quotes " {'jsonrpc': '2.0', 'id': 2, 'method': 'add', 'params': {'n': 3}}]".

Example demo_batch_stops :
  let '(r, s) := rpc_handle_request (fun _ => []) (fun _ => 0%Z) (fun _ => []) (new_rpc_controller false)
                   (demo_batch ++ demo_batch_rest) (RpcState 5%Z []) in
  (match r with Threw e => Some e.(cls) | Returned _ => None end, s.(iface), s.(written))
  = (Some TypeError, 7%Z, [newline :: quotes "{'jsonrpc': '2.0', 'id': '1', 'result': {'total': 7}}"]).
Proof. by vm_compute. Qed.

End ControlDemo.
