(* ===== verification/CharacterInterfaces.v ===== *)
(** * The interfaces of the characters

    characters/control/interfaces.py: what the controllers of Control.v call
    of Alice and Bob.  Alice and Bob are those of Characters.v; a schema's
    [load] brings the arguments, with whatever else the request held. *)

From Stdlib Require Import Ascii.
From S2P Require Import Prelude Text Json Payment Policies Characters Fields Control.

Module AliceInterface.
Import Alice Control.Control.
Section AliceInterface.
Context {Ursula KFrag PublicKey TreasureMap EncryptedKeyFrag EncryptedTreasureMap RevocationOrder : Type}.
Context {W Receipt Bob MessageKit : Type}.
Context `{!AliceWorld (Ursula:=Ursula) (KFrag:=KFrag) (PublicKey:=PublicKey) (TreasureMap:=TreasureMap)
  (EncryptedKeyFrag:=EncryptedKeyFrag) (EncryptedTreasureMap:=EncryptedTreasureMap)
  (RevocationOrder:=RevocationOrder) (W:=W) (Bob:=Bob)}.

Notation alice := (alice (PublicKey:=PublicKey) (EncryptedTreasureMap:=EncryptedTreasureMap)
  (RevocationOrder:=RevocationOrder) (W:=W) (Receipt:=Receipt)).
Notation enacted := (enacted (PublicKey:=PublicKey) (EncryptedTreasureMap:=EncryptedTreasureMap)
  (RevocationOrder:=RevocationOrder)).

(** [Bob.from_public_keys], [HRAC] of Alice's stamp, and Alice's keys. *)
Class AliceKeys := {
  bob_from_public_keys : PublicKey -> PublicKey -> Bob;
  HRAC : PublicKey -> string -> string;
  stamp_key : PublicKey;
  get_policy_encrypting_key_from_label : string -> PyM W PublicKey;
  decrypt_message_kit : MessageKit -> string -> PyM W (list bytes);
  public_signing_key : PyM W PublicKey;
}.
Context `{!AliceKeys}.

(** The keyword arguments that [create_policy] and [grant] pass on; there
    are no handpicked nodes. *)
Definition interface_args (threshold shares expiration : Z) (value rate : option Z)
    : grant_args (W:=W) (Receipt:=Receipt) := {|
  g_threshold := Some threshold; g_shares := Some shares; g_duration := None; g_commencement := None;
  g_expiration := Some expiration; g_value := value; g_rate := rate; g_payment := None |}.

(** The response data of the methods. *)
Inductive response :=
  | Created (label : string) (policy_encrypting_key : PublicKey)
  | Derived (policy_encrypting_key : PublicKey) (label : string)
  | Granted (treasure_map : EncryptedTreasureMap) (policy_encrypting_key alice_verifying_key : PublicKey)
  | Revoked (failed_revocations : nat)
  | Decrypted (cleartexts : list bytes)
  | Keys (alice_verifying_key : PublicKey).

Definition create_policy (bob_encrypting_key bob_verifying_key : PublicKey) (label : string)
    (threshold shares expiration : Z) (value : option Z) : PyM alice response :=
  let bob := bob_from_public_keys bob_encrypting_key bob_verifying_key in
  new_policy <- Alice.create_policy bob label (interface_args threshold shares expiration value None) ;;
  py_ret (Created new_policy.1.(Policy.label) new_policy.1.(Policy.public_key)).

Definition derive_policy_encrypting_key (label : string) : PyM alice response :=
  policy_encrypting_key <- on_world (get_policy_encrypting_key_from_label label) ;;
  py_ret (Derived policy_encrypting_key label).

Definition grant (bob_encrypting_key bob_verifying_key : PublicKey) (label : string)
    (threshold shares expiration : Z) (value rate : option Z) : PyM alice response :=
  let bob := bob_from_public_keys bob_encrypting_key bob_verifying_key in
  new_policy <- Alice.grant bob label [] None (interface_args threshold shares expiration value rate) ;;
  py_ret (Granted new_policy.(Policy.e_treasure_map) new_policy.(Policy.e_public_key) stamp_key).

(** The loop over [failed_revocations.items()]: deleting an entry changes the
    size of the dict, so that the iterator raises at its next step, even
    after the last entry. *)
Fixpoint forget_not_found (items : failed_revocations (RevocationOrder:=RevocationOrder)) : result unit :=
  match items with
  | [] => Ok tt
  | (_, (_, fail_reason)) :: rest =>
      if decide (fail_reason = NotFound) then Raise RuntimeError else forget_not_found rest
  end.

(** [revoke]; [self.implementer.revoke(policy)] has both defaults. *)
Definition revoke (label : string) (bob_verifying_key : PublicKey) : PyM alice response := fun s =>
  let policy_hrac := HRAC bob_verifying_key label in
  match dict_get s.(active_policies) policy_hrac with
  | None => (Raise KeyError, s)
  | Some policy =>
      (failed_revocations <- Alice.revoke policy true true ;;
       lift (forget_not_found failed_revocations) ;;;
       (if (Z.of_nat (length failed_revocations) <=? policy.(Policy.e_shares) - policy.(Policy.e_threshold) + 1)%Z
        then fun s' => if dict_mem s'.(active_policies) policy_hrac
                       then (Ok tt, set_active_policies (dict_del s'.(active_policies) policy_hrac) s')
                       else (Raise KeyError, s')
        else py_ret tt) ;;;
       py_ret (Revoked (length failed_revocations))) s
  end.

Definition decrypt (label : string) (message_kit : MessageKit) : PyM alice response :=
  plaintexts <- on_world (decrypt_message_kit message_kit label) ;; py_ret (Decrypted plaintexts).

Definition public_keys : PyM alice response :=
  verifying_key <- on_world public_signing_key ;; py_ret (Keys verifying_key).

(** ** As a controlled interface *)

(** What the schemas load: the declared fields that the request held, and the
    names of the fields it held besides, which the schemas pass on. *)
Inductive params :=
  | PolicyParams (bob_encrypting_key bob_verifying_key : PublicKey) (label : string)
      (threshold shares expiration : Z) (value rate : option (option Z)) (unknown : list bytes)
  | LabelParams (label : string) (unknown : list bytes)
  | RevokeParams (label : string) (bob_verifying_key : PublicKey) (unknown : list bytes)
  | DecryptParams (label : string) (message_kit : option MessageKit) (unknown : list bytes)
  | NoParams (unknown : list bytes).

Definition alice_methods : list bytes :=
  to_bytes <$> ["create_policy"; "decrypt"; "derive_policy_encrypting_key"; "grant"; "public_keys"; "revoke"]%string.

Definition given {A} (v : option (option A)) : option A := match v with Some x => x | None => None end.

(** [method( ** params)]: an argument that the method does not take, or does not
    get, is a [TypeError].  The schema of [create_policy] declares [rate], the
    method does not take it. *)
Definition call (name : bytes) (p : params) : PyM alice response :=
  match p with
  | PolicyParams bek bvk label m n expiration value rate [] =>
      if decide (name = to_bytes "grant") then grant bek bvk label m n expiration (given value) (given rate)
      else if decide (name = to_bytes "create_policy") then
        match rate with
        | None => create_policy bek bvk label m n expiration (given value)
        | Some _ => raise TypeError
        end
      else raise TypeError
  | LabelParams label [] =>
      if decide (name = to_bytes "derive_policy_encrypting_key") then derive_policy_encrypting_key label
      else raise TypeError
  | RevokeParams label bvk [] => if decide (name = to_bytes "revoke") then revoke label bvk else raise TypeError
  | DecryptParams label (Some kit) [] => if decide (name = to_bytes "decrypt") then decrypt label kit else raise TypeError
  | NoParams [] => if decide (name = to_bytes "public_keys") then public_keys else raise TypeError
  | _ => raise TypeError
  end.

(** marshmallow's [load] and [dump], and the texts of exceptions. *)
Variable load : bytes -> json -> alice -> outcome params.
Variable dump : bytes -> response -> outcome json.
Variable text_of : exn_class -> bytes.

Definition of_pym {A} (m : PyM alice A) : CtlM alice A := fun s =>
  match m s with
  | (Ok a, s') => (Returned a, s')
  | (Raise c, s') => (Threw (Raised c (text_of c) []), s')
  end.

#[local] Instance alice_interface : Interface alice params response := {
  methods := alice_methods;
  schema_load := load;
  invoke name p := of_pym (call name p);
  schema_dump := dump;
}.

(** ** Properties *)

Lemma same_revoke l p onchain offchain : preserves (same_policies (Receipt:=Receipt) l) (Alice.revoke p onchain offchain).
Proof.
  assert (Hw : forall A (m : PyM W A), preserves (same_policies (Receipt:=Receipt) l) (on_world m)) by (intros; apply same_on_world).
  assert (Hn : forall kit a f, preserves (same_policies (Receipt:=Receipt) l) (revoke_node kit a f)).
  { intros kit a f s Hs. unfold revoke_node. destruct (dict_get _ a) as [u|]; [|done].
    destruct (Policy.revocation_getitem _ kit a) as [o|]; [|done].
    specialize (Hw _ (middleware_request_revocation u o) s Hs).
    destruct (on_world _ s) as [[code|e] s']; [by destruct (negb _)|].
    destruct (catches [NotFound] e); [done|]. by destruct (catches [UnexpectedResponse] e). }
  assert (Hl : forall kit ids f, preserves (same_policies (Receipt:=Receipt) l) (revoke_nodes kit ids f)).
  { intros kit ids. induction ids as [|a ids IH]; intros f; cbn [revoke_nodes]; auto with pym. }
  unfold Alice.revoke. destruct (negb _); [auto with pym|]. destruct offchain; auto with pym.
Qed.

(** [NotFound] is among the reasons. *)
Definition some_not_found (failed : failed_revocations (RevocationOrder:=RevocationOrder)) : Prop :=
  Exists (fun kv => kv.2.2 = NotFound) failed.

Lemma forget_not_found_spec failed :
  (some_not_found failed /\ forget_not_found failed = Raise RuntimeError) \/
  (~ some_not_found failed /\ forget_not_found failed = Ok tt).
Proof.
  unfold some_not_found. induction failed as [|[a [o c]] l IH]; cbn [forget_not_found].
  - right. split; [inversion 1|done].
  - rewrite Exists_cons. cbn. case_decide as Hc; [left; auto|]. destruct IH as [[? ?]|[? ?]]; [left|right]; naive_solver.
Qed.

(** C25.  Revoking through the interface: without an active policy nothing is asked
    of anyone.  Otherwise the policy stays active unless the revocation
    returned, no node answered [NotFound] - then deleting its entry while the
    failures are iterated raises - and at most [shares - threshold + 1] nodes
    failed; then the policy is forgotten, the others are kept, and the number
    of failures is returned. *)
Theorem interface_revoke_spec label bvk s :
  match dict_get s.(active_policies) (HRAC bvk label) with
  | None => revoke label bvk s = (Raise KeyError, s)
  | Some policy =>
      let '(r, s') := revoke label bvk s in
      match Alice.revoke policy true true s with
      | (Raise e, s1) => (r, s') = (Raise e, s1) /\ s'.(active_policies) = s.(active_policies)
      | (Ok failed, s1) =>
          let kept := s'.(active_policies) = s.(active_policies) in
          let few := (Z.of_nat (length failed) <= policy.(Policy.e_shares) - policy.(Policy.e_threshold) + 1)%Z in
          (some_not_found failed -> r = Raise RuntimeError /\ kept) /\
          (~ some_not_found failed -> r = Ok (Revoked (length failed)) /\
             (few -> s'.(active_policies) = dict_del s.(active_policies) (HRAC bvk label)) /\ (~ few -> kept))
      end
  end.
Proof.
  unfold revoke. destruct (dict_get s.(active_policies) (HRAC bvk label)) as [policy|] eqn:Hp; [|done].
  pose proof (same_revoke s.(active_policies) policy true true s eq_refl) as Hs. unfold py_bind at 1.
  destruct (Alice.revoke policy true true s) as [[failed|e] s1]; [|done]. cbn [snd] in Hs. unfold same_policies in Hs.
  unfold py_bind, lift. destruct (forget_not_found_spec failed) as [[Hnf ->]|[Hnf ->]].
  { cbn. by split. }
  destruct (Z.leb_spec (Z.of_nat (length failed)) (Policy.e_shares policy - Policy.e_threshold policy + 1)) as [Hf|Hf].
  - unfold dict_mem. rewrite Hs, Hp, bool_decide_eq_true_2 by eauto. cbn.
    split; [done|]. intros _. split_and!; [done|done|lia].
  - cbn. split; [done|]. intros _. split_and!; [done|lia|done].
Qed.

Lemma grant_is_method : to_bytes "grant" ∈ methods.
Proof. apply (bool_decide_unpack (to_bytes "grant" ∈ alice_methods)). by vm_compute. Qed.

(** C35.  What the web controller's answer to a grant means.  Either no policy
    was registered, the active ones are as they were, and the answer is not a
    200; or the body of the request, its query string and the keyword
    arguments hold, by the schema, the keys of a Bob and a label for which no
    policy was active, granting with them and with the shares, the expiration
    and the prices they hold returned a policy, and that policy is registered
    under that Bob and that label next to all that were active.  The answer is
    then 200 with that policy's treasure map and key and Alice's own verifying
    key, as the schema writes them; only if the schema fails to write them is
    the registered policy not answered with 200. *)
Theorem web_grant c request kwargs s o s' :
  web_handle_request text_of c (to_bytes "grant") request kwargs s = (o, s') ->
  (s'.(active_policies) = s.(active_policies) /\ forall body, o <> Returned (Reply 200 body)) \/
  exists request_body bek bvk label m n expiration value rate ep,
    web_request_body request kwargs = Ok request_body /\
    load (to_bytes "grant") (or_empty request_body) s =
      Returned (PolicyParams bek bvk label m n expiration value rate []) /\
    let bob := bob_from_public_keys bek bvk in
    Alice.grant bob label [] None (interface_args m n expiration (given value) (given rate)) s = (Ok ep, s') /\
    dict_get s.(active_policies) (policy_hrac bob label) = None /\
    s'.(active_policies) = s.(active_policies) ++ [(policy_hrac bob label, ep)] /\
    match dump (to_bytes "grant") (Granted ep.(Policy.e_treasure_map) ep.(Policy.e_public_key) stamp_key) with
    | Returned j =>
        o = Returned (Reply 200 (JsonBody (JObj [(to_bytes "result", j); (to_bytes "version", JStr (to_bytes "0.2.0"))])))
    | Threw _ => forall body, o <> Returned (Reply 200 body)
    end.
Proof.
  intros Hh. pose proof Hh as (a & Ha & H200)%web_request_attempted.
  assert (Hno : (forall j, a <> Returned j) -> forall body, o <> Returned (Reply 200 body)).
  { intros Hno body ->. destruct H200 as [j ->]. by destruct (Hno j). }
  pose proof Ha as Ha'. unfold web_attempt, ctl_bind, of_result in Ha'.
  destruct (web_request_body request kwargs) as [body|e]; [|left; injection Ha' as <- <-; split; [done|by apply Hno]].
  unfold ctl_ret in Ha'. rewrite decide_True in Ha' by exact grant_is_method.
  rewrite perform_action_known in Ha' by exact grant_is_method. cbn [schema_load invoke schema_dump alice_interface] in Ha'.
  destruct (load (to_bytes "grant") (or_empty body) s) as [p|e] eqn:Hl;
    [|left; injection Ha' as <- <-; split; [done|by apply Hno]].
  destruct (of_pym (call (to_bytes "grant") p) s) as [o1 s1] eqn:Hc.
  assert (s1 = s') as -> by (destruct o1; by injection Ha'). unfold of_pym in Hc.
  destruct p as [bek bvk label m n expiration value rate [|]|label [|]|label bvk [|]|label [kit|] [|]|[|]];
    try (cbn in Hc; injection Hc as <- <-; injection Ha' as <-; left; split; [done|by apply Hno]).
  cbn [call] in Hc. rewrite decide_True in Hc by done. unfold grant, py_bind in Hc.
  destruct (Alice.grant _ _ _ _ _ s) as [r s2] eqn:Hg.
  pose proof Hg as Hp%grant_active_policies. destruct r as [ep|e].
  - injection Hc as <- <-. right. destruct Hp as (Hn & Hs & _).
    exists body, bek, bvk, label, m, n, expiration, value, rate, ep. cbv zeta. split_and!; [done|done|done|done|done|].
    injection Ha' as Hd. destruct (dump _ _) as [j|e]; [|apply Hno; by subst a].
    unfold web_handle_request in Hh. rewrite Ha, <- Hd in Hh. by injection Hh as <-.
  - injection Hc as <- <-. injection Ha' as <-. left. split; [done|by apply Hno].
Qed.

End AliceInterface.
End AliceInterface.

(** ** Enrico *)

Module Enrico.
Section Enrico.
Context {PublicKey MessageKit : Type}.

(** [MessageKit(policy_encrypting_key, plaintext)] of nucypher_core. *)
Variable new_message_kit : PublicKey -> option bytes -> result MessageKit.

(** [Enrico.policy_pubkey] of the attribute [_policy_pubkey]. *)
Definition policy_pubkey (_policy_pubkey : option PublicKey) : result PublicKey :=
  match _policy_pubkey with Some k => Ok k | None => Raise TypeError end.

(** [Enrico.encrypt_message]. *)
Definition encrypt_message (_policy_pubkey : option PublicKey) (plaintext : option bytes) : result MessageKit :=
  let? policy_encrypting_key := policy_pubkey _policy_pubkey in
  new_message_kit policy_encrypting_key plaintext.

(** [EnricoInterface.encrypt_message] as the command line and JSON-RPC call
    it, on a message that its field has read or a file's contents: the kit of
    the response. *)
Definition encrypt_message_endpoint (_policy_pubkey : option PublicKey) (message : option json)
    (file : option (option bytes)) : result MessageKit :=
  let? message := (match message with
                   | None => Ok None
                   | Some JNull => Ok (Some None)
                   | Some j => let? text := Fields.Cleartext.(Fields._deserialize) j in Ok (Some (Some text))
                   end) in
  let? plaintext := Fields.format_method_arguments message file in
  encrypt_message _policy_pubkey plaintext.

(** The web endpoint of [make_web_controller] does not go through the
    interface: [json.loads(request.data)['message']], and the kit of the text. *)
Definition web_message (data : bytes) : result json :=
  let? request_data := Control.loads_bytes data in get_item request_data (to_bytes "message").
Definition web_kit (_policy_pubkey : option PublicKey) (message : json) : result MessageKit :=
  match message with
  | JStr text => encrypt_message _policy_pubkey (Some text)
  | _ => Raise TypeError
  end.
Definition web_encrypt_message `{!Native MessageKit} (_policy_pubkey : option PublicKey) (data : bytes)
    : result Control.reply :=
  match web_message data with
  | Raise e =>
      if catches [KeyError; JSONDecodeError] e then Ok (Control.Reply 400 (Control.ClassNameBody e)) else Raise e
  | Ok message =>
      let? message_kit := web_kit _policy_pubkey message in
      Ok (Control.Reply 200 (Control.JsonBody (Control.assemble_response
            (JObj [(to_bytes "message_kit", JStr (Base64.b64encode (bytes_of message_kit)))]))))
  end.

End Enrico.
End Enrico.

(** ** Bob *)

Module BobInterface.
Section BobInterface.
Context {PublicKey MessageKit VerifiedCapsuleFrag EncryptedTreasureMap TreasureMap Capsule W : Type}.
Context `{!Bob.BobWorld (PublicKey:=PublicKey) (MessageKit:=MessageKit) (VerifiedCapsuleFrag:=VerifiedCapsuleFrag)
  (EncryptedTreasureMap:=EncryptedTreasureMap) (TreasureMap:=TreasureMap) (Capsule:=Capsule) (Cleartext:=bytes) (W:=W)}.

Notation bob := (Bob.bob (TreasureMap:=TreasureMap) (W:=W)).

(** [retrieve_and_decrypt]: the cleartexts of the response data. *)
Definition retrieve_and_decrypt (alice_verifying_key : PublicKey) (message_kits : list MessageKit)
    (encrypted_treasure_map : EncryptedTreasureMap) : PyM bob (list bytes) :=
  plaintexts <- Bob.retrieve_and_decrypt (inl <$> message_kits) alice_verifying_key encrypted_treasure_map None ;;
  py_ret plaintexts.

(** The field [cleartexts] of the response. *)
Fixpoint dump_cleartexts (l : list bytes) : result (list json) :=
  match l with
  | [] => Ok []
  | b :: l' =>
      let? j := Fields.Cleartext.(Fields._serialize) b in
      let? js := dump_cleartexts l' in Ok (j :: js)
  end.

(** *** From Enrico's endpoint to Bob's *)

Variable new_message_kit : PublicKey -> option bytes -> result MessageKit.

(** What a kit that was decrypted was made of, and one result per kit: the
    laws of nucypher_core and of the retrieval client (Retrieval.v). *)
Hypothesis decrypts_what_was_encrypted : forall key p (k : Bob.policy_message_kit) w c w',
  new_message_kit key (Some p) = Ok k.(Kits.message_kit) ->
  Bob.decrypt_message_kit k w = (Ok c, w') -> c = p.
Hypothesis one_result_per_kit : forall tm kits ak w rs w',
  Bob.client_retrieve_cfrags tm kits ak w = (Ok rs, w') -> length rs = length kits.

Lemma normalized_kits tm (kits : list MessageKit) rs :
  length rs = length kits ->
  Kits.message_kit <$> zip_with Kits.with_result (Bob.normalize tm <$> (inl <$> kits)) rs = kits.
Proof.
  revert rs. induction kits as [|k kits IH]; intros [|r rs] Hlen; csimpl; try done.
  f_equal. apply IH. by injection Hlen.
Qed.

Lemma retrieved_kits kits ak etm pk s ks s' :
  Bob.retrieve (inl <$> kits) ak etm pk s = (Ok ks, s') -> Kits.message_kit <$> ks = kits.
Proof.
  unfold Bob.retrieve, py_bind. destruct (Bob.cached_treasure_map _ _ s) as [[tm|] s1]; [|done].
  destruct (Bob.on_world _ s1) as [[rs|] s2] eqn:Hr; [|done]. unfold py_ret. intros [= <- <-].
  apply Bob.on_world_ok in Hr as [Hr _]. apply one_result_per_kit in Hr. apply normalized_kits.
  etransitivity; [exact Hr|]. by rewrite !length_fmap.
Qed.

(** How Enrico was asked to encrypt, and what Bob's response shows of it: of
    a message through the schema its base64, of a message over the web and of
    a file, when it is a text, the text. *)
Inductive sent (key : PublicKey) : json -> MessageKit -> Prop :=
  | By_schema m k :
      m <> [] -> Enrico.encrypt_message_endpoint new_message_kit (Some key) (Some (JStr m)) None = Ok k ->
      sent key (JStr (Base64.b64encode m)) k
  | By_web data text k :
      Enrico.web_message data = Ok (JStr text) -> is_ok (decode text) = true ->
      Enrico.web_kit new_message_kit (Some key) (JStr text) = Ok k -> sent key (JStr text) k
  | By_file content k :
      is_ok (decode content) = true ->
      Enrico.encrypt_message_endpoint new_message_kit (Some key) None (Some (Some content)) = Ok k ->
      sent key (JStr content) k.

(** A kit that was sent decrypts to what its field shows. *)
Lemma sent_decrypts key j (k : Bob.policy_message_kit) w c w' :
  sent key j k.(Kits.message_kit) -> Bob.decrypt_message_kit k w = (Ok c, w') ->
  Fields.Cleartext.(Fields._serialize) c = Ok j.
Proof.
  assert (Htext : forall b, is_ok (decode b) = true -> Fields.Cleartext.(Fields._serialize) b = Ok (JStr b)).
  { intros b Hb. cbn. destruct (decode b) as [t|] eqn:Hd; [|done]. by apply Fields.decode_same in Hd as ->. }
  intros Hs Hc. inversion Hs as [m k' Hm He|data text k' _ Ht He|content k' Ht He]; subst.
  - destruct (Fields.cleartext_of_message m Hm) as [Hfmt Htxt].
    unfold Enrico.encrypt_message_endpoint in He. cbn [Fields.Cleartext Fields._deserialize rbind] in He.
    rewrite Hfmt in He. by apply (decrypts_what_was_encrypted _ _ _ _ _ _ He) in Hc as ->.
  - apply (decrypts_what_was_encrypted _ _ _ _ _ _ He) in Hc as ->. by apply Htext.
  - assert (new_message_kit key (Some content) = Ok k.(Kits.message_kit)) as He' by (by destruct content).
    apply (decrypts_what_was_encrypted _ _ _ _ _ _ He') in Hc as ->. by apply Htext.
Qed.

(** C24.  What was sent to Enrico arrives at Bob's endpoint in order, whenever Bob's
    request returns: a message that went through Enrico's schema in base64, a
    message over the web or a text file as it is; and writing the cleartexts
    into the response does not fail. *)
Theorem messages_reach_bob key (shown : list json) kits ak etm s cleartexts s' :
  Forall2 (sent key) shown kits ->
  retrieve_and_decrypt ak kits etm s = (Ok cleartexts, s') ->
  dump_cleartexts cleartexts = Ok shown.
Proof.
  intros Hsent Hr. unfold retrieve_and_decrypt, Bob.retrieve_and_decrypt, py_bind in Hr.
  destruct (Bob.retrieve _ _ _ _ s) as [[ks|] s1] eqn:Hk; [|done]. apply retrieved_kits in Hk.
  destruct (negb _); [done|]. destruct (Bob.decrypt_all ks s1) as [[cs|] s2] eqn:Hd; [|done].
  unfold py_ret in Hr. injection Hr as <- <-. apply Bob.decrypt_all_spec in Hd.
  clear s1 s2 s. revert shown kits Hsent Hk.
  induction Hd as [|k c ks cs (w & w' & Hc) Hd IH]; intros shown kits Hsent Hk; csimpl in Hk; subst kits.
  { by apply Forall2_nil_inv_r in Hsent as ->. }
  apply Forall2_cons_inv_r in Hsent as (j & shown' & Hj & Hsent & ->).
  cbn [dump_cleartexts]. rewrite (sent_decrypts _ _ _ _ _ _ Hj Hc). cbn [rbind].
  by rewrite (IH shown' _ Hsent eq_refl).
Qed.

End BobInterface.
End BobInterface.

(** ** Evaluated *)

Module InterfacesDemo.
Import Control.Control CharactersDemo.

#[local] Existing Instance CharactersDemo.demo_world.

(** The Alice of CharactersDemo; keys are numbers, Bob is his verifying key. *)
#[local] Instance demo_keys : AliceInterface.AliceKeys (PublicKey:=nat) (W:=nat) (Bob:=nat) (MessageKit:=unit) := {|
  AliceInterface.bob_from_public_keys _ verifying_key := verifying_key;
  AliceInterface.HRAC _ label := label;
  AliceInterface.stamp_key := 7;
  AliceInterface.get_policy_encrypting_key_from_label _ := py_ret 0;
  AliceInterface.decrypt_message_kit _ _ := py_ret [];
  AliceInterface.public_signing_key := py_ret 7;
|}.

Definition demo_params (rate : option (option Z)) : AliceInterface.params (PublicKey:=nat) (MessageKit:=unit) :=
  AliceInterface.PolicyParams 1 2 "records" 1 2 99 None rate [].

(** Every request is for the same policy; the rate is given when the body
    holds one. *)
Definition demo_load (name : bytes) (body : json) (_ : demo_alice)
    : outcome (AliceInterface.params (PublicKey:=nat) (MessageKit:=unit)) :=
  match get_item body (to_bytes "label") with
  | Ok _ => Returned (if decide (name = to_bytes "revoke") then AliceInterface.RevokeParams "records" 2 []
                      else demo_params (match get_item body (to_bytes "rate") with Ok _ => Some None | Raise _ => None end))
  | Raise _ => Threw (Raised InvalidInputData [] [])
  end.

Definition demo_dump (name : bytes)
    (_ : AliceInterface.response (PublicKey:=nat) (EncryptedTreasureMap:=list (string * (nat * nat)) * Z)) : outcome json :=
  Returned (JObj []).

Definition demo_request (text : string) : web_request := WebRequest (ControlDemo.quotes text) None.

#[local] Notation demo_answer name text s :=
  (web_handle_request (Interface0 := AliceInterface.alice_interface demo_load demo_dump (fun _ => [])) (fun _ => [])
     (new_web_controller false) (to_bytes name) (demo_request text) [] s).

Definition status_and_policies (a : outcome reply * demo_alice) : option Z * list string :=
  (match a.1 with Returned r => Some r.(status) | Threw _ => None end, a.2.(Alice.active_policies).*1).

(** A grant, the same grant again, a grant without a label, the creation of a
    policy with a rate, and a revocation that returns. *)
Example demo_alice_answers :
  let granted := (demo_answer "grant" "{'label': 'records'}" (new_alice 2)).2 in
  [status_and_policies (demo_answer "grant" "{'label': 'records'}" (new_alice 2));
   status_and_policies (demo_answer "grant" "{'label': 'records'}" granted);
   status_and_policies (demo_answer "grant" "{}" granted);
   status_and_policies (demo_answer "create_policy" "{'label': 'records', 'rate': null}" granted);
   status_and_policies (demo_answer "revoke" "{'label': 'records'}" granted);
   status_and_policies (demo_answer "revoke" "{'label': 'records'}" (new_alice 2))]
  = [(Some 200%Z, ["records"]); (Some 500%Z, ["records"]); (Some 400%Z, ["records"]); (Some 400%Z, ["records"]);
     (Some 200%Z, []); (Some 500%Z, [])]%string.
Proof. by vm_compute. Qed.

Lemma web_grant_witness :
  exists hrac ep, (demo_answer "grant" "{'label': 'records'}" (new_alice 2)).2.(Alice.active_policies) = [(hrac, ep)].
Proof.
  destruct (AliceInterface.web_grant demo_load demo_dump (fun _ => []) (new_web_controller false)
              (demo_request "{'label': 'records'}") [] (new_alice 2)
              (demo_answer "grant" "{'label': 'records'}" (new_alice 2)).1
              (demo_answer "grant" "{'label': 'records'}" (new_alice 2)).2)
    as [[_ H]|(j & bek & bvk & label & m & n & expiration & value & rate & ep & _ & _ & _ & _ & H & _)].
  - apply surjective_pairing.
  - exfalso. eapply H. vm_compute. reflexivity.
  - eexists _, ep. exact H.
Defined.

(** Kits are pairs of a key and a plaintext; every kit is retrieved from one node. *)
#[local] Instance demo_bob : Bob.BobWorld (PublicKey:=nat) (MessageKit:=nat * bytes) (VerifiedCapsuleFrag:=nat)
    (EncryptedTreasureMap:=Z) (TreasureMap:=Z) (Capsule:=nat) (Cleartext:=bytes) (W:=unit) := {
  Bob.bytes_hash := id;
  Bob.decrypt_treasure_map := fun etm _ => py_ret etm;
  Bob.map_encrypting_key := fun _ => 0;
  Bob.map_threshold := id;
  Bob.kit_capsule := fst;
  Bob.to_canonical_address := id;
  Bob.client_retrieve_cfrags := fun _ kits _ => py_ret ((fun _ => [("a"%string, 7)]) <$> kits);
  Bob.decrypt_message_kit := fun k => py_ret k.(Kits.message_kit).2;
}.

Definition demo_new_kit (key : nat) (plaintext : option bytes) : result (nat * bytes) :=
  match plaintext with Some p => Ok (key, p) | None => Raise TypeError end.

(** A message through the schema and one over the web. *)
Definition demo_kits : list (nat * bytes) := [(5, to_bytes "UGVhY2U="); (5, to_bytes "Peace")].

Lemma messages_reach_bob_witness :
  BobInterface.dump_cleartexts
    (match (BobInterface.retrieve_and_decrypt 0 demo_kits 1%Z (Bob.Mk_bob [] tt)).1 with
     | Ok l => l | Raise _ => [] end) = Ok [JStr (to_bytes "UGVhY2U="); JStr (to_bytes "Peace")].
Proof.
  apply (BobInterface.messages_reach_bob demo_new_kit) with (key := 5)
    (ak := 0) (kits := demo_kits) (etm := 1%Z) (s := Bob.Mk_bob [] tt)
    (s' := (BobInterface.retrieve_and_decrypt 0 demo_kits 1%Z (Bob.Mk_bob [] tt)).2).
  - intros key p k w c w' [= Hk] [= <- <-]. by rewrite <-Hk.
  - intros tm kits ak w rs w' [= <- <-]. by rewrite length_fmap.
  - constructor; [|constructor; [|constructor]].
    + by apply (BobInterface.By_schema demo_new_kit 5 (to_bytes "Peace")).
    + by apply (BobInterface.By_web demo_new_kit 5 (ControlDemo.quotes "{'message': 'Peace'}") (to_bytes "Peace")).
  - vm_compute. reflexivity.
Defined.

End InterfacesDemo.
