(* ===== verification/NodeLifecycle.v ===== *)
(** * The life of a node

    Ursula of characters/lawful.py: how a node is constructed, which services
    [run] starts, what [stop] stops, the caches of its metadata and operator
    address, and the nodes that are found by a URI.  The services themselves
    are those of LearningLoop, Trackers and Token; here each is started and
    stopped through the class [NodeServices]. *)

From Stdlib Require Import Ascii.
From S2P Require Import Prelude Text Networking.

Inductive service := NodeDiscovery | AvailabilityChecks | WorkTracking | OperatorBonded | PrometheusExporter | Console.
#[global] Instance service_eq_dec : EqDecision service.
Proof. solve_decision. Defined.

(** What a node calls while it starts and stops. *)
Class NodeServices (W : Type) := {
  start_service : service -> bool -> PyM W unit;        (* start(now=eager) *)
  stop_service : service -> PyM W unit;
  interface_initialized : W -> bool;                     (* BlockchainInterfaceFactory *)
  initialize_interface : PyM W unit;
  block_until_ready : PyM W unit;
  get_staking_provider_address : PyM W unit;
  local_operator_address : PyM W string;
  work_is_needed : PyM W bool;                           (* get_work_is_needed_check()(self) *)
  prepare_server : PyM W unit;                           (* get_deployer, addServices, catalogServers *)
  deployer_run : PyM W unit;
  reactor_run : PyM W unit;
  reactor_stop : PyM W unit;
}.

Module Ursula.
Section Ursula.
Context {W : Type} `{!NodeServices W}.

(** What [run] and [stop] read of the node, and the trackers that it has: a
    partially initialized node lacks some. *)
Record ursula := Ursula {
  federated_only : bool;
  lonely : bool;
  availability_check : bool;
  rest_host : bytes;
  has_availability_tracker : bool;
  has_work_tracker : bool;
  has_bonded_tracker : bool;
}.

(** The arguments of [run]; whether there is an emitter and a configuration
    for Prometheus. *)
Record run_args := RunArgs {
  emitter : bool;
  discovery : bool;
  availability : bool;
  worker : bool;
  interactive : bool;
  hendrix : bool;
  start_reactor : bool;
  prometheus_config : bool;
  preflight : bool;
  block : bool;                     (* block_until_ready *)
  eager : bool;
  start_the_service : bool;         (* start_service *)
}.

(** [if emitter: emitter.message(...)] says something, and nothing else;
    without the test it raises when there is none. *)
Definition unguarded_message (a : run_args) : PyM W unit :=
  if a.(emitter) then _ <- local_operator_address ;; py_ret tt else raise AttributeError.

(** [__preflight]. *)
Definition __preflight (u : ursula) : PyM W unit := lift (ExternalIp.validate_operator_ip u.(rest_host)).

Definition connect_to_provider (u : ursula) : PyM W unit :=
  if u.(federated_only) then py_ret tt
  else initialized <- gets interface_initialized ;;
       if initialized : bool then py_ret tt else initialize_interface.

(** The block of a worker that is not federated. *)
Definition start_working (a : run_args) : PyM W unit :=
  (if a.(block) then block_until_ready else get_staking_provider_address) ;;;
  unguarded_message a ;;;
  needed <- work_is_needed ;;
  if needed : bool then start_service WorkTracking true else py_ret tt.

(** The server, and the reactor it blocks in. *)
Definition serve (a : run_args) : PyM W unit :=
  if negb a.(start_the_service) then py_ret tt
  else if a.(hendrix) then
    prepare_server ;;; if a.(start_reactor) then deployer_run else py_ret tt
  else if a.(start_reactor) then reactor_run else py_ret tt.

(** [run]. *)
Definition run (u : ursula) (a : run_args) : PyM W unit :=
  connect_to_provider u ;;;
  (if a.(preflight) then __preflight u else py_ret tt) ;;;
  (if a.(discovery) && negb u.(lonely) then start_service NodeDiscovery a.(eager) else py_ret tt) ;;;
  (if u.(availability_check) || a.(availability) then start_service AvailabilityChecks a.(eager) else py_ret tt) ;;;
  (if a.(worker) && negb u.(federated_only) then start_working a else py_ret tt) ;;;
  (if negb u.(federated_only) then start_service OperatorBonded a.(eager) else py_ret tt) ;;;
  (if a.(prometheus_config) then start_service PrometheusExporter true else py_ret tt) ;;;
  (if a.(interactive) && a.(emitter) then start_service Console true else py_ret tt) ;;;
  serve a.

(** [self.tracker.stop()] of a tracker that the node may lack. *)
Definition stop_tracker (has : bool) (sv : service) : PyM W unit :=
  if has then stop_service sv else raise AttributeError.

(** [stop]: under [contextlib.suppress(AttributeError)] the first
    [AttributeError] ends the block. *)
Definition stop (u : ursula) (halt_reactor halt_operator_bonded_tracker : bool) : PyM W unit :=
  try_except
    (stop_tracker u.(has_availability_tracker) AvailabilityChecks ;;;
     stop_service NodeDiscovery ;;;
     if u.(federated_only) then py_ret tt
     else stop_tracker u.(has_work_tracker) WorkTracking ;;;
          if halt_operator_bonded_tracker then stop_tracker u.(has_bonded_tracker) OperatorBonded else py_ret tt)
    [AttributeError] (fun _ => py_ret tt) ;;;
  if halt_reactor then reactor_stop else py_ret tt.

End Ursula.

(** ** What [run] and [stop] call *)

(** A call on the services; the question whether there is work is one with
    its answer. *)
Inductive call :=
  | Connects
  | WaitsUntilBonded
  | ReadsProvider
  | ReadsOperatorAddress
  | AsksForWork (answer : result bool)
  | Starts (sv : service) (now : bool)
  | Stops (sv : service)
  | PreparesServer
  | RunsDeployer
  | RunsReactor
  | StopsReactor.

Section Recording.
Context {W : Type} `{!NodeServices W}.

(** The same services, with a record of the calls. *)
Definition recorded {A} (c : result A -> call) (m : PyM W A) : PyM (W * list call) A :=
  fun s => let '(r, w) := m s.1 in (r, (w, s.2 ++ [c r])).

Definition recording : NodeServices (W * list call) := {|
  start_service sv now := recorded (fun _ => Starts sv now) (start_service sv now);
  stop_service sv := recorded (fun _ => Stops sv) (stop_service sv);
  interface_initialized s := interface_initialized s.1;
  initialize_interface := recorded (fun _ => Connects) initialize_interface;
  block_until_ready := recorded (fun _ => WaitsUntilBonded) block_until_ready;
  get_staking_provider_address := recorded (fun _ => ReadsProvider) get_staking_provider_address;
  local_operator_address := recorded (fun _ => ReadsOperatorAddress) local_operator_address;
  work_is_needed := recorded AsksForWork work_is_needed;
  prepare_server := recorded (fun _ => PreparesServer) prepare_server;
  deployer_run := recorded (fun _ => RunsDeployer) deployer_run;
  reactor_run := recorded (fun _ => RunsReactor) reactor_run;
  reactor_stop := recorded (fun _ => StopsReactor) reactor_stop;
|}.

(** Recording changes neither the result nor the world. *)
Definition mirrors {A} (m : PyM W A) (m' : PyM (W * list call) A) : Prop :=
  forall w l, (m' (w, l)).1 = (m w).1 /\ (m' (w, l)).2.1 = (m w).2.

Lemma mirrors_recorded {A} (c : result A -> call) m : mirrors m (recorded c m).
Proof. intros w l. unfold recorded. cbn. by destruct (m w). Qed.
Lemma mirrors_ret {A} (x : A) : mirrors (py_ret x) (py_ret x).
Proof. done. Qed.
Lemma mirrors_raise {A} e : mirrors (raise e : PyM W A) (raise e).
Proof. done. Qed.
Lemma mirrors_lift {A} (r : result A) : mirrors (lift r) (lift r).
Proof. done. Qed.

Lemma mirrors_bind {A B} (m : PyM W A) m' (f : A -> PyM W B) f' :
  mirrors m m' -> (forall x, mirrors (f x) (f' x)) -> mirrors (py_bind m f) (py_bind m' f').
Proof.
  intros Hm Hf w l. specialize (Hm w l). unfold py_bind.
  destruct (m w) as [r w1], (m' (w, l)) as [r' [w1' l1]]. cbn in Hm. destruct Hm as [-> ->].
  destruct r as [x|e]; [apply Hf|done].
Qed.

Lemma mirrors_if {A} (b : bool) (m n : PyM W A) m' n' :
  mirrors m m' -> mirrors n n' -> mirrors (if b then m else n) (if b then m' else n').
Proof. by destruct b. Qed.

Lemma mirrors_initialized : mirrors (gets interface_initialized) (gets (@interface_initialized _ recording)).
Proof. done. Qed.

Lemma mirrors_run u a : mirrors (run u a) (@run _ recording u a).
Proof.
  unfold run, connect_to_provider, __preflight, start_working, unguarded_message, serve.
  repeat (first [ apply mirrors_ret | apply mirrors_raise | apply mirrors_lift | apply mirrors_initialized
                | apply mirrors_recorded | apply mirrors_if | apply mirrors_bind; [|intros ?] ]).
Qed.

(** What a program adds to the record, given its result. *)
Definition obeys {A} (m : PyM (W * list call) A) (P : list call -> result A -> Prop) : Prop :=
  forall w l r w' l', m (w, l) = (r, (w', l')) -> exists k, l' = l ++ k /\ P k r.

(** Exactly the calls of [c], or, when one of them raises, the first of them. *)
Definition follows {A} (c k : list call) (r : result A) : Prop :=
  match r with Ok _ => k = c | Raise _ => k `prefix_of` c end.

Lemma obeys_ret {A} (x : A) : obeys (py_ret x) (follows []).
Proof. intros w l r w' l' [= <- <- <-]. exists []. by rewrite app_nil_r. Qed.

Lemma obeys_raise {A} e c : obeys (raise e : PyM _ A) (follows c).
Proof. intros w l r w' l' [= <- <- <-]. exists []. rewrite app_nil_r. split; [done|]. apply prefix_nil. Qed.

Lemma obeys_asked {A} (c : result A -> call) (m : PyM W A) : obeys (recorded c m) (fun k r => k = [c r]).
Proof.
  intros w l r w' l'. unfold recorded. cbn. destruct (m w) as [r1 w1]. intros [= <- <- <-]. by exists [c r1].
Qed.

Lemma obeys_if {A} (b : bool) (m n : PyM (W * list call) A) c d :
  obeys m (follows c) -> obeys n (follows d) -> obeys (if b then m else n) (follows (if b then c else d)).
Proof. by destruct b. Qed.

Lemma obeys_bind {A B} (m : PyM (W * list call) A) (f : A -> PyM (W * list call) B) P Q :
  obeys m P -> (forall x, obeys (f x) (Q x)) ->
  obeys (py_bind m f) (fun k r =>
    (exists e, r = Raise e /\ P k (Raise e)) \/ exists x k1 k2, k = k1 ++ k2 /\ P k1 (Ok x) /\ Q x k2 r).
Proof.
  intros Hm Hf w l r w' l'. unfold py_bind. destruct (m (w, l)) as [[x|e] [w1 l1]] eqn:H1;
    apply Hm in H1 as (k1 & -> & Hk1).
  - intros (k2 & -> & Hk2)%Hf. exists (k1 ++ k2). rewrite app_assoc. split; [done|]. right. by exists x, k1, k2.
  - intros [= <- <- <-]. exists k1. split; [done|]. left. by exists e.
Qed.

Lemma obeys_weaken {A} (m : PyM (W * list call) A) (P Q : list call -> result A -> Prop) :
  obeys m P -> (forall k r, P k r -> Q k r) -> obeys m Q.
Proof. intros Hm Himp w l r w' l' (k & -> & Hk)%Hm. exists k. split; [done|]. by apply Himp. Qed.

Lemma obeys_recorded {A} (c : call) (m : PyM W A) : obeys (recorded (fun _ => c) m) (follows [c]).
Proof. eapply obeys_weaken; [apply obeys_asked|]. intros k [x|e] ->; cbn; [done|reflexivity]. Qed.

Lemma obeys_then {A B} (m : PyM (W * list call) A) (n : PyM (W * list call) B) c d :
  obeys m (follows c) -> obeys n (follows d) -> obeys (m ;;; n) (follows (c ++ d)).
Proof.
  intros Hm Hn. eapply obeys_weaken; [apply (obeys_bind _ _ _ (fun _ => follows d) Hm); by intros|].
  intros k r [(e & -> & Hk)|(x & k1 & k2 & -> & Hk1 & Hk2)]; cbn in *; [by apply prefix_app_r|].
  subst k1. unfold follows in *; destruct r; [by subst|by apply prefix_app].
Qed.

End Recording.

(** ** What a node does when it runs *)

Section Services.
Context {W : Type} `{!NodeServices W}.
Implicit Types (w : W) (u : ursula) (a : run_args).

(** The host of a node that checks it before its services start, and that is
    not a public address. *)
Definition refused u a : bool :=
  a.(preflight) && match ExternalIp.validate_operator_ip u.(rest_host) with Ok _ => false | Raise _ => true end.

(** A worker of a network with contracts. *)
Definition works u a : bool := a.(worker) && negb u.(federated_only).

Definition when (b : bool) (c : call) : list call := if b then [c] else [].

(** The first services; those that come after the worker's; the server. *)
Definition first_services u a : list call :=
  when (a.(discovery) && negb u.(lonely)) (Starts NodeDiscovery a.(eager)) ++
  when (u.(availability_check) || a.(availability)) (Starts AvailabilityChecks a.(eager)).

Definition serving a : list call :=
  if negb a.(start_the_service) then []
  else when a.(hendrix) PreparesServer ++
       when a.(start_reactor) (if a.(hendrix) then RunsDeployer else RunsReactor).

Definition last_services u a : list call :=
  when (negb u.(federated_only)) (Starts OperatorBonded a.(eager)) ++
  when a.(prometheus_config) (Starts PrometheusExporter true) ++
  when (a.(interactive) && a.(emitter)) (Starts Console true) ++
  serving a.

(** What a worker calls besides, when there is work as [answer] says. *)
Definition worker_calls a (answer : result bool) : list call :=
  (if a.(block) then WaitsUntilBonded else ReadsProvider) ::
  if negb a.(emitter) then []
  else ReadsOperatorAddress :: AsksForWork answer ::
       match answer with Ok needed => when needed (Starts WorkTracking true) | Raise _ => [] end.

(** All that a run calls, in order: the blockchain is connected to first,
    unless it is [connected] already. *)
Definition services_calls u a (answer : result bool) : list call :=
  if refused u a then []
  else first_services u a ++ (if works u a then worker_calls a answer else []) ++ last_services u a.

Definition schedule u a (connected : bool) (answer : result bool) : list call :=
  when (negb u.(federated_only) && negb connected) Connects ++ services_calls u a answer.

(** What a run that returns has had. *)
Definition completes u a (answer : result bool) : Prop :=
  refused u a = false /\ (works u a = true -> a.(emitter) = true /\ exists needed, answer = Ok needed).

Lemma start_if_follows (c : bool) sv now :
  obeys (if c then @start_service _ recording sv now else py_ret tt) (follows (when c (Starts sv now))).
Proof. apply obeys_if; [apply obeys_recorded|apply obeys_ret]. Qed.

Lemma serve_follows a : obeys (@serve _ recording a) (follows (serving a)).
Proof.
  unfold serve, serving. apply obeys_if; [apply obeys_ret|]. unfold when.
  destruct (hendrix a); [apply obeys_then; [apply obeys_recorded|]|];
    (apply obeys_if; [apply obeys_recorded|apply obeys_ret]).
Qed.

(** The last statements of [run]. *)
Lemma last_services_follow u a :
  obeys ((if negb u.(federated_only) then @start_service _ recording OperatorBonded a.(eager) else py_ret tt) ;;;
         (if a.(prometheus_config) then @start_service _ recording PrometheusExporter true else py_ret tt) ;;;
         (if a.(interactive) && a.(emitter) then @start_service _ recording Console true else py_ret tt) ;;;
         @serve _ recording a) (follows (last_services u a)).
Proof. unfold last_services. repeat (apply obeys_then; [apply start_if_follows|]). apply serve_follows. Qed.

(** The calls [c], given an answer, and what a return says of that answer. *)
Definition answered (c : result bool -> list call) (Q : result bool -> Prop) (k : list call) (r : result unit) : Prop :=
  exists answer, follows (c answer) k r /\ (r = Ok tt -> Q answer).

Lemma answered_failed c Q k e answer : k `prefix_of` c answer -> answered c Q k (Raise e).
Proof. intros Hk. by exists answer. Qed.

Lemma obeys_first {A} (m : PyM (W * list call) A) n c d Q :
  obeys m (follows c) -> obeys n (answered d Q) -> obeys (m ;;; n) (answered (fun answer => c ++ d answer) Q).
Proof.
  intros Hm Hn. eapply obeys_weaken; [apply (obeys_bind _ _ _ (fun _ => answered d Q) Hm); by intros|].
  intros k r [(e & -> & Hk)|(x & k1 & k2 & -> & Hk1 & answer & Hk2 & HQ)].
  - apply (answered_failed _ _ _ _ (Ok true)). by apply prefix_app_r.
  - exists answer. split; [|done]. cbn in Hk1. subst k1. unfold follows in *; destruct r; [by subst|by apply prefix_app].
Qed.

Lemma start_working_obeys a :
  obeys (@start_working _ recording a)
    (answered (worker_calls a) (fun answer => a.(emitter) = true /\ exists needed, answer = Ok needed)).
Proof.
  intros w l r w' l'. unfold start_working, worker_calls. unfold py_bind at 1.
  assert (forall s, (if block a then @block_until_ready _ recording else @get_staking_provider_address _ recording) s =
    recorded (fun _ => if a.(block) then WaitsUntilBonded else ReadsProvider)
      (if block a then block_until_ready else get_staking_provider_address) s) as -> by by destruct (block a).
  unfold recorded at 1. cbn [fst snd].
  destruct ((if block a then block_until_ready else get_staking_provider_address) w) as [[[]|e] w1].
  2: { intros [= <- <- <-]. eexists. split; [done|]. apply (answered_failed _ _ _ _ (Ok true)). by eexists. }
  unfold unguarded_message. destruct (emitter a); cbn [negb].
  2: { intros [= <- <- <-]. eexists. split; [done|]. by apply (answered_failed _ _ _ _ (Ok true)). }
  cbn [local_operator_address work_is_needed start_service recording]. unfold py_bind, py_ret, recorded. cbn [fst snd].
  destruct (local_operator_address w1) as [[o|e] w2].
  2: { intros [= <- <- <-]. rewrite <- app_assoc. eexists. split; [done|].
       apply (answered_failed _ _ _ _ (Ok true)). by eexists. }
  cbn [fst snd]. destruct (work_is_needed w2) as [[[|]|e] w3].
  1: destruct (start_service WorkTracking true _) as [[[]|e] w4]; cbn [fst snd].
  all: intros [= <- <- <-]; rewrite <- !app_assoc; eexists; (split; [done|]).
  - exists (Ok true). split; [done|]. by eauto.
  - by apply (answered_failed _ _ _ _ (Ok true)).
  - exists (Ok false). split; [done|]. by eauto.
  - by apply (answered_failed _ _ _ _ (Raise e)).
Qed.

Lemma work_obeys u a (m : PyM (W * list call) unit) :
  obeys m (follows (last_services u a)) ->
  obeys ((if a.(worker) && negb u.(federated_only) then @start_working _ recording a else py_ret tt) ;;; m)
    (answered (fun answer => (if works u a then worker_calls a answer else []) ++ last_services u a)
       (fun answer => works u a = true -> a.(emitter) = true /\ exists needed, answer = Ok needed)).
Proof.
  intros Hm. change (worker a && negb (federated_only u)) with (works u a). destruct (works u a).
  - eapply obeys_weaken; [apply (obeys_bind _ _ _ (fun _ => follows (last_services u a)) (start_working_obeys a)); by intros|].
    intros k r [(e & -> & answer & Hk & _)|([] & k1 & k2 & -> & (answer & -> & Hok) & Hk2)]; exists answer; (split; [|by auto]).
    + by apply prefix_app_r.
    + unfold follows in *; destruct r; [by subst|by apply prefix_app].
  - eapply obeys_weaken; [apply obeys_then; [apply obeys_ret|exact Hm]|]. intros k r Hk. by exists (Ok true).
Qed.

(** Everything after the connection. *)
Lemma services_obey u a :
  obeys ((if a.(preflight) then @__preflight (W * list call) u else py_ret tt) ;;;
         (if a.(discovery) && negb u.(lonely) then @start_service _ recording NodeDiscovery a.(eager) else py_ret tt) ;;;
         (if u.(availability_check) || a.(availability)
          then @start_service _ recording AvailabilityChecks a.(eager) else py_ret tt) ;;;
         (if a.(worker) && negb u.(federated_only) then @start_working _ recording a else py_ret tt) ;;;
         (if negb u.(federated_only) then @start_service _ recording OperatorBonded a.(eager) else py_ret tt) ;;;
         (if a.(prometheus_config) then @start_service _ recording PrometheusExporter true else py_ret tt) ;;;
         (if a.(interactive) && a.(emitter) then @start_service _ recording Console true else py_ret tt) ;;;
         @serve _ recording a)
    (answered (services_calls u a) (completes u a)).
Proof.
  pose proof (work_obeys u a _ (last_services_follow u a)) as Hwork.
  pose proof (obeys_first _ _ _ _ _ (start_if_follows (a.(discovery) && negb u.(lonely)) NodeDiscovery a.(eager))
    (obeys_first _ _ _ _ _ (start_if_follows (u.(availability_check) || a.(availability)) AvailabilityChecks a.(eager)) Hwork)) as Hall.
  unfold services_calls, completes, first_services, refused. intros w l r w' l'. unfold py_bind at 1.
  assert ((if preflight a then @__preflight (W * list call) u else py_ret tt) (w, l) =
    (if a.(preflight) then ExternalIp.validate_operator_ip u.(rest_host) else Ok tt, (w, l))) as -> by by destruct (preflight a).
  destruct (preflight a); cbn [andb]; [destruct (ExternalIp.validate_operator_ip _) as [[]|e]|].
  2: { intros [= <- <- <-]. exists []. rewrite app_nil_r. split; [done|]. by apply (answered_failed _ _ _ _ (Ok true)). }
  all: intros (k & -> & answer & Hk & Hok)%Hall; exists k; (split; [done|]); exists answer; rewrite <- app_assoc;
    (split; [exact Hk|by auto]).
Qed.

Lemma connect_calls u w r w' l :
  @connect_to_provider _ recording u (w, []) = (r, (w', l)) ->
  l = when (negb u.(federated_only) && negb (interface_initialized w)) Connects.
Proof.
  unfold connect_to_provider, py_bind, gets, py_ret. destruct (federated_only u); [by intros; simplify_eq|].
  cbn [interface_initialized initialize_interface recording fst].
  destruct (interface_initialized w); [by intros; simplify_eq|].
  unfold recorded. cbn [fst snd]. destruct (initialize_interface w). by intros; simplify_eq.
Qed.

(** C28.  What a run starts, on every branch and whatever the services do: it
    calls what [schedule] lists, in that order, and when it raises it has
    called the first of them and no other.  Discovery is started when it is
    asked for and the node is not lonely; the work tracker of a worker with
    contracts exactly when the node, asked after it is bonded, answers that
    there is work; the bonded tracker on every network with contracts; the
    server and the reactor come last.  A run that returns has
    passed the check of its address and, for a worker of a network with
    contracts, has had an emitter and an answer: the message with the
    operator address is sent without a test, so that without an emitter [run]
    never returns.  Recording the calls does not change the run. *)
Theorem run_starts_what_is_wanted u a w :
  let '(r, (w', calls)) := @run _ recording u a (w, []) in
  run u a w = (r, w') /\
  exists answer, follows (schedule u a (interface_initialized w) answer) calls r /\ (r = Ok tt -> completes u a answer).
Proof.
  destruct (@run _ recording u a (w, [])) as [r [w' calls]] eqn:Hrun.
  pose proof (mirrors_run u a w []) as Hm. rewrite Hrun in Hm. cbn in Hm. destruct Hm as [Hr Hw].
  split; [rewrite Hr, Hw; by destruct (run u a w)|]. clear Hr Hw. revert Hrun. unfold run. unfold py_bind at 1.
  destruct (@connect_to_provider _ recording u (w, [])) as [r1 [w1 l1]] eqn:Hc.
  apply connect_calls in Hc as ->. unfold schedule. destruct r1 as [[]|e].
  - intros (k & -> & answer & Hk & Hok)%services_obey. exists answer. split; [|done].
    unfold follows in *; destruct r; [by subst|by apply prefix_app].
  - intros [= <- <- <-]. exists (Ok true). split; [|done]. by apply prefix_app_r.
Qed.

(** The services that [stop] goes through, in this order. *)
Definition stopped_services : list service := [AvailabilityChecks; NodeDiscovery; WorkTracking; OperatorBonded].

(** Stopping one service after the other: how far it got. *)
Lemma stop_each l (s : W * list call) :
  exists n r w', for_each l (@stop_service _ recording) s = (r, (w', s.2 ++ (Stops <$> take (S n) l))) /\
    match l !! n with
    | None => r = Ok tt
    | Some sv => exists w1 e, stop_service sv w1 = (Raise e, w') /\ r = Raise e
    end.
Proof.
  revert s. induction l as [|sv l IH]; intros [w k]; [exists 0, (Ok tt), w; by rewrite app_nil_r|].
  cbn [for_each]. unfold py_bind. cbn [stop_service recording]. unfold recorded. cbn [fst snd].
  destruct (stop_service sv w) as [[[]|e] w1] eqn:Hst.
  - destruct (IH (w1, k ++ [Stops sv])) as (n & r & w' & Hr & Hn). exists (S n), r, w'. split; [|done].
    cbn [recording stop_service] in Hr. unfold recorded in Hr. rewrite Hr. cbn [snd]. by rewrite <- app_assoc.
  - exists 0, (Raise e), w1. split; [done|]. by exists w, e.
Qed.

(** Stopping a complete node stops its services in order.  The first one that
    raises leaves those after it running; an [AttributeError] passes for
    success, every other exception - the learner's assertion, when it was
    stopped before - comes out of [stop]. *)
Theorem stop_spec u w :
  u.(federated_only) = false -> u.(has_availability_tracker) = true -> u.(has_work_tracker) = true ->
  u.(has_bonded_tracker) = true ->
  exists n r w', @stop _ recording u false true (w, []) = (r, (w', Stops <$> take (S n) stopped_services)) /\
    match stopped_services !! n with
    | None => r = Ok tt
    | Some sv => exists w1 e, stop_service sv w1 = (Raise e, w') /\
        r = if issubclass e AttributeError then Ok tt else Raise e
    end.
Proof.
  intros Hfed Ha Hw Hb. destruct (stop_each stopped_services (w, [])) as (n & r & w' & Hr & Hn).
  assert (Heq : @stop _ recording u false true (w, []) =
    match for_each stopped_services (@stop_service _ recording) (w, []) with
    | (Raise e, w') => if issubclass e AttributeError then (Ok tt, w') else (Raise e, w')
    | ok => ok
    end).
  { unfold stop. rewrite Hfed, Ha, Hw, Hb. cbn [stop_tracker for_each stopped_services].
    unfold py_bind, try_except, catches, py_ret. cbn [existsb].
    repeat (match goal with |- context [@stop_service _ recording ?sv ?x] =>
              destruct (@stop_service _ recording sv x) as [[[]|e] ?] end;
      [|rewrite orb_false_r; by destruct (issubclass e AttributeError)]). done. }
  rewrite Hr in Heq. exists n. destruct (stopped_services !! n) as [sv|].
  - destruct Hn as (w1 & e & He & ->). rewrite Heq. exists (if issubclass e AttributeError then Ok tt else Raise e), w'.
    split; [by destruct (issubclass e AttributeError)|by exists w1, e].
  - subst r. rewrite Heq. by exists (Ok tt), w'.
Qed.

End Services.
End Ursula.

(** ** Construction *)

(** What the constructor calls: the base classes, the powers of the node and
    its server.  [stop_partial] is [self.stop(halt_reactor=False)]. *)
Class NodeConstruction (W Payment Power Signature Certificate : Type) := {
  character_init : PyM W unit;
  set_federated_mode : bool -> PyM W unit;
  make_trackers : bool -> PyM W unit;
  free_reencryptions : Payment;
  consume_transacting_power : PyM W unit;
  sign_stamp : PyM W (Signature * string);
  operator_init : PyM W unit;
  stop_partial : PyM W unit;
  hosting_power : W -> option Power;                  (* power_ups(TLSHostingPower) *)
  has_keystore : W -> bool;
  derive_hosting_power : bytes -> PyM W Power;         (* keystore.derive_crypto_power *)
  generate_hosting_power : bytes -> PyM W Power;       (* HostingKeypair(generate_certificate=True) *)
  consume_hosting_power : Power -> PyM W unit;
  make_rest_app : PyM W unit;
  certificate_of : Power -> Certificate;
  teacher_init : Certificate -> PyM W unit;
}.

Module Construction.
Section Construction.
Context {W Payment Power Signature Certificate : Type}.
Context `{!NodeConstruction W Payment Power Signature Certificate}.

(** The arguments that the constructor looks at. *)
Record init_args := InitArgs {
  is_me : bool;
  has_metadata : bool;
  i_federated_only : bool;
  has_eth_provider_uri : bool;
  payment_method : option Payment;
  host : bytes;
  i_certificate : Certificate;
}.

(** What it leaves in the node: the payment method, and the signature and
    account that [__substantiate_stamp] sets. *)
Record node := Node {
  n_payment : option Payment;
  n_evidence : option (Signature * string);
  n_certificate : Certificate;
}.

(** [__get_hosting_power]. *)
Definition __get_hosting_power (h : bytes) : PyM W Power := fun w =>
  match hosting_power w with
  | Some p => (Ok p, w)
  | None =>
      (p <- (if has_keystore w then derive_hosting_power h else generate_hosting_power h) ;;
       consume_hosting_power p ;;; py_ret p) w
  end.

(** [_make_local_server]. *)
Definition _make_local_server (h : bytes) : PyM W Power := make_rest_app ;;; __get_hosting_power h.

(** [try: Operator.__init__(...) except ...: self.stop(...); raise]. *)
Definition operator_init_or_stop : PyM W unit := fun w =>
  match operator_init w with
  | (Raise e, w') =>
      if catches [Exception; ActorError] e then
        match stop_partial w' with
        | (Ok _, w'') => (Raise e, w'')
        | (Raise e', w'') => (Raise e', w'')
        end
      else (Raise e, w')
  | ok => ok
  end.

(** [Ursula.__init__]. *)
Definition ursula_init (a : init_args) : PyM W node :=
  character_init ;;;
  if a.(is_me) then
    (if a.(has_metadata) then raise ValueError else py_ret tt) ;;;
    set_federated_mode a.(i_federated_only) ;;;
    make_trackers (negb a.(i_federated_only)) ;;;
    let payment := match a.(payment_method) with
                   | None => if a.(i_federated_only) then Some free_reencryptions else None
                   | p => p
                   end in
    evidence <- (if a.(i_federated_only) then py_ret None
                 else
                   (if negb a.(has_eth_provider_uri) then raise ValueError else py_ret tt) ;;;
                   (if bool_decide (is_Some payment) then py_ret tt else raise ValueError) ;;;
                   consume_transacting_power ;;;
                   evidence <- sign_stamp ;;
                   operator_init_or_stop ;;;
                   py_ret (Some evidence)) ;;
    p <- _make_local_server a.(host) ;;
    teacher_init (certificate_of p) ;;;
    py_ret (Node payment evidence (certificate_of p))
  else
    teacher_init a.(i_certificate) ;;;
    py_ret (Node None None a.(i_certificate)).

(** A local node is constructed only without metadata of its own, and always
    with a payment method: a federated one gets the free one for lack of
    another and has no evidence of an operator; any other needs a provider and
    a payment method and is constructed only after its operator signed the
    stamp and its [Operator] part was initialized.  Its certificate is the one
    of its hosting power. *)
Theorem local_node_is_complete a w n w' :
  a.(is_me) = true -> ursula_init a w = (Ok n, w') ->
  a.(has_metadata) = false /\ is_Some n.(n_payment) /\
  (a.(payment_method) <> None -> n.(n_payment) = a.(payment_method)) /\
  (exists p h w0 w1, __get_hosting_power h w0 = (Ok p, w1) /\ n.(n_certificate) = certificate_of p) /\
  if a.(i_federated_only) then
    n.(n_evidence) = None /\ (a.(payment_method) = None -> n.(n_payment) = Some free_reencryptions)
  else a.(has_eth_provider_uri) = true /\ is_Some a.(payment_method) /\
       exists evidence w1 w2 w3, n.(n_evidence) = Some evidence /\ sign_stamp w1 = (Ok evidence, w2) /\
         operator_init w2 = (Ok tt, w3).
Proof.
  intros Hme. unfold ursula_init. rewrite Hme. intros ([] & w1 & _ & Hr)%py_bind_returned.
  apply py_bind_returned in Hr as ([] & w2 & H2 & Hr). destruct (has_metadata a); [done|].
  apply py_bind_returned in Hr as ([] & w3 & _ & Hr). apply py_bind_returned in Hr as ([] & w4 & _ & Hr).
  apply py_bind_returned in Hr as (evidence & w5 & H5 & Hr). apply py_bind_returned in Hr as (p & w6 & H6 & Hr).
  apply py_bind_returned in Hr as ([] & w7 & _ & [= <- <-]). cbn [n_payment n_evidence n_certificate].
  apply py_bind_returned in H6 as ([] & w5' & _ & H6).
  assert (Hcert : exists p0 h w0 w1, __get_hosting_power h w0 = (Ok p0, w1) /\ certificate_of p = certificate_of p0)
    by (by exists p, (host a), w5', w6).
  destruct (i_federated_only a).
  - injection H5 as <- <-. destruct (payment_method a) as [pm|]; (split_and!; eauto; done).
  - apply py_bind_returned in H5 as ([] & v1 & Hv1 & H5). destruct (has_eth_provider_uri a); [|done].
    apply py_bind_returned in H5 as ([] & v2 & Hv2 & H5).
    apply py_bind_returned in H5 as ([] & v3 & _ & H5).
    apply py_bind_returned in H5 as (ev & v4 & Hs & H5).
    apply py_bind_returned in H5 as ([] & v5 & Ho & [= <- <-]).
    unfold operator_init_or_stop in Ho.
    destruct (operator_init v4) as [[[]|e] v6] eqn:Hop;
      [|destruct (catches _ e); [destruct (stop_partial v6) as [[]]|]; done].
    destruct (payment_method a) as [pm|]; [|done].
    split_and!; eauto 10; done.
Qed.

(** An operator that cannot be initialized is stopped, and its exception, or
    the one of stopping it, comes out of the constructor. *)
Lemma operator_failure_stops w e w' :
  operator_init w = (Raise e, w') -> issubclass e Exception = true ->
  operator_init_or_stop w =
    (match (stop_partial w').1 with Ok _ => Raise e | Raise e' => Raise e' end, (stop_partial w').2).
Proof.
  intros Ho He. unfold operator_init_or_stop, catches. rewrite Ho. cbn [existsb]. rewrite He. cbn.
  by destruct (stop_partial w') as [[[]|] ?].
Qed.

End Construction.
End Construction.

(** ** Metadata, addresses and seed nodes *)

Class NodeNetwork (W Metadata Certificate Sprout : Type) := {
  generate_metadata : PyM W Metadata;                       (* _generate_metadata *)
  own_operator_address : PyM W string;                      (* _local_operator_address *)
  derive_operator_address : Metadata -> result string;      (* payload.derive_operator_address, checksummed *)
  is_checksum_address : bytes -> bool;
  get_certificate : option bytes -> Z -> PyM W Certificate;
  common_name : Certificate -> result bytes;
  node_information : bytes -> Z -> PyM W bytes;
  sprout_of : bytes -> result Sprout;                       (* NodeSprout(NodeMetadata.from_bytes(...)) *)
  get_authorized_stake : bytes -> PyM W Z;
  teachers_of : string -> option (list bytes);              (* TEACHER_NODES *)
}.

Module Seeds.
Section Seeds.
Context {W Metadata Certificate Sprout : Type} `{!NodeNetwork W Metadata Certificate Sprout}.

(** A node with its caches of the metadata and of the operator address. *)
Record cached := Cached {
  c_is_me : bool;
  c_federated_only : bool;
  _metadata : option Metadata;
  __operator_address : option string;
  world : W;
}.

Definition on_world {A} (m : PyM W A) : PyM cached A := fun s =>
  let '(r, w) := m s.(world) in (r, Cached s.(c_is_me) s.(c_federated_only) s.(_metadata) s.(__operator_address) w).

(** [metadata]: generated once. *)
Definition metadata : PyM cached Metadata := fun s =>
  match s.(_metadata) with
  | Some m => (Ok m, s)
  | None =>
      (m <- on_world generate_metadata ;;
       modify (fun s => Cached s.(c_is_me) s.(c_federated_only) (Some m) s.(__operator_address) s.(world)) ;;;
       py_ret m) s
  end.

(** [operator_address]: of the local node from its power, of a stranger from
    its metadata, once; the empty text counts as no address. *)
Definition operator_address : PyM cached string := fun s =>
  if s.(c_federated_only) then (Raise RuntimeError, s)
  else if s.(c_is_me) then on_world own_operator_address s
  else match s.(__operator_address) with
       | Some (String c a) => (Ok (String c a), s)
       | _ =>
           (m <- metadata ;;
            a <- lift (derive_operator_address m) ;;
            modify (fun s => Cached s.(c_is_me) s.(c_federated_only) s.(_metadata) (Some a) s.(world)) ;;;
            py_ret a) s
       end.

(** [from_metadata_bytes] and [from_rest_url]. *)
Definition from_rest_url (host : bytes) (port : Z) : PyM W Sprout :=
  response_data <- node_information host port ;; lift (sprout_of response_data).

(** [from_seed_and_stake_info]; the error of a certificate that cannot be
    fetched is raised again with its mark [crash_right_now]. *)
Definition from_seed_and_stake_info (seed_uri : bytes) (federated_only : bool) (minimum_stake : Z) : PyM W Sprout :=
  parsed <- lift (Protocols.parse_node_uri is_checksum_address seed_uri) ;;
  let '(host, port, staking_provider_address) := parsed in
  certificate <- get_certificate host port ;;
  real_host <- lift (common_name certificate) ;;
  potential_seed_node <- from_rest_url real_host port ;;
  (match staking_provider_address with
   | Some (c :: address) =>
       if (0 <? minimum_stake)%Z && negb federated_only then
         seednode_stake <- get_authorized_stake (c :: address) ;;
         if (seednode_stake <? minimum_stake)%Z then raise NotATeacher else py_ret tt
       else py_ret tt
   | _ => py_ret tt
   end) ;;;
  py_ret potential_seed_node.

(** [from_seednode_metadata]: the URI of the seed node's metadata. *)
Definition seed_uri_of (checksum_address rest_host : bytes) (rest_port : Z) : bytes :=
  checksum_address ++ "@"%char :: Protocols.uri (Protocols.InterfaceInfo_ rest_host rest_port).
Definition from_seednode_metadata (checksum_address rest_host : bytes) (rest_port : Z) (minimum_stake : Z) : PyM W Sprout :=
  from_seed_and_stake_info (seed_uri_of checksum_address rest_host rest_port) false minimum_stake.

(** [seednode_for_network]. *)
Definition seednode_for_network (network : string) : PyM W Sprout :=
  match teachers_of network with
  | None => raise ValueError
  | Some [] => raise ValueError
  | Some (url :: _) => from_seed_and_stake_info url false 0
  end.

(** *** Properties *)

(** The metadata is generated at most once. *)
Lemma metadata_is_cached s m s' : metadata s = (Ok m, s') -> metadata s' = (Ok m, s').
Proof.
  unfold metadata at 1. destruct (_metadata s) as [m0|] eqn:Hm.
  - intros [= <- <-]. unfold metadata. by rewrite Hm.
  - unfold py_bind, on_world. destruct (generate_metadata (world s)) as [[m1|] w]; [|done].
    unfold modify, py_ret. by intros [= <- <-].
Qed.

(** The address of a stranger is the one its metadata proves, and stays. *)
Lemma operator_address_is_derived s a s' :
  s.(c_is_me) = false -> s.(__operator_address) = None -> operator_address s = (Ok a, s') ->
  (exists m s1, metadata s = (Ok m, s1) /\ derive_operator_address m = Ok a) /\
  (a <> ""%string -> operator_address s' = (Ok a, s')).
Proof.
  intros Hme Hno. unfold operator_address at 1. rewrite Hme, Hno. destruct (c_federated_only s) eqn:Hf; [done|].
  intros (m & s1 & Hm & (a0 & s2 & Ha & ([] & s3 & [= <-] & [= <- <-])%py_bind_returned)%py_bind_returned)%py_bind_returned.
  unfold lift in Ha. injection Ha as Ha <-.
  assert (Hs1 : s1.(c_is_me) = false /\ s1.(c_federated_only) = false).
  { revert Hm. unfold metadata. destruct (_metadata s); [by intros [= _ <-]|].
    unfold py_bind, on_world. destruct (generate_metadata (world s)) as [[m1|] w]; [|done].
    unfold modify, py_ret. by intros [= _ <-]. }
  destruct Hs1 as [Hm1 Hf1]. split; [by exists m, s1|]. intros Hne. unfold operator_address. cbn. rewrite Hf1, Hm1.
  by destruct a0.
Qed.

(** A seed node that is returned was asked at the host that its certificate
    names; when the URI has the address of its staking provider and a minimum
    stake is asked for, the provider has that stake.  A URI without an
    address passes whatever the minimum is. *)
Theorem seed_node_has_stake uri minimum_stake w sprout w' :
  from_seed_and_stake_info uri false minimum_stake w = (Ok sprout, w') ->
  exists host port address certificate real_host w1 w2 w3,
    Protocols.parse_node_uri is_checksum_address uri = Ok (host, port, address) /\
    get_certificate host port w = (Ok certificate, w1) /\ common_name certificate = Ok real_host /\
    from_rest_url real_host port w1 = (Ok sprout, w2) /\
    forall c a, address = Some (c :: a) -> (0 < minimum_stake)%Z ->
      exists stake, get_authorized_stake (c :: a) w2 = (Ok stake, w3) /\ (minimum_stake <= stake)%Z.
Proof.
  unfold from_seed_and_stake_info. intros ([[host port] address] & w0 & [= Hp <-] & Hr)%py_bind_returned.
  apply py_bind_returned in Hr as (certificate & w1 & Hc & Hr).
  apply py_bind_returned in Hr as (real_host & w1' & [= Hn <-] & Hr).
  apply py_bind_returned in Hr as (sprout' & w2 & Hs & Hr).
  apply py_bind_returned in Hr as ([] & w3 & Hst & [= <- <-]).
  exists host, port, address, certificate, real_host, w1, w2, w3. split_and!; [done|done|done|done|].
  intros c a -> Hmin. cbn [negb andb] in Hst. rewrite (proj2 (Z.ltb_lt 0 minimum_stake)) in Hst by done.
  apply py_bind_returned in Hst as (stake & w4 & Hg & Hst). destruct (Z.ltb_spec stake minimum_stake); [done|].
  injection Hst as ->. by exists stake.
Qed.

End Seeds.
End Seeds.

(** ** Evaluated *)

Module LifecycleDemo.
Import Ursula.

(** The world is the list of running services; learning cannot be stopped
    twice. *)
Definition demo_w : Type := list service.

#[local] Instance demo_services : NodeServices demo_w := {
  start_service sv _ w := (Ok tt, sv :: w);
  stop_service sv w :=
    if decide (sv = NodeDiscovery /\ sv ∉ w) then (Raise AssertionError, w)
    else (Ok tt, filter (fun x => x <> sv) w);
  interface_initialized _ := true;
  initialize_interface := py_ret tt;
  block_until_ready := py_ret tt;
  get_staking_provider_address := py_ret tt;
  local_operator_address := py_ret "0xop"%string;
  work_is_needed := py_ret true;
  prepare_server := py_ret tt;
  deployer_run := py_ret tt;
  reactor_run := py_ret tt;
  reactor_stop := py_ret tt;
}.

Definition demo_node : ursula := Ursula false false false (to_bytes "203.0.113.7") true true true.
Definition demo_args (emitter : bool) : run_args := RunArgs emitter true false true false true false false true true false true.

(** Without an emitter the node is left with its learning loop running. *)
Example run_without_emitter :
  run demo_node (demo_args false) [] = (Raise AttributeError, [NodeDiscovery]) /\
  run demo_node (demo_args true) [] = (Ok tt, [OperatorBonded; WorkTracking; NodeDiscovery]).
Proof. by vm_compute. Qed.

Example calls_of_a_run :
  (@run _ recording demo_node (demo_args true) ([], [])).2.2 =
  [Starts NodeDiscovery false; WaitsUntilBonded; ReadsOperatorAddress; AsksForWork (Ok true);
   Starts WorkTracking true; Starts OperatorBonded false; PreparesServer].
Proof. by vm_compute. Qed.

(** A second stop: the learner's assertion comes out and the operator's
    trackers go on. *)
Lemma stop_spec_witness :
  stop demo_node false true [WorkTracking; OperatorBonded] = (Raise AssertionError, [WorkTracking; OperatorBonded]) /\
  exists n r w', @stop _ recording demo_node false true ([WorkTracking; OperatorBonded], []) =
    (r, (w', Stops <$> take (S n) stopped_services)) /\ n <> 4.
Proof.
  split; [by vm_compute|].
  destruct (stop_spec demo_node [WorkTracking; OperatorBonded]) as (n & r & w' & Hr & Hn); [done|done|done|done|].
  exists n, r, w'. split; [exact Hr|]. intros ->. cbn in Hn. subst r. vm_compute in Hr. discriminate Hr.
Defined.

End LifecycleDemo.
