(* ===== verification/CliActions.v ===== *)
(** * The actions of the command line

    cli/actions/*.py and the parameter types of cli/types.py: what the command
    line asks its user, what it chooses itself, and what it refuses.  The
    prompts of click are the class [Terminal]; what is printed is left out. *)

From Stdlib Require Import Ascii.
From S2P Require Import Prelude Text Json Networking.

(** [click.prompt] and [click.confirm]: a prompt is repeated until its answer
    converts, so that an answer of a range lies in it; the end of the input is
    [Abort]. *)
Class Terminal (W : Type) := {
  prompt_range : Z -> option Z -> option Z -> PyM W Z;     (* IntRange(min, max), default *)
  prompt_int : PyM W Z;                                    (* type=INT *)
  prompt_text : bool -> PyM W bytes;                       (* confirmation_prompt *)
  prompt_operator_ip : PyM W bytes;                        (* type=OPERATOR_IP *)
  confirm : PyM W bool;
}.

Definition in_range (lo : Z) (hi : option Z) (z : Z) : Prop :=
  (lo <= z)%Z /\ match hi with Some h => (z <= h)%Z | None => True end.

Class TerminalLaws (W : Type) `{!Terminal W} : Prop := {
  prompt_range_in : forall lo hi d w z w', prompt_range lo hi d w = (Ok z, w') -> in_range lo hi z;
}.

Definition confirm_or_abort {W} `{!Terminal W} : PyM W unit :=
  ok <- confirm ;; if ok : bool then py_ret tt else raise ClickAbort.

(** [l[i]] of an index that is not negative. *)
Definition item {A} (l : list A) (i : Z) : result A :=
  match l !! Z.to_nat i with Some a => Ok a | None => Raise IndexError end.

(** [x or y] and the truth of an optional text. *)
Definition truthy (x : option bytes) : bool := match x with Some (_ :: _) => true | _ => false end.
Definition or_text (x y : option bytes) : option bytes := if truthy x then x else y.

Module Types.

(** ** cli/types.py *)

(** [self.fail]. *)
Definition fail {A} : result A := Raise ClickBadParameter.

Definition ChecksumAddress_convert (to_checksum_address : bytes -> result bytes) (value : bytes) : result bytes :=
  match to_checksum_address value with
  | Raise e => if catches [ValueError] e then fail else Raise e
  | ok => ok
  end.

(** [ip_address(value)] succeeds or raises [ValueError]. *)
Definition IPv4Address_convert (is_ip_address : bytes -> bool) (value : bytes) : result bytes :=
  if is_ip_address value then Ok value else fail.

Definition OperatorIPAddress_convert (is_ip_address : bytes -> bool) (value : bytes) : result bytes :=
  let? _ip := IPv4Address_convert is_ip_address value in
  match ExternalIp.validate_operator_ip _ip with
  | Raise e => if catches [InvalidOperatorIP] e then fail else Raise e
  | Ok _ => Ok value
  end.

(** [DecimalRange.convert] of a number that [Decimal] accepts; a decimal is
    compared at the scale of its bounds. *)
Definition DecimalRange_convert (min max : option Z) (clamp : bool) (rv : Z) : result Z :=
  let below := match min with Some m => (rv <? m)%Z | None => false end in
  let above := match max with Some m => (m <? rv)%Z | None => false end in
  match min, max with
  | Some m, _ =>
      if clamp && below then Ok m
      else match max with
           | Some M => if clamp && above then Ok M else if below || above then fail else Ok rv
           | None => if below then fail else Ok rv
           end
  | None, Some M => if clamp && above then Ok M else if above then fail else Ok rv
  | None, None => Ok rv
  end.

(** [UmbralPublicKeyHex.convert]: the text itself is returned. *)
Definition UmbralPublicKeyHex_convert (public_key_from_bytes : bytes -> result unit) (validate : bool) (value : bytes)
    : result bytes :=
  if validate then
    match (let? b := fromhex value in public_key_from_bytes b) with
    | Raise e => if catches [InternalError; ValueError] e then fail else Raise e
    | Ok _ => Ok value
    end
  else Ok value.

(** blockchain/eth/networks.py: the inventory of networks and their chains. *)
Definition chains : list (string * Z) :=
  [("mainnet", 1); ("oryx", 3); ("ibex", 4); ("lynx", 5); ("polygon", 137); ("mumbai", 80001);
   ("heco", 128); ("heco_testnet", 256); ("bsc", 56); ("bsc_testnet", 97); ("horus", 97);
   ("conflux_espace", 1030); ("conflux_espace_testnet", 71)]%string%Z.
Definition ETH_NETWORKS : list string := ["mainnet"; "oryx"; "ibex"; "lynx"]%string.
Definition HECO_NETWORKS : list string := ["heco"; "heco_testnet"]%string.
Definition NETWORKS : list string := chains.*1.

(** [get_ethereum_chain_id]: the tables are asked one after the other. *)
Definition get_ethereum_chain_id (network : string) : Z := default 1337%Z (dict_get chains network).

Definition validate_network_name (network_name : string) : result unit :=
  if decide (network_name ∈ NETWORKS) then Ok tt else Raise UnrecognizedNetwork.

(** [NuLinkNetworkName.convert] of a name that is validated. *)
Definition NuLinkNetworkName_convert (value : bytes) : result string :=
  let network := String.string_of_list_ascii (lower value) in
  if decide (network ∈ NETWORKS) then Ok network else fail.

End Types.

Module Select.
Section Select.

(** ** cli/actions/select.py *)

Context {W Signer : Type} `{!Terminal W}.

(** The blockchain, signers and contracts that an account is selected with. *)
Class Accounts := {
  is_interface_initialized : bytes -> W -> bool;
  initialize_interface : bytes -> PyM W unit;
  get_interface : option bytes -> PyM W unit;
  from_signer_uri : bytes -> bool -> PyM W Signer;           (* testnet *)
  from_latest_publication : string -> PyM W unit;
  accounts : Signer -> PyM W (list string);
  eth_balance : string -> PyM W unit;
  nlk_agent : PyM W unit;
}.
Context `{!Accounts}.

Record select_args := SelectArgs {
  eth_provider_uri : option bytes;
  signer : option Signer;
  signer_uri : option bytes;
  registry_given : bool;
  show_eth_balance : bool;
  show_nu_balance : bool;
  show_staking : bool;
  network : option string;
  default_choice : Z;
}.

(** A row of the table.  [Staker] is not imported; [get_balance] takes one
    argument and is given two. *)
Definition account_row (a : select_args) (account : string) : PyM W unit :=
  (if a.(show_staking) then raise NameError else py_ret tt) ;;;
  (if a.(show_eth_balance) then eth_balance account else py_ret tt) ;;;
  (if a.(show_nu_balance) then nlk_agent ;;; raise TypeError else py_ret tt).

(** [if not network]: no network or an empty name. *)
Definition no_network (n : option string) : bool :=
  match n with None | Some EmptyString => true | _ => false end.

(** [select_client_account]. *)
Definition select_client_account (a : select_args) : PyM W string :=
  (if bool_decide (is_Some a.(signer)) && truthy a.(signer_uri) then raise ValueError else py_ret tt) ;;;
  (if negb (truthy a.(eth_provider_uri) || truthy a.(signer_uri) || bool_decide (is_Some a.(signer)))
   then raise ValueError else py_ret tt) ;;;
  (match a.(eth_provider_uri) with
   | Some (c :: uri) =>
       initialized <- gets (is_interface_initialized (c :: uri)) ;;
       if initialized : bool then py_ret tt else initialize_interface (c :: uri)
   | _ => py_ret tt
   end) ;;;
  let uri := if truthy a.(eth_provider_uri) then or_text a.(signer_uri) a.(eth_provider_uri) else a.(signer_uri) in
  get_interface a.(eth_provider_uri) ;;;
  signer <- (match a.(signer), uri with
             | Some s, _ => py_ret (Some s)
             | None, Some (c :: u) =>
                 s <- from_signer_uri (c :: u) (negb (bool_decide (a.(network) = Some "mainnet"%string))) ;; py_ret (Some s)
             | None, _ => py_ret None
             end) ;;
  (if (a.(show_nu_balance) || a.(show_staking)) && negb a.(registry_given) then
     if no_network a.(network) then raise ValueError
     else from_latest_publication (default ""%string a.(network))
   else py_ret tt) ;;;
  match signer with
  | None => raise AttributeError
  | Some s =>
      enumerated_accounts <- accounts s ;;
      match enumerated_accounts with
      | [] => raise ClickAbort
      | [account] => py_ret account
      | _ =>
          for_each enumerated_accounts (account_row a) ;;;
          choice <- prompt_range 0 (Some (Z.of_nat (length enumerated_accounts) - 1)%Z) (Some a.(default_choice)) ;;
          lift (item enumerated_accounts choice)
      end
  end.

(** [select_network]. *)
Definition select_network (network_type : string) : PyM W string :=
  network_list <- (if decide (network_type = "ethereum"%string) then py_ret Types.ETH_NETWORKS
                   else if decide (network_type = "heco"%string) then py_ret Types.HECO_NETWORKS
                   else raise ValueError) ;;
  choice <- prompt_range 0 (Some (Z.of_nat (length network_list) - 1)%Z) (Some 0%Z) ;;
  lift (item network_list choice).

(** What is asked of the configuration files: their addresses, and the cards
    of the card directory. *)
Context {path card : Type}.
Class Files := {
  checksum_address_from_filepath : path -> PyM W bytes;
  card_files : PyM W (list path);
  load_card_file : path -> PyM W card;
  load_card : bytes -> PyM W card;
}.
Context `{!Files}.

(** The loop over the files: the file of the address, or the files that could
    be read; those of an old version are passed over. *)
Fixpoint parse_files (checksum_address : option bytes) (config_files parsed : list path)
    : PyM W (path + list path) :=
  match config_files with
  | [] => py_ret (inr parsed)
  | fp :: rest => fun w =>
      match checksum_address_from_filepath fp w with
      | (Ok a, w') =>
          if truthy checksum_address && bool_decide (checksum_address = Some a) then (Ok (inl fp), w')
          else parse_files checksum_address rest (parsed ++ [fp]) w'
      | (Raise e, w') =>
          if catches [OldVersion] e then parse_files checksum_address rest parsed w' else (Raise e, w')
      end
  end.

(** [select_config_file]; [environment] is the variable of the operator's
    address. *)
Definition select_config_file (config_files : list path) (address environment : option bytes) : PyM W path :=
  match config_files with
  | [] => raise ClickAbort
  | _ =>
      let checksum_address := or_text address environment in
      found <- parse_files checksum_address config_files [] ;;
      match found with
      | inl fp => py_ret fp
      | inr parsed_config_files =>
          if truthy checksum_address then raise ValueError
          else match parsed_config_files with
               | [] => raise ClickAbort
               | [fp] => py_ret fp
               | _ =>
                   choice <- prompt_range 0 (Some (Z.of_nat (length parsed_config_files) - 1)%Z) (Some 0%Z) ;;
                   lift (item parsed_config_files choice)
               end
      end
  end.

Fixpoint load_cards (files : list path) : PyM W (list card) :=
  match files with
  | [] => py_ret []
  | f :: rest => c <- load_card_file f ;; cs <- load_cards rest ;; py_ret (c :: cs)
  end.

(** [select_card]: the range of the prompt includes the number of cards. *)
Definition select_card (card_identifier : option bytes) : PyM W card :=
  match card_identifier with
  | Some (c :: i) => load_card (c :: i)
  | _ =>
      files <- card_files ;;
      cards <- load_cards files ;;
      selection <- prompt_range 0 (Some (Z.of_nat (length cards))) None ;;
      lift (item cards selection)
  end.

(** *** What is selected *)

Context `{!TerminalLaws W}.

Lemma item_in {A} (l : list A) z : in_range 0 (Some (Z.of_nat (length l) - 1)%Z) z -> exists a, item l z = Ok a /\ a ∈ l.
Proof.
  intros [Hlo Hhi]. unfold item. destruct (lookup_lt_is_Some_2 l (Z.to_nat z)) as [a Ha]; [lia|].
  rewrite Ha. exists a. split; [done|]. by eapply list_elem_of_lookup_2.
Qed.

(** A choice from a list by its prompt. *)
Lemma chosen_in {A} (l : list A) d w a w' :
  (choice <- prompt_range 0 (Some (Z.of_nat (length l) - 1)%Z) d ;; lift (item l choice)) w = (Ok a, w') -> a ∈ l.
Proof.
  intros (z & w1 & Hz & Ha)%py_bind_returned. apply prompt_range_in in Hz.
  apply item_in in Hz as (b & Hb & Hin). rewrite Hb in Ha. by injection Ha as <-.
Qed.

(** The loop finds the first file of the address, or passes on the files that
    it could read. *)
Lemma parse_files_spec address files parsed w r w' :
  parse_files address files parsed w = (Ok r, w') ->
  match r with
  | inl fp => fp ∈ files /\ truthy address = true /\
      exists a w1 w2, checksum_address_from_filepath fp w1 = (Ok a, w2) /\ address = Some a
  | inr l => exists read, l = parsed ++ read /\ read `sublist_of` files /\
      (truthy address = true -> forall fp, fp ∈ read -> exists a w1 w2,
         checksum_address_from_filepath fp w1 = (Ok a, w2) /\ address <> Some a)
  end.
Proof.
  revert parsed w. induction files as [|fp files IH]; intros parsed w; cbn [parse_files].
  { intros [= <- <-]. exists []. rewrite app_nil_r. split_and!; [done|done|]. intros _ fp Hfp. inversion Hfp. }
  destruct (checksum_address_from_filepath fp w) as [[a|e] w1] eqn:Ha.
  - destruct (truthy address && bool_decide (address = Some a)) eqn:Hm.
    + intros [= <- <-]. apply andb_true_iff in Hm as [Ht Hd%bool_decide_eq_true].
      split_and!; [by left|done|by exists a, w, w1].
    + intros Hr%IH. destruct r as [fp'|l].
      * destruct Hr as (Hin & ?). split; [by right|done].
      * destruct Hr as (read & -> & Hsub & Hne). exists (fp :: read). split_and!.
        -- by rewrite <-app_assoc.
        -- by apply sublist_skip.
        -- intros Ht x [->|Hx]%elem_of_cons; [|by apply Hne].
           exists a, w, w1. split; [done|]. rewrite Ht in Hm. by apply bool_decide_eq_false in Hm.
  - destruct (catches [OldVersion] e); [|done]. intros Hr%IH. destruct r as [fp'|l].
    + destruct Hr as (Hin & ?). split; [by right|done].
    + destruct Hr as (read & -> & Hsub & Hne). exists read. split_and!; [done|by apply sublist_cons|done].
Qed.

(** A selected configuration file is one of those that were found, and read;
    when an address is given, by the argument or by the environment, it is a
    file of that address, so that a lone file is taken, or one chosen by the
    user, only when no address is given. *)
Theorem select_config_file_spec files address environment w fp w' :
  select_config_file files address environment w = (Ok fp, w') ->
  fp ∈ files /\
  (truthy (or_text address environment) = true ->
     exists a w1 w2, checksum_address_from_filepath fp w1 = (Ok a, w2) /\ or_text address environment = Some a).
Proof.
  unfold select_config_file. destruct files as [|f0 files0]; [done|]. set (files := f0 :: files0) in *.
  intros (found & w1 & Hp & Hr)%py_bind_returned. apply parse_files_spec in Hp.
  destruct found as [fp'|l].
  - injection Hr as <- <-. destruct Hp as (Hin & _ & Ha). by split.
  - destruct Hp as (read & -> & Hsub & _). rewrite app_nil_l in Hr.
    destruct (truthy (or_text address environment)); [done|].
    assert (fp ∈ read) as Hin.
    { destruct read as [|x [|y l]]; [done|injection Hr as <- <-; by left|by eapply chosen_in]. }
    split; [|done]. by eapply sublist_subseteq.
Qed.

(** An account that is selected is one of the signer's, which was given or is
    the one of its URI, for which the provider stands in. *)
Theorem select_client_account_spec a w account w' :
  select_client_account a w = (Ok account, w') ->
  exists s l w1 w2, accounts s w1 = (Ok l, w2) /\ account ∈ l /\
    match a.(signer) with
    | Some s' => s = s' /\ truthy a.(signer_uri) = false
    | None => exists uri testnet w3 w4, from_signer_uri uri testnet w3 = (Ok s, w4) /\
        (Some uri = a.(signer_uri) \/ Some uri = a.(eth_provider_uri))
    end /\
    ((a.(show_staking) || a.(show_nu_balance) = true) -> l = [account]).
Proof.
  unfold select_client_account. intros ([] & w1 & H1 & Hr)%py_bind_returned.
  apply py_bind_returned in Hr as ([] & w2 & _ & Hr). apply py_bind_returned in Hr as ([] & w3 & _ & Hr).
  apply py_bind_returned in Hr as ([] & w4 & _ & Hr). apply py_bind_returned in Hr as (os & w5 & Hs & Hr).
  apply py_bind_returned in Hr as ([] & w6 & _ & Hr). destruct os as [s|]; [|done].
  apply py_bind_returned in Hr as (l & w7 & Hl & Hr). exists s, l, w6, w7. split_and!; [done| | |].
  - destruct l as [|x [|y l]]; [done|injection Hr as <- <-; by left|].
    apply py_bind_returned in Hr as ([] & w8 & _ & Hr). by eapply chosen_in.
  - destruct (signer a) as [s'|].
    + injection Hs as -> <-. split; [done|]. rewrite bool_decide_eq_true_2 in H1 by eauto.
      by destruct (truthy (signer_uri a)).
    + destruct (if truthy (eth_provider_uri a) then _ else _) as [[|c u]|] eqn:Hu; [done| |done].
      apply py_bind_returned in Hs as (s' & w8 & Hf & [= -> <-]). eexists (c :: u), _, w4, w8. split; [exact Hf|].
      unfold or_text in Hu. destruct (truthy (eth_provider_uri a)), (truthy (signer_uri a)); auto.
  - intros Hshow. destruct l as [|x [|y l]]; [done|by injection Hr as <- <-|].
    exfalso. apply py_bind_returned in Hr as ([] & w8 & Hrow & _). cbn [for_each] in Hrow.
    apply py_bind_returned in Hrow as ([] & w9 & Hrow & _). unfold account_row in Hrow.
    apply py_bind_returned in Hrow as ([] & w10 & H10 & Hrow). destruct (show_staking a); [done|]. cbn in Hshow.
    apply py_bind_returned in Hrow as ([] & w11 & _ & Hrow). rewrite Hshow in Hrow.
    by apply py_bind_returned in Hrow as ([] & w12 & _ & ?).
Qed.

(** The last number that the prompt for a card accepts has no card. *)
Lemma select_card_past_the_end w files w1 cards w2 w3 :
  card_files w = (Ok files, w1) -> load_cards files w1 = (Ok cards, w2) ->
  prompt_range 0 (Some (Z.of_nat (length cards))) None w2 = (Ok (Z.of_nat (length cards)), w3) ->
  select_card None w = (Raise IndexError, w3).
Proof.
  intros Hf Hc Hp. unfold select_card, py_bind. rewrite Hf, Hc, Hp. unfold lift, item.
  by rewrite Nat2Z.id, lookup_ge_None_2 by done.
Qed.

End Select.
End Select.

Module Configure.
Section Configure.

(** ** cli/actions/configure.py *)

Context {W Config Node : Type} `{!Terminal W} `{!IpSources W Node}.

(** The configurations of a character. *)
Class Configs := {
  from_configuration_file : PyM W Config;
  read_configuration_file : PyM W json;
  update_configuration : list bytes -> Config -> PyM W unit;
  serialize_configuration : Config -> PyM W unit;
  forget_nodes : PyM W unit;
  destroy : PyM W unit;
}.
Context `{!Configs}.

Definition forget : PyM W unit := confirm_or_abort ;;; forget_nodes.

(** [handle_missing_configuration_file]. *)
Definition handle_missing_configuration_file : PyM W unit := raise ClickFileError.

(** [handle_invalid_configuration_file]: the file is displayed and its error
    raised; one that is no JSON raises that. *)
Definition handle_invalid_configuration_file : PyM W unit :=
  _ <- read_configuration_file ;; raise ConfigurationError.

(** [get_or_update_configuration]; the handlers' exceptions come out. *)
Definition get_or_update_configuration (updates : list bytes) : PyM W unit := fun w =>
  match from_configuration_file w with
  | (Raise e, w') =>
      if catches [FileNotFoundError] e then handle_missing_configuration_file w'
      else if catches [ConfigurationError] e then handle_invalid_configuration_file w'
      else (Raise e, w')
  | (Ok config, w') =>
      ((match updates with [] => py_ret tt | _ => update_configuration updates config end) ;;;
       serialize_configuration config) w'
  end.

Definition destroy_configuration (force : bool) : PyM W unit :=
  (if force then py_ret tt else confirm_or_abort) ;;; destroy.

(** [collect_operator_ip_address]. *)
Definition collect_operator_ip_address (network : string) (force : bool) : PyM W bytes :=
  ip <- try_except (ExternalIp.determine_external_ip_address network None) [UnknownIPAddress]
          (fun e => if force then raise e else prompt_operator_ip) ;;
  ip <- (if force then py_ret ip
         else ok <- confirm ;; if ok : bool then py_ret ip else prompt_operator_ip) ;;
  lift (ExternalIp.validate_operator_ip ip) ;;;
  py_ret ip.

(** [get_external_ip]: [None] when it is unknown or the configured one is not
    permitted. *)
Definition get_external_ip (domain : string) (known_nodes : option (list Node)) (rest_host : bytes)
    : PyM W (option bytes) := fun w =>
  match ExternalIp.determine_external_ip_address domain known_nodes w with
  | (Raise e, w') => if catches [UnknownIPAddress] e then (Ok None, w') else (Raise e, w')
  | (Ok external_ip, w') =>
      match ExternalIp.validate_operator_ip rest_host with
      | Raise e => if catches [InvalidOperatorIP] e then (Ok None, w') else (Raise e, w')
      | Ok _ => (Ok (Some external_ip), w')
      end
  end.

(** [perform_startup_ip_check]. *)
Definition perform_startup_ip_check (domain : string) (known_nodes : option (list Node)) (rest_host : bytes) (force : bool)
    : PyM W unit :=
  external_ip <- get_external_ip domain known_nodes rest_host ;;
  match external_ip with
  | None => py_ret tt
  | Some ip => if negb (bool_decide (ip = rest_host)) && negb force then raise ClickAbort else py_ret tt
  end.

(** *** Properties *)

(** The address that an operator is configured with is not a reserved one;
    it was detected or entered, and entered only when it was not forced. *)
Theorem collected_ip_is_valid network force w ip w' :
  collect_operator_ip_address network force w = (Ok ip, w') ->
  ip ∉ ExternalIp.RESERVED_IP_ADDRESSES /\
  ((exists w1, ExternalIp.determine_external_ip_address network None w = (Ok ip, w1)) \/
   (force = false /\ exists w1 w2, prompt_operator_ip w1 = (Ok ip, w2))).
Proof.
  unfold collect_operator_ip_address. intros (ip0 & w1 & H1 & Hr)%py_bind_returned.
  apply py_bind_returned in Hr as (ip1 & w2 & H2 & Hr). apply py_bind_returned in Hr as ([] & w3 & H3 & [= -> <-]).
  unfold lift in H3. injection H3 as H3 <-.
  split; [intros Hin; unfold ExternalIp.validate_operator_ip in H3; by rewrite decide_True in H3|].
  assert (H0 : (exists w1', ExternalIp.determine_external_ip_address network None w = (Ok ip0, w1')) \/
    (force = false /\ exists w1' w2', prompt_operator_ip w1' = (Ok ip0, w2'))).
  { unfold try_except in H1. destruct (ExternalIp.determine_external_ip_address network None w) as [[i|e] v].
    - injection H1 as <- <-. left. eauto.
    - destruct (catches _ e); [|done]. destruct force; [done|]. right. eauto. }
  destruct force; [by injection H2 as <- <-|].
  apply py_bind_returned in H2 as (ok & w4 & _ & H2). destruct ok; [by injection H2 as <- <-|]. right. eauto.
Qed.

(** The check at start-up aborts exactly when it knows the external address,
    the configured one is permitted and differs, and it is not forced: an
    address that is not permitted passes. *)
Theorem startup_ip_check_spec domain known_nodes rest_host force w ip w1 :
  ExternalIp.determine_external_ip_address domain known_nodes w = (Ok ip, w1) ->
  perform_startup_ip_check domain known_nodes rest_host force w =
    (if decide (force = false /\ ip <> rest_host /\ rest_host ∉ ExternalIp.RESERVED_IP_ADDRESSES)
     then Raise ClickAbort else Ok tt, w1).
Proof.
  intros Hd. unfold perform_startup_ip_check, get_external_ip, py_bind. rewrite Hd.
  unfold ExternalIp.validate_operator_ip. destruct (decide (rest_host ∈ ExternalIp.RESERVED_IP_ADDRESSES)) as [Hin|Hin].
  - change (catches [InvalidOperatorIP] InvalidOperatorIP) with true. cbv iota.
    rewrite decide_False by naive_solver. done.
  - destruct (decide (ip = rest_host)) as [->|Hne].
    + rewrite bool_decide_eq_true_2 by done. rewrite decide_False by naive_solver. done.
    + rewrite bool_decide_eq_false_2 by done. destruct force; cbn [negb andb].
      * rewrite decide_False by naive_solver. done.
      * rewrite decide_True by naive_solver. done.
Qed.

(** Nothing is updated unless the file could be read. *)
Lemma unreadable_is_not_updated updates w e w' :
  from_configuration_file w = (Raise e, w') ->
  exists e' w'', get_or_update_configuration updates w = (Raise e', w'') /\
    (w'' = w' \/ w'' = (read_configuration_file w').2).
Proof.
  intros Hf. unfold get_or_update_configuration. rewrite Hf.
  destruct (catches [FileNotFoundError] e); [by exists ClickFileError, w'; split; [|left]|].
  destruct (catches [ConfigurationError] e); [|by exists e, w'; split; [|left]].
  unfold handle_invalid_configuration_file, py_bind.
  destruct (read_configuration_file w') as [[j|e'] w'']; [exists ConfigurationError, w''|exists e', w'']; (split; [done|by right]).
Qed.

End Configure.
End Configure.

Module Auth.
Section Auth.

(** ** cli/actions/auth.py and confirm.py *)

Context {W : Type} `{!Terminal W}.

(** The signer and keystore of a configuration, and recovering a keystore. *)
Class Unlocking := {
  is_device : bytes -> PyM W bool;
  signer_unlock : bytes -> option bytes -> PyM W unit;
  keystore_unlock : bytes -> PyM W unit;
  keystore_restore : bytes -> bytes -> PyM W unit;
  is_checksum_address : bytes -> bool;
}.
Context `{!Unlocking}.

(** The variables of the environment. *)
Variable environ : string -> option bytes.

(** [get_password_from_prompt]: an environment variable that is set is
    preferred, even when it is empty. *)
Definition get_password_from_prompt (envvar : option string) (confirmation : bool) : PyM W bytes :=
  match envvar with
  | Some (String c v) =>
      match environ (String c v) with Some password => py_ret password | None => prompt_text confirmation end
  | _ => prompt_text confirmation
  end.

(** [get_client_password] with its decorator. *)
Definition get_client_password (checksum_address : bytes) (envvar : option string) (confirmation : bool) : PyM W bytes :=
  if is_checksum_address checksum_address then get_password_from_prompt envvar confirmation
  else raise InvalidChecksumAddress.

(** What unlocking reads of a configuration; [is_clef] of its signer's URI. *)
Record unlock_config := UnlockConfig {
  is_ursula : bool;
  operator_address : bytes;
  checksum_address : bytes;
  is_clef : bool;
  federated_only : bool;
  dev_mode : bool;
  SIGNER_ENVVAR : option string;
}.

Definition account_of (c : unlock_config) : bytes := if c.(is_ursula) then c.(operator_address) else c.(checksum_address).

(** [os.environ.get(name)] is a text that is not empty. *)
Definition env_set (name : option string) : bool :=
  match name with Some v => truthy (environ v) | None => false end.

(** [unlock_signer_account]; [all(...)] gets a tuple, so that the signer is
    asked whether it is a device in any case. *)
Definition unlock_signer_account (c : unlock_config) (json_ipc : bool) : PyM W unit :=
  device <- is_device (account_of c) ;;
  let eth_password_is_needed :=
    negb c.(federated_only) && negb device && negb c.(dev_mode) && negb c.(is_clef) in
  password <- (if eth_password_is_needed then
                 if json_ipc && negb (env_set c.(SIGNER_ENVVAR)) then raise ValueError
                 else p <- get_client_password (account_of c) c.(SIGNER_ENVVAR) false ;; py_ret (Some p)
               else py_ret None) ;;
  signer_unlock c.(checksum_address) password.

(** [unlock_nulink_keystore]. *)
Definition unlock_nulink_keystore (password : bytes) (dev : bool) : PyM W bool :=
  if dev then py_ret true else keystore_unlock password ;;; py_ret true.

(** [recover_keystore]: a wrong number of words is only reported. *)
Definition recover_keystore (envvar : option string) : PyM W unit :=
  confirm_or_abort ;;;
  words <- prompt_text false ;;
  password <- get_password_from_prompt envvar true ;;
  keystore_restore words password.

(** [str.upper] of ASCII. *)
Definition upper (s : bytes) : bytes :=
  (fun c => let n := N_of_ascii c in if (97 <=? n)%N && (n <=? 122)%N then ascii_of_N (n - 32) else c) <$> s.

(** [confirm_deployment] of a chain that is unknown or local, or of a known
    one. *)
Definition confirm_deployment (unknown_or_local : bool) (chain_name : bytes) : PyM W bool :=
  let expected_chain_name := if unknown_or_local then to_bytes "DEPLOY" else chain_name in
  answer <- prompt_text false ;;
  if bool_decide (answer = upper expected_chain_name) then py_ret true else raise ClickAbort.

(** *** Properties *)

(** What the signer is given when it is unlocked.  A password is collected
    exactly when the configuration is neither federated nor for development
    and the account is neither a device's nor Clef's; over JSON it must come
    from the environment.  The password is asked for the operator's address,
    and the account that is unlocked is the checksum address. *)
Theorem unlock_signer_account_spec c json_ipc w w' :
  unlock_signer_account c json_ipc w = (Ok tt, w') ->
  exists device password w1 w2, is_device (account_of c) w = (Ok device, w1) /\
    signer_unlock c.(checksum_address) password w2 = (Ok tt, w') /\
    (is_Some password <->
       c.(federated_only) = false /\ device = false /\ c.(dev_mode) = false /\ c.(is_clef) = false) /\
    (forall p, password = Some p -> is_checksum_address (account_of c) = true /\
       get_password_from_prompt c.(SIGNER_ENVVAR) false w1 = (Ok p, w2)) /\
    (is_Some password -> json_ipc = true -> exists v, c.(SIGNER_ENVVAR) = Some v /\ truthy (environ v) = true).
Proof.
  unfold unlock_signer_account. intros (device & w1 & Hd & Hr)%py_bind_returned.
  apply py_bind_returned in Hr as (password & w2 & Hp & Hs). exists device, password, w1, w2.
  destruct (negb (federated_only c) && negb device && negb (dev_mode c) && negb (is_clef c)) eqn:Hn.
  - destruct (json_ipc && negb (env_set (SIGNER_ENVVAR c))) eqn:Hj; [done|].
    apply py_bind_returned in Hp as (p & w3 & Hp & [= <- <-]). unfold get_client_password in Hp.
    destruct (is_checksum_address (account_of c)); [|done].
    rewrite !andb_true_iff, !negb_true_iff in Hn. split_and!; [done|done| | |].
    + split; [naive_solver|eauto].
    + by intros p' [= <-].
    + intros _ ->. apply negb_false_iff in Hj. unfold env_set in Hj. destruct (SIGNER_ENVVAR c) as [v|]; [eauto|done].
  - injection Hp as <- <-. split_and!; [done|done| |done|by intros [? ?]].
    split; [by intros [? ?]|]. intros (Hf & -> & Hdev & Hc). by rewrite Hf, Hdev, Hc in Hn.
Qed.

(** A deployment goes on only after its chain's name was typed in capitals. *)
Lemma deployment_is_confirmed b chain_name w r w' :
  confirm_deployment b chain_name w = (Ok r, w') ->
  r = true /\ prompt_text false w = (Ok (upper (if b then to_bytes "DEPLOY" else chain_name)), w').
Proof.
  intros (answer & w1 & Ha & Hr)%py_bind_returned. case_bool_decide as Hd; [|done].
  injection Hr as <- <-. by subst answer.
Qed.

End Auth.
End Auth.

Module Collect.
Section Collect.

(** ** cli/actions/collect.py *)

Context {W Expiration : Type} `{!Terminal W}.

(** Alice's defaults, her contacts, and the prompts for an expiration and a
    rate in gwei, in wei. *)
Class Granting := {
  alice_threshold : Z;
  alice_shares : Z;
  alice_federated_only : bool;
  payment_rate : PyM W Z;
  load_bob_card : bytes -> PyM W (option (bytes * bytes));     (* [None] of a card that is not Bob's *)
  prompt_expiration : PyM W Expiration;
  prompt_rate : PyM W Z;
  after_probation : Expiration -> bool;
}.
Context `{!Granting}.

(** [collect_keys_from_card]. *)
Definition collect_keys_from_card (card_identifier : bytes) (force : bool) : PyM W (bytes * bytes) :=
  card <- load_bob_card card_identifier ;;
  match card with
  | None => raise ClickAbort
  | Some keys => (if force then py_ret tt else confirm_or_abort) ;;; py_ret (hex keys.1, hex keys.2)
  end.

(** [collect_bob_public_keys]: a key that is given is taken as it is. *)
Definition collect_bob_public_keys (force : bool) (card_identifier bob_encrypting_key bob_verifying_key : option bytes)
    : PyM W (bytes * bytes) :=
  match card_identifier with
  | Some (c :: i) => collect_keys_from_card (c :: i) force
  | _ =>
      e <- (match bob_encrypting_key with Some (c :: k) => py_ret (c :: k) | _ => prompt_text false end) ;;
      v <- (match bob_verifying_key with Some (c :: k) => py_ret (c :: k) | _ => prompt_text false end) ;;
      py_ret (e, v)
  end.

Definition collect_label (label : option bytes) : PyM W bytes :=
  match label with Some (c :: l) => py_ret (c :: l) | _ => prompt_text false end.

Definition collect_expiration (expiration : option Expiration) (force : bool) : PyM W (option Expiration) :=
  match expiration with
  | None => if force then py_ret None else e <- prompt_expiration ;; py_ret (Some e)
  | e => py_ret e
  end.

(** An integer that is absent or zero. *)
Definition zero (x : option Z) : bool := match x with None | Some 0%Z => true | _ => false end.

(** A default that is used unless the user declines it. *)
Definition default_or (value : Z) (force : bool) (prompt : PyM W Z) : PyM W Z :=
  if force then py_ret value
  else ok <- confirm ;; if ok : bool then py_ret value else prompt.

(** [collect_redundancy_ratio]: the number of shares is any integer, a
    threshold that is entered lies between 1 and it. *)
Definition collect_redundancy_ratio (threshold shares : option Z) (force : bool) : PyM W (Z * Z) :=
  n <- (if zero shares then default_or alice_shares force prompt_int else py_ret (default 0 shares)%Z) ;;
  m <- (if zero threshold then default_or alice_threshold force (prompt_range 1 (Some n) None) else py_ret (default 0 threshold)%Z) ;;
  py_ret (m, n).

(** [collect_policy_rate_and_value]; [GWEI] is a range. *)
Definition collect_policy_rate_and_value (rate value : option Z) (force : bool) : PyM W (option Z * option Z) :=
  if negb (zero value) || negb (zero rate) then py_ret (rate, value)
  else
    rate <- payment_rate ;;
    if force then py_ret (Some rate, value)
    else ok <- confirm ;;
         if ok : bool then py_ret (Some rate, value)
         else interactive_rate <- prompt_rate ;; confirm_or_abort ;;; py_ret (Some interactive_rate, value).

(** [enforce_probationary_period]: comparing a missing expiration raises. *)
Definition enforce_probationary_period (expiration : option Expiration) : PyM W unit :=
  match expiration with
  | None => raise AttributeError
  | Some e => if after_probation e then raise ClickAbort else py_ret tt
  end.

Record policy_parameters := PolicyParameters {
  p_label : bytes;
  p_threshold : Z;
  p_shares : Z;
  p_expiration : option Expiration;
  p_rate_value : option (option Z * option Z);      (* [None] is FEDERATED *)
}.

(** [collect_policy_parameters]. *)
Definition collect_policy_parameters (force : bool) (label : option bytes) (threshold shares value rate : option Z)
    (expiration : option Expiration) : PyM W policy_parameters :=
  label <- collect_label label ;;
  expiration <- collect_expiration expiration force ;;
  enforce_probationary_period expiration ;;;
  ratio <- collect_redundancy_ratio threshold shares force ;;
  rate_value <- (if alice_federated_only then py_ret None
                 else rv <- collect_policy_rate_and_value rate value force ;; py_ret (Some rv)) ;;
  py_ret (PolicyParameters label ratio.1 ratio.2 expiration rate_value).

(** *** Properties *)

Context `{!TerminalLaws W}.

(** What is collected has an expiration within the probationary period; what
    was given is kept, and a threshold that the user entered lies between 1
    and the number of shares - neither a given one nor the default is
    compared with it. *)
Theorem collected_parameters force label threshold shares value rate expiration w p w' :
  collect_policy_parameters force label threshold shares value rate expiration w = (Ok p, w') ->
  (exists e, p.(p_expiration) = Some e /\ after_probation e = false) /\
  (truthy label = true -> Some p.(p_label) = label) /\
  (zero shares = false -> Some p.(p_shares) = shares) /\
  (zero threshold = false -> Some p.(p_threshold) = threshold) /\
  (zero threshold = true -> p.(p_threshold) = alice_threshold \/ (1 <= p.(p_threshold) <= p.(p_shares))%Z) /\
  (alice_federated_only = false -> zero value = false \/ zero rate = false -> p.(p_rate_value) = Some (rate, value)).
Proof.
  unfold collect_policy_parameters. intros (l & w1 & Hl & Hr)%py_bind_returned.
  apply py_bind_returned in Hr as (e & w2 & He & Hr). apply py_bind_returned in Hr as ([] & w3 & Hpr & Hr).
  apply py_bind_returned in Hr as ([m n] & w4 & Hmn & Hr). apply py_bind_returned in Hr as (rv & w5 & Hrv & [= <- <-]).
  cbn [p_label p_threshold p_shares p_expiration p_rate_value fst snd].
  unfold collect_redundancy_ratio in Hmn. apply py_bind_returned in Hmn as (n' & w6 & Hn & Hm).
  apply py_bind_returned in Hm as (m' & w7 & Hm & [= -> -> <-]).
  split_and!.
  - unfold enforce_probationary_period in Hpr. destruct e as [e|]; [|done]. exists e. split; [done|]. by destruct (after_probation e).
  - intros Ht. destruct label as [[|c lb]|]; [done| |done]. by injection Hl as <- _.
  - intros Hz. rewrite Hz in Hn. destruct shares as [z|]; [|done]. by injection Hn as <- _.
  - intros Hz. rewrite Hz in Hm. destruct threshold as [z|]; [|done]. by injection Hm as <- _.
  - intros Hz. rewrite Hz in Hm. unfold default_or in Hm. destruct force; [injection Hm as <- _; by left|].
    apply py_bind_returned in Hm as (ok & w8 & _ & Hm). destruct ok; [injection Hm as <- _; by left|].
    apply prompt_range_in in Hm as [? ?]. by right.
  - intros Hfed Hz. rewrite Hfed in Hrv. apply py_bind_returned in Hrv as (rv' & w8 & Hrv & [= <- _]).
    unfold collect_policy_rate_and_value in Hrv.
    assert (negb (zero value) || negb (zero rate) = true) as Hor by (destruct Hz as [-> | ->]; [done|by rewrite orb_true_r]).
    rewrite Hor in Hrv. by injection Hrv as <- _.
Qed.

End Collect.
End Collect.

(** ** Evaluated *)

Module CliDemo.

(** A terminal whose answers are written down beforehand: numbers, texts and
    confirmations; what does not convert is asked again. *)
Inductive answer := Number (z : Z) | Text (t : bytes) | YesNo (b : bool).

Fixpoint next_in (lo : Z) (hi : option Z) (script : list answer) : result Z * list answer :=
  match script with
  | [] => (Raise ClickAbort, [])
  | Number z :: rest =>
      if (lo <=? z)%Z && match hi with Some h => (z <=? h)%Z | None => true end then (Ok z, rest) else next_in lo hi rest
  | _ :: rest => next_in lo hi rest
  end.

Definition next_number : PyM (list answer) Z := fun script =>
  match script with Number z :: rest => (Ok z, rest) | _ => (Raise ClickAbort, script) end.
Definition next_text : PyM (list answer) bytes := fun script =>
  match script with Text t :: rest => (Ok t, rest) | _ => (Raise ClickAbort, script) end.

#[local] Instance scripted : Terminal (list answer) := {
  prompt_range lo hi _ := next_in lo hi;
  prompt_int := next_number;
  prompt_text _ := next_text;
  prompt_operator_ip := next_text;
  confirm script := match script with YesNo b :: rest => (Ok b, rest) | _ => (Raise ClickAbort, script) end;
}.

#[local] Instance scripted_laws : TerminalLaws (list answer).
Proof.
  split. intros lo hi d w. cbn [prompt_range scripted]. induction w as [|[z|t|b] w IH]; intros z' w'; cbn [next_in]; try done.
  2, 3: by intros ?%IH. destruct (Z.leb_spec lo z); [|by intros ?%IH]. cbn [andb].
  destruct hi as [h|]; [destruct (Z.leb_spec z h); [|by intros ?%IH]|]; intros [= <- <-]; by split.
Qed.

(** Two files, the second of an old version. *)
#[local] Instance demo_files : Select.Files (W := list answer) (path := nat) (card := nat) := {
  Select.checksum_address_from_filepath fp := if decide (fp = 1) then raise OldVersion else py_ret (nat_chars (N.of_nat fp));
  Select.card_files := py_ret [3; 4];
  Select.load_card_file := py_ret;
  Select.load_card _ := py_ret 0;
}.

Example demo_selections :
  (Select.select_config_file (card := nat) [0; 1; 2] None None [Number 7; Number 1]).1 = Ok 2 /\
  (Select.select_config_file (card := nat) [0; 1] None None []).1 = Ok 0 /\
  (Select.select_config_file (card := nat) [0; 1] (Some (to_bytes "5")) None []).1 = Raise ValueError /\
  (Select.select_card (path := nat) (card := nat) None [Number 2]).1 = Raise IndexError.
Proof. by vm_compute. Qed.

Lemma select_config_file_spec_witness :
  2 ∈ [0; 1; 2] /\ (Select.select_config_file (card := nat) [0; 1; 2] (Some (to_bytes "2")) None []).1 = Ok 2.
Proof.
  split; [|by vm_compute].
  destruct (Select.select_config_file_spec (card := nat) [0; 1; 2] (Some (to_bytes "2")) None [] 2 [])
    as [H _]; [by vm_compute|exact H].
Defined.

#[local] Instance demo_granting : Collect.Granting (W := list answer) (Expiration := Z) := {
  Collect.alice_threshold := 5;
  Collect.alice_shares := 7;
  Collect.alice_federated_only := false;
  Collect.payment_rate := py_ret 1000%Z;
  Collect.load_bob_card _ := py_ret None;
  Collect.prompt_expiration := next_number;
  Collect.prompt_rate := next_number;
  Collect.after_probation e := (100 <? e)%Z;
}.

(** Three shares are given and the default threshold, five, is accepted. *)
Lemma collected_parameters_witness :
  exists p w', Collect.collect_policy_parameters true (Some (to_bytes "l")) None (Some 3%Z) None None (Some 50%Z) []
      = (Ok p, w') /\ p.(Collect.p_shares) = 3%Z /\ p.(Collect.p_threshold) = 5%Z.
Proof.
  eexists _, _. split; [vm_compute; reflexivity|].
  destruct (Collect.collected_parameters true (Some (to_bytes "l")) None (Some 3%Z) None None (Some 50%Z) []
    (Collect.PolicyParameters (to_bytes "l") 5 3 (Some 50%Z) (Some (Some 1000%Z, None))) [])
    as (_ & _ & Hs & _); [by vm_compute|]. specialize (Hs eq_refl). by split.
Defined.

End CliDemo.
