(* ===== verification/Configurations.v ===== *)
(** * nulink/config/base.py and characters.py: making configurations

    The constructors of the three configurations with their keystores,
    registries, connections and signers; the installation of a configuration
    and its validation; restoring one from its file; and the parameters that a
    configuration gives its character.  Files and payloads are in [Config].

    An instance is the dict of its attributes.  The world of a constructor is
    the factory of interfaces, the rest of the world and the file system, as
    in [Signers]; registries that are fetched and signers are objects that
    carry what they were made from.

    The main theorem: a configuration that was made, saved and restored saves
    as the same text.  It rests on what each part of a constructor writes
    ([writes]), on the attributes of a live configuration ([live_attributes])
    and on the export as a function of them ([export]).  Further theorems:
    federated configurations stay offline; a new configuration removes the
    files of peers under its root and no others; the parameters of a character
    are keywords that it takes. *)

From Stdlib Require Import Ascii.
From stdpp Require Import gmap sets.
From S2P Require Import Prelude Text Json Files Registry Powers Keystore Storages Networking Datastore Clients.
From S2P Require Import Transactions Gas Interfaces Signers Config.
#[local] Open Scope nat_scope.

Module Configurations.
Import Config.

(** ** Parameters *)

Definition text (s : string) : value := J (JStr (to_bytes s)).
Definition flag (b : bool) : value := J (JBool b).

(** [v or w]. *)
Definition py_or (v w : value) : value := if value_true v then v else w.

(** The argument of a keyword, or its default. *)
Definition arg (kwargs : fields) (name : string) (default_ : value) : value :=
  default default_ (dict_get kwargs (to_bytes name)).

(** The parameters of [CharacterConfiguration.__init__] and of the classes. *)
Definition character_parameters : list string :=
  ["emitter"; "config_root"; "filepath"; "dev_mode"; "federated_only"; "checksum_address"; "crypto_power"; "keystore";
   "keystore_path"; "learn_on_same_thread"; "abort_on_learning_error"; "start_learning_now"; "controller_port"; "domain";
   "network_middleware"; "lonely"; "known_nodes"; "node_storage"; "reload_metadata"; "save_metadata"; "poa"; "light";
   "eth_provider_uri"; "gas_strategy"; "max_gas_price"; "signer_uri"; "payment_method"; "payment_provider";
   "payment_network"; "registry"; "registry_filepath"; "policy_registry"; "policy_registry_filepath"; "worker_data"]%string.

Definition own_parameters (c : config_class) : list string :=
  match c with
  | UrsulaConfiguration => ["rest_host"; "operator_address"; "db_filepath"; "rest_port"; "certificate"; "availability_check"]
  | AliceConfiguration => ["threshold"; "shares"; "rate"; "duration"; "store_policies"; "store_cards"]
  | BobConfiguration => ["store_policies"; "store_cards"]
  end%string.

Definition parameters (c : config_class) : list bytes := List.map to_bytes (character_parameters ++ own_parameters c).

(** Arguments of the types of their annotations. *)
Definition as_text (v : value) : result bytes := match v with J (JStr s) => Ok s | _ => Raise TypeError end.
Definition as_path (v : value) : result path := match v with P p => Ok p | _ => Raise TypeError end.
Definition as_uri (v : value) : result (option bytes) :=
  match v with J (JStr s) => Ok (Some s) | J JNull | Constant => Ok None | _ => Raise TypeError end.
Definition as_poa (v : value) : result (option bool) :=
  match v with J (JBool b) => Ok (Some b) | J JNull => Ok None | _ => Raise TypeError end.
Definition as_strategy (v : value) : result (option string) :=
  match v with J (JStr s) => Ok (Some (String.string_of_list_ascii s)) | J JNull => Ok None | _ => Raise TypeError end.
Definition as_price (v : value) : result (option Z) :=
  match v with Decimal z | J (JNum z) => Ok (Some z) | J JNull => Ok None | _ => Raise TypeError end.

(** [o.name] of an object. *)
Definition member (o : value) (name : string) : result value :=
  match o with
  | Object _ members => match dict_get members (to_bytes name) with Some v => Ok v | None => Raise AttributeError end
  | _ => Raise AttributeError
  end.

(** *** Constants of the classes *)

Definition DEFAULT_DOMAIN : value := text "mainnet".
Definition DEFAULT_GAS_STRATEGY : value := text "fast".
Definition DEFAULT_PAYMENT_METHOD : value := text "SubscriptionManager".
Definition DEFAULT_PAYMENT_NETWORK : value := text "bsc_testnet".
Definition DEFAULT_FEDERATED_PAYMENT_METHOD : value := text "Free".
Definition DEFAULT_THRESHOLD : value := J (JNum 2).
Definition DEFAULT_SHARES : value := J (JNum 3).
Definition DEFAULT_REST_PORT : value := J (JNum 9151).
Definition DEFAULT_DEVELOPMENT_REST_HOST : value := text "127.0.0.1".
Definition DEFAULT_DEVELOPMENT_REST_PORT : value := J (JNum 10151).
Definition DEFAULT_DB_NAME : string := "ursula.db".

(** Ursula has the [NotImplemented] of the base class. *)
Definition DEFAULT_CONTROLLER_PORT (c : config_class) : value :=
  match c with
  | UrsulaConfiguration => Object "NotImplementedType" []
  | AliceConfiguration => J (JNum 8151)
  | BobConfiguration => J (JNum 7151)
  end.
Definition MNEMONIC_KEYSTORE (c : config_class) : bool :=
  match c with UrsulaConfiguration => true | _ => false end.

(** *** Objects *)

Definition local_registry (filepath : value) : value := Object "LocalContractRegistry" [field "filepath" filepath].
Definition memory_registry (network : value) : value :=
  Object "InMemoryContractRegistry" [field "filepath" (text "::memory::"); field "network" network].
Definition rest_middleware (registry : value) : value := Object "RestMiddleware" [field "registry" registry].
Definition signer_object (uri : value) (testnet : bool) : value :=
  Object "Signer" [field "uri" uri; field "testnet" (flag testnet)].
Definition keystore_object (p : path) (id : bytes) : value :=
  Object "Keystore" [field "keystore_path" (P p); field "id" (J (JStr id))].
(** A [ForgetfulNodeStorage], by its payload. *)
Definition forgetful_storage : value := Storage [field "storage_type" (text ":memory:")].

(** ** The world *)

(** Statements on one of two parts of a state. *)
Definition left_part {S T A} (m : PyM S A) : PyM (S * T) A := fun s => let '(r, x) := m s.1 in (r, (x, s.2)).
Definition right_part {S T A} (m : PyM T A) : PyM (S * T) A := fun s => let '(r, x) := m s.2 in (r, (s.1, x)).

Section Configurations.
Context {W Key Account Pub Cert : Type} `{!EthAccounts Account, !Trezor W, !Web3Providers W, prices : !Gas.PriceSource W}.
Context `{!Crypto W Key, !Umbral W Key Pub, !Tls W Key Pub Cert}.
(** The root of the user's configurations, the sources of published registries
    with the networks that they accept, and [tempfile.mkdtemp]. *)
Variable DEFAULT_CONFIG_ROOT : path.
Variable known_network : string -> bool.
Variable sources : list (Registry.source (W := W)).
Variable mkdtemp : PyM filesystem path.

(** What there is besides the instance, and with it. *)
Notation env := ((Factory.factory (W := W) * W) * filesystem)%type.
Definition EM (A : Type) : Type := PyM env A.
Definition LM (A : Type) : Type := PyM (fields * env) A.

Definition on_attrs {A} (m : AM A) : LM A := left_part m.
Definition on_env {A} (m : EM A) : LM A := right_part m.
Definition on_factory {A} (m : Factory.FM A) : EM A := left_part m.
Definition on_rest {A} (m : PyM W A) : EM A := left_part (right_part m).
Definition on_files {A} (m : PyM filesystem A) : EM A := right_part m.
(** The keystore's world. *)
Definition on_keystores {A} (m : PyM (W * filesystem) A) : EM A := fun e =>
  let '(r, (w, fs)) := m (e.1.2, e.2) in (r, ((e.1.1, w), fs)).
(** The world of the methods in [Config]. *)
Definition in_config {A} (m : CM A) : LM A := fun s =>
  let '(r, (a, fs)) := m (s.1, s.2.2) in (r, (a, (s.2.1, fs))).

Definition self (name : string) : LM value := on_attrs (attr name).
Definition assign (l : fields) : LM unit := on_attrs (modify (fun a => dict_update a l)).

(** ** Collaborators *)

(** [InMemoryContractRegistry.from_latest_publication]. *)
Definition from_latest_publication (network : value) : EM value :=
  name <- lift (as_text network) ;;
  on_rest (Registry.from_latest_publication known_network sources "contract_registry.json" (String.string_of_list_ascii name)
             (Registry.InMemory Registry.MNone true None (Filesystem ∅ ∅))) ;;;
  py_ret (memory_registry network).

(** [Signer.from_signer_uri] of a URI or of [None], which parses as an empty
    one and is passed to [Web3Signer]. *)
Definition from_signer_uri (uri : option bytes) (testnet : bool) : EM (SignerUri.any_signer (Key := Account)) :=
  match uri with
  | Some u => SignerUri.from_signer_uri u testnet
  | None =>
      n <- try_except (on_factory (Factory.get_or_create_interface None (Factory.Kwargs None None None None)))
             [UnsupportedProvider] (fun _ => raise InvalidSignerURI) ;;
      objects <- gets (fun e : env => e.1.1.(Factory.objects)) ;;
      match objects !! n with
      | Some i => py_ret (SignerUri.Web3With i.(Connection.eth_client))
      | None => raise AttributeError
      end
  end.

(** ** Paths and storages of an instance *)

(** [generate_runtime_filepaths]; Ursula makes the directory of her database,
    if she can. *)
Definition generate_runtime_filepaths (c : config_class) (config_root : path) : EM fields :=
  let base_filepaths :=
    [field "config_root" (P config_root);
     field "config_file_location" (P (child config_root (generate_filename c [])));
     field "keystore_dir" (P (child config_root "keystore"))] in
  match c with
  | UrsulaConfiguration =>
      let db_filepath := child config_root DEFAULT_DB_NAME in
      there <- gets (fun e : env => path_exists e.2 db_filepath) ;;
      (if there : bool then py_ret tt
       else try_except (on_files (mkdir_parents db_filepath)) [Exception] (fun _ => py_ret tt)) ;;;
      py_ret (dict_update base_filepaths [field "db_filepath" (P db_filepath)])
  | _ => py_ret base_filepaths
  end.

(** [_cache_runtime_filepaths]. *)
Definition _cache_runtime_filepaths (c : config_class) : LM unit :=
  config_root <- in_config (attr_path "config_root") ;;
  filepaths <- on_env (generate_runtime_filepaths c config_root) ;;
  for_each filepaths (fun kv =>
    v <- on_attrs (fun a => match dict_get a kv.1 with Some v => (Ok v, a) | None => (Raise AttributeError, a) end) ;;
    match v with Constant => assign [kv] | _ => py_ret tt end).

(** [_setup_node_storage]; the storage that it is given is not used. *)
Definition _setup_node_storage : LM unit :=
  root <- self "config_root" ;;
  config_root <- lift match root with P p => Ok (Some p) | Constant => Ok None | _ => Raise TypeError end ;;
  let local_node_storage := Storages._generate_storage_filepaths DEFAULT_CONFIG_ROOT config_root None None None in
  on_env (on_files (Storages.clear local_node_storage true true)) ;;;
  on_env (on_files mkdtemp) ;;;
  assign [field "node_storage" forgetful_storage].

(** ** Installing a configuration *)

(** [write_keystore]. *)
Definition write_keystore (c : config_class) (password : bytes) (key_material : option bytes) : LM unit :=
  keystore_dir <- in_config (attr_path "keystore_dir") ;;
  k <- on_env (on_keystores
         match key_material with
         | Some ((_ :: _) as m) => Keystore.import_secure m password keystore_dir
         | _ => g <- Keystore.generate password keystore_dir (MNEMONIC_KEYSTORE c) ;; py_ret g.1
         end) ;;
  assign [field "keystore" (P k.(Keystore.keystore_path)); field "keystore_id" (J (JStr k.(Keystore.k_id)))].

(** [validate]; the message of a missing path looks for a text in it, which a
    path does not support. *)
Definition validate : LM unit :=
  root <- in_config (attr_path "config_root") ;;
  there <- gets (fun s : fields * env => path_exists s.2.2 root) ;;
  if negb there then raise ConfigurationError
  else for_each ["config_root"; "keystore_dir"; "registry_filepath"]%string (fun name =>
    v <- self name ;;
    if value_true v then
      match v with
      | P p => there <- gets (fun s : fields * env => path_exists s.2.2 p) ;;
               if there : bool then py_ret tt else raise TypeError
      | _ => raise AttributeError
      end
    else py_ret tt).

(** [initialize]; the dicts of a new [ForgetfulNodeStorage] are empty already.
    Returns the root. *)
Definition initialize (c : config_class) (password : bytes) (key_material : option bytes) : LM path :=
  dev_mode <- self "dev_mode" ;;
  (if value_true dev_mode then
     d <- on_env (on_files mkdtemp) ;; assign [field "temp_dir" (P d); field "config_root" (P d)]
   else
     in_config _ensure_config_root_exists ;;;
     write_keystore c password key_material) ;;;
  _cache_runtime_filepaths c ;;;
  self "node_storage" ;;;
  (if value_true dev_mode then py_ret tt else validate) ;;;
  in_config (attr_path "config_root").

(** ** The constructors *)

(** [CharacterConfiguration.__init__] in its parts.  Identity and keystore:
    the keystore is found by its path when none is given. *)
Definition init_keystore (kwargs : fields) : LM unit :=
  let keystore_path := arg kwargs "keystore_path" null in
  keystore <- (if value_true keystore_path && negb (value_true (arg kwargs "keystore" null)) then
                 p <- lift (as_path keystore_path) ;;
                 k <- on_env (on_keystores (Keystore.new_keystore p)) ;;
                 py_ret (keystore_object k.(Keystore.keystore_path) k.(Keystore.k_id))
               else py_ret (arg kwargs "keystore" null)) ;;
  if value_true keystore then
    p <- lift (let? v := member keystore "keystore_path" in as_path v) ;;
    id <- lift (member keystore "id") ;;
    assign [field "keystore" (P p); field "keystore_id" id; field "keystore_dir" (P (parent p))]
  else assign [field "keystore" Constant; field "keystore_dir" Constant].

(** Registries that are given; the error names the two paths, which a text
    cannot be asked for. *)
Definition init_registries (kwargs : fields) : LM unit :=
  let registry := arg kwargs "registry" null in
  let registry_filepath := arg kwargs "registry_filepath" null in
  (if value_true registry && value_true registry_filepath then
     filepath <- lift (member registry "filepath") ;;
     match filepath, registry_filepath with
     | P p, P q => if bool_decide (p <> q) then raise ValueError else py_ret tt
     | _, _ => raise AttributeError
     end
   else py_ret tt) ;;;
  assign [field "registry" (py_or registry Constant);
          field "registry_filepath" (py_or registry_filepath Constant);
          field "policy_registry" (py_or (arg kwargs "policy_registry" null) Constant);
          field "policy_registry_filepath" (py_or (arg kwargs "policy_registry_filepath" null) Constant)].

(** Blockchain, learner, configuration. *)
Definition plain_fields (kwargs : fields) : fields :=
  [field "is_me" (flag true);
   field "checksum_address" (arg kwargs "checksum_address" null);
   field "crypto_power" (arg kwargs "crypto_power" null);
   field "poa" (arg kwargs "poa" null);
   field "is_light" (arg kwargs "light" (flag false));
   field "eth_provider_uri" (py_or (arg kwargs "eth_provider_uri" null) Constant);
   field "signer_uri" (py_or (arg kwargs "signer_uri" null) null);
   field "federated_only" (arg kwargs "federated_only" (flag false));
   field "domain" (arg kwargs "domain" DEFAULT_DOMAIN);
   field "learn_on_same_thread" (arg kwargs "learn_on_same_thread" (flag false));
   field "abort_on_learning_error" (arg kwargs "abort_on_learning_error" (flag false));
   field "start_learning_now" (arg kwargs "start_learning_now" (flag true));
   field "save_metadata" (arg kwargs "save_metadata" (flag true));
   field "reload_metadata" (arg kwargs "reload_metadata" (flag true));
   field "known_nodes" (py_or (arg kwargs "known_nodes" null) (Object "set" []));
   field "lonely" (arg kwargs "lonely" (flag false));
   field "dev_mode" (arg kwargs "dev_mode" (flag false));
   field "config_file_location" (py_or (arg kwargs "filepath" null) Constant);
   field "config_root" Constant;
   field "worker_data" (arg kwargs "worker_data" null)].
Definition init_plain (kwargs : fields) : LM unit := assign (plain_fields kwargs).

(** Federated: any blockchain argument, the default gas strategy too, resets
    the blockchain attributes. *)
Definition init_federated (kwargs : fields) : LM unit :=
  let blockchain_args :=
    [arg kwargs "registry_filepath" null; arg kwargs "poa" null; arg kwargs "eth_provider_uri" null;
     arg kwargs "payment_provider" null; arg kwargs "gas_strategy" DEFAULT_GAS_STRATEGY; arg kwargs "max_gas_price" null] in
  (if existsb value_true blockchain_args then
     assign [field "poa" (flag false); field "is_light" (flag false); field "eth_provider_uri" null;
             field "registry_filepath" null; field "policy_registry_filepath" null; field "gas_strategy" null;
             field "max_gas_price" null]
   else py_ret tt) ;;;
  assign [field "payment_method" (py_or (arg kwargs "payment_method" null) DEFAULT_FEDERATED_PAYMENT_METHOD);
          field "payment_network" (arg kwargs "payment_network" null);
          field "payment_provider" (arg kwargs "payment_provider" null)].

(** The registry in the attribute [registry], when there is none yet. *)
Definition find_registry (registry filepath : string) (network : value) : LM unit :=
  r <- self registry ;;
  if value_true r then py_ret tt
  else
    registry_filepath <- self filepath ;;
    (if value_true registry_filepath then assign [field registry (local_registry registry_filepath)]
     else published <- on_env (from_latest_publication network) ;; assign [field registry published]).

(** Decentralized: the interface of the provider, unless it exists already. *)
Definition init_interface (kwargs : fields) : LM unit :=
  eth_provider_uri <- self "eth_provider_uri" ;;
  uri <- lift (as_uri eth_provider_uri) ;;
  is_initialized <- on_env (on_factory (Factory.is_interface_initialized uri)) ;;
  if negb is_initialized && value_true (arg kwargs "eth_provider_uri" null) then
    poa <- lift (as_poa (arg kwargs "poa" null)) ;;
    gas_strategy <- lift (as_strategy (arg kwargs "gas_strategy" DEFAULT_GAS_STRATEGY)) ;;
    max_gas_price <- lift (as_price (arg kwargs "max_gas_price" null)) ;;
    on_env (on_factory (Factory.initialize_interface uri (Factory.Kwargs poa None gas_strategy max_gas_price)))
  else py_ret tt.

Definition init_signer : LM unit :=
  domain <- self "domain" ;;
  testnet <- lift (let? d := as_text domain in Ok (negb (bool_decide (d = to_bytes "mainnet")))) ;;
  signer_uri <- self "signer_uri" ;;
  uri <- lift (as_uri signer_uri) ;;
  on_env (from_signer_uri uri testnet) ;;;
  assign [field "testnet" (flag testnet); field "signer" (signer_object signer_uri testnet)].

(** Payments and policies, which Bob has not. *)
Definition init_payments (kwargs : fields) : LM unit :=
  eth_provider_uri <- self "eth_provider_uri" ;;
  let payment_network := py_or (arg kwargs "payment_network" null) DEFAULT_PAYMENT_NETWORK in
  assign [field "payment_method" (py_or (arg kwargs "payment_method" null) DEFAULT_PAYMENT_METHOD);
          field "payment_network" payment_network;
          field "payment_provider" (py_or (arg kwargs "payment_provider" null) (py_or eth_provider_uri null))] ;;;
  find_registry "policy_registry" "policy_registry_filepath" payment_network.

Definition init_decentralized (c : config_class) (kwargs : fields) : LM unit :=
  assign [field "gas_strategy" (arg kwargs "gas_strategy" DEFAULT_GAS_STRATEGY);
          field "max_gas_price" (arg kwargs "max_gas_price" null)] ;;;
  init_interface kwargs ;;;
  domain <- self "domain" ;;
  find_registry "registry" "registry_filepath" domain ;;;
  init_signer ;;;
  match c with BobConfiguration => py_ret tt | _ => init_payments kwargs end.

(** The files of the configuration: those of a development configuration are
    temporary.  The storage is set up before they are. *)
Definition init_files (c : config_class) (kwargs : fields) : LM unit :=
  if value_true (arg kwargs "dev_mode" (flag false)) then
    assign [field "temp_dir" Constant] ;;;
    _setup_node_storage ;;;
    initialize c [] None ;;;
    py_ret tt
  else
    assign [field "temp_dir" (Object "LIVE_CONFIGURATION" []);
            field "config_root" (py_or (arg kwargs "config_root" null) (P DEFAULT_CONFIG_ROOT))] ;;;
    _cache_runtime_filepaths c ;;;
    _setup_node_storage.

(** Network, and [BaseConfiguration.__init__]. *)
Definition init_base (c : config_class) (kwargs : fields) : LM unit :=
  registry <- self "registry" ;;
  assign [field "controller_port" (py_or (arg kwargs "controller_port" null) (DEFAULT_CONTROLLER_PORT c));
          field "network_middleware" (py_or (arg kwargs "network_middleware" null) (rest_middleware registry))] ;;;
  filepath <- self "config_file_location" ;;
  config_root <- self "config_root" ;;
  let config_root := py_or config_root (P DEFAULT_CONFIG_ROOT) in
  assign [field "config_root" config_root] ;;;
  (if value_true filepath then assign [field "filepath" filepath]
   else root <- lift (as_path config_root) ;; assign [field "filepath" (P (child root (generate_filename c [])))]).

Definition character_init (c : config_class) (kwargs : fields) : LM unit :=
  if negb (forallb (fun k => bool_decide (k ∈ parameters c)) kwargs.*1) then raise TypeError
  else
    init_keystore kwargs ;;;
    init_registries kwargs ;;;
    init_plain kwargs ;;;
    (if value_true (arg kwargs "federated_only" (flag false)) then init_federated kwargs
     else init_decentralized c kwargs) ;;;
    init_files c kwargs ;;;
    init_base c kwargs.

(** [UrsulaConfiguration.__init__]. *)
Definition ursula_init (kwargs : fields) : LM unit :=
  let rest_host := arg kwargs "rest_host" null in
  let rest_port := arg kwargs "rest_port" null in
  let dev_mode := value_true (arg kwargs "dev_mode" (flag false)) in
  if negb dev_mode && negb (value_true rest_host) then raise ValueError
  else
    let availability_check := arg kwargs "availability_check" null in
    assign [field "rest_port" (py_or rest_port (if dev_mode then DEFAULT_DEVELOPMENT_REST_PORT else DEFAULT_REST_PORT));
            field "rest_host" (py_or rest_host DEFAULT_DEVELOPMENT_REST_HOST);
            field "certificate" (arg kwargs "certificate" null);
            field "db_filepath" (py_or (arg kwargs "db_filepath" null) Constant);
            field "operator_address" (arg kwargs "operator_address" null);
            field "availability_check" (match availability_check with J JNull => flag false | _ => availability_check end)] ;;;
    character_init UrsulaConfiguration kwargs.

(** [AliceConfiguration.__init__]. *)
Definition alice_init (kwargs : fields) : LM unit :=
  character_init AliceConfiguration kwargs ;;;
  assign [field "store_policies" (arg kwargs "store_policies" (flag true));
          field "store_cards" (arg kwargs "store_cards" (flag true));
          field "rate" (arg kwargs "rate" null);
          field "duration" (arg kwargs "duration" null);
          field "threshold" (py_or (arg kwargs "threshold" null) DEFAULT_THRESHOLD);
          field "shares" (py_or (arg kwargs "shares" null) DEFAULT_SHARES)].

(** [BobConfiguration.__init__]. *)
Definition bob_init (kwargs : fields) : LM unit :=
  character_init BobConfiguration kwargs ;;;
  assign [field "store_policies" (arg kwargs "store_policies" (flag true));
          field "store_cards" (arg kwargs "store_cards" (flag true))].

Definition init (c : config_class) (kwargs : fields) : LM unit :=
  match c with
  | UrsulaConfiguration => ursula_init kwargs
  | AliceConfiguration => alice_init kwargs
  | BobConfiguration => bob_init kwargs
  end.

(** [cls( **kwargs)]: the attributes of a new instance. *)
Definition construct (c : config_class) (kwargs : fields) : EM fields := fun e =>
  match init c kwargs ([], e) with
  | (Ok _, (a, e')) => (Ok a, e')
  | (Raise x, (_, e')) => (Raise x, e')
  end.

(** ** Alternative constructors and methods *)

(** A method of an instance. *)
Definition with_self {A} (a : fields) (m : LM A) : EM (A * fields) := fun e =>
  match m (a, e) with
  | (Ok x, (a', e')) => (Ok (x, a'), e')
  | (Raise x, (_, e')) => (Raise x, e')
  end.

(** [generate]: the keyword [dev_mode] is set already. *)
Definition generate (c : config_class) (password : bytes) (key_material : option bytes) (kwargs : fields) : EM fields :=
  if dict_mem kwargs (to_bytes "dev_mode") then raise TypeError
  else
    node_config <- construct c (kwargs ++ [field "dev_mode" (flag false)]) ;;
    x <- with_self node_config (initialize c password key_material) ;;
    py_ret x.2.

(** [default_filepath] of the default root. *)
Definition default_filepath (c : config_class) : path := child DEFAULT_CONFIG_ROOT (generate_filename c []).

(** [from_configuration_file]. *)
Definition from_configuration_file (c : config_class) (filepath : option path) (overrides : fields) : EM fields :=
  let filepath := default (default_filepath c) filepath in
  assembled_params <- on_files (assemble c filepath overrides) ;;
  if dict_mem assembled_params (to_bytes "filepath") then raise TypeError
  else construct c (field "filepath" (P filepath) :: assembled_params).

(** [checksum_address_from_filepath].  Characters of a name are letters, digits
    and underscores, of the first 256 code points. *)
Definition is_word (c : ascii) : bool :=
  let n := N_of_ascii c in
  Connection.is_letter c || Datastore.is_digit c || bool_decide (c = "_"%char) ||
  bool_decide (n ∈ [170; 178; 179; 181; 185; 186; 188; 189; 190]%N) ||
  (192 <=? n)%N && negb (bool_decide (n ∈ [215; 247]%N)).

Fixpoint span (f : ascii -> bool) (s : bytes) : bytes * bytes :=
  match s with
  | c :: s' => if f c then let '(a, b) := span f s' in (c :: a, b) else ([], s)
  | [] => ([], [])
  end.

(** The match of the pattern: the address after a name and a dash. *)
Definition matched_address (filename : bytes) : option bytes :=
  match span is_word filename with
  | (_ :: _, "-"%char :: "0"%char :: "x"%char :: rest) =>
      let digits := take 40 rest in
      if (length digits =? 40) && forallb is_hexdigit digits then Some (to_bytes "0x" ++ digits) else None
  | _ => None
  end.

Definition checked (v : value) : PyM filesystem bytes :=
  match v with
  | J (JStr a) => if is_checksum_address (Key := Account) a then py_ret a else raise RuntimeError
  | _ => raise RuntimeError
  end.

Definition checksum_address_from_filepath (c : config_class) (filepath : path) : PyM filesystem bytes :=
  match c with
  | UrsulaConfiguration =>
      checksum_address <- peek c filepath (to_bytes "checksum_address") ;;
      federated <- peek c filepath (to_bytes "federated_only") ;;
      checksum_address <- (if value_true federated then py_ret checksum_address
                           else peek c filepath (to_bytes "operator_address")) ;;
      checked checksum_address
  | _ =>
      let filename := Keystore.name_of filepath in
      checksum_address <-
        match matched_address filename with
        | Some a => py_ret (J (JStr a))
        | None => if bool_decide (filename = to_bytes (generate_filename c []))
                  then peek c filepath (to_bytes "checksum_address") else raise ValueError
        end ;;
      checked checksum_address
  end.

(** [configure_payment_method]; an on-chain method fetches the registry that it
    is not given. *)
Definition PAYMENT_METHODS : list (bytes * bool) :=
  [(to_bytes "Free", false); (to_bytes "SubscriptionManager", true)].

Definition configure_payment_method : LM value :=
  payment_method <- self "payment_method" ;;
  match (match payment_method with J (JStr s) => dict_get PAYMENT_METHODS s | _ => None end) with
  | None => raise KeyError
  | Some false => py_ret (Object "FreeReencryptions" [])
  | Some true =>
      payment_network <- self "payment_network" ;;
      payment_provider <- self "payment_provider" ;;
      policy_registry <- self "policy_registry" ;;
      registry <- (if value_true policy_registry then py_ret policy_registry
                   else on_env (from_latest_publication payment_network)) ;;
      py_ret (Object "SubscriptionManagerPayment"
                [field "provider" payment_provider; field "network" payment_network; field "registry" registry])
  end.

(** ** The parameters of a character *)

(** What is passed: attributes; the keystore, as its owner has left it; and
    the powers that are derived from it. *)
Inductive parameter :=
  | Plain (v : value)
  | TheKeystore (k : option Keystore.keystore)
  | PowerUps (l : list (Powers.power Key Pub Cert)).

Definition powerups (c : config_class) : list Powers.power_class :=
  match c with
  | AliceConfiguration => [Powers.SigningPower; Powers.DecryptingPower; Powers.DelegatingPower]
  | _ => [Powers.SigningPower; Powers.DecryptingPower]
  end.

(** [derive_node_power_ups]. *)
Fixpoint derive_powers (k : Keystore.keystore) (classes : list Powers.power_class) : PyM W (list (Powers.power Key Pub Cert)) :=
  match classes with
  | [] => py_ret []
  | power_class :: classes' =>
      power_up <- Keystore.derive_crypto_power power_class "" k ;;
      rest <- derive_powers k classes' ;;
      py_ret (power_up :: rest)
  end.

Definition derive_node_power_ups (c : config_class) (keystore : option Keystore.keystore)
    : LM (list (Powers.power Key Pub Cert)) :=
  dev_mode <- self "dev_mode" ;;
  if value_true dev_mode then py_ret []
  else match keystore with
       | Some k => on_env (on_rest (derive_powers k (powerups c)))
       | None => raise AttributeError
       end.

Definition plain (l : fields) : list (bytes * parameter) := (fun kv => (kv.1, Plain kv.2)) <$> l.

(** [dynamic_payload] of the base class, and of the classes: their own fields
    are evaluated first. *)
Definition character_dynamic_payload (c : config_class) (keystore : option Keystore.keystore) : LM (list (bytes * parameter)) :=
  federated_only <- self "federated_only" ;;
  objects <- (if value_true federated_only then py_ret []
              else registry <- self "registry" ;; signer <- self "signer" ;;
                   py_ret (plain [field "registry" registry; field "signer" signer])) ;;
  network_middleware <- self "network_middleware" ;;
  known_nodes <- self "known_nodes" ;;
  node_storage <- self "node_storage" ;;
  powers <- derive_node_power_ups c keystore ;;
  py_ret (dict_update objects
    (plain [field "network_middleware" (py_or network_middleware (rest_middleware null)); field "known_nodes" known_nodes;
            field "node_storage" node_storage] ++
     [(to_bytes "keystore", TheKeystore keystore); (to_bytes "crypto_power_ups", PowerUps powers)])).

Definition dynamic_payload (c : config_class) (keystore : option Keystore.keystore) : LM (list (bytes * parameter)) :=
  own <- match c with
         | UrsulaConfiguration =>
             network_middleware <- self "network_middleware" ;;
             certificate <- self "certificate" ;;
             payment_method <- configure_payment_method ;;
             py_ret [field "network_middleware" network_middleware; field "certificate" certificate;
                     field "payment_method" payment_method]
         | AliceConfiguration =>
             payment_method <- configure_payment_method ;; py_ret [field "payment_method" payment_method]
         | BobConfiguration => py_ret []
         end ;;
  base <- character_dynamic_payload c keystore ;;
  py_ret (dict_update base (plain own)).

(** [_CONFIG_FIELDS]: what is not for the character. *)
Definition _CONFIG_FIELDS (c : config_class) : list bytes := List.map to_bytes
  (["config_root"; "poa"; "light"; "registry_filepath"; "gas_strategy"; "max_gas_price"; "signer_uri"; "keystore_path";
    "payment_provider"; "payment_network"]%string ++
   match c with UrsulaConfiguration => [] | _ => ["store_policies"; "store_cards"]%string end).

(** [generate_parameters]. *)
Definition generate_parameters (c : config_class) (keystore : option Keystore.keystore) (overrides : list (bytes * parameter))
    : LM (list (bytes * parameter)) :=
  static <- on_attrs (static_payload c) ;;
  dynamic <- dynamic_payload c keystore ;;
  let merged_parameters := dict_update (dict_update (plain static) dynamic) overrides in
  py_ret (filter (fun kv => kv.1 ∉ _CONFIG_FIELDS c) merged_parameters).

(** The keywords of the constructors of the characters: their own, the base
    character's and the learner's, but those that the classes pass on
    themselves. *)
Definition learner_keywords : list string :=
  ["start_learning_now"; "learn_on_same_thread"; "known_nodes"; "seed_nodes"; "node_storage"; "save_metadata";
   "abort_on_learning_error"; "lonely"; "verify_node_bonding"]%string.
Definition base_keywords : list string :=
  ["domain"; "is_me"; "federated_only"; "checksum_address"; "network_middleware"; "keystore"; "crypto_power";
   "crypto_power_ups"; "eth_provider_uri"; "signer"; "registry"]%string.
Definition own_keywords (c : config_class) : list string :=
  match c with
  | AliceConfiguration => ["threshold"; "shares"; "rate"; "duration"; "payment_method"; "store_policy_credentials";
                           "store_character_cards"; "timeout"; "controller"; "include_self_in_the_state"]
  | BobConfiguration => ["controller"; "include_self_in_the_state"]
  | UrsulaConfiguration => ["rest_host"; "rest_port"; "certificate"; "certificate_filepath"; "db_filepath";
                            "availability_check"; "metadata"; "operator_address"; "client_password";
                            "operator_signature_from_metadata"; "payment_method"]
  end%string.
Definition character_keywords (c : config_class) : list bytes :=
  List.map to_bytes (own_keywords c ++ base_keywords ++ learner_keywords).

(** ** Removing *)

(** [TemporaryDirectory.cleanup]: the directory and all that is in it. *)
Definition rmtree (d : path) (fs : filesystem) : filesystem :=
  Filesystem (filter (fun kv => ~ d `prefix_of` kv.1) fs.(regular)) (filter (fun p => ~ d `prefix_of` p) fs.(directories)).

Definition cleanup : LM unit :=
  dev_mode <- self "dev_mode" ;;
  if value_true dev_mode then
    temp_dir <- self "temp_dir" ;;
    match temp_dir with P d => on_env (on_files (modify (rmtree d))) | _ => raise AttributeError end
  else py_ret tt.

(** [destroy]; Ursula's database is removed when it is a file. *)
Definition destroy (c : config_class) : LM unit :=
  match c with
  | UrsulaConfiguration =>
      db_filepath <- in_config (attr_path "db_filepath") ;;
      there <- gets (fun s : fields * env => is_file s.2.2 db_filepath) ;;
      if there : bool then on_env (on_files (unlink db_filepath)) else py_ret tt
  | _ => py_ret tt
  end ;;;
  location <- in_config (attr_path "config_file_location") ;;
  on_env (on_files (unlink location)).


(** ** What an instance exports, by its attributes *)

(** Attributes by their names. *)
Definition view : Type := string -> value.
Definition view_of (a : fields) : view := fun n => default Constant (dict_get a (to_bytes n)).

Definition fields_of (g : view) (names : list string) : fields := (fun n => field n (g n)) <$> names.

Definition character_names : list string :=
  ["federated_only"; "checksum_address"]%string.
Definition behavior_names : list string :=
  ["domain"; "learn_on_same_thread"; "abort_on_learning_error"; "start_learning_now"; "save_metadata"]%string.
Definition payment_names : list string := ["payment_network"; "payment_provider"; "payment_method"]%string.

(** The payload of the base class. *)
Definition main_fields (g : view) (keystore_path : value) (storage_payload : fields) : fields :=
  fields_of g character_names ++ [field "keystore_path" keystore_path] ++ fields_of g behavior_names ++
  [field "node_storage" (D storage_payload); field "lonely" (g "lonely"%string)].

Definition character_export (g : view) : result fields :=
  let? keystore_path := text_or_none (g "keystore"%string) in
  let? storage_payload := match g "node_storage"%string with Storage m => Ok m | _ => Raise AttributeError end in
  let payload := main_fields g keystore_path storage_payload in
  if value_true (g "federated_only"%string) then Ok payload
  else
    let uri := g "eth_provider_uri"%string in
    let payload := if value_true uri
      then dict_update payload [field "eth_provider_uri" uri; field "poa" (g "poa"%string);
                                field "light" (g "is_light"%string); field "signer_uri" (py_or (g "signer_uri"%string) uri)]
      else payload in
    let payload := if value_true (g "registry_filepath"%string)
      then dict_update payload (fields_of g ["registry_filepath"%string]) else payload in
    let? max_price := text_or_none (g "max_gas_price"%string) in
    Ok (dict_update payload [field "gas_strategy" (g "gas_strategy"%string); field "max_gas_price" max_price]).

(** What a class adds. *)
Definition when (b : bool) (l : list string) : list string := if b then l else [].
Definition own_names (c : config_class) (g : view) : list string :=
  match c with
  | UrsulaConfiguration => ["operator_address"; "rest_host"; "rest_port"; "db_filepath"; "availability_check";
                            "payment_method"; "payment_provider"; "payment_network"]%string
  | AliceConfiguration =>
      let optional n := when (negb (value_true (g "federated_only"%string)) && value_true (g n)) [n] in
      ["threshold"; "shares"; "store_policies"; "store_cards"; "payment_network"; "payment_provider"; "payment_method"]%string ++
      optional "rate"%string ++ optional "duration"%string
  | BobConfiguration => ["store_policies"; "store_cards"]%string
  end.

Definition export (c : config_class) (g : view) : result fields :=
  let? base := character_export g in Ok (dict_update base (fields_of g (own_names c g))).

(** The attributes that are read. *)
Definition base_attributes : list string :=
  (["federated_only"; "checksum_address"; "domain"; "learn_on_same_thread"; "abort_on_learning_error";
    "start_learning_now"; "save_metadata"; "lonely"; "keystore"; "node_storage"; "config_root"])%string.
Definition chain_attributes : list string :=
  ["eth_provider_uri"; "signer_uri"; "poa"; "is_light"; "registry_filepath"; "gas_strategy"; "max_gas_price"]%string.
Definition class_attributes (c : config_class) : list string :=
  match c with
  | UrsulaConfiguration => ["operator_address"; "rest_host"; "rest_port"; "db_filepath"; "availability_check";
                            "payment_method"; "payment_provider"; "payment_network"]
  | AliceConfiguration => ["threshold"; "shares"; "store_policies"; "store_cards"; "rate"; "duration";
                           "payment_network"; "payment_provider"; "payment_method"]
  | BobConfiguration => ["store_policies"; "store_cards"]
  end%string.

Definition has (a : fields) (n : string) : Prop := is_Some (dict_get a (to_bytes n)).
Definition complete (c : config_class) (a : fields) : Prop :=
  (forall n, n ∈ base_attributes -> has a n) /\ (forall n, n ∈ class_attributes c -> has a n) /\
  (value_true (view_of a "federated_only") = false -> forall n, n ∈ chain_attributes -> has a n).

Lemma attr_view a n : has a n -> attr n a = (Ok (view_of a n), a).
Proof. intros [v Hv]. unfold attr, view_of. by rewrite Hv. Qed.

Lemma bind_attr {A} (k : value -> AM A) a n : has a n -> py_bind (attr n) k a = k (view_of a n) a.
Proof. intros H. unfold py_bind. by rewrite attr_view. Qed.

Lemma bind_lift {S A B} (r : result A) (k : A -> PyM S B) s :
  py_bind (lift r) k s = match r with Ok x => k x s | Raise e => (Raise e, s) end.
Proof. by destruct r. Qed.

(** Setting another attribute. *)
Lemma has_set a n m v : has a n -> has (dict_set a (to_bytes m) v) n.
Proof. unfold has. rewrite dict_get_set. case_decide; [by eexists|done]. Qed.
Lemma view_set a n m v : to_bytes n <> to_bytes m -> view_of (dict_set a (to_bytes m) v) n = view_of a n.
Proof. intros Hne. unfold view_of. by rewrite dict_get_set_ne by congruence. Qed.
Lemma view_set_eq a m v : view_of (dict_set a (to_bytes m) v) m = v.
Proof. unfold view_of. by rewrite dict_get_set_eq. Qed.

Lemma bind_assoc {S A B C} (m : PyM S A) (k : A -> PyM S B) (h : B -> PyM S C) s :
  py_bind (py_bind m k) h s = py_bind m (fun x => py_bind (k x) h) s.
Proof. unfold py_bind. by destruct (m s) as [[|] ?]. Qed.
Lemma bind_ret {S A B} (x : A) (k : A -> PyM S B) s : py_bind (py_ret x) k s = k x s.
Proof. done. Qed.
Lemma bind_set {A} (k : unit -> AM A) n v a : py_bind (set_attr n v) k a = k tt (dict_set a (to_bytes n) v).
Proof. done. Qed.

Ltac reads :=
  repeat first
    [ rewrite bind_attr by (first [assumption|apply has_set; assumption])
    | rewrite bind_lift | rewrite bind_assoc | rewrite bind_ret | rewrite bind_set
    | rewrite view_set by (apply (bool_decide_unpack _); vm_compute; exact I)
    | rewrite view_set_eq ].

(** The listed attributes are there. *)
Ltac all_there H := repeat match type of H with
  | forall n, n ∈ ?x :: ?l -> _ =>
      let H1 := fresh "Hhas" in let H2 := fresh in
      assert (H1 := H x (list_elem_of_here x l)); assert (H2 : forall n, n ∈ l -> has _ n) by (intros ? ?; apply H; by right);
      clear H; rename H2 into H
  end.

Lemma character_payload_export a :
  (forall n, n ∈ base_attributes -> has a n) ->
  (value_true (view_of a "federated_only") = false -> forall n, n ∈ chain_attributes -> has a n) ->
  exists a', character_payload a = (character_export (view_of a), a').
Proof.
  intros Hb Hc. unfold base_attributes in Hb. all_there Hb. unfold character_payload, character_export. reads.
  destruct (text_or_none (view_of a "keystore")) as [keystore_path|]; [|by eexists]. reads.
  destruct (view_of a "node_storage") as [| | | |storage| |]; try by eexists. cbn [rbind]. reads.
  destruct (value_true (view_of a "federated_only")); [reads; by eexists|].
  specialize (Hc eq_refl). unfold chain_attributes in Hc. all_there Hc. reads.
  unfold py_or. destruct (value_true (view_of a "eth_provider_uri")); reads;
    [destruct (value_true (view_of a "signer_uri")); reads|];
    (destruct (text_or_none (view_of a "max_gas_price")); [reads|]); by eexists.
Qed.

Lemma static_payload_export c a : complete c a -> exists a', static_payload c a = (export c (view_of a), a').
Proof.
  intros (Hb & Ho & Hc). destruct (character_payload_export a Hb Hc) as [a' H]. assert (Hf := Hb "federated_only"%string ltac:(left)).
  assert (forall (k : fields -> fields), py_bind character_payload (fun base => py_ret (k base)) a =
            ((let? base := character_export (view_of a) in Ok (k base)), a')) as Hbase.
  { intros k. unfold py_bind. rewrite H. by destruct (character_export (view_of a)). }
  exists a'. unfold export. destruct c; cbn [static_payload]; unfold class_attributes in Ho; all_there Ho.
  - unfold ursula_payload. reads. apply Hbase.
  - unfold alice_payload, own_names. reads. destruct (value_true (view_of a "federated_only")); reads; [apply Hbase|].
    destruct (value_true (view_of a "rate")), (value_true (view_of a "duration")); reads; apply Hbase.
  - unfold bob_payload. reads. apply Hbase.
Qed.

Ltac member_of := repeat first [apply list_elem_of_here|apply list_elem_of_further].

Lemma Ok_inj {A} (x y : A) : Ok x = Ok y -> x = y.
Proof. by intros [=]. Qed.

(** ** Payloads that are written as the same text *)

Definition similar (x y : bytes * value) : Prop := x.1 = y.1 /\ to_json x.2 = to_json y.2.
Definition same_text : fields -> fields -> Prop := Forall2 similar.

Lemma same_text_items l l' : same_text l l' -> to_items l = to_items l'.
Proof.
  induction 1 as [|[k v] [k' v'] l l' [Hk Hv] _ IH]; [done|]. cbn in Hk, Hv. subst k'. cbn [to_items]. by rewrite Hv, IH.
Qed.

Lemma same_text_set l l' k v v' :
  same_text l l' -> to_json v = to_json v' -> same_text (dict_set l k v) (dict_set l' k v').
Proof.
  intros Hl Hv. induction Hl as [|[k1 v1] [k2 v2] l l' [Hk Hv1] Hl IH]; cbn [dict_set]; [by repeat constructor|].
  cbn in Hk, Hv1. subst k2. case_decide; by repeat constructor.
Qed.

Lemma same_text_update l l' e e' : same_text l l' -> same_text e e' -> same_text (dict_update l e) (dict_update l' e').
Proof.
  intros Hl He. revert l l' Hl. induction He as [|[k v] [k' v'] e e' [Hk Hv] _ IH]; intros l l' Hl; [done|].
  cbn in Hk, Hv. subst k'. apply IH. by apply same_text_set.
Qed.

Lemma same_text_fields g h names :
  (forall n, n ∈ names -> to_json (g n) = to_json (h n)) -> same_text (fields_of g names) (fields_of h names).
Proof.
  intros H. induction names as [|n names IH]; [constructor|]. constructor; [split; [done|apply H; left]|].
  apply IH. intros m Hm. apply H. by right.
Qed.

(** Views that export the same. *)
Record alike (c : config_class) (g h : view) : Prop := Alike {
  alike_mode : value_true (g "federated_only"%string) = value_true (h "federated_only"%string);
  alike_base : forall n, n ∈ character_names ++ behavior_names ++ ["lonely"%string] -> to_json (g n) = to_json (h n);
  alike_keystore : text_or_none (g "keystore"%string) = text_or_none (h "keystore"%string);
  alike_storage : g "node_storage"%string = h "node_storage"%string;
  alike_own : own_names c g = own_names c h;
  alike_class : forall n, n ∈ own_names c g -> to_json (g n) = to_json (h n);
  alike_chain : value_true (g "federated_only"%string) = false ->
    to_json (g "gas_strategy"%string) = to_json (h "gas_strategy"%string) /\
    text_or_none (g "max_gas_price"%string) = text_or_none (h "max_gas_price"%string) /\
    value_true (g "registry_filepath"%string) = value_true (h "registry_filepath"%string) /\
    (value_true (g "registry_filepath"%string) = true ->
       to_json (g "registry_filepath"%string) = to_json (h "registry_filepath"%string)) /\
    value_true (g "eth_provider_uri"%string) = value_true (h "eth_provider_uri"%string) /\
    (value_true (g "eth_provider_uri"%string) = true ->
       (forall n, n ∈ ["eth_provider_uri"; "poa"; "is_light"]%string -> to_json (g n) = to_json (h n)) /\
       to_json (py_or (g "signer_uri"%string) (g "eth_provider_uri"%string)) =
         to_json (py_or (h "signer_uri"%string) (h "eth_provider_uri"%string)));
}.

Lemma character_export_alike c g h pl :
  alike c g h -> character_export g = Ok pl -> exists pl', character_export h = Ok pl' /\ same_text pl pl'.
Proof.
  intros [Hm Hb Hk Hs _ _ Hc]. unfold character_export. rewrite <- Hk, <- Hs, <- Hm.
  destruct (text_or_none (g "keystore"%string)) as [keystore_path|]; [|done].
  destruct (g "node_storage"%string) as [| | | |storage| |]; try done. cbn [rbind].
  assert (same_text (main_fields g keystore_path storage) (main_fields h keystore_path storage)) as Hp.
  { unfold main_fields. apply Forall2_app; [apply same_text_fields; intros n Hn; apply Hb, elem_of_app; by left|].
    apply Forall2_app; [by repeat constructor|].
    apply Forall2_app; [apply same_text_fields; intros n Hn; apply Hb, elem_of_app; right; apply elem_of_app; by left|].
    repeat constructor. apply Hb, elem_of_app. right. apply elem_of_app. right. left. }
  destruct (value_true (g "federated_only"%string)); [intros <-%Ok_inj; by eexists|].
  destruct (Hc eq_refl) as (Hgas & Hmax & Hr & Hr' & He & He'). rewrite <- Hmax.
  destruct (text_or_none (g "max_gas_price"%string)) as [max_price|]; [|done]. cbn [rbind]. intros <-%Ok_inj.
  eexists. split; [reflexivity|]. apply same_text_update; [|by repeat constructor].
  rewrite <- Hr, <- He.
  match goal with |- same_text (if _ then dict_update ?x _ else _) (if _ then dict_update ?y _ else _) =>
    assert (same_text x y) as Hxy
  end.
  { destruct (value_true (g "eth_provider_uri"%string)); [|done]. destruct (He' eq_refl) as [Hn Hsig].
    apply same_text_update; [done|]. repeat constructor; cbn [field snd]; [apply Hn; member_of..|done]. }
  destruct (value_true (g "registry_filepath"%string)); [|done]. apply same_text_update; [done|].
  apply same_text_fields. intros n ->%list_elem_of_singleton. by apply Hr'.
Qed.

Lemma export_alike c g h pl :
  alike c g h -> export c g = Ok pl -> exists pl', export c h = Ok pl' /\ same_text pl pl'.
Proof.
  intros Ha. unfold export. destruct (character_export g) as [base|] eqn:Hb; [|done]. cbn [rbind]. intros <-%Ok_inj.
  destruct (character_export_alike c g h base Ha Hb) as (base' & -> & Hs). eexists. split; [reflexivity|].
  rewrite <- (alike_own _ _ _ Ha). apply same_text_update; [done|]. apply same_text_fields. apply (alike_class _ _ _ Ha).
Qed.

(** The text that an instance is saved as. *)
Definition saved_text (c : config_class) (a : fields) : result bytes := (serialize c a).1.

Lemma saved_text_export c a :
  complete c a ->
  saved_text c a =
    let? payload := export c (view_of a) in
    let? items := to_items payload in
    Ok (dumps_indent INDENTATION (JObj (dict_set items (to_bytes "version") (JNum VERSION)))).
Proof.
  intros Hc. destruct (static_payload_export c a Hc) as [a' H]. unfold saved_text, serialize, py_bind at 1. rewrite H.
  destruct (export c (view_of a)) as [payload|]; [|done]. cbn [rbind]. rewrite bind_lift. by destruct (to_items payload).
Qed.

Lemma saved_text_alike c a b t :
  complete c a -> complete c b -> alike c (view_of a) (view_of b) -> saved_text c a = Ok t -> saved_text c b = Ok t.
Proof.
  intros Ha Hb Hab. rewrite !saved_text_export by done.
  destruct (export c (view_of a)) as [pl|] eqn:Hpl; [|done].
  destruct (export_alike c _ _ _ Hab Hpl) as (pl' & -> & Hs). cbn [rbind]. by rewrite (same_text_items _ _ Hs).
Qed.

(** ** What the constructors set

    [writes K m]: no attribute but those of [K] is changed by [m], whatever
    becomes of it. *)

Lemma to_bytes_inj n m : to_bytes n = to_bytes m -> n = m.
Proof.
  intros H. apply (f_equal String.string_of_list_ascii) in H. unfold to_bytes in H.
  by rewrite !String.string_of_list_ascii_of_string in H.
Qed.

Definition names (l : list string) : list bytes := List.map to_bytes l.

Definition writes {A} (K : list bytes) (m : LM A) : Prop :=
  forall k v, k ∉ K -> preserves (fun s => dict_get s.1 k = v) m.

Lemma writes_get {A} K (m : LM A) s r s' k : writes K m -> m s = (r, s') -> k ∉ K -> dict_get s'.1 k = dict_get s.1 k.
Proof. intros Hw Hm Hk. pose proof (Hw k (dict_get s.1 k) Hk s eq_refl) as H. by rewrite Hm in H. Qed.

Lemma writes_env {A} k v (m : EM A) : preserves (fun s => dict_get s.1 k = v) (on_env m).
Proof. intros [a e] H. unfold on_env, right_part. cbn [fst snd]. by destruct (m e). Qed.
Lemma writes_self k v n : preserves (fun s => dict_get s.1 k = v) (self n).
Proof. intros [a e] H. unfold self, on_attrs, left_part, attr. cbn [fst snd]. by destruct (dict_get a (to_bytes n)). Qed.
Lemma writes_path k v n : preserves (fun s => dict_get s.1 k = v) (in_config (attr_path n)).
Proof.
  intros [a [e fs]] H. unfold in_config. cbn [fst snd]. match goal with |- context [attr_path n ?s] =>
    pose proof (attr_path_pure n s) as Hp; destruct (attr_path n s) as [r [a' fs']]
  end.
  cbn [snd] in Hp. injection Hp as -> ->. exact H.
Qed.

(** Lists of names that are known. *)
Lemma subset_by (l K : list bytes) : forallb (fun k => bool_decide (k ∈ K)) l = true -> forall k, k ∈ l -> k ∈ K.
Proof. intros H k Hk%list_elem_of_In. rewrite forallb_forall in H. exact (bool_decide_eq_true_1 _ (H k Hk)). Qed.
Lemma disjoint_by (l K : list bytes) : forallb (fun k => negb (bool_decide (k ∈ K))) l = true -> forall k, k ∈ l -> k ∉ K.
Proof.
  intros H k Hk%list_elem_of_In. rewrite forallb_forall in H. by apply H, negb_true_iff, bool_decide_eq_false in Hk.
Qed.

Lemma disjoint_app (l K K' : list bytes) :
  forallb (fun k => negb (bool_decide (k ∈ K ++ K'))) l = true ->
  forallb (fun k => negb (bool_decide (k ∈ K))) l = true /\ forallb (fun k => negb (bool_decide (k ∈ K'))) l = true.
Proof.
  intros H. pose proof (disjoint_by _ _ H) as Hd.
  split; apply forallb_forall; intros k Hk%list_elem_of_In%Hd; apply negb_true_iff, bool_decide_eq_false; intros Hin;
    apply Hk, elem_of_app; auto.
Qed.

Lemma dict_get_update_other (a l : fields) k : k ∉ l.*1 -> dict_get (dict_update a l) k = dict_get a k.
Proof.
  revert a. induction l as [|[k' v] l IH]; intros a Hk; [done|]. csimpl in Hk. apply not_elem_of_cons in Hk as [Hne Hk].
  change (dict_get (dict_update (dict_set a k' v) l) k = dict_get a k). by rewrite IH, dict_get_set_ne by congruence.
Qed.

Lemma writes_assign (K : list bytes) (l : fields) k v :
  forallb (fun k => bool_decide (k ∈ K)) l.*1 = true -> k ∉ K -> preserves (fun s => dict_get s.1 k = v) (assign l).
Proof.
  intros Hl Hk [a e] H. unfold assign, on_attrs, left_part, modify. cbn [fst snd] in *.
  rewrite dict_get_update_other; [done|]. intros Hin. by apply (keys_by _ _ Hl) in Hin.
Qed.

Ltac writing :=
  intros ? ? ?;
  preserve_with ltac:(first [apply writes_env|apply writes_self|apply writes_path
                            |match goal with H : _ ∉ ?K |- _ => apply (writes_assign K); [vm_compute; reflexivity|exact H] end]).

(** The attributes that each part sets. *)
Definition keystore_names : list bytes := names ["keystore"; "keystore_id"; "keystore_dir"]%string.
Definition registry_names : list bytes :=
  names ["registry"; "registry_filepath"; "policy_registry"; "policy_registry_filepath"]%string.
Definition federated_names : list bytes :=
  names ["poa"; "is_light"; "eth_provider_uri"; "registry_filepath"; "policy_registry_filepath"; "gas_strategy";
         "max_gas_price"; "payment_method"; "payment_network"; "payment_provider"]%string.
Definition decentralized_names : list bytes :=
  names ["gas_strategy"; "max_gas_price"; "registry"; "testnet"; "signer"; "payment_method"; "payment_network";
         "payment_provider"; "policy_registry"]%string.
Definition file_names : list bytes :=
  names ["temp_dir"; "config_root"; "config_file_location"; "keystore_dir"; "db_filepath"; "node_storage"]%string.
Definition base_names : list bytes := names ["controller_port"; "network_middleware"; "config_root"; "filepath"]%string.

Lemma writes_keystore kwargs : writes keystore_names (init_keystore kwargs).
Proof. unfold init_keystore. writing. Qed.
Lemma writes_registries kwargs : writes registry_names (init_registries kwargs).
Proof. unfold init_registries. writing. Qed.
Definition plain_names : list bytes := (plain_fields []).*1.
Lemma writes_plain kwargs : writes plain_names (init_plain kwargs).
Proof. unfold init_plain. writing. Qed.
Lemma writes_federated kwargs : writes federated_names (init_federated kwargs).
Proof. unfold init_federated. writing. Qed.
Lemma writes_decentralized c kwargs : writes decentralized_names (init_decentralized c kwargs).
Proof. unfold init_decentralized, init_interface, find_registry, init_signer, init_payments, find_registry. writing. Qed.
Lemma writes_base c kwargs : writes base_names (init_base c kwargs).
Proof. unfold init_base. writing. Qed.

Lemma writes_weaken {A} K K' (m : LM A) : writes K m -> (forall k, k ∈ K -> k ∈ K') -> writes K' m.
Proof. intros Hw HK k v Hk. apply Hw. intros Hin. by apply Hk, HK. Qed.

Lemma writes_mode c kwargs (federated : bool) :
  writes (federated_names ++ decentralized_names) (if federated then init_federated kwargs else init_decentralized c kwargs).
Proof.
  destruct federated; eapply writes_weaken; [apply writes_federated| |apply writes_decentralized|];
    intros k Hk; apply elem_of_app; auto.
Qed.

(** *** The paths of a configuration *)

Definition runtime_filepaths (c : config_class) (root : path) : fields :=
  [field "config_root" (P root); field "config_file_location" (P (child root (generate_filename c [])));
   field "keystore_dir" (P (child root "keystore"))] ++
  match c with UrsulaConfiguration => [field "db_filepath" (P (child root DEFAULT_DB_NAME))] | _ => [] end.

(** Making the paths never fails, and neither files nor directories further
    down are changed. *)
Lemma generate_runtime_ok c root (e : env) :
  exists dirs, generate_runtime_filepaths c root e = (Ok (runtime_filepaths c root), (e.1, Filesystem e.2.(regular) dirs)) /\
    forall d, S (length root) < length d -> d ∈ dirs <-> d ∈ e.2.(directories).
Proof.
  destruct e as [e [files dirs]]. destruct c; try (by exists dirs). unfold generate_runtime_filepaths, py_bind, gets.
  cbn [fst snd]. destruct (path_exists _ _); [by exists dirs|].
  unfold try_except, on_files, right_part. cbn [fst snd]. unfold mkdir_parents.
  destruct (is_file _ _); [by exists dirs|]. destruct (existsb _ _); [by exists dirs|]. eexists. split; [reflexivity|].
  cbn [fst snd directories]. intros d Hd. rewrite elem_of_union, elem_of_list_to_set. split; [|by right]. intros [Hp|Hp]; [|done].
  unfold prefixes in Hp. apply list_elem_of_fmap in Hp as (n & -> & _).
  rewrite length_take in Hd. unfold child in Hd. rewrite length_app in Hd. cbn in Hd. lia.
Qed.

(** What is there of an attribute that a path is cached for. *)
Definition cached_value (old : option value) (p : option value) : option value :=
  match old, p with Some Constant, Some v => Some v | _, _ => old end.

Definition cache_field (kv : bytes * value) : LM unit :=
  v <- on_attrs (fun a => match dict_get a kv.1 with Some v => (Ok v, a) | None => (Raise AttributeError, a) end) ;;
  match v with Constant => assign [kv] | _ => py_ret tt end.

Lemma cache_field_ok kv s s' :
  cache_field kv s = (Ok tt, s') ->
  s'.2 = s.2 /\ forall k, dict_get s'.1 k = cached_value (dict_get s.1 k) (if decide (k = kv.1) then Some kv.2 else None).
Proof.
  destruct s as [a e], kv as [k0 v0]. unfold cache_field, py_bind, on_attrs, left_part. cbn [fst snd].
  destruct (dict_get a k0) as [v|] eqn:Hv; [|done]. intros H.
  assert (v = Constant /\ s' = (dict_set a k0 v0, e) \/ v <> Constant /\ s' = (a, e)) as [[-> ->]|[Hne ->]].
  { destruct v; try (right; by injection H as <-). left. by injection H as <-. }
  - split; [done|]. intros k. cbn [fst]. rewrite dict_get_set. case_decide; [subst; by rewrite Hv|].
    by destruct (dict_get a k) as [[]|].
  - split; [done|]. intros k. cbn [fst]. case_decide; [subst; rewrite Hv; by destruct v|by destruct (dict_get a k) as [[]|]].
Qed.

Lemma cache_fields_ok l s s' :
  NoDup l.*1 -> for_each l cache_field s = (Ok tt, s') ->
  s'.2 = s.2 /\ forall k, dict_get s'.1 k = cached_value (dict_get s.1 k) (dict_get l k).
Proof.
  revert s. induction l as [|[k0 v0] l IH]; intros s Hnd; cbn [for_each].
  - intros [= <-]. split; [done|]. intros k. by destruct (dict_get s.1 k) as [[]|].
  - csimpl in Hnd. apply NoDup_cons in Hnd as [Hk0 Hnd].
    intros ([] & s1 & H1 & [He Hk]%IH)%py_bind_returned; [|done]. apply cache_field_ok in H1 as [He1 Hk1].
    split; [congruence|]. intros k. rewrite Hk, Hk1. cbn [fst snd dict_get].
    destruct (decide (k = k0)) as [->|Hne]; [|by destruct (dict_get s.1 k) as [[]|]].
    apply dict_get_None in Hk0 as ->.
    destruct (dict_get s.1 k0) as [[]|]; try done; by destruct v0.
Qed.

Lemma runtime_filepaths_nodup c root : NoDup (runtime_filepaths c root).*1.
Proof. destruct c; apply (bool_decide_unpack _); vm_compute; exact I. Qed.

Lemma attr_path_ok name (a : fields) (e : env) p s' :
  in_config (attr_path name) (a, e) = (Ok p, s') -> s' = (a, e) /\ dict_get a (to_bytes name) = Some (P p).
Proof.
  destruct e as [e fs]. unfold in_config, attr_path, py_bind, on_self, in_world, attr. cbn [fst snd].
  destruct (dict_get a (to_bytes name)) as [[]|]; try done. by intros [= -> <-].
Qed.

Lemma cache_runtime_ok c s s' :
  _cache_runtime_filepaths c s = (Ok tt, s') ->
  s'.2.1 = s.2.1 /\ s'.2.2.(regular) = s.2.2.(regular) /\
  exists root, dict_get s.1 (to_bytes "config_root") = Some (P root) /\
    (forall d, S (length root) < length d -> is_dir s'.2.2 d = is_dir s.2.2 d) /\
    forall k, dict_get s'.1 k = cached_value (dict_get s.1 k) (dict_get (runtime_filepaths c root) k).
Proof.
  destruct s as [a e]. unfold _cache_runtime_filepaths.
  intros (root & s1 & Hr & H)%py_bind_returned. apply attr_path_ok in Hr as [-> Hroot].
  apply py_bind_returned in H as (paths & s2 & Hp & H). unfold on_env, right_part in Hp. cbn [fst snd] in Hp.
  destruct (generate_runtime_ok c root e) as (dirs & Hg & Hdirs). rewrite Hg in Hp. injection Hp as <- <-.
  apply cache_fields_ok in H as [He Hk]; [|apply runtime_filepaths_nodup].
  rewrite He. cbn [fst snd] in *. split; [done|]. split; [done|]. exists root.
  split; [done|]. split; [|done]. intros d Hd. apply bool_decide_ext. by apply Hdirs.
Qed.

(** The attribute that was just assigned. *)
Ltac got := cbn [fst snd]; rewrite dict_get_update by (apply (bool_decide_unpack _); vm_compute; exact I).

(** *** The parts of a constructor, one after the other *)

Lemma assigned l (s : fields * env) r s' : assign l s = (r, s') -> s' = (dict_update s.1 l, s.2).
Proof. by intros [= _ <-]. Qed.

(** A live configuration's files. *)
Lemma init_files_ok c kwargs s s' :
  value_true (arg kwargs "dev_mode" (flag false)) = false -> init_files c kwargs s = (Ok tt, s') ->
  s'.2.1 = s.2.1 /\ dict_get s'.1 (to_bytes "node_storage") = Some forgetful_storage /\
  exists root, py_or (arg kwargs "config_root" null) (P DEFAULT_CONFIG_ROOT) = P root /\
    dict_get s'.1 (to_bytes "config_root") = Some (P root) /\
    forall k, k ∉ names ["temp_dir"; "config_root"; "node_storage"]%string ->
      dict_get s'.1 k = cached_value (dict_get s.1 k) (dict_get (runtime_filepaths c root) k).
Proof.
  intros Hdev. unfold init_files. rewrite Hdev. destruct s as [a e].
  intros ([] & s1 & ->%assigned & H)%py_bind_returned. apply py_bind_returned in H as ([] & s2 & H2 & H).
  apply cache_runtime_ok in H2 as (He2 & _ & root & Hroot & _ & Hk2). cbn [fst snd] in *.
  unfold _setup_node_storage in H. apply py_bind_returned in H as (v & s3 & Hv & H).
  assert (s3 = s2) as ->.
  { unfold self, on_attrs, left_part, attr in Hv. destruct s2 as [a2 e2]. cbn [fst snd] in Hv.
    destruct (dict_get a2 _); by injection Hv as _ <-. }
  rewrite bind_lift in H. destruct (match v with P p => _ | Constant => _ | _ => _ end) as [r|]; [|done].
  apply py_bind_returned in H as ([] & s4 & H4 & H). apply py_bind_returned in H as (d & s5 & H5 & ->%assigned).
  assert (forall B (m : PyM filesystem B) (t t' : fields * env) x, on_env (on_files m) t = (Ok x, t') ->
            t'.1 = t.1 /\ t'.2.1 = t.2.1) as Hfiles.
  { intros B m [a0 [e0 fs0]] t' x. unfold on_env, on_files, right_part. cbn [fst snd].
    destruct (m fs0) as [y fs1]. by intros [= _ <-]. }
  apply Hfiles in H4 as [Ha4 He4]. apply Hfiles in H5 as [Ha5 He5]. cbn [fst snd].
  split; [congruence|]. rewrite Ha5, Ha4. split; [cbn [dict_update foldl fst snd field]; by rewrite dict_get_set_eq|].
  rewrite dict_get_update in Hroot by (apply (bool_decide_unpack _); vm_compute; exact I).
  exists root. assert (py_or (arg kwargs "config_root" null) (P DEFAULT_CONFIG_ROOT) = P root) as Hpr by (by injection Hroot).
  split; [done|]. split.
  - cbn [dict_update foldl fst snd field]. rewrite dict_get_set_ne by (apply (bool_decide_unpack _); vm_compute; exact I).
    rewrite Hk2. rewrite dict_get_update by (apply (bool_decide_unpack _); vm_compute; exact I). by rewrite Hroot.
  - intros k Hk. rewrite dict_get_update_other by (csimpl; intros ->%list_elem_of_singleton; apply Hk; right; right; left).
    rewrite Hk2. rewrite dict_get_update_other; [done|]. csimpl. intros [->|[->|[]%elem_of_nil]%elem_of_cons]%elem_of_cons;
      apply Hk; [left|right; left].
Qed.

Lemma keystore_members p id :
  member (keystore_object p id) "keystore_path" = Ok (P p) /\ member (keystore_object p id) "id" = Ok (J (JStr id)).
Proof. done. Qed.

Lemma init_keystore_ok kwargs s s' :
  value_true (arg kwargs "keystore" null) = false -> init_keystore kwargs s = (Ok tt, s') ->
  dict_get s'.1 (to_bytes "keystore") = Some (py_or (arg kwargs "keystore_path" null) Constant).
Proof.
  intros Hk. unfold init_keystore. rewrite Hk, andb_true_r. intros (k & s1 & H1 & H)%py_bind_returned. unfold py_or.
  destruct (value_true (arg kwargs "keystore_path" null)) eqn:Hp.
  - destruct (arg kwargs "keystore_path" null) as [|p| | | | |]; try done. cbn [as_path] in H1. rewrite bind_lift in H1.
    apply py_bind_returned in H1 as (k1 & s2 & H1 & H2). injection H2 as <- <-.
    assert (k1.(Keystore.keystore_path) = p) as Hkp.
    { unfold on_env, on_keystores, right_part, Keystore.new_keystore, py_bind in H1. cbn [fst snd] in H1.
      destruct (Keystore._parse_path p _) as [[parts|] [w fs]]; [|done]. by injection H1 as <- _. }
    rewrite Hkp in H. destruct (keystore_members p (Keystore.k_id k1)) as [Hm1 Hm2].
    change (value_true (keystore_object p (Keystore.k_id k1))) with true in H. cbv iota in H.
    rewrite bind_lift, Hm1 in H. cbn [rbind as_path] in H. rewrite bind_lift, Hm2 in H. apply assigned in H as ->. by got.
  - injection H1 as <- <-. rewrite Hk in H. apply assigned in H as ->. by got.
Qed.

Definition federated_payments (kwargs : fields) : fields :=
  [field "payment_method" (py_or (arg kwargs "payment_method" null) DEFAULT_FEDERATED_PAYMENT_METHOD);
   field "payment_network" (arg kwargs "payment_network" null);
   field "payment_provider" (arg kwargs "payment_provider" null)].
Definition decentralized_payments (kwargs : fields) (eth_provider_uri : value) : fields :=
  [field "payment_method" (py_or (arg kwargs "payment_method" null) DEFAULT_PAYMENT_METHOD);
   field "payment_network" (py_or (arg kwargs "payment_network" null) DEFAULT_PAYMENT_NETWORK);
   field "payment_provider" (py_or (arg kwargs "payment_provider" null) (py_or eth_provider_uri null))].

(** [has_all s l]: the attributes of [l] have these values. *)
Definition has_all (s : fields * env) (l : fields) : Prop := forall k v, dict_get l k = Some v -> dict_get s.1 k = Some v.

Lemma has_all_assigned l (s s' : fields * env) r : NoDup l.*1 -> assign l s = (r, s') -> has_all s' l.
Proof. intros Hl ->%assigned k v Hk. cbn [fst]. by rewrite dict_get_update, Hk. Qed.

Lemma has_all_kept {A} K (m : LM A) s r s' l :
  writes K m -> m s = (r, s') -> forallb (fun k => negb (bool_decide (k ∈ K))) l.*1 = true -> has_all s l -> has_all s' l.
Proof.
  intros Hw Hm Hl Hs k v Hk. rewrite (writes_get _ _ _ _ _ _ Hw Hm); [by apply Hs|].
  apply (disjoint_by _ _ Hl). apply dict_get_is_Some. by exists v.
Qed.

Lemma has_all_sub s (l l' : fields) : Forall (fun kv => dict_get l kv.1 = Some kv.2) l' -> has_all s l -> has_all s l'.
Proof.
  intros Hl Hs k v Hk. apply Hs. apply dict_get_elem_of in Hk. rewrite Forall_forall in Hl. by apply (Hl (k, v)).
Qed.

Lemma has_all_app s (l l' : fields) : has_all s l -> has_all s l' -> has_all s (l ++ l').
Proof.
  intros Hl Hl' k v Hk.
  assert (dict_get (l ++ l') k = match dict_get l k with Some u => Some u | None => dict_get l' k end) as Happ.
  { clear. induction l as [|[k0 v0] l IH]; [done|]. cbn [app dict_get]. by case_decide. }
  rewrite Happ in Hk. destruct (dict_get l k) eqn:Hlk; [|by apply Hl']. apply Hl. congruence.
Qed.

Ltac distinct := apply (bool_decide_unpack _); vm_compute; exact I.

Lemma self_ok n (s : fields * env) v s' : self n s = (Ok v, s') -> s' = s /\ dict_get s.1 (to_bytes n) = Some v.
Proof.
  destruct s as [a e]. unfold self, on_attrs, left_part, attr. cbn [fst snd].
  destruct (dict_get a (to_bytes n)); [|done]. by intros [= -> <-].
Qed.

Lemma init_federated_ok kwargs s s' : init_federated kwargs s = (Ok tt, s') -> has_all s' (federated_payments kwargs).
Proof.
  unfold init_federated. intros ([] & s1 & _ & H)%py_bind_returned. eapply has_all_assigned; [|exact H]. distinct.
Qed.

Lemma writes_find_registry registry filepath network : writes (names [registry]) (find_registry registry filepath network).
Proof.
  unfold find_registry. intros k v Hk.
  preserve_with ltac:(first [apply writes_env|apply writes_self|
    apply (writes_assign (names [registry])); [cbn [field fmap list_fmap fst forallb names List.map]; by rewrite bool_decide_eq_true_2 by left|exact Hk]]).
Qed.

Lemma init_payments_ok kwargs (s s' : fields * env) u :
  dict_get s.1 (to_bytes "eth_provider_uri") = Some u -> init_payments kwargs s = (Ok tt, s') ->
  has_all s' (decentralized_payments kwargs u).
Proof.
  unfold init_payments. intros Hu (v & s1 & [-> Hv]%self_ok & H)%py_bind_returned. rewrite Hu in Hv. injection Hv as <-.
  apply py_bind_returned in H as ([] & s2 & H2 & H).
  eapply has_all_kept; [apply writes_find_registry|exact H|vm_compute; reflexivity|].
  eapply has_all_assigned; [|exact H2]. distinct.
Qed.

Definition gas_fields (kwargs : fields) : fields :=
  [field "gas_strategy" (arg kwargs "gas_strategy" DEFAULT_GAS_STRATEGY); field "max_gas_price" (arg kwargs "max_gas_price" null)].

Definition connected_names : list bytes :=
  names ["registry"; "testnet"; "signer"; "payment_method"; "payment_network"; "payment_provider"; "policy_registry"]%string.

Lemma init_decentralized_ok c kwargs (s s' : fields * env) u :
  dict_get s.1 (to_bytes "eth_provider_uri") = Some u -> init_decentralized c kwargs s = (Ok tt, s') ->
  has_all s' (gas_fields kwargs) /\ (c <> BobConfiguration -> has_all s' (decentralized_payments kwargs u)).
Proof.
  unfold init_decentralized. intros Hu ([] & s1 & H1 & H)%py_bind_returned.
  assert (has_all s1 (gas_fields kwargs)) as Hgas by (eapply has_all_assigned; [|exact H1]; distinct).
  apply assigned in H1 as ->.
  match type of H with ?m _ = _ => assert (writes connected_names m) as Hw end.
  { unfold init_interface, find_registry, init_signer, init_payments, find_registry. writing. }
  split; [eapply has_all_kept; [exact Hw|exact H|vm_compute; reflexivity|done]|]. intros Hc.
  apply py_bind_returned in H as ([] & s2 & H2 & H). apply py_bind_returned in H as (d & s3 & [-> _]%self_ok & H).
  apply py_bind_returned in H as ([] & s4 & H4 & H). apply py_bind_returned in H as ([] & s5 & H5 & H).
  assert (dict_get s5.1 (to_bytes "eth_provider_uri") = Some u) as Hu5.
  { assert (writes (names ["registry"; "testnet"; "signer"]%string) init_signer) as Hws by (unfold init_signer; writing).
    assert (writes [] (init_interface kwargs)) as Hwi by (unfold init_interface; writing).
    rewrite (writes_get _ _ _ _ _ _ Hws H5), (writes_get _ _ _ _ _ _ (writes_find_registry _ _ _) H4),
      (writes_get _ _ _ _ _ _ Hwi H2) by distinct.
    cbn [fst]. by rewrite dict_get_update_other by distinct. }
  destruct c; [|..|done]; by eapply init_payments_ok.
Qed.

(** *** A live configuration *)

Definition kept_fields (kwargs : fields) : fields :=
  [field "federated_only" (arg kwargs "federated_only" (flag false));
   field "checksum_address" (arg kwargs "checksum_address" null);
   field "domain" (arg kwargs "domain" DEFAULT_DOMAIN);
   field "learn_on_same_thread" (arg kwargs "learn_on_same_thread" (flag false));
   field "abort_on_learning_error" (arg kwargs "abort_on_learning_error" (flag false));
   field "start_learning_now" (arg kwargs "start_learning_now" (flag true));
   field "save_metadata" (arg kwargs "save_metadata" (flag true));
   field "lonely" (arg kwargs "lonely" (flag false));
   field "dev_mode" (arg kwargs "dev_mode" (flag false))].
Definition uri_fields (kwargs : fields) : fields :=
  [field "eth_provider_uri" (py_or (arg kwargs "eth_provider_uri" null) Constant);
   field "signer_uri" (py_or (arg kwargs "signer_uri" null) null);
   field "poa" (arg kwargs "poa" null);
   field "is_light" (arg kwargs "light" (flag false))].
Definition registry_field (kwargs : fields) : fields :=
  [field "registry_filepath" (py_or (arg kwargs "registry_filepath" null) Constant)].
Definition keystore_field (kwargs : fields) : fields :=
  [field "keystore" (py_or (arg kwargs "keystore_path" null) Constant)].

Lemma has_all_files c kwargs (s s' : fields * env) l :
  value_true (arg kwargs "dev_mode" (flag false)) = false -> init_files c kwargs s = (Ok tt, s') ->
  forallb (fun k => negb (bool_decide (k ∈ file_names))) l.*1 = true -> has_all s l -> has_all s' l.
Proof.
  intros Hdev H Hl Hs k v Hk. apply init_files_ok in H as (_ & _ & root & _ & _ & Hget); [|done].
  assert (k ∉ file_names) as Hin by (apply (disjoint_by _ _ Hl), dict_get_is_Some; by exists v).
  rewrite Hget, (Hs k v Hk); [|intros Hi; apply Hin; refine (subset_by _ file_names _ k Hi); vm_compute; reflexivity].
  assert (dict_get (runtime_filepaths c root) k = None) as ->; [|by destruct v].
  apply dict_get_None. intros Hi. apply Hin. refine (subset_by _ file_names _ k Hi). destruct c; vm_compute; reflexivity.
Qed.

Lemma init_base_root c kwargs (s s' : fields * env) r :
  dict_get s.1 (to_bytes "config_root") = Some (P r) -> init_base c kwargs s = (Ok tt, s') ->
  dict_get s'.1 (to_bytes "config_root") = Some (P r).
Proof.
  unfold init_base. intros Hr (v & s1 & [-> _]%self_ok & H)%py_bind_returned.
  apply py_bind_returned in H as ([] & s2 & ->%assigned & H). apply py_bind_returned in H as (fp & s3 & [-> _]%self_ok & H).
  apply py_bind_returned in H as (r' & s4 & [-> Hr']%self_ok & H).
  cbn [fst] in Hr'. rewrite dict_get_update_other, Hr in Hr' by distinct. injection Hr' as <-.
  apply py_bind_returned in H as ([] & s5 & ->%assigned & H). cbn [fst snd] in H.
  match type of H with ?m _ = _ => assert (writes (names ["filepath"%string]) m) as Hw by writing end.
  rewrite (writes_get _ _ _ _ _ _ Hw H) by distinct. by got.
Qed.

Lemma init_registries_ok kwargs s s' : init_registries kwargs s = (Ok tt, s') -> has_all s' (registry_field kwargs).
Proof.
  unfold init_registries. intros ([] & s1 & _ & H)%py_bind_returned.
  eapply has_all_sub; [|eapply has_all_assigned; [|exact H]; distinct]. by repeat constructor.
Qed.

(** The other attributes are those that were set before, or paths. *)
Definition touched_names : list bytes :=
  keystore_names ++ registry_names ++ plain_names ++ federated_names ++ decentralized_names ++
  names ["temp_dir"; "config_root"; "node_storage"]%string ++ base_names.

(** The attributes of a live configuration that is given no keystore object. *)
Lemma character_init_ok c kwargs (s s' : fields * env) :
  value_true (arg kwargs "dev_mode" (flag false)) = false -> value_true (arg kwargs "keystore" null) = false ->
  character_init c kwargs s = (Ok tt, s') ->
  let federated := value_true (arg kwargs "federated_only" (flag false)) in
  has_all s' (kept_fields kwargs ++ keystore_field kwargs ++ [field "node_storage" forgetful_storage]) /\
  (federated = true -> has_all s' (federated_payments kwargs)) /\
  (federated = false ->
     has_all s' (uri_fields kwargs ++ registry_field kwargs ++ gas_fields kwargs) /\
     (c <> BobConfiguration -> has_all s' (decentralized_payments kwargs (py_or (arg kwargs "eth_provider_uri" null) Constant)))) /\
  exists root, py_or (arg kwargs "config_root" null) (P DEFAULT_CONFIG_ROOT) = P root /\
    dict_get s'.1 (to_bytes "config_root") = Some (P root) /\
    forall k, k ∉ touched_names ->
      dict_get s'.1 k = cached_value (dict_get s.1 k) (dict_get (runtime_filepaths c root) k).
Proof.
  intros Hdev Hks H federated. unfold character_init in H. destruct (forallb _ _); [|done]. cbn [negb] in H.
  apply py_bind_returned in H as ([] & s1 & H1 & H). pose proof (init_keystore_ok _ _ _ Hks H1) as Hk.
  apply py_bind_returned in H as ([] & s2 & H2 & H). apply py_bind_returned in H as ([] & s3 & H3 & H).
  apply py_bind_returned in H as ([] & s4 & H4 & H). apply py_bind_returned in H as ([] & s5 & H5 & H6).
  assert (has_all s1 (keystore_field kwargs)) as K1.
  { intros k v. unfold keystore_field, field. cbn [dict_get]. case_decide; [subst; by intros [= <-]|done]. }
  assert (has_all s3 (plain_fields kwargs)) as K3 by (eapply has_all_assigned; [|exact H3]; distinct).
  assert (forall l, forallb (fun k => negb (bool_decide (k ∈ file_names ++ base_names))) l.*1 = true ->
            has_all s4 l -> has_all s' l) as Htail.
  { intros l [Hf Hb]%disjoint_app Hs. eapply has_all_kept; [apply writes_base|exact H6|exact Hb|].
    by eapply has_all_files; [exact Hdev|exact H5|..]. }
  assert (forall l, forallb (fun k => negb (bool_decide (k ∈ federated_names ++ decentralized_names))) l.*1 = true ->
            has_all s3 l -> has_all s4 l) as Hmode by (intros l Hl; eapply has_all_kept; [apply writes_mode|exact H4|exact Hl]).
  assert (has_all s3 (keystore_field kwargs)) as K1'.
  { eapply has_all_kept; [apply writes_plain|exact H3|vm_compute; reflexivity|].
    eapply has_all_kept; [apply writes_registries|exact H2|vm_compute; reflexivity|done]. }
  destruct (init_files_ok _ _ _ _ Hdev H5) as (_ & Hns & root & Hroot & Hroot5 & Hfiles).
  split; [|split; [|split]].
  - apply has_all_app; [|apply has_all_app].
    + apply Htail; [vm_compute; reflexivity|]. apply Hmode; [vm_compute; reflexivity|].
      eapply has_all_sub; [|exact K3]. by repeat constructor.
    + apply Htail; [vm_compute; reflexivity|]. by apply Hmode; [vm_compute; reflexivity|].
    + eapply has_all_kept; [apply writes_base|exact H6|vm_compute; reflexivity|].
      intros k v. unfold field. cbn [dict_get]. case_decide; [subst; by intros [= <-]|done].
  - intros Hfed. unfold federated in Hfed. rewrite Hfed in H4. apply Htail; [vm_compute; reflexivity|]. by eapply init_federated_ok.
  - intros Hfed. unfold federated in Hfed. rewrite Hfed in H4.
    assert (dict_get s3.1 (to_bytes "eth_provider_uri") = Some (py_or (arg kwargs "eth_provider_uri" null) Constant)) as Hu
      by (by apply K3).
    destruct (init_decentralized_ok _ _ _ _ _ Hu H4) as [Hgas Hpay]. split.
    + apply has_all_app; [|apply has_all_app].
      * apply Htail; [vm_compute; reflexivity|].
        eapply has_all_kept; [apply writes_decentralized|exact H4|vm_compute; reflexivity|].
        eapply has_all_sub; [|exact K3]. by repeat constructor.
      * apply Htail; [vm_compute; reflexivity|].
        eapply has_all_kept; [apply writes_decentralized|exact H4|vm_compute; reflexivity|].
        eapply has_all_kept; [apply writes_plain|exact H3|vm_compute; reflexivity|].
        by eapply init_registries_ok.
      * apply Htail; [vm_compute; reflexivity|done].
    + intros Hc. apply Htail; [vm_compute; reflexivity|]. by apply Hpay.
  - exists root. split; [done|]. split; [by eapply init_base_root|]. intros k Hkn. unfold touched_names in Hkn.
    do 6 (apply not_elem_of_app in Hkn as [? Hkn]).
    by rewrite (writes_get _ _ _ _ _ _ (writes_base _ _) H6), Hfiles, (writes_get _ _ _ _ _ _ (writes_mode _ _ _) H4),
      (writes_get _ _ _ _ _ _ (writes_plain _) H3), (writes_get _ _ _ _ _ _ (writes_registries _) H2),
      (writes_get _ _ _ _ _ _ (writes_keystore _) H1) by (first [done|by apply not_elem_of_app]).
Qed.

(** What Ursula sets first. *)
Definition ursula_fields (kwargs : fields) : fields :=
  [field "rest_port" (py_or (arg kwargs "rest_port" null) DEFAULT_REST_PORT);
   field "rest_host" (py_or (arg kwargs "rest_host" null) DEFAULT_DEVELOPMENT_REST_HOST);
   field "certificate" (arg kwargs "certificate" null);
   field "db_filepath" (py_or (arg kwargs "db_filepath" null) Constant);
   field "operator_address" (arg kwargs "operator_address" null);
   field "availability_check" (match arg kwargs "availability_check" null with
                               J JNull => flag false | _ => arg kwargs "availability_check" null end)].

Definition class_fields (c : config_class) (kwargs : fields) (root : path) : fields :=
  match c with
  | UrsulaConfiguration =>
      [field "rest_port" (py_or (arg kwargs "rest_port" null) DEFAULT_REST_PORT);
       field "rest_host" (py_or (arg kwargs "rest_host" null) DEFAULT_DEVELOPMENT_REST_HOST);
       field "certificate" (arg kwargs "certificate" null);
       field "operator_address" (arg kwargs "operator_address" null);
       field "availability_check" (match arg kwargs "availability_check" null with
                                     J JNull => flag false | _ => arg kwargs "availability_check" null end);
       field "db_filepath" (default Constant (cached_value (Some (py_or (arg kwargs "db_filepath" null) Constant))
                              (Some (P (child root DEFAULT_DB_NAME)))))]
  | AliceConfiguration =>
      [field "store_policies" (arg kwargs "store_policies" (flag true));
       field "store_cards" (arg kwargs "store_cards" (flag true));
       field "rate" (arg kwargs "rate" null);
       field "duration" (arg kwargs "duration" null);
       field "threshold" (py_or (arg kwargs "threshold" null) DEFAULT_THRESHOLD);
       field "shares" (py_or (arg kwargs "shares" null) DEFAULT_SHARES)]
  | BobConfiguration =>
      [field "store_policies" (arg kwargs "store_policies" (flag true));
       field "store_cards" (arg kwargs "store_cards" (flag true))]
  end.

(** All that a live configuration has of what it exports. *)
Definition live_attributes (c : config_class) (kwargs : fields) (s : fields * env) : Prop :=
  let federated := value_true (arg kwargs "federated_only" (flag false)) in
  has_all s (kept_fields kwargs ++ keystore_field kwargs ++ [field "node_storage" forgetful_storage]) /\
  (federated = true -> has_all s (federated_payments kwargs)) /\
  (federated = false ->
     has_all s (uri_fields kwargs ++ registry_field kwargs ++ gas_fields kwargs) /\
     (c <> BobConfiguration -> has_all s (decentralized_payments kwargs (py_or (arg kwargs "eth_provider_uri" null) Constant)))) /\
  exists root, py_or (arg kwargs "config_root" null) (P DEFAULT_CONFIG_ROOT) = P root /\
    has_all s (field "config_root" (P root) :: class_fields c kwargs root).

Lemma has_all_cons (s : fields * env) k v l : dict_get s.1 k = Some v -> has_all s l -> has_all s ((k, v) :: l).
Proof. intros Hk Hl k' v'. cbn [dict_get]. case_decide; [by subst; intros [= <-]|apply Hl]. Qed.

Lemma has_all_later (s : fields * env) l l' :
  forallb (fun k => negb (bool_decide (k ∈ l'.*1))) l.*1 = true -> has_all s l -> has_all (dict_update s.1 l', s.2) l.
Proof.
  intros Hd Hl k v Hk. cbn [fst]. rewrite dict_get_update_other; [by apply Hl|].
  apply (disjoint_by _ _ Hd), dict_get_is_Some. by exists v.
Qed.

Lemma cached_value_some v p : cached_value (Some v) p = Some (default Constant (cached_value (Some v) p)).
Proof. by destruct v, p. Qed.
Lemma cached_value_none v : default Constant (cached_value (Some v) None) = v.
Proof. by destruct v. Qed.

(** The class's attributes, set after the character's. *)
Lemma later_class c kwargs (s s1 s' : fields * env) :
  value_true (arg kwargs "dev_mode" (flag false)) = false -> value_true (arg kwargs "keystore" null) = false ->
  character_init c kwargs s = (Ok tt, s1) -> c <> UrsulaConfiguration ->
  s' = (dict_update s1.1 (class_fields c kwargs []), s1.2) -> live_attributes c kwargs s'.
Proof.
  intros Hdev Hks H Hc ->. destruct (character_init_ok _ _ _ _ Hdev Hks H) as (H1 & H2 & H3 & root & Hr & Hr' & _).
  assert (forall l, forallb (fun k => negb (bool_decide (k ∈ (class_fields c kwargs []).*1))) l.*1 = true ->
            has_all s1 l -> has_all (dict_update s1.1 (class_fields c kwargs []), s1.2) l) as Hl by (intros l; apply has_all_later).
  split; [by apply Hl; [destruct c|]|]. split; [intros Hf; apply Hl; [by destruct c|auto]|].
  split; [intros Hf; destruct (H3 Hf); split; [by apply Hl; [destruct c|]|intros Hb; apply Hl; [by destruct c|auto]]|].
  exists root. split; [done|]. apply has_all_cons.
  - cbn [fst]. rewrite dict_get_update_other; [done|]. destruct c; [done|distinct..].
  - assert (class_fields c kwargs root = class_fields c kwargs []) as -> by (by destruct c).
    intros k v Hk. cbn [fst]. rewrite dict_get_update by (destruct c; distinct). by rewrite Hk.
Qed.

Theorem live_configuration c kwargs e s' :
  value_true (arg kwargs "dev_mode" (flag false)) = false -> value_true (arg kwargs "keystore" null) = false ->
  init c kwargs ([], e) = (Ok tt, s') -> live_attributes c kwargs s'.
Proof.
  intros Hdev Hks. destruct c; cbn [init].
  - unfold ursula_init. rewrite Hdev. cbn [negb andb]. destruct (value_true (arg kwargs "rest_host" null)) eqn:Hhost; [|done].
    cbn [negb]. intros ([] & s1 & ->%assigned & H)%py_bind_returned.
    destruct (character_init_ok _ _ _ _ Hdev Hks H) as (H1 & H2 & H3 & root & Hr & Hr' & Hget).
    do 3 (split; [done|]). exists root. split; [done|]. apply has_all_cons; [done|].
    assert (forall k v, dict_get (ursula_fields kwargs) k = Some v -> k ∉ touched_names ->
              dict_get s'.1 k = Some (default Constant (cached_value (Some v) (dict_get (runtime_filepaths UrsulaConfiguration root) k))))
      as Hown.
    { intros k v Hv Hkn. assert (dict_get (dict_update [] (ursula_fields kwargs)) k = Some v) as Hd
        by (rewrite dict_get_update by distinct; by rewrite Hv).
      rewrite Hget by done. etransitivity; [|apply cached_value_some]. f_equal. exact Hd. }
    repeat (apply has_all_cons; [erewrite Hown by (first [reflexivity|distinct]); f_equal; first [reflexivity|apply cached_value_none]|]).
    done.
  - intros ([] & s1 & H & Ha)%py_bind_returned. apply (later_class AliceConfiguration _ _ _ _ Hdev Hks H); [done|]. by apply assigned in Ha.
  - intros ([] & s1 & H & Ha)%py_bind_returned. apply (later_class BobConfiguration _ _ _ _ Hdev Hks H); [done|]. by apply assigned in Ha.
Qed.

(** ** What a payload holds *)

Definition exported_as (pl : fields) (g : view) (n : string) : Prop := dict_get pl (to_bytes n) = Some (g n).

Definition main_names : list string := character_names ++ behavior_names ++ ["lonely"%string].

Record holds_main (g : view) (pl : fields) : Prop := HoldsMain {
  h_main : forall n, n ∈ main_names -> exported_as pl g n;
  h_keystore : exists kp, text_or_none (g "keystore"%string) = Ok kp /\ dict_get pl (to_bytes "keystore_path") = Some kp;
  h_storage : exists m, g "node_storage"%string = Storage m /\ dict_get pl (to_bytes "node_storage") = Some (D m);
  h_federated : value_true (g "federated_only"%string) = true ->
    forall n, n ∈ ["eth_provider_uri"; "registry_filepath"; "max_gas_price"; "gas_strategy"]%string -> dict_get pl (to_bytes n) = None;
  h_gas : value_true (g "federated_only"%string) = false -> exported_as pl g "gas_strategy" /\
    exists mp, text_or_none (g "max_gas_price"%string) = Ok mp /\ dict_get pl (to_bytes "max_gas_price") = Some mp;
  h_registry : value_true (g "federated_only"%string) = false ->
    dict_get pl (to_bytes "registry_filepath") =
      if value_true (g "registry_filepath"%string) then Some (g "registry_filepath"%string) else None;
  h_uri : value_true (g "federated_only"%string) = false ->
    let uri := g "eth_provider_uri"%string in
    if value_true uri then
      exported_as pl g "eth_provider_uri" /\ exported_as pl g "poa" /\
      dict_get pl (to_bytes "light") = Some (g "is_light"%string) /\
      dict_get pl (to_bytes "signer_uri") = Some (py_or (g "signer_uri"%string) uri)
    else dict_get pl (to_bytes "eth_provider_uri") = None;
}.

Ltac each_name H := repeat (apply elem_of_cons in H as [->|H]); [..|by apply elem_of_nil in H].

Lemma character_export_holds g pl : character_export g = Ok pl -> holds_main g pl.
Proof.
  unfold character_export. destruct (text_or_none (g "keystore"%string)) as [kp|] eqn:Hk; [|done].
  destruct (g "node_storage"%string) as [| | | |m| |] eqn:Hs; try done. cbn [rbind].
  destruct (value_true (g "federated_only"%string)) eqn:Hf.
  - intros <-%Ok_inj. constructor; try congruence.
    + intros n Hn. unfold main_names, character_names, behavior_names in Hn. cbn [app] in Hn. each_name Hn; reflexivity.
    + by exists kp.
    + by exists m.
    + intros _ n Hn. each_name Hn; reflexivity.
  - destruct (text_or_none (g "max_gas_price"%string)) as [mp|] eqn:Hm; [|done]. cbn [rbind]. intros <-%Ok_inj.
    destruct (value_true (g "eth_provider_uri"%string)) eqn:He, (value_true (g "registry_filepath"%string)) eqn:Hr;
      (constructor; try congruence;
       [intros n Hn; unfold main_names, character_names, behavior_names in Hn; cbn [app] in Hn; each_name Hn; reflexivity
       |by exists kp|by exists m|by split; [|exists mp]|intros _; rewrite Hr; reflexivity|intros _; cbv zeta; rewrite He; repeat split; reflexivity]).
Qed.

Lemma character_export_names g pl : character_export g = Ok pl -> keyed character_keys pl.
Proof.
  unfold character_export. destruct (text_or_none (g "keystore"%string)) as [kp|]; [|done].
  destruct (g "node_storage"%string) as [| | | |m| |]; try done. cbn [rbind].
  assert (keyed character_keys (main_fields g kp m)) as Hk by (apply keyed_by; reflexivity).
  destruct (value_true (g "federated_only"%string)); [by intros <-%Ok_inj|].
  destruct (text_or_none (g "max_gas_price"%string)); [|done]. cbn [rbind]. intros <-%Ok_inj.
  repeat first [exact Hk|keyed_step].
Qed.

(** The names of the base class's payload. *)
Definition main_keys : list bytes := character_keys.

Lemma holds_main_ext g base pl :
  (forall k, k ∈ main_keys -> dict_get pl k = dict_get base k) -> holds_main g base -> holds_main g pl.
Proof.
  intros Hk [H1 H2 H3 H4 H5 H6 H7].
  assert (forall n, to_bytes n ∈ main_keys -> dict_get pl (to_bytes n) = dict_get base (to_bytes n)) as Hn by auto.
  constructor.
  - intros n Hin. unfold exported_as. rewrite Hn; [by apply H1|].
    unfold main_names, character_names, behavior_names in Hin. cbn [app] in Hin. each_name Hin; distinct.
  - by rewrite Hn by distinct.
  - by rewrite Hn by distinct.
  - intros Hf n Hin. rewrite Hn; [by apply H4|]. each_name Hin; distinct.
  - intros Hf. unfold exported_as. rewrite !Hn by distinct. by apply H5.
  - intros Hf. rewrite Hn by distinct. by apply H6.
  - intros Hf. specialize (H7 Hf). cbv zeta in *. unfold exported_as in *.
    destruct (value_true _); by rewrite !Hn by distinct.
Qed.

Lemma own_names_keys c g n : n ∈ own_names c g -> to_bytes n ∉ main_keys.
Proof.
  assert (forall l, forallb (fun n => negb (bool_decide (to_bytes n ∈ main_keys))) l = true -> n ∈ l -> to_bytes n ∉ main_keys) as H.
  { intros l Hl Hn%list_elem_of_In. rewrite forallb_forall in Hl. by apply Hl, negb_true_iff, bool_decide_eq_false in Hn. }
  destruct c; unfold own_names; [| |by apply H; vm_compute].
  - by apply H; vm_compute.
  - by destruct (negb _ && _), (negb _ && _); apply H; vm_compute.
Qed.

Lemma own_names_nodup c g : NoDup (fields_of g (own_names c g)).*1.
Proof.
  destruct c; unfold own_names; [distinct| |distinct]. destruct (negb _ && _), (negb _ && _); distinct.
Qed.

Lemma fields_of_get g l n : n ∈ l -> dict_get (fields_of g l) (to_bytes n) = Some (g n).
Proof.
  induction l as [|m l IH]; [by intros ?%elem_of_nil|]. intros Hn. unfold fields_of. csimpl. unfold field.
  cbn [dict_get]. case_decide as Heq.
  - apply to_bytes_inj in Heq as ->. done.
  - apply IH. apply elem_of_cons in Hn as [->|Hn]; [done|exact Hn].
Qed.

Lemma fields_of_none g l k : (forall n, n ∈ l -> to_bytes n <> k) -> dict_get (fields_of g l) k = None.
Proof.
  intros H. apply dict_get_None. unfold fields_of. intros (kv & -> & (n & -> & Hn)%list_elem_of_fmap)%list_elem_of_fmap.
  by apply (H n Hn).
Qed.

Lemma export_holds c g pl :
  export c g = Ok pl ->
  holds_main g pl /\ (forall n, n ∈ own_names c g -> exported_as pl g n) /\
  (forall n, n ∈ ["rate"; "duration"]%string -> n ∉ own_names c g -> dict_get pl (to_bytes n) = None).
Proof.
  unfold export. destruct (character_export g) as [base|] eqn:Hb; [|done]. cbn [rbind]. intros <-%Ok_inj.
  pose proof (character_export_holds g base Hb) as Hm. split; [|split].
  - apply (holds_main_ext g base); [|done]. intros k Hk. rewrite dict_get_update by apply own_names_nodup.
    rewrite fields_of_none; [done|]. intros n Hn <-. by apply own_names_keys in Hn.
  - intros n Hn. unfold exported_as. rewrite dict_get_update by apply own_names_nodup. by rewrite fields_of_get.
  - intros n Hn Hown. rewrite dict_get_update by apply own_names_nodup. rewrite fields_of_none.
    + destruct (character_export_names _ _ Hb) as [_ Hk]. apply dict_get_None. intros Hin%Hk. revert Hin. each_name Hn; distinct.
    + intros m Hm' Heq%to_bytes_inj. by subst.
Qed.

(** ** What is restored of a payload *)

(** Values that are written alike and are both true or both false. *)
Definition sim (v w : value) : Prop := to_json w = to_json v /\ value_true w = value_true v.

Lemma to_json_true v j : to_json v = Ok j -> json_true j = value_true v.
Proof.
  destruct v as [j'|p|m|z|m| |cls m]; cbn [to_json]; try done.
  - by intros [= <-].
  - intros [= <-]. destruct (path_text_shape p) as [s ->]. done.
  - destruct m as [|[k u] m]; [by intros [= <-]|]. destruct (to_json u); [|done]. cbn [rbind].
    unfold rbind. intros H. repeat case_match; simplify_eq; done.
Qed.

Lemma reread_sim c k v j : to_json v = Ok j -> (k ∈ paths_only c -> path_value v) -> sim v (reread c k v).
Proof.
  intros Hj Hp. unfold reread. case_decide as Hk.
  - destruct (Hp Hk) as [(q & Hq & [->| ->])| ->]; try done. rewrite path_of_path_text by done. split; [done|].
    cbn [value_true]. destruct (path_text_shape q) as [s ->]. done.
  - rewrite Hj. split; [done|]. cbn [value_true]. by apply to_json_true.
Qed.

(** The keyword arguments of a configuration that is restored. *)
Definition restored_from (c : config_class) (pl kwargs : fields) : Prop :=
  (forall n, n ∉ ["filepath"; "node_storage"; "max_gas_price"]%string ->
     dict_get kwargs (to_bytes n) = reread c (to_bytes n) <$> dict_get pl (to_bytes n)) /\
  (default null (dict_get pl (to_bytes "max_gas_price")) = null -> dict_get kwargs (to_bytes "max_gas_price") = Some null) /\
  (forall z, dict_get pl (to_bytes "max_gas_price") = Some (J (JStr (int_chars z))) ->
     dict_get kwargs (to_bytes "max_gas_price") = Some (Decimal z)).

Section Restored.
Context (c : config_class) (g : view) (pl kwargs : fields).
Hypothesis Hexport : export c g = Ok pl.
Hypothesis Hok : exportable c pl.
Hypothesis Hrestored : restored_from c pl kwargs.

Lemma given_value n v d :
  dict_get pl (to_bytes n) = Some v -> n ∉ ["filepath"; "node_storage"; "max_gas_price"]%string -> sim v (arg kwargs n d).
Proof.
  intros Hn Hs. destruct Hrestored as [Hk _]. destruct Hok as ((items & Hitems & _) & Hpaths & _).
  unfold arg. rewrite Hk, Hn by done. cbn [fmap option_fmap option_map default].
  pose proof (to_items_get pl items (to_bytes n) Hitems) as Hi. rewrite Hn in Hi. destruct Hi as (j & Hj & _).
  apply (reread_sim c _ v j Hj). intros Hin. by eapply Hpaths.
Qed.

Lemma given_none n d :
  dict_get pl (to_bytes n) = None -> n ∉ ["filepath"; "node_storage"; "max_gas_price"]%string -> arg kwargs n d = d.
Proof. intros Hn Hs. destruct Hrestored as [Hk _]. unfold arg. by rewrite Hk, Hn. Qed.

Lemma py_or_sim v w d : sim v w -> value_true v = true -> sim v (py_or w d).
Proof. intros [Hj Ht] Hv. unfold py_or. by rewrite Ht, Hv. Qed.

(** A path that is exported is restored as it was, or as the path of its text. *)
Lemma given_path n q :
  to_bytes n ∈ paths_only c -> dict_get pl (to_bytes n) = Some (P q) -> n ∉ ["filepath"; "node_storage"; "max_gas_price"]%string ->
  dict_get kwargs (to_bytes n) = Some (P q).
Proof.
  intros Hp Hn Hs. destruct Hrestored as [Hk _]. rewrite Hk, Hn by done. cbn. unfold reread. by rewrite decide_True.
Qed.

(** What the constructors made sure of. *)
Record settled : Prop := Settled {
  s_storage : g "node_storage"%string = forgetful_storage;
  s_price : value_true (g "federated_only"%string) = false ->
    value_true (g "max_gas_price"%string) = false \/
    exists z, g "max_gas_price"%string = Decimal z \/ g "max_gas_price"%string = J (JNum z);
  s_payments : c <> BobConfiguration -> value_true (g "payment_method"%string) = true /\
    (value_true (g "federated_only"%string) = false -> value_true (g "payment_network"%string) = true /\
      (value_true (g "payment_provider"%string) = true \/
       g "payment_provider"%string = null /\ value_true (g "eth_provider_uri"%string) = false));
  s_class : match c with
            | UrsulaConfiguration => value_true (g "rest_host"%string) = true /\ value_true (g "rest_port"%string) = true /\
                g "availability_check"%string <> null
            | AliceConfiguration => value_true (g "threshold"%string) = true /\ value_true (g "shares"%string) = true
            | BobConfiguration => True
            end;
}.

Context (s : fields * env).
Hypothesis Hsettled : settled.
Hypothesis Hlive : live_attributes c kwargs s.
Notation h := (view_of s.1).

Lemma has_all_view l n v : has_all s l -> dict_get l (to_bytes n) = Some v -> h n = v.
Proof. intros Hl Hn. unfold view_of. by rewrite (Hl _ _ Hn). Qed.

Lemma restored_main n : n ∈ main_names -> sim (g n) (h n).
Proof.
  intros Hn. destruct (export_holds c g pl Hexport) as ([Hm _ _ _ _ _ _] & _ & _). destruct Hlive as [Hl _].
  pose proof (Hm n Hn) as He. unfold main_names, character_names, behavior_names in Hn. cbn [app] in Hn.
  each_name Hn; (erewrite (has_all_view _ _ _ Hl) by reflexivity); (apply given_value; [exact He|distinct]).
Qed.

Lemma text_or_none_shape v kp : text_or_none v = Ok kp -> kp = null \/ exists t, kp = J (JStr t).
Proof.
  unfold text_or_none. destruct (value_true v); [|intros <-%Ok_inj; by left].
  destruct v as [[]| | | | | |]; try done; intros <-%Ok_inj; right; by eexists.
Qed.

Lemma restored_keystore : text_or_none (g "keystore"%string) = text_or_none (h "keystore"%string).
Proof.
  destruct (export_holds c g pl Hexport) as ([_ (kp & Ht & Hkp) _ _ _ _ _] & _ & _). rewrite Ht. destruct Hlive as [Hl _].
  erewrite (has_all_view _ _ _ Hl) by reflexivity. destruct Hrestored as [Hk _]. destruct Hok as (_ & Hpaths & _).
  assert (to_bytes "keystore_path" ∈ paths_only c) as Hp by (destruct c; distinct).
  unfold arg. rewrite Hk, Hkp by distinct. cbn [fmap option_fmap option_map default]. unfold reread.
  rewrite decide_True by done.
  destruct (text_or_none_shape _ _ Ht) as [->|[t ->]]; [done|].
  destruct (Hpaths _ _ Hp Hkp) as [(q & Hq & [Heq|Heq])|Heq]; try done. injection Heq as ->.
  rewrite path_of_path_text by done. done.
Qed.

Lemma given_mode : value_true (arg kwargs "federated_only" (flag false)) = value_true (g "federated_only"%string).
Proof.
  destruct (export_holds c g pl Hexport) as ([Hm _ _ _ _ _ _] & _ & _).
  refine (proj2 (given_value "federated_only" _ (flag false) (Hm _ _) _)); [unfold main_names; left|distinct].
Qed.

Lemma restored_mode : value_true (g "federated_only"%string) = value_true (h "federated_only"%string).
Proof. symmetry. apply restored_main. unfold main_names. left. Qed.

(** The attributes of the chain. *)
Lemma restored_chain :
  value_true (g "federated_only"%string) = false ->
  sim (g "gas_strategy"%string) (h "gas_strategy"%string) /\
  text_or_none (g "max_gas_price"%string) = text_or_none (h "max_gas_price"%string) /\
  value_true (h "registry_filepath"%string) = value_true (g "registry_filepath"%string) /\
  (value_true (g "registry_filepath"%string) = true -> sim (g "registry_filepath"%string) (h "registry_filepath"%string)) /\
  value_true (h "eth_provider_uri"%string) = value_true (g "eth_provider_uri"%string) /\
  (value_true (g "eth_provider_uri"%string) = true ->
     (forall n, n ∈ ["eth_provider_uri"; "poa"; "is_light"]%string -> sim (g n) (h n)) /\
     sim (py_or (g "signer_uri"%string) (g "eth_provider_uri"%string)) (py_or (h "signer_uri"%string) (h "eth_provider_uri"%string))).
Proof.
  intros Hf. destruct (export_holds c g pl Hexport) as ([_ _ _ _ Hgas Hreg Huri] & _ & _).
  destruct (Hgas Hf) as (Hg & mp & Hmp & Hmax). specialize (Hreg Hf). specialize (Huri Hf). cbv zeta in Huri.
  destruct Hlive as (_ & _ & Hl & _). destruct Hl as [Hl _]; [by rewrite given_mode|].
  split; [erewrite (has_all_view _ _ _ Hl) by reflexivity; apply given_value; [exact Hg|distinct]|]. split.
  { erewrite (has_all_view _ "max_gas_price" _ Hl) by reflexivity. destruct Hrestored as (_ & Hnone & Hsome). unfold arg.
    rewrite Hmp. destruct (s_price Hsettled Hf) as [Hp|(z & Hz)].
    - unfold text_or_none in Hmp. rewrite Hp in Hmp. apply Ok_inj in Hmp as <-.
      rewrite Hnone by (by rewrite Hmax). done.
    - unfold text_or_none in Hmp. destruct (decide (z = 0%Z)) as [->|Hne].
      + destruct Hz as [Hz|Hz]; rewrite Hz in Hmp; apply Ok_inj in Hmp as <-; by rewrite Hnone by (by rewrite Hmax).
      + assert (mp = J (JStr (int_chars z))) as -> by (destruct Hz as [Hz|Hz]; rewrite Hz in Hmp; by destruct z; injection Hmp as <-).
        rewrite (Hsome z Hmax). unfold text_or_none. cbn [default]. by destruct z. }
  assert (h "registry_filepath"%string = py_or (arg kwargs "registry_filepath" null) Constant) as Hhr
    by (eapply has_all_view; [exact Hl|reflexivity]).
  assert (h "eth_provider_uri"%string = py_or (arg kwargs "eth_provider_uri" null) Constant) as Hhe
    by (eapply has_all_view; [exact Hl|reflexivity]).
  assert (sim (g "registry_filepath"%string) (h "registry_filepath"%string) \/
          value_true (g "registry_filepath"%string) = false /\ h "registry_filepath"%string = Constant) as Hr.
  { rewrite Hhr. destruct (value_true (g "registry_filepath"%string)) eqn:Hr.
    - left. apply py_or_sim; [|done]. apply given_value; [done|distinct].
    - right. split; [done|]. by rewrite given_none by (first [done|distinct]). }
  split; [by destruct Hr as [[_ ?]|[-> ->]]|]. split; [intros Ht; destruct Hr as [?|[? _]]; [done|congruence]|].
  destruct (value_true (g "eth_provider_uri"%string)) eqn:He.
  - destruct Huri as (Hu & Hpoa & Hlight & Hsigner).
    assert (sim (g "eth_provider_uri"%string) (h "eth_provider_uri"%string)) as Hs.
    { rewrite Hhe. apply py_or_sim; [|done]. apply given_value; [exact Hu|distinct]. }
    split; [by rewrite (proj2 Hs)|]. intros _. split.
    + intros n Hn. each_name Hn; [exact Hs|..]; (erewrite (has_all_view _ _ _ Hl) by reflexivity);
        (apply given_value; [done|distinct]).
    + assert (value_true (py_or (g "signer_uri"%string) (g "eth_provider_uri"%string)) = true) as Ht.
      { unfold py_or. by destruct (value_true (g "signer_uri"%string)) eqn:?. }
      erewrite (has_all_view _ "signer_uri" _ Hl) by reflexivity.
      apply py_or_sim; [|done]. apply py_or_sim; [|done]. apply given_value; [done|distinct].
  - split; [|done]. rewrite Hhe, given_none by (first [done|distinct]). done.
Qed.

Lemma restored_payments n :
  c <> BobConfiguration -> n ∈ payment_names -> exported_as pl g n -> sim (g n) (h n).
Proof.
  intros Hc Hn He. destruct (s_payments Hsettled Hc) as [Hm Hp]. destruct Hlive as (_ & Hfed & Hdec & _).
  rewrite given_mode in Hfed, Hdec. destruct (value_true (g "federated_only"%string)) eqn:Hf.
  - specialize (Hfed eq_refl).
    each_name Hn; (erewrite (has_all_view _ _ _ Hfed) by reflexivity);
      try (apply py_or_sim; [|done]); (apply given_value; [exact He|distinct]).
  - destruct (Hp eq_refl) as [Hnet Hprov]. destruct (Hdec eq_refl) as [Hl Hd]. specialize (Hd Hc).
    destruct (restored_chain Hf) as (_ & _ & _ & _ & Hu & _).
    assert (h "eth_provider_uri"%string = py_or (arg kwargs "eth_provider_uri" null) Constant) as Hhe
      by (eapply has_all_view; [exact Hl|reflexivity]).
    each_name Hn; (erewrite (has_all_view _ _ _ Hd) by reflexivity).
    + apply py_or_sim; [|done]. apply given_value; [exact He|distinct].
    + rewrite <- Hhe. destruct Hprov as [Ht|[Hnull Hfalse]].
      * apply py_or_sim; [|done]. apply given_value; [exact He|distinct].
      * destruct (given_value "payment_provider" _ null He ltac:(distinct)) as [_ Ht]. rewrite Hnull in Ht.
        unfold py_or. rewrite Ht, Hu, Hfalse, Hnull. done.
    + apply py_or_sim; [|done]. apply given_value; [exact He|distinct].
Qed.

Lemma null_json v : to_json v = Ok JNull -> v = null.
Proof.
  destruct v as [j|p|m|z|m| |cls m]; cbn [to_json]; try done; [by intros [= ->]|].
  unfold rbind. intros H. by case_match.
Qed.

(** What a class has of its own, read from the arguments or by default. *)
Lemma restored_default n d :
  exported_as pl g n -> n ∉ ["filepath"; "node_storage"; "max_gas_price"]%string -> value_true (g n) = true ->
  sim (g n) (py_or (arg kwargs n null) d).
Proof. intros He Hn Ht. apply py_or_sim; [|done]. by apply given_value. Qed.

Lemma restored_ursula n : c = UrsulaConfiguration -> n ∈ own_names c g -> sim (g n) (h n).
Proof.
  intros Hc Hn. destruct (export_holds c g pl Hexport) as (_ & Hown & _). pose proof (Hown n Hn) as He.
  assert (n ∈ payment_names -> sim (g n) (h n)) as Hpay by (intros Hp; apply restored_payments; by rewrite ?Hc).
  destruct Hlive as (_ & _ & _ & root & _ & Hl). pose proof (s_class Hsettled) as Hclass.
  rewrite Hc in Hl, Hclass, Hn. destruct Hclass as (Hhost & Hport & Havail). unfold own_names in Hn.
  each_name Hn; try (apply Hpay; distinct);
    (erewrite (has_all_view _ _ _ Hl) by reflexivity).
  - apply given_value; [exact He|distinct].
  - apply restored_default; [exact He|distinct|done].
  - apply restored_default; [exact He|distinct|done].
  - destruct Hok as (_ & _ & Hdb). destruct (Hdb Hc) as (q & _ & Hq).
    assert (g "db_filepath"%string = P q) as -> by (unfold exported_as in He; congruence).
    unfold arg. rewrite (given_path "db_filepath" q) by (first [done|distinct|rewrite Hc; distinct]). done.
  - destruct (given_value "availability_check" _ null He ltac:(distinct)) as [Hj Ht].
    destruct Hok as ((items & Hitems & _) & _). pose proof (to_items_get pl items (to_bytes "availability_check") Hitems) as Hi.
    rewrite He in Hi. destruct Hi as (j & Hjson & _).
    assert (arg kwargs "availability_check" null <> null) as Hne.
    { intros Hn'. rewrite Hn' in Hj. symmetry in Hj. by apply null_json in Hj. }
    assert (forall v, v <> null -> match v with J JNull => flag false | _ => v end = v) as Hmatch
      by (intros [[]| | | | | |] Hv; done).
    rewrite Hmatch by done. by split.
Qed.

Lemma restored_alice n : c = AliceConfiguration -> n ∈ own_names c g -> sim (g n) (h n).
Proof.
  intros Hc Hn. destruct (export_holds c g pl Hexport) as (_ & Hown & _). pose proof (Hown n Hn) as He.
  assert (n ∈ payment_names -> sim (g n) (h n)) as Hpay by (intros Hp; apply restored_payments; by rewrite ?Hc).
  destruct Hlive as (_ & _ & _ & root & _ & Hl). pose proof (s_class Hsettled) as Hclass.
  rewrite Hc in Hl, Hclass, Hn. destruct Hclass as (Hth & Hsh).
  assert (n ∈ ["threshold"; "shares"; "store_policies"; "store_cards"; "payment_network"; "payment_provider"; "payment_method";
               "rate"; "duration"]%string) as Hn'.
  { unfold own_names in Hn. destruct (negb _ && _) in Hn; destruct (negb _ && _) in Hn; cbn [when app] in Hn; each_name Hn; distinct. }
  clear Hn. each_name Hn'; try (apply Hpay; distinct);
    (erewrite (has_all_view _ _ _ Hl) by reflexivity);
    first [apply given_value; [exact He|distinct]|apply restored_default; [exact He|distinct|done]].
Qed.

Lemma restored_bob n : c = BobConfiguration -> n ∈ own_names c g -> sim (g n) (h n).
Proof.
  intros Hc Hn. destruct (export_holds c g pl Hexport) as (_ & Hown & _). pose proof (Hown n Hn) as He.
  destruct Hlive as (_ & _ & _ & root & _ & Hl). rewrite Hc in Hl, Hn. unfold own_names in Hn.
  each_name Hn; (erewrite (has_all_view _ _ _ Hl) by reflexivity); (apply given_value; [exact He|distinct]).
Qed.

(** The optional fields of Alice are exported of both or of none. *)
Lemma restored_own_names : own_names c g = own_names c h.
Proof.
  destruct (decide (c = AliceConfiguration)) as [Hc|Hc]; [|by destruct c].
  assert (forall n, n ∈ ["rate"; "duration"]%string -> value_true (g "federated_only"%string) = false ->
            value_true (h n) = value_true (g n)) as Ht.
  { intros n Hn Hf. destruct (export_holds c g pl Hexport) as (_ & Hown & Hnone).
    destruct (decide (n ∈ own_names c g)) as [Hin|Hin]; [by apply restored_alice|].
    specialize (Hnone n Hn Hin). destruct Hlive as (_ & _ & _ & root & _ & Hl).
    assert (value_true (g n) = false) as Hg.
    { apply not_true_iff_false. intros Hg. apply Hin. rewrite Hc. unfold own_names.
      each_name Hn; rewrite Hf, Hg; cbn [negb andb when]; apply elem_of_app; right; apply elem_of_app; [left|right]; left. }
    rewrite Hg. rewrite Hc in Hl.
    each_name Hn; (erewrite (has_all_view _ _ _ Hl) by reflexivity); by rewrite given_none by (first [done|distinct]). }
  rewrite Hc. unfold own_names. rewrite <- restored_mode.
  destruct (value_true (g "federated_only"%string)); [done|].
  by rewrite !Ht by (first [done|distinct]).
Qed.

Lemma restored_alike : alike c g h.
Proof.
  constructor.
  - apply restored_mode.
  - intros n Hn. symmetry. by apply restored_main.
  - apply restored_keystore.
  - rewrite (s_storage Hsettled). destruct Hlive as [Hl _]. symmetry. eapply has_all_view; [exact Hl|reflexivity].
  - apply restored_own_names.
  - intros n Hn. symmetry. destruct (decide (c = UrsulaConfiguration)) as [Hc|Hu]; [by apply restored_ursula|].
    destruct (decide (c = AliceConfiguration)) as [Hc|Ha]; [by apply restored_alice|].
    apply restored_bob; [|done]. clear -Hu Ha. by destruct c.
  - intros Hf. destruct (restored_chain Hf) as (Hgas & Hmax & Hr & Hr' & He & He').
    split; [symmetry; apply Hgas|]. split; [done|]. split; [done|]. split; [intros Ht; symmetry; by apply Hr'|].
    split; [done|]. intros Ht. destruct (He' Ht) as [Hn Hs]. split; [intros n Hin; symmetry; by apply Hn|].
    symmetry. apply Hs.
Qed.

End Restored.

(** ** Saving and restoring *)

Lemma live_complete c kwargs s : live_attributes c kwargs s -> complete c s.1.
Proof.
  assert (forall l n, has_all s l -> is_Some (dict_get l (to_bytes n)) -> has s.1 n) as Hh.
  { intros l n Hl [v Hv]. exists v. by apply Hl. }
  intros (H1 & H2 & H3 & root & _ & H4).
  assert (view_of s.1 "federated_only" = arg kwargs "federated_only" (flag false)) as Hmode
    by (eapply has_all_view; [exact H1|reflexivity]).
  split; [|split].
  - intros n Hn. unfold base_attributes in Hn.
    each_name Hn; first [apply (Hh _ _ H1); by eexists|apply (Hh _ _ H4); by eexists].
  - intros n Hn. destruct (decide (c <> BobConfiguration /\ n ∈ payment_names)) as [[Hc Hp]|Hnp].
    + destruct (value_true (arg kwargs "federated_only" (flag false))).
      * specialize (H2 eq_refl). each_name Hp; apply (Hh _ _ H2); by eexists.
      * destruct (H3 eq_refl) as [_ Hd]. specialize (Hd Hc). each_name Hp; apply (Hh _ _ Hd); by eexists.
    + destruct c; unfold class_attributes in Hn;
        each_name Hn; first [apply (Hh _ _ H4); by eexists|exfalso; apply Hnp; split; [done|distinct]].
  - rewrite Hmode. intros Hf n Hn. destruct (H3 Hf) as [Hl _]. unfold chain_attributes in Hn.
    each_name Hn; apply (Hh _ _ Hl); by eexists.
Qed.

Lemma py_or_true v d : value_true d = true -> value_true (py_or v d) = true.
Proof. intros Hd. unfold py_or. by destruct (value_true v) eqn:?. Qed.

(** Caps on the price that are whole numbers. *)
Definition whole_price (v : value) : Prop := value_true v = false \/ exists z, v = Decimal z \/ v = J (JNum z).

Lemma live_settled c kwargs s :
  live_attributes c kwargs s -> whole_price (arg kwargs "max_gas_price" null) -> settled c (view_of s.1).
Proof.
  intros (H1 & H2 & H3 & root & _ & H4) Hprice.
  assert (view_of s.1 "federated_only" = arg kwargs "federated_only" (flag false)) as Hmode
    by (eapply has_all_view; [exact H1|reflexivity]).
  constructor; rewrite ?Hmode.
  - eapply has_all_view; [exact H1|reflexivity].
  - intros Hf. destruct (H3 Hf) as [Hl _]. erewrite has_all_view; [exact Hprice|exact Hl|reflexivity].
  - intros Hc. destruct (value_true (arg kwargs "federated_only" (flag false))).
    + split; [|done]. erewrite has_all_view; [|by apply H2|reflexivity]. by apply py_or_true.
    + destruct (H3 eq_refl) as [Hl Hd]. specialize (Hd Hc).
      erewrite (has_all_view _ _ "payment_method"); [|exact Hd|reflexivity].
      erewrite (has_all_view _ _ "payment_network"); [|exact Hd|reflexivity].
      erewrite (has_all_view _ _ "payment_provider"); [|exact Hd|reflexivity].
      erewrite (has_all_view _ _ "eth_provider_uri"); [|exact Hl|reflexivity].
      split; [by apply py_or_true|]. intros _. split; [by apply py_or_true|].
      assert (forall v u, value_true (py_or v (py_or u null)) = true \/ py_or v (py_or u null) = null /\ value_true u = false) as Hor.
      { intros v u. unfold py_or. destruct (value_true v) eqn:Hv; [by left|]. destruct (value_true u) eqn:Hu; [by left|by right]. }
      apply Hor.
  - destruct c; [| |done].
    + repeat (erewrite has_all_view; [|exact H4|reflexivity]). split; [by apply py_or_true|]. split; [by apply py_or_true|].
      destruct (arg kwargs "availability_check" null) as [[]| | | | | |]; done.
    + repeat (erewrite has_all_view; [|exact H4|reflexivity]). split; by apply py_or_true.
Qed.

Lemma construct_ok c kwargs (e : env) a e' : construct c kwargs e = (Ok a, e') -> init c kwargs ([], e) = (Ok tt, (a, e')).
Proof. unfold construct. destruct (init c kwargs ([], e)) as [[[]|x] [a1 e1]]; [|done]. by intros [= -> ->]. Qed.

(** Attributes that are no path of a configuration nor its keystore stay when
    it is installed. *)
Definition installed_names : list bytes :=
  names ["keystore"; "keystore_id"; "config_root"; "config_file_location"; "keystore_dir"; "db_filepath"]%string.

Lemma writes_config {A} k v (m : CM A) : (forall a, preserves (fun s => s.1 = a) m) -> preserves (fun s => dict_get s.1 k = v) (in_config m).
Proof.
  intros Hm [a [e fs]] H. unfold in_config. cbn [fst snd] in *.
  match goal with |- context [m ?s] => pose proof (Hm a s eq_refl) as Hp; destruct (m s) as [r [a' fs']] end.
  cbn [fst snd] in *. by subst.
Qed.

Lemma writes_cache c : writes installed_names (_cache_runtime_filepaths c).
Proof.
  intros k v Hk. unfold _cache_runtime_filepaths. apply preserves_bind; [apply writes_path|]. intros root.
  intros [a e] Hs. unfold py_bind, on_env, right_part. cbn [fst snd]. destruct (generate_runtime_ok c root e) as (dirs & -> & _).
  cbn [fst snd]. assert (forall l, (forall k, k ∈ l.*1 -> k ∈ installed_names) -> preserves (fun s => dict_get s.1 k = v) (for_each l cache_field)) as Hl.
  { intros l. induction l as [|[k0 v0] l IH]; intros Hl; [apply preserves_ret|]. cbn [for_each].
    apply preserves_bind; [|intros _; apply IH; intros k' Hk'; apply Hl; by right].
    unfold cache_field. apply preserves_bind; [intros [a1 e1] H1; cbn [fst snd]; unfold on_attrs, left_part; cbn [fst snd]; by destruct (dict_get a1 k0)|].
    intros u. destruct u; try apply preserves_ret. apply (writes_assign [k0]); [cbn; by rewrite bool_decide_eq_true_2 by left|].
    intros ->%list_elem_of_singleton. apply Hk, Hl. left. }
  apply Hl; [|exact Hs]. apply subset_by. destruct c; vm_compute; reflexivity.
Qed.

Lemma writes_initialize c password key_material (s s' : fields * env) x k :
  value_true (view_of s.1 "dev_mode") = false -> initialize c password key_material s = (Ok x, s') -> k ∉ installed_names ->
  dict_get s'.1 k = dict_get s.1 k.
Proof.
  unfold initialize. intros Hdev (d & s1 & [-> Hd]%self_ok & H)%py_bind_returned Hk.
  assert (value_true d = false) as Hdf by (unfold view_of in Hdev; by rewrite Hd in Hdev). rewrite Hdf in H.
  match type of H with ?m _ = _ => assert (preserves (fun t => dict_get t.1 k = dict_get s.1 k) m) as Hw end.
  2: { pose proof (Hw s eq_refl) as Hs. by rewrite H in Hs. }
  unfold write_keystore, validate.
  preserve_with ltac:(first [apply writes_env|apply writes_self|apply writes_path|by apply writes_cache
    |apply writes_config; intros a [a0 fs] <-; apply ensure_config_root_attributes
    |apply (writes_assign installed_names); [vm_compute; reflexivity|exact Hk]]).
Qed.

(** No attribute is ever removed. *)
Lemma initialize_has c password key_material n : preserves (fun s => has s.1 n) (initialize c password key_material).
Proof.
  assert (forall A k (m : LM A), (forall v, preserves (fun s => dict_get s.1 k = v) m) -> preserves (fun s => is_Some (dict_get s.1 k)) m) as Hkeep.
  { intros A k m Hm s Hs. by rewrite (Hm (dict_get s.1 k) s eq_refl). }
  assert (forall l, preserves (fun s : fields * env => is_Some (dict_get s.1 (to_bytes n))) (assign l)) as Hassign.
  { intros l [a e] H. cbn [fst] in *. apply dict_get_is_Some, dict_update_keys. left. by apply dict_get_is_Some. }
  unfold has, initialize, write_keystore, validate, _cache_runtime_filepaths.
  preserve_with ltac:(first [apply Hassign|apply Hkeep; intros ?; first [apply writes_env|apply writes_self|apply writes_path]]).
  - apply Hkeep. intros v. apply writes_config. intros b [b0 fs] Hb. cbn in Hb. subst. apply ensure_config_root_attributes.
  - apply Hkeep. intros v [b e] Hb. cbn [fst snd] in *. unfold on_attrs, left_part. cbn [fst snd].
    by destruct (dict_get b x.1).
Qed.

(** A configuration that was made with these arguments: constructed, or
    generated with a keystore. *)
Definition made (c : config_class) (kwargs : fields) (e : env) (a : fields) (e' : env) : Prop :=
  construct c kwargs e = (Ok a, e') \/
  exists password key_material, generate c password key_material kwargs e = (Ok a, e').

Definition settled_names : list string :=
  ["node_storage"; "federated_only"; "max_gas_price"; "payment_method"; "payment_network"; "payment_provider";
   "eth_provider_uri"; "rest_host"; "rest_port"; "availability_check"; "threshold"; "shares"]%string.

Lemma settled_ext c g h : (forall n, n ∈ settled_names -> h n = g n) -> settled c g -> settled c h.
Proof.
  intros Hn [H1 H2 H3 H4]. unfold settled_names in Hn.
  constructor; rewrite ?(Hn "node_storage"%string), ?(Hn "federated_only"%string), ?(Hn "max_gas_price"%string),
    ?(Hn "payment_method"%string), ?(Hn "payment_network"%string), ?(Hn "payment_provider"%string),
    ?(Hn "eth_provider_uri"%string) by distinct; try done.
  destruct c; rewrite ?(Hn "rest_host"%string), ?(Hn "rest_port"%string), ?(Hn "availability_check"%string),
    ?(Hn "threshold"%string), ?(Hn "shares"%string) by distinct; done.
Qed.

(** The keyword that [generate] adds. *)
Lemma arg_generated kwargs n d :
  n <> "dev_mode"%string -> arg (kwargs ++ [field "dev_mode" (flag false)]) n d = arg kwargs n d.
Proof.
  intros Hn. unfold arg. f_equal. clear -Hn. induction kwargs as [|[k v] l IH].
  - cbn. rewrite decide_False; [done|]. intros Heq%(to_bytes_inj n "dev_mode"). done.
  - cbn [app dict_get]. by rewrite IH.
Qed.

Lemma mode_generated kwargs :
  dict_mem kwargs (to_bytes "dev_mode") = false ->
  arg (kwargs ++ [field "dev_mode" (flag false)]) "dev_mode" (flag false) = flag false /\
  arg kwargs "dev_mode" (flag false) = flag false.
Proof.
  intros Hmem%bool_decide_eq_false. assert (dict_get kwargs (to_bytes "dev_mode") = None) as Hnone by (by apply eq_None_not_Some).
  unfold arg. split; [|by rewrite Hnone]. clear -Hnone. induction kwargs as [|[k v] l IH]; [done|].
  cbn [app dict_get] in *. case_decide; [done|]. by apply IH.
Qed.

Lemma kept_generated kwargs :
  dict_mem kwargs (to_bytes "dev_mode") = false -> kept_fields (kwargs ++ [field "dev_mode" (flag false)]) = kept_fields kwargs.
Proof.
  intros [Hd Hd']%mode_generated. unfold kept_fields. rewrite Hd, Hd'. by rewrite !arg_generated by done.
Qed.

(** A configuration that was generated is a live one that was installed. *)
Lemma generated_parts c kwargs password key_material e a e' :
  value_true (arg kwargs "keystore" null) = false -> generate c password key_material kwargs e = (Ok a, e') ->
  let kwargs' := kwargs ++ [field "dev_mode" (flag false)] in
  exists a0 e1, live_attributes c kwargs' (a0, e1) /\ kept_fields kwargs' = kept_fields kwargs /\
    (forall n, has a0 n -> has a n) /\ (forall n, to_bytes n ∉ installed_names -> view_of a n = view_of a0 n).
Proof.
  intros Hks H kwargs'. unfold generate in H. destruct (dict_mem kwargs (to_bytes "dev_mode")) eqn:Hmem; [done|].
  destruct (mode_generated _ Hmem) as [Hd _].
  apply py_bind_returned in H as (a0 & e1 & H0 & H). apply py_bind_returned in H as ([x a1] & e2 & H1 & H).
  assert (a1 = a) as -> by (by injection H). unfold with_self in H1.
  destruct (initialize c password key_material (a0, e1)) as [[p|err] [a2 e3]] eqn:Hi; [|done]. injection H1 as -> -> ->.
  apply construct_ok, live_configuration in H0; [|by rewrite Hd|by rewrite arg_generated].
  exists a0, e1. split; [exact H0|]. split; [by apply kept_generated|]. split.
  - intros n Hn. pose proof (initialize_has c password key_material n (a0, e1) Hn) as Hp. by rewrite Hi in Hp.
  - intros n Hn. unfold view_of. f_equal. refine (writes_initialize c password key_material (a0, e1) (a, e2) x _ _ Hi Hn).
    destruct H0 as [H0 _]. pose proof (has_all_view _ _ "dev_mode" _ H0 eq_refl) as Hv. cbn [fst] in *. unfold kwargs' in Hv.
    by rewrite Hv, Hd.
Qed.

(** The arguments that an instance keeps as they are and saves. *)
Definition saved_arguments : list string := character_names ++ behavior_names ++ ["lonely"%string].

Lemma kept_argument kwargs (s : fields * env) l n :
  n ∈ saved_arguments -> has_all s (kept_fields kwargs ++ l) ->
  view_of s.1 n = default null (dict_get (kept_fields kwargs) (to_bytes n)).
Proof.
  intros Hn Hs. unfold saved_arguments, character_names, behavior_names in Hn. cbn [app] in Hn.
  each_name Hn; (erewrite (has_all_view _ _ _ _ Hs) by reflexivity); reflexivity.
Qed.

Lemma made_settled c kwargs e a e' :
  value_true (arg kwargs "dev_mode" (flag false)) = false -> value_true (arg kwargs "keystore" null) = false ->
  whole_price (arg kwargs "max_gas_price" null) -> made c kwargs e a e' ->
  complete c a /\ settled c (view_of a) /\
  forall n, n ∈ saved_arguments -> view_of a n = default null (dict_get (kept_fields kwargs) (to_bytes n)).
Proof.
  intros Hdev Hks Hprice [H|(password & key_material & H)].
  { apply construct_ok, live_configuration in H; [|done..]. split; [by apply (live_complete _ _ _ H)|].
    split; [by apply (live_settled _ _ _ H)|]. destruct H as [H _]. intros n Hn. exact (kept_argument _ _ _ _ Hn H). }
  apply generated_parts in H as (a0 & e1 & H0 & Hkept & Hhas & Hview); [|done]. split; [|split].
  - destruct (live_complete _ _ _ H0) as (B1 & B2 & B3). cbn [fst] in *.
    split; [|split]; intros; apply Hhas; auto. apply B3; [|done]. by rewrite <- Hview by distinct.
  - eapply settled_ext; [|apply (live_settled _ _ _ H0); by rewrite arg_generated].
    intros n Hn. apply Hview. unfold settled_names in Hn. each_name Hn; distinct.
  - intros n Hn. rewrite <- Hkept. destruct H0 as [H0 _]. rewrite <- (kept_argument _ _ _ _ Hn H0).
    apply Hview. unfold saved_arguments, character_names, behavior_names in Hn. cbn [app] in Hn. each_name Hn; distinct.
Qed.

(** The arguments that the file of a payload gives. *)
Lemma cap_of_payload c g mp :
  settled c g -> value_true (g "federated_only"%string) = false -> text_or_none (g "max_gas_price"%string) = Ok mp ->
  mp = null \/ exists z, mp = J (JStr (int_chars z)).
Proof.
  intros Hs Hf Hmp. destruct (s_price c g Hs Hf) as [Hp|(z & Hz)]; unfold text_or_none in Hmp.
  - rewrite Hp in Hmp. left. by apply Ok_inj in Hmp.
  - destruct (decide (z = 0%Z)) as [->|Hne].
    + left. destruct Hz as [Hz|Hz]; rewrite Hz in Hmp; by apply Ok_inj in Hmp.
    + right. exists z. destruct Hz as [Hz|Hz]; rewrite Hz in Hmp; destruct z; try done; by apply Ok_inj in Hmp.
Qed.

Lemma reread_json c k j : k ∉ paths_only c -> reread c k (J j) = J j.
Proof. intros Hk. unfold reread. by rewrite decide_False. Qed.

Lemma restored_arguments c g pl r params fp :
  export c g = Ok pl -> exportable c pl -> settled c g ->
  (forall k, dict_get r k = reread c k <$> dict_get pl k) -> assemble_payload c r [] = Ok params ->
  restored_from c pl ((to_bytes "filepath", P fp) :: params).
Proof.
  intros Hexp Hok Hs Hr Hpar. destruct (export_holds c g pl Hexp) as ([Hm _ (storage & Hst & Hns) Hfed Hgas _ _] & _ & _).
  assert (storage = [field "storage_type" (text ":memory:")]) as -> by (rewrite (s_storage c g Hs) in Hst; by injection Hst).
  assert (default null (dict_get pl (to_bytes "max_gas_price")) = null \/
          exists z, dict_get pl (to_bytes "max_gas_price") = Some (J (JStr (int_chars z)))) as Hcap.
  { destruct (value_true (g "federated_only"%string)) eqn:Hf; [left; rewrite Hfed; [done|done|distinct]|].
    destruct (Hgas eq_refl) as (_ & mp & Hmp & Hmax). rewrite Hmax.
    destruct (cap_of_payload c g mp Hs Hf Hmp) as [->|[z ->]]; [by left|right; by exists z]. }
  assert (to_bytes "max_gas_price" ∉ paths_only c) as Hnp by (destruct c; distinct).
  assert (forall u, dict_get r (to_bytes "max_gas_price") = Some u ->
            dict_get pl (to_bytes "max_gas_price") = Some u \/ u = null) as Hru.
  { intros u. rewrite Hr. destruct (dict_get pl (to_bytes "max_gas_price")) as [v|]; [|done]. cbn [fmap option_fmap option_map].
    destruct Hcap as [Hc|[z Hc]]; cbn in Hc; [subst v; unfold null|injection Hc as ->]; rewrite reread_json by done; intros [= <-]; auto. }
  destruct (assembled_parameters c r [(to_bytes "storage_type", JStr (to_bytes ":memory:"))] (to_bytes ":memory:")
              (reread c (to_bytes "federated_only") (g "federated_only"%string))) as (params' & Hpar' & _ & Hz & Hx & Hk).
  - intros k u Hk. rewrite Hr. destruct (dict_get pl k) as [v|]; [|done]. cbn [fmap option_fmap option_map]. unfold reread.
    rewrite decide_True by done. intros [= <-].
    destruct v as [[]| | | | | |]; first [by left|right; by eexists].
  - rewrite Hr, Hns. by destruct c.
  - done.
  - left.
  - rewrite Hr. by rewrite (Hm "federated_only"%string) by (unfold main_names; left).
  - intros u Hu. destruct (Hru u Hu) as [Hpl| ->]; [|by left].
    destruct Hcap as [Hc|[z Hc]]; rewrite Hpl in Hc; [by left|]. injection Hc as ->. right. by exists z.
  - intros ->. destruct Hok as (_ & _ & Hdb). destruct (Hdb eq_refl) as (q & _ & Hq). exists q. by rewrite Hr, Hq.
  - assert (params' = params) as -> by (apply Ok_inj; congruence).
    assert (dict_get ((to_bytes "filepath", P fp) :: params) (to_bytes "max_gas_price") = dict_get params (to_bytes "max_gas_price"))
      as Hmax by (cbn [dict_get]; by rewrite decide_False by distinct).
    split; [|rewrite Hmax; split].
    + intros n Hn. cbn [dict_get]. rewrite decide_False by (intros ->%to_bytes_inj; apply Hn; left).
      rewrite <- Hr. apply Hk; intros ->%to_bytes_inj; apply Hn; [right; left|right; right; left].
    + intros Hd. apply Hx. unfold restored_cap. rewrite Hr. destruct (dict_get pl (to_bytes "max_gas_price")) as [v|]; [|done].
      cbn in Hd. subst v. cbn [fmap option_fmap option_map]. unfold null. by rewrite reread_json.
    + intros z Hc. apply Hz. rewrite Hr, Hc. cbn [fmap option_fmap option_map]. by rewrite reread_json.
Qed.

Lemma assemble_ok c p overrides (e e' : env) params :
  on_files (assemble c p overrides) e = (Ok params, e') ->
  exists r, (_read_configuration_file c p e.2).1 = Ok r /\ assemble_payload c r overrides = Ok params.
Proof.
  destruct e as [e fs]. unfold on_files, right_part, assemble, py_bind. cbn [fst snd].
  destruct (_read_configuration_file c p fs) as [[r|x] fs1]; [|done]. unfold lift. intros [= Hp _]. by exists r.
Qed.

(** C23.  Saving and restoring lose nothing that is saved: of a configuration that
    was constructed or generated with a keystore, saved to a file and restored
    from it, the attributes make the very same text again, so that saving it
    anew changes no file; and what a configuration keeps of its arguments, such
    as the domain, is what was passed when the first one was made. *)
Theorem restored_configuration_saves_the_same c kwargs (e : env) a e1 fp m o p a' fs' pl (fw : Factory.factory * W) b e2 :
  value_true (arg kwargs "dev_mode" (flag false)) = false -> value_true (arg kwargs "keystore" null) = false ->
  whole_price (arg kwargs "max_gas_price" null) -> made c kwargs e a e1 ->
  to_configuration_file c fp m o (a, e1.2) = (Ok p, (a', fs')) ->
  (static_payload c (dict_set a (to_bytes "filepath") (P p))).1 = Ok pl -> exportable c pl ->
  from_configuration_file c (Some p) [] (fw, fs') = (Ok b, e2) ->
  (exists content, fs'.(regular) !! p = Some content /\ saved_text c b = Ok content) /\
  forall n, n ∈ saved_arguments -> to_json (view_of b n) = to_json (default null (dict_get (kept_fields kwargs) (to_bytes n))).
Proof.
  intros Hdev Hks Hprice Hmade Hsave Hpl Hok H.
  destruct (made_settled _ _ _ _ _ Hdev Hks Hprice Hmade) as (Hc & Hs & Hargs0).
  set (a1 := dict_set a (to_bytes "filepath") (P p)) in *.
  assert (forall n, n <> "filepath"%string -> view_of a1 n = view_of a n) as Hview
    by (intros n Hn; apply view_set; intros Heq; by apply Hn, to_bytes_inj).
  assert (complete c a1) as Hc1.
  { destruct Hc as (B1 & B2 & B3). split; [|split]; intros; apply has_set; auto. apply B3; [|done]. by rewrite <- Hview. }
  assert (settled c (view_of a1)) as Hs1.
  { eapply settled_ext; [|exact Hs]. intros n Hn. apply Hview. intros ->. revert Hn. distinct. }
  destruct (configuration_written _ _ _ _ _ _ _ _ _ _ Hsave Hpl Hok) as (r & items & Hr & Hget & Hitems & Htext).
  destruct (static_payload_export c a1 Hc1) as [a2 Hexp]. rewrite Hexp in Hpl. cbn [fst] in Hpl.
  pose proof (static_payload_keys c a1 pl a2 ltac:(by rewrite Hexp, Hpl)) as [_ Hkeys].
  unfold from_configuration_file in H. apply py_bind_returned in H as (params & e3 & Has & H).
  apply assemble_ok in Has as (r' & Hr' & Has). assert (r' = r) as -> by (change ((_read_configuration_file c p fs').1 = Ok r') in Hr'; rewrite Hr in Hr'; by apply Ok_inj in Hr').
  destruct (dict_mem params (to_bytes "filepath")); [done|]. apply construct_ok in H.
  pose proof (restored_arguments c _ pl r params p Hpl Hok Hs1 Hget Has) as Hargs.
  assert (forall n d, n ∈ ["dev_mode"; "keystore"]%string -> arg ((to_bytes "filepath", P p) :: params) n d = d) as Harg.
  { intros n d Hn. eapply given_none; [exact Hargs| |each_name Hn; distinct]. apply dict_get_None. intros Hin%Hkeys.
    revert Hin. destruct c; each_name Hn; distinct. }
  apply live_configuration in H; [|by rewrite Harg by distinct..].
  pose proof (restored_alike c _ pl _ Hpl Hok Hargs _ Hs1 H) as Halike. cbn [fst] in Halike.
  split.
  2: { intros n Hn. rewrite <- (Hargs0 n Hn), <- (Hview n) by (intros ->; revert Hn; distinct). symmetry.
       exact (alike_base _ _ _ Halike n Hn). }
  eexists. split; [exact Htext|]. apply (saved_text_alike c a1 b); [done|by apply (live_complete _ _ _ H)|done|].
  rewrite saved_text_export by done. by rewrite Hpl; cbn [rbind]; rewrite Hitems.
Qed.

(** ** What a federated configuration does not touch *)

(** A live federated configuration connects to nothing and fetches nothing:
    the factory of interfaces and the rest of the world are as before, whether
    it is made or not. *)
Theorem federated_configuration_is_offline c kwargs (e : env) :
  value_true (arg kwargs "federated_only" (flag false)) = true -> value_true (arg kwargs "dev_mode" (flag false)) = false ->
  (construct c kwargs e).2.1 = e.1.
Proof.
  intros Hf Hdev.
  assert (forall A (m : PyM filesystem A), preserves (fun s : fields * env => s.2.1 = e.1) (on_env (on_files m))) as Hfiles.
  { intros A m [a [w fs]] Hs. unfold on_env, on_files, right_part. cbn [fst snd] in *. by destruct (m fs). }
  assert (forall A (m : CM A), preserves (fun s : fields * env => s.2.1 = e.1) (in_config m)) as Hconfig.
  { intros A m [a [w fs]] Hs. unfold in_config. cbn [fst snd] in *.
    match goal with |- context [m ?s] => destruct (m s) as [r [a1 fs1]] end. done. }
  assert (forall A (m : AM A), preserves (fun s : fields * env => s.2.1 = e.1) (on_attrs m)) as Hattrs.
  { intros A m [a w] Hs. unfold on_attrs, left_part. cbn [fst snd] in *. by destruct (m a). }
  assert (forall p, preserves (fun s : fields * env => s.2.1 = e.1) (on_env (on_keystores (Keystore.new_keystore p)))) as Hks.
  { intros p [a [[f w] fs]] Hs. unfold on_env, on_keystores, right_part, Keystore.new_keystore, py_bind, Keystore._parse_path.
    cbn [fst snd] in *. destruct (negb _); [done|]. destruct (negb _); [done|]. by destruct (Keystore.validate_keystore_filename _). }
  assert (forall root, preserves (fun s : fields * env => s.2.1 = e.1) (on_env (generate_runtime_filepaths c root))) as Hpaths.
  { intros root [a w] Hs. unfold on_env, right_part. cbn [fst snd] in *. by destruct (generate_runtime_ok c root w) as (dirs & -> & _). }
  assert (preserves (fun s : fields * env => s.2.1 = e.1) (init c kwargs)) as H.
  2: { unfold construct. pose proof (H ([], e) eq_refl) as Hi. destruct (init c kwargs ([], e)) as [[] [a e1]]; exact Hi. }
  unfold init, ursula_init, alice_init, bob_init, character_init, init_keystore, init_registries, init_plain, init_federated,
    init_files, _setup_node_storage, _cache_runtime_filepaths, init_base, self, assign. rewrite Hf, Hdev.
  preserve_with ltac:(first [apply Hfiles|apply Hconfig|apply Hattrs|apply Hks|apply Hpaths]).
Qed.

(** ** The parameters of a character *)

Definition dynamic_keys (c : config_class) : list bytes := names
  (["registry"; "signer"; "network_middleware"; "known_nodes"; "node_storage"; "keystore"; "crypto_power_ups"]%string ++
   match c with
   | UrsulaConfiguration => ["certificate"; "payment_method"]%string
   | AliceConfiguration => ["payment_method"%string]
   | BobConfiguration => []
   end).

Definition only {V} (K : list bytes) (m : list (bytes * V)) : Prop := forall k, k ∈ m.*1 -> k ∈ K.

Lemma only_update {V} K (m e : list (bytes * V)) : only K m -> only K e -> only K (dict_update m e).
Proof. intros Hm He k [Hk|Hk]%dict_update_keys; [by apply Hm|by apply He]. Qed.
Lemma only_by {V} K (m : list (bytes * V)) : forallb (fun k => bool_decide (k ∈ K)) m.*1 = true -> only K m.
Proof. intros H k. by apply subset_by. Qed.
Lemma plain_keys l : (plain l).*1 = l.*1.
Proof. unfold plain. induction l as [|[k v] l IH]; [done|]. csimpl. by rewrite IH. Qed.

Lemma dynamic_payload_keys c k : yields (only (dynamic_keys c)) (dynamic_payload c k).
Proof.
  unfold dynamic_payload. apply (yields_bind (fun own => only (dynamic_keys c) (plain own))).
  { destruct c; repeat (apply yields_then; intros ?); apply yields_ret, only_by; vm_compute; reflexivity. }
  intros own Hown. apply (yields_bind (only (dynamic_keys c))); [|intros base Hb; by apply yields_ret, only_update].
  unfold character_dynamic_payload. apply yields_then. intros f.
  apply (yields_bind (only (dynamic_keys c))).
  { destruct (value_true f); [|do 2 (apply yields_then; intros ?)]; apply yields_ret, only_by; destruct c; vm_compute; reflexivity. }
  intros objects Hobj. do 4 (apply yields_then; intros ?). apply yields_ret, only_update; [done|].
  apply only_by. destruct c; vm_compute; reflexivity.
Qed.

Lemma accepted_by (L F K : list bytes) k :
  forallb (fun k => bool_decide (k ∈ F) || bool_decide (k ∈ K)) L = true -> k ∈ L -> k ∉ F -> k ∈ K.
Proof.
  intros H Hk%list_elem_of_In Hf. rewrite forallb_forall in H. specialize (H k Hk). apply orb_true_iff in H as [H|H];
    apply bool_decide_eq_true in H; [done|exact H].
Qed.

Lemma parameters_keys c keystore (s s' : fields * env) params k :
  generate_parameters c keystore [] s = (Ok params, s') -> k ∈ params.*1 ->
  k ∈ payload_keys c ++ dynamic_keys c /\ k ∉ _CONFIG_FIELDS c.
Proof.
  unfold generate_parameters. intros (static & s1 & Hs & H)%py_bind_returned.
  assert (only (payload_keys c) static) as Hstatic.
  { unfold on_attrs, left_part in Hs. destruct (static_payload c s.1) as [[st|x] a] eqn:Hp; [|done].
    injection Hs as -> _. by apply static_payload_keys in Hp as [_ Hk]. }
  apply py_bind_returned in H as (dynamic & s2 & Hd & H). apply dynamic_payload_keys in Hd.
  injection H as <- _. intros (kv & -> & Hin)%list_elem_of_fmap. apply list_elem_of_filter in Hin as [Hnot Hin].
  split; [|done]. change (dict_update (dict_update (plain static) dynamic) []) with (dict_update (plain static) dynamic) in Hin.
  apply elem_of_app. apply (list_elem_of_fmap_2 fst), dict_update_keys in Hin as [Hin|Hin]; [left|right; by apply Hd].
  apply Hstatic. by rewrite plain_keys in Hin.
Qed.

(** What a configuration makes its character of are keywords that the
    character's constructors take, and nothing that is for the configuration
    alone. *)
Theorem parameters_are_accepted c keystore (s s' : fields * env) params :
  generate_parameters c keystore [] s = (Ok params, s') ->
  forall k, k ∈ params.*1 -> k ∈ character_keywords c /\ k ∉ _CONFIG_FIELDS c.
Proof.
  intros H k Hk. destruct (parameters_keys c keystore s s' params k H Hk) as [Hin Hnot]. split; [|done].
  revert Hin Hnot. apply accepted_by. destruct c; vm_compute; reflexivity.
Qed.

(** Alice is never told whether to store policies and cards: the settings of
    her configuration have other names than her own parameters. *)
Theorem storing_settings_do_not_reach_alice keystore (s s' : fields * env) params n :
  generate_parameters AliceConfiguration keystore [] s = (Ok params, s') ->
  n ∈ ["store_policies"; "store_cards"; "store_policy_credentials"; "store_character_cards"]%string ->
  dict_get params (to_bytes n) = None.
Proof.
  intros H Hn. apply dict_get_None. intros Hk. destruct (parameters_keys _ _ _ _ _ _ H Hk) as [Hin Hnot]. revert Hin Hnot.
  each_name Hn; first [intros Hin _; revert Hin; distinct|intros _ Hnot; apply Hnot; distinct].
Qed.

(** ** Addresses of files *)

Lemma span_app f a b : forallb f a = true -> (forall c b', b = c :: b' -> f c = false) -> span f (a ++ b) = (a, b).
Proof.
  induction a as [|c a IH]; intros Ha Hb.
  - cbn [app]. destruct b as [|c b']; [done|]. cbn [span]. by rewrite (Hb c b' eq_refl).
  - cbn [forallb] in Ha. apply andb_true_iff in Ha as [Hc Ha]. cbn [app span]. by rewrite Hc, IH.
Qed.

(** The file that is named by an address is recognized by its name: it need
    not even be there. *)
Theorem address_of_generated_name c (digits : bytes) d fs :
  c <> UrsulaConfiguration -> length digits = 40 -> forallb is_hexdigit digits = true ->
  let address := to_bytes "0x" ++ digits in
  is_checksum_address (Key := Account) address = true ->
  checksum_address_from_filepath c (child d (generate_filename c address)) fs = (Ok address, fs).
Proof.
  intros Hc Hlen Hhex address Haddr. unfold checksum_address_from_filepath.
  assert (Keystore.name_of (child d (generate_filename c address)) = lower (NAME c) ++ "-"%char :: address ++ to_bytes ".json") as Hname.
  { unfold Keystore.name_of, child. rewrite last_snoc. cbn [default]. unfold generate_filename.
    etransitivity; [apply String.list_ascii_of_string_of_list_ascii|]. unfold address. done. }
  assert (matched_address (Keystore.name_of (child d (generate_filename c address))) = Some address) as Hmatch.
  { rewrite Hname. unfold matched_address. rewrite span_app; [|by destruct c|by intros ? ? [= <- _]].
    assert (exists x l, lower (NAME c) = x :: l) as (x & l & ->) by (destruct c; by eexists _, _).
    unfold address. cbn [to_bytes String.list_ascii_of_string app]. rewrite take_app_length' by done.
    rewrite Hlen, Hhex. done. }
  destruct c; [done|..]; rewrite Hmatch; unfold checked, py_bind, py_ret; by rewrite Haddr.
Qed.

(** ** The files of peers *)

(** Signers only read files. *)
Lemma signer_reads uri testnet fs : preserves (fun e : env => e.2 = fs) (from_signer_uri uri testnet).
Proof.
  assert (forall A (m : Factory.FM A), preserves (fun e : env => e.2 = fs) (in_world m)) as Hworld.
  { intros A m [w fs0] H. unfold in_world. cbn [fst snd] in *. by destruct (m w). }
  assert (forall A (m : Factory.FM A), preserves (fun e : env => e.2 = fs) (left_part m)) as Hleft.
  { intros A m [w fs0] H. unfold left_part. cbn [fst snd] in *. by destruct (m w). }
  assert (forall A (m : PyM filesystem A), preserves (fun fs0 => fs0 = fs) m -> preserves (fun e : env => e.2 = fs) (in_files m)) as Hfiles.
  { intros A m Hm [w fs0] H. specialize (Hm fs0 H). unfold in_files. cbn [fst snd] in *. by destruct (m fs0). }
  assert (forall p, preserves (fun fs0 => fs0 = fs) (KeystoreSigner.handle_keyfile (Key := Account) p)) as Hhandle.
  { intros p fs0 <-. apply KeystoreSigner.handle_keyfile_spec. }
  assert (forall ps d, preserves (fun fs0 => fs0 = fs) (KeystoreSigner.read_keyfiles (Key := Account) ps d)) as Hread.
  { induction ps as [|p ps IH]; intros d; cbn [KeystoreSigner.read_keyfiles]; [apply preserves_ret|].
    apply preserves_bind; [apply Hhandle|intros ?; apply IH]. }
  assert (forall u, preserves (fun fs0 => fs0 = fs) (KeystoreSigner.from_signer_uri (Key := Account) u testnet)) as Hkeys.
  { intros u. unfold KeystoreSigner.from_signer_uri, KeystoreSigner.new_signer. preserve_with ltac:(idtac; match goal with
      |- preserves _ (KeystoreSigner.read_keystore ?p) => intros fs0 ->; unfold KeystoreSigner.read_keystore;
        destruct (is_dir fs p); [by apply Hread|]; destruct (is_file fs p); [by apply Hread|done] end). }
  unfold from_signer_uri, SignerUri.from_signer_uri, SignerUri.web3_from_signer_uri, on_factory.
  preserve_with ltac:(first [apply Hworld|apply Hleft|apply Hfiles, Hkeys]).
Qed.

(** Up to its files a constructor leaves the disk as it is. *)
Lemma mode_reads c kwargs (b : bool) fs :
  preserves (fun s : fields * env => s.2.2 = fs) (if b then init_federated kwargs else init_decentralized c kwargs).
Proof.
  assert (forall A (m : AM A), preserves (fun s : fields * env => s.2.2 = fs) (on_attrs m)) as Hattrs.
  { intros A m [a w] Hs. unfold on_attrs, left_part. cbn [fst snd] in *. by destruct (m a). }
  assert (forall A (m : EM A), preserves (fun e : env => e.2 = fs) m -> preserves (fun s : fields * env => s.2.2 = fs) (on_env m)) as Henv.
  { intros A m Hm [a w] Hs. specialize (Hm w Hs). unfold on_env, right_part. cbn [fst snd] in *. by destruct (m w). }
  assert (forall A (m : Factory.FM A), preserves (fun e : env => e.2 = fs) (on_factory m)) as Hfactory.
  { intros A m [w fs0] H. unfold on_factory, left_part. cbn [fst snd] in *. by destruct (m w). }
  assert (forall v, preserves (fun e : env => e.2 = fs) (from_latest_publication v)) as Hpub.
  { intros v. unfold from_latest_publication. preserve_with ltac:(intros [[f w] fs0] H; unfold on_rest, left_part, right_part;
      cbn [fst snd] in *; match goal with |- context [?m w] => by destruct (m w) end). }
  unfold init_federated, init_decentralized, init_interface, find_registry, init_signer, init_payments, find_registry, self, assign.
  preserve_with ltac:(first [apply Hattrs|apply Henv; first [apply Hfactory|apply Hpub|apply signer_reads]]).
Qed.

(** The directories of peers under a root. *)
Definition peer_dirs (root : path) : list path :=
  [child (child root "known_nodes") "metadata"; child (child root "known_nodes") "certificates"].

Definition removed (root : path) (fs : filesystem) (q : path) : Prop :=
  q <> [] /\ parent q ∈ peer_dirs root /\ is_dir fs (parent q) = true.
#[local] Instance removed_dec root fs q : Decision (removed root fs q).
Proof. unfold removed. apply _. Defined.

Lemma clear_peers root fs :
  exists fs', Storages.clear (Storages._generate_storage_filepaths DEFAULT_CONFIG_ROOT (Some root) None None None) true true fs
      = (Ok tt, fs') /\ fs'.(directories) = fs.(directories) /\
    forall q, fs'.(regular) !! q = if decide (removed root fs q) then None else fs.(regular) !! q.
Proof.
  set (meta := child (child root "known_nodes") "metadata"). set (certs := child (child root "known_nodes") "certificates").
  destruct (Storages.destroy_contents meta fs) as (fs1 & H1 & D1 & R1). destruct (Storages.destroy_contents certs fs1) as (fs2 & H2 & D2 & R2).
  exists fs2. split.
  { change ((Storages.__destroy_dir_contents meta ;;; Storages.__destroy_dir_contents certs) fs = (Ok tt, fs2)).
    unfold py_bind. rewrite H1. exact H2. }
  split; [congruence|]. intros q. rewrite R2, R1.
  assert (is_dir fs1 certs = is_dir fs certs) as Hd by (unfold is_dir; by rewrite D1).
  rewrite Hd. unfold removed. change (peer_dirs root) with [meta; certs].
  match goal with |- (if ?d then _ else _) = _ => destruct d as [Hc|Hc] end;
    [|match goal with |- (if ?d then _ else _) = _ => destruct d as [Hm|Hm] end].
  - destruct Hc as (A & B & C). rewrite decide_True; [done|]. rewrite B. split; [done|]. split; [right; left|done].
  - destruct Hm as (A & B & C). rewrite decide_True; [done|]. rewrite B. split; [done|]. split; [left|done].
  - rewrite decide_False; [done|]. intros (A & [B|[B|[]%elem_of_nil]%elem_of_cons]%elem_of_cons & C); rewrite B in C; auto.
Qed.

Hypothesis mkdtemp_makes_directories : forall fs r fs', mkdtemp fs = (r, fs') -> fs'.(regular) = fs.(regular).

Definition forgets (root : path) (fs fs' : filesystem) : Prop :=
  forall q, fs'.(regular) !! q = if decide (removed root fs q) then None else fs.(regular) !! q.

Lemma init_files_disk c kwargs (s s' : fields * env) :
  value_true (arg kwargs "dev_mode" (flag false)) = false -> init_files c kwargs s = (Ok tt, s') ->
  exists root, py_or (arg kwargs "config_root" null) (P DEFAULT_CONFIG_ROOT) = P root /\ forgets root s.2.2 s'.2.2.
Proof.
  intros Hdev. unfold init_files. rewrite Hdev. destruct s as [a e].
  intros ([] & s1 & ->%assigned & H)%py_bind_returned. apply py_bind_returned in H as ([] & s2 & H2 & H).
  apply cache_runtime_ok in H2 as (_ & Hreg & root & Hroot & Hdirs & Hk). cbn [fst snd] in *.
  unfold _setup_node_storage in H. apply py_bind_returned in H as (v & s3 & [-> Hv]%self_ok & H).
  rewrite dict_get_update in Hroot by distinct.
  assert (py_or (arg kwargs "config_root" null) (P DEFAULT_CONFIG_ROOT) = P root) as Hpr by (by injection Hroot).
  exists root. split; [done|]. rewrite Hk, dict_get_update, Hroot in Hv by distinct.
  assert (v = P root) as -> by (by injection Hv). rewrite bind_lift in H.
  apply py_bind_returned in H as ([] & s4 & H4 & H). apply py_bind_returned in H as (d & s5 & H5 & ->%assigned).
  destruct s2 as [a2 [w2 fs2]]. unfold on_env, on_files, right_part in H4. cbn [fst snd] in *.
  destruct (clear_peers root fs2) as (fs3 & Hclear & _ & Hr). rewrite Hclear in H4. injection H4 as <-.
  unfold on_env, on_files, right_part in H5. cbn [fst snd] in H5. destruct (mkdtemp fs3) as [x fs4] eqn:Hm.
  apply mkdtemp_makes_directories in Hm. injection H5 as -> <-. cbn [fst snd]. intros q. rewrite Hm, Hr, Hreg.
  apply decide_ext. unfold removed.
  assert (parent q ∈ peer_dirs root -> is_dir fs2 (parent q) = is_dir e.2 (parent q)) as Hd; [|naive_solver].
  intros Hq. apply Hdirs. unfold peer_dirs, child in Hq. each_name Hq; rewrite !length_app; cbn; lia.
Qed.

Lemma character_init_disk c kwargs (s s' : fields * env) :
  value_true (arg kwargs "dev_mode" (flag false)) = false -> character_init c kwargs s = (Ok tt, s') ->
  exists root, py_or (arg kwargs "config_root" null) (P DEFAULT_CONFIG_ROOT) = P root /\ forgets root s.2.2 s'.2.2.
Proof.
  intros Hdev. unfold character_init. destruct (forallb _ _); [|done]. cbn [negb].
  assert (forall w A (m : AM A), preserves (fun s : fields * env => s.2 = w) (on_attrs m)) as Hattrs.
  { intros w A m [a1 w1] Hs. unfold on_attrs, left_part. cbn [fst snd] in *. by destruct (m a1). }
  assert (forall A (m : LM A) t x t', (forall w, preserves (fun s : fields * env => s.2 = w) m) -> m t = (x, t') -> t'.2 = t.2) as Hsame.
  { intros A m t x t' Hm Ht. pose proof (Hm t.2 t eq_refl) as Hp. by rewrite Ht in Hp. }
  intros ([] & s1 & H1 & H)%py_bind_returned. apply py_bind_returned in H as ([] & s2 & H2 & H).
  apply py_bind_returned in H as ([] & s3 & H3 & H). apply py_bind_returned in H as ([] & s4 & H4 & H).
  apply py_bind_returned in H as ([] & s5 & H5 & H6).
  apply Hsame in H1; [|intros w; unfold init_keystore, assign; preserve_with ltac:(first [apply Hattrs|
    intros [a1 [[f w1] fs]] Hs; unfold on_env, on_keystores, right_part, Keystore.new_keystore, py_bind, Keystore._parse_path;
      cbn [fst snd] in *; destruct (negb _); [done|]; destruct (negb _); [done|]; by destruct (Keystore.validate_keystore_filename _)])].
  apply Hsame in H2; [|intros w; unfold init_registries, assign; preserve_with ltac:(apply Hattrs)].
  apply Hsame in H3; [|intros w; apply Hattrs].
  pose proof (mode_reads c kwargs (value_true (arg kwargs "federated_only" (flag false))) s3.2.2 s3 eq_refl) as Hmode. rewrite H4 in Hmode. cbn [snd] in Hmode.
  apply Hsame in H6; [|intros w; unfold init_base, self, assign; preserve_with ltac:(apply Hattrs)].
  destruct (init_files_disk _ _ _ _ Hdev H5) as (root & Hroot & Hf). exists root. split; [done|].
  by rewrite H6, <- H1, <- H2, <- H3, <- Hmode.
Qed.

(** Every live configuration that is made forgets its peers: the files in the
    directories of peers under its root are removed, and no other file of the
    disk is removed, changed or added. *)
Theorem new_configuration_forgets_peers c kwargs (e : env) a e' :
  value_true (arg kwargs "dev_mode" (flag false)) = false -> construct c kwargs e = (Ok a, e') ->
  exists root, py_or (arg kwargs "config_root" null) (P DEFAULT_CONFIG_ROOT) = P root /\ forgets root e.2 e'.2.
Proof.
  intros Hdev H%construct_ok. destruct c; cbn [init] in H.
  - unfold ursula_init in H. destruct (_ && _); [done|].
    apply py_bind_returned in H as ([] & s1 & ->%assigned & H). exact (character_init_disk _ _ _ _ Hdev H).
  - apply py_bind_returned in H as ([] & s1 & H & Ha%assigned). injection Ha as _ ->. exact (character_init_disk _ _ _ _ Hdev H).
  - apply py_bind_returned in H as ([] & s1 & H & Ha%assigned). injection Ha as _ ->. exact (character_init_disk _ _ _ _ Hdev H).
Qed.

End Configurations.
End Configurations.

(** * Witnesses *)

Module ConfigurationsDemo.
Import Config Configurations PowersDemo KeystoreDemo.

(** A node of the main chain; the clock is the rest of the world. *)
#[local] Instance demo_node : Web3Providers N := {|
  make_provider _ _ := py_ret 1;
  is_file_uri _ _ := false;
  client_version _ := py_ret (to_bytes "Geth/v1.10/linux/go");
  endpoint_uri _ := to_bytes "http://node";
  provider_chain_id _ := py_ret 1%Z;
  provider_is_connected _ := py_ret true;
|}.
#[local] Instance demo_prices : Gas.PriceSource N := {|
  Gas.requests_get _ := py_ret (500%Z, JNull);
  Gas.to_wei_gwei _ := Raise TypeError;
  Gas.rpc_gas_price := py_ret 1%Z;
  Gas.web3_gas_price _ := py_ret 90000000000%Z;
  Gas.is_validation_error _ := false;
|}.
#[local] Instance demo_accounts : EthAccounts bytes := {|
  is_address _ := false;
  to_checksum_address _ := Raise ValueError;
  is_checksum_address a := length a =? 42;
  decrypt _ _ := Raise ValueError;
  sign_tx _ _ := Raise TypeError;
  sign_defunct _ _ := Raise TypeError;
|}.
#[local] Instance demo_trezor : Trezor N := {| get_address _ := raise RuntimeError; trezor_sign_message _ _ := raise RuntimeError |}.

Definition home : path := ["home"%string].
Definition known (n : string) : bool := bool_decide (n ∈ ["mainnet"; "bsc_testnet"]%string).
Definition published : list (Registry.source (W := N)) :=
  [Registry.Source None true (fun _ _ => py_ret (to_bytes "[]"))].
(** The first name that is free. *)
Definition mkdtemp : PyM filesystem path := fun fs =>
  match list_find (fun p => path_exists fs p = false) ((fun d => ["tmp"; d]) <$> ["a"; "b"; "c"; "d"; "e"; "f"])%string with
  | Some (_, p) => (mkdir p ;;; py_ret p) fs
  | None => (Raise FileExistsError, fs)
  end.
(** Peers of an earlier run, in the default root and in another. *)
Definition peers (root : path) : path := root ++ ["known_nodes"; "metadata"; "a.node"]%string.
Definition disk : filesystem :=
  put (peers home) [] (put (peers ["srv"%string]) []
    (Filesystem ∅ {[ []; home; ["tmp"]; ["srv"]; parent (peers home); parent (peers ["srv"]) ]}%string)).
Definition start : (Factory.factory (W := N) * N) * filesystem := ((Factory.Factory [] [], 7%N), disk).

Definition make c kwargs := construct (W := N) (Account := bytes) home known published mkdtemp c kwargs start.
Definition generated c kwargs := generate (W := N) (Key := bytes) (Pub := bytes) (Account := bytes)
  home known published mkdtemp c (to_bytes "password") None kwargs start.

Definition alice_kwargs : fields :=
  [field "config_root" (P ["srv"; "alice"]%string); field "eth_provider_uri" (text "https://node");
   field "domain" (text "bsc_testnet"); field "max_gas_price" (J (JNum 50)); field "rate" (J (JNum 7));
   field "registry_filepath" (P ["srv"; "registry.json"]%string)].

Lemma mkdtemp_adds_directories fs r fs' : mkdtemp fs = (r, fs') -> fs'.(regular) = fs.(regular).
Proof.
  unfold mkdtemp. destruct (list_find _ _) as [[i p]|]; [|by intros [= _ <-]].
  unfold py_bind, mkdir. destruct (path_exists fs p); [by intros [= _ <-]|]. destruct (is_dir fs _); by intros [= _ <-].
Qed.

(** What an outcome holds when it is a result, and what it leaves. *)
Definition outcome {S A} (d : A) (x : result A * S) : A * S := (match x.1 with Ok v => v | Raise _ => d end, x.2).

Lemma returned_parts {A B C} (x : result A * (B * C)) v : x.1 = Ok v -> x = (Ok v, (x.2.1, x.2.2)).
Proof. destruct x as [r [b c]]. by intros [= ->]. Qed.

(** Alice of a test chain, saved and restored. *)
Definition alice := outcome [] (make AliceConfiguration alice_kwargs).
#[local] Notation saved := (to_configuration_file AliceConfiguration None [] true (alice.1, alice.2.2)).
Definition file : path := child ["srv"; "alice"]%string (generate_filename AliceConfiguration []).
Definition load (e : _) := from_configuration_file (W := N) (Account := bytes) home known published mkdtemp
  AliceConfiguration (Some file) [] e.
Definition restored := outcome [] (load (alice.2.1, saved.2.2)).
Definition exported : fields :=
  match (static_payload AliceConfiguration (dict_set alice.1 (to_bytes "filepath") (P file))).1 with
  | Ok pl => pl | Raise _ => [] end.

Lemma exported_alice_ok : exportable AliceConfiguration exported.
Proof.
  split; [|split; [|done]].
  - exists (match to_items exported with Ok items => items | Raise _ => [] end). split; vm_compute; reflexivity.
  - intros k v Hk Hv.
    assert (dict_get exported k = None \/ dict_get exported k = Some null \/
            dict_get exported k = Some (P ["srv"; "registry.json"]%string)) as [Hn|[Hn|Hn]].
    + unfold paths_only in Hk. cbn [List.map] in Hk.
      repeat (apply elem_of_cons in Hk as [->|Hk];
        [first [left; vm_compute; reflexivity|right; left; vm_compute; reflexivity|right; right; vm_compute; reflexivity]|]).
      exfalso. by apply elem_of_nil in Hk.
    + rewrite Hn in Hv. discriminate Hv.
    + right. rewrite Hn in Hv. injection Hv as <-. reflexivity.
    + left. exists ["srv"; "registry.json"]%string. rewrite Hn in Hv. split; [|left; injection Hv as <-; reflexivity].
      clear. repeat constructor; try discriminate; apply (bool_decide_unpack _); vm_compute; exact I.
Qed.

Lemma restored_configuration_saves_the_same_witness :
  saved.1 = Ok file /\
  exists content, saved.2.2.(regular) !! file = Some content /\ saved_text AliceConfiguration restored.1 = Ok content /\
    dict_get restored.1 (to_bytes "rate") = Some (J (JNum 7)) /\
    to_json (view_of restored.1 "domain") = Ok (JStr (to_bytes "bsc_testnet")).
Proof.
  assert (made (W := N) (Key := bytes) (Pub := bytes) (Account := bytes) home known published mkdtemp AliceConfiguration
            alice_kwargs start alice.1 alice.2) as Hmade by (left; vm_compute; reflexivity).
  assert (saved.1 = Ok file) as Hs by (vm_compute; reflexivity). split; [exact Hs|].
  destruct (restored_configuration_saves_the_same (W := N) (Key := bytes) (Pub := bytes) (Account := bytes) home known published
    mkdtemp AliceConfiguration alice_kwargs start alice.1 alice.2 None [] true file saved.2.1 saved.2.2 exported alice.2.1
    restored.1 restored.2) as [(content & Hc & Ht) Harg].
  - vm_compute. reflexivity.
  - vm_compute. reflexivity.
  - right. exists 50%Z. by right.
  - exact Hmade.
  - exact (returned_parts saved file Hs).
  - vm_compute. reflexivity.
  - apply exported_alice_ok.
  - vm_compute. reflexivity.
  - exists content. split; [exact Hc|]. split; [exact Ht|]. split; [vm_compute; reflexivity|]. rewrite Harg by (apply (bool_decide_unpack _); vm_compute; exact I). vm_compute. reflexivity.
Defined.

(** The mode and the root of the two configurations below. *)
Definition bob_kwargs : fields := [field "config_root" (P ["srv"]%string); field "federated_only" (flag true)].
Definition is_there (fs : filesystem) (p : path) : bool := bool_decide (is_Some (fs.(regular) !! p)).

Lemma new_configuration_forgets_peers_witness :
  let made := outcome [] (make BobConfiguration bob_kwargs) in
  exists root, py_or (arg bob_kwargs "config_root" null) (P home) = P root /\ forgets root disk made.2.2 /\
    is_there disk (peers ["srv"%string]) = true /\ is_there made.2.2 (peers ["srv"%string]) = false /\
    is_there made.2.2 (peers home) = true.
Proof.
  intros made. destruct (new_configuration_forgets_peers (W := N) (Key := bytes) (Pub := bytes) (Account := bytes) home known published
    mkdtemp mkdtemp_adds_directories BobConfiguration bob_kwargs start made.1 made.2) as (root & Hr & Hf).
  - vm_compute. reflexivity.
  - vm_compute. reflexivity.
  - exists root. split; [exact Hr|]. split; [exact Hf|]. split; [|split]; vm_compute; reflexivity.
Defined.

(** A development configuration has a temporary root, but the peers that it
    forgets are those of the user's own root. *)
Example development_forgets_the_users_peers :
  let made := outcome [] (make BobConfiguration [field "dev_mode" (flag true); field "federated_only" (flag true)]) in
  is_there disk (peers home) = true /\ is_there made.2.2 (peers home) = false /\
  is_there made.2.2 (peers ["srv"%string]) = true.
Proof. split; [|split]; vm_compute; reflexivity. Qed.

(** So does one that is restored, when the root is not written to its file. *)
Example restoring_forgets_the_users_peers :
  is_there alice.2.2 (peers home) = true /\ is_there restored.2.2 (peers home) = false.
Proof. split; vm_compute; reflexivity. Qed.

Lemma federated_configuration_is_offline_witness :
  (make BobConfiguration bob_kwargs).2.1 = start.1.
Proof. apply (federated_configuration_is_offline home known published mkdtemp BobConfiguration bob_kwargs start); vm_compute; reflexivity. Defined.

(** The parameters of the Alice that was made, for a development mode without
    powers. *)
Definition parameters_of_alice := outcome []
  (generate_parameters (Key := bytes) (Pub := bytes) (Cert := bytes) known published AliceConfiguration None []
     (dict_set alice.1 (to_bytes "dev_mode") (flag true), alice.2)).

Lemma parameters_are_accepted_witness :
  to_bytes "payment_method" ∈ parameters_of_alice.1.*1 /\
  to_bytes "payment_method" ∈ character_keywords AliceConfiguration /\
  dict_mem parameters_of_alice.1 (to_bytes "registry_filepath") = false.
Proof.
  assert (to_bytes "payment_method" ∈ parameters_of_alice.1.*1) as Hin by (apply (bool_decide_unpack _); vm_compute; exact I).
  split; [exact Hin|]. split; [|vm_compute; reflexivity].
  apply (parameters_are_accepted (Key := bytes) (Pub := bytes) (Cert := bytes) known published AliceConfiguration None
    (dict_set alice.1 (to_bytes "dev_mode") (flag true), alice.2) parameters_of_alice.2 parameters_of_alice.1); [|exact Hin].
  vm_compute. reflexivity.
Defined.

End ConfigurationsDemo.
